(* ===== verification/_CoqProject ===== *)
-Q . S2P
Prelude.v
Bytes.v
Mem.v
MemSpec.v
Lfs.v
LfsSpec.v
Server.v
ServerSpec.v
CString.v
CStringSpec.v
Proc.v
ProcSpec.v
ProcInv.v
ProcSched.v
Fastsort.v
FastsortSpec.v
Records.v
RecordsSpec.v
Grep.v
GrepSpec.v
Kalloc.v
KallocSpec.v
Vm.v
VmSpec.v
VmFork.v
VmUser.v
VmDemo.v
Clone.v
CloneSpec.v
CloneSched.v
BlockDev.v
Bio.v
BioSpec.v
Fs.v
FsSpec.v
FsPath.v
FsRw.v
FsTree.v
FsDemo.v
Exec.v
ExecSpec.v
ExecFs.v
ExecDemo.v
Pipe.v
PipeSpec.v
File.v
FileSpec.v
FileDemo.v
Sh.v
ShParse.v
ShRun.v
Mysh.v
MyshSpec.v
Umalloc.v
UmallocSpec.v
Console.v
ConsoleSpec.v
Printf.v
PrintfSpec.v
Thread.v
ThreadSpec.v
CloneThread.v
Mkfs.v
MkfsImg.v
MkfsSpec.v
MkfsBoot.v
Mp.v
MpSpec.v
Trap.v
TrapSpec.v
Progs.v
ProgsSpec.v
UserCalls.v
UserCallsSpec.v
UserKernel.v
