(* ===== verification/Prelude.v ===== *)
(** * OS537-Projects: the programs of an operating systems course, verified

    The repository holds seven projects.  Four stand alone: a sorting program
    ([1a]), a shell ([2a]), a region allocator ([3a]) and a log-structured file
    system behind a UDP server ([6]).  Three are xv6 with changes: a stride
    scheduler ([2b]), kernel threads ([4]) and files made of extents ([5]).
    What the xv6 trees have in common is modelled from [src/5/xv6], what a
    project changed from its own tree.

    ** How the model is written

    C is translated into functions of a state monad, [M S A := S -> res (A * S)]
    (below), whose results tell apart what C can do wrong: [Panicked] (the
    kernel's panic), [Undef] (undefined behaviour: an access outside an array, a
    null pointer), [Blocked] (the code sleeps and only another process can wake
    it), [NoFuel] (a loop that has not ended).  Machine integers are [Z], with
    [u32] and [s32] written wherever C wraps or converts.  Code outside the
    repository, hardware included, and whatever a theorem should not depend on
    is a parameter or a class: [KernelOps] (Proc), [BlockOps] and [DevSw]
    (BlockDev, Fs), [FileOps] (Exec), [FileCalls] and [ProcCalls] (Progs), the
    last two with their laws, [FileLaws].  Each class is used by the clients'
    theorems and implemented by another file: the buffer cache implements
    [BlockOps] (FsDemo), the file system [FileOps] (ExecFs), the kernel's
    system calls [FileCalls] (UserCalls), the address spaces what [KernelOps]
    asks of memory (CloneSpec).

    ** The files

    - Bytes: byte strings, ranges of them, little-endian words in place.
    - 1a, [fastsort.c]: Fastsort, FastsortSpec (the output is a sorted
      permutation of the input's records); [generate.c], [dump.c]: Records,
      RecordsSpec (the three programs in a row).
    - 1b, [trap.c], [sys_getcount]: Trap (a trap as the sequence of its
      accesses to shared state and its calls), TrapSpec (what interleaved traps
      count).
    - 2a, [mysh.c]: Mysh, MyshSpec (what a line of words does).
    - 2b, [proc.c], [sysproc.c], [spinlock.c]: Proc is the process table with
      its lock operations, [sleep], [wakeup], [fork], [wait], [exit], [kill] and
      the stride scheduler; a suspended process is the kernel code it will run
      next.  [fork] and [exit] are also cut where a timer interrupt can take the
      processor away ([fork_step], [exit_leave]), and [fork] is proved to be its
      steps.  ProcSpec has what each piece does to the table, ProcInv the
      reachable states and the invariants of parents, pids and waiting,
      ProcSched the choice of the least pass and the fairness of shares.
    - 3a, [libmem.c]: Mem, MemSpec (chunks tile the region; allocation splits a
      worst fit; freeing coalesces; a client's blocks are disjoint as long as no
      request fits exactly, which corrupts the list).
    - 4, [change/]: Thread, ThreadSpec (the spinlock excludes and the threads in
      [counter_inc] count right, in any interleaving of their accesses; [main]
      over that); Clone ([clone], [wait], the scheduler over Proc), CloneThread
      (what [clone] makes, on every branch), CloneSpec (runs where reaping an
      orphaned thread frees an address space twice and where two threads that
      grow panic the kernel); CloneSched (its round-robin scheduler keeps nobody
      waiting longer than one tour of the table).
    - 5, boot tables: Mp ([mp.c]), MpSpec (the search finds the first structure,
      the loop over the entries reads the table or never ends).
    - 5, memory: Kalloc, KallocSpec ([kalloc.c]: pages are shared out between
      the free list and their users); Vm ([vm.c]); VmSpec (page tables against a
      map from pages to entries), VmFork ([setupkvm], [freevm], [copyuvm]),
      VmUser (the bytes a process sees), VmDemo (concrete spaces);
      Umalloc, UmallocSpec ([umalloc.c] and [sbrk]: the free ring and the blocks
      held share out the heap).
    - 5, disk and files: Bio, BioSpec ([bio.c], [ide.c]: the cache is
      transparent); BlockDev (the interface between the two); Fs ([fs.c]);
      FsSpec (the bitmap, the extents), FsRw ([readi] after [writei]), FsPath
      ([skipelem], [namex]), FsDemo, FsTree (what [namei] finds
      among the files of a volume, through the inode cache and directories);
      Exec ([exec.c], [loaduvm]); ExecSpec, ExecFs, ExecDemo; Mkfs ([mkfs.c]),
      MkfsImg (what one append does to the files of an image), MkfsSpec (the
      image holds the host's directory), MkfsBoot (the kernel reads it back).
    - 5, descriptors: Pipe, PipeSpec ([pipe.c]: a bounded queue, no lost
      wakeup); File ([file.c], [sysfile.c], [syscall.c]); FileSpec (reference
      counts match the descriptors), FileDemo (all the layers composed).
    - 5, console: Console ([console.c] with [kbd.c], [kbd.h], [uart.c]),
      ConsoleSpec (the ring of typed characters is a line editor; readers get
      the lines).
    - 5, programs: Printf, PrintfSpec ([printf.c], the kernel's [cprintf],
      [atoi], the counting of [wc]: numbers printed read back, the two printers
      agree); Progs (the programs [cat], [wc], [grep], [echo], [ls], [stat],
      [ln], [rm], [mkdir], [kill], [init], [zombie] over the system calls),
      ProgsSpec (what they print, by the laws of the calls alone), UserCalls,
      UserCallsSpec (the kernel of File and Fs, entered through a frame on the
      user stack, keeps those laws), UserKernel (the two composed, and a machine
      where they run); Sh ([sh.c], part of [ulib.c]); ShParse (the parser ends, and
      inverts printing), ShRun (the tree of system calls does what the command
      means); Grep, GrepSpec ([grep.c]: the matcher decides the language of its
      pattern); CString, CStringSpec ([string.c]).
    - 6: Lfs ([libfsi.c]); LfsSpec (encodings, mount, crash atomicity, the
      operations against abstract files); Server ([server.c], [libmfs.c], with
      the lines they print of each message), ServerSpec.

    ** What the theorems show

    Allocators (Mem, Kalloc, Umalloc): what is handed out is disjoint, nothing
    is lost, free neighbours are joined.  File systems (Lfs, Fs): reads return
    what was written, operations change what they should and nothing else,
    crashes of Lfs fall back to the state before.  Concurrency (Proc, Pipe,
    Thread, Trap): invariants of every run of the steps modelled, no lost
    wakeups, mutual exclusion, bounds on counts; shares and waiting times of the
    two schedulers, for processes that only run and yield.  Programs (Exec, Sh, Mysh, Grep,
    Fastsort, Progs): the functional contract.  Compositions: the kernel reads
    what [mkfs] wrote (MkfsBoot), the programs print what is on the disk
    (UserKernel).  Where the code breaks its contract a
    theorem shows the run that does: an exact fit of [Mem_Alloc], a full extent
    of [bmap], an orphaned thread, a killed writer of a pipe, an idle scheduler.

    ** Fuel

    A loop whose bound is not structural takes fuel computed from the state:
    the number of units of the heap for the searches of [free] and twice that
    for [malloc] (the ring has no more blocks than there are units), the length
    of a path for [namex], of a line for the shell's tokens, the count of blocks
    or pages left to do for the loops over them.  Theorems that speak of a
    result prove there is one, so enough fuel is part of the claim.  Loops that
    do not end by design (schedulers, servers, the shell) run over the list of
    the events that reach them.

    ** Not modelled

    Boot and hardware ([bootmain.c], [main.c], [lapic.c], [ioapic.c],
    [picirq.c], [timer.c], [5]'s [trap.c], assembly): device registers and
    processor state with no data to reason about.  Test programs
    ([usertests.c], [forktest.c], [stressfs.c], project 3a's and 6's drivers),
    drafts the Makefiles do not build ([3a/mem.c], [3a/temp.c], [6/fsi.c]), and
    the socket calls of [6/udp.c].  The trees [1b] and [2b] hold
    copies of files of [5] that are the same or older; they are not modelled
    again.  The models are of one processor.  Kernel code runs undisturbed between
    the points where it sleeps, with these exceptions: in ProcInv a process can
    lose the processor wherever the code of [proc.c] has interrupts on, in
    [fork] and [exit] too; in PipeSpec calls on one pipe interleave where they
    sleep (its lock is held in between) and may be killed; in TrapSpec traps
    interleave at their accesses to shared state; in ThreadSpec, user code, threads
    interleave at their accesses to the lock and the counter, and nothing is said
    of what they do outside [counter_inc] ([malloc] and [free] on a heap that
    nothing protects).  Of what the programs of 6 print, the library's tracing is
    left out. *)
From Stdlib Require Export ZArith Lia.
From stdpp Require Export numbers gmap fin_maps strings.
From stdpp Require Export list list_basics list_relations list_misc list_monad.
#[global] Open Scope Z_scope.

(** ** Machine integers *)

(** The value of a C [unsigned int] (32 bits) after wrap-around. *)
Definition u32 (z : Z) : Z := z mod 2 ^ 32.

(** The value of a C [int] (32 bits, two's complement) after conversion. *)
Definition s32 (z : Z) : Z := (z + 2 ^ 31) mod 2 ^ 32 - 2 ^ 31.

Definition in_u32 (z : Z) : Prop := 0 <= z < 2 ^ 32.
Definition in_s32 (z : Z) : Prop := - 2 ^ 31 <= z < 2 ^ 31.

Lemma u32_small z : in_u32 z -> u32 z = z.
Proof. intros H. unfold u32. apply Z.mod_small. exact H. Qed.

Lemma s32_small z : in_s32 z -> s32 z = z.
Proof. unfold in_s32, s32. intros H. rewrite Z.mod_small; lia. Qed.

Lemma u32_range z : in_u32 (u32 z).
Proof. unfold u32, in_u32. apply Z.mod_pos_bound. lia. Qed.

Lemma s32_range z : in_s32 (s32 z).
Proof. unfold s32, in_s32. pose proof (Z.mod_pos_bound (z + 2 ^ 31) (2 ^ 32)). lia. Qed.

Lemma u32_idemp z : u32 (u32 z) = u32 z.
Proof. apply u32_small, u32_range. Qed.

Lemma u32_add_l a b : u32 (u32 a + b) = u32 (a + b).
Proof. unfold u32. rewrite Zplus_mod_idemp_l. reflexivity. Qed.

Lemma u32_add_r a b : u32 (a + u32 b) = u32 (a + b).
Proof. unfold u32. rewrite Zplus_mod_idemp_r. reflexivity. Qed.

Lemma u32_sub_l a b : u32 (u32 a - b) = u32 (a - b).
Proof. unfold u32. rewrite Zminus_mod_idemp_l. reflexivity. Qed.

Lemma u32_sub_r a b : u32 (a - u32 b) = u32 (a - b).
Proof. unfold u32. rewrite Zminus_mod_idemp_r. reflexivity. Qed.

Lemma s32_u32 z : s32 (u32 z) = s32 z.
Proof. unfold s32, u32. by rewrite Zplus_mod_idemp_l. Qed.

Lemma u32_s32 z : u32 (s32 z) = u32 z.
Proof.
  unfold u32, s32. rewrite Zminus_mod_idemp_l. f_equal. lia.
Qed.

(** ** Outcomes of C code

    A call returns, ends in the program's own [panic] or [exit], performs an
    operation C leaves undefined (a null dereference, an access outside an
    object, a read of an uninitialised variable), goes to sleep on a channel
    that nobody but another process can signal, or needs more steps than the
    model was given. *)
Inductive res (A : Type) : Type :=
  | Ret (a : A)
  | Panicked (msg : string)
  | Undef (why : string)
  | Blocked (chan : Z)
  | NoFuel.
Arguments Ret {A} a.
Arguments Panicked {A} msg.
Arguments Undef {A} why.
Arguments Blocked {A} chan.
Arguments NoFuel {A}.

(** A stateful C function from [S] to a result and a new state. *)
Definition M (S A : Type) : Type := S -> res (A * S).

#[global] Instance M_ret (S : Type) : MRet (M S) :=
  fun A a s => Ret (a, s).

#[global] Instance M_bind (S : Type) : MBind (M S) :=
  fun A B k m s =>
    match m s with
    | Ret (a, s') => k a s'
    | Panicked msg => Panicked msg
    | Undef why => Undef why
    | Blocked c => Blocked c
    | NoFuel => NoFuel
    end.

Section Monad.
Context {S : Type}.

Definition get : M S S := fun s => Ret (s, s).
Definition put (s : S) : M S unit := fun _ => Ret (tt, s).
Definition modify (f : S -> S) : M S unit := fun s => Ret (tt, f s).
Definition gets {A} (f : S -> A) : M S A := fun s => Ret (f s, s).
Definition panic {A} (msg : string) : M S A := fun _ => Panicked msg.
Definition undef {A} (why : string) : M S A := fun _ => Undef why.
Definition blocked {A} (c : Z) : M S A := fun _ => Blocked c.
Definition no_fuel {A} : M S A := fun _ => NoFuel.

(** Reading an object that may be absent. *)
Definition deref {A} (why : string) (o : option A) : M S A :=
  match o with
  | Some a => mret a
  | None => undef why
  end.

Lemma bind_Ret {A B} (m : M S A) (k : A -> M S B) s a s' :
  m s = Ret (a, s') -> (m ≫= k) s = k a s'.
Proof. intros H. unfold mbind, M_bind. rewrite H. reflexivity. Qed.

Lemma bind_inv {A B} (m : M S A) (k : A -> M S B) s b s' :
  (m ≫= k) s = Ret (b, s') ->
  exists a s1, m s = Ret (a, s1) /\ k a s1 = Ret (b, s').
Proof.
  unfold mbind, M_bind. intros H.
  destruct (m s) as [[a s1]|?|?|?|] eqn:E; try discriminate.
  eauto.
Qed.

Lemma bind_assoc {A B C} (m : M S A) (f : A -> M S B) (g : B -> M S C) s :
  ((m ≫= f) ≫= g) s = (m ≫= (fun a => f a ≫= g)) s.
Proof. unfold mbind, M_bind. destruct (m s) as [[]| | | |]; reflexivity. Qed.

Lemma bind_get {A} (k : S -> M S A) s : (get ≫= k) s = k s s.
Proof. reflexivity. Qed.
Lemma bind_put {A} (k : unit -> M S A) s s' : (put s' ≫= k) s = k tt s'.
Proof. reflexivity. Qed.
Lemma bind_modify {A} (k : unit -> M S A) f s : (modify f ≫= k) s = k tt (f s).
Proof. reflexivity. Qed.
Lemma bind_mret {A B} (a : A) (k : A -> M S B) s : (mret a ≫= k) s = k a s.
Proof. reflexivity. Qed.
Lemma bind_deref {A B} why (a : A) (k : A -> M S B) s : (deref why (Some a) ≫= k) s = k a s.
Proof. reflexivity. Qed.
End Monad.

(** Run the head of a monadic body when it is one of the basic actions. *)
Ltac mnext :=
  first [ rewrite bind_get | rewrite bind_modify | rewrite bind_put | rewrite bind_mret
        | rewrite bind_deref | rewrite bind_assoc ]; cbv beta.

(** Step through a monadic body whose first action is known to return. *)
Ltac mstep H := erewrite (bind_Ret _ _ _ _ _ H).
Ltac mrun := unfold mbind, M_bind, mret, M_ret, get, put, modify, gets, panic, undef, blocked, no_fuel, deref in *.

(** ** Total correctness

    [wp m Q s]: run from [s], [m] returns, and [Q] holds of its value and of
    the state it leaves. *)
Definition wp {S A} (m : M S A) (Q : A -> S -> Prop) (s : S) : Prop :=
  match m s with Ret (a, s') => Q a s' | _ => False end.

Section Wp.
Context {S : Type}.

Lemma wp_iff {A} (m : M S A) Q s : wp m Q s <-> exists a s', m s = Ret (a, s') /\ Q a s'.
Proof.
  unfold wp. split; [|by intros (a & s' & -> & H)].
  destruct (m s) as [[a s']| | | |]; try done. eauto.
Qed.

Lemma wp_mono {A} (m : M S A) (Q Q' : A -> S -> Prop) s :
  wp m Q s -> (forall a s', Q a s' -> Q' a s') -> wp m Q' s.
Proof. unfold wp. destruct (m s) as [[a s']| | | |]; auto. Qed.

Lemma wp_bind {A B} (m : M S A) (k : A -> M S B) Q s :
  wp m (fun a s' => wp (k a) Q s') s -> wp (m ≫= k) Q s.
Proof. unfold wp, mbind, M_bind. destruct (m s) as [[a s']| | | |]; auto. Qed.

Lemma wp_bind_use {A B} (m : M S A) (k : A -> M S B) R Q s :
  wp m R s -> (forall a s', R a s' -> wp (k a) Q s') -> wp (m ≫= k) Q s.
Proof. intros H1 H2. apply wp_bind. eapply wp_mono; eauto. Qed.

Lemma wp_ret {A} (a : A) (Q : A -> S -> Prop) s : Q a s -> wp (mret a) Q s.
Proof. auto. Qed.
Lemma wp_get (Q : S -> S -> Prop) s : Q s s -> wp get Q s.
Proof. auto. Qed.
Lemma wp_modify f (Q : unit -> S -> Prop) s : Q tt (f s) -> wp (modify f) Q s.
Proof. auto. Qed.
Lemma wp_deref {A} why (a : A) (Q : A -> S -> Prop) s : Q a s -> wp (deref why (Some a)) Q s.
Proof. auto. Qed.
End Wp.

(** ** Lists indexed by [Z] *)

Section ZList.
Context {A : Type}.
Implicit Types (l : list A) (i : Z).

Definition zget l i : option A := if bool_decide (i < 0) then None else l !! Z.to_nat i.
Definition zset l i (a : A) : list A := if bool_decide (i < 0) then l else <[Z.to_nat i := a]> l.
Definition zlen l : Z := Z.of_nat (length l).

Lemma zget_Some_range l i a : zget l i = Some a -> 0 <= i < zlen l.
Proof.
  unfold zget, zlen. case_bool_decide; [done|]. intros ?%lookup_lt_Some. lia.
Qed.

Lemma zget_range l i : 0 <= i < zlen l -> is_Some (zget l i).
Proof.
  unfold zget, zlen. intros H. rewrite bool_decide_false by lia.
  apply lookup_lt_is_Some. lia.
Qed.

Lemma zget_zset_eq l i a : 0 <= i < zlen l -> zget (zset l i a) i = Some a.
Proof.
  unfold zget, zset, zlen. intros H. rewrite !bool_decide_false by lia.
  apply list_lookup_insert_eq. lia.
Qed.

Lemma zget_zset_ne l i j a : i <> j -> zget (zset l i a) j = zget l j.
Proof.
  unfold zget, zset. intros H. repeat case_bool_decide; try done.
  apply list_lookup_insert_ne. lia.
Qed.

Lemma zlen_zset l i a : zlen (zset l i a) = zlen l.
Proof. unfold zlen, zset. case_bool_decide; [done|]. by rewrite length_insert. Qed.

Lemma length_zset l i a : length (zset l i a) = length l.
Proof. unfold zset. case_bool_decide; [done|]. apply length_insert. Qed.

Lemma zset_zset l i a b : zset (zset l i a) i b = zset l i b.
Proof. unfold zset. case_bool_decide; [done|]. apply list_insert_insert_eq. Qed.

Lemma zset_id l i a : zget l i = Some a -> zset l i a = l.
Proof. unfold zget, zset. case_bool_decide; [done|]. apply list_insert_id. Qed.

Lemma zlen_app l1 l2 : zlen (l1 ++ l2) = zlen l1 + zlen l2.
Proof. unfold zlen. rewrite length_app. lia. Qed.

Lemma zlen_nonneg l : 0 <= zlen l.
Proof. unfold zlen. lia. Qed.

Lemma zget_elem_of l i a : zget l i = Some a -> a ∈ l.
Proof. unfold zget. case_bool_decide; [done|]. apply list_elem_of_lookup_2. Qed.

Lemma zget_forallb (f : A -> bool) l i a : forallb f l = true -> zget l i = Some a -> f a = true.
Proof. rewrite forallb_forall. intros H ?%zget_elem_of%list_elem_of_In. by apply H. Qed.

Lemma zget_None l i : i < 0 \/ zlen l <= i <-> zget l i = None.
Proof.
  unfold zget, zlen. case_bool_decide; [split; [done|lia]|].
  rewrite lookup_ge_None. lia.
Qed.

Lemma zget_app_l l1 l2 i : i < zlen l1 -> zget (l1 ++ l2) i = zget l1 i.
Proof. unfold zget, zlen. intros H. case_bool_decide; [done|]. apply lookup_app_l. lia. Qed.

Lemma zget_app_r l1 l2 i : zlen l1 <= i -> zget (l1 ++ l2) i = zget l2 (i - zlen l1).
Proof.
  unfold zget, zlen. intros H. rewrite !bool_decide_false by lia.
  rewrite lookup_app_r by lia. f_equal. lia.
Qed.

Lemma zlist_eq l1 l2 : (forall i, zget l1 i = zget l2 i) -> l1 = l2.
Proof.
  intros H. apply list_eq. intros n. specialize (H (Z.of_nat n)). unfold zget in H.
  rewrite bool_decide_false, Nat2Z.id in H by lia. exact H.
Qed.
End ZList.

Lemma zget_fmap {A B} (g : A -> B) l i : zget (g <$> l) i = g <$> zget l i.
Proof. unfold zget. case_bool_decide; [done|]. apply list_lookup_fmap. Qed.

Lemma fmap_zset {A B} (g : A -> B) l i (v : A) : g <$> zset l i v = zset (g <$> l) i (g v).
Proof. unfold zset. case_bool_decide; [done|]. apply list_fmap_insert. Qed.

Create HintDb cint.
Create Rewrite HintDb zlist.
#[export] Hint Resolve u32_small s32_small u32_range s32_range : cint.
#[export] Hint Rewrite @zlen_zset @zlen_app : zlist.

(** Characters of a string literal as bytes. *)
Definition bytes (s : string) : list Z :=
  (fun a => Z.of_nat (Ascii.nat_of_ascii a)) <$> String.list_ascii_of_string s.
