(* ===== verification/Bytes.v ===== *)
(** Byte strings: ranges, overwriting a range, little-endian integers in place. *)
From S2P Require Import Prelude.

(** [lia] for goals with division by constants. *)
Ltac dlia := Z.to_euclidean_division_equations; lia.

(** Bytes [off .. off + n) of a string, and the string with bytes replaced. *)
Definition part (off n : Z) (d : list Z) : list Z := take (Z.to_nat n) (drop (Z.to_nat off) d).
Definition splice (off : Z) (x d : list Z) : list Z :=
  take (Z.to_nat off) d ++ x ++ drop (Z.to_nat off + length x) d.

(** Little-endian integers of [n] bytes. *)
Fixpoint le (l : list Z) : Z := match l with [] => 0 | b :: l => b + 256 * le l end.
Fixpoint to_le (n : nat) (v : Z) : list Z :=
  match n with O => [] | S n => v mod 256 :: to_le n (v / 256) end.
Definition word (d : list Z) (off : Z) : Z := le (part off 4 d).
Definition half (d : list Z) (off : Z) : Z := le (part off 2 d).
Definition s16 (z : Z) : Z := (z + 2 ^ 15) mod 2 ^ 16 - 2 ^ 15.


Section Bytes.
Implicit Types (x y d : list Z).

Lemma part_lookup o m x k : (k < Z.to_nat m)%nat -> part o m x !! k = x !! (Z.to_nat o + k)%nat.
Proof. intros Hk. unfold part. rewrite lookup_take_lt by done. by rewrite lookup_drop. Qed.

Lemma part_part k n o m x : 0 <= k -> 0 <= n -> k + n <= m -> 0 <= o -> part k n (part o m x) = part (o + k) n x.
Proof.
  intros Hk Hn Hm Ho. unfold part. rewrite skipn_firstn_comm, drop_drop, take_take. f_equal; [lia|]. f_equal. lia.
Qed.
Lemma part_length o m x : 0 <= o -> 0 <= m -> o + m <= zlen x -> zlen (part o m x) = m.
Proof. unfold part, zlen. intros Ho Hm Hl. rewrite length_take, length_drop. lia. Qed.

Lemma part_mid (a b c : list Z) : part (zlen a) (zlen b) (a ++ b ++ c) = b.
Proof. unfold part, zlen. rewrite !Nat2Z.id, drop_app_length. apply take_app_length. Qed.
Lemma splice_mid (a b c y : list Z) : length y = length b -> splice (zlen a) y (a ++ b ++ c) = a ++ y ++ c.
Proof.
  intros E. unfold splice, zlen. rewrite Nat2Z.id, take_app_length. do 2 f_equal. rewrite E, app_assoc, <- length_app. apply drop_app_length.
Qed.

Lemma splice_lookup o y x k :
  (o + length y <= length x)%nat ->
  splice (Z.of_nat o) y x !! k = if decide (o <= k < o + length y)%nat then y !! (k - o)%nat else x !! k.
Proof.
  intros Hl. unfold splice. rewrite Nat2Z.id. rewrite lookup_app.
  destruct (decide (k < o)%nat) as [L|G].
  - rewrite lookup_take_lt, decide_False by lia. destruct (x !! k) eqn:E; [done|]. apply lookup_ge_None in E. lia.
  - rewrite (lookup_ge_None_2 (take o x)) by (rewrite length_take; lia). rewrite length_take, Nat.min_l by lia.
    rewrite lookup_app. destruct (decide (o <= k < o + length y)%nat) as [I|O].
    + destruct (y !! (k - o)%nat) eqn:E; [done|]. apply lookup_ge_None in E. lia.
    + rewrite (lookup_ge_None_2 y) by lia. rewrite lookup_drop. f_equal. lia.
Qed.

Lemma splice_length o y x : (o + length y <= length x)%nat -> length (splice (Z.of_nat o) y x) = length x.
Proof. intros Hl. unfold splice. rewrite Nat2Z.id, !length_app, length_take, length_drop. lia. Qed.

Lemma part_splice_eq o y x : 0 <= o -> o + zlen y <= zlen x -> part o (zlen y) (splice o y x) = y.
Proof.
  intros Ho Hl. unfold part, splice, zlen in *. rewrite Nat2Z.id.
  rewrite drop_app_length' by (rewrite length_take; lia). by rewrite take_app_length.
Qed.

Lemma part_splice_ne o n p y x : 0 <= o -> 0 <= p -> 0 <= n -> p + zlen y <= zlen x -> o + n <= p \/ p + zlen y <= o ->
  part o n (splice p y x) = part o n x.
Proof.
  intros Ho Hp Hn Hl Hd. apply list_eq. intros k. destruct (decide (k < Z.to_nat n)%nat) as [Hk|Hk].
  - rewrite !part_lookup by done. replace p with (Z.of_nat (Z.to_nat p)) by lia. unfold zlen in *.
    rewrite splice_lookup by lia. apply decide_False. lia.
  - rewrite !lookup_ge_None_2; [done|unfold part; rewrite length_take; lia..].
Qed.

Lemma le_to_le n v : 0 <= v < 256 ^ Z.of_nat n -> le (to_le n v) = v.
Proof.
  revert v. induction n as [|n IH]; intros v Hv; [cbn in *; lia|]. cbn [to_le le].
  rewrite IH; [pose proof (Z.div_mod v 256); lia|]. rewrite Nat2Z.inj_succ, Z.pow_succ_r in Hv by lia.
  split; [apply Z.div_pos; lia|apply Z.div_lt_upper_bound; lia].
Qed.
Lemma length_to_le n v : length (to_le n v) = n.
Proof. revert v. induction n as [|n IH]; intros v; cbn; [done|]. by rewrite IH. Qed.

Lemma word_splice_eq o v x : 0 <= o -> o + 4 <= zlen x -> in_u32 v -> word (splice o (to_le 4 v) x) o = v.
Proof.
  intros Ho Hl Hv. unfold word. replace 4 with (zlen (to_le 4 v)) at 1 by (unfold zlen; by rewrite length_to_le).
  rewrite part_splice_eq; [|done|unfold zlen in *; rewrite length_to_le; lia]. apply le_to_le. exact Hv.
Qed.

Lemma word_splice_ne o p v x : 0 <= o -> 0 <= p -> p + 4 <= zlen x -> o + 4 <= p \/ p + 4 <= o ->
  word (splice p (to_le 4 v) x) o = word x o.
Proof. intros. unfold word. rewrite part_splice_ne; [done|lia..| |]; unfold zlen in *; rewrite length_to_le; lia. Qed.

Lemma zlen_splice o y x : 0 <= o -> o + zlen y <= zlen x -> zlen (splice o y x) = zlen x.
Proof.
  intros Ho Hl. unfold zlen in *. replace o with (Z.of_nat (Z.to_nat o)) by lia. rewrite splice_length by lia. done.
Qed.

Lemma zlen_word_splice o v x : 0 <= o -> o + 4 <= zlen x -> zlen (splice o (to_le 4 v) x) = zlen x.
Proof. intros. apply zlen_splice; [done|]. unfold zlen in *. by rewrite length_to_le. Qed.

Lemma word_replicate n o : 0 <= o -> o + 4 <= Z.of_nat n -> word (replicate n 0) o = 0.
Proof.
  intros Ho Hl. unfold word. assert (E : part o 4 (replicate n 0) = replicate 4 0); [|by rewrite E].
  unfold part. rewrite drop_replicate, take_replicate. f_equal. lia.
Qed.
(** Whatever the number, its low bytes. *)
Lemma le_to_le_mod n v : le (to_le n v) = v mod 256 ^ Z.of_nat n.
Proof.
  revert v. induction n as [|n IH]; intros v; [by rewrite Z.mod_1_r|]. cbn [to_le le]. rewrite IH, Nat2Z.inj_succ, Z.pow_succ_r by lia. by rewrite Z.rem_mul_r by lia.
Qed.

Definition byte_ok (b : Z) : Prop := 0 <= b < 256.
Lemma le_range l : Forall byte_ok l -> 0 <= le l < 256 ^ zlen l.
Proof.
  induction 1 as [|b l Hb _ IH]; [done|]. unfold byte_ok, zlen in *. cbn [le length]. rewrite Nat2Z.inj_succ, Z.pow_succ_r by lia. lia.
Qed.
Lemma word_range x o : Forall byte_ok x -> in_u32 (word x o).
Proof.
  intros Hx. unfold word, in_u32. assert (Hp : Forall byte_ok (part o 4 x)) by (apply Forall_take, Forall_drop, Hx).
  pose proof (le_range _ Hp) as Hr. assert (zlen (part o 4 x) <= 4) by (unfold zlen, part; rewrite length_take; lia).
  pose proof (Z.pow_le_mono_r 256 (zlen (part o 4 x)) 4). lia.
Qed.

Lemma zlen_to_le n v : zlen (to_le n v) = Z.of_nat n.
Proof. unfold zlen. by rewrite length_to_le. Qed.
Lemma zlen_join l : zlen (mjoin (to_le 4 <$> l)) = 4 * zlen l.
Proof.
  induction l as [|v l IH]; [done|]. change (mjoin (to_le 4 <$> v :: l)) with (to_le 4 v ++ mjoin (to_le 4 <$> l)). rewrite zlen_app, IH, zlen_to_le. unfold zlen. cbn [length]. lia.
Qed.
Lemma zlen_join_map {A} (f : A -> Z) (l : list A) : zlen (mjoin ((fun a => to_le 4 (f a)) <$> l)) = 4 * zlen l.
Proof. change (fun a => to_le 4 (f a)) with (to_le 4 ∘ f). rewrite list_fmap_compose, zlen_join. unfold zlen. by rewrite length_fmap. Qed.
End Bytes.
