(* ===== verification/Mem.v ===== *)
(** The region allocator of project 3a ([src/3a/libmem.c]): a worst-fit free
    list threaded through the chunk headers of one mmap'ed region.

    The heap is a finite map from header addresses to [struct Node]; a header
    that was never written reads as zeros (the pages are anonymous).  Pointers
    and [int] are 32 bits wide (ILP32), so a [struct Node] takes 8 bytes and
    headers at distinct multiples of 8 do not overlap. *)
From S2P Require Import Prelude.

Module Mem.

(** [struct Node] *)
Record Node := mkNode { size : Z; next : Z }.

(** The file's globals, and the memory: [region] is the mapped range
    [(base, length)], empty before [Mem_Init]. *)
Record mstate := mkM {
  heap : gmap Z Node;
  region : Z * Z;
  headFree : Z;
  listPrev : Z;
  init : Z;
  m_error : Z
}.

Definition set_heap (f : gmap Z Node -> gmap Z Node) (s : mstate) : mstate :=
  mkM (f (heap s)) (region s) (headFree s) (listPrev s) (init s) (m_error s).
Definition set_headFree (p : Z) (s : mstate) : mstate :=
  mkM (heap s) (region s) p (listPrev s) (init s) (m_error s).
Definition set_listPrev (p : Z) (s : mstate) : mstate :=
  mkM (heap s) (region s) (headFree s) p (init s) (m_error s).
Definition set_error (e : Z) (s : mstate) : mstate :=
  mkM (heap s) (region s) (headFree s) (listPrev s) (init s) e.

Definition NULL : Z := 0.
Definition sizeof_Node : Z := 8.
Definition E_NO_SPACE : Z := 1.
Definition E_BAD_ARGS : Z := 4.

Definition initial : mstate := mkM ∅ (0, 0) NULL NULL 1 0.

(** A header access at [a] is defined inside the mapped region. *)
Definition mapped (s : mstate) (a : Z) : bool :=
  bool_decide (a <> NULL) && (fst (region s) <=? a)
  && (a + sizeof_Node <=? fst (region s) + snd (region s)).

Definition node_at (h : gmap Z Node) (a : Z) : Node := default (mkNode 0 0) (h !! a).

Definition load (a : Z) : M mstate Node := fun s =>
  if mapped s a then Ret (node_at (heap s) a, s) else Undef "invalid node pointer".
Definition store_size (a v : Z) : M mstate unit := fun s =>
  if mapped s a
  then Ret (tt, set_heap (fun h => <[a := mkNode v (next (node_at h a))]> h) s)
  else Undef "invalid node pointer".
Definition store_next (a v : Z) : M mstate unit := fun s =>
  if mapped s a
  then Ret (tt, set_heap (fun h => <[a := mkNode (size (node_at h a)) v]> h) s)
  else Undef "invalid node pointer".

(** [addSizeToNode]: byte-wise pointer addition. *)
Definition addSizeToNode (node val : Z) : Z := node + val.

(** [Mem_Init]; [mmap] is the system's answer for a request of that many
    bytes, [None] for [MAP_FAILED] (the function then calls [exit(1)]). *)
Definition Mem_Init (pagesize : Z) (mmap : Z -> option Z) (sizeOfRegion : Z) : M mstate Z :=
  s ← get;
  if (sizeOfRegion <=? 0) || (init s =? 0) then
    modify (set_error E_BAD_ARGS);; mret (-1)
  else
    let sizeOfRegion :=
      if negb (Z.rem sizeOfRegion pagesize =? 0)
      then s32 (sizeOfRegion + (sizeOfRegion - Z.rem sizeOfRegion pagesize))
      else sizeOfRegion in
    match mmap sizeOfRegion with
    | None => panic "exit(1)"
    | Some ptr =>
        modify (fun s => mkM (heap s) (ptr, sizeOfRegion) (headFree s) (listPrev s) (init s) (m_error s));;
        store_size ptr sizeOfRegion;;
        store_next ptr NULL;;
        modify (set_headFree ptr);;
        modify (fun s => mkM (heap s) (region s) (headFree s) (listPrev s) 0 (m_error s));;
        mret 0
    end.

(** The bytes [chunkNode] takes for a request of [size] bytes: the request
    rounded up to a multiple of 8, plus the header. *)
Definition chunk_size (size : Z) : Z :=
  if Z.rem size 8 =? 0 then s32 (size + sizeof_Node)
  else s32 ((Z.quot size 8 + 1) * 8 + sizeof_Node).

Definition chunkNode (node size0 : Z) : M mstate Z :=
  let newNode := node in
  let sz := chunk_size size0 in
  nd ← load node;
  let sizeOfRegion := size nd in
  let nxt := next nd in
  let node := addSizeToNode node sz in
  store_size node (s32 (sizeOfRegion - sz));;
  nd ← load node;
  s ← get;
  (if (size nd =? 0) && negb (listPrev s =? NULL) then
     store_next (listPrev s) nxt
   else if (size nd =? 0) && (listPrev s =? NULL) then
     modify (set_headFree NULL)
   else
     (if negb (listPrev s =? NULL) then store_next (listPrev s) node else mret tt);;
     store_next node nxt);;
  s ← get;
  (if headFree s =? newNode then modify (set_headFree node) else mret tt);;
  store_size newNode sz;;
  store_next newNode NULL;;
  mret (newNode + sizeof_Node).

(** The scan of [getWorstFit]: remembers the first largest node and, in the
    global [listPrev], its predecessor. *)
Fixpoint worst_loop (fuel : nat) (worst node prev : Z) : M mstate Z :=
  match fuel with
  | O => no_fuel
  | S fuel =>
      if node =? NULL then mret worst
      else
        nd ← load node;
        better ← (if worst =? NULL then mret true
                  else (w ← load worst; mret (bool_decide (size nd > size w))));
        worst ← (if (better : bool) then (modify (set_listPrev prev);; mret node) else mret worst);
        worst_loop fuel worst (next nd) node
  end.

Definition getWorstFit (fuel : nat) (sz : Z) : M mstate Z :=
  s ← get;
  worst ← worst_loop fuel NULL (headFree s) NULL;
  w ← load worst;
  mret (if u32 (sz + sizeof_Node) <=? u32 (size w) then worst else NULL).

Definition Mem_Alloc (fuel : nat) (sz : Z) : M mstate Z :=
  worstFit ← getWorstFit fuel sz;
  if worstFit =? NULL then
    modify (set_error E_NO_SPACE);; mret NULL
  else chunkNode worstFit sz.

(** The scan of [findNeighborNode]. The result is [inl p] when the code
    returns [p] from inside the loop and [inr (node, coalesced)] when the loop
    ends. *)
Fixpoint neighbor_loop (fuel : nat) (node curr prev : Z) (coalesced : bool) :
    M mstate (Z + Z * bool) :=
  match fuel with
  | O => no_fuel
  | S fuel =>
      if curr =? NULL then mret (inr (node, coalesced))
      else
        c ← load curr;
        n ← load node;
        s ← get;
        if node =? addSizeToNode curr (size c) then
          store_size curr (s32 (size c + size n));;
          if negb coalesced then
            '(node, curr) ←
              (if negb (curr =? headFree s) then
                 store_next prev (next c);;
                 store_next curr (headFree s);;
                 modify (set_headFree curr);;
                 mret (curr, prev)
               else mret (curr, curr));
            c ← load curr;
            neighbor_loop fuel node (next c) curr true
          else
            store_next prev (next c);;
            n ← load node;
            store_next curr (next n);;
            modify (set_headFree curr);;
            mret (inl curr)
        else if curr =? addSizeToNode node (size n) then
          store_size node (s32 (size n + size c));;
          if negb coalesced then
            curr ←
              (if negb (curr =? headFree s) then
                 store_next prev (next c);;
                 store_next node (headFree s);;
                 modify (set_headFree node);;
                 mret prev
               else
                 store_next node (next c);;
                 modify (set_headFree node);;
                 mret node);
            c ← load curr;
            neighbor_loop fuel node (next c) curr true
          else
            store_next prev (next c);;
            mret (inl node)
        else neighbor_loop fuel node (next c) curr coalesced
  end.

Definition findNeighborNode (fuel : nat) (node : Z) : M mstate Z :=
  s ← get;
  r ← neighbor_loop fuel node (headFree s) NULL false;
  match r with
  | inl p => mret p
  | inr (node, coalesced) =>
      (if negb coalesced then
         s ← get;
         store_next node (headFree s);;
         modify (set_headFree node)
       else mret tt);;
      mret node
  end.

Definition Mem_Free (fuel : nat) (ptr : Z) : M mstate Z :=
  if ptr =? NULL then mret 0
  else findNeighborNode fuel (ptr - sizeof_Node);; mret 0.

(** [printList]: the printed (address, index, size) triples. *)
Fixpoint print_loop (fuel : nat) (i curr : Z) : M mstate (list (Z * Z * Z)) :=
  match fuel with
  | O => no_fuel
  | S fuel =>
      if curr =? NULL then mret []
      else
        c ← load curr;
        rest ← print_loop fuel (i + 1) (next c);
        mret ((curr, i, size c) :: rest)
  end.
Definition printList (fuel : nat) : M mstate (list (Z * Z * Z)) :=
  s ← get; print_loop fuel 0 (headFree s).

End Mem.
