(* ===== verification/MemSpec.v ===== *)
(** Correctness of the project 3a allocator: the chunk tiling and the free
    list it threads, and what [Mem_Alloc] and [Mem_Free] do to them. *)
From S2P Require Import Prelude Mem.
Import Mem.

(** ** List segments in the heap *)

Fixpoint seg (h : gmap Z Node) (p : Z) (l : list Z) (q : Z) : Prop :=
  match l with
  | [] => p = q
  | a :: l => p = a /\ a <> NULL /\ seg h (next (node_at h a)) l q
  end.

Lemma node_at_eq h a nd : node_at (<[a := nd]> h) a = nd.
Proof. unfold node_at. by rewrite lookup_insert_eq. Qed.

Lemma node_at_ne h a b nd : a <> b -> node_at (<[a := nd]> h) b = node_at h b.
Proof. intros. unfold node_at. by rewrite lookup_insert_ne. Qed.

Lemma seg_app h p l1 l2 q :
  seg h p (l1 ++ l2) q <-> exists m, seg h p l1 m /\ seg h m l2 q.
Proof.
  revert p. induction l1 as [|a l1 IH]; intros p; simpl.
  - naive_solver.
  - rewrite IH. naive_solver.
Qed.

Lemma seg_frame h p l q a nd : a ∉ l -> seg h p l q -> seg (<[a := nd]> h) p l q.
Proof.
  revert p. induction l as [|b l IH]; intros p Hni; simpl; [done|].
  apply not_elem_of_cons in Hni as [? ?].
  intros (-> & ? & ?). rewrite node_at_ne by done. auto.
Qed.

(** Changing a size leaves every segment in place. *)
Lemma seg_size h p l q a nd :
  next nd = next (node_at h a) -> seg h p l q -> seg (<[a := nd]> h) p l q.
Proof.
  intros Hn. revert p. induction l as [|b l IH]; intros p; simpl; [done|].
  intros (-> & ? & ?). split_and!; [done..|].
  destruct (decide (a = b)) as [->|]; [rewrite node_at_eq, Hn|rewrite node_at_ne by done]; auto.
Qed.

(** Redirecting the last pointer of a segment. *)
Lemma seg_relink h p l b m q nd :
  b ∉ l -> next nd = q -> seg h p (l ++ [b]) m -> seg (<[b := nd]> h) p (l ++ [b]) q.
Proof.
  intros Hni Hq. rewrite !seg_app. intros (x & Hl & Hb). exists x. split.
  - by apply seg_frame.
  - simpl in *. destruct Hb as (-> & ? & _). by rewrite node_at_eq.
Qed.

Lemma seg_det h p l1 l2 :
  seg h p l1 NULL -> seg h p l2 NULL -> l1 = l2.
Proof.
  revert p l2. induction l1 as [|a l1 IH]; intros p [|b l2]; simpl; naive_solver.
Qed.

(** ** The chunk tiling of the region *)

(** A chunk is its size in bytes (header included) and whether it is free. *)
Definition chunk : Type := Z * bool.

Fixpoint total (cs : list chunk) : Z :=
  match cs with [] => 0 | (sz, _) :: cs => sz + total cs end.

Fixpoint tiles (h : gmap Z Node) (a : Z) (cs : list chunk) : Prop :=
  match cs with
  | [] => True
  | (sz, _) :: cs => sizeof_Node <= sz /\ (8 | sz) /\ size (node_at h a) = sz /\ tiles h (a + sz) cs
  end.

Fixpoint free_addrs (a : Z) (cs : list chunk) : list Z :=
  match cs with
  | [] => []
  | (sz, f) :: cs => (if (f : bool) then [a] else []) ++ free_addrs (a + sz) cs
  end.

(** No two neighbouring chunks are both free; [p] tells whether the chunk
    before the list is. *)
Fixpoint coal (p : bool) (cs : list chunk) : Prop :=
  match cs with
  | [] => True
  | (_, f) :: cs => p && f = false /\ coal f cs
  end.
Fixpoint last_free (p : bool) (cs : list chunk) : bool :=
  match cs with [] => p | (_, f) :: cs => last_free f cs end.

Lemma coal_app p c1 c2 : coal p (c1 ++ c2) <-> coal p c1 /\ coal (last_free p c1) c2.
Proof. revert p. induction c1 as [|[]]; intros p; simpl; naive_solver. Qed.

Lemma last_free_snoc p c1 sz f : last_free p (c1 ++ [(sz, f)]) = f.
Proof. revert p. induction c1 as [|[]]; intros p; simpl; auto. Qed.

Lemma total_app c1 c2 : total (c1 ++ c2) = total c1 + total c2.
Proof. induction c1 as [|[]]; simpl; lia. Qed.

Lemma tiles_app h a c1 c2 : tiles h a (c1 ++ c2) <-> tiles h a c1 /\ tiles h (a + total c1) c2.
Proof.
  revert a. induction c1 as [|[sz f] c1 IH]; intros a; simpl.
  - rewrite Z.add_0_r. tauto.
  - rewrite IH, Z.add_assoc. tauto.
Qed.

Lemma free_addrs_app a c1 c2 : free_addrs a (c1 ++ c2) = free_addrs a c1 ++ free_addrs (a + total c1) c2.
Proof.
  revert a. induction c1 as [|[sz f] c1 IH]; intros a; simpl.
  - by rewrite Z.add_0_r.
  - by rewrite IH, Z.add_assoc, (assoc_L (++)).
Qed.

Lemma tiles_total_nonneg h a cs : tiles h a cs -> 0 <= total cs.
Proof.
  revert a. induction cs as [|[sz f] cs IH]; intros a; simpl; [lia|].
  unfold sizeof_Node. intros (? & _ & _ & ?%IH). lia.
Qed.

(** Free addresses lie inside the tiling, at the start of a chunk. *)
Lemma free_addrs_range h a cs x :
  tiles h a cs -> x ∈ free_addrs a cs -> a <= x /\ x + sizeof_Node <= a + total cs.
Proof.
  revert a. induction cs as [|[sz f] cs IH]; intros a; simpl; [by intros _ ?%elem_of_nil|].
  unfold sizeof_Node in *. intros (? & _ & _ & Ht) [Hx|Hx]%elem_of_app.
  - pose proof (tiles_total_nonneg _ _ _ Ht). destruct f; [|by apply elem_of_nil in Hx].
    apply list_elem_of_singleton in Hx. lia.
  - specialize (IH _ Ht Hx). lia.
Qed.

Lemma free_addrs_split h a cs x :
  tiles h a cs -> x ∈ free_addrs a cs ->
  exists c1 sz c2, cs = c1 ++ (sz, true) :: c2 /\ x = a + total c1 /\ size (node_at h x) = sz.
Proof.
  revert a. induction cs as [|[sz f] cs IH]; intros a; simpl; [by intros _ ?%elem_of_nil|].
  intros (Hge & Hd & Hsz & Ht) [Hx|Hx]%elem_of_app.
  - destruct f; [|by apply elem_of_nil in Hx].
    apply list_elem_of_singleton in Hx as ->. exists [], sz, cs. simpl. split_and!; [done|lia|done].
  - destruct (IH _ Ht Hx) as (c1 & s & c2 & -> & -> & ?).
    exists ((sz, f) :: c1), s, c2. simpl. split_and!; [done|lia|done].
Qed.

Lemma free_addrs_NoDup h a cs : tiles h a cs -> NoDup (free_addrs a cs).
Proof.
  revert a. induction cs as [|[sz f] cs IH]; intros a; simpl; [constructor|].
  unfold sizeof_Node. intros (? & _ & _ & Ht). destruct f; simpl; [|by apply IH].
  constructor; [|by apply IH].
  intros Hin. pose proof (free_addrs_range _ _ _ _ Ht Hin). lia.
Qed.

(** Heap updates that leave the sizes of a tiling alone. *)
Lemma tiles_frame h a cs x nd :
  x < a \/ a + total cs <= x -> tiles h a cs -> tiles (<[x := nd]> h) a cs.
Proof.
  revert a. induction cs as [|[sz f] cs IH]; intros a; simpl; [done|].
  unfold sizeof_Node. intros Hx (? & ? & Hs & Ht). pose proof (tiles_total_nonneg _ _ _ Ht).
  rewrite node_at_ne by lia. split_and!; [done..|]. apply IH; [lia|done].
Qed.

Lemma tiles_next h a cs x nd :
  size nd = size (node_at h x) -> tiles h a cs -> tiles (<[x := nd]> h) a cs.
Proof.
  intros Hs. revert a. induction cs as [|[sz f] cs IH]; intros a; simpl; [done|].
  intros (? & ? & ? & ?). split_and!; [done..| |auto].
  destruct (decide (x = a)) as [->|]; [rewrite node_at_eq|rewrite node_at_ne by done]; congruence.
Qed.

(** The allocator's invariant: the chunks [cs] tile the region, and the free
    list [l] visits the free ones, each once. *)
Record heap_inv (s : mstate) (cs : list chunk) (l : list Z) : Prop := {
  hi_base : 0 < fst (region s);
  hi_end : fst (region s) + snd (region s) < 2 ^ 31;
  hi_total : total cs = snd (region s);
  hi_tiles : tiles (heap s) (fst (region s)) cs;
  hi_list : seg (heap s) (headFree s) l NULL;
  hi_free : l ≡ₚ free_addrs (fst (region s)) cs
}.

Lemma heap_inv_NoDup s cs l : heap_inv s cs l -> NoDup l.
Proof. intros []. rewrite hi_free0. by eapply free_addrs_NoDup. Qed.

Lemma tiles_mapped s cs c1 sz f c2 :
  0 < fst (region s) -> total cs = snd (region s) -> tiles (heap s) (fst (region s)) cs ->
  cs = c1 ++ (sz, f) :: c2 -> mapped s (fst (region s) + total c1) = true.
Proof.
  intros Hb Htot Ht ->. apply tiles_app in Ht as [H1 (H8 & ? & ? & H2)].
  rewrite total_app in Htot. simpl in Htot.
  pose proof (tiles_total_nonneg _ _ _ H1). pose proof (tiles_total_nonneg _ _ _ H2).
  unfold mapped, sizeof_Node, NULL in *. rewrite bool_decide_true by lia.
  apply andb_true_intro; split; [apply andb_true_intro; split|]; try done; apply Z.leb_le; lia.
Qed.

Lemma heap_inv_mapped s cs l x : heap_inv s cs l -> x ∈ l -> mapped s x = true.
Proof.
  intros [Hb He Htot Ht Hl Hf]. rewrite Hf. intros Hx.
  destruct (free_addrs_split _ _ _ _ Ht Hx) as (c1 & sz & c2 & -> & -> & _).
  by eapply tiles_mapped.
Qed.

Lemma load_ok s a : mapped s a = true -> load a s = Ret (node_at (heap s) a, s).
Proof. unfold load. by intros ->. Qed.

Lemma store_size_ok s a v : mapped s a = true ->
  store_size a v s = Ret (tt, set_heap (fun h => <[a := mkNode v (next (node_at h a))]> h) s).
Proof. unfold store_size. by intros ->. Qed.

Lemma store_next_ok s a v : mapped s a = true ->
  store_next a v s = Ret (tt, set_heap (fun h => <[a := mkNode (size (node_at h a)) v]> h) s).
Proof. unfold store_next. by intros ->. Qed.

(** ** Worst fit *)

Definition size_at (h : gmap Z Node) (a : Z) : Z := size (node_at h a).

(** The choice [getWorstFit] makes on the list of free chunks: the first of
    the largest, with its predecessor. *)
Fixpoint worst_of (h : gmap Z Node) (w lp prev : Z) (l : list Z) : Z * Z :=
  match l with
  | [] => (w, lp)
  | a :: l =>
      if (w =? NULL) || bool_decide (size_at h a > size_at h w)
      then worst_of h a prev a l else worst_of h w lp a l
  end.

Lemma worst_loop_ok l : forall fuel s w p prev,
  (length l < fuel)%nat ->
  (forall x, x ∈ l -> mapped s x = true) ->
  (w = NULL \/ mapped s w = true) ->
  seg (heap s) p l NULL ->
  worst_loop fuel w p prev s =
    let '(w', lp) := worst_of (heap s) w (listPrev s) prev l in
    Ret (w', set_listPrev lp s).
Proof.
  induction l as [|a l IH]; intros [|fuel] s w p prev Hf Hm Hw Hs; simpl in *; try lia.
  - subst p. simpl. by destruct s.
  - destruct Hs as (-> & Ha & Hs).
    rewrite (proj2 (Z.eqb_neq a NULL)) by done.
    assert (Hma : mapped s a = true) by (apply Hm; set_solver).
    rewrite (bind_Ret _ _ _ _ _ (load_ok _ _ Hma)).
    set (better := (w =? NULL) || bool_decide (size_at (heap s) a > size_at (heap s) w)).
    erewrite (bind_Ret _ _ s better s).
    2:{ unfold better. destruct (Z.eqb_spec w NULL) as [->|Hw0]; [done|]. simpl.
        destruct Hw as [?|Hmw]; [done|]. by rewrite (bind_Ret _ _ _ _ _ (load_ok _ _ Hmw)). }
    fold better. destruct better.
    + erewrite (bind_Ret _ _ s a (set_listPrev prev s)) by reflexivity.
      rewrite IH; [done|lia| |by right|done].
      intros x Hx. apply (Hm x). set_solver.
    + erewrite (bind_Ret _ _ s w s) by reflexivity.
      rewrite IH; [done|lia| |done|done]. intros x Hx. apply (Hm x). set_solver.
Qed.

(** The last element of [l], or [d]. *)
Definition last_or (d : Z) (l : list Z) : Z := default d (last l).

Lemma last_or_snoc d l x : last_or d (l ++ [x]) = x.
Proof. unfold last_or. by rewrite last_snoc. Qed.

Lemma last_or_cons d a l : last_or d (a :: l) = last_or a l.
Proof. unfold last_or. destruct l; [done|]. rewrite last_cons_cons. simpl. by destruct (last (_ :: _)) eqn:E; [|apply last_None in E]. Qed.

Lemma worst_of_spec h l : forall w lp prev,
  w <> NULL -> (forall x, x ∈ l -> x <> NULL) ->
  let '(w', lp') := worst_of h w lp prev l in
  (forall x, x ∈ l -> size_at h x <= size_at h w') /\ size_at h w <= size_at h w' /\
  ((w' = w /\ lp' = lp) \/
   exists l1 l2, l = l1 ++ w' :: l2 /\ lp' = last_or prev l1).
Proof.
  induction l as [|a l IH]; intros w lp prev Hw Hl; simpl.
  - split; [by intros x ?%elem_of_nil|]. split; [lia|by left].
  - rewrite (proj2 (Z.eqb_neq w NULL)) by done. simpl. case_bool_decide as Hc.
    + specialize (IH a prev a (Hl a ltac:(set_solver)) ltac:(set_solver)).
      destruct (worst_of h a prev a l) as [w' lp'].
      destruct IH as (H1 & H2 & H3). split_and!; [|lia|].
      * intros x [->|?]%elem_of_cons; [lia|auto].
      * right. destruct H3 as [[-> ->]|(l1 & l2 & -> & ->)]; [by exists [], l|].
        exists (a :: l1), l2. by rewrite last_or_cons.
    + specialize (IH w lp a Hw ltac:(set_solver)).
      destruct (worst_of h w lp a l) as [w' lp'].
      destruct IH as (H1 & H2 & H3). split_and!; [|lia|].
      * intros x [->|?]%elem_of_cons; [lia|auto].
      * destruct H3 as [[-> ->]|(l1 & l2 & -> & ->)]; [by left|].
        right. exists (a :: l1), l2. by rewrite last_or_cons.
Qed.

(** On a non-empty free list the scan returns a largest chunk and leaves its
    predecessor in [listPrev]. *)
Lemma worst_of_nonempty h lp a l :
  (forall x, x ∈ a :: l -> x <> NULL) ->
  exists l1 w l2, a :: l = l1 ++ w :: l2 /\
    worst_of h NULL lp NULL (a :: l) = (w, last_or NULL l1) /\
    (forall x, x ∈ a :: l -> size_at h x <= size_at h w).
Proof.
  intros Hl. simpl.
  pose proof (worst_of_spec h l a NULL a (Hl a ltac:(set_solver)) ltac:(set_solver)) as H.
  destruct (worst_of h a NULL a l) as [w lp']. destruct H as (H1 & H2 & H3).
  destruct H3 as [[-> ->]|(l1 & l2 & -> & ->)].
  - exists [], a, l. split_and!; [done..|]. intros x [->|?]%elem_of_cons; [lia|auto].
  - exists (a :: l1), w, l2. rewrite last_or_cons. split_and!; [done..|].
    intros x [->|?]%elem_of_cons; [lia|auto].
Qed.

Lemma seg_NULL h p l q : seg h p l q -> forall x, x ∈ l -> x <> NULL.
Proof.
  revert p. induction l as [|a l IH]; intros p; simpl; [by intros _ x ?%elem_of_nil|].
  intros (-> & ? & ?) x [->|?]%elem_of_cons; eauto.
Qed.

(** [getWorstFit] on a well-formed, non-empty free list. *)
Lemma getWorstFit_ok s cs l fuel r :
  heap_inv s cs l -> l <> [] -> (length l < fuel)%nat ->
  exists l1 w l2, l = l1 ++ w :: l2 /\
    (forall x, x ∈ l -> size_at (heap s) x <= size_at (heap s) w) /\
    getWorstFit fuel r s =
      Ret (if u32 (r + sizeof_Node) <=? u32 (size_at (heap s) w) then w else NULL,
           set_listPrev (last_or NULL l1) s).
Proof.
  intros Hi Hne Hf. destruct (Hi) as [Hb He Htot Ht Hl Hfr].
  destruct l as [|a l]; [done|].
  destruct (worst_of_nonempty (heap s) (listPrev s) a l (seg_NULL _ _ _ _ Hl)) as (l1 & w & l2 & El & Ew & Hmax).
  exists l1, w, l2. split_and!; [done..|]. unfold getWorstFit.
  erewrite (bind_Ret get _ s s s) by done.
  erewrite (bind_Ret (worst_loop _ _ _ _) _ s w (set_listPrev (last_or NULL l1) s)).
  2:{ rewrite (worst_loop_ok (a :: l)); [|lia| |by left|done].
      - by rewrite Ew.
      - intros x. by apply heap_inv_mapped with (1 := Hi). }
  assert (Hmw : mapped (set_listPrev (last_or NULL l1) s) w = true).
  { change (mapped s w = true). apply heap_inv_mapped with (1 := Hi). rewrite El. set_solver. }
  by rewrite (bind_Ret _ _ _ _ _ (load_ok _ _ Hmw)).
Qed.

(** ** Splitting a chunk *)

(** The arithmetic of [chunkNode]: the rounded size covers request and header
    and is a multiple of 8, as long as nothing overflows. *)
Lemma chunk_size_spec r :
  0 <= r < 2 ^ 31 - 16 ->
  (8 | chunk_size r) /\ r + sizeof_Node <= chunk_size r < r + sizeof_Node + 8.
Proof.
  intros Hr. unfold chunk_size, sizeof_Node.
  rewrite Z.rem_mod_nonneg, Z.quot_div_nonneg by lia.
  pose proof (Z.div_mod r 8 ltac:(lia)). pose proof (Z.mod_pos_bound r 8 ltac:(lia)).
  destruct (Z.eqb_spec (r mod 8) 0); rewrite s32_small by (unfold in_s32; lia); split; try lia.
  - apply Z.divide_add_r; [by apply Z.mod_divide|]. by exists 1.
  - exists (r / 8 + 2). lia.
Qed.

Lemma seg_snoc_inv h p l b q :
  seg h p (l ++ [b]) q -> seg h p l b /\ b <> NULL /\ next (node_at h b) = q.
Proof. rewrite seg_app. intros (m & ? & -> & ? & ?). auto. Qed.

Lemma seg_last_or h p l x q :
  seg h p (l ++ [x]) q -> last_or NULL (l ++ [x]) = x.
Proof. intros _. by apply last_or_snoc. Qed.

Lemma NoDup_mid {A} (l1 : list A) x l2 :
  NoDup (l1 ++ x :: l2) -> x ∉ l1 /\ x ∉ l2 /\ NoDup (l1 ++ l2).
Proof.
  rewrite NoDup_app, NoDup_cons. intros (H1 & H2 & H3 & H4). split_and!.
  - intros Hx. apply (H2 _ Hx). set_solver.
  - done.
  - apply NoDup_app. split_and!; [done|set_solver|done].
Qed.

(** Redirecting the predecessor of [x] (when there is one) to [y]. *)
Definition relink (h : gmap Z Node) (l1 : list Z) (y : Z) : gmap Z Node :=
  match last l1 with
  | None => h
  | Some b => <[b := mkNode (size (node_at h b)) y]> h
  end.

Lemma seg_relink_pre h p l1 x y :
  NoDup l1 -> seg h p l1 x -> seg (relink h l1 y) (match l1 with [] => y | _ => p end) l1 y.
Proof.
  intros Hnd Hs. unfold relink. destruct l1 as [|b l1 _] using rev_ind; [done|].
  rewrite last_snoc. apply NoDup_app in Hnd as (_ & Hb & _).
  destruct (l1 ++ [b]) eqn:E; [by destruct l1|]. rewrite <- E in *.
  eapply seg_relink; [|done|done]. set_solver.
Qed.

Lemma node_at_relink_ne h l1 y z : z ∉ l1 -> node_at (relink h l1 y) z = node_at h z.
Proof.
  intros Hz. unfold relink. destruct (last l1) eqn:E; [|done].
  apply node_at_ne. intros ->. apply Hz. apply last_Some in E as [? ->]. set_solver.
Qed.

Lemma size_relink h l1 y z : size (node_at (relink h l1 y) z) = size (node_at h z).
Proof.
  unfold relink. destruct (last l1) as [b|]; [|done].
  destruct (decide (b = z)) as [->|]; [by rewrite node_at_eq|by rewrite node_at_ne].
Qed.

Lemma seg_relink_frame h p l l1 y q :
  (forall x, x ∈ l1 -> x ∉ l) -> seg h p l q -> seg (relink h l1 y) p l q.
Proof.
  intros Hd Hs. unfold relink. destruct (last l1) as [b|] eqn:E; [|done].
  apply seg_frame; [|done]. apply Hd. apply last_Some in E as [? ->]. set_solver.
Qed.

Lemma tiles_relink h a cs l1 y : tiles h a cs -> tiles (relink h l1 y) a cs.
Proof. intros Ht. unfold relink. destruct (last l1); [|done]. by apply tiles_next. Qed.

(** [chunkNode] writes exactly this heap when it splits the free chunk [w]
    (predecessors [l1], successors [l2]) at [need] bytes. *)
Definition split_heap (h : gmap Z Node) (l1 : list Z) (w need : Z) : gmap Z Node :=
  let rest := size_at h w - need in
  let h1 := relink (<[w + need := mkNode rest (next (node_at h (w + need)))]> h) l1 (w + need) in
  <[w := mkNode need NULL]>
    (<[w + need := mkNode rest (next (node_at h w))]> h1).

Definition split_state (s : mstate) (l1 : list Z) (w need : Z) : mstate :=
  mkM (split_heap (heap s) l1 w need) (region s)
      (match l1 with [] => w + need | _ => headFree s end) (listPrev s) (init s) (m_error s).

(** Facts about the chunk a free-list node stands for. *)
Record at_chunk (s : mstate) (w sz : Z) (c1 c2 : list chunk) (l1 l2 : list Z) : Prop := {
  ac_inv : heap_inv s (c1 ++ (sz, true) :: c2) (l1 ++ w :: l2);
  ac_addr : w = fst (region s) + total c1
}.

Lemma at_chunk_intro s cs l1 w l2 :
  heap_inv s cs (l1 ++ w :: l2) ->
  exists c1 c2, cs = c1 ++ (size_at (heap s) w, true) :: c2 /\
    at_chunk s w (size_at (heap s) w) c1 c2 l1 l2.
Proof.
  intros Hi. pose proof Hi as [Hb He Htot Ht Hl Hf].
  assert (Hw : w ∈ free_addrs (fst (region s)) cs) by (rewrite <- Hf; set_solver).
  destruct (free_addrs_split _ _ _ _ Ht Hw) as (c1 & sz & c2 & -> & Ew & Es).
  unfold size_at. rewrite Es. exists c1, c2. by split.
Qed.

Section AtChunk.
Context (s : mstate) (w sz : Z) (c1 c2 : list chunk) (l1 l2 : list Z).
Context (H : at_chunk s w sz c1 c2 l1 l2).
Let h := heap s.
Let b := fst (region s).

Lemma ac_tiles1 : tiles h b c1.
Proof. destruct H as [[] ->]. by apply tiles_app in hi_tiles0 as [? _]. Qed.
Lemma ac_here : sizeof_Node <= sz /\ (8 | sz) /\ size_at h w = sz /\ tiles h (w + sz) c2.
Proof. destruct H as [[] ->]. by apply tiles_app in hi_tiles0 as [_ ?]. Qed.
Lemma ac_bounds : 0 < b /\ b <= w /\ w + sz + total c2 = b + snd (region s) /\
  b + snd (region s) < 2 ^ 31 /\ 0 <= total c2.
Proof.
  pose proof ac_tiles1 as Ht1. pose proof ac_here as (? & ? & ? & Ht2).
  destruct H as [[] ->]. rewrite total_app in hi_total0. simpl in hi_total0.
  pose proof (tiles_total_nonneg _ _ _ Ht1). pose proof (tiles_total_nonneg _ _ _ Ht2).
  unfold b in *. unfold sizeof_Node in *. split_and!; lia.
Qed.
Lemma ac_NoDup : w ∉ l1 /\ w ∉ l2 /\ NoDup (l1 ++ l2).
Proof. destruct H as [Hi _]. by apply NoDup_mid, (heap_inv_NoDup _ _ _ Hi). Qed.
Lemma ac_rest : l1 ++ l2 ≡ₚ free_addrs b c1 ++ free_addrs (w + sz) c2.
Proof.
  destruct H as [[] ->]. rewrite free_addrs_app in hi_free0. simpl in hi_free0.
  fold b in hi_free0 |- *.
  rewrite <- !Permutation_middle in hi_free0. by eapply Permutation_cons_inv.
Qed.
(** No other free node lies inside the chunk. *)
Lemma ac_outside x : x ∈ l1 ++ l2 -> x + sizeof_Node <= w \/ w + sz <= x.
Proof.
  rewrite ac_rest. pose proof ac_here as (? & ? & ? & Ht2). pose proof ac_bounds.
  intros [Hx|Hx]%elem_of_app.
  - pose proof (free_addrs_range _ _ _ _ ac_tiles1 Hx). destruct H. unfold b in *. lia.
  - pose proof (free_addrs_range _ _ _ _ Ht2 Hx). lia.
Qed.
Lemma ac_mapped a : w <= a -> a + sizeof_Node <= w + sz -> mapped s a = true.
Proof.
  pose proof ac_bounds. unfold mapped, NULL, sizeof_Node, b in *. intros.
  rewrite bool_decide_true by lia.
  apply andb_true_intro; split; [apply andb_true_intro; split|]; try done; apply Z.leb_le; lia.
Qed.
Lemma ac_list : seg h (headFree s) l1 w /\ w <> NULL /\ seg h (next (node_at h w)) l2 NULL.
Proof.
  destruct H as [[] _]. apply seg_app in hi_list0 as (m & Hm & -> & ? & ?). auto.
Qed.
Lemma ac_l1_mapped x : x ∈ l1 -> mapped s x = true.
Proof. intros Hx. destruct H as [Hi _]. apply (heap_inv_mapped _ _ _ x Hi). set_solver. Qed.

Lemma split_inv need :
  sizeof_Node <= need -> (8 | need) -> need < sz ->
  heap_inv (split_state s l1 w need)
    (c1 ++ (need, false) :: (sz - need, true) :: c2) (l1 ++ (w + need) :: l2).
Proof.
  intros Hn8 Hnd Hlt.
  pose proof ac_here as (Hsz & Hszd & Hszw & Ht2). pose proof ac_bounds as (Hb & Hbw & He & He2 & Htc2).
  pose proof ac_NoDup as (Hw1 & Hw2 & Hnd12). pose proof ac_tiles1 as Ht1.
  assert (8 <= sz - need).
  { destruct Hszd as [k ->], Hnd as [j ->]. lia. }
  unfold sizeof_Node in *.
  assert (Hwn : forall x, x ∈ l1 ++ l2 -> x <> w + need).
  { intros x Hx ->. apply ac_outside in Hx. unfold sizeof_Node in *. lia. }
  assert (Hdisj : forall x, x ∈ l1 -> x ∉ l2) by (intros x ??; apply NoDup_app in Hnd12; naive_solver).
  destruct ac_list as (HL1 & Hw0 & HL2).
  assert (Hw : w = b + total c1) by (by destruct H).
  unfold split_state, split_heap. fold h. set (rest := size_at h w - need).
  set (hA := <[w + need := mkNode rest (next (node_at h (w + need)))]> h).
  set (hB := relink hA l1 (w + need)).
  constructor; simpl; fold b.
  - done.
  - lia.
  - rewrite total_app. simpl. lia.
  - apply tiles_app. split.
    + apply tiles_frame; [lia|]. apply tiles_frame; [lia|]. apply tiles_relink.
      by apply tiles_frame; [lia|].
    + simpl. rewrite <- Hw, node_at_eq, node_at_ne, node_at_eq by lia. simpl.
      unfold sizeof_Node. split_and!; [lia|done|done|lia| |unfold rest; lia|].
      * by apply Z.divide_sub_r.
      * replace (w + need + (sz - need)) with (w + sz) by lia.
        apply tiles_frame; [lia|]. apply tiles_frame; [lia|]. apply tiles_relink.
        by apply tiles_frame; [lia|].
  - apply seg_app. exists (w + need). split.
    + apply seg_frame; [done|]. apply seg_frame; [intros ?; eapply Hwn; [|done]; set_solver|].
      replace (match l1 with [] => w + need | _ => headFree s end)
        with (match l1 with [] => w + need | _ => headFree s end) by done.
      eapply seg_relink_pre.
      * by apply NoDup_app in Hnd12 as [? _].
      * apply seg_frame; [intros ?; eapply Hwn; [|done]; set_solver|exact HL1].
    + simpl. split_and!; [done|unfold NULL; lia|].
      rewrite node_at_ne, node_at_eq by lia. simpl.
      apply seg_frame; [done|]. apply seg_frame; [intros ?; eapply Hwn; [|done]; set_solver|].
      apply seg_relink_frame; [done|].
      apply seg_frame; [intros ?; eapply Hwn; [|done]; set_solver|exact HL2].
  - rewrite free_addrs_app. simpl. rewrite <- Hw, <- !Permutation_middle.
    apply perm_skip. rewrite ac_rest. by replace (w + need + (sz - need)) with (w + sz) by lia.
Qed.
End AtChunk.

Lemma mapped_set_heap f s a : mapped (set_heap f s) a = mapped s a.
Proof. done. Qed.

(** One memory access of a function whose pointers are known to be mapped. *)
Ltac solve_mapped :=
  match goal with H : mapped _ ?a = true |- mapped _ ?a = true => exact H end.
Ltac mem_step :=
  first
    [ erewrite (bind_Ret (load _)); [|apply load_ok; solve_mapped]
    | erewrite (bind_Ret (store_size _ _)); [|apply store_size_ok; solve_mapped]
    | erewrite (bind_Ret (store_next _ _)); [|apply store_next_ok; solve_mapped]
    | rewrite (bind_Ret get _ _ _ _ eq_refl) ].

(** Storing through [listPrev], as [chunkNode] does when it is not null. *)
Lemma store_listPrev s w sz c1 c2 l1 l2 h y :
  at_chunk s w sz c1 c2 l1 l2 -> listPrev s = last_or NULL l1 ->
  (if negb (listPrev s =? NULL) then store_next (listPrev s) y else mret tt)
    (set_heap (fun _ => h) s) = Ret (tt, set_heap (fun _ => relink h l1 y) s).
Proof.
  intros H ->. unfold relink, last_or. destruct l1 as [|p l1 _] using rev_ind; [done|].
  rewrite last_snoc. simpl.
  assert (Hp : mapped s p = true) by (eapply ac_l1_mapped; eauto; set_solver).
  rewrite (proj2 (Z.eqb_neq p NULL)).
  - by apply (store_next_ok (set_heap (fun _ => h) s)).
  - intros ->. pose proof (ac_list _ _ _ _ _ _ _ H) as [Hl _].
    eapply (seg_NULL _ _ _ _ Hl NULL); [set_solver|done].
Qed.

(** Moving the head when the chunk was the first of the list. *)
Lemma move_headFree s w sz c1 c2 l1 l2 h y :
  at_chunk s w sz c1 c2 l1 l2 ->
  (if headFree s =? w then modify (set_headFree y) else mret tt) (set_heap (fun _ => h) s)
  = Ret (tt, set_headFree (match l1 with [] => y | _ => headFree s end) (set_heap (fun _ => h) s)).
Proof.
  intros H. pose proof (ac_list _ _ _ _ _ _ _ H) as [Hl _].
  pose proof (ac_NoDup _ _ _ _ _ _ _ H) as (Hw1 & _).
  destruct l1 as [|p l1]; simpl in Hl.
  - by rewrite Hl, Z.eqb_refl.
  - destruct Hl as (Hl & ? & ?). rewrite (proj2 (Z.eqb_neq _ _)); [by destruct s|].
    intros E. apply Hw1. rewrite <- E, Hl. set_solver.
Qed.

(** Executing [chunkNode] on a chunk strictly larger than the request. *)
Lemma chunkNode_split s w sz c1 c2 l1 l2 r :
  at_chunk s w sz c1 c2 l1 l2 ->
  listPrev s = last_or NULL l1 ->
  0 <= r < 2 ^ 31 - 16 -> chunk_size r < sz ->
  chunkNode w r s = Ret (w + sizeof_Node, split_state s l1 w (chunk_size r)).
Proof.
  intros H Hlp Hr Hlt. destruct (chunk_size_spec r Hr) as [Hd Hle].
  unfold chunkNode. set (need := chunk_size r) in *.
  pose proof (ac_here _ _ _ _ _ _ _ H) as (Hsz & Hszd & Hszw & _).
  pose proof (ac_bounds _ _ _ _ _ _ _ H) as (Hb & Hbw & He & He2 & Htc2).
  assert (8 <= sz - need) by (destruct Hszd as [k ->], Hd as [j ->]; lia).
  unfold sizeof_Node in *. unfold addSizeToNode.
  assert (Hmw : mapped s w = true) by (eapply ac_mapped; eauto; unfold sizeof_Node; lia).
  assert (Hmn : mapped s (w + need) = true) by (eapply ac_mapped; eauto; unfold sizeof_Node; lia).
  mem_step. fold (size_at (heap s) w). rewrite Hszw, s32_small by (unfold in_s32; lia).
  mem_step. mem_step. simpl (heap (set_heap _ _)). rewrite node_at_eq. simpl (size _).
  mem_step. rewrite (proj2 (Z.eqb_neq (sz - need) 0)) by lia. rewrite !andb_false_l.
  set (hA := <[w + need := mkNode (sz - need) (next (node_at (heap s) (w + need)))]> (heap s)).
  set (hB := relink hA l1 (w + need)).
  set (hC := <[w + need := mkNode (sz - need) (next (node_at (heap s) w))]> hB).
  assert (Es : size (node_at hB (w + need)) = sz - need).
  { unfold hB. rewrite size_relink. unfold hA. by rewrite node_at_eq. }
  erewrite (bind_Ret (_ ≫= _) _ _ tt (set_heap (fun _ => hC) s)).
  2:{ rewrite (bind_Ret _ _ _ _ _ (store_listPrev _ _ _ _ _ _ _ hA (w + need) H Hlp)). fold hB.
      rewrite (store_next_ok (set_heap (fun _ => hB) s) _ _ Hmn).
      unfold set_heap. simpl. by rewrite Es. }
  mem_step. rewrite (bind_Ret _ _ _ _ _ (move_headFree _ _ _ _ _ _ _ hC (w + need) H)).
  mem_step. mem_step. unfold mret, M_ret, split_state, set_heap. simpl.
  rewrite node_at_eq. simpl. rewrite insert_insert_eq.
  unfold split_heap, hC, hB, hA. by rewrite Hszw.
Qed.

(** ** Scanning for neighbours *)

(** [x] ends where [node] starts, or starts where [node] ends. *)
Definition neighbor (h : gmap Z Node) (node x : Z) : Prop :=
  node = x + size_at h x \/ x = node + size_at h node.

Lemma scan_skip l : forall fuel s node p prev co suf,
  (forall x, x ∈ l -> mapped s x = true /\ ~ neighbor (heap s) node x) ->
  mapped s node = true ->
  seg (heap s) p (l ++ suf) NULL ->
  exists q, seg (heap s) q suf NULL /\ seg (heap s) p l q /\
  neighbor_loop (length l + fuel) node p prev co s = neighbor_loop fuel node q (last_or prev l) co s.
Proof.
  induction l as [|x l IH]; intros fuel s node p prev co suf Hl Hm Hs; simpl in *.
  - by exists p.
  - destruct Hs as (-> & Hx & Hs).
    destruct (Hl x) as [Hmx Hnx]; [set_solver|].
    destruct (IH fuel s node (next (node_at (heap s) x)) x co suf) as (q & Hq & Hpq & Eq); [|done|exact Hs|].
    { intros y Hy. apply Hl. set_solver. }
    exists q. split_and!; [done..|]. rewrite last_or_cons, <- Eq.
    rewrite (proj2 (Z.eqb_neq x NULL)) by done.
    mem_step. mem_step. mem_step. unfold addSizeToNode, neighbor, size_at in *.
    rewrite !(proj2 (Z.eqb_neq _ _)) by tauto. done.
Qed.

(** The state of the scan: [l] is the free list, [sizes] what one step may
    change in the headers' sizes. *)
Definition resized (h h' : gmap Z Node) (a v : Z) : Prop :=
  forall z, size_at h' z = if decide (z = a) then v else size_at h z.

Lemma size_at_insert h a nd z :
  size_at (<[a := nd]> h) z = if decide (z = a) then size nd else size_at h z.
Proof.
  unfold size_at. case_decide; [subst; by rewrite node_at_eq|by rewrite node_at_ne].
Qed.

Lemma size_at_relink h l y z : size_at (relink h l y) z = size_at h z.
Proof. apply size_relink. Qed.

(** Storing into the predecessor, which is known to exist. *)
Lemma store_prev d l y s :
  l <> [] -> (forall x, x ∈ l -> mapped s x = true) ->
  store_next (last_or d l) y s = Ret (tt, set_heap (fun h => relink h l y) s).
Proof.
  intros Hl Hm. destruct l as [|b l _] using rev_ind; [done|].
  rewrite last_or_snoc, store_next_ok by (apply Hm; set_solver).
  unfold set_heap, relink. by rewrite last_snoc.
Qed.

Lemma seg_head h p l q : seg h p l q -> l <> [] -> head l = Some p.
Proof. destruct l; simpl; naive_solver. Qed.

(** The next pointer of the last node of a list after [relink]. *)
Lemma next_relink h l y d :
  l <> [] -> next (node_at (relink h l y) (last_or d l)) = y.
Proof.
  intros Hl. destruct l as [|b l _] using rev_ind; [done|].
  rewrite last_or_snoc. unfold relink. rewrite last_snoc. by rewrite node_at_eq.
Qed.

(** One step of the scan at a neighbour [x] of [N]. *)
Section Hit.
Context (s : mstate) (N x : Z) (pre post : list Z).
#[local] Notation h := (heap s).
Context (Hl : seg h (headFree s) (pre ++ x :: post) NULL).
Context (Hnd : NoDup (pre ++ x :: post)).
Context (Hm : forall y, y ∈ pre ++ x :: post -> mapped s y = true).
Context (HmN : mapped s N = true) (HN0 : N <> NULL).
Context (Hov : in_s32 (size_at h x + size_at h N)).

(** What a step that keeps scanning leaves: the node being freed is now
    [H], at the head of the list, and the scan goes on at [post]. *)
Definition scan_next (H : Z) (fuel : nat) (s' : mstate) (q : Z) : Prop :=
  neighbor_loop (S fuel) N x (last_or NULL pre) false s
    = neighbor_loop fuel H q (last_or H pre) true s' /\
  seg (heap s') q post NULL /\ seg (heap s') (headFree s') (H :: pre ++ post) NULL /\
  resized h (heap s') H (size_at h x + size_at h N) /\ region s' = region s.

Lemma hit_facts : x <> NULL /\ seg h (headFree s) pre x /\ seg h (next (node_at h x)) post NULL /\
  x ∉ pre /\ x ∉ post /\ NoDup (pre ++ post) /\ (forall y, y ∈ pre -> y ∉ post).
Proof.
  apply seg_app in Hl as (m & Hp & -> & ? & ?).
  destruct (NoDup_mid _ _ _ Hnd) as (? & ? & Hnd'). split_and!; [done..|].
  intros y ??. apply NoDup_app in Hnd'; naive_solver.
Qed.

Lemma seg_pre_post h' p y :
  NoDup pre -> (forall z, z ∈ pre -> z ∉ post) ->
  pre <> [] -> seg h' p pre y -> seg h' (next (node_at h x)) post NULL ->
  seg (relink h' pre (next (node_at h x))) p (pre ++ post) NULL.
Proof.
  intros Hn Hd Hne Hp Hq. apply seg_app. exists (next (node_at h x)). split.
  - pose proof (seg_relink_pre _ _ _ _ (next (node_at h x)) Hn Hp) as H. by destruct pre.
  - by apply seg_relink_frame.
Qed.

Lemma hit_left_first fuel : N = x + size_at h x -> exists s' q, scan_next x fuel s' q.
Proof.
  intros E. destruct hit_facts as (Hx0 & Hp & Hq & Hx1 & Hx2 & Hn & Hd).
  assert (Hmx : mapped s x = true) by (apply Hm; set_solver).
  assert (Hnp : NoDup pre) by (by apply NoDup_app in Hn as [? _]).
  unfold scan_next. simpl neighbor_loop. rewrite (proj2 (Z.eqb_neq x NULL)) by done.
  do 3 mem_step. unfold addSizeToNode.
  fold (size_at h x) (size_at h N). rewrite (proj2 (Z.eqb_eq _ _) E).
  rewrite s32_small by done. mem_step. simpl negb. cbv iota.
  set (v := size_at h x + size_at h N) in *.
  set (hA := <[x := mkNode v (next (node_at h x))]> h).
  destruct (decide (pre = [])) as [->|Hpre].
  - simpl in Hp. rewrite (proj2 (Z.eqb_eq x (headFree s))) by done. simpl negb. cbv iota.
    rewrite (bind_Ret (mret _) _ _ _ _ eq_refl). mem_step.
    eexists _, _. split; [reflexivity|]. simpl. fold hA.
    replace (node_at hA x) with (mkNode v (next (node_at h x))) by (unfold hA; by rewrite node_at_eq).
    simpl. split_and!; [by apply seg_frame|done|done|by apply seg_frame| |done].
    intros z. unfold hA. by rewrite size_at_insert.
  - assert (Hhd : x <> headFree s).
    { intros E2. apply Hx1. rewrite E2. apply seg_head in Hp; [|done].
      destruct pre; [done|]. simplify_eq/=. set_solver. }
    rewrite (proj2 (Z.eqb_neq x (headFree s))) by done. simpl negb. cbv iota.
    assert (Hlm : mapped s (last_or NULL pre) = true).
    { apply Hm. destruct pre as [|b l _] using rev_ind; [done|]. rewrite last_or_snoc. set_solver. }
    set (hB := relink hA pre (next (node_at h x))).
    set (hC := <[x := mkNode v (headFree s)]> hB).
    erewrite (bind_Ret (_ ≫= _) _ _ (x, last_or NULL pre) (set_headFree x (set_heap (fun _ => hC) s))).
    2:{ erewrite (bind_Ret (store_next _ _)).
        2:{ apply store_prev; [done|]. intros y ?. apply (Hm y). set_solver. }
        mem_step. unfold set_heap, modify, mbind, M_bind, mret, M_ret, set_headFree. simpl. fold hA hB.
        assert (size (node_at hB x) = v) as -> by (unfold hB; rewrite size_relink; unfold hA; by rewrite node_at_eq).
        done. }
    mem_step. eexists _, _. split.
    { f_equal. by destruct pre as [|? ? _] using rev_ind; [|rewrite !last_or_snoc]. }
    simpl. assert (Hlx : last_or NULL pre <> x).
    { intros E2. apply Hx1. rewrite <- E2. destruct pre as [|b l _] using rev_ind; [done|]. rewrite last_or_snoc. set_solver. }
    unfold hC. rewrite node_at_ne by done. unfold hB. rewrite next_relink by done.
    rewrite node_at_eq. simpl. split_and!; [|done|done| | |done].
    + apply seg_frame; [done|]. apply seg_relink_frame; [done|]. by apply seg_frame.
    + apply seg_frame; [set_solver|]. eapply seg_pre_post; eauto; by apply seg_frame.
    + intros z. rewrite size_at_insert, size_at_relink. unfold hA. rewrite size_at_insert.
      by case_decide.
Qed.

Lemma hit_right_first fuel :
  N <> x + size_at h x -> x = N + size_at h N -> N ∉ pre ++ x :: post ->
  exists s' q, scan_next N fuel s' q.
Proof.
  intros Hne E HN. destruct hit_facts as (Hx0 & Hp & Hq & Hx1 & Hx2 & Hn & Hd).
  assert (Hmx : mapped s x = true) by (apply Hm; set_solver).
  assert (Hnp : NoDup pre) by (by apply NoDup_app in Hn as [? _]).
  assert (HNpre : N ∉ pre) by set_solver. assert (HNpost : N ∉ post) by set_solver.
  unfold scan_next. simpl neighbor_loop. rewrite (proj2 (Z.eqb_neq x NULL)) by done.
  do 3 mem_step. unfold addSizeToNode.
  fold (size_at h x) (size_at h N). rewrite (proj2 (Z.eqb_neq _ _) Hne), (proj2 (Z.eqb_eq _ _) E).
  rewrite Z.add_comm in Hov. rewrite s32_small by done. mem_step. simpl negb. cbv iota.
  rewrite (Z.add_comm (size_at h x)).
  set (v := size_at h N + size_at h x) in *.
  set (hA := <[N := mkNode v (next (node_at h N))]> h).
  destruct (decide (pre = [])) as [->|Hpre].
  - simpl in Hp. rewrite (proj2 (Z.eqb_eq x (headFree s))) by done. simpl negb. cbv iota.
    set (hB := <[N := mkNode v (next (node_at h x))]> hA).
    erewrite (bind_Ret (_ ≫= _) _ _ N (set_headFree N (set_heap (fun _ => hB) s))).
    2:{ mem_step. unfold set_heap, modify, mbind, M_bind, mret, M_ret, set_headFree. simpl. fold hA.
        unfold hB. do 4 f_equal. unfold hA. by rewrite node_at_eq. }
    mem_step. eexists _, _. split; [reflexivity|]. simpl.
    replace (node_at hB N) with (mkNode v (next (node_at h x))) by (unfold hB; by rewrite node_at_eq).
    simpl. unfold hB, hA. split_and!; [by do 2 (apply seg_frame; [done|])|done|done| | |done].
    + by do 2 (apply seg_frame; [done|]).
    + intros z. rewrite !size_at_insert. by case_decide.
  - assert (Hhd : x <> headFree s).
    { intros E2. apply Hx1. rewrite E2. apply seg_head in Hp; [|done].
      destruct pre; [done|]. simplify_eq/=. set_solver. }
    rewrite (proj2 (Z.eqb_neq x (headFree s))) by done. simpl negb. cbv iota.
    assert (Hlm : last_or NULL pre ∈ pre).
    { destruct pre as [|b l _] using rev_ind; [done|]. rewrite last_or_snoc. set_solver. }
    assert (Hlmm : mapped s (last_or NULL pre) = true) by (apply Hm; set_solver).
    set (hB := relink hA pre (next (node_at h x))).
    set (hC := <[N := mkNode v (headFree s)]> hB).
    erewrite (bind_Ret (_ ≫= _) _ _ (last_or NULL pre) (set_headFree N (set_heap (fun _ => hC) s))).
    2:{ erewrite (bind_Ret (store_next _ _)).
        2:{ apply store_prev; [done|]. intros y ?. apply (Hm y). set_solver. }
        mem_step. unfold set_heap, modify, mbind, M_bind, mret, M_ret, set_headFree. simpl. fold hA hB.
        assert (size (node_at hB N) = v) as -> by (unfold hB; rewrite size_relink; unfold hA; by rewrite node_at_eq).
        done. }
    mem_step. eexists _, _. split.
    { f_equal. by destruct pre as [|? ? _] using rev_ind; [|rewrite !last_or_snoc]. }
    simpl. assert (Hlx : N <> last_or NULL pre) by (intros E2; apply HNpre; by rewrite E2).
    unfold hC. rewrite node_at_ne by done. unfold hB. rewrite next_relink by done.
    rewrite node_at_eq. simpl. split_and!; [|done|done| | |done].
    + apply seg_frame; [done|]. apply seg_relink_frame; [done|]. by apply seg_frame.
    + apply seg_frame; [set_solver|]. eapply seg_pre_post; eauto; by apply seg_frame.
    + intros z. rewrite size_at_insert, size_at_relink. unfold hA. rewrite size_at_insert.
      by case_decide.
Qed.
End Hit.

(** The second neighbour: the code returns from the scan. *)
Section Hit2.
Context (s : mstate) (H x : Z) (pre post : list Z).
#[local] Notation h := (heap s).
Context (Hl : seg h (headFree s) (H :: pre ++ x :: post) NULL).
Context (Hnd : NoDup (H :: pre ++ x :: post)).
Context (Hm : forall y, y ∈ H :: pre ++ x :: post -> mapped s y = true).
Context (Hov : in_s32 (size_at h x + size_at h H)).

Definition scan_done (G : Z) (fuel : nat) (s' : mstate) : Prop :=
  neighbor_loop (S fuel) H x (last_or H pre) true s = Ret (inl G, s') /\
  seg (heap s') (headFree s') (G :: pre ++ post) NULL /\
  resized h (heap s') G (size_at h x + size_at h H) /\ region s' = region s.

Lemma hit2_facts : x <> NULL /\ H <> NULL /\ headFree s = H /\ seg h H (H :: pre) x /\
  seg h (next (node_at h x)) post NULL /\ x ∉ H :: pre /\ x ∉ post /\ H ∉ pre /\ NoDup (H :: pre) /\
  (forall y, y ∈ H :: pre -> y ∉ post).
Proof.
  change (H :: pre ++ x :: post) with ((H :: pre) ++ x :: post) in *.
  apply seg_app in Hl as (m & Hp & -> & ? & ?). simpl in Hp. destruct Hp as (E & ? & ?).
  destruct (NoDup_mid _ _ _ Hnd) as (? & ? & Hnd'). apply NoDup_app in Hnd' as (Hn1 & Hn2 & _).
  pose proof Hn1 as [? _]%NoDup_cons. by split_and!.
Qed.

Lemma hit_right_second fuel :
  H <> x + size_at h x -> x = H + size_at h H -> exists s', scan_done H fuel s'.
Proof.
  intros Hne E. destruct hit2_facts as (Hx0 & HH0 & Hhd & Hp & Hq & Hx1 & Hx2 & HHp & Hn & Hd).
  assert (Hmx : mapped s x = true) by (apply Hm; set_solver).
  assert (HmH : mapped s H = true) by (apply Hm; set_solver).
  unfold scan_done. simpl neighbor_loop. rewrite (proj2 (Z.eqb_neq x NULL)) by done.
  do 3 mem_step. unfold addSizeToNode.
  fold (size_at h x) (size_at h H). rewrite (proj2 (Z.eqb_neq _ _) Hne), (proj2 (Z.eqb_eq _ _) E).
  rewrite Z.add_comm in Hov. rewrite s32_small by done. mem_step. simpl negb. cbv iota.
  rewrite <- (last_or_cons H H pre).
  erewrite (bind_Ret (store_next _ _)).
  2:{ apply store_prev; [done|]. intros y ?. apply (Hm y). set_solver. }
  eexists. split; [reflexivity|]. simpl.
  set (hA := <[H := mkNode _ _]> h). rewrite Hhd.
  assert (HpA : seg hA H (H :: pre) x) by by apply seg_size.
  assert (HqA : seg hA (next (node_at h x)) post NULL) by (apply seg_frame; [set_solver|done]).
  pose proof (seg_relink_pre _ _ _ _ (next (node_at h x)) Hn HpA) as HR.
  assert (Hs : seg (relink hA (H :: pre) (next (node_at h x))) H ((H :: pre) ++ post) NULL).
  { apply seg_app. eexists. split; [exact HR|]. by apply seg_relink_frame. }
  simpl in Hs. destruct Hs as (_ & _ & Hs). split_and!; [done|done|done| |done].
  - intros z. rewrite size_at_relink. unfold hA. rewrite size_at_insert. simpl. case_decide; lia.
Qed.

Lemma hit_left_second fuel : H = x + size_at h x -> exists s', scan_done x fuel s'.
Proof.
  intros E. destruct hit2_facts as (Hx0 & HH0 & Hhd & Hp & Hq & Hx1 & Hx2 & HHp & Hn & Hd).
  assert (Hmx : mapped s x = true) by (apply Hm; set_solver).
  assert (HmH : mapped s H = true) by (apply Hm; set_solver).
  unfold scan_done. simpl neighbor_loop. rewrite (proj2 (Z.eqb_neq x NULL)) by done.
  do 3 mem_step. unfold addSizeToNode.
  fold (size_at h x) (size_at h H). rewrite (proj2 (Z.eqb_eq _ _) E).
  rewrite s32_small by done. mem_step. simpl negb. cbv iota.
  rewrite <- (last_or_cons H H pre).
  erewrite (bind_Ret (store_next _ _)).
  2:{ apply store_prev; [done|]. intros y ?. apply (Hm y). set_solver. }
  mem_step. mem_step. eexists. split; [reflexivity|]. simpl.
  set (hA := <[x := mkNode _ _]> h). set (hB := relink hA (H :: pre) (next (node_at h x))).
  set (v := size_at h x + size_at h H) in *.
  assert (HpA : seg hA H (H :: pre) x) by by apply seg_frame.
  assert (HqA : seg hA (next (node_at h x)) post NULL) by by apply seg_frame.
  pose proof (seg_relink_pre _ _ _ _ (next (node_at h x)) Hn HpA) as HR. fold hB in HR.
  assert (Hs : seg hB H ((H :: pre) ++ post) NULL).
  { apply seg_app. eexists. split; [exact HR|]. by apply seg_relink_frame. }
  simpl in Hs. destruct Hs as (_ & _ & Hs).
  rewrite node_at_eq. simpl. split_and!; [done|done| | |done].
  - apply seg_frame; [set_solver|done].
  - intros z. rewrite size_at_insert. case_decide; simpl.
    + unfold hB. rewrite size_relink. unfold hA. by rewrite node_at_eq.
    + unfold hB. rewrite size_at_relink. unfold hA. rewrite size_at_insert. by rewrite decide_False.
Qed.
End Hit2.

(** ** Freeing a chunk *)

(** The chunk at [N], of size [sz], is allocated and about to join the free
    nodes [rest]. *)
Record freeing (s : mstate) (N sz : Z) (c1 c2 : list chunk) (rest : list Z) : Prop := {
  fr_base : 0 < fst (region s);
  fr_end : fst (region s) + snd (region s) < 2 ^ 31;
  fr_total : total (c1 ++ (sz, false) :: c2) = snd (region s);
  fr_tiles : tiles (heap s) (fst (region s)) (c1 ++ (sz, false) :: c2);
  fr_addr : N = fst (region s) + total c1;
  fr_rest : rest ≡ₚ free_addrs (fst (region s)) (c1 ++ (sz, false) :: c2);
  fr_coal1 : coal false c1;
  fr_coal2 : coal false c2
}.

Definition hd_free (cs : list chunk) : bool := match cs with (_, f) :: _ => f | [] => false end.

Lemma tiles_total_0 h a cs : tiles h a cs -> total cs = 0 -> cs = [].
Proof.
  destruct cs as [|[sz f] cs]; simpl; [done|]. unfold sizeof_Node.
  intros (? & _ & _ & ?%tiles_total_nonneg) ?. lia.
Qed.

Lemma coal_weaken cs p : coal p cs -> coal false cs.
Proof. destruct cs as [|[]]; simpl; naive_solver. Qed.

Lemma tiles_resized h h' a cs x v :
  resized h h' x v -> x < a \/ a + total cs <= x -> tiles h a cs -> tiles h' a cs.
Proof.
  intros Hr. revert a. induction cs as [|[sz f] cs IH]; intros a; simpl; [done|].
  unfold sizeof_Node. intros Hx (? & ? & Hs & Ht). pose proof (tiles_total_nonneg _ _ _ Ht).
  split_and!; [done..| |apply IH; [lia|done]].
  specialize (Hr a). unfold size_at in Hr. rewrite Hr, decide_False by lia. done.
Qed.

Section Freeing.
Context (s : mstate) (N sz : Z) (c1 c2 : list chunk) (rest : list Z).
Context (F : freeing s N sz c1 c2 rest).
#[local] Notation h := (heap s).
#[local] Notation b := (fst (region s)).

Lemma fr_parts : tiles h b c1 /\ sizeof_Node <= sz /\ (8 | sz) /\ size_at h N = sz /\ tiles h (N + sz) c2.
Proof. pose proof F as [????->???]. by apply tiles_app in fr_tiles0. Qed.

Lemma fr_perm : rest ≡ₚ free_addrs b c1 ++ free_addrs (N + sz) c2.
Proof. pose proof F as [????->???]. rewrite fr_rest0, free_addrs_app. done. Qed.

Lemma fr_bounds : 0 < b /\ b <= N /\ N + sz + total c2 = b + snd (region s) /\
  b + snd (region s) < 2 ^ 31 /\ 0 <= total c2.
Proof.
  pose proof fr_parts as (Ht1 & ? & ? & ? & Ht2). pose proof F as []. rewrite total_app in fr_total0. simpl in fr_total0.
  pose proof (tiles_total_nonneg _ _ _ Ht1). pose proof (tiles_total_nonneg _ _ _ Ht2).
  unfold sizeof_Node in *. split_and!; lia.
Qed.

Lemma fr_in x : x ∈ rest ->
  exists d1 d2, c1 ++ (sz, false) :: c2 = d1 ++ (size_at h x, true) :: d2 /\ x = b + total d1.
Proof.
  intros Hx. pose proof F as []. rewrite fr_rest0 in Hx.
  destruct (free_addrs_split _ _ _ _ fr_tiles0 Hx) as (d1 & v & d2 & E & -> & Es).
  unfold size_at. rewrite Es. eauto.
Qed.

Lemma fr_mapped x : x ∈ N :: rest -> mapped s x = true.
Proof.
  intros [->|Hx]%elem_of_cons; pose proof F as [].
  - rewrite fr_addr0. by eapply tiles_mapped.
  - destruct (fr_in _ Hx) as (d1 & d2 & E & ->). by eapply tiles_mapped.
Qed.

Lemma fr_NoDup : NoDup (N :: rest).
Proof.
  pose proof fr_parts as (Ht1 & H8 & ? & ? & Ht2). unfold sizeof_Node in H8. constructor.
  - rewrite fr_perm. intros [Hx|Hx]%elem_of_app.
    + pose proof (free_addrs_range _ _ _ _ Ht1 Hx). pose proof F as []. unfold sizeof_Node in *. lia.
    + pose proof (free_addrs_range _ _ _ _ Ht2 Hx). lia.
  - pose proof F as []. rewrite fr_rest0. by eapply free_addrs_NoDup.
Qed.

(** Neighbours in the list are the chunks next to the freed one. *)
Lemma fr_left x : x ∈ rest -> N = x + size_at h x ->
  exists d1, c1 = d1 ++ [(size_at h x, true)] /\ x = b + total d1.
Proof.
  pose proof fr_parts as (Ht1 & H8 & ? & ? & Ht2). unfold sizeof_Node in H8.
  intros Hx E. rewrite fr_perm in Hx. apply elem_of_app in Hx as [Hx|Hx].
  - destruct (free_addrs_split _ _ _ _ Ht1 Hx) as (d1 & v & d2 & -> & Ex & Es).
    apply tiles_app in Ht1 as [_ (_ & _ & _ & Ht1)]. pose proof F as []. rewrite total_app in fr_addr0. simpl in fr_addr0.
    fold (size_at h x) in Es. rewrite Es in *.
    rewrite (tiles_total_0 _ _ d2 Ht1) by lia. eauto.
  - pose proof (free_addrs_range _ _ _ _ Ht2 Hx).
    destruct (free_addrs_split _ _ _ _ Ht2 Hx) as (d1 & v & d2 & -> & Ex & Es).
    apply tiles_app in Ht2 as [_ (Hv & _)]. fold (size_at h x) in Es. unfold sizeof_Node in *. lia.
Qed.

Lemma fr_right x : x ∈ rest -> x = N + size_at h N ->
  exists d2, c2 = (size_at h x, true) :: d2.
Proof.
  pose proof fr_parts as (Ht1 & H8 & ? & Es & Ht2). unfold sizeof_Node in H8. rewrite Es.
  intros Hx E. rewrite fr_perm in Hx. apply elem_of_app in Hx as [Hx|Hx].
  - pose proof (free_addrs_range _ _ _ _ Ht1 Hx). pose proof F as []. unfold sizeof_Node in *. lia.
  - destruct (free_addrs_split _ _ _ _ Ht2 Hx) as (d1 & v & d2 & -> & Ex & Ev).
    apply tiles_app in Ht2 as [Ht2 _].
    rewrite (tiles_total_0 _ _ d1 Ht2) by lia. simpl. unfold size_at. rewrite Ev. eauto.
Qed.

Lemma fr_left_ex : last_free false c1 = true ->
  exists x, x ∈ rest /\ N = x + size_at h x.
Proof.
  pose proof fr_parts as (Ht1 & _). pose proof fr_perm as Hp. pose proof (fr_addr _ _ _ _ _ _ F) as Ha.
  clear F. destruct c1 as [|[sx f] d1 _] using rev_ind; [done|]. rewrite last_free_snoc. intros ->.
  apply tiles_app in Ht1 as [_ (_ & _ & Es & _)].
  exists (b + total d1). rewrite Hp, free_addrs_app. split; [simpl; set_solver|].
  unfold size_at. rewrite Es, Ha, total_app. simpl. lia.
Qed.

Lemma fr_right_ex : hd_free c2 = true ->
  exists x, x ∈ rest /\ x = N + size_at h N.
Proof.
  pose proof fr_parts as (_ & _ & _ & -> & _). pose proof fr_perm as Hp.
  clear F. destruct c2 as [|[sx f] d2]; simpl; [done|]. intros ->.
  exists (N + sz). split; [|done]. rewrite Hp. simpl. set_solver.
Qed.
End Freeing.

Lemma freeing_perm s N sz c1 c2 l l' : l ≡ₚ l' -> freeing s N sz c1 c2 l -> freeing s N sz c1 c2 l'.
Proof. intros Hp []. constructor; try done. by rewrite <- Hp. Qed.

Lemma absorb_left s s' N sz d1 sx c2 x rest :
  freeing s N sz (d1 ++ [(sx, true)]) c2 (x :: rest) ->
  x = fst (region s) + total d1 -> size_at (heap s) x = sx ->
  resized (heap s) (heap s') x (size_at (heap s) x + size_at (heap s) N) ->
  region s' = region s ->
  freeing s' x (sx + sz) d1 c2 rest /\ last_free false d1 = false.
Proof.
  intros F Ex Es Hr Hreg.
  pose proof (fr_parts _ _ _ _ _ _ F) as (Ht1 & H8 & Hd & HsN & Ht2).
  pose proof (fr_perm _ _ _ _ _ _ F) as Hp. destruct F.
  rewrite <- (assoc_L (++)) in *. simpl in *.
  apply tiles_app in fr_tiles0 as [Hd1 (H8' & Hd' & Hs' & Ht)]. simpl in Ht.
  rewrite total_app in fr_total0, fr_addr0. simpl in fr_total0, fr_addr0.
  apply coal_app in fr_coal3 as [Hc1 Hc2]. simpl in Hc2. unfold sizeof_Node in *.
  assert (Hlf : last_free false d1 = false) by (destruct (last_free false d1); naive_solver).
  split; [|done]. constructor; rewrite ?Hreg; try done.
  - rewrite total_app. simpl. lia.
  - apply tiles_app. split; [eapply tiles_resized; [done| |done]; lia|].
    simpl. rewrite <- Ex. specialize (Hr x) as Hrx. rewrite decide_True in Hrx by done.
    fold (size_at (heap s') x). unfold sizeof_Node. split_and!; [lia|by apply Z.divide_add_r|lia|].
    replace (x + (sx + sz)) with (N + sz) by lia.
    eapply tiles_resized; [done| |done]. lia.
  - rewrite free_addrs_app in fr_rest0. rewrite free_addrs_app. simpl in *.
    rewrite <- Ex in *. rewrite <- Permutation_middle in fr_rest0.
    apply Permutation_cons_inv in fr_rest0. rewrite fr_rest0.
    by replace (x + (sx + sz)) with (x + sx + sz) by lia.
Qed.

Lemma absorb_right s s' N sz c1 sx d2 x rest :
  freeing s N sz c1 ((sx, true) :: d2) (x :: rest) ->
  x = N + sz -> size_at (heap s) x = sx ->
  resized (heap s) (heap s') N (size_at (heap s) x + size_at (heap s) N) ->
  region s' = region s ->
  freeing s' N (sz + sx) c1 d2 rest /\ hd_free d2 = false.
Proof.
  intros F Ex Es Hr Hreg.
  pose proof (fr_parts _ _ _ _ _ _ F) as (Ht1 & H8 & Hd & HsN & Ht2).
  destruct F. simpl in Ht2. destruct Ht2 as (H8' & Hd' & _ & Ht2).
  rewrite total_app in fr_total0. simpl in fr_total0. simpl in fr_coal4.
  pose proof (tiles_total_nonneg _ _ _ Ht1). unfold sizeof_Node in *.
  split; [|by destruct d2 as [|[? []]]; simpl in *; naive_solver].
  constructor; rewrite ?Hreg; try done.
  - rewrite total_app. simpl. lia.
  - apply tiles_app. split; [eapply tiles_resized; [done| |done]; lia|].
    simpl. rewrite <- fr_addr0. specialize (Hr N) as HrN. rewrite decide_True in HrN by done.
    fold (size_at (heap s') N). unfold sizeof_Node. split_and!; [lia|by apply Z.divide_add_r|lia|].
    replace (N + (sz + sx)) with (N + sz + sx) by lia.
    eapply tiles_resized; [done| |done]. lia.
  - rewrite free_addrs_app in fr_rest0. rewrite free_addrs_app. simpl in *.
    rewrite <- fr_addr0, <- Ex in *. rewrite <- Permutation_middle in fr_rest0.
    apply Permutation_cons_inv in fr_rest0. rewrite fr_rest0.
    by replace (N + (sz + sx)) with (N + sz + sx) by lia; rewrite Ex.
  - destruct fr_coal4 as [_ Hc]. by eapply coal_weaken.
Qed.

Lemma freeing_finish s H tot d1 d2 rest :
  freeing s H tot d1 d2 rest -> last_free false d1 = false -> hd_free d2 = false ->
  seg (heap s) (headFree s) (H :: rest) NULL ->
  heap_inv s (d1 ++ (tot, true) :: d2) (H :: rest) /\ coal false (d1 ++ (tot, true) :: d2).
Proof.
  intros [] Hl Hh Hs. split.
  - apply tiles_app in fr_tiles0. rewrite total_app in fr_total0. rewrite free_addrs_app in fr_rest0.
    constructor; try done.
    + by rewrite total_app.
    + by apply tiles_app.
    + rewrite free_addrs_app. simpl in *. rewrite <- fr_addr0 in *. rewrite fr_rest0. apply Permutation_middle.
  - apply coal_app. split; [done|]. simpl. rewrite Hl. split; [done|].
    destruct d2 as [|[? f] d2]; [done|]. simpl in *. subst f. tauto.
Qed.

(** The chunk list after freeing the chunk of size [sz] between [c1] and
    [c2]: merged with each neighbour that is free. *)
Definition merge_left (c1 : list chunk) : list chunk * Z :=
  match last c1 with
  | Some (sx, true) => (take (Nat.pred (length c1)) c1, sx)
  | _ => (c1, 0)
  end.
Definition merge_right (c2 : list chunk) : list chunk * Z :=
  match c2 with
  | (sx, true) :: d2 => (d2, sx)
  | _ => (c2, 0)
  end.
Definition merge_free (c1 : list chunk) (sz : Z) (c2 : list chunk) : list chunk :=
  (merge_left c1).1 ++ ((merge_left c1).2 + sz + (merge_right c2).2, true) :: (merge_right c2).1.

Lemma merge_left_snoc d1 sx : merge_left (d1 ++ [(sx, true)]) = (d1, sx).
Proof.
  unfold merge_left. rewrite last_snoc, length_app. simpl. 
  by rewrite Nat.add_1_r; simpl; rewrite take_app_length.
Qed.

Lemma merge_left_none c1 : last_free false c1 = false -> merge_left c1 = (c1, 0).
Proof.
  destruct c1 as [|[sx f] d1 _] using rev_ind; [done|]. rewrite last_free_snoc. intros ->.
  unfold merge_left. by rewrite last_snoc.
Qed.

Lemma merge_right_none c2 : hd_free c2 = false -> merge_right c2 = (c2, 0).
Proof. destruct c2 as [|[? []]]; simpl; [done|discriminate|done]. Qed.

#[local] Instance neighbor_dec h N x : Decision (neighbor h N x).
Proof. unfold neighbor. apply _. Defined.

(** A list either has no element satisfying [P], or splits at the first. *)
Lemma first_split {A} (P : A -> Prop) `{!forall x, Decision (P x)} (l : list A) :
  (forall x, x ∈ l -> ~ P x) \/
  exists l1 x l2, l = l1 ++ x :: l2 /\ (forall y, y ∈ l1 -> ~ P y) /\ P x.
Proof.
  induction l as [|a l IH]; [left; by intros x ?%elem_of_nil|].
  destruct (decide (P a)) as [Ha|Ha].
  - right. exists [], a, l. split_and!; [done|by intros y ?%elem_of_nil|done].
  - destruct IH as [IH|(l1 & x & l2 & -> & H1 & H2)].
    + left. intros x [->|?]%elem_of_cons; auto.
    + right. exists (a :: l1), x, l2. split_and!; [done| |done].
      intros y [->|?]%elem_of_cons; auto.
Qed.

Lemma scan_none l fuel s node p prev co :
  (forall x, x ∈ l -> mapped s x = true /\ ~ neighbor (heap s) node x) ->
  mapped s node = true -> seg (heap s) p l NULL -> (length l < fuel)%nat ->
  neighbor_loop fuel node p prev co s = Ret (inr (node, co), s).
Proof.
  intros Hl Hm Hs Hf.
  replace fuel with (length l + S (fuel - S (length l)))%nat by lia.
  destruct (scan_skip l (S (fuel - S (length l))) s node p prev co []) as (q & Hq & _ & ->);
    [done|done|by rewrite app_nil_r|].
  simpl in *. by rewrite Hq.
Qed.

Lemma freeing_in_s32 s N sz c1 c2 l x :
  freeing s N sz c1 c2 l -> x ∈ l -> in_s32 (size_at (heap s) x + size_at (heap s) N).
Proof.
  intros F Hx. pose proof (fr_parts _ _ _ _ _ _ F) as (Ht1 & H8 & _ & -> & Ht2).
  pose proof (fr_perm _ _ _ _ _ _ F) as Hp. pose proof (fr_bounds _ _ _ _ _ _ F) as (Hb & HbN & He & He2 & H0).
  pose proof (fr_addr _ _ _ _ _ _ F) as Ha. rewrite Hp in Hx. unfold sizeof_Node in *.
  unfold in_s32. apply elem_of_app in Hx as [Hx|Hx].
  - destruct (free_addrs_split _ _ _ _ Ht1 Hx) as (d1 & v & d2 & -> & Ex & Ev).
    unfold size_at. rewrite Ev. rewrite total_app in Ha. simpl in Ha.
    apply tiles_app in Ht1 as [Hd1 (? & _ & _ & Hd2)]. unfold sizeof_Node in *.
    pose proof (tiles_total_nonneg _ _ _ Hd1). pose proof (tiles_total_nonneg _ _ _ Hd2). lia.
  - destruct (free_addrs_split _ _ _ _ Ht2 Hx) as (d1 & v & d2 & -> & Ex & Ev).
    unfold size_at. rewrite Ev. rewrite total_app in He. simpl in He.
    apply tiles_app in Ht2 as [Hd1 (? & _ & _ & Hd2)]. unfold sizeof_Node in *.
    pose proof (tiles_total_nonneg _ _ _ Hd1). pose proof (tiles_total_nonneg _ _ _ Hd2). lia.
Qed.

(** What the scan has established when it ends with the chunk coalesced. *)
Definition scan_result (s : mstate) (m : res ((Z + Z * bool) * mstate)) (cs : list chunk) : Prop :=
  exists r s' l', m = Ret (r, s') /\ (forall n, r <> inr (n, false)) /\
    heap_inv s' cs l' /\ coal false cs /\ region s' = region s.

Lemma scan_result_region s s' m cs : region s' = region s -> scan_result s' m cs -> scan_result s m cs.
Proof. intros Hr (r & t & l & ? & ? & ? & ? & ?). exists r, t, l. by rewrite <- Hr. Qed.

Lemma second_pass s H tot d1 d2 pre post q fuel :
  freeing s H tot d1 d2 (pre ++ post) ->
  seg (heap s) (headFree s) (H :: pre ++ post) NULL ->
  seg (heap s) q post NULL -> (length post < fuel)%nat ->
  last_free false d1 && hd_free d2 = false ->
  (forall y, y ∈ pre -> ~ neighbor (heap s) H y) ->
  scan_result s (neighbor_loop fuel H q (last_or H pre) true s) (merge_free d1 tot d2).
Proof.
  intros F Hs Hq Hf Hboth Hpre.
  assert (Hm : forall y, y ∈ H :: pre ++ post -> mapped s y = true) by apply (fr_mapped _ _ _ _ _ _ F).
  pose proof (fr_NoDup _ _ _ _ _ _ F) as Hnd.
  destruct (first_split (neighbor (heap s) H) post) as [Hno|(p1 & y & p2 & -> & Hp1 & Hy)].
  - rewrite scan_none with (l := post); [|by intros x ?; split; [apply Hm; set_solver|auto]|apply Hm; set_solver|done|done].
    assert (Hl0 : last_free false d1 = false).
    { destruct (last_free false d1) eqn:E; [|done].
      destruct (fr_left_ex _ _ _ _ _ _ F E) as (z & Hz & Ez).
      apply elem_of_app in Hz as [Hz|Hz]; [destruct (Hpre z)|destruct (Hno z)]; by try left. }
    assert (Hh0 : hd_free d2 = false).
    { destruct (hd_free d2) eqn:E; [|done].
      destruct (fr_right_ex _ _ _ _ _ _ F E) as (z & Hz & Ez).
      apply elem_of_app in Hz as [Hz|Hz]; [destruct (Hpre z)|destruct (Hno z)]; by try right. }
    unfold merge_free. rewrite merge_left_none, merge_right_none by done. simpl.
    destruct (freeing_finish _ _ _ _ _ _ F Hl0 Hh0 Hs) as [Hi Hc].
    replace (0 + tot + 0) with tot by lia. exists (inr (H, true)), s, (H :: pre ++ post).
    by split_and!.
  - destruct (scan_skip p1 (fuel - length p1) s H q (last_or H pre) true (y :: p2)) as (q' & Hq' & _ & E).
    { intros x Hx. split; [apply Hm; set_solver|auto]. }
    { apply Hm. set_solver. }
    { done. }
    rewrite length_app in Hf. simpl in Hf.
    replace (length p1 + (fuel - length p1))%nat with fuel in E by lia. rewrite E. clear E.
    simpl in Hq'. destruct Hq' as (-> & Hy0 & Hq').
    assert (Hlast : last_or (last_or H pre) p1 = last_or H (pre ++ p1)).
    { destruct p1 as [|? ? _] using rev_ind; [by rewrite app_nil_r|]. by rewrite (assoc_L (++)), !last_or_snoc. }
    rewrite Hlast. replace (fuel - length p1)%nat with (S (fuel - length p1 - 1)) by lia.
    rewrite (assoc_L (++)) in Hs, Hnd, Hm, F.
    assert (Hov : in_s32 (size_at (heap s) y + size_at (heap s) H)) by (eapply freeing_in_s32; [done|set_solver]).
    assert (F' : freeing s H tot d1 d2 (y :: (pre ++ p1) ++ p2)) by (eapply freeing_perm; [|done]; by rewrite <- Permutation_middle).
    pose proof (fr_parts _ _ _ _ _ _ F) as (_ & _ & _ & EsH & _).
    destruct (decide (H = y + size_at (heap s) y)) as [EL|EL].
    + destruct (hit_left_second s H y (pre ++ p1) p2 Hs Hnd Hm Hov (fuel - length p1 - 1) EL) as (s' & E & Hs' & Hr & Hreg). rewrite E.
      destruct (fr_left _ _ _ _ _ _ F' y) as (e1 & -> & Ey); [set_solver|done|].
      rewrite last_free_snoc in Hboth. simpl in Hboth.
      destruct (absorb_left _ s' _ _ _ _ _ _ _ F' Ey eq_refl Hr Hreg) as [F2 Hl0].
      destruct (freeing_finish _ _ _ _ _ _ F2 Hl0 Hboth Hs') as [Hi Hc].
      unfold merge_free. rewrite merge_left_snoc, merge_right_none by done. simpl. rewrite Z.add_0_r.
      exists (inl y), s', (y :: (pre ++ p1) ++ p2). by split_and!.
    + destruct Hy as [?|ER]; [done|].
      destruct (hit_right_second s H y (pre ++ p1) p2 Hs Hnd Hm Hov (fuel - length p1 - 1) EL ER) as (s' & E & Hs' & Hr & Hreg). rewrite E.
      destruct (fr_right _ _ _ _ _ _ F' y) as (e2 & ->); [set_solver|done|].
      simpl in Hboth. rewrite andb_true_r in Hboth.
      destruct (absorb_right _ s' _ _ _ _ _ _ _ F' (eq_trans ER (f_equal _ EsH)) eq_refl Hr Hreg) as [F2 Hh0].
      destruct (freeing_finish _ _ _ _ _ _ F2 Hboth Hh0 Hs') as [Hi Hc].
      unfold merge_free. rewrite merge_left_none by done. simpl.
      exists (inl H), s', (H :: (pre ++ p1) ++ p2). by split_and!.
Qed.

Lemma heap_inv_freeing s c1 sz c2 l :
  heap_inv s (c1 ++ (sz, false) :: c2) l -> coal false (c1 ++ (sz, false) :: c2) ->
  freeing s (fst (region s) + total c1) sz c1 c2 l.
Proof.
  intros [] Hc. apply coal_app in Hc as [? Hc2]. simpl in Hc2. destruct Hc2 as [_ ?].
  by constructor.
Qed.

Lemma findNeighborNode_none s N sz c1 c2 l fuel :
  freeing s N sz c1 c2 l -> seg (heap s) (headFree s) l NULL -> (length l < fuel)%nat ->
  (forall x, x ∈ l -> ~ neighbor (heap s) N x) ->
  exists s' l', findNeighborNode fuel N s = Ret (N, s') /\
    heap_inv s' (merge_free c1 sz c2) l' /\ coal false (merge_free c1 sz c2) /\ region s' = region s.
Proof.
  intros F Hs Hf Hno. unfold findNeighborNode.
  assert (Hm : forall y, y ∈ N :: l -> mapped s y = true) by apply (fr_mapped _ _ _ _ _ _ F).
  assert (HmN : mapped s N = true) by (apply Hm; set_solver).
  rewrite (bind_Ret get _ _ _ _ eq_refl).
  rewrite (bind_Ret _ _ _ (inr (N, false)) s).
  2:{ apply scan_none with (l := l); [|done..]. intros x ?; split; [apply Hm; set_solver|auto]. }
  simpl. set (hA := <[N := mkNode (size (node_at (heap s) N)) (headFree s)]> (heap s)).
  exists (set_headFree N (set_heap (fun _ => hA) s)), (N :: l). split.
  { unfold mbind, M_bind, get, modify, mret, M_ret. by rewrite store_next_ok. }
  assert (Hl0 : last_free false c1 = false).
  { destruct (last_free false c1) eqn:E; [|done].
    destruct (fr_left_ex _ _ _ _ _ _ F E) as (z & Hz & Ez). destruct (Hno z Hz). by left. }
  assert (Hh0 : hd_free c2 = false).
  { destruct (hd_free c2) eqn:E; [|done].
    destruct (fr_right_ex _ _ _ _ _ _ F E) as (z & Hz & Ez). destruct (Hno z Hz). by right. }
  unfold merge_free. rewrite merge_left_none, merge_right_none by done. simpl.
  replace (0 + sz + 0) with sz by lia.
  pose proof (fr_NoDup _ _ _ _ _ _ F) as [HNl _]%NoDup_cons.
  assert (F' : freeing (set_headFree N (set_heap (fun _ => hA) s)) N sz c1 c2 l).
  { destruct F. constructor; try done. by apply tiles_next. }
  apply freeing_finish in F' as [? ?]; [done..|]. simpl. split_and!; [done| |].
  - unfold mapped in HmN. destruct (bool_decide_reflect (N <> NULL)); [done|discriminate].
  - unfold hA at 2. rewrite node_at_eq. simpl. by apply seg_frame.
Qed.

Lemma merge_free_left d1 sx sz c2 :
  last_free false d1 = false -> merge_free (d1 ++ [(sx, true)]) sz c2 = merge_free d1 (sx + sz) c2.
Proof.
  intros Hl. unfold merge_free. rewrite merge_left_snoc, (merge_left_none d1) by done.
  simpl. do 3 f_equal.
Qed.

Lemma merge_free_right c1 sz sx d2 :
  hd_free d2 = false -> merge_free c1 sz ((sx, true) :: d2) = merge_free c1 (sz + sx) d2.
Proof.
  intros Hh. unfold merge_free. rewrite (merge_right_none d2) by done. simpl. do 3 f_equal. lia.
Qed.

Lemma findNeighborNode_ok s N sz c1 c2 l fuel :
  freeing s N sz c1 c2 l -> seg (heap s) (headFree s) l NULL -> (length l < fuel)%nat ->
  exists p s' l', findNeighborNode fuel N s = Ret (p, s') /\
    heap_inv s' (merge_free c1 sz c2) l' /\ coal false (merge_free c1 sz c2) /\ region s' = region s.
Proof.
  intros F Hs Hf.
  destruct (first_split (neighbor (heap s) N) l) as [Hno|(pre & x & post & -> & Hpre & Hx)].
  { destruct (findNeighborNode_none _ _ _ _ _ _ _ F Hs Hf Hno) as (s' & l' & ?). by exists N, s', l'. }
  assert (Hm : forall y, y ∈ N :: pre ++ x :: post -> mapped s y = true) by apply (fr_mapped _ _ _ _ _ _ F).
  pose proof (fr_NoDup _ _ _ _ _ _ F) as [HN Hnd]%NoDup_cons.
  assert (HmN : mapped s N = true) by (apply Hm; set_solver).
  assert (HN0 : N <> NULL) by (unfold mapped in HmN; destruct (bool_decide_reflect (N <> NULL)); [done|discriminate]).
  destruct (scan_skip pre (fuel - length pre) s N (headFree s) NULL false (x :: post)) as (q' & Hq' & _ & E);
    [intros y Hy; split; [apply Hm; set_solver|auto]|done|done|].
  simpl in Hq'. destruct Hq' as (-> & Hx0 & Hq').
  rewrite length_app in Hf. simpl in Hf.
  replace (length pre + (fuel - length pre))%nat with fuel in E by lia.
  set (f := (fuel - length pre - 1)%nat). replace (fuel - length pre)%nat with (S f) in E by lia.
  assert (Hov : in_s32 (size_at (heap s) x + size_at (heap s) N)) by (eapply freeing_in_s32; [done|set_solver]).
  assert (F' : freeing s N sz c1 c2 (x :: pre ++ post)) by (eapply freeing_perm; [|done]; by rewrite <- Permutation_middle).
  pose proof (fr_parts _ _ _ _ _ _ F) as (_ & _ & _ & EsN & _).
  assert (Hm' : forall y, y ∈ pre ++ x :: post -> mapped s y = true) by set_solver.
  enough (Hres : scan_result s (neighbor_loop fuel N (headFree s) NULL false s) (merge_free c1 sz c2)).
  { destruct Hres as (r & s' & l' & Er & Hr & Hi & Hc & Hreg). unfold findNeighborNode.
    rewrite (bind_Ret get _ _ _ _ eq_refl), (bind_Ret _ _ _ _ _ Er).
    destruct r as [p|[n []]]; [by exists p, s', l'|by exists n, s', l'|by destruct (Hr n)]. }
  rewrite E. destruct (decide (N = x + size_at (heap s) x)) as [EL|EL].
  - destruct (hit_left_first s N x pre post Hs Hnd Hm' HmN HN0 Hov f EL) as (s' & q & -> & Hqs & Hs' & Hr & Hreg).
    destruct (fr_left _ _ _ _ _ _ F' x) as (d1 & -> & Ex); [set_solver|done|].
    destruct (absorb_left _ s' _ _ _ _ _ _ _ F' Ex eq_refl Hr Hreg) as [F2 Hl0].
    rewrite merge_free_left by done. eapply scan_result_region; [exact Hreg|].
    eapply (second_pass s' x _ d1 c2 pre post); [done..|lia|by rewrite Hl0|].
    intros y Hy [E2|E2].
    + destruct (fr_left _ _ _ _ _ _ F2 y) as (e & -> & _); [set_solver|done|]. by rewrite last_free_snoc in Hl0.
    + apply (Hpre y Hy). right. pose proof (fr_parts _ _ _ _ _ _ F2) as (_ & _ & _ & Es2 & _). lia.
  - destruct Hx as [?|ER]; [done|].
    destruct (hit_right_first s N x pre post Hs Hnd Hm' HmN HN0 Hov f EL ER HN) as (s' & q & -> & Hqs & Hs' & Hr & Hreg).
    destruct (fr_right _ _ _ _ _ _ F' x) as (d2 & ->); [set_solver|done|].
    destruct (absorb_right _ s' _ _ _ _ _ _ _ F' (eq_trans ER (f_equal _ EsN)) eq_refl Hr Hreg) as [F2 Hh0].
    rewrite merge_free_right by done. eapply scan_result_region; [exact Hreg|].
    eapply (second_pass s' N _ c1 d2 pre post); [done..|lia|by rewrite Hh0, andb_false_r|].
    intros y Hy [E2|E2].
    + apply (Hpre y Hy). left. assert (size_at (heap s') y = size_at (heap s) y) as <-; [|done].
      rewrite (Hr y), decide_False; [done|]. intros ->. apply HN, elem_of_app. by left.
    + destruct (fr_right _ _ _ _ _ _ F2 y) as (e & ->); [set_solver|done|]. done.
Qed.

(** ** The allocator as its clients see it *)

(** Enough steps for any walk of the free list: one per 8 bytes of region. *)
Definition walk_fuel (s : mstate) : nat := S (Z.to_nat (snd (region s) / 8)).

Lemma free_addrs_length h a cs : tiles h a cs -> 8 * Z.of_nat (length (free_addrs a cs)) <= total cs.
Proof.
  revert a. induction cs as [|[sz f] cs IH]; intros a; simpl; [lia|].
  unfold sizeof_Node. intros (? & _ & _ & Ht). specialize (IH _ Ht).
  destruct f; simpl; lia.
Qed.

Lemma heap_inv_fuel s cs l : heap_inv s cs l -> (length l < walk_fuel s)%nat.
Proof.
  intros []. rewrite hi_free0. pose proof (free_addrs_length _ _ _ hi_tiles0).
  unfold walk_fuel. pose proof (Z.div_mod (snd (region s)) 8 ltac:(lia)).
  pose proof (Z.mod_pos_bound (snd (region s)) 8 ltac:(lia)). lia.
Qed.

Lemma chunk_size_fits r sz :
  0 <= r < 2 ^ 31 - 16 -> (8 | sz) -> r + sizeof_Node <= sz -> chunk_size r <= sz.
Proof.
  intros Hr [k ->] Hle. destruct (chunk_size_spec r Hr) as [[j ->] [? ?]]. unfold sizeof_Node in *. lia.
Qed.

Lemma chunk_size_pos r : 0 <= r < 2 ^ 31 - 16 -> sizeof_Node <= chunk_size r.
Proof. intros Hr. destruct (chunk_size_spec r Hr). unfold sizeof_Node in *. lia. Qed.

(** The largest free chunk of [cs] is [sz]. *)
Definition largest_free (cs : list chunk) (sz : Z) : Prop :=
  forall v, (v, true) ∈ cs -> v <= sz.

Lemma chunk_in_free h a cs v : tiles h a cs -> (v, true) ∈ cs ->
  exists x, x ∈ free_addrs a cs /\ size_at h x = v.
Proof.
  revert a. induction cs as [|[sz f] cs IH]; intros a; simpl; [by intros _ ?%elem_of_nil|].
  intros (_ & _ & Hs & Ht) [E|Hin]%elem_of_cons.
  - simplify_eq. exists a. split; [set_solver|done].
  - destruct (IH _ Ht Hin) as (x & Hx & Es). exists x. split; [set_solver|done].
Qed.

(** The three ways [Mem_Alloc] can go on a non-empty free list, before the
    exact-fit case is split off. *)
Lemma Mem_Alloc_cases s cs l r :
  heap_inv s cs l -> l <> [] -> 0 <= r < 2 ^ 31 - 16 ->
  exists l1 w l2 c1 c2, l = l1 ++ w :: l2 /\
    let s1 := set_listPrev (last_or NULL l1) s in
    let sz := size_at (heap s) w in
    cs = c1 ++ (sz, true) :: c2 /\ at_chunk s1 w sz c1 c2 l1 l2 /\ largest_free cs sz /\
    Mem_Alloc (walk_fuel s) r s =
      if bool_decide (r + sizeof_Node <= sz) then chunkNode w r s1
      else Ret (NULL, set_error E_NO_SPACE s1).
Proof.
  intros Hi Hne Hr.
  destruct (getWorstFit_ok s cs l (walk_fuel s) r Hi Hne (heap_inv_fuel _ _ _ Hi)) as (l1 & w & l2 & -> & Hmax & E).
  set (s1 := set_listPrev (last_or NULL l1) s) in *.
  assert (Hi1 : heap_inv s1 cs (l1 ++ w :: l2)) by (by destruct Hi).
  destruct (at_chunk_intro _ _ _ _ _ Hi1) as (c1 & c2 & Ecs & Hat).
  exists l1, w, l2, c1, c2. split; [done|]. cbv zeta. fold s1.
  change (size_at (heap s1) w) with (size_at (heap s) w) in *.
  split_and!; [done|done| |].
  - intros v Hv. destruct Hi. destruct (chunk_in_free _ _ _ _ hi_tiles0 Hv) as (x & Hx & <-).
    apply Hmax. by rewrite hi_free0.
  - unfold Mem_Alloc. rewrite (bind_Ret _ _ _ _ _ E).
    pose proof (ac_bounds _ _ _ _ _ _ _ Hat) as (Hb & Hbw & He & He2 & H0).
    pose proof (ac_here _ _ _ _ _ _ _ Hat) as (H8 & _ & _ & _). unfold sizeof_Node in *.
    rewrite !u32_small by (unfold in_u32; lia).
    destruct (Z.leb_spec (r + 8) (size_at (heap s) w)).
    + rewrite bool_decide_true by done. 
      rewrite (proj2 (Z.eqb_neq w NULL)); [done|]. unfold NULL. lia.
    + by rewrite bool_decide_false by lia.
Qed.

(** C28: On a well-formed heap whose largest free chunk is strictly larger than
    the rounded request, [Mem_Alloc] splits a largest free chunk: it returns
    the address after the header of its first [chunk_size r] bytes, and the
    chunks tile the region as before except for that split. *)
Theorem Mem_Alloc_splits_worst_fit s cs l r :
  heap_inv s cs l -> 0 <= r < 2 ^ 31 - 16 ->
  (exists sz, (sz, true) ∈ cs /\ chunk_size r < sz) ->
  exists c1 sz c2 s' l',
    cs = c1 ++ (sz, true) :: c2 /\ largest_free cs sz /\
    Mem_Alloc (walk_fuel s) r s = Ret (fst (region s) + total c1 + sizeof_Node, s') /\
    heap_inv s' (c1 ++ (chunk_size r, false) :: (sz - chunk_size r, true) :: c2) l' /\
    region s' = region s /\ m_error s' = m_error s.
Proof.
  intros Hi Hr (v & Hv & Hlt).
  assert (Hne : l <> []).
  { intros ->. destruct Hi. destruct (chunk_in_free _ _ _ _ hi_tiles0 Hv) as (x & Hx & _).
    rewrite <- hi_free0 in Hx. set_solver. }
  destruct (Mem_Alloc_cases s cs l r Hi Hne Hr) as (l1 & w & l2 & c1 & c2 & -> & Ecs & Hat & Hlf & E).
  set (sz := size_at (heap s) w) in *.
  pose proof (Hlf _ Hv). destruct (chunk_size_spec r Hr) as [Hd Hle].
  rewrite bool_decide_true in E by lia.
  rewrite (chunkNode_split _ _ _ _ _ _ _ _ Hat) in E by (try done; lia).
  exists c1, sz, c2, (split_state (set_listPrev (last_or NULL l1) s) l1 w (chunk_size r)), (l1 ++ (w + chunk_size r) :: l2).
  split_and!; [done|done| | |done|done].
  - rewrite E. pose proof (ac_addr _ _ _ _ _ _ _ Hat) as ->. done.
  - apply (split_inv _ _ _ _ _ _ _ Hat); [by apply chunk_size_pos|done|lia].
Qed.

(** When no free chunk can hold request and header, [Mem_Alloc] returns
    NULL with [m_error = E_NO_SPACE] and leaves heap and free list alone. *)
Theorem Mem_Alloc_no_space s cs l r :
  heap_inv s cs l -> l <> [] -> 0 <= r < 2 ^ 31 - 16 ->
  (forall sz, (sz, true) ∈ cs -> sz < r + sizeof_Node) ->
  exists s', Mem_Alloc (walk_fuel s) r s = Ret (NULL, s') /\
    m_error s' = E_NO_SPACE /\ heap s' = heap s /\ heap_inv s' cs l.
Proof.
  intros Hi Hne Hr Hsmall.
  destruct (Mem_Alloc_cases s cs l r Hi Hne Hr) as (l1 & w & l2 & c1 & c2 & -> & Ecs & Hat & Hlf & E).
  rewrite bool_decide_false in E.
  2:{ apply Z.lt_nge, Hsmall. rewrite Ecs. set_solver. }
  eexists. split; [exact E|]. split_and!; [done..|]. by destruct Hi.
Qed.

(** [Mem_Alloc] on an empty free list does not report [E_NO_SPACE]: the
    scan ends with [worst] null and the size test dereferences it. *)
Theorem Mem_Alloc_exhausted_undefined s r fuel :
  headFree s = NULL -> Mem_Alloc (S fuel) r s = Undef "invalid node pointer".
Proof.
  intros H. unfold Mem_Alloc, getWorstFit. unfold mbind, M_bind, get. simpl. rewrite H. simpl.
  done.
Qed.

(** The heap [chunkNode] leaves when the chunk fits exactly. *)
Lemma chunkNode_exact s w sz c1 c2 l1 l2 r :
  at_chunk s w sz c1 c2 l1 l2 -> listPrev s = last_or NULL l1 ->
  0 <= r < 2 ^ 31 - 16 -> chunk_size r = sz -> c2 <> [] ->
  exists s', chunkNode w r s = Ret (w + sizeof_Node, s') /\
    size_at (heap s') (w + sz) = 0 /\
    headFree s' = match l1 with [] => NULL | _ => headFree s end /\ region s' = region s.
Proof.
  intros H Hlp Hr E Hc2.
  pose proof (ac_here _ _ _ _ _ _ _ H) as (Hsz & Hszd & Hszw & Ht2).
  pose proof (ac_bounds _ _ _ _ _ _ _ H) as (Hb & Hbw & He & He2 & Htc2).
  assert (Hc : 8 <= total c2).
  { destruct c2 as [|[v f] c2]; [done|]. simpl in *. unfold sizeof_Node in *.
    destruct Ht2 as (? & _ & _ & Ht3). pose proof (tiles_total_nonneg _ _ _ Ht3). lia. }
  unfold sizeof_Node in *.
  assert (Hmw : mapped s w = true) by (eapply ac_mapped; eauto; unfold sizeof_Node; lia).
  assert (Hmn : mapped s (w + sz) = true).
  { unfold mapped, NULL, sizeof_Node. rewrite bool_decide_true by lia.
    apply andb_true_intro; split; [apply andb_true_intro; split|]; try done; apply Z.leb_le; lia. }
  unfold chunkNode, addSizeToNode. rewrite E.
  mem_step. fold (size_at (heap s) w). rewrite Hszw, s32_small by (unfold in_s32; lia).
  mem_step. mem_step. simpl (heap (set_heap _ _)). rewrite node_at_eq, Z.sub_diag. simpl (size _).
  mem_step. rewrite Z.eqb_refl, !andb_true_l.
  set (hA := <[w + sz := mkNode 0 (next (node_at (heap s) (w + sz)))]> (heap s)).
  destruct (ac_list _ _ _ _ _ _ _ H) as (HL & _ & _).
  pose proof (ac_NoDup _ _ _ _ _ _ _ H) as (Hw1 & _).
  assert (Hfin : forall h2, size_at h2 (w + sz) = 0 ->
    size_at (<[w := mkNode (size (node_at (<[w := mkNode sz (next (node_at h2 w))]> h2) w)) NULL]>
               (<[w := mkNode sz (next (node_at h2 w))]> h2)) (w + sz) = 0).
  { intros h2 Hh2. rewrite !size_at_insert, !decide_False by lia. done. }
  assert (HA : size_at hA (w + sz) = 0) by (unfold hA; rewrite size_at_insert, decide_True; done).
  destruct l1 as [|p l1 _] using rev_ind.
  - simpl listPrev. rewrite Hlp. change (last_or NULL []) with NULL. rewrite Z.eqb_refl. simpl negb. cbv iota.
    erewrite (bind_Ret (modify _) _ _ tt (set_headFree NULL (set_heap (fun _ => hA) s))) by done.
    mem_step. simpl headFree. rewrite (proj2 (Z.eqb_neq NULL w)) by (unfold NULL; lia).
    rewrite (bind_Ret (mret tt) _ _ _ _ eq_refl). mem_step. mem_step.
    eexists. split; [reflexivity|]. simpl. split; [by apply Hfin|done].
  - simpl listPrev. rewrite Hlp, last_or_snoc.
    assert (Hp : mapped s p = true) by (eapply ac_l1_mapped; eauto; set_solver).
    rewrite (proj2 (Z.eqb_neq p NULL)).
    2:{ intros ->. eapply (seg_NULL _ _ _ _ HL NULL); [set_solver|done]. }
    simpl negb. cbv iota. mem_step. mem_step. simpl headFree.
    rewrite (proj2 (Z.eqb_neq (headFree s) w)).
    2:{ intros E2. apply Hw1. rewrite <- E2. apply seg_head in HL; [|by destruct l1].
        apply head_Some in HL as [? ->]. set_solver. }
    rewrite (bind_Ret (mret tt) _ _ _ _ eq_refl). mem_step. mem_step.
    eexists. split; [reflexivity|]. simpl. split_and!; [|by destruct l1|done]. apply Hfin.
    rewrite size_at_insert. destruct (decide (w + sz = p)) as [<-|]; [|done].
    unfold size_at in HA. simpl. done.
Qed.

(** When the largest free chunk fits the request exactly, [chunkNode]
    still writes a remainder header: the chunk that follows, allocated or not,
    gets size 0 in its header; and if the chunk was the head of the free list,
    the list becomes empty however many free chunks it still had. *)
Theorem Mem_Alloc_exact_fit_corrupts s cs l r :
  heap_inv s cs l -> 0 <= r < 2 ^ 31 - 16 ->
  (chunk_size r, true) ∈ cs -> largest_free cs (chunk_size r) ->
  exists c1 c2, cs = c1 ++ (chunk_size r, true) :: c2 /\
    let w := fst (region s) + total c1 in
    (c2 <> [] -> exists s', Mem_Alloc (walk_fuel s) r s = Ret (w + sizeof_Node, s') /\
       size_at (heap s') (w + chunk_size r) = 0 /\
       (head l = Some w -> headFree s' = NULL)).
Proof.
  intros Hi Hr Hin Hmax.
  assert (Hne : l <> []).
  { intros ->. destruct Hi. destruct (chunk_in_free _ _ _ _ hi_tiles0 Hin) as (x & Hx & _).
    rewrite <- hi_free0 in Hx. set_solver. }
  destruct (Mem_Alloc_cases s cs l r Hi Hne Hr) as (l1 & w & l2 & c1 & c2 & -> & Ecs & Hat & Hlf & E).
  set (sz := size_at (heap s) w) in *. destruct (chunk_size_spec r Hr) as [_ Hle].
  assert (Esz : sz = chunk_size r).
  { apply Z.le_antisymm; [apply Hmax; rewrite Ecs; set_solver|by apply Hlf]. }
  rewrite bool_decide_true in E by lia. rewrite Esz in *.
  exists c1, c2. split; [done|]. cbv zeta. intros Hc2.
  pose proof (ac_addr _ _ _ _ _ _ _ Hat) as Ew. simpl in Ew.
  destruct (chunkNode_exact _ _ _ _ _ _ _ r Hat eq_refl Hr eq_refl Hc2) as (s' & E' & H0 & Hh & _).
  exists s'. rewrite <- Ew. split_and!; [by rewrite E|done|].
  intros Hhd. rewrite Hh. destruct l1 as [|a l1]; [done|]. simplify_eq/=.
  pose proof (heap_inv_NoDup _ _ _ Hi) as [Hnd _]%NoDup_cons. set_solver.
Qed.

(** C2: [Mem_Free] of an allocated chunk succeeds, marks it free and merges
    it with each free neighbour: the chunks tile the region again, the free
    list threads exactly the free ones, and no two of them are adjacent. *)
Theorem Mem_Free_coalesces s c1 sz c2 l :
  heap_inv s (c1 ++ (sz, false) :: c2) l -> coal false (c1 ++ (sz, false) :: c2) ->
  exists s' l',
    Mem_Free (walk_fuel s) (fst (region s) + total c1 + sizeof_Node) s = Ret (0, s') /\
    heap_inv s' (merge_free c1 sz c2) l' /\ coal false (merge_free c1 sz c2) /\
    region s' = region s.
Proof.
  intros Hi Hc. pose proof (heap_inv_freeing _ _ _ _ _ Hi Hc) as F.
  pose proof (fr_bounds _ _ _ _ _ _ F) as (Hb & HbN & _).
  destruct (findNeighborNode_ok _ _ _ _ _ _ (walk_fuel s) F (hi_list _ _ _ Hi) (heap_inv_fuel _ _ _ Hi))
    as (p & s' & l' & E & ?).
  exists s', l'. split; [|done]. unfold Mem_Free, sizeof_Node in *.
  rewrite (proj2 (Z.eqb_neq _ NULL)) by (unfold NULL; lia).
  replace (fst (region s) + total c1 + 8 - 8) with (fst (region s) + total c1) by lia.
  by rewrite (bind_Ret _ _ _ _ _ E).
Qed.

(** [Mem_Init] on a fresh allocator and a size that is a multiple of the
    page size maps that size and makes it one free chunk. *)
Theorem Mem_Init_one_chunk pagesize mmap n p :
  0 < n < 2 ^ 31 -> 0 < pagesize -> (8 | pagesize) -> (pagesize | n) ->
  mmap n = Some p -> 0 < p -> p + n < 2 ^ 31 ->
  exists s, Mem_Init pagesize mmap n initial = Ret (0, s) /\
    heap_inv s [(n, true)] [p] /\ region s = (p, n) /\ init s = 0.
Proof.
  intros Hn Hps H8 Hdiv Hmm Hp Hend. unfold Mem_Init.
  assert (8 | n) as H8n by (by etransitivity). assert (8 <= n) by (destruct H8n; lia).
  rewrite (bind_Ret get _ _ _ _ eq_refl). rewrite (proj2 (Z.leb_gt n 0)) by lia.
  assert (Z.rem n pagesize = 0) as ->.
  { rewrite Z.rem_mod_nonneg by lia. by apply Z.mod_divide; [lia|]. }
  cbv zeta. rewrite Z.eqb_refl. change (negb true) with false. change (init initial =? 0) with false. change (false || false) with false. cbv iota. rewrite Hmm. cbv iota.
  set (s1 := mkM ∅ (p, n) NULL NULL 1 0).
  rewrite (bind_Ret (modify _) _ initial tt s1 eq_refl).
  assert (Hm : mapped s1 p = true).
  { unfold mapped, NULL, sizeof_Node. simpl. rewrite bool_decide_true by lia.
    apply andb_true_intro; split; [apply andb_true_intro; split|]; try done; apply Z.leb_le; lia. }
  mem_step. mem_step. 
  eexists. split; [reflexivity|]. split; [|done]. constructor; simpl; unfold sizeof_Node.
  - done.
  - done.
  - lia.
  - rewrite !node_at_eq. simpl. split_and!; done.
  - rewrite !node_at_eq. simpl. unfold NULL. split_and!; [done|lia|done].
  - done.
Qed.

(** [Mem_Init] refuses a non-positive size and a second call: it returns
    -1 with [m_error = E_BAD_ARGS] and maps nothing. *)
Theorem Mem_Init_bad_args pagesize mmap n s :
  n <= 0 \/ init s = 0 ->
  Mem_Init pagesize mmap n s = Ret (-1, set_error E_BAD_ARGS s).
Proof.
  intros H. unfold Mem_Init. rewrite (bind_Ret get _ _ _ _ eq_refl).
  assert ((n <=? 0) || (init s =? 0) = true) as ->; [|done].
  apply orb_true_iff. destruct H; [left; by apply Z.leb_le|right; by apply Z.eqb_eq].
Qed.

(** ** Sequences of calls *)

(** The allocated chunks, as (header address, chunk size). *)
Fixpoint alloc_chunks (a : Z) (cs : list chunk) : list (Z * Z) :=
  match cs with
  | [] => []
  | (sz, f) :: cs => (if (f : bool) then [] else [(a, sz)]) ++ alloc_chunks (a + sz) cs
  end.

Lemma alloc_chunks_app a c1 c2 :
  alloc_chunks a (c1 ++ c2) = alloc_chunks a c1 ++ alloc_chunks (a + total c1) c2.
Proof.
  revert a. induction c1 as [|[sz f] c1 IH]; intros a; simpl.
  - by rewrite Z.add_0_r.
  - by rewrite IH, Z.add_assoc, (assoc_L (++)).
Qed.

Lemma alloc_chunks_split a cs x sz : (x, sz) ∈ alloc_chunks a cs ->
  exists c1 c2, cs = c1 ++ (sz, false) :: c2 /\ x = a + total c1.
Proof.
  revert a. induction cs as [|[v f] cs IH]; intros a; simpl; [by intros ?%elem_of_nil|].
  intros [Hx|Hx]%elem_of_app.
  - destruct f; [by apply elem_of_nil in Hx|]. apply list_elem_of_singleton in Hx. simplify_eq.
    exists [], cs. split; [done|simpl; lia].
  - destruct (IH _ Hx) as (c1 & c2 & -> & ->). exists ((v, f) :: c1), c2. simpl. split; [done|lia].
Qed.

Lemma alloc_chunks_merge a c1 sz c2 :
  alloc_chunks a (merge_free c1 sz c2) = alloc_chunks a c1 ++ alloc_chunks (a + total c1 + sz) c2.
Proof.
  unfold merge_free. rewrite alloc_chunks_app. simpl.
  assert (alloc_chunks a (merge_left c1).1 = alloc_chunks a c1 /\
          total (merge_left c1).1 + (merge_left c1).2 = total c1) as [-> Et].
  { unfold merge_left. destruct c1 as [|[v f] d1 _] using rev_ind; [done|]. rewrite last_snoc.
    destruct f; [|simpl; split; [done|lia]].
    rewrite length_app, Nat.add_1_r. simpl. rewrite take_app_length, alloc_chunks_app, total_app. simpl.
    rewrite app_nil_r. split; [done|lia]. }
  replace (a + total (merge_left c1).1 + ((merge_left c1).2 + sz + (merge_right c2).2))
    with (a + total c1 + sz + (merge_right c2).2) by lia.
  destruct c2 as [|[v []] d2]; simpl; rewrite ?Z.add_0_r; done.
Qed.

(** Two chunks of a tiling do not overlap. *)
Lemma alloc_chunks_disjoint h a cs : tiles h a cs ->
  forall i j x v y w, alloc_chunks a cs !! i = Some (x, v) -> alloc_chunks a cs !! j = Some (y, w) ->
  (i < j)%nat -> a <= x /\ x + v <= y /\ y + w <= a + total cs.
Proof.
  revert a. induction cs as [|[sz f] cs IH]; intros a; simpl; [done|].
  unfold sizeof_Node. intros (H8 & _ & _ & Ht) i j x v y w Hi Hj Hij.
  destruct f; simpl in *; [specialize (IH _ Ht _ _ _ _ _ _ Hi Hj Hij); lia|].
  destruct j as [|j]; [lia|]. simpl in Hj. destruct i as [|i]; simpl in Hi.
  - simplify_eq. apply list_elem_of_lookup_2 in Hj.
    destruct (alloc_chunks_split _ _ _ _ Hj) as (d1 & d2 & -> & ->).
    apply tiles_app in Ht as [Hd1 (_ & _ & _ & Hd2)]. rewrite total_app. simpl.
    pose proof (tiles_total_nonneg _ _ _ Hd1). pose proof (tiles_total_nonneg _ _ _ Hd2). lia.
  - specialize (IH _ Ht _ _ _ _ _ _ Hi Hj ltac:(lia)). lia.
Qed.

(** A client of the library: it initialises a page-multiple region, allocates
    (never a request that some free chunk fits exactly) and frees pointers it
    holds. [live] are the pointers it holds, with the requested sizes. *)
Inductive client : mstate -> list (Z * Z) -> Prop :=
  | client_init pagesize mmap n p s :
      0 < n < 2 ^ 31 -> 0 < pagesize -> (8 | pagesize) -> (pagesize | n) ->
      mmap n = Some p -> 0 < p -> p + n < 2 ^ 31 ->
      Mem_Init pagesize mmap n initial = Ret (0, s) -> client s []
  | client_alloc s live r p s' free :
      client s live -> 0 <= r < 2 ^ 31 - 16 ->
      printList (walk_fuel s) s = Ret (free, s) ->
      (forall a i sz, (a, i, sz) ∈ free -> sz <> chunk_size r) ->
      Mem_Alloc (walk_fuel s) r s = Ret (p, s') ->
      client s' (if p =? NULL then live else (p, r) :: live)
  | client_free s live1 p r live2 v s' :
      client s (live1 ++ (p, r) :: live2) ->
      Mem_Free (walk_fuel s) p s = Ret (v, s') -> client s' (live1 ++ live2).

(** What each live pointer stands for. *)
Definition holds (pr ch : Z * Z) : Prop := pr.1 = ch.1 + sizeof_Node /\ 0 <= pr.2 /\ pr.2 + sizeof_Node <= ch.2.

Definition client_inv (s : mstate) (live : list (Z * Z)) : Prop :=
  exists cs l al, heap_inv s cs l /\ coal false cs /\
    Forall2 holds live al /\ al ≡ₚ alloc_chunks (fst (region s)) cs.

Lemma print_loop_ok l : forall fuel s i p,
  (forall x, x ∈ l -> mapped s x = true) -> seg (heap s) p l NULL -> (length l < fuel)%nat ->
  exists out, print_loop fuel i p s = Ret (out, s) /\
    forall x, x ∈ l -> exists j, (x, j, size_at (heap s) x) ∈ out.
Proof.
  induction l as [|a l IH]; intros [|fuel] s i p Hm Hs Hf; simpl in *; try lia.
  - subst p. exists []. split; [done|]. by intros x ?%elem_of_nil.
  - destruct Hs as (-> & Ha & Hs). rewrite (proj2 (Z.eqb_neq a NULL)) by done.
    assert (Hma : mapped s a = true) by (apply Hm; set_solver).
    destruct (IH fuel s (i + 1) (next (node_at (heap s) a))) as (out & E & Hout);
      [intros x ?; apply Hm; set_solver|done|lia|].
    mem_step. rewrite (bind_Ret _ _ _ _ _ E). eexists. split; [reflexivity|].
    intros x [->|Hx]%elem_of_cons; [exists i; set_solver|].
    destruct (Hout x Hx) as [j ?]. exists j. set_solver.
Qed.

Lemma client_inv_alloc s live r p s' free :
  client_inv s live -> 0 <= r < 2 ^ 31 - 16 ->
  printList (walk_fuel s) s = Ret (free, s) ->
  (forall a i sz, (a, i, sz) ∈ free -> sz <> chunk_size r) ->
  Mem_Alloc (walk_fuel s) r s = Ret (p, s') ->
  client_inv s' (if p =? NULL then live else (p, r) :: live).
Proof.
  intros (cs & l & al & Hi & Hc & Hal & Hp) Hr Hpr Hnex E.
  destruct (decide (l = [])) as [->|Hne].
  { assert (H0 : headFree s = NULL) by (by destruct Hi).
    unfold walk_fuel in E. by rewrite Mem_Alloc_exhausted_undefined in E. }
  destruct (Mem_Alloc_cases s cs l r Hi Hne Hr) as (l1 & w & l2 & c1 & c2 & -> & -> & Hat & Hlf & E').
  rewrite E' in E. clear E'. set (sz := size_at (heap s) w) in *.
  case_bool_decide as Hfit; simplify_eq/=; [|exists (c1 ++ (sz, true) :: c2), (l1 ++ w :: l2), al; split_and!; [by destruct Hi|done..]].
  assert (Hlt : chunk_size r < sz).
  { pose proof (ac_here _ _ _ _ _ _ _ Hat) as (_ & Hd & _).
    pose proof (chunk_size_fits r sz Hr Hd Hfit). assert (sz <> chunk_size r); [|lia].
    unfold printList in Hpr. rewrite (bind_Ret get _ _ _ _ eq_refl) in Hpr.
    destruct (print_loop_ok (l1 ++ w :: l2) (walk_fuel s) s 0 (headFree s)) as (out & Eo & Hout);
      [intros x; by apply heap_inv_mapped with (1 := Hi)|by destruct Hi|by eapply heap_inv_fuel|].
    rewrite Eo in Hpr. simplify_eq. destruct (Hout w) as [j Hj]; [set_solver|]. by apply (Hnex _ _ _ Hj). }
  rewrite (chunkNode_split _ _ _ _ _ _ _ _ Hat) in E by done. simplify_eq.
  pose proof (ac_bounds _ _ _ _ _ _ _ Hat) as (Hb & Hbw & _). pose proof (ac_addr _ _ _ _ _ _ _ Hat) as Ew.
  destruct (chunk_size_spec r Hr) as [Hd Hle]. simpl in *.
  rewrite (proj2 (Z.eqb_neq _ NULL)) by (unfold NULL, sizeof_Node; lia).
  exists (c1 ++ (chunk_size r, false) :: (sz - chunk_size r, true) :: c2), (l1 ++ (w + chunk_size r) :: l2), ((w, chunk_size r) :: al).
  split_and!.
  - apply (split_inv _ _ _ _ _ _ _ Hat); [by apply chunk_size_pos|done|done].
  - apply coal_app in Hc as [Hc1 Hc2]. apply coal_app. split; [done|]. simpl in *.
    rewrite andb_false_r. tauto.
  - constructor; [|done]. split_and!; simpl; lia.
  - rewrite Hp, !alloc_chunks_app. simpl. rewrite <- Ew.
    replace (w + chunk_size r + (sz - chunk_size r)) with (w + sz) by lia. apply Permutation_middle.
Qed.

Lemma client_inv_free s live1 p r live2 v s' :
  client_inv s (live1 ++ (p, r) :: live2) ->
  Mem_Free (walk_fuel s) p s = Ret (v, s') -> client_inv s' (live1 ++ live2).
Proof.
  intros (cs & l & al & Hi & Hc & Hal & Hp) E.
  apply Forall2_app_inv_l in Hal as (al1 & al2' & Hal1 & Hal2 & ->).
  apply Forall2_cons_inv_l in Hal2 as ([a sz] & al2 & Hh & Hal2 & ->).
  destruct (alloc_chunks_split (fst (region s)) cs a sz) as (c1 & c2 & -> & Ea); [rewrite <- Hp; set_solver|].
  destruct (Mem_Free_coalesces s c1 sz c2 l Hi Hc) as (s2 & l2 & E2 & Hi2 & Hc2 & Hreg).
  destruct Hh as [Ep _]. simpl in Ep. rewrite <- Ea, <- Ep, E in E2. simplify_eq.
  exists (merge_free c1 sz c2), l2, (al1 ++ al2). split_and!; [done..|by apply Forall2_app|].
  rewrite alloc_chunks_app in Hp. simpl in Hp. rewrite alloc_chunks_merge, Hreg.
  rewrite <- !Permutation_middle in Hp. by apply Permutation_cons_inv in Hp.
Qed.

Lemma client_invariant s live : client s live -> client_inv s live.
Proof.
  induction 1 as [ps mm n p s Hn Hps H8 Hd Hm Hp He E| |].
  - destruct (Mem_Init_one_chunk ps mm n p Hn Hps H8 Hd Hm Hp He) as (s' & E' & Hi & _).
    rewrite E in E'. simplify_eq. exists [(n, true)], [p], []. by split_and!.
  - eapply client_inv_alloc; eauto.
  - eapply client_inv_free; eauto.
Qed.

(** C1: Whatever a client does, the blocks it holds stay inside the region and
    never overlap each other or each other's headers. *)
Theorem client_blocks_disjoint s live i j p r q t :
  client s live -> live !! i = Some (p, r) -> live !! j = Some (q, t) -> i <> j ->
  (p + r <= q - sizeof_Node \/ q + t <= p - sizeof_Node) /\
  fst (region s) + sizeof_Node <= p /\ p + r <= fst (region s) + snd (region s).
Proof.
  intros (cs & l & al & Hi & Hc & Hal & Hp)%client_invariant Hpi Hqj Hij.
  destruct (Forall2_lookup_l _ _ _ _ _ Hal Hpi) as ([a va] & Ha & H1 & H2 & H3).
  destruct (Forall2_lookup_l _ _ _ _ _ Hal Hqj) as ([b vb] & Hb & H4 & H5 & H6).
  apply Permutation_inj in Hp as (Hlen & f & Hf & Hlook).
  rewrite Hlook in Ha, Hb. simpl in *. unfold sizeof_Node in *.
  assert (f i <> f j) by (intros E; by apply Hij, (inj f)).
  destruct Hi. pose proof (alloc_chunks_disjoint _ _ _ hi_tiles0) as HD.
  destruct (Nat.lt_trichotomy (f i) (f j)) as [Hlt|[?|Hlt]]; [|done|].
  - specialize (HD _ _ _ _ _ _ Ha Hb Hlt). lia.
  - specialize (HD _ _ _ _ _ _ Hb Ha Hlt). lia.
Qed.

(** ** Concrete heaps on which the theorems apply *)

Definition demo : mstate := mkM {[65536 := mkNode 4096 0]} (65536, 4096) 65536 0 0 0.
Definition demo2 : mstate :=
  mkM {[65536 := mkNode 16 0; 65552 := mkNode 16 0; 65568 := mkNode 4064 0]} (65536, 4096) 65568 0 0 0.
Definition demo3 : mstate :=
  mkM {[65536 := mkNode 1008 67552; 66544 := mkNode 1008 0; 67552 := mkNode 64 0]} (65536, 2080) 65536 0 0 0.

Ltac concrete :=
  first [vm_compute; done | apply Z.mod_divide; [lia|vm_compute; reflexivity]].

Lemma demo_inv : heap_inv demo [(4096, true)] [65536].
Proof. constructor; try (vm_compute; done). simpl; split_and!; concrete. Qed.

Lemma demo2_inv : heap_inv demo2 [(16, false); (16, false); (4064, true)] [65568].
Proof.
  constructor; try (vm_compute; done).
  simpl; split_and!; concrete.
Qed.

Lemma demo3_inv : heap_inv demo3 [(1008, true); (1008, false); (64, true)] [65536; 67552].
Proof.
  constructor; try (vm_compute; done).
  simpl; split_and!; concrete.
Qed.

Lemma Mem_Alloc_splits_worst_fit_witness :
  exists s' l', Mem_Alloc (walk_fuel demo) 100 demo = Ret (65544, s') /\
    heap_inv s' [(112, false); (3984, true)] l'.
Proof.
  destruct (Mem_Alloc_splits_worst_fit demo [(4096, true)] [65536] 100 demo_inv)
    as (c1 & sz & c2 & s' & l' & Ecs & _ & E & Hi & _); [lia| |].
  - exists 4096. split; [set_solver|vm_compute; reflexivity].
  - destruct c1 as [|x c1]; [|by destruct c1]. injection Ecs as <- <-. exists s', l'.
    split; [exact E|exact Hi].
Defined.

Lemma Mem_Alloc_no_space_witness :
  exists s', Mem_Alloc (walk_fuel demo) 5000 demo = Ret (NULL, s') /\ m_error s' = E_NO_SPACE.
Proof.
  destruct (Mem_Alloc_no_space demo [(4096, true)] [65536] 5000 demo_inv) as (s' & E & H & _).
  - discriminate.
  - lia.
  - intros sz H. apply list_elem_of_singleton in H. assert (sz = 4096) as -> by congruence. vm_compute. reflexivity.
  - exists s'. split; [exact E|exact H].
Defined.

Lemma Mem_Alloc_exhausted_undefined_witness :
  Mem_Alloc 1 8 initial = Undef "invalid node pointer".
Proof. apply (Mem_Alloc_exhausted_undefined initial 8 0). reflexivity. Defined.

Lemma Mem_Alloc_exact_fit_corrupts_witness :
  exists s', Mem_Alloc (walk_fuel demo3) 1000 demo3 = Ret (65544, s') /\
    size_at (heap s') 66544 = 0 /\ headFree s' = NULL.
Proof.
  destruct (Mem_Alloc_exact_fit_corrupts demo3 _ _ 1000 demo3_inv) as (c1 & c2 & Ecs & H).
  - lia.
  - vm_compute. set_solver.
  - intros v Hv. change (chunk_size 1000) with 1008.
    repeat (apply elem_of_cons in Hv as [Hv|Hv]; [simplify_eq; lia|]).
    by apply elem_of_nil in Hv.
  - change (chunk_size 1000) with 1008 in *. destruct c1 as [|x c1].
    + injection Ecs as <-. destruct (H ltac:(discriminate)) as (s' & E & H0 & Hh).
      exists s'. split; [exact E|]. split; [exact H0|]. apply Hh. reflexivity.
    + destruct c1 as [|y c1]; [discriminate|]. destruct c1 as [|z c1]; [discriminate|].
      by destruct c1.
Defined.

Lemma Mem_Free_coalesces_witness :
  exists s' l', Mem_Free (walk_fuel demo2) 65560 demo2 = Ret (0, s') /\
    heap_inv s' [(16, false); (4080, true)] l'.
Proof.
  destruct (Mem_Free_coalesces demo2 [(16, false)] 16 [(4064, true)] [65568] demo2_inv)
    as (s' & l' & E & Hi & _); [by vm_compute|].
  exists s', l'. split; [exact E|exact Hi].
Defined.

Lemma Mem_Init_one_chunk_witness :
  exists s, Mem_Init 4096 (fun _ => Some 65536) 4096 initial = Ret (0, s) /\ heap_inv s [(4096, true)] [65536].
Proof.
  destruct (Mem_Init_one_chunk 4096 (fun _ => Some 65536) 4096 65536) as (s & E & Hi & _);
    [lia|lia|by exists 512|by exists 1|reflexivity|lia|lia|].
  exists s. split; [exact E|exact Hi].
Defined.

Lemma Mem_Init_bad_args_witness :
  Mem_Init 4096 (fun _ => Some 65536) 0 initial = Ret (-1, set_error E_BAD_ARGS initial).
Proof. apply Mem_Init_bad_args. left. lia. Defined.

(** Two blocks of a client that allocates 100 and then 200 bytes. *)
Definition after_alloc (r : Z) (s : mstate) : mstate :=
  match Mem_Alloc (walk_fuel s) r s with Ret (_, s') => s' | _ => s end.
Definition demoA : mstate := after_alloc 100 demo.
Definition demoB : mstate := after_alloc 200 demoA.

Lemma client_demo : client demoB [(65656, 200); (65544, 100)].
Proof.
  assert (C0 : client demo []).
  { eapply (client_init 4096 (fun _ => Some 65536) 4096 65536);
      [lia|lia|by exists 512|by exists 1|reflexivity|lia|lia|vm_compute; reflexivity]. }
  eapply (client_alloc demoA [(65544, 100)] 200 65656 demoB [(65648, 0, 3984)]);
    [|lia|vm_compute; reflexivity| |vm_compute; reflexivity].
  - eapply (client_alloc demo [] 100 65544 demoA [(65536, 0, 4096)]); [exact C0|lia|vm_compute; reflexivity| |vm_compute; reflexivity].
    intros a i sz Hin. apply list_elem_of_singleton in Hin. simplify_eq. by vm_compute.
  - intros a i sz Hin. apply list_elem_of_singleton in Hin. simplify_eq. by vm_compute.
Qed.

Lemma client_blocks_disjoint_witness :
  65656 + 200 <= 65544 - sizeof_Node \/ 65544 + 100 <= 65656 - sizeof_Node.
Proof.
  apply (client_blocks_disjoint demoB _ 0 1 65656 200 65544 100 client_demo); [reflexivity|reflexivity|discriminate].
Defined.

(** A program that reaches the exact fit: after it, the header of a block that
    is still held reads 0 and the last 72 free bytes are lost. *)
Definition exact_fit_prog : M mstate (Z * Z * Z) :=
  a ← Mem_Alloc 600 1000; b ← Mem_Alloc 600 1000; c ← Mem_Alloc 600 2000;
  Mem_Free 600 a;; d ← Mem_Alloc 600 1000; s ← get;
  mret (d, size_at (heap s) (b - 8), headFree s).

Example exact_fit_scenario :
  match exact_fit_prog demo with Ret (r, _) => r = (65544, 0, 0) | _ => False end.
Proof. vm_compute. reflexivity. Qed.
