(* ===== verification/Lfs.v ===== *)
(** The log-structured file system library of project 6 ([src/6/libfsi.c]):
    one image file holding a checkpoint region at offset 0 and, behind it, a
    log of blocks, inodes and inode-map chunks; the in-memory copies of the
    checkpoint and of the whole inode map; and the seven operations the server
    calls.

    The image is a list of bytes with the file offset of the descriptor.
    [lseek], [read] and [write] behave as POSIX says for a regular file,
    including their failures: a negative offset leaves the position alone,
    a read past the end returns 0 and fills nothing, and a write that the
    device ([cap] bytes) has no room for returns -1.  Contents of uninitialised
    locals are arguments ([jnode], [jblk]); the diagnostic [printf]s are
    dropped, but the array accesses in their arguments are kept. *)
From S2P Require Import Prelude.

Module Lfs.

(** ** Layout ([src/6/lfsi.h]) *)

Definition LFS_DIRECTORY : Z := 0.
Definition LFS_REGULAR_FILE : Z := 1.
Definition LFS_BLOCK_SIZE : Z := 4096.
Definition NDIRECT : Z := 14.
Definition IMAP_CHUNK_SIZE : Z := 16.

Record inode_t := mkInode { size : Z; type : Z; direct : list Z }.

Definition sizeof_inode : Z := 64.
Definition sizeof_dir_ent : Z := 32.
Definition sizeof_cr : Z := 1028.

(** Little-endian 32-bit integers. *)
Definition enc32 (z : Z) : list Z :=
  let w := u32 z in [w mod 256; w / 256 mod 256; w / 65536 mod 256; w / 16777216].
Definition dec32 (bs : list Z) : Z :=
  match bs with
  | a :: b :: c :: d :: _ => s32 (a + 256 * b + 65536 * c + 16777216 * d)
  | _ => 0
  end.
Definition enc_ints (zs : list Z) : list Z := zs ≫= enc32.
Fixpoint dec_ints (n : nat) (bs : list Z) : list Z :=
  match n with
  | O => []
  | S n => dec32 bs :: dec_ints n (drop 4 bs)
  end.

Definition enc_inode (n : inode_t) : list Z := enc_ints (size n :: type n :: direct n).
Definition dec_inode (bs : list Z) : inode_t :=
  match dec_ints 16 bs with
  | s :: t :: d => mkInode s t d
  | _ => mkInode 0 0 []
  end.

(** The state: the image file and the descriptor [fsid], and the globals [cr]
    and [inodes].  [hist] is ghost: every content the image has had, newest
    first, so that a crash between two writes can be talked about. *)
Record lfs := mkLfs {
  file : list Z;
  fpos : Z;
  cap : Z;
  opened : bool;
  cr_end : Z;
  chunks : list Z;
  inodes : list Z;
  hist : list (list Z)
}.

Definition set_fpos (p : Z) (s : lfs) : lfs :=
  mkLfs (file s) p (cap s) (opened s) (cr_end s) (chunks s) (inodes s) (hist s).
Definition set_file (f : list Z) (p : Z) (s : lfs) : lfs :=
  mkLfs f p (cap s) (opened s) (cr_end s) (chunks s) (inodes s) (f :: hist s).
Definition set_end (e : Z) (s : lfs) : lfs :=
  mkLfs (file s) (fpos s) (cap s) (opened s) e (chunks s) (inodes s) (hist s).
Definition set_chunk (i v : Z) (s : lfs) : lfs :=
  mkLfs (file s) (fpos s) (cap s) (opened s) (cr_end s) (zset (chunks s) i v) (inodes s) (hist s).
Definition set_inodes (i v : Z) (s : lfs) : lfs :=
  mkLfs (file s) (fpos s) (cap s) (opened s) (cr_end s) (chunks s) (zset (inodes s) i v) (hist s).

(** ** System calls on the image *)

Definition slice (off n : Z) (f : list Z) : list Z := take (Z.to_nat n) (drop (Z.to_nat off) f).

(** Writing [bs] at [off]: a gap past the end reads as zeros. *)
Definition write_at (f : list Z) (off : Z) (bs : list Z) : list Z :=
  take (Z.to_nat off) (f ++ replicate (Z.to_nat off - length f) 0)
  ++ bs ++ drop (Z.to_nat off + length bs) f.

Definition lseek (off : Z) : M lfs Z := fun s =>
  if negb (opened s) || (off <? 0) then Ret (-1, s) else Ret (off, set_fpos off s).

(** [read(fsid, buf, n)]: the return code and the buffer's new contents. *)
Definition read (buf : list Z) (n : Z) : M lfs (Z * list Z) := fun s =>
  if negb (opened s) then Ret (-1, buf, s)
  else
    let data := slice (fpos s) n (file s) in
    Ret (zlen data, data ++ drop (length data) buf, set_fpos (fpos s + zlen data) s).

Definition write (bs : list Z) : M lfs Z := fun s =>
  if negb (opened s) then Ret (-1, s)
  else
    let m := Z.min (zlen bs) (cap s - fpos s) in
    if (m <=? 0) && (0 <? zlen bs) then Ret (-1, s)
    else Ret (m, set_file (write_at (file s) (fpos s) (take (Z.to_nat m) bs)) (fpos s + m) s).

(** ** Inodes and blocks *)

(** [get_inode]: the return code and the inode read over the caller's
    uninitialised [jnode]. *)
Definition get_inode (jnode : list Z) (inum : Z) : M lfs (Z * inode_t) :=
  s ← get;
  a ← deref "inodes[inum]" (zget (inodes s) inum);
  if (inum <? 0) || (a =? -1) then mret (-1, dec_inode jnode)
  else
    lseek a;;
    '(rc, bs) ← read jnode sizeof_inode;
    mret (rc, dec_inode bs).

Definition get_block (inode : inode_t) (buffer : list Z) (block : Z) : M lfs (Z * list Z) :=
  if block >? 13 then mret (-1, buffer)
  else
    d ← deref "direct[block]" (zget (direct inode) block);
    lseek d;;
    read buffer LFS_BLOCK_SIZE.

(** ** Directory blocks: 128 entries of a 28-byte name and an inode number *)

(** [strcmp(mem, name) == 0]; [None] when the comparison leaves the block. *)
Fixpoint strcmp0 (mem name : list Z) : option bool :=
  match mem, name with
  | [], _ => None
  | c :: _, [] => Some (c =? 0)
  | c :: mem, d :: name => if c =? d then strcmp0 mem name else Some false
  end.

Definition ent_name (blk : list Z) (i : Z) : list Z := drop (Z.to_nat (sizeof_dir_ent * i)) blk.
Definition ent_inum (blk : list Z) (i : Z) : Z := dec32 (drop (Z.to_nat (sizeof_dir_ent * i + 28)) blk).
Definition set_ent_name (blk : list Z) (i : Z) (name : list Z) : list Z :=
  write_at blk (sizeof_dir_ent * i) (name ++ [0]).
Definition set_ent_inum (blk : list Z) (i : Z) (inum : Z) : list Z :=
  write_at blk (sizeof_dir_ent * i + 28) (enc32 inum).

Fixpoint find_name (n : nat) (i : Z) (blk name : list Z) : M lfs (option Z) :=
  match n with
  | O => mret None
  | S n =>
      eq ← deref "strcmp" (strcmp0 (ent_name blk i) name);
      if (eq : bool) then mret (Some i) else find_name n (i + 1) blk name
  end.

(** The first entry whose [inum] is -1. *)
Fixpoint find_free (n : nat) (i : Z) (blk : list Z) : option Z :=
  match n with
  | O => None
  | S n => if ent_inum blk i =? -1 then Some i else find_free n (i + 1) blk
  end.

(** ** Creating and loading an image *)

Definition imap_chunk (s : lfs) (c : Z) : list Z :=
  enc_ints (slice (c * IMAP_CHUNK_SIZE) IMAP_CHUNK_SIZE (inodes s)).

Definition enc_cr (s : lfs) : list Z := enc_ints (cr_end s :: chunks s).

Fixpoint free_entries (n : nat) (i : Z) (blk : list Z) : list Z :=
  match n with
  | O => blk
  | S n => free_entries n (i + 1) (set_ent_inum blk i (-1))
  end.

(** The first two entries of a directory block. *)
Definition dots (blk : list Z) (self parent : Z) : list Z :=
  set_ent_inum (set_ent_name (set_ent_inum (set_ent_name blk 0 (bytes ".")) 0 self) 1 (bytes "..")) 1 parent.

(** [fsi_build] on a file just created empty. *)
Definition fsi_build (jblk : list Z) : M lfs unit :=
  let dir_block := free_entries 126 2 (dots jblk 0 0) in
  lseek sizeof_cr;;
  write dir_block;;
  let root := mkInode LFS_BLOCK_SIZE LFS_DIRECTORY (sizeof_cr :: replicate 13 (-1)) in
  let pos := 128 * sizeof_dir_ent in
  write (enc_inode root);;
  modify (fun s => mkLfs (file s) (fpos s) (cap s) (opened s) (cr_end s) (chunks s)
                     ((pos + sizeof_cr) :: replicate 4095 (-1)) (hist s));;
  let pos := pos + sizeof_inode in
  modify (fun s => mkLfs (file s) (fpos s) (cap s) (opened s) (cr_end s)
                     ((pos + sizeof_cr) :: replicate 255 (-1)) (inodes s) (hist s));;
  s ← get;
  write (enc_ints (take 16 (inodes s)));;
  let pos := pos + 16 * 4 in
  modify (set_end (pos + sizeof_cr));;
  lseek 0;;
  s ← get;
  write (enc_cr s);;
  mret tt.

(** What [open] finds at the image's path. *)
Inductive image := Missing (creatable : bool) | Unreadable | Image (contents : list Z).

Fixpoint load_chunks (n : nat) (i : Z) : M lfs unit :=
  match n with
  | O => mret tt
  | S n =>
      s ← get;
      c ← deref "chunks[i]" (zget (chunks s) i);
      (if negb (c =? -1) then
         lseek c;;
         '(rc, bs) ← read (imap_chunk s i) 64;
         if rc =? -1 then panic "assert(rc != -1)"
         else modify (fun s => mkLfs (file s) (fpos s) (cap s) (opened s) (cr_end s) (chunks s)
                (take (Z.to_nat (i * 16)) (inodes s) ++ dec_ints 16 bs
                 ++ drop (Z.to_nat (i * 16 + 16)) (inodes s)) (hist s))
       else
         modify (fun s => mkLfs (file s) (fpos s) (cap s) (opened s) (cr_end s) (chunks s)
                (take (Z.to_nat (i * 16)) (inodes s) ++ replicate 16 (-1)
                 ++ drop (Z.to_nat (i * 16 + 16)) (inodes s)) (hist s)));;
      load_chunks n (i + 1)
  end.

Definition open_file (f : list Z) (s : lfs) : lfs :=
  mkLfs f 0 (cap s) true (cr_end s) (chunks s) (inodes s) [f].
Definition close_file (s : lfs) : lfs :=
  mkLfs (file s) (fpos s) (cap s) false (cr_end s) (chunks s) (inodes s) (hist s).

Definition fsi_init (jblk : list Z) (img : image) : M lfs Z :=
  match img with
  | Missing true => modify (open_file []);; fsi_build jblk;; mret 0
  | Missing false => modify close_file;; mret 0
  | Unreadable => mret (-1)
  | Image f =>
      modify (open_file f);;
      lseek 0;;
      s ← get;
      '(rc, bs) ← read (enc_cr s) sizeof_cr;
      if negb (rc =? sizeof_cr) then panic "assert(rc == sizeof(cr_t))"
      else
        modify (fun s => mkLfs (file s) (fpos s) (cap s) (opened s) (u32 (dec32 bs))
                  (dec_ints 256 (drop 4 bs)) (inodes s) (hist s));;
        load_chunks 256 0;;
        mret 0
  end.

(** ** Lookup, stat, read, write *)

Fixpoint lookup_loop (n : nat) (node : inode_t) (name dir_block : list Z) (block : Z) : M lfs Z :=
  match n with
  | O => mret (-1)
  | S n =>
      '(rc, dir_block) ← get_block node dir_block block;
      if rc =? -1 then mret (-1)
      else
        r ← find_name 128 0 dir_block name;
        match r with
        | Some i => mret (ent_inum dir_block i)
        | None => lookup_loop n node name dir_block (block + 1)
        end
  end.

Definition fsi_lookup (jnode jblk : list Z) (pinum : Z) (name : list Z) : M lfs Z :=
  '(rc, node) ← get_inode jnode pinum;
  if rc <? 0 then mret (-1)
  else if negb (type node =? LFS_DIRECTORY) then mret (-1)
  else lookup_loop 14 node name jblk 0.

(** The stat structure is returned as [(type, size)]; it is not written when
    the call fails. *)
Definition fsi_stat (jnode : list Z) (inum : Z) : M lfs (Z * option (Z * Z)) :=
  '(rc, node) ← get_inode jnode inum;
  if rc <? 0 then mret (-1, None)
  else mret (0, Some (type node, size node)).

(** The checkpoint: the region at offset 0 is overwritten with [cr]. *)
Definition write_cr : M lfs Z :=
  lseek 0;;
  s ← get;
  write (enc_cr s).

Definition fsi_write (jnode : list Z) (inum : Z) (buffer : list Z) (block : Z) : M lfs Z :=
  '(rc, node) ← get_inode jnode inum;
  if rc <? 0 then mret (-1)
  else if negb (type node =? LFS_REGULAR_FILE) then mret (-1)
  else if block >? 13 then mret (-1)
  else
    s ← get;
    let end0 := cr_end s in
    lseek end0;;
    let pos := s32 end0 in
    rc ← write (take (Z.to_nat LFS_BLOCK_SIZE) buffer);
    if rc <? 0 then mret (-1)
    else
      let pos := pos + LFS_BLOCK_SIZE in
      d ← deref "direct[block]" (zget (direct node) block);
      let sz := if (d =? -1) && (size node <? block * LFS_BLOCK_SIZE)
                then block * LFS_BLOCK_SIZE else size node in
      modify (set_inodes inum pos);;
      let node := mkInode sz (type node) (zset (direct node) block (s32 end0)) in
      rc ← write (enc_inode node);
      if rc <? 0 then mret (-1)
      else
        let pos := pos + sizeof_inode in
        modify (set_chunk (Z.quot inum IMAP_CHUNK_SIZE) pos);;
        s ← get;
        rc ← write (imap_chunk s (Z.quot inum IMAP_CHUNK_SIZE));
        if rc <? 0 then mret (-1)
        else
          let pos := pos + IMAP_CHUNK_SIZE * 4 in
          modify (set_end (u32 pos));;
          rc ← write_cr;
          if rc <? 0 then mret (-1) else mret 0.

(** The buffer is returned with the code; the caller's [buffer] is kept where
    the call does not fill it. *)
Definition fsi_read (jnode : list Z) (inum : Z) (buffer : list Z) (block : Z) : M lfs (Z * list Z) :=
  '(rc, node) ← get_inode jnode inum;
  if rc <? 0 then mret (-1, buffer)
  else
    '(rc, buffer) ← get_block node buffer block;
    if rc <? 0 then mret (-1, buffer) else mret (0, buffer).

(** ** Unlink and create *)

(** The emptiness test of [fsi_unlink] over the child's first block: [true]
    when some entry makes the function return -1. *)
Fixpoint dir_in_use (n : nat) (i : Z) (blk : list Z) (cinum pinum : Z) : bool :=
  match n with
  | O => false
  | S n =>
      negb (ent_inum blk i =? cinum) || negb (ent_inum blk i =? pinum)
      || dir_in_use n (i + 1) blk cinum pinum
  end.

(** The search of [fsi_unlink]: [None] for its [return -1], otherwise the
    last block read with the found entry, if any. *)
Fixpoint unlink_loop (n : nat) (pnode : inode_t) (name dir_block : list Z) (block : Z) :
    M lfs (option (list Z * option (Z * Z))) :=
  match n with
  | O => mret (Some (dir_block, None))
  | S n =>
      '(rc, dir_block) ← get_block pnode dir_block block;
      if rc =? -1 then mret None
      else
        r ← find_name 128 0 dir_block name;
        match r with
        | Some i => mret (Some (set_ent_inum dir_block i (-1), Some (block, i)))
        | None => unlink_loop n pnode name dir_block (block + 1)
        end
  end.

(** Lines 333-346: whether the child is a directory the call refuses. *)
Definition unlink_refuses (jblk : list Z) (cnode : inode_t) (cinum pinum : Z) : M lfs bool :=
  if type cnode =? LFS_DIRECTORY then
    if size cnode >? LFS_BLOCK_SIZE then mret true
    else
      '(_, blk) ← get_block cnode jblk 0;
      mret (dir_in_use 128 0 blk cinum pinum)
  else mret false.

(** Lines 384-388 and 281-285: the parent's inode-map chunk goes out only when
    it is not the child's; [pos] advances only when that write fails. *)
Definition write_parent_chunk (pinum cinum pos : Z) : M lfs Z :=
  if negb (Z.quot pinum IMAP_CHUNK_SIZE =? Z.quot cinum IMAP_CHUNK_SIZE) then
    modify (set_chunk (Z.quot pinum IMAP_CHUNK_SIZE) pos);;
    s ← get;
    rc ← write (imap_chunk s (Z.quot pinum IMAP_CHUNK_SIZE));
    mret (if rc <? 0 then pos + IMAP_CHUNK_SIZE * 4 else pos)
  else mret pos.

(** Lines 390-399 and 308-320: the child's chunk, then the checkpoint. *)
Definition write_chunk_and_cr (inum pos : Z) : M lfs Z :=
  modify (set_chunk (Z.quot inum IMAP_CHUNK_SIZE) pos);;
  s ← get;
  rc ← write (imap_chunk s (Z.quot inum IMAP_CHUNK_SIZE));
  if rc <? 0 then mret (-1)
  else
    modify (set_end (u32 (pos + IMAP_CHUNK_SIZE * 4)));;
    rc ← write_cr;
    if rc <? 0 then mret (-1) else mret 0.

Definition fsi_unlink (jnode jblk : list Z) (pinum : Z) (name : list Z) : M lfs Z :=
  '(rc, pnode) ← get_inode jnode pinum;
  if rc <? 0 then mret (-1)
  else
    cinum ← fsi_lookup jnode jblk pinum name;
    if cinum <? 0 then mret (-1)
    else
      '(_, cnode) ← get_inode jnode cinum;
      refuse ← unlink_refuses jblk cnode cinum pinum;
      if (refuse : bool) then mret (-1)
      else
        found ← unlink_loop 14 pnode name jblk 0;
        match found with
        | None => mret (-1)
        | Some (dir_block, hit) =>
            s ← get;
            let pos := s32 (cr_end s) in
            lseek pos;;
            rc ← write dir_block;
            if rc <? 0 then mret (-1)
            else
              '(foundBlock, i) ← deref "direct[foundBlock]" hit;
              let pnode := mkInode (size pnode) (type pnode)
                             (zset (direct pnode) foundBlock (if i =? 0 then -1 else pos)) in
              let pos := pos + LFS_BLOCK_SIZE in
              rc ← write (enc_inode pnode);
              if rc <? 0 then mret (-1)
              else
                modify (set_inodes pinum pos);;
                s ← get;
                deref "inodes[cinum]" (zget (inodes s) cinum);;
                modify (set_inodes cinum (-1));;
                let pos := pos + sizeof_inode in
                pos ← write_parent_chunk pinum cinum pos;
                write_chunk_and_cr cinum pos
        end.

(** The first free inode number. *)
Fixpoint find_inum (n : nat) (i : Z) (l : list Z) : Z :=
  match n, l with
  | S n, a :: l => if a =? -1 then i else find_inum n (i + 1) l
  | _, _ => -1
  end.

(** The search of [fsi_creat] for a free directory entry: [None] for its
    [return -1], otherwise the last block read and the entry found. *)
Fixpoint creat_loop (n : nat) (pnode : inode_t) (dir_block : list Z) (block : Z) :
    M lfs (option (list Z * option (Z * Z))) :=
  match n with
  | O => mret (Some (dir_block, None))
  | S n =>
      '(rc, dir_block) ← get_block pnode dir_block block;
      if rc =? -1 then mret None
      else
        match find_free 128 0 dir_block with
        | Some i => mret (Some (dir_block, Some (block, i)))
        | None => creat_loop n pnode dir_block (block + 1)
        end
  end.

(** Lines 287-320: the child's first block when it is a directory, its inode,
    its chunk and the checkpoint; [pos] is where the code believes it writes. *)
Definition creat_child (jblk : list Z) (inum pinum ty foundBlock pos : Z) : M lfs Z :=
  let child := mkInode 0 ty (replicate 14 (-1)) in
  r ← (if ty =? LFS_DIRECTORY then
         rc ← write (dots jblk inum pinum);
         if rc <? 0 then mret None
         else mret (Some (mkInode (2 * sizeof_dir_ent) ty (zset (direct child) foundBlock pos),
                          pos + LFS_BLOCK_SIZE))
       else mret (Some (child, pos)));
  match r with
  | None => mret (-1)
  | Some (child, pos) =>
      modify (set_inodes inum pos);;
      rc ← write (enc_inode child);
      if rc <? 0 then mret (-1)
      else write_chunk_and_cr inum (pos + sizeof_inode)
  end.

Definition fsi_creat (jnode jblk : list Z) (pinum ty : Z) (name : list Z) : M lfs Z :=
  '(rc, pnode) ← get_inode jnode pinum;
  if rc <? 0 then mret (-1)
  else if zlen name >? 27 then mret (-1)
  else
    old ← fsi_lookup jnode jblk pinum name;
    (if old >? 0 then (fsi_unlink jnode jblk pinum name;; mret tt) else mret tt);;
    s ← get;
    let inum := find_inum 4096 0 (inodes s) in
    if inum =? -1 then mret (-1)
    else
      found ← creat_loop 14 pnode jblk 0;
      match found with
      | None => mret (-1)
      | Some (_, None) => mret (-1)
      | Some (dir_block, Some (foundBlock, i)) =>
          let dir_block := set_ent_inum (set_ent_name dir_block i name) i inum in
          s ← get;
          let end0 := cr_end s in
          lseek end0;;
          rc ← write dir_block;
          if rc <? 0 then mret (-1)
          else
            let pos := s32 end0 + LFS_BLOCK_SIZE in
            let sz := if size pnode <? foundBlock * LFS_BLOCK_SIZE
                      then foundBlock * LFS_BLOCK_SIZE else size pnode in
            modify (set_inodes pinum pos);;
            let pnode := mkInode sz (type pnode) (zset (direct pnode) foundBlock (s32 end0)) in
            rc ← write (enc_inode pnode);
            if rc <? 0 then mret (-1)
            else
              let pos := pos + sizeof_inode in
              pos ← write_parent_chunk pinum inum pos;
              creat_child jblk inum pinum ty foundBlock pos
      end.

Definition fsi_shutdown : M lfs Z :=
  s ← get;
  modify close_file;;
  mret (if opened s then 0 else -1).

End Lfs.
