(* ===== verification/LfsSpec.v ===== *)
(** Correctness of the log-structured file system of [Lfs]: encodings round
    trip, every operation that appends to the log leaves what was below it
    alone, a mount of the image recovers the in-memory state, and a crash
    between two writes of [fsi_write] loses nothing that was committed. *)
From S2P Require Import Prelude Lfs.
Import Lfs.

(** ** Encodings *)

Lemma dec32_enc32 z rest : dec32 (enc32 z ++ rest) = s32 z.
Proof.
  unfold enc32, dec32. simpl. rewrite <- (s32_u32 z).
  pose proof (u32_range z) as Hr. unfold in_u32 in Hr. f_equal.
  generalize dependent (u32 z). intros w Hw.
  pose proof (Z.div_mod w 256 ltac:(lia)). pose proof (Z.div_mod (w / 256) 256 ltac:(lia)) as H1.
  pose proof (Z.div_mod (w / 65536) 256 ltac:(lia)) as H2.
  rewrite Z.div_div in H1 by lia. rewrite Z.div_div in H2 by lia.
  change (256 * 256) with 65536 in H1. change (65536 * 256) with 16777216 in H2. lia.
Qed.

Lemma length_enc32 z : length (enc32 z) = 4%nat.
Proof. done. Qed.

Lemma length_enc_ints zs : length (enc_ints zs) = (4 * length zs)%nat.
Proof.
  induction zs as [|z zs IH]; [done|].
  change (enc_ints (z :: zs)) with (enc32 z ++ enc_ints zs).
  rewrite length_app, length_enc32, IH. simpl. lia.
Qed.

Lemma enc_ints_app l1 l2 : enc_ints (l1 ++ l2) = enc_ints l1 ++ enc_ints l2.
Proof. apply bind_app. Qed.

Lemma dec_enc_ints zs rest n :
  n = length zs -> Forall in_s32 zs -> dec_ints n (enc_ints zs ++ rest) = zs.
Proof.
  intros -> H. induction H as [|z zs Hz H IH]; [done|].
  cbn [length dec_ints]. change (enc_ints (z :: zs)) with (enc32 z ++ enc_ints zs).
  rewrite <- app_assoc, dec32_enc32, s32_small by done.
  rewrite (drop_app_length' (enc32 z)) by done. by rewrite IH.
Qed.

Lemma length_dec_ints n bs : length (dec_ints n bs) = n.
Proof. revert bs. induction n; intros bs; simpl; [done|]. by rewrite IHn. Qed.

Lemma dec32_range bs : in_s32 (dec32 bs).
Proof.
  unfold dec32. destruct bs as [|? [|? [|? [|? ?]]]]; try (unfold in_s32; lia). apply s32_range.
Qed.

Lemma dec_ints_range n bs : Forall in_s32 (dec_ints n bs).
Proof. revert bs. induction n; intros bs; simpl; constructor; auto using dec32_range. Qed.

Definition inode_ok (n : inode_t) : Prop :=
  in_s32 (size n) /\ in_s32 (type n) /\ Forall in_s32 (direct n) /\ length (direct n) = 14%nat.

Lemma dec_enc_inode n rest : inode_ok n -> dec_inode (enc_inode n ++ rest) = n.
Proof.
  intros (Hs & Ht & Hd & Hl). unfold dec_inode, enc_inode.
  rewrite dec_enc_ints; [by destruct n|simpl; lia|constructor; [done|by constructor]].
Qed.

Lemma dec_inode_ok bs : inode_ok (dec_inode bs).
Proof.
  unfold dec_inode. pose proof (dec_ints_range 16 bs) as H. pose proof (length_dec_ints 16 bs) as L.
  destruct (dec_ints 16 bs) as [|s [|t d]]; try done.
  apply Forall_cons in H as [H1 [H2 H3]%Forall_cons]. unfold inode_ok. simpl in *. split; [done|split; [done|split; [done|lia]]].
Qed.

Lemma length_enc_inode n : length (direct n) = 14%nat -> zlen (enc_inode n) = 64.
Proof. intros H. unfold enc_inode, zlen. rewrite length_enc_ints. simpl. lia. Qed.

(** ** Slices of an overwritten file *)

Lemma length_slice off n f : length (slice off n f) = (Z.to_nat n `min` (length f - Z.to_nat off))%nat.
Proof. unfold slice. by rewrite length_take, length_drop. Qed.

Lemma slice_full off n f : 0 <= off -> 0 <= n -> off + n <= zlen f -> zlen (slice off n f) = n.
Proof. unfold zlen. intros. rewrite length_slice. lia. Qed.

Lemma zlen_write_at f off bs :
  0 <= off <= zlen f -> zlen (write_at f off bs) = Z.max (zlen f) (off + zlen bs).
Proof.
  unfold zlen, write_at. intros H.
  rewrite !length_app, length_take, length_drop, length_app, length_replicate. lia.
Qed.

Lemma slice_write_at_same f off bs n :
  0 <= off -> n = zlen bs -> slice off n (write_at f off bs) = bs.
Proof.
  unfold zlen, slice, write_at. intros H ->.
  rewrite drop_app_length'. 2:{ rewrite length_take, length_app, length_replicate. lia. }
  rewrite take_app_length'; [done|lia].
Qed.

Lemma slice_write_at_below f off bs a n :
  0 <= a -> 0 <= n -> a + n <= off -> off <= zlen f -> slice a n (write_at f off bs) = slice a n f.
Proof.
  unfold zlen, slice, write_at. intros Ha Hn Hle Hf.
  replace (Z.to_nat off - length f)%nat with O by lia. simpl. rewrite app_nil_r.
  rewrite drop_app_le by (rewrite length_take; lia).
  rewrite take_app_le by (rewrite length_drop, length_take; lia).
  rewrite !take_drop_commute, take_take. do 2 f_equal. lia.
Qed.

Lemma slice_write_at_above f off bs a n :
  0 <= off <= zlen f -> off + zlen bs <= a -> slice a n (write_at f off bs) = slice a n f.
Proof.
  unfold zlen, slice, write_at. intros Hf Ha. f_equal.
  replace (Z.to_nat off - length f)%nat with O by lia. simpl. rewrite app_nil_r.
  rewrite drop_app_ge by (rewrite length_take; lia).
  rewrite drop_app_ge by (rewrite length_take; lia).
  rewrite drop_drop, length_take. f_equal. lia.
Qed.

Lemma write_at_write_at f off b1 b2 :
  0 <= off <= zlen f ->
  write_at (write_at f off b1) (off + zlen b1) b2 = write_at f off (b1 ++ b2).
Proof.
  unfold zlen, write_at. intros Hf.
  replace (Z.to_nat off - length f)%nat with O by lia. simpl. rewrite !app_nil_r.
  set (p := take (Z.to_nat off) f). assert (length p = Z.to_nat off) as Hp.
  { unfold p. rewrite length_take. lia. }
  assert (Z.to_nat (off + Z.of_nat (length b1)) = length (p ++ b1)) as ->.
  { rewrite length_app. lia. }
  rewrite (app_assoc p b1 (drop _ f)). rewrite <- !app_assoc.
  replace (length (p ++ b1) - length (p ++ b1 ++ _))%nat with O by (rewrite !length_app; lia).
  simpl. rewrite app_nil_r. rewrite (app_assoc p b1 (drop _ f)).
  rewrite take_app_length. rewrite <- app_assoc. do 3 f_equal.
  rewrite drop_app_ge by (rewrite length_app; lia).
  rewrite drop_drop. f_equal. rewrite !length_app. lia.
Qed.

#[local] Opaque dec_inode enc_inode dec_ints.

(** ** System calls that succeed *)

Lemma lseek_ok off s : opened s = true -> 0 <= off -> lseek off s = Ret (off, set_fpos off s).
Proof. intros Ho H. unfold lseek. rewrite Ho. simpl. by rewrite (proj2 (Z.ltb_ge off 0)). Qed.

Lemma lseek_neg off s : off < 0 -> lseek off s = Ret (-1, s).
Proof.
  intros H. unfold lseek. rewrite (proj2 (Z.ltb_lt off 0)) by done. by rewrite orb_true_r.
Qed.

Lemma read_full buf n s :
  opened s = true -> 0 <= fpos s -> 0 <= n -> fpos s + n <= zlen (file s) -> zlen buf = n ->
  read buf n s = Ret (n, slice (fpos s) n (file s), set_fpos (fpos s + n) s).
Proof.
  intros Ho Hp Hn Hle Hb. unfold read. rewrite Ho. simpl.
  pose proof (slice_full _ _ _ Hp Hn Hle) as L. rewrite L.
  rewrite drop_ge, app_nil_r by (unfold zlen in *; lia). done.
Qed.

Lemma write_ok bs s :
  opened s = true -> 0 < zlen bs -> fpos s + zlen bs <= cap s ->
  write bs s = Ret (zlen bs, set_file (write_at (file s) (fpos s) bs) (fpos s + zlen bs) s).
Proof.
  intros Ho Hn Hc. unfold write. rewrite Ho. simpl.
  rewrite Z.min_l by lia. rewrite (proj2 (Z.leb_gt (zlen bs) 0)) by lia. simpl.
  rewrite take_ge by (unfold zlen; lia). done.
Qed.

(** ** What a well-formed image holds *)

Definition chunk_bytes (ino : list Z) (c : Z) : list Z :=
  enc_ints (slice (c * IMAP_CHUNK_SIZE) IMAP_CHUNK_SIZE ino).

(** The log of the image [f] holds what the checkpoint [(e, ch)] and the inode
    map [ino] point to, all of it between the checkpoint region and [e]. *)
Record on_log (f : list Z) (e : Z) (ch ino : list Z) : Prop := {
  od_end : sizeof_cr <= e < 2 ^ 31;
  od_file : e <= zlen f;
  od_ch_len : length ch = 256%nat;
  od_ino_len : length ino = 4096%nat;
  od_ch_s32 : Forall in_s32 ch;
  od_ino_s32 : Forall in_s32 ino;
  od_chunk c a : zget ch c = Some a ->
    if a =? -1 then slice (c * IMAP_CHUNK_SIZE) IMAP_CHUNK_SIZE ino = replicate 16 (-1)
    else sizeof_cr <= a /\ a + 64 <= e /\ slice a 64 f = chunk_bytes ino c;
  od_inode i a : zget ino i = Some a -> a <> -1 -> sizeof_cr <= a /\ a + 64 <= e;
  od_direct i a d : zget ino i = Some a -> a <> -1 ->
    d ∈ direct (dec_inode (slice a 64 f)) -> d = -1 \/ sizeof_cr <= d /\ d + LFS_BLOCK_SIZE <= e
}.

(** The image's checkpoint region holds that checkpoint too. *)
Record on_disk (f : list Z) (e : Z) (ch ino : list Z) : Prop := {
  od_log :> on_log f e ch ino;
  od_cr : slice 0 sizeof_cr f = enc_ints (e :: ch)
}.

Definition wf (s : lfs) : Prop :=
  opened s = true /\ on_disk (file s) (cr_end s) (chunks s) (inodes s).

(** [f'] agrees with [f] on the log below [e]. *)
Definition same_log (e : Z) (f f' : list Z) : Prop :=
  e <= zlen f' /\
  forall a n, sizeof_cr <= a -> 0 <= n -> a + n <= e -> slice a n f' = slice a n f.

Lemma same_log_refl e f : e <= zlen f -> same_log e f f.
Proof. by split. Qed.

Lemma same_log_trans e f g h : same_log e f g -> same_log e g h -> same_log e f h.
Proof. intros [H1 H2] [H3 H4]. split; [done|]. intros. by rewrite H4, H2. Qed.

Lemma same_log_append e f off bs :
  sizeof_cr <= e <= off -> off <= zlen f -> same_log e f (write_at f off bs).
Proof.
  intros H1 H2. unfold same_log, sizeof_cr in *. split.
  - rewrite zlen_write_at by lia. lia.
  - intros. apply slice_write_at_below; lia.
Qed.

Lemma same_log_cr e f bs :
  e <= zlen f -> sizeof_cr <= e -> zlen bs = sizeof_cr -> same_log e f (write_at f 0 bs).
Proof.
  intros H1 H2 H3. unfold same_log, sizeof_cr in *. split.
  - rewrite zlen_write_at by lia. lia.
  - intros. apply slice_write_at_above; lia.
Qed.

Lemma on_log_grow f f' e e' ch ino :
  on_log f e ch ino -> same_log e f f' -> e <= e' < 2 ^ 31 -> e' <= zlen f' -> on_log f' e' ch ino.
Proof.
  intros [] [Hle Hs] He' Hf. split; try done.
  - lia.
  - intros c a Hc. specialize (od_chunk0 c a Hc). destruct (a =? -1); [done|].
    destruct od_chunk0 as (H1 & H2 & H3). rewrite Hs; [split; [done|split; [lia|done]]|lia..].
  - intros i a Hi Ha. destruct (od_inode0 i a Hi Ha). lia.
  - intros i a d Hi Ha. destruct (od_inode0 i a Hi Ha). rewrite Hs by lia. intros Hd.
    destruct (od_direct0 i a d Hi Ha Hd); [by left|right; lia].
Qed.

Lemma on_disk_agree f f' e ch ino :
  on_disk f e ch ino -> same_log e f f' -> slice 0 sizeof_cr f' = slice 0 sizeof_cr f ->
  on_disk f' e ch ino.
Proof.
  intros D H Hcr. split; [|by rewrite Hcr, (od_cr _ _ _ _ D)].
  pose proof (od_end _ _ _ _ D). destruct H as [? ?] eqn:?.
  eapply on_log_grow; [apply D|done|lia|done].
Qed.

(** ** Mounting *)

Lemma length_enc_cr e ch : length ch = 256%nat -> zlen (enc_ints (e :: ch)) = sizeof_cr.
Proof. intros H. unfold zlen. rewrite length_enc_ints. simpl length. rewrite H. done. Qed.

Lemma Forall_slice P off n (l : list Z) : Forall P l -> Forall P (slice off n l).
Proof. intros. unfold slice. by apply Forall_take, Forall_drop. Qed.

Lemma length_chunk_bytes ino c :
  length ino = 4096%nat -> 0 <= c < 256 -> zlen (chunk_bytes ino c) = 64.
Proof.
  intros H Hc. unfold chunk_bytes, zlen. rewrite length_enc_ints, length_slice, H.
  unfold IMAP_CHUNK_SIZE. lia.
Qed.

Lemma splice_chunk (ino l : list Z) (i : Z) :
  0 <= i < 256 -> length ino = 4096%nat -> length l = 4096%nat ->
  take (Z.to_nat (i * 16)) l = take (Z.to_nat (i * 16)) ino ->
  take (Z.to_nat ((i + 1) * 16))
    (take (Z.to_nat (i * 16)) l ++ slice (i * 16) 16 ino ++ drop (Z.to_nat (i * 16 + 16)) l)
  = take (Z.to_nat ((i + 1) * 16)) ino.
Proof.
  intros Hi L1 L2 H. rewrite H, app_assoc.
  assert (take (Z.to_nat (i * 16)) ino ++ slice (i * 16) 16 ino = take (Z.to_nat ((i + 1) * 16)) ino) as ->.
  { unfold slice. replace (Z.to_nat ((i + 1) * 16)) with (Z.to_nat (i * 16) + Z.to_nat 16)%nat by lia.
    by rewrite take_take_drop. }
  apply take_app_length'. rewrite length_take. lia.
Qed.

Lemma length_splice (l c : list Z) i :
  0 <= i < 256 -> length l = 4096%nat -> length c = 16%nat ->
  length (take (Z.to_nat (i * 16)) l ++ c ++ drop (Z.to_nat (i * 16 + 16)) l) = 4096%nat.
Proof. intros. rewrite !length_app, length_take, length_drop. lia. Qed.

(** One round of the loading loop puts the chunk's sixteen entries in place. *)
Lemma load_chunk_step n i t ino c :
  on_disk (file t) (cr_end t) (chunks t) ino -> opened t = true ->
  length (inodes t) = 4096%nat -> zget (chunks t) i = Some c -> 0 <= i < 256 ->
  exists p, load_chunks (S n) i t =
    load_chunks n (i + 1)
      (mkLfs (file t) p (cap t) true (cr_end t) (chunks t)
         (take (Z.to_nat (i * 16)) (inodes t) ++ slice (i * 16) 16 ino
          ++ drop (Z.to_nat (i * 16 + 16)) (inodes t)) (hist t)).
Proof.
  intros D Ho L Hc Hi. pose proof (od_chunk _ _ _ _ D i c Hc) as H. pose proof (od_file _ _ _ _ D) as Hf.
  cbn [load_chunks]. rewrite (bind_Ret get _ _ _ _ eq_refl).
  rewrite (bind_Ret _ _ t c t) by (by rewrite Hc).
  destruct (c =? -1) eqn:E; cbn [negb].
  - exists (fpos t). change (i * IMAP_CHUNK_SIZE) with (i * 16) in H. change IMAP_CHUNK_SIZE with 16 in H. rewrite H. rewrite (bind_Ret _ _ _ tt _ eq_refl). destruct t; simpl in *; by subst.
  - destruct H as (H1 & H2 & H3). unfold sizeof_cr in H1. exists (c + 64).
    erewrite bind_Ret; [reflexivity|].
    rewrite (bind_Ret _ _ _ _ _ (lseek_ok c t Ho ltac:(lia))).
    erewrite bind_Ret.
    2:{ apply read_full; simpl; try done; try lia. by apply length_chunk_bytes. }
    cbn [fpos set_fpos file]. rewrite H3. cbv beta iota. change (64 =? -1) with false. cbv iota.
    unfold chunk_bytes. rewrite <- (app_nil_r (enc_ints _)), dec_enc_ints.
    + destruct t; simpl in *; by subst.
    + rewrite length_slice, (od_ino_len _ _ _ _ D). unfold IMAP_CHUNK_SIZE. lia.
    + apply Forall_slice, (od_ino_s32 _ _ _ _ D).
Qed.

Lemma load_chunks_ok n i t ino :
  on_disk (file t) (cr_end t) (chunks t) ino -> opened t = true ->
  length (inodes t) = 4096%nat -> i = 256 - Z.of_nat n -> 0 <= i ->
  take (Z.to_nat (i * 16)) (inodes t) = take (Z.to_nat (i * 16)) ino ->
  exists p, load_chunks n i t =
    Ret (tt, mkLfs (file t) p (cap t) true (cr_end t) (chunks t) ino (hist t)).
Proof.
  revert i t. induction n as [|n IH]; intros i t D Ho L Hi H0 Ht.
  - exists (fpos t). pose proof (od_ino_len _ _ _ _ D).
    rewrite !take_ge in Ht by lia. destruct t; simpl in *; by subst.
  - destruct (zget_range (chunks t) i) as [c Hc].
    { unfold zlen. rewrite (od_ch_len _ _ _ _ D). lia. }
    destruct (load_chunk_step n i t ino c D Ho L Hc ltac:(lia)) as [p ->].
    assert (length (slice (i * 16) 16 ino) = 16%nat).
    { rewrite length_slice, (od_ino_len _ _ _ _ D). lia. }
    apply (IH (i + 1) (mkLfs _ _ _ _ _ _ _ _)); simpl; try done; [|lia..|].
    + apply length_splice; lia || done.
    + apply splice_chunk; try done; try lia. by rewrite (od_ino_len _ _ _ _ D).
Qed.

(** [fsi_init] on an image recovers the checkpoint and the inode map. *)
Lemma fsi_init_ok jblk f e ch ino t :
  on_disk f e ch ino -> length (inodes t) = 4096%nat -> length (chunks t) = 256%nat ->
  exists p, fsi_init jblk (Image f) t = Ret (0, mkLfs f p (cap t) true e ch ino [f]).
Proof.
  intros D L Lc. unfold fsi_init.
  rewrite (bind_Ret _ _ _ tt _ eq_refl).
  rewrite (bind_Ret _ _ _ _ _ (lseek_ok 0 (open_file f t) eq_refl ltac:(lia))).
  rewrite (bind_Ret get _ _ _ _ eq_refl).
  pose proof (od_file _ _ _ _ D). pose proof (od_end _ _ _ _ D) as He. unfold sizeof_cr in He.
  erewrite bind_Ret.
  2:{ apply read_full; simpl; [done|lia|unfold sizeof_cr; lia|unfold sizeof_cr; lia|by apply length_enc_cr]. }
  cbn [fpos set_fpos file open_file]. rewrite (od_cr _ _ _ _ D). rewrite Z.eqb_refl. cbn [negb].
  rewrite (bind_Ret _ _ _ tt _ eq_refl).
  change (enc_ints (e :: ch)) with (enc32 e ++ enc_ints ch). rewrite dec32_enc32, u32_s32, u32_small by (unfold in_u32; lia).
  rewrite (drop_app_length' (enc32 e)) by done.
  rewrite <- (app_nil_r (enc_ints ch)), dec_enc_ints; [|by rewrite (od_ch_len _ _ _ _ D)|apply (od_ch_s32 _ _ _ _ D)].
  destruct (load_chunks_ok 256 0 (mkLfs f (0 + sizeof_cr) (cap t) true e ch (inodes t) [f]) ino) as [p E]; try done; try lia.
  exists p. by rewrite (bind_Ret _ _ _ _ _ E).
Qed.

(** ** The abstract file system *)

(** A file as its users see it: a hole is [None]. *)
Record afile := mkA { a_type : Z; a_size : Z; a_blocks : list (option (list Z)) }.

Definition ablock (f : list Z) (d : Z) : option (list Z) :=
  if d =? -1 then None else Some (slice d LFS_BLOCK_SIZE f).

Definition afile_of (f : list Z) (n : inode_t) : afile :=
  mkA (type n) (size n) (ablock f <$> direct n).

(** What inode [i] is in the image [f] under the inode map [ino]. *)
Definition view (f ino : list Z) (i : Z) : option afile :=
  a ← zget ino i; if a =? -1 then None else Some (afile_of f (dec_inode (slice a 64 f))).

Lemma mkA_eq t z z' bs bs' : z = z' -> bs = bs' -> mkA t z bs = mkA t z' bs'.
Proof. by intros -> ->. Qed.

Lemma afile_of_ext f f' n :
  (forall d, d ∈ direct n -> ablock f' d = ablock f d) -> afile_of f' n = afile_of f n.
Proof.
  intros H. unfold afile_of. apply (f_equal (mkA (type n) (size n))).
  apply list_fmap_ext. intros k d Hd. apply H. by eapply list_elem_of_lookup_2.
Qed.

Lemma view_agree f f'  e ch ino i :
  on_log f e ch ino -> same_log e f f' -> view f' ino i = view f ino i.
Proof.
  intros D [Hle Hs]. unfold view. destruct (zget ino i) as [a|] eqn:Ha; [|done]. simpl.
  destruct (Z.eqb_spec a (-1)) as [|Hne]; [done|].
  destruct (od_inode _ _ _ _ D i a Ha Hne). rewrite Hs by lia. apply (f_equal Some).
  apply afile_of_ext. intros d Hd. unfold ablock.
  destruct (Z.eqb_spec d (-1)); [done|]. apply (f_equal Some).
  destruct (od_direct _ _ _ _ D i a d Ha Hne Hd) as [|[? ?]]; [done|].
  unfold sizeof_cr, LFS_BLOCK_SIZE in *. apply Hs; unfold sizeof_cr; lia.
Qed.

Lemma zget_slice (l : list Z) off n k :
  0 <= off -> off <= k < off + n -> zget (slice off n l) (k - off) = zget l k.
Proof.
  intros H Hk. unfold zget, slice. rewrite !bool_decide_false by lia.
  rewrite lookup_take_lt by lia. rewrite lookup_drop. f_equal. lia.
Qed.

Lemma slice_ext off n (l l' : list Z) :
  0 <= off -> 0 <= n -> length l = length l' ->
  (forall k, off <= k < off + n -> zget l k = zget l' k) -> slice off n l = slice off n l'.
Proof.
  intros Ho Hn L H. apply list_eq. intros j.
  destruct (decide (Z.of_nat j < n)) as [Hj|Hj].
  - pose proof (zget_slice l off n (off + Z.of_nat j) Ho ltac:(lia)) as E1.
    pose proof (zget_slice l' off n (off + Z.of_nat j) Ho ltac:(lia)) as E2.
    replace (off + Z.of_nat j - off) with (Z.of_nat j) in * by lia.
    unfold zget at 1 in E1. unfold zget at 1 in E2.
    rewrite bool_decide_false, Nat2Z.id in E1, E2 by lia. rewrite E1, E2. apply H. lia.
  - rewrite !lookup_ge_None_2; [done|rewrite length_slice; lia..].
Qed.

(** Pointing the inode map's chunk [q] at a new copy written at [c]. *)
Lemma on_log_move f e ch ino q c ino' :
  on_log f e ch ino -> 0 <= q < 256 -> length ino' = 4096%nat -> Forall in_s32 ino' ->
  (forall k, k / 16 <> q -> zget ino' k = zget ino k) ->
  sizeof_cr <= c -> c + 64 <= e -> slice c 64 f = chunk_bytes ino' q ->
  (forall k a, zget ino' k = Some a -> a <> -1 -> zget ino k <> Some a ->
     sizeof_cr <= a /\ a + 64 <= e /\
     forall d, d ∈ direct (dec_inode (slice a 64 f)) ->
       d = -1 \/ sizeof_cr <= d /\ d + LFS_BLOCK_SIZE <= e) ->
  on_log f e (zset ch q c) ino'.
Proof.
  intros [] Hq L S32 Hout Hc1 Hc2 Hcs Hnew.
  assert (Hcs32 : in_s32 c) by (unfold in_s32, sizeof_cr in *; lia). split; try done.
  - rewrite <- od_ch_len0. pose proof (zlen_zset ch q c) as Hz. unfold zlen in Hz. lia.
  - unfold zset. case_bool_decide; [done|]. apply Forall_insert; done.
  - intros k a Hk. destruct (decide (k = q)) as [->|Hkq].
    + rewrite zget_zset_eq in Hk by (unfold zlen; lia). injection Hk as <-.
      unfold sizeof_cr in *. rewrite (proj2 (Z.eqb_neq c (-1))) by lia. done.
    + rewrite zget_zset_ne in Hk by done. specialize (od_chunk0 k a Hk).
      apply zget_Some_range in Hk.
      assert (slice (k * IMAP_CHUNK_SIZE) IMAP_CHUNK_SIZE ino' = slice (k * IMAP_CHUNK_SIZE) IMAP_CHUNK_SIZE ino) as E.
      { unfold IMAP_CHUNK_SIZE. apply slice_ext; [lia|lia|congruence|]. intros j Hj. apply Hout.
        rewrite <- (Z.div_unique j 16 k (j - k * 16)); lia. }
      unfold chunk_bytes in *. by rewrite E.
  - intros i a Hi Ha. destruct (decide (zget ino i = Some a)) as [E|E]; [by eauto|].
    destruct (Hnew i a Hi Ha E) as (? & ? & ?). done.
  - intros i a d Hi Ha. destruct (decide (zget ino i = Some a)) as [E|E]; [by eauto|].
    destruct (Hnew i a Hi Ha E) as (? & ? & H). apply H.
Qed.

(** ** Writing a block *)

Lemma get_inode_ok jnode i a s :
  wf s -> zget (inodes s) i = Some a -> a <> -1 -> zlen jnode = 64 ->
  get_inode jnode i s = Ret (64, dec_inode (slice a 64 (file s)), set_fpos (a + 64) s).
Proof.
  intros [Ho D] Hi Ha Hj. destruct (od_inode _ _ _ _ D i a Hi Ha) as [H1 H2].
  pose proof (od_file _ _ _ _ D). unfold sizeof_cr in H1.
  unfold get_inode. rewrite (bind_Ret get _ _ _ _ eq_refl).
  rewrite Hi. rewrite (bind_Ret _ _ _ a s eq_refl).
  apply zget_Some_range in Hi. rewrite (proj2 (Z.ltb_ge i 0)) by lia.
  rewrite (proj2 (Z.eqb_neq a (-1))) by done. cbn [orb].
  rewrite (bind_Ret _ _ _ _ _ (lseek_ok a s Ho ltac:(lia))).
  erewrite bind_Ret. 2:{ apply read_full; simpl; [done|lia|unfold sizeof_inode; lia|unfold sizeof_inode; lia|done]. }
  reflexivity.
Qed.

Lemma get_inode_free jnode i s :
  zget (inodes s) i = Some (-1) -> get_inode jnode i s = Ret (-1, dec_inode jnode, s).
Proof.
  intros Hi. unfold get_inode. rewrite (bind_Ret get _ _ _ _ eq_refl).
  rewrite Hi. rewrite (bind_Ret _ _ _ (-1) s eq_refl). by rewrite orb_true_r.
Qed.

Lemma write_cr_ok s :
  opened s = true -> length (chunks s) = 256%nat -> sizeof_cr <= cap s ->
  write_cr s = Ret (sizeof_cr, set_file (write_at (file s) 0 (enc_cr s)) sizeof_cr s).
Proof.
  intros Ho L Hc. unfold write_cr.
  rewrite (bind_Ret _ _ _ _ _ (lseek_ok 0 s Ho ltac:(lia))).
  rewrite (bind_Ret get _ _ _ _ eq_refl).
  pose proof (length_enc_cr (cr_end s) (chunks s) L) as Hl. unfold enc_cr.
  cbn [cr_end chunks set_fpos].
  rewrite write_ok; cbn [file fpos cap opened set_fpos]; rewrite ?Hl; unfold sizeof_cr in *; [reflexivity|done|lia|lia].
Qed.

(** Stepping through calls that succeed. *)
Ltac lfs_cbn := cbn [file fpos cap opened cr_end chunks inodes hist set_fpos set_file set_end set_chunk set_inodes].
Ltac lfs_cbn_in H := cbn [file fpos cap opened cr_end chunks inodes hist set_fpos set_file set_end set_chunk set_inodes] in H.
Ltac lfs_step :=
  first [ rewrite (bind_Ret get _ _ _ _ eq_refl)
        | rewrite (bind_Ret (modify _) _ _ tt _ eq_refl)
        | erewrite (bind_Ret (lseek _)) by (apply lseek_ok; [done|lia]) ]; lfs_cbn.
Ltac lfs_write :=
  erewrite (bind_Ret (write _)) by (apply write_ok; lfs_cbn; [done|lia|lia]); lfs_cbn.

Section Writing.
Context (jnode : list Z) (inum : Z) (buf : list Z) (block : Z) (s : lfs) (a : Z).
Let f := file s.
Let e := cr_end s.
Let n := dec_inode (slice a 64 f).
Context (W : wf s) (Hj : zlen jnode = 64).
Context (Hi : zget (inodes s) inum = Some a) (Ha : a <> -1) (Ht : type n = LFS_REGULAR_FILE).
Context (Hb : 0 <= block < 14) (Hbuf : zlen buf = 4096).
Context (Hend : e + 4224 < 2 ^ 31) (Hcap : e + 4224 <= cap s).

Definition w_size (n : inode_t) : Z :=
  if (default 0 (zget (direct n) block) =? -1) && (size n <? block * LFS_BLOCK_SIZE)
  then block * LFS_BLOCK_SIZE else size n.
Definition w_node (e : Z) (n : inode_t) : inode_t := mkInode (w_size n) (type n) (zset (direct n) block e).

Let q := Z.quot inum IMAP_CHUNK_SIZE.
Let ino' := zset (inodes s) inum (e + 4096).
Let ch' := zset (chunks s) q (e + 4160).
Let ib := enc_inode (w_node e n).
Let cb := chunk_bytes ino' q.
Let f1 := write_at f e buf.
Let f2 := write_at f1 (e + 4096) ib.
Let f3 := write_at f2 (e + 4160) cb.
Let f4 := write_at f3 0 (enc_ints ((e + 4224) :: ch')).

Lemma w_range : 0 <= inum < 4096 /\ q = inum / 16 /\ 0 <= q < 256.
Proof.
  pose proof (zget_Some_range _ _ _ Hi) as H. unfold zlen in H. rewrite (od_ino_len _ _ _ _ (proj2 W)) in H.
  unfold q, IMAP_CHUNK_SIZE. rewrite Z.quot_div_nonneg by lia.
  split; [lia|]. split; [done|]. split; [apply Z.div_pos; lia|]. apply Z.div_lt_upper_bound; lia.
Qed.

Lemma w_lens : zlen ib = 64 /\ zlen cb = 64 /\ length ch' = 256%nat /\ length ino' = 4096%nat.
Proof.
  pose proof w_range as (? & ? & ?). pose proof (od_ino_len _ _ _ _ (proj2 W)) as L1.
  pose proof (od_ch_len _ _ _ _ (proj2 W)) as L2.
  assert (length ino' = 4096%nat).
  { unfold ino'. rewrite length_zset. exact L1. }
  split; [|split; [by apply length_chunk_bytes|split; [|done]]].
  - apply length_enc_inode. unfold w_node. cbn [direct]. rewrite length_zset. apply dec_inode_ok.
  - unfold ch'. rewrite length_zset. exact L2.
Qed.

Lemma w_e : 1028 <= e /\ e <= zlen f.
Proof. destruct W as [_ D]. pose proof (od_end _ _ _ _ D). pose proof (od_file _ _ _ _ D). unfold sizeof_cr, e, f in *. lia. Qed.

Lemma w_files : zlen f1 = Z.max (zlen f) (e + 4096) /\ zlen f2 = Z.max (zlen f) (e + 4160) /\
  zlen f3 = Z.max (zlen f) (e + 4224) /\ zlen f4 = zlen f3.
Proof.
  pose proof w_e. pose proof w_lens as (L1 & L2 & L3 & _). pose proof (length_enc_cr (e + 4224) ch' L3) as L4.
  unfold sizeof_cr in L4.
  assert (zlen f1 = Z.max (zlen f) (e + 4096)) as E1 by (unfold f1; rewrite zlen_write_at; lia).
  assert (zlen f2 = Z.max (zlen f) (e + 4160)) as E2 by (unfold f2; rewrite zlen_write_at; lia).
  assert (zlen f3 = Z.max (zlen f) (e + 4224)) as E3 by (unfold f3; rewrite zlen_write_at; lia).
  split; [done|split; [done|split; [done|]]]. unfold f4. rewrite zlen_write_at; lia.
Qed.

(** The run of a successful [fsi_write]: three appends and the checkpoint. *)
Lemma fsi_write_run :
  fsi_write jnode inum buf block s =
  Ret (0, mkLfs f4 sizeof_cr (cap s) true (e + 4224) ch' ino' (f4 :: f3 :: f2 :: f1 :: hist s)).
Proof.
  pose proof w_e as [He1 He2]. pose proof w_lens as (L1 & L2 & L3 & L4). pose proof W as [Ho D].
  assert (s32 e = e) as Es by (apply s32_small; unfold in_s32; lia).
  unfold fsi_write.
  rewrite (bind_Ret _ _ _ _ _ (get_inode_ok jnode inum a s W Hi Ha Hj)).
  change (64 <? 0) with false. cbv beta iota. fold f. fold n. rewrite Ht.
  rewrite Z.eqb_refl. cbn [negb]. rewrite Z.gtb_ltb, (proj2 (Z.ltb_ge 13 block)) by lia.
  lfs_step. cbn [cr_end set_fpos]. fold e. rewrite Es.
  lfs_step. rewrite (take_ge buf) by (unfold zlen, LFS_BLOCK_SIZE in *; lia). lfs_write.
  rewrite Hbuf. change (4096 <? 0) with false. cbv beta iota.
  destruct (zget_range (direct n) block) as [d Hd].
  { destruct (dec_inode_ok (slice a 64 f)) as (_ & _ & _ & H3). fold n in H3. unfold zlen. lia. }
  rewrite Hd. rewrite (bind_Ret _ _ _ d _ eq_refl).
  lfs_step.
  match goal with |- context [enc_inode ?x] => replace (enc_inode x) with ib end.
  2:{ unfold ib, w_node, w_size. by rewrite Hd, Ht. }
  fold f1. unfold LFS_BLOCK_SIZE. lfs_write. rewrite L1. change (64 <? 0) with false. cbv beta iota.
  lfs_step. lfs_step. unfold imap_chunk. lfs_cbn. fold q. unfold sizeof_inode.
  change (enc_ints (slice (q * IMAP_CHUNK_SIZE) IMAP_CHUNK_SIZE (zset (inodes s) inum (e + 4096)))) with cb.
  lfs_write. rewrite L2. change (64 <? 0) with false. cbv beta iota.
  lfs_step. replace (u32 (e + 4096 + 64 + IMAP_CHUNK_SIZE * 4)) with (e + 4224).
  2:{ rewrite u32_small; unfold in_u32, IMAP_CHUNK_SIZE; lia. }
  replace (e + 4096 + 64) with (e + 4160) by lia.
  erewrite bind_Ret by (apply write_cr_ok; lfs_cbn; [done|done|unfold sizeof_cr; lia]).
  change (sizeof_cr <? 0) with false. cbv iota. rewrite <- Ho. reflexivity.
Qed.

Lemma w_node_ok : inode_ok (w_node e n).
Proof.
  pose proof w_e. destruct (dec_inode_ok (slice a 64 f)) as (H1 & H2 & H3 & H4). fold n in H1, H2, H3, H4.
  split; [|split; [done|split]]; unfold w_node; cbn [size direct].
  - unfold w_size. destruct (_ && _); [unfold in_s32, LFS_BLOCK_SIZE; lia|done].
  - unfold zset. case_bool_decide; [done|]. apply Forall_insert; [done|unfold in_s32; lia].
  - rewrite length_zset. exact H4.
Qed.

(** Each image on the way agrees with the old one below the old log end. *)
Lemma w_same_log : same_log e f f1 /\ same_log e f f2 /\ same_log e f f3 /\
  same_log (e + 4096) f1 f2 /\ same_log (e + 4160) f2 f3 /\ same_log (e + 4224) f3 f4.
Proof.
  pose proof w_e. pose proof w_files as (E1 & E2 & E3 & E4). pose proof w_lens as (_ & _ & L3 & _).
  assert (same_log e f f1) by (apply same_log_append; unfold sizeof_cr; lia).
  assert (same_log e f1 f2) by (apply same_log_append; unfold sizeof_cr; lia).
  assert (same_log e f2 f3) by (apply same_log_append; unfold sizeof_cr; lia).
  split; [done|]. split; [by eapply same_log_trans|]. split; [by do 2 (eapply same_log_trans; [|done])|].
  split; [|split]; [apply same_log_append; unfold sizeof_cr; lia..|].
  apply same_log_cr; [lia|unfold sizeof_cr; lia|by apply length_enc_cr].
Qed.

Lemma w_inode : dec_inode (slice (e + 4096) 64 f3) = w_node e n.
Proof.
  pose proof w_e. pose proof w_files as (E1 & E2 & E3 & E4). pose proof w_lens as (L1 & _).
  pose proof w_same_log as (_ & _ & _ & _ & [_ HS] & _). rewrite HS by (unfold sizeof_cr; lia).
  unfold f2. rewrite slice_write_at_same by lia. unfold ib.
  rewrite <- (app_nil_r (enc_inode _)). apply dec_enc_inode, w_node_ok.
Qed.

Lemma w_block : slice e LFS_BLOCK_SIZE f3 = buf.
Proof.
  pose proof w_e. pose proof w_files as (E1 & E2 & E3 & E4).
  pose proof w_same_log as (_ & _ & _ & [_ H1] & [_ H2] & _).
  unfold LFS_BLOCK_SIZE. rewrite H2, H1 by (unfold sizeof_cr; lia).
  unfold f1. by rewrite slice_write_at_same by lia.
Qed.

Lemma w_direct d : d ∈ direct (w_node e n) -> d = e \/ d ∈ direct n.
Proof.
  unfold w_node. cbn [direct]. unfold zset. case_bool_decide; [by right|].
  intros (i & Hd)%list_elem_of_lookup. apply list_lookup_insert_Some in Hd as [(_ & -> & _)|(_ & Hd)]; [by left|].
  right. by eapply list_elem_of_lookup_2.
Qed.

(** Before the checkpoint the log already holds the new map and inode. *)
Lemma w_log : on_log f3 (e + 4224) ch' ino'.
Proof.
  pose proof w_e. pose proof w_files as (E1 & E2 & E3 & E4). pose proof w_lens as (L1 & L2 & L3 & L4).
  pose proof w_range as (R1 & R2 & R3). pose proof W as [Ho D].
  pose proof w_same_log as (_ & _ & S3 & _ & _ & _).
  apply on_log_move with (ino := inodes s); try done.
  - eapply on_log_grow; [apply D|done|lia|lia].
  - unfold ino', zset. case_bool_decide; [apply D|]. apply Forall_insert; [apply D|unfold in_s32; lia].
  - intros k Hk. apply zget_zset_ne. congruence.
  - unfold sizeof_cr. lia.
  - lia.
  - unfold f3. by rewrite slice_write_at_same by lia.
  - intros k b Hk Hb' Hold. destruct (decide (k = inum)) as [->|Hne].
    2:{ unfold ino' in Hk. by rewrite zget_zset_ne in Hk. }
    unfold ino' in Hk. rewrite zget_zset_eq in Hk by (unfold zlen; rewrite (od_ino_len _ _ _ _ D); lia).
    injection Hk as <-. split; [unfold sizeof_cr; lia|]. split; [lia|].
    rewrite w_inode. intros d [->|Hd]%w_direct; [right; unfold sizeof_cr, LFS_BLOCK_SIZE; lia|].
    destruct (od_direct _ _ _ _ D inum a d Hi Ha Hd) as [|[? ?]]; [by left|right].
    unfold sizeof_cr, LFS_BLOCK_SIZE in *. fold e in H1. lia.
Qed.

Lemma w_disk : on_disk f4 (e + 4224) ch' ino'.
Proof.
  pose proof w_lens as (_ & _ & L3 & _). pose proof w_same_log as (_ & _ & _ & _ & _ & S4).
  pose proof w_e. pose proof w_files as (E1 & E2 & E3 & E4).
  split; [|unfold f4; rewrite slice_write_at_same; [done|lia|by rewrite length_enc_cr]].
  eapply on_log_grow; [apply w_log|done|lia|lia].
Qed.

(** The abstract effect: one block of one file changes, and its size when the
    block was a hole past the recorded size. *)
Definition a_write (fl : afile) : afile :=
  mkA (a_type fl)
    (if bool_decide (zget (a_blocks fl) block = Some None) && (a_size fl <? block * LFS_BLOCK_SIZE)
     then block * LFS_BLOCK_SIZE else a_size fl)
    (zset (a_blocks fl) block (Some buf)).

Lemma w_view i :
  view f4 ino' i = if i =? inum then Some (a_write (afile_of f n)) else view f (inodes s) i.
Proof.
  pose proof w_e. pose proof w_files as (E1 & E2 & E3 & E4). pose proof W as [Ho D].
  pose proof w_same_log as (_ & _ & S3 & _ & _ & S4). pose proof w_range as (R1 & _).
  rewrite (view_agree _ _ _ _ _ i w_log S4).
  destruct (Z.eqb_spec i inum) as [->|Hne].
  2:{ transitivity (view f3 (inodes s) i); [unfold view, ino'; by rewrite zget_zset_ne|].
    exact (view_agree _ _ _ _ _ i (od_log _ _ _ _ D) S3). }
  unfold view, ino'. rewrite zget_zset_eq by (unfold zlen; rewrite (od_ino_len _ _ _ _ D); lia).
  cbn [mbind option_bind]. rewrite (proj2 (Z.eqb_neq (e + 4096) (-1))) by lia.
  rewrite w_inode. apply (f_equal Some). unfold afile_of, a_write, w_node. cbn [a_type a_size a_blocks type size direct].
  destruct (zget_range (direct n) block) as [d Hd].
  { destruct (dec_inode_ok (slice a 64 f)) as (_ & _ & _ & H3). fold n in H3. unfold zlen. lia. }
  apply mkA_eq.
  - unfold w_size. rewrite Hd, zget_fmap, Hd. change (default 0 (Some d)) with d.
    change (ablock f <$> Some d) with (Some (ablock f d)). unfold ablock.
    destruct (d =? -1); [by rewrite bool_decide_true|by rewrite bool_decide_false].
  - rewrite fmap_zset. unfold ablock at 2. rewrite (proj2 (Z.eqb_neq e (-1))) by lia. rewrite w_block.
    apply (f_equal (fun l => zset l block (Some buf))). apply list_fmap_ext. intros k b Hb'%list_elem_of_lookup_2. unfold ablock.
    destruct (Z.eqb_spec b (-1)); [done|]. f_equal.
    destruct (od_direct _ _ _ _ D inum a b Hi Ha Hb') as [|[? ?]]; [done|].
    unfold sizeof_cr, LFS_BLOCK_SIZE in *. fold e in H1. apply S3; unfold sizeof_cr; lia.
Qed.
End Writing.

(** Unfolding what [view] says about an inode. *)
Lemma view_inv f ino i fl :
  view f ino i = Some fl ->
  exists a, zget ino i = Some a /\ a <> -1 /\ fl = afile_of f (dec_inode (slice a 64 f)).
Proof.
  unfold view. destruct (zget ino i) as [a|]; [|done]. cbn [mbind option_bind].
  destruct (Z.eqb_spec a (-1)); [done|]. intros [= <-]. by exists a.
Qed.

(** C9: A successful [fsi_write] is the abstract block write: on a well-formed
    file system with room for 4224 more log bytes it returns 0, changes exactly
    the given block of the given regular file (and its size, when it fills a
    hole past the recorded size), no other file, and keeps the on-disk
    structure well formed. *)
Theorem fsi_write_refines jnode inum buf block s fl :
  wf s -> zlen jnode = 64 ->
  view (file s) (inodes s) inum = Some fl -> a_type fl = LFS_REGULAR_FILE ->
  0 <= block < NDIRECT -> zlen buf = LFS_BLOCK_SIZE ->
  cr_end s + 4224 < 2 ^ 31 -> cr_end s + 4224 <= cap s ->
  exists s', fsi_write jnode inum buf block s = Ret (0, s') /\ wf s' /\
    forall i, view (file s') (inodes s') i =
      if i =? inum then Some (a_write buf block fl) else view (file s) (inodes s) i.
Proof.
  intros W Hj (a & Hi & Ha & ->)%view_inv Ht Hb Hbuf He Hc.
  eexists. split; [by apply (fsi_write_run jnode inum buf block s a)|].
  split; [split; [done|by apply (w_disk inum buf block s a)]|].
  intros i. by apply (w_view inum buf block s a).
Qed.

(** A mount of the image [f] shows the files that [s] shows. *)
Definition mounts_as (f : list Z) (s : lfs) : Prop :=
  forall jblk t, length (inodes t) = 4096%nat -> length (chunks t) = 256%nat ->
  exists t', fsi_init jblk (Image f) t = Ret (0, t') /\ wf t' /\
    cr_end t' = cr_end s /\ chunks t' = chunks s /\ inodes t' = inodes s /\
    forall i, view (file t') (inodes t') i = view (file s) (inodes s) i.

Lemma mounts_as_intro f s :
  on_disk f (cr_end s) (chunks s) (inodes s) ->
  (forall i, view f (inodes s) i = view (file s) (inodes s) i) -> mounts_as f s.
Proof.
  intros D Hv jblk t L1 L2.
  destruct (fsi_init_ok jblk _ _ _ _ t D L1 L2) as [p E].
  eexists. split; [exact E|]. repeat (split; [done|]). exact Hv.
Qed.

(** C29: [fsi_init] on the image a well-formed file system keeps recovers it:
    the checkpoint, the inode map and every file are what they were in memory,
    whatever the globals held before. *)
Theorem fsi_init_recovers s : wf s -> mounts_as (file s) s.
Proof. intros [Ho D]. by apply mounts_as_intro. Qed.

(** C4: [fsi_write] is atomic across crashes: of the images the file goes
    through, the last one is the returned state's, and a mount of any earlier
    one recovers exactly the file system before the call, because the old
    checkpoint still stands and the log below it is never overwritten. *)
Theorem fsi_write_crash_atomic jnode inum buf block s fl :
  wf s -> zlen jnode = 64 ->
  view (file s) (inodes s) inum = Some fl -> a_type fl = LFS_REGULAR_FILE ->
  0 <= block < NDIRECT -> zlen buf = LFS_BLOCK_SIZE ->
  cr_end s + 4224 < 2 ^ 31 -> cr_end s + 4224 <= cap s ->
  exists s' imgs, fsi_write jnode inum buf block s = Ret (0, s') /\
    hist s' = file s' :: imgs ++ hist s /\ length imgs = 3%nat /\
    Forall (fun f => mounts_as f s) imgs /\ mounts_as (file s') s'.
Proof.
  intros W Hj (a & Hi & Ha & ->)%view_inv Ht Hb Hbuf He Hc. pose proof W as [Ho D].
  eexists. eexists [_; _; _]. split; [by apply (fsi_write_run jnode inum buf block s a)|].
  split; [reflexivity|]. split; [reflexivity|]. split.
  - destruct (w_same_log inum buf block s a) as (S1 & S2 & S3 & _); try done.
    assert (forall f', same_log (cr_end s) (file s) f' ->
      slice 0 sizeof_cr f' = slice 0 sizeof_cr (file s) -> mounts_as f' s) as M.
    { intros f' Hs Hcr. apply mounts_as_intro; [by eapply on_disk_agree|].
      intros i. eapply view_agree; [apply D|done]. }
    pose proof (od_end _ _ _ _ D) as [He1 _]. pose proof (od_file _ _ _ _ D) as He2. unfold sizeof_cr in He1.
    destruct (w_files inum buf block s a) as (E1 & E2 & E3 & _); try done.
    repeat apply Forall_cons_2; try apply Forall_nil_2; apply M; try done;
      repeat (rewrite slice_write_at_below by (unfold sizeof_cr; lia)); done.
  - apply mounts_as_intro; [by apply (w_disk inum buf block s a)|done].
Qed.

(** Reads return the bytes of a block whose address is valid. *)
Lemma get_block_ok node buffer block d s :
  opened s = true -> 0 <= block < 14 -> zget (direct node) block = Some d -> 0 <= d ->
  d + 4096 <= zlen (file s) -> zlen buffer = 4096 ->
  get_block node buffer block s = Ret (4096, slice d 4096 (file s), set_fpos (d + 4096) s).
Proof.
  intros Ho Hb Hd H0 Hf Hl. unfold get_block.
  rewrite Z.gtb_ltb, (proj2 (Z.ltb_ge 13 block)) by lia.
  rewrite Hd. rewrite (bind_Ret _ _ _ d _ eq_refl).
  rewrite (bind_Ret _ _ _ _ _ (lseek_ok d s Ho H0)).
  rewrite read_full; [reflexivity|done|done|unfold LFS_BLOCK_SIZE; lia|done|done].
Qed.

(** [fsi_read] of a block the file has returns its bytes and changes
    nothing but the file offset. *)
Theorem fsi_read_block jnode inum buffer block s fl b :
  wf s -> zlen jnode = 64 -> zlen buffer = LFS_BLOCK_SIZE ->
  view (file s) (inodes s) inum = Some fl -> zget (a_blocks fl) block = Some (Some b) ->
  exists p, fsi_read jnode inum buffer block s = Ret (0, b, set_fpos p s).
Proof.
  intros W Hj Hbuf (a & Hi & Ha & ->)%view_inv Hb. pose proof W as [Ho D].
  cbn [a_blocks afile_of] in Hb. rewrite zget_fmap in Hb.
  destruct (zget (direct _) block) as [d|] eqn:Hd; [|done]. injection Hb as Hb.
  unfold ablock in Hb. destruct (Z.eqb_spec d (-1)) as [|Hne]; [done|]. injection Hb as <-.
  pose proof (zget_Some_range _ _ _ Hd) as Hr. unfold zlen in Hr.
  destruct (dec_inode_ok (slice a 64 (file s))) as (_ & _ & _ & H3). rewrite H3 in Hr.
  assert (d ∈ direct (dec_inode (slice a 64 (file s)))) as Hin.
  { unfold zget in Hd. case_bool_decide; [done|]. by eapply list_elem_of_lookup_2. }
  destruct (od_direct _ _ _ _ D inum a d Hi Ha Hin) as [|[H1 H2]]; [done|].
  pose proof (od_file _ _ _ _ D). unfold sizeof_cr, LFS_BLOCK_SIZE in *.
  exists (d + 4096). unfold fsi_read.
  rewrite (bind_Ret _ _ _ _ _ (get_inode_ok jnode inum a s W Hi Ha Hj)).
  change (64 <? 0) with false. cbv beta iota.
  erewrite bind_Ret by (apply (get_block_ok _ _ _ d); lfs_cbn; try done; lia).
  reflexivity.
Qed.

(** [fsi_read] of a hole does not fail: the seek to -1 is refused, so the
    read continues where [get_inode] stopped and the call returns 0 with the
    log bytes that follow the file's inode. *)
Theorem fsi_read_hole_leaks_log jnode inum buffer block s fl :
  wf s -> zlen jnode = 64 ->
  view (file s) (inodes s) inum = Some fl -> zget (a_blocks fl) block = Some None ->
  exists a s', zget (inodes s) inum = Some a /\
    let data := slice (a + sizeof_inode) LFS_BLOCK_SIZE (file s) in
    fsi_read jnode inum buffer block s = Ret (0, data ++ drop (length data) buffer, s').
Proof.
  intros W Hj (a & Hi & Ha & ->)%view_inv Hb. pose proof W as [Ho D].
  cbn [a_blocks afile_of] in Hb. rewrite zget_fmap in Hb.
  destruct (zget (direct _) block) as [d|] eqn:Hd; [|done]. injection Hb as Hb.
  unfold ablock in Hb. destruct (Z.eqb_spec d (-1)) as [->|Hne]; [|done].
  pose proof (zget_Some_range _ _ _ Hd) as Hr. unfold zlen in Hr.
  destruct (dec_inode_ok (slice a 64 (file s))) as (_ & _ & _ & H3). rewrite H3 in Hr.
  exists a. eexists. split; [done|]. intros data. unfold fsi_read.
  rewrite (bind_Ret _ _ _ _ _ (get_inode_ok jnode inum a s W Hi Ha Hj)).
  change (64 <? 0) with false. cbv beta iota.
  unfold get_block. rewrite Z.gtb_ltb, (proj2 (Z.ltb_ge 13 block)) by lia. rewrite Hd.
  erewrite bind_Ret; [|rewrite (bind_Ret _ _ _ (-1) _ eq_refl);
    rewrite (bind_Ret _ _ _ _ _ (lseek_neg (-1) _ ltac:(lia))); unfold read; lfs_cbn; rewrite Ho; reflexivity].
  cbv beta iota. rewrite (proj2 (Z.ltb_ge (zlen _) 0)) by apply zlen_nonneg. reflexivity.
Qed.

(** ** Unlinking a directory *)

(** Calls that only move the file offset. *)
Definition pos_only {A} (m : M lfs A) : Prop :=
  forall s a s', m s = Ret (a, s') -> s' = set_fpos (fpos s') s.

Lemma pos_only_ret {A} (a : A) : pos_only (mret a).
Proof. intros s b s' [= <- <-]. by destruct s. Qed.

Lemma pos_only_bind {A B} (m : M lfs A) (k : A -> M lfs B) :
  pos_only m -> (forall a, pos_only (k a)) -> pos_only (m ≫= k).
Proof.
  intros Hm Hk s b s' (a & s1 & E1 & E2)%bind_inv.
  apply Hm in E1. apply Hk in E2. rewrite E2. rewrite E1. by destruct s.
Qed.

Lemma pos_only_get : pos_only (@get lfs).
Proof. intros s a s' [= <- <-]. by destruct s. Qed.

Lemma pos_only_deref {A} why (o : option A) : pos_only (deref why o).
Proof. destruct o; [apply pos_only_ret|]. intros s a s' [=]. Qed.

Lemma pos_only_lseek off : pos_only (lseek off).
Proof. intros s a s'. unfold lseek. destruct (_ || _); intros [= <- <-]; by destruct s. Qed.

Lemma pos_only_read buf n : pos_only (read buf n).
Proof. intros s a s'. unfold read. destruct (negb _); intros [= <- <-]; by destruct s. Qed.

Create HintDb pos_only.
Hint Resolve pos_only_ret pos_only_get pos_only_deref pos_only_lseek pos_only_read : pos_only.
Ltac pos_only_tac :=
  repeat first [ solve [auto with pos_only] | apply pos_only_bind; [|intros]
               | progress case_match ].

Lemma pos_only_get_inode jnode i : pos_only (get_inode jnode i).
Proof. unfold get_inode. pos_only_tac. Qed.

Lemma pos_only_get_block node buffer block : pos_only (get_block node buffer block).
Proof. unfold get_block. pos_only_tac. Qed.

Lemma pos_only_find_name n i blk name : pos_only (find_name n i blk name).
Proof. revert i. induction n; intros i; cbn [find_name]; pos_only_tac. Qed.
Hint Resolve pos_only_get_inode pos_only_get_block pos_only_find_name : pos_only.

Lemma pos_only_lookup_loop n node name blk block : pos_only (lookup_loop n node name blk block).
Proof. revert blk block. induction n; intros blk block; cbn [lookup_loop]; pos_only_tac. Qed.
Hint Resolve pos_only_lookup_loop : pos_only.

Lemma pos_only_fsi_lookup jnode jblk pinum name : pos_only (fsi_lookup jnode jblk pinum name).
Proof. unfold fsi_lookup. pos_only_tac. Qed.

(** A reachable state with another offset is as well formed. *)
Lemma wf_pos p s : wf s -> wf (set_fpos p s).
Proof. done. Qed.

Lemma get_inode_returns jnode i s r n s1 :
  opened s = true -> get_inode jnode i s = Ret (r, n, s1) -> 0 <= r -> exists a, zget (inodes s) i = Some a /\ a <> -1.
Proof.
  intros Ho E Hr. unfold get_inode in E. rewrite (bind_Ret get _ _ _ _ eq_refl) in E.
  destruct (zget (inodes s) i) as [a|] eqn:Hi; [|discriminate].
  rewrite (bind_Ret _ _ _ a s eq_refl) in E.
  destruct (Z.eqb_spec a (-1)) as [->|]; [|by exists a].
  rewrite orb_true_r in E. injection E as <- <- <-. lia.
Qed.

Lemma dir_in_use_true n i blk cinum pinum :
  cinum <> pinum -> dir_in_use (S n) i blk cinum pinum = true.
Proof.
  intros H. simpl. destruct (Z.eqb_spec (ent_inum blk i) cinum) as [->|]; [|done].
  by rewrite (proj2 (Z.eqb_neq cinum pinum)).
Qed.

(** [fsi_unlink] never removes a directory, not even an empty one: its
    emptiness test asks every entry to be both the child and the parent, so on
    any name that resolves to a directory other than the parent the call
    returns -1 and changes nothing but the file offset. *)
Theorem fsi_unlink_directory_refused jnode jblk pinum name s c s1 fl :
  wf s -> zlen jnode = 64 -> fsi_lookup jnode jblk pinum name s = Ret (c, s1) ->
  0 <= c -> c <> pinum ->
  view (file s) (inodes s) c = Some fl -> a_type fl = LFS_DIRECTORY ->
  exists p, fsi_unlink jnode jblk pinum name s = Ret (-1, set_fpos p s).
Proof.
  intros W Hj E Hc0 Hcp (a & Hi & Ha & ->)%view_inv Ht. pose proof W as [Ho D].
  assert (exists pa, zget (inodes s) pinum = Some pa /\ pa <> -1) as (pa & Hp & Hpa).
  { pose proof E as E'. unfold fsi_lookup in E'. apply bind_inv in E' as ([r n] & s0 & E1 & E2).
    destruct (Z.ltb_spec r 0) as [|Hr]; [injection E2 as <- <-; lia|]. by eapply get_inode_returns. }
  unfold fsi_unlink.
  rewrite (bind_Ret _ _ _ _ _ (get_inode_ok jnode pinum pa s W Hp Hpa Hj)).
  change (64 <? 0) with false. cbv beta iota.
  assert (fsi_lookup jnode jblk pinum name (set_fpos (pa + 64) s) = Ret (c, s1)) as E'.
  { rewrite <- E. unfold fsi_lookup.
    rewrite (bind_Ret _ _ _ _ _ (get_inode_ok jnode pinum pa s W Hp Hpa Hj)).
    by rewrite (bind_Ret _ _ _ _ _ (get_inode_ok jnode pinum pa _ (wf_pos _ _ W) Hp Hpa Hj)). }
  rewrite (bind_Ret _ _ _ _ _ E'). rewrite (proj2 (Z.ltb_ge c 0)) by done.
  apply pos_only_fsi_lookup in E. rewrite E. generalize (fpos s1). intros p1.
  rewrite (bind_Ret _ _ _ _ _ (get_inode_ok jnode c a _ (wf_pos p1 s W) Hi Ha Hj)). cbv beta iota.
  change (file (set_fpos p1 s)) with (file s). set (n := dec_inode (slice a 64 (file s))).
  unfold unlink_refuses.
  assert (type n = LFS_DIRECTORY) as Htn by exact Ht. rewrite Htn, Z.eqb_refl.
  destruct (size n >? LFS_BLOCK_SIZE); [eexists; reflexivity|].
  destruct (zget_range (direct n) 0) as [d Hd].
  { destruct (dec_inode_ok (slice a 64 (file s))) as (_ & _ & _ & H3). fold n in H3. unfold zlen. lia. }
  unfold get_block. change (0 >? 13) with false. cbv iota. rewrite Hd.
  assert (forall t, opened t = true -> exists r p, (lseek d;; read jblk LFS_BLOCK_SIZE) t = Ret (r, set_fpos p t)) as G.
  { intros t Hot. destruct (decide (d < 0)).
    - rewrite (bind_Ret _ _ _ _ _ (lseek_neg d t ltac:(lia))). unfold read. rewrite Hot. by do 2 eexists.
    - rewrite (bind_Ret _ _ _ _ _ (lseek_ok d t Hot ltac:(lia))). unfold read. lfs_cbn. rewrite Hot. by do 2 eexists. }
  destruct (G (set_fpos (a + 64) (set_fpos p1 s)) Ho) as ([r blk] & p & EG).
  erewrite bind_Ret. 2:{ erewrite bind_Ret. 2:{ rewrite (bind_Ret _ _ _ d _ eq_refl). exact EG. } reflexivity. }
  rewrite dir_in_use_true by done. eexists. reflexivity.
Qed.

(** ** Directory entries *)

Lemma slice_write_at_in f off pre b post n m :
  0 <= off <= zlen f -> n = zlen b -> m = off + zlen pre ->
  slice m n (write_at f off (pre ++ b ++ post)) = b.
Proof.
  intros H -> ->. rewrite <- write_at_write_at by done.
  set (g := write_at f off pre). pose proof (zlen_nonneg pre).
  assert (zlen g = Z.max (zlen f) (off + zlen pre)) as Hg by (unfold g; rewrite zlen_write_at; lia).
  rewrite <- (write_at_write_at g) by lia.
  rewrite slice_write_at_below; [apply slice_write_at_same; lia|lia|apply zlen_nonneg|lia|].
  rewrite zlen_write_at by lia. lia.
Qed.

Lemma drop_write_at f off bs :
  0 <= off <= zlen f -> drop (Z.to_nat off) (write_at f off bs) = bs ++ drop (Z.to_nat off + length bs) f.
Proof.
  intros H. unfold write_at, zlen in *. apply drop_app_length'.
  rewrite length_take, length_app, length_replicate. lia.
Qed.

Lemma strcmp0_take mem name : strcmp0 (take (S (length name)) mem) name = strcmp0 mem name.
Proof.
  revert mem. induction name as [|c name IH]; intros [|d mem]; try done.
  cbn [length take strcmp0]. destruct (d =? c); [|done]. apply IH.
Qed.

Lemma strcmp0_self name : strcmp0 (name ++ [0]) name = Some true.
Proof. induction name as [|c name IH]; [done|]. simpl. by rewrite Z.eqb_refl. Qed.

Lemma find_name_inv n i blk name s r s' :
  find_name n i blk name s = Ret (r, s') -> s' = s /\
  match r with
  | Some k => i <= k /\ strcmp0 (ent_name blk k) name = Some true /\
      forall j, i <= j < k -> strcmp0 (ent_name blk j) name = Some false
  | None => forall j, i <= j < i + Z.of_nat n -> strcmp0 (ent_name blk j) name = Some false
  end.
Proof.
  revert i. induction n as [|n IH]; intros i E; cbn [find_name] in E.
  - injection E as <- <-. split; [done|]. intros; lia.
  - destruct (strcmp0 (ent_name blk i) name) as [[]|] eqn:Ec; [| |discriminate];
      rewrite (bind_Ret _ _ _ _ _ eq_refl) in E.
    + injection E as <- <-. split; [done|]. split; [lia|]. split; [done|]. intros; lia.
    + apply IH in E as [-> E]. split; [done|]. destruct r as [k|].
      * destruct E as (H1 & H2 & H3). split; [lia|]. split; [done|]. intros j Hj.
        destruct (decide (j = i)) as [->|]; [done|]. apply H3. lia.
      * intros j Hj. destruct (decide (j = i)) as [->|]; [done|]. apply E. lia.
Qed.

Lemma find_name_hit n i k blk name s :
  i <= k < i + Z.of_nat n -> strcmp0 (ent_name blk k) name = Some true ->
  (forall j, i <= j < k -> strcmp0 (ent_name blk j) name = Some false) ->
  find_name n i blk name s = Ret (Some k, s).
Proof.
  revert i. induction n as [|n IH]; intros i Hk Ht Hf; [lia|]. cbn [find_name].
  destruct (decide (i = k)) as [->|Hne].
  - rewrite Ht. reflexivity.
  - rewrite Hf by lia. rewrite (bind_Ret _ _ _ _ _ eq_refl). apply IH; [lia|done|]. intros. apply Hf. lia.
Qed.

Lemma find_free_inv n i blk k :
  find_free n i blk = Some k ->
  i <= k < i + Z.of_nat n /\ forall j, i <= j < k -> ent_inum blk j <> -1.
Proof.
  revert i. induction n as [|n IH]; intros i; cbn [find_free]; [done|].
  destruct (Z.eqb_spec (ent_inum blk i) (-1)) as [|Hne].
  - intros [= <-]. split; [lia|]. intros; lia.
  - intros [H1 H2]%IH. split; [lia|]. intros j Hj.
    destruct (decide (j = i)) as [->|]; [done|]. apply H2. lia.
Qed.

Lemma find_inum_inv n i l :
  0 <= i -> find_inum n i l <> -1 ->
  i <= find_inum n i l /\ zget l (find_inum n i l - i) = Some (-1).
Proof.
  revert i l. induction n as [|n IH]; intros i [|a l] Hi; cbn [find_inum]; try done.
  destruct (Z.eqb_spec a (-1)) as [->|Hne].
  - intros _. split; [lia|]. by rewrite Z.sub_diag.
  - intros [H1 H2]%IH; [|lia]. split; [lia|]. rewrite <- H2.
    unfold zget. rewrite !bool_decide_false by lia.
    replace (Z.to_nat (find_inum n (i + 1) l - i)) with (S (Z.to_nat (find_inum n (i + 1) l - (i + 1)))) by lia.
    done.
Qed.

(** The block [fsi_creat] writes: entry [i] of [blk] named and numbered. *)
Section Entry.
Context (blk : list Z) (i : Z) (name : list Z) (c : Z).
Context (Hlen : zlen blk = 4096) (Hi : 0 <= i < 128) (Hname : zlen name <= 27).
Let blk' := set_ent_inum (set_ent_name blk i name) i c.

Lemma entry_len : zlen blk' = 4096 /\ zlen (set_ent_name blk i name) = 4096.
Proof.
  assert (zlen (set_ent_name blk i name) = 4096) as E.
  { unfold set_ent_name. pose proof (zlen_nonneg name). unfold sizeof_dir_ent.
    rewrite zlen_write_at, zlen_app by lia. change (zlen [0]) with 1. lia. }
  split; [|done]. unfold blk', set_ent_inum, sizeof_dir_ent.
  rewrite zlen_write_at by lia. change (zlen (enc32 c)) with 4. lia.
Qed.

Lemma entry_inum : in_s32 c -> ent_inum blk' i = c.
Proof.
  intros Hc. pose proof entry_len as [_ E]. unfold ent_inum, blk', set_ent_inum, sizeof_dir_ent in *.
  rewrite drop_write_at by lia. rewrite dec32_enc32. by apply s32_small.
Qed.

Lemma strcmp0_slice b k : strcmp0 (ent_name b k) name = strcmp0 (slice (32 * k) (zlen name + 1) b) name.
Proof.
  rewrite <- (strcmp0_take (ent_name b k)). unfold ent_name, slice, sizeof_dir_ent.
  do 3 f_equal. unfold zlen. lia.
Qed.

Lemma entry_name : strcmp0 (ent_name blk' i) name = Some true.
Proof.
  pose proof entry_len as [_ E]. pose proof (zlen_nonneg name). rewrite strcmp0_slice. unfold blk', set_ent_inum, sizeof_dir_ent.
  rewrite slice_write_at_below by lia. unfold set_ent_name, sizeof_dir_ent.
  rewrite slice_write_at_same; [apply strcmp0_self|lia|by rewrite zlen_app].
Qed.

Lemma entry_name_before k : 0 <= k < i -> strcmp0 (ent_name blk' k) name = strcmp0 (ent_name blk k) name.
Proof.
  intros Hk. pose proof entry_len as [_ E]. pose proof (zlen_nonneg name). rewrite !strcmp0_slice.
  unfold blk', set_ent_inum, sizeof_dir_ent. rewrite slice_write_at_below by lia.
  unfold set_ent_name, sizeof_dir_ent. by rewrite slice_write_at_below by lia.
Qed.
End Entry.

(** ** Creating a file *)

(** The offset a call starts from does not matter to a lookup. *)
Lemma fsi_lookup_pos jnode jblk pinum pa name s p :
  wf s -> zlen jnode = 64 -> zget (inodes s) pinum = Some pa -> pa <> -1 ->
  fsi_lookup jnode jblk pinum name (set_fpos p s) = fsi_lookup jnode jblk pinum name s.
Proof.
  intros W Hj Hp Hpa. unfold fsi_lookup.
  rewrite (bind_Ret _ _ _ _ _ (get_inode_ok jnode pinum pa s W Hp Hpa Hj)).
  by rewrite (bind_Ret _ _ _ _ _ (get_inode_ok jnode pinum pa _ (wf_pos _ _ W) Hp Hpa Hj)).
Qed.

Lemma lookup_loop_S n node name blk block :
  lookup_loop (S n) node name blk block =
  ('(rc, blk) ← get_block node blk block;
   if rc =? -1 then mret (-1)
   else r ← find_name 128 0 blk name;
        match r with
        | Some i => mret (ent_inum blk i)
        | None => lookup_loop n node name blk (block + 1)
        end).
Proof. reflexivity. Qed.

Lemma fsi_lookup_dir jnode jblk pinum a name s :
  wf s -> zlen jnode = 64 -> zget (inodes s) pinum = Some a -> a <> -1 ->
  type (dec_inode (slice a 64 (file s))) = LFS_DIRECTORY ->
  fsi_lookup jnode jblk pinum name s =
  lookup_loop 14 (dec_inode (slice a 64 (file s))) name jblk 0 (set_fpos (a + 64) s).
Proof.
  intros W Hj Hp Ha Ht. unfold fsi_lookup.
  rewrite (bind_Ret _ _ _ _ _ (get_inode_ok jnode pinum a s W Hp Ha Hj)).
  change (64 <? 0) with false. cbv beta iota. rewrite Ht. reflexivity.
Qed.

(** What a lookup that returns -1 says about the first block. *)
Lemma lookup_loop_missing n node name jb b s s0 s1 j i :
  get_block node jb 0 s = Ret (4096, b, s0) -> lookup_loop (S n) node name jb 0 s = Ret (-1, s1) ->
  find_free 128 0 b = Some i -> 0 <= j < i -> strcmp0 (ent_name b j) name = Some false.
Proof.
  intros Hb E Hfree Hji. destruct (find_free_inv _ _ _ _ Hfree) as [Hi Hused].
  rewrite lookup_loop_S, (bind_Ret _ _ _ _ _ Hb) in E. cbv beta iota in E.
  change (4096 =? -1) with false in E. cbv iota in E.
  apply bind_inv in E as (r & s2 & E & Er).
  apply find_name_inv in E as [-> E]. destruct r as [k|]; [|apply E; lia].
  destruct E as (Hk0 & _ & Hk). injection Er as Er _.
  destruct (decide (k < i)) as [Hlt|]; [by destruct (Hused k)|]. apply Hk. lia.
Qed.

Lemma lookup_loop_hit n node name jb b s s0 i :
  get_block node jb 0 s = Ret (4096, b, s0) -> find_name 128 0 b name s0 = Ret (Some i, s0) ->
  lookup_loop (S n) node name jb 0 s = Ret (ent_inum b i, s0).
Proof.
  intros Hb Hf. rewrite lookup_loop_S, (bind_Ret _ _ _ _ _ Hb). cbv beta iota.
  change (4096 =? -1) with false. cbv iota. by rewrite (bind_Ret _ _ _ _ _ Hf).
Qed.

Section Creating.
Context (jnode jblk : list Z) (pinum : Z) (name : list Z) (s s1 : lfs) (a d0 i : Z).
Let f := file s.
Let e := cr_end s.
Let n := dec_inode (slice a 64 f).
Let blk := slice d0 4096 f.
Let c := find_inum 4096 0 (inodes s).
Context (W : wf s) (Hj : zlen jnode = 64) (Hjb : zlen jblk = 4096).
Context (Hp : zget (inodes s) pinum = Some a) (Ha : a <> -1) (Hty : type n = LFS_DIRECTORY).
Context (Hname : zlen name <= 27).
Context (Hlook : fsi_lookup jnode jblk pinum name s = Ret (-1, s1)).
Context (Hc : c <> -1) (Hsame : c / 16 = pinum / 16).
Context (Hd0 : zget (direct n) 0 = Some d0) (Hd0' : d0 <> -1) (Hfree : find_free 128 0 blk = Some i).
Context (Hend : e + 4288 < 2 ^ 31) (Hcap : e + 4288 <= cap s).

Let q := Z.quot pinum IMAP_CHUNK_SIZE.
Definition c_block (blk : list Z) (i c : Z) : list Z := set_ent_inum (set_ent_name blk i name) i c.
Definition c_node (e : Z) (n : inode_t) : inode_t :=
  mkInode (if size n <? 0 * LFS_BLOCK_SIZE then 0 * LFS_BLOCK_SIZE else size n) (type n) (zset (direct n) 0 e).
Let child := mkInode 0 LFS_REGULAR_FILE (replicate 14 (-1)).
Let ino' := zset (zset (inodes s) pinum (e + 4096)) c (e + 4160).
Let ch' := zset (chunks s) q (e + 4224).
Let db := c_block blk i c.
Let pb := enc_inode (c_node e n).
Let nb := enc_inode child.
Let cb := chunk_bytes ino' q.
Let f1 := write_at (write_at (write_at (write_at f e db) (e + 4096) pb) (e + 4160) nb) (e + 4224) cb.
Let f2 := write_at f1 0 (enc_ints ((e + 4288) :: ch')).

Lemma c_facts : 1028 <= e /\ e <= zlen f /\ 0 <= pinum < 4096 /\ 0 <= c < 4096 /\ c <> pinum /\
  zget (inodes s) c = Some (-1) /\ q = pinum / 16 /\ 0 <= q < 256 /\ Z.quot c IMAP_CHUNK_SIZE = q /\
  1028 <= d0 /\ d0 + 4096 <= e /\ zlen blk = 4096 /\ 0 <= i < 128.
Proof.
  pose proof W as [Ho D]. pose proof (od_end _ _ _ _ D) as [H1 _]. pose proof (od_file _ _ _ _ D) as H2.
  pose proof (zget_Some_range _ _ _ Hp) as H3. unfold zlen in H3. rewrite (od_ino_len _ _ _ _ D) in H3.
  destruct (find_inum_inv 4096 0 (inodes s) ltac:(lia) Hc) as [H4 H5]. fold c in H4, H5. rewrite Z.sub_0_r in H5.
  pose proof (zget_Some_range _ _ _ H5) as H6. unfold zlen in H6. rewrite (od_ino_len _ _ _ _ D) in H6.
  assert (d0 ∈ direct n) as Hin.
  { unfold zget in Hd0. case_bool_decide; [done|]. by eapply list_elem_of_lookup_2. }
  destruct (od_direct _ _ _ _ D pinum a d0 Hp Ha Hin) as [|[H7 H8]]; [done|].
  destruct (find_free_inv _ _ _ _ Hfree) as [H9 _].
  unfold sizeof_cr, LFS_BLOCK_SIZE, IMAP_CHUNK_SIZE in *. fold e f in H1, H2, H8.
  assert (q = pinum / 16) as Hq by (unfold q, IMAP_CHUNK_SIZE; by rewrite Z.quot_div_nonneg by lia).
  split; [done|]. split; [done|]. split; [lia|]. split; [lia|]. split; [intros ->; congruence|].
  split; [done|]. split; [done|].
  split; [rewrite Hq; split; [apply Z.div_pos; lia|apply Z.div_lt_upper_bound; lia]|].
  split; [rewrite Z.quot_div_nonneg by lia; congruence|]. split; [done|]. split; [done|].
  split; [apply slice_full; lia|lia].
Qed.

Lemma c_lens : zlen db = 4096 /\ zlen pb = 64 /\ zlen nb = 64 /\ zlen cb = 64 /\
  length ch' = 256%nat /\ length ino' = 4096%nat /\ length (direct n) = 14%nat.
Proof.
  destruct c_facts as (? & ? & ? & ? & ? & ? & ? & ? & ? & ? & ? & Hb & Hi).
  pose proof W as [Ho D]. pose proof (od_ino_len _ _ _ _ D) as L1. pose proof (od_ch_len _ _ _ _ D) as L2.
  destruct (dec_inode_ok (slice a 64 f)) as (_ & _ & _ & L3). fold n in L3.
  assert (length ino' = 4096%nat).
  { unfold ino'. rewrite !length_zset. exact L1. }
  split; [by apply entry_len|]. split; [|split; [done|split; [by apply length_chunk_bytes|split; [|done]]]].
  - apply length_enc_inode. unfold c_node. cbn [direct]. rewrite length_zset. exact L3.
  - unfold ch'. rewrite length_zset. exact L2.
Qed.

Lemma fsi_creat_run :
  exists h, fsi_creat jnode jblk pinum LFS_REGULAR_FILE name s =
  Ret (0, mkLfs f2 sizeof_cr (cap s) true (e + 4288) ch' ino' h).
Proof.
  destruct c_facts as (He1 & He2 & Hpr & Hcr & Hcp & Hcz & Hq & Hqr & Hqc & Hda & Hdb & Hb & Hi).
  destruct c_lens as (L1 & L2 & L3 & L4 & L5 & L6 & L7). pose proof W as [Ho D].
  assert (s32 e = e) as Es by (apply s32_small; unfold in_s32; lia).
  pose proof Hlook as Hl. rewrite (pos_only_fsi_lookup _ _ _ _ _ _ _ Hlook) in Hl.
  revert Hl. generalize (fpos s1). intros p1 Hl. eexists. unfold fsi_creat.
  rewrite (bind_Ret _ _ _ _ _ (get_inode_ok jnode pinum a s W Hp Ha Hj)).
  change (64 <? 0) with false. cbv beta iota. fold f. fold n.
  rewrite Z.gtb_ltb, (proj2 (Z.ltb_ge 27 (zlen name))) by lia.
  rewrite (bind_Ret _ _ _ (-1) (set_fpos p1 s)) by (by rewrite (fsi_lookup_pos _ _ _ a)).
  change (-1 >? 0) with false. cbv iota. rewrite (bind_Ret _ _ _ tt _ eq_refl).
  lfs_step. fold c. rewrite (proj2 (Z.eqb_neq c (-1))) by done.
  cbn [creat_loop]. erewrite bind_Ret.
  2:{ erewrite bind_Ret.
      2:{ apply (get_block_ok _ _ _ d0); lfs_cbn; try done; try lia. fold f. lia. }
      change (4096 =? -1) with false. cbv beta iota. lfs_cbn. fold f. fold blk. rewrite Hfree. reflexivity. }
  cbv beta iota. lfs_step. fold e. rewrite Es. lfs_step. change (set_ent_inum (set_ent_name blk i name) i c) with db.
  lfs_write. rewrite L1. change (4096 <? 0) with false. cbv beta iota. lfs_step.
  change (mkInode _ (type n) _) with (c_node e n). fold pb. unfold LFS_BLOCK_SIZE. lfs_write.
  rewrite L2. change (64 <? 0) with false. cbv beta iota.
  unfold write_parent_chunk. rewrite Hqc. fold q. rewrite Z.eqb_refl. cbn [negb].
  rewrite (bind_Ret _ _ _ _ _ eq_refl). unfold creat_child.
  change (LFS_REGULAR_FILE =? LFS_DIRECTORY) with false. cbv iota.
  rewrite (bind_Ret _ _ _ _ _ eq_refl). cbv beta iota. lfs_step. unfold sizeof_inode.
  replace (e + 4096 + 64) with (e + 4160) by lia.
  fold child. fold nb. lfs_write. rewrite L3. change (64 <? 0) with false. cbv beta iota.
  unfold write_chunk_and_cr. lfs_step. lfs_step. unfold imap_chunk. lfs_cbn. rewrite Hqc.
  replace (e + 4160 + 64) with (e + 4224) by lia.
  change (enc_ints (slice (q * IMAP_CHUNK_SIZE) IMAP_CHUNK_SIZE _)) with cb.
  lfs_write. rewrite L4. change (64 <? 0) with false. cbv beta iota. lfs_step.
  replace (u32 (e + 4224 + IMAP_CHUNK_SIZE * 4)) with (e + 4288).
  2:{ rewrite u32_small; unfold in_u32, IMAP_CHUNK_SIZE; lia. }
  erewrite bind_Ret by (apply write_cr_ok; lfs_cbn; [done|done|unfold sizeof_cr; lia]).
  change (sizeof_cr <? 0) with false. cbv iota. rewrite <- Ho. reflexivity.
Qed.
Lemma c_files : f1 = write_at f e (db ++ pb ++ nb ++ cb) /\ zlen f1 = Z.max (zlen f) (e + 4288) /\ zlen f2 = zlen f1.
Proof.
  destruct c_facts as (He1 & He2 & _). destruct c_lens as (L1 & L2 & L3 & L4 & L5 & L6 & L7).
  assert (f1 = write_at f e (db ++ pb ++ nb ++ cb)) as E.
  { unfold f1. rewrite <- L1. rewrite write_at_write_at by lia.
    replace (e + 4160) with (e + zlen (db ++ pb)) by (rewrite zlen_app; lia). rewrite write_at_write_at by lia.
    replace (e + 4224) with (e + zlen ((db ++ pb) ++ nb)) by (rewrite !zlen_app; lia). rewrite write_at_write_at by lia.
    by rewrite <- !app_assoc. }
  assert (zlen f1 = Z.max (zlen f) (e + 4288)) as E1 by (rewrite E, zlen_write_at, !zlen_app; lia).
  split; [done|]. split; [done|]. unfold f2.
  pose proof (length_enc_cr (e + 4288) ch' L5) as Hl. unfold sizeof_cr in Hl. rewrite zlen_write_at; lia.
Qed.

Lemma c_same_log : same_log e f f1 /\ same_log (e + 4288) f1 f2.
Proof.
  destruct c_facts as (He1 & He2 & _). destruct c_files as (E & E1 & E2). split.
  - rewrite E. apply same_log_append; unfold sizeof_cr; lia.
  - apply same_log_cr; [lia|unfold sizeof_cr; lia|apply length_enc_cr; apply c_lens].
Qed.

Lemma c_slices : slice e 4096 f1 = db /\ slice (e + 4096) 64 f1 = pb /\
  slice (e + 4160) 64 f1 = nb /\ slice (e + 4224) 64 f1 = cb.
Proof.
  destruct c_facts as (He1 & He2 & _). destruct c_lens as (L1 & L2 & L3 & L4 & L5 & L6 & L7).
  destruct c_files as (-> & _).
  split; [apply (slice_write_at_in f e []); [lia|lia|change (zlen (@nil Z)) with 0; lia]|].
  split; [apply slice_write_at_in; lia|]. split.
  - rewrite (app_assoc db pb). apply slice_write_at_in; rewrite ?zlen_app; lia.
  - pose proof (slice_write_at_in f e ((db ++ pb) ++ nb) cb [] 64 (e + 4224)) as H.
    rewrite app_nil_r, <- !app_assoc in H. apply H; rewrite ?zlen_app; lia.
Qed.

Lemma c_inodes : dec_inode (slice (e + 4096) 64 f1) = c_node e n /\ dec_inode (slice (e + 4160) 64 f1) = child.
Proof.
  destruct c_facts as (He1 & He2 & _). destruct c_slices as (_ & -> & -> & _). split.
  - unfold pb. rewrite <- (app_nil_r (enc_inode _)). apply dec_enc_inode.
    destruct (dec_inode_ok (slice a 64 f)) as (H1 & H2 & H3 & H4). fold n in H1, H2, H3, H4.
    split; [|split; [done|split]]; unfold c_node; cbn [size direct].
    + destruct (_ <? _); [unfold in_s32, LFS_BLOCK_SIZE; lia|done].
    + unfold zset. case_bool_decide; [done|]. apply Forall_insert; [done|unfold in_s32; lia].
    + rewrite length_zset. exact H4.
  - unfold nb. rewrite <- (app_nil_r (enc_inode _)). apply dec_enc_inode.
    split; [unfold child, in_s32; cbn [size]; lia|split; [unfold child, in_s32, LFS_REGULAR_FILE; cbn [type]; lia|split; [|done]]].
    apply Forall_replicate. unfold in_s32. lia.
Qed.

Lemma c_ino' k : zget ino' k = if k =? c then Some (e + 4160) else if k =? pinum then Some (e + 4096) else zget (inodes s) k.
Proof.
  destruct c_facts as (He1 & He2 & Hpr & Hcr & Hcp & _). pose proof W as [Ho D].
  assert (zlen (inodes s) = 4096) as L by (unfold zlen; by rewrite (od_ino_len _ _ _ _ D)).
  unfold ino'. destruct (Z.eqb_spec k c) as [->|Hkc]; [rewrite zget_zset_eq; [done|rewrite zlen_zset; lia]|].
  rewrite zget_zset_ne by congruence.
  destruct (Z.eqb_spec k pinum) as [->|Hkp]; [rewrite zget_zset_eq; [done|lia]|].
  by rewrite zget_zset_ne by congruence.
Qed.

Lemma c_log : on_log f1 (e + 4288) ch' ino'.
Proof.
  destruct c_facts as (He1 & He2 & Hpr & Hcr & Hcp & Hcz & Hq & Hqr & Hqc & Hda & Hdb & Hb & Hi).
  destruct c_lens as (L1 & L2 & L3 & L4 & L5 & L6 & L7). pose proof W as [Ho D].
  destruct c_same_log as (S1 & _). destruct c_files as (_ & E1 & _). destruct c_inodes as (I1 & I2).
  apply on_log_move with (ino := inodes s); try done.
  - eapply on_log_grow; [apply D|done|lia|lia].
  - assert (forall l k v, Forall in_s32 l -> in_s32 v -> Forall in_s32 (zset l k v)) as F.
    { intros. unfold zset. case_bool_decide; [done|]. by apply Forall_insert. }
    unfold ino'. apply F; [apply F; [apply D|unfold in_s32; lia]|unfold in_s32; lia].
  - intros k Hk. rewrite c_ino'. destruct (Z.eqb_spec k c) as [->|]; [congruence|].
    by destruct (Z.eqb_spec k pinum) as [->|].
  - unfold sizeof_cr. lia.
  - lia.
  - apply c_slices.
  - intros k b. rewrite c_ino'. unfold sizeof_cr, LFS_BLOCK_SIZE.
    destruct (Z.eqb_spec k c) as [->|Hkc].
    { intros [= <-] _ _. split; [lia|]. split; [lia|]. rewrite I2. cbn [direct child].
      intros d Hd. apply elem_of_replicate in Hd as [-> _]. by left. }
    destruct (Z.eqb_spec k pinum) as [->|Hkp]; [|done].
    intros [= <-] _ _. split; [lia|]. split; [lia|]. rewrite I1. unfold c_node. cbn [direct].
    intros d. unfold zset. rewrite bool_decide_false by lia.
    intros (j & Hd)%list_elem_of_lookup. apply list_lookup_insert_Some in Hd as [(_ & -> & _)|(_ & Hd)]; [right; lia|].
    apply list_elem_of_lookup_2 in Hd.
    destruct (od_direct _ _ _ _ D pinum a d Hp Ha Hd) as [|[H1 H2]]; [by left|right].
    unfold sizeof_cr, LFS_BLOCK_SIZE in *. fold e in H2. lia.
Qed.

Lemma c_disk : on_disk f2 (e + 4288) ch' ino'.
Proof.
  destruct c_facts as (He1 & He2 & _). destruct c_lens as (L1 & L2 & L3 & L4 & L5 & L6 & L7).
  destruct c_files as (_ & E1 & E2). destruct c_same_log as (_ & S2).
  split; [|unfold f2; rewrite slice_write_at_same; [done|lia|by rewrite length_enc_cr]].
  eapply on_log_grow; [apply c_log|done|lia|lia].
Qed.

Lemma c_view_other k : k <> c -> k <> pinum -> view f2 ino' k = view f (inodes s) k.
Proof.
  intros H1 H2. pose proof W as [Ho D]. destruct c_same_log as (S1 & S2).
  rewrite (view_agree _ _ _ _ _ k c_log S2).
  transitivity (view f1 (inodes s) k); [|exact (view_agree _ _ _ _ _ k (od_log _ _ _ _ D) S1)].
  unfold view. rewrite c_ino'. by rewrite (proj2 (Z.eqb_neq k c)), (proj2 (Z.eqb_neq k pinum)) by done.
Qed.

Lemma c_view_child : view f2 ino' c = Some (mkA LFS_REGULAR_FILE 0 (replicate 14 None)).
Proof.
  destruct c_facts as (He1 & He2 & _). destruct c_same_log as (S1 & S2).
  rewrite (view_agree _ _ _ _ _ c c_log S2). unfold view. rewrite c_ino', Z.eqb_refl. cbn [mbind option_bind].
  rewrite (proj2 (Z.eqb_neq (e + 4160) (-1))) by lia. destruct c_inodes as (_ & ->). reflexivity.
Qed.

(** The earlier lookup failed, so no used entry before [i] has the name. *)
Lemma c_before j : 0 <= j < i -> strcmp0 (ent_name blk j) name = Some false.
Proof.
  intros Hji. pose proof W as [Ho _].
  destruct c_facts as (He1 & He2 & Hpr & Hcr & Hcp & Hcz & Hq & Hqr & Hqc & Hda & Hdb & Hb & Hi).
  assert (d0 + 4096 <= zlen (file s)) as Hdf by (fold f; lia).
  pose proof Hlook as E. rewrite (fsi_lookup_dir _ _ _ a) in E by done. fold f in E. fold n in E.
  eapply lookup_loop_missing; [|exact E|exact Hfree|done].
  apply (get_block_ok n jblk 0 d0); [done|lia|done|lia|done|done].
Qed.

Lemma c_find_name t : find_name 128 0 db name t = Ret (Some i, t).
Proof.
  destruct c_facts as (He1 & He2 & Hpr & Hcr & Hcp & Hcz & Hq & Hqr & Hqc & Hda & Hdb & Hb & Hi).
  apply find_name_hit; [lia|by apply entry_name|]. intros j Hji.
  unfold db, c_block. rewrite entry_name_before by done. by apply c_before.
Qed.

(** The new name resolves to the new inode. *)
Lemma c_lookup t jn jb :
  wf t -> file t = f2 -> inodes t = ino' -> zlen jn = 64 -> zlen jb = 4096 ->
  exists p, fsi_lookup jn jb pinum name t = Ret (c, set_fpos p t).
Proof.
  intros Wt Ft It Hjn Hjb'. pose proof Wt as [Hot _].
  destruct c_facts as (He1 & He2 & Hpr & Hcr & Hcp & Hcz & Hq & Hqr & Hqc & Hda & Hdb & Hb & Hi).
  destruct c_same_log as (S1 & [_ S2]). destruct c_files as (_ & E1 & E2). destruct c_inodes as (I1 & _).
  destruct c_slices as (B1 & _). destruct c_lens as (_ & _ & _ & _ & _ & _ & Ld).
  assert (zget (inodes t) pinum = Some (e + 4096)) as Hpt.
  { rewrite It, c_ino', Z.eqb_refl. by rewrite (proj2 (Z.eqb_neq pinum c)) by congruence. }
  assert (zget (direct (c_node e n)) 0 = Some e) as Hd by (apply zget_zset_eq; unfold zlen; rewrite Ld; lia).
  assert (slice (e + 4096) 64 (file t) = pb) as Hs1 by (rewrite Ft, S2 by (unfold sizeof_cr; lia); apply c_slices).
  assert (slice e 4096 (file t) = db) as Hs2 by (rewrite Ft, S2 by (unfold sizeof_cr; lia); done).
  assert (e + 4096 <= zlen (file t)) as Hf by (rewrite Ft; lia).
  assert (dec_inode pb = c_node e n) as Hpb by (rewrite <- I1; f_equal; symmetry; apply c_slices).
  assert (dec_inode (slice (e + 4096) 64 (file t)) = c_node e n) as Hdn by (by rewrite Hs1, Hpb).
  rewrite (fsi_lookup_dir _ _ _ (e + 4096)); [|done|done|done|lia|rewrite Hdn; exact Hty].
  rewrite Hdn.
  pose proof (get_block_ok (c_node e n) jb 0 e (set_fpos (e + 4096 + 64) t) Hot ltac:(lia) Hd ltac:(lia) Hf Hjb') as G.
  lfs_cbn_in G. rewrite Hs2 in G. rewrite (lookup_loop_hit _ _ _ _ _ _ _ _ G (c_find_name _)).
  replace (ent_inum db i) with c.
  - exists (e + 4096). reflexivity.
  - symmetry. apply entry_inum; first [done|unfold in_s32; lia].
Qed.
End Creating.

(** C15: [fsi_creat] of a regular file under a name its directory does not have
    returns 0 when the directory's first block has a free entry and the first
    free inode number lies in the parent's inode-map chunk: the new inode is an
    empty regular file, looking the name up finds it, every file but it and the
    parent is as before, and the on-disk structure stays well formed. *)
Theorem fsi_creat_adds_file jnode jblk pinum name s s1 fl blk i :
  let c := find_inum 4096 0 (inodes s) in
  wf s -> zlen jnode = 64 -> zlen jblk = 4096 -> zlen name <= 27 ->
  view (file s) (inodes s) pinum = Some fl -> a_type fl = LFS_DIRECTORY ->
  zget (a_blocks fl) 0 = Some (Some blk) -> find_free 128 0 blk = Some i ->
  fsi_lookup jnode jblk pinum name s = Ret (-1, s1) ->
  c <> -1 -> c / 16 = pinum / 16 ->
  cr_end s + 4288 < 2 ^ 31 -> cr_end s + 4288 <= cap s ->
  exists s', fsi_creat jnode jblk pinum LFS_REGULAR_FILE name s = Ret (0, s') /\ wf s' /\
    view (file s') (inodes s') c = Some (mkA LFS_REGULAR_FILE 0 (replicate 14 None)) /\
    (forall k, k <> c -> k <> pinum -> view (file s') (inodes s') k = view (file s) (inodes s) k) /\
    (forall jn jb, zlen jn = 64 -> zlen jb = 4096 ->
       exists p, fsi_lookup jn jb pinum name s' = Ret (c, set_fpos p s')).
Proof.
  intros c W Hj Hjb Hn (a & Hp & Ha & ->)%view_inv Ht Hb Hf Hl Hc Hs He Hcap.
  cbn [a_blocks afile_of] in Hb. rewrite zget_fmap in Hb.
  destruct (zget (direct _) 0) as [d0|] eqn:Hd; [|done]. injection Hb as Hb.
  unfold ablock in Hb. destruct (Z.eqb_spec d0 (-1)) as [|Hne]; [done|]. injection Hb as <-.
  destruct (fsi_creat_run jnode jblk pinum name s s1 a d0 i) as [h E]; try done.
  eexists. split; [exact E|].
  match goal with |- wf ?t /\ _ => assert (wf t) as Wt end.
  { split; [done|]. by apply (c_disk pinum name s a d0 i). }
  split; [done|]. split; [by apply (c_view_child pinum name s a d0 i)|].
  split; [intros; by apply (c_view_other pinum name s a d0 i)|].
  intros jn jb Hjn Hjb'. by apply (c_lookup jnode jblk pinum name s s1 a d0 i).
Qed.

(** ** Concrete states *)

(** A decision procedure for [wf], to check concrete images. *)
Definition chunk_okb (s : lfs) (c : Z) : bool :=
  match zget (chunks s) c with
  | Some a =>
      if a =? -1
      then bool_decide (slice (c * IMAP_CHUNK_SIZE) IMAP_CHUNK_SIZE (inodes s) = replicate 16 (-1))
      else (sizeof_cr <=? a) && (a + 64 <=? cr_end s)
           && bool_decide (slice a 64 (file s) = chunk_bytes (inodes s) c)
  | None => true
  end.

Definition direct_okb (s : lfs) (d : Z) : bool :=
  (d =? -1) || (sizeof_cr <=? d) && (d + LFS_BLOCK_SIZE <=? cr_end s).

Definition inode_okb (s : lfs) (a : Z) : bool :=
  (a =? -1) || (sizeof_cr <=? a) && (a + 64 <=? cr_end s)
               && forallb (direct_okb s) (direct (dec_inode (slice a 64 (file s)))).

Definition s32b (z : Z) : bool := (- 2 ^ 31 <=? z) && (z <? 2 ^ 31).

Definition wf_b (s : lfs) : bool :=
  opened s && (sizeof_cr <=? cr_end s) && (cr_end s <? 2 ^ 31) && (cr_end s <=? zlen (file s))
  && (length (chunks s) =? 256)%nat && (length (inodes s) =? 4096)%nat
  && forallb s32b (chunks s) && forallb s32b (inodes s)
  && bool_decide (slice 0 sizeof_cr (file s) = enc_cr s)
  && forallb (fun c => chunk_okb s (Z.of_nat c)) (seq 0 256)
  && forallb (inode_okb s) (inodes s).

Lemma forallb_s32 l : forallb s32b l = true -> Forall in_s32 l.
Proof.
  intros H. apply Forall_forall. intros z Hz. rewrite forallb_forall in H.
  apply list_elem_of_In, H, andb_true_iff in Hz as [?%Z.leb_le ?%Z.ltb_lt]. done.
Qed.

Lemma zget_elem {A} (l : list A) i v : zget l i = Some v -> In v l.
Proof. unfold zget. case_bool_decide; [done|]. intros H1%list_elem_of_lookup_2. by apply list_elem_of_In. Qed.

Lemma inode_okb_spec s a :
  forallb (inode_okb s) (inodes s) = true -> In a (inodes s) -> a <> -1 ->
  (sizeof_cr <= a /\ a + 64 <= cr_end s) /\
  forall d, d ∈ direct (dec_inode (slice a 64 (file s))) -> d = -1 \/ sizeof_cr <= d /\ d + LFS_BLOCK_SIZE <= cr_end s.
Proof.
  intros H Hin Ha. rewrite forallb_forall in H. apply H in Hin. unfold inode_okb in Hin.
  rewrite (proj2 (Z.eqb_neq a (-1))) in Hin by done. cbn [orb] in Hin.
  apply andb_true_iff in Hin as [[?%Z.leb_le ?%Z.leb_le]%andb_true_iff Hd].
  split; [done|]. intros d Hdin%list_elem_of_In. rewrite forallb_forall in Hd. apply Hd in Hdin.
  apply orb_true_iff in Hdin as [->%Z.eqb_eq|[?%Z.leb_le ?%Z.leb_le]%andb_true_iff]; [by left|by right].
Qed.

Lemma wf_b_sound s : wf_b s = true -> wf s.
Proof.
  unfold wf_b. rewrite !andb_true_iff.
  intros ((((((((((Ho & H1%Z.leb_le) & H2%Z.ltb_lt) & H3%Z.leb_le) & H4%Nat.eqb_eq) & H5%Nat.eqb_eq)
    & H6%forallb_s32) & H7%forallb_s32) & H8%bool_decide_eq_true) & H9) & H10).
  split; [done|]. split; [|done]. split; try done.
  - intros c a Hc. pose proof (zget_Some_range _ _ _ Hc) as Hr. unfold zlen in Hr. rewrite H4 in Hr.
    rewrite forallb_forall in H9. specialize (H9 (Z.to_nat c)). rewrite Z2Nat.id in H9 by lia.
    unfold chunk_okb in H9. rewrite Hc in H9. rewrite in_seq in H9.
    specialize (H9 ltac:(lia)). destruct (a =? -1); [by apply bool_decide_eq_true in H9|].
    apply andb_true_iff in H9 as [[?%Z.leb_le ?%Z.leb_le]%andb_true_iff ?%bool_decide_eq_true]. done.
  - intros i a Hi Ha. eapply inode_okb_spec; [exact H10|by eapply zget_elem|done].
  - intros i a d Hi Ha. eapply inode_okb_spec; [exact H10|by eapply zget_elem|done].
Qed.

Definition after {A} (m : M lfs A) (s : lfs) : lfs := match m s with Ret (_, s') => s' | _ => s end.
Definition jn0 : list Z := replicate 64 7.
Definition jb0 : list Z := replicate 4096 9.
Definition fresh : lfs := mkLfs [] 0 1000000 false 0 (replicate 256 0) (replicate 4096 0) [].
Definition demo1 : lfs := after (fsi_init jb0 (Missing true)) fresh.
Definition demo2 : lfs := after (fsi_creat jn0 jb0 0 LFS_REGULAR_FILE (bytes "foo")) demo1.
Definition demo3 : lfs := after (fsi_creat jn0 jb0 0 LFS_DIRECTORY (bytes "dir")) demo2.
Definition file_at (s : lfs) (i : Z) : afile := default (mkA 0 0 []) (view (file s) (inodes s) i).

Lemma demo1_wf : wf demo1.
Proof. apply wf_b_sound. vm_compute. reflexivity. Qed.
Lemma demo2_wf : wf demo2.
Proof. apply wf_b_sound. vm_compute. reflexivity. Qed.
Lemma demo3_wf : wf demo3.
Proof. apply wf_b_sound. vm_compute. reflexivity. Qed.

Lemma fsi_write_refines_witness :
  exists s', fsi_write jn0 1 (replicate 4096 65) 2 demo2 = Ret (0, s') /\ wf s'.
Proof.
  destruct (fsi_write_refines jn0 1 (replicate 4096 65) 2 demo2 (file_at demo2 1) demo2_wf)
    as (s' & E & W & _).
  - reflexivity.
  - vm_compute. reflexivity.
  - vm_compute. reflexivity.
  - unfold NDIRECT. lia.
  - reflexivity.
  - vm_compute. reflexivity.
  - vm_compute. discriminate.
  - exists s'. split; [exact E|exact W].
Defined.

Lemma fsi_init_recovers_witness : mounts_as (file demo2) demo2.
Proof. apply fsi_init_recovers. exact demo2_wf. Defined.

Lemma fsi_write_crash_atomic_witness :
  exists s' imgs, fsi_write jn0 1 (replicate 4096 65) 2 demo2 = Ret (0, s') /\
    length imgs = 3%nat /\ Forall (fun f => mounts_as f demo2) imgs.
Proof.
  destruct (fsi_write_crash_atomic jn0 1 (replicate 4096 65) 2 demo2 (file_at demo2 1) demo2_wf)
    as (s' & imgs & E & _ & L & F & _).
  - reflexivity.
  - vm_compute. reflexivity.
  - vm_compute. reflexivity.
  - unfold NDIRECT. lia.
  - reflexivity.
  - vm_compute. reflexivity.
  - vm_compute. discriminate.
  - exists s', imgs. split; [exact E|split; [exact L|exact F]].
Defined.

Definition demo4 : lfs := after (fsi_write jn0 1 (replicate 4096 65) 2) demo2.
Lemma demo4_wf : wf demo4.
Proof. apply wf_b_sound. vm_compute. reflexivity. Qed.

Lemma fsi_read_block_witness :
  exists p, fsi_read jn0 1 jb0 2 demo4 = Ret (0, replicate 4096 65, set_fpos p demo4).
Proof.
  apply (fsi_read_block jn0 1 jb0 2 demo4 (file_at demo4 1) (replicate 4096 65) demo4_wf).
  - reflexivity.
  - reflexivity.
  - vm_compute. reflexivity.
  - vm_compute. reflexivity.
Defined.

Lemma fsi_read_hole_leaks_log_witness :
  exists a s' data, zget (inodes demo4) 1 = Some a /\ fsi_read jn0 1 jb0 0 demo4 = Ret (0, data, s').
Proof.
  destruct (fsi_read_hole_leaks_log jn0 1 jb0 0 demo4 (file_at demo4 1) demo4_wf) as (a & s' & H1 & H2).
  - reflexivity.
  - vm_compute. reflexivity.
  - vm_compute. reflexivity.
  - exists a, s'. eexists. split; [exact H1|exact H2].
Defined.

Lemma fsi_unlink_directory_refused_witness :
  exists p, fsi_unlink jn0 jb0 0 (bytes "dir") demo3 = Ret (-1, set_fpos p demo3).
Proof.
  eapply (fsi_unlink_directory_refused jn0 jb0 0 (bytes "dir") demo3 2
    (after (fsi_lookup jn0 jb0 0 (bytes "dir")) demo3) (file_at demo3 2) demo3_wf).
  - reflexivity.
  - vm_compute. reflexivity.
  - lia.
  - lia.
  - vm_compute. reflexivity.
  - vm_compute. reflexivity.
Defined.

Lemma fsi_creat_adds_file_witness :
  exists s', fsi_creat jn0 jb0 0 LFS_REGULAR_FILE (bytes "bar") demo2 = Ret (0, s') /\ wf s'.
Proof.
  destruct (fsi_creat_adds_file jn0 jb0 0 (bytes "bar") demo2
    (after (fsi_lookup jn0 jb0 0 (bytes "bar")) demo2) (file_at demo2 0)
    (default [] (default None (zget (a_blocks (file_at demo2 0)) 0))) 3 demo2_wf) as (s' & E & W & _).
  - reflexivity.
  - reflexivity.
  - vm_compute. discriminate.
  - vm_compute. reflexivity.
  - vm_compute. reflexivity.
  - vm_compute. reflexivity.
  - vm_compute. reflexivity.
  - vm_compute. reflexivity.
  - vm_compute. discriminate.
  - vm_compute. reflexivity.
  - vm_compute. reflexivity.
  - vm_compute. discriminate.
  - exists s'. split; [exact E|exact W].
Defined.

(** The sixteenth file: the root's inode 0 and the new inode 16 are in
    different inode-map chunks, the position is not advanced past the parent's
    chunk, and the inode recorded for the new file is that chunk: the call
    returns 0, but [fsi_stat] shows the address of another inode as its type. *)
Fixpoint creat_many (n : nat) : M lfs Z :=
  match n with
  | O => mret 0
  | S n => creat_many n;; fsi_creat jn0 jb0 0 LFS_REGULAR_FILE [97 + Z.of_nat n]
  end.

Example sixteenth_file_corrupt :
  match (r ← creat_many 16; st ← fsi_stat jn0 16; s ← get; mret (r, st, zget (inodes s) 1)) demo1 with
  | Ret ((r, (rc, Some (ty, _)), Some a), _) => r = 0 /\ rc = 0 /\ ty = a /\ ty <> LFS_REGULAR_FILE
  | _ => False
  end.
Proof. vm_compute. repeat split; discriminate. Qed.
