(* ===== verification/Server.v ===== *)
(** The two ends of project 6's wire: the server's handlers and dispatch loop
    ([src/6/server.c]) over the file system of [Lfs], and the client stubs
    ([src/6/libmfs.c]).

    A datagram is a whole [MFS_Msg_t].  [sizeof(char * )] is 4 (ILP32).  The
    sockets are the environment's: the server is given the datagrams that
    arrive, the client the outcome of each round of its send/select/receive
    loop. *)
From S2P Require Import Prelude Lfs.

Module Server.
Import Lfs.

Definition MFS_LOOKUP : Z := 0.
Definition MFS_STAT : Z := 1.
Definition MFS_WRITE : Z := 2.
Definition MFS_READ : Z := 3.
Definition MFS_CREAT : Z := 4.
Definition MFS_UNLINK : Z := 5.
Definition MFS_SHUTDOWN : Z := 6.
Definition MFS_ERROR : Z := 7.

Record MFS_Msg_t := mkMsg { m_type : Z; m_inum : Z; m_block : Z; m_buffer : list Z }.

Definition sizeof_ptr : Z := 4.
Definition sizeof_Msg : Z := 4108.
Definition sizeof_Stat : Z := 8.

(** [memcpy(dst, src, n)] between byte arrays: undefined when either is
    shorter than [n]. *)
Definition memcpy {S} (dst src : list Z) (n : Z) : M S (list Z) :=
  if (n <=? zlen dst) && (n <=? zlen src)
  then mret (take (Z.to_nat n) src ++ drop (Z.to_nat n) dst)
  else undef "memcpy out of bounds".

(** The C string at the start of a buffer. *)
Fixpoint cstr (mem : list Z) : option (list Z) :=
  match mem with
  | [] => None
  | c :: mem => if c =? 0 then Some [] else cons c <$> cstr mem
  end.

(** A line of the server's or the client's trace: the fields of a message and
    the string its buffer holds, for [printf] to format.  [%s] reads up to a
    NUL: out of the buffer, and of the message, when it holds none. *)
Inductive speaker := ServerIn | ServerOut | Client.
Record line := mkLine { l_by : speaker; l_type : Z; l_inum : Z; l_block : Z; l_message : list Z }.
Definition trace {S} (by_ : speaker) (m : MFS_Msg_t) (out : line -> S -> S) : M S unit :=
  msg ← deref "printf: no NUL in the buffer" (cstr (m_buffer m));
  modify (out (mkLine by_ (m_type m) (m_inum m) (m_block m) msg)).

(** ** Server *)

Record server := mkServer { fs : lfs; reply : MFS_Msg_t; printed : list line }.

(** Running a file-system call inside the server. *)
Definition call {A} (m : M lfs A) : M server A := fun s =>
  match m (fs s) with
  | Ret (a, f) => Ret (a, mkServer f (reply s) (printed s))
  | Panicked msg => Panicked msg
  | Undef why => Undef why
  | Blocked c => Blocked c
  | NoFuel => NoFuel
  end.

Definition set_reply (g : MFS_Msg_t -> MFS_Msg_t) (s : server) : server := mkServer (fs s) (g (reply s)) (printed s).
Definition print (l : line) (s : server) : server := mkServer (fs s) (reply s) (printed s ++ [l]).
Definition reply_type (v : Z) : M server unit :=
  modify (set_reply (fun r => mkMsg v (m_inum r) (m_block r) (m_buffer r))).
Definition reply_inum (v : Z) : M server unit :=
  modify (set_reply (fun r => mkMsg (m_type r) v (m_block r) (m_buffer r))).
Definition reply_block (v : Z) : M server unit :=
  modify (set_reply (fun r => mkMsg (m_type r) (m_inum r) v (m_buffer r))).
Definition reply_copy (src : list Z) (n : Z) : M server unit :=
  s ← get;
  b ← memcpy (m_buffer (reply s)) src n;
  modify (set_reply (fun r => mkMsg (m_type r) (m_inum r) (m_block r) b)).

Definition Server_Error : M server unit := reply_type MFS_ERROR;; reply_inum (-1).

Section Handlers.
(** The stack bytes the file system's locals start with. *)
Variables (jnode jblk : list Z).

Definition Server_Lookup (pinum : Z) (name : list Z) : M server unit :=
  reply_type MFS_LOOKUP;;
  nm ← deref "name" (cstr name);
  r ← call (fsi_lookup jnode jblk pinum nm);
  reply_inum r.

(** [fsi_stat] writes through [stat], the start of the request's buffer;
    [Server_Stat] and [Server_Read] give the buffer as it is afterwards. *)
Definition Server_Stat (inum : Z) (stat : list Z) : M server (list Z) :=
  reply_type MFS_STAT;;
  '(rc, r) ← call (fsi_stat jnode inum);
  let stat := match r with Some (ty, sz) => enc_ints [ty; sz] ++ drop 8 stat | None => stat end in
  (if rc <? 0 then reply_inum (-1)
   else
     reply_inum inum;;
     reply_copy stat sizeof_Stat);;
  mret stat.

Definition Server_Write (inum : Z) (buffer : list Z) (block : Z) : M server unit :=
  reply_type MFS_WRITE;;
  rc ← call (fsi_write jnode inum buffer block);
  if rc <? 0 then reply_inum (-1)
  else
    reply_inum inum;;
    reply_block block;;
    reply_copy buffer sizeof_ptr.

Definition Server_Read (inum : Z) (buffer : list Z) (block : Z) : M server (list Z) :=
  reply_type MFS_READ;;
  '(rc, buffer) ← call (fsi_read jnode inum buffer block);
  (if rc <? 0 then reply_inum (-1)
   else
     reply_inum inum;;
     reply_block block;;
     reply_copy buffer sizeof_ptr);;
  mret buffer.

Definition Server_Creat (pinum type : Z) (name : list Z) : M server unit :=
  reply_type MFS_CREAT;;
  nm ← deref "name" (cstr name);
  rc ← call (fsi_creat jnode jblk pinum type nm);
  if rc <? 0 then reply_inum (-1)
  else
    reply_inum pinum;;
    reply_block type;;
    reply_copy name sizeof_ptr.

Definition Server_Unlink (pinum : Z) (name : list Z) : M server unit :=
  reply_type MFS_UNLINK;;
  nm ← deref "name" (cstr name);
  rc ← call (fsi_unlink jnode jblk pinum nm);
  if rc <? 0 then reply_inum (-1)
  else
    reply_inum pinum;;
    reply_copy name sizeof_ptr.

Definition Server_Shutdown : M server unit :=
  reply_type MFS_SHUTDOWN;;
  rc ← call fsi_shutdown;
  if rc <? 0 then reply_inum (-1) else mret tt.

(** The [switch] of [Server_Init]: what [buf.buffer] holds after it. *)
Definition dispatch (buf : MFS_Msg_t) : M server (list Z) :=
  if m_type buf =? MFS_LOOKUP then Server_Lookup (m_inum buf) (m_buffer buf);; mret (m_buffer buf)
  else if m_type buf =? MFS_STAT then Server_Stat (m_inum buf) (m_buffer buf)
  else if m_type buf =? MFS_WRITE then Server_Write (m_inum buf) (m_buffer buf) (m_block buf);; mret (m_buffer buf)
  else if m_type buf =? MFS_READ then Server_Read (m_inum buf) (m_buffer buf) (m_block buf)
  else if m_type buf =? MFS_CREAT then Server_Creat (m_inum buf) (m_block buf) (m_buffer buf);; mret (m_buffer buf)
  else if m_type buf =? MFS_UNLINK then Server_Unlink (m_inum buf) (m_buffer buf);; mret (m_buffer buf)
  else if m_type buf =? MFS_SHUTDOWN then Server_Shutdown;; mret (m_buffer buf)
  else Server_Error;; mret (m_buffer buf).

(** The body of [Server_Init]'s loop for one datagram. *)
Definition serve_one (buf : MFS_Msg_t) : M server unit :=
  trace ServerIn buf print;;
  b ← dispatch buf;
  trace ServerOut (mkMsg (m_type buf) (m_inum buf) (m_block buf) b) print;;
  s ← get;
  if m_type (reply s) =? MFS_SHUTDOWN then panic "exit(0)" else mret tt.

(** The loop, on the datagrams that arrive; it sends nothing. *)
Fixpoint serve (msgs : list MFS_Msg_t) : M server unit :=
  match msgs with
  | [] => mret tt
  | m :: msgs => serve_one m;; serve msgs
  end.
End Handlers.

(** ** Client *)

(** One round of [tryMessage]'s loop: [UDP_Write] fails, [select] fails, the 30
    seconds pass, or a datagram is there and [UDP_Read] returns [rc]. *)
Inductive round := WriteFails | SelectError | Timeout | Data (rc : Z) (m : MFS_Msg_t).

(** The client's state is the global [buf], and what it has printed. [retval]
    is [None] while C has not assigned it. *)
Record client := mkClient { buf : MFS_Msg_t; told : list line }.
Definition tell (l : line) (s : client) : client := mkClient (buf s) (told s ++ [l]).
Fixpoint try_loop (rounds : list round) (retval : option Z) : M client Z :=
  match rounds with
  | [] => no_fuel
  | WriteFails :: rounds =>
      r ← deref "uninitialised retval" retval;
      if r =? 0 then try_loop rounds retval else mret (-1)
  | SelectError :: _ => mret (-1)
  | Timeout :: rounds => try_loop rounds (Some 0)
  | Data rc m :: _ =>
      modify (fun s => if rc >? 0 then mkClient m (told s) else s);;
      s ← get;
      trace Client (buf s) tell;;
      mret rc
  end.

(** The stubs differ only in the message they send; [env] answers it. *)
Section Stubs.
Variable env : MFS_Msg_t -> list round.

Definition tryMessage (message : MFS_Msg_t) : M client Z := try_loop (env message) None.

(** [UDP_Open] and [UDP_FillSockAddr] answer with their return codes. *)
Definition MFS_Init (sd fill : Z) : Z := if sd <? 0 then -1 else if fill =? 0 then fill else -1.

(** The common tail of the stubs: a response of type [ty] or -1. *)
Definition exchange (message : MFS_Msg_t) (ty : Z) : M client (option MFS_Msg_t) :=
  rc ← tryMessage message;
  s ← get;
  let response := buf s in
  if (rc >? 0) && (m_type response =? ty) && negb (m_inum response <? 0)
  then mret (Some response) else mret None.

(** [junk] is what the uninitialised [message] holds. *)
Definition MFS_Lookup (junk : MFS_Msg_t) (pinum : Z) (name : list Z) : M client Z :=
  b ← memcpy (m_buffer junk) name sizeof_ptr;
  r ← exchange (mkMsg MFS_LOOKUP pinum (m_block junk) b) MFS_LOOKUP;
  mret (match r with Some response => m_inum response | None => -1 end).

(** The stat structure is returned with the code. *)
Definition MFS_Stat (junk : MFS_Msg_t) (inum : Z) (m : list Z) : M client (Z * list Z) :=
  r ← exchange (mkMsg MFS_STAT inum (m_block junk) (m_buffer junk)) MFS_STAT;
  match r with
  | Some response => m ← memcpy m (m_buffer response) sizeof_Stat; mret (0, m)
  | None => mret (-1, m)
  end.

Definition MFS_Write (junk : MFS_Msg_t) (inum : Z) (buffer : list Z) (block : Z) : M client Z :=
  b ← memcpy (m_buffer junk) buffer sizeof_Msg;
  r ← exchange (mkMsg MFS_WRITE inum block b) MFS_WRITE;
  mret (match r with Some _ => 0 | None => -1 end).

Definition MFS_Read (junk : MFS_Msg_t) (inum : Z) (buffer : list Z) (block : Z) : M client (Z * list Z) :=
  r ← exchange (mkMsg MFS_READ inum block (m_buffer junk)) MFS_READ;
  match r with
  | Some response =>
      if m_block response <? 0 then mret (-1, buffer)
      else b ← memcpy buffer (m_buffer response) sizeof_ptr; mret (0, b)
  | None => mret (-1, buffer)
  end.

Definition MFS_Creat (junk : MFS_Msg_t) (pinum type : Z) (name : list Z) : M client Z :=
  nm ← deref "name" (cstr name);
  if zlen nm >? 27 then mret (-1)
  else
    b ← memcpy (m_buffer junk) name sizeof_ptr;
    r ← exchange (mkMsg MFS_CREAT pinum type b) MFS_CREAT;
    mret (match r with Some _ => 0 | None => -1 end).

Definition MFS_Unlink (junk : MFS_Msg_t) (pinum : Z) (name : list Z) : M client Z :=
  b ← memcpy (m_buffer junk) name sizeof_ptr;
  r ← exchange (mkMsg MFS_UNLINK pinum (m_block junk) b) MFS_UNLINK;
  mret (match r with Some _ => 0 | None => -1 end).

Definition MFS_Shutdown (junk : MFS_Msg_t) : M client Z :=
  r ← exchange (mkMsg MFS_SHUTDOWN (m_inum junk) (m_block junk) (m_buffer junk)) MFS_SHUTDOWN;
  mret (match r with Some _ => 0 | None => -1 end).
End Stubs.

End Server.
