(* ===== verification/ServerSpec.v ===== *)
(** What the server does with a stream of write requests, in terms of the
    abstract files of [LfsSpec], and two facts about the client stubs. *)
From S2P Require Import Prelude Lfs LfsSpec Server.
Import Lfs Server.

(** A write request that names a regular file and a block it can have, and
    whose block holds a NUL somewhere (the server prints it as a string). *)
Definition good_write (v : Z -> option afile) (m : MFS_Msg_t) : Prop :=
  m_type m = MFS_WRITE /\ 0 <= m_block m < NDIRECT /\
  (zlen (m_buffer m) = LFS_BLOCK_SIZE /\ is_Some (cstr (m_buffer m))) /\
  exists fl, v (m_inum m) = Some fl /\ a_type fl = LFS_REGULAR_FILE.

(** The files after one request, and after a stream of them. *)
Definition spec_write (v : Z -> option afile) (m : MFS_Msg_t) : Z -> option afile :=
  fun i => if i =? m_inum m then a_write (m_buffer m) (m_block m) <$> v i else v i.

Definition spec_writes (v : Z -> option afile) (ms : list MFS_Msg_t) : Z -> option afile :=
  foldl spec_write v ms.

(** What the server prints of a request that leaves the buffer as it is. *)
Definition lines (m : MFS_Msg_t) : list line :=
  match cstr (m_buffer m) with
  | Some msg => [mkLine ServerIn (m_type m) (m_inum m) (m_block m) msg; mkLine ServerOut (m_type m) (m_inum m) (m_block m) msg]
  | None => []
  end.

Definition files (s : server) : Z -> option afile := view (file (fs s)) (inodes (fs s)).

Lemma spec_write_good v m m' : good_write v m' -> good_write (spec_write v m) m'.
Proof.
  intros (H1 & H2 & H3 & fl & H4 & H5). split; [done|]. split; [done|]. split; [done|].
  unfold spec_write. destruct (_ =? _); rewrite H4; [|by exists fl].
  eexists. split; [reflexivity|]. done.
Qed.

Lemma spec_writes_ext v v' ms : (forall i, v i = v' i) -> forall i, spec_writes v ms i = spec_writes v' ms i.
Proof.
  revert v v'. induction ms as [|m ms IH]; intros v v' H i; [apply H|].
  apply IH. intros j. unfold spec_write. by rewrite H.
Qed.

Lemma good_write_ext v v' m : (forall i, v i = v' i) -> good_write v m -> good_write v' m.
Proof. intros H (H1 & H2 & H3 & fl & H4 & H5). do 3 (split; [done|]). exists fl. by rewrite <- H. Qed.

Lemma call_ok {A} (m : M lfs A) s a f :
  m (fs s) = Ret (a, f) -> call m s = Ret (a, mkServer f (reply s) (printed s)).
Proof. intros H. unfold call. by rewrite H. Qed.

(** Printing goes through exactly when there is a NUL to stop at. *)
Lemma trace_ok {S} b m (out : line -> S -> S) s msg : cstr (m_buffer m) = Some msg ->
  trace b m out s = Ret (tt, out (mkLine b (m_type m) (m_inum m) (m_block m) msg) s).
Proof. intros H. unfold trace, mbind, M_bind. by rewrite H. Qed.
Lemma trace_overruns {S} b m (out : line -> S -> S) s : cstr (m_buffer m) = None ->
  trace b m out s = Undef "printf: no NUL in the buffer".
Proof. intros H. unfold trace, mbind, M_bind. by rewrite H. Qed.

(** A full block without a NUL in it is a valid thing to write, and the server
    runs off the end of it before it has looked at the request. *)
Lemma serve_one_overruns jnode jblk m s : cstr (m_buffer m) = None ->
  serve_one jnode jblk m s = Undef "printf: no NUL in the buffer".
Proof. intros H. unfold serve_one, mbind at 1, M_bind. by rewrite trace_overruns. Qed.

Lemma memcpy_ok {S} (dst src : list Z) n (s : S) :
  n <= zlen dst -> n <= zlen src ->
  memcpy dst src n s = Ret (take (Z.to_nat n) src ++ drop (Z.to_nat n) dst, s).
Proof. intros H1 H2. unfold memcpy. by rewrite (proj2 (Z.leb_le n _) H1), (proj2 (Z.leb_le n _) H2). Qed.

(** A write leaves the disk's capacity and moves the log end by 4224. *)
Lemma fsi_write_end jnode inum buf block s fl :
  wf s -> zlen jnode = 64 ->
  view (file s) (inodes s) inum = Some fl -> a_type fl = LFS_REGULAR_FILE ->
  0 <= block < NDIRECT -> zlen buf = LFS_BLOCK_SIZE ->
  cr_end s + 4224 < 2 ^ 31 -> cr_end s + 4224 <= cap s ->
  exists s', fsi_write jnode inum buf block s = Ret (0, s') /\
    wf s' /\ cr_end s' = cr_end s + 4224 /\ cap s' = cap s /\
    forall i, view (file s') (inodes s') i =
      if i =? inum then Some (a_write buf block fl) else view (file s) (inodes s) i.
Proof.
  intros W Hj (a & Hi & Ha & ->)%view_inv Ht Hb Hbuf He Hc.
  eexists. split; [by apply (fsi_write_run jnode inum buf block s a)|].
  split; [split; [done|by apply (w_disk inum buf block s a)]|]. do 2 (split; [done|]).
  intros i. by apply (w_view inum buf block s a).
Qed.

Lemma serve_one_write jnode jblk m s :
  wf (fs s) -> zlen jnode = 64 -> good_write (files s) m -> 4 <= zlen (m_buffer (reply s)) ->
  cr_end (fs s) + 4224 < 2 ^ 31 -> cr_end (fs s) + 4224 <= cap (fs s) ->
  exists s', serve_one jnode jblk m s = Ret (tt, s') /\ wf (fs s') /\
    cr_end (fs s') = cr_end (fs s) + 4224 /\ cap (fs s') = cap (fs s) /\
    printed s' = printed s ++ lines m /\ zlen (m_buffer (reply s')) = zlen (m_buffer (reply s)) /\
    forall i, files s' i = spec_write (files s) m i.
Proof.
  intros W Hj (H1 & H2 & (H3 & msg & Hm) & fl & H4 & H5) Hr He Hc.
  destruct (fsi_write_end jnode (m_inum m) (m_buffer m) (m_block m) (fs s) fl)
    as (f & E & Wf & Hend & Hcap & Hv); try done.
  eexists. split.
  - unfold serve_one. rewrite (bind_Ret _ _ _ tt _ (trace_ok _ _ _ _ _ Hm)). unfold dispatch. rewrite H1. cbn [Z.eqb MFS_WRITE MFS_LOOKUP MFS_STAT Pos.eqb].
    unfold Server_Write, reply_type, reply_inum, reply_block, reply_copy.
    rewrite !bind_assoc. rewrite (bind_Ret (modify _) _ _ tt _ eq_refl).
    rewrite bind_assoc. erewrite bind_Ret by (apply call_ok; exact E). cbn [fs reply printed].
    change (0 <? 0) with false. cbv iota.
    rewrite bind_assoc. rewrite (bind_Ret (modify _) _ _ tt _ eq_refl).
    rewrite bind_assoc. rewrite (bind_Ret (modify _) _ _ tt _ eq_refl).
    rewrite bind_assoc. rewrite (bind_Ret get _ _ _ _ eq_refl).
    rewrite bind_assoc.
    erewrite bind_Ret by (apply memcpy_ok; [exact Hr|unfold sizeof_ptr; unfold LFS_BLOCK_SIZE in H3; lia]).
    rewrite (bind_Ret (modify _) _ _ tt _ eq_refl). rewrite (bind_Ret (mret _) _ _ _ _ eq_refl).
    rewrite (bind_Ret _ _ _ tt _ (trace_ok _ (mkMsg _ _ _ (m_buffer m)) _ _ msg Hm)). rewrite (bind_Ret get _ _ _ _ eq_refl). reflexivity.
  - split; [exact Wf|]. split; [exact Hend|]. split; [exact Hcap|]. split; [unfold lines; rewrite Hm, H1; cbn; by rewrite <- app_assoc|]. split.
    + cbn [reply set_reply print m_buffer]. unfold sizeof_ptr. unfold zlen, LFS_BLOCK_SIZE in *.
      rewrite length_app, length_take, length_drop. lia.
    + intros i. unfold files at 1, spec_write. cbn [fs set_reply print]. rewrite Hv.
      destruct (Z.eqb_spec i (m_inum m)) as [->|]; [|done]. by rewrite H4.
Qed.

(** C31: Serving a stream of write requests, each for a regular file and a
    block in range and with a NUL somewhere in the block, with log space for all
    of them, applies the abstract writes in order and nothing else, keeps the
    file system well formed, and prints each request twice (without a NUL the
    first of the two prints runs off the buffer: [serve_one_overruns]). *)
Theorem serve_applies_writes jnode jblk ms s :
  wf (fs s) -> zlen jnode = 64 -> Forall (good_write (files s)) ms ->
  4 <= zlen (m_buffer (reply s)) ->
  cr_end (fs s) + 4224 * zlen ms < 2 ^ 31 -> cr_end (fs s) + 4224 * zlen ms <= cap (fs s) ->
  exists s', serve jnode jblk ms s = Ret (tt, s') /\ wf (fs s') /\
    printed s' = printed s ++ flat_map lines ms /\
    forall i, files s' i = spec_writes (files s) ms i.
Proof.
  revert s. induction ms as [|m ms IH]; intros s W Hj Hg Hr He Hc.
  - exists s. split; [reflexivity|]. split; [done|]. split; [by rewrite app_nil_r|]. intros i. reflexivity.
  - apply Forall_cons in Hg as [Hm Hms]. unfold zlen in He, Hc. cbn [length] in He, Hc.
    destruct (serve_one_write jnode jblk m s) as (s1 & E & W1 & He1 & Hc1 & Hp1 & Hr1 & Hv); try done; try lia.
    destruct (IH s1) as (s' & E' & W' & Hp' & Hv'); try done; try (unfold zlen in *; lia).
    { eapply Forall_impl; [exact Hms|]. intros m' Hm'.
      eapply good_write_ext; [intros i; symmetry; apply Hv|]. by apply spec_write_good. }
    exists s'. cbn [serve]. rewrite (bind_Ret _ _ _ _ _ E). split; [exact E'|]. split; [exact W'|].
    split; [rewrite Hp', Hp1; cbn [flat_map]; by rewrite app_assoc|].
    intros i. rewrite Hv'. unfold spec_writes. cbn [foldl]. by apply spec_writes_ext.
Qed.

(** [MFS_Write] copies a whole message out of a block buffer into the 4096-byte
    field: the copy is out of bounds whatever the arguments. *)
Lemma MFS_Write_overflows env junk inum buffer block b :
  zlen (m_buffer junk) = 4096 -> MFS_Write env junk inum buffer block b = Undef "memcpy out of bounds".
Proof.
  intros H. unfold MFS_Write, mbind, M_bind, memcpy. rewrite H. reflexivity.
Qed.

(** The name a client sends keeps only its first [sizeof(char * )] bytes:
    two names that agree there make [MFS_Lookup] behave the same, whatever the
    network answers. *)
Theorem MFS_Lookup_sees_four_bytes env junk pinum name name' b :
  sizeof_ptr <= zlen name -> sizeof_ptr <= zlen name' -> sizeof_ptr <= zlen (m_buffer junk) ->
  take 4 name = take 4 name' ->
  MFS_Lookup env junk pinum name b = MFS_Lookup env junk pinum name' b.
Proof.
  intros H1 H2 H3 H. unfold MFS_Lookup.
  rewrite (bind_Ret _ _ _ _ _ (memcpy_ok _ name _ b H3 H1)).
  rewrite (bind_Ret _ _ _ _ _ (memcpy_ok _ name' _ b H3 H2)).
  change (Z.to_nat sizeof_ptr) with 4%nat. by rewrite H.
Qed.

(** ** Concrete runs *)

Definition demo_reply : MFS_Msg_t := mkMsg 0 0 0 (replicate 4096 0).
Definition demo_server : server := mkServer demo2 demo_reply [].
Definition demo_msgs : list MFS_Msg_t :=
  [mkMsg MFS_WRITE 1 0 (replicate 4095 65 ++ [0]); mkMsg MFS_WRITE 1 3 (bytes "hello" ++ replicate 4091 0)].

Lemma serve_applies_writes_witness :
  exists s', serve jn0 jb0 demo_msgs demo_server = Ret (tt, s') /\ wf (fs s') /\
    last (printed s') = Some (mkLine ServerOut MFS_WRITE 1 3 (bytes "hello")).
Proof.
  destruct (serve_applies_writes jn0 jb0 demo_msgs demo_server) as (s' & E & W & P & _).
  - exact demo2_wf.
  - reflexivity.
  - repeat apply Forall_cons_2; try apply Forall_nil_2;
      (split; [reflexivity|split; [unfold NDIRECT; simpl; lia|split; [split; [reflexivity|eexists; vm_compute; reflexivity]|]]];
       exists (file_at demo2 1); split; vm_compute; reflexivity).
  - vm_compute. discriminate.
  - vm_compute. reflexivity.
  - vm_compute. discriminate.
  - exists s'. split; [exact E|split; [exact W|]]. rewrite P. vm_compute. reflexivity.
Defined.

Lemma MFS_Lookup_sees_four_bytes_witness :
  MFS_Lookup (fun m => [Data 4108 m]) demo_reply 0 (bytes "foobar") (mkClient demo_reply []) =
  MFS_Lookup (fun m => [Data 4108 m]) demo_reply 0 (bytes "foobaz") (mkClient demo_reply []).
Proof. apply MFS_Lookup_sees_four_bytes; [vm_compute; discriminate..|reflexivity]. Defined.
