(* ===== verification/CString.v ===== *)
(** The kernel's memory and string routines ([src/5/xv6/string.c], shared by
    every xv6 tree of the repository), over one byte-addressed memory, so that
    source and destination may overlap.  An access outside the memory is
    undefined. *)
From S2P Require Import Prelude.

Module CString.

(** Memory: byte [a] is the [a]-th element. *)
Definition mem : Type := list Z.

Definition rd (a : Z) : M mem Z := s ← get; deref "load" (zget s a).
Definition wr (a v : Z) : M mem unit :=
  s ← get;
  deref "store" (zget s a);;
  put (zset s a (v mod 256)).

(** [stosb] stores [n] bytes upwards. *)
Fixpoint stosb (n : nat) (dst c : Z) : M mem unit :=
  match n with
  | O => mret tt
  | S n => wr dst c;; stosb n (dst + 1) c
  end.
Definition memset (dst c n : Z) : M mem Z := stosb (Z.to_nat (u32 n)) dst c;; mret dst.

Fixpoint memcmp_loop (n : nat) (s1 s2 : Z) : M mem Z :=
  match n with
  | O => mret 0
  | S n =>
      a ← rd s1; b ← rd s2;
      if negb (a =? b) then mret (a - b) else memcmp_loop n (s1 + 1) (s2 + 1)
  end.
Definition memcmp (v1 v2 n : Z) : M mem Z := memcmp_loop (Z.to_nat (u32 n)) v1 v2.

(** The two loops of [memmove], with the pointers as they stand at the loop. *)
Fixpoint copy_down (n : nat) (d s : Z) : M mem unit :=
  match n with
  | O => mret tt
  | S n => v ← rd (s - 1); wr (d - 1) v;; copy_down n (d - 1) (s - 1)
  end.
Fixpoint copy_up (n : nat) (d s : Z) : M mem unit :=
  match n with
  | O => mret tt
  | S n => v ← rd s; wr d v;; copy_up n (d + 1) (s + 1)
  end.
Definition memmove (dst src n : Z) : M mem Z :=
  let n := u32 n in
  (if (src <? dst) && (src + n >? dst)
   then copy_down (Z.to_nat n) (dst + n) (src + n)
   else copy_up (Z.to_nat n) dst src);;
  mret dst.
Definition memcpy (dst src n : Z) : M mem Z := memmove dst src n.

Fixpoint strncmp_loop (n : nat) (p q : Z) : M mem Z :=
  match n with
  | O => mret 0
  | S n' =>
      a ← rd p;
      if negb (a =? 0) then
        b ← rd q;
        if a =? b then strncmp_loop n' (p + 1) (q + 1) else mret (a - b)
      else b ← rd q; mret (a - b)
  end.
Definition strncmp (p q n : Z) : M mem Z := strncmp_loop (Z.to_nat (u32 n)) p q.

Fixpoint strncpy_loop (n : nat) (s t : Z) : M mem unit :=
  match n with
  | O => mret tt
  | S n =>
      c ← rd t; wr s c;;
      if negb (c =? 0) then strncpy_loop n (s + 1) (t + 1)
      else stosb n (s + 1) 0
  end.
Definition strncpy (s t n : Z) : M mem Z := strncpy_loop (Z.to_nat n) s t;; mret s.

(** [n] is the value [--n] leaves. *)
Fixpoint safestrcpy_loop (n : nat) (s t : Z) : M mem Z :=
  match n with
  | O => mret s
  | S n =>
      c ← rd t; wr s c;;
      if negb (c =? 0) then safestrcpy_loop n (s + 1) (t + 1) else mret (s + 1)
  end.
Definition safestrcpy (s t n : Z) : M mem Z :=
  if n <=? 0 then mret s
  else
    s' ← safestrcpy_loop (Z.to_nat (n - 1)) s t;
    wr s' 0;;
    mret s.

(** [strlen]; the fuel is the memory's size, past which a load is undefined. *)
Fixpoint strlen_loop (fuel : nat) (s n : Z) : M mem Z :=
  match fuel with
  | O => no_fuel
  | S fuel =>
      c ← rd (s + n);
      if negb (c =? 0) then strlen_loop fuel s (n + 1) else mret n
  end.
Definition strlen (s : Z) : M mem Z := m ← get; strlen_loop (S (length m)) s 0.

End CString.
