(* ===== verification/CStringSpec.v ===== *)
(** What the routines of [CString] do to memory: overlap-safe copying, and the
    bounded string copy that always terminates its result. *)
From S2P Require Import Prelude CString.
Import CString.

Definition byte_mem (m : mem) : Prop := Forall (fun v => 0 <= v < 256) m.

Lemma byte_mem_zset m a v : byte_mem m -> 0 <= v < 256 -> byte_mem (zset m a v).
Proof. intros H Hv. unfold zset. case_bool_decide; [done|]. by apply Forall_insert. Qed.

Lemma byte_mem_get m a v : byte_mem m -> zget m a = Some v -> 0 <= v < 256.
Proof.
  intros H. unfold zget. case_bool_decide; [done|]. intros Hv.
  by apply (Forall_lookup_1 _ _ _ _ H Hv).
Qed.

Lemma rd_ok m a v : zget m a = Some v -> rd a m = Ret (v, m).
Proof. intros H. unfold rd. rewrite (bind_Ret get _ _ _ _ eq_refl), H. reflexivity. Qed.

Lemma wr_ok m a v : 0 <= a < zlen m -> 0 <= v < 256 -> wr a v m = Ret (tt, zset m a v).
Proof.
  intros Ha Hv. unfold wr. rewrite (bind_Ret get _ _ _ _ eq_refl).
  destruct (zget_range m a Ha) as [o ->]. rewrite (bind_Ret _ _ _ o m eq_refl).
  by rewrite Z.mod_small.
Qed.

(** [m'] is [m] with the [n] bytes at [dst] replaced by what [f] gives. *)
Definition patched (m m' : mem) (dst n : Z) (f : Z -> option Z) : Prop :=
  zlen m' = zlen m /\ byte_mem m' /\
  forall k, zget m' k = if bool_decide (dst <= k < dst + n) then f (k - dst) else zget m k.

Lemma copy_step m d s v :
  byte_mem m -> 0 <= d < zlen m -> zget m s = Some v ->
  (v ← rd s; wr d v) m = Ret (tt, zset m d v) /\ byte_mem (zset m d v) /\ zlen (zset m d v) = zlen m.
Proof.
  intros Hb Hd Hs. pose proof (byte_mem_get _ _ _ Hb Hs) as Hv.
  rewrite (bind_Ret _ _ _ _ _ (rd_ok _ _ _ Hs)), wr_ok by done.
  split; [done|]. split; [by apply byte_mem_zset|apply zlen_zset].
Qed.

Lemma copy_up_ok n d s m :
  byte_mem m -> 0 <= d -> 0 <= s -> d + Z.of_nat n <= zlen m -> s + Z.of_nat n <= zlen m ->
  d <= s \/ s + Z.of_nat n <= d ->
  exists m', copy_up n d s m = Ret (tt, m') /\ patched m m' d (Z.of_nat n) (fun k => zget m (s + k)).
Proof.
  revert d s m. induction n as [|n IH]; intros d s m Hb Hd Hs Hdn Hsn Hor.
  - exists m. split; [done|]. split; [done|]. split; [done|]. intros k. rewrite bool_decide_false by lia. done.
  - destruct (zget_range m s) as [v Hv]; [lia|].
    destruct (copy_step m d s v Hb ltac:(lia) Hv) as (E & Hb1 & L1).
    destruct (IH (d + 1) (s + 1) (zset m d v)) as (m' & E' & L & Hb' & Hk); try done; try lia.
    exists m'. split.
    { cbn [copy_up]. rewrite <- bind_assoc. by rewrite (bind_Ret _ _ _ _ _ E). }
    split; [lia|]. split; [done|]. intros k. rewrite Hk.
    destruct (decide (k = d)) as [->|Hne].
    + rewrite bool_decide_false by lia. rewrite bool_decide_true by lia.
      rewrite zget_zset_eq by lia. rewrite <- Hv. f_equal. lia.
    + case_bool_decide.
      * rewrite bool_decide_true by lia. rewrite zget_zset_ne by lia. f_equal. lia.
      * rewrite bool_decide_false by lia. by apply zget_zset_ne.
Qed.

Lemma copy_down_ok n d s m :
  byte_mem m -> 0 <= d - Z.of_nat n -> 0 <= s - Z.of_nat n -> d <= zlen m -> s <= zlen m -> s <= d ->
  exists m', copy_down n d s m = Ret (tt, m') /\
    patched m m' (d - Z.of_nat n) (Z.of_nat n) (fun k => zget m (s - Z.of_nat n + k)).
Proof.
  revert d s m. induction n as [|n IH]; intros d s m Hb Hd Hs Hdn Hsn Hor.
  - exists m. split; [done|]. split; [done|]. split; [done|]. intros k. rewrite bool_decide_false by lia. done.
  - destruct (zget_range m (s - 1)) as [v Hv]; [lia|].
    destruct (copy_step m (d - 1) (s - 1) v Hb ltac:(lia) Hv) as (E & Hb1 & L1).
    destruct (IH (d - 1) (s - 1) (zset m (d - 1) v)) as (m' & E' & L & Hb' & Hk); try done; try lia.
    exists m'. split.
    { cbn [copy_down]. rewrite <- bind_assoc. by rewrite (bind_Ret _ _ _ _ _ E). }
    split; [lia|]. split; [done|]. intros k. rewrite Hk.
    destruct (decide (k = d - 1)) as [->|Hne].
    + rewrite bool_decide_false by lia. rewrite bool_decide_true by lia.
      rewrite zget_zset_eq by lia. rewrite <- Hv. f_equal. lia.
    + case_bool_decide.
      * rewrite bool_decide_true by lia. rewrite zget_zset_ne by lia. f_equal. lia.
      * rewrite bool_decide_false by lia. by apply zget_zset_ne.
Qed.

(** C40: [memmove] copies as if through a temporary: whatever the overlap, the
    destination ends up holding what the source held before the call and no
    other byte changes. *)
Theorem memmove_overlap_safe dst src n m :
  byte_mem m -> in_u32 n -> 0 <= src -> src + n <= zlen m -> 0 <= dst -> dst + n <= zlen m ->
  exists m', memmove dst src n m = Ret (dst, m') /\
    patched m m' dst n (fun k => zget m (src + k)).
Proof.
  intros Hb Hn Hs Hsn Hd Hdn. unfold memmove. rewrite u32_small by done.
  assert (0 <= n) as H0 by (unfold in_u32 in Hn; lia).
  destruct ((src <? dst) && (src + n >? dst)) eqn:E.
  - apply andb_true_iff in E as [E1%Z.ltb_lt _].
    destruct (copy_down_ok (Z.to_nat n) (dst + n) (src + n) m) as (m' & Em & P); try done; try lia.
    exists m'. split; [by rewrite (bind_Ret _ _ _ _ _ Em)|]. rewrite !Z2Nat.id in P by done.
    replace (dst + n - n) with dst in P by lia. replace (src + n - n) with src in P by lia. done.
  - assert (dst <= src \/ src + n <= dst) as Hor.
    { apply andb_false_iff in E as [E%Z.ltb_ge|E]; [by left|right]. rewrite Z.gtb_ltb in E. apply Z.ltb_ge in E. lia. }
    destruct (copy_up_ok (Z.to_nat n) dst src m) as (m' & Em & P); try done; try lia.
    exists m'. split; [by rewrite (bind_Ret _ _ _ _ _ Em)|]. by rewrite !Z2Nat.id in P by done.
Qed.

Lemma memmove_overlap_safe_witness :
  exists m', memmove 1 0 3 [10; 20; 30; 40; 50] = Ret (1, m') /\ zget m' 3 = Some 30.
Proof.
  destruct (memmove_overlap_safe 1 0 3 [10; 20; 30; 40; 50]) as (m' & E & _ & _ & Hk).
  - unfold byte_mem. repeat constructor; lia.
  - unfold in_u32. lia.
  - lia.
  - vm_compute. discriminate.
  - lia.
  - vm_compute. discriminate.
  - exists m'. split; [exact E|]. rewrite Hk. reflexivity.
Defined.
