(* ===== verification/Proc.v ===== *)
(** The process table and scheduler of project 2b ([src/2b/proc.c], the xv6
    process table with a stride scheduler), on one processor.

    A [struct proc *] is the index of its slot.  Every function runs as the
    code does, lock operations included, on a state that holds the table, the
    processor's interrupt state and the rest of the kernel.  [swtch] is where
    control moves: a process that calls [sched] stores in its [context] what it
    will do when it is switched to again, and the scheduler's round picks the
    next process and resumes it there.

    The memory and file layers are an interface, [KernelOps]. *)
From S2P Require Import Prelude CString.

(** What the process table needs from the rest of the kernel, over that
    part's own state [K]: pages, address spaces, open files and inodes. *)
Class KernelOps (K : Type) := {
  kalloc : M K (option Z);
  kfree : Z -> M K unit;
  setupkvm : M K Z;
  inituvm : Z -> M K unit;
  copyuvm : Z -> Z -> M K Z;
  freevm : Z -> M K unit;
  allocuvm : Z -> Z -> Z -> M K Z;
  deallocuvm : Z -> Z -> Z -> M K Z;
  filedup : Z -> M K Z;
  fileclose : Z -> M K unit;
  idup : Z -> M K Z;
  iput : Z -> M K unit;
  namei_root : M K Z
}.

Module Proc.

(** ** Data *)

Definition NPROC : Z := 64.
Definition NOFILE : Z := 16.
Definition PGSIZE : Z := 4096.

Inductive procstate := UNUSED | EMBRYO | SLEEPING | RUNNABLE | RUNNING | ZOMBIE.
#[export] Instance procstate_eq_dec : EqDecision procstate.
Proof. solve_decision. Defined.

(** A sleep channel is an address: null, a process's slot, or something else. *)
Inductive channel := CNull | CProc (i : Z) | CAddr (a : Z).
#[export] Instance channel_eq_dec : EqDecision channel.
Proof. solve_decision. Defined.

(** The user registers a system call returns to; [rest] are those no code of
    the file touches. *)
Record trapframe := mkTf { eax : Z; ebp : Z; esp : Z; eip : Z; cs : Z; ds : Z; es : Z; ss : Z; eflags : Z; rest : list Z }.

(** Where a process continues when it is switched to: [forkret], the end of
    [yield], the end of [sleep] on a lock other than [ptable.lock] ([InSleep])
    or the loop of [wait] ([InWait]); [intena] is [sched]'s saved local.
    [NoContext] is a context never set. *)
Inductive kpoint := Forkret | InYield | InSleep | InWait | InExit | NoContext.
Record kcontext := mkCtx { point : kpoint; saved_intena : bool }.

Record proc := mkProc {
  sz : Z;
  pgdir : Z;
  kstack : Z;
  state : procstate;
  pid : Z;
  parent : option Z;
  tf : trapframe;
  context : kcontext;
  chan : channel;
  killed : Z;
  ofile : list Z;
  cwd : Z;
  name : list Z;
  tickets : Z;
  usage : Z;
  stride : Z;
  pass : Z
}.

Definition set_sz (v : Z) (p : proc) : proc :=
  mkProc v (pgdir p) (kstack p) (state p) (pid p) (parent p) (tf p) (context p) (chan p) (killed p) (ofile p) (cwd p) (name p) (tickets p) (usage p) (stride p) (pass p).
Definition set_pgdir (v : Z) (p : proc) : proc :=
  mkProc (sz p) v (kstack p) (state p) (pid p) (parent p) (tf p) (context p) (chan p) (killed p) (ofile p) (cwd p) (name p) (tickets p) (usage p) (stride p) (pass p).
Definition set_kstack (v : Z) (p : proc) : proc :=
  mkProc (sz p) (pgdir p) v (state p) (pid p) (parent p) (tf p) (context p) (chan p) (killed p) (ofile p) (cwd p) (name p) (tickets p) (usage p) (stride p) (pass p).
Definition set_state (v : procstate) (p : proc) : proc :=
  mkProc (sz p) (pgdir p) (kstack p) v (pid p) (parent p) (tf p) (context p) (chan p) (killed p) (ofile p) (cwd p) (name p) (tickets p) (usage p) (stride p) (pass p).
Definition set_pid (v : Z) (p : proc) : proc :=
  mkProc (sz p) (pgdir p) (kstack p) (state p) v (parent p) (tf p) (context p) (chan p) (killed p) (ofile p) (cwd p) (name p) (tickets p) (usage p) (stride p) (pass p).
Definition set_parent (v : option Z) (p : proc) : proc :=
  mkProc (sz p) (pgdir p) (kstack p) (state p) (pid p) v (tf p) (context p) (chan p) (killed p) (ofile p) (cwd p) (name p) (tickets p) (usage p) (stride p) (pass p).
Definition set_tf (v : trapframe) (p : proc) : proc :=
  mkProc (sz p) (pgdir p) (kstack p) (state p) (pid p) (parent p) v (context p) (chan p) (killed p) (ofile p) (cwd p) (name p) (tickets p) (usage p) (stride p) (pass p).
Definition set_context (v : kcontext) (p : proc) : proc :=
  mkProc (sz p) (pgdir p) (kstack p) (state p) (pid p) (parent p) (tf p) v (chan p) (killed p) (ofile p) (cwd p) (name p) (tickets p) (usage p) (stride p) (pass p).
Definition set_chan (v : channel) (p : proc) : proc :=
  mkProc (sz p) (pgdir p) (kstack p) (state p) (pid p) (parent p) (tf p) (context p) v (killed p) (ofile p) (cwd p) (name p) (tickets p) (usage p) (stride p) (pass p).
Definition set_killed (v : Z) (p : proc) : proc :=
  mkProc (sz p) (pgdir p) (kstack p) (state p) (pid p) (parent p) (tf p) (context p) (chan p) v (ofile p) (cwd p) (name p) (tickets p) (usage p) (stride p) (pass p).
Definition set_ofile (v : list Z) (p : proc) : proc :=
  mkProc (sz p) (pgdir p) (kstack p) (state p) (pid p) (parent p) (tf p) (context p) (chan p) (killed p) v (cwd p) (name p) (tickets p) (usage p) (stride p) (pass p).
Definition set_cwd (v : Z) (p : proc) : proc :=
  mkProc (sz p) (pgdir p) (kstack p) (state p) (pid p) (parent p) (tf p) (context p) (chan p) (killed p) (ofile p) v (name p) (tickets p) (usage p) (stride p) (pass p).
Definition set_name (v : list Z) (p : proc) : proc :=
  mkProc (sz p) (pgdir p) (kstack p) (state p) (pid p) (parent p) (tf p) (context p) (chan p) (killed p) (ofile p) (cwd p) v (tickets p) (usage p) (stride p) (pass p).
Definition set_tickets (v : Z) (p : proc) : proc :=
  mkProc (sz p) (pgdir p) (kstack p) (state p) (pid p) (parent p) (tf p) (context p) (chan p) (killed p) (ofile p) (cwd p) (name p) v (usage p) (stride p) (pass p).
Definition set_usage (v : Z) (p : proc) : proc :=
  mkProc (sz p) (pgdir p) (kstack p) (state p) (pid p) (parent p) (tf p) (context p) (chan p) (killed p) (ofile p) (cwd p) (name p) (tickets p) v (stride p) (pass p).
Definition set_stride (v : Z) (p : proc) : proc :=
  mkProc (sz p) (pgdir p) (kstack p) (state p) (pid p) (parent p) (tf p) (context p) (chan p) (killed p) (ofile p) (cwd p) (name p) (tickets p) (usage p) v (pass p).
Definition set_pass (v : Z) (p : proc) : proc :=
  mkProc (sz p) (pgdir p) (kstack p) (state p) (pid p) (parent p) (tf p) (context p) (chan p) (killed p) (ofile p) (cwd p) (name p) (tickets p) (usage p) (stride p) v.

(** ** Kernel state *)

(** The processor: [FL_IF], the [pushcli] depth, the saved interrupt flag, and
    whether this processor holds [ptable.lock]. *)
Record cpu := mkCpu { iflag : bool; ncli : Z; intena : bool; pt_locked : bool }.

(** [cur] is the processor's [proc]; [current] is the scheduler's local of that
    name, unset before its first use. *)
Record kernel (K : Type) := mkK {
  procs : list proc;
  initproc : option Z;
  nextpid : Z;
  thecpu : cpu;
  cur : option Z;
  current : option Z;
  kern : K
}.
Arguments mkK {K} procs initproc nextpid thecpu cur current kern.
Arguments procs {K} k.
Arguments initproc {K} k.
Arguments nextpid {K} k.
Arguments thecpu {K} k.
Arguments cur {K} k.
Arguments current {K} k.
Arguments kern {K} k.

Section Kernel.
Context {K : Type} `{KernelOps K}.

Definition set_procs (l : list proc) (s : kernel K) : kernel K :=
  mkK l (initproc s) (nextpid s) (thecpu s) (cur s) (current s) (kern s).
Definition set_cpu (c : cpu) (s : kernel K) : kernel K :=
  mkK (procs s) (initproc s) (nextpid s) c (cur s) (current s) (kern s).
Definition set_cur (c : option Z) (s : kernel K) : kernel K :=
  mkK (procs s) (initproc s) (nextpid s) (thecpu s) c (current s) (kern s).
Definition set_current (c : option Z) (s : kernel K) : kernel K :=
  mkK (procs s) (initproc s) (nextpid s) (thecpu s) (cur s) c (kern s).

(** Access to slot [i]. *)
Definition pget (i : Z) : M (kernel K) proc := s ← get; deref "proc" (zget (procs s) i).
Definition pmod (i : Z) (f : proc -> proc) : M (kernel K) unit :=
  p ← pget i; modify (fun s => set_procs (zset (procs s) i (f p)) s).
Definition curproc : M (kernel K) Z := s ← get; deref "proc == 0" (cur s).

(** A call into the rest of the kernel. *)
Definition lower {A} (m : M K A) : M (kernel K) A := fun s =>
  match m (kern s) with
  | Ret (a, k) =>
      Ret (a, mkK (procs s) (initproc s) (nextpid s) (thecpu s) (cur s) (current s) k)
  | Panicked msg => Panicked msg
  | Undef why => Undef why
  | Blocked c => Blocked c
  | NoFuel => NoFuel
  end.

(** *** Locks ([src/2b/spinlock.c], one processor) *)

Definition pushcli : M (kernel K) unit :=
  modify (fun s =>
    let c := thecpu s in
    set_cpu (mkCpu false (ncli c + 1) (if ncli c =? 0 then iflag c else intena c) (pt_locked c)) s).

Definition popcli : M (kernel K) unit :=
  s ← get;
  let c := thecpu s in
  if iflag c then panic "popcli - interruptible"
  else if ncli c - 1 <? 0 then panic "popcli"
  else modify (set_cpu (mkCpu ((ncli c - 1 =? 0) && intena c) (ncli c - 1) (intena c) (pt_locked c))).

(** [acquire(&ptable.lock)] and [release(&ptable.lock)]. *)
Definition acquire_pt : M (kernel K) unit :=
  pushcli;;
  s ← get;
  let c := thecpu s in
  if pt_locked c then panic "acquire"
  else modify (set_cpu (mkCpu (iflag c) (ncli c) (intena c) true)).

Definition release_pt : M (kernel K) unit :=
  s ← get;
  let c := thecpu s in
  if negb (pt_locked c) then panic "release"
  else
    modify (set_cpu (mkCpu (iflag c) (ncli c) (intena c) false));;
    popcli.

(** *** Processes *)

(** The first slot from [i] on whose process satisfies [f]. *)
Fixpoint scan (f : proc -> bool) (l : list proc) (i : Z) : option Z :=
  match l with
  | [] => None
  | p :: l => if f p then Some i else scan f l (i + 1)
  end.

(** [allocproc], up to the release of the lock: the slot found, or [None]. *)
Definition alloc_slot : M (kernel K) (option Z) :=
  acquire_pt;;
  s ← get;
  match scan (fun p => bool_decide (state p = UNUSED)) (procs s) 0 with
  | None => release_pt;; mret None
  | Some i =>
      pmod i (set_state EMBRYO);;
      s ← get;
      pmod i (set_pid (nextpid s));;
      modify (fun s => mkK (procs s) (initproc s) (s32 (nextpid s + 1)) (thecpu s) (cur s) (current s) (kern s));;
      pmod i (set_tickets 1);;
      pmod i (set_pass 0);;
      p ← pget i;
      pmod i (set_stride (Z.quot 10000 (tickets p)));;
      release_pt;;
      mret (Some i)
  end.
(** The rest: the kernel stack. *)
Definition alloc_stack (i : Z) : M (kernel K) (option Z) :=
  ks ← lower kalloc;
  match ks with
  | None =>
      pmod i (set_kstack 0);;
      pmod i (set_state UNUSED);;
      mret None
  | Some ks =>
      pmod i (set_kstack ks);;
      pmod i (set_context (mkCtx Forkret false));;
      mret (Some i)
  end.
(** [allocproc]: the slot, or [None]. *)
Definition allocproc : M (kernel K) (option Z) :=
  r ← alloc_slot;
  match r with None => mret None | Some i => alloc_stack i end.

(** The name copied by [safestrcpy] into a 16-byte field. *)
Definition copy_name (old src : list Z) : list Z :=
  match CString.safestrcpy 0 16 16 (take 16 old ++ src) with
  | Ret (_, m) => take 16 m
  | _ => old
  end.

Definition userinit : M (kernel K) unit :=
  p ← allocproc;
  modify (fun s => mkK (procs s) p (nextpid s) (thecpu s) (cur s) (current s) (kern s));;
  p ← deref "allocproc returned 0" p;
  pg ← lower setupkvm;
  pmod p (set_pgdir pg);;
  if pg =? 0 then panic "userinit: out of memory?"
  else
    lower (inituvm pg);;
    pmod p (set_sz PGSIZE);;
    pmod p (set_tf (mkTf 0 0 PGSIZE 0 35 43 43 43 512 []));;
    pmod p (fun q => set_name (copy_name (name q) (bytes "initcode" ++ [0])) q);;
    cwd ← lower namei_root;
    pmod p (set_cwd cwd);;
    pmod p (set_state RUNNABLE).

Definition growproc (n : Z) : M (kernel K) Z :=
  i ← curproc;
  p ← pget i;
  let sz := sz p in
  r ← (if n >? 0 then
         sz' ← lower (allocuvm (pgdir p) sz (u32 (sz + n)));
         mret (if sz' =? 0 then None else Some sz')
       else if n <? 0 then
         sz' ← lower (deallocuvm (pgdir p) sz (u32 (sz + n)));
         mret (if sz' =? 0 then None else Some sz')
       else mret (Some sz));
  match r with
  | None => mret (-1)
  | Some sz => pmod i (set_sz sz);; mret 0
  end.

(** The loop over open files of [fork]: the child's table. *)
Fixpoint dup_files (l old : list Z) : M (kernel K) (list Z) :=
  match l, old with
  | f :: l, o :: old =>
      d ← (if negb (f =? 0) then lower (filedup f) else mret o);
      r ← dup_files l old;
      mret (d :: r)
  | _, _ => mret old
  end.

Definition fork : M (kernel K) Z :=
  me ← curproc;
  np ← allocproc;
  match np with
  | None => mret (-1)
  | Some np =>
      p ← pget me;
      pg ← lower (copyuvm (pgdir p) (sz p));
      pmod np (set_pgdir pg);;
      if pg =? 0 then
        q ← pget np;
        lower (kfree (kstack q));;
        pmod np (set_kstack 0);;
        pmod np (set_state UNUSED);;
        mret (-1)
      else
        p ← pget me;
        pmod np (set_sz (sz p));;
        pmod np (set_parent (Some me));;
        p ← pget me;
        pmod np (set_tf (tf p));;
        pmod np (fun q => set_tf (mkTf 0 (ebp (tf q)) (esp (tf q)) (eip (tf q)) (cs (tf q)) (ds (tf q))
                                       (es (tf q)) (ss (tf q)) (eflags (tf q)) (rest (tf q))) q);;
        p ← pget me;
        q ← pget np;
        fs ← dup_files (ofile p) (ofile q);
        pmod np (set_ofile fs);;
        p ← pget me;
        c ← lower (idup (cwd p));
        pmod np (set_cwd c);;
        q ← pget np;
        let pid := pid q in
        pmod np (set_state RUNNABLE);;
        p ← pget me;
        pmod np (fun q => set_name (copy_name (name q) (name p)) q);;
        mret pid
  end.

(** The same, in the pieces between which a timer interrupt can take the
    processor away ([allocproc] has released the lock and interrupts are on):
    where [fork] is once it has a slot, and one piece of it. *)
Inductive fork_pc := AtStack | AtSpace | AtUndo | AtFree | AtSize | AtParent | AtTf | AtEax | AtFiles | AtCwd | AtReady | AtName (pid : Z).
Inductive fork_next := Goes (pc : fork_pc) | Returns (r : Z).
Definition fork_step (me np : Z) (pc : fork_pc) : M (kernel K) fork_next :=
  match pc with
  | AtStack => r ← alloc_stack np; mret (match r with None => Returns (-1) | Some _ => Goes AtSpace end)
  | AtSpace =>
      p ← pget me;
      pg ← lower (copyuvm (pgdir p) (sz p));
      pmod np (set_pgdir pg);;
      mret (Goes (if pg =? 0 then AtUndo else AtSize))
  | AtUndo => q ← pget np; lower (kfree (kstack q));; pmod np (set_kstack 0);; mret (Goes AtFree)
  | AtFree => pmod np (set_state UNUSED);; mret (Returns (-1))
  | AtSize => p ← pget me; pmod np (set_sz (sz p));; mret (Goes AtParent)
  | AtParent => pmod np (set_parent (Some me));; mret (Goes AtTf)
  | AtTf => p ← pget me; pmod np (set_tf (tf p));; mret (Goes AtEax)
  | AtEax =>
      pmod np (fun q => set_tf (mkTf 0 (ebp (tf q)) (esp (tf q)) (eip (tf q)) (cs (tf q)) (ds (tf q))
                                     (es (tf q)) (ss (tf q)) (eflags (tf q)) (rest (tf q))) q);;
      mret (Goes AtFiles)
  | AtFiles => p ← pget me; q ← pget np; fs ← dup_files (ofile p) (ofile q); pmod np (set_ofile fs);; mret (Goes AtCwd)
  | AtCwd => p ← pget me; c ← lower (idup (cwd p)); pmod np (set_cwd c);; mret (Goes AtReady)
  | AtReady => q ← pget np; pmod np (set_state RUNNABLE);; mret (Goes (AtName (pid q)))
  | AtName pid => p ← pget me; pmod np (fun q => set_name (copy_name (name q) (name p)) q);; mret (Returns pid)
  end.

(** *** Giving up the processor *)

(** [sched], up to [swtch]: [k] is where the process continues. *)
Definition sched (k : kpoint) : M (kernel K) unit :=
  s ← get;
  let c := thecpu s in
  if negb (pt_locked c) then panic "sched ptable.lock"
  else if negb (ncli c =? 1) then panic "sched locks"
  else
    me ← curproc;
    p ← pget me;
    if bool_decide (state p = RUNNING) then panic "sched running"
    else if iflag c then panic "sched interruptible"
    else pmod me (set_context (mkCtx k (intena c))).

Definition yield : M (kernel K) unit :=
  acquire_pt;;
  me ← curproc;
  pmod me (set_state RUNNABLE);;
  sched InYield.

(** [wakeup1] and [wakeup]. *)
Definition wake (c : channel) (p : proc) : proc :=
  if bool_decide (state p = SLEEPING) && bool_decide (chan p = c) then set_state RUNNABLE p else p.
Definition wakeup1 (c : channel) : M (kernel K) unit :=
  modify (fun s => set_procs (wake c <$> procs s) s).
Definition wakeup (c : channel) : M (kernel K) unit := acquire_pt;; wakeup1 c;; release_pt.

(** [sleep(c, lk)] for a lock [lk] other than [ptable.lock], which the caller
    holds; acquiring and releasing it moves the [pushcli] depth. *)
Definition sleep (c : channel) : M (kernel K) unit :=
  s ← get;
  me ← (match cur s with Some me => mret me | None => panic "sleep" end);
  acquire_pt;;
  popcli;;
  pmod me (set_chan c);;
  pmod me (set_state SLEEPING);;
  sched InSleep.

(** The close loop of [exit]. *)
Fixpoint close_files (me fd : Z) (l : list Z) : M (kernel K) unit :=
  match l with
  | [] => mret tt
  | f :: l =>
      (if negb (f =? 0) then
         lower (fileclose f);;
         pmod me (fun p => set_ofile (zset (ofile p) fd 0) p)
       else mret tt);;
      close_files me (fd + 1) l
  end.

(** The reparenting loop of [exit], over the slots from [i]. *)
Fixpoint reparent (n : nat) (i me : Z) : M (kernel K) unit :=
  match n with
  | O => mret tt
  | S n =>
      p ← pget i;
      (if bool_decide (parent p = Some me) then
         s ← get;
         pmod i (set_parent (initproc s));;
         if bool_decide (state p = ZOMBIE)
         then init ← deref "initproc" (initproc s); wakeup1 (CProc init)
         else mret tt
       else mret tt);;
      reparent n (i + 1) me
  end.

(** [exit], before it takes the lock. *)
Definition exit_files (me : Z) : M (kernel K) unit :=
  p ← pget me;
  close_files me 0 (ofile p);;
  p ← pget me;
  lower (iput (cwd p));;
  pmod me (set_cwd 0).
(** And after. *)
Definition exit_leave (me : Z) : M (kernel K) unit :=
  acquire_pt;;
  p ← pget me;
  wakeup1 (match parent p with Some q => CProc q | None => CNull end);;
  reparent (Z.to_nat NPROC) 0 me;;
  pmod me (set_state ZOMBIE);;
  sched InExit.
Definition exit : M (kernel K) unit :=
  me ← curproc;
  s ← get;
  if bool_decide (initproc s = Some me) then panic "init exiting"
  else exit_files me;; exit_leave me.

(** The scan of [wait]: the first zombie child, and whether there is a child. *)
Fixpoint find_zombie (l : list proc) (i me : Z) (havekids : bool) : option Z * bool :=
  match l with
  | [] => (None, havekids)
  | p :: l =>
      if negb (bool_decide (parent p = Some me)) then find_zombie l (i + 1) me havekids
      else if bool_decide (state p = ZOMBIE) then (Some i, true)
      else find_zombie l (i + 1) me true
  end.

(** One turn of [wait]'s loop, entered holding [ptable.lock]: the value it
    returns, or [None] when the caller has gone to sleep on its own slot. *)
Definition wait_loop : M (kernel K) (option Z) :=
  me ← curproc;
  s ← get;
  match find_zombie (procs s) 0 me false with
  | (Some i, _) =>
      p ← pget i;
      let pid := pid p in
      lower (kfree (kstack p));;
      pmod i (set_kstack 0);;
      lower (freevm (pgdir p));;
      pmod i (set_state UNUSED);;
      pmod i (set_pid 0);;
      pmod i (set_parent None);;
      pmod i (fun p => set_name (zset (name p) 0 0) p);;
      pmod i (set_killed 0);;
      release_pt;;
      mret (Some pid)
  | (None, havekids) =>
      p ← pget me;
      if negb havekids || negb (killed p =? 0) then release_pt;; mret (Some (-1))
      else
        pmod me (set_chan (CProc me));;
        pmod me (set_state SLEEPING);;
        sched InWait;;
        mret None
  end.

Definition wait : M (kernel K) (option Z) := acquire_pt;; wait_loop.

Definition kill (pid0 : Z) : M (kernel K) Z :=
  acquire_pt;;
  s ← get;
  match scan (fun p => pid p =? pid0) (procs s) 0 with
  | Some i =>
      pmod i (set_killed 1);;
      p ← pget i;
      (if bool_decide (state p = SLEEPING) then pmod i (set_state RUNNABLE) else mret tt);;
      release_pt;;
      mret 0
  | None => release_pt;; mret (-1)
  end.

(** *** The scheduler *)

(** The loop over the table: [minPass] starts at -1, [best] is [current]. *)
Fixpoint pick (l : list proc) (i minPass : Z) (best : option Z) : option Z :=
  match l with
  | [] => best
  | p :: l =>
      if negb (bool_decide (state p = RUNNABLE)) then pick l (i + 1) minPass best
      else if (minPass <? 0) || (pass p <? minPass) then pick l (i + 1) (pass p) (Some i)
      else pick l (i + 1) minPass best
  end.

(** What the process switched to does until it leaves [ptable.lock], and how
    it left: into user space for the first time, out of [yield], out of [sleep]
    with its other lock held again, or out of [wait]'s loop, with the value to
    return or asleep again. *)
Inductive resumed := ToUser | FromYield | FromSleep | FromWait (r : option Z).

Definition resume (i : Z) : M (kernel K) resumed :=
  p ← pget i;
  let back := modify (fun s => let c := thecpu s in
                set_cpu (mkCpu (iflag c) (ncli c) (saved_intena (context p)) (pt_locked c)) s) in
  match point (context p) with
  | Forkret => release_pt;; mret ToUser
  | InYield => back;; release_pt;; mret FromYield
  | InSleep => back;; pmod i (set_chan CNull);; release_pt;; pushcli;; mret FromSleep
  | InWait => back;; pmod i (set_chan CNull);; r ← wait_loop; mret (FromWait r)
  | InExit => panic "zombie exit"
  | NoContext => undef "context"
  end.

(** One turn of [scheduler]'s loop: enable interrupts, pick, charge the chosen
    process and switch to it. *)
Definition scheduler_round : M (kernel K) resumed :=
  modify (fun s => let c := thecpu s in set_cpu (mkCpu true (ncli c) (intena c) (pt_locked c)) s);;
  acquire_pt;;
  s ← get;
  let best := pick (procs s) 0 (-1) (current s) in
  modify (set_current best);;
  c ← deref "uninitialised current" best;
  modify (set_cur (Some c));;
  p ← pget c;
  (if bool_decide (- 2 ^ 31 <= pass p + stride p < 2 ^ 31)
   then pmod c (set_pass (pass p + stride p))
   else undef "signed overflow");;
  pmod c (set_state RUNNING);;
  pmod c (fun p => set_usage (s32 (usage p + 1)) p);;
  resume c.

(** Control back in the scheduler after a process called [sched]: the rest of
    the loop's turn, then the next one. *)
Definition reschedule : M (kernel K) resumed :=
  modify (set_cur None);;
  release_pt;;
  scheduler_round.

(** *** System calls of [src/2b/sysproc.c] whose arguments are in range *)

Definition sys_settickets (tix : Z) : M (kernel K) Z :=
  i ← curproc;
  pmod i (set_tickets tix);;
  if tix =? 0 then undef "division by zero"
  else pmod i (set_stride (Z.quot 10000 tix));; mret 0.

Definition sys_getusage : M (kernel K) Z := i ← curproc; p ← pget i; mret (usage p).
Definition sys_getpid : M (kernel K) Z := i ← curproc; p ← pget i; mret (pid p).
Definition sys_sbrk (n : Z) : M (kernel K) Z :=
  i ← curproc; p ← pget i;
  let addr := sz p in
  r ← growproc n;
  mret (if r <? 0 then -1 else addr).

(** The rows [procdump] prints: pid, state and name of every used slot. *)
Definition state_name (st : procstate) : string :=
  match st with
  | UNUSED => "unused" | EMBRYO => "embryo" | SLEEPING => "sleep " | RUNNABLE => "runble"
  | RUNNING => "run   " | ZOMBIE => "zombie"
  end.
Definition procdump (l : list proc) : list (Z * string * list Z) :=
  (fun p => (pid p, state_name (state p), name p)) <$>
    filter (fun p => negb (bool_decide (state p = UNUSED)) = true) l.

End Kernel.
End Proc.
