(* ===== verification/ProcSpec.v ===== *)
(** Invariants of the process table of [Proc], kept by the pieces of kernel code. *)
From S2P Require Import Prelude CString Proc.
Import Proc.

(** ** The part of the table the invariants speak of *)

Record slot := mkSlot { v_state : procstate; v_pid : Z; v_parent : option Z; v_chan : channel; v_point : kpoint }.
Definition vproc (p : proc) : slot := mkSlot (state p) (pid p) (parent p) (chan p) (point (context p)).

Record vst := mkV { v_procs : list slot; v_init : option Z; v_next : Z; v_cur : option Z; v_current : option Z }.

Section Spec.
Context {K : Type} `{KernelOps K}.
Implicit Types s : kernel K.

Definition view s : vst := mkV (vproc <$> procs s) (initproc s) (nextpid s) (cur s) (current s).

Definition vset (i : Z) (sl : slot) (v : vst) : vst :=
  mkV (zset (v_procs v) i sl) (v_init v) (v_next v) (v_cur v) (v_current v).
Definition vget (v : vst) (i : Z) : option slot := zget (v_procs v) i.

Lemma vget_view s i : vget (view s) i = vproc <$> zget (procs s) i.
Proof. apply zget_fmap. Qed.

Lemma view_set_procs s i p : view (set_procs (zset (procs s) i p) s) = vset i (vproc p) (view s).
Proof. unfold view, vset. cbn. by rewrite fmap_zset. Qed.

Lemma vset_vset i a b v : vset i b (vset i a v) = vset i b v.
Proof. unfold vset. cbn. by rewrite zset_zset. Qed.

Lemma vset_id i a v : vget v i = Some a -> vset i a v = v.
Proof. intros Hv. unfold vset. rewrite (zset_id _ _ _ Hv). by destruct v. Qed.

Lemma vget_vset_eq i a b v : vget v i = Some b -> vget (vset i a v) i = Some a.
Proof. intros Hv. apply zget_zset_eq. by apply zget_Some_range in Hv. Qed.

Lemma vget_vset_ne i j a v : i <> j -> vget (vset i a v) j = vget v j.
Proof. apply zget_zset_ne. Qed.

Lemma pget_inv i s p s' : pget i s = Ret (p, s') -> s' = s /\ zget (procs s) i = Some p.
Proof.
  unfold pget. rewrite (bind_Ret get _ _ _ _ eq_refl). unfold deref.
  destruct (zget (procs s) i); [|discriminate]. by intros [= <- <-].
Qed.

Lemma pmod_inv i f s u s' :
  pmod i f s = Ret (u, s') ->
  exists p, zget (procs s) i = Some p /\ s' = set_procs (zset (procs s) i (f p)) s.
Proof.
  unfold pmod. intros (p & s1 & [-> Hp]%pget_inv & E)%bind_inv. injection E as _ <-. by exists p.
Qed.

(** A change of one slot, seen from [view]. *)
Lemma pmod_view i f s u s' :
  pmod i f s = Ret (u, s') ->
  exists p, zget (procs s) i = Some p /\ vget (view s) i = Some (vproc p) /\
    zget (procs s') i = Some (f p) /\ view s' = vset i (vproc (f p)) (view s).
Proof.
  intros (p & Hp & ->)%pmod_inv. exists p. split; [done|].
  split; [by rewrite vget_view, Hp|]. split; [|apply view_set_procs].
  cbn. apply zget_zset_eq. by apply zget_Some_range in Hp.
Qed.

(** ** Calls that do not show *)

Definition quiet {A} (m : M (kernel K) A) : Prop :=
  forall s a s', m s = Ret (a, s') -> view s' = view s.

Lemma quiet_ret {A} (a : A) : quiet (mret a).
Proof. by intros s b s' [= _ <-]. Qed.

Lemma quiet_bind {A B} (m : M (kernel K) A) (k : A -> M (kernel K) B) :
  quiet m -> (forall a, quiet (k a)) -> quiet (m ≫= k).
Proof.
  intros Hm Hk s b s' (a & s1 & E1 & E2)%bind_inv. apply Hm in E1. apply Hk in E2. congruence.
Qed.

Lemma quiet_get : quiet (@get (kernel K)).
Proof. by intros s a s' [= _ <-]. Qed.

Lemma quiet_deref {A} why (o : option A) : quiet (deref why o).
Proof. destruct o; [apply quiet_ret|]. intros s a s' [=]. Qed.

Lemma quiet_panic {A} msg : quiet (@panic _ A msg).
Proof. intros s a s' [=]. Qed.

Lemma quiet_undef {A} msg : quiet (@undef _ A msg).
Proof. intros s a s' [=]. Qed.

Lemma quiet_set_cpu c : quiet (modify (@set_cpu K c)).
Proof. by intros s a s' [= _ <-]. Qed.

Lemma quiet_modify_cpu (f : kernel K -> cpu) : quiet (modify (fun s => set_cpu (f s) s)).
Proof. by intros s a s' [= _ <-]. Qed.

Lemma quiet_lower {A} (m : M K A) : quiet (lower m).
Proof. intros s a s'. unfold lower. destruct (m (kern s)) as [[]| | | |]; [|discriminate..]. by intros [= _ <-]. Qed.

Lemma quiet_pmod i f : (forall p, vproc (f p) = vproc p) -> quiet (pmod i f).
Proof.
  intros Hf s u s' (p & Hp & Hv & _ & ->)%pmod_view. rewrite Hf. by apply vset_id.
Qed.

Lemma quiet_pget i : quiet (pget i).
Proof. by intros s p s' [-> _]%pget_inv. Qed.

Lemma quiet_curproc : quiet (@curproc K).
Proof. unfold curproc. apply quiet_bind; [apply quiet_get|]. intros. apply quiet_deref. Qed.
End Spec.

Create HintDb quiet.
#[export] Hint Resolve quiet_ret quiet_get quiet_deref quiet_panic quiet_undef quiet_set_cpu
  quiet_modify_cpu quiet_lower quiet_pget quiet_curproc : quiet.
#[export] Hint Extern 2 (quiet (pmod _ _)) => apply quiet_pmod; intros []; reflexivity : quiet.

Ltac quiet_tac :=
  repeat first [ solve [auto with quiet] | apply quiet_bind; [|intros] | progress case_match ].

(** Taking a run apart: [qstep] steps past a call that does not show, [pstep]
    (below) past a change of a slot whose content [G] is known. *)
Ltac qstep E V :=
  let a := fresh "r" in let s1 := fresh "s" in let E1 := fresh "E" in
  apply bind_inv in E as (a & s1 & E1 & E);
  match type of E1 with
  | ?m ?s = _ => assert (view s1 = view s) as V;
      [eapply (fun (Q : quiet m) => Q _ _ _ E1); quiet_tac|]
  end; clear E1.
Section Ops.
Context {K : Type} `{KernelOps K}.
Implicit Types s : kernel K.

Lemma quiet_pushcli : quiet (@pushcli K).
Proof. unfold pushcli. auto with quiet. Qed.

Lemma quiet_popcli : quiet (@popcli K).
Proof. unfold popcli. quiet_tac. Qed.
Hint Resolve quiet_pushcli quiet_popcli : quiet.

Lemma quiet_acquire_pt : quiet (@acquire_pt K).
Proof. unfold acquire_pt. quiet_tac. Qed.

Lemma quiet_release_pt : quiet (@release_pt K).
Proof. unfold release_pt. quiet_tac. Qed.
Hint Resolve quiet_acquire_pt quiet_release_pt : quiet.

Lemma quiet_growproc n : quiet (growproc (K:=K) n).
Proof. unfold growproc. quiet_tac. Qed.

Lemma quiet_dup_files l old : quiet (dup_files (K:=K) l old).
Proof. revert old. induction l; intros []; cbn [dup_files]; quiet_tac. Qed.

Lemma quiet_close_files me fd l : quiet (close_files (K:=K) me fd l).
Proof. revert fd. induction l; intros fd; cbn [close_files]; quiet_tac. Qed.

Lemma quiet_sys_settickets n : quiet (sys_settickets (K:=K) n).
Proof. unfold sys_settickets. quiet_tac. Qed.
Hint Resolve quiet_growproc quiet_dup_files quiet_close_files quiet_sys_settickets : quiet.

(** How a change of one field shows. *)
Definition sl_state st (sl : slot) := mkSlot st (v_pid sl) (v_parent sl) (v_chan sl) (v_point sl).
Definition sl_pid n (sl : slot) := mkSlot (v_state sl) n (v_parent sl) (v_chan sl) (v_point sl).
Definition sl_parent q (sl : slot) := mkSlot (v_state sl) (v_pid sl) q (v_chan sl) (v_point sl).
Definition sl_chan c (sl : slot) := mkSlot (v_state sl) (v_pid sl) (v_parent sl) c (v_point sl).
Definition sl_point k (sl : slot) := mkSlot (v_state sl) (v_pid sl) (v_parent sl) (v_chan sl) k.

Lemma pmod_slot i f (g : slot -> slot) s u s' sl :
  pmod i f s = Ret (u, s') -> (forall p, vproc (f p) = g (vproc p)) -> vget (view s) i = Some sl ->
  view s' = vset i (g sl) (view s) /\ vget (view s') i = Some (g sl).
Proof.
  intros (p & Hp & Hv & _ & ->)%pmod_view Hg Hsl. rewrite Hv in Hsl. injection Hsl as <-.
  rewrite Hg. split; [done|]. by eapply vget_vset_eq.
Qed.

Ltac pstep E G g W G1 :=
  let u := fresh "u" in let s1 := fresh "s" in let E1 := fresh "E" in
  apply bind_inv in E as (u & s1 & E1 & E);
  destruct (pmod_slot _ _ g _ _ _ _ E1 (fun p => eq_refl) G) as [W G1]; clear E1.

Lemma pmod_in i f s u s' : pmod i f s = Ret (u, s') -> exists sl, vget (view s) i = Some sl.
Proof. intros (p & _ & Hv & _)%pmod_view. eauto. Qed.

(** *** allocproc *)

Lemma scan_spec f (l : list proc) i k :
  scan f l i = Some k -> i <= k /\ exists p, zget l (k - i) = Some p /\ f p = true.
Proof.
  revert i. induction l as [|p l IH]; intros i; cbn [scan]; [done|].
  destruct (f p) eqn:E.
  - intros [= <-]. split; [lia|]. exists p. by rewrite Z.sub_diag.
  - intros (Hk & q & Hq & Ef)%IH. split; [lia|]. exists q. split; [|done].
    rewrite <- Hq. unfold zget. rewrite !bool_decide_false by lia.
    by replace (Z.to_nat (k - i)) with (S (Z.to_nat (k - (i + 1)))) by lia.
Qed.

Definition bump (v : vst) : vst := mkV (v_procs v) (v_init v) (s32 (v_next v + 1)) (v_cur v) (v_current v).

(** [alloc_slot] finds no slot, or takes a free one under the next pid. *)
Lemma alloc_slot_view s r s' :
  alloc_slot s = Ret (r, s') ->
  match r with
  | None => view s' = view s
  | Some i => exists sl, vget (view s) i = Some sl /\ v_state sl = UNUSED /\
      view s' = bump (vset i (mkSlot EMBRYO (v_next (view s)) (v_parent sl) (v_chan sl) (v_point sl)) (view s))
  end.
Proof.
  intros E. unfold alloc_slot in E. qstep E V1.
  rewrite (bind_Ret get _ _ _ _ eq_refl) in E.
  destruct (scan _ (procs s0) 0) as [i|] eqn:Es.
  2:{ qstep E V2. injection E as <- <-. by rewrite V2. }
  apply scan_spec in Es as (_ & p & Hp & Hst%bool_decide_eq_true). rewrite Z.sub_0_r in Hp.
  assert (vget (view s0) i = Some (vproc p)) as G by (by rewrite vget_view, Hp).
  apply bind_inv in E as (u1 & s1 & E1 & E).
  destruct (pmod_slot _ _ (sl_state EMBRYO) _ _ _ _ E1 (fun p => eq_refl) G) as [W1 G1].
  rewrite (bind_Ret get _ _ _ _ eq_refl) in E.
  apply bind_inv in E as (u2 & s2 & E2 & E).
  destruct (pmod_slot _ _ (sl_pid (nextpid s1)) _ _ _ _ E2 (fun p => eq_refl) G1) as [W2 G2].
  apply bind_inv in E as (u3 & s3 & E3 & E). injection E3 as _ E3.
  assert (view s3 = bump (view s2)) as W3 by (by rewrite <- E3).
  qstep E Q1. qstep E Q2. qstep E Q3. qstep E Q4. qstep E Q5. injection E as <- <-.
  exists (vproc p). rewrite <- V1. split; [done|]. split; [done|].
  assert (nextpid s1 = v_next (view s1)) as N by done. rewrite N, W1 in W2. cbn [v_next vset] in W2.
  rewrite Q5, Q4, Q3, Q2, Q1, W3, W2. by rewrite vset_vset.
Qed.

(** The kernel stack is there, and the slot will start in [forkret]; or the slot
    is given back. *)
Lemma alloc_stack_view i s r s' sl :
  alloc_stack i s = Ret (r, s') -> vget (view s) i = Some sl ->
  (r = Some i /\ view s' = vset i (sl_point Forkret sl) (view s)) \/ (r = None /\ view s' = vset i (sl_state UNUSED sl) (view s)).
Proof.
  intros E G. unfold alloc_stack in E. apply bind_inv in E as (ks & s9 & E9 & E). pose proof (quiet_lower _ _ _ _ E9) as Q. rewrite <- Q in G.
  destruct ks as [ks|]; qstep E Q7; rewrite <- Q7 in G.
  - left. pstep E G (sl_point Forkret) W G1. injection E as <- <-. split; [done|]. by rewrite W, Q7, Q.
  - right. pstep E G (sl_state UNUSED) W G1. injection E as <- <-. split; [done|]. by rewrite W, Q7, Q.
Qed.

Lemma curproc_inv s me s' : curproc s = Ret (me, s') -> s' = s /\ cur s = Some me.
Proof.
  unfold curproc. rewrite (bind_Ret get _ _ _ _ eq_refl). unfold deref.
  destruct (cur s); [|discriminate]. by intros [= <- <-].
Qed.

(** *** fork *)

(** [fork] is its pieces, one after the other. *)
Fixpoint fork_run (n : nat) (me np : Z) (pc : fork_pc) : M (kernel K) Z :=
  match n with
  | O => no_fuel
  | S n => r ← fork_step me np pc; match r with Goes pc => fork_run n me np pc | Returns r => mret r end
  end.
Lemma bind_ext_at {A B} (m : M (kernel K) A) (k k' : A -> M (kernel K) B) s : (forall a s1, k a s1 = k' a s1) -> (m ≫= k) s = (m ≫= k') s.
Proof. intros Hk. unfold mbind, M_bind. destruct (m s) as [[a s1]| | | |]; [apply Hk|done..]. Qed.
Lemma ret_bind {A B} (a : A) (k : A -> M (kernel K) B) s : (mret a ≫= k) s = k a s.
Proof. reflexivity. Qed.
Ltac in_steps := repeat first [progress cbn [fork_run fork_step] | progress rewrite ?bind_assoc, ?ret_bind | apply bind_ext_at; intros ? ?]; try reflexivity.
Lemma fork_in_steps s : fork s = (me ← curproc; r ← alloc_slot; match r with None => mret (-1) | Some np => fork_run 10 me np AtStack end) s.
Proof.
  unfold fork, allocproc. apply bind_ext_at. intros me s1. rewrite bind_assoc. apply bind_ext_at. intros [np|] s2; [|done].
  cbn [fork_run fork_step]. unfold alloc_stack. rewrite !bind_assoc. apply bind_ext_at. intros [ks|] s3; in_steps.
  match goal with |- context [if ?b then _ else _] => destruct b end; in_steps.
Qed.

(** One piece of [fork], on the slot [np] it fills for [me]. *)
Lemma fork_step_view me np pc s r s' sl :
  fork_step me np pc s = Ret (r, s') -> vget (view s) np = Some sl ->
  match pc with
  | AtStack => r = Goes AtSpace /\ view s' = vset np (sl_point Forkret sl) (view s) \/ r = Returns (-1) /\ view s' = vset np (sl_state UNUSED sl) (view s)
  | AtFree => r = Returns (-1) /\ view s' = vset np (sl_state UNUSED sl) (view s)
  | AtParent => r = Goes AtTf /\ view s' = vset np (sl_parent (Some me) sl) (view s)
  | AtReady => r = Goes (AtName (v_pid sl)) /\ view s' = vset np (sl_state RUNNABLE sl) (view s)
  | AtSpace => (r = Goes AtSize \/ r = Goes AtUndo) /\ view s' = view s
  | AtUndo => r = Goes AtFree /\ view s' = view s
  | AtSize => r = Goes AtParent /\ view s' = view s
  | AtTf => r = Goes AtEax /\ view s' = view s
  | AtEax => r = Goes AtFiles /\ view s' = view s
  | AtFiles => r = Goes AtCwd /\ view s' = view s
  | AtCwd => r = Goes AtReady /\ view s' = view s
  | AtName pid => r = Returns pid /\ view s' = view s
  end.
Proof.
  intros E G. destruct pc; cbn [fork_step] in E.
  - apply bind_inv in E as (o & s1 & E1 & E). injection E as <- <-.
    destruct (alloc_stack_view _ _ _ _ _ E1 G) as [[-> V]|[-> V]]; [by left|by right].
  - qstep E V1. qstep E V2. qstep E V3. injection E as <- <-. split; [destruct (_ =? 0); auto|congruence].
  - qstep E V1. qstep E V2. qstep E V3. injection E as <- <-. split; [done|congruence].
  - pstep E G (sl_state UNUSED) W G1. injection E as <- <-. done.
  - qstep E V1. qstep E V2. injection E as <- <-. split; [done|congruence].
  - pstep E G (sl_parent (Some me)) W G1. injection E as <- <-. done.
  - qstep E V1. qstep E V2. injection E as <- <-. split; [done|congruence].
  - qstep E V1. injection E as <- <-. split; [done|congruence].
  - qstep E V1. qstep E V2. qstep E V3. qstep E V4. injection E as <- <-. split; [done|congruence].
  - qstep E V1. qstep E V2. qstep E V3. injection E as <- <-. split; [done|congruence].
  - apply bind_inv in E as (q & s1 & [-> Hq]%pget_inv & E). assert (sl = vproc q) as -> by (rewrite vget_view, Hq in G; by injection G).
    pstep E G (sl_state RUNNABLE) W G1. injection E as <- <-. done.
  - qstep E V1. qstep E V2. injection E as <- <-. split; [done|congruence].
Qed.

(** *** sched, wakeup, kill *)

Lemma sched_view k s u s' :
  sched k s = Ret (u, s') ->
  exists me sl, v_cur (view s) = Some me /\ vget (view s) me = Some sl /\ v_state sl <> RUNNING /\
    view s' = vset me (sl_point k sl) (view s).
Proof.
  intros E. unfold sched in E. rewrite (bind_Ret get _ _ _ _ eq_refl) in E.
  destruct (negb (pt_locked _)); [discriminate|]. destruct (negb (ncli _ =? 1)); [discriminate|].
  apply bind_inv in E as (me & s0 & [-> Hme]%curproc_inv & E).
  apply bind_inv in E as (p & s1 & [-> Hp]%pget_inv & E).
  case_bool_decide as Hst; [discriminate|]. destruct (iflag _); [discriminate|].
  assert (vget (view s) me = Some (vproc p)) as G by (by rewrite vget_view, Hp).
  exists me, (vproc p). split; [done|]. split; [done|]. split; [done|].
  destruct (pmod_slot _ _ (sl_point k) _ _ _ _ E (fun p => eq_refl) G) as [W _]. exact W.
Qed.

Definition vwake (c : channel) (sl : slot) : slot :=
  if bool_decide (v_state sl = SLEEPING) && bool_decide (v_chan sl = c) then sl_state RUNNABLE sl else sl.
Definition vwakeup (c : channel) (v : vst) : vst :=
  mkV (vwake c <$> v_procs v) (v_init v) (v_next v) (v_cur v) (v_current v).

Lemma vget_vwakeup c v k : vget (vwakeup c v) k = vwake c <$> vget v k.
Proof. apply zget_fmap. Qed.

Lemma wakeup1_view c s u s' : wakeup1 c s = Ret (u, s') -> view s' = vwakeup c (view s).
Proof.
  intros [= _ <-]. unfold view, vwakeup. cbn. f_equal. rewrite <- !list_fmap_compose.
  apply list_fmap_ext. intros _ p _. cbn. unfold wake, vwake. cbn. by destruct (_ && _).
Qed.

Lemma wakeup_view c s u s' : wakeup c s = Ret (u, s') -> view s' = vwakeup c (view s).
Proof.
  intros E. unfold wakeup in E. qstep E V. apply bind_inv in E as (u1 & s1 & E1%wakeup1_view & E).
  apply quiet_release_pt in E. congruence.
Qed.

(** [kill] at most makes one sleeper runnable. *)
Lemma kill_view pid0 s r s' :
  kill pid0 s = Ret (r, s') ->
  view s' = view s \/
  exists i sl, vget (view s) i = Some sl /\ v_state sl = SLEEPING /\ view s' = vset i (sl_state RUNNABLE sl) (view s).
Proof.
  intros E. unfold kill in E. qstep E V. rewrite (bind_Ret get _ _ _ _ eq_refl) in E.
  destruct (scan _ (procs s0) 0) as [i|] eqn:Es.
  2:{ left. qstep E V2. injection E as _ <-. congruence. }
  qstep E V1. apply bind_inv in E as (p & s2 & [-> Hp]%pget_inv & E).
  assert (vget (view s1) i = Some (vproc p)) as G by (by rewrite vget_view, Hp).
  case_bool_decide as Hst.
  - right. exists i, (vproc p). rewrite <- V, <- V1. split; [done|]. split; [done|].
    pstep E G (sl_state RUNNABLE) W G1. qstep E V3. injection E as _ <-. congruence.
  - left. qstep E V3. qstep E V4. injection E as _ <-. congruence.
Qed.

(** *** wait *)

Lemma find_zombie_spec (l : list proc) i me hk :
  match find_zombie l i me hk with
  | (Some k, _) => i <= k /\ exists p, zget l (k - i) = Some p /\ parent p = Some me /\ state p = ZOMBIE
  | (None, _) => forall k p, zget l k = Some p -> parent p = Some me -> state p <> ZOMBIE
  end.
Proof.
  revert i hk. induction l as [|p l IH]; intros i hk; cbn [find_zombie].
  - intros k p Hk. apply zget_Some_range in Hk. unfold zlen in Hk. simpl in Hk. lia.
  - assert (forall b, match find_zombie l (i + 1) me b with
      | (Some k, _) => i <= k /\ exists q, zget (p :: l) (k - i) = Some q /\ parent q = Some me /\ state q = ZOMBIE
      | (None, _) => (parent p = Some me -> state p <> ZOMBIE) ->
          forall k q, zget (p :: l) k = Some q -> parent q = Some me -> state q <> ZOMBIE
      end) as IH'.
    { intros b. specialize (IH (i + 1) b). destruct (find_zombie l (i + 1) me b) as [[k|] b'].
      - destruct IH as (Hk & q & Hq & H1 & H2). split; [lia|]. exists q. split; [|done].
        rewrite <- Hq. unfold zget. rewrite !bool_decide_false by lia.
        by replace (Z.to_nat (k - i)) with (S (Z.to_nat (k - (i + 1)))) by lia.
      - intros Hp k q Hq. destruct (decide (k = 0)) as [->|Hk].
        + injection Hq as <-. done.
        + pose proof (zget_Some_range _ _ _ Hq) as Hr. apply (IH (k - 1)). rewrite <- Hq.
          unfold zget. rewrite !bool_decide_false by lia.
          by replace (Z.to_nat k) with (S (Z.to_nat (k - 1))) by lia. }
    case_bool_decide as H1; cbn [negb].
    + case_bool_decide as H2.
      * split; [lia|]. exists p. by rewrite Z.sub_diag.
      * specialize (IH' true). destruct (find_zombie l (i + 1) me true) as [[k|] b']; [done|]. apply IH'. done.
    + specialize (IH' hk). destruct (find_zombie l (i + 1) me hk) as [[k|] b']; [done|]. apply IH'. done.
Qed.

Lemma wait_loop_view s r s' me :
  wait_loop s = Ret (r, s') -> v_cur (view s) = Some me ->
  (exists i sl, vget (view s) i = Some sl /\ v_parent sl = Some me /\ v_state sl = ZOMBIE /\
     r = Some (v_pid sl) /\ view s' = vset i (mkSlot UNUSED 0 None (v_chan sl) (v_point sl)) (view s)) \/
  (r = Some (-1) /\ view s' = view s) \/
  (r = None /\ (forall k sl, vget (view s) k = Some sl -> v_parent sl = Some me -> v_state sl <> ZOMBIE) /\
   exists sl, vget (view s) me = Some sl /\
     view s' = vset me (mkSlot SLEEPING (v_pid sl) (v_parent sl) (CProc me) InWait) (view s)).
Proof.
  intros E Hme. unfold wait_loop in E.
  apply bind_inv in E as (me' & s0 & [-> Hme']%curproc_inv & E).
  assert (me' = me) as -> by (cbn in Hme; congruence).
  rewrite (bind_Ret get _ _ _ _ eq_refl) in E.
  pose proof (find_zombie_spec (procs s) 0 me false) as F.
  destruct (find_zombie (procs s) 0 me false) as [[i|] hk].
  - left. destruct F as (_ & p & Hp & H1 & H2). rewrite Z.sub_0_r in Hp.
    apply bind_inv in E as (p' & s1 & [-> Hp']%pget_inv & E).
    assert (p' = p) as -> by congruence.
    assert (vget (view s) i = Some (vproc p)) as G by (by rewrite vget_view, Hp).
    exists i, (vproc p). split; [done|]. split; [done|]. split; [done|].
    qstep E V1. qstep E V2. qstep E V3. rewrite <- V1, <- V2, <- V3 in G.
    pstep E G (sl_state UNUSED) W1 G1. pstep E G1 (sl_pid 0) W2 G2. pstep E G2 (sl_parent None) W3 G3.
    qstep E V4. qstep E V5. qstep E V6. injection E as <- <-. split; [done|].
    rewrite V6, V5, V4, W3, W2, W1, V3, V2, V1. by rewrite !vset_vset.
  - right. apply bind_inv in E as (p & s1 & [-> Hp]%pget_inv & E).
    assert (vget (view s) me = Some (vproc p)) as G by (by rewrite vget_view, Hp).
    destruct (negb hk || negb (killed p =? 0)).
    + left. qstep E V1. injection E as <- <-. done.
    + right. pstep E G (sl_chan (CProc me)) W1 G1. pstep E G1 (sl_state SLEEPING) W2 G2.
      apply bind_inv in E as (u2 & s4 & E4 & E). injection E as <- <-.
      apply sched_view in E4 as (me2 & sl & H1 & H2 & H3 & W4).
      assert (me2 = me) as -> by (rewrite W2, W1 in H1; cbn in H1; congruence).
      rewrite G2 in H2. injection H2 as <-. split; [done|]. split.
      * intros k sl Hk. rewrite vget_view in Hk. destruct (zget (procs s) k) as [q|] eqn:Hq; [|done].
        injection Hk as <-. by apply (F k).
      * exists (vproc p). split; [done|]. rewrite W4, W2, W1, !vset_vset. done.
Qed.

(** *** exit *)

(** The reparenting loop, on the view. *)
Fixpoint rp (n : nat) (i me : Z) (v : vst) : vst :=
  match n with
  | O => v
  | S n =>
      rp n (i + 1) me
        match vget v i with
        | Some sl =>
            if bool_decide (v_parent sl = Some me) then
              let v1 := vset i (sl_parent (v_init v) sl) v in
              match v_init v with
              | Some q => if bool_decide (v_state sl = ZOMBIE) then vwakeup (CProc q) v1 else v1
              | None => v1
              end
            else v
        | None => v
        end
  end.

Lemma reparent_view n i me s u s' :
  reparent n i me s = Ret (u, s') -> view s' = rp n i me (view s).
Proof.
  revert i s. induction n as [|n IH]; intros i s E; cbn [reparent] in E.
  - by injection E as _ <-.
  - apply bind_inv in E as (p & s1 & [-> Hp]%pget_inv & E).
    assert (vget (view s) i = Some (vproc p)) as G by (by rewrite vget_view, Hp).
    cbn [rp]. rewrite G. change (v_parent (vproc p)) with (parent p). change (v_state (vproc p)) with (state p).
    case_bool_decide as H1.
    + apply bind_inv in E as (u1 & s2 & E1 & E). apply IH in E. rewrite E. f_equal.
      rewrite (bind_Ret get _ _ _ _ eq_refl) in E1.
      pstep E1 G (sl_parent (initproc s)) W G1. change (v_init (view s)) with (initproc s).
      case_bool_decide as H2.
      * apply bind_inv in E1 as (q & s4 & Eq & E1). destruct (initproc s) as [q'|]; [|discriminate].
        injection Eq as <- <-. apply wakeup1_view in E1. by rewrite E1, W.
      * injection E1 as _ <-. rewrite W. by destruct (initproc s).
    + apply bind_inv in E as (u1 & s2 & E1 & E). injection E1 as _ <-. by apply IH.
Qed.

Lemma quiet_exit_files me : quiet (exit_files (K:=K) me).
Proof. unfold exit_files. quiet_tac. Qed.

(** [exit]: the sleepers on the parent's slot, the reparenting, the zombie. *)
Lemma exit_leave_view me s u s' :
  exit_leave me s = Ret (u, s') -> v_cur (view s) = Some me ->
  exists sl sl', vget (view s) me = Some sl /\
    let c := match v_parent sl with Some q => CProc q | None => CNull end in
    let v1 := rp (Z.to_nat NPROC) 0 me (vwakeup c (view s)) in
    vget v1 me = Some sl' /\
    view s' = vset me (mkSlot ZOMBIE (v_pid sl') (v_parent sl') (v_chan sl') InExit) v1.
Proof.
  intros E Hme. unfold exit_leave in E. qstep E V.
  apply bind_inv in E as (p' & s6 & [-> Hp']%pget_inv & E).
  assert (vget (view s0) me = Some (vproc p')) as G by (by rewrite vget_view, Hp').
  apply bind_inv in E as (u1 & s7 & E1%wakeup1_view & E).
  apply bind_inv in E as (u2 & s8 & E2%reparent_view & E).
  apply bind_inv in E as (u3 & s9 & E3 & E).
  destruct (pmod_in _ _ _ _ _ E3) as [sl' G'].
  exists (vproc p'), sl'. rewrite <- V. split; [done|].
  change (v_parent (vproc p')) with (parent p'). cbv zeta. rewrite <- E1, <- E2. split; [done|].
  destruct (pmod_slot _ _ (sl_state ZOMBIE) _ _ _ _ E3 (fun p => eq_refl) G') as [W G9].
  apply sched_view in E as (me2 & sl & H1 & H2 & H3 & W4).
  assert (v_cur (view s9) = v_cur (view s8)) as Hc by (by rewrite W).
  assert (forall n i v, v_cur (rp n i me v) = v_cur v) as Hrp.
  { clear. induction n as [|n IH]; intros i v; cbn [rp]; [done|]. rewrite IH.
    destruct (vget v i); [|done]. case_bool_decide; [|done]. destruct (v_init v); [|done]. by case_bool_decide. }
  assert (me2 = me) as ->.
  { rewrite Hc, E2, Hrp, E1 in H1. cbn [vwakeup v_cur] in H1. rewrite V in H1. congruence. }
  rewrite G9 in H2. injection H2 as <-. by rewrite W4, W, vset_vset.
Qed.

Lemma yield_view s u s' me :
  yield s = Ret (u, s') -> v_cur (view s) = Some me ->
  exists sl, vget (view s) me = Some sl /\
    view s' = vset me (mkSlot RUNNABLE (v_pid sl) (v_parent sl) (v_chan sl) InYield) (view s).
Proof.
  intros E Hme. unfold yield in E. qstep E V.
  apply bind_inv in E as (me' & s1 & [-> Hme']%curproc_inv & E).
  assert (me' = me) as ->.
  { change (cur s0) with (v_cur (view s0)) in Hme'. rewrite V in Hme'. congruence. }
  apply bind_inv in E as (u1 & s1 & E1 & E). destruct (pmod_in _ _ _ _ _ E1) as [sl G].
  destruct (pmod_slot _ _ (sl_state RUNNABLE) _ _ _ _ E1 (fun p => eq_refl) G) as [W G1].
  exists sl. rewrite <- V. split; [done|].
  apply sched_view in E as (me2 & sl2 & H1 & H2 & H3 & W2).
  assert (me2 = me) as -> by (rewrite W, V in H1; cbn [vset v_cur] in H1; congruence).
  rewrite G1 in H2. injection H2 as <-. by rewrite W2, W, vset_vset.
Qed.

Lemma sleep_view c s u s' me :
  (pushcli;; sleep c) s = Ret (u, s') -> v_cur (view s) = Some me ->
  exists sl, vget (view s) me = Some sl /\
    view s' = vset me (mkSlot SLEEPING (v_pid sl) (v_parent sl) c InSleep) (view s).
Proof.
  intros E Hme. qstep E V. unfold sleep in E. rewrite (bind_Ret get _ _ _ _ eq_refl) in E.
  assert (cur s0 = Some me) as Hc by (change (cur s0) with (v_cur (view s0)); by rewrite V).
  rewrite Hc in E. rewrite (bind_Ret _ _ _ me _ eq_refl) in E. qstep E V1. qstep E V2.
  apply bind_inv in E as (u1 & s3 & E1 & E). destruct (pmod_in _ _ _ _ _ E1) as [sl G].
  destruct (pmod_slot _ _ (sl_chan c) _ _ _ _ E1 (fun p => eq_refl) G) as [W G1].
  exists sl. rewrite <- V, <- V1, <- V2. split; [done|].
  pstep E G1 (sl_state SLEEPING) W2 G2.
  apply sched_view in E as (me2 & sl2 & H1 & H2 & H3 & W3).
  assert (me2 = me) as ->.
  { rewrite W2, W, V2, V1, V in H1. cbn [vset v_cur] in H1. congruence. }
  rewrite G2 in H2. injection H2 as <-. by rewrite W3, W2, W, !vset_vset.
Qed.

(** *** The scheduler *)

Lemma pick_spec (l : list proc) i m best k :
  pick l i m best = Some k ->
  best = Some k \/ i <= k /\ exists p, zget l (k - i) = Some p /\ state p = RUNNABLE.
Proof.
  revert i m best. induction l as [|p l IH]; intros i m best; cbn [pick]; [by left|].
  assert (forall j, (i + 1 <= k /\ exists q, zget l (k - (i + 1)) = Some q /\ state q = RUNNABLE) ->
    best = j \/ i <= k /\ exists q, zget (p :: l) (k - i) = Some q /\ state q = RUNNABLE) as X.
  { intros j (Hk & q & Hq & Hs). right. split; [lia|]. exists q. split; [|done]. rewrite <- Hq.
    unfold zget. rewrite !bool_decide_false by lia.
    by replace (Z.to_nat (k - i)) with (S (Z.to_nat (k - (i + 1)))) by lia. }
  case_bool_decide as Hs; cbn [negb]; [|by intros [?|?]%IH; [left|apply X]].
  destruct (_ || _); intros [E|E]%IH; try (by apply X); try (by left).
  injection E as <-. right. split; [lia|]. exists p. by rewrite Z.sub_diag.
Qed.

Lemma pick_any (l : list proc) i m best k :
  m < 0 -> pick l i m best = Some k ->
  (best = Some k /\ forall j p, zget l j = Some p -> state p <> RUNNABLE) \/
  i <= k /\ exists p, zget l (k - i) = Some p /\ state p = RUNNABLE.
Proof.
  intros Hm. revert i. induction l as [|p l IH]; intros i E.
  - left. split; [done|]. intros j p Hj. apply zget_Some_range in Hj. unfold zlen in Hj. simpl in Hj. lia.
  - cbn [pick] in E. case_bool_decide as Hs; cbn [negb] in E.
    + rewrite (proj2 (Z.ltb_lt m 0)) in E by done. cbn [orb] in E. right.
      apply pick_spec in E as [E|(Hk & q & Hq & Hs')].
      * injection E as <-. split; [lia|]. exists p. by rewrite Z.sub_diag.
      * split; [lia|]. exists q. split; [|done]. rewrite <- Hq.
        unfold zget. rewrite !bool_decide_false by lia.
        by replace (Z.to_nat (k - i)) with (S (Z.to_nat (k - (i + 1)))) by lia.
    + apply IH in E as [[E Hn]|(Hk & q & Hq & Hs')].
      * left. split; [done|]. intros j q Hj. destruct (decide (j = 0)) as [->|Hj0]; [by injection Hj as <-|].
        pose proof (zget_Some_range _ _ _ Hj). apply (Hn (j - 1)). rewrite <- Hj.
        unfold zget. rewrite !bool_decide_false by lia.
        by replace (Z.to_nat j) with (S (Z.to_nat (j - 1))) by lia.
      * right. split; [lia|]. exists q. split; [|done]. rewrite <- Hq.
        unfold zget. rewrite !bool_decide_false by lia.
        by replace (Z.to_nat (k - i)) with (S (Z.to_nat (k - (i + 1)))) by lia.
Qed.

Definition vcur (c cur' : option Z) (v : vst) : vst := mkV (v_procs v) (v_init v) (v_next v) c cur'.

(** What [resume] does to the table, by where the process continues. *)
Definition resumed_view (i : Z) (sl : slot) (r : resumed) (v v' : vst) : Prop :=
  match v_point sl with
  | Forkret => r = ToUser /\ v' = v
  | InYield => r = FromYield /\ v' = v
  | InSleep => r = FromSleep /\ v' = vset i (sl_chan CNull sl) v
  | InWait => exists w s1 s2, r = FromWait w /\ view (K:=K) s1 = vset i (sl_chan CNull sl) v /\
                 view s2 = v' /\ wait_loop s1 = Ret (w, s2)
  | InExit | NoContext => False
  end.

Lemma resume_view i s r s' sl :
  resume i s = Ret (r, s') -> vget (view s) i = Some sl -> resumed_view i sl r (view s) (view s').
Proof.
  intros E G. unfold resume in E.
  apply bind_inv in E as (p & s1 & [-> Hp]%pget_inv & E).
  assert (sl = vproc p) as -> by (rewrite vget_view, Hp in G; by injection G).
  unfold resumed_view. change (v_point (vproc p)) with (point (context p)).
  destruct (point (context p)); try discriminate.
  - qstep E V. by injection E as <- <-.
  - qstep E V. qstep E V1. injection E as <- <-. split; [done|congruence].
  - qstep E V. rewrite <- V in G. pstep E G (sl_chan CNull) W G1. qstep E V1. qstep E V2.
    injection E as <- <-. split; [done|congruence].
  - qstep E V. rewrite <- V in G. pstep E G (sl_chan CNull) W G1.
    apply bind_inv in E as (w & s3 & E1 & E). injection E as <- <-.
    exists w, s1, s3. rewrite W, V. done.
Qed.

(** A round picks a runnable process, or keeps the previous one when nothing is
    runnable, makes it the running process and resumes it. *)
Lemma scheduler_round_view s r s' :
  scheduler_round s = Ret (r, s') ->
  exists c sl, vget (view s) c = Some sl /\
    (v_state sl = RUNNABLE \/ v_current (view s) = Some c /\
       forall k q, vget (view s) k = Some q -> v_state q <> RUNNABLE) /\
    let v1 := vset c (sl_state RUNNING sl) (vcur (Some c) (Some c) (view s)) in
    resumed_view c (sl_state RUNNING sl) r v1 (view s').
Proof.
  intros E. unfold scheduler_round in E. qstep E V. qstep E V1.
  rewrite (bind_Ret get _ _ _ _ eq_refl) in E.
  destruct (pick (procs s1) 0 (-1) (current s1)) as [c|] eqn:Eb; [|discriminate].
  rewrite (bind_Ret (modify _) _ _ tt _ eq_refl) in E.
  rewrite (bind_Ret _ _ _ c _ eq_refl) in E.
  rewrite (bind_Ret (modify _) _ _ tt _ eq_refl) in E.
  set (s3 := set_cur _ _) in E.
  assert (view s1 = view s) as V2 by congruence.
  assert (view s3 = vcur (Some c) (Some c) (view s)) as V3 by (by rewrite <- V2).
  apply bind_inv in E as (p & s4 & [-> Hp]%pget_inv & E).
  assert (vget (view s3) c = Some (vproc p)) as G by (by rewrite vget_view, Hp).
  exists c, (vproc p). split; [rewrite V3 in G; exact G|].
  qstep E V4. rewrite <- V4 in G. pstep E G (sl_state RUNNING) W G1. qstep E V5. rewrite <- V5 in G1.
  apply resume_view with (1 := E) in G1.
  split; [|cbv zeta; rewrite <- V3, <- V4, <- W, <- V5; exact G1].
  apply pick_any in Eb as [[Hc Hn]|(_ & q & Hq & Hs)]; [| |lia].
  - right. rewrite <- V2. split; [exact Hc|]. intros k q Hk. rewrite vget_view in Hk.
    destruct (zget (procs s1) k) as [q'|] eqn:Hq; [|done]. injection Hk as <-. by apply (Hn k).
  - left. rewrite Z.sub_0_r in Hq. change (procs s3) with (procs s1) in Hp. assert (q = p) as -> by congruence. done.
Qed.
End Ops.

#[export] Hint Resolve quiet_pushcli quiet_popcli quiet_acquire_pt quiet_release_pt quiet_growproc
  quiet_dup_files quiet_close_files quiet_sys_settickets : quiet.
