(* ===== verification/ProcInv.v ===== *)
(** The invariants of the process table of [Proc]: pids are unique, every
    process has a live parent, a sleeping [wait] never has a zombie child to
    collect.  They hold in every state that boot, the system calls, interrupts
    and the scheduler can reach, whatever the memory and file layers do, with
    the processor taken from any process wherever the kernel has interrupts
    on: in the middle of [fork] and of [exit] too. *)
From S2P Require Import Prelude CString Proc ProcSpec.
Import Proc.

Definition used (sl : slot) : Prop := v_state sl <> UNUSED.
Definition live (sl : slot) : Prop := v_state sl <> UNUSED /\ v_state sl <> ZOMBIE /\ v_state sl <> EMBRYO.

Record table_ok (v : vst) : Prop := {
  t_len : length (v_procs v) = 64%nat;
  t_next : 1 <= v_next v < 2 ^ 31;
  t_pid i sl : vget v i = Some sl -> used sl -> 1 <= v_pid sl < v_next v;
  t_inj i j a b : vget v i = Some a -> vget v j = Some b -> used a -> used b -> v_pid a = v_pid b -> i = j;
  t_init : exists i sl, v_init v = Some i /\ vget v i = Some sl /\ live sl /\ v_parent sl = None;
  t_parent i sl : vget v i = Some sl -> used sl -> v_state sl <> EMBRYO -> v_init v <> Some i ->
    exists q ql, v_parent sl = Some q /\ q <> i /\ vget v q = Some ql /\ live ql;
  t_unused i sl : vget v i = Some sl -> v_state sl = UNUSED -> v_parent sl = None;
  t_wait i j sl : vget v i = Some sl -> v_state sl = SLEEPING -> v_chan sl = CProc j ->
    j = i /\ forall k kl, vget v k = Some kl -> v_parent kl = Some i -> v_state kl <> ZOMBIE
}.

(** The [fork]s that are under way: for a process in the middle of one, where it
    is and the slot it fills. *)
Notation forks := (gmap Z (fork_pc * Z)).
Definition unborn (pc : fork_pc) : bool := match pc with AtName _ => false | _ => true end.
Definition adopted (pc : fork_pc) : bool := match pc with AtTf | AtEax | AtFiles | AtCwd | AtReady | AtName _ => true | _ => false end.
Record forks_ok (v : vst) (F : forks) : Prop := {
  f_embryo i sl : vget v i = Some sl -> v_state sl = EMBRYO -> exists me pc, F !! me = Some (pc, i) /\ unborn pc = true;
  f_fork me pc i : F !! me = Some (pc, i) -> exists sl, vget v i = Some sl /\
    (unborn pc = true -> v_state sl = EMBRYO /\ v_parent sl = if adopted pc then Some me else None);
  f_live me pc i : F !! me = Some (pc, i) -> exists ml, vget v me = Some ml /\ live ml;
  f_inj me me' pc pc' i : F !! me = Some (pc, i) -> F !! me' = Some (pc', i) -> unborn pc = true -> unborn pc' = true -> me = me'
}.

(** A process runs, in user space or in kernel code with interrupts on; or
    control is in the scheduler after the process [v_cur] called [sched]; or the
    scheduler has let go of the lock and is about to look for a process. *)
Inductive mode := User | Scheduler | Idle.

Definition mode_ok (m : mode) (v : vst) : Prop :=
  match m with
  | User => exists me sl, v_cur v = Some me /\ v_current v = Some me /\ vget v me = Some sl /\
      v_state sl = RUNNING /\ forall j jl, vget v j = Some jl -> v_state jl = RUNNING -> j = me
  | Scheduler => exists me sl, v_cur v = Some me /\ v_current v = Some me /\ vget v me = Some sl /\
      (v_state sl = RUNNABLE \/ v_state sl = SLEEPING \/ v_state sl = ZOMBIE /\ v_point sl = InExit) /\
      forall j jl, vget v j = Some jl -> v_state jl <> RUNNING
  | Idle =>
      (forall j jl, vget v j = Some jl -> v_state jl <> RUNNING) /\
      (forall c sl, v_current v = Some c -> vget v c = Some sl ->
         v_state sl = RUNNABLE \/ v_state sl = SLEEPING \/ v_state sl = ZOMBIE /\ v_point sl = InExit)
  end.

Lemma vget_vset v i a b k :
  vget v i = Some b -> vget (vset i a v) k = if decide (k = i) then Some a else vget v k.
Proof.
  intros G. destruct (decide (k = i)) as [->|Hne]; [by eapply vget_vset_eq|]. by apply vget_vset_ne.
Qed.

Lemma length_vset i a v : length (v_procs (vset i a v)) = length (v_procs v).
Proof. apply length_zset. Qed.

Ltac vcase H G :=
  rewrite (vget_vset _ _ _ _ _ G) in H; destruct (decide _) as [?|?]; [subst; injection H as <-|].

(** A live process changes state and stays live. *)
Lemma table_ok_live v i sl sl' :
  table_ok v -> vget v i = Some sl -> live sl -> live sl' ->
  v_pid sl' = v_pid sl -> v_parent sl' = v_parent sl ->
  (v_state sl' = SLEEPING -> forall j, v_chan sl' = CProc j ->
     j = i /\ forall k kl, vget v k = Some kl -> v_parent kl = Some i -> v_state kl <> ZOMBIE) ->
  table_ok (vset i sl' v).
Proof.
  intros [] G (Hu & Hz & Hem) (Hu' & Hz' & He) Hp Hq Hw. split; try done.
  - by rewrite length_vset.
  - intros k kl Hk Hkl. vcase Hk G; [|by eapply t_pid0]. rewrite Hp. by eapply t_pid0.
  - intros a b al bl Ha Hb Hal Hbl Hpid. vcase Ha G; vcase Hb G; try done.
    + eapply t_inj0; try done; congruence.
    + eapply t_inj0; try done; congruence.
    + by eapply t_inj0.
  - destruct t_init0 as (i0 & l0 & H1 & H2 & H3 & H4). destruct (decide (i0 = i)) as [->|Hne].
    + exists i, sl'. split; [done|]. split; [by eapply vget_vset_eq|]. split; [done|]. congruence.
    + exists i0, l0. by rewrite vget_vset_ne by congruence.
  - intros k kl Hk Hkl Hke Hki.
    assert (exists q ql, v_parent kl = Some q /\ q <> k /\ vget v q = Some ql /\ live ql) as (q & ql & H1 & H2 & H3 & H4).
    { vcase Hk G; [|by eapply t_parent0]. rewrite Hq. by eapply t_parent0. }
    destruct (decide (q = i)) as [->|Hne].
    + exists i, sl'. split; [done|]. split; [done|]. split; [by eapply vget_vset_eq|done].
    + exists q, ql. by rewrite vget_vset_ne by congruence.
  - intros k kl Hk Hkl. vcase Hk G; [done|]. by eapply t_unused0.
  - intros k j kl Hk Hs Hc.
    assert (j = k /\ forall m ml, vget v m = Some ml -> v_parent ml = Some k -> v_state ml <> ZOMBIE) as [H1 H2].
    { vcase Hk G; [by apply Hw|]. by eapply t_wait0. }
    split; [done|]. intros m ml Hm Hpm. vcase Hm G; [done|]. by eapply H2.
Qed.

Lemma vwake_fields c sl :
  v_pid (vwake c sl) = v_pid sl /\ v_parent (vwake c sl) = v_parent sl /\ v_chan (vwake c sl) = v_chan sl /\
  v_point (vwake c sl) = v_point sl /\
  (vwake c sl = sl \/ v_state sl = SLEEPING /\ v_state (vwake c sl) = RUNNABLE).
Proof.
  unfold vwake. case_bool_decide; [|by cbn; auto 6]. case_bool_decide; by cbn; auto 7.
Qed.

Lemma vwake_state c sl st :
  st <> SLEEPING -> st <> RUNNABLE -> v_state (vwake c sl) = st <-> v_state sl = st.
Proof.
  intros H1 H2. destruct (vwake_fields c sl) as (_ & _ & _ & _ & [->|[-> ->]]); [done|]. split; congruence.
Qed.

Lemma vwake_sleeping c sl : v_state (vwake c sl) = SLEEPING -> v_state sl = SLEEPING /\ vwake c sl = sl /\ v_chan sl <> c.
Proof.
  unfold vwake. case_bool_decide as H1; cbn [andb].
  - case_bool_decide as H2; [done|]. done.
  - intros H. by destruct H1.
Qed.

Lemma vget_vwakeup_inv c v k kl :
  vget (vwakeup c v) k = Some kl -> exists sl, vget v k = Some sl /\ kl = vwake c sl.
Proof. rewrite vget_vwakeup. destruct (vget v k) as [sl|]; [|done]. intros [= <-]. by exists sl. Qed.

Lemma live_wake c sl : live sl -> live (vwake c sl).
Proof. intros (H1 & H2 & H3). split; [|split]; by rewrite vwake_state. Qed.

Lemma table_ok_wakeup c v : table_ok v -> table_ok (vwakeup c v).
Proof.
  intros []. split; try done.
  - cbn. by rewrite length_fmap.
  - intros i sl (l & Hl & ->)%vget_vwakeup_inv Hu. destruct (vwake_fields c l) as (-> & _).
    apply (t_pid0 i); [done|]. intros E. apply Hu. by apply vwake_state.
  - intros i j a b (la & Ha & ->)%vget_vwakeup_inv (lb & Hb & ->)%vget_vwakeup_inv Hua Hub.
    destruct (vwake_fields c la) as (-> & _). destruct (vwake_fields c lb) as (-> & _).
    apply t_inj0; try done; intros E; [apply Hua|apply Hub]; by apply vwake_state.
  - destruct t_init0 as (i & sl & H1 & H2 & H3 & H5). exists i, (vwake c sl).
    split; [done|]. split; [by rewrite vget_vwakeup, H2|].
    split; [by apply live_wake|]. by destruct (vwake_fields c sl) as (_ & -> & _).
  - intros i sl (l & Hl & ->)%vget_vwakeup_inv Hu He Hi.
    destruct (t_parent0 i l) as (q & ql & H1 & H2 & H3 & H4); [done| | |done|].
    { intros E. apply Hu. by apply vwake_state. }
    { intros E. apply He. by apply vwake_state. }
    exists q, (vwake c ql). destruct (vwake_fields c l) as (_ & -> & _). split; [done|]. split; [done|].
    split; [by rewrite vget_vwakeup, H3|]. by apply live_wake.
  - intros i sl (l & Hl & ->)%vget_vwakeup_inv Hu. apply vwake_state in Hu; [|done..].
    destruct (vwake_fields c l) as (_ & -> & _). by eapply t_unused0.
  - intros i j sl (l & Hl & ->)%vget_vwakeup_inv (Hs & E & _)%vwake_sleeping Hc. rewrite E in Hc.
    destruct (t_wait0 i j l Hl Hs Hc) as [-> H]. split; [done|].
    intros k kl (lk & Hk & ->)%vget_vwakeup_inv Hp Hz. apply vwake_state in Hz; [|done..].
    destruct (vwake_fields c lk) as (_ & Hpk & _). rewrite Hpk in Hp. by apply (H k lk).
Qed.

(** A slot nobody lives in changes: it is taken for a new process, filled, made
    runnable under a live parent, given back, or collected by [wait]. *)
Lemma table_ok_change v i sl sl' :
  table_ok v -> vget v i = Some sl -> ~ live sl -> v_state sl' = UNUSED \/ v_state sl' = EMBRYO \/ v_state sl' = RUNNABLE ->
  (used sl' -> 1 <= v_pid sl' < v_next v /\ forall k kl, k <> i -> vget v k = Some kl -> used kl -> v_pid kl <> v_pid sl') ->
  (v_state sl' = UNUSED -> v_parent sl' = None) ->
  (v_state sl' = RUNNABLE -> exists q ql, v_parent sl' = Some q /\ vget v q = Some ql /\ live ql) ->
  table_ok (vset i sl' v).
Proof.
  intros [] G Hz Hst Hpid Hun Hpar. assert (forall k kl, vget v k = Some kl -> live kl -> k <> i) as Hne by (intros k kl Hk Hl ->; congruence).
  split; try done.
  - by rewrite length_vset.
  - intros k kl Hk Hkl. vcase Hk G; [by apply Hpid|by eapply t_pid0].
  - intros a b al bl Ha Hb Hal Hbl Hp. vcase Ha G; vcase Hb G; try done.
    + by destruct (proj2 (Hpid Hal) b bl).
    + by destruct (proj2 (Hpid Hbl) a al).
    + by eapply t_inj0.
  - destruct t_init0 as (i0 & l0 & H1 & H2 & H3 & H5). exists i0, l0.
    assert (i0 <> i) by (by eapply Hne). by rewrite vget_vset_ne by congruence.
  - intros k kl Hk Hkl Hke Hki.
    assert (exists q ql, v_parent kl = Some q /\ q <> k /\ vget v q = Some ql /\ live ql) as (q & ql & H1 & H2 & H3 & H4).
    { vcase Hk G; [|by eapply t_parent0]. destruct Hpar as (q & ql & H1 & H2 & H3); [by destruct Hst as [?|[?|?]]|].
      exists q, ql. split_and!; [done|by eapply Hne|done..]. }
    exists q, ql. assert (q <> i) by (by eapply Hne). by rewrite vget_vset_ne by congruence.
  - intros k kl Hk Hkl. vcase Hk G; [by apply Hun|]. by eapply t_unused0.
  - intros k j kl Hk Hs Hc. vcase Hk G; [destruct Hst as [?|[?|?]]; congruence|]. destruct (t_wait0 k j kl Hk Hs Hc) as [-> H].
    split; [done|]. intros m ml Hm Hpm. vcase Hm G; [destruct Hst as [?|[?|?]]; congruence|]. by eapply H.
Qed.
Lemma table_ok_free v i sl sl' :
  table_ok v -> vget v i = Some sl -> ~ live sl -> v_state sl' = UNUSED -> v_parent sl' = None -> table_ok (vset i sl' v).
Proof. intros T G Hl Hu Hp. eapply table_ok_change; [done|done|done|by left|intros Hu'; by destruct Hu'|done|congruence]. Qed.

(** The next pid is used up. *)
Lemma table_ok_bump v : table_ok v -> v_next v < 2 ^ 31 - 1 -> table_ok (bump v) /\ v_next (bump v) = v_next v + 1.
Proof.
  intros [] Hn.
  assert (v_next (bump v) = v_next v + 1) as Eb by (cbn; apply s32_small; unfold in_s32; lia).
  split; [|done]. split; try done.
  - rewrite Eb. lia.
  - intros k kl Hk Hkl. rewrite Eb. pose proof (t_pid0 k kl Hk Hkl). lia.
Qed.

(** ** Forks under way *)

(** Steps that leave embryos alone and keep the processes that fork alive. *)
Lemma forks_ok_step v v' F :
  forks_ok v F -> length (v_procs v') = length (v_procs v) ->
  (forall i sl sl', vget v i = Some sl -> vget v' i = Some sl' ->
     (v_state sl' = EMBRYO <-> v_state sl = EMBRYO) /\ (v_state sl = EMBRYO -> v_parent sl' = v_parent sl) /\ (is_Some (F !! i) -> live sl -> live sl')) ->
  forks_ok v' F.
Proof.
  intros [] L S. assert (forall i sl, vget v i = Some sl -> exists sl', vget v' i = Some sl') as Ex.
  { intros i sl Hi%zget_Some_range. apply zget_range. unfold zlen in *. by rewrite L. }
  assert (forall i sl', vget v' i = Some sl' -> exists sl, vget v i = Some sl) as Ex'.
  { intros i sl Hi%zget_Some_range. apply zget_range. unfold zlen in *. by rewrite <- L. }
  split.
  - intros i sl' Hi He. destruct (Ex' i sl' Hi) as [sl Hs]. apply (f_embryo0 i sl Hs). by apply (S i sl sl').
  - intros me pc i HF. destruct (f_fork0 me pc i HF) as (sl & Hs & Hu). destruct (Ex i sl Hs) as [sl' Hs']. exists sl'. split; [done|].
    intros U. destruct (Hu U) as [He Hp]. destruct (S i sl sl' Hs Hs') as (S1 & S2 & _). split; [by apply S1|]. by rewrite S2.
  - intros me pc i HF. destruct (f_live0 me pc i HF) as (ml & Hm & Hl). destruct (Ex me ml Hm) as [ml' Hm']. exists ml'. split; [done|].
    apply (S me ml ml'); [done..|by eexists|done].
  - done.
Qed.
(** A live process changes and stays live, or is nobody that forks. *)
Lemma forks_ok_set v F i sl sl' :
  forks_ok v F -> vget v i = Some sl -> v_state sl <> EMBRYO -> v_state sl' <> EMBRYO -> live sl' \/ F !! i = None -> forks_ok (vset i sl' v) F.
Proof.
  intros FO G H1 H2 Hl. eapply forks_ok_step; [exact FO|apply length_vset|]. intros k kl kl' Hk Hk'. vcase Hk' G; [|by rewrite Hk in Hk'; injection Hk' as <-].
  assert (kl = sl) as -> by congruence. split; [done|]. split; [done|]. intros [x Hx] _. destruct Hl; [done|congruence].
Qed.
Lemma forks_ok_wakeup c v F : forks_ok v F -> forks_ok (vwakeup c v) F.
Proof.
  intros FO. eapply forks_ok_step; [exact FO|apply length_fmap|]. intros i sl sl' Hi (l & Hl & ->)%vget_vwakeup_inv.
  assert (l = sl) as -> by congruence. split; [by apply vwake_state|]. split; [by destruct (vwake_fields c sl) as (_ & -> & _)|]. intros _. apply live_wake.
Qed.
Lemma forks_ok_none v : (forall i sl, vget v i = Some sl -> v_state sl <> EMBRYO) -> forks_ok v ∅.
Proof. intros He. split; [intros i sl Hi Hs; by destruct (He i sl Hi)|intros me pc i HF; by rewrite lookup_empty in HF..|intros me me' pc pc' i HF; by rewrite lookup_empty in HF]. Qed.

(** A [fork] under way goes on: the slot it fills changes, and its own place. *)
Lemma forks_ok_fork v F me ml i sl sl' pc :
  forks_ok v F -> vget v me = Some ml -> live ml -> vget v i = Some sl ->
  (forall me' pc', me' <> me -> F !! me' = Some (pc', i) -> unborn pc' = false) ->
  (v_state sl = EMBRYO \/ v_state sl = UNUSED \/ sl' = sl) ->
  (if unborn pc then v_state sl' = EMBRYO /\ v_parent sl' = if adopted pc then Some me else None else v_state sl' <> EMBRYO) ->
  (forall pc' i', F !! me = Some (pc', i') -> unborn pc' = true -> i' = i) ->
  forks_ok (vset i sl' v) (<[me := (pc, i)]> F).
Proof.
  intros FO Hm Hl G Hothers Hst Hpc Hmine. pose proof FO as []. split.
  - intros k kl Hk He. vcase Hk G.
    + exists me, pc. rewrite lookup_insert_eq. split; [done|]. by destruct (unborn pc).
    + destruct (f_embryo0 k kl Hk He) as (m & pc' & HF & Hu). exists m, pc'. rewrite lookup_insert_ne; [done|]. intros <-. by apply n, (Hmine pc').
  - intros m pc' k HF. destruct (decide (m = me)) as [->|Hne].
    + rewrite lookup_insert_eq in HF. injection HF as <- <-. exists sl'. split; [by eapply vget_vset_eq|]. intros Hu. by rewrite Hu in Hpc.
    + rewrite lookup_insert_ne in HF by done. destruct (decide (k = i)) as [->|Hki].
      * exists sl'. split; [by eapply vget_vset_eq|]. intros Hu. by rewrite (Hothers m pc' Hne HF) in Hu.
      * rewrite vget_vset_ne by congruence. by apply (f_fork0 m pc' k).
  - intros m pc' k HF. assert (exists l, vget v m = Some l /\ live l) as (l & Hml & Hll).
    { destruct (decide (m = me)) as [->|Hne]; [by exists ml|]. rewrite lookup_insert_ne in HF by done. by eapply f_live0. }
    exists (if decide (m = i) then sl' else l). rewrite (vget_vset _ _ _ _ _ G). case_decide as Hd; [|done]. subst m. split; [done|].
    assert (l = sl) as -> by congruence. destruct Hll as (L1 & L2 & L3). by destruct Hst as [?|[?| ->]].
  - intros m m' pc1 pc2 k [[? Ek]|[Hn H1]]%lookup_insert_Some [[? Ek']|[Hn' H2]]%lookup_insert_Some U1 U2; simplify_eq.
    + done.
    + by rewrite (Hothers m' pc2) in U2.
    + by rewrite (Hothers m pc1) in U1.
    + by eapply f_inj0.
Qed.
(** And it ends. *)
Lemma forks_ok_done v F me i pc sl sl' :
  forks_ok v F -> F !! me = Some (pc, i) -> vget v i = Some sl -> (if unborn pc then v_state sl' = UNUSED else sl' = sl) ->
  forks_ok (vset i sl' v) (delete me F).
Proof.
  intros FO HF G Hs. pose proof FO as [].
  assert (forall m pc' k, delete me F !! m = Some (pc', k) -> m <> me /\ F !! m = Some (pc', k)) as D.
  { intros m pc' k Hd. by apply lookup_delete_Some in Hd as [? ?]. }
  split.
  - intros k kl Hk He.
    assert (exists m pc', F !! m = Some (pc', k) /\ unborn pc' = true /\ m <> me) as (m & pc' & H1 & H2 & H3).
    { assert (exists l, vget v k = Some l /\ v_state l = EMBRYO /\ (k = i -> unborn pc = false)) as (l & Hl & Hle & Hki).
      { vcase Hk G; [|by exists kl]. destruct (unborn pc); [congruence|]. subst. by exists sl. }
      destruct (f_embryo0 k l Hl Hle) as (m & pc' & H1 & H2). exists m, pc'. split; [done|]. split; [done|]. intros ->.
      assert (pc' = pc /\ k = i) as [-> ->] by (split; congruence). rewrite Hki in H2 by done. done. }
    exists m, pc'. by rewrite lookup_delete_ne.
  - intros m pc' k [Hn Hd]%D. destruct (f_fork0 m pc' k Hd) as (l & Hl & Hu). destruct (decide (k = i)) as [->|Hki].
    + exists sl'. split; [by eapply vget_vset_eq|]. intros U. destruct (unborn pc) eqn:Up; [destruct Hn; by eapply f_inj0|]. subst. assert (l = sl) as -> by congruence. by apply Hu.
    + exists l. by rewrite vget_vset_ne by congruence.
  - intros m pc' k [Hn Hd]%D. destruct (f_live0 m pc' k Hd) as (l & Hl & Hll). destruct (decide (m = i)) as [->|Hmi].
    + exists sl'. split; [by eapply vget_vset_eq|]. assert (l = sl) as -> by congruence. destruct (unborn pc) eqn:Up; [|by subst].
      destruct (f_fork0 me pc i HF) as (l & Hl2 & Hu). assert (l = sl) as -> by congruence. destruct (Hu Up), Hll as (_ & _ & ?). done.
    + exists l. by rewrite vget_vset_ne by congruence.
  - intros m m' pc1 pc2 k [_ H1]%D [_ H2]%D. by eapply f_inj0.
Qed.

(** ** exit *)

(** A slot later on: same process, possibly woken. *)
Definition later (sl sl' : slot) : Prop :=
  v_pid sl' = v_pid sl /\ v_chan sl' = v_chan sl /\ v_point sl' = v_point sl /\
  (v_state sl' = v_state sl \/ v_state sl = SLEEPING /\ v_state sl' = RUNNABLE).

Lemma later_refl sl : later sl sl.
Proof. repeat split; by left. Qed.

Lemma later_trans a b c : later a b -> later b c -> later a c.
Proof.
  intros (H1 & H2 & H3 & H4) (H5 & H6 & H7 & H8). split; [congruence|]. split; [congruence|]. split; [congruence|].
  destruct H4 as [H4|[H4 H4']], H8 as [H8|[H8 H8']].
  - left. congruence.
  - right. split; congruence.
  - right. split; congruence.
  - right. split; congruence.
Qed.

Lemma later_wake c sl : later sl (vwake c sl).
Proof. destruct (vwake_fields c sl) as (H1 & H2 & H3 & H4 & [->|H5]); [apply later_refl|]. repeat split; auto. Qed.

Lemma later_parent q sl : later sl (sl_parent q sl).
Proof. repeat split; by left. Qed.

Lemma later_state sl sl' st : later sl sl' -> st <> RUNNABLE -> v_state sl' = st -> v_state sl = st.
Proof. intros (_ & _ & _ & [H|[_ H]]) Hst E; congruence. Qed.

Lemma later_state_rev sl sl' st : later sl sl' -> st <> SLEEPING -> v_state sl = st -> v_state sl' = st.
Proof. intros (_ & _ & _ & [H|[H _]]) Hst E; congruence. Qed.

(** The tables [v] and [v'] before and after reparenting the children of [me]
    in the slots [i .. i+n) to [q0]. *)
Record reparented (i n me q0 : Z) (v v' : vst) : Prop := {
  r_same : v_init v' = v_init v /\ v_next v' = v_next v /\ v_cur v' = v_cur v /\ v_current v' = v_current v;
  r_len : length (v_procs v') = length (v_procs v);
  r_slot k sl' : vget v' k = Some sl' -> exists sl, vget v k = Some sl /\ later sl sl' /\
    v_parent sl' = if decide (i <= k < i + n /\ v_parent sl = Some me) then Some q0 else v_parent sl;
  r_wake k sl ql : i <= k < i + n -> vget v k = Some sl -> v_parent sl = Some me -> v_state sl = ZOMBIE ->
    vget v' q0 = Some ql -> ~ (v_state ql = SLEEPING /\ v_chan ql = CProc q0)
}.

Lemma reparented_step i n me q0 v :
  0 <= n -> v_init v = Some q0 -> q0 <> me ->
  reparented i 1 me q0 v
    match vget v i with
    | Some sl =>
        if bool_decide (v_parent sl = Some me) then
          let v1 := vset i (sl_parent (v_init v) sl) v in
          match v_init v with
          | Some q => if bool_decide (v_state sl = ZOMBIE) then vwakeup (CProc q) v1 else v1
          | None => v1
          end
        else v
    | None => v
    end.
Proof.
  intros Hn Hi Hq. rewrite Hi.
  assert ((forall k sl, i <= k < i + 1 -> vget v k = Some sl -> v_parent sl <> Some me) ->
    reparented i 1 me q0 v v) as Hno.
  { intros Hno. split; try done.
    - intros k sl' Hk. exists sl'. split; [done|]. split; [apply later_refl|].
      destruct (decide _) as [[H1 H2]|]; [by destruct (Hno k sl' H1 Hk)|done].
    - intros k sl ql Hk Hs Hp. by destruct (Hno k sl Hk Hs). }
  destruct (vget v i) as [sl|] eqn:G.
  2:{ apply Hno. intros k sl Hk. replace k with i by lia. congruence. }
  case_bool_decide as Hp.
  2:{ apply Hno. intros k l Hk. replace k with i by lia. rewrite G. by intros [= <-]. }
  cbv zeta.
  assert (forall k l, vget (vset i (sl_parent (Some q0) sl) v) k = Some l -> exists l0, vget v k = Some l0 /\ later l0 l /\
    v_parent l = if decide (i <= k < i + 1 /\ v_parent l0 = Some me) then Some q0 else v_parent l0) as Hs.
  { intros k l Hk. vcase Hk G.
    - exists sl. split; [done|]. split; [apply later_parent|]. by rewrite decide_True by (split; [lia|done]).
    - exists l. split; [done|]. split; [apply later_refl|]. by rewrite decide_False by lia. }
  case_bool_decide as Hz.
  - split; try done.
    + cbn. by rewrite length_fmap, length_zset.
    + intros k l' (l & Hl & ->)%vget_vwakeup_inv. destruct (Hs k l Hl) as (l0 & H1 & H2 & H3).
      exists l0. split; [done|]. split; [eapply later_trans; [exact H2|apply later_wake]|].
      by destruct (vwake_fields (CProc q0) l) as (_ & -> & _).
    + intros k l ql _ _ _ _ (l1 & _ & ->)%vget_vwakeup_inv [H1 H2].
      apply vwake_sleeping in H1 as (H1 & E & H3). rewrite E in H2. done.
  - split; try done.
    + apply length_vset.
    + intros k l ql Hk Hl Hpl Hzl. replace k with i in Hl by lia. congruence.
Qed.

Lemma rp_reparented n i me q0 v :
  v_init v = Some q0 -> q0 <> me -> reparented i (Z.of_nat n) me q0 v (rp n i me v).
Proof.
  revert i v. induction n as [|n IH]; intros i v Hi Hq.
  - cbn [rp]. split; try done.
    + intros k sl' Hk. exists sl'. split; [done|]. split; [apply later_refl|]. by rewrite decide_False by lia.
    + intros; lia.
  - cbn [rp]. pose proof (reparented_step i 0 me q0 v ltac:(lia) Hi Hq) as R1.
    set (v1 := match vget v i with Some _ => _ | None => _ end) in *.
    destruct R1 as [(A1 & A2 & A3 & A4) L1 S1 W1].
    destruct (IH (i + 1) v1 ltac:(congruence) Hq) as [(B1 & B2 & B3 & B4) L2 S2 W2]. split.
    + repeat split; congruence.
    + congruence.
    + intros k sl' Hk. destruct (S2 k sl' Hk) as (l1 & H1 & H2 & H3).
      destruct (S1 k l1 H1) as (l & H4 & H5 & H6). exists l. split; [done|].
      split; [by eapply later_trans|]. rewrite H3, H6.
      destruct (decide (v_parent l = Some me)) as [Hp|Hp].
      * destruct (decide (k = i)) as [->|Hki].
        -- rewrite (decide_True (P := i <= i < i + 1 /\ _)) by (split; [lia|done]).
           rewrite decide_False by (intros [? ?]; congruence).
           by rewrite decide_True by (split; [lia|done]).
        -- rewrite (decide_False (P := i <= k < i + 1 /\ _)) by lia. rewrite Hp.
           destruct (decide (i + 1 <= k < i + 1 + Z.of_nat n)).
           ++ by rewrite !decide_True by (split; [lia|done]).
           ++ by rewrite !decide_False by lia.
      * rewrite (decide_False (P := i <= k < i + 1 /\ _)) by tauto.
        by rewrite !decide_False by tauto.
    + intros k sl ql Hk Hsl Hp Hz Hql. destruct (decide (k = i)) as [->|Hne].
      * destruct (S2 q0 ql Hql) as (l1 & H1 & H2 & _). intros [H3 H4].
        apply (W1 i sl l1); try done; [lia|]. split; [by eapply later_state|].
        destruct H2 as (_ & <- & _). done.
      * destruct (vget v1 k) as [l1|] eqn:Hl1.
        2:{ exfalso. apply zget_Some_range in Hsl. destruct (zget_range (v_procs v1) k) as [x Hx].
            - unfold zlen in *. by rewrite L1.
            - unfold vget in Hl1. congruence. }
        destruct (S1 k l1 Hl1) as (l & H4 & H5 & H6). assert (l = sl) as -> by congruence.
        rewrite decide_False in H6 by lia.
        apply (W2 k l1 ql); try done; [lia|congruence|]. by eapply later_state_rev.
Qed.

(** The channel [exit] wakes first. *)
Definition parent_chan (sl : slot) : channel :=
  match v_parent sl with Some q => CProc q | None => CNull end.

(** The whole effect of [exit] on a slot. *)
Lemma exit_slots v v1 me c q0 sl1 k sl2 :
  reparented 0 64 me q0 (vwakeup c v) v1 -> length (v_procs v) = 64%nat -> vget v1 me = Some sl1 ->
  vget (vset me (mkSlot ZOMBIE (v_pid sl1) (v_parent sl1) (v_chan sl1) InExit) v1) k = Some sl2 ->
  exists sl, vget v k = Some sl /\ v_pid sl2 = v_pid sl /\ v_chan sl2 = v_chan sl /\
    v_parent sl2 = (if decide (v_parent sl = Some me) then Some q0 else v_parent sl) /\
    (k = me /\ v_state sl2 = ZOMBIE \/ k <> me /\ later (vwake c sl) sl2).
Proof.
  intros [_ _ S _] L G Hk.
  assert (forall k l1, vget v1 k = Some l1 -> exists sl, vget v k = Some sl /\ later (vwake c sl) l1 /\
    v_parent l1 = (if decide (v_parent sl = Some me) then Some q0 else v_parent sl)) as S'.
  { intros j l1 Hj. destruct (S j l1 Hj) as (l0 & Hl0 & H1 & H2).
    apply vget_vwakeup_inv in Hl0 as (l & Hl & ->). exists l. split; [done|].
    split; [exact H1|]. rewrite H2. destruct (vwake_fields c l) as (_ & -> & _).
    pose proof (zget_Some_range _ _ _ Hl) as Hr. unfold zlen in Hr. rewrite L in Hr.
    destruct (decide (v_parent l = Some me)); [by rewrite decide_True by (split; [lia|done])|].
    by rewrite decide_False by tauto. }
  vcase Hk G.
  - destruct (S' me sl1 G) as (sl & H1 & H2 & H4).
    destruct (later_trans _ _ _ (later_wake c sl) H2) as (H5 & H6 & _). exists sl. cbn. split; [done|].
    split; [done|]. split; [done|]. split; [done|]. by left.
  - destruct (S' k sl2 Hk) as (sl & H1 & H2 & H3). exists sl. split; [done|].
    destruct (later_trans _ _ _ (later_wake c sl) H2) as (H4 & H5 & _).
    split; [done|]. split; [done|]. split; [done|]. by right.
Qed.

Lemma rp_table me q0 v :
  v_init v = Some q0 -> q0 <> me -> reparented 0 64 me q0 v (rp (Z.to_nat NPROC) 0 me v).
Proof. exact (rp_reparented (Z.to_nat NPROC) 0 me q0 v). Qed.

Lemma table_ok_exit v v1 me sl sl1 q0 :
  let c := parent_chan sl in
  table_ok v -> vget v me = Some sl -> v_state sl = RUNNING -> v_init v = Some q0 -> q0 <> me ->
  reparented 0 64 me q0 (vwakeup c v) v1 -> vget v1 me = Some sl1 ->
  let v2 := vset me (mkSlot ZOMBIE (v_pid sl1) (v_parent sl1) (v_chan sl1) InExit) v1 in
  table_ok v2 /\ v_cur v2 = v_cur v /\ v_current v2 = v_current v /\
  (forall k l2, vget v2 k = Some l2 -> k <> me -> exists l, vget v k = Some l /\ later l l2).
Proof.
  intros c T G Hrun Hi Hq R G1 v2. pose proof T as [].
  assert (forall k l2, vget v2 k = Some l2 -> exists l, vget v k = Some l /\ v_pid l2 = v_pid l /\ v_chan l2 = v_chan l /\
    v_parent l2 = (if decide (v_parent l = Some me) then Some q0 else v_parent l) /\
    (k = me /\ v_state l2 = ZOMBIE \/ k <> me /\ later (vwake c l) l2)) as S.
  { intros k l2. by apply (exit_slots v v1 me c q0 sl1 k l2). }
  assert (forall l l2, later (vwake c l) l2 -> later l l2) as Lt.
  { intros l l2 Hl. eapply later_trans; [apply later_wake|exact Hl]. }
  destruct R as [(A1 & A2 & A3 & A4) LR _ WR].
  cbn [vwakeup v_init v_next v_cur v_current] in A1, A2, A3, A4.
  assert (length (v_procs v2) = 64%nat) as L2.
  { unfold v2. rewrite length_vset, LR. cbn. by rewrite length_fmap. }
  assert (forall k l, vget v k = Some l -> exists l2, vget v2 k = Some l2) as Ex.
  { intros k l Hk%zget_Some_range. apply zget_range. unfold zlen in *. by rewrite L2, <- t_len0. }
  assert (live sl) as Hlive by (split_and!; congruence).
  assert (forall k l l2, vget v k = Some l -> vget v2 k = Some l2 -> used l2 <-> used l) as U.
  { intros k l l2 Hk Hk2. destruct (S k l2 Hk2) as (l' & Hl' & _ & _ & _ & H).
    assert (l' = l) as -> by congruence. unfold used.
    destruct H as [[-> Hz]|[_ (_ & _ & _ & [->|[H1 H2]])%Lt]]; [| done|].
    - assert (l = sl) as -> by congruence. by rewrite Hz, Hrun.
    - by rewrite H1, H2. }
  assert (forall k l l2, vget v k = Some l -> vget v2 k = Some l2 -> k <> me -> live l -> live l2) as Lv.
  { intros k l l2 Hk Hk2 Hkm (H1 & H2 & H2'). destruct (S k l2 Hk2) as (l' & Hl' & _ & _ & _ & H).
    assert (l' = l) as -> by congruence. unfold live.
    destruct H as [[-> _]|[_ (_ & _ & _ & [->|[_ H3]])%Lt]]; [done| done|]. split_and!; congruence. }
  assert (v_parent sl <> Some me) as Hpm.
  { intros Hp. assert (used sl) as Hu by (unfold used; congruence).
    assert (v_init v <> Some me) as Hn by congruence.
    destruct (t_parent0 me sl G Hu) as (q & ql & H1 & H2 & _); congruence. }
  split; [|split; [exact A3|split; [exact A4|]]].
  2:{ intros k l2 Hk Hkm. destruct (S k l2 Hk) as (l & Hl & _ & _ & _ & [[? _]|[_ H]]); [done|]. exists l. auto. }
  split.
  - done.
  - change (1 <= v_next v1 < 2 ^ 31). rewrite A2. done.
  - intros k l2 Hk Hu. change (v_next v2) with (v_next v1). rewrite A2.
    destruct (S k l2 Hk) as (l & Hl & -> & _). apply (t_pid0 k l Hl). by apply (U k l l2).
  - intros a b al bl Ha Hb Hal Hbl Hpid. destruct (S a al Ha) as (la & Hla & Hpa & _).
    destruct (S b bl Hb) as (lb & Hlb & Hpb & _).
    eapply (t_inj0 a b la lb); try done; [by apply (U a la al)|by apply (U b lb bl)|congruence].
  - destruct t_init0 as (i & l & H1 & H2 & H3 & H4). assert (i = q0) as -> by congruence.
    destruct (Ex q0 l H2) as [l2 H5]. exists q0, l2. split; [change (v_init v1 = Some q0); congruence|].
    split; [done|]. split; [by eapply Lv|]. destruct (S q0 l2 H5) as (l' & H6 & _ & _ & H7 & _).
    assert (l' = l) as -> by congruence. rewrite H7, H4. done.
  - intros k l2 Hk Hu Hke Hki. destruct (S k l2 Hk) as (l & Hl & _ & _ & Hp & Hst).
    assert (v_state l <> EMBRYO) as Hle.
    { intros E. destruct Hst as [[-> _]|[_ H%Lt]]; [congruence|]. apply Hke. by eapply later_state_rev. }
    assert (used l) as Hul by (by apply (U k l l2)).
    assert (v_init v <> Some k) as Hki' by (change (v_init v1 <> Some k) in Hki; rewrite A1 in Hki; exact Hki).
    destruct (t_parent0 k l Hl Hul Hle Hki') as (q & ql & H1 & H2 & H3 & H4).
    destruct (decide (v_parent l = Some me)) as [Hm|Hm]; rewrite ?Hm in Hp.
    + destruct t_init0 as (i & il & H5 & H6 & H7 & H8). assert (i = q0) as -> by congruence.
      destruct (Ex q0 il H6) as [l3 H9]. exists q0, l3.
      split; [done|]. split; [congruence|]. split; [done|].
      eapply Lv; [exact H6|exact H9|done|done].
    + destruct (Ex q ql H3) as [l3 H9]. exists q, l3. split; [congruence|]. split; [done|]. split; [done|].
      eapply Lv; [exact H3|exact H9|congruence|done].
  - intros k l2 Hk Hun. destruct (S k l2 Hk) as (l & Hl & _ & _ & Hp & [[_ H]|[_ H%Lt]]); [congruence|].
    assert (v_parent l = None) as Hpn by (eapply t_unused0; [exact Hl|by eapply later_state]).
    rewrite Hp, Hpn. done.
  - intros i j l2 Hi2 Hs Hc. destruct (S i l2 Hi2) as (l & Hl & _ & Hch & _ & [[_ H]|[Him H]]); [congruence|].
    assert (v_state l = SLEEPING) as Hsl by exact (later_state _ _ SLEEPING (Lt _ _ H) ltac:(done) Hs).
    assert (v_state (vwake c l) = SLEEPING) as Hwl by (by eapply later_state).
    apply vwake_sleeping in Hwl as (_ & _ & Hnc).
    rewrite Hch in Hc. destruct (t_wait0 i j l Hl Hsl Hc) as [-> Hw]. split; [done|].
    intros k kl Hk Hp Hz. destruct (S k kl Hk) as (lk & Hlk & _ & _ & Hpk & [[-> _]|[Hkm Hlater]]).
    + (* the exiting process itself: its parent was woken *)
      assert (lk = sl) as -> by congruence. rewrite decide_False in Hpk by done.
      apply Hnc. unfold c, parent_chan. by rewrite <- Hpk, Hp.
    + assert (v_state (vwake c lk) = ZOMBIE) as Hzw by (by eapply later_state).
      assert (v_state lk = ZOMBIE) as Hzk by (by eapply vwake_state).
      destruct (decide (v_parent lk = Some me)) as [Hpm'|Hpm'].
      * assert (i = q0) as -> by congruence. pose proof (zget_Some_range _ _ _ Hlk) as Hr. unfold zlen in Hr. rewrite t_len0 in Hr.
        apply (WR k (vwake c lk) l2); [lia|by rewrite vget_vwakeup, Hlk|by destruct (vwake_fields c lk) as (_ & -> & _)|done| |].
        -- unfold v2 in Hi2. by rewrite vget_vset_ne in Hi2 by congruence.
        -- split; [done|congruence].
      * apply (Hw k lk Hlk); [congruence|done].
Qed.

(** [exit] leaves the embryos to those that fork. *)
Lemma later_live sl sl' : later sl sl' -> live sl -> live sl'.
Proof. intros (_ & _ & _ & [E|[E E']]) (H1 & H2 & H3); split_and!; congruence. Qed.
Lemma forks_ok_exit v v1 me sl sl1 q0 F :
  let c := parent_chan sl in
  forks_ok v F -> F !! me = None -> length (v_procs v) = 64%nat -> vget v me = Some sl -> v_state sl = RUNNING ->
  reparented 0 64 me q0 (vwakeup c v) v1 -> vget v1 me = Some sl1 ->
  forks_ok (vset me (mkSlot ZOMBIE (v_pid sl1) (v_parent sl1) (v_chan sl1) InExit) v1) F.
Proof.
  intros c FO HF L G Hrun R G1. eapply forks_ok_step; [exact FO|rewrite length_vset, (r_len _ _ _ _ _ _ R); apply length_fmap|].
  intros i l l2 Hi Hi2. destruct (exit_slots v v1 me c q0 sl1 i l2 R L G1 Hi2) as (l' & Hl' & _ & _ & Hp & Hst). assert (l' = l) as -> by congruence.
  assert (v_state l = EMBRYO -> v_parent l <> Some me) as Hpm.
  { intros He Hpl. destruct (f_embryo _ _ FO i l Hi He) as (m & pc & Hm & U). destruct (f_fork _ _ FO m pc i Hm) as (l0 & Hl0 & Hu).
    assert (l0 = l) as -> by congruence. destruct (Hu U) as [_ E]. destruct (adopted pc); congruence. }
  destruct Hst as [[-> Hz]|[Hne Hlt]].
  - assert (l = sl) as -> by congruence. split; [split; congruence|]. split; [congruence|]. intros [x Hx]. congruence.
  - assert (later l l2) as Hll by (eapply later_trans; [apply later_wake|exact Hlt]). split; [split; [by eapply later_state|by eapply later_state_rev]|].
    split; [|intros _; by apply later_live]. intros He. rewrite Hp. by rewrite decide_False by auto.
Qed.

(** ** Reachable states *)

Section Reach.
Context {K : Type} `{KernelOps K}.
Implicit Types s : kernel K.

(** What the interrupted kernel code does after [resume] hands control back:
    a sleeper's caller releases its own lock. *)
Definition finish (r : resumed) : M (kernel K) unit :=
  match r with FromSleep => popcli | _ => mret tt end.

Definition mode_after (r : resumed) : mode :=
  match r with FromWait None => Scheduler | _ => User end.

(** A step of the system.  [fork] and [exit] go in the pieces between which
    the processor can be taken away; [F] says where each [fork] is.  Code of
    other files may do anything to its own state ([k_other]) and to what else a
    process has in its slot ([k_own]: registers, memory, files), in a system
    call or an interrupt; so a process may also make a call where the real one
    would be busy with another.  [fork] needs a pid left. *)
Inductive kstep : mode -> kernel K -> forks -> mode -> kernel K -> forks -> Prop :=
  | k_fork s F me np s' : cur s = Some me -> F !! me = None -> nextpid s < 2 ^ 31 - 1 -> alloc_slot s = Ret (Some np, s') ->
      kstep User s F User s' (<[me := (AtStack, np)]> F)
  | k_fork_fails s F s' : alloc_slot s = Ret (None, s') -> kstep User s F User s' F
  | k_fork_goes s F me np pc r s' : cur s = Some me -> F !! me = Some (pc, np) -> fork_step me np pc s = Ret (r, s') ->
      kstep User s F User s' (match r with Goes pc => <[me := (pc, np)]> F | Returns _ => delete me F end)
  | k_exit_files s F me u s' : cur s = Some me -> exit_files me s = Ret (u, s') -> kstep User s F User s' F
  | k_exit s F me u s' : cur s = Some me -> initproc s <> Some me -> F !! me = None -> exit_leave me s = Ret (u, s') ->
      kstep User s F Scheduler s' F
  | k_wait s F r s' : wait s = Ret (r, s') -> kstep User s F (mode_after (FromWait r)) s' F
  | k_kill s F pid0 r s' : kill pid0 s = Ret (r, s') -> kstep User s F User s' F
  | k_sbrk s F n r s' : growproc n s = Ret (r, s') -> kstep User s F User s' F
  | k_tickets s F n r s' : sys_settickets n s = Ret (r, s') -> kstep User s F User s' F
  | k_own s F me f u s' : cur s = Some me -> (forall p, vproc (f p) = vproc p) -> pmod me f s = Ret (u, s') -> kstep User s F User s' F
  | k_other m s F {A} (c : M K A) a s' : m <> Scheduler -> lower c s = Ret (a, s') -> kstep m s F m s' F
  | k_wakeup m s F a u s' : m <> Scheduler -> wakeup (CAddr a) s = Ret (u, s') -> kstep m s F m s' F
  | k_yield s F u s' : yield s = Ret (u, s') -> kstep User s F Scheduler s' F
  | k_sleep s F a u s' : (pushcli;; sleep (CAddr a)) s = Ret (u, s') -> kstep User s F Scheduler s' F
  | k_idle s F u s' : (modify (set_cur None);; release_pt) s = Ret (u, s') -> kstep Scheduler s F Idle s' F
  | k_schedule s F r s1 u s' :
      scheduler_round s = Ret (r, s1) -> finish r s1 = Ret (u, s') -> kstep Idle s F (mode_after r) s' F.

(** The zeroed table before boot. *)
Definition zero_tf : trapframe := mkTf 0 0 0 0 0 0 0 0 0 [].
Definition zero_proc : proc :=
  mkProc 0 0 0 UNUSED 0 None zero_tf (mkCtx NoContext false) CNull 0 (replicate 16 0) 0 (replicate 16 0) 0 0 0 0.
Definition boot_kernel (k : K) : kernel K :=
  mkK (replicate 64 zero_proc) None 1 (mkCpu false 0 false false) None None k.

Inductive reach : mode -> kernel K -> forks -> Prop :=
  | reach_boot k u s : userinit (boot_kernel k) = Ret (u, s) -> reach Idle s ∅
  | reach_step m s F m' s' F' : reach m s F -> kstep m s F m' s' F' -> reach m' s' F'.

Record inv (m : mode) s (F : forks) : Prop := {
  i_table : table_ok (view s);
  i_forks : forks_ok (view s) F;
  i_mode : mode_ok m (view s)
}.

Lemma inv_view m s s' F : inv m s F -> view s' = view s -> inv m s' F.
Proof. intros [] E. split; by rewrite E. Qed.

Lemma live_of sl : v_state sl = RUNNABLE \/ v_state sl = RUNNING \/ v_state sl = SLEEPING -> live sl.
Proof. intros [H1|[H1|H1]]; split_and!; congruence. Qed.

(** Leaving user mode in state [st], not as a sleeper on a process. *)
Lemma inv_leave s s' F me sl st c k0 :
  inv User s F -> v_cur (view s) = Some me -> vget (view s) me = Some sl ->
  st = RUNNABLE \/ st = SLEEPING /\ (forall j, c <> CProc j) ->
  view s' = vset me (mkSlot st (v_pid sl) (v_parent sl) c k0) (view s) -> inv Scheduler s' F.
Proof.
  intros [T FO (me' & sl' & H1 & H2 & H3 & H4 & H5)] Hc G Hst V.
  assert (me' = me) as -> by congruence. assert (sl' = sl) as -> by congruence.
  assert (live (mkSlot st (v_pid sl) (v_parent sl) c k0)) as Hl by (apply live_of; destruct Hst as [->|[-> _]]; auto).
  split; rewrite V.
  - eapply table_ok_live; try done.
    + apply live_of. auto.
    + intros Hs j Hj. destruct Hst as [Hst|[_ Hst]]; [cbn in Hs; congruence|]. by destruct (Hst j).
  - eapply forks_ok_set; [done|done|congruence|apply Hl|by left].
  - exists me. eexists. split; [done|]. split; [done|]. split; [by eapply vget_vset_eq|].
    split; [destruct Hst as [->|[-> _]]; auto|].
    intros j jl Hj Hr. vcase Hj G; [destruct Hst as [->|[-> _]]; done|]. by apply n, H5 with jl.
Qed.

(** The running process stays so when another slot changes, unless to running. *)
Lemma mode_ok_other v i sl sl' : mode_ok User v -> vget v i = Some sl -> v_cur v <> Some i -> v_state sl' <> RUNNING -> mode_ok User (vset i sl' v).
Proof.
  intros (me & ml & H1 & H2 & H3 & H4 & H5) G Hi Hr. exists me, ml. split; [done|]. split; [done|]. split; [by rewrite vget_vset_ne by congruence|].
  split; [done|]. intros j jl Hj Hrj. vcase Hj G; [done|]. by eapply H5.
Qed.

Lemma wait_inv s F r s' :
  inv User s F -> wait_loop s = Ret (r, s') -> inv (mode_after (FromWait r)) s' F.
Proof.
  intros [T FO (me & sl & H1 & H2 & H3 & H4 & H5)] E.
  destruct (wait_loop_view _ _ _ me E H1) as [(i & zl & G & Hp & Hz & -> & V)|[[-> V]|(-> & Hn & sl' & G & V)]].
  - split; rewrite V.
    + eapply table_ok_free; try done. by intros (_ & ? & _).
    + eapply forks_ok_set; [done|done|congruence|done|]. right. destruct (F !! i) as [[pc np]|] eqn:HF; [|done].
      destruct (f_live _ _ FO _ _ _ HF) as (l & Hl & _ & Hlz & _). congruence.
    + eapply mode_ok_other; [by exists me, sl|exact G| |done]. intros E'. congruence.
  - split; rewrite V; [done|done|]. by exists me, sl.
  - assert (sl' = sl) as -> by congruence. assert (live sl) as Hl by (apply live_of; auto). split; rewrite V.
    + eapply table_ok_live; try done. cbn. intros _ j [= <-]. done.
    + eapply forks_ok_set; [done|done|congruence|done|by left].
    + exists me. eexists. split; [done|]. split; [done|]. split; [by eapply vget_vset_eq|].
      split; [auto|]. intros j jl Hj Hr. vcase Hj G; [done|]. by apply n, H5 with jl.
Qed.

(** One scheduler round. *)
Lemma round_inv s F r s1 u s' :
  inv Idle s F -> scheduler_round s = Ret (r, s1) -> finish r s1 = Ret (u, s') -> inv (mode_after r) s' F.
Proof.
  intros [T FO [Hnr Hcur]] E Fi.
  destruct (scheduler_round_view _ _ _ E) as (c & sl & G & Hst & R). cbv zeta in R.
  set (v1 := vset c (sl_state RUNNING sl) (vcur (Some c) (Some c) (view s))) in R.
  unfold resumed_view in R. cbn [v_point sl_state] in R.
  assert (v_state sl = RUNNABLE \/ v_state sl = SLEEPING \/ v_state sl = ZOMBIE /\ v_point sl = InExit) as Hs.
  { destruct Hst as [Hst|[Hst _]]; [by left|]. by apply (Hcur c). }
  assert (live sl) as Hl.
  { destruct Hs as [Hs|[Hs|[Hs Hp]]]; [apply live_of; auto..|by rewrite Hp in R]. }
  assert (forall s2 sl', view s2 = vset c sl' (vcur (Some c) (Some c) (view s)) ->
    v_state sl' = RUNNING -> v_pid sl' = v_pid sl -> v_parent sl' = v_parent sl -> inv User s2 F) as I.
  { intros s2 sl' V Hr Hpid Hpar. assert (live sl') as Hl' by (apply live_of; auto). split; rewrite V.
    - apply (table_ok_live (vcur (Some c) (Some c) (view s)) c sl); [by destruct T|done..|]. rewrite Hr. by intros [=].
    - apply (forks_ok_set (vcur (Some c) (Some c) (view s)) F c sl); [by destruct FO|done|apply Hl|apply Hl'|by left].
    - exists c, sl'. split; [done|]. split; [done|]. split; [by eapply (vget_vset_eq c _ _ _ G)|].
      split; [done|]. intros j jl Hj Hrj. rewrite (vget_vset (vcur (Some c) (Some c) (view s)) c _ _ j G) in Hj.
      destruct (decide (j = c)); [done|]. by destruct (Hnr j jl). }
  assert (forall s2, view s2 = v1 -> inv User s2 F) as I1 by (intros s2 V; by apply (I s2 (sl_state RUNNING sl))).
  assert (forall s2, view s2 = vset c (sl_chan CNull (sl_state RUNNING sl)) v1 -> inv User s2 F) as I2.
  { intros s2 V. apply (I s2 (sl_chan CNull (sl_state RUNNING sl))); [|done..]. rewrite V. unfold v1. by rewrite vset_vset. }
  destruct (v_point sl); try done.
  - destruct R as [-> R]. injection Fi as _ <-. by apply I1.
  - destruct R as [-> R]. injection Fi as _ <-. by apply I1.
  - destruct R as [-> R]. apply quiet_popcli in Fi. apply I2. by rewrite Fi.
  - destruct R as (w & s2 & s3 & -> & V2 & V3 & E3). injection Fi as _ <-.
    apply inv_view with s3; [|done]. eapply wait_inv; [by apply I2|exact E3].
Qed.

(** *** fork *)

Lemma fork_inv s F me np s' :
  inv User s F -> cur s = Some me -> F !! me = None -> nextpid s < 2 ^ 31 - 1 -> alloc_slot s = Ret (Some np, s') ->
  inv User s' (<[me := (AtStack, np)]> F).
Proof.
  intros [T FO Mo] Hc HF Hn E. pose proof Mo as (me' & sl & H1 & H2 & H3 & H4 & H5). assert (me' = me) as -> by (cbn in H1; congruence).
  destruct (alloc_slot_view _ _ _ E) as (ul & G & Hu & V). pose proof (t_unused _ T np ul G Hu) as Hpu.
  set (nl := mkSlot EMBRYO (v_next (view s)) (v_parent ul) (v_chan ul) (v_point ul)) in *.
  destruct (table_ok_bump _ T Hn) as [Tb Eb]. assert (np <> me) as Hne by (intros ->; congruence).
  split; rewrite V.
  - change (table_ok (vset np nl (bump (view s)))). eapply table_ok_change; [done|exact G|by intros [? _]|by right; left| |done|done].
    intros _. rewrite Eb. change (v_pid nl) with (v_next (view s)). split; [pose proof (t_next _ T); lia|]. intros k kl _ Hk Hkl. pose proof (t_pid _ T k kl Hk Hkl). lia.
  - assert (forks_ok (vset np nl (view s)) (<[me := (AtStack, np)]> F)) as FO'; [|by destruct FO'].
    eapply forks_ok_fork; [done|exact H3|apply live_of; auto|exact G| |auto|done|congruence].
    intros m pc _ Hm. destruct (unborn pc) eqn:U; [|done]. destruct (f_fork _ _ FO m pc np Hm) as (l & Hl & Hlu). destruct (Hlu U). congruence.
  - assert (mode_ok User (vset np nl (view s))) as Mo'; [|exact Mo']. eapply mode_ok_other; [done|exact G|congruence|done].
Qed.

Lemma fork_goes_inv s F me np pc r s' :
  inv User s F -> cur s = Some me -> F !! me = Some (pc, np) -> fork_step me np pc s = Ret (r, s') ->
  inv User s' (match r with Goes pc => <[me := (pc, np)]> F | Returns _ => delete me F end).
Proof.
  intros [T FO Mo] Hc HF E. pose proof Mo as (me' & sl & H1 & H2 & H3 & H4 & H5). assert (me' = me) as -> by (cbn in H1; congruence).
  destruct (f_fork _ _ FO _ _ _ HF) as (nl & G & Hu). pose proof (fork_step_view _ _ _ _ _ _ _ E G) as W.
  assert (live sl) as Hl by (apply live_of; auto).
  assert (forall m pc', m <> me -> F !! m = Some (pc', np) -> unborn pc = true -> unborn pc' = false) as Hoth.
  { intros m pc' Hm Hf U. destruct (unborn pc') eqn:U'; [|done]. destruct Hm. by eapply (f_inj _ _ FO). }
  (* the slot keeps its pid; what else it may become *)
  assert (forall nl' pc', unborn pc = true -> view s' = vset np nl' (view s) -> v_pid nl' = v_pid nl ->
    v_state nl' = EMBRYO /\ v_parent nl' = (if adopted pc' then Some me else None) /\ unborn pc' = true \/
    v_state nl' = RUNNABLE /\ v_parent nl' = Some me /\ unborn pc' = false -> inv User s' (<[me := (pc', np)]> F)) as Step.
  { intros nl' pc' U V Hpid Hnew. destruct (Hu U) as [He Hp]. assert (np <> me) as Hne by (intros ->; congruence). split; rewrite V.
    - eapply table_ok_change; [done|exact G|by intros (_ & _ & ?)|destruct Hnew as [(? & _)|(? & _)]; auto| | |].
      + intros _. rewrite Hpid. split; [by eapply (t_pid _ T); [|congruence]|]. intros k kl Hk Hkl Hku Hpe. apply Hk.
        eapply (t_inj _ T); [done|done|done| |congruence]. unfold used. congruence.
      + intros Hun. destruct Hnew as [(? & _)|(? & _)]; congruence.
      + intros Hru. destruct Hnew as [(? & _)|(_ & Hpar & _)]; [congruence|]. by exists me, sl.
    - eapply forks_ok_fork; [done|exact H3|done|exact G|intros m pc'' Hm Hf; by eapply Hoth|auto| |intros pc'' i' Hf _; congruence].
      destruct Hnew as [(A1 & A2 & ->)|(A1 & A2 & ->)]; [done|congruence].
    - eapply mode_ok_other; [done|exact G|congruence|]. destruct Hnew as [(A1 & _)|(A1 & _)]; congruence. }
  assert (forall pc', unborn pc = true -> unborn pc' = true -> adopted pc' = adopted pc -> view s' = view s -> inv User s' (<[me := (pc', np)]> F)) as Quiet.
  { intros pc' U U' A V. destruct (Hu U) as [He Hp]. eapply (Step nl); [done|rewrite V; symmetry; by apply vset_id|done|]. left. by rewrite A. }
  assert (forall nl', unborn pc = true -> view s' = vset np nl' (view s) -> nl' = sl_state UNUSED nl -> v_parent nl = None -> inv User s' (delete me F)) as Gone.
  { intros nl' U V -> Hpn. destruct (Hu U) as [He Hp]. assert (np <> me) as Hne by (intros ->; congruence). split; rewrite V.
    - eapply table_ok_free; [done|exact G|by intros (_ & _ & ?)|done|done].
    - eapply forks_ok_done; [done|exact HF|exact G|by rewrite U].
    - eapply mode_ok_other; [done|exact G|congruence|done]. }
  destruct pc; cbn [unborn adopted] in *.
  - destruct (Hu eq_refl) as [He Hp]. destruct W as [[-> V]|[-> V]]; [eapply Step; [done|exact V|done|by left]|by eapply Gone].
  - destruct W as [[-> | ->] V]; by apply Quiet.
  - destruct W as [-> V]. by apply Quiet.
  - destruct (Hu eq_refl) as [He Hp]. destruct W as [-> V]. by eapply Gone.
  - destruct W as [-> V]. by apply Quiet.
  - destruct (Hu eq_refl) as [He Hp]. destruct W as [-> V]. eapply Step; [done|exact V|done|by left].
  - destruct W as [-> V]. by apply Quiet.
  - destruct W as [-> V]. by apply Quiet.
  - destruct W as [-> V]. by apply Quiet.
  - destruct W as [-> V]. by apply Quiet.
  - destruct (Hu eq_refl) as [He Hp]. destruct W as [-> V]. eapply Step; [done|exact V|done|]. by right.
  - destruct W as [-> V]. split; rewrite V; [done| |done]. rewrite <- (vset_id np nl (view s) G). by eapply forks_ok_done.
Qed.

Lemma exit_inv s F me u s' :
  inv User s F -> cur s = Some me -> initproc s <> Some me -> F !! me = None -> exit_leave me s = Ret (u, s') -> inv Scheduler s' F.
Proof.
  intros [T FO (me' & sl & H1 & H2 & H3 & H4 & H5)] Hc Hi HF E. assert (me' = me) as -> by (cbn in H1; congruence).
  destruct (exit_leave_view _ _ _ _ E H1) as (sl0 & sl1 & G & G1 & V). cbv zeta in G1, V.
  assert (sl0 = sl) as -> by congruence.
  destruct (t_init _ T) as (q0 & ql & Hq0 & _). assert (q0 <> me) as Hq by (cbn in Hq0; congruence).
  pose proof (rp_table me q0 (vwakeup (parent_chan sl) (view s)) Hq0 Hq) as R.
  change (match v_parent sl with Some q => CProc q | None => CNull end) with (parent_chan sl) in *.
  revert R G1 V. generalize (rp (Z.to_nat NPROC) 0 me (vwakeup (parent_chan sl) (view s))). intros v1 R G1 V.
  destruct (table_ok_exit (view s) v1 me sl sl1 q0 T G H4 Hq0 Hq R G1) as (T2 & C1 & C2 & L).
  pose proof (forks_ok_exit (view s) v1 me sl sl1 q0 F FO HF (t_len _ T) G H4 R G1) as FO2.
  cbv zeta in T2, C1, C2, L. rewrite <- V in T2, C1, C2, L, FO2.
  split; [done|done|]. exists me. eexists. split; [congruence|]. split; [congruence|].
  split; [rewrite V; by eapply vget_vset_eq|]. split; [auto|].
  intros j jl Hj Hr. destruct (decide (j = me)) as [->|Hne].
  - rewrite V in Hj. rewrite (vget_vset_eq _ _ _ _ G1) in Hj. by injection Hj as <-.
  - destruct (L j jl Hj Hne) as (l & Hl & Hlt). apply Hne, (H5 j l Hl). by eapply later_state.
Qed.

Lemma mode_ok_wakeup m a v : m <> Scheduler -> mode_ok m v -> mode_ok m (vwakeup (CAddr a) v).
Proof.
  intros Hm. destruct m; [|done|].
  - intros (me & ml & H1 & H2 & H3 & H4 & H5). exists me, (vwake (CAddr a) ml). split; [done|]. split; [done|]. split; [by rewrite vget_vwakeup, H3|].
    split; [by apply vwake_state|]. intros j jl (l & Hl & ->)%vget_vwakeup_inv Hr. apply vwake_state in Hr; [|done..]. by eapply H5.
  - intros [H1 H2]. split.
    + intros j jl (l & Hl & ->)%vget_vwakeup_inv Hr. apply vwake_state in Hr; [|done..]. by eapply H1.
    + intros c sl Hc (l & Hl & ->)%vget_vwakeup_inv. destruct (vwake_fields (CAddr a) l) as (_ & _ & _ & Ep & [->|[_ Es]]); [by apply (H2 c)|auto].
Qed.

Lemma step_inv m s F m' s' F' : inv m s F -> kstep m s F m' s' F' -> inv m' s' F'.
Proof.
  intros I St. destruct St.
  - by eapply fork_inv.
  - apply inv_view with s; [done|]. by apply (alloc_slot_view _ _ _ H0).
  - by eapply fork_goes_inv.
  - apply quiet_exit_files in H1. by apply inv_view with s.
  - by eapply exit_inv.
  - unfold wait in H0. qstep H0 V. eapply wait_inv; [|exact H0]. by apply inv_view with s.
  - destruct (kill_view _ _ _ _ H0) as [V|(i & sl & G & Hs & V)]; [by apply inv_view with s|]. destruct I as [T FO Mo].
    assert (live sl) as Hl by (apply live_of; auto). split; rewrite V.
    + eapply table_ok_live; try done.
    + eapply forks_ok_set; [done|done|congruence|done|by left].
    + eapply mode_ok_other; [done|exact G| |done]. destruct Mo as (me & ml & H1 & _ & H3 & H4 & _). intros E. congruence.
  - apply quiet_growproc in H0. by apply inv_view with s.
  - apply quiet_sys_settickets in H0. by apply inv_view with s.
  - apply (quiet_pmod _ _ H1) in H2. by apply inv_view with s.
  - apply quiet_lower in H1. by apply inv_view with s.
  - apply wakeup_view in H1 as V. destruct I as [T FO Mo]. split; rewrite V; [by apply table_ok_wakeup|by apply forks_ok_wakeup|by apply mode_ok_wakeup].
  - pose proof I as [T FO (me & ml & H1 & H2 & H3 & H4 & H5)].
    destruct (yield_view _ _ _ me H0 H1) as (sl & G & V).
    eapply inv_leave; [exact I|exact H1|exact G| |exact V]. by left.
  - pose proof I as [T FO (me & ml & H1 & H2 & H3 & H4 & H5)].
    destruct (sleep_view _ _ _ _ me H0 H1) as (sl & G & V).
    eapply inv_leave; [exact I|exact H1|exact G| |exact V]. right. split; [done|]. by intros j [=].
  - apply bind_inv in H0 as (u0 & s2 & E2 & H0). injection E2 as _ <-. apply quiet_release_pt in H0 as V.
    destruct I as [T FO (me & ml & H2 & H3 & H4 & H5 & H6)].
    assert (view s' = vcur None (Some me) (view s)) as W by (rewrite V, <- H3; done).
    split; rewrite W; [by destruct T|by destruct FO|]. split; [exact H6|].
    intros c sl [= <-] G. assert (sl = ml) as -> by (unfold vcur, vget in *; cbn in *; congruence). done.
  - by eapply round_inv.
Qed.

(** *** Boot *)

Definition boot_slot : slot := mkSlot UNUSED 0 None CNull NoContext.

Lemma vget_boot k i sl : vget (view (boot_kernel k)) i = Some sl -> sl = boot_slot.
Proof.
  unfold vget, zget. case_bool_decide; [done|]. cbn [view v_procs procs boot_kernel].
  rewrite fmap_replicate. intros [-> _]%lookup_replicate. done.
Qed.

Lemma userinit_view s u s' :
  userinit s = Ret (u, s') ->
  exists i sl, vget (view s) i = Some sl /\ v_state sl = UNUSED /\
    view s' = mkV (v_procs (vset i (mkSlot RUNNABLE (v_next (view s)) (v_parent sl) (v_chan sl) Forkret) (view s)))
                (Some i) (s32 (v_next (view s) + 1)) (v_cur (view s)) (v_current (view s)).
Proof.
  intros E. unfold userinit in E. apply bind_inv in E as (p & s1 & Ea & E).
  apply bind_inv in E as (u2 & s2 & E2 & E). injection E2 as _ <-.
  unfold allocproc in Ea. apply bind_inv in Ea as ([i|] & s0 & Es & Ea); [|injection Ea as <- <-; discriminate].
  destruct (alloc_slot_view _ _ _ Es) as (sl & G & Hst & V0).
  assert (vget (view s0) i = Some (mkSlot EMBRYO (v_next (view s)) (v_parent sl) (v_chan sl) (v_point sl))) as G0.
  { rewrite V0. eapply (vget_vset_eq i _ _ _ G). }
  destruct (alloc_stack_view _ _ _ _ _ Ea G0) as [[-> V]|[-> _]]; [|discriminate]. rewrite V0 in V.
  change (vset i ?a (bump ?v)) with (bump (vset i a v)) in V. rewrite vset_vset in V.
  exists i, sl. split; [done|]. split; [done|].
  set (s2 := mkK _ _ _ _ _ _ _) in E. rewrite (bind_Ret _ _ _ i s2 eq_refl) in E.
  assert (view s2 = mkV (v_procs (view s1)) (Some i) (v_next (view s1)) (v_cur (view s1)) (v_current (view s1))) as V2 by done.
  assert (vget (view s2) i = Some (mkSlot EMBRYO (v_next (view s)) (v_parent sl) (v_chan sl) Forkret)) as G2.
  { rewrite V2, V. eapply (vget_vset_eq i _ _ _ G). }
  qstep E V3. qstep E V4. destruct (r =? 0); [discriminate|].
  qstep E V5. qstep E V6. qstep E V7. qstep E V8. qstep E V9. qstep E V10.
  rewrite <- V3, <- V4, <- V5, <- V6, <- V7, <- V8, <- V9, <- V10 in G2.
  destruct (pmod_slot _ _ (sl_state RUNNABLE) _ _ _ _ E (fun p => eq_refl) G2) as [W _].
  rewrite W, V10, V9, V8, V7, V6, V5, V4, V3, V2, V. unfold vset, bump. cbn. by rewrite zset_zset.
Qed.

Lemma boot_inv k u s1 : userinit (boot_kernel k) = Ret (u, s1) -> inv Idle s1 ∅.
Proof.
  intros E1. destruct (userinit_view _ _ _ E1) as (i & sl & G & Hu & V).
  pose proof (vget_boot _ _ _ G) as ->.
  assert (forall j jl, vget (view s1) j = Some jl ->
    j = i /\ jl = mkSlot RUNNABLE 1 None CNull Forkret \/ j <> i /\ jl = boot_slot) as S.
  { intros j jl Hj. rewrite V in Hj. change (vget (vset i (mkSlot RUNNABLE 1 None CNull Forkret) (view (boot_kernel k))) j = Some jl) in Hj.
    vcase Hj G; [by left|]. right. split; [done|]. by eapply vget_boot. }
  split; [|apply forks_ok_none; intros j jl Hj; by destruct (S j jl Hj) as [[-> ->]|[_ ->]]|split].
  - split.
    + rewrite V. cbn [v_procs vset]. rewrite length_zset. reflexivity.
    + rewrite V. vm_compute. split; discriminate || done.
    + intros j jl Hj Hjl. destruct (S j jl Hj) as [[_ ->]|[_ ->]]; [|by destruct Hjl].
      rewrite V. vm_compute. split; discriminate || done.
    + intros a b al bl Ha Hb Hal Hbl _. destruct (S a al Ha) as [[-> _]|[_ ->]]; [|by destruct Hal].
      destruct (S b bl Hb) as [[-> _]|[_ ->]]; [done|by destruct Hbl].
    + exists i, (mkSlot RUNNABLE 1 None CNull Forkret). split; [by rewrite V|]. split; [|done].
      rewrite V. apply (vget_vset_eq i (mkSlot RUNNABLE 1 None CNull Forkret) _ _ G).
    + intros j jl Hj Hjl _ Hn. destruct (S j jl Hj) as [[-> _]|[_ ->]]; [by rewrite V in Hn|by destruct Hjl].
    + intros j jl Hj Hjl. by destruct (S j jl Hj) as [[-> ->]|[_ ->]].
    + intros j c jl Hj Hs. by destruct (S j jl Hj) as [[-> ->]|[_ ->]].
  - intros j jl Hj. by destruct (S j jl Hj) as [[-> ->]|[_ ->]].
  - intros c sl Hc. rewrite V in Hc. done.
Qed.

Lemma reach_inv m s F : reach m s F -> inv m s F.
Proof. induction 1; [by eapply boot_inv|by eapply step_inv]. Qed.

(** The whole calls, when nothing takes the processor away. *)
Lemma fork_step_cur me np pc s r s' sl : fork_step me np pc s = Ret (r, s') -> vget (view s) np = Some sl -> cur s' = cur s.
Proof.
  intros E G. pose proof (fork_step_view _ _ _ _ _ _ _ E G) as W. change (cur s') with (v_cur (view s')). change (cur s) with (v_cur (view s)).
  destruct pc; repeat match type of W with _ \/ _ => destruct W as [W|W] end; destruct W as [_ ->]; done.
Qed.
Lemma reach_fork_run n s F me np pc r s' :
  reach User s (<[me := (pc, np)]> F) -> F !! me = None -> cur s = Some me -> fork_run n me np pc s = Ret (r, s') -> reach User s' F.
Proof.
  revert s pc. induction n as [|n IH]; intros s pc R HF Hc E; [discriminate|]. cbn [fork_run] in E. apply bind_inv in E as (x & s1 & E1 & E).
  assert (<[me := (pc, np)]> F !! me = Some (pc, np)) as Hm by apply lookup_insert_eq.
  pose proof (reach_step _ _ _ _ _ _ R (k_fork_goes s _ me np pc x s1 Hc Hm E1)) as R1.
  destruct (f_fork _ _ (i_forks _ _ _ (reach_inv _ _ _ R)) _ _ _ Hm) as (sl & G & _).
  destruct x as [pc'|v]; [rewrite insert_insert_eq in R1; apply (IH s1 pc'); [done|done|by rewrite (fork_step_cur _ _ _ _ _ _ _ E1 G)|done]|].
  injection E as _ <-. by rewrite delete_insert_id in R1.
Qed.
Lemma reach_fork s F me r s' : reach User s F -> cur s = Some me -> F !! me = None -> nextpid s < 2 ^ 31 - 1 -> fork s = Ret (r, s') -> reach User s' F.
Proof.
  intros R Hc HF Hn E. rewrite fork_in_steps in E. apply bind_inv in E as (me' & s0 & [-> Hme']%curproc_inv & E). assert (me' = me) as -> by congruence.
  apply bind_inv in E as ([np|] & s1 & E1 & E).
  - eapply (reach_fork_run 10 s1 F me np AtStack); [eapply reach_step; [exact R|by apply k_fork]|done| |exact E].
    destruct (alloc_slot_view _ _ _ E1) as (sl & _ & _ & V). change (v_cur (view s1) = Some me). by rewrite V.
  - injection E as _ <-. eapply reach_step; [exact R|by apply k_fork_fails].
Qed.
Lemma reach_exit s F me u s' : reach User s F -> cur s = Some me -> F !! me = None -> exit s = Ret (u, s') -> reach Scheduler s' F.
Proof.
  intros R Hc HF E. unfold exit in E. apply bind_inv in E as (me' & s0 & [-> Hme']%curproc_inv & E). assert (me' = me) as -> by congruence.
  rewrite (bind_Ret get _ _ _ _ eq_refl) in E. case_bool_decide as Hi; [discriminate|]. apply bind_inv in E as (u1 & s1 & E1 & E).
  pose proof (quiet_exit_files _ _ _ _ E1) as V. assert (cur s1 = cur s /\ initproc s1 = initproc s) as [C1 C2].
  { split; [change (v_cur (view s1) = v_cur (view s))|change (v_init (view s1) = v_init (view s))]; by rewrite V. }
  eapply reach_step; [eapply reach_step; [exact R|by apply (k_exit_files s F me u1 s1)]|]. apply (k_exit s1 F me u s'); [congruence|congruence|done|done].
Qed.
End Reach.

(** ** The properties *)

Section Properties.
Context {K : Type} `{KernelOps K}.

(** In every reachable state no two processes have the same pid. *)
Theorem pids_unique m (s : kernel K) F i j p q :
  reach m s F -> zget (procs s) i = Some p -> zget (procs s) j = Some q ->
  state p <> UNUSED -> state q <> UNUSED -> pid p = pid q -> i = j.
Proof.
  intros [T _ _]%reach_inv Hp Hq Hup Huq Hpid.
  eapply (t_inj _ T i j (vproc p) (vproc q)); try done; by rewrite vget_view, ?Hp, ?Hq.
Qed.

(** C20: In every reachable state, the processor taken away in the middle of
    [fork] or [exit] included, each process but the first belongs to a live one
    ([q], neither free, a zombie nor an embryo): one that has been born has it
    as its parent ([exit] hands its children to the first process before it
    becomes a zombie, and nothing collects a process that still has children);
    an embryo is being filled by the [fork] of [q], which is its only possible
    parent, and has no parent until that [fork] has set it. *)
Theorem no_orphans m (s : kernel K) F i p :
  reach m s F -> zget (procs s) i = Some p -> state p <> UNUSED -> initproc s <> Some i ->
  exists q pq, q <> i /\ zget (procs s) q = Some pq /\ state pq <> UNUSED /\ state pq <> ZOMBIE /\ state pq <> EMBRYO /\
    if bool_decide (state p = EMBRYO)
    then exists pc, F !! q = Some (pc, i) /\ unborn pc = true /\ parent p = if adopted pc then Some q else None
    else parent p = Some q.
Proof.
  intros [T FO _]%reach_inv Hp Hu Hi. assert (vget (view s) i = Some (vproc p)) as G by (by rewrite vget_view, Hp).
  assert (forall q ql, vget (view s) q = Some ql -> live ql -> exists pq, zget (procs s) q = Some pq /\ ql = vproc pq) as Ex.
  { intros q ql Hq _. rewrite vget_view in Hq. destruct (zget (procs s) q) as [pq|]; [|done]. injection Hq as <-. by exists pq. }
  case_bool_decide as He.
  - destruct (f_embryo _ _ FO i _ G He) as (q & pc & HF & U). destruct (f_live _ _ FO _ _ _ HF) as (ql & Hq & Hl).
    destruct (Ex q ql Hq Hl) as (pq & Hpq & ->). destruct Hl as (L1 & L2 & L3). exists q, pq. split; [intros ->; apply L3; assert (pq = p) as -> by congruence; exact He|]. do 4 (split; [done|]).
    exists pc. split; [done|]. split; [done|]. destruct (f_fork _ _ FO _ _ _ HF) as (sl & Hs & Hsu). assert (sl = vproc p) as -> by congruence. by apply Hsu.
  - destruct (t_parent _ T i _ G Hu He Hi) as (q & ql & H1 & H2 & H3 & Hl). destruct (Ex q ql H3 Hl) as (pq & Hpq & ->). destruct Hl as (L1 & L2 & L3). by exists q, pq.
Qed.

(** C23: No wakeup is lost between [wait] and [exit]: in every reachable state a
    process asleep in [wait] (on the address of its own slot) has no zombie
    child to collect, and nobody sleeps on another process's slot. *)
Theorem wait_never_misses_a_child m (s : kernel K) F i j p k c :
  reach m s F -> zget (procs s) i = Some p -> state p = SLEEPING -> chan p = CProc j ->
  j = i /\ (zget (procs s) k = Some c -> parent c = Some i -> state c <> ZOMBIE).
Proof.
  intros [T _ _]%reach_inv Hp Hs Hc.
  destruct (t_wait _ T i j (vproc p)) as [-> Hw]; [by rewrite vget_view, Hp|done|done|].
  split; [done|]. intros Hk Hpk. apply (Hw k (vproc c)); [by rewrite vget_view, Hk|done].
Qed.
End Properties.

(** ** A concrete machine

    Pages are handed out from a counter and the file layer does nothing. *)
#[export] Instance demo_ops : KernelOps Z := {
  kalloc := n ← get; put (n + 4096);; mret (Some n);
  kfree := fun _ => mret tt;
  setupkvm := n ← get; put (n + 4096);; mret n;
  inituvm := fun _ => mret tt;
  copyuvm := fun _ _ => n ← get; put (n + 4096);; mret n;
  freevm := fun _ => mret tt;
  allocuvm := fun _ _ n => mret n;
  deallocuvm := fun _ _ n => mret n;
  filedup := fun f => mret f;
  fileclose := fun _ => mret tt;
  idup := fun i => mret i;
  iput := fun _ => mret tt;
  namei_root := mret 1
}.

Definition run {A} (m : M (kernel Z) A) (s : kernel Z) : kernel Z :=
  match m s with Ret (_, s') => s' | _ => s end.
Definition s_init : kernel Z := run userinit (boot_kernel 4096).
Definition s_boot : kernel Z := run scheduler_round s_init.
(** The first process forks and waits; its child runs. *)
Definition s_fork : kernel Z := run fork s_boot.
Definition s_wait : kernel Z := run wait s_fork.

Lemma reach_s_boot : reach User s_boot ∅.
Proof.
  eapply reach_step; [apply (reach_boot 4096 tt s_init); vm_compute; reflexivity|]. apply (k_schedule s_init ∅ ToUser s_boot tt); vm_compute; reflexivity.
Qed.

Lemma reach_s_fork : reach User s_fork ∅.
Proof. apply (reach_fork s_boot ∅ 0 2); [exact reach_s_boot|vm_compute; reflexivity..]. Qed.

Lemma reach_s_wait : reach Scheduler s_wait ∅.
Proof.
  eapply reach_step; [exact reach_s_fork|]. apply (k_wait s_fork ∅ None); vm_compute; reflexivity.
Qed.

(** The first process, in the middle of its [fork], when the clock ticks. *)
Definition s_slot : kernel Z := run alloc_slot s_boot.
Definition s_tick : kernel Z := run yield s_slot.
Lemma reach_s_tick : reach Scheduler s_tick (<[0 := (AtStack, 1)]> ∅).
Proof.
  eapply reach_step; [eapply reach_step; [exact reach_s_boot|apply (k_fork s_boot ∅ 0 1 s_slot); vm_compute; reflexivity]|].
  apply (k_yield s_slot _ tt). vm_compute. reflexivity.
Qed.

Definition slot_of (s : kernel Z) (i : Z) : proc := default zero_proc (zget (procs s) i).

Lemma pids_unique_witness : pid (slot_of s_fork 0) <> pid (slot_of s_fork 1).
Proof.
  intros E. cut (0 = 1); [discriminate|]. revert E.
  apply (pids_unique User s_fork ∅ 0 1 (slot_of s_fork 0) (slot_of s_fork 1) reach_s_fork);
    vm_compute; first [reflexivity|discriminate].
Defined.

Lemma no_orphans_witness :
  (exists pq, zget (procs s_wait) 0 = Some pq /\ parent (slot_of s_wait 1) = Some 0 /\ state pq <> ZOMBIE) /\
  state (slot_of s_tick 1) = EMBRYO /\ parent (slot_of s_tick 1) = None /\ exists pq, zget (procs s_tick) 0 = Some pq /\ state pq <> EMBRYO.
Proof.
  split; [|split; [vm_compute; reflexivity|split; [vm_compute; reflexivity|]]].
  - destruct (no_orphans Scheduler s_wait ∅ 1 (slot_of s_wait 1) reach_s_wait) as (q & pq & _ & H2 & _ & H3 & _ & H4); [vm_compute; reflexivity|vm_compute; discriminate..|].
    assert (parent (slot_of s_wait 1) = Some 0) as Hp by (vm_compute; reflexivity). rewrite bool_decide_false in H4 by (vm_compute; discriminate).
    rewrite Hp in H4. injection H4 as <-. exists pq. split; [exact H2|]. split; [exact Hp|exact H3].
  - destruct (no_orphans Scheduler s_tick (<[0 := (AtStack, 1)]> ∅) 1 (slot_of s_tick 1) reach_s_tick) as (q & pq & _ & H2 & _ & _ & H3 & H4); [vm_compute; reflexivity|vm_compute; discriminate..|].
    rewrite bool_decide_true in H4 by (vm_compute; reflexivity). destruct H4 as (pc & [[<- _]|[_ HF]]%lookup_insert_Some & _); [exists pq; split; [exact H2|exact H3]|by rewrite lookup_empty in HF].
Defined.

Lemma wait_never_misses_a_child_witness : state (slot_of s_wait 1) <> ZOMBIE.
Proof.
  apply (wait_never_misses_a_child Scheduler s_wait ∅ 0 0 (slot_of s_wait 0) 1 (slot_of s_wait 1) reach_s_wait);
    vm_compute; reflexivity.
Defined.

(** [kill(0)] matches a free slot and marks it: the next process born there is
    killed before it runs. *)
Example kill_zero_poisons_a_slot :
  match (r ← kill 0; c ← fork; s ← get; mret (r, c, (killed <$> zget (procs s) 1))) s_boot with
  | Ret (x, _) => x = (0, 2, Some 1)
  | _ => False
  end.
Proof. vm_compute. reflexivity. Qed.
