(* ===== verification/ProcSched.v ===== *)
(** Stride scheduling in [Proc]: the round picks a runnable process of least
    pass, and over any number of rounds among the same processes the processor
    time each gets, weighted by its stride, stays within one stride of every
    other's.  And what the round does when nothing is runnable. *)
From S2P Require Import Prelude CString Proc ProcSpec ProcInv.
Import Proc.

(** ** The choice *)

Lemma zget_cons {A} (x : A) l k : 0 < k -> zget (x :: l) k = zget l (k - 1).
Proof.
  intros H. unfold zget. rewrite !bool_decide_false by lia.
  by replace (Z.to_nat k) with (S (Z.to_nat (k - 1))) by lia.
Qed.

(** Once some candidate [b] of pass [m] is there, the loop returns it or a
    runnable process of smaller pass, least among those that follow. *)
Lemma pick_from (l : list proc) i m b :
  0 <= m -> (forall j p, zget l j = Some p -> state p = RUNNABLE -> 0 <= pass p) ->
  exists k, pick l i m (Some b) = Some k /\
    (k = b /\ (forall j q, zget l j = Some q -> state q = RUNNABLE -> m <= pass q) \/
     exists p, i <= k /\ zget l (k - i) = Some p /\ state p = RUNNABLE /\ pass p < m /\
       forall j q, zget l j = Some q -> state q = RUNNABLE -> pass p <= pass q).
Proof.
  revert i m b. induction l as [|x l IH]; intros i m b Hm Hpos; cbn [pick].
  - exists b. split; [done|]. left. split; [done|]. intros j q Hj. apply zget_Some_range in Hj.
    unfold zlen in Hj. simpl in Hj. lia.
  - assert (forall j p, zget l j = Some p -> state p = RUNNABLE -> 0 <= pass p) as Hpos'.
    { intros j p Hj. pose proof (zget_Some_range _ _ _ Hj). apply (Hpos (j + 1)).
      rewrite zget_cons by lia. by replace (j + 1 - 1) with j by lia. }
    assert (forall P : Z -> Prop, (state x = RUNNABLE -> P (pass x)) ->
      (forall j q, zget l j = Some q -> state q = RUNNABLE -> P (pass q)) ->
      forall j q, zget (x :: l) j = Some q -> state q = RUNNABLE -> P (pass q)) as Hall.
    { intros P H1 H2 j q Hj Hs. destruct (decide (j = 0)) as [->|Hj0]; [injection Hj as <-; auto|].
      pose proof (zget_Some_range _ _ _ Hj). rewrite zget_cons in Hj by lia. by eapply H2. }
    case_bool_decide as Hx; cbn [negb].
    + rewrite (proj2 (Z.ltb_ge m 0)) by lia. cbn [orb].
      destruct (Z.ltb_spec (pass x) m) as [Hlt|Hge].
      * assert (0 <= pass x) as H0 by (by apply (Hpos 0)).
        destruct (IH (i + 1) (pass x) i H0 Hpos') as (k & E & [[-> H]|(p & H1 & H2 & H3 & H4 & H5)]).
        -- exists i. split; [done|]. right. exists x. rewrite Z.sub_diag. split; [lia|]. split; [done|].
           split; [done|]. split; [lia|]. apply Hall; [lia|done].
        -- exists k. split; [done|]. right. exists p. rewrite zget_cons by lia.
           replace (k - i - 1) with (k - (i + 1)) by lia. split; [lia|]. split; [done|]. split; [done|].
           split; [lia|]. apply Hall; [lia|done].
      * destruct (IH (i + 1) m b Hm Hpos') as (k & E & [[-> H]|(p & H1 & H2 & H3 & H4 & H5)]).
        -- exists b. split; [done|]. left. split; [done|]. apply Hall; [lia|done].
        -- exists k. split; [done|]. right. exists p. rewrite zget_cons by lia.
           replace (k - i - 1) with (k - (i + 1)) by lia. split; [lia|]. split; [done|]. split; [done|].
           split; [lia|]. apply Hall; [lia|done].
    + destruct (IH (i + 1) m b Hm Hpos') as (k & E & [[-> H]|(p & H1 & H2 & H3 & H4 & H5)]).
      * exists b. split; [done|]. left. split; [done|]. by apply Hall.
      * exists k. split; [done|]. right. exists p. rewrite zget_cons by lia.
        replace (k - i - 1) with (k - (i + 1)) by lia. split; [lia|]. split; [done|]. split; [done|].
        split; [lia|]. by apply Hall.
Qed.

(** When some process is runnable and no runnable process has a negative
    pass, the scheduler's loop picks a runnable process of least pass, whatever
    its stale [current] was. *)
Theorem pick_least_pass (l : list proc) best j0 p0 :
  zget l j0 = Some p0 -> state p0 = RUNNABLE ->
  (forall j p, zget l j = Some p -> state p = RUNNABLE -> 0 <= pass p) ->
  exists k p, pick l 0 (-1) best = Some k /\ zget l k = Some p /\ state p = RUNNABLE /\
    forall j q, zget l j = Some q -> state q = RUNNABLE -> pass p <= pass q.
Proof.
  intros Hj0 Hs0 Hpos.
  assert (forall l i, (forall j p, zget l j = Some p -> state p = RUNNABLE -> 0 <= pass p) ->
    (exists j p, zget l j = Some p /\ state p = RUNNABLE) ->
    exists k p, pick l i (-1) best = Some k /\ zget l (k - i) = Some p /\ state p = RUNNABLE /\
      forall j q, zget l j = Some q -> state q = RUNNABLE -> pass p <= pass q) as G.
  { clear. intros l. induction l as [|x l IH]; intros i Hpos (j & p & Hj & Hs).
    - apply zget_Some_range in Hj. unfold zlen in Hj. simpl in Hj. lia.
    - assert (forall j p, zget l j = Some p -> state p = RUNNABLE -> 0 <= pass p) as Hpos'.
      { intros a q Ha. pose proof (zget_Some_range _ _ _ Ha). apply (Hpos (a + 1)).
        rewrite zget_cons by lia. by replace (a + 1 - 1) with a by lia. }
      cbn [pick]. case_bool_decide as Hx; cbn [negb].
      + change (-1 <? 0) with true. cbn [orb].
        assert (0 <= pass x) as H0 by (by apply (Hpos 0)).
        destruct (pick_from l (i + 1) (pass x) i H0 Hpos') as (k & E & [[-> H]|(q & H1 & H2 & H3 & H4 & H5)]).
        * exists i, x. split; [done|]. rewrite Z.sub_diag. split; [done|]. split; [done|].
          intros a b Ha Hb. destruct (decide (a = 0)) as [->|]; [injection Ha as <-; lia|].
          pose proof (zget_Some_range _ _ _ Ha). rewrite zget_cons in Ha by lia. by eapply H.
        * exists k, q. split; [done|]. rewrite zget_cons by lia.
          replace (k - i - 1) with (k - (i + 1)) by lia. split; [done|]. split; [done|].
          intros a b Ha Hb. destruct (decide (a = 0)) as [->|]; [injection Ha as <-; lia|].
          pose proof (zget_Some_range _ _ _ Ha). rewrite zget_cons in Ha by lia. by eapply H5.
      + assert (j <> 0) as Hj' by (intros ->; by injection Hj as ->).
        pose proof (zget_Some_range _ _ _ Hj). rewrite zget_cons in Hj by lia.
        destruct (IH (i + 1) Hpos') as (k & q & E & H1 & H2 & H3); [by exists (j - 1), p|].
        exists k, q. split; [done|]. pose proof (zget_Some_range _ _ _ H1). rewrite zget_cons by lia.
        replace (k - i - 1) with (k - (i + 1)) by lia. split; [done|]. split; [done|].
        intros a b Ha Hb. destruct (decide (a = 0)) as [->|]; [by injection Ha as ->|].
        pose proof (zget_Some_range _ _ _ Ha). rewrite zget_cons in Ha by lia. by eapply H3. }
  destruct (G l 0 Hpos) as (k & p & E & H1 & H2 & H3); [by exists j0, p0|].
  exists k, p. by rewrite Z.sub_0_r in H1.
Qed.

(** ** Rounds among a fixed set of processes *)

Ltac run_cbn := cbv beta iota zeta delta [procs initproc nextpid thecpu cur current kern set_procs set_cpu set_cur set_current
                     iflag ncli intena pt_locked negb].

Section Fair.
Context {K : Type} `{KernelOps K}.
Implicit Types s : kernel K.

(** The current process gives up the processor and the scheduler moves on. *)
Definition spin : M (kernel K) unit :=
  yield;; r ← reschedule; finish r.

Fixpoint spins (n : nat) : M (kernel K) unit :=
  match n with O => mret tt | S n => spin;; spins n end.

(** [me] runs in user space, the other processes of [R] are runnable, each
    preempted in [yield] or not yet started, and nothing else is runnable. *)
Record spinning (R : list Z) s (me : Z) : Prop := {
  f_cur : cur s = Some me;
  f_in : me ∈ R;
  f_cpu : exists ia, thecpu s = mkCpu true 0 ia false;
  f_me : exists p, zget (procs s) me = Some p /\ state p = RUNNING;
  f_rest k : k ∈ R -> k <> me -> exists p, zget (procs s) k = Some p /\ state p = RUNNABLE /\
    (point (context p) = Forkret \/ context p = mkCtx InYield true);
  f_out k p : zget (procs s) k = Some p -> state p = RUNNABLE -> k ∈ R
}.

Lemma pmod_ok i f s p :
  zget (procs s) i = Some p -> pmod i f s = Ret (tt, set_procs (zset (procs s) i (f p)) s).
Proof.
  intros Hp. unfold pmod, pget. rewrite bind_assoc, (bind_Ret get _ _ _ _ eq_refl).
  rewrite Hp. reflexivity.
Qed.

Lemma pget_ok i s p : zget (procs s) i = Some p -> pget i s = Ret (p, s).
Proof. intros Hp. unfold pget. rewrite (bind_Ret get _ _ _ _ eq_refl), Hp. reflexivity. Qed.

Definition preempted (p : proc) : proc := set_context (mkCtx InYield true) (set_state RUNNABLE p).
Definition charged (p : proc) : proc :=
  (fun p => set_usage (s32 (usage p + 1)) p) (set_state RUNNING (set_pass (pass p + stride p) p)).

Lemma acquire_run ps ip np i ia cu cr (kn : K) :
  acquire_pt (mkK ps ip np (mkCpu i 0 ia false) cu cr kn) =
  Ret (tt, mkK ps ip np (mkCpu false 1 i true) cu cr kn).
Proof. reflexivity. Qed.

Lemma release_run ps ip np ia cu cr (kn : K) :
  release_pt (mkK ps ip np (mkCpu false 1 ia true) cu cr kn) =
  Ret (tt, mkK ps ip np (mkCpu ia 0 ia false) cu cr kn).
Proof. destruct ia; reflexivity. Qed.

Lemma modify_run {S : Type} (f : S -> S) (x : S) : modify f x = Ret (tt, f x).
Proof. reflexivity. Qed.

Lemma curproc_run ps ip np c me cr (kn : K) :
  curproc (mkK ps ip np c (Some me) cr kn) = Ret (me, mkK ps ip np c (Some me) cr kn).
Proof. reflexivity. Qed.

Lemma yield_run ps ip np ia me cr (kn : K) p :
  zget ps me = Some p ->
  yield (mkK ps ip np (mkCpu true 0 ia false) (Some me) cr kn) =
  Ret (tt, mkK (zset ps me (preempted p)) ip np (mkCpu false 1 true true) (Some me) cr kn).
Proof.
  intros Hp. unfold yield. rewrite (bind_Ret _ _ _ _ _ (acquire_run _ _ _ _ _ _ _ _)).
  rewrite (bind_Ret _ _ _ _ _ (curproc_run _ _ _ _ _ _ _)).
  rewrite (bind_Ret _ _ _ _ _ (pmod_ok me _ (mkK ps _ _ _ _ _ _) p Hp)). run_cbn.
  assert (zget (zset ps me (set_state RUNNABLE p)) me = Some (set_state RUNNABLE p)) as G
    by (apply zget_zset_eq; by apply zget_Some_range in Hp).
  unfold sched. rewrite (bind_Ret get _ _ _ _ eq_refl). run_cbn. change (1 =? 1) with true. run_cbn.
  rewrite (bind_Ret _ _ _ _ _ (curproc_run _ _ _ _ _ _ _)).
  erewrite bind_Ret by (apply pget_ok; exact G).
  rewrite bool_decide_false by done. erewrite pmod_ok by exact G. run_cbn.
  by rewrite zset_zset.
Qed.

Lemma round_run ps ip np ia cr (kn : K) c p :
  pick ps 0 (-1) cr = Some c -> zget ps c = Some p ->
  (point (context p) = Forkret \/ context p = mkCtx InYield true) ->
  - 2 ^ 31 <= pass p + stride p < 2 ^ 31 ->
  exists r, scheduler_round (mkK ps ip np (mkCpu ia 0 true false) None cr kn) =
    Ret (r, mkK (zset ps c (charged p)) ip np (mkCpu true 0 true false) (Some c) (Some c) kn) /\
    forall s, finish r s = Ret (tt, s).
Proof.
  intros Hpick Hp Hctx Hb. unfold scheduler_round.
  assert (forall a, zget (zset ps c a) c = Some a) as G
    by (intros; apply zget_zset_eq; by apply zget_Some_range in Hp).
  assert (exists r, scheduler_round (mkK ps ip np (mkCpu ia 0 true false) None cr kn) =
    Ret (r, mkK (zset ps c (charged p)) ip np (mkCpu true 0 true false) (Some c) (Some c) kn) /\
    (r = ToUser \/ r = FromYield)) as (r & E & Hr).
  2:{ exists r. split; [exact E|]. by destruct Hr as [-> | ->]. }
  unfold scheduler_round.
  rewrite (bind_Ret _ _ _ _ _ (modify_run _ _)). run_cbn.
  rewrite (bind_Ret _ _ _ _ _ (acquire_run _ _ _ _ _ _ _ _)).
  rewrite (bind_Ret get _ _ _ _ eq_refl). run_cbn. rewrite Hpick.
  rewrite (bind_Ret _ _ _ _ _ (modify_run _ _)). run_cbn.
  rewrite (bind_Ret _ _ _ c _ eq_refl).
  rewrite (bind_Ret _ _ _ _ _ (modify_run _ _)). run_cbn.
  erewrite bind_Ret by (apply pget_ok; exact Hp).
  rewrite bool_decide_true by done.
  erewrite bind_Ret by (apply pmod_ok; exact Hp). run_cbn.
  erewrite bind_Ret by (apply pmod_ok; apply G). run_cbn. rewrite zset_zset.
  erewrite bind_Ret by (apply pmod_ok; apply G). run_cbn. rewrite zset_zset.
  unfold resume. erewrite bind_Ret by (apply pget_ok; apply G). change (context (set_usage _ _)) with (context p).
  destruct Hctx as [Hf|Hy].
  - rewrite Hf. rewrite (bind_Ret _ _ _ _ _ (release_run _ _ _ _ _ _ _)).
    exists ToUser. split; [reflexivity|by left].
  - rewrite Hy. cbn [point saved_intena]. rewrite (bind_Ret _ _ _ _ _ (modify_run _ _)). run_cbn.
    rewrite (bind_Ret _ _ _ _ _ (release_run _ _ _ _ _ _ _)).
    exists FromYield. split; [reflexivity|by right].
Qed.

Lemma spin_run R s me :
  spinning R s me ->
  (forall k p, k ∈ R -> zget (procs s) k = Some p -> 0 <= pass p /\ 0 < stride p /\ pass p + stride p < 2 ^ 31) ->
  exists c p s', c ∈ R /\ zget (procs s) c = Some p /\ spin s = Ret (tt, s') /\ spinning R s' c /\
    (forall k q, k ∈ R -> zget (procs s) k = Some q -> pass p <= pass q) /\
    (forall k q, zget (procs s) k = Some q -> exists q', zget (procs s') k = Some q' /\ stride q' = stride q /\
       pass q' = (if k =? c then pass q + stride q else pass q) /\
       usage q' = (if k =? c then s32 (usage q + 1) else usage q)).
Proof.
  intros [Fcur Fin [ia Fcpu] (p & Hp & Hrun) Frest Fout] Hb.
  destruct s as [ps ip np cp cu cr kn]. cbn in Fcur, Fcpu, Hp, Frest, Fout, Hb. subst cu cp. cbn [procs].
  pose proof (yield_run ps ip np ia me cr kn p Hp) as Ey.
  set (ps1 := zset ps me (preempted p)) in *.
  assert (forall k, zget ps1 k = if decide (k = me) then Some (preempted p) else zget ps k) as G1.
  { intros k. unfold ps1. destruct (decide (k = me)) as [->|]; [|by apply zget_zset_ne].
    apply zget_zset_eq. by apply zget_Some_range in Hp. }
  assert (forall k q, zget ps1 k = Some q -> state q = RUNNABLE -> k ∈ R /\ exists q0, zget ps k = Some q0 /\
    pass q = pass q0 /\ stride q = stride q0 /\ usage q = usage q0 /\
    (point (context q) = Forkret \/ context q = mkCtx InYield true)) as Hrn.
  { intros k q Hk Hs. rewrite G1 in Hk. destruct (decide (k = me)) as [->|Hne].
    - injection Hk as <-. split; [done|]. exists p. by auto 6.
    - split; [by eapply Fout|]. exists q. do 4 (split; [done|]).
      destruct (Frest k) as (q2 & Hq2 & _ & Hc); [by eapply Fout|done|]. congruence. }
  destruct (pick_least_pass ps1 cr me (preempted p)) as (c & q & Hpick & Hq & Hqs & Hmin).
  { rewrite G1. by rewrite decide_True. }
  { done. }
  { intros j x Hj Hx. destruct (Hrn j x Hj Hx) as (HR & x0 & Hx0 & -> & _). by apply (Hb j x0). }
  destruct (Hrn c q Hq Hqs) as (HcR & q0 & Hq0 & Ep & Es & Eu & Hctx).
  destruct (Hb c q0 HcR Hq0) as (B1 & B2 & B3).
  destruct (round_run ps1 ip np true cr kn c q Hpick Hq Hctx ltac:(lia)) as (r & Er & Hfin).
  exists c, q0. eexists. split; [done|]. split; [done|]. split.
  { unfold spin. rewrite (bind_Ret _ _ _ _ _ Ey). unfold reschedule. rewrite bind_assoc.
    rewrite (bind_Ret _ _ _ _ _ (modify_run _ _)). run_cbn. rewrite bind_assoc.
    rewrite (bind_Ret _ _ _ _ _ (release_run _ _ _ _ _ _ _)).
    rewrite (bind_Ret _ _ _ _ _ Er). apply Hfin. }
  assert (forall k, zget (zset ps1 c (charged q)) k = if decide (k = c) then Some (charged q) else zget ps1 k) as G2.
  { intros k. destruct (decide (k = c)) as [->|]; [|by apply zget_zset_ne].
    apply zget_zset_eq. by apply zget_Some_range in Hq. }
  split; [|split].
  - split; cbn; try done.
    + by eexists.
    + exists (charged q). rewrite G2. by rewrite decide_True.
    + intros k Hk Hkc. rewrite G2, decide_False by done. rewrite G1. destruct (decide (k = me)) as [->|Hne].
      * exists (preempted p). auto.
      * by apply Frest.
    + intros k x. rewrite G2. destruct (decide (k = c)) as [->|]; [done|]. intros Hx Hs. by apply (Hrn k x).
  - intros k x Hk Hx. rewrite <- Ep.
    assert (exists x1, zget ps1 k = Some x1 /\ state x1 = RUNNABLE /\ pass x1 = pass x) as (x1 & H1 & H2 & <-).
    { rewrite G1. destruct (decide (k = me)) as [->|Hne].
      - exists (preempted p). split; [done|]. split; [done|]. by replace x with p by congruence.
      - exists x. split; [done|]. destruct (Frest k Hk Hne) as (x2 & Hx2 & Hs2 & _). split; [congruence|done]. }
    by apply (Hmin k).
  - cbn. intros k x Hx. rewrite G2. destruct (decide (k = c)) as [->|Hkc].
    + rewrite Z.eqb_refl. assert (x = q0) as -> by congruence. exists (charged q). cbn.
      split; [done|]. split; [done|]. split; congruence.
    + rewrite (proj2 (Z.eqb_neq k c)) by done. rewrite G1. destruct (decide (k = me)) as [->|Hne].
      * assert (x = p) as -> by congruence. by exists (preempted p).
      * by exists x.
Qed.

(** How the table stands [m] rounds after [s], where the passes lay between
    [P0] and [P0 + D]: every pass is where it started plus one stride per turn
    had, and no process is ahead of another by more than its own stride and
    [D]. *)
Definition fair_so_far (R : list Z) (P0 D B m : Z) (s t : kernel K) : Prop :=
  (forall k p p', k ∈ R -> zget (procs s) k = Some p -> zget (procs t) k = Some p' ->
     0 < stride p <= B /\ stride p' = stride p /\ P0 <= pass p <= P0 + D /\
     pass p' = pass p + stride p * (usage p' - usage p) /\
     usage p <= usage p' <= usage p + m /\ pass p' <= P0 + D + B * m) /\
  (forall i j p q, i ∈ R -> j ∈ R -> zget (procs t) i = Some p -> zget (procs t) j = Some q ->
     pass p <= pass q + Z.max (stride p) D).

Lemma fair_spins R P0 D B s n m t me :
  0 <= P0 -> 0 <= m -> P0 + D + B * (m + Z.of_nat n) < 2 ^ 31 ->
  (forall k p, k ∈ R -> zget (procs s) k = Some p -> 0 <= usage p /\ usage p + (m + Z.of_nat n) < 2 ^ 31) ->
  (forall k, k ∈ R -> is_Some (zget (procs s) k)) ->
  fair_so_far R P0 D B m s t -> spinning R t me ->
  exists t' me', spins n t = Ret (tt, t') /\ spinning R t' me' /\
    fair_so_far R P0 D B (m + Z.of_nat n) s t'.
Proof.
  intros HP0. revert m t me. induction n as [|n IH]; intros m t me Hm Hbound Hus Hdom [F1 F2] Sp.
  { exists t, me. split; [reflexivity|]. split; [done|]. by rewrite Z.add_0_r. }
  assert (forall k p', k ∈ R -> zget (procs t) k = Some p' -> exists p, zget (procs s) k = Some p) as Hs.
  { intros k p' Hk _. destruct (Hdom k Hk) as [p Hp]. by exists p. }
  destruct (spin_run R t me Sp) as (c & pc & t1 & Hc & Hpc & E & Sp1 & Hmin & Hnew).
  { intros k p' Hk Hp'. destruct (Hs k p' Hk Hp') as [p Hp].
    destruct (F1 k p p' Hk Hp Hp') as (A1 & A2 & A0 & A3 & A4 & A5). nia. }
  assert (forall k q1, k ∈ R -> zget (procs t1) k = Some q1 -> exists q, zget (procs t) k = Some q /\
    stride q1 = stride q /\ pass q1 = (if k =? c then pass q + stride q else pass q) /\
    usage q1 = (if k =? c then s32 (usage q + 1) else usage q)) as Hold.
  { intros k q1 Hk Hq1.
    assert (exists q, zget (procs t) k = Some q) as [q Hq].
    { destruct Sp. destruct (decide (k = me)) as [->|Hne]; [destruct f_me0 as (p & ? & _); by exists p|].
      destruct (f_rest0 k Hk Hne) as (p & ? & _). by exists p. }
    destruct (Hnew k q Hq) as (q' & Hq' & H1 & H2 & H3). exists q. assert (q' = q1) as -> by congruence. done. }
  destruct (IH (m + 1) t1 c) as (t' & me' & E' & Sp' & F'); [lia|lia| |done| |done|].
  - intros k p Hk Hp. destruct (Hus k p Hk Hp). lia.
  - split.
    + intros k p q1 Hk Hp Hq1. destruct (Hold k q1 Hk Hq1) as (q & Hq & H1 & H2 & H3).
      destruct (F1 k p q Hk Hp Hq) as (A1 & A2 & A0 & A3 & A4 & A5). destruct (Hus k p Hk Hp) as [U1 U2].
      destruct (Z.eqb_spec k c) as [->|Hne].
      * rewrite s32_small in H3 by (unfold in_s32; lia). rewrite H1, H2, H3. nia.
      * rewrite H1, H2, H3. nia.
    + intros i j p1 q1 Hi Hj Hp1 Hq1.
      destruct (Hold i p1 Hi Hp1) as (p & Hp & H1 & H2 & _). destruct (Hold j q1 Hj Hq1) as (q & Hq & H3 & H4 & _).
      pose proof (F2 i j p q Hi Hj Hp Hq) as HF.
      destruct (Hs i p Hi Hp) as [pi Hpi]. destruct (F1 i pi p Hi Hpi Hp) as (A1 & A2 & _).
      destruct (Hs j q Hj Hq) as [qj Hqj]. destruct (F1 j qj q Hj Hqj Hq) as (B1 & B2 & _).
      rewrite H1, H2, H4. destruct (Z.eqb_spec i c) as [->|Hic].
      * assert (p = pc) as -> by congruence. pose proof (Hmin j q Hj Hq). destruct (j =? c); lia.
      * destruct (j =? c); lia.
  - exists t', me'. cbn [spins]. rewrite (bind_Ret _ _ _ _ _ E). split; [done|]. split; [done|].
    by replace (m + Z.of_nat (S n)) with (m + 1 + Z.of_nat n) by lia.
Qed.

(** C26: Stride scheduling is fair: start [n] rounds among processes whose
    passes lie within [D] of one another ([D] is 0 when they start together, and
    as large as the others' passes when one has just been forked, at pass 0),
    none of them sleeping, exiting or forking, and with no pass and no usage
    reaching 2^31 on the way.  Then every round goes through, and for any two of
    them the turns each has had, weighted by its stride, differ by at most the
    larger of the two strides and [D], and [D] again: with [D] = 0, by at most
    one turn of the one with fewer tickets. *)
Theorem stride_fairness R s me n P0 D B :
  spinning R s me -> 0 <= P0 -> P0 + D + B * Z.of_nat n < 2 ^ 31 ->
  (forall k p, k ∈ R -> zget (procs s) k = Some p ->
     P0 <= pass p <= P0 + D /\ 0 < stride p <= B /\ 0 <= usage p /\ usage p + Z.of_nat n < 2 ^ 31) ->
  exists s' me', spins n s = Ret (tt, s') /\ spinning R s' me' /\
    forall i j p q p' q', i ∈ R -> j ∈ R ->
      zget (procs s) i = Some p -> zget (procs s) j = Some q ->
      zget (procs s') i = Some p' -> zget (procs s') j = Some q' ->
      Z.abs (stride p * (usage p' - usage p) - stride q * (usage q' - usage q))
        <= Z.max (Z.max (stride p) (stride q)) D + D.
Proof.
  intros Sp HP0 Hb Hall.
  destruct (fair_spins R P0 D B s n 0 s me) as (s' & me' & E & Sp' & [F1 F2]); try done.
  - intros k p Hk Hp. destruct (Hall k p Hk Hp) as (_ & _ & ? & ?). lia.
  - intros k Hk. destruct Sp. destruct (decide (k = me)) as [->|Hne].
    + destruct f_me0 as (p & ? & _). by exists p.
    + destruct (f_rest0 k Hk Hne) as (p & ? & _). by exists p.
  - split.
    + intros k p p' Hk Hp Hp'. assert (p' = p) as -> by congruence.
      destruct (Hall k p Hk Hp) as (A1 & A2 & A3 & A4). lia.
    + intros i j p q Hi Hj Hp Hq. destruct (Hall i p Hi Hp) as (A1 & A2 & _).
      destruct (Hall j q Hj Hq) as (B1 & _). lia.
  - exists s', me'. split; [done|]. split; [done|].
    intros i j p q p' q' Hi Hj Hp Hq Hp' Hq'.
    destruct (F1 i p p' Hi Hp Hp') as (A1 & A2 & A0 & A3 & _). destruct (F1 j q q' Hj Hq Hq') as (B1 & B2 & B0 & B3 & _).
    pose proof (F2 i j p' q' Hi Hj Hp' Hq'). pose proof (F2 j i q' p' Hj Hi Hq' Hp'). lia.
Qed.
End Fair.

(** ** When nothing is runnable *)

Section Idle.
Context {K : Type} `{KernelOps K}.

Lemma pick_none (l : list proc) i m best :
  (forall j p, zget l j = Some p -> state p <> RUNNABLE) -> pick l i m best = best.
Proof.
  revert i. induction l as [|x l IH]; intros i Hn; cbn [pick]; [done|].
  rewrite bool_decide_false by (by apply (Hn 0)). cbn [negb]. apply IH.
  intros j p Hj. pose proof (zget_Some_range _ _ _ Hj). apply (Hn (j + 1)).
  rewrite zget_cons by lia. by replace (j + 1 - 1) with j by lia.
Qed.

(** The scheduler never idles: with no runnable process it switches to the
    process it ran last even though that process is asleep and nobody has woken
    it, charging it a turn; [sleep] then returns as if it had been woken. *)
Theorem scheduler_runs_a_sleeper ps ip np ia me p (kn : K) :
  (forall k q, zget ps k = Some q -> state q <> RUNNABLE) ->
  zget ps me = Some p -> state p = SLEEPING -> context p = mkCtx InSleep true ->
  - 2 ^ 31 <= pass p + stride p < 2 ^ 31 ->
  exists s', scheduler_round (mkK ps ip np (mkCpu ia 0 true false) None (Some me) kn) = Ret (FromSleep, s') /\
    cur s' = Some me /\ procs s' = zset ps me (set_chan CNull (charged p)).
Proof.
  intros Hn Hp Hs Hc Hb.
  assert (forall a, zget (zset ps me a) me = Some a) as G
    by (intros; apply zget_zset_eq; by apply zget_Some_range in Hp).
  eexists. unfold scheduler_round.
  rewrite (bind_Ret _ _ _ _ _ (modify_run _ _)). run_cbn.
  rewrite (bind_Ret _ _ _ _ _ (acquire_run _ _ _ _ _ _ _ _)).
  rewrite (bind_Ret get _ _ _ _ eq_refl). run_cbn. rewrite pick_none by done.
  rewrite (bind_Ret _ _ _ _ _ (modify_run _ _)). run_cbn.
  rewrite (bind_Ret _ _ _ me _ eq_refl).
  rewrite (bind_Ret _ _ _ _ _ (modify_run _ _)). run_cbn.
  erewrite bind_Ret by (apply pget_ok; exact Hp). rewrite bool_decide_true by done.
  erewrite bind_Ret by (apply pmod_ok; exact Hp). run_cbn.
  erewrite bind_Ret by (apply pmod_ok; apply G). run_cbn. rewrite zset_zset.
  erewrite bind_Ret by (apply pmod_ok; apply G). run_cbn. rewrite zset_zset.
  unfold resume. erewrite bind_Ret by (apply pget_ok; apply G).
  change (context (set_usage _ _)) with (context p). rewrite Hc. cbn [point saved_intena].
  rewrite (bind_Ret _ _ _ _ _ (modify_run _ _)). run_cbn.
  erewrite bind_Ret by (apply pmod_ok; apply G). run_cbn. rewrite zset_zset.
  rewrite (bind_Ret _ _ _ _ _ (release_run _ _ _ _ _ _ _)).
  split; [reflexivity|]. done.
Qed.
End Idle.

(** ** Concrete runs *)

(** The first process, at pass 10000 after its first turn, forks and takes ten
    tickets; its child has one and starts at pass 0. *)
Definition s_fair : kernel Z := run (c ← fork; sys_settickets 10) s_boot.
Definition two_procs : list Z := [0; 1].

Lemma two_cases k : k ∈ two_procs -> k = 0 \/ k = 1.
Proof. unfold two_procs. rewrite !elem_of_cons, elem_of_nil. tauto. Qed.

Lemma two_spinning : spinning two_procs s_fair 0.
Proof.
  split.
  - vm_compute. reflexivity.
  - apply list_elem_of_here.
  - exists true. vm_compute. reflexivity.
  - exists (slot_of s_fair 0). split; vm_compute; reflexivity.
  - intros k Hk Hne. assert (k = 1) as -> by (apply two_cases in Hk as [?|?]; done).
    exists (slot_of s_fair 1). split; [vm_compute; reflexivity|]. split; [vm_compute; reflexivity|].
    left. vm_compute. reflexivity.
  - assert (forallb (fun k => (k <? 2) || match zget (procs s_fair) k with
      | Some p => negb (bool_decide (state p = RUNNABLE)) | None => true end) (Z.of_nat <$> seq 0 64) = true) as F
      by (vm_compute; reflexivity).
    rewrite forallb_forall in F. intros k p Hk Hs.
    assert (zlen (procs s_fair) = 64) as L by (vm_compute; reflexivity).
    pose proof (zget_Some_range _ _ _ Hk) as Hr. rewrite L in Hr.
    assert (In k (Z.of_nat <$> seq 0 64)) as Hin.
    { apply list_elem_of_In, list_elem_of_fmap. exists (Z.to_nat k). split; [lia|]. apply elem_of_seq. lia. }
    apply F in Hin. rewrite Hk in Hin. rewrite bool_decide_true in Hin by done. rewrite orb_false_r in Hin.
    apply Z.ltb_lt in Hin. clear - Hin Hr. assert (k = 0 \/ k = 1) as Hk by lia. unfold two_procs.
    destruct Hk as [-> | ->]; [apply list_elem_of_here|apply list_elem_of_further, list_elem_of_here].
Qed.

Lemma two_procs_facts k p :
  k ∈ two_procs -> zget (procs s_fair) k = Some p ->
  0 <= pass p <= 0 + 10000 /\ 0 < stride p <= 10000 /\ 0 <= usage p /\ usage p + 100 < 2 ^ 31.
Proof.
  intros Hk Hp.
  assert (forallb (fun k => match zget (procs s_fair) k with
    | Some p => (0 <=? pass p) && (pass p <=? 10000) && (0 <? stride p) && (stride p <=? 10000) && (0 <=? usage p) && (usage p <? 1000)
    | None => true end) two_procs = true) as F by (vm_compute; reflexivity).
  rewrite forallb_forall in F. apply list_elem_of_In, F in Hk. rewrite Hp in Hk. lia.
Qed.

Lemma stride_fairness_witness :
  exists s' me', spins 100 s_fair = Ret (tt, s') /\ spinning two_procs s' me'.
Proof.
  destruct (stride_fairness two_procs s_fair 0 100 0 10000 10000 two_spinning) as (s' & me' & E & Sp & _).
  - lia.
  - vm_compute. reflexivity.
  - exact two_procs_facts.
  - exists s', me'. split; [exact E|exact Sp].
Defined.

Lemma pick_least_pass_witness :
  exists k p, pick (procs s_init) 0 (-1) None = Some k /\ zget (procs s_init) k = Some p /\ state p = RUNNABLE.
Proof.
  destruct (pick_least_pass (procs s_init) None 0 (slot_of s_init 0)) as (k & p & E & H1 & H2 & _).
  - vm_compute. reflexivity.
  - vm_compute. reflexivity.
  - assert (forallb (fun p => 0 <=? pass p) (procs s_init) = true) as F by (vm_compute; reflexivity).
    intros j p Hp _. apply Z.leb_le, (zget_forallb _ _ _ _ F Hp).
  - exists k, p. split; [exact E|split; [exact H1|exact H2]].
Defined.

(** One process, asleep on a device. *)
Definition sleeper : proc :=
  set_context (mkCtx InSleep true) (set_chan (CAddr 512) (set_state SLEEPING (slot_of s_boot 0))).

Lemma scheduler_runs_a_sleeper_witness :
  exists s', scheduler_round (mkK [sleeper] (Some 0) 2 (mkCpu false 0 true false) None (Some 0) 8192) = Ret (FromSleep, s') /\
    cur s' = Some 0.
Proof.
  destruct (scheduler_runs_a_sleeper [sleeper] (Some 0) 2 false 0 sleeper 8192) as (s' & E & H & _).
  - intros k q Hk. pose proof (zget_Some_range _ _ _ Hk) as Hr. change (zlen [sleeper]) with 1 in Hr.
    assert (k = 0) as -> by lia. injection Hk as <-. vm_compute. discriminate.
  - vm_compute. reflexivity.
  - vm_compute. reflexivity.
  - vm_compute. reflexivity.
  - vm_compute. split; [discriminate|reflexivity].
  - exists s'. split; [exact E|exact H].
Defined.
