(* ===== verification/Fastsort.v ===== *)
(** Project 1a, [src/1a/fastsort.c] and [sort.h]: sorting a file of 128-byte
    records by their first word.

    The C library is outside: [getopt] gives the options, [read] successive
    pieces of the file, [qsort] an arrangement of the array. *)
From S2P Require Import Prelude Bytes.

Module Fastsort.

Definition BUFSIZE : Z := 32.
Definition NUMRECS : Z := 31.
Definition sizeof_rec : Z := 4 + 4 * NUMRECS.

(** A [rec_t] as its bytes. *)
Definition rec_t : Type := list Z.
Definition key (r : rec_t) : Z := s32 (word r 0).

(** The difference as the machine computes it; C leaves an overflow
    undefined. *)
Definition compare_records (a b : rec_t) : Z := s32 (key a - key b).

(** [records[i]] of a buffer of bytes. *)
Definition record_at (bs : list Z) (i : Z) : rec_t := part (i * sizeof_rec) sizeof_rec bs.

(** Lines 78-83: copy the whole records of a buffer to the array of capacity
    [cap]. *)
Fixpoint copy_records (n : nat) (i : Z) (bs : list Z) (all : list rec_t) (cap : Z) : res (list rec_t) :=
  match n with
  | O => Ret all
  | S n => if zlen all <? cap then copy_records n (i + 1) bs (all ++ [record_at bs i]) cap else Undef "allRecords"
  end.

(** Lines 72-85, over the pieces [read] returns before 0. *)
Fixpoint read_records (reads : list (list Z)) (all : list rec_t) (cap : Z) : res (list rec_t) :=
  match reads with
  | [] => Ret all
  | bs :: reads =>
      match copy_records (Z.to_nat (zlen bs / sizeof_rec)) 0 bs all cap with
      | Ret all => read_records reads all (zlen all + BUFSIZE)
      | r => r
      end
  end.

(** Lines 96-108: the pieces written. *)
Fixpoint write_records (fuel : nat) (all : list rec_t) (written : Z) : res (list (list Z)) :=
  match fuel with
  | O => NoFuel
  | S fuel =>
      if written <? zlen all then
        let len := if zlen all - written <? 32 then zlen all - written else BUFSIZE in
        match write_records fuel all (written + len) with
        | Ret ws => Ret (mjoin (take (Z.to_nat len) (drop (Z.to_nat written) all)) :: ws)
        | r => r
        end
      else Ret []
  end.

Inductive outcome := Usage | Cannot_open (f : string) | Sorted_file (f : string) (writes : list (list Z)).

Section Main.
Variable qsort : (rec_t -> rec_t -> Z) -> list rec_t -> list rec_t.
(** What reading a file gives, and whether one can be written. *)
Variable file_reads : string -> option (list (list Z)).
Variable can_write : string -> bool.

(** Options as [getopt] finds them; [None] is one it does not know. *)
Inductive opt := Opt_i (f : string) | Opt_o (f : string) | Opt_bad.
Fixpoint options (l : list opt) (inFile outFile : string) (count : Z) : option (string * string * Z) :=
  match l with
  | [] => Some (inFile, outFile, count)
  | Opt_i f :: l => options l f outFile (count + 1)
  | Opt_o f :: l => options l inFile f (count + 1)
  | Opt_bad :: _ => None
  end.

Definition main (argc : Z) (opts : list opt) : res outcome :=
  match options opts "/no/such/file" "/no/such/file" 0 with
  | None => Ret Usage
  | Some (inFile, outFile, count) =>
      if negb (count =? 2) || (argc >? 5) then Ret Usage
      else
        match file_reads inFile with
        | None => Ret (Cannot_open inFile)
        | Some reads =>
            match read_records reads [] BUFSIZE with
            | Ret all =>
                let sorted := qsort compare_records all in
                if can_write outFile then
                  match write_records (S (length sorted)) sorted 0 with
                  | Ret ws => Ret (Sorted_file outFile ws)
                  | NoFuel => NoFuel | Undef w => Undef w | Panicked m => Panicked m | Blocked c => Blocked c
                  end
                else Ret (Cannot_open outFile)
            | NoFuel => NoFuel | Undef w => Undef w | Panicked m => Panicked m | Blocked c => Blocked c
            end
        end
  end.
End Main.
End Fastsort.
