(* ===== verification/FastsortSpec.v ===== *)
(** [fastsort] writes the records of its input, sorted. *)
From S2P Require Import Prelude Bytes Fastsort.
From Stdlib Require Import Sorted.
Import Fastsort.

Implicit Types (l all : list rec_t) (bs : list Z).

(** What the C standard asks of a comparison function, on the elements of an
    array. *)
Record consistent (cmp : rec_t -> rec_t -> Z) l : Prop := {
  cmp_sym a b : a ∈ l -> b ∈ l -> cmp a b <= 0 <-> 0 <= cmp b a;
  cmp_trans a b c : a ∈ l -> b ∈ l -> c ∈ l -> cmp a b <= 0 -> cmp b c <= 0 -> cmp a c <= 0
}.

(** What it promises of [qsort] in return. *)
Definition sorts (qsort : (rec_t -> rec_t -> Z) -> list rec_t -> list rec_t) : Prop :=
  forall cmp l, consistent cmp l -> qsort cmp l ≡ₚ l /\ StronglySorted (fun a b => cmp a b <= 0) (qsort cmp l).

(** Keys whose differences fit a machine integer. *)
Definition small_keys l : Prop := forall r, r ∈ l -> - 2 ^ 30 <= key r < 2 ^ 30.

Lemma compare_small l a b : small_keys l -> a ∈ l -> b ∈ l -> compare_records a b = key a - key b.
Proof. intros Hs Ha%Hs Hb%Hs. unfold compare_records. apply s32_small. unfold in_s32. lia. Qed.

Lemma compare_consistent l : small_keys l -> consistent compare_records l.
Proof.
  intros Hs. split.
  - intros a b Ha Hb. rewrite !(compare_small l) by done. lia.
  - intros a b c Ha Hb Hc. rewrite !(compare_small l) by done. lia.
Qed.

(** ** Reading *)

(** Whole records, as a regular file is read. *)
Definition whole bs : Prop := exists n, 0 <= n <= 32 /\ zlen bs = n * 128.

Fixpoint records (n : nat) bs : list rec_t :=
  match n with O => [] | S n => take 128 bs :: records n (drop 128 bs) end.
(** The records of a file. *)
Definition file_records bs : list rec_t := records (Z.to_nat (zlen bs / 128)) bs.

Lemma copy_records_ok n i bs all cap : 0 <= i -> zlen all + Z.of_nat n <= cap ->
  copy_records n i bs all cap = Ret (all ++ records n (drop (Z.to_nat (i * 128)) bs)).
Proof.
  revert i all. induction n as [|n IH]; intros i all Hi Hc; cbn [copy_records records]; [by rewrite app_nil_r|].
  rewrite (proj2 (Z.ltb_lt _ _)) by lia. rewrite IH; [|lia|unfold zlen in *; rewrite length_app; cbn; lia].
  rewrite <- app_assoc. cbn [app]. do 3 f_equal. rewrite drop_drop. do 2 f_equal. lia.
Qed.

Lemma records_app n bs bs' : zlen bs = Z.of_nat n * 128 -> file_records (bs ++ bs') = records n bs ++ file_records bs'.
Proof.
  intros Hl. unfold file_records. rewrite zlen_app, Hl. replace ((Z.of_nat n * 128 + zlen bs') / 128) with (Z.of_nat n + zlen bs' / 128) by dlia.
  pose proof (zlen_nonneg bs'). assert (0 <= zlen bs' / 128) by dlia. rewrite Z2Nat.inj_add, Nat2Z.id by lia.
  revert bs Hl. induction n as [|n IH]; intros bs Hl; unfold zlen in *.
  - destruct bs; [done|]. cbn in Hl. lia.
  - cbn [records Nat.add app]. rewrite take_app_le, drop_app_le by lia. f_equal. apply IH. rewrite length_drop. lia.
Qed.

Lemma read_records_ok reads all cap : Forall whole reads -> zlen all + 32 <= cap ->
  read_records reads all cap = Ret (all ++ file_records (mjoin reads)).
Proof.
  revert all cap. induction reads as [|bs reads IH]; intros all cap Hw Hc; cbn [read_records mjoin list_join].
  { by rewrite app_nil_r. }
  apply Forall_cons in Hw as [(n & Hn & Hl) Hw]. change sizeof_rec with 128.
  rewrite Hl, Z.div_mul by lia. rewrite copy_records_ok by lia. cbn [Z.mul Z.to_nat drop].
  rewrite IH; [|done|unfold BUFSIZE; lia]. rewrite <- app_assoc. f_equal. f_equal.
  change (drop (Z.to_nat (0 * 128)) bs) with bs. symmetry. apply records_app. lia.
Qed.

(** ** Writing *)

Lemma write_records_ok fuel all k : 0 <= k <= zlen all -> zlen all - k < Z.of_nat fuel ->
  exists ws, write_records fuel all k = Ret ws /\ mjoin ws = mjoin (drop (Z.to_nat k) all).
Proof.
  revert k. induction fuel as [|fuel IH]; [lia|]. intros k Hk Hf. cbn [write_records]. unfold BUFSIZE.
  destruct (Z.ltb_spec k (zlen all)) as [L|G].
  - set (len := if zlen all - k <? 32 then _ else _). assert (Hlen : 0 < len <= zlen all - k) by (unfold len; destruct (Z.ltb_spec (zlen all - k) 32); lia).
    destruct (IH (k + len)) as (ws & E & Ej); [lia|lia|]. rewrite E. eexists. split; [done|].
    match goal with |- mjoin (?x :: ws) = _ => change (mjoin (x :: ws)) with (x ++ mjoin ws) end. rewrite Ej.
    replace (drop (Z.to_nat (k + len)) all) with (drop (Z.to_nat len) (drop (Z.to_nat k) all)) by (rewrite drop_drop; f_equal; lia).
    rewrite <- join_app. by rewrite take_drop.
  - exists []. split; [done|]. rewrite drop_ge; [done|]. unfold zlen in *. lia.
Qed.

Section Run.
Context (qsort : (rec_t -> rec_t -> Z) -> list rec_t -> list rec_t) (Hq : sorts qsort).
Context (file_reads : string -> option (list (list Z))) (can_write : string -> bool).

(** Given [-i] and [-o] with a readable file of whole records whose keys
    lie within 2^30 of zero, and a file that can be written, [fastsort] writes
    exactly the records of the input, each as it was, in increasing order of
    key: it never overruns its array, whatever the sizes of the pieces it
    reads. *)
Theorem fastsort_sorts i o reads :
  file_reads i = Some reads -> can_write o = true -> Forall whole reads -> small_keys (file_records (mjoin reads)) ->
  exists sorted ws, main qsort file_reads can_write 5 [Opt_i i; Opt_o o] = Ret (Sorted_file o ws) /\
    mjoin ws = mjoin sorted /\ sorted ≡ₚ file_records (mjoin reads) /\ StronglySorted (fun a b => key a <= key b) sorted.
Proof.
  intros Hi Ho Hw Hs. unfold main. cbn [options negb orb Z.eqb Z.add]. change (negb (0 + 1 + 1 =? 2) || (5 >? 5)) with false. cbv iota.
  rewrite Hi, read_records_ok by (done || (unfold BUFSIZE, zlen; cbn; lia)). cbn [app].
  set (all := file_records (mjoin reads)) in *. destruct (Hq compare_records all (compare_consistent all Hs)) as [Hp Hsort].
  rewrite Ho. destruct (write_records_ok (S (length (qsort compare_records all))) (qsort compare_records all) 0) as (ws & E & Ej);
    [unfold zlen; lia|unfold zlen; lia|]. rewrite E.
  exists (qsort compare_records all), ws. split_and!; [done|done|done|].
  assert (Hin : forall r, r ∈ qsort compare_records all -> r ∈ all) by (intros r; by rewrite Hp).
  revert Hsort Hin. generalize (qsort compare_records all). intros l. induction 1 as [|a l' H IH F]; intros Hin; constructor.
  - apply IH. intros r Hr. apply Hin. by right.
  - rewrite List.Forall_forall in F |- *. intros b Hb. specialize (F b Hb). apply list_elem_of_In in Hb.
    rewrite (compare_small all) in F; [lia|done|apply Hin; by left|apply Hin; by right].
Qed.
End Run.

(** Insertion sort is a [qsort]. *)
Fixpoint insert_rec (cmp : rec_t -> rec_t -> Z) (a : rec_t) l : list rec_t :=
  match l with [] => [a] | b :: l => if cmp a b <=? 0 then a :: b :: l else b :: insert_rec cmp a l end.
Definition insertion (cmp : rec_t -> rec_t -> Z) l : list rec_t := foldr (insert_rec cmp) [] l.

Lemma insert_perm cmp a l : insert_rec cmp a l ≡ₚ a :: l.
Proof.
  induction l as [|b l IH]; cbn; [done|]. destruct (cmp a b <=? 0); [done|]. rewrite IH. constructor.
Qed.
Lemma insertion_sorts : sorts insertion.
Proof.
  intros cmp l. induction l as [|a l IH]; intros C; cbn; [split; [done|constructor]|].
  destruct IH as [P S]; [split; [intros x y Hx Hy; apply (cmp_sym _ _ C); by right|
    intros x y z Hx Hy Hz; apply (cmp_trans _ _ C); by right]|].
  fold (insertion cmp l). split; [by rewrite insert_perm, P|].
  assert (Hin : forall r, r ∈ insertion cmp l -> r ∈ a :: l) by (intros r Hr; right; by rewrite <- P).
  revert S Hin. generalize (insertion cmp l). intros k. induction 1 as [|b k' S IH F]; intros Hin; cbn; [repeat constructor|].
  destruct (Z.leb_spec (cmp a b) 0) as [L|G].
  - constructor; [by constructor|]. constructor; [done|]. rewrite List.Forall_forall in F |- *. intros c Hc.
    specialize (F c Hc). apply list_elem_of_In in Hc. eapply (cmp_trans _ _ C a b c); [by left|by apply Hin; left|by apply Hin; right|done|done].
  - constructor; [apply IH; intros r Hr; apply Hin; by right|].
    rewrite List.Forall_forall in F |- *. intros c Hc%list_elem_of_In. rewrite insert_perm in Hc.
    apply elem_of_cons in Hc as [->|Hc]; [|by apply F, list_elem_of_In].
    apply (cmp_sym _ _ C); [by apply Hin; left|by left|lia].
Qed.

(** Three records in two pieces. *)
Definition rec_of (k : Z) : rec_t := to_le 4 (u32 k) ++ replicate 124 9.
Definition demo_reads : list (list Z) := [rec_of 7 ++ rec_of (-3); rec_of 5].
Definition demo_files (f : string) : option (list (list Z)) := if String.eqb f "in" then Some demo_reads else None.
Definition demo_out := main insertion demo_files (fun _ => true) 5 [Opt_i "in"; Opt_o "out"].

Lemma fastsort_sorts_witness :
  demo_out = Ret (Sorted_file "out" [rec_of (-3) ++ rec_of 5 ++ rec_of 7]) /\
  exists sorted ws, demo_out = Ret (Sorted_file "out" ws) /\
    mjoin ws = mjoin sorted /\ sorted ≡ₚ file_records (mjoin demo_reads) /\ StronglySorted (fun a b => key a <= key b) sorted.
Proof.
  split; [vm_compute; reflexivity|].
  refine (fastsort_sorts insertion insertion_sorts demo_files (fun _ => true) "in" "out" demo_reads eq_refl eq_refl _ _).
  - repeat constructor; [exists 2|exists 1]; (split; [lia|vm_compute; reflexivity]).
  - intros r Hr. change (file_records (mjoin demo_reads)) with [rec_of 7; rec_of (-3); rec_of 5] in Hr.
    repeat (apply elem_of_cons in Hr as [->|Hr]; [split; vm_compute; congruence|]). by apply elem_of_nil in Hr.
Defined.

(** With keys far apart the difference wraps, and the smaller key compares
    greater. *)
Lemma compare_records_overflow : key (rec_of (- 2 ^ 31)) = - 2 ^ 31 /\ compare_records (rec_of (- 2 ^ 31)) (rec_of 1) = 2 ^ 31 - 1.
Proof. split; vm_compute; reflexivity. Qed.
