(* ===== verification/Records.v ===== *)
(** Project 1a's companions of [fastsort]: [src/1a/generate.c], which writes a
    file of random records, and [dump.c], which prints one.  The three read and
    write the same [rec_t].

    The C library is outside: [getopt] gives the options with [atoi]'s numbers,
    [rand] a sequence of numbers for each seed; [open], [read] and [write] are
    what they do to one file. *)
From S2P Require Import Prelude Bytes Fastsort.
From Stdlib Require Import DecimalString.
Import Fastsort.

Module Records.

Section Generate.
(** The [k]th number [rand] gives after [srand]. *)
Variable rand : Z -> nat -> Z.
Variable can_write : string -> bool.
(** What the [k]th [write] returns, of so many bytes. *)
Variable write_rc : nat -> Z -> Z.

(** A record, from the [k]th number on. *)
Definition new_record (seed : Z) (k : nat) : rec_t :=
  to_le 4 (u32 (Z.rem (rand seed k) 1000000000)) ++
  mjoin ((fun j => to_le 4 (u32 (Z.rem (rand seed (k + 1 + j)) 1000))) <$> seq 0 (Z.to_nat NUMRECS)).
Fixpoint fill (seed : Z) (howMany : nat) (k : nat) : list rec_t :=
  match howMany with O => [] | S n => new_record seed k :: fill seed n (k + 32) end.

(** The pieces written, to the end or to the [write] that fails. *)
Inductive generated := Gen_usage | Write_failed (ws : list (list Z)) | Generated (ws : list (list Z)).
Fixpoint gen_loop (fuel : nat) (seed : Z) (opened : bool) (recordsLeft : Z) (k w : nat) (ws : list (list Z)) : res generated :=
  match fuel with
  | O => NoFuel
  | S fuel =>
      if recordsLeft >? 0 then
        let howMany := if recordsLeft <? BUFSIZE then recordsLeft else BUFSIZE in
        let b := mjoin (fill seed (Z.to_nat howMany) k) in
        let writeSize := howMany * sizeof_rec in
        let rc := if opened then write_rc w writeSize else -1 in
        if negb (rc =? writeSize) then Ret (Write_failed ws)
        else gen_loop fuel seed opened (recordsLeft - BUFSIZE) (k + 32 * Z.to_nat howMany) (S w) (ws ++ [b])
      else Ret (Generated ws)
  end.

Inductive gen_opt := Gen_n (n : Z) | Gen_s (n : Z) | Gen_o (f : string) | Gen_bad.
Fixpoint gen_options (l : list gen_opt) (n s : Z) (o : string) : option (Z * Z * string) :=
  match l with
  | [] => Some (n, s, o)
  | Gen_n n :: l => gen_options l n s o
  | Gen_s s :: l => gen_options l n s o
  | Gen_o o :: l => gen_options l n s o
  | Gen_bad :: _ => None
  end.
(** A file that does not open is only complained about: the first [write]
    fails. *)
Definition generate (opts : list gen_opt) : res generated :=
  match gen_options opts 0 0 "/no/such/file" with
  | None => Ret Gen_usage
  | Some (n, s, o) => gen_loop (S (Z.to_nat n)) s (can_write o) n 0 0 []
  end.
End Generate.

(** [%9d] and the like. *)
Definition padded (width : nat) (n : Z) : list Z :=
  let d := bytes (NilZero.string_of_int (Z.to_int n)) in replicate (width - length d) 32 ++ d.
Definition rec_line (r : rec_t) : list Z :=
  bytes "key:" ++ padded 9 (key r) ++ bytes " rec:" ++
  mjoin ((fun j => padded 3 (s32 (word r (4 + 4 * j))) ++ [32]) <$> seqZ 0 NUMRECS) ++ [10].

Section Dump.
(** What the reads of a file give, [None] for -1. *)
Variable file_reads : string -> option (list (option (list Z))).

(** A read that fails gives -1, divided as an unsigned number: the loop leaves
    the array. *)
Fixpoint dump_loop (reads : list (option (list Z))) : res (list Z) :=
  match reads with
  | [] => Ret []
  | None :: _ => Undef "records"
  | Some bs :: reads =>
      match dump_loop reads with
      | Ret t => Ret (mjoin ((fun i => rec_line (record_at bs i)) <$> seqZ 0 (zlen bs / sizeof_rec)) ++ t)
      | r => r
      end
  end.
Inductive dump_opt := Dump_i (f : string) | Dump_bad.
Fixpoint dump_options (l : list dump_opt) (i : string) : option string :=
  match l with [] => Some i | Dump_i i :: l => dump_options l i | Dump_bad :: _ => None end.
(** The text printed; [None] for the usage. *)
Definition dump (opts : list dump_opt) : res (option (list Z)) :=
  match dump_options opts "/no/such/file" with
  | None => Ret None
  | Some i =>
      match dump_loop (default [None] (file_reads i)) with
      | Ret t => Ret (Some t)
      | NoFuel => NoFuel | Undef w => Undef w | Panicked m => Panicked m | Blocked c => Blocked c
      end
  end.
End Dump.
End Records.
