(* ===== verification/RecordsSpec.v ===== *)
(** The three programs of project 1a, one after the other: what [dump] prints of
    what [fastsort] wrote of what [generate] wrote. *)
From S2P Require Import Prelude Bytes Fastsort FastsortSpec Records.
From Stdlib Require Import Sorted.
Import Fastsort.
Import Records.

Implicit Types (l : list rec_t) (bs : list Z).

(** ** Files of records *)

Definition sized l : Prop := Forall (fun r => zlen r = 128) l.

Lemma file_records_join l : sized l -> file_records (mjoin l) = l.
Proof.
  induction 1 as [|r l Hr Hl IH]; [done|]. change (mjoin (r :: l)) with (r ++ mjoin l). rewrite (records_app 1) by lia. cbn [records app]. f_equal; [|exact IH].
  apply take_ge. unfold zlen in Hr. lia.
Qed.
Lemma sized_perm l l' : l ≡ₚ l' -> sized l -> sized l'.
Proof. intros P. unfold sized. by rewrite P. Qed.

(** ** [generate] *)

Section Generate.
Context (rand : Z -> nat -> Z) (Hrand : forall s k, 0 <= rand s k).

Lemma new_record_size s k : zlen (new_record rand s k) = 128.
Proof. unfold new_record. rewrite zlen_app, zlen_join_map. reflexivity. Qed.
Lemma new_record_key s k : key (new_record rand s k) = Z.rem (rand s k) 1000000000.
Proof.
  pose proof (Z.rem_bound_pos (rand s k) 1000000000 (Hrand s k) ltac:(lia)) as Hb. unfold key, new_record, word, part. rewrite u32_small by (unfold in_u32; lia). change (drop (Z.to_nat 0) ?x) with x.
  rewrite take_app_length' by reflexivity. rewrite le_to_le by lia. apply s32_small. unfold in_s32. lia.
Qed.
Lemma fill_sized s n k : sized (fill rand s n k).
Proof. revert k. induction n as [|n IH]; intros k; constructor; [apply new_record_size|apply IH]. Qed.
Lemma fill_small s n k : small_keys (fill rand s n k).
Proof.
  revert k. induction n as [|n IH]; intros k r Hr; cbn [fill] in Hr; [by apply elem_of_nil in Hr|]. apply elem_of_cons in Hr as [->|Hr]; [|by eapply IH].
  rewrite new_record_key. pose proof (Z.rem_bound_pos (rand s k) 1000000000 (Hrand s k) ltac:(lia)). lia.
Qed.
Lemma fill_zlen s n k : zlen (mjoin (fill rand s n k)) = 128 * Z.of_nat n.
Proof. revert k. induction n as [|n IH]; intros k; [done|]. cbn [fill]. change (mjoin (?r :: ?l)) with (r ++ mjoin l). rewrite zlen_app, IH, new_record_size. lia. Qed.
Lemma fill_app s n m k : fill rand s (n + m) k = fill rand s n k ++ fill rand s m (k + 32 * n).
Proof. revert k. induction n as [|n IH]; intros k; cbn [fill Nat.add app]; [f_equal; lia|]. rewrite IH. do 3 f_equal. lia. Qed.

Lemma gen_loop_ok write_rc fuel s left k w ws : (forall w n, write_rc w n = n) -> left < Z.of_nat fuel -> 0 < Z.of_nat fuel ->
  exists ws', gen_loop rand write_rc fuel s true left k w ws = Ret (Generated ws') /\ mjoin ws' = mjoin ws ++ mjoin (fill rand s (Z.to_nat left) k).
Proof.
  intros Hw. revert left k w ws. induction fuel as [|fuel IH]; intros left k w ws Hf Hf0; [lia|]. cbn [gen_loop]. rewrite Z.gtb_ltb. destruct (Z.ltb_spec 0 left) as [L|G].
  - unfold BUFSIZE. set (h := if left <? 32 then left else 32). assert (Hh : 0 < h <= left /\ h <= 32 /\ (h = 32 \/ h = left)) by (unfold h; destruct (Z.ltb_spec left 32); lia). cbv zeta. rewrite Hw, Z.eqb_refl. cbn [negb].
    destruct (decide (fuel = 0%nat)) as [->|Hn]; [lia|]. destruct (IH (left - 32) (k + 32 * Z.to_nat h)%nat (S w) (ws ++ [mjoin (fill rand s (Z.to_nat h) k)])) as (ws' & E & Ej); [lia|lia|].
    exists ws'. split; [exact E|]. rewrite Ej, join_app. cbn [mjoin list_join]. rewrite app_nil_r, <- app_assoc. f_equal.
    replace (Z.to_nat left) with (Z.to_nat h + Z.to_nat (left - 32))%nat by lia. rewrite fill_app. symmetry. apply join_app.
  - exists ws. split; [done|]. replace (Z.to_nat left) with 0%nat by lia. cbn. by rewrite app_nil_r.
Qed.
End Generate.

(** ** [dump] *)

Lemma records_at n bs i : Z.of_nat n * 128 <= zlen bs - i * 128 -> 0 <= i -> records n (drop (Z.to_nat (i * 128)) bs) = (fun i => record_at bs i) <$> seqZ i (Z.of_nat n).
Proof.
  revert i. induction n as [|n IH]; intros i Hn Hi; [done|]. cbn [records]. rewrite seqZ_cons by lia. cbn [fmap list_fmap]. f_equal.
  rewrite drop_drop. replace (Z.to_nat (i * 128) + 128)%nat with (Z.to_nat ((i + 1) * 128)) by lia. replace (Z.pred (Z.of_nat (S n))) with (Z.of_nat n) by lia. rewrite IH by lia. by replace (Z.succ i) with (i + 1) by lia.
Qed.
Lemma dump_loop_ok reads : Forall whole reads -> dump_loop (Some <$> reads) = Ret (mjoin (rec_line <$> file_records (mjoin reads))).
Proof.
  induction 1 as [|bs reads (n & Hn & Hl) HF IH]; [done|]. cbn [fmap list_fmap dump_loop]. rewrite IH. change (mjoin (bs :: reads)) with (bs ++ mjoin reads).
  rewrite (records_app (Z.to_nat n)) by lia. rewrite fmap_app, join_app. do 3 f_equal. change sizeof_rec with 128. rewrite Hl, Z.div_mul by lia.
  pose proof (records_at (Z.to_nat n) bs 0) as R. cbn [Z.mul Z.to_nat drop] in R. change (drop (Z.to_nat (0 * 128)) bs) with bs in R. rewrite R by lia. rewrite Z2Nat.id by lia. by rewrite <- list_fmap_compose.
Qed.

(** ** One after the other *)

Section Pipeline.
Context (rand : Z -> nat -> Z) (Hrand : forall s k, 0 <= rand s k).
Context (qsort : (rec_t -> rec_t -> Z) -> list rec_t -> list rec_t) (Hq : sorts qsort).
Context (can_write : string -> bool).

(** C34: [generate] of [n] records writes [n] records of 128 bytes, in pieces of
    up to 32; [fastsort] of a file with those bytes, however they are read in
    whole records, writes them in increasing order of key, without overrunning
    its array and without an overflow in its comparison (the keys [generate]
    makes are below 10^9); and [dump] of that file prints one line for each
    record, in that order. *)
Theorem generate_fastsort_dump n seed g o : can_write g = true -> can_write o = true ->
  exists ws, generate rand can_write (fun _ m => m) [Gen_n n; Gen_s seed; Gen_o g] = Ret (Generated ws) /\ zlen (mjoin ws) = 128 * Z.max 0 n /\
  forall files reads, files g = Some reads -> Forall whole reads -> mjoin reads = mjoin ws ->
  exists sorted ws', main qsort files can_write 5 [Opt_i g; Opt_o o] = Ret (Sorted_file o ws') /\
    sorted ≡ₚ fill rand seed (Z.to_nat n) 0 /\ StronglySorted (fun a b => key a <= key b) sorted /\
    forall files' reads', files' o = Some (Some <$> reads') -> Forall whole reads' -> mjoin reads' = mjoin ws' ->
      dump files' [Dump_i o] = Ret (Some (mjoin (rec_line <$> sorted))).
Proof using Hrand Hq.
  intros Hg Ho. unfold generate. cbn [gen_options]. rewrite Hg.
  destruct (gen_loop_ok rand (fun _ m => m) (S (Z.to_nat n)) seed n 0 0 []) as (ws & E & Ej); [done|lia|lia|]. cbn [mjoin list_join app] in Ej. exists ws. split; [exact E|]. split; [rewrite Ej, fill_zlen; lia|].
  intros files reads Hf Hw Hj. assert (Hr : file_records (mjoin reads) = fill rand seed (Z.to_nat n) 0) by (rewrite Hj, Ej; apply file_records_join, fill_sized).
  destruct (fastsort_sorts qsort Hq files can_write g o reads) as (sorted & ws' & Em & Ews & P & S); [done..| |]; [rewrite Hr; by apply fill_small|].
  rewrite Hr in P. exists sorted, ws'. split_and!; [exact Em|exact P|exact S|]. intros files' reads' Hf' Hw' Hj'. unfold dump. cbn [dump_options]. rewrite Hf'. cbn [default from_option id].
  rewrite dump_loop_ok by done. rewrite Hj', Ews, file_records_join; [done|]. eapply sized_perm; [symmetry; exact P|apply fill_sized].
Qed.
End Pipeline.

(** Three records of one seed. *)
Definition demo_rand (s : Z) (k : nat) : Z := (s * 7919 + Z.of_nat k * 1103515245) mod 2 ^ 31.
Definition demo_fill : list rec_t := fill demo_rand 5 3 0.
Definition one_file {A} (name : string) (x : A) (f : string) : option A := if String.eqb f name then Some x else None.

Definition demo_sorted : list rec_t := [nth 0 demo_fill []; nth 2 demo_fill []; nth 1 demo_fill []].

Example demo_line : take 18 (rec_line (nth 0 demo_fill [])) = bytes "key:    39595 rec:".
Proof. vm_compute. reflexivity. Qed.

Lemma generate_fastsort_dump_witness :
  exists ws, generate demo_rand (fun _ => true) (fun _ m => m) [Gen_n 3; Gen_s 5; Gen_o "g"] = Ret (Generated ws) /\
  exists sorted, main insertion (one_file "g" ws) (fun _ => true) 5 [Opt_i "g"; Opt_o "o"] = Ret (Sorted_file "o" [mjoin demo_sorted]) /\
    sorted ≡ₚ demo_fill /\ StronglySorted (fun a b => key a <= key b) sorted /\
    dump (one_file "o" [Some (mjoin demo_sorted)]) [Dump_i "o"] = Ret (Some (mjoin (rec_line <$> sorted))).
Proof.
  destruct (generate_fastsort_dump demo_rand ltac:(intros s k; unfold demo_rand; pose proof (Z.mod_pos_bound (s * 7919 + Z.of_nat k * 1103515245) (2 ^ 31)); lia) insertion insertion_sorts (fun _ => true) 3 5 "g" "o" eq_refl eq_refl) as (ws & Eg & _ & H).
  exists ws. split; [exact Eg|]. assert (ws = [mjoin demo_fill]) as -> by (assert (Ec : generate demo_rand (fun _ => true) (fun _ m => m) [Gen_n 3; Gen_s 5; Gen_o "g"] = Ret (Generated [mjoin demo_fill])) by (vm_compute; reflexivity); congruence).
  assert (Hw : forall l : list rec_t, zlen (mjoin l) = 384 -> Forall whole [mjoin l]) by (intros l Hl; constructor; [|constructor]; exists 3; split; [lia|exact Hl]).
  destruct (H (one_file "g" [mjoin demo_fill]) [mjoin demo_fill] eq_refl (Hw demo_fill eq_refl) eq_refl) as (sorted & ws' & Em & P & St & D).
  assert (ws' = [mjoin demo_sorted]) as -> by (assert (Ec : main insertion (one_file "g" [mjoin demo_fill]) (fun _ => true) 5 [Opt_i "g"; Opt_o "o"] = Ret (Sorted_file "o" [mjoin demo_sorted])) by (vm_compute; reflexivity); congruence).
  exists sorted. split_and!; [exact Em|exact P|exact St|]. exact (D (one_file "o" [Some (mjoin demo_sorted)]) [mjoin demo_sorted] eq_refl (Hw demo_sorted eq_refl) eq_refl).
Defined.
