(* ===== verification/Grep.v ===== *)
(** xv6's [grep] ([src/5/xv6/grep.c], the same in every tree): the matcher of
    Kernighan and Pike, and the loop that runs it over the lines of a file. *)
From S2P Require Import Prelude Bytes.

Module Grep.

(** ** The matcher

    Strings are their bytes up to the NUL. *)

(** [matchstar(c, re, text)], given what [matchhere] does with [re]. *)
Fixpoint matchstar (c : Z) (here : list Z -> bool) (text : list Z) : bool :=
  here text ||
  match text with
  | [] => false
  | t :: text => ((t =? c) || (c =? 46)) && matchstar c here text
  end.

Fixpoint matchhere (re : list Z) : list Z -> bool :=
  match re with
  | [] => fun _ => true
  | r0 :: re1 =>
      let rest text :=
        match text with
        | t :: text => ((r0 =? 46) || (r0 =? t)) && matchhere re1 text
        | [] => false
        end in
      match re1 with
      | [] => fun text => if r0 =? 36 then match text with [] => true | _ => false end else rest text
      | r1 :: re2 => if r1 =? 42 then matchstar r0 (matchhere re2) else rest
      end
  end.

Fixpoint match_anywhere (re text : list Z) : bool :=
  matchhere re text || match text with [] => false | _ :: text => match_anywhere re text end.
Definition matches (re text : list Z) : bool :=
  match re with
  | r0 :: re1 => if r0 =? 94 then matchhere re1 text else match_anywhere re text
  | [] => match_anywhere re text
  end.

(** ** Lines *)

Definition BUFSIZE : Z := 1024.

(** [strchr(p, '\n')]: the index of the first newline from [p] on, [None] at a
    NUL before one; past the end of the buffer nothing is known. *)
Fixpoint newline_in (l : list Z) (i : Z) : res (option Z) :=
  match l with
  | [] => Undef "strchr"
  | c :: l => if c =? 0 then Ret None else if c =? 10 then Ret (Some i) else newline_in l (i + 1)
  end.

(** The text of the line from [p], once its newline is a NUL. *)
Definition line (buf : list Z) (p q : Z) : list Z := part p (q - p) buf.

(** The inner loop: the buffer, where the loop stops, and the lines written.  A
    line that does not match keeps the NUL put over its newline. *)
Fixpoint lines (fuel : nat) (pattern buf : list Z) (p : Z) (out : list (list Z)) : res (list Z * Z * list (list Z)) :=
  match fuel with
  | O => NoFuel
  | S fuel =>
      match newline_in (drop (Z.to_nat p) buf) p with
      | Ret (Some q) =>
          if matches pattern (line buf p q)
          then lines fuel pattern buf (q + 1) (out ++ [part p (q + 1 - p) buf])
          else lines fuel pattern (splice q [0] buf) (q + 1) out
      | Ret None => Ret (buf, p, out)
      | Undef w => Undef w | Panicked m => Panicked m | Blocked c => Blocked c | NoFuel => NoFuel
      end
  end.

(** What follows the inner loop: the partial line moved to the front. *)
Definition keep_rest (buf : list Z) (p m : Z) : list Z * Z :=
  let m := if p =? 0 then 0 else m in
  if m >? 0 then (splice 0 (part p (m - p) buf) buf, m - p) else (buf, m).

(** [grep] on a file holding [file], each [read] returning at most as many
    bytes as the next number of [sizes] (what [read] of a regular file returns
    when these are large): the lines written. *)
Fixpoint grep_loop (sizes : list Z) (pattern file buf : list Z) (m : Z) (out : list (list Z)) : res (list (list Z)) :=
  match sizes with
  | [] => NoFuel
  | k :: sizes =>
      let n := Z.min k (Z.min (BUFSIZE - m) (zlen file)) in
      if n >? 0 then
        let buf := splice m (take (Z.to_nat n) file) buf in
        match lines (S (Z.to_nat BUFSIZE)) pattern buf 0 out with
        | Ret (buf, p, out) =>
            let '(buf, m) := keep_rest buf p (m + n) in
            grep_loop sizes pattern (drop (Z.to_nat n) file) buf m out
        | Undef w => Undef w | Panicked e => Panicked e | Blocked c => Blocked c | NoFuel => NoFuel
        end
      else Ret out
  end.
(** [buf] is a global of zeros. *)
Definition grep (sizes : list Z) (pattern file : list Z) : res (list (list Z)) :=
  grep_loop sizes pattern file (replicate 1024 0) 0 [].
End Grep.
