(* ===== verification/GrepSpec.v ===== *)
(** The matcher against the languages its patterns denote, and the lines
    [grep] prints. *)
From S2P Require Import Prelude Bytes Grep.
Import Grep.

(** ** Patterns as regular expressions *)

Inductive atom := Lit (c : Z) | Any.
Inductive item := One (a : atom) | Many (a : atom).

Definition atom_of (r : Z) : atom := if r =? 46 then Any else Lit r.
Definition in_atom (a : atom) (t : Z) : Prop := match a with Any => True | Lit c => t = c end.

(** The items of a pattern after any [^], and whether it ends in [$]. *)
Fixpoint parse (re : list Z) : list item * bool :=
  match re with
  | [] => ([], false)
  | r0 :: re1 =>
      match re1 with
      | [] => if r0 =? 36 then ([], true) else ([One (atom_of r0)], false)
      | r1 :: re2 =>
          if r1 =? 42 then let '(l, e) := parse re2 in (Many (atom_of r0) :: l, e)
          else let '(l, e) := parse re1 in (One (atom_of r0) :: l, e)
      end
  end.

(** The strings a list of items denotes. *)
Inductive denotes : list item -> list Z -> Prop :=
  | d_nil : denotes [] []
  | d_one a t l s : in_atom a t -> denotes l s -> denotes (One a :: l) (t :: s)
  | d_many a xs l s : Forall (in_atom a) xs -> denotes l s -> denotes (Many a :: l) (xs ++ s).

(** A string of the pattern's language at the start of [text], reaching its end
    if the pattern says so. *)
Definition prefix_match (p : list item * bool) (text : list Z) : Prop :=
  exists mid post, text = mid ++ post /\ denotes p.1 mid /\ (p.2 = true -> post = []).

Lemma atom_ok r t : (r =? 46) || (r =? t) = true <-> in_atom (atom_of r) t.
Proof. unfold atom_of. rewrite orb_true_iff, !Z.eqb_eq. destruct (Z.eqb_spec r 46); cbn; intuition congruence. Qed.
Lemma atom_ok' c t : (t =? c) || (c =? 46) = true <-> in_atom (atom_of c) t.
Proof. rewrite <- atom_ok, Z.eqb_sym, orb_comm. done. Qed.

Lemma prefix_nil text : prefix_match ([], false) text.
Proof. exists [], text. split_and!; [done|constructor|done]. Qed.
Lemma prefix_end text : prefix_match ([], true) text <-> text = [].
Proof.
  split; [|intros ->; exists [], []; split_and!; [done|constructor|done]].
  intros (mid & post & -> & D & E). cbn in *. inversion D. by rewrite E.
Qed.
Lemma prefix_one a l e text : prefix_match (One a :: l, e) text <->
  exists t text', text = t :: text' /\ in_atom a t /\ prefix_match (l, e) text'.
Proof.
  split.
  - intros (mid & post & -> & D & E). inversion D; subst. cbn. eexists _, _. split; [done|]. split; [done|]. eexists _, _. done.
  - intros (t & text' & -> & Ht & mid & post & -> & D & E). exists (t :: mid), post. split_and!; [done|by constructor|done].
Qed.
Lemma prefix_many a l e text : prefix_match (Many a :: l, e) text <->
  exists xs text', text = xs ++ text' /\ Forall (in_atom a) xs /\ prefix_match (l, e) text'.
Proof.
  split.
  - intros (mid & post & -> & D & E). inversion D; subst. cbn. exists xs, (s ++ post). rewrite app_assoc. split; [done|]. split; [done|]. eexists _, _. done.
  - intros (xs & text' & -> & Ht & mid & post & -> & D & E). exists (xs ++ mid), post. rewrite app_assoc. split_and!; [done|by constructor|done].
Qed.

Lemma matchstar_ok c here l e : (forall text, here text = true <-> prefix_match (l, e) text) ->
  forall text, matchstar c here text = true <-> prefix_match (Many (atom_of c) :: l, e) text.
Proof.
  intros Hh text. rewrite prefix_many. induction text as [|t text IH]; cbn; rewrite orb_true_iff, Hh.
  - split.
    + intros [H|H]; [by exists [], []|done].
    + intros (xs & text' & E & _ & H). symmetry in E. apply app_nil in E as [-> ->]. by left.
  - rewrite andb_true_iff, atom_ok', IH. split.
    + intros [H|[Ht (xs & text' & -> & Hxs & H)]]; [by exists [], (t :: text)|].
      exists (t :: xs), text'. split_and!; [done|by constructor|done].
    + intros ([|x xs] & text' & E & Hxs & H); cbn in E; [subst; by left|]. injection E as <- ->.
      apply Forall_cons in Hxs as [? ?]. right. split; [done|]. by exists xs, text'.
Qed.

Lemma rest_ok r0 re1 text : (forall text, matchhere re1 text = true <-> prefix_match (parse re1) text) ->
  match text with t :: text => ((r0 =? 46) || (r0 =? t)) && matchhere re1 text | [] => false end = true <->
  prefix_match (One (atom_of r0) :: (parse re1).1, (parse re1).2) text.
Proof.
  intros IH. rewrite prefix_one. destruct text as [|t text].
  - split; [done|]. by intros (? & ? & ? & _).
  - rewrite andb_true_iff, atom_ok, IH, <- surjective_pairing. split.
    + intros [? ?]. by exists t, text.
    + intros (? & ? & [= <- <-] & ? & ?). done.
Qed.

Lemma matchhere_cons r0 r1 re2 text : matchhere (r0 :: r1 :: re2) text =
  if r1 =? 42 then matchstar r0 (matchhere re2) text
  else match text with t :: text => ((r0 =? 46) || (r0 =? t)) && matchhere (r1 :: re2) text | [] => false end.
Proof. cbn [matchhere]. by destruct (r1 =? 42). Qed.
Lemma parse_cons r0 r1 re2 : parse (r0 :: r1 :: re2) =
  if r1 =? 42 then (Many (atom_of r0) :: (parse re2).1, (parse re2).2)
  else (One (atom_of r0) :: (parse (r1 :: re2)).1, (parse (r1 :: re2)).2).
Proof.
  cbn [parse]. destruct (r1 =? 42); [by destruct (parse re2)|].
  match goal with |- (let '(l, e) := ?x in _) = _ => by destruct x end.
Qed.

Lemma matchhere_ok n re text : (length re <= n)%nat -> matchhere re text = true <-> prefix_match (parse re) text.
Proof.
  revert re text. induction n as [|n IH]; intros [|r0 re1] text Hn; cbn in Hn; try lia.
  1,2: split; [intros _; apply prefix_nil|done].
  assert (IH1 : forall text, matchhere re1 text = true <-> prefix_match (parse re1) text) by (intros; apply IH; lia).
  pose proof (rest_ok r0 re1 text IH1) as Hr. destruct re1 as [|r1 re2].
  - cbn [matchhere parse]. destruct (r0 =? 36); [rewrite prefix_end; by destruct text|]. exact Hr.
  - rewrite matchhere_cons, parse_cons. destruct (r1 =? 42); [|exact Hr].
    apply matchstar_ok. intros text'. rewrite <- surjective_pairing. apply IH. cbn in *. lia.
Qed.

Lemma match_anywhere_ok re text : match_anywhere re text = true <-> exists pre rest, text = pre ++ rest /\ prefix_match (parse re) rest.
Proof.
  induction text as [|t text IH]; cbn; rewrite orb_true_iff, (matchhere_ok (length re)) by done.
  - split; [intros [H|H]; [by exists [], []|done]|]. intros (pre & rest & E & H). symmetry in E. apply app_nil in E as [-> ->]. by left.
  - rewrite IH. split.
    + intros [H|(pre & rest & -> & H)]; [by exists [], (t :: text)|by exists (t :: pre), rest].
    + intros ([|x pre] & rest & E & H); cbn in E; [subst; by left|]. injection E as <- ->. right. by exists pre, rest.
Qed.

(** C36: [match] decides the language a pattern denotes: it answers 1 exactly
    when some part of the text is in the language (each character standing for
    itself, [.] for any, [c*] for any number of [c]), that part starting at the
    start of the text after a leading [^], and reaching its end before a
    final [$]. *)
Theorem match_decides_language re text :
  matches re text = true <->
  exists pre mid post, text = pre ++ mid ++ post /\
    let '(anchored, body) := match re with r0 :: re1 => if r0 =? 94 then (true, re1) else (false, re) | [] => (false, []) end in
    denotes (parse body).1 mid /\ (anchored = true -> pre = []) /\ ((parse body).2 = true -> post = []).
Proof.
  assert (Start : forall body, matchhere body text = true <-> exists pre mid post, text = pre ++ mid ++ post /\
    denotes (parse body).1 mid /\ (true = true -> pre = []) /\ ((parse body).2 = true -> post = [])).
  { intros body. rewrite (matchhere_ok (length body)) by done. split.
    - intros (mid & post & -> & ? & ?). by exists [], mid, post.
    - intros (pre & mid & post & -> & ? & Hp & ?). rewrite Hp by done. by exists mid, post. }
  assert (Any : forall body, match_anywhere body text = true <-> exists pre mid post, text = pre ++ mid ++ post /\
    denotes (parse body).1 mid /\ (false = true -> pre = []) /\ ((parse body).2 = true -> post = [])).
  { intros body. rewrite match_anywhere_ok. split.
    - intros (pre & rest & -> & mid & post & -> & ? & ?). by exists pre, mid, post.
    - intros (pre & mid & post & -> & ? & _ & ?). exists pre, (mid ++ post). split; [done|]. by exists mid, post. }
  destruct re as [|r0 re1]; [apply Any|]. cbn [matches]. destruct (r0 =? 94); [apply Start|apply Any].
Qed.

(** ** Lines *)

(** Lines written twice: what is left in the buffer from one [read] is scanned
    again after a shorter one. *)
Example grep_repeats_old_lines :
  grep [10; 1024; 1024] [] (bytes "aa" ++ [10] ++ bytes "bb" ++ [10] ++ bytes "cc" ++ [10] ++ bytes "dd" ++ [10]) =
  Ret [bytes "aa" ++ [10]; bytes "bb" ++ [10]; bytes "cc" ++ [10]; bytes "dd" ++ [10]; bytes "bb" ++ [10]; bytes "cc" ++ [10]].
Proof. vm_compute. reflexivity. Qed.

(** A piece without a newline is forgotten. *)
Example grep_drops_a_piece :
  grep [2; 1024; 1024] [] (bytes "aabb" ++ [10]) = Ret [bytes "bb" ++ [10]].
Proof. vm_compute. reflexivity. Qed.
