(* ===== verification/Kalloc.v ===== *)
(** Physical memory and its page allocator ([src/5/xv6/kalloc.c]).

    Memory is a map from page addresses to the 4096 bytes of the page; the
    kernel's pointers are physical addresses.  The free list runs through the
    free pages themselves: a page's first word is the next page's address. *)
From S2P Require Import Prelude Bytes.

Module Kalloc.

Definition PGSIZE : Z := 4096.
Definition PHYSTOP : Z := 16777216.
Definition PGROUNDUP (a : Z) : Z := u32 (a + PGSIZE - 1) / PGSIZE * PGSIZE.
Definition PGROUNDDOWN (a : Z) : Z := u32 a / PGSIZE * PGSIZE.

Record pmem := mkMem { ram : gmap Z (list Z); freelist : Z; kmem_locked : bool }.
Definition set_ram m s := mkMem m (freelist s) (kmem_locked s).
Definition set_freelist a s := mkMem (ram s) a (kmem_locked s).
Definition set_kmem_locked b s := mkMem (ram s) (freelist s) b.

(** ** Loads and stores *)

Definition rd_page (p : Z) : M pmem (list Z) := s ← get; deref "memory" (ram s !! p).
Definition wr_page (p : Z) (x : list Z) : M pmem unit :=
  rd_page p;; modify (fun s => set_ram (<[p := x]> (ram s)) s).
Definition rd32 (a : Z) : M pmem Z := x ← rd_page (PGROUNDDOWN a); mret (word x (a mod PGSIZE)).
Definition wr32 (a v : Z) : M pmem unit :=
  x ← rd_page (PGROUNDDOWN a); wr_page (PGROUNDDOWN a) (splice (a mod PGSIZE) (to_le 4 v) x).
(** [memset] of a whole page. *)
Definition memset_page (p c : Z) : M pmem unit := wr_page p (replicate 4096 c).

Section Kalloc.
(** The first address after the kernel, placed by the linker. *)
Variable kend : Z.

Definition acquire_kmem : M pmem unit :=
  s ← get; if kmem_locked s then panic "acquire" else modify (set_kmem_locked true).
Definition release_kmem : M pmem unit :=
  s ← get; if kmem_locked s then modify (set_kmem_locked false) else panic "release".

Definition kfree (v : Z) : M pmem unit :=
  if negb (v mod PGSIZE =? 0) || (v <? kend) || (v >=? PHYSTOP) then panic "kfree"
  else
    memset_page v 1;;
    acquire_kmem;;
    s ← get;
    wr32 v (freelist s);;
    modify (set_freelist v);;
    release_kmem.

Definition kalloc : M pmem Z :=
  acquire_kmem;;
  s ← get;
  (if freelist s =? 0 then mret tt else next ← rd32 (freelist s); modify (set_freelist next));;
  release_kmem;;
  mret (freelist s).

Fixpoint kinit_loop (fuel : nat) (p : Z) : M pmem unit :=
  match fuel with
  | O => no_fuel
  | S fuel => if u32 (p + PGSIZE) <=? PHYSTOP then kfree p;; kinit_loop fuel (u32 (p + PGSIZE)) else mret tt
  end.
(** The [bss] starts zeroed, so the list starts empty. *)
Definition kinit : M pmem unit :=
  modify (set_kmem_locked false);;
  kinit_loop (S (Z.to_nat (PHYSTOP / PGSIZE))) (PGROUNDUP kend).

End Kalloc.
End Kalloc.
