(* ===== verification/KallocSpec.v ===== *)
(** What the page allocator promises: the pages of memory are shared out
    between a free list and the pages in use, none in both. *)
From S2P Require Import Prelude Bytes Kalloc.
Import Kalloc.

Section KallocSpec.
Context (kend : Z).
Implicit Types (s : pmem) (fl : list Z) (m : gmap Z (list Z)).

(** A page the allocator may own. *)
Definition is_page (p : Z) : Prop := (4096 | p) /\ 0 < p /\ kend <= p < PHYSTOP.
Definition has_page m (p : Z) : Prop := exists x, m !! p = Some x /\ zlen x = 4096.

(** The list threaded from [p] visits the pages [fl]. *)
Fixpoint chain m (p : Z) fl : Prop :=
  match fl with
  | [] => p = 0
  | q :: fl => p = q /\ exists x, m !! q = Some x /\ zlen x = 4096 /\ chain m (word x 0) fl
  end.

Record kmem_ok fl s : Prop := {
  km_chain : chain (ram s) (freelist s) fl;
  km_nodup : NoDup fl;
  km_pages : Forall is_page fl;
  km_free : kmem_locked s = false
}.

Lemma page_down p : is_page p -> PGROUNDDOWN p = p /\ p mod 4096 = 0.
Proof.
  intros ([k ->] & Hp & Hr). unfold PGROUNDDOWN, PGSIZE, PHYSTOP in *. rewrite u32_small by (unfold in_u32; lia).
  rewrite Z_div_mult, Z_mod_mult by lia. done.
Qed.

Lemma chain_ext m m' p fl : (forall q, q ∈ fl -> m' !! q = m !! q) -> chain m p fl -> chain m' p fl.
Proof.
  revert p. induction fl as [|q fl IH]; cbn; [done|]. intros p E (-> & x & Hx & Hl & C). split; [done|].
  exists x. rewrite E by set_solver. split_and!; [done..|]. apply IH; [|done]. intros r Hr. apply E. set_solver.
Qed.

Lemma chain_head m p fl : Forall is_page fl -> chain m p fl ->
  (p = 0 /\ fl = []) \/ (p <> 0 /\ exists fl', fl = p :: fl').
Proof.
  destruct fl as [|q fl]; cbn; [by left|]. intros Hf (-> & _). right.
  apply Forall_inv in Hf as (_ & ? & _). split; [lia|eauto].
Qed.

Lemma kmem_ext fl s s' : freelist s' = freelist s -> kmem_locked s' = kmem_locked s ->
  (forall q, q ∈ fl -> ram s' !! q = ram s !! q) -> kmem_ok fl s -> kmem_ok fl s'.
Proof. intros E1 E2 E3 [C N P F]. split; [rewrite E1; by eapply chain_ext|done|done|by rewrite E2]. Qed.

(** [kalloc] takes the first page of the list, or answers 0 when there is
    none; memory is as it was. *)
Lemma kalloc_spec fl s : kmem_ok fl s ->
  wp kalloc (fun r s' => ram s' = ram s /\ kmem_ok (tail fl) s' /\ r = default 0 (head fl)) s.
Proof.
  intros [C N P F]. unfold wp, kalloc, acquire_kmem. rewrite bind_assoc. rewrite bind_get, F. rewrite bind_modify, bind_get.
  cbn [freelist set_kmem_locked].
  destruct fl as [|p fl]; cbn in C.
  - rewrite C. cbn. split_and!; [done| |done]. split; [done..|]. done.
  - destruct C as (Ep & x & Hx & Hl & C). pose proof (Forall_inv P) as Hp. pose proof (page_down p Hp) as [Ed Em].
    destruct (freelist s =? 0) eqn:E0; [destruct Hp as (_ & ? & _); lia|]. rewrite Ep.
    unfold rd32, rd_page. rewrite !bind_assoc. rewrite bind_get. cbn [ram set_kmem_locked]. rewrite Ed, Hx.
    change PGSIZE with 4096. rewrite Em. cbn. split_and!; [done| |done].
    apply NoDup_cons in N as [N1 N2]. apply Forall_cons in P as [P1 P2]. split; done.
Qed.

(** A freed page: the link, then junk. *)
Definition junk (next : Z) : list Z := splice 0 (to_le 4 next) (replicate 4096 1).

Lemma kfree_junk fl s p : kmem_ok fl s -> is_page p -> p ∉ fl -> has_page (ram s) p ->
  wp (kfree kend p) (fun _ s' => kmem_ok (p :: fl) s' /\ zlen (junk (freelist s)) = 4096 /\
    ram s' = <[p := junk (freelist s)]> (ram s)) s.
Proof.
  intros K Hp Hn (x & Hx & Hl). pose proof (page_down p Hp) as [Ed Em]. destruct K as [C N P F].
  unfold wp, kfree. change PGSIZE with 4096. rewrite Em. destruct Hp as (Hd & H0 & Hr).
  rewrite (proj2 (Z.ltb_ge _ _)) by lia. replace (p >=? PHYSTOP) with false by lia. cbn [negb orb Z.eqb].
  unfold memset_page, wr_page, rd_page. rewrite !bind_assoc, bind_get. rewrite Hx, bind_deref. rewrite bind_modify.
  unfold acquire_kmem. rewrite bind_assoc, bind_get. cbn [kmem_locked set_ram]. rewrite F. rewrite bind_modify, bind_get.
  unfold wr32. rewrite !bind_assoc. unfold rd_page. rewrite !bind_assoc, bind_get. cbn [ram set_ram set_kmem_locked]. rewrite Ed.
  rewrite lookup_insert_eq, bind_deref. unfold wr_page, rd_page. rewrite !bind_assoc, bind_get. cbn [ram set_ram set_kmem_locked].
  rewrite lookup_insert_eq, bind_deref. rewrite bind_modify. rewrite bind_modify. unfold release_kmem. rewrite bind_get.
  cbn -[to_le splice word replicate]. change PGSIZE with 4096. rewrite Em.
  fold (junk (freelist s)). set (y := junk _).
  assert (Hy : zlen y = 4096 /\ word y 0 = freelist s).
  { unfold y, junk. pose proof (zlen_nonneg x). split.
    - rewrite zlen_word_splice; [done|lia|unfold zlen; by rewrite length_replicate].
    - apply word_splice_eq; [lia|unfold zlen; by rewrite length_replicate|].
      destruct (chain_head _ _ _ P C) as [[-> _]|(_ & fl' & Efl)]; [unfold in_u32; lia|].
      rewrite Efl in P. apply Forall_inv in P as (_ & ? & ?). unfold in_u32, PHYSTOP in *. lia. }
  destruct Hy as [Hy Hw]. split; [|split; [done|apply insert_insert_eq]]. split; cbn.
  - split; [done|]. exists y. rewrite lookup_insert_eq. split_and!; [done..|]. rewrite Hw.
    eapply chain_ext, C. intros q Hq. assert (q <> p) by set_solver. by rewrite !lookup_insert_ne by done.
  - by apply NoDup_cons.
  - apply Forall_cons. split; [|done]. repeat split; try done; lia.
  - done.
Qed.

Lemma kfree_spec fl s p : kmem_ok fl s -> is_page p -> p ∉ fl -> has_page (ram s) p ->
  wp (kfree kend p) (fun _ s' => kmem_ok (p :: fl) s' /\ exists x, zlen x = 4096 /\ ram s' = <[p := x]> (ram s)) s.
Proof. intros. eapply wp_mono; [by apply kfree_junk|]. cbv beta. intros _ s' (? & ? & ?). eauto. Qed.

(** ** Boot *)

Definition npages : Z := (PHYSTOP - PGROUNDUP kend) / 4096.
Definition page_no (k : Z) : Z := PGROUNDUP kend + 4096 * k.
Definition all_pages : list Z := page_no <$> seqZ 0 npages.

Context (Hend : 0 < kend <= PHYSTOP).

Lemma page_no_ok k : 0 <= k < npages -> is_page (page_no k) /\ page_no (k + 1) <= PHYSTOP.
Proof.
  unfold is_page, page_no, npages, PGROUNDUP, PGSIZE, PHYSTOP in *. rewrite u32_small by (unfold in_u32; lia).
  intros Hk. split; [|dlia]. split_and!; [|dlia..]. apply Z.divide_add_r; [apply Z.divide_factor_r|apply Z.divide_factor_l].
Qed.

Lemma page_no_last : u32 (page_no npages + 4096) > PHYSTOP.
Proof.
  unfold page_no, npages, PGROUNDUP, PGSIZE, PHYSTOP in *. rewrite !(u32_small (kend + _ - _)) by (unfold in_u32; lia).
  rewrite u32_small by (unfold in_u32; dlia). dlia.
Qed.

Lemma seqZ_snoc k : 0 <= k -> seqZ 0 (k + 1) = seqZ 0 k ++ [k].
Proof. intros. rewrite seqZ_app by lia. done. Qed.

Lemma kinit_loop_spec fuel k s :
  0 <= k <= npages -> npages - k < Z.of_nat fuel -> (forall j, 0 <= j < npages -> has_page (ram s) (page_no j)) ->
  kmem_ok (reverse (page_no <$> seqZ 0 k)) s ->
  wp (kinit_loop kend fuel (page_no k)) (fun _ s' => kmem_ok (reverse all_pages) s' /\
    (forall p, has_page (ram s) p -> has_page (ram s') p)) s.
Proof.
  revert k s. induction fuel as [|fuel IH]; [lia|]. intros k s Hk Hf Hm K. cbn [kinit_loop]. change PGSIZE with 4096.
  destruct (decide (k = npages)) as [->|Hne].
  - rewrite (proj2 (Z.leb_gt _ _)) by (pose proof page_no_last; lia). by apply wp_ret.
  - assert (Hkn : 0 <= k < npages) by lia. pose proof (page_no_ok k Hkn) as [Hp Hl].
    assert (En : u32 (page_no k + 4096) = page_no (k + 1)).
    { rewrite u32_small; [unfold page_no; lia|]. destruct Hp as (_ & ? & ?). unfold in_u32, page_no, PHYSTOP in *. lia. }
    rewrite En, (proj2 (Z.leb_le _ _)) by lia. apply wp_bind.
    assert (Hnew : page_no k ∉ reverse (page_no <$> seqZ 0 k)).
    { rewrite elem_of_reverse, list_elem_of_fmap. intros (j & Ej & Hj%elem_of_seqZ). unfold page_no in Ej. lia. }
    eapply wp_mono; [apply (kfree_spec _ _ _ K Hp Hnew), Hm, Hkn|]. cbn. intros _ s' (K' & x & Hx & Em).
    assert (Hkeep : forall p, has_page (ram s) p -> has_page (ram s') p).
    { intros p Hh. rewrite Em. destruct (decide (p = page_no k)) as [->|]; [exists x; by rewrite lookup_insert_eq|].
      destruct Hh as (y & Hy & ?). exists y. by rewrite lookup_insert_ne. }
    eapply wp_mono; [apply IH; [lia|lia|auto|]|].
    + rewrite seqZ_snoc, fmap_app, reverse_app by lia. exact K'.
    + cbn. intros _ s'' [? ?]. auto.
Qed.

Lemma kinit_spec s : freelist s = 0 -> (forall p, is_page p -> has_page (ram s) p) ->
  wp (kinit kend) (fun _ s' => kmem_ok (reverse all_pages) s' /\ (forall p, has_page (ram s) p -> has_page (ram s') p)) s.
Proof.
  intros Hf Hm. unfold kinit, wp. rewrite bind_modify. fold (wp (kinit_loop kend (S (Z.to_nat (PHYSTOP / PGSIZE))) (PGROUNDUP kend))
    (fun _ s' => kmem_ok (reverse all_pages) s' /\ (forall p, has_page (ram s) p -> has_page (ram s') p)) (set_kmem_locked false s)).
  replace (PGROUNDUP kend) with (page_no 0) by (unfold page_no; lia).
  assert (Hn : 0 <= npages <= PHYSTOP / PGSIZE).
  { unfold npages, PGROUNDUP, PGSIZE, PHYSTOP in *. rewrite u32_small by (unfold in_u32; lia). dlia. }
  apply (kinit_loop_spec _ 0 (set_kmem_locked false s)); [lia|lia| |].
  - intros j Hj. by apply Hm, page_no_ok.
  - split; cbn; [done|constructor|constructor|done].
Qed.

(** ** Any use of the allocator *)

(** A user allocates, gives back a page it has, and writes what it likes into
    pages it has. *)
Inductive kstep : pmem * list Z -> pmem * list Z -> Prop :=
  | k_alloc s p s' held : kalloc s = Ret (p, s') -> p <> 0 -> kstep (s, held) (s', p :: held)
  | k_none s s' held : kalloc s = Ret (0, s') -> kstep (s, held) (s', held)
  | k_free s p s' h1 h2 : kfree kend p s = Ret (tt, s') -> kstep (s, h1 ++ p :: h2) (s', h1 ++ h2)
  | k_write s p x held : p ∈ held -> zlen x = 4096 -> kstep (s, held) (set_ram (<[p := x]> (ram s)) s, held).

Record shared (c : pmem * list Z) fl : Prop := {
  sh_list : kmem_ok fl c.1;
  sh_split : c.2 ++ fl ≡ₚ all_pages;
  sh_mem : forall p, p ∈ all_pages -> has_page (ram c.1) p
}.

Lemma all_pages_in p : p ∈ all_pages -> is_page p.
Proof.
  unfold all_pages. rewrite list_elem_of_fmap. intros (k & -> & Hk%elem_of_seqZ). apply page_no_ok. lia.
Qed.
Lemma all_pages_nodup : NoDup all_pages.
Proof. apply NoDup_fmap_2; [|apply NoDup_seqZ]. intros i j. unfold page_no. lia. Qed.

Lemma shared_held c fl p : shared c fl -> p ∈ c.2 -> is_page p /\ p ∉ fl /\ has_page (ram c.1) p.
Proof.
  intros [K S Mm] Hp. assert (Ha : p ∈ all_pages) by (rewrite <- S; set_solver). split_and!; [by apply all_pages_in| |by apply Mm].
  pose proof all_pages_nodup as N. rewrite <- S in N. apply NoDup_app in N as (_ & N & _). by apply N.
Qed.

Lemma kalloc_shared s held fl : shared (s, held) fl ->
  exists p s', kalloc s = Ret (p, s') /\ ram s' = ram s /\
    ((p = 0 /\ fl = [] /\ shared (s', held) []) \/ (p <> 0 /\ exists fl', fl = p :: fl' /\ shared (s', p :: held) fl')).
Proof.
  intros [K S Mm]. pose proof (kalloc_spec _ _ K) as (p & s' & E & Er & K' & Ep)%wp_iff.
  exists p, s'. split_and!; [done..|]. destruct fl as [|q fl]; cbn in *.
  - left. split_and!; [done..|]. split; cbn; [done|done|by rewrite Er].
  - right. subst p. split; [by pose proof (Forall_inv (km_pages _ _ K)) as (_ & ? & _); lia|]. exists fl. split; [done|].
    split; cbn; [done| |by rewrite Er]. rewrite <- S. cbn. by rewrite <- Permutation_middle.
Qed.

Lemma kfree_shared s h1 p h2 fl : shared (s, h1 ++ p :: h2) fl ->
  exists s', kfree kend p s = Ret (tt, s') /\ shared (s', h1 ++ h2) (p :: fl) /\ (forall q, q <> p -> ram s' !! q = ram s !! q).
Proof.
  intros Sh. destruct (shared_held _ _ p Sh) as (Hp & Hn & Hm); [cbn; set_solver|]. destruct Sh as [K S Mm]. cbn in *.
  destruct (proj1 (wp_iff _ _ _) (kfree_spec _ _ _ K Hp Hn Hm)) as ([] & s' & E & K' & x & Hx & Em).
  exists s'. split_and!; [done| |intros q ?; by rewrite Em, lookup_insert_ne].
  split; cbn; [done| |].
  - rewrite <- S. rewrite <- !app_assoc. cbn. apply Permutation_app_head. by rewrite <- Permutation_middle.
  - intros q Hq. rewrite Em. destruct (decide (q = p)) as [->|]; [exists x; by rewrite lookup_insert_eq|].
    destruct (Mm q Hq) as (y & ? & ?). exists y. by rewrite lookup_insert_ne.
Qed.

Lemma kstep_shared c c' fl : shared c fl -> kstep c c' -> exists fl', shared c' fl'.
Proof.
  intros Sh St. destruct St as [s p s' held E Hp|s s' held E|s p s' h1 h2 E|s p x held Hp Hx].
  - apply kalloc_shared in Sh as (q & s1 & E1 & _ & [(-> & _)|(_ & fl' & _ & Sh)]); rewrite E in E1; simplify_eq. eauto.
  - apply kalloc_shared in Sh as (q & s1 & E1 & _ & [(-> & _ & Sh)|(? & _)]); rewrite E in E1; simplify_eq. eauto.
  - apply kfree_shared in Sh as (s1 & E1 & Sh & _). rewrite E in E1. simplify_eq. eauto.
  - exists fl. destruct (shared_held _ _ p Sh Hp) as (_ & Hn & _). destruct Sh as [K S Mm]. cbn in *.
    split; cbn; [|done|].
    + eapply kmem_ext, K; cbn; try done. intros q Hq. rewrite lookup_insert_ne; [done|]. set_solver.
    + intros q Hq. destruct (decide (q = p)) as [->|]; [exists x; by rewrite lookup_insert_eq|].
      destruct (Mm q Hq) as (y & ? & ?). exists y. by rewrite lookup_insert_ne.
Qed.

Lemma ksteps_shared c c' : rtc kstep c c' -> (exists fl, shared c fl) -> exists fl, shared c' fl.
Proof. induction 1 as [|c1 c2 c3 St _ IH]; [done|]. intros [fl Sh]. apply IH. by eapply kstep_shared. Qed.

(** C21: From boot, however a user allocates, frees pages it holds and writes
    into them: the pages it holds are distinct pages of memory, [kalloc]
    always returns (0 exactly when the user holds every page) a page the user
    does not hold and changes no memory, and [kfree] of a held page always
    returns and changes no other page it holds. *)
Theorem kalloc_shares_pages s0 s1 s held :
  freelist s0 = 0 -> (forall p, is_page p -> has_page (ram s0) p) ->
  kinit kend s0 = Ret (tt, s1) -> rtc kstep (s1, []) (s, held) ->
  NoDup held /\ Forall is_page held /\
  (exists p s', kalloc s = Ret (p, s') /\ ram s' = ram s /\ p ∉ held /\ (p = 0 <-> held ≡ₚ all_pages)) /\
  (forall p, p ∈ held -> exists s', kfree kend p s = Ret (tt, s') /\ forall q, q ∈ held -> q <> p -> ram s' !! q = ram s !! q).
Proof.
  intros Hf Hm Hi Hr.
  assert (S0 : exists fl, shared (s1, []) fl).
  { destruct (proj1 (wp_iff _ _ _) (kinit_spec s0 Hf Hm)) as ([] & s1' & E & K & Hk). rewrite Hi in E. simplify_eq.
    exists (reverse all_pages). split; cbn; [done|by rewrite reverse_Permutation|]. intros p ?%all_pages_in. auto. }
  assert (Sh : exists fl, shared (s, held) fl).
  { by eapply ksteps_shared. }
  destruct Sh as [fl Sh]. split_and!.
  - pose proof all_pages_nodup as N. rewrite <- (sh_split _ _ Sh) in N. by apply NoDup_app in N as (? & _).
  - apply Forall_forall. intros p Hp. by destruct (shared_held _ _ p Sh Hp).
  - pose proof Sh as (p & s' & E & Er & Hc)%kalloc_shared. exists p, s'. split_and!; [done..| |].
    + destruct Hc as [(-> & _)|(_ & fl' & -> & Sh')]; intros Hin; destruct (shared_held _ _ _ Sh Hin) as ((_ & ? & _) & Hn & _);
        [lia|set_solver].
    + pose proof (sh_split _ _ Sh) as Hs. cbn in Hs. destruct Hc as [(-> & -> & _)|(Hp & fl' & -> & _)].
      * rewrite app_nil_r in Hs. done.
      * split; [done|]. intros E'. rewrite E', <- E' in Hs. apply Permutation_length in Hs, E'. rewrite length_app in Hs. cbn in Hs. lia.
  - intros p (h1 & h2 & ->)%list_elem_of_split. apply kfree_shared in Sh as (s' & E & _ & Ho). eauto.
Qed.
End KallocSpec.

(** Two pages of memory past the kernel: take one, write it, take the other. *)
Definition kend0 : Z := PHYSTOP - 8192.
Definition ram0 : pmem := mkMem {[ kend0 := replicate 4096 0; kend0 + 4096 := replicate 4096 0 ]} 0 true.
Definition run0 : pmem := match kinit kend0 ram0 with Ret (_, s) => s | _ => ram0 end.
Definition run1 : pmem := match kalloc run0 with Ret (_, s) => s | _ => run0 end.

Lemma kalloc_shares_pages_witness : kalloc run0 = Ret (kend0 + 4096, run1) /\ NoDup [kend0 + 4096].
Proof.
  split; [vm_compute; reflexivity|].
  refine (proj1 (kalloc_shares_pages kend0 _ ram0 run0 run1 [kend0 + 4096] _ _ _ _)).
  - unfold kend0, PHYSTOP. lia.
  - reflexivity.
  - intros p ([k ->] & Hp & Hr). unfold kend0, PHYSTOP in Hr.
    assert (k = 4094 \/ k = 4095) as [-> | ->] by lia; eexists; split; vm_compute; reflexivity.
  - vm_compute. reflexivity.
  - apply rtc_once. apply k_alloc; [vm_compute; reflexivity|vm_compute; discriminate].
Defined.
