(* ===== verification/Vm.v ===== *)
(** Page tables and user address spaces ([src/5/xv6/vm.c], [mmu.h]) in the
    memory of the page allocator.  A [pde_t *] or [pte_t *] is the physical
    address of an entry, and entries are the little-endian words found there. *)
From S2P Require Import Prelude Bytes Kalloc.

Module Vm.
Import Kalloc.

Definition USERTOP : Z := 655360.
Definition NPDENTRIES : Z := 1024.
Definition PTE_P : Z := 1.
Definition PTE_W : Z := 2.
Definition PTE_U : Z := 4.
Definition PDX (la : Z) : Z := Z.land (Z.shiftr (u32 la) 22) 1023.
Definition PTX (la : Z) : Z := Z.land (Z.shiftr (u32 la) 12) 1023.
Definition PTE_ADDR (pte : Z) : Z := Z.land (u32 pte) (Z.lnot 4095).
Definition present (e : Z) : bool := negb (Z.land e PTE_P =? 0).

Section Vm.
(** Linker symbols: the end of the kernel, and the start of its data. *)
Variables kend kdata : Z.

Definition walkpgdir (pgdir va : Z) (create : bool) : M pmem (option Z) :=
  let pde := pgdir + 4 * PDX va in
  e ← rd32 pde;
  pgtab ← (if present e then mret (PTE_ADDR e)
           else if negb create then mret 0
           else
             t ← kalloc;
             if t =? 0 then mret 0
             else
               memset_page t 0;;
               wr32 pde (Z.lor t (Z.lor PTE_P (Z.lor PTE_W PTE_U)));;
               mret t);
  mret (if negb (present e) && (pgtab =? 0) then None else Some (pgtab + 4 * PTX va)).

Fixpoint mappages_loop (fuel : nat) (pgdir a last pa perm : Z) : M pmem Z :=
  match fuel with
  | O => no_fuel
  | S fuel =>
      pte ← walkpgdir pgdir a true;
      match pte with
      | None => mret (-1)
      | Some pte =>
          e ← rd32 pte;
          if present e then panic "remap"
          else
            wr32 pte (Z.lor pa (Z.lor perm PTE_P));;
            if a =? last then mret 0
            else mappages_loop fuel pgdir (u32 (a + PGSIZE)) last (u32 (pa + PGSIZE)) perm
      end
  end.
Definition mappages (pgdir la size pa perm : Z) : M pmem Z :=
  let a := PGROUNDDOWN la in
  let last := PGROUNDDOWN (la + size - 1) in
  mappages_loop (S (Z.to_nat (u32 (last - a) / PGSIZE))) pgdir a last pa perm.

(** [kmap]: start, end and permissions of the kernel's direct mappings. *)
Definition kmap : list (Z * Z * Z) :=
  [(USERTOP, 1048576, PTE_W); (1048576, kdata, 0); (kdata, PHYSTOP, PTE_W); (4261412864, 0, PTE_W)].

Fixpoint map_all (pgdir : Z) (l : list (Z * Z * Z)) : M pmem bool :=
  match l with
  | [] => mret true
  | (p, e, perm) :: l =>
      r ← mappages pgdir p (u32 (e - p)) p perm;
      if r <? 0 then mret false else map_all pgdir l
  end.
Definition setupkvm : M pmem Z :=
  pgdir ← kalloc;
  if pgdir =? 0 then mret 0
  else
    memset_page pgdir 0;;
    ok ← map_all pgdir kmap;
    mret (if (ok : bool) then pgdir else 0).

(** A null [mem] is written to without a test. *)
Definition inituvm (pgdir : Z) (init : list Z) : M pmem unit :=
  if zlen init >=? PGSIZE then panic "inituvm: more than a page"
  else
    mem ← kalloc;
    if mem =? 0 then undef "inituvm: null"
    else
      memset_page mem 0;;
      mappages pgdir 0 PGSIZE mem (Z.lor PTE_W PTE_U);;
      x ← rd_page mem;
      wr_page mem (splice 0 init x).

Fixpoint dealloc_loop (fuel : nat) (pgdir a oldsz : Z) : M pmem unit :=
  match fuel with
  | O => no_fuel
  | S fuel =>
      if a <? oldsz then
        pte ← walkpgdir pgdir a false;
        match pte with
        | None => mret tt
        | Some pte =>
            e ← rd32 pte;
            if present e then
              if PTE_ADDR e =? 0 then panic "kfree"
              else kfree kend (PTE_ADDR e);; wr32 pte 0
            else mret tt
        end;;
        dealloc_loop fuel pgdir (u32 (a + PGSIZE)) oldsz
      else mret tt
  end.
Definition deallocuvm (pgdir oldsz newsz : Z) : M pmem Z :=
  if newsz >=? oldsz then mret oldsz
  else dealloc_loop (S (Z.to_nat (oldsz / PGSIZE) + 1)) pgdir (PGROUNDUP newsz) oldsz;; mret newsz.

Fixpoint alloc_loop (fuel : nat) (pgdir oldsz newsz a : Z) : M pmem Z :=
  match fuel with
  | O => no_fuel
  | S fuel =>
      if a <? newsz then
        mem ← kalloc;
        if mem =? 0 then deallocuvm pgdir newsz oldsz;; mret 0
        else
          memset_page mem 0;;
          mappages pgdir a PGSIZE mem (Z.lor PTE_W PTE_U);;
          alloc_loop fuel pgdir oldsz newsz (u32 (a + PGSIZE))
      else mret newsz
  end.
Definition allocuvm (pgdir oldsz newsz : Z) : M pmem Z :=
  if newsz >? USERTOP then mret 0
  else if newsz <? oldsz then mret oldsz
  else alloc_loop (S (Z.to_nat (newsz / PGSIZE) + 1)) pgdir oldsz newsz (PGROUNDUP oldsz).

Fixpoint free_tables (n : nat) (pgdir i : Z) : M pmem unit :=
  match n with
  | O => mret tt
  | S n =>
      e ← rd32 (pgdir + 4 * i);
      (if present e then kfree kend (PTE_ADDR e) else mret tt);;
      free_tables n pgdir (i + 1)
  end.
Definition freevm (pgdir : Z) : M pmem unit :=
  if pgdir =? 0 then panic "freevm: no pgdir"
  else
    deallocuvm pgdir USERTOP 0;;
    free_tables (Z.to_nat NPDENTRIES) pgdir 0;;
    kfree kend pgdir.

Fixpoint copy_loop (fuel : nat) (pgdir d i sz : Z) : M pmem Z :=
  match fuel with
  | O => no_fuel
  | S fuel =>
      if i <? sz then
        pte ← walkpgdir pgdir i false;
        match pte with
        | None => panic "copyuvm: pte should exist"
        | Some pte =>
            e ← rd32 pte;
            if negb (present e) then panic "copyuvm: page not present"
            else
              mem ← kalloc;
              if mem =? 0 then freevm d;; mret 0
              else
                x ← rd_page (PTE_ADDR e);
                wr_page mem x;;
                r ← mappages d i PGSIZE mem (Z.lor PTE_W PTE_U);
                if r <? 0 then freevm d;; mret 0
                else copy_loop fuel pgdir d (u32 (i + PGSIZE)) sz
        end
      else mret d
  end.
Definition copyuvm (pgdir sz : Z) : M pmem Z :=
  d ← setupkvm;
  if d =? 0 then mret 0 else copy_loop (S (Z.to_nat (sz / PGSIZE) + 1)) pgdir d 0 sz.

(** Without a page table there, [*pte] is a null dereference. *)
Definition uva2ka (pgdir uva : Z) : M pmem Z :=
  pte ← walkpgdir pgdir uva false;
  match pte with
  | None => undef "uva2ka: null"
  | Some pte =>
      e ← rd32 pte;
      mret (if Z.land e PTE_P =? 0 then 0 else if Z.land e PTE_U =? 0 then 0 else PTE_ADDR e)
  end.

Fixpoint copyout_loop (fuel : nat) (pgdir va : Z) (p : list Z) (len : Z) : M pmem Z :=
  match fuel with
  | O => no_fuel
  | S fuel =>
      if len >? 0 then
        let va0 := PGROUNDDOWN va in
        pa0 ← uva2ka pgdir va0;
        if pa0 =? 0 then mret (-1)
        else
          let n := if PGSIZE - (va - va0) >? len then len else PGSIZE - (va - va0) in
          x ← rd_page pa0;
          wr_page pa0 (splice (va - va0) (take (Z.to_nat n) p) x);;
          copyout_loop fuel pgdir (u32 (va0 + PGSIZE)) (drop (Z.to_nat n) p) (len - n)
      else mret 0
  end.
(** [len] is the length of [p]. *)
Definition copyout (pgdir va : Z) (p : list Z) : M pmem Z :=
  copyout_loop (S (Z.to_nat (zlen p / PGSIZE) + 2)) pgdir va p (zlen p).

End Vm.
End Vm.
