(* ===== verification/VmSpec.v ===== *)
(** Address spaces against an abstract page table: a directory [pd] with its
    tables [T], by directory index, stands for the function [E] from page
    numbers to entries. *)
From S2P Require Import Prelude Bytes Kalloc KallocSpec Vm.
Import Kalloc.
Import Vm.

(** ** Entries *)

Lemma lor_flags p f : (4096 | p) -> 0 <= f < 4096 -> Z.lor p f = p + f.
Proof.
  intros [k ->] Hf. assert (E : Z.land (k * 4096) f = 0).
  { apply Z.bits_inj'. intros n Hn. rewrite Z.land_spec, Z.bits_0. destruct (Z.ltb_spec n 12) as [L|G].
    - change 4096 with (2 ^ 12). by rewrite Z.mul_pow2_bits_low.
    - rewrite (Z.bits_above_log2 f); [apply andb_false_r|lia|].
      destruct (decide (f = 0)) as [->|]; [cbn; lia|]. apply Z.log2_lt_pow2; [lia|].
      apply Z.lt_le_trans with (2 ^ 12); [lia|]. by apply Z.pow_le_mono_r. }
  pose proof (Z.add_lor_land (k * 4096) f). lia.
Qed.

Lemma PTE_ADDR_flags p f : (4096 | p) -> 0 <= p < PHYSTOP -> 0 <= f < 4096 -> PTE_ADDR (Z.lor p f) = p.
Proof.
  unfold PHYSTOP. intros Hd Hp Hf. rewrite lor_flags by done. unfold PTE_ADDR. rewrite u32_small by (unfold in_u32; lia).
  rewrite <- Z.ldiff_land. change 4095 with (Z.ones 12). rewrite Z.ldiff_ones_r, Z.shiftl_mul_pow2, Z.shiftr_div_pow2 by lia.
  destruct Hd as [k ->]. dlia.
Qed.

Lemma present_flags p f : (4096 | p) -> 0 <= f < 4096 -> present (Z.lor p (Z.lor f PTE_P)) = true.
Proof.
  intros Hd Hf. unfold present. rewrite <- Z.land_lor_distr_l || rewrite Z.land_comm, !Z.land_lor_distr_r.
  apply negb_true_iff, Z.eqb_neq. intros E. apply (f_equal (fun z => Z.testbit z 0)) in E.
  rewrite !Z.lor_spec, !Z.land_spec in E. cbn in E. by rewrite !orb_true_r in E.
Qed.

Lemma PDX_div va : in_u32 va -> PDX va = va / 4194304 /\ 0 <= va / 4194304 < 1024.
Proof.
  unfold in_u32, PDX. intros H. rewrite u32_small by done. change 1023 with (Z.ones 10).
  rewrite Z.land_ones, Z.shiftr_div_pow2 by lia. change (2 ^ 22) with 4194304. change (2 ^ 10) with 1024.
  assert (0 <= va / 4194304 < 1024) by dlia. rewrite Z.mod_small by done. done.
Qed.
Lemma PTX_mod va : in_u32 va -> PTX va = va / 4096 mod 1024.
Proof.
  unfold in_u32, PTX. intros H. rewrite u32_small by done. change 1023 with (Z.ones 10).
  by rewrite Z.land_ones, Z.shiftr_div_pow2 by lia.
Qed.
Lemma page_index va : in_u32 va -> va / 4096 = 1024 * (va / 4194304) + va / 4096 mod 1024 /\ 0 <= va / 4096 mod 1024 < 1024.
Proof. unfold in_u32. intros H. dlia. Qed.

Section VmSpec.
Context (kend kdata : Z).
Implicit Types (s : pmem) (fl : list Z) (m : gmap Z (list Z)) (pd : Z) (T : gmap Z Z) (E : Z -> Z).
Notation is_page := (is_page kend).

(** ** Loads and stores of entries *)

Lemma entry_down p j : is_page p -> 0 <= j < 1024 -> PGROUNDDOWN (p + 4 * j) = p /\ (p + 4 * j) mod PGSIZE = 4 * j.
Proof.
  intros ([k ->] & Hp & Hr) Hj. unfold PGROUNDDOWN, PGSIZE, PHYSTOP in *. rewrite u32_small by (unfold in_u32; lia). dlia.
Qed.

Lemma rd32_entry s p j x : is_page p -> 0 <= j < 1024 -> ram s !! p = Some x -> rd32 (p + 4 * j) s = Ret (word x (4 * j), s).
Proof.
  intros Hp Hj Hx. destruct (entry_down p j Hp Hj) as [E1 E2]. unfold rd32, rd_page. rewrite bind_assoc, bind_get.
  rewrite E1, Hx, bind_deref, E2. done.
Qed.
Lemma wr32_entry s p j x v : is_page p -> 0 <= j < 1024 -> ram s !! p = Some x ->
  wr32 (p + 4 * j) v s = Ret (tt, set_ram (<[p := splice (4 * j) (to_le 4 v) x]> (ram s)) s).
Proof.
  intros Hp Hj Hx. destruct (entry_down p j Hp Hj) as [E1 E2]. unfold wr32, wr_page, rd_page. rewrite bind_assoc, bind_get.
  rewrite E1, Hx, bind_deref, bind_assoc, bind_get, Hx, bind_deref, E2. done.
Qed.

(** ** Page tables *)

Definition upd E v e : Z -> Z := fun w => if w =? v then e else E w.

Record dir m pd T E : Prop := {
  dir_page : is_page pd;
  dir_pd : exists x, m !! pd = Some x /\ zlen x = 4096 /\
    forall i, 0 <= i < 1024 -> word x (4 * i) = match T !! i with Some t => Z.lor t 7 | None => 0 end;
  dir_tab i t : T !! i = Some t -> 0 <= i < 1024 /\ is_page t /\
    exists y, m !! t = Some y /\ zlen y = 4096 /\ forall j, 0 <= j < 1024 -> word y (4 * j) = E (1024 * i + j);
  dir_none i j : T !! i = None -> 0 <= i < 1024 -> 0 <= j < 1024 -> E (1024 * i + j) = 0
}.

(** The pages of a directory. *)
Definition tables T : list Z := snd <$> map_to_list T.
Definition pages_of pd T : list Z := pd :: tables T.

Definition same_out (L : list Z) s s' : Prop := forall q, q ∉ L -> ram s' !! q = ram s !! q.

Lemma elem_tables t T : t ∈ tables T <-> exists i, T !! i = Some t.
Proof.
  unfold tables. rewrite list_elem_of_fmap. split.
  - intros ([i t'] & -> & Hi%elem_of_map_to_list). eauto.
  - intros [i Hi]. exists (i, t). split; [done|]. by apply elem_of_map_to_list.
Qed.
Lemma tables_insert T i t : T !! i = None -> tables (<[i := t]> T) ≡ₚ t :: tables T.
Proof. intros Hi. unfold tables. by rewrite map_to_list_insert. Qed.
Lemma tables_inj T i i' t : NoDup (tables T) -> T !! i = Some t -> T !! i' = Some t -> i = i'.
Proof.
  intros N Hi Hi'. rewrite <- (insert_delete_id T i t) in N by done. rewrite tables_insert in N by apply lookup_delete_eq.
  apply NoDup_cons in N as [N _]. destruct (decide (i = i')); [done|]. exfalso. apply N, elem_tables. exists i'.
  by rewrite lookup_delete_ne.
Qed.

Lemma dir_ext m m' pd T E : (forall q, q ∈ pages_of pd T -> m' !! q = m !! q) -> dir m pd T E -> dir m' pd T E.
Proof.
  intros Eq [D1 (x & Hx & D2) D3 D4]. split; [done| | |done].
  - exists x. rewrite Eq by (unfold pages_of; set_solver). done.
  - intros i t Ht. destruct (D3 i t Ht) as (Hi & Hp & y & Hy & Hr). split; [exact Hi|]. split; [exact Hp|]. exists y.
    rewrite Eq; [done|]. apply elem_of_cons. right. apply elem_tables. eauto.
Qed.

Lemma dir_out m pd T E s s' L : same_out L s s' -> (forall q, q ∈ pages_of pd T -> q ∉ L) ->
  ram s = m -> dir m pd T E -> dir (ram s') pd T E.
Proof. intros Ho Hd <- D. eapply dir_ext, D. intros q Hq. apply Ho. by apply Hd. Qed.

Lemma same_out_refl L s : same_out L s s.
Proof. done. Qed.
Lemma same_out_trans L s1 s2 s3 : same_out L s1 s2 -> same_out L s2 s3 -> same_out L s1 s3.
Proof. intros H1 H2 q Hq. rewrite H2, H1; done. Qed.
Lemma same_out_mono L L' s s' : L ⊆ L' -> same_out L s s' -> same_out L' s s'.
Proof. intros HL H q Hq. apply H. set_solver. Qed.
Lemma kmem_out fl s s' L : same_out L s s' -> (forall q, q ∈ fl -> q ∉ L) ->
  freelist s' = freelist s -> kmem_locked s' = kmem_locked s -> kmem_ok kend fl s -> kmem_ok kend fl s'.
Proof. intros Ho Hd E1 E2. apply kmem_ext; [done..|]. intros q Hq. apply Ho. by apply Hd. Qed.

(** Writing one entry of a table. *)
Lemma dir_set s pd T E i t j e : dir (ram s) pd T E -> NoDup (pages_of pd T) -> T !! i = Some t -> 0 <= j < 1024 -> in_u32 e ->
  exists s', wr32 (t + 4 * j) e s = Ret (tt, s') /\ dir (ram s') pd T (upd E (1024 * i + j) e) /\
    same_out [t] s s' /\ freelist s' = freelist s /\ kmem_locked s' = kmem_locked s.
Proof.
  intros [D1 (x & Hx & Dl & D2) D3 D4] N Ht Hj He. destruct (D3 i t Ht) as (Hi & Hp & y & Hy & Hl & Hw).
  apply NoDup_cons in N as [N1 N2].
  assert (Hne : pd <> t) by (intros ->; apply N1, elem_tables; eauto).
  eexists. split; [by apply wr32_entry|]. cbn [ram set_ram freelist kmem_locked].
  split_and!; [|intros q Hq; rewrite list_elem_of_singleton in Hq; by apply lookup_insert_ne|done..].
  split; [done| | |].
  - exists x. rewrite lookup_insert_ne by done. done.
  - intros i' t' Ht'. destruct (D3 i' t' Ht') as (Hi' & Hp' & y' & Hy' & Hl' & Hw'). split; [exact Hi'|]. split; [exact Hp'|].
    destruct (decide (t' = t)) as [->|Hn].
    + pose proof (tables_inj _ _ _ _ N2 Ht Ht') as <-. rewrite Hy in Hy'. injection Hy' as <-.
      eexists. rewrite lookup_insert_eq. split; [done|]. split; [rewrite zlen_word_splice; lia|].
      intros j' Hj'. unfold upd. destruct (Z.eqb_spec (1024 * i + j') (1024 * i + j)).
      * replace j' with j by lia. apply word_splice_eq; [lia|lia|done].
      * rewrite word_splice_ne by lia. auto.
    + exists y'. rewrite lookup_insert_ne by done. split_and!; [done..|]. intros j' Hj'. unfold upd.
      destruct (Z.eqb_spec (1024 * i' + j') (1024 * i + j)); [|auto].
      assert (i' = i) by lia. subst i'. congruence.
  - intros i' j' Hn Hi' Hj'. unfold upd. destruct (Z.eqb_spec (1024 * i' + j') (1024 * i + j)); [|auto].
    assert (i' = i) by lia. congruence.
Qed.

(** ** Walking the directory *)

Lemma pde_read s pd T E i : dir (ram s) pd T E -> 0 <= i < 1024 ->
  rd32 (pd + 4 * i) s = Ret (match T !! i with Some t => Z.lor t 7 | None => 0 end, s).
Proof. intros [D1 (x & Hx & _ & D2) _ _] Hi. erewrite rd32_entry by done. by rewrite D2. Qed.
Lemma pte_read s pd T E i t j : dir (ram s) pd T E -> T !! i = Some t -> 0 <= j < 1024 ->
  rd32 (t + 4 * j) s = Ret (E (1024 * i + j), s).
Proof. intros D Ht Hj. destruct (dir_tab _ _ _ _ D i t Ht) as (_ & Hp & y & Hy & _ & Hw). erewrite rd32_entry by done. by rewrite Hw. Qed.

Lemma page_range p : is_page p -> (4096 | p) /\ 0 <= p < PHYSTOP /\ p <> 0.
Proof. intros (Hd & ? & ?). split; [done|lia]. Qed.

Lemma pde_flags t : is_page t -> present (Z.lor t 7) = true /\ PTE_ADDR (Z.lor t 7) = t.
Proof.
  intros Hp. destruct (page_range t Hp) as (Hd & Hr & H0). split; [|apply PTE_ADDR_flags; (done || lia)].
  apply (present_flags t 6); (done || lia).
Qed.

Lemma walk_present s pd T E va t c : in_u32 va -> dir (ram s) pd T E -> T !! (va / 4194304) = Some t ->
  walkpgdir pd va c s = Ret (Some (t + 4 * (va / 4096 mod 1024)), s).
Proof.
  intros Hva D Ht. destruct (PDX_div va Hva) as [Ex Hx]. unfold walkpgdir. rewrite Ex, (PTX_mod va Hva).
  mstep (pde_read s pd T E _ D Hx). rewrite Ht. destruct (dir_tab _ _ _ _ D _ t Ht) as (_ & Hp & _).
  destruct (pde_flags t Hp) as [E1 E2]. rewrite E1, E2. reflexivity.
Qed.

Lemma walk_none s pd T E va : in_u32 va -> dir (ram s) pd T E -> T !! (va / 4194304) = None ->
  walkpgdir pd va false s = Ret (None, s).
Proof.
  intros Hva D Ht. destruct (PDX_div va Hva) as [Ex Hx]. unfold walkpgdir. rewrite Ex.
  mstep (pde_read s pd T E _ D Hx). rewrite Ht. done.
Qed.

Lemma chain_pages m p fl : chain m p fl -> forall q, q ∈ fl -> has_page m q.
Proof.
  revert p. induction fl as [|r fl IH]; intros p; cbn; [set_solver|]. intros (-> & x & Hx & Hl & C) q [->|Hq]%elem_of_cons.
  - by exists x.
  - by eapply IH.
Qed.

Lemma memset_spec s p c x : ram s !! p = Some x ->
  memset_page p c s = Ret (tt, set_ram (<[p := replicate 4096 c]> (ram s)) s).
Proof. intros Hx. unfold memset_page, wr_page, rd_page. by rewrite bind_assoc, bind_get, Hx, bind_deref. Qed.

(** A new table. *)
Lemma dir_new m pd T E i t x : dir m pd T E -> pd <> t -> (forall i', T !! i' <> Some t) -> (forall i', T !! i' <> Some pd) -> is_page t -> T !! i = None -> 0 <= i < 1024 ->
  m !! pd = Some x ->
  dir (<[pd := splice (4 * i) (to_le 4 (Z.lor t 7)) x]> (<[t := replicate 4096 0]> m)) pd (<[i := t]> T) E.
Proof.
  intros [D1 (x' & Hx' & Dl & D2) D3 D4] Hne Hnt Hpd Hp Hi Hr Hx. rewrite Hx in Hx'. injection Hx' as <-.
  destruct (page_range t Hp) as (Hd & Htr & H0).
  split; [done| | |].
  - eexists. rewrite lookup_insert_eq. split; [done|]. split; [rewrite zlen_word_splice; lia|].
    intros i' Hi'. destruct (decide (i' = i)) as [->|Hn].
    + rewrite lookup_insert_eq. apply word_splice_eq; [lia|lia|]. rewrite lor_flags by (done || lia). unfold in_u32, PHYSTOP in *. lia.
    + rewrite lookup_insert_ne by done. rewrite word_splice_ne by lia. auto.
  - intros i' t' Ht'. destruct (decide (i' = i)) as [->|Hn].
    + rewrite lookup_insert_eq in Ht'. injection Ht' as <-. split; [done|]. split; [done|]. exists (replicate 4096 0).
      rewrite lookup_insert_ne, lookup_insert_eq by done. split; [done|]. split; [unfold zlen; by rewrite length_replicate|].
      intros j Hj. rewrite word_replicate by lia. symmetry. by apply D4.
    + rewrite lookup_insert_ne in Ht' by done. destruct (D3 i' t' Ht') as (Hi' & Hp' & y & Hy & Hl & Hw).
      split; [done|]. split; [done|]. exists y. rewrite !lookup_insert_ne; [done| |].
      * intros ->. by apply (Hnt i').
      * intros <-. by apply (Hpd i').
  - intros i' j Hn. rewrite lookup_insert_None in Hn. destruct Hn as [Hn _]. auto.
Qed.

(** A directory and the free list. *)
Record vm_inv s pd T E fl : Prop := {
  vm_dir : dir (ram s) pd T E;
  vm_free : kmem_ok kend fl s;
  vm_nodup : NoDup (pages_of pd T ++ fl)
}.

(** What one call may do: keep the entries [E'] asked for, move pages between
    the tables and the free list, and touch no page but those. *)
Record vm_step s pd T fl s' T' E' fl' : Prop := {
  vs_inv : vm_inv s' pd T' E' fl';
  vs_pages : pages_of pd T' ++ fl' ≡ₚ pages_of pd T ++ fl;
  vs_out : same_out (pages_of pd T ++ fl) s s';
  vs_sub : T ⊆ T'
}.

Lemma vm_nodup_tables s pd T E fl : vm_inv s pd T E fl -> NoDup (pages_of pd T) /\ (forall q, q ∈ pages_of pd T -> q ∉ fl).
Proof. intros [_ _ N]. by apply NoDup_app in N as (? & ? & _). Qed.

Lemma vm_step_refl s pd T E fl : vm_inv s pd T E fl -> vm_step s pd T fl s T E fl.
Proof. by split. Qed.
Lemma vm_step_trans s pd T fl s1 T1 E1 fl1 s2 T2 E2 fl2 :
  vm_step s pd T fl s1 T1 E1 fl1 -> vm_step s1 pd T1 fl1 s2 T2 E2 fl2 -> vm_step s pd T fl s2 T2 E2 fl2.
Proof.
  intros [I1 P1 O1 S1] [I2 P2 O2 S2]. split; [done|by rewrite P2| |by transitivity T1].
  eapply same_out_trans; [done|]. eapply same_out_mono, O2. intros q Hq. by rewrite <- P1.
Qed.

Lemma walk_create s pd T E fl va : in_u32 va -> vm_inv s pd T E fl ->
  wp (walkpgdir pd va true) (fun o s' => match o with
    | None => fl = [] /\ T !! (va / 4194304) = None /\ vm_step s pd T fl s' T E []
    | Some a => exists T' fl' t, T' !! (va / 4194304) = Some t /\ a = t + 4 * (va / 4096 mod 1024) /\
        vm_step s pd T fl s' T' E fl' /\ (is_Some (T !! (va / 4194304)) -> T' = T /\ fl' = fl)
    end) s.
Proof.
  intros Hva I. pose proof I as [D K N]. destruct (T !! (va / 4194304)) as [t|] eqn:Et.
  { unfold wp. rewrite (walk_present s pd T E va t true) by done. exists T, fl, t. split_and!; [done|done|by apply vm_step_refl|done]. }
  destruct (PDX_div va Hva) as [Ex Hx]. unfold walkpgdir, wp. rewrite Ex.
  mstep (pde_read s pd T E _ D Hx). rewrite Et. change (present 0) with false. cbv iota. cbn [negb].
  destruct (proj1 (wp_iff _ _ _) (kalloc_spec kend fl s K)) as (t & s1 & E1 & Er & K1 & Ep).
  rewrite bind_assoc. mstep E1. destruct fl as [|q fl]; cbn in Ep; subst t.
  - cbn. split_and!; [done..|]. split; [split; cbn; [by rewrite Er|done|done]|done|intros q _; by rewrite Er|done].
  - cbn [tail] in K1. pose proof (Forall_inv (km_pages _ _ _ K)) as Hq. destruct (page_range q Hq) as (_ & _ & H0).
    rewrite (proj2 (Z.eqb_neq _ _) H0). destruct (chain_pages _ _ _ (km_chain _ _ _ K) q) as (y & Hy & _); [set_solver|].
    destruct D as [D1 (x & Hxx & D2) D3 D4] eqn:Ed. clear Ed.
    rewrite bind_assoc. mstep (memset_spec s1 q 0 y ltac:(by rewrite Er)).
    apply NoDup_app in N as (N1 & N2 & N3). apply NoDup_cons in N1 as [N0 N1].
    assert (Hne : pd <> q) by (intros ->; apply (N2 q); [by left|by left]).
    assert (Hnt : forall i', T !! i' <> Some q).
    { intros i' Hi'. apply (N2 q); [right; apply elem_tables; eauto|by left]. }
    assert (Hpd : forall i', T !! i' <> Some pd) by (intros i' Hi'; apply N0, elem_tables; eauto).
    rewrite bind_assoc. mstep (wr32_entry (set_ram (<[q:=replicate 4096 0]> (ram s1)) s1) pd (va / 4194304) x (Z.lor q 7) D1 Hx
      ltac:(cbn; rewrite Er; by rewrite lookup_insert_ne)).
    rewrite bind_mret. rewrite (PTX_mod va Hva), (proj2 (Z.eqb_neq _ _) H0). cbn -[splice to_le replicate].
    exists (<[va / 4194304 := q]> T), fl, q. split_and!; [by rewrite lookup_insert_eq|done| |intros [? ?]; congruence].
    assert (Ep : pages_of pd (<[va / 4194304:=q]> T) ++ fl ≡ₚ pages_of pd T ++ q :: fl).
    { unfold pages_of. rewrite tables_insert by done. cbn. f_equiv. by rewrite Permutation_middle. }
    split.
    + split; cbn.
      * rewrite Er. by apply (dir_new (ram s) pd T E).
      * eapply kmem_ext, K1; cbn; [done..|]. intros r Hr. rewrite !lookup_insert_ne; [done| |].
        -- intros ->. apply NoDup_cons in N3 as [N3 _]. done.
        -- intros ->. apply (N2 r); [by left|by right].
      * rewrite Ep. apply NoDup_app. split_and!; [by apply NoDup_cons|done|done].
    + done.
    + intros r Hr. cbn. rewrite !lookup_insert_ne; [by rewrite Er| |]; unfold pages_of in Hr; set_solver.
    + by apply insert_subseteq.
Qed.

(** ** Mapping *)

Lemma dir_eq m pd T E E' : (forall w, E w = E' w) -> dir m pd T E -> dir m pd T E'.
Proof.
  intros Eq [D1 D2 D3 D4]. split; [done..| |].
  - intros i t Ht. destruct (D3 i t Ht) as (Hi & Hp & y & Hy & Hl & Hw). split; [done|]. split; [done|]. exists y.
    split_and!; [done..|]. intros j Hj. rewrite <- Eq. auto.
  - intros i j. rewrite <- Eq. auto.
Qed.
Lemma vm_step_eq s pd T fl s' T' E E' fl' : (forall w, E w = E' w) -> vm_step s pd T fl s' T' E fl' -> vm_step s pd T fl s' T' E' fl'.
Proof. intros Eq [[D K N] ? ? ?]. split; [|done..]. split; [by eapply dir_eq|done..]. Qed.

Lemma pte_set s pd T E fl i t j e : vm_inv s pd T E fl -> T !! i = Some t -> 0 <= j < 1024 -> in_u32 e ->
  exists s', wr32 (t + 4 * j) e s = Ret (tt, s') /\ vm_step s pd T fl s' T (upd E (1024 * i + j) e) fl.
Proof.
  intros I Ht Hj He. pose proof (vm_nodup_tables _ _ _ _ _ I) as [N1 N2]. destruct I as [D K N].
  destruct (dir_set s pd T E i t j e D N1 Ht Hj He) as (s' & Ew & D' & Ho & E1 & E2). exists s'. split; [done|].
  assert (Hin : t ∈ pages_of pd T) by (right; apply elem_tables; eauto).
  split; [|done| |done].
  - split; [done| |done]. eapply kmem_out, K; [exact Ho| |done|done].
    intros q Hq ->%list_elem_of_singleton. by eapply N2.
  - eapply same_out_mono, Ho. set_solver.
Qed.

Definition mapped E v k pa perm : Z -> Z :=
  fun w => if (v <=? w) && (w <? v + k) then Z.lor (pa + 4096 * (w - v)) (Z.lor perm PTE_P) else E w.

Lemma mapped_0 E v pa perm w : mapped E v 0 pa perm w = E w.
Proof. unfold mapped. destruct (v <=? w) eqn:?; cbn; [|done]. by rewrite (proj2 (Z.ltb_ge _ _)) by lia. Qed.
Lemma mapped_S E v k pa perm w : 0 <= k ->
  mapped (upd E v (Z.lor pa (Z.lor perm PTE_P))) (v + 1) k (pa + 4096) perm w = mapped E v (k + 1) pa perm w.
Proof.
  intros Hk. unfold mapped, upd. destruct (Z.eqb_spec w v) as [->|Hn].
  - rewrite (proj2 (Z.leb_gt (v + 1) v)) by lia. cbn. rewrite Z.leb_refl, (proj2 (Z.ltb_lt v _)) by lia. cbn. f_equal. lia.
  - replace (v + 1 <=? w) with (v <=? w) by lia. replace (w <? v + 1 + k) with (w <? v + (k + 1)) by lia.
    destruct ((v <=? w) && _); [|done]. f_equal. lia.
Qed.

Lemma lor_u32 p f : (4096 | p) -> in_u32 p -> 0 <= f < 4096 -> in_u32 (Z.lor p f).
Proof. unfold in_u32. intros Hd Hp Hf. rewrite lor_flags by done. destruct Hd as [k ->]. lia. Qed.
Lemma perm_small perm : 0 <= perm < 4096 -> 0 <= Z.lor perm PTE_P < 4096.
Proof.
  intros Hp. split; [apply Z.lor_nonneg; unfold PTE_P; lia|]. change 4096 with (2 ^ 12).
  destruct (decide (Z.lor perm PTE_P = 0)) as [->|]; [lia|].
  assert (0 <= Z.lor perm PTE_P) by (apply Z.lor_nonneg; unfold PTE_P; lia).
  apply Z.log2_lt_pow2; [lia|]. rewrite Z.log2_lor by (unfold PTE_P; lia). change (Z.log2 PTE_P) with 0.
  apply Z.max_lub_lt; [|lia]. destruct (decide (perm = 0)) as [->|]; [cbn; lia|]. apply Z.log2_lt_pow2; lia.
Qed.

Lemma mappages_loop_spec fuel n v pa perm s pd T E fl :
  0 <= n -> n < Z.of_nat fuel -> 0 <= v -> v + n < 1048576 -> (4096 | pa) -> 0 <= pa -> pa + 4096 * n < 2 ^ 32 -> 0 <= perm < 4096 ->
  (forall w, v <= w <= v + n -> present (E w) = false) -> vm_inv s pd T E fl ->
  wp (mappages_loop fuel pd (4096 * v) (4096 * (v + n)) pa perm) (fun r s' =>
    exists T' fl' k, vm_step s pd T fl s' T' (mapped E v k pa perm) fl' /\
      ((r = 0 /\ k = n + 1) \/ (r = -1 /\ 0 <= k <= n /\ fl' = [] /\ exists w, v <= w <= v + n /\ T !! (w / 1024) = None)) /\
      ((forall w, v <= w <= v + n -> is_Some (T !! (w / 1024))) -> T' = T /\ fl' = fl)) s.
Proof.
  revert n v pa s T E fl. induction fuel as [|fuel IH]; [lia|]. intros n v pa s T E fl Hn Hf Hv Hvn Hd Hpa Hpn Hperm Hnp I.
  cbn [mappages_loop]. assert (Hva : in_u32 (4096 * v)) by (unfold in_u32; lia).
  assert (Hdx : 4096 * v / 4194304 = v / 1024) by dlia.
  assert (Htx : 4096 * v / 4096 = v) by dlia.
  eapply wp_bind_use; [by apply (walk_create s pd T E fl (4096 * v))|]. cbv beta. rewrite Hdx, Htx. intros [a|] s1.
  2: { intros (-> & Ht & St). apply wp_ret. exists T, [], 0. split_and!.
    - eapply vm_step_eq, St. intros w. by rewrite mapped_0.
    - right. split_and!; [done|lia..|done|]. exists v. split; [lia|done].
    - done. }
  intros (T1 & fl1 & t & Ht & -> & St & Hkeep). pose proof (vs_inv _ _ _ _ _ _ _ _ St) as I1.
  assert (Hj : 0 <= v mod 1024 < 1024) by (apply Z.mod_pos_bound; lia).
  assert (Ev : 1024 * (v / 1024) + v mod 1024 = v) by dlia.
  apply wp_bind. unfold wp at 1. rewrite (pte_read _ _ _ _ _ _ _ (vm_dir _ _ _ _ _ I1) Ht Hj), Ev, Hnp by lia.
  pose proof (perm_small perm Hperm) as Hps.
  destruct (pte_set s1 pd T1 E fl1 (v / 1024) t (v mod 1024) (Z.lor pa (Z.lor perm PTE_P)) I1 Ht Hj) as (s2 & Ew & St2).
  { apply lor_u32; [done|unfold in_u32; lia|done]. }
  rewrite Ev in St2. apply wp_bind. unfold wp at 1. rewrite Ew.
  assert (St' : vm_step s pd T fl s2 T1 (upd E v (Z.lor pa (Z.lor perm PTE_P))) fl1) by by eapply vm_step_trans.
  destruct (Z.eqb_spec (4096 * v) (4096 * (v + n))) as [Heq|Hne].
  - assert (n = 0) as -> by lia. apply wp_ret. exists T1, fl1, 1. split_and!; [|by left|].
    + eapply vm_step_eq, St'. intros w. change 1 with (0 + 1). by rewrite <- mapped_S, mapped_0 by lia.
    + intros Hall. apply Hkeep, Hall. lia.
  - replace (u32 (4096 * v + PGSIZE)) with (4096 * (v + 1)) by (unfold PGSIZE; rewrite u32_small; [lia|unfold in_u32; lia]).
    replace (u32 (pa + PGSIZE)) with (pa + 4096) by (unfold PGSIZE; rewrite u32_small; [lia|unfold in_u32; lia]).
    replace (v + n) with (v + 1 + (n - 1)) by lia.
    eapply wp_mono; [apply (IH (n - 1) (v + 1) (pa + 4096) s2 T1 (upd E v (Z.lor pa (Z.lor perm PTE_P))) fl1); try lia|].
    + by apply Z.divide_add_r; [|exists 1].
    + intros w Hw. unfold upd. rewrite (proj2 (Z.eqb_neq _ _)) by lia. apply Hnp. lia.
    + apply St2.
    + cbv beta. intros r s3 (T3 & fl3 & k & St3 & Hr & Hk3). exists T3, fl3, (k + 1).
      assert (Hk : 0 <= k) by (destruct Hr as [(_ & ->)|(_ & ? & _)]; lia).
      split_and!.
      * eapply vm_step_eq; [intros w; by apply mapped_S|]. by eapply vm_step_trans.
      * destruct Hr as [(-> & ->)|(-> & Hkn & Hfl & w & Hw & Hw')]; [left; split; [done|lia]|right].
        split_and!; [done|lia..|done|]. exists w. split; [lia|]. destruct (T !! (w / 1024)) eqn:Ew'; [|done].
        rewrite (lookup_weaken _ _ _ _ Ew' (vs_sub _ _ _ _ _ _ _ _ St)) in Hw'. done.
      * intros Hall. destruct Hkeep as [-> ->]; [apply Hall; lia|]. apply Hk3. intros w Hw. apply Hall. lia.
Qed.

Lemma mappages_spec v n pa perm s pd T E fl :
  0 < n -> 0 <= v -> v + n <= 1048576 -> (4096 | pa) -> 0 <= pa -> pa + 4096 * n <= 2 ^ 32 -> 0 <= perm < 4096 ->
  (forall w, v <= w < v + n -> present (E w) = false) -> vm_inv s pd T E fl ->
  wp (mappages pd (4096 * v) (4096 * n) pa perm) (fun r s' =>
    exists T' fl' k, vm_step s pd T fl s' T' (mapped E v k pa perm) fl' /\
      ((r = 0 /\ k = n) \/ (r = -1 /\ 0 <= k < n /\ fl' = [] /\ exists w, v <= w < v + n /\ T !! (w / 1024) = None)) /\
      ((forall w, v <= w < v + n -> is_Some (T !! (w / 1024))) -> T' = T /\ fl' = fl)) s.
Proof.
  intros Hn Hv Hvn Hd Hpa Hpn Hperm Hnp I. unfold mappages.
  assert (E1 : PGROUNDDOWN (4096 * v) = 4096 * v).
  { unfold PGROUNDDOWN, PGSIZE. rewrite u32_small by (unfold in_u32; lia). dlia. }
  assert (E2 : PGROUNDDOWN (4096 * v + 4096 * n - 1) = 4096 * (v + (n - 1))).
  { unfold PGROUNDDOWN, PGSIZE. rewrite u32_small by (unfold in_u32; lia). dlia. }
  rewrite E1, E2. replace (4096 * (v + (n - 1)) - 4096 * v) with (4096 * (n - 1)) by lia.
  rewrite u32_small by (unfold in_u32; lia). unfold PGSIZE. replace (4096 * (n - 1) / 4096) with (n - 1) by dlia.
  eapply wp_mono; [apply (mappages_loop_spec _ (n - 1) v pa perm s pd T E fl); try done; try lia; intros w Hw; apply Hnp; lia|].
  cbv beta. intros r s' (T' & fl' & k & St & Hr & Hk). exists T', fl', k. split_and!; [done| |].
  - destruct Hr as [(-> & ->)|(-> & Hkn & Hfl & w & Hw & Hw')]; [left; split; [done|lia]|right]. split_and!; [done|lia..|done|].
    exists w. split; [lia|done].
  - intros Hall. apply Hk. intros w Hw. apply Hall. lia.
Qed.

(** ** User memory *)

(** [F] gives the frame of each mapped user page. *)
Record uspace s pd T E fl (F : gmap Z Z) : Prop := {
  us_inv : vm_inv s pd T E fl;
  us_table : is_Some (T !! 0);
  us_frame w p : F !! w = Some p -> 0 <= w < 160 /\ E w = Z.lor p 7 /\ is_page p /\ has_page (ram s) p;
  us_none w : 0 <= w < 160 -> F !! w = None -> E w = 0;
  us_nodup : NoDup (pages_of pd T ++ tables F ++ fl)
}.

Record ustep s pd T E F fl s' E' (F' : gmap Z Z) fl' : Prop := {
  ut_space : uspace s' pd T E' fl' F';
  ut_pages : tables F' ++ fl' ≡ₚ tables F ++ fl;
  ut_kern w : 160 <= w -> E' w = E w;
  ut_out q : q ∉ pages_of pd T -> q ∉ tables F ++ fl -> ram s' !! q = ram s !! q;
  ut_keep w p : F !! w = Some p -> F' !! w = Some p -> ram s' !! p = ram s !! p
}.

Lemma ustep_refl s pd T E F fl : uspace s pd T E fl F -> ustep s pd T E F fl s E F fl.
Proof. by split. Qed.
Lemma ustep_trans s pd T E F fl s1 E1 F1 fl1 s2 E2 F2 fl2 :
  (forall w p, F !! w = Some p -> F2 !! w = Some p -> F1 !! w = Some p) ->
  ustep s pd T E F fl s1 E1 F1 fl1 -> ustep s1 pd T E1 F1 fl1 s2 E2 F2 fl2 -> ustep s pd T E F fl s2 E2 F2 fl2.
Proof.
  intros Hc [U1 P1 K1 O1 H1] [U2 P2 K2 O2 H2]. split; [done|by rewrite P2| | |].
  - intros w Hw. by rewrite K2, K1.
  - intros q Hq Hn. rewrite O2, O1; try done. by rewrite P1.
  - intros w p Hp Hp2. rewrite (H2 w), (H1 w); eauto.
Qed.

Lemma uspace_in s pd T E fl F w p : uspace s pd T E fl F -> F !! w = Some p -> p ∉ pages_of pd T /\ p ∉ fl.
Proof.
  intros U Hp. assert (Hin : p ∈ tables F) by (apply elem_tables; eauto).
  destruct U as [_ _ _ _ N]. apply NoDup_app in N as (_ & N1 & N2). apply NoDup_app in N2 as (_ & N2 & _).
  split; [|by apply N2]. intros Hq. apply (N1 p Hq). set_solver.
Qed.
Lemma uspace_inj s pd T E fl F w w' p : uspace s pd T E fl F -> F !! w = Some p -> F !! w' = Some p -> w = w'.
Proof. intros [_ _ _ _ N]. apply NoDup_app in N as (_ & _ & N). apply NoDup_app in N as (N & _ & _). by apply tables_inj. Qed.

Lemma user_index w : 0 <= w < 160 -> in_u32 (4096 * w) /\ 4096 * w / 4194304 = 0 /\ 4096 * w / 4096 mod 1024 = w /\ w / 1024 = 0 /\ 0 <= w < 1024.
Proof. intros Hw. unfold in_u32. split_and!; try lia; dlia. Qed.

Lemma user_walk s pd T E fl F t w c : uspace s pd T E fl F -> T !! 0 = Some t -> 0 <= w < 160 ->
  walkpgdir pd (4096 * w) c s = Ret (Some (t + 4 * w), s) /\ rd32 (t + 4 * w) s = Ret (E w, s).
Proof.
  intros U Ht Hw. pose proof (us_inv _ _ _ _ _ _ U) as [D K N]. destruct (user_index w Hw) as (Hu & E0 & E1 & E2 & Hr). split.
  - rewrite <- E1 at 2. eapply walk_present; [done|done|by rewrite E0].
  - erewrite pte_read by done. done.
Qed.

(** A space survives what happens elsewhere. *)
Lemma uspace_moves L s s' d T E fl fl' F : uspace s d T E fl F -> kmem_ok kend fl' s' -> same_out L s s' ->
  (forall q, q ∈ pages_of d T ++ tables F -> q ∉ L) -> NoDup (pages_of d T ++ tables F ++ fl') -> uspace s' d T E fl' F.
Proof.
  intros [[D K0 N] Us UF UN Nd] K' Ho Hout Nd'. assert (Hin : forall q, q ∈ pages_of d T ++ tables F -> ram s' !! q = ram s !! q) by auto.
  split; [split|done| |done|done]; [|done| |].
  - eapply dir_ext, D. intros q Hq. apply Hin, elem_of_app. by left.
  - apply NoDup_app in Nd' as (N1 & N2 & N3). apply NoDup_app in N3 as (_ & _ & N3). apply NoDup_app. split_and!; [done| |done].
    intros q Hq Hq'. apply (N2 q Hq), elem_of_app. by right.
  - intros w p Hp. destruct (UF w p Hp) as (? & ? & ? & Hh). split; [done|]. split; [done|]. split; [done|].
    unfold has_page. rewrite Hin; [done|]. apply elem_of_app. right. apply elem_tables. eauto.
Qed.

(** Whoever takes pages off the free list, and writes to no others, leaves a
    space as it is. *)
Lemma uspace_stays s s' pd T E fl fl' F : uspace s pd T E fl F -> kmem_ok kend fl' s' -> fl' ⊆+ fl -> same_out fl s s' -> uspace s' pd T E fl' F.
Proof.
  intros U K' Hsub Ho. pose proof (us_nodup _ _ _ _ _ _ U) as Nd. eapply uspace_moves; [exact U|exact K'|exact Ho| |].
  - intros q Hq. rewrite app_assoc in Nd. apply NoDup_app in Nd as (_ & Nd & _). by apply Nd.
  - apply submseteq_Permutation in Hsub as [k Ek]. rewrite Ek in Nd. rewrite !app_assoc in Nd. rewrite app_assoc.
    by apply NoDup_app in Nd as (? & _ & _).
Qed.

(** Giving back the page at [w]. *)
Lemma free1 s pd T E fl F t w p : uspace s pd T E fl F -> T !! 0 = Some t -> F !! w = Some p ->
  wp (kfree kend p;; wr32 (t + 4 * w) 0) (fun _ s' => ustep s pd T E F fl s' (upd E w 0) (delete w F) (p :: fl)) s.
Proof.
  intros U Ht Hp. destruct (us_frame _ _ _ _ _ _ U w p Hp) as (Hw & He & Hpg & Hh). pose proof (uspace_in _ _ _ _ _ _ _ _ U Hp) as [Hn1 Hn2].
  pose proof U as [[D K N] Us F1 F2 Nd]. eapply wp_bind_use; [by apply (kfree_spec kend fl s p)|]. cbv beta.
  intros _ s1 (K1 & x & Hx & Er).
  assert (D1 : dir (ram s1) pd T E).
  { eapply dir_ext, D. intros q Hq. rewrite Er. apply lookup_insert_ne. by intros ->. }
  assert (Ep : tables (delete w F) ++ p :: fl ≡ₚ tables F ++ fl).
  { rewrite <- Permutation_middle. rewrite <- (insert_delete_id F w p) at 2 by done. rewrite tables_insert by apply lookup_delete_eq. done. }
  assert (Nd' : NoDup (pages_of pd T ++ tables (delete w F) ++ p :: fl)) by by rewrite Ep.
  assert (I1 : vm_inv s1 pd T E (p :: fl)).
  { split; [done..|]. apply NoDup_app in Nd' as (? & Na & Nb). apply NoDup_app in Nb as (_ & _ & Nb). apply NoDup_app. split_and!; [done| |done].
    intros q Hq Hq'. apply (Na q Hq). set_solver. }
  destruct (pte_set s1 pd T E (p :: fl) 0 t w 0 I1 Ht) as (s2 & E2 & St); [lia|unfold in_u32; lia|].
  unfold wp. rewrite E2. replace (1024 * 0 + w) with w in St by lia.
  assert (Hout : forall q, q ∉ pages_of pd T -> q <> p -> q ∉ fl -> ram s2 !! q = ram s !! q).
  { intros q Hq1 Hq2 Hq3. rewrite (vs_out _ _ _ _ _ _ _ _ St), Er; [by apply lookup_insert_ne|]. set_solver. }
  assert (Hkeep : forall w' p', delete w F !! w' = Some p' -> ram s2 !! p' = ram s !! p').
  { intros w' p' [Hne Hp']%lookup_delete_Some. pose proof (uspace_in _ _ _ _ _ _ _ _ U Hp') as [? ?]. apply Hout; [done| |done].
    intros ->. apply Hne. by eapply uspace_inj. }
  split.
  - split; [apply St|done| | |done].
    + intros w' p' Hp'. pose proof (Hkeep _ _ Hp') as Hk. apply lookup_delete_Some in Hp' as [Hne Hp'].
      destruct (F1 w' p' Hp') as (? & ? & ? & Hh'). split_and!; [lia|lia| |done|].
      * unfold upd. by rewrite (proj2 (Z.eqb_neq _ _)) by lia.
      * unfold has_page. by rewrite Hk.
    + intros w' Hw' Hn. unfold upd. destruct (Z.eqb_spec w' w); [done|]. apply F2; [done|]. rewrite lookup_delete_ne in Hn by done. done.
  - done.
  - intros w' Hw'. unfold upd. by rewrite (proj2 (Z.eqb_neq _ _)) by lia.
  - intros q Hq1 Hq2. apply Hout; [done| |]; [intros ->; apply Hq2|]; rewrite ?elem_of_app in *; [left; apply elem_tables; eauto|tauto].
  - intros w' p' _ Hp'. by apply (Hkeep w').
Qed.

Definition up (sz : Z) : Z := (sz + 4095) / 4096.

Lemma dealloc_loop_spec fuel v old s pd T E fl F :
  0 <= v <= up old -> up old - v < Z.of_nat fuel -> 0 <= old <= USERTOP -> uspace s pd T E fl F ->
  wp (dealloc_loop kend fuel pd (4096 * v) old) (fun _ s' => exists E' F' fl', ustep s pd T E F fl s' E' F' fl' /\
    forall w p, F' !! w = Some p <-> F !! w = Some p /\ ~ (v <= w < up old)) s.
Proof.
  revert v s E fl F. induction fuel as [|fuel IH]; [lia|]. intros v s E fl F Hv Hf Ho U. cbn [dealloc_loop].
  destruct (Z.ltb_spec (4096 * v) old) as [L|G].
  2: { apply wp_ret. exists E, F, fl. split; [by apply ustep_refl|]. intros w p. unfold up in *. assert (~ (v <= w < (old + 4095) / 4096)) by dlia. tauto. }
  assert (Hw : 0 <= v < 160) by (unfold USERTOP in Ho; lia).
  assert (Hlt : v < up old) by (unfold up in *; dlia).
  destruct (us_table _ _ _ _ _ _ U) as [t Ht]. destruct (user_walk _ _ _ _ _ _ t v false U Ht Hw) as [Ew Er].
  replace (u32 (4096 * v + PGSIZE)) with (4096 * (v + 1)) by (unfold PGSIZE, USERTOP in *; rewrite u32_small; [lia|unfold in_u32; lia]).
  assert (Rest : forall s1 E1 fl1 F1, ustep s pd T E F fl s1 E1 F1 fl1 ->
    (forall w p, F1 !! w = Some p <-> F !! w = Some p /\ w <> v) ->
    wp (dealloc_loop kend fuel pd (4096 * (v + 1)) old) (fun _ s' => exists E' F' fl', ustep s pd T E F fl s' E' F' fl' /\
      forall w p, F' !! w = Some p <-> F !! w = Some p /\ ~ (v <= w < up old)) s1).
  { intros s1 E1 fl1 F1 St HF. eapply wp_mono; [apply (IH (v + 1) s1 E1 fl1 F1); [lia|lia|done|apply St]|].
    cbv beta. intros _ s2 (E2 & F2 & fl2 & St2 & HF2). exists E2, F2, fl2. split.
    - eapply ustep_trans; [|exact St|exact St2]. intros w p _ Hp2. by apply HF2 in Hp2 as [? _].
    - intros w p. rewrite HF2, HF. destruct (decide (w = v)); [subst; split; [tauto|intros [_ []]; lia]|].
      assert (v + 1 <= w < up old <-> v <= w < up old) by lia. tauto. }
  apply wp_bind. unfold wp at 1. rewrite Ew.
  eapply wp_bind_use with (R := fun _ s1 => exists E1 fl1 F1, ustep s pd T E F fl s1 E1 F1 fl1 /\
    (forall w p, F1 !! w = Some p <-> F !! w = Some p /\ w <> v)).
  2: { cbv beta. intros [] s1 (E1 & fl1 & F1 & St & HF). by eapply Rest. }
  apply wp_bind. unfold wp at 1. rewrite Er.
  destruct (F !! v) as [p|] eqn:Ep.
  - destruct (us_frame _ _ _ _ _ _ U v p Ep) as (_ & Ee & Hp & _). destruct (pde_flags p Hp) as [E1 E2]. rewrite Ee, E1, E2.
    destruct (page_range p Hp) as (_ & _ & H0). rewrite (proj2 (Z.eqb_neq _ _) H0).
    eapply wp_mono; [by apply (free1 s pd T E fl F t v p)|]. cbv beta. intros _ s1 St. eexists _, _, _. split; [exact St|].
    intros w q. rewrite lookup_delete_Some. intuition congruence.
  - rewrite (us_none _ _ _ _ _ _ U v Hw Ep). change (present 0) with false. cbv iota. apply wp_ret.
    eexists _, _, _. split; [by apply ustep_refl|]. intros w q. split; [|tauto]. intros Hq. split; [done|]. intros ->. congruence.
Qed.

Lemma PGROUNDUP_up sz : 0 <= sz <= USERTOP -> PGROUNDUP sz = 4096 * up sz /\ up sz <= 160.
Proof.
  unfold USERTOP, PGROUNDUP, PGSIZE, up. intros H. replace (sz + 4096 - 1) with (sz + 4095) by lia.
  rewrite u32_small by (unfold in_u32; lia). dlia.
Qed.

Lemma up_mono a b : a <= b -> up a <= up b.
Proof. unfold up. intros H. apply Z.div_le_mono; lia. Qed.

Lemma deallocuvm_spec old new s pd T E fl F : 0 <= old <= USERTOP -> 0 <= new -> uspace s pd T E fl F ->
  wp (deallocuvm kend pd old new) (fun r s' => exists E' F' fl', ustep s pd T E F fl s' E' F' fl' /\
    r = Z.min old new /\ forall w p, F' !! w = Some p <-> F !! w = Some p /\ ~ (up new <= w < up old)) s.
Proof.
  intros Ho Hn U. unfold deallocuvm. destruct (Z.geb_spec new old) as [L|G].
  - apply wp_ret. exists E, F, fl. split_and!; [by apply ustep_refl|lia|]. intros w p. apply up_mono in L. assert (~ (up new <= w < up old)) by lia. tauto.
  - destruct (PGROUNDUP_up new) as [Eu Hu]; [lia|]. rewrite Eu. pose proof (up_mono new old ltac:(lia)).
    eapply wp_bind_use; [apply (dealloc_loop_spec _ (up new) old s pd T E fl F); [|unfold up, PGSIZE in *; dlia|done|done]|].
    + split; [unfold up; dlia|done].
    + cbv beta. intros _ s' (E' & F' & fl' & St & HF). apply wp_ret. exists E', F', fl'. split_and!; [done|lia|done].
Qed.

(** A page taken from the free list, filled with [x] and mapped at [w]. *)
Lemma alloc1 s s1 pd T E fl F w p x : uspace s pd T E (p :: fl) F -> 0 <= w < 160 -> F !! w = None ->
  kmem_ok kend fl s1 -> ram s1 = ram s -> zlen x = 4096 ->
  wp (mappages pd (4096 * w) PGSIZE p (Z.lor PTE_W PTE_U)) (fun r s' => r = 0 /\
    exists E', ustep s pd T E F (p :: fl) s' E' (<[w := p]> F) fl /\ ram s' !! p = Some x) (set_ram (<[p := x]> (ram s1)) s1).
Proof.
  intros U Hw Hn K1 Er Hx. pose proof U as [[D K N] [t Ht] F1 F2 Nd].
  pose proof (Forall_inv (km_pages _ _ _ K)) as Hp. destruct (page_range p Hp) as (Hd & Hr & H0).
  apply NoDup_app in N as (N1 & N2 & N3). apply NoDup_cons in N3 as [N3 N4].
  assert (Hnp : p ∉ pages_of pd T) by (intros Hq; apply (N2 p Hq); by left).
  assert (Hnf : p ∉ tables F).
  { apply NoDup_app in Nd as (_ & _ & Nd). apply NoDup_app in Nd as (_ & Nd & _). intros Hq. apply (Nd p Hq). by left. }
  set (s2 := set_ram _ s1).
  assert (I2 : vm_inv s2 pd T E fl).
  { split.
    - cbn. rewrite Er. eapply dir_ext, D. intros q Hq. apply lookup_insert_ne. by intros ->.
    - eapply kmem_ext, K1; cbn; [done..|]. intros q Hq. apply lookup_insert_ne. by intros ->.
    - apply NoDup_app. split_and!; [done| |done]. intros q Hq Hq'. apply (N2 q Hq). by right. }
  destruct (user_index w Hw) as (_ & _ & _ & E2 & _). change PGSIZE with (4096 * 1).
  eapply wp_mono; [apply (mappages_spec w 1 p _ s2 pd T E fl)|]; try done; try (unfold PHYSTOP, PTE_W, PTE_U in *; cbn; lia).
  { intros w' Hw'. assert (w' = w) as -> by lia. by rewrite F2. }
  cbv beta. intros r s3 (T3 & fl3 & k & St & Hr' & Hk).
  assert (T3 = T /\ fl3 = fl) as [-> ->].
  { apply Hk. intros w' Hw'. assert (w' = w) as -> by lia. rewrite E2. eauto. }
  assert (r = 0 /\ k = 1) as [-> ->].
  { destruct Hr' as [[-> ->]|(_ & _ & _ & w' & Hw' & HT)]; [done|]. assert (w' = w) as -> by lia. rewrite E2 in HT. congruence. }
  split; [done|]. pose proof (vs_out _ _ _ _ _ _ _ _ St) as Ho.
  assert (Hkeep : forall q, q ∉ pages_of pd T -> q ∉ fl -> q <> p -> ram s3 !! q = ram s !! q).
  { intros q ? ? ?. rewrite Ho by set_solver. cbn. rewrite Er. by apply lookup_insert_ne. }
  assert (Hp3 : ram s3 !! p = Some x).
  { rewrite Ho by set_solver. cbn. apply lookup_insert_eq. }
  assert (Hold : forall w' p', F !! w' = Some p' -> ram s3 !! p' = ram s !! p').
  { intros w' p' Hp'. destruct (uspace_in _ _ _ _ _ _ _ _ U Hp') as [? Hq]. apply Hkeep; [done|set_solver|].
    intros ->. apply Hq. by left. }
  assert (Ep : tables (<[w := p]> F) ++ fl ≡ₚ tables F ++ p :: fl).
  { rewrite tables_insert by done. cbn. apply Permutation_middle. }
  exists (mapped E w 1 p (Z.lor PTE_W PTE_U)). split; [|done]. split.
  - split; [apply St|by exists t| | |].
    + intros w' p' Hp'. unfold mapped. destruct (decide (w' = w)) as [->|Hne].
      * rewrite lookup_insert_eq in Hp'. injection Hp' as <-. rewrite Z.leb_refl, (proj2 (Z.ltb_lt _ _)) by lia. cbn [andb].
        split_and?; [lia|lia|by rewrite Z.sub_diag, Z.mul_0_r, Z.add_0_r|exact Hp|by exists x].
      * rewrite lookup_insert_ne in Hp' by done. destruct (F1 w' p' Hp') as (Hw' & He' & Hpg & Hh).
        split; [done|]. split; [|split; [done|unfold has_page; by rewrite (Hold w')]].
        destruct (w <=? w') eqn:?; cbn [andb]; [|done]. by rewrite (proj2 (Z.ltb_ge _ _)) by lia.
    + intros w' Hw' Hn'. apply lookup_insert_None in Hn' as [Hn' Hne]. unfold mapped.
      destruct (w <=? w') eqn:?; cbn [andb]; [rewrite (proj2 (Z.ltb_ge _ _)) by lia|]; auto.
    + by rewrite Ep.
  - done.
  - intros w' Hw'. unfold mapped. destruct (w <=? w') eqn:?; cbn [andb]; [|done]. by rewrite (proj2 (Z.ltb_ge _ _)) by lia.
  - intros q Hq Hq'. apply Hkeep; [done|set_solver..].
  - intros w' p' Hp' _. by apply (Hold w').
Qed.

(** New pages, all zero, or (memory running out) none. *)
Definition grown (F F' : gmap Z Z) (lo hi : Z) s' : Prop :=
  F ⊆ F' /\ (forall w, lo <= w < hi -> exists p, F' !! w = Some p /\ ram s' !! p = Some (replicate 4096 0)) /\
  (forall w, ~ (lo <= w < hi) -> F' !! w = F !! w).

Lemma alloc_loop_spec fuel lo v old new s s0 pd T E E0 fl fl0 F F0 :
  up old = lo -> lo <= v <= up new -> 0 <= lo -> up new - v < Z.of_nat fuel -> 0 <= old <= new -> new <= USERTOP ->
  (forall w, lo <= w < up new -> F0 !! w = None) ->
  ustep s0 pd T E0 F0 fl0 s E F fl -> grown F0 F lo v s ->
  wp (alloc_loop kend fuel pd old new (4096 * v)) (fun r s' => exists E' F' fl', ustep s0 pd T E0 F0 fl0 s' E' F' fl' /\
    ((r = new /\ grown F0 F' lo (up new) s') \/ (r = 0 /\ F' = F0 /\ (length fl0 < Z.to_nat (up new - lo))%nat))) s.
Proof.
  intros Hlo Hv Hl0 Hf Ho Hnew Hfree. revert v s E fl F Hv Hf.
  induction fuel as [|fuel IH]; intros v s E fl F Hv Hf St G; [lia|]. cbn [alloc_loop].
  destruct (Z.ltb_spec (4096 * v) new) as [L|Ge].
  2: { apply wp_ret. exists E, F, fl. split; [done|]. left. split; [done|].
       assert (v = up new) as <- by (unfold up in *; dlia). done. }
  assert (Hlt : v < up new) by (unfold up in *; dlia).
  assert (Hw : 0 <= v < 160) by (unfold USERTOP in *; lia).
  pose proof (ut_space _ _ _ _ _ _ _ _ _ _ St) as U. pose proof (us_inv _ _ _ _ _ _ U) as [D K N].
  eapply wp_bind_use; [by apply (kalloc_spec kend fl s)|]. cbv beta. intros p s1 (Er & K1 & Ep).
  destruct G as (G1 & G2 & G3). destruct fl as [|q fl]; cbn in Ep; subst p.
  - assert (U1 : uspace s1 pd T E [] F).
    { destruct U as [[U1 U2 U3] U4 U5 U6 U7]. split; [split; [by rewrite Er|done|done]|done| |done|done].
      intros w p Hp. destruct (U5 w p Hp) as (? & ? & ? & ?). split; [done|]. split; [done|]. split; [done|]. unfold has_page. by rewrite Er. }
    cbn [Z.eqb]. eapply wp_bind_use; [apply (deallocuvm_spec new old s1 pd T E [] F); [lia|lia|done]|].
    cbv beta. intros r s2 (E2 & F2 & fl2 & St2 & _ & HF2). apply wp_ret.
    assert (EF : F2 = F0).
    { apply map_eq. intros w. destruct (F2 !! w) as [p|] eqn:Ew.
      - apply HF2 in Ew as [Ew Hr]. rewrite <- G3; [done|]. lia.
      - destruct (F0 !! w) as [p|] eqn:Ew0; [|done].
        assert (Hin : F !! w = Some p) by (eapply lookup_weaken; done).
        assert (~ (up old <= w < up new)) as Hr by (intros Hr; rewrite Hfree in Ew0 by lia; done).
        assert (F2 !! w = Some p) by by apply HF2. congruence. }
    assert (St1 : ustep s0 pd T E0 F0 fl0 s1 E F []).
    { destruct St as [S1 S2 S3 S4 S5]. split; [done|done|done| |]; intros; rewrite Er; eauto. }
    exists E2, F2, fl2. split; [|right; split_and!; [done|done|]].
    + eapply ustep_trans; [|exact St1|exact St2]. intros w p Hp _. by eapply lookup_weaken.
    + (* every page the list had is mapped in the range now *)
      pose proof (ut_pages _ _ _ _ _ _ _ _ _ _ St) as Hpg. rewrite app_nil_r in Hpg. apply Permutation_length in Hpg.
      rewrite length_app in Hpg. unfold tables in Hpg. rewrite !length_fmap, !length_map_to_list in Hpg.
      assert (Hsz : (size F <= size F0 + Z.to_nat (v - lo))%nat).
      { clear -G3 Hv. set (k := Z.to_nat (v - lo)).
        assert (Hd : dom F ⊆ dom F0 ∪ list_to_set (seqZ lo (v - lo))).
        { intros w Hw. destruct (decide (lo <= w < v)) as [Hr|Hr].
          - apply elem_of_union_r, elem_of_list_to_set, elem_of_seqZ. lia.
          - apply elem_of_union_l, elem_of_dom. rewrite <- G3 by done. by apply elem_of_dom. }
        rewrite <- !size_dom. etransitivity; [by apply subseteq_size|].
        rewrite size_union_alt. apply Nat.add_le_mono_l.
        etransitivity; [apply subseteq_size, subseteq_difference_l; reflexivity|].
        rewrite size_list_to_set by apply NoDup_seqZ. by rewrite length_seqZ. }
      lia.
  - destruct (page_range q (Forall_inv (km_pages _ _ _ K))) as (_ & _ & H0). rewrite (proj2 (Z.eqb_neq _ _) H0).
    assert (Hn : F !! v = None) by (rewrite G3 by lia; apply Hfree; lia).
    destruct (chain_pages _ _ _ (km_chain _ _ _ K) q) as (y & Hy & _); [by left|].
    apply wp_bind. unfold wp at 1. rewrite (memset_spec s1 q 0 y) by by rewrite Er.
    eapply wp_bind_use; [apply (alloc1 s s1 pd T E fl F v q (replicate 4096 0)); try done; unfold zlen; by rewrite length_replicate|].
    cbv beta. intros r s2 (_ & E2 & St2 & Hz).
    replace (u32 (4096 * v + PGSIZE)) with (4096 * (v + 1)) by (unfold PGSIZE, USERTOP in *; rewrite u32_small; [lia|unfold in_u32; lia]).
    apply (IH (v + 1) s2 E2 fl (<[v := q]> F)); [lia|lia| |].
    + eapply ustep_trans; [|exact St|exact St2]. intros w p Hp _. by eapply lookup_weaken.
    + split_and!.
      * etransitivity; [exact G1|]. by apply insert_subseteq.
      * intros w Hr. destruct (decide (w = v)) as [->|Hne]; [exists q; by rewrite lookup_insert_eq|].
        destruct (G2 w) as (p & Hp & Hzp); [lia|]. exists p. rewrite lookup_insert_ne by done. split; [done|].
        rewrite (ut_keep _ _ _ _ _ _ _ _ _ _ St2 w p); [done|done|by rewrite lookup_insert_ne].
      * intros w Hr. rewrite lookup_insert_ne by lia. apply G3. lia.
Qed.

(** C12: Growing a process: with the pages between the two sizes unmapped,
    [allocuvm] always returns.  With enough free pages it answers the new size,
    every new page reads as zeros in a frame of its own, and every page already
    mapped keeps its frame and its bytes; running out part way it answers 0 and
    the address space is exactly what it was.  Either way no page is lost or
    shared: the process's frames and the free list are a rearrangement of what
    they were, and no other page of memory changes. *)
Theorem allocuvm_grows_or_undoes s pd T E fl F old new :
  uspace s pd T E fl F -> 0 <= old <= new -> new <= USERTOP ->
  (forall w, up old <= w < up new -> F !! w = None) ->
  exists r s' E' F' fl', allocuvm kend pd old new s = Ret (r, s') /\ uspace s' pd T E' fl' F' /\
    tables F' ++ fl' ≡ₚ tables F ++ fl /\
    (forall q, q ∉ pages_of pd T -> q ∉ tables F ++ fl -> ram s' !! q = ram s !! q) /\
    (forall w p, F !! w = Some p -> F' !! w = Some p /\ ram s' !! p = ram s !! p) /\
    ((r = new /\ (forall w, up old <= w < up new -> exists p, F' !! w = Some p /\ ram s' !! p = Some (replicate 4096 0)) /\
        (forall w, ~ (up old <= w < up new) -> F' !! w = F !! w)) \/
     (r = 0 /\ F' = F /\ (length fl < Z.to_nat (up new - up old))%nat)).
Proof.
  intros U Ho Hn Hf. unfold allocuvm. rewrite Z.gtb_ltb, (proj2 (Z.ltb_ge USERTOP new)) by lia. rewrite (proj2 (Z.ltb_ge new old)) by lia.
  destruct (PGROUNDUP_up old) as [Eu Hu]; [lia|]. rewrite Eu.
  assert (Hup : up old <= up new) by (unfold up; dlia). assert (0 <= up old) by (unfold up; dlia).
  destruct (proj1 (wp_iff _ _ _) (alloc_loop_spec (S (Z.to_nat (new / PGSIZE) + 1)) (up old) (up old) old new s s pd T E E fl fl F F
    eq_refl ltac:(lia) ltac:(lia) ltac:(unfold up, PGSIZE in *; dlia) ltac:(lia) ltac:(lia) Hf (ustep_refl _ _ _ _ _ _ U)
    ltac:(split_and!; [done|intros; lia|done]))) as (r & s' & Er & E' & F' & fl' & St & Hr).
  exists r, s', E', F', fl'. assert (HF : F ⊆ F') by (destruct Hr as [(_ & ? & _)|(_ & -> & _)]; done).
  split_and!; [done|apply St|apply St|apply St| |].
  - intros w p Hp. assert (F' !! w = Some p) by (by eapply lookup_weaken). split; [done|]. by apply (ut_keep _ _ _ _ _ _ _ _ _ _ St w).
  - destruct Hr as [(-> & _ & ? & ?)|?]; [left|right]; done.
Qed.
End VmSpec.
