(* ===== verification/VmFork.v ===== *)
(** Whole address spaces: setting one up, tearing one down, copying one. *)
From S2P Require Import Prelude Bytes Kalloc KallocSpec Vm VmSpec.
Import Kalloc.
Import Vm.

Section VmFork.
Context (kend kdata : Z) (Hdata : (4096 | kdata)) (Hk : 1048576 < kdata < PHYSTOP).
Implicit Types (s : pmem) (fl : list Z) (m : gmap Z (list Z)) (pd : Z) (T F : gmap Z Z) (E : Z -> Z).
Notation is_page := (is_page kend).
Notation kmem_ok := (kmem_ok kend).
Notation dir := (dir kend).
Notation vm_inv := (vm_inv kend).
Notation vm_step := (vm_step kend).
Notation uspace := (uspace kend).
Notation ustep := (ustep kend).

(** ** [setupkvm] *)

(** A page of zeros is an empty directory. *)
Lemma dir_empty m pd : is_page pd -> dir (<[pd := replicate 4096 0]> m) pd ∅ (fun _ => 0).
Proof.
  intros Hp. split; [done| |by intros i t ?%lookup_empty_Some|done].
  exists (replicate 4096 0). rewrite lookup_insert_eq. split; [done|]. split; [unfold zlen; by rewrite length_replicate|].
  intros i Hi. rewrite lookup_empty. apply word_replicate; lia.
Qed.

(** One region of [kmap]: mapped, or the memory ran out. *)
Lemma map_region v n perm s pd T E fl l :
  0 < n -> 160 <= v -> v + n <= 1048576 -> 0 <= perm < 4096 -> (forall w, v <= w < v + n -> E w = 0) ->
  vm_inv s pd T E fl ->
  (forall s' T' fl', vm_step s pd T fl s' T' (mapped E v n (4096 * v) perm) fl' ->
    wp (map_all pd l) (fun ok s2 => exists T2 E2 fl2, vm_step s' pd T' fl' s2 T2 E2 fl2 /\ ((ok : bool) = true ->
      is_Some (T2 !! 0) /\ forall w, 0 <= w < 160 -> E2 w = 0) /\ (ok = false -> fl2 = [])) s') ->
  wp (map_all pd ((4096 * v, u32 (4096 * (v + n)), perm) :: l)) (fun ok s2 => exists T2 E2 fl2, vm_step s pd T fl s2 T2 E2 fl2 /\
      ((ok : bool) = true -> is_Some (T2 !! 0) /\ forall w, 0 <= w < 160 -> E2 w = 0) /\ (ok = false -> fl2 = [])) s.
Proof.
  intros Hn Hv Hvn Hperm HE I Hl. cbn [map_all].
  replace (u32 (u32 (4096 * (v + n)) - 4096 * v)) with (4096 * n).
  2: { rewrite u32_sub_l. rewrite u32_small; [lia|unfold in_u32; lia]. }
  eapply wp_bind_use; [apply (mappages_spec kend v n (4096 * v) perm s pd T E fl); try done; try lia; [exists v; lia|]|].
  { intros w Hw. by rewrite HE. }
  cbv beta. intros r s' (T' & fl' & k & St & Hr & _).
  destruct Hr as [[-> ->]|(-> & _ & Hfl & _)].
  - change (0 <? 0) with false. cbv iota. eapply wp_mono; [by apply Hl|]. cbv beta. intros ok s2 (T2 & E2 & fl2 & St2 & Hok).
    exists T2, E2, fl2. split; [by eapply vm_step_trans|done].
  - change (-1 <? 0) with true. cbv iota. apply wp_ret. eexists _, _, _. split; [exact St|]. split; [done|by intros _].
Qed.

Lemma mapped_out E v k pa perm w : ~ (v <= w < v + k) -> mapped E v k pa perm w = E w.
Proof. unfold mapped. intros H. destruct (v <=? w) eqn:?; cbn [andb]; [|done]. by rewrite (proj2 (Z.ltb_ge _ _)) by lia. Qed.
Lemma mapped_in E v k perm w : v <= w < v + k -> mapped E v k (4096 * v) perm w = Z.lor (4096 * w) (Z.lor perm PTE_P).
Proof.
  unfold mapped. intros H. rewrite (proj2 (Z.leb_le _ _)), (proj2 (Z.ltb_lt _ _)) by lia. cbn [andb]. f_equal. lia.
Qed.

Lemma map_all_spec s pd T fl : vm_inv s pd T (fun _ => 0) fl ->
  wp (map_all pd (kmap kdata)) (fun ok s' => exists T' E' fl', vm_step s pd T fl s' T' E' fl' /\
    ((ok : bool) = true -> is_Some (T' !! 0) /\ forall w, 0 <= w < 160 -> E' w = 0) /\ (ok = false -> fl' = [])) s.
Proof.
  intros I. destruct Hdata as [kd Ekd]. unfold PHYSTOP in Hk. set (E0 := fun _ : Z => 0) in *.
  assert (Ho : forall E v k pa perm w, ~ (v <= w < v + k) -> mapped E v k pa perm w = E w) by (intros; by apply mapped_out).
  assert (Ek : kmap kdata = [(4096 * 160, u32 (4096 * (160 + 96)), PTE_W); (4096 * 256, u32 (4096 * (256 + (kd - 256))), 0);
    (4096 * kd, u32 (4096 * (kd + (4096 - kd))), PTE_W); (4096 * 1040384, u32 (4096 * (1040384 + 8192)), PTE_W)]).
  { unfold kmap, USERTOP, PHYSTOP. rewrite !(u32_small (4096 * (256 + _))), !(u32_small (4096 * (kd + _))) by (unfold in_u32; lia).
    change (u32 (4096 * (160 + 96))) with 1048576. change (u32 (4096 * (1040384 + 8192))) with 0. repeat f_equal; lia. }
  rewrite Ek. clear Ek. set (E1 := mapped E0 160 96 (4096 * 160) PTE_W). set (E2 := mapped E1 256 (kd - 256) (4096 * 256) 0).
  set (E3 := mapped E2 kd (4096 - kd) (4096 * kd) PTE_W). set (E4 := mapped E3 1040384 8192 (4096 * 1040384) PTE_W).
  apply (map_region 160 96 PTE_W s pd T E0 fl); try (unfold PTE_W; lia); [done|done|]. intros s1 T1 fl1 St1. fold E1 in St1.
  apply (map_region 256 (kd - 256) 0 s1 pd T1 E1 fl1); try lia; [intros w Hw; unfold E1; by rewrite Ho by lia|apply St1|].
  intros s2 T2 fl2 St2. fold E2 in St2.
  apply (map_region kd (4096 - kd) PTE_W s2 pd T2 E2 fl2); try (unfold PTE_W; lia);
    [intros w Hw; unfold E2, E1; by rewrite !Ho by lia|apply St2|]. intros s3 T3 fl3 St3. fold E3 in St3.
  apply (map_region 1040384 8192 PTE_W s3 pd T3 E3 fl3); try (unfold PTE_W; lia);
    [intros w Hw; unfold E3, E2, E1; by rewrite !Ho by lia|apply St3|]. fold E4.
  intros s4 T4 fl4 St4. cbn [map_all]. apply wp_ret. exists T4, E4, fl4. split; [apply vm_step_refl, St4|]. split; [|done]. intros _. split.
  - destruct (T4 !! 0) as [t|] eqn:Et; [eauto|]. exfalso.
    pose proof (dir_none _ _ _ _ _ (vm_dir _ _ _ _ _ _ (vs_inv _ _ _ _ _ _ _ _ _ St4)) 0 160 Et ltac:(lia) ltac:(lia)) as H.
    change (1024 * 0 + 160) with 160 in H. unfold E4, E3, E2, E1 in H. rewrite !Ho in H by lia. rewrite mapped_in in H by lia.
    vm_compute in H. discriminate.
  - intros w Hw. unfold E4, E3, E2, E1. by rewrite !Ho by lia.
Qed.

(** A directory has at most 1024 tables. *)
Lemma dir_size m pd T E : dir m pd T E -> (length (tables T) <= 1024)%nat.
Proof.
  intros D. unfold tables. rewrite length_fmap, length_map_to_list. rewrite <- size_dom.
  etrans; [apply (subseteq_size _ (list_to_set (seqZ 0 1024) : gset Z))|].
  - intros i [t Hi]%elem_of_dom. destruct (dir_tab _ _ _ _ _ D i t Hi) as (Hr & _). apply elem_of_list_to_set, elem_of_seqZ. lia.
  - rewrite size_list_to_set by apply NoDup_seqZ. by rewrite length_seqZ.
Qed.

(** A fresh directory has the kernel's mappings and no user page; failing, it
    has taken pages nobody gives back. *)
Lemma setupkvm_spec s fl : kmem_ok fl s ->
  wp (setupkvm kdata) (fun d s' => exists fl', kmem_ok fl' s' /\ fl' ⊆+ fl /\ same_out fl s s' /\
    (d <> 0 -> exists T E, uspace s' d T E fl' ∅ /\ pages_of d T ++ fl' ≡ₚ fl) /\
    (d = 0 -> (length fl <= 1025)%nat)) s.
Proof.
  intros K. unfold setupkvm. eapply wp_bind_use; [by apply (kalloc_spec kend fl s)|]. cbv beta. intros d s1 (Er & K1 & Ed).
  destruct fl as [|q fl]; cbn in Ed; subst d.
  - apply wp_ret. exists []. split_and!; [done|done|intros q _; by rewrite Er|done|cbn; lia].
  - pose proof (Forall_inv (km_pages _ _ _ K)) as Hp. destruct (page_range kend q Hp) as (_ & _ & H0).
    rewrite (proj2 (Z.eqb_neq _ _) H0). destruct (chain_pages _ _ _ (km_chain _ _ _ K) q) as (y & Hy & _); [by left|].
    apply wp_bind. unfold wp at 1. rewrite (memset_spec s1 q 0 y) by by rewrite Er.
    set (s2 := set_ram _ s1). pose proof (km_nodup _ _ _ K) as Nd. pose proof Nd as [Nq Nf]%NoDup_cons.
    assert (I : vm_inv s2 q ∅ (fun _ => 0) fl).
    { split; [by apply dir_empty| |exact Nd]. eapply kmem_ext, K1; cbn; [done..|]. intros r Hr. apply lookup_insert_ne. by intros ->. }
    eapply wp_bind_use; [by apply (map_all_spec s2 q ∅ fl)|]. cbv beta. intros ok s3 (T & E & fl' & St & Hok & Hno). apply wp_ret.
    pose proof (vs_pages _ _ _ _ _ _ _ _ _ St) as Hpg. change (pages_of q ∅ ++ fl) with (q :: fl) in Hpg.
    assert (Ho : same_out (q :: fl) s s3).
    { intros r Hr. rewrite (vs_out _ _ _ _ _ _ _ _ _ St r Hr). cbn. rewrite Er. apply lookup_insert_ne. intros ->. apply Hr. by left. }
    exists fl'. split_and!; [apply St|rewrite <- Hpg; by apply submseteq_inserts_l|done| |].
    2: { destruct ok; [by intros ->|]. intros _. rewrite (Hno eq_refl), app_nil_r in Hpg. apply Permutation_length in Hpg. rewrite <- Hpg.
      pose proof (dir_size _ _ _ _ (vm_dir _ _ _ _ _ _ (vs_inv _ _ _ _ _ _ _ _ _ St))). cbn. lia. }
    destruct ok; [|done]. destruct (Hok eq_refl) as [Ht He]. intros _. exists T, E. split; [|done].
    split; [apply St|done|by intros w p ?%lookup_empty_Some|intros w Hw _; by apply He|]. apply (vm_nodup _ _ _ _ _ _ (vs_inv _ _ _ _ _ _ _ _ _ St)).
Qed.

(** ** [freevm] *)

(** Freeing the tables named by the entries from [i] on; [R] holds those. *)
Lemma free_tables_spec n i s d x T R fl :
  i + Z.of_nat n = 1024 -> 0 <= i -> is_page d -> ram s !! d = Some x ->
  (forall j, 0 <= j < 1024 -> word x (4 * j) = match T !! j with Some t => Z.lor t 7 | None => 0 end) ->
  (forall j t, R !! j = Some t <-> T !! j = Some t /\ i <= j) ->
  (forall j t, T !! j = Some t -> 0 <= j < 1024 /\ is_page t) ->
  (forall j t, R !! j = Some t -> has_page (ram s) t) ->
  kmem_ok fl s -> NoDup (d :: tables R ++ fl) ->
  wp (free_tables kend n d i) (fun _ s' => exists fl', kmem_ok fl' s' /\ fl' ≡ₚ tables R ++ fl /\
    same_out (tables R ++ fl) s s') s.
Proof.
  revert i s R fl. induction n as [|n IH]; intros i s R fl Hn Hi Hd Hx Hw HR HT Hh K N; cbn [free_tables].
  - apply wp_ret. exists fl. assert (R = ∅) as ->.
    { apply map_empty. intros j. destruct (R !! j) as [t|] eqn:E; [|done]. apply HR in E as [E Hj]. apply HT in E. lia. }
    split_and!; [done|done|done].
  - assert (Hi' : 0 <= i < 1024) by lia. apply wp_bind. unfold wp at 1. rewrite (rd32_entry kend s d i x Hd Hi' Hx), Hw by done.
    destruct (T !! i) as [t|] eqn:Et.
    + destruct (HT i t Et) as [_ Ht]. destruct (pde_flags kend t Ht) as [E1 E2]. rewrite E1, E2.
      assert (HRi : R !! i = Some t) by (apply HR; split; [done|lia]).
      assert (ER : tables R ≡ₚ t :: tables (delete i R)).
      { rewrite <- (insert_delete_id R i t HRi) at 1. by rewrite tables_insert by apply lookup_delete_eq. }
      rewrite ER in N. pose proof N as [Nd N1]%NoDup_cons. cbn in N1. pose proof N1 as [Nt N2]%NoDup_cons.
      eapply wp_bind_use; [apply (kfree_spec kend fl s t K Ht); [set_solver|by eapply Hh]|]. cbv beta. intros [] s1 (K1 & y & Hy & Er).
      eapply wp_mono; [apply (IH (i + 1) s1 (delete i R) (t :: fl)); try done; try lia|].
      * rewrite Er, lookup_insert_ne; [done|]. intros ->. apply Nd. by left.
      * intros j u. rewrite lookup_delete_Some, HR. split; [intros (? & ? & ?); split; [done|lia]|intros [? ?]; split_and!; [lia|done|lia]].
      * intros j u [Hne Hu]%lookup_delete_Some. rewrite Er. unfold has_page. destruct (decide (t = u)) as [->|Htu].
        -- exists y. by rewrite lookup_insert_eq.
        -- rewrite lookup_insert_ne by done. by eapply Hh.
      * apply NoDup_cons. split; [set_solver|]. by rewrite <- Permutation_middle.
      * cbv beta. intros _ s2 (fl' & K2 & P2 & O2). exists fl'. split_and!; [done|rewrite P2, ER; cbn; by rewrite <- Permutation_middle|].
        intros q Hq. rewrite ER in Hq. rewrite O2 by set_solver. rewrite Er. apply lookup_insert_ne. set_solver.
    + change (present 0) with false. cbv iota. apply wp_bind, wp_ret. apply (IH (i + 1) s R fl); try done; try lia.
      intros j u. rewrite HR. split; intros [Hj Hr]; (split; [done|]); [|lia].
      destruct (decide (j = i)) as [->|]; [congruence|lia].
Qed.

(** The directory's page goes last, and holds the link to the page before. *)
Lemma freevm_junk s d T E F fl : uspace s d T E fl F ->
  wp (freevm kend d) (fun _ s' => exists fl', kmem_ok fl' s' /\ fl' ≡ₚ pages_of d T ++ tables F ++ fl /\
    same_out (pages_of d T ++ tables F ++ fl) s s' /\
    exists next, (next = 0 \/ is_page next) /\ ram s' !! d = Some (junk next)) s.
Proof.
  intros U. unfold freevm. pose proof (dir_page _ _ _ _ _ (vm_dir _ _ _ _ _ _ (us_inv _ _ _ _ _ _ _ U))) as Hd.
  destruct (page_range kend d Hd) as (_ & _ & H0). rewrite (proj2 (Z.eqb_neq _ _) H0).
  eapply wp_bind_use; [apply (deallocuvm_spec kend USERTOP 0 s d T E fl F); [unfold USERTOP; lia|lia|done]|].
  cbv beta. intros _ s1 (E1 & F1 & fl1 & St & _ & HF).
  assert (F1 = ∅) as ->.
  { apply map_empty. intros w. destruct (F1 !! w) as [p|] eqn:Ew; [|done]. apply HF in Ew as [Ew Hr].
    destruct (us_frame _ _ _ _ _ _ _ U w p Ew) as (Hw & _). exfalso. apply Hr.
    change (up 0) with 0. change (up USERTOP) with 160. done. }
  pose proof (ut_pages _ _ _ _ _ _ _ _ _ _ _ St) as P1. cbn in P1. pose proof (ut_space _ _ _ _ _ _ _ _ _ _ _ St) as U1.
  pose proof (us_inv _ _ _ _ _ _ _ U1) as [D K N]. destruct (dir_pd _ _ _ _ _ D) as (x & Hx & Hl & Hw).
  assert (HT : forall j t, T !! j = Some t -> (0 <= j < 1024 /\ is_page t) /\ has_page (ram s1) t).
  { intros j t Ht. destruct (dir_tab _ _ _ _ _ D j t Ht) as (? & ? & y & ? & ? & _). split; [done|]. by exists y. }
  eapply wp_bind_use.
  { apply (free_tables_spec (Z.to_nat NPDENTRIES) 0 s1 d x T T fl1); try done.
    - intros j t. split; [|tauto]. intros Ht. split; [done|]. apply HT in Ht as [[? _] _]. lia.
    - intros j t Ht. by apply HT in Ht as [? _].
    - intros j t Ht. by apply HT in Ht as [_ ?]. }
  cbv beta. intros [] s2 (fl2 & K2 & P2 & O2). pose proof N as [Nd N1]%NoDup_cons.
  assert (Hs2 : ram s2 !! d = Some x) by (rewrite O2; [done|exact Nd]).
  eapply wp_mono; [apply (kfree_junk kend fl2 s2 d K2 Hd)|].
  - by rewrite P2.
  - by exists x.
  - cbv beta. intros _ s3 (K3 & _ & Er). exists (d :: fl2). split_and!; [done|by rewrite P2, P1| |].
    2: { exists (freelist s2). rewrite Er, lookup_insert_eq. split; [|done].
         destruct (chain_head kend _ _ _ (km_pages _ _ _ K2) (km_chain _ _ _ K2)) as [[-> _]|(_ & fl' & Ef)]; [by left|right].
         pose proof (km_pages _ _ _ K2) as Hp2. rewrite Ef in Hp2. by apply Forall_inv in Hp2. }
    intros q Hq. rewrite Er, lookup_insert_ne by (intros ->; apply Hq; by left).
    rewrite O2 by (rewrite P1; set_solver). apply (ut_out _ _ _ _ _ _ _ _ _ _ _ St); set_solver.
Qed.

Lemma freevm_spec s d T E F fl : uspace s d T E fl F ->
  wp (freevm kend d) (fun _ s' => exists fl', kmem_ok fl' s' /\ fl' ≡ₚ pages_of d T ++ tables F ++ fl /\
    same_out (pages_of d T ++ tables F ++ fl) s s') s.
Proof. intros U. eapply wp_mono; [by eapply freevm_junk|]. cbv beta. intros _ s' (fl' & ? & ? & ? & _). eauto. Qed.

(** *** Twice *)

Lemma junk_words next : next = 0 \/ is_page next ->
  present (word (junk next) (4 * 0)) = false /\ word (junk next) (4 * 1) = 16843009 /\ zlen (junk next) = 4096.
Proof.
  intros Hn. assert (Hl : zlen (replicate 4096 1) = 4096) by (unfold zlen; by rewrite length_replicate).
  assert (Hd : (4096 | next) /\ in_u32 next).
  { destruct Hn as [->|Hp]; [split; [by exists 0|unfold in_u32; lia]|]. destruct (page_range kend next Hp) as (? & ? & ?).
    split; [done|]. unfold in_u32, PHYSTOP in *. lia. }
  destruct Hd as [[k ->] Hr]. unfold junk. split_and!.
  - rewrite word_splice_eq by (done || lia). unfold present. replace (k * 4096) with (Z.shiftl k 12) by (rewrite Z.shiftl_mul_pow2; lia).
    apply negb_false_iff, Z.eqb_eq. apply Z.bits_inj'. intros b Hb. rewrite Z.land_spec, Z.bits_0. change PTE_P with (2 ^ 0).
    rewrite Z.pow2_bits_eqb by lia. destruct (Z.eqb_spec 0 b) as [<-|]; [|apply andb_false_r].
    by rewrite Z.shiftl_spec_low by lia.
  - rewrite word_splice_ne by lia. vm_compute. reflexivity.
  - rewrite zlen_word_splice; lia.
Qed.

Lemma dealloc_junk fuel a old s d next : is_page d -> ram s !! d = Some (junk next) -> next = 0 \/ is_page next ->
  0 <= a -> (4096 | a) -> old <= USERTOP -> (0 < fuel)%nat -> old <= a + 4096 * (Z.of_nat fuel - 1) ->
  dealloc_loop kend fuel d a old s = Ret (tt, s).
Proof.
  intros Hd Hx Hn. destruct (junk_words next Hn) as (Hp & _ & _). revert a. induction fuel as [|fuel IH]; intros a Ha Hdv Ho H0 Hf; [lia|cbn [dealloc_loop]].
  - destruct (Z.ltb_spec a old) as [L|]; [|done]. unfold USERTOP in Ho.
    assert (Hw : walkpgdir d a false s = Ret (None, s)).
    { unfold walkpgdir. destruct (PDX_div a) as [E _]; [unfold in_u32; lia|]. rewrite E.
      replace (a / 4194304) with 0 by dlia. mstep (rd32_entry kend s d 0 _ Hd ltac:(lia) Hx). rewrite Hp. done. }
    mstep Hw. rewrite bind_mret. unfold PGSIZE. rewrite u32_small by (unfold in_u32; lia). apply IH; [lia| |unfold USERTOP; lia|lia|lia].
    by apply Z.divide_add_r; [|exists 1].
Qed.

(** Freeing an address space twice, as two [wait]s do for the threads of a
    process that has gone: the first [freevm] returns every page; the second
    finds the allocator's junk where the directory was, takes the junk for a
    present entry and panics in [kfree]. *)
Theorem freevm_twice_panics s d T E F fl : uspace s d T E fl F ->
  exists s', freevm kend d s = Ret (tt, s') /\ freevm kend d s' = Panicked "kfree".
Proof.
  intros U. pose proof (dir_page _ _ _ _ _ (vm_dir _ _ _ _ _ _ (us_inv _ _ _ _ _ _ _ U))) as Hd.
  destruct (proj1 (wp_iff _ _ _) (freevm_junk s d T E F fl U)) as ([] & s' & E1 & fl' & _ & _ & _ & next & Hn & Hx).
  exists s'. split; [done|]. unfold freevm. destruct (page_range kend d Hd) as (_ & _ & H0). rewrite (proj2 (Z.eqb_neq _ _) H0).
  destruct (junk_words next Hn) as (W0 & W1 & _). unfold deallocuvm. change (0 >=? USERTOP) with false. cbv iota.
  rewrite bind_assoc. erewrite bind_Ret; [|apply (dealloc_junk _ (PGROUNDUP 0) USERTOP s' d next Hd Hx Hn);
    [vm_compute; discriminate|by exists 0|done|apply Nat.lt_0_succ|vm_compute; discriminate]].
  rewrite bind_mret. change (Z.to_nat NPDENTRIES) with (S (S 1022)). generalize 1022%nat. intros k. cbn [free_tables]. rewrite bind_assoc.
  mstep (rd32_entry kend s' d 0 _ Hd ltac:(lia) Hx). rewrite W0. rewrite bind_assoc, bind_mret.
  rewrite bind_assoc. mstep (rd32_entry kend s' d 1 _ Hd ltac:(lia) Hx). rewrite W1.
  assert (Kf : kfree kend (PTE_ADDR 16843009) s' = Panicked "kfree").
  { unfold kfree. change (PTE_ADDR 16843009) with 16842752. by destruct (16842752 <? kend). }
  change (present 16843009) with true. cbv iota. unfold mbind, M_bind. by rewrite Kf.
Qed.

(** ** [copyuvm] *)

(** A child's memory holds the first [v] pages of the parent's. *)
Record copied s0 F fl0 v s d T F' fl' : Prop := {
  cp_space : exists E', uspace s d T E' fl' F';
  cp_pages : pages_of d T ++ tables F' ++ fl' ≡ₚ fl0;
  cp_out : same_out fl0 s0 s;
  cp_dom w : is_Some (F' !! w) <-> 0 <= w < v;
  cp_bytes w p' : F' !! w = Some p' -> exists p, F !! w = Some p /\ ram s !! p' = ram s0 !! p
}.

Lemma parent_page s0 pd T E fl0 F s w p : uspace s0 pd T E fl0 F -> same_out fl0 s0 s -> F !! w = Some p ->
  exists t, walkpgdir pd (4096 * w) false s = Ret (Some (t + 4 * w), s) /\ rd32 (t + 4 * w) s = Ret (Z.lor p 7, s) /\
    ram s !! p = ram s0 !! p /\ present (Z.lor p 7) = true /\ PTE_ADDR (Z.lor p 7) = p.
Proof.
  intros U Ho Hp. destruct (us_frame _ _ _ _ _ _ _ U w p Hp) as (Hw & He & Hpg & _). destruct (us_table _ _ _ _ _ _ _ U) as [t Ht].
  pose proof (us_inv _ _ _ _ _ _ _ U) as I. pose proof (vm_nodup_tables _ _ _ _ _ _ I) as [_ Nd].
  assert (D : dir (ram s) pd T E) by (eapply dir_ext, (vm_dir _ _ _ _ _ _ I); intros q Hq; apply Ho; by apply Nd).
  destruct (user_index w Hw) as (Hu & E0 & E1 & _ & Hr). exists t. split_and!.
  - rewrite <- E1 at 2. eapply walk_present; [done|done|by rewrite E0].
  - erewrite pte_read by done. change (1024 * 0 + w) with w. by rewrite He.
  - apply Ho. by apply (uspace_in _ _ _ _ _ _ _ _ _ U Hp).
  - by apply (pde_flags kend).
  - by apply (pde_flags kend).
Qed.

Lemma copied_step s0 pd T0 E0 F fl0 v s d T E F' q fl s1 p x s2 E2 :
  uspace s0 pd T0 E0 fl0 F -> copied s0 F fl0 v s d T F' (q :: fl) -> uspace s d T E (q :: fl) F' ->
  0 <= v -> F !! v = Some p -> ram s !! p = Some x -> ram s !! p = ram s0 !! p -> ram s1 = ram s ->
  ustep s d T E F' (q :: fl) s2 E2 (<[v := q]> F') fl -> ram s2 !! q = Some x ->
  copied s0 F fl0 (v + 1) s2 d T (<[v := q]> F') fl.
Proof.
  intros U0 [C1 C2 C3 C4 C5] U Hv Hp Hx Hps Er St Hq. split.
  - exists E2. apply St.
  - rewrite <- C2. apply Permutation_app_head, St.
  - intros r Hr. rewrite (ut_out _ _ _ _ _ _ _ _ _ _ _ St); [by apply C3| |]; rewrite <- C2 in Hr; set_solver.
  - intros w. rewrite lookup_insert_is_Some, C4. lia.
  - intros w p'. rewrite lookup_insert_Some. intros [[<- <-]|[Hne Hw]].
    + exists p. split; [done|]. by rewrite Hq, <- Hps.
    + destruct (C5 w p' Hw) as (r & Hr & E'). exists r. split; [done|]. rewrite <- E'.
      apply (ut_keep _ _ _ _ _ _ _ _ _ _ _ St w); [done|by rewrite lookup_insert_ne].
Qed.

Lemma copy_loop_spec fuel s0 pd T0 E0 F fl0 sz v s d T F' fl' :
  uspace s0 pd T0 E0 fl0 F -> 0 <= sz <= USERTOP -> (forall w, 0 <= w < up sz -> is_Some (F !! w)) ->
  0 <= v <= up sz -> up sz - v < Z.of_nat fuel -> copied s0 F fl0 v s d T F' fl' ->
  wp (copy_loop kend fuel pd d (4096 * v) sz) (fun r s' =>
    (r = d /\ exists F2 fl2, copied s0 F fl0 (up sz) s' d T F2 fl2) \/
    (r = 0 /\ exists fl2, kmem_ok fl2 s' /\ fl2 ≡ₚ fl0 /\ same_out fl0 s0 s')) s.
Proof.
  intros U0 Hsz HF. revert v s F' fl'. induction fuel as [|fuel IH]; [lia|]. intros v s F' fl' Hv Hf C. cbn [copy_loop].
  destruct (Z.ltb_spec (4096 * v) sz) as [L|G].
  2: { apply wp_ret. left. split; [done|]. exists F', fl'. assert (v = up sz) as <- by (unfold up in *; dlia). done. }
  assert (Hlt : v < up sz) by (unfold up in *; dlia). destruct (HF v) as [p Hp]; [lia|].
  destruct (parent_page s0 pd T0 E0 fl0 F s v p U0 (cp_out _ _ _ _ _ _ _ _ _ C) Hp) as (t & Ew & Ee & Eq & E1 & E2).
  apply wp_bind. unfold wp at 1. rewrite Ew. apply wp_bind. unfold wp at 1. rewrite Ee. rewrite E1, E2. cbn [negb].
  destruct (cp_space _ _ _ _ _ _ _ _ _ C) as [E U]. pose proof (us_inv _ _ _ _ _ _ _ U) as [D K N].
  destruct (us_frame _ _ _ _ _ _ _ U0 v p Hp) as (Hw & _ & Hpg & x & Hx & Hl).
  eapply wp_bind_use; [by apply (kalloc_spec kend fl' s)|]. cbv beta. intros q s1 (Er & K1 & Ep).
  destruct fl' as [|r fl]; cbn in Ep; subst q.
  - cbn [Z.eqb]. assert (U1 : uspace s1 d T E [] F').
    { destruct U as [[U1 U2 U3] U4 U5 U6 U7]. split; [split; [by rewrite Er|done|done]|done| |done|done].
      intros w p' Hp'. destruct (U5 w p' Hp') as (? & ? & ? & ?). split; [done|]. split; [done|]. split; [done|]. unfold has_page. by rewrite Er. }
    eapply wp_bind_use; [by apply (freevm_spec s1 d T E F' [])|]. cbv beta. intros [] s2 (fl2 & K2 & P2 & O2). apply wp_ret.
    right. split; [done|]. exists fl2. rewrite (cp_pages _ _ _ _ _ _ _ _ _ C) in P2. split_and!; [done|done|].
    intros q Hq. rewrite O2, Er; [by apply (cp_out _ _ _ _ _ _ _ _ _ C)|]. by rewrite (cp_pages _ _ _ _ _ _ _ _ _ C).
  - destruct (page_range kend r (Forall_inv (km_pages _ _ _ K))) as (_ & _ & H0). rewrite (proj2 (Z.eqb_neq _ _) H0).
    assert (Hxs : ram s1 !! p = Some x) by by rewrite Er, Eq.
    destruct (chain_pages _ _ _ (km_chain _ _ _ K) r) as (y & Hy & _); [by left|].
    apply wp_bind. unfold wp at 1. unfold rd_page. rewrite bind_get, Hxs. cbn [deref]. unfold mret, M_ret.
    apply wp_bind. unfold wp at 1. unfold wr_page, rd_page. rewrite bind_assoc, bind_get, Er, Hy, bind_deref. unfold modify.
    assert (Hn : F' !! v = None).
    { destruct (F' !! v) eqn:En; [|done]. assert (is_Some (F' !! v)) as Hs by eauto. apply (cp_dom _ _ _ _ _ _ _ _ _ C) in Hs. lia. }
    eapply wp_bind_use; [apply (alloc1 kend s s1 d T E fl F' v r x); try done|]. cbv beta. intros z s2 (-> & E3 & St & Hz).
    change (0 <? 0) with false. cbv iota.
    replace (u32 (4096 * v + PGSIZE)) with (4096 * (v + 1)) by (unfold PGSIZE; rewrite u32_small; [lia|unfold in_u32; lia]).
    apply (IH (v + 1) s2 (<[v := r]> F') fl); [lia|lia|].
    eapply (copied_step s0 pd T0 E0 F fl0 v s d T E F' r fl s1 p x); try done; [lia|by rewrite <- Er].
Qed.

(** C10: Copying an address space: for a process all of whose [sz] bytes are
    mapped, [copyuvm] always returns.  If it returns a directory, that is a new
    address space with the same bytes at every address in frames of its own
    (the directory, its tables, its frames and the free list are a
    rearrangement of the old free list, so none is the parent's); if it fails
    while copying it has given every page back.  In all cases no page that was
    not free has changed: the parent is untouched. *)
Theorem copyuvm_copies s pd T E fl F sz :
  uspace s pd T E fl F -> 0 <= sz <= USERTOP -> (forall w, 0 <= w < up sz -> is_Some (F !! w)) ->
  exists d s' fl', copyuvm kend kdata pd sz s = Ret (d, s') /\ kmem_ok fl' s' /\ fl' ⊆+ fl /\ same_out fl s s' /\
    uspace s' pd T E fl' F /\
    (d = 0 \/ exists T' E' F', uspace s' d T' E' fl' F' /\ pages_of d T' ++ tables F' ++ fl' ≡ₚ fl /\
      (forall w, 0 <= w < up sz -> exists p p', F !! w = Some p /\ F' !! w = Some p' /\ ram s' !! p' = ram s' !! p)).
Proof.
  intros U Hsz HF. pose proof (us_inv _ _ _ _ _ _ _ U) as [D K N].
  assert (Stay : forall s' fl', kmem_ok fl' s' -> fl' ⊆+ fl -> same_out fl s s' -> uspace s' pd T E fl' F).
  { intros. by eapply uspace_stays. }
  assert (W : wp (copyuvm kend kdata pd sz) (fun d s' => exists fl', kmem_ok fl' s' /\ fl' ⊆+ fl /\ same_out fl s s' /\
    (d = 0 \/ exists T' F', copied s F fl (up sz) s' d T' F' fl')) s).
  { unfold copyuvm. eapply wp_bind_use; [by apply (setupkvm_spec s fl)|]. cbv beta. intros d s1 (fl1 & K1 & Hsub & Ho & Hd & _).
    destruct (Z.eqb_spec d 0) as [->|H0].
    - apply wp_ret. exists fl1. split_and!; [done..|by left].
    - destruct (Hd H0) as (T1 & E1 & U1 & P1). replace 0 with (4096 * 0) at 2 by lia.
      eapply wp_mono; [apply (copy_loop_spec _ s pd T E F fl sz 0 s1 d T1 ∅ fl1); try done|].
      + split; [lia|unfold up; dlia].
      + unfold up, PGSIZE in *. dlia.
      + split; [by exists E1|done|done| |by intros w p' ?%lookup_empty_Some]. intros w. rewrite lookup_empty. split; [by intros []|lia].
      + cbv beta. intros r s2 [(-> & F2 & fl2 & C)|(-> & fl2 & K2 & P2 & O2)].
        * exists fl2. destruct (cp_space _ _ _ _ _ _ _ _ _ C) as [E2 U2]. split_and!.
          -- apply U2.
          -- rewrite <- (cp_pages _ _ _ _ _ _ _ _ _ C). rewrite app_assoc. by apply submseteq_inserts_l.
          -- apply C.
          -- right. eauto.
        * exists fl2. split_and!; [done|by rewrite P2|done|by left]. }
  apply wp_iff in W as (d & s' & Er & fl' & K' & Hsub & Ho & Hd). exists d, s', fl'. split_and!; [done..|by apply Stay|].
  destruct Hd as [->|(T' & F' & C)]; [by left|]. right. destruct (cp_space _ _ _ _ _ _ _ _ _ C) as [E' U'].
  exists T', E', F'. split_and!; [done|apply C|]. intros w Hw. destruct (proj2 (cp_dom _ _ _ _ _ _ _ _ _ C w) Hw) as [p' Hp'].
  destruct (cp_bytes _ _ _ _ _ _ _ _ _ C w p' Hp') as (p & Hp & Eb). exists p, p'. split_and!; [done..|].
  rewrite Eb. symmetry. apply Ho. by apply (uspace_in _ _ _ _ _ _ _ _ _ U Hp).
Qed.
End VmFork.
