(* ===== verification/VmUser.v ===== *)
(** What a process sees: the bytes of its address space, and how [allocuvm] and
    [copyout] change them. *)
From S2P Require Import Prelude Bytes Kalloc KallocSpec Vm VmSpec VmFork.
Import Kalloc.
Import Vm.

(** The byte at a user address. *)
Definition ubyte (m : gmap Z (list Z)) (F : gmap Z Z) (va : Z) : option Z :=
  p ← F !! (va / 4096); x ← m !! p; x !! Z.to_nat (va mod 4096).

(** Memory contents, with a string put at an address, and read out. *)
Definition over (img : Z -> Z) (a : Z) (data : list Z) : Z -> Z :=
  fun va => if (a <=? va) && (va <? a + zlen data) then nth (Z.to_nat (va - a)) data 0 else img va.
Definition slice (img : Z -> Z) (a n : Z) : list Z := img <$> seqZ a n.

Lemma over_out img a data va : ~ (a <= va < a + zlen data) -> over img a data va = img va.
Proof. intros H. unfold over. destruct (a <=? va) eqn:?; [|done]. by rewrite (proj2 (Z.ltb_ge _ _)) by lia. Qed.
Lemma over_in img a data va : a <= va < a + zlen data -> over img a data va = nth (Z.to_nat (va - a)) data 0.
Proof. intros H. unfold over. by rewrite (proj2 (Z.leb_le _ _)), (proj2 (Z.ltb_lt _ _)) by lia. Qed.
Lemma over_split img a data n va : 0 <= n <= zlen data ->
  over (over img a (take (Z.to_nat n) data)) (a + n) (drop (Z.to_nat n) data) va = over img a data va.
Proof.
  intros Hn. assert (E1 : zlen (take (Z.to_nat n) data) = n) by (unfold zlen in *; rewrite length_take; lia).
  assert (E2 : zlen (drop (Z.to_nat n) data) = zlen data - n) by (unfold zlen in *; rewrite length_drop; lia).
  destruct (decide (a + n <= va < a + zlen data)) as [H|H].
  - rewrite over_in by lia. rewrite over_in by lia. rewrite nth_skipn. f_equal. lia.
  - rewrite over_out by lia. destruct (decide (a <= va < a + n)) as [H'|H'].
    + rewrite !over_in by lia. rewrite nth_firstn. by rewrite (proj2 (Nat.ltb_lt _ _)) by lia.
    + by rewrite !over_out by lia.
Qed.
Lemma slice_over img a data : slice (over img a data) a (zlen data) = data.
Proof.
  unfold slice. apply list_eq_same_length with (n := length data); [done|by rewrite length_fmap, length_seqZ; unfold zlen; lia|].
  intros k v w Hk. rewrite list_lookup_fmap, lookup_seqZ_lt by (unfold zlen; lia). cbn. intros [= <-] Hw.
  rewrite over_in by (unfold zlen; lia). replace (Z.to_nat _) with k by lia. by apply nth_lookup_Some with (d := 0) in Hw.
Qed.
Lemma slice_same f g a n : (forall va, a <= va < a + n -> f va = g va) -> slice f a n = slice g a n.
Proof. intros H. unfold slice. apply list_fmap_ext. intros i x Hx%lookup_seqZ. apply H. lia. Qed.

Lemma zeros_lookup k : 0 <= k < 4096 -> replicate 4096 0 !! Z.to_nat k = Some 0.
Proof. intros Hk. apply lookup_replicate. split; [done|]. lia. Qed.

Section VmUser.
Context (kend : Z).
Implicit Types (s : pmem) (fl : list Z) (pd : Z) (T F : gmap Z Z) (img : Z -> Z).
Notation uspace := (uspace kend).

(** A space being filled: the pages of the directory [d] come from the free
    list [fl0]; the user part has the pages below [sz] and the bytes [img]. *)
Record filled s0 fl0 s d T F fl img sz : Prop := {
  fd_space : exists E, uspace s d T E fl F;
  fd_pages : pages_of d T ++ tables F ++ fl ≡ₚ fl0;
  fd_out : same_out fl0 s0 s;
  fd_dom w : is_Some (F !! w) <-> 0 <= w < up sz;
  fd_img va : 0 <= va < 4096 * up sz -> ubyte (ram s) F va = Some (img va)
}.

(** Pages enough for any directory and its user part. *)
Definition plenty : nat := 1185.

Lemma filled_ext s0 fl0 s d T F fl img img' sz : (forall va, 0 <= va < 4096 * up sz -> img va = img' va) ->
  filled s0 fl0 s d T F fl img sz -> filled s0 fl0 s d T F fl img' sz.
Proof. intros He [? ? ? ? Hi]. split; [done..|]. intros va Hva. by rewrite <- He, Hi. Qed.

Lemma filled_new kdata s fl : (4096 | kdata) -> 1048576 < kdata < PHYSTOP -> kmem_ok kend fl s -> (plenty <= length fl)%nat ->
  wp (setupkvm kdata) (fun d s' => d <> 0 /\ exists T fl', filled s fl s' d T ∅ fl' (fun _ => 0) 0) s.
Proof.
  intros Hdata Hk K Hl. eapply wp_mono; [by apply (setupkvm_spec kend kdata Hdata Hk s fl)|]. cbv beta.
  intros d s' (fl' & K' & Hsub & Ho & Hd & Hd0). destruct (decide (d = 0)) as [->|Hn]; [specialize (Hd0 eq_refl); unfold plenty in Hl; lia|].
  split; [done|]. destruct (Hd Hn) as (T & E & U & P). exists T, fl'. split; [by exists E|exact P|done| |intros va Hva; change (up 0) with 0 in Hva; lia].
  intros w. rewrite lookup_empty. change (up 0) with 0. split; [by intros []|lia].
Qed.

Lemma filled_free s0 fl0 s d T F fl img sz : filled s0 fl0 s d T F fl img sz -> (plenty <= length fl0)%nat -> 0 <= sz ->
  (Z.to_nat (160 - up sz) <= length fl)%nat.
Proof.
  intros [[E U] P _ Hdom _] Hl Hsz. assert (0 <= up sz) by (unfold up; dlia). apply Permutation_length in P. rewrite !length_app in P.
  assert (length (pages_of d T) = S (length (tables T))) by done.
  pose proof (dir_size _ _ _ _ _ (vm_dir _ _ _ _ _ _ (us_inv _ _ _ _ _ _ _ U))) as Ht.
  assert (Hf : (length (tables F) <= Z.to_nat (up sz))%nat).
  { unfold tables. rewrite length_fmap, length_map_to_list, <- size_dom.
    etrans; [apply (subseteq_size _ (list_to_set (seqZ 0 (up sz)) : gset Z))|].
    - intros w Hw%elem_of_dom. apply Hdom in Hw. apply elem_of_list_to_set, elem_of_seqZ. lia.
    - rewrite size_list_to_set by apply NoDup_seqZ. by rewrite length_seqZ. }
  unfold plenty in Hl. lia.
Qed.

(** [allocuvm] of a new size: the new pages read as zeros. *)
Lemma filled_grow s0 fl0 s d T F fl img sz new : filled s0 fl0 s d T F fl img sz -> (plenty <= length fl0)%nat ->
  0 <= sz -> 0 <= new <= USERTOP -> (forall va, 4096 * up sz <= va -> img va = 0) ->
  wp (allocuvm kend d sz new) (fun r s' => r = Z.max sz new /\ exists F' fl', filled s0 fl0 s' d T F' fl' img (Z.max sz new)) s.
Proof.
  intros G Hl Hsz Hnew Hz. destruct (Z_lt_ge_dec new sz) as [L|Ge].
  { unfold allocuvm. rewrite Z.gtb_ltb, (proj2 (Z.ltb_ge USERTOP new)), (proj2 (Z.ltb_lt new sz)) by lia.
    apply wp_ret. rewrite Z.max_l by lia. split; [done|]. eauto. }
  pose proof (filled_free _ _ _ _ _ _ _ _ _ G Hl Hsz) as Hfree. destruct G as [[E U] P Ho Hdom Hi].
  destruct (allocuvm_grows_or_undoes kend s d T E fl F sz new U) as (r & s' & E' & F' & fl' & Er & U' & P' & Ho' & Hkeep & Hr); [lia|lia| |].
  { intros w Hw. destruct (F !! w) eqn:EF; [|done]. assert (is_Some (F !! w)) as Hs by eauto. apply Hdom in Hs. lia. }
  assert (Hup : up new <= 160) by (unfold up, USERTOP in *; dlia).
  destruct Hr as [(-> & Hnew' & Hold)|(_ & _ & Hlen)]; [|lia].
  unfold wp. rewrite Er. rewrite Z.max_r by lia. split; [done|]. exists F', fl'. pose proof (up_mono sz new ltac:(lia)) as Hum.
  assert (0 <= up sz) by (unfold up; dlia).
  split; [by exists E'|by rewrite P'| | |].
  - intros q Hq. rewrite Ho'; [by apply Ho| |]; intros Hin; apply Hq; rewrite <- P, !elem_of_app; rewrite ?elem_of_app in Hin; tauto.
  - intros w. destruct (decide (up sz <= w < up new)) as [Hw|Hw].
    + destruct (Hnew' w Hw) as (p & -> & _). split; [lia|eauto].
    + rewrite Hold by done. rewrite Hdom. lia.
  - intros va Hva. unfold ubyte. destruct (decide (up sz <= va / 4096 < up new)) as [Hw|Hw].
    + destruct (Hnew' _ Hw) as (p & -> & Hp). cbn [mbind option_bind]. rewrite Hp. cbn [mbind option_bind].
      rewrite zeros_lookup by (apply Z.mod_pos_bound; lia). rewrite Hz; [done|]. dlia.
    + assert (Hva' : 0 <= va < 4096 * up sz) by dlia. specialize (Hi va Hva'). unfold ubyte in Hi.
      destruct (F !! (va / 4096)) as [p|] eqn:EF; [|done]. destruct (Hkeep _ _ EF) as [-> Hp]. cbn [mbind option_bind] in *. by rewrite Hp.
Qed.

(** Storing a string in one of its pages. *)
Lemma filled_poke s0 fl0 s d T F fl img sz w p x a data : filled s0 fl0 s d T F fl img sz -> F !! w = Some p ->
  ram s !! p = Some x -> 4096 * w <= a -> a + zlen data <= 4096 * w + 4096 ->
  filled s0 fl0 (set_ram (<[p := splice (a - 4096 * w) data x]> (ram s)) s) d T F fl (over img a data) sz.
Proof.
  intros [[E U] P Ho Hdom Hi] Hw Hx Ha1 Ha2. destruct (us_frame _ _ _ _ _ _ _ U w p Hw) as (Hw160 & He & Hpg & (x' & Hx' & Hlx)).
  assert (x' = x) as -> by congruence. pose proof (zlen_nonneg data) as Hd0.
  destruct (uspace_in _ _ _ _ _ _ _ _ _ U Hw) as [Hn1 Hn2].
  assert (Hls : zlen (splice (a - 4096 * w) data x) = 4096) by (rewrite zlen_splice; lia).
  set (s' := set_ram _ s). assert (Hother : forall q, q <> p -> ram s' !! q = ram s !! q) by (intros q Hq; by apply lookup_insert_ne).
  split; [|done| |done|].
  - exists E. destruct U as [[D K N] Us UF UN Nd]. split; [split| | | |]; try done.
    + eapply dir_ext, D. intros q Hq. apply Hother. by intros ->.
    + eapply kmem_ext, K; [done..|]. intros q Hq. apply Hother. by intros ->.
    + intros w' p' Hp'. destruct (UF w' p' Hp') as (? & ? & ? & Hh). split; [done|]. split; [done|]. split; [done|].
      destruct (decide (p' = p)) as [->|Hne]; [|unfold has_page; by rewrite Hother].
      exists (splice (a - 4096 * w) data x). split; [apply lookup_insert_eq|done].
  - intros q Hq. rewrite Hother; [by apply Ho|]. intros ->. apply Hq. rewrite <- P. apply elem_of_app. right. apply elem_of_app. left.
    apply elem_tables. eauto.
  - intros va Hva. specialize (Hi va Hva). unfold ubyte in *. destruct (F !! (va / 4096)) as [q|] eqn:Eq; [|done]. cbn in *.
    destruct (decide (q = p)) as [->|Hne].
    + assert (va / 4096 = w) as Ew by (by eapply uspace_inj). rewrite Hx in Hi. cbn in Hi. rewrite lookup_insert_eq. cbn.
      replace (a - 4096 * w) with (Z.of_nat (Z.to_nat (a - 4096 * w))) by lia. rewrite splice_lookup by (unfold zlen in *; lia).
      destruct (decide (a <= va < a + zlen data)) as [Hin|Hout].
      * rewrite decide_True by (unfold zlen in *; dlia). rewrite over_in by done.
        replace (Z.to_nat (va mod 4096) - Z.to_nat (a - 4096 * w))%nat with (Z.to_nat (va - a)) by dlia.
        destruct (lookup_lt_is_Some_2 data (Z.to_nat (va - a))) as [y Hy]; [unfold zlen in *; lia|].
        rewrite Hy. by apply nth_lookup_Some with (d := 0) in Hy as ->.
      * rewrite decide_False by (unfold zlen in *; dlia). by rewrite over_out.
    + rewrite lookup_insert_ne by done. rewrite over_out; [done|]. intros Hin. apply Hne.
      assert (va / 4096 = w) as Ew by dlia. rewrite Ew in Eq. congruence.
Qed.

(** The page behind an address of the space. *)
Lemma filled_page s0 fl0 s d T F fl img sz w : filled s0 fl0 s d T F fl img sz -> 0 <= w < up sz ->
  exists p x t e, F !! w = Some p /\ ram s !! p = Some x /\ zlen x = 4096 /\ walkpgdir d (4096 * w) false s = Ret (Some (t + 4 * w), s) /\
    rd32 (t + 4 * w) s = Ret (e, s) /\ e = Z.lor p 7 /\ PTE_ADDR e = p /\ p <> 0 /\ 0 <= w < 160.
Proof.
  intros [[E U] _ _ Hdom _] Hw. apply Hdom in Hw as [p Hp]. destruct (us_frame _ _ _ _ _ _ _ U w p Hp) as (Hw160 & He & Hpg & (x & Hx & Hlx)).
  destruct (us_table _ _ _ _ _ _ _ U) as [t Ht]. destruct (user_walk _ _ _ _ _ _ _ t w false U Ht Hw160) as [E1 E2].
  destruct (page_range kend p Hpg) as (Hd & Hr & H0). exists p, x, t, (E w). split_and!; try done; try lia. rewrite He.
  apply PTE_ADDR_flags; [done|done|lia].
Qed.

Lemma uva2ka_spec s0 fl0 s d T F fl img sz w : filled s0 fl0 s d T F fl img sz -> 0 <= w < up sz ->
  exists p x, F !! w = Some p /\ ram s !! p = Some x /\ p <> 0 /\ uva2ka d (4096 * w) s = Ret (p, s).
Proof.
  intros G Hw. destruct (filled_page _ _ _ _ _ _ _ _ _ _ G Hw) as (p & x & t & e & Hp & Hx & _ & E1 & E2 & He & Ha & H0 & _).
  exists p, x. split_and!; [done..|]. unfold uva2ka. mstep E1. mstep E2. rewrite Ha, He.
  assert (Hl : forall f, Z.lor f 7 = 7 -> Z.land f 7 = f -> 0 <= f -> f <> 0 -> Z.land (Z.lor p 7) f =? 0 = false).
  { intros f Hf Hf' Hp0 Hf0. apply Z.eqb_neq. rewrite Z.land_lor_distr_l, (Z.land_comm 7 f), Hf'.
    intros Hz%Z.lor_eq_0_iff. lia. }
  by rewrite !Hl by done.
Qed.

Lemma copyout_loop_spec fuel va data s0 fl0 s d T F fl img sz : filled s0 fl0 s d T F fl img sz -> 0 <= va ->
  va + zlen data <= 4096 * up sz -> up sz <= 160 -> (va + zlen data) / 4096 - va / 4096 + 1 < Z.of_nat fuel ->
  wp (copyout_loop fuel d va data (zlen data)) (fun r s' => r = 0 /\ filled s0 fl0 s' d T F fl (over img va data) sz) s.
Proof.
  revert va data s img. induction fuel as [|fuel IH]; intros va data s img G Hva Hend Hup Hf; [pose proof (zlen_nonneg data); dlia|]. cbn [copyout_loop].
  pose proof (zlen_nonneg data) as Hd. rewrite Z.gtb_ltb. destruct (Z.ltb_spec 0 (zlen data)) as [L|Ge].
  2: { apply wp_ret. split; [done|]. eapply filled_ext; [|exact G]. intros a _. by rewrite over_out by lia. }
  assert (Ew : PGROUNDDOWN va = 4096 * (va / 4096)).
  { unfold PGROUNDDOWN, PGSIZE. rewrite u32_small by (unfold in_u32; lia). lia. }
  rewrite Ew. destruct (uva2ka_spec _ _ _ _ _ _ _ _ _ (va / 4096) G ltac:(dlia)) as (p & x & Hp & Hx & H0 & Eu).
  apply wp_bind. unfold wp at 1. rewrite Eu. rewrite (proj2 (Z.eqb_neq p 0) H0). unfold PGSIZE.
  set (n := if _ >? zlen data then zlen data else _). assert (Hn : 0 < n <= zlen data /\ va - 4096 * (va / 4096) + n <= 4096 /\
    (n < zlen data -> 4096 * (va / 4096) + 4096 = va + n)).
  { unfold n. rewrite Z.gtb_ltb. destruct (Z.ltb_spec (zlen data) (4096 - (va - 4096 * (va / 4096)))); dlia. }
  assert (Er : rd_page p s = Ret (x, s)) by (unfold rd_page; rewrite bind_get, Hx; done).
  apply wp_bind. unfold wp at 1. rewrite Er. apply wp_bind. unfold wp at 1. unfold wr_page. mstep Er. unfold modify.
  pose proof (filled_poke _ _ _ _ _ _ _ _ _ _ p x va (take (Z.to_nat n) data) G Hp Hx ltac:(dlia)) as G'.
  assert (El : zlen (take (Z.to_nat n) data) = n) by (unfold zlen in *; rewrite length_take; lia).
  specialize (G' ltac:(lia)).
  destruct (decide (n = zlen data)) as [En|Hne].
  - assert (Hdr : drop (Z.to_nat n) data = []) by (apply drop_ge; unfold zlen in *; lia).
    assert (Htk : take (Z.to_nat n) data = data) by (apply take_ge; unfold zlen in *; lia).
    rewrite Hdr, Htk in *. rewrite En, Z.sub_diag. destruct fuel as [|fuel]; [dlia|]. cbn [copyout_loop]. change (0 >? 0) with false.
    cbv iota. apply wp_ret. split; [done|exact G'].
  - assert (Hlt : n < zlen data) by lia. destruct Hn as (Hn1 & Hn2 & Hn3). specialize (Hn3 Hlt).
    assert (E2 : zlen (drop (Z.to_nat n) data) = zlen data - n) by (unfold zlen in *; rewrite length_drop; lia).
    rewrite Hn3, u32_small, <- E2 by (unfold in_u32; lia).
    eapply wp_mono; [apply (IH (va + n) (drop (Z.to_nat n) data) _ _ G'); try lia|].
    + rewrite E2. replace (va + n + (zlen data - n)) with (va + zlen data) by lia. dlia.
    + cbv beta. intros r s' [-> G'']. split; [done|]. eapply filled_ext; [|exact G'']. intros a _. apply over_split. lia.
Qed.
Lemma copyout_spec va data s0 fl0 s d T F fl img sz : filled s0 fl0 s d T F fl img sz -> 0 <= va ->
  va + zlen data <= 4096 * up sz -> up sz <= 160 ->
  wp (copyout d va data) (fun r s' => r = 0 /\ filled s0 fl0 s' d T F fl (over img va data) sz) s.
Proof.
  intros G Hva Hend Hup. apply copyout_loop_spec; [done..|]. pose proof (zlen_nonneg data). unfold PGSIZE. dlia.
Qed.
End VmUser.
