(* ===== verification/VmDemo.v ===== *)
(** A process of one page, with seventeen free pages, for the address-space
    theorems. *)
From S2P Require Import Prelude Bytes Kalloc KallocSpec Vm VmSpec VmFork.
Import Kalloc.
Import Vm.

(** Memory of [n] pages: a directory, a table, a page of the process, and the
    free ones. *)
Definition kend_of (n : Z) : Z := PHYSTOP - 4096 * n.
Definition page_of (n k : Z) : Z := kend_of n + 4096 * k.
Definition kdata1 : Z := 1052672.

Definition hd0 (l : list Z) : Z := match l with [] => 0 | p :: _ => p end.
Fixpoint link (l : list Z) : gmap Z (list Z) :=
  match l with
  | [] => ∅
  | p :: l => <[p := splice 0 (to_le 4 (hd0 l)) (replicate 4096 1)]> (link l)
  end.

Section Demo.
Context (n : Z) (Hn : 4 <= n <= 3000).
Notation pg := (page_of n).
Notation kend1 := (kend_of n).

Definition free_of : list Z := pg <$> seqZ 3 (n - 3).
Definition dir_of : list Z := splice (4 * 0) (to_le 4 (Z.lor (pg 1) 7)) (replicate 4096 0).
Definition tab_of : list Z := splice (4 * 0) (to_le 4 (Z.lor (pg 2) 7)) (replicate 4096 0).
Definition user1 : list Z := replicate 4096 42.
Definition proc_of : pmem := mkMem (<[pg 0 := dir_of]> (<[pg 1 := tab_of]> (<[pg 2 := user1]> (link free_of)))) (pg 3) false.
Definition E_of : Z -> Z := fun w => if w =? 0 then Z.lor (pg 2) 7 else 0.

Lemma pg_page k : 0 <= k < n -> is_page kend1 (pg k).
Proof. intros Hk. unfold is_page, page_of, kend_of, PHYSTOP. split; [exists (4096 - n + k); lia|lia]. Qed.

Lemma link_lookup l p : p ∉ l -> link l !! p = None.
Proof. induction l as [|q l IH]; cbn; [done|]. intros Hp. rewrite lookup_insert_ne by set_solver. apply IH. set_solver. Qed.

Lemma link_chain l : NoDup l -> Forall (is_page kend1) l -> chain (link l) (hd0 l) l.
Proof.
  induction l as [|p l IH]; cbn -[splice to_le replicate word]; [done|]. intros [Hp N]%NoDup_cons [Hpg P]%Forall_cons. split; [done|]. eexists.
  rewrite lookup_insert_eq. split; [done|]. split; [rewrite zlen_word_splice; [done|lia|unfold zlen; by rewrite length_replicate]|].
  rewrite word_splice_eq; [|lia|unfold zlen; by rewrite length_replicate|].
  - eapply chain_ext, IH; [|done|done]. intros q Hq. apply lookup_insert_ne. by intros ->.
  - destruct l as [|q l]; cbn; [unfold in_u32; lia|]. apply Forall_inv in P as (_ & ? & ?). unfold in_u32, PHYSTOP in *. lia.
Qed.

Lemma word_first v i : in_u32 v -> 0 <= i < 1024 ->
  word (splice (4 * 0) (to_le 4 v) (replicate 4096 0)) (4 * i) = if i =? 0 then v else 0.
Proof.
  intros Hv Hi. assert (Hl : zlen (replicate 4096 0) = 4096) by (unfold zlen; by rewrite length_replicate).
  destruct (Z.eqb_spec i 0) as [->|Hne]; [apply word_splice_eq; lia || done|].
  rewrite word_splice_ne by lia. apply word_replicate; lia.
Qed.

Lemma proc_space : uspace kend1 proc_of (pg 0) {[0 := pg 1]} E_of free_of {[0 := pg 2]}.
Proof.
  assert (Hf : forall k, k < 3 -> pg k ∉ free_of).
  { intros k Hk (j & Ej & Hj%elem_of_seqZ)%list_elem_of_fmap. unfold page_of in Ej. lia. }
  assert (Hl : zlen (replicate 4096 0) = 4096) by (unfold zlen; by rewrite length_replicate).
  assert (Nf : NoDup free_of).
  { apply NoDup_fmap_2; [|apply NoDup_seqZ]. intros i j. unfold page_of. lia. }
  assert (Pf : Forall (is_page kend1) free_of).
  { apply Forall_fmap, Forall_forall. intros k Hk%elem_of_seqZ. apply pg_page. lia. }
  assert (Nd : NoDup (pages_of (pg 0) {[0 := pg 1]} ++ tables {[0 := pg 2]} ++ free_of)).
  { unfold pages_of, tables. rewrite !map_to_list_singleton. cbn [fmap list_fmap snd app].
    assert (Es : seqZ 0 n = [0; 1; 2] ++ seqZ 3 (n - 3)).
    { replace n with (3 + (n - 3)) at 1 by lia. by rewrite seqZ_app by lia. }
    change (pg 0 :: pg 1 :: pg 2 :: free_of) with (pg <$> [0; 1; 2] ++ seqZ 3 (n - 3)). rewrite <- Es. apply NoDup_fmap_2; [|apply NoDup_seqZ]. intros i j. unfold page_of. lia. }
  assert (Hu : forall k, 0 <= k < n -> in_u32 (Z.lor (pg k) 7)).
  { intros k Hk. destruct (pg_page k Hk) as (Hd & ? & ?). apply lor_u32; [done|unfold in_u32, PHYSTOP in *; lia|lia]. }
  split; [split| | | |done].
  - split; [apply pg_page; lia| | |].
    + exists dir_of. split; [apply lookup_insert_eq|]. split; [unfold dir_of; rewrite zlen_word_splice; lia|].
      intros i Hi. unfold dir_of. rewrite word_first by (done || (apply Hu; lia)). destruct (Z.eqb_spec i 0) as [->|].
      * by rewrite lookup_singleton_eq.
      * by rewrite lookup_singleton_ne.
    + intros i t [<- <-]%lookup_singleton_Some. split; [lia|]. split; [apply pg_page; lia|]. exists tab_of.
      split; [cbn; rewrite lookup_insert_ne by (unfold page_of; lia); apply lookup_insert_eq|].
      split; [unfold tab_of; rewrite zlen_word_splice; lia|]. intros j Hj. unfold tab_of. rewrite word_first by (done || (apply Hu; lia)). done.
    + intros i j Hnone Hi Hj. unfold E_of. destruct (Z.eqb_spec (1024 * i + j) 0); [|done].
      assert (i = 0) as -> by lia. by rewrite lookup_singleton_eq in Hnone.
  - split; [|done|done|done]. assert (Eh : pg 3 = hd0 free_of) by (unfold free_of; by rewrite seqZ_cons by lia).
    cbn [freelist proc_of]. rewrite Eh. cbn. eapply chain_ext, (link_chain free_of Nf Pf). intros q Hq.
    rewrite !lookup_insert_ne; [done|..]; intros <-; by eapply Hf, Hq.
  - apply NoDup_app in Nd as (N1 & N2 & N3). apply NoDup_app in N3 as (_ & _ & N3). apply NoDup_app. split_and!; [done| |done].
    intros q Hq Hq'. apply (N2 q Hq). set_solver.
  - rewrite lookup_singleton_eq. eauto.
  - intros w p [<- <-]%lookup_singleton_Some. split; [lia|]. split; [done|]. split; [apply pg_page; lia|]. exists user1. split.
    + cbn. rewrite !lookup_insert_ne by (unfold page_of; lia). apply lookup_insert_eq.
    + unfold user1, zlen. by rewrite length_replicate.
  - intros w Hw Hnone. unfold E_of. destruct (Z.eqb_spec w 0) as [->|]; [|done]. by rewrite lookup_singleton_eq in Hnone.
Qed.
End Demo.

(** The small memory of the address-space theorems. *)
Definition kend1 : Z := kend_of 20.
Definition pg : Z -> Z := page_of 20.
Definition free1 : list Z := free_of 20.
Definition proc1 : pmem := proc_of 20.
Definition E1 : Z -> Z := E_of 20.
Lemma proc1_space : uspace kend1 proc1 (pg 0) {[0 := pg 1]} E1 free1 {[0 := pg 2]}.
Proof. apply proc_space. lia. Qed.

Definition ret {A} (r : res (A * pmem)) : option A := match r with Ret (a, _) => Some a | _ => None end.

Lemma allocuvm_grows_or_undoes_witness :
  ret (allocuvm kend1 (pg 0) 4096 12289 proc1) = Some 12289 /\
  exists r s' E' F' fl', allocuvm kend1 (pg 0) 4096 12289 proc1 = Ret (r, s') /\ uspace kend1 s' (pg 0) {[0 := pg 1]} E' fl' F' /\
    tables F' ++ fl' ≡ₚ tables {[0 := pg 2]} ++ free1.
Proof.
  split; [vm_compute; reflexivity|].
  destruct (allocuvm_grows_or_undoes kend1 proc1 (pg 0) {[0 := pg 1]} E1 free1 {[0 := pg 2]} 4096 12289 proc1_space) as
    (r & s' & E' & F' & fl' & H1 & H2 & H3 & _).
  - lia.
  - unfold USERTOP. lia.
  - intros w Hw. apply lookup_singleton_None. change (up 4096) with 1 in Hw. lia.
  - exists r, s', E', F', fl'. exact (conj H1 (conj H2 H3)).
Defined.

Lemma copyuvm_copies_witness :
  exists d s' fl', copyuvm kend1 kdata1 (pg 0) 4096 proc1 = Ret (d, s') /\ kmem_ok kend1 fl' s' /\
    uspace kend1 s' (pg 0) {[0 := pg 1]} E1 fl' {[0 := pg 2]}.
Proof.
  destruct (copyuvm_copies kend1 kdata1 ltac:(exists 257; reflexivity) ltac:(unfold kdata1, PHYSTOP; lia) proc1 (pg 0) {[0 := pg 1]} E1 free1
    {[0 := pg 2]} 4096 proc1_space) as (d & s' & fl' & H1 & H2 & _ & _ & H3 & _).
  - unfold USERTOP. lia.
  - intros w Hw. change (up 4096) with 1 in Hw. assert (w = 0) as -> by lia. rewrite lookup_singleton_eq. eauto.
  - exists d, s', fl'. exact (conj H1 (conj H2 H3)).
Defined.
