(* ===== verification/Clone.v ===== *)
(** Kernel threads of project 4 ([src/4/xv6/change/proc.c]): [clone], the
    [wait] that leaves a shared address space alone, and the round-robin
    scheduler, over the process table of [Proc].  This project's table has no stride scheduler: the fields
    [tickets], [usage], [stride] and [pass] are not used here. *)
From S2P Require Import Prelude CString Proc.
Import Proc.

(** Memory of the running process, as the kernel reads and moves it. *)
Class UserMem (K : Type) := {
  uword : Z -> M K Z;
  umemmove : Z -> Z -> Z -> M K unit
}.

Module Clone.
Section Clone.
Context {K : Type} `{KernelOps K} `{UserMem K}.

Definition allocproc : M (kernel K) (option Z) :=
  acquire_pt;;
  s ← get;
  match scan (fun p => bool_decide (state p = UNUSED)) (procs s) 0 with
  | None => release_pt;; mret None
  | Some i =>
      pmod i (set_state EMBRYO);;
      s ← get;
      pmod i (set_pid (nextpid s));;
      modify (fun s => mkK (procs s) (initproc s) (s32 (nextpid s + 1)) (thecpu s) (cur s) (current s) (kern s));;
      release_pt;;
      ks ← lower kalloc;
      match ks with
      | None =>
          pmod i (set_kstack 0);;
          pmod i (set_state UNUSED);;
          mret None
      | Some ks =>
          pmod i (set_kstack ks);;
          pmod i (set_context (mkCtx Forkret false));;
          mret (Some i)
      end
  end.

(** The registers the new thread starts with: [eax] 0, and [esp] and [ebp] on
    the new stack, as far under its top as the caller's are under [top]. *)
Definition thread_tf (t : trapframe) (top stack size : Z) : trapframe :=
  mkTf 0 (u32 (stack + size - u32 (top - ebp t))) (u32 (stack + size - u32 (top - esp t)))
       (eip t) (cs t) (ds t) (es t) (ss t) (eflags t) (rest t).

Definition clone (stack size : Z) : M (kernel K) Z :=
  me ← curproc;
  np ← allocproc;
  match np with
  | None => mret (-1)
  | Some np =>
      p ← pget me;
      pmod np (set_pgdir (pgdir p));;
      pmod np (set_sz (sz p));;
      pmod np (set_parent (Some me));;
      top ← lower (uword (ebp (tf p)));
      pmod np (set_tf (thread_tf (tf p) top stack size));;
      q ← pget np;
      lower (umemmove (esp (tf q)) (esp (tf p)) (u32 (top - esp (tf p))));;
      fs ← dup_files (ofile p) (ofile q);
      pmod np (set_ofile fs);;
      c ← lower (idup (cwd p));
      pmod np (set_cwd c);;
      q ← pget np;
      let pid := pid q in
      pmod np (set_state RUNNABLE);;
      pmod np (fun q => set_name (copy_name (name q) (name p)) q);;
      mret pid
  end.

(** One turn of [wait]'s loop; the directory of a thread of the caller is
    still in use. *)
Definition wait_loop : M (kernel K) (option Z) :=
  me ← curproc;
  s ← get;
  match find_zombie (procs s) 0 me false with
  | (Some i, _) =>
      p ← pget i;
      let pid := pid p in
      lower (kfree (kstack p));;
      pmod i (set_kstack 0);;
      mine ← pget me;
      (if negb (pgdir p =? pgdir mine) then lower (freevm (pgdir p)) else mret tt);;
      pmod i (set_state UNUSED);;
      pmod i (set_pid 0);;
      pmod i (set_parent None);;
      pmod i (fun p => set_name (zset (name p) 0 0) p);;
      pmod i (set_killed 0);;
      release_pt;;
      mret (Some pid)
  | (None, havekids) =>
      p ← pget me;
      if negb havekids || negb (killed p =? 0) then release_pt;; mret (Some (-1))
      else
        pmod me (set_chan (CProc me));;
        pmod me (set_state SLEEPING);;
        sched InWait;;
        mret None
  end.
Definition wait : M (kernel K) (option Z) := acquire_pt;; wait_loop.

(** ** The scheduler: round robin

    The scheduler's local [p] is [current].  The result is the slot switched
    to. *)

Definition runnable (p : proc) : bool := bool_decide (state p = RUNNABLE).
(** The loop over the table from slot [k] on, up to [swtch], or to its end. *)
Definition choose_from (k : Z) : M (kernel K) (option Z) :=
  s ← get;
  match scan runnable (drop (Z.to_nat k) (procs s)) k with
  | Some p =>
      modify (set_current (Some p));;
      modify (set_cur (Some p));;
      pmod p (set_state RUNNING);;
      mret (Some p)
  | None => release_pt;; mret None
  end.
(** The endless loop, from its top. *)
Definition scheduler_pass : M (kernel K) (option Z) :=
  modify (fun s => let c := thecpu s in set_cpu (mkCpu true (ncli c) (intena c) (pt_locked c)) s);;
  acquire_pt;;
  choose_from 0.
(** Control back in the loop when the process has called [sched]: the rest of
    the table, and then from the top.  [None]: nothing to run, until an
    interrupt. *)
Definition reschedule : M (kernel K) (option Z) :=
  modify (set_cur None);;
  s ← get;
  c ← deref "p" (current s);
  r ← choose_from (c + 1);
  match r with Some p => mret (Some p) | None => scheduler_pass end.

(** What the process switched to does first ([Proc.resume], with the [wait]
    above). *)
Definition resume (i : Z) : M (kernel K) resumed :=
  p ← pget i;
  match point (context p) with
  | InWait =>
      modify (fun s => let c := thecpu s in set_cpu (mkCpu (iflag c) (ncli c) (saved_intena (context p)) (pt_locked c)) s);;
      pmod i (set_chan CNull);;
      r ← wait_loop;
      mret (FromWait r)
  | _ => Proc.resume i
  end.

(** [sys_clone]: [argint] and [argptr] are parameters, [None] is -1. *)
Definition sys_clone (argint : Z -> M (kernel K) (option Z)) (argptr : Z -> Z -> M (kernel K) (option Z)) : M (kernel K) Z :=
  size ← argint 1;
  match size with
  | None => mret (-1)
  | Some size =>
      stack ← argptr 0 size;
      match stack with None => mret (-1) | Some stack => clone stack size end
  end.

End Clone.
End Clone.
