(* ===== verification/CloneSpec.v ===== *)
(** Threads over real address spaces: a run in which init reaps a process and
    the thread it left behind. *)
From S2P Require Import Prelude Bytes CString Proc ProcInv Kalloc KallocSpec Vm VmSpec VmFork VmDemo Clone.
Import Proc.
Import Kalloc.

(** The page allocator and page tables under the process table; the file layer
    does nothing. *)
#[export] Instance vm_ops : KernelOps pmem := {
  kalloc := p ← Kalloc.kalloc; mret (if p =? 0 then None else Some p);
  kfree := Kalloc.kfree kend1;
  setupkvm := Vm.setupkvm kdata1;
  inituvm := fun pd => Vm.inituvm pd [];
  copyuvm := Vm.copyuvm kend1 kdata1;
  freevm := Vm.freevm kend1;
  allocuvm := Vm.allocuvm kend1;
  deallocuvm := Vm.deallocuvm kend1;
  filedup := fun f => mret f;
  fileclose := fun _ => mret tt;
  idup := fun i => mret i;
  iput := fun _ => mret tt;
  namei_root := mret 1
}.

(** The running process's memory is the address space of [VmDemo], one page. *)
#[export] Instance vm_user : UserMem pmem := {
  uword := fun a => p ← Vm.uva2ka (pg 0) a; x ← rd_page p; mret (word x (a mod 4096));
  umemmove := fun dst src n =>
    p ← Vm.uva2ka (pg 0) src; x ← rd_page p; wr_page p (splice (dst mod 4096) (part (src mod 4096) n x) x)
}.

(** A process in slot 1, child of init in slot 0, whose frame pointer 100
    points at its caller's, 120. *)
Definition proc2 : pmem := set_ram (<[pg 2 := splice 100 (to_le 4 120) user1]> (ram proc1)) proc1.
Definition setup : M (kernel pmem) unit :=
  i ← Clone.allocproc; a ← Clone.allocproc;
  modify (fun s => mkK (procs s) (Some 0) (nextpid s) (thecpu s) (Some 1) None (kern s));;
  pmod 0 (set_state RUNNING);;
  pmod 1 (set_state RUNNING);; pmod 1 (set_pgdir (pg 0));; pmod 1 (set_sz 4096);; pmod 1 (set_parent (Some 0));;
  pmod 1 (set_tf (mkTf 7 100 80 0 0 0 0 0 0 [])).

(** It makes a thread and exits; the thread exits; init waits [n] times. *)
Definition switch_to (i : Z) : M (kernel pmem) unit := modify (set_cur (Some i));; pmod i (set_state RUNNING).
Fixpoint waits (n : nat) : M (kernel pmem) (list (option Z)) :=
  match n with O => mret [] | S n => r ← Clone.wait; rs ← waits n; mret (r :: rs) end.
Definition story (n : nat) : M (kernel pmem) (Z * list (option Z)) :=
  setup;;
  t ← Clone.clone 2048 1024;
  exit;;
  switch_to 2;; resume 2;;
  exit;;
  switch_to 0;; release_pt;;
  rs ← waits n;
  mret (t, rs).
Definition value {A} (r : res (A * kernel pmem)) : res A :=
  match r with
  | Ret (a, _) => Ret a | Panicked m => Panicked m | Undef w => Undef w | Blocked c => Blocked c | NoFuel => NoFuel
  end.

(** The thread's registers: 20 bytes and no bytes under the top of its stack,
    as its maker's are under 120. *)
Example thread_registers :
  match (setup;; Clone.clone 2048 1024;; q ← pget 2; mret (eax (tf q), esp (tf q), ebp (tf q), pgdir q)) (boot_kernel proc2) with
  | Ret (x, _) => x = (0, 3032, 3052, pg 0)
  | _ => False
  end.
Proof. vm_compute. reflexivity. Qed.

(** A process that makes a thread and exits, its thread still running,
    leaves both to init.  When both have exited, init's first [wait] reaps the
    process and frees the address space; its second [wait] reaps the thread,
    whose directory is not init's either, frees the same address space again,
    and the kernel panics in [kfree]. *)
Theorem orphan_thread_panics_init :
  value (story 1 (boot_kernel proc2)) = Ret (3, [Some 2]) /\ value (story 2 (boot_kernel proc2)) = Panicked "kfree".
Proof. split; vm_compute; reflexivity. Qed.

(** A process with a thread grows; then the thread, whose size is still the old
    one, grows too, over the pages the first has mapped: the kernel panics. *)
Definition both_grow : M (kernel pmem) (Z * Z) :=
  setup;;
  Clone.clone 2048 1024;;
  a ← growproc 4096;
  switch_to 2;;
  b ← growproc 4096;
  mret (a, b).
Lemma threads_growing_panic : value (both_grow (boot_kernel proc2)) = Panicked "remap".
Proof. vm_compute. reflexivity. Qed.
