(* ===== verification/CloneSched.v ===== *)
(** The round-robin scheduler of project 4: nobody who can run waits longer than
    one tour of the table. *)
From S2P Require Import Prelude CString Proc ProcSpec Clone.
Import Proc.
Import Clone.

Implicit Types (l : list proc) (c j p : Z).

(** ** The slot after [c] in the tour *)

Definition turn l c : option Z :=
  match scan runnable (drop (Z.to_nat (c + 1)) l) (c + 1) with Some p => Some p | None => scan runnable l 0 end.
Definition waiting l j : Prop := exists q, zget l j = Some q /\ state q = RUNNABLE.

Lemma scan_min l i : match scan runnable l i with
  | Some k => i <= k < i + zlen l /\ waiting l (k - i) /\ forall j, waiting l j -> k - i <= j
  | None => forall j, ~ waiting l j
  end.
Proof.
  revert i. induction l as [|x l IH]; intros i; cbn [scan]; [intros j (q & Hq & _); apply zget_Some_range in Hq; change (zlen (@nil proc)) with 0 in Hq; lia|].
  assert (Hw : forall j, waiting (x :: l) j -> j = 0 /\ runnable x = true \/ 0 < j /\ waiting l (j - 1)).
  { intros j (q & Hq & Hs). pose proof (zget_Some_range _ _ _ Hq). destruct (decide (j = 0)) as [->|Hj].
    - left. injection Hq as <-. split; [done|]. by apply bool_decide_eq_true.
    - right. split; [lia|]. exists q. split; [|done]. unfold zget in *. rewrite bool_decide_false in * by lia. by replace (Z.to_nat j) with (S (Z.to_nat (j - 1))) in Hq by lia. }
  assert (Hz : zlen (x :: l) = zlen l + 1) by (unfold zlen; cbn [length]; lia). pose proof (zlen_nonneg l).
  destruct (runnable x) eqn:Ex.
  - rewrite Z.sub_diag. split_and!; [lia|lia| |intros j (q & Hq & _); apply zget_Some_range in Hq; lia]. exists x. split; [done|]. by apply bool_decide_eq_true in Ex.
  - specialize (IH (i + 1)). destruct (scan runnable l (i + 1)) as [k|].
    + destruct IH as (Hk & (q & Hq & Hs) & Hmin). split_and!; [lia|lia| |].
      * exists q. split; [|done]. apply zget_Some_range in Hq as Hr. unfold zget in *. rewrite bool_decide_false in * by lia. replace (Z.to_nat (k - i)) with (S (Z.to_nat (k - (i + 1)))) by lia. done.
      * intros j [[_ ?]|[Hj Hw']]%Hw; [done|]. specialize (Hmin _ Hw'). lia.
    + intros j [[_ ?]|[Hj Hw']]%Hw; [done|]. by eapply IH.
Qed.
Lemma waiting_drop l k j : 0 <= k -> waiting (drop (Z.to_nat k) l) j <-> 0 <= j /\ waiting l (k + j).
Proof.
  intros Hk. unfold waiting. split.
  - intros (q & Hq & Hs). pose proof (zget_Some_range _ _ _ Hq) as Hr. split; [lia|]. exists q. split; [|done]. unfold zget in *. rewrite bool_decide_false in * by lia. rewrite lookup_drop in Hq. by replace (Z.to_nat (k + j)) with (Z.to_nat k + Z.to_nat j)%nat by lia.
  - intros [Hj (q & Hq & Hs)]. exists q. split; [|done]. unfold zget in *. rewrite bool_decide_false in * by lia. rewrite lookup_drop. by replace (Z.to_nat k + Z.to_nat j)%nat with (Z.to_nat (k + j)) by lia.
Qed.

(** How many slots the tour passes between [c] and [j]. *)
Definition dist c j : Z := if c <? j then j - c - 1 else j - c + 63.

(** The choice is the first that waits, from [c] on around the table. *)
Lemma turn_first l c : zlen l = 64 -> 0 <= c < 64 ->
  match turn l c with
  | Some p => 0 <= p < 64 /\ waiting l p /\ forall j, waiting l j -> dist c p <= dist c j
  | None => forall j, ~ waiting l j
  end.
Proof.
  intros Hl Hc. unfold turn. pose proof (scan_min (drop (Z.to_nat (c + 1)) l) (c + 1)) as H1. pose proof (scan_min l 0) as H2.
  assert (Hin : forall j, waiting l j -> 0 <= j < 64) by (intros j (q & Hq & _); apply zget_Some_range in Hq; lia).
  destruct (scan runnable (drop (Z.to_nat (c + 1)) l) (c + 1)) as [p|].
  - destruct H1 as (_ & Hw & Hmin). apply waiting_drop in Hw as [Hp Hw]; [|lia]. replace (c + 1 + (p - (c + 1))) with p in Hw by lia. pose proof (Hin p Hw). split_and!; [lia|lia|done|].
    intros j Hj. pose proof (Hin j Hj). unfold dist. destruct (Z.ltb_spec c p); [|lia]. destruct (Z.ltb_spec c j); [|lia].
    specialize (Hmin (j - (c + 1))). assert (p - (c + 1) <= j - (c + 1)); [|lia]. apply Hmin, waiting_drop; [lia|]. split; [lia|]. by replace (c + 1 + (j - (c + 1))) with j by lia.
  - assert (Hle : forall j, waiting l j -> j <= c).
    { intros j Hj. destruct (Z.le_gt_cases j c); [done|]. exfalso. apply (H1 (j - (c + 1))), waiting_drop; [lia|]. split; [lia|]. by replace (c + 1 + (j - (c + 1))) with j by lia. }
    destruct (scan runnable l 0) as [p|]; [|done]. destruct H2 as (_ & Hw & Hmin). rewrite Z.sub_0_r in *. pose proof (Hin p Hw). pose proof (Hle p Hw). split_and!; [lia|lia|done|].
    intros j Hj. pose proof (Hle j Hj). specialize (Hmin j Hj). unfold dist. destruct (Z.ltb_spec c p); [lia|]. destruct (Z.ltb_spec c j); lia.
Qed.
(** A choice that is not [j] leaves fewer between. *)
Lemma dist_down c p j : 0 <= c < 64 -> 0 <= p < 64 -> 0 <= j < 64 -> dist c p <= dist c j -> p <> j -> dist p j = dist c j - dist c p - 1.
Proof. unfold dist. intros. destruct (Z.ltb_spec c p), (Z.ltb_spec c j), (Z.ltb_spec p j); lia. Qed.
Lemma dist_range c j : 0 <= c < 64 -> 0 <= j < 64 -> 0 <= dist c j < 64.
Proof. unfold dist. intros. destruct (Z.ltb_spec c j); lia. Qed.

Section Kernel.
Context {K : Type}.
Implicit Types (s : kernel K).

(** A process has called [sched]: it holds the table's lock alone, and the
    scheduler's [p] is where it was. *)
Record at_sched s c : Prop := {
  as_lock : pt_locked (thecpu s) = true;
  as_ncli : ncli (thecpu s) = 1;
  as_iflag : iflag (thecpu s) = false;
  as_current : current s = Some c;
  as_slot : 0 <= c < 64;
  as_procs : zlen (procs s) = 64
}.

Lemma wp_choose_from k s Q :
  match scan runnable (drop (Z.to_nat k) (procs s)) k with
  | Some p => exists q, zget (procs s) p = Some q /\ Q (Some p) (set_procs (zset (procs s) p (set_state RUNNING q)) (set_cur (Some p) (set_current (Some p) s)))
  | None => wp release_pt (fun _ s' => Q None s') s
  end -> wp (choose_from k) Q s.
Proof.
  intros HQ. unfold choose_from. eapply wp_bind, wp_get. destruct (scan runnable _ k) as [p|].
  - destruct HQ as (q & Hq & HQ). eapply wp_bind, wp_modify, wp_bind, wp_modify, wp_bind. unfold pmod, pget. eapply wp_bind, wp_bind, wp_get. cbn [procs set_cur set_current]. rewrite Hq. by eapply wp_deref, wp_modify, wp_ret.
  - eapply wp_bind, wp_mono; [exact HQ|]. intros [] s' HN. by apply wp_ret.
Qed.
Lemma wp_release_pt s Q : pt_locked (thecpu s) = true -> ncli (thecpu s) = 1 -> iflag (thecpu s) = false ->
  Q tt (set_cpu (mkCpu (intena (thecpu s)) 0 (intena (thecpu s)) false) s) -> wp release_pt Q s.
Proof.
  intros Hl Hn Hi HQ. unfold release_pt. eapply wp_bind, wp_get. cbv zeta. rewrite Hl, Hn, Hi. cbn [negb]. eapply wp_bind, wp_modify. unfold popcli. eapply wp_bind, wp_get. cbn -[set_cpu]. by apply wp_modify.
Qed.
Lemma wp_acquire_pt s Q : pt_locked (thecpu s) = false -> ncli (thecpu s) = 0 -> Q tt (set_cpu (mkCpu false 1 (iflag (thecpu s)) true) s) -> wp acquire_pt Q s.
Proof.
  intros Hl Hn HQ. unfold acquire_pt, pushcli. eapply wp_bind, wp_modify, wp_bind, wp_get. cbn [thecpu set_cpu pt_locked]. rewrite Hl, Hn. apply wp_modify. exact HQ.
Qed.

(** The slot chosen is running, the rest as it was, and the lock is passed on. *)
Lemma scan_waits l i k : scan runnable l i = Some k -> waiting l (k - i).
Proof. intros E. pose proof (scan_min l i) as Hm. rewrite E in Hm. apply Hm. Qed.
Lemma wp_reschedule s c : at_sched s c -> wp reschedule (fun r s' => r = turn (procs s) c /\
  match r with
  | Some p => at_sched s' p /\ cur s' = Some p /\ exists q, zget (procs s) p = Some q /\ procs s' = zset (procs s) p (set_state RUNNING q)
  | None => procs s' = procs s
  end) s.
Proof.
  intros [Hl Hn Hi Hc Hr Hz]. pose proof (turn_first (procs s) c Hz Hr) as Ht. unfold turn in *. unfold reschedule. eapply wp_bind, wp_modify, wp_bind, wp_get. cbn [current set_cur]. rewrite Hc.
  eapply wp_bind, wp_deref, wp_bind, wp_choose_from. cbn [procs set_cur].
  assert (Hset : forall p q, zlen (zset (procs s) p (set_state RUNNING q)) = 64) by (intros; by rewrite zlen_zset).
  destruct (scan runnable (drop (Z.to_nat (c + 1)) (procs s)) (c + 1)) as [p|] eqn:E1.
  - destruct Ht as (Hp & (q & Hq & Hst) & _). exists q. split; [done|]. apply wp_ret. split; [done|]. split; [|split; [done|by exists q]]. by split; cbn.
  - apply wp_release_pt; [done..|]. unfold scheduler_pass. eapply wp_bind, wp_modify, wp_bind, wp_acquire_pt; [done..|]. apply wp_choose_from. cbn -[drop]. change (drop (Z.to_nat 0) ?x) with x.
    destruct (scan runnable (procs s) 0) as [p|] eqn:E2.
    + destruct Ht as (Hp & (q & Hq & Hst) & _). exists q. split; [done|]. split; [done|]. split; [|split; [done|by exists q]]. by split; cbn.
    + by apply wp_release_pt.
Qed.

(** The choices of the scheduler one after the other; between two of them the
    process chosen runs and the table may change, but slot [j] waits. *)
Inductive tour (j : Z) : Z -> kernel K -> list Z -> Prop :=
  | tour_nil c s : at_sched s c -> waiting (procs s) j -> tour j c s []
  | tour_cons c s p s1 s2 ps : at_sched s c -> waiting (procs s) j -> reschedule s = Ret (Some p, s1) -> tour j p s2 ps -> tour j c s (p :: ps).

(** C33: Round robin: whenever a process gives the processor up while another is
    runnable, the scheduler chooses a runnable one and gives it the table's lock
    and the processor; and a slot that stays runnable is chosen within 64
    choices, whatever the processes chosen before it do to the rest of the
    table, none of the others being chosen twice until then. *)
Theorem round_robin_bounded_wait j c s ps : tour j c s ps ->
  (exists p s', reschedule s = Ret (Some p, s') /\ waiting (procs s) p /\ at_sched s' p /\ cur s' = Some p /\ exists q, zget (procs s') p = Some q /\ state q = RUNNING) /\
  (j ∉ ps -> NoDup ps /\ zlen ps <= 63).
Proof.
  intros T. split.
  - assert (Hs : at_sched s c /\ waiting (procs s) j) by (by inversion T). destruct Hs as [Hs Hw]. destruct (proj1 (wp_iff _ _ _) (wp_reschedule s c Hs)) as (r & s' & E & -> & Hr).
    pose proof (turn_first (procs s) c (as_procs _ _ Hs) (as_slot _ _ Hs)) as Ht. destruct (turn (procs s) c) as [p|]; [|by apply Ht in Hw].
    destruct Ht as (Hrange & Hp & _), Hr as (Ha & Hcur & q & Hq & Eps). exists p, s'. split_and!; [done..|].
    exists (set_state RUNNING q). split; [|done]. rewrite Eps. apply zget_zset_eq. by eapply zget_Some_range.
  - intros Hj. assert (G : NoDup ps /\ zlen ps <= dist c j /\ (forall p, p ∈ ps -> 0 <= p < 64 /\ dist c p < dist c j) /\ 0 <= dist c j < 64); [|destruct G as (G1 & G2 & _ & G3); split; [done|lia]].
    induction T as [c s Hs (q & Hq & _)|c s p s1 s2 ps Hs Hw E T IH].
    + pose proof (zget_Some_range _ _ _ Hq) as Hr. rewrite (as_procs _ _ Hs) in Hr. pose proof (dist_range c j (as_slot _ _ Hs) Hr). split; [constructor|]. split; [unfold zlen; cbn; lia|]. split; [by intros p Hp%elem_of_nil|lia].
    + apply not_elem_of_cons in Hj as [Hne Hj]. destruct (IH Hj) as (I1 & I2 & I3 & I4).
      assert (Hr : 0 <= j < 64) by (destruct Hw as (q & Hq & _); apply zget_Some_range in Hq; rewrite (as_procs _ _ Hs) in Hq; lia).
      destruct (proj1 (wp_iff _ _ _) (wp_reschedule s c Hs)) as (r & s' & E' & Er & _). rewrite E in E'. injection E' as <- _.
      pose proof (turn_first (procs s) c (as_procs _ _ Hs) (as_slot _ _ Hs)) as Ht. rewrite <- Er in Ht. destruct Ht as (Hp & _ & Hmin). specialize (Hmin _ Hw).
      pose proof (as_slot _ _ Hs) as Hc. pose proof (dist_down c p j Hc Hp Hr Hmin ltac:(done)) as Hd. pose proof (dist_range c j Hc Hr). pose proof (dist_range c p Hc Hp).
      assert (Hup : forall p', 0 <= p' < 64 -> dist p p' < dist p j -> dist c p' = dist c p + 1 + dist p p' /\ p' <> p).
      { intros p' Hp'. revert Hmin Hd. unfold dist. intros. destruct (Z.ltb_spec c p), (Z.ltb_spec c j), (Z.ltb_spec p j), (Z.ltb_spec p p'), (Z.ltb_spec c p'); lia. }
      split; [|split; [unfold zlen in *; cbn [length]; lia|split; [|lia]]].
      * apply NoDup_cons. split; [|done]. intros Hin. destruct (I3 p Hin) as [Hpp Hlt]. by apply (Hup p Hpp).
      * intros p' [->|Hin]%elem_of_cons; [split; [done|lia]|]. destruct (I3 p' Hin) as [Hpp Hlt]. destruct (Hup p' Hpp Hlt). split; [done|lia].
Qed.
End Kernel.

(** Slots 1, 2 and 5 can run, and 1 has just given the processor up. *)
Definition demo_proc (i : nat) : proc := (if bool_decide (i = 1 \/ i = 2 \/ i = 5)%nat then set_state RUNNABLE else id)
  (mkProc 0 0 0 UNUSED 0 None (mkTf 0 0 0 0 0 0 0 0 0 []) (mkCtx NoContext false) CNull 0 [] 0 [] 0 0 0 0).
Definition demo_kernel (c : Z) : kernel unit := mkK (demo_proc <$> seq 0 64) None 9 (mkCpu false 1 true true) (Some c) (Some c) tt.
Definition picks (c : Z) : option (option Z) := match reschedule (demo_kernel c) with Ret (r, _) => Some r | _ => None end.

(** It is the turn of 2, then of 5. *)
Lemma round_robin_bounded_wait_witness : picks 1 = Some (Some 2) /\ picks 2 = Some (Some 5) /\ picks 5 = Some (Some 1) /\
  (5 ∉ [2] -> NoDup [2] /\ zlen [2] <= 63).
Proof.
  split; [vm_compute; reflexivity|]. split; [vm_compute; reflexivity|]. split; [vm_compute; reflexivity|].
  assert (Hs : forall c, 0 <= c < 64 -> at_sched (demo_kernel c) c) by (intros c Hc; by split).
  assert (Hw : forall c, waiting (procs (demo_kernel c)) 5) by (intros c; exists (demo_proc 5); by split).
  destruct (reschedule (demo_kernel 1)) as [[[p|] s1]| | | |] eqn:E; try (vm_compute in E; discriminate).
  assert (p = 2) as -> by (vm_compute in E; congruence).
  refine (proj2 (round_robin_bounded_wait 5 1 (demo_kernel 1) [2] _)). eapply (tour_cons 5 1 _ 2 s1 (demo_kernel 2)); [by apply Hs|apply Hw|exact E|]. apply tour_nil; [by apply Hs|apply Hw].
Defined.
