(* ===== verification/BlockDev.v ===== *)
(** The interface between the buffer cache and the file system: the operations
    the file system calls, and the contract under which they make the cache
    look like the disk itself. *)
From S2P Require Import Prelude.

(** What the file system uses of the cache, over the cache's state [K]; a
    buffer is a handle, and its bytes are reached through the pointer. *)
Class BlockOps (K : Type) := {
  bread : Z -> Z -> M K Z;
  bdata : Z -> M K (list Z);
  bstore : Z -> list Z -> M K unit;
  bwrite : Z -> M K unit;
  brelse : Z -> M K unit
}.

(** ** The promise *)

(** What a client sees: the disk, and the blocks it has open, each with its
    address and its bytes in memory. *)
Record flat := mkFlat { disk : gmap (Z * Z) (list Z); opened : gmap Z (Z * Z * list Z) }.

Definition is_open (F : flat) (a : Z * Z) : Prop := exists h x, opened F !! h = Some (a, x).

(** The five operations of the interface, and what they may do to [flat]. *)
Inductive op := Read (d n : Z) | Data (h : Z) | Store (h : Z) (x : list Z) | Write (h : Z) | Release (h : Z).
Inductive val := VHandle (h : Z) | VData (x : list Z) | VUnit.

Inductive fstep (F : flat) : op -> val -> flat -> Prop :=
  | F_Read d n h x : disk F !! (d, n) = Some x -> opened F !! h = None ->
      fstep F (Read d n) (VHandle h) (mkFlat (disk F) (<[h := (d, n, x)]> (opened F)))
  | F_Data h a x : opened F !! h = Some (a, x) -> fstep F (Data h) (VData x) F
  | F_Store h a x y : opened F !! h = Some (a, x) ->
      fstep F (Store h y) VUnit (mkFlat (disk F) (<[h := (a, y)]> (opened F)))
  | F_Write h a x : opened F !! h = Some (a, x) ->
      fstep F (Write h) VUnit (mkFlat (<[a := x]> (disk F)) (opened F))
  | F_Release h a x : opened F !! h = Some (a, x) ->
      fstep F (Release h) VUnit (mkFlat (disk F) (delete h (opened F))).

(** What the client must respect. *)
Definition may (F : flat) (o : op) : Prop :=
  match o with
  | Read d n => is_Some (disk F !! (d, n)) /\ ~ is_open F (d, n) /\ (size (opened F) < 10)%nat
  | Data h | Store h _ | Write h => is_Some (opened F !! h)
  | Release h => exists a x, opened F !! h = Some (a, x) /\ disk F !! a = Some x
  end.

Definition run_op {K} `{BlockOps K} (o : op) : M K val :=
  match o with
  | Read d n => h ← bread d n; mret (VHandle h)
  | Data h => x ← bdata h; mret (VData x)
  | Store h x => bstore h x;; mret VUnit
  | Write h => bwrite h;; mret VUnit
  | Release h => brelse h;; mret VUnit
  end.

(** An implementation of the interface that keeps it. *)
Class BlockLaws (K : Type) `{BlockOps K} := {
  shows : K -> flat -> Prop;
  run_op_ok o s F : shows s F -> may F o ->
    exists v s' F', run_op o s = Ret (v, s') /\ fstep F o v F' /\ shows s' F'
}.


(** ** The contract, one operation at a time *)

Section Client.
Context {K : Type} `{BlockLaws K}.

Definition open_add (h : Z) (e : Z * Z * list Z) (F : flat) : flat := mkFlat (disk F) (<[h := e]> (opened F)).
Definition set_block (a : Z * Z) (x : list Z) (F : flat) : flat := mkFlat (<[a := x]> (disk F)) (opened F).

Lemma bread_spec (k : K) F d n x :
  shows k F -> disk F !! (d, n) = Some x -> ~ is_open F (d, n) -> (size (opened F) < 10)%nat ->
  wp (bread d n) (fun h k' => opened F !! h = None /\ shows k' (open_add h (d, n, x) F)) k.
Proof.
  intros Sh Hx Ho Hs. destruct (run_op_ok (Read d n) k F Sh) as (v & k' & F' & E & St & Sh'); [by repeat split|].
  cbn in E. apply bind_inv in E as (h & k1 & E & E1). injection E1 as <- <-.
  unfold wp. rewrite E. inversion St as [d0 n0 h0 x0 Hx0 Hh E1 E2 E3| | | |]; subst. split; [done|].
  assert (x0 = x) as -> by congruence. done.
Qed.

Lemma bdata_spec (k : K) F h a x :
  shows k F -> opened F !! h = Some (a, x) -> wp (bdata h) (fun y k' => y = x /\ shows k' F) k.
Proof.
  intros Sh Hx. destruct (run_op_ok (Data h) k F Sh) as (v & k' & F' & E & St & Sh'); [by eexists|].
  cbn in E. apply bind_inv in E as (y & k1 & E & E1). injection E1 as <- <-.
  unfold wp. rewrite E. inversion St; subst. split; [congruence|done].
Qed.

Lemma bstore_spec (k : K) F h a x y :
  shows k F -> opened F !! h = Some (a, x) -> wp (bstore h y) (fun _ k' => shows k' (open_add h (a, y) F)) k.
Proof.
  intros Sh Hx. destruct (run_op_ok (Store h y) k F Sh) as (v & k' & F' & E & St & Sh'); [by eexists|].
  cbn in E. apply bind_inv in E as ([] & k1 & E & E1). injection E1 as <- <-.
  unfold wp. rewrite E. inversion St as [| |h0 a0 x0 y0 Hx0| |]; subst. unfold open_add. congruence.
Qed.

Lemma bwrite_spec (k : K) F h a x :
  shows k F -> opened F !! h = Some (a, x) -> wp (bwrite h) (fun _ k' => shows k' (set_block a x F)) k.
Proof.
  intros Sh Hx. destruct (run_op_ok (Write h) k F Sh) as (v & k' & F' & E & St & Sh'); [by eexists|].
  cbn in E. apply bind_inv in E as ([] & k1 & E & E1). injection E1 as <- <-.
  unfold wp. rewrite E. inversion St as [| | |h0 a0 x0 Hx0|]; subst. unfold set_block. congruence.
Qed.

Lemma brelse_spec (k : K) F h a x :
  shows k F -> opened F !! h = Some (a, x) -> disk F !! a = Some x ->
  wp (brelse h) (fun _ k' => shows k' (mkFlat (disk F) (delete h (opened F)))) k.
Proof.
  intros Sh Hx Hd. destruct (run_op_ok (Release h) k F Sh) as (v & k' & F' & E & St & Sh'); [by exists a, x|].
  cbn in E. apply bind_inv in E as ([] & k1 & E & E1). injection E1 as <- <-.
  unfold wp. rewrite E. inversion St; subst. done.
Qed.
End Client.
