(* ===== verification/Bio.v ===== *)
(** The buffer cache and the disk driver under it ([src/5/xv6/bio.c],
    [ide.c], [buf.h]): a doubly linked list of [NBUF] buffers in the order of
    their last release, and the driver's request queue with its interrupt.

    A [struct buf *] is an index; index [NBUF] is [bcache.head].  The drives are
    the environment: the contents of the sectors they have, and the command
    latched last.  A process that sleeps on a busy buffer blocks, because only
    another process can wake it; one that waits for the disk sees interrupts
    until its request is done. *)
From S2P Require Import Prelude BlockDev.

Module Bio.

Definition NBUF : Z := 10.
Definition B_BUSY : Z := 1.
Definition B_VALID : Z := 2.
Definition B_DIRTY : Z := 4.
Definition NULL : Z := -1.
Definition head : Z := NBUF.

Record buf := mkBuf {
  flags : Z; dev : Z; sector : Z; prev : Z; next : Z; qnext : Z; data : list Z
}.

Record bstate := mkB {
  bufs : list buf;
  bcache_lock : bool;
  idequeue : Z;
  idelock : bool;
  havedisk1 : bool;
  drives : gmap (Z * Z) (list Z);
  request : option (Z * Z)
}.

Definition set_flags v b := mkBuf v (dev b) (sector b) (prev b) (next b) (qnext b) (data b).
Definition set_dev v b := mkBuf (flags b) v (sector b) (prev b) (next b) (qnext b) (data b).
Definition set_sector v b := mkBuf (flags b) (dev b) v (prev b) (next b) (qnext b) (data b).
Definition set_prev v b := mkBuf (flags b) (dev b) (sector b) v (next b) (qnext b) (data b).
Definition set_next v b := mkBuf (flags b) (dev b) (sector b) (prev b) v (qnext b) (data b).
Definition set_qnext v b := mkBuf (flags b) (dev b) (sector b) (prev b) (next b) v (data b).
Definition set_data v b := mkBuf (flags b) (dev b) (sector b) (prev b) (next b) (qnext b) v.

Definition set_bufs l s := mkB l (bcache_lock s) (idequeue s) (idelock s) (havedisk1 s) (drives s) (request s).
Definition set_bcache_lock v s := mkB (bufs s) v (idequeue s) (idelock s) (havedisk1 s) (drives s) (request s).
Definition set_idequeue v s := mkB (bufs s) (bcache_lock s) v (idelock s) (havedisk1 s) (drives s) (request s).
Definition set_idelock v s := mkB (bufs s) (bcache_lock s) (idequeue s) v (havedisk1 s) (drives s) (request s).
Definition set_havedisk1 v s := mkB (bufs s) (bcache_lock s) (idequeue s) (idelock s) v (drives s) (request s).
Definition set_drives v s := mkB (bufs s) (bcache_lock s) (idequeue s) (idelock s) (havedisk1 s) v (request s).
Definition set_request v s := mkB (bufs s) (bcache_lock s) (idequeue s) (idelock s) (havedisk1 s) (drives s) v.

Definition bget_ (i : Z) : M bstate buf := s ← get; deref "buf" (zget (bufs s) i).
Definition bmod (i : Z) (f : buf -> buf) : M bstate unit :=
  b ← bget_ i; modify (fun s => set_bufs (zset (bufs s) i (f b)) s).
Definition has (fl : Z) (b : buf) : bool := negb (Z.land (flags b) fl =? 0).
Definition or_flag (fl : Z) (b : buf) : buf := set_flags (Z.lor (flags b) fl) b.
Definition clear_flag (fl : Z) (b : buf) : buf := set_flags (Z.land (flags b) (Z.lnot fl)) b.

(** The two spin locks, as one processor sees them: taking one it holds, or
    releasing one it does not hold, panics. *)
Definition acquire_bcache : M bstate unit :=
  s ← get; if bcache_lock s then panic "acquire" else modify (set_bcache_lock true).
Definition release_bcache : M bstate unit :=
  s ← get; if bcache_lock s then modify (set_bcache_lock false) else panic "release".
Definition acquire_ide : M bstate unit :=
  s ← get; if idelock s then panic "acquire" else modify (set_idelock true).
Definition release_ide : M bstate unit :=
  s ← get; if idelock s then modify (set_idelock false) else panic "release".

(** ** The driver *)

(** The drive and sector the registers name: one drive bit, 28 sector bits. *)
Definition lba (b : buf) : Z * Z := (Z.land (dev b) 1, Z.land (sector b) (2 ^ 28 - 1)).

(** [idewait(1)] reports an error when the sector asked for does not exist. *)
Definition idewait (checkerr : bool) : M bstate Z :=
  s ← get;
  mret (match request s with
        | Some r => if checkerr && bool_decide (drives s !! r = None) then -1 else 0
        | None => 0
        end).

Definition ideinit (disk1 : bool) : M bstate unit :=
  modify (set_idelock false);;
  idewait false;;
  if disk1 then modify (set_havedisk1 true) else mret tt.

Definition idestart (i : Z) : M bstate unit :=
  if i =? NULL then panic "idestart"
  else
    idewait false;;
    b ← bget_ i;
    modify (set_request (Some (lba b)));;
    if has B_DIRTY b then
      modify (fun s => set_drives (alter (fun _ => data b) (lba b) (drives s)) s)
    else mret tt.

(** [insl]: the bytes of the sector the latched command names. *)
Definition insl (i : Z) : M bstate unit :=
  s ← get;
  match request s ≫= (fun r => drives s !! r) with
  | Some d => bmod i (set_data d)
  | None => mret tt
  end.

Definition ideintr : M bstate unit :=
  acquire_ide;;
  s ← get;
  let i := idequeue s in
  if i =? NULL then release_ide
  else
    b ← bget_ i;
    modify (set_idequeue (qnext b));;
    (if negb (has B_DIRTY b) then
       r ← idewait true;
       if r >=? 0 then insl i else mret tt
     else mret tt);;
    bmod i (or_flag B_VALID);;
    bmod i (clear_flag B_DIRTY);;
    s ← get;
    (if negb (idequeue s =? NULL) then idestart (idequeue s) else mret tt);;
    release_ide.

(** The append loop of [iderw]: the last buffer of the queue from [i]. *)
Fixpoint queue_last (fuel : nat) (i : Z) : M bstate Z :=
  match fuel with
  | O => no_fuel
  | S fuel =>
      b ← bget_ i;
      if qnext b =? NULL then mret i else queue_last fuel (qnext b)
  end.

(** The wait of [iderw]: asleep, with [idelock] released, until an interrupt. *)
Fixpoint ide_wait (fuel : nat) (i : Z) : M bstate unit :=
  match fuel with
  | O => no_fuel
  | S fuel =>
      b ← bget_ i;
      if Z.land (flags b) (Z.lor B_VALID B_DIRTY) =? B_VALID then mret tt
      else release_ide;; ideintr;; acquire_ide;; ide_wait fuel i
  end.

(** At most every buffer is queued, and each interrupt completes one. *)
Definition queue_fuel : nat := 12.

Definition iderw (i : Z) : M bstate unit :=
  b ← bget_ i;
  if negb (has B_BUSY b) then panic "iderw: buf not busy"
  else if Z.land (flags b) (Z.lor B_VALID B_DIRTY) =? B_VALID then panic "iderw: nothing to do"
  else
    s ← get;
    if negb (dev b =? 0) && negb (havedisk1 s) then panic "iderw: ide disk 1 not present"
    else
      acquire_ide;;
      bmod i (set_qnext NULL);;
      s ← get;
      (if idequeue s =? NULL then modify (set_idequeue i)
       else last ← queue_last queue_fuel (idequeue s); bmod last (set_qnext i));;
      s ← get;
      (if idequeue s =? i then idestart i else mret tt);;
      ide_wait queue_fuel i;;
      release_ide.

(** ** The cache *)

(** One turn of [binit]'s loop, and the loop. *)
Definition binit_one (i : Z) : M bstate unit :=
  h ← bget_ head;
  bmod i (set_next (next h));;
  bmod i (set_prev head);;
  bmod i (set_dev (u32 (-1)));;
  bmod (next h) (set_prev i);;
  bmod head (set_next i).
Fixpoint binit_loop (n : nat) (i : Z) : M bstate unit :=
  match n with
  | O => mret tt
  | S n => binit_one i;; binit_loop n (i + 1)
  end.
Definition binit : M bstate unit :=
  modify (set_bcache_lock false);;
  bmod head (set_prev head);;
  bmod head (set_next head);;
  binit_loop (Z.to_nat NBUF) 0.

(** A list walk visits every buffer once and ends at the head. *)
Definition walk_fuel : nat := 11.

Fixpoint find_cached (fuel : nat) (i d sec : Z) : M bstate (option Z) :=
  match fuel with
  | O => no_fuel
  | S fuel =>
      if i =? head then mret None
      else
        b ← bget_ i;
        if (dev b =? d) && (sector b =? sec) then mret (Some i)
        else find_cached fuel (next b) d sec
  end.

Fixpoint find_free (fuel : nat) (i : Z) : M bstate (option Z) :=
  match fuel with
  | O => no_fuel
  | S fuel =>
      if i =? head then mret None
      else
        b ← bget_ i;
        if negb (has B_BUSY b) then mret (Some i) else find_free fuel (prev b)
  end.

Definition bget (d sec : Z) : M bstate Z :=
  acquire_bcache;;
  h ← bget_ head;
  r ← find_cached walk_fuel (next h) d sec;
  match r with
  | Some i =>
      b ← bget_ i;
      if negb (has B_BUSY b) then
        bmod i (or_flag B_BUSY);; release_bcache;; mret i
      else blocked i
  | None =>
      r ← find_free walk_fuel (prev h);
      match r with
      | Some i =>
          bmod i (set_dev d);;
          bmod i (set_sector sec);;
          bmod i (set_flags B_BUSY);;
          release_bcache;;
          mret i
      | None => panic "bget: no buffers"
      end
  end.

Definition bread (d sec : Z) : M bstate Z :=
  i ← bget d sec;
  b ← bget_ i;
  (if negb (has B_VALID b) then iderw i else mret tt);;
  mret i.

Definition bwrite (i : Z) : M bstate unit :=
  b ← bget_ i;
  if negb (has B_BUSY b) then panic "bwrite"
  else bmod i (or_flag B_DIRTY);; iderw i.

Definition brelse (i : Z) : M bstate unit :=
  b ← bget_ i;
  if negb (has B_BUSY b) then panic "brelse"
  else
    acquire_bcache;;
    b ← bget_ i;
    bmod (next b) (set_prev (prev b));;
    b ← bget_ i;
    bmod (prev b) (set_next (next b));;
    h ← bget_ head;
    bmod i (set_next (next h));;
    bmod i (set_prev head);;
    h ← bget_ head;
    bmod (next h) (set_prev i);;
    bmod head (set_next i);;
    bmod i (clear_flag B_BUSY);;
    release_bcache.

(** A client's access to [b->data]. *)
Definition buf_data (i : Z) : M bstate (list Z) := b ← bget_ i; mret (data b).
Definition buf_store (i : Z) (d : list Z) : M bstate unit := bmod i (set_data d).

#[export] Instance bio_ops : BlockOps bstate :=
  Build_BlockOps bstate bread buf_data buf_store bwrite brelse.
End Bio.
