(* ===== verification/BioSpec.v ===== *)
(** The buffer cache keeps its promise: to a client that writes what it changes
    before it releases it, and opens no block twice, it is the disk. *)
From S2P Require Import Prelude BlockDev Bio.
Import Bio.

(** ** The list of buffers *)

Definition nexts (l : list buf) : list Z := next <$> l.
Definition prevs (l : list buf) : list Z := prev <$> l.

(** From [a] through [l] to [e], in both directions. *)
Fixpoint chain (ns ps : list Z) (a : Z) (l : list Z) (e : Z) : Prop :=
  match l with
  | [] => zget ns a = Some e /\ zget ps e = Some a
  | x :: l => zget ns a = Some x /\ zget ps x = Some a /\ chain ns ps x l e
  end.

Lemma chain_app ns ps a l1 x l2 e :
  chain ns ps a (l1 ++ x :: l2) e <-> chain ns ps a l1 x /\ chain ns ps x l2 e.
Proof.
  revert a. induction l1 as [|y l1 IH]; intros a; cbn; [tauto|].
  rewrite IH. tauto.
Qed.

Lemma chain_frame ns ps ns' ps' a l e :
  (forall y, y = a \/ y ∈ l -> zget ns' y = zget ns y) ->
  (forall y, y ∈ l \/ y = e -> zget ps' y = zget ps y) ->
  chain ns ps a l e -> chain ns' ps' a l e.
Proof.
  revert a. induction l as [|x l IH]; intros a Hn Hp; cbn.
  - rewrite Hn, Hp by auto. done.
  - intros (H1 & H2 & H3). rewrite Hn, Hp by (rewrite ?elem_of_cons; auto).
    split; [done|]. split; [done|]. apply IH; [| |done];
      intros y Hy; [apply Hn|apply Hp]; rewrite ?elem_of_cons; naive_solver.
Qed.

Lemma chain_range ns ps a l e y : chain ns ps a l e -> y ∈ l -> 0 <= y < zlen ps.
Proof.
  revert a. induction l as [|x l IH]; intros a; cbn; [by rewrite elem_of_nil|].
  intros (_ & H & Hc). rewrite elem_of_cons. intros [->|Hy]; [by apply zget_Some_range in H|by eapply IH].
Qed.

(** The last of [a :: l], and the first of [l ++ [e]]. *)
Definition lst (a : Z) (l : list Z) : Z := default a (last l).
Definition fst_of (l : list Z) (e : Z) : Z := match l with [] => e | x :: _ => x end.

Lemma chain_first ns ps a l e : chain ns ps a l e -> zget ns a = Some (fst_of l e).
Proof. destruct l; cbn; tauto. Qed.

Lemma chain_last ns ps a l e : chain ns ps a l e -> zget ps e = Some (lst a l).
Proof.
  revert a. induction l as [|x l IH]; intros a; cbn; [tauto|].
  intros (_ & _ & H). rewrite (IH _ H). unfold lst. rewrite last_cons. by destruct (last l).
Qed.

Lemma lst_in a l : lst a l = a \/ lst a l ∈ l.
Proof. unfold lst. destruct (last l) eqn:E; cbn; [right; by apply last_Some_elem_of|auto]. Qed.
Lemma fst_in l e : fst_of l e = e \/ fst_of l e ∈ l.
Proof. destruct l; cbn; [auto|]. rewrite elem_of_cons. auto. Qed.

(** Taking [i] out of the list. *)
Lemma chain_unlink ns ps a l1 i l2 e :
  chain ns ps a (l1 ++ i :: l2) e -> NoDup (l1 ++ i :: l2) -> a ∉ l1 ++ i :: l2 -> e ∉ l1 ++ i :: l2 ->
  chain (zset ns (lst a l1) (fst_of l2 e)) (zset ps (fst_of l2 e) (lst a l1)) a (l1 ++ l2) e.
Proof.
  intros [C1 C2]%chain_app Hnd Ha He. pose proof (chain_first _ _ _ _ _ C2) as Ef.
  apply NoDup_app in Hnd as (N1 & N12 & [Ni N2]%NoDup_cons).
  revert a C1 Ha. induction l1 as [|x l1 IH]; intros a C1 Ha; cbn [chain app lst last] in *.
  - change (default a None) with a. destruct C1 as [Ca _].
    pose proof (zget_Some_range _ _ _ Ca) as Ra.
    destruct l2 as [|y l2]; cbn in *.
    + destruct C2 as [_ Ce]. pose proof (zget_Some_range _ _ _ Ce) as Re.
      rewrite !zget_zset_eq by lia. auto.
    + destruct C2 as (_ & Cy & C2). pose proof (zget_Some_range _ _ _ Cy) as Ry.
      rewrite !zget_zset_eq by lia. split; [auto|split; [auto|]].
      eapply chain_frame; [| |exact C2]; intros z Hz; apply zget_zset_ne.
      * intros ->. apply Ha. set_solver.
      * intros ->. apply NoDup_cons in N2 as [N2 _]. destruct Hz as [Hz|Hz]; [done|]. apply He. set_solver.
  - destruct C1 as (Ca & Cx & C1). apply NoDup_cons in N1 as [Nx N1].
    assert (lst a (x :: l1) = lst x l1) as ->.
    { unfold lst. rewrite last_cons. by destruct (last l1). }
    assert (Hl : lst x l1 <> a) by (destruct (lst_in x l1) as [->|?]; set_solver).
    assert (Hf : fst_of l2 e <> x) by (destruct (fst_in l2 e) as [->|?]; set_solver).
    rewrite !zget_zset_ne by auto. split; [done|split; [done|]].
    apply IH; [done|set_solver|set_solver|done|set_solver].
Qed.

(** Putting [i] in front. *)
Lemma chain_push ns ps a l e i :
  chain ns ps a l e -> NoDup l -> a ∉ l -> e ∉ l -> i ∉ l -> i <> a -> i <> e ->
  0 <= i < zlen ns -> 0 <= i < zlen ps ->
  chain (zset (zset ns i (fst_of l e)) a i) (zset (zset ps i a) (fst_of l e) i) a (i :: l) e.
Proof.
  intros C Hnd Ha He Hi Hia Hie Rn Rp. cbn [chain].
  pose proof (chain_first _ _ _ _ _ C) as Ef. pose proof (zget_Some_range _ _ _ Ef) as Ra.
  assert (fst_of l e <> i) as Hfi by (destruct (fst_in l e) as [->|?]; set_solver).
  split; [rewrite zget_zset_eq by (rewrite zlen_zset; lia); done|].
  split; [rewrite zget_zset_ne by auto; rewrite zget_zset_eq by lia; done|].
  destruct l as [|y l]; cbn in *.
  - destruct C as [_ Ce]. pose proof (zget_Some_range _ _ _ Ce).
    rewrite (zget_zset_ne _ a) by auto. rewrite !zget_zset_eq by (rewrite ?zlen_zset; lia). auto.
  - destruct C as (_ & Cy & C). pose proof (zget_Some_range _ _ _ Cy).
    rewrite (zget_zset_ne _ a) by auto. rewrite !zget_zset_eq by (rewrite ?zlen_zset; lia).
    split; [done|split; [done|]].
    rewrite !elem_of_cons in Ha, He, Hi.
    eapply chain_frame; [| |exact C]; intros z Hz.
    + rewrite !zget_zset_ne; [done| |]; intros ->; tauto.
    + apply NoDup_cons in Hnd as [Hy _].
      rewrite !zget_zset_ne; [done| |]; intros ->; destruct Hz as [?| ->]; tauto.
Qed.

Lemma chain_rev ns ps a l e : chain ns ps a l e -> chain ps ns e (reverse l) a.
Proof.
  revert a. induction l as [|x l IH]; intros a; [cbn; tauto|].
  intros (H1 & H2 & H3). rewrite reverse_cons. apply chain_app. split; [by apply IH|]. cbn. tauto.
Qed.

Lemma fst_of_reverse l e : fst_of (reverse l) e = lst e l.
Proof.
  unfold lst. rewrite <- (reverse_involutive l) at 2. rewrite last_reverse.
  by destruct (reverse l).
Qed.

(** ** Single accesses *)

Section Runs.
Implicit Types (l : list buf) (b : buf).

Lemma bget_run l lk q il hv dr rq i b :
  zget l i = Some b -> bget_ i (mkB l lk q il hv dr rq) = Ret (b, mkB l lk q il hv dr rq).
Proof. intros E. unfold bget_. mrun. cbn. by rewrite E. Qed.

Lemma bmod_run l lk q il hv dr rq i b f :
  zget l i = Some b ->
  bmod i f (mkB l lk q il hv dr rq) = Ret (tt, mkB (zset l i (f b)) lk q il hv dr rq).
Proof. intros E. unfold bmod. erewrite bind_Ret by (by apply bget_run). done. Qed.

Lemma bget_set l lk q il hv dr rq i b :
  0 <= i < zlen l -> bget_ i (mkB (zset l i b) lk q il hv dr rq) = Ret (b, mkB (zset l i b) lk q il hv dr rq).
Proof. intros E. by apply bget_run, zget_zset_eq. Qed.

Lemma bmod_set l lk q il hv dr rq i b f :
  0 <= i < zlen l ->
  bmod i f (mkB (zset l i b) lk q il hv dr rq) = Ret (tt, mkB (zset l i (f b)) lk q il hv dr rq).
Proof. intros E. erewrite bmod_run by (by apply zget_zset_eq). by rewrite zset_zset. Qed.
End Runs.

Ltac bcbn := cbv beta iota zeta delta [bufs bcache_lock idequeue idelock havedisk1 drives request
  set_bufs set_bcache_lock set_idequeue set_idelock set_havedisk1 set_drives set_request
  flags dev sector prev next qnext data set_flags set_dev set_sector set_prev set_next set_qnext set_data
  or_flag clear_flag].
Ltac bstep L := erewrite bind_Ret by (apply L; eassumption); bcbn.

Ltac brun Hr := cbv iota; bcbn; repeat (first [ mnext
  | rewrite (bind_Ret _ _ _ _ _ (bget_set _ _ _ _ _ _ _ _ _ Hr))
  | rewrite (bind_Ret _ _ _ _ _ (bmod_set _ _ _ _ _ _ _ _ _ _ Hr)) ]; cbv beta; bcbn).

Lemma alter_insert_const (m : gmap (Z * Z) (list Z)) a x y :
  m !! a = Some x -> alter (fun _ => y) a m = <[a := y]> m.
Proof.
  intros E. apply map_eq. intros j. destruct (decide (a = j)) as [<-|N].
  - by rewrite lookup_alter_eq, lookup_insert_eq, E.
  - by rewrite lookup_alter_ne, lookup_insert_ne.
Qed.

(** The sectors a drive can have. *)
Definition addressable (hv : bool) (a : Z * Z) : Prop :=
  (a.1 = 0 \/ a.1 = 1 /\ hv = true) /\ 0 <= a.2 < 2 ^ 28.

Lemma lba_id b hv : addressable hv (dev b, sector b) -> lba b = (dev b, sector b).
Proof.
  intros [Hd Hn]. cbn in *. unfold lba. f_equal.
  - destruct Hd as [-> | [-> _]]; reflexivity.
  - change (2 ^ 28 - 1) with (Z.ones 28). rewrite Z.land_ones, Z.mod_small by lia. done.
Qed.

(** The interrupt for the only request. *)
Lemma ideintr_run l lk hv dr i b a y :
  0 <= i < zlen l -> qnext b = NULL -> dr !! a = Some y ->
  ideintr (mkB (zset l i b) lk i false hv dr (Some a)) =
    Ret (tt, mkB (zset l i (clear_flag B_DIRTY (or_flag B_VALID (if has B_DIRTY b then b else set_data y b))))
               lk NULL false hv dr (Some a)).
Proof.
  intros Hr Hq Hy. assert (Hin : (i =? NULL) = false) by (unfold NULL; lia).
  destruct b as [fl d n p nx qn da]. cbn [qnext] in Hq. subst qn.
  unfold ideintr, acquire_ide, idewait, insl, release_ide. brun Hr. rewrite Hin. brun Hr.
  destruct (has B_DIRTY (mkBuf fl d n p nx NULL da)); cbn [negb]; brun Hr.
  - change (NULL =? NULL) with true. cbn [negb]. brun Hr. reflexivity.
  - rewrite Hy, bool_decide_false by done. change ((if true && false then -1 else 0) >=? 0) with true.
    brun Hr. cbn [mbind option_bind]. rewrite Hy. brun Hr.
    change (NULL =? NULL) with true. cbn [negb]. brun Hr. reflexivity.
Qed.

Lemma ide_wait_S f i : ide_wait (S f) i =
  (b ← bget_ i;
   if Z.land (flags b) (Z.lor B_VALID B_DIRTY) =? B_VALID then mret tt
   else release_ide;; ideintr;; acquire_ide;; ide_wait f i).
Proof. reflexivity. Qed.

Lemma ide_wait_run l lk hv dr i b a y :
  0 <= i < zlen l -> qnext b = NULL -> dr !! a = Some y -> flags b = 1 \/ flags b = 7 ->
  ide_wait queue_fuel i (mkB (zset l i b) lk i true hv dr (Some a)) =
    Ret (tt, mkB (zset l i (clear_flag B_DIRTY (or_flag B_VALID (if has B_DIRTY b then b else set_data y b))))
               lk NULL true hv dr (Some a)).
Proof.
  intros Hr Hq Hy Hf. change queue_fuel with (S (S 10)). generalize 10%nat as f. intros f.
  pose proof (ideintr_run l lk hv dr i b a y Hr Hq Hy) as E.
  destruct b as [fl d n p nx qn da]. cbn [flags qnext] in Hf, Hq. subst qn. rewrite ide_wait_S.
  brun Hr.
  assert ((Z.land fl (Z.lor B_VALID B_DIRTY) =? B_VALID) = false) as -> by (destruct Hf as [-> | ->]; reflexivity).
  unfold release_ide, acquire_ide. brun Hr. rewrite (bind_Ret _ _ _ _ _ E).
  rewrite ide_wait_S. brun Hr.
  destruct Hf as [-> | ->]; reflexivity.
Qed.

(** One request on an idle driver: a read of an invalid buffer, a write of a
    dirty one. *)
Lemma iderw_run l lk hv dr rq i b x :
  zget l i = Some b -> 0 <= i -> flags b = 1 \/ flags b = 7 ->
  addressable hv (dev b, sector b) -> dr !! (dev b, sector b) = Some x ->
  exists rq',
  iderw i (mkB l lk NULL false hv dr rq) =
    Ret (tt, mkB (zset l i (mkBuf 3 (dev b) (sector b) (prev b) (next b) NULL (if flags b =? 1 then x else data b)))
               lk NULL false hv (if flags b =? 1 then dr else <[(dev b, sector b) := data b]> dr) rq').
Proof.
  intros Hi H0 Hf Ha Hx. pose proof (zget_Some_range _ _ _ Hi) as Hr.
  exists (Some (dev b, sector b)). destruct b as [fl d n p nx qn da]. cbn [flags dev sector prev next qnext data] in *.
  assert (Hn : (negb (d =? 0)) && negb hv = false).
  { destruct Ha as [[Hd | [Hd ->]] _]; cbn in Hd; subst; [done|by rewrite andb_false_r]. }
  unfold iderw. bstep bget_run.
  assert (has B_BUSY (mkBuf fl d n p nx qn da) = true) as -> by (destruct Hf as [-> | ->]; reflexivity).
  assert ((Z.land fl (Z.lor B_VALID B_DIRTY) =? B_VALID) = false) as -> by (destruct Hf as [-> | ->]; reflexivity).
  cbn [negb]. mnext. bcbn. rewrite Hn. unfold acquire_ide. do 2 mnext. bcbn. mnext. bcbn.
  bstep bmod_run. mnext. bcbn. change (NULL =? NULL) with true. cbv iota.
  do 2 mnext. bcbn. rewrite Z.eqb_refl.
  assert (Hin : (i =? NULL) = false) by (unfold NULL; lia).
  pose proof (lba_id (mkBuf fl d n p nx NULL da) _ Ha) as Hl. cbn [dev sector] in Hl.
  assert (idestart i (mkB (zset l i (mkBuf fl d n p nx NULL da)) lk i true hv dr rq) =
          Ret (tt, mkB (zset l i (mkBuf fl d n p nx NULL da)) lk i true hv
                     (if fl =? 1 then dr else <[(d, n) := da]> dr) (Some (d, n)))) as E.
  { unfold idestart, idewait. rewrite Hin. brun Hr. rewrite Hl.
    destruct Hf as [-> | ->]; [reflexivity|]. change (has B_DIRTY (mkBuf 7 d n p nx NULL da)) with true.
    cbv iota. unfold modify. bcbn. by erewrite alter_insert_const. }
  mstep E. cbv beta.
  assert ((if fl =? 1 then dr else <[(d, n) := da]> dr) !! (d, n) = Some (if fl =? 1 then x else da)) as Hy.
  { destruct (fl =? 1); [done|]. apply lookup_insert_eq. }
  rewrite (bind_Ret _ _ _ _ _ (ide_wait_run _ lk hv _ _ (mkBuf fl d n p nx NULL da) _ _ Hr eq_refl Hy Hf)).
  unfold release_ide. mnext. bcbn. unfold modify. destruct Hf as [-> | ->]; reflexivity.
Qed.

(** ** Walks over the list *)

Definition hit (l : list buf) (d n i : Z) : Prop :=
  exists b, zget l i = Some b /\ dev b = d /\ sector b = n.
Definition busy (l : list buf) (i : Z) : Prop := exists b, zget l i = Some b /\ has B_BUSY b = true.

Lemma nexts_get l i : zget (nexts l) i = next <$> zget l i.
Proof. apply zget_fmap. Qed.
Lemma prevs_get l i : zget (prevs l) i = prev <$> zget l i.
Proof. apply zget_fmap. Qed.
Lemma zlen_nexts l : zlen (nexts l) = zlen l.
Proof. unfold zlen, nexts. by rewrite length_fmap. Qed.
Lemma zlen_prevs l : zlen (prevs l) = zlen l.
Proof. unfold zlen, prevs. by rewrite length_fmap. Qed.

Lemma find_cached_run l ord a d n fuel :
  chain (nexts l) (prevs l) a ord head -> head ∉ ord -> (length ord < fuel)%nat ->
  exists r, (forall s, bufs s = l -> find_cached fuel (fst_of ord head) d n s = Ret (r, s)) /\
    match r with
    | Some i => i ∈ ord /\ hit l d n i
    | None => forall i, i ∈ ord -> ~ hit l d n i
    end.
Proof.
  revert a fuel. induction ord as [|x ord IH]; intros a fuel C Hh Hf.
  - destruct fuel as [|fuel]; [cbn in Hf; lia|]. exists None. split; [done|]. intros i Hi. by apply elem_of_nil in Hi.
  - destruct fuel as [|fuel]; [cbn in Hf; lia|]. cbn [fst_of find_cached length] in *.
    destruct C as (_ & Hp & C). rewrite elem_of_cons in Hh.
    assert (x <> head) by naive_solver. rewrite (proj2 (Z.eqb_neq x head)) by done.
    rewrite prevs_get in Hp. destruct (zget l x) as [b|] eqn:Eb; [|done].
    assert (forall s, bufs s = l -> bget_ x s = Ret (b, s)) as E by (intros s Es; unfold bget_; mrun; by rewrite Es, Eb).
    destruct ((dev b =? d) && (sector b =? n)) eqn:Em.
    + exists (Some x). split; [intros s Es; mstep (E s Es); cbv beta; by rewrite Em|]. split; [apply elem_of_cons; auto|]. exists b. split; [done|]. lia.
    + pose proof (chain_first _ _ _ _ _ C) as Ex. rewrite nexts_get, Eb in Ex. injection Ex as Ex.
      destruct (IH x fuel C ltac:(naive_solver) ltac:(lia)) as (r & Er & Hr). exists r.
      split; [intros s Es; mstep (E s Es); cbv beta; rewrite Em; cbn [negb]; rewrite Ex; by apply Er|].
      destruct r as [i|]; [rewrite elem_of_cons; naive_solver|].
      intros i [->|Hi]%elem_of_cons; [|by apply Hr]. intros (b' & Eb' & ? & ?).
      assert (b' = b) as -> by congruence. lia.
Qed.

Lemma find_free_run l ord e fuel :
  chain (prevs l) (nexts l) e ord head -> head ∉ ord -> (length ord < fuel)%nat ->
  exists r, (forall s, bufs s = l -> find_free fuel (fst_of ord head) s = Ret (r, s)) /\
    match r with
    | Some i => exists o1 o2, ord = o1 ++ i :: o2 /\ ~ busy l i /\ forall j, j ∈ o1 -> busy l j
    | None => forall i, i ∈ ord -> busy l i
    end.
Proof.
  revert e fuel. induction ord as [|x ord IH]; intros a fuel C Hh Hf.
  - destruct fuel as [|fuel]; [cbn in Hf; lia|]. exists None. split; [done|]. intros i Hi. by apply elem_of_nil in Hi.
  - destruct fuel as [|fuel]; [cbn in Hf; lia|]. cbn [fst_of find_free length] in *.
    destruct C as (_ & Hp & C). rewrite elem_of_cons in Hh.
    assert (x <> head) by naive_solver. rewrite (proj2 (Z.eqb_neq x head)) by done.
    rewrite nexts_get in Hp. destruct (zget l x) as [b|] eqn:Eb; [|done].
    assert (forall s, bufs s = l -> bget_ x s = Ret (b, s)) as E by (intros s Es; unfold bget_; mrun; by rewrite Es, Eb).
    destruct (has B_BUSY b) eqn:Em.
    + pose proof (chain_first _ _ _ _ _ C) as Ex. rewrite prevs_get, Eb in Ex. injection Ex as Ex.
      assert (busy l x) as Hb by (exists b; done).
      destruct (IH x fuel C ltac:(naive_solver) ltac:(lia)) as (r & Er & Hr). exists r.
      split; [intros s Es; mstep (E s Es); cbv beta; rewrite Em; cbn [negb]; rewrite Ex; by apply Er|].
      destruct r as [i|].
      * destruct Hr as (o1 & o2 & -> & Hi & Ho). exists (x :: o1), o2. split; [done|]. split; [done|].
        intros j [->|Hj]%elem_of_cons; auto.
      * intros i [->|Hi]%elem_of_cons; auto.
    + exists (Some x). split; [intros s Es; mstep (E s Es); cbv beta; by rewrite Em|]. exists [], ord. split; [done|]. split.
      * intros (b' & Eb' & Hb'). assert (b' = b) as -> by congruence. congruence.
      * intros j Hj. by apply elem_of_nil in Hj.
Qed.

(** ** The cache shows a [flat] *)

Definition buf_ok (F : flat) (i : Z) (b : buf) : Prop :=
  (flags b = 0 \/ flags b = 2 /\ disk F !! (dev b, sector b) = Some (data b)) /\ opened F !! i = None \/
  flags b = 3 /\ opened F !! i = Some (dev b, sector b, data b) /\ is_Some (disk F !! (dev b, sector b)).

(** [ord] lists the buffers from the one released last. *)
Record at_order (ord : list Z) (s : bstate) (F : flat) : Prop := {
  at_len : zlen (bufs s) = 11;
  at_nodup : NoDup ord;
  at_all i : i ∈ ord <-> 0 <= i < 10;
  at_chain : chain (nexts (bufs s)) (prevs (bufs s)) head ord head;
  at_idle : bcache_lock s = false /\ idelock s = false /\ idequeue s = NULL;
  at_disk : drives s = disk F;
  at_addr a : is_Some (disk F !! a) -> addressable (havedisk1 s) a;
  at_buf i b : 0 <= i < 10 -> zget (bufs s) i = Some b -> buf_ok F i b;
  at_uniq i j d n : 0 <= i < 10 -> 0 <= j < 10 -> is_Some (disk F !! (d, n)) ->
    hit (bufs s) d n i -> hit (bufs s) d n j -> i = j;
  at_dom h : is_Some (opened F !! h) -> 0 <= h < 10
}.

Definition cache_shows (s : bstate) (F : flat) : Prop := exists ord, at_order ord s F.

Lemma at_get ord s F i : at_order ord s F -> 0 <= i < 10 -> exists b, zget (bufs s) i = Some b.
Proof. intros A Hi. apply zget_range. rewrite (at_len _ _ _ A). lia. Qed.

Lemma at_opened ord s F h a x :
  at_order ord s F -> opened F !! h = Some (a, x) ->
  exists b, 0 <= h < 10 /\ zget (bufs s) h = Some b /\ flags b = 3 /\ a = (dev b, sector b) /\ x = data b /\
    is_Some (disk F !! a).
Proof.
  intros A E. assert (0 <= h < 10) as Hh by (apply (at_dom _ _ _ A); eauto).
  destruct (at_get _ _ _ _ A Hh) as [b Eb]. exists b. split; [done|]. split; [done|].
  destruct (at_buf _ _ _ A _ _ Hh Eb) as [[_ N]|(Hf & Ho & Hd)]; [congruence|].
  rewrite Ho in E. injection E as <- <-. done.
Qed.

(** One buffer's contents change, its links do not. *)
Lemma at_update ord s F F' s' i b b' :
  at_order ord s F -> 0 <= i < 10 -> zget (bufs s) i = Some b ->
  bufs s' = zset (bufs s) i b' -> next b' = next b -> prev b' = prev b ->
  bcache_lock s' = false /\ idelock s' = false /\ idequeue s' = NULL -> havedisk1 s' = havedisk1 s ->
  drives s' = disk F' -> (forall a, is_Some (disk F' !! a) -> is_Some (disk F !! a)) ->
  buf_ok F' i b' ->
  (forall j c, 0 <= j < 10 -> j <> i -> zget (bufs s) j = Some c -> buf_ok F j c -> buf_ok F' j c) ->
  (forall j c, 0 <= j < 10 -> j <> i -> zget (bufs s) j = Some c ->
     is_Some (disk F' !! (dev c, sector c)) -> (dev c, sector c) <> (dev b', sector b')) ->
  (forall h, is_Some (opened F' !! h) -> 0 <= h < 10) ->
  at_order ord s' F'.
Proof.
  intros A Hi Eb Es Hn Hp Hidle Hhv Hd Hsub Hok Hoth Hu Hdom.
  assert (0 <= i < zlen (bufs s)) as Hl by (rewrite (at_len _ _ _ A); lia).
  constructor.
  - rewrite Es, zlen_zset. apply (at_len _ _ _ A).
  - apply (at_nodup _ _ _ A).
  - apply (at_all _ _ _ A).
  - rewrite Es. unfold nexts, prevs. rewrite !fmap_zset, Hn, Hp.
    rewrite !zset_id by (rewrite zget_fmap, Eb; done). apply (at_chain _ _ _ A).
  - done.
  - done.
  - intros a Ha. rewrite Hhv. apply (at_addr _ _ _ A). auto.
  - intros j c Hj. rewrite Es. destruct (decide (j = i)) as [->|Hne].
    + rewrite zget_zset_eq by done. intros [= <-]. done.
    + rewrite zget_zset_ne by done. intros Ec. apply Hoth; try done. by apply (at_buf _ _ _ A).
  - intros j k d n Hj Hk Hdn (bj & Ej & <- & <-) (bk & Ek & Hd' & Hn'). rewrite Es in Ej, Ek.
    destruct (decide (j = i)) as [->|Hji], (decide (k = i)) as [->|Hki].
    + done.
    + rewrite zget_zset_eq in Ej by done. injection Ej as <-. rewrite zget_zset_ne in Ek by done.
      exfalso. refine (Hu k bk Hk Hki Ek _ _); rewrite Hd', Hn'; done.
    + rewrite zget_zset_eq in Ek by done. injection Ek as <-. rewrite zget_zset_ne in Ej by done.
      exfalso. refine (Hu j bj Hj Hji Ej _ _); [done|by rewrite Hd', Hn'].
    + rewrite zget_zset_ne in Ej, Ek by done.
      apply (at_uniq _ _ _ A j k (dev bj) (sector bj)); try done; [by apply Hsub| |]; eexists; done.
  - done.
Qed.

Lemma find_free_last ord s F :
  at_order ord s F -> (size (opened F) < 10)%nat ->
  exists o1 o2 i, ord = o1 ++ i :: o2 /\ ~ busy (bufs s) i /\ (forall j, j ∈ o2 -> busy (bufs s) j) /\
    forall b s', zget (bufs s) head = Some b -> bufs s' = bufs s -> find_free walk_fuel (prev b) s' = Ret (Some i, s').
Proof.
  intros A Hsz. pose proof (at_chain _ _ _ A) as C. pose proof (at_all _ _ _ A) as All.
  assert (Hlen : length ord = 10%nat).
  { assert (ord ≡ₚ (Z.of_nat <$> seq 0 10)) as ->; [|done]. apply NoDup_Permutation.
    - apply (at_nodup _ _ _ A).
    - apply NoDup_fmap_2; [apply Nat2Z.inj'|apply NoDup_seq]. 
    - intros i. rewrite All, list_elem_of_fmap. split.
      + intros Hi. exists (Z.to_nat i). split; [lia|]. apply elem_of_seq. lia.
      + intros (k & -> & Hk%elem_of_seq). lia. }
  destruct (find_free_run (bufs s) (reverse ord) head walk_fuel) as (r & Er & Hr).
  - by apply chain_rev.
  - rewrite elem_of_reverse, All. unfold head, NBUF. lia.
  - rewrite length_reverse, Hlen. unfold walk_fuel. lia.
  - destruct r as [i|].
    + destruct Hr as (o1 & o2 & Eo & Hi & Ho). exists (reverse o2), (reverse o1), i.
      split; [rewrite <- (reverse_involutive ord), Eo, reverse_app, reverse_cons; by rewrite <- app_assoc|].
      split; [done|]. split; [intros j; rewrite elem_of_reverse; apply Ho|].
      intros b s' Eb Es. pose proof (chain_last _ _ _ _ _ C) as El. rewrite prevs_get, Eb in El. injection El as ->.
      rewrite <- fst_of_reverse. by apply Er.
    + exfalso. assert (list_to_set ord ⊆ dom (opened F)) as Hsub.
      { intros i. rewrite elem_of_list_to_set, elem_of_dom, All. intros Hi.
        destruct (Hr i) as (b & Eb & Hb); [rewrite elem_of_reverse; by apply All|].
        destruct (at_buf _ _ _ A _ _ Hi Eb) as [[[Hf|[Hf _]] _]|(_ & -> & _)]; [| |done];
          unfold has in Hb; rewrite Hf in Hb; done. }
      apply subseteq_size in Hsub. rewrite size_list_to_set in Hsub by apply (at_nodup _ _ _ A).
      rewrite size_dom in Hsub. lia.
Qed.

(** [bget] returns a buffer for the block and marks it busy: the one that holds
    it, or else the one released longest ago. *)
Definition chosen (ord : list Z) (l : list buf) (d n i : Z) : Prop :=
  hit l d n i \/
  (forall j, j ∈ ord -> ~ hit l d n j) /\
  exists o1 o2, ord = o1 ++ i :: o2 /\ forall j, j ∈ o2 -> busy l j.

Lemma bget_ok ord s F d n x :
  at_order ord s F -> disk F !! (d, n) = Some x -> ~ is_open F (d, n) -> (size (opened F) < 10)%nat ->
  exists i b b', bget d n s = Ret (i, set_bufs (zset (bufs s) i b') s) /\
    0 <= i < 10 /\ zget (bufs s) i = Some b /\ opened F !! i = None /\
    next b' = next b /\ prev b' = prev b /\ dev b' = d /\ sector b' = n /\
    (flags b' = 1 \/ flags b' = 3 /\ data b' = x) /\ chosen ord (bufs s) d n i.
Proof.
  intros A Hx Hno Hsz. pose proof (at_len _ _ _ A) as Hl. pose proof (at_all _ _ _ A) as All.
  destruct (zget_range (bufs s) head) as [h Eh]; [rewrite Hl; unfold head, NBUF; lia|].
  destruct (find_cached_run (bufs s) ord head d n walk_fuel (at_chain _ _ _ A)) as (r & Er & Hr).
  { rewrite All. unfold head, NBUF. lia. }
  { assert (NoDup ord) as N by apply (at_nodup _ _ _ A).
    assert (ord ⊆+ (Z.of_nat <$> seq 0 10)) as Hs%submseteq_length.
    { apply NoDup_submseteq; [done|]. intros i Hi%All. apply list_elem_of_fmap. exists (Z.to_nat i).
      split; [lia|]. apply elem_of_seq. lia. }
    rewrite length_fmap, length_seq in Hs. unfold walk_fuel. lia. }
  pose proof (chain_first _ _ _ _ _ (at_chain _ _ _ A)) as En. rewrite nexts_get, Eh in En. injection En as En.
  rewrite <- En in Er. destruct (find_free_last _ _ _ A Hsz) as (o1 & o2 & k & Eo & Hk & Ho & Ek).
  specialize (fun s' => Ek _ s' Eh). destruct (at_idle _ _ _ A) as (E1 & E2 & E3).
  destruct s as [l lk q il hv dr rq]. cbn in *. subst lk q il.
  unfold bget, acquire_bcache. do 2 mnext. bcbn. mnext. bcbn. bstep bget_run.
  erewrite bind_Ret by (by apply Er). cbv beta iota.
  destruct r as [i|].
  - destruct Hr as [Hi (b & Eb & <- & <-)]. apply All in Hi.
    assert (Hf : flags b = 0 \/ flags b = 2 /\ data b = x).
    { destruct (at_buf _ _ _ A _ _ Hi Eb) as [[[Hf|[Hf Hd]] _]|(_ & Ho' & _)]; [auto| |].
      - right. split; [done|]. congruence.
      - exfalso. apply Hno. by eexists _, _. }
    assert (opened F !! i = None) as Hop.
    { destruct (at_buf _ _ _ A _ _ Hi Eb) as [[_ ?]|(Hf' & _)]; [done|lia]. }
    bstep bget_run. assert (has B_BUSY b = false) as ->.
    { unfold has. destruct Hf as [-> |[-> _]]; reflexivity. }
    cbn [negb]. bstep bmod_run. unfold release_bcache. do 2 mnext. bcbn. mnext. bcbn.
    exists i, b, (or_flag B_BUSY b). split; [done|]. split; [done|]. split; [done|]. split; [done|].
    cbn [or_flag set_flags next prev dev sector flags data]. do 4 (split; [done|]). split.
    + destruct Hf as [-> |[-> ?]]; [left|right]; done.
    + left. by exists b.
  - assert (0 <= k < 10) as Hk10 by (apply All; rewrite Eo, elem_of_app, elem_of_cons; auto).
    destruct (at_get _ _ _ _ A Hk10) as [b Eb]. cbn in Eb.
    erewrite bind_Ret by (by apply Ek). cbv beta iota.
    assert (0 <= k < zlen l) as Hkl by lia.
    bstep bmod_run. brun Hkl. unfold release_bcache. brun Hkl.
    eexists k, b, _. split; [reflexivity|]. split; [done|]. split; [done|]. split.
    { destruct (at_buf _ _ _ A _ _ Hk10 Eb) as [[_ ?]|(Hf' & _)]; [done|]. exfalso. apply Hk. exists b. split; [done|].
      unfold has. by rewrite Hf'. }
    cbn [next prev dev sector flags data]. do 4 (split; [reflexivity|]). split; [by left|].
    right. split; [done|]. by exists o1, o2.
Qed.

(** ** Release *)

Definition pay (b : buf) : Z * Z * Z * list Z := (flags b, dev b, sector b, data b).
Definition pays (l : list buf) : list (Z * Z * Z * list Z) := pay <$> l.

Lemma pays_get l l' j c : pays l' = pays l -> zget l' j = Some c -> exists c0, zget l j = Some c0 /\ pay c0 = pay c.
Proof.
  intros E Ec. assert (zget (pays l') j = Some (pay c)) as H by (unfold pays; by rewrite zget_fmap, Ec).
  rewrite E in H. unfold pays in H. rewrite zget_fmap in H. destruct (zget l j) as [c0|]; [|done].
  injection H as H1 H2 H3 H4. exists c0. split; [done|]. unfold pay. congruence.
Qed.

Lemma set_next_run l lk q il hv dr rq j v :
  0 <= j < zlen l ->
  exists l', bmod j (set_next v) (mkB l lk q il hv dr rq) = Ret (tt, mkB l' lk q il hv dr rq) /\
    nexts l' = zset (nexts l) j v /\ prevs l' = prevs l /\ pays l' = pays l /\ zlen l' = zlen l.
Proof.
  intros Hj. destruct (zget_range _ _ Hj) as [b Eb]. exists (zset l j (set_next v b)).
  split; [by apply bmod_run|]. unfold nexts, prevs, pays. rewrite !fmap_zset, zlen_zset.
  split; [done|]. split; [apply zset_id; by rewrite zget_fmap, Eb|].
  split; [apply zset_id; by rewrite zget_fmap, Eb|done].
Qed.

Lemma set_prev_run l lk q il hv dr rq j v :
  0 <= j < zlen l ->
  exists l', bmod j (set_prev v) (mkB l lk q il hv dr rq) = Ret (tt, mkB l' lk q il hv dr rq) /\
    nexts l' = nexts l /\ prevs l' = zset (prevs l) j v /\ pays l' = pays l /\ zlen l' = zlen l.
Proof.
  intros Hj. destruct (zget_range _ _ Hj) as [b Eb]. exists (zset l j (set_prev v b)).
  split; [by apply bmod_run|]. unfold nexts, prevs, pays. rewrite !fmap_zset, zlen_zset.
  split; [apply zset_id; by rewrite zget_fmap, Eb|]. split; [done|].
  split; [apply zset_id; by rewrite zget_fmap, Eb|done].
Qed.

(** Reading a buffer whose links are known. *)
Lemma links_run l lk q il hv dr rq j v w :
  zget (nexts l) j = Some v -> zget (prevs l) j = Some w ->
  exists b, bget_ j (mkB l lk q il hv dr rq) = Ret (b, mkB l lk q il hv dr rq) /\ next b = v /\ prev b = w.
Proof.
  rewrite nexts_get, prevs_get. destruct (zget l j) as [b|] eqn:Eb; [|done]. intros [= <-] [= <-].
  exists b. split; [by apply bget_run|done].
Qed.

(** The same, leaving the fields of a buffer alone. *)
Ltac scbn := cbv beta iota zeta delta [bufs bcache_lock idequeue idelock havedisk1 drives request
  set_bufs set_bcache_lock set_idequeue set_idelock set_havedisk1 set_drives set_request].
Ltac sstep L := erewrite bind_Ret by (apply L; eassumption); scbn.

Lemma brelse_run l hv dr rq i b l1 l2 :
  zlen l = 11 -> chain (nexts l) (prevs l) head (l1 ++ i :: l2) head -> NoDup (l1 ++ i :: l2) ->
  (forall j, j ∈ l1 ++ i :: l2 -> 0 <= j < 10) -> zget l i = Some b -> has B_BUSY b = true ->
  exists l', brelse i (mkB l false NULL false hv dr rq) = Ret (tt, mkB l' false NULL false hv dr rq) /\
    zlen l' = 11 /\ chain (nexts l') (prevs l') head (i :: l1 ++ l2) head /\
    pays l' = pays (zset l i (clear_flag B_BUSY b)).
Proof.
  intros Hlen C Hnd Hr Eb Hbusy.
  assert (Hh : head ∉ l1 ++ i :: l2) by (intros ?%Hr; unfold head, NBUF in *; lia).
  pose proof (chain_unlink _ _ _ _ _ _ _ C Hnd Hh Hh) as C1.
  set (p := lst head l1) in *. set (nx := fst_of l2 head) in *.
  apply chain_app in C as Cs. destruct Cs as [Ca Cb].
  assert (Hi : 0 <= i < 10) by (apply Hr; rewrite elem_of_app, elem_of_cons; auto).
  pose proof (chain_first _ _ _ _ _ Cb) as Eni. pose proof (chain_last _ _ _ _ _ Ca) as Epi.
  fold nx in Eni. fold p in Epi.
  apply NoDup_app in Hnd as Hnd'. destruct Hnd' as (_ & Hn12 & [Hi2 _]%NoDup_cons).
  assert (Hi1 : i ∉ l1) by (intros H; apply (Hn12 _ H), elem_of_cons; auto).
  assert (Hp : 0 <= p < 11 /\ p <> i).
  { subst p. destruct (lst_in head l1) as [-> |H]; [unfold head, NBUF; lia|].
    assert (0 <= lst head l1 < 10) by (apply Hr; rewrite elem_of_app; auto). split; [lia|congruence]. }
  assert (Hn : 0 <= nx < 11 /\ nx <> i).
  { subst nx. destruct (fst_in l2 head) as [-> |H]; [unfold head, NBUF; lia|].
    assert (0 <= fst_of l2 head < 10) by (apply Hr; rewrite elem_of_app, elem_of_cons; auto). split; [lia|congruence]. }
  rewrite nexts_get, Eb in Eni. injection Eni as Eni. rewrite prevs_get, Eb in Epi. injection Epi as Epi.
  unfold brelse. sstep bget_run. rewrite Hbusy. cbn [negb]. unfold acquire_bcache. do 2 mnext. scbn. mnext. scbn.
  sstep bget_run. rewrite Eni, Epi.
  destruct (set_prev_run l true NULL false hv dr rq nx p) as (la & Ea & Na & Pa & Ya & La); [lia|]. mstep Ea. cbv beta.
  destruct (links_run la true NULL false hv dr rq i nx p) as (b2 & Eb2 & Nb2 & Pb2).
  { by rewrite Na, nexts_get, Eb, <- Eni. }
  { rewrite Pa, zget_zset_ne, prevs_get, Eb by tauto. by rewrite <- Epi. }
  mstep Eb2. cbv beta. rewrite Nb2, Pb2.
  destruct (set_next_run la true NULL false hv dr rq p nx) as (lb & Eb3 & Nb & Pb & Yb & Lb); [lia|]. mstep Eb3. cbv beta.
  rewrite Na in Nb. rewrite Pa in Pb. rewrite <- Nb, <- Pb in C1.
  assert (Hi12 : i ∉ l1 ++ l2) by (rewrite elem_of_app; tauto).
  assert (Hnd12 : NoDup (l1 ++ l2)).
  { apply NoDup_app in Hnd as (N1 & N12 & [_ N2]%NoDup_cons). apply NoDup_app. split; [done|]. split; [|done].
    intros y Hy Hy2. apply (N12 _ Hy), elem_of_cons. auto. }
  assert (Hh12 : head ∉ l1 ++ l2).
  { intros H. apply Hh. rewrite elem_of_app, elem_of_cons. rewrite elem_of_app in H. tauto. }
  pose proof (chain_push _ _ _ _ _ i C1 Hnd12 Hh12 Hh12 Hi12 ltac:(unfold head, NBUF; lia) ltac:(unfold head, NBUF; lia)
    ltac:(rewrite zlen_nexts; lia) ltac:(rewrite zlen_prevs; lia)) as C2.
  pose proof (chain_first _ _ _ _ _ C1) as Ef. pose proof (chain_last _ _ _ _ _ C1) as Eg.
  set (f := fst_of (l1 ++ l2) head) in *.
  destruct (links_run lb true NULL false hv dr rq head f _ Ef Eg) as (h1 & Eh1 & Nh1 & _). mstep Eh1. cbv beta. rewrite Nh1.
  destruct (set_next_run lb true NULL false hv dr rq i f) as (lc & Ec & Nc & Pc & Yc & Lc); [lia|]. mstep Ec. cbv beta.
  destruct (set_prev_run lc true NULL false hv dr rq i head) as (ld & Ed & Nd & Pd & Yd & Ld); [lia|]. mstep Ed. cbv beta.
  destruct (zget_range ld head) as [h2 Eh2]; [unfold head, NBUF; lia|].
  sstep bget_run.
  assert (next h2 = f) as ->.
  { assert (zget (nexts ld) head = Some f) as H.
    { rewrite Nd, Nc, zget_zset_ne; [done|]. unfold head, NBUF. lia. }
    rewrite nexts_get, Eh2 in H. by injection H. }
  assert (Hf : 0 <= f < 11).
  { subst f. destruct (fst_in (l1 ++ l2) head) as [-> |H]; [unfold head, NBUF; lia|].
    assert (0 <= fst_of (l1 ++ l2) head < 10); [|lia]. apply Hr. rewrite elem_of_app, elem_of_cons.
    apply elem_of_app in H. tauto. }
  destruct (set_prev_run ld true NULL false hv dr rq f i) as (le & Ee & Ne & Pe & Ye & Le); [lia|]. mstep Ee. cbv beta.
  destruct (set_next_run le true NULL false hv dr rq head i) as (lf & Ef' & Nf & Pf & Yf & Lf); [unfold head, NBUF; lia|].
  mstep Ef'. cbv beta.
  assert (Yl : pays lf = pays l) by congruence.
  assert (0 <= i < zlen lf) as Hil by lia.
  destruct (zget_range _ _ Hil) as [bf Ebf]. sstep bmod_run.
  unfold release_bcache. mnext. scbn. unfold modify. scbn.
  exists (zset lf i (clear_flag B_BUSY bf)). split; [reflexivity|]. split; [rewrite zlen_zset; lia|].
  assert (nexts (zset lf i (clear_flag B_BUSY bf)) = nexts lf) as ->.
  { unfold nexts. rewrite fmap_zset. apply zset_id. by rewrite zget_fmap, Ebf. }
  assert (prevs (zset lf i (clear_flag B_BUSY bf)) = prevs lf) as ->.
  { unfold prevs. rewrite fmap_zset. apply zset_id. by rewrite zget_fmap, Ebf. }
  rewrite Nf, Ne, Nd, Nc, Pf, Pe, Pd, Pc. split; [exact C2|].
  unfold pays. rewrite !fmap_zset. fold (pays lf) (pays l). rewrite Yl.
  destruct (pays_get _ _ _ _ Yl Ebf) as (b0 & Eb0 & Hp0). assert (b0 = b) as -> by congruence.
  f_equal. unfold pay in *. injection Hp0 as H1 H2 H3 H4. cbn. by rewrite H1, H2, H3, H4.
Qed.

(** ** The five operations *)

Lemma bread_ok ord s F d n x :
  at_order ord s F -> disk F !! (d, n) = Some x -> ~ is_open F (d, n) -> (size (opened F) < 10)%nat ->
  exists i s', bread d n s = Ret (i, s') /\ opened F !! i = None /\ chosen ord (bufs s) d n i /\
    at_order ord s' (mkFlat (disk F) (<[i := (d, n, x)]> (opened F))).
Proof.
  intros A Hx Hno Hsz.
  destruct (bget_ok _ _ _ _ _ _ A Hx Hno Hsz) as (i & b & b' & E & Hi & Eb & Hop & Hn & Hp & Hd & Hs & Hf & Hch).
  assert (Hil : 0 <= i < zlen (bufs s)) by (rewrite (at_len _ _ _ A); lia).
  assert (Ha : addressable (havedisk1 s) (dev b', sector b')) by (rewrite Hd, Hs; by apply (at_addr _ _ _ A)).
  destruct (at_idle _ _ _ A) as (E1 & E2 & E3).
  assert (exists b2 s', bread d n s = Ret (i, s') /\ bufs s' = zset (bufs s) i b2 /\ next b2 = next b /\ prev b2 = prev b /\
    (dev b2, sector b2) = (d, n) /\ flags b2 = 3 /\ data b2 = x /\ drives s' = drives s /\ havedisk1 s' = havedisk1 s /\
    bcache_lock s' = false /\ idelock s' = false /\ idequeue s' = NULL) as (b2 & s' & E' & Es & Hn2 & Hp2 & Hd2 & Hf2 & Hx2 & Hdr & Hhv & Hid).
  { pose proof (at_disk _ _ _ A) as Hdr. rewrite <- Hdr in Hx. clear A.
    destruct s as [l lk q il hv dr rq]. cbn in *. subst lk q il. unfold bread. mstep E. cbv beta. scbn.
    rewrite (bind_Ret _ _ _ _ _ (bget_set _ _ _ _ _ _ _ _ _ Hil)).
    destruct Hf as [Hf|[Hf Hdx]]; unfold has; rewrite Hf.
    - change (negb (negb (Z.land 1 B_VALID =? 0))) with true. cbv iota.
      destruct (iderw_run (zset l i b') false hv dr rq i b' x) as [rq' Er].
      + by apply zget_zset_eq.
      + lia.
      + auto.
      + done.
      + by rewrite Hd, Hs.
      + mstep Er. cbv beta. rewrite Hf, Z.eqb_refl, zset_zset.
        eexists _, _. split; [reflexivity|]. cbn. rewrite Hd, Hs. auto 12.
    - change (negb (negb (Z.land 3 B_VALID =? 0))) with false. cbv iota. mnext.
      eexists _, _. split; [reflexivity|]. cbn. rewrite Hd, Hs. auto 12. }
  exists i, s'. split; [done|]. split; [done|]. split; [done|]. injection Hd2 as Hd2 Hs2.
  eapply (at_update _ _ _ _ _ i b b2); try done.
  - by rewrite Hdr, (at_disk _ _ _ A).
  - right. cbn. rewrite lookup_insert_eq, Hd2, Hs2, Hx2, Hx. done.
  - intros j c Hj Hji Ec [[Hc1 Hc2]|(Hc1 & Hc2 & Hc3)]; [left|right]; cbn; rewrite lookup_insert_ne by done; auto.
  - intros j c Hj Hji Ec Hin Heq. rewrite Hd2, Hs2 in Heq. injection Heq as Hc1 Hc2.
    destruct Hch as [Hh|[Hh _]].
    + apply Hji, (at_uniq _ _ _ A j i d n); try done; by exists c.
    + apply (Hh j); [by apply (at_all _ _ _ A)|]. by exists c.
  - cbn. intros h Hh. destruct (decide (h = i)) as [->|N]; [done|].
    rewrite lookup_insert_ne in Hh by done. by apply (at_dom _ _ _ A).
Qed.

(** Overwriting what a busy buffer holds. *)
Lemma store_ok ord s F h a x y :
  at_order ord s F -> opened F !! h = Some (a, x) ->
  exists s', buf_store h y s = Ret (tt, s') /\ at_order ord s' (mkFlat (disk F) (<[h := (a, y)]> (opened F))).
Proof.
  intros A E. destruct (at_opened _ _ _ _ _ _ A E) as (b & Hh & Eb & Hf & -> & -> & Hin).
  exists (set_bufs (zset (bufs s) h (set_data y b)) s). split.
  { destruct s. by apply bmod_run. }
  eapply (at_update _ _ _ _ _ h b (set_data y b)); try done.
  - apply (at_idle _ _ _ A).
  - apply (at_disk _ _ _ A).
  - right. cbn. rewrite lookup_insert_eq. done.
  - intros j c Hj Hji Ec [[Hc1 Hc2]|(Hc1 & Hc2 & Hc3)]; [left|right]; cbn; rewrite lookup_insert_ne by done; auto.
  - intros j c Hj Hji Ec Hinc Heq. injection Heq as Hc1 Hc2.
    apply Hji, (at_uniq _ _ _ A j h (dev c) (sector c)); try done; [by exists c|].
    exists b. cbn in *. by rewrite Hc1, Hc2.
  - cbn. intros k Hk. destruct (decide (k = h)) as [->|N]; [done|].
    rewrite lookup_insert_ne in Hk by done. by apply (at_dom _ _ _ A).
Qed.

Lemma data_ok ord s F h a x : at_order ord s F -> opened F !! h = Some (a, x) -> buf_data h s = Ret (x, s).
Proof.
  intros A E. destruct (at_opened _ _ _ _ _ _ A E) as (b & Hh & Eb & Hf & -> & -> & Hin).
  unfold buf_data. destruct s. erewrite bind_Ret by (by apply bget_run). done.
Qed.

Lemma bwrite_sim ord s F h a x :
  at_order ord s F -> opened F !! h = Some (a, x) ->
  exists s', bwrite h s = Ret (tt, s') /\ at_order ord s' (mkFlat (<[a := x]> (disk F)) (opened F)).
Proof.
  intros A E. destruct (at_opened _ _ _ _ _ _ A E) as (b & Hh & Eb & Hf & -> & -> & [x0 Hin]).
  destruct (at_idle _ _ _ A) as (E1 & E2 & E3). pose proof (at_len _ _ _ A) as Hlen.
  pose proof (at_addr _ _ _ A _ (mk_is_Some _ _ Hin)) as Had. pose proof (at_disk _ _ _ A) as Hdr.
  destruct (iderw_run (zset (bufs s) h (or_flag B_DIRTY b)) false (havedisk1 s) (drives s) (request s) h (or_flag B_DIRTY b) x0)
    as [rq' Er]; cbn; try done.
  { apply zget_zset_eq. lia. }
  { lia. }
  { rewrite Hf. auto. }
  { by rewrite Hdr. }
  cbn in Er. rewrite Hf, zset_zset in Er. change (Z.lor 3 B_DIRTY =? 1) with false in Er. cbv iota in Er.
  exists (mkB (zset (bufs s) h (mkBuf 3 (dev b) (sector b) (prev b) (next b) NULL (data b))) false NULL false
    (havedisk1 s) (<[(dev b, sector b) := data b]> (drives s)) rq'). split.
  { destruct s as [l lk q il hv dr rq]. cbn in *. subst lk q il. unfold bwrite. sstep bget_run.
    unfold has. rewrite Hf. change (negb (negb (Z.land 3 B_BUSY =? 0))) with false. cbv iota.
    sstep bmod_run. exact Er. }
  eapply (at_update _ _ _ _ _ h b); cbn; try done.
  - by rewrite Hdr.
  - intros a. rewrite lookup_insert_is_Some. intros [<-|[_ ?]]; [by eexists|done].
  - right. cbn. rewrite lookup_insert_eq. done.
  - intros j c Hj Hji Ec [[Hc1 Hc2]|(Hc1 & Hc2 & Hc3)]; [left|right]; cbn.
    + split; [|done]. destruct Hc1 as [?|[? Hc1]]; [by left|right]. split; [done|].
      rewrite lookup_insert_ne; [done|]. intros Heq. injection Heq as Q1 Q2.
      apply Hji, (at_uniq _ _ _ A j h (dev c) (sector c)); try done.
      * by exists c.
      * exists b. split; [done|]. by rewrite Q1, Q2.
    + split; [done|]. split; [done|]. rewrite lookup_insert_is_Some. destruct (decide ((dev b, sector b) = (dev c, sector c))); auto.
  - intros j c Hj Hji Ec Hinc Heq. injection Heq as Hc1 Hc2.
    apply Hji, (at_uniq _ _ _ A j h (dev c) (sector c)); try done.
    + by rewrite Hc1, Hc2, Hin.
    + by exists c.
    + exists b. by rewrite Hc1, Hc2.
  - apply (at_dom _ _ _ A).
Qed.

Lemma release_ok ord s F h a x :
  at_order ord s F -> opened F !! h = Some (a, x) -> disk F !! a = Some x ->
  exists s' o1 o2, ord = o1 ++ h :: o2 /\ brelse h s = Ret (tt, s') /\
    at_order (h :: o1 ++ o2) s' (mkFlat (disk F) (delete h (opened F))).
Proof.
  intros A E Hd. destruct (at_opened _ _ _ _ _ _ A E) as (b & Hh & Eb & Hf & -> & -> & _).
  destruct (at_idle _ _ _ A) as (E1 & E2 & E3).
  destruct (list_elem_of_split ord h) as (o1 & o2 & ->); [by apply (at_all _ _ _ A)|].
  destruct (brelse_run (bufs s) (havedisk1 s) (drives s) (request s) h b o1 o2) as (l' & Er & Hlen & C & Hpay).
  - apply (at_len _ _ _ A).
  - apply (at_chain _ _ _ A).
  - apply (at_nodup _ _ _ A).
  - intros j Hj. by apply (at_all _ _ _ A).
  - done.
  - unfold has. by rewrite Hf.
  - eexists _, o1, o2. split; [done|]. split.
    { rewrite <- Er. f_equal. destruct s as [l lk q il hv dr rq]. cbn in *. by subst. }
    assert (forall j c, zget l' j = Some c -> exists c0, zget (bufs s) j = Some c0 /\ (j <> h /\ pay c = pay c0 \/
      j = h /\ c0 = b /\ flags c = 2 /\ dev c = dev b /\ sector c = sector b /\ data c = data b)) as Hpj.
    { intros j c Ec. destruct (pays_get _ _ _ _ Hpay Ec) as (c0 & Ec0 & Hc0). destruct (decide (j = h)) as [->|N].
      - rewrite zget_zset_eq in Ec0 by (rewrite (at_len _ _ _ A); lia). injection Ec0 as <-.
        exists b. split; [done|]. right. injection Hc0 as Q1 Q2 Q3 Q4. cbn in *. rewrite Hf in Q1. by repeat split.
      - rewrite zget_zset_ne in Ec0 by done. exists c0. auto. }
    assert (forall j d n, hit l' d n j -> hit (bufs s) d n j) as Hhit.
    { intros j d n (c & Ec & <- & <-). destruct (Hpj _ _ Ec) as (c0 & Ec0 & [[_ Hc]|(-> & -> & _ & -> & -> & _)]).
      - exists c0. injection Hc as _ Q2 Q3 _. by rewrite Q2, Q3.
      - by exists b. }
    constructor; cbn; try done.
    + assert (h :: o1 ++ o2 ≡ₚ o1 ++ h :: o2) as -> by apply Permutation_middle. apply (at_nodup _ _ _ A).
    + intros i. rewrite <- (at_all _ _ _ A). by rewrite (Permutation_middle o1 o2 h).
    + apply (at_disk _ _ _ A).
    + apply (at_addr _ _ _ A).
    + intros j c Hj Ec. destruct (Hpj _ _ Ec) as (c0 & Ec0 & [[Hne Hc]|(-> & -> & Q1 & Q2 & Q3 & Q4)]).
      * injection Hc as Q1 Q2 Q3 Q4. unfold buf_ok. cbn. rewrite Q1, Q2, Q3, Q4, lookup_delete_ne by done.
        by apply (at_buf _ _ _ A).
      * left. rewrite Q1, Q2, Q3, Q4. cbn. rewrite lookup_delete_eq. auto.
    + intros i j d n Hi Hj Hdn Hti Htj. apply (at_uniq _ _ _ A i j d n); auto.
    + intros k [v Hk]. apply lookup_delete_Some in Hk as [_ Hk]. apply (at_dom _ _ _ A). by eexists.
Qed.

(** The cache discharges the interface's contract. *)
Lemma cache_step o s F :
  cache_shows s F -> may F o ->
  exists v s' F', run_op o s = Ret (v, s') /\ fstep F o v F' /\ cache_shows s' F'.
Proof.
  intros [ord A] M. destruct o as [d n|h|h y|h|h]; cbn in M.
  - destruct M as ([x Hx] & Hno & Hsz). destruct (bread_ok _ _ _ _ _ _ A Hx Hno Hsz) as (i & s' & E & Ho & _ & A').
    eexists _, s', _. unfold run_op. cbn. mstep E. split; [done|]. split; [by apply F_Read|by exists ord].
  - destruct M as [[a x] Hx]. eexists _, s, F. unfold run_op. cbn.
    mstep (data_ok _ _ _ _ _ _ A Hx). split; [done|]. split; [by eapply F_Data|by exists ord].
  - destruct M as [[a x] Hx]. destruct (store_ok _ _ _ _ _ _ y A Hx) as (s' & E & A').
    eexists _, s', _. unfold run_op. cbn. mstep E. split; [done|]. split; [by eapply F_Store|by exists ord].
  - destruct M as [[a x] Hx]. destruct (bwrite_sim _ _ _ _ _ _ A Hx) as (s' & E & A').
    eexists _, s', _. unfold run_op. cbn. mstep E. split; [done|]. split; [by eapply F_Write|by exists ord].
  - destruct M as (a & x & Hx & Hd). destruct (release_ok _ _ _ _ _ _ A Hx Hd) as (s' & o1 & o2 & -> & E & A').
    eexists _, s', _. unfold run_op. cbn. mstep E. split; [done|]. split; [by eapply F_Release|by eexists].
Qed.

#[export] Instance bio_laws : BlockLaws bstate :=
  Build_BlockLaws bstate _ cache_shows cache_step.

(** ** Boot *)

(** The buffers as the loader leaves them: all zero. *)
Definition zero_buf : buf := mkBuf 0 0 0 0 0 0 (replicate 512 0).
Definition boot_bufs : list buf := replicate 11 zero_buf.
Definition booted (hv : bool) (dr : gmap (Z * Z) (list Z)) : bstate :=
  match (binit;; ideinit hv) (mkB boot_bufs false NULL false false dr None) with
  | Ret (_, s) => s
  | _ => mkB [] false NULL false false dr None
  end.

Lemma booted_eq hv dr :
  booted hv dr = mkB (bufs (booted false ∅)) false NULL false hv dr None.
Proof. destruct hv; vm_compute; reflexivity. Qed.

Definition boot_order : list Z := [9; 8; 7; 6; 5; 4; 3; 2; 1; 0].

Lemma fresh_shows l hv dr :
  zlen l = 11 -> chain (nexts l) (prevs l) head boot_order head ->
  (forall i b, zget l i = Some b -> 0 <= i < 10 -> flags b = 0 /\ dev b = 2 ^ 32 - 1) ->
  (forall a, is_Some (dr !! a) -> addressable hv a) ->
  at_order boot_order (mkB l false NULL false hv dr None) (mkFlat dr ∅).
Proof.
  intros Hl C Hbuf Hdr. constructor; cbn [bufs bcache_lock idequeue idelock havedisk1 drives disk opened]; try done.
  - apply (bool_decide_unpack _). vm_compute. exact I.
  - intros i. unfold boot_order. rewrite !elem_of_cons, elem_of_nil. lia.
  - intros i b Hi Eb. left. cbn. rewrite lookup_empty. split; [|done]. left. by apply (Hbuf i).
  - intros i j d n Hi Hj Hdn (b & Eb & <- & _) _. exfalso.
    destruct (Hbuf i b Eb Hi) as [_ Hd]. rewrite Hd in Hdn. apply Hdr in Hdn as [Ha _]. cbn in Ha. lia.
  - intros h [? Hh]. by rewrite lookup_empty in Hh.
Qed.

Lemma booted_shows hv dr :
  (forall a, is_Some (dr !! a) -> addressable hv a) -> cache_shows (booted hv dr) (mkFlat dr ∅).
Proof.
  intros Hdr. exists boot_order. rewrite booted_eq. apply fresh_shows; [..|exact Hdr].
  - vm_compute. reflexivity.
  - vm_compute. repeat split.
  - assert (forallb (fun k => match zget (bufs (booted false ∅)) (Z.of_nat k) with
      | Some b => (flags b =? 0) && (dev b =? 2 ^ 32 - 1) | None => false end) (seq 0 10) = true) as Hb
      by (vm_compute; reflexivity).
    revert Hb. generalize (bufs (booted false ∅)). intros l Hb i b Eb Hi. rewrite forallb_forall in Hb.
    specialize (Hb (Z.to_nat i)). rewrite in_seq, Z2Nat.id, Eb in Hb by lia. lia.
Qed.

(** ** Clients *)

(** A client chooses each operation from the answers so far (the last one
    first). *)
Definition client : Type := list val -> op.

Inductive fruns (c : client) (F : flat) : list val -> flat -> Prop :=
  | fruns_nil : fruns c F [] F
  | fruns_cons vs F1 v F2 : fruns c F vs F1 -> fstep F1 (c vs) v F2 -> fruns c F (v :: vs) F2.

Fixpoint run_client {K} `{BlockOps K} (n : nat) (c : client) (vs : list val) : M K (list val) :=
  match n with
  | O => mret vs
  | S n => v ← run_op (c vs); run_client n c (v :: vs)
  end.

Definition lawful (c : client) (F : flat) : Prop := forall vs F', fruns c F vs F' -> may F' (c vs).

Lemma run_client_ok {K} `{BlockLaws K} (n : nat) c F0 vs F s :
  lawful c F0 -> fruns c F0 vs F -> shows s F ->
  exists vs' s' F', run_client n c vs s = Ret (vs', s') /\ fruns c F0 vs' F' /\ shows s' F' /\
    length vs' = (length vs + n)%nat.
Proof.
  intros L. revert vs F s. induction n as [|n IH]; intros vs F s R Sh.
  - exists vs, s, F. rewrite Nat.add_0_r. done.
  - destruct (run_op_ok (c vs) s F Sh (L _ _ R)) as (v & s1 & F1 & E & St & Sh1).
    destruct (IH (v :: vs) F1 s1) as (vs' & s' & F' & E' & R' & Sh' & Hl); [by econstructor|done|].
    exists vs', s', F'. cbn [run_client]. mstep E. split; [done|]. split; [done|]. split; [done|]. cbn in *. lia.
Qed.

(** C3: From boot, any client that opens no block twice, keeps at most nine open
    while it opens another, and writes what it changes before it releases it
    gets, for any number of operations, exactly the answers the flat disk
    gives, without ever panicking or blocking. *)
Theorem cache_client_sees_disk hv dr c n :
  (forall a, is_Some (dr !! a) -> addressable hv a) -> lawful c (mkFlat dr ∅) ->
  exists vs s F, run_client n c [] (booted hv dr) = Ret (vs, s) /\ length vs = n /\
    fruns c (mkFlat dr ∅) vs F /\ drives s = disk F.
Proof.
  intros Hdr L.
  assert (shows (booted hv dr) (mkFlat dr ∅)) as Sh by exact (booted_shows hv dr Hdr).
  destruct (run_client_ok n c _ [] _ _ L (fruns_nil _ _) Sh) as (vs & s & F & E & R & [ord A] & Hl).
  exists vs, s, F. split; [done|]. split; [done|]. split; [done|]. apply (at_disk _ _ _ A).
Qed.

(** C30: The cache replaces the block released longest ago: reading a block that
    no buffer holds reuses the last free buffer of the list (every buffer after
    it is open), a block some buffer holds is served from that buffer, and a
    release moves the buffer to the front and changes no other position. *)
Theorem cache_replaces_least_recently_released ord s F d n x :
  at_order ord s F -> disk F !! (d, n) = Some x -> ~ is_open F (d, n) -> (size (opened F) < 10)%nat ->
  exists i s', bread d n s = Ret (i, s') /\
    (hit (bufs s) d n i \/
     (forall j, j ∈ ord -> ~ hit (bufs s) d n j) /\
     exists o1 o2, ord = o1 ++ i :: o2 /\ (forall j, j ∈ o2 -> busy (bufs s) j)) /\
    exists s'' o1 o2, ord = o1 ++ i :: o2 /\ brelse i s' = Ret (tt, s'') /\ at_order (i :: o1 ++ o2) s'' F.
Proof.
  intros A Hx Hno Hsz.
  destruct (bread_ok _ _ _ _ _ _ A Hx Hno Hsz) as (i & s' & E & Ho & Hc & A').
  exists i, s'. split; [done|]. split; [done|].
  destruct (release_ok _ _ _ i (d, n) x A') as (s'' & o1 & o2 & Eo & E' & A''); [apply lookup_insert_eq|done|].
  exists s'', o1, o2. split; [done|]. split; [done|]. cbn in A''.
  rewrite delete_insert_id in A'' by done. by destruct F as [dk op].
Qed.

(** *** Concrete runs *)

Definition demo_disk : gmap (Z * Z) (list Z) := <[(0, 5) := [1; 2; 3]]> (<[(1, 7) := [4; 5; 6]]> ∅).

(** Increment every byte of block 7 of drive 1, for ever: read, look, store,
    write, release. *)
Fixpoint last_handle (vs : list val) : Z :=
  match vs with [] => -1 | VHandle h :: _ => h | _ :: vs => last_handle vs end.
Fixpoint last_data (vs : list val) : list Z :=
  match vs with [] => [] | VData x :: _ => x | _ :: vs => last_data vs end.
Definition counter : client := fun vs =>
  let h := last_handle vs in
  match (length vs mod 5)%nat with
  | 0%nat => Read 1 7
  | 1%nat => Data h
  | 2%nat => Store h (Z.succ <$> last_data vs)
  | 3%nat => Write h
  | _ => Release h
  end.

Definition counter_inv (vs : list val) (F : flat) : Prop :=
  is_Some (disk F !! (1, 7)) /\
  match (length vs mod 5)%nat with
  | 0%nat => opened F = ∅
  | k => exists z, opened F = {[last_handle vs := (1, 7, z)]} /\ (k = 4%nat -> disk F !! (1, 7) = Some z)
  end.

Lemma mod5_next n k : (n mod 5 = k -> S n mod 5 = match k with 4 => 0 | k => S k end)%nat.
Proof.
  intros <-. pose proof (Nat.mod_upper_bound n 5 ltac:(lia)).
  rewrite <- Nat.add_1_r, <- Nat.Div0.add_mod_idemp_l.
  destruct (n mod 5)%nat as [|[|[|[|[|]]]]]; try lia; reflexivity.
Qed.

Lemma counter_runs vs F : fruns counter (mkFlat demo_disk ∅) vs F -> counter_inv vs F.
Proof.
  induction 1 as [|vs F1 v F2 _ [Hd IH] St].
  - split; [vm_compute; eauto|reflexivity].
  - unfold counter_inv. cbn [length]. unfold counter in St.
    pose proof (mod5_next (length vs) _ eq_refl) as Hn.
    pose proof (Nat.mod_upper_bound (length vs) 5 ltac:(lia)) as Hb.
    destruct (length vs mod 5)%nat as [|[|[|[|[|]]]]]; try lia; rewrite Hn;
      inversion St as [d n h x Hx Ho E|h a x Hx E|h a x y Hx E|h a x Hx E|h a x Hx E]; subst; clear St Hn Hb; cbn in *.
    + split; [done|]. exists x. rewrite IH. done.
    + split; [done|]. destruct IH as (z & Hz & _). by exists z.
    + split; [done|]. destruct IH as (z & Hz & _). rewrite Hz in Hx |- *.
      apply lookup_singleton_Some in Hx as [_ Hx]. injection Hx as <- <-.
      eexists. rewrite insert_singleton_eq. done.
    + destruct IH as (z & Hz & _). rewrite Hz in Hx |- *. apply lookup_singleton_Some in Hx as [_ Hx]. injection Hx as <- <-.
      rewrite lookup_insert_eq. split; [by eexists|]. exists z. done.
    + destruct IH as (z & Hz & _). rewrite Hz. split; [done|]. apply delete_singleton_eq.
Qed.

Lemma counter_lawful : lawful counter (mkFlat demo_disk ∅).
Proof.
  intros vs F [Hd R]%counter_runs. unfold counter.
  pose proof (Nat.mod_upper_bound (length vs) 5 ltac:(lia)) as Hb.
  destruct (length vs mod 5)%nat as [|[|[|[|[|]]]]]; try lia; cbn [may].
  - rewrite R. split; [done|]. split; [|rewrite map_size_empty; lia]. intros (h & x & Hx). by rewrite R, lookup_empty in Hx.
  - destruct R as (z & -> & _). rewrite lookup_singleton_eq. by eexists.
  - destruct R as (z & -> & _). rewrite lookup_singleton_eq. by eexists.
  - destruct R as (z & -> & _). rewrite lookup_singleton_eq. by eexists.
  - destruct R as (z & -> & Hz). exists (1, 7), z. rewrite lookup_singleton_eq. auto.
Qed.

Lemma demo_addressable a : is_Some (demo_disk !! a) -> addressable true a.
Proof.
  unfold demo_disk. rewrite !lookup_insert_is_Some, lookup_empty.
  intros [<-|[_ [<-|[_ [? H]]]]]; [| |done]; (split; cbn; [auto|lia]).
Qed.

Lemma cache_client_sees_disk_witness :
  exists vs s F, run_client 10 counter [] (booted true demo_disk) = Ret (vs, s) /\ length vs = 10%nat /\
    fruns counter (mkFlat demo_disk ∅) vs F /\ drives s = disk F.
Proof. apply (cache_client_sees_disk true demo_disk counter 10 demo_addressable counter_lawful). Defined.

Example counter_counts :
  match run_client 10 counter [] (booted true demo_disk) with
  | Ret (_, s) => drives s !! (1, 7) = Some [6; 7; 8]
  | _ => False
  end.
Proof. vm_compute. reflexivity. Qed.

Lemma cache_replaces_least_recently_released_witness :
  exists ord s' i, at_order ord (booted true demo_disk) (mkFlat demo_disk ∅) /\
    bread 1 7 (booted true demo_disk) = Ret (i, s').
Proof.
  destruct (booted_shows true demo_disk demo_addressable) as [ord A].
  destruct (cache_replaces_least_recently_released ord _ _ 1 7 [4; 5; 6] A) as (i & s' & E & _).
  - vm_compute. reflexivity.
  - intros (h & x & Hx). cbn in Hx. rewrite lookup_empty in Hx. discriminate Hx.
  - vm_compute. lia.
  - exists ord, s', i. split; [exact A|exact E].
Defined.
