(* ===== verification/Fs.v ===== *)
(** The file system of project 5 ([src/5/xv6/fs.c], [fs.h], [file.h]): xv6's
    blocks, inodes, directories and paths, with the project's extent-based
    files.

    The disk is reached through the buffer cache's interface, [BlockOps]; the
    device switch is an interface too.  A [struct inode *] is an index into
    [icache.inode].  Sleeping on a busy inode blocks: only another process can
    release it. *)
From S2P Require Import Prelude Bytes BlockDev CString.

(** [devsw]: which majors have a read and a write function, and what they do.
    Reading returns the bytes the device stored. *)
Class DevSw (K : Type) := {
  has_dev_read : Z -> bool;
  dev_read : Z -> Z -> Z -> M K (Z * list Z);
  has_dev_write : Z -> bool;
  dev_write : Z -> Z -> list Z -> Z -> M K Z
}.

Module Fs.

(** ** Constants and on-disk data *)

Definition BSIZE : Z := 512.
Definition NDIRECT : Z := 12.
Definition NINDIRECT : Z := 128.
Definition MAXFILE : Z := NDIRECT + NINDIRECT.
Definition IPB : Z := 8.
Definition BPB : Z := 4096.
Definition DIRSIZ : Z := 14.
Definition NINODE : Z := 50.
Definition NDEV : Z := 10.
Definition ROOTDEV : Z := 1.
Definition ROOTINO : Z := 1.
Definition IBLOCK (i : Z) : Z := i / IPB + 2.
Definition BBLOCK (b ninodes : Z) : Z := b / BPB + ninodes / IPB + 3.

Definition T_DIR : Z := 1.
Definition T_FILE : Z := 2.
Definition T_DEV : Z := 3.
Definition T_EXTENT : Z := 4.
Definition I_BUSY : Z := 1.
Definition I_VALID : Z := 2.

Record superblock := mkSb { size : Z; nblocks : Z; ninodes : Z }.

(** [struct inode]; the last five fields are a copy of the disk's. *)
Record inode := mkInode {
  dev : Z; inum : Z; ref : Z; flags : Z;
  type : Z; major : Z; minor : Z; nlink : Z; isize : Z; addrs : list Z
}.
Definition set_ref v i := mkInode (dev i) (inum i) v (flags i) (type i) (major i) (minor i) (nlink i) (isize i) (addrs i).
Definition set_flags v i := mkInode (dev i) (inum i) (ref i) v (type i) (major i) (minor i) (nlink i) (isize i) (addrs i).
Definition set_type v i := mkInode (dev i) (inum i) (ref i) (flags i) v (major i) (minor i) (nlink i) (isize i) (addrs i).
Definition set_major v i := mkInode (dev i) (inum i) (ref i) (flags i) (type i) v (minor i) (nlink i) (isize i) (addrs i).
Definition set_minor v i := mkInode (dev i) (inum i) (ref i) (flags i) (type i) (major i) v (nlink i) (isize i) (addrs i).
Definition set_nlink v i := mkInode (dev i) (inum i) (ref i) (flags i) (type i) (major i) (minor i) v (isize i) (addrs i).
Definition set_isize v i := mkInode (dev i) (inum i) (ref i) (flags i) (type i) (major i) (minor i) (nlink i) v (addrs i).
Definition set_addrs v i := mkInode (dev i) (inum i) (ref i) (flags i) (type i) (major i) (minor i) (nlink i) (isize i) v.
Definition has (fl : Z) (i : inode) : bool := negb (Z.land (flags i) fl =? 0).

(** [struct dinode]: 64 bytes. *)
Definition dinode_bytes (i : inode) : list Z :=
  to_le 2 (type i) ++ to_le 2 (major i) ++ to_le 2 (minor i) ++ to_le 2 (nlink i) ++
  to_le 4 (isize i) ++ mjoin (to_le 4 <$> addrs i).
Definition dinode_off (inum : Z) : Z := inum mod IPB * 64.
Fixpoint words (n : nat) (d : list Z) (off : Z) : list Z :=
  match n with O => [] | S n => word d off :: words n d (off + 4) end.
Definition load_dinode (d : list Z) (o : Z) (i : inode) : inode :=
  mkInode (dev i) (inum i) (ref i) (flags i)
    (s16 (half d o)) (s16 (half d (o + 2))) (s16 (half d (o + 4))) (s16 (half d (o + 6)))
    (word d (o + 8)) (words 13 d (o + 12)).

Record stat := mkStat { st_type : Z; st_dev : Z; st_ino : Z; st_nlink : Z; st_size : Z; st_addrs : list Z }.

(** ** State *)

Record fstate (K : Type) := mkF {
  icache : list inode;
  icache_lock : bool;
  cwd : Z;
  disk : K
}.
Arguments mkF {K} icache icache_lock cwd disk.
Arguments icache {K} f.
Arguments icache_lock {K} f.
Arguments cwd {K} f.
Arguments disk {K} f.

Section Fs.
Context {K : Type} `{BlockOps K} `{DevSw K}.

Definition set_icache l (s : fstate K) := mkF l (icache_lock s) (cwd s) (disk s).
Definition set_icache_lock b (s : fstate K) := mkF (icache s) b (cwd s) (disk s).
Definition set_cwd c (s : fstate K) := mkF (icache s) (icache_lock s) c (disk s).

Definition ipget (ip : Z) : M (fstate K) inode := s ← get; deref "inode" (zget (icache s) ip).
Definition ipmod (ip : Z) (f : inode -> inode) : M (fstate K) unit :=
  i ← ipget ip; modify (fun s => set_icache (zset (icache s) ip (f i)) s).

(** A call into the buffer cache or a device. *)
Definition io {A} (m : M K A) : M (fstate K) A := fun s =>
  match m (disk s) with
  | Ret (a, k) => Ret (a, mkF (icache s) (icache_lock s) (cwd s) k)
  | Panicked msg => Panicked msg
  | Undef why => Undef why
  | Blocked c => Blocked c
  | NoFuel => NoFuel
  end.

Definition acquire_icache : M (fstate K) unit :=
  s ← get; if icache_lock s then panic "acquire" else modify (set_icache_lock true).
Definition release_icache : M (fstate K) unit :=
  s ← get; if icache_lock s then modify (set_icache_lock false) else panic "release".

(** ** Blocks *)

Definition readsb (d : Z) : M (fstate K) superblock :=
  bp ← io (bread d 1);
  x ← io (bdata bp);
  io (brelse bp);;
  mret (mkSb (word x 0) (word x 4) (word x 8)).

Definition bzero (d bno : Z) : M (fstate K) unit :=
  bp ← io (bread d bno);
  io (bstore bp (replicate (Z.to_nat BSIZE) 0));;
  io (bwrite bp);;
  io (brelse bp).

(** The byte and the mask of bit [bi]. *)
Definition bit_set (x : list Z) (bi : Z) : bool :=
  negb (Z.land (nth (Z.to_nat (bi / 8)) x 0) (Z.shiftl 1 (bi mod 8)) =? 0).
Definition upd_byte (x : list Z) (bi : Z) (f : Z -> Z -> Z) : list Z :=
  zset x (bi / 8) (f (nth (Z.to_nat (bi / 8)) x 0) (Z.shiftl 1 (bi mod 8)) mod 256).

(** The inner loop of [balloc]: the first clear bit. *)
Fixpoint find_clear (n : nat) (x : list Z) (bi : Z) : option Z :=
  match n with
  | O => None
  | S n => if negb (bit_set x bi) then Some bi else find_clear n x (bi + 1)
  end.

Fixpoint balloc_loop (fuel : nat) (d : Z) (sb : superblock) (b : Z) : M (fstate K) Z :=
  match fuel with
  | O => no_fuel
  | S fuel =>
      if u32 b <? size sb then
        bp ← io (bread d (u32 (BBLOCK b (ninodes sb))));
        x ← io (bdata bp);
        match find_clear (Z.to_nat BPB) x 0 with
        | Some bi =>
            io (bstore bp (upd_byte x bi Z.lor));;
            io (bwrite bp);;
            io (brelse bp);;
            mret (u32 (b + bi))
        | None => io (brelse bp);; balloc_loop fuel d sb (s32 (b + BPB))
        end
      else panic "balloc: out of blocks"
  end.
(** One turn per bitmap block. *)
Definition balloc (d : Z) : M (fstate K) Z :=
  sb ← readsb d; balloc_loop (Z.to_nat (size sb / BPB + 2)) d sb 0.

Definition bfree (d b : Z) : M (fstate K) unit :=
  bzero d b;;
  sb ← readsb d;
  bp ← io (bread d (u32 (BBLOCK b (ninodes sb))));
  x ← io (bdata bp);
  let bi := b mod BPB in
  if negb (bit_set x bi) then panic "freeing free block"
  else
    io (bstore bp (upd_byte x bi (fun v m => Z.land v (Z.lnot m))));;
    io (bwrite bp);;
    io (brelse bp).

(** ** Inodes *)

Definition iinit : M (fstate K) unit := modify (set_icache_lock false).

(** [iget]'s scan: the cached inode, and the first free slot. *)
Fixpoint icache_find (l : list inode) (k d n : Z) (empty : option Z) : option Z * option Z :=
  match l with
  | [] => (None, empty)
  | i :: l =>
      if (ref i >? 0) && (dev i =? d) && (inum i =? n) then (Some k, empty)
      else icache_find l (k + 1) d n
             (match empty with None => if ref i =? 0 then Some k else None | _ => empty end)
  end.

Definition iget (d n : Z) : M (fstate K) Z :=
  acquire_icache;;
  s ← get;
  match icache_find (icache s) 0 d n None with
  | (Some ip, _) =>
      ipmod ip (fun i => set_ref (s32 (ref i + 1)) i);;
      release_icache;;
      mret ip
  | (None, None) => panic "iget: no inodes"
  | (None, Some ip) =>
      ipmod ip (fun i => mkInode d n 1 0 (type i) (major i) (minor i) (nlink i) (isize i) (addrs i));;
      release_icache;;
      mret ip
  end.

Fixpoint ialloc_loop (fuel : nat) (d t : Z) (sb : superblock) (n : Z) : M (fstate K) Z :=
  match fuel with
  | O => no_fuel
  | S fuel =>
      if n <? ninodes sb then
        bp ← io (bread d (IBLOCK n));
        x ← io (bdata bp);
        let o := dinode_off n in
        if half x o =? 0 then
          io (bstore bp (splice o (to_le 2 t ++ replicate 62 0) x));;
          io (bwrite bp);;
          io (brelse bp);;
          iget d n
        else io (brelse bp);; ialloc_loop fuel d t sb (n + 1)
      else panic "ialloc: no inodes"
  end.
Definition ialloc (d t : Z) : M (fstate K) Z :=
  sb ← readsb d; ialloc_loop (S (Z.to_nat (ninodes sb))) d t sb 1.

Definition iupdate (ip : Z) : M (fstate K) unit :=
  i ← ipget ip;
  bp ← io (bread (dev i) (IBLOCK (inum i)));
  x ← io (bdata bp);
  io (bstore bp (splice (dinode_off (inum i)) (dinode_bytes i) x));;
  io (bwrite bp);;
  io (brelse bp).

Definition idup (ip : Z) : M (fstate K) Z :=
  acquire_icache;;
  ipmod ip (fun i => set_ref (s32 (ref i + 1)) i);;
  release_icache;;
  mret ip.

Definition ilock (ip : option Z) : M (fstate K) unit :=
  match ip with
  | None => panic "ilock"
  | Some ip =>
      i ← ipget ip;
      if ref i <? 1 then panic "ilock"
      else
        acquire_icache;;
        i ← ipget ip;
        if has I_BUSY i then blocked ip
        else
          ipmod ip (fun i => set_flags (Z.lor (flags i) I_BUSY) i);;
          release_icache;;
          i ← ipget ip;
          if has I_VALID i then mret tt
          else
            bp ← io (bread (dev i) (IBLOCK (inum i)));
            x ← io (bdata bp);
            ipmod ip (load_dinode x (dinode_off (inum i)));;
            io (brelse bp);;
            ipmod ip (fun i => set_flags (Z.lor (flags i) I_VALID) i);;
            i ← ipget ip;
            if type i =? 0 then panic "ilock: no type" else mret tt
  end.

(** [wakeup(ip)] only concerns other processes. *)
Definition iunlock (ip : option Z) : M (fstate K) unit :=
  match ip with
  | None => panic "iunlock"
  | Some ip =>
      i ← ipget ip;
      if negb (has I_BUSY i) || (ref i <? 1) then panic "iunlock"
      else
        acquire_icache;;
        ipmod ip (fun i => set_flags (Z.land (flags i) (Z.lnot I_BUSY)) i);;
        release_icache
  end.

(** *** Contents *)

Definition addr_at (i : inode) (k : Z) : Z := nth (Z.to_nat k) (addrs i) 0.
Definition set_addr (k v : Z) (i : inode) : inode := set_addrs (zset (addrs i) k v) i.
Definition ext_len (a : Z) : Z := Z.land a 255.
Definition ext_start (a : Z) : Z := Z.shiftr a 8.

(** The extent loop of [bmap]: the block's address, or the free slot and the
    extent that ends where the block would go (-1 for none). *)
Fixpoint ext_scan (n : nat) (i : inode) (bn k fillBlock neighborBlock : Z) : Z + Z * Z :=
  match n with
  | O => inr (fillBlock, neighborBlock)
  | S n =>
      let fillBlock := if (fillBlock =? -1) && (addr_at i k =? 0) then k else fillBlock in
      let length := ext_len (addr_at i k) in
      let first := addr_at i (k + 1) in
      if (bn >=? first) && (bn <? u32 (length + first)) then
        inl (u32 (ext_start (addr_at i k) + (bn - first)))
      else if bn =? u32 (length + first) then ext_scan n i bn (k + 2) fillBlock k
      else ext_scan n i bn (k + 2) fillBlock neighborBlock
  end.

(** [ip->addrs[-1]] is the word before the array, [ip->size]. *)
Definition neighbor_word (i : inode) (k : Z) : Z := if k <? 0 then isize i else addr_at i k.

Definition bmap_extent (ip bn : Z) : M (fstate K) Z :=
  i ← ipget ip;
  match ext_scan 6 i bn 0 (-1) (-1) with
  | inl addr => mret addr
  | inr (fillBlock, neighborBlock) =>
      addr ← balloc (dev i);
      let w := neighbor_word i neighborBlock in
      if (addr =? u32 (ext_start w + ext_len w)) && (neighborBlock >=? 0) then
        ipmod ip (fun i => set_addr neighborBlock (u32 (addr_at i neighborBlock + 1)) i);;
        mret addr
      else if fillBlock >=? 0 then
        ipmod ip (set_addr fillBlock (u32 (u32 (Z.shiftl addr 8) + 1)));;
        ipmod ip (set_addr (fillBlock + 1) bn);;
        mret addr
      else panic "bmap: out of range"
  end.

Definition bmap_table (ip bn : Z) : M (fstate K) Z :=
  i ← ipget ip;
  if bn <? NDIRECT then
    if addr_at i bn =? 0 then
      addr ← balloc (dev i);
      ipmod ip (set_addr bn addr);;
      mret addr
    else mret (addr_at i bn)
  else
    let bn := bn - NDIRECT in
    if bn <? NINDIRECT then
      addr ← (if addr_at i NDIRECT =? 0 then
                addr ← balloc (dev i);
                ipmod ip (set_addr NDIRECT addr);;
                mret addr
              else mret (addr_at i NDIRECT));
      bp ← io (bread (dev i) addr);
      a ← io (bdata bp);
      addr ← (if word a (4 * bn) =? 0 then
                addr ← balloc (dev i);
                a ← io (bdata bp);
                io (bstore bp (splice (4 * bn) (to_le 4 addr) a));;
                io (bwrite bp);;
                mret addr
              else mret (word a (4 * bn)));
      io (brelse bp);;
      mret addr
    else panic "bmap: out of range".

Definition bmap (ip bn : Z) : M (fstate K) Z :=
  i ← ipget ip;
  if type i =? T_EXTENT then bmap_extent ip bn else bmap_table ip bn.

(** The loops of [itrunc]. *)
Fixpoint free_run (n : nat) (d start j : Z) : M (fstate K) unit :=
  match n with
  | O => mret tt
  | S n => bfree d (u32 (start + j));; free_run n d start (j + 1)
  end.
Fixpoint trunc_extents (n : nat) (ip k : Z) : M (fstate K) unit :=
  match n with
  | O => mret tt
  | S n =>
      i ← ipget ip;
      free_run (Z.to_nat (ext_len (addr_at i k))) (dev i) (ext_start (addr_at i k)) 0;;
      ipmod ip (set_addr k 0);;
      ipmod ip (set_addr (k + 1) 0);;
      trunc_extents n ip (k + 2)
  end.
Fixpoint trunc_direct (n : nat) (ip k : Z) : M (fstate K) unit :=
  match n with
  | O => mret tt
  | S n =>
      i ← ipget ip;
      (if negb (addr_at i k =? 0) then
         bfree (dev i) (addr_at i k);; ipmod ip (set_addr k 0)
       else mret tt);;
      trunc_direct n ip (k + 1)
  end.
Fixpoint trunc_indirect (n : nat) (bp d j : Z) : M (fstate K) unit :=
  match n with
  | O => mret tt
  | S n =>
      a ← io (bdata bp);
      (if negb (word a (4 * j) =? 0) then bfree d (word a (4 * j)) else mret tt);;
      trunc_indirect n bp d (j + 1)
  end.

Definition itrunc (ip : Z) : M (fstate K) unit :=
  i ← ipget ip;
  (if type i =? T_EXTENT then trunc_extents 6 ip 0
   else
     trunc_direct 12 ip 0;;
     i ← ipget ip;
     if negb (addr_at i NDIRECT =? 0) then
       bp ← io (bread (dev i) (addr_at i NDIRECT));
       trunc_indirect 128 bp (dev i) 0;;
       io (brelse bp);;
       bfree (dev i) (addr_at i NDIRECT);;
       ipmod ip (set_addr NDIRECT 0)
     else mret tt);;
  ipmod ip (set_isize 0);;
  iupdate ip.

Definition iput (ip : Z) : M (fstate K) unit :=
  acquire_icache;;
  i ← ipget ip;
  (if (ref i =? 1) && has I_VALID i && (nlink i =? 0) then
     if has I_BUSY i then panic "iput busy"
     else
       ipmod ip (fun i => set_flags (Z.lor (flags i) I_BUSY) i);;
       release_icache;;
       itrunc ip;;
       ipmod ip (set_type 0);;
       iupdate ip;;
       acquire_icache;;
       ipmod ip (set_flags 0)
   else mret tt);;
  ipmod ip (fun i => set_ref (s32 (ref i - 1)) i);;
  release_icache.

Definition iunlockput (ip : Z) : M (fstate K) unit := iunlock (Some ip);; iput ip.

Definition stati (ip : Z) : M (fstate K) stat :=
  i ← ipget ip;
  mret (mkStat (type i) (dev i) (inum i) (nlink i) (isize i) (take 13 (addrs i))).

(** The transfer loops; a turn but the first and the last moves a whole block. *)
Fixpoint readi_loop (fuel : nat) (ip off n tot : Z) (acc : list Z) : M (fstate K) (list Z) :=
  match fuel with
  | O => no_fuel
  | S fuel =>
      if tot <? n then
        i ← ipget ip;
        addr ← bmap ip (off / BSIZE);
        bp ← io (bread (dev i) addr);
        let m := Z.min (n - tot) (BSIZE - off mod BSIZE) in
        x ← io (bdata bp);
        io (brelse bp);;
        readi_loop fuel ip (u32 (off + m)) n (tot + m) (acc ++ part (off mod BSIZE) m x)
      else mret acc
  end.
Definition io_fuel (n : Z) : nat := Z.to_nat (n / BSIZE + 3).

(** [readi]: the result and the bytes stored at [dst]. *)
Definition readi (ip off n : Z) : M (fstate K) (Z * list Z) :=
  i ← ipget ip;
  if type i =? T_DEV then
    if (major i <? 0) || (major i >=? NDEV) || negb (has_dev_read (major i)) then mret (-1, [])
    else io (dev_read (major i) ip (s32 n))
  else if (off >? isize i) || (u32 (off + n) <? off) then mret (-1, [])
  else
    let n := if u32 (off + n) >? isize i then isize i - off else n in
    x ← readi_loop (io_fuel n) ip off n 0 [];
    mret (s32 n, x).

Fixpoint writei_loop (fuel : nat) (ip : Z) (src : list Z) (off n tot : Z) : M (fstate K) Z :=
  match fuel with
  | O => no_fuel
  | S fuel =>
      if tot <? n then
        i ← ipget ip;
        addr ← bmap ip (off / BSIZE);
        bp ← io (bread (dev i) addr);
        let m := Z.min (n - tot) (BSIZE - off mod BSIZE) in
        x ← io (bdata bp);
        (if zlen src <? tot + m then undef "src" else mret tt);;
        io (bstore bp (splice (off mod BSIZE) (part tot m src) x));;
        io (bwrite bp);;
        io (brelse bp);;
        writei_loop fuel ip src (u32 (off + m)) n (tot + m)
      else mret off
  end.

Definition writei (ip : Z) (src : list Z) (off n : Z) : M (fstate K) Z :=
  i ← ipget ip;
  if type i =? T_DEV then
    if (major i <? 0) || (major i >=? NDEV) || negb (has_dev_write (major i)) then mret (-1)
    else io (dev_write (major i) ip src (s32 n))
  else if (off >? isize i) || (u32 (off + n) <? off) then mret (-1)
  else
    let n := if (u32 (off + n) >? MAXFILE * BSIZE) && negb (type i =? T_EXTENT)
             then u32 (MAXFILE * BSIZE - off) else n in
    off ← writei_loop (io_fuel n) ip src off n 0;
    i ← ipget ip;
    (if (n >? 0) && (off >? isize i) then ipmod ip (set_isize off);; iupdate ip else mret tt);;
    mret (s32 n).

(** ** Directories *)

(** [strncmp] and [strncpy] on C strings held apart: laid out in one memory. *)
Definition namecmp (s t : list Z) : M (fstate K) Z := fun st =>
  match CString.strncmp 0 (zlen s) DIRSIZ (s ++ t) with
  | Ret (r, _) => Ret (r, st)
  | _ => Undef "namecmp"
  end.
Definition copy_name (old src : list Z) : M (fstate K) (list Z) := fun st =>
  match CString.strncpy 0 (zlen old) DIRSIZ (old ++ src) with
  | Ret (_, m) => Ret (take (length old) m, st)
  | _ => Undef "strncpy"
  end.

(** The entries of one block: the first whose name matches. *)
Fixpoint dir_scan (n : nat) (x nm : list Z) (o : Z) : M (fstate K) (option (Z * Z)) :=
  match n with
  | O => mret None
  | S n =>
      if half x o =? 0 then dir_scan n x nm (o + 16)
      else
        c ← namecmp nm (part (o + 2) DIRSIZ x);
        if c =? 0 then mret (Some (o, half x o)) else dir_scan n x nm (o + 16)
  end.

Fixpoint dirlookup_loop (fuel : nat) (dp : Z) (nm : list Z) (off : Z) : M (fstate K) (option (Z * Z)) :=
  match fuel with
  | O => no_fuel
  | S fuel =>
      i ← ipget dp;
      if off <? isize i then
        addr ← bmap dp (off / BSIZE);
        bp ← io (bread (dev i) addr);
        x ← io (bdata bp);
        r ← dir_scan 32 x nm 0;
        io (brelse bp);;
        match r with
        | Some (o, n) =>
            ip ← iget (dev i) n;
            mret (Some (ip, u32 (off + o)))
        | None => dirlookup_loop fuel dp nm (u32 (off + BSIZE))
        end
      else mret None
  end.

(** [dirlookup]: the inode and, for a caller that asks, its entry's offset. *)
Definition dirlookup (dp : Z) (nm : list Z) : M (fstate K) (option (Z * Z)) :=
  i ← ipget dp;
  if negb (type i =? T_DIR) then panic "dirlookup not DIR"
  else dirlookup_loop (S (Z.to_nat (isize i / BSIZE + 1))) dp nm 0.

(** The free entry [dirlink] uses: its offset and what [de] holds then. *)
Fixpoint find_entry (fuel : nat) (dp off : Z) (de : list Z) : M (fstate K) (Z * list Z) :=
  match fuel with
  | O => no_fuel
  | S fuel =>
      i ← ipget dp;
      if u32 off <? isize i then
        rd ← readi dp (u32 off) 16;
        if negb (rd.1 =? 16) then panic "dirlink read"
        else if half rd.2 0 =? 0 then mret (off, rd.2)
        else find_entry fuel dp (s32 (off + 16)) rd.2
      else mret (off, de)
  end.

Definition dirlink (dp : Z) (nm : list Z) (n : Z) : M (fstate K) Z :=
  r ← dirlookup dp nm;
  match r with
  | Some (ip, _) => iput ip;; mret (-1)
  | None =>
      i ← ipget dp;
      fe ← find_entry (S (Z.to_nat (isize i / 16 + 1))) dp 0 (replicate 16 0);
      nm' ← copy_name (part 2 14 fe.2) nm;
      w ← writei dp (to_le 2 n ++ nm') (u32 fe.1) 16;
      if negb (w =? 16) then panic "dirlink" else mret 0
  end.

(** ** Paths *)

(** A path is the bytes of a C string without its terminator; a pointer into it
    is a suffix. *)
Definition slash : Z := 47.
Fixpoint skip_slashes (p : list Z) : list Z :=
  match p with
  | c :: p' => if c =? slash then skip_slashes p' else p
  | [] => []
  end.
Fixpoint element (p : list Z) : list Z * list Z :=
  match p with
  | c :: p' => if c =? slash then ([], p) else let '(e, r) := element p' in (c :: e, r)
  | [] => ([], [])
  end.

(** [skipelem]: the rest of the path and the new contents of [name]. *)
Definition skipelem (path nm : list Z) : option (list Z * list Z) :=
  match skip_slashes path with
  | [] => None
  | path =>
      let '(e, r) := element path in
      let nm' := if zlen e >=? DIRSIZ then take 14 e ++ drop 14 nm else e ++ [0] ++ drop (S (length e)) nm in
      Some (skip_slashes r, nm')
  end.

Fixpoint namex_loop (fuel : nat) (ip : Z) (path : list Z) (parent : bool) (nm : list Z)
    : M (fstate K) (option Z * list Z) :=
  match fuel with
  | O => no_fuel
  | S fuel =>
      match skipelem path nm with
      | None => if parent then iput ip;; mret (None, nm) else mret (Some ip, nm)
      | Some (path, nm) =>
          ilock (Some ip);;
          i ← ipget ip;
          if negb (type i =? T_DIR) then iunlockput ip;; mret (None, nm)
          else if parent && bool_decide (path = []) then iunlock (Some ip);; mret (Some ip, nm)
          else
            r ← dirlookup ip nm;
            match r with
            | None => iunlockput ip;; mret (None, nm)
            | Some (next, _) => iunlockput ip;; namex_loop fuel next path parent nm
            end
      end
  end.

(** Every element takes at least one byte of the path. *)
Definition namex (path : list Z) (parent : bool) (nm : list Z) : M (fstate K) (option Z * list Z) :=
  s ← get;
  ip ← (match path with
        | c :: _ => if c =? slash then iget ROOTDEV ROOTINO else idup (cwd s)
        | [] => idup (cwd s)
        end);
  namex_loop (S (length path)) ip path parent nm.

(** [name] is a local array of [namei], not initialised. *)
Definition namei (path nm : list Z) : M (fstate K) (option Z) :=
  r ← namex path false nm; mret r.1.
Definition nameiparent (path nm : list Z) : M (fstate K) (option Z * list Z) := namex path true nm.

End Fs.
End Fs.
