(* ===== verification/FsSpec.v ===== *)
(** Blocks and extents of the file system: allocation in the bitmap, and the
    block map of an extent-based file. *)
From S2P Require Import Prelude Bytes BlockDev CString Fs.
Import Fs.

(** ** Words in a row *)

Lemma words_part n x o m k : 0 <= k -> 0 <= o -> k + 4 * Z.of_nat n <= m -> words n (part o m x) k = words n x (o + k).
Proof.
  revert k. induction n as [|n IH]; intros k Hk Ho Hm; [done|]. cbn [words]. unfold word. rewrite part_part by lia. rewrite IH by lia. do 2 f_equal. lia.
Qed.
Lemma words_join pre l post : Forall in_u32 l -> words (length l) (pre ++ mjoin (to_le 4 <$> l) ++ post) (zlen pre) = l.
Proof.
  revert pre. induction l as [|v l IH]; intros pre HF; [done|]. apply Forall_cons in HF as [Hv HF]. change (mjoin (to_le 4 <$> v :: l)) with (to_le 4 v ++ mjoin (to_le 4 <$> l)).
  cbn [length words]. rewrite <- app_assoc. f_equal.
  - unfold word. assert (E : zlen (to_le 4 v) = 4) by (unfold zlen; by rewrite length_to_le). rewrite <- E at 1. rewrite part_mid. by apply le_to_le.
  - rewrite (app_assoc pre). replace (zlen pre + 4) with (zlen (pre ++ to_le 4 v)) by (rewrite zlen_app; unfold zlen; by rewrite length_to_le). by apply IH.
Qed.

(** ** Bits of a byte *)

Lemma land_bit v k : 0 <= k -> negb (Z.land v (Z.shiftl 1 k) =? 0) = Z.testbit v k.
Proof.
  intros Hk. rewrite Z.shiftl_1_l. destruct (Z.testbit v k) eqn:E.
  - destruct (Z.eqb_spec (Z.land v (2 ^ k)) 0) as [E0|]; [|done].
    assert (Z.testbit (Z.land v (2 ^ k)) k = true) as H by (by rewrite Z.land_spec, E, Z.pow2_bits_true).
    by rewrite E0, Z.bits_0 in H.
  - assert (Z.land v (2 ^ k) = 0) as ->; [|done]. apply Z.bits_inj'. intros j Hj.
    rewrite Z.land_spec, Z.bits_0. destruct (decide (j = k)) as [->|N]; [by rewrite E|].
    rewrite Z.pow2_bits_false by lia. apply andb_false_r.
Qed.

Lemma mod_bit v j : 0 <= j < 8 -> Z.testbit (v mod 256) j = Z.testbit v j.
Proof. intros Hj. change 256 with (2 ^ 8). apply Z.mod_pow2_bits_low. lia. Qed.

(** A bitmap block: 512 bytes. *)
Definition bitmap (x : list Z) : Prop := length x = 512%nat.

Lemma bit_set_spec x bi : 0 <= bi -> bit_set x bi = Z.testbit (nth (Z.to_nat (bi / 8)) x 0) (bi mod 8).
Proof. intros Hb. apply land_bit. apply Z.mod_pos_bound. lia. Qed.

Lemma nth_zset l i (v : Z) j :
  0 <= i < zlen l -> 0 <= j -> nth (Z.to_nat j) (zset l i v) 0 = if decide (j = i) then v else nth (Z.to_nat j) l 0.
Proof.
  intros Hi Hj. rewrite !nth_lookup. unfold zset, zlen in *. rewrite bool_decide_false by lia.
  destruct (decide (j = i)) as [->|N].
  - rewrite list_lookup_insert_eq by lia. done.
  - rewrite list_lookup_insert_ne by lia. done.
Qed.

Lemma same_bit bi bj : 0 <= bi -> 0 <= bj -> bi / 8 = bj / 8 -> bi mod 8 = bj mod 8 -> bi = bj.
Proof. intros. rewrite (Z.div_mod bi 8), (Z.div_mod bj 8) by lia. congruence. Qed.

(** Changing bit [bi] with [f], when [f] changes only that bit, to [r]. *)
Lemma bit_set_upd f r x bi bj :
  (forall v k j, 0 <= k < 8 -> 0 <= j < 8 -> Z.testbit (f v (Z.shiftl 1 k)) j = if decide (j = k) then r else Z.testbit v j) ->
  bitmap x -> 0 <= bi < BPB -> 0 <= bj ->
  bit_set (upd_byte x bi f) bj = if decide (bj = bi) then r else bit_set x bj.
Proof.
  intros Hf Hx Hi Hj. unfold BPB in Hi. rewrite !bit_set_spec by done. unfold upd_byte.
  assert (0 <= bi / 8 < 512) by (split; [apply Z.div_pos|apply Z.div_lt_upper_bound]; lia).
  rewrite nth_zset by (try apply Z.div_pos; unfold zlen; rewrite ?Hx; lia).
  pose proof (Z.mod_pos_bound bj 8). pose proof (Z.mod_pos_bound bi 8).
  destruct (decide (bj / 8 = bi / 8)) as [E|N].
  - rewrite mod_bit, Hf by lia. rewrite E.
    destruct (decide (bj mod 8 = bi mod 8)) as [E'|N'].
    + rewrite (decide_True (P := bj = bi)) by (apply same_bit; first [lia|done]). done.
    + rewrite decide_False by (intros ->; done). done.
  - rewrite decide_False by (intros ->; done). done.
Qed.

Lemma lor_bit v k j : 0 <= k < 8 -> 0 <= j < 8 ->
  Z.testbit (Z.lor v (Z.shiftl 1 k)) j = if decide (j = k) then true else Z.testbit v j.
Proof.
  intros Hk Hj. rewrite Z.lor_spec, Z.shiftl_1_l. destruct (decide (j = k)) as [->|N].
  - rewrite Z.pow2_bits_true by lia. apply orb_true_r.
  - rewrite Z.pow2_bits_false by lia. apply orb_false_r.
Qed.

Lemma ldiff_bit v k j : 0 <= k < 8 -> 0 <= j < 8 ->
  Z.testbit (Z.land v (Z.lnot (Z.shiftl 1 k))) j = if decide (j = k) then false else Z.testbit v j.
Proof.
  intros Hk Hj. rewrite Z.land_spec, Z.lnot_spec, Z.shiftl_1_l by lia. destruct (decide (j = k)) as [->|N].
  - rewrite Z.pow2_bits_true by lia. apply andb_false_r.
  - rewrite Z.pow2_bits_false by lia. apply andb_true_r.
Qed.

Lemma find_clear_spec n x bi :
  match find_clear n x bi with
  | Some r => bi <= r < bi + Z.of_nat n /\ bit_set x r = false /\ forall j, bi <= j < r -> bit_set x j = true
  | None => forall j, bi <= j < bi + Z.of_nat n -> bit_set x j = true
  end.
Proof.
  revert bi. induction n as [|n IH]; intros bi; cbn [find_clear]; [lia|].
  destruct (bit_set x bi) eqn:E; cbn [negb].
  - specialize (IH (bi + 1)). destruct (find_clear n x (bi + 1)) as [r|].
    + destruct IH as (H1 & H2 & H3). split; [lia|]. split; [done|]. intros j Hj.
      destruct (decide (j = bi)) as [->|]; [done|apply H3; lia].
    + intros j Hj. destruct (decide (j = bi)) as [->|]; [done|apply IH; lia].
  - split; [lia|]. split; [done|]. lia.
Qed.

Lemma length_upd_byte x bi f : length (upd_byte x bi f) = length x.
Proof. apply length_zset. Qed.

Section Blocks.
Context {K : Type} `{BlockLaws K} `{!DevSw K}.
Implicit Types (s : fstate K) (F : flat).

Definition with_disk (k : K) s : fstate K := mkF (icache s) (icache_lock s) (cwd s) k.

(** The file system's state, seen over the flat disk. *)
Definition at_ s F : Prop := shows (disk s) F.

Lemma with_disk_twice k k' s : with_disk k' (with_disk k s) = with_disk k' s.
Proof. done. Qed.
Lemma with_disk_id s : with_disk (disk s) s = s.
Proof. by destruct s. Qed.

Lemma wp_io {A} (m : M K A) Q s : wp m (fun a k => Q a (with_disk k s)) (disk s) -> wp (io m) Q s.
Proof. unfold wp, io. destruct (m (disk s)) as [[a k]| | | |]; auto. Qed.

(** Opening a block: the caller goes on with its bytes, holding it. *)
Lemma open_block {A} d n x (k : Z -> list Z -> M (fstate K) A) Q s F :
  at_ s F -> BlockDev.disk F !! (d, n) = Some x -> ~ is_open F (d, n) -> (base.size (opened F) < 10)%nat ->
  (forall bp c, opened F !! bp = None -> shows c (open_add bp (d, n, x) F) -> wp (k bp x) Q (with_disk c s)) ->
  wp (bp ← io (bread d n); x ← io (bdata bp); k bp x) Q s.
Proof.
  intros A0 Hx Ho Hs Hk. eapply wp_bind, wp_io, wp_mono; [by eapply bread_spec|].
  intros bp c [Hbp Sh]. eapply wp_bind, wp_io, wp_mono.
  - eapply bdata_spec; [exact Sh|]. apply lookup_insert_eq.
  - intros y c' [-> Sh']. rewrite with_disk_twice. auto.
Qed.

Lemma close_block {A} bp d n x (k : M (fstate K) A) Q s F :
  at_ s (open_add bp (d, n, x) F) -> opened F !! bp = None -> BlockDev.disk F !! (d, n) = Some x ->
  (forall c, shows c F -> wp k Q (with_disk c s)) ->
  wp (io (brelse bp);; k) Q s.
Proof.
  intros A0 Ho Hx Hk. eapply wp_bind, wp_io, wp_mono.
  - eapply brelse_spec; [exact A0|apply lookup_insert_eq|exact Hx].
  - intros [] c Sh. apply Hk. cbn in Sh. rewrite delete_insert_id in Sh by done. by destruct F.
Qed.

(** Changing the bytes of a held block, writing and releasing it. *)
Lemma save_block {A} bp d n x y (k : M (fstate K) A) Q s F :
  at_ s (open_add bp (d, n, x) F) -> opened F !! bp = None ->
  (forall c, shows c (set_block (d, n) y F) -> wp k Q (with_disk c s)) ->
  wp (io (bstore bp y);; io (bwrite bp);; io (brelse bp);; k) Q s.
Proof.
  intros A0 Ho Hk. eapply wp_bind, wp_io, wp_mono.
  { eapply bstore_spec; [exact A0|apply lookup_insert_eq]. }
  intros [] c Sh. eapply wp_bind, wp_io, wp_mono.
  { eapply bwrite_spec; [exact Sh|apply lookup_insert_eq]. }
  intros [] c' Sh'. eapply wp_bind, wp_io, wp_mono.
  { eapply brelse_spec; [exact Sh'|apply lookup_insert_eq|apply lookup_insert_eq]. }
  intros [] c'' Sh''. apply Hk. cbn in Sh''. rewrite insert_insert_eq, delete_insert_id in Sh'' by done. done.
Qed.


Lemma save_last bp d n x y Q s F :
  at_ s (open_add bp (d, n, x) F) -> opened F !! bp = None ->
  (forall c, shows c (set_block (d, n) y F) -> Q tt (with_disk c s)) ->
  wp (io (bstore bp y);; io (bwrite bp);; io (brelse bp)) Q s.
Proof.
  intros A0 Ho HQ.
  assert (wp (io (bstore bp y);; io (bwrite bp);; io (brelse bp);; mret tt) Q s) as W.
  { eapply save_block; [exact A0|exact Ho|]. intros c Sh. apply wp_ret. by apply HQ. }
  revert W. unfold wp, mbind, M_bind, mret, M_ret.
  destruct (io (bstore bp y) s) as [[[] s1]| | | |]; try done.
  destruct (io (bwrite bp) s1) as [[[] s2]| | | |]; try done.
  destruct (io (brelse bp) s2) as [[[] s3]| | | |]; done.
Qed.

(** ** The bitmap *)

(** Address of the bitmap block for block [b], and whether [b] is marked. *)
Definition map_at (d : Z) (sb : superblock) (b : Z) : Z * Z := (d, BBLOCK b (ninodes sb)).
Definition used (d : Z) (sb : superblock) F (b : Z) : bool :=
  match BlockDev.disk F !! map_at d sb b with
  | Some x => bit_set x (b mod BPB)
  | None => true
  end.

(** A volume on device [d] none of whose metadata is held: its superblock, and
    512 bytes for each bitmap block. *)
Record volume (d : Z) (sb : superblock) F : Prop := {
  v_sb : exists x, BlockDev.disk F !! (d, 1) = Some x /\ mkSb (word x 0) (word x 4) (word x 8) = sb;
  v_size : 0 <= size sb < 2 ^ 30;
  v_ninodes : 0 <= ninodes sb < 2 ^ 30;
  v_map b : 0 <= b < size sb -> exists x, BlockDev.disk F !! map_at d sb b = Some x /\ bitmap x;
  v_calm b : 0 <= b < size sb -> ~ is_open F (map_at d sb b);
  v_calm_sb : ~ is_open F (d, 1);
  v_room : (base.size (opened F) < 10)%nat
}.

(** Block numbers the bitmap covers: whole bitmap blocks, past the end too. *)
Definition covered (sb : superblock) (b : Z) : Prop := 0 <= b /\ b / BPB * BPB < size sb.

Lemma map_at_same d sb b bi : 0 <= bi < BPB -> b mod BPB = 0 -> map_at d sb (b + bi) = map_at d sb b.
Proof.
  intros Hbi Hb. unfold map_at, BBLOCK. do 2 f_equal. unfold BPB in *.
  rewrite (Z.div_mod b 4096) at 1 by lia. rewrite Hb, Z.add_0_r, Z.mul_comm, Z.div_add_l by lia.
  rewrite (Z.div_small bi) by lia. lia.
Qed.

Lemma map_at_inj d sb b c : map_at d sb b = map_at d sb c -> b / BPB = c / BPB.
Proof. unfold map_at, BBLOCK. intros [= E]. lia. Qed.

Lemma map_at_round d sb b : map_at d sb (b / BPB * BPB) = map_at d sb b.
Proof. unfold map_at, BBLOCK. by rewrite Z.div_mul by (unfold BPB; lia). Qed.

Lemma map_at_low d sb b : 0 <= b -> 0 <= ninodes sb -> map_at d sb b <> (d, 1).
Proof.
  unfold map_at, BBLOCK. intros Hb Hn [= E].
  pose proof (Z.div_pos b BPB Hb ltac:(unfold BPB; lia)).
  pose proof (Z.div_pos (ninodes sb) IPB Hn ltac:(unfold IPB; lia)). lia.
Qed.

Lemma covered_map d sb F b : volume d sb F -> covered sb b ->
  exists x, BlockDev.disk F !! map_at d sb b = Some x /\ bitmap x /\ ~ is_open F (map_at d sb b).
Proof.
  intros V [Hb Hc]. rewrite <- map_at_round.
  assert (0 <= b / BPB * BPB < size sb) as Hr.
  { split; [|done]. apply Z.mul_nonneg_nonneg; [|unfold BPB; lia]. apply Z.div_pos; [done|unfold BPB; lia]. }
  destruct (v_map _ _ _ V _ Hr) as (x & E & Hx). exists x. split; [done|]. split; [done|]. by apply (v_calm _ _ _ V).
Qed.

(** What writing a bitmap block does. *)
Definition marks (d : Z) (sb : superblock) (b : Z) (r : bool) F F' : Prop :=
  opened F' = opened F /\
  (forall c, covered sb c -> used d sb F' c = if decide (c = b) then r else used d sb F c) /\
  (forall a, (forall c, covered sb c -> a <> map_at d sb c) -> BlockDev.disk F' !! a = BlockDev.disk F !! a) /\
  volume d sb F'.

Lemma marks_upd d sb F b x f r :
  volume d sb F -> covered sb b -> BlockDev.disk F !! map_at d sb b = Some x ->
  (forall v k j, 0 <= k < 8 -> 0 <= j < 8 -> Z.testbit (f v (Z.shiftl 1 k)) j = if decide (j = k) then r else Z.testbit v j) ->
  marks d sb b r F (set_block (map_at d sb b) (upd_byte x (b mod BPB) f) F).
Proof.
  intros V Hb Ex Hf. destruct (covered_map _ _ _ _ V Hb) as (x' & Ex' & Hx & _).
  assert (x' = x) as -> by congruence.
  pose proof (Z.mod_pos_bound b BPB ltac:(unfold BPB; lia)) as Hm.
  split; [done|]. split.
  { intros c Hc. unfold used. cbn. destruct (decide (map_at d sb b = map_at d sb c)) as [E|N].
    - rewrite <- E, lookup_insert_eq, Ex. rewrite (bit_set_upd f r) by (try done; apply Z.mod_pos_bound; unfold BPB; lia).
      apply map_at_inj in E. destruct (decide (c = b)) as [->|N]; [by rewrite decide_True|].
      rewrite decide_False; [done|]. intros E'. apply N. rewrite (Z.div_mod c BPB), (Z.div_mod b BPB) by (unfold BPB; lia). congruence.
    - rewrite lookup_insert_ne by done. rewrite decide_False by congruence. done. }
  split.
  { intros a Ha. cbn. rewrite lookup_insert_ne; [done|]. intros <-. by eapply Ha. }
  destruct V as [Vsb Vs Vn Vm Vc Vcs Vr]. split; try done.
  - destruct Vsb as (y & Ey & Hy). exists y. split; [|done]. cbn. rewrite lookup_insert_ne; [done|].
    apply map_at_low; [apply Hb|lia].
  - intros c Hc. cbn. destruct (decide (map_at d sb b = map_at d sb c)) as [E|N].
    + rewrite <- E, lookup_insert_eq. eexists. split; [done|]. unfold bitmap. by rewrite length_upd_byte.
    + rewrite lookup_insert_ne by done. by apply Vm.
Qed.

Lemma readsb_spec d sb s F Q :
  at_ s F -> volume d sb F -> (forall c, shows c F -> Q sb (with_disk c s)) -> wp (readsb d) Q s.
Proof.
  intros A0 V HQ. destruct (v_sb _ _ _ V) as (x & Ex & <-). unfold readsb.
  eapply open_block; [exact A0|exact Ex|apply (v_calm_sb _ _ _ V)|apply (v_room _ _ _ V)|].
  intros bp c Hbp Sh. eapply close_block; [exact Sh|done|done|]. intros c' Sh'. apply wp_ret. by apply HQ.
Qed.

(** [b] is the first clear bit. *)
Definition first_free (d : Z) (sb : superblock) F (b : Z) : Prop :=
  covered sb b /\ used d sb F b = false /\ forall c, 0 <= c < b -> used d sb F c = true.

Lemma balloc_loop_spec d sb F b fuel k s Q :
  at_ s F -> volume d sb F -> first_free d sb F b -> 0 <= k -> k * BPB <= b -> b / BPB - k < Z.of_nat fuel ->
  (forall c F', marks d sb b true F F' -> shows c F' -> Q b (with_disk c s)) ->
  wp (balloc_loop fuel d sb (k * BPB)) Q s.
Proof.
  intros A0 V ((Hb0 & Hcov) & Hfree & Hleast) Hk Hkb Hf HQ.
  revert k s A0 Hk Hkb Hf HQ. induction fuel as [|fuel IH]; intros k s A0 Hk Hkb Hf HQ.
  { pose proof (Z.div_le_lower_bound b BPB k). unfold BPB in *. lia. }
  pose proof (v_size _ _ _ V) as Hsz. pose proof (v_ninodes _ _ _ V) as Hni.
  assert (Hkd : k <= b / BPB) by (apply Z.div_le_lower_bound; unfold BPB in *; lia).
  assert (Hks : k * BPB < size sb) by (unfold BPB in *; lia).
  assert (Hcv : covered sb (k * BPB)).
  { split; [unfold BPB; lia|]. by rewrite Z.div_mul by (unfold BPB; lia). }
  destruct (covered_map _ _ _ _ V Hcv) as (x & Ex & Hx & Hno). cbn [balloc_loop].
  rewrite u32_small by (unfold in_u32; unfold BPB in *; lia). rewrite (proj2 (Z.ltb_lt _ _) Hks).
  assert (u32 (BBLOCK (k * BPB) (ninodes sb)) = BBLOCK (k * BPB) (ninodes sb)) as ->.
  { apply u32_small. unfold in_u32, BBLOCK. rewrite Z.div_mul by (unfold BPB; lia).
    pose proof (Z.div_pos (ninodes sb) IPB). pose proof (Z.div_le_upper_bound (ninodes sb) IPB (ninodes sb)). unfold BPB, IPB in *. lia. }
  eapply open_block; [exact A0|exact Ex|exact Hno|apply (v_room _ _ _ V)|].
  intros bp c Hbp Sh. pose proof (find_clear_spec (Z.to_nat BPB) x 0) as Hfc.
  change (0 + Z.of_nat (Z.to_nat BPB)) with BPB in Hfc.
  assert (Hbit : forall j, 0 <= j < BPB -> used d sb F (k * BPB + j) = bit_set x j).
  { intros j Hj. unfold used. rewrite map_at_same, Ex by (try done; apply Z.mod_mul; unfold BPB; lia).
    f_equal. rewrite Z.add_comm, Z.mod_add, Z.mod_small by (unfold BPB in *; lia). done. }
  destruct (find_clear (Z.to_nat BPB) x 0) as [bi|].
  - destruct Hfc as (Hbi & Hclr & Hmin).
    assert (k * BPB + bi = b) as Eb.
    { destruct (Z.lt_trichotomy (k * BPB + bi) b) as [L|[?|L]]; [|done|].
      - rewrite <- Hbit, Hleast in Hclr by (unfold BPB in *; lia). done.
      - assert (used d sb F b = true) as U; [|congruence].
        replace b with (k * BPB + (b - k * BPB)) by lia. rewrite Hbit by lia. apply Hmin. lia. }
    eapply save_block; [exact Sh|done|]. intros c' Sh'. apply wp_ret.
    rewrite u32_small by (unfold in_u32; unfold BPB in *; lia). rewrite Eb, with_disk_twice.
    rewrite <- (map_at_same d sb (k * BPB) bi), Eb in Ex by (try lia; apply Z.mod_mul; unfold BPB; lia).
    assert (bi = b mod BPB) as Ebi.
    { rewrite <- Eb, Z.add_comm, Z.mod_add, Z.mod_small by (unfold BPB in *; lia). done. }
    eapply HQ; [|exact Sh'].
    change (d, BBLOCK (k * BPB) (ninodes sb)) with (map_at d sb (k * BPB)).
    rewrite <- (map_at_same d sb (k * BPB) bi), Eb by (try lia; apply Z.mod_mul; unfold BPB; lia).
    rewrite Ebi. apply marks_upd; try done. apply lor_bit.
  - eapply close_block; [exact Sh|done|done|]. intros c' Sh'. rewrite with_disk_twice.
    assert (b >= (k + 1) * BPB) as Hge.
    { destruct (Z_lt_ge_dec b ((k + 1) * BPB)) as [L|]; [|done].
      assert (used d sb F b = true) as U; [|congruence].
      replace b with (k * BPB + (b - k * BPB)) by lia. rewrite Hbit by (unfold BPB in *; lia). apply Hfc. unfold BPB in *. lia. }
    rewrite s32_small by (unfold in_s32; unfold BPB in *; lia).
    replace (k * BPB + BPB) with ((k + 1) * BPB) by lia. apply IH; try lia; [exact Sh'|].
    intros c'' F' Hm Sh''. rewrite with_disk_twice. by eapply HQ.
Qed.

Lemma balloc_spec d sb F b s Q :
  at_ s F -> volume d sb F -> first_free d sb F b ->
  (forall c F', marks d sb b true F F' -> shows c F' -> Q b (with_disk c s)) ->
  wp (balloc d) Q s.
Proof.
  intros A0 V Hff HQ. unfold balloc. eapply wp_bind, readsb_spec; [exact A0|exact V|].
  intros c Sh. pose proof Hff as ((Hb0 & Hb1) & _).
  eapply (balloc_loop_spec d sb F b _ 0); [exact Sh|exact V|exact Hff|lia|unfold BPB; lia| |].
  - pose proof (v_size _ _ _ V). rewrite Z2Nat.id.
    + enough (b / BPB <= size sb / BPB) by lia. apply Z.div_le_lower_bound; unfold BPB in *; lia.
    + pose proof (Z.div_pos (size sb) BPB). unfold BPB in *. lia.
  - intros c' F' Hm Sh'. rewrite with_disk_twice. by eapply HQ.
Qed.

(** A block that is neither the superblock nor in the bitmap. *)
Definition data_block (d : Z) (sb : superblock) (b : Z) : Prop :=
  b <> 1 /\ forall c, covered sb c -> (d, b) <> map_at d sb c.

Lemma volume_data d sb F b x : volume d sb F -> data_block d sb b -> volume d sb (set_block (d, b) x F).
Proof.
  intros [Vsb Vs Vn Vm Vc Vcs Vr] [Hb1 Hb]. split; try done.
  - destruct Vsb as (y & Ey & Hy). exists y. split; [|done]. cbn. rewrite lookup_insert_ne; [done|]. congruence.
  - intros c Hc. destruct (Vm c Hc) as (y & Ey & Hy). exists y. split; [|done]. cbn. rewrite lookup_insert_ne; [done|].
    rewrite <- map_at_round. apply Hb. split; [apply Z.mul_nonneg_nonneg; [apply Z.div_pos|]; unfold BPB; lia|].
    rewrite Z.div_mul by (unfold BPB; lia). pose proof (Z.mul_div_le c BPB). unfold BPB in *. lia.
Qed.

Lemma used_data d sb F b x c : data_block d sb b -> covered sb c -> used d sb (set_block (d, b) x F) c = used d sb F c.
Proof.
  intros [_ Hb] Hc. unfold used. cbn. rewrite lookup_insert_ne; [done|]. by apply Hb.
Qed.

Definition zeros : list Z := replicate (Z.to_nat BSIZE) 0.

Lemma bzero_spec d b x s F Q :
  at_ s F -> BlockDev.disk F !! (d, b) = Some x -> ~ is_open F (d, b) -> (base.size (opened F) < 10)%nat ->
  (forall c, shows c (set_block (d, b) zeros F) -> Q tt (with_disk c s)) -> wp (bzero d b) Q s.
Proof.
  intros A0 Hx Ho Hs HQ. unfold bzero. eapply wp_bind, wp_io, wp_mono; [by eapply bread_spec|].
  intros bp c [Hbp Sh].
  eapply save_last; [exact Sh|done|]. intros c' Sh'. rewrite with_disk_twice. by apply HQ.
Qed.

Lemma bblock_u32 d sb F b : volume d sb F -> covered sb b -> u32 (BBLOCK b (ninodes sb)) = BBLOCK b (ninodes sb).
Proof.
  intros V [Hb Hc]. pose proof (v_size _ _ _ V). pose proof (v_ninodes _ _ _ V).
  apply u32_small. unfold in_u32, BBLOCK.
  pose proof (Z.div_pos b BPB). pose proof (Z.div_pos (ninodes sb) IPB).
  pose proof (Z.div_le_upper_bound (ninodes sb) IPB (ninodes sb)). unfold BPB, IPB in *. lia.
Qed.

Lemma bfree_spec d sb F b x s Q :
  at_ s F -> volume d sb F -> covered sb b -> data_block d sb b -> used d sb F b = true ->
  BlockDev.disk F !! (d, b) = Some x -> ~ is_open F (d, b) ->
  (forall c F', marks d sb b false (set_block (d, b) zeros F) F' -> shows c F' -> Q tt (with_disk c s)) ->
  wp (bfree d b) Q s.
Proof.
  intros A0 V Hc Hd Hu Hx Ho HQ. unfold bfree.
  eapply wp_bind, bzero_spec; [exact A0|exact Hx|exact Ho|apply (v_room _ _ _ V)|]. intros c Sh.
  pose proof (volume_data _ _ _ _ zeros V Hd) as V1.
  eapply wp_bind, readsb_spec; [exact Sh|exact V1|]. intros c1 Sh1. rewrite with_disk_twice.
  rewrite (bblock_u32 _ _ _ _ V Hc).
  destruct (covered_map _ _ _ _ V1 Hc) as (y & Ey & Hy & Hno).
  assert (bit_set y (b mod BPB) = true) as Hbit.
  { rewrite <- (used_data d sb F b zeros b) in Hu by done. unfold used in Hu. by rewrite Ey in Hu. }
  eapply open_block; [exact Sh1|exact Ey|exact Hno|apply (v_room _ _ _ V1)|].
  intros bp c2 Hbp Sh2. rewrite Hbit. cbn [negb].
  eapply save_last; [exact Sh2|done|]. intros c3 Sh3. rewrite !with_disk_twice.
  eapply HQ; [|exact Sh3]. apply marks_upd; try done. apply ldiff_bit.
Qed.

(** C27: [balloc] returns the first clear block and marks it; freeing it again
    restores the bitmap exactly, leaves every other block of the disk alone and
    leaves the block zeroed. *)
Theorem balloc_bfree_roundtrip d sb F b x s :
  at_ s F -> volume d sb F -> first_free d sb F b -> data_block d sb b ->
  BlockDev.disk F !! (d, b) = Some x -> ~ is_open F (d, b) ->
  exists c F', (a ← balloc d; bfree d a;; mret a) s = Ret (b, with_disk c s) /\ shows c F' /\
    (forall a, covered sb a -> used d sb F' a = used d sb F a) /\
    BlockDev.disk F' !! (d, b) = Some zeros /\
    (forall a, a <> (d, b) -> (forall e, covered sb e -> a <> map_at d sb e) ->
       BlockDev.disk F' !! a = BlockDev.disk F !! a) /\
    volume d sb F'.
Proof.
  intros A0 V Hff Hd Hx Ho.
  assert (wp (a ← balloc d; bfree d a;; mret a) (fun r s' => r = b /\ exists c F', s' = with_disk c s /\ shows c F' /\
    (forall a, covered sb a -> used d sb F' a = used d sb F a) /\ BlockDev.disk F' !! (d, b) = Some zeros /\
    (forall a, a <> (d, b) -> (forall e, covered sb e -> a <> map_at d sb e) -> BlockDev.disk F' !! a = BlockDev.disk F !! a) /\
    volume d sb F') s) as W.
  { pose proof Hff as (Hc & Hfree & _).
    eapply wp_bind, balloc_spec; [exact A0|exact V|exact Hff|]. intros c F1 (Ho1 & Hu1 & Hd1 & V1) Sh1.
    eapply wp_bind, bfree_spec; [exact Sh1|exact V1|exact Hc|exact Hd| | | |].
    - rewrite Hu1 by done. by rewrite decide_True.
    - rewrite Hd1; [exact Hx|]. apply Hd.
    - unfold is_open. rewrite Ho1. exact Ho.
    - intros c2 F2 (Ho2 & Hu2 & Hd2 & V2) Sh2. apply wp_ret. split; [done|]. exists c2, F2. rewrite with_disk_twice.
      split; [done|]. split; [done|]. split; [|split; [|split; [|done]]].
      + intros a Ha. rewrite Hu2, used_data, Hu1 by done. destruct (decide (a = b)) as [->|]; [by rewrite Hfree|done].
      + rewrite Hd2 by apply Hd. cbn. apply lookup_insert_eq.
      + intros a Ha Hm. rewrite Hd2 by done. cbn. rewrite lookup_insert_ne by done. by apply Hd1. }
  apply wp_iff in W as (a & s' & E & -> & c & F' & -> & R). exists c, F'. done.
Qed.
End Blocks.

(** ** Extents *)

Definition ext_lookup (i : inode) (bn : Z) : option Z :=
  match ext_scan 6 i bn 0 (-1) (-1) with inl a => Some a | inr _ => None end.

(** The extent in slot [k]: it starts at logical block [first]. *)
Definition first (i : inode) (k : Z) : Z := addr_at i (k + 1).
Definition len (i : inode) (k : Z) : Z := ext_len (addr_at i k).
Definition inside (i : inode) (k bn : Z) : Prop := first i k <= bn < first i k + len i k.
Definition slot (k : Z) : Prop := k = 0 \/ k = 2 \/ k = 4 \/ k = 6 \/ k = 8 \/ k = 10.

(** Words that fit, with logical block numbers of files a 32-bit size can have. *)
Record addrs_ok (i : inode) : Prop := {
  ao_len : length (addrs i) = 13%nat;
  ao_word k : 0 <= addr_at i k < 2 ^ 32;
  ao_first k : slot k -> first i k < 2 ^ 23
}.

Lemma ext_len_range a : 0 <= ext_len a < 256.
Proof. unfold ext_len. change 255 with (Z.ones 8). rewrite Z.land_ones by lia. apply Z.mod_pos_bound. lia. Qed.
Lemma ext_start_range a : 0 <= a < 2 ^ 32 -> 0 <= ext_start a < 2 ^ 24.
Proof.
  intros Ha. unfold ext_start. rewrite Z.shiftr_div_pow2 by lia. split; [apply Z.div_pos; lia|].
  apply Z.div_lt_upper_bound; lia.
Qed.
Lemma ext_word a : a = 256 * ext_start a + ext_len a.
Proof.
  unfold ext_start, ext_len. change 255 with (Z.ones 8). rewrite Z.land_ones, Z.shiftr_div_pow2 by lia.
  apply Z.div_mod. lia.
Qed.
Lemma ext_make st l : 0 <= l < 256 -> ext_start (256 * st + l) = st /\ ext_len (256 * st + l) = l.
Proof.
  intros Hl. pose proof (ext_word (256 * st + l)) as E. pose proof (ext_len_range (256 * st + l)). lia.
Qed.

Lemma ext_scan_spec n i bn k fb nb :
  addrs_ok i -> 0 <= bn < 2 ^ 23 -> (forall m, 0 <= m < Z.of_nat n -> slot (k + 2 * m)) ->
  match ext_scan n i bn k fb nb with
  | inl a => exists m, 0 <= m < Z.of_nat n /\ inside i (k + 2 * m) bn /\
      a = ext_start (addr_at i (k + 2 * m)) + (bn - first i (k + 2 * m)) /\
      forall m', 0 <= m' < m -> ~ inside i (k + 2 * m') bn
  | inr (fb', nb') =>
      (forall m, 0 <= m < Z.of_nat n -> ~ inside i (k + 2 * m) bn) /\
      (fb' = fb \/ fb = -1 /\ exists m, 0 <= m < Z.of_nat n /\ fb' = k + 2 * m /\ addr_at i fb' = 0) /\
      (nb' = nb \/ exists m, 0 <= m < Z.of_nat n /\ nb' = k + 2 * m /\ bn = first i nb' + len i nb')
  end.
Proof.
  intros A Hbn. revert k fb nb. induction n as [|n IH]; intros k fb nb Hs; cbn [ext_scan].
  { split; [intros m Hm; lia|]. split; left; done. }
  pose proof (Hs 0 ltac:(lia)) as Hs0. rewrite Z.mul_0_r, Z.add_0_r in Hs0.
  pose proof (ao_first _ A k Hs0) as Hf. pose proof (ao_word _ A (k + 1)) as Hw. fold (first i k) in Hw.
  pose proof (ao_word _ A k) as Hwk. pose proof (ext_len_range (addr_at i k)) as Hl. pose proof (ext_start_range _ Hwk) as Hst.
  change (addr_at i (k + 1)) with (first i k). fold (len i k) in Hl |- *.
  rewrite (u32_small (len i k + first i k)) by (unfold in_u32; lia).
  assert (Hs' : forall m, 0 <= m < Z.of_nat n -> slot (k + 2 + 2 * m)).
  { intros m Hm. replace (k + 2 + 2 * m) with (k + 2 * (m + 1)) by lia. apply Hs. lia. }
  destruct ((bn >=? first i k) && (bn <? len i k + first i k)) eqn:Ein.
  { exists 0. rewrite Z.mul_0_r, Z.add_0_r. split; [lia|]. split; [unfold inside; lia|]. split; [|lia].
    apply u32_small. unfold in_u32. lia. }
  assert (Hout : ~ inside i k bn) by (unfold inside; lia).
  set (fb1 := if (fb =? -1) && (addr_at i k =? 0) then k else fb).
  assert (Hfb1 : fb1 = fb \/ fb = -1 /\ fb1 = k /\ addr_at i k = 0).
  { subst fb1. destruct ((fb =? -1) && (addr_at i k =? 0)) eqn:E; [right; lia|by left]. }
  assert (Step : forall nb1, (nb1 = nb \/ nb1 = k /\ bn = first i k + len i k) ->
    match ext_scan n i bn (k + 2) fb1 nb1 with
    | inl a => exists m, 0 <= m < Z.of_nat (S n) /\ inside i (k + 2 * m) bn /\
        a = ext_start (addr_at i (k + 2 * m)) + (bn - first i (k + 2 * m)) /\
        forall m', 0 <= m' < m -> ~ inside i (k + 2 * m') bn
    | inr (fb', nb') =>
        (forall m, 0 <= m < Z.of_nat (S n) -> ~ inside i (k + 2 * m) bn) /\
        (fb' = fb \/ fb = -1 /\ exists m, 0 <= m < Z.of_nat (S n) /\ fb' = k + 2 * m /\ addr_at i fb' = 0) /\
        (nb' = nb \/ exists m, 0 <= m < Z.of_nat (S n) /\ nb' = k + 2 * m /\ bn = first i nb' + len i nb')
    end).
  { intros nb1 Hnb1. specialize (IH (k + 2) fb1 nb1 Hs').
    assert (Sh : forall m, k + 2 + 2 * m = k + 2 * (m + 1)) by (intros; lia).
    destruct (ext_scan n i bn (k + 2) fb1 nb1) as [a|[fb' nb']].
    - destruct IH as (m & Hm & Hi & -> & Hmin). exists (m + 1). rewrite <- !Sh. split; [lia|]. split; [done|]. split; [done|].
      intros m' Hm'. destruct (decide (m' = 0)) as [->|]; [by rewrite Z.mul_0_r, Z.add_0_r|].
      replace (k + 2 * m') with (k + 2 + 2 * (m' - 1)) by lia. apply Hmin. lia.
    - destruct IH as (H1 & H2 & H3). split; [|split].
      + intros m Hm. destruct (decide (m = 0)) as [->|]; [by rewrite Z.mul_0_r, Z.add_0_r|].
        replace (k + 2 * m) with (k + 2 + 2 * (m - 1)) by lia. apply H1. lia.
      + destruct H2 as [->|(E & m & Hm & -> & Ha)].
        * destruct Hfb1 as [->|(-> & -> & Ha)]; [by left|]. right. split; [done|]. exists 0. rewrite Z.mul_0_r, Z.add_0_r. split; [lia|done].
        * destruct Hfb1 as [Hfb1|(-> & Hk & _)]; [|destruct Hs0; lia].
          right. split; [lia|]. exists (m + 1). rewrite <- Sh. split; [lia|done].
      + destruct H3 as [->|(m & Hm & -> & Hb)].
        * destruct Hnb1 as [->|[-> Hb]]; [by left|]. right. exists 0. rewrite Z.mul_0_r, Z.add_0_r. split; [lia|done].
        * right. exists (m + 1). rewrite <- Sh. split; [lia|done]. }
  destruct (bn =? len i k + first i k) eqn:En; apply Step; [right|left]; lia.
Qed.

Definition phys (i : inode) (k bn : Z) : Z := ext_start (addr_at i k) + (bn - first i k).

(** No logical block is in two extents. *)
Definition disjoint (i : inode) : Prop :=
  forall k k' bn, slot k -> slot k' -> inside i k bn -> inside i k' bn -> k = k'.

Lemma slot_index m : 0 <= m < Z.of_nat 6 -> slot (0 + 2 * m).
Proof. unfold slot. lia. Qed.
Lemma slot_of k : slot k -> exists m, 0 <= m < Z.of_nat 6 /\ k = 0 + 2 * m.
Proof.
  intros S. exists (k / 2). destruct S as [->|[->|[->|[->|[->| ->]]]]]; vm_compute; repeat split; congruence.
Qed.

Lemma ext_scan_slots i bn :
  addrs_ok i -> 0 <= bn < 2 ^ 23 ->
  match ext_scan 6 i bn 0 (-1) (-1) with
  | inl a => exists k, slot k /\ inside i k bn /\ a = phys i k bn
  | inr (fb, nb) =>
      (forall k, slot k -> ~ inside i k bn) /\
      (fb = -1 \/ slot fb /\ addr_at i fb = 0) /\
      (nb = -1 \/ slot nb /\ bn = first i nb + len i nb)
  end.
Proof.
  intros A Hbn. pose proof (ext_scan_spec 6 i bn 0 (-1) (-1) A Hbn slot_index) as R.
  destruct (ext_scan 6 i bn 0 (-1) (-1)) as [a|[fb nb]].
  - destruct R as (m & Hm & Hi & -> & _). exists (0 + 2 * m). split; [by apply slot_index|]. done.
  - destruct R as (R1 & R2 & R3). split; [|split].
    + intros k (m & Hm & ->)%slot_of. by apply R1.
    + destruct R2 as [?|(_ & m & Hm & -> & Ha)]; [by left|right]. split; [by apply slot_index|done].
    + destruct R3 as [?|(m & Hm & -> & Ha)]; [by left|right]. split; [by apply slot_index|done].
Qed.

Lemma ext_lookup_None i bn :
  addrs_ok i -> 0 <= bn < 2 ^ 23 -> (forall k, slot k -> ~ inside i k bn) <-> ext_lookup i bn = None.
Proof.
  intros A Hbn. unfold ext_lookup. pose proof (ext_scan_slots i bn A Hbn) as R.
  destruct (ext_scan 6 i bn 0 (-1) (-1)) as [a|[fb nb]].
  - destruct R as (k & Hk & Hi & _). split; [|done]. intros H. by destruct (H k Hk).
  - split; [done|]. intros _. apply R.
Qed.

Lemma ext_lookup_Some i bn a :
  addrs_ok i -> disjoint i -> 0 <= bn < 2 ^ 23 ->
  ext_lookup i bn = Some a <-> exists k, slot k /\ inside i k bn /\ a = phys i k bn.
Proof.
  intros A D Hbn. unfold ext_lookup. pose proof (ext_scan_slots i bn A Hbn) as R.
  destruct (ext_scan 6 i bn 0 (-1) (-1)) as [c|[fb nb]].
  - destruct R as (k & Hk & Hi & ->). split; [intros [= <-]; by exists k|].
    intros (k' & Hk' & Hi' & ->). by rewrite (D k k' bn Hk Hk' Hi Hi').
  - split; [done|]. destruct R as (R & _). intros (k & Hk & Hi & _). by destruct (R k Hk).
Qed.

(** A file of extents over the volume: its blocks are marked, are data blocks
    of the disk, and no two of its logical blocks share one. *)
Record ext_file (d : Z) (sb : superblock) (F : flat) (i : inode) : Prop := {
  ef_addrs : addrs_ok i;
  ef_disjoint : disjoint i;
  ef_used k bn : slot k -> inside i k bn ->
    let b := phys i k bn in
    covered sb b /\ data_block d sb b /\ used d sb F b = true /\ is_Some (BlockDev.disk F !! (d, b));
  ef_inj k bn k' bn' : slot k -> slot k' -> inside i k bn -> inside i k' bn' ->
    phys i k bn = phys i k' bn' -> bn = bn'
}.

Lemma slot_range k : slot k -> 0 <= k < 12.
Proof. unfold slot. lia. Qed.
Lemma slot_even k k' : slot k -> slot k' -> k + 1 <> k'.
Proof. unfold slot. lia. Qed.

Lemma addr_at_set i k v j :
  length (addrs i) = 13%nat -> 0 <= k < 13 -> 0 <= j -> addr_at (set_addr k v i) j = if decide (j = k) then v else addr_at i j.
Proof. intros L Hk Hj. unfold addr_at, set_addr. cbn. apply nth_zset; [unfold zlen; lia|done]. Qed.

Lemma addr_at_neg i k : k < 0 -> addr_at i k = addr_at i 0.
Proof. intros Hk. unfold addr_at. f_equal. lia. Qed.

(** Adding logical block [bn], held by block [b], to the file: some slot comes
    to hold it and every slot keeps what it held. *)
Record ext_grows (i i' : inode) (bn b : Z) : Prop := {
  eg_addrs : addrs_ok i';
  eg_slot : exists k, slot k /\ inside i' k bn /\ phys i' k bn = b /\ forall k', slot k' -> inside i' k' bn -> k' = k;
  eg_keep k c : slot k -> c <> bn -> inside i' k c <-> inside i k c;
  eg_phys k c : slot k -> inside i k c -> phys i' k c = phys i k c
}.

Lemma ext_file_grows d sb F F' i i' bn b :
  ext_file d sb F i -> ext_grows i i' bn b -> marks d sb b true F F' ->
  covered sb b -> data_block d sb b -> used d sb F b = false -> is_Some (BlockDev.disk F !! (d, b)) ->
  (forall k, slot k -> ~ inside i k bn) ->
  ext_file d sb F' i'.
Proof.
  intros [A D U I] [A' (k0 & Hk0 & Hi0 & Hp0 & Hu0) Keep Phys] (_ & Hm & Hd & _) Hc Hdata Hfree Hdisk Hnew.
  assert (Hcase : forall k c, slot k -> inside i' k c -> c = bn /\ k = k0 \/ c <> bn /\ inside i k c).
  { intros k c Hk Hi. destruct (decide (c = bn)) as [->|N]; [left|right; split; [done|by apply Keep]]. auto. }
  constructor.
  - done.
  - intros k k' c Hk Hk' Hi Hi'. destruct (Hcase _ _ Hk Hi) as [[-> ->]|[N Hi1]], (Hcase _ _ Hk' Hi') as [[E ->]|[N' Hi2]]; try done.
    by apply (D k k' c).
  - intros k c Hk Hi. cbv zeta. destruct (Hcase _ _ Hk Hi) as [[-> ->]|[N Hi1]].
    + rewrite Hp0. split; [done|]. split; [done|]. rewrite Hm by done. rewrite decide_True by done. split; [done|].
      rewrite Hd by apply Hdata. done.
    + rewrite Phys by done. destruct (U k c Hk Hi1) as (U1 & U2 & U3 & U4). split; [done|]. split; [done|].
      rewrite Hm by done. split; [by destruct (decide _)|]. rewrite Hd by apply U2. done.
  - intros k c k' c' Hk Hk' Hi Hi' E.
    destruct (Hcase _ _ Hk Hi) as [[-> ->]|[N Hi1]], (Hcase _ _ Hk' Hi') as [[-> ->]|[N' Hi2]]; [done| | |].
    + exfalso. rewrite Hp0, Phys in E by done. destruct (U k' c' Hk' Hi2) as (_ & _ & U3 & _). rewrite <- E in U3. congruence.
    + exfalso. rewrite Hp0, Phys in E by done. destruct (U k c Hk Hi1) as (_ & _ & U3 & _). rewrite E in U3. congruence.
    + rewrite !Phys in E by done. by apply (I k c k' c').
Qed.

(** Extending the extent that ends at [bn]. *)
Lemma grow_neighbor i bn b nb :
  addrs_ok i -> 0 <= bn < 2 ^ 23 - 1 -> slot nb -> bn = first i nb + len i nb -> len i nb < 255 ->
  b = ext_start (addr_at i nb) + len i nb -> (forall k, slot k -> ~ inside i k bn) ->
  ext_grows i (set_addr nb (u32 (addr_at i nb + 1)) i) bn b.
Proof.
  intros A Hbn Hs Eb Hl Ebb Hnew. pose proof (slot_range _ Hs) as Hr. pose proof (ao_len _ A) as HL.
  pose proof (ao_word _ A nb) as Hw. pose proof (ext_word (addr_at i nb)) as Ew.
  pose proof (ext_len_range (addr_at i nb)) as Hlr. fold (len i nb) in Ew, Hlr.
  set (st := ext_start (addr_at i nb)) in *.
  assert (Hst : 0 <= st < 2 ^ 24) by (apply ext_start_range; lia).
  assert (Ev : u32 (addr_at i nb + 1) = 256 * st + (len i nb + 1)) by (rewrite u32_small; unfold in_u32; lia).
  destruct (ext_make st (len i nb + 1)) as [Es' El']; [lia|]. rewrite Ev. set (v := 256 * st + (len i nb + 1)) in *.
  assert (Hat : forall j, 0 <= j -> addr_at (set_addr nb v i) j = if decide (j = nb) then v else addr_at i j)
    by (intros; apply addr_at_set; lia).
  assert (Hfirst : forall k, slot k -> first (set_addr nb v i) k = first i k).
  { intros k Hk. unfold first. pose proof (slot_range _ Hk). rewrite Hat by lia. rewrite decide_False; [done|].
    by apply slot_even. }
  assert (Hlen : forall k, slot k -> len (set_addr nb v i) k = if decide (k = nb) then len i nb + 1 else len i k).
  { intros k Hk. unfold len at 1. pose proof (slot_range _ Hk). rewrite Hat by lia. by destruct (decide (k = nb)). }
  assert (Hstart : forall k, slot k -> ext_start (addr_at (set_addr nb v i) k) = ext_start (addr_at i k)).
  { intros k Hk. pose proof (slot_range _ Hk). rewrite Hat by lia. destruct (decide (k = nb)) as [->|]; [done|done]. }
  constructor.
  - constructor.
    + unfold set_addr. cbn. by rewrite length_zset.
    + intros k. destruct (Z_lt_ge_dec k 0); [rewrite addr_at_neg by lia|]; rewrite Hat by lia;
        (destruct (decide _); [subst v; lia|apply (ao_word _ A)]).
    + intros k Hk. rewrite Hfirst by done. by apply (ao_first _ A).
  - exists nb. split; [done|]. unfold inside, phys. rewrite Hfirst, Hlen, Hstart by done. rewrite decide_True by done.
    split; [lia|]. split; [fold st; lia|]. intros k Hk. rewrite Hfirst, Hlen by done.
    destruct (decide (k = nb)); [done|]. intros Hi. exfalso. apply (Hnew k Hk). unfold inside. lia.
  - intros k c Hk Hc. unfold inside. rewrite Hfirst, Hlen by done. destruct (decide (k = nb)) as [->|]; lia.
  - intros k c Hk _. unfold phys. by rewrite Hfirst, Hstart.
Qed.

(** Starting a new extent in a free slot. *)
Lemma grow_fresh i bn b fb :
  addrs_ok i -> 0 <= bn < 2 ^ 23 -> slot fb -> addr_at i fb = 0 -> 0 <= b < 2 ^ 24 ->
  (forall k, slot k -> ~ inside i k bn) ->
  ext_grows i (set_addr (fb + 1) bn (set_addr fb (u32 (u32 (Z.shiftl b 8) + 1)) i)) bn b.
Proof.
  intros A Hbn Hs Ez Hb Hnew. pose proof (slot_range _ Hs) as Hr. pose proof (ao_len _ A) as HL.
  rewrite Z.shiftl_mul_pow2 by lia. rewrite (u32_small (b * 2 ^ 8)), u32_small by (unfold in_u32; lia).
  replace (b * 2 ^ 8 + 1) with (256 * b + 1) by lia. destruct (ext_make b 1) as [Es El]; [lia|].
  set (v := 256 * b + 1) in *. set (i' := set_addr (fb + 1) bn (set_addr fb v i)).
  assert (Hat : forall j, 0 <= j -> addr_at i' j = if decide (j = fb + 1) then bn else if decide (j = fb) then v else addr_at i j).
  { intros j Hj. subst i'. rewrite addr_at_set by (unfold set_addr; cbn; rewrite ?length_zset; lia). by rewrite addr_at_set by lia. }
  assert (Hold : len i fb = 0) by (unfold len; by rewrite Ez).
  assert (Hfirst : forall k, slot k -> first i' k = if decide (k = fb) then bn else first i k).
  { intros k Hk. unfold first. pose proof (slot_range _ Hk). rewrite Hat by lia.
    destruct (decide (k = fb)) as [->|N]; [by rewrite decide_True|]. rewrite decide_False by lia.
    rewrite decide_False; [done|]. by apply slot_even. }
  assert (Hword : forall k, slot k -> addr_at i' k = if decide (k = fb) then v else addr_at i k).
  { intros k Hk. pose proof (slot_range _ Hk). rewrite Hat by lia. rewrite decide_False; [done|].
    intros E. by apply (slot_even _ _ Hs Hk). }
  constructor.
  - constructor.
    + subst i'. unfold set_addr. cbn. by rewrite !length_zset.
    + intros k. destruct (Z_lt_ge_dec k 0); [rewrite addr_at_neg by lia|]; rewrite Hat by lia;
        (repeat destruct (decide _); [lia|subst v; lia|apply (ao_word _ A)]).
    + intros k Hk. rewrite Hfirst by done. destruct (decide _); [lia|by apply (ao_first _ A)].
  - exists fb. split; [done|]. unfold inside, phys, len. rewrite !Hfirst, !Hword by done. rewrite !decide_True by done.
    split; [lia|]. split; [lia|]. intros k Hk. rewrite Hfirst, Hword by done.
    destruct (decide (k = fb)); [done|]. intros Hi. exfalso. apply (Hnew k Hk). unfold inside, len. lia.
  - intros k c Hk Hc. unfold inside, len. rewrite Hfirst, Hword by done. destruct (decide (k = fb)) as [->|]; [|done].
    fold (len i fb). lia.
  - intros k c Hk Hi. unfold phys. rewrite Hfirst, Hword by done. destruct (decide (k = fb)) as [->|]; [|done].
    unfold inside in Hi. lia.
Qed.

(** With a free slot, the scan reports one. *)
Lemma ext_scan_free n i bn k fb nb fb' nb' :
  ext_scan n i bn k fb nb = inr (fb', nb') -> 0 <= k -> -1 <= fb ->
  -1 <= fb' /\ (0 <= fb -> 0 <= fb') /\ ((exists m, 0 <= m < Z.of_nat n /\ addr_at i (k + 2 * m) = 0) -> 0 <= fb').
Proof.
  revert k fb nb. induction n as [|n IH]; intros k fb nb; cbn [ext_scan].
  { intros [= <- _] Hk Hf. split; [done|]. split; [done|]. intros (m & Hm & _). lia. }
  set (fb1 := if (fb =? -1) && (addr_at i k =? 0) then k else fb). intros E Hk Hf.
  assert (Hf1 : -1 <= fb1 /\ (0 <= fb -> 0 <= fb1) /\ (addr_at i k = 0 -> 0 <= fb1)).
  { subst fb1. destruct ((fb =? -1) && (addr_at i k =? 0)) eqn:Ec; lia. }
  clearbody fb1. destruct (_ && _) in E; [done|].
  assert (-1 <= fb' /\ (0 <= fb1 -> 0 <= fb') /\
    ((exists m, 0 <= m < Z.of_nat n /\ addr_at i (k + 2 + 2 * m) = 0) -> 0 <= fb')) as (R1 & R2 & R3).
  { destruct (bn =? _) in E; (eapply IH; [exact E|lia|lia]). }
  split; [done|]. split; [tauto|]. intros (m & Hm & Ha). destruct (decide (m = 0)) as [->|N].
  - rewrite Z.mul_0_r, Z.add_0_r in Ha. tauto.
  - apply R3. exists (m - 1). split; [lia|]. by replace (k + 2 + 2 * (m - 1)) with (k + 2 * m) by lia.
Qed.

(** An extent that ends at [bn] is noticed. *)
Lemma ext_scan_last n i bn k fb nb :
  addrs_ok i -> 0 <= bn < 2 ^ 23 -> (forall m, 0 <= m < Z.of_nat n -> slot (k + 2 * m)) ->
  match ext_scan n i bn k fb nb with
  | inl _ => True
  | inr (_, nb') => nb' = -1 -> forall m, 0 <= m < Z.of_nat n -> bn <> first i (k + 2 * m) + len i (k + 2 * m)
  end.
Proof.
  intros A Hbn. revert k fb nb. induction n as [|n IH]; intros k fb nb Hs; cbn [ext_scan]; [lia|].
  pose proof (Hs 0 ltac:(lia)) as Hs0. rewrite Z.mul_0_r, Z.add_0_r in Hs0.
  pose proof (ao_first _ A k Hs0) as Hf. pose proof (ao_word _ A (k + 1)) as Hw. fold (first i k) in Hw.
  pose proof (ext_len_range (addr_at i k)) as Hl.
  change (addr_at i (k + 1)) with (first i k). fold (len i k) in Hl |- *.
  rewrite (u32_small (len i k + first i k)) by (unfold in_u32; lia).
  destruct (_ && _); [done|].
  assert (Hs' : forall m, 0 <= m < Z.of_nat n -> slot (k + 2 + 2 * m)).
  { intros m Hm. replace (k + 2 + 2 * m) with (k + 2 * (m + 1)) by lia. apply Hs. lia. }
  assert (Keep : forall n fb nb k, 0 <= nb -> 0 <= k -> match ext_scan n i bn k fb nb with inl _ => True | inr (_, nb') => 0 <= nb' end).
  { clear. induction n as [|n IH]; intros fb nb k Hn Hk; cbn [ext_scan]; [done|].
    destruct (_ && _); [done|]. destruct (bn =? _); apply IH; lia. }
  pose proof (slot_range _ Hs0) as Hr. set (fb1 := if (fb =? -1) && _ then k else fb). clearbody fb1.
  destruct (bn =? len i k + first i k) eqn:En.
  - pose proof (Keep n fb1 k (k + 2) ltac:(lia) ltac:(lia)) as Kp. destruct (ext_scan n i bn (k + 2) fb1 k) as [|[fb' nb']]; [done|]. lia.
  - specialize (IH (k + 2) fb1 nb Hs'). destruct (ext_scan n i bn (k + 2) fb1 nb) as [|[fb' nb']]; [done|].
    intros Hnb m Hm. destruct (decide (m = 0)) as [->|]; [rewrite Z.mul_0_r, Z.add_0_r; lia|].
    replace (k + 2 * m) with (k + 2 + 2 * (m - 1)) by lia. apply IH; [done|lia].
Qed.

Lemma grows_lookup i i' bn b c :
  addrs_ok i -> disjoint i -> disjoint i' -> ext_grows i i' bn b -> 0 <= c < 2 ^ 23 -> c <> bn ->
  ext_lookup i' c = ext_lookup i c.
Proof.
  intros A D D' G Hc N. destruct (ext_lookup i c) as [a|] eqn:E.
  - apply ext_lookup_Some in E as (k & Hk & Hi & ->); [|done..].
    apply ext_lookup_Some; [by apply (eg_addrs _ _ _ _ G)|done|done|]. exists k. split; [done|].
    split; [by apply (eg_keep _ _ _ _ G)|]. by rewrite (eg_phys _ _ _ _ G).
  - pose proof (proj2 (ext_lookup_None i c A Hc) E) as Hn. apply ext_lookup_None; [by apply (eg_addrs _ _ _ _ G)|done|].
    intros k Hk Hi. apply (eg_keep _ _ _ _ G) in Hi; [|done..]. by apply (Hn k).
Qed.

Lemma grows_new i i' bn b :
  disjoint i' -> ext_grows i i' bn b -> 0 <= bn < 2 ^ 23 -> ext_lookup i' bn = Some b.
Proof.
  intros D' G Hbn. apply ext_lookup_Some; [by apply (eg_addrs _ _ _ _ G)|done|done|].
  destruct (eg_slot _ _ _ _ G) as (k & Hk & Hi & <- & _). by exists k.
Qed.

Section Extents.
Context {K : Type} `{BlockLaws K} `{!DevSw K}.
Implicit Types (s : fstate K) (F : flat).

Lemma wp_ipget ip i s Q : zget (icache s) ip = Some i -> Q i s -> wp (ipget ip) Q s.
Proof. intros E HQ. unfold ipget. eapply wp_bind, wp_get. rewrite E. by apply wp_deref. Qed.

Lemma wp_ipmod ip i f s Q :
  zget (icache s) ip = Some i -> Q tt (set_icache (zset (icache s) ip (f i)) s) -> wp (ipmod ip f) Q s.
Proof. intros E HQ. unfold ipmod. eapply wp_bind, wp_ipget; [exact E|]. by apply wp_modify. Qed.

(** [ip]'s slot of the inode cache replaced, and the disk. *)
Definition put_inode (ip : Z) (i : inode) (c : K) s : fstate K :=
  mkF (zset (icache s) ip i) (icache_lock s) (cwd s) c.

(** What [bmap] may do to an extent file when it has to allocate. *)
Definition room (i : inode) (bn : Z) : Prop :=
  (exists k, slot k /\ addr_at i k = 0) /\ forall k, slot k -> bn = first i k + len i k -> len i k < 255.

Lemma bmap_hit ip i bn a s Q :
  zget (icache s) ip = Some i -> type i = T_EXTENT -> ext_lookup i bn = Some a -> Q a s -> wp (bmap ip bn) Q s.
Proof.
  intros Ei Ht El HQ. unfold bmap. eapply wp_bind, wp_ipget; [exact Ei|]. rewrite Ht, Z.eqb_refl.
  unfold bmap_extent. eapply wp_bind, wp_ipget; [exact Ei|]. unfold ext_lookup in El.
  destruct (ext_scan 6 i bn 0 (-1) (-1)) as [a'|[fb nb]]; [|done]. injection El as ->. by apply wp_ret.
Qed.

Lemma bmap_grow sb F b bn s ip i Q :
  at_ s F -> volume (dev i) sb F -> ext_file (dev i) sb F i -> type i = T_EXTENT -> zget (icache s) ip = Some i ->
  0 <= bn < 2 ^ 23 - 1 -> ext_lookup i bn = None -> room i bn ->
  first_free (dev i) sb F b -> data_block (dev i) sb b -> b < 2 ^ 24 -> is_Some (BlockDev.disk F !! (dev i, b)) ->
  (forall l c F', let i' := set_addrs l i in
     shows c F' -> marks (dev i) sb b true F F' -> ext_grows i i' bn b -> ext_file (dev i) sb F' i' ->
     Q b (put_inode ip i' c s)) ->
  wp (bmap ip bn) Q s.
Proof.
  intros A0 V EF Ht Ei Hbn Hnone [Hfreeslot Hroom] Hff Hdata Hb Hdisk HQ.
  pose proof (ef_addrs _ _ _ _ EF) as A. pose proof (ext_scan_slots i bn A ltac:(lia)) as R.
  unfold bmap. eapply wp_bind, wp_ipget; [exact Ei|]. rewrite Ht, Z.eqb_refl.
  unfold bmap_extent. eapply wp_bind, wp_ipget; [exact Ei|]. unfold ext_lookup in Hnone.
  destruct (ext_scan 6 i bn 0 (-1) (-1)) as [a'|[fb nb]] eqn:Escan; [done|]. destruct R as (Hnew & Hfb & Hnb).
  destruct (ext_scan_free _ _ _ _ _ _ _ _ Escan) as (_ & _ & Hfb0); [lia|lia|].
  destruct Hfb as [->|[Hsf Haf]].
  { exfalso. assert (0 <= -1); [|lia]. apply Hfb0. destruct Hfreeslot as (k & (m & Hm & ->)%slot_of & Hz). by exists m. }
  pose proof (slot_range _ Hsf) as Hrf. pose proof (zget_Some_range _ _ _ Ei) as Hri.
  pose proof Hff as (Hcov & Hfree & _). pose proof (proj1 Hcov) as Hb0.
  eapply wp_bind, balloc_spec; [exact A0|exact V|exact Hff|]. intros c F' Hm Sh.
  assert (Fin : forall i', ext_grows i i' bn b -> ext_file (dev i) sb F' i') by (intros; by eapply ext_file_grows).
  destruct ((b =? u32 (ext_start (neighbor_word i nb) + ext_len (neighbor_word i nb))) && (nb >=? 0)) eqn:Ec.
  - apply andb_true_iff in Ec as [Eb Enb%Z.geb_le]. destruct Hnb as [->|[Hsn Hbnb]]; [lia|].
    unfold neighbor_word in Eb. assert ((nb <? 0) = false) as En0 by lia. rewrite En0 in Eb.
    assert (G : ext_grows i (set_addr nb (u32 (addr_at i nb + 1)) i) bn b).
    { apply grow_neighbor; try done. { by apply Hroom. }
      apply Z.eqb_eq in Eb. rewrite u32_small in Eb; [done|].
      pose proof (ext_start_range _ (ao_word _ A nb)). pose proof (ext_len_range (addr_at i nb)). unfold in_u32. lia. }
    eapply wp_bind, wp_ipmod; [exact Ei|]. apply wp_ret. exact (HQ _ c F' Sh Hm G (Fin _ G)).
  - assert ((fb >=? 0) = true) as -> by lia.
    assert (G : ext_grows i (set_addr (fb + 1) bn (set_addr fb (u32 (u32 (Z.shiftl b 8) + 1)) i)) bn b).
    { apply grow_fresh; try done; lia. }
    eapply wp_bind, wp_ipmod; [exact Ei|].
    eapply wp_bind, wp_ipmod; [cbn; apply zget_zset_eq; lia|]. apply wp_ret.
    pose proof (HQ _ c F' Sh Hm G (Fin _ G)) as HQ'. unfold put_inode in HQ'. unfold set_icache, with_disk. cbn.
    rewrite zset_zset. exact HQ'.
Qed.

(** C18: [bmap] of a logical block an extent file does not have yet, when the
    file has room for it ([room]: a slot for an extent is free, and an extent
    that ends right before the block holds fewer than 255 blocks; with 255 the
    file is corrupted, [bmap_full_extent_lost]), allocates the first free block
    and maps the block there, in an extent it extends or in a fresh one: no other
    block's mapping changes, the file's mapping stays injective, and a second
    call returns the same block without allocating. *)
Theorem bmap_extent_allocates sb F b bn s ip i :
  at_ s F -> volume (dev i) sb F -> ext_file (dev i) sb F i -> type i = T_EXTENT -> zget (icache s) ip = Some i ->
  0 <= bn < 2 ^ 23 - 1 -> ext_lookup i bn = None -> room i bn ->
  first_free (dev i) sb F b -> data_block (dev i) sb b -> b < 2 ^ 24 -> is_Some (BlockDev.disk F !! (dev i, b)) ->
  exists s' i' F', bmap ip bn s = Ret (b, s') /\ zget (icache s') ip = Some i' /\
    ext_lookup i' bn = Some b /\ (forall c, 0 <= c < 2 ^ 23 -> c <> bn -> ext_lookup i' c = ext_lookup i c) /\
    at_ s' F' /\ marks (dev i) sb b true F F' /\ ext_file (dev i) sb F' i' /\ bmap ip bn s' = Ret (b, s').
Proof.
  intros A0 V EF Ht Ei Hbn Hnone Hroom Hff Hdata Hb Hdisk.
  assert (wp (bmap ip bn) (fun a s' => a = b /\ exists i' F', zget (icache s') ip = Some i' /\
    ext_lookup i' bn = Some b /\ (forall c, 0 <= c < 2 ^ 23 -> c <> bn -> ext_lookup i' c = ext_lookup i c) /\
    at_ s' F' /\ marks (dev i) sb b true F F' /\ ext_file (dev i) sb F' i' /\ bmap ip bn s' = Ret (b, s')) s) as W.
  { eapply bmap_grow; try done. intros l c F' i' Sh Hm G EF'. split; [done|]. exists i', F'.
    assert (zget (icache (put_inode ip i' c s)) ip = Some i') as Ei'.
    { cbn. apply zget_zset_eq. by apply zget_Some_range in Ei. }
    assert (El : ext_lookup i' bn = Some b).
    { eapply grows_new; [apply (ef_disjoint _ _ _ _ EF')|exact G|lia]. }
    split; [done|]. split; [done|]. split; [|split; [|split; [|split]]]; try done.
    - intros e He Hne. eapply grows_lookup; try done; [apply (ef_addrs _ _ _ _ EF)|apply (ef_disjoint _ _ _ _ EF)|apply (ef_disjoint _ _ _ _ EF')].
    - pose proof (bmap_hit ip i' bn b _ (fun a s' => a = b /\ s' = put_inode ip i' c s) Ei' Ht El (conj eq_refl eq_refl)) as W.
      apply wp_iff in W as (a & s' & E & -> & ->). exact E. }
  apply wp_iff in W as (a & s' & E & -> & i' & F' & R). exists s', i', F'. done.
Qed.

(** The length of an extent is one byte: when the 256th block of a full
    extent is allocated right behind it, [bmap] carries into the extent's
    start, and none of the file's 256 blocks there is mapped any more. *)
Theorem bmap_full_extent_lost sb F b bn s ip i k :
  at_ s F -> volume (dev i) sb F -> ext_file (dev i) sb F i -> type i = T_EXTENT -> zget (icache s) ip = Some i ->
  slot k -> len i k = 255 -> bn = first i k + 255 -> 0 <= bn < 2 ^ 23 -> ext_lookup i bn = None ->
  (forall k', slot k' -> bn = first i k' + len i k' -> k' = k) ->
  first_free (dev i) sb F b -> b = ext_start (addr_at i k) + 255 ->
  exists s' i', bmap ip bn s = Ret (b, s') /\ zget (icache s') ip = Some i' /\
    (forall c, first i k <= c < bn -> is_Some (ext_lookup i c)) /\
    (forall c, first i k <= c <= bn -> ext_lookup i' c = None).
Proof.
  intros A0 V EF Ht Ei Hk Hl Hbn Hbr Hnone Huniq Hff Hb.
  pose proof (ef_addrs _ _ _ _ EF) as A. pose proof (ef_disjoint _ _ _ _ EF) as D.
  pose proof (slot_range _ Hk) as Hr. pose proof (ao_len _ A) as HL. pose proof (ao_word _ A) as HW.
  pose proof (ext_start_range _ (HW k)) as Hst. pose proof (HW (k + 1)) as Hfi. fold (first i k) in Hfi.
  pose proof (ext_scan_slots i bn A Hbr) as R. pose proof (ext_word (addr_at i k)) as Ew. fold (len i k) in Ew.
  set (i' := set_addr k (u32 (addr_at i k + 1)) i).
  assert (Hat : forall j, 0 <= j -> addr_at i' j = if decide (j = k) then u32 (addr_at i k + 1) else addr_at i j)
    by (intros; apply addr_at_set; lia).
  assert (Hfirst : forall k', slot k' -> first i' k' = first i k').
  { intros k' Hk'. unfold first. pose proof (slot_range _ Hk'). rewrite Hat by lia. rewrite decide_False; [done|]. by apply slot_even. }
  assert (Hlen : forall k', slot k' -> len i' k' = if decide (k' = k) then 0 else len i k').
  { intros k' Hk'. unfold len at 1. pose proof (slot_range _ Hk'). rewrite Hat by lia. destruct (decide (k' = k)); [|done].
    unfold ext_len, u32. change 255 with (Z.ones 8). rewrite Z.land_ones by lia. rewrite Ew, Hl.
    replace (256 * ext_start (addr_at i k) + 255 + 1) with ((ext_start (addr_at i k) + 1) * 256) by lia.
    change (2 ^ 32) with (2 ^ 24 * 256). rewrite Z.mul_mod_distr_r by lia. change (2 ^ 8) with 256. apply Z.mod_mul. lia. }
  assert (A' : addrs_ok i').
  { constructor.
    - unfold i', set_addr. cbn. by rewrite length_zset.
    - intros j. destruct (Z_lt_ge_dec j 0); [rewrite addr_at_neg by lia|]; rewrite Hat by lia;
        (destruct (decide _); [apply u32_range|apply HW]).
    - intros j Hj. rewrite Hfirst by done. by apply (ao_first _ A). }
  assert (W : wp (bmap ip bn) (fun a s' => a = b /\ zget (icache s') ip = Some i') s).
  { unfold bmap. eapply wp_bind, wp_ipget; [exact Ei|]. rewrite Ht, Z.eqb_refl.
    unfold bmap_extent. eapply wp_bind, wp_ipget; [exact Ei|]. unfold ext_lookup in Hnone.
    assert (Hnb : match ext_scan 6 i bn 0 (-1) (-1) with inl _ => True | inr (_, nb) => nb = k end).
    { pose proof (ext_scan_last 6 i bn 0 (-1) (-1) A Hbr slot_index) as L.
      destruct (ext_scan 6 i bn 0 (-1) (-1)) as [|[fb nb]]; [done|].
      destruct (slot_of _ Hk) as (m & Hm & Em). destruct R as (_ & _ & [Hneg|[Hs Hs']]); [|by apply Huniq].
      exfalso. subst k. apply (L Hneg m Hm). lia. }
    destruct (ext_scan 6 i bn 0 (-1) (-1)) as [a|[fb nb]]; [done|]. subst nb.
    eapply wp_bind, balloc_spec; [exact A0|exact V|exact Hff|]. intros c F' Hm Sh.
    unfold neighbor_word. assert ((k <? 0) = false) as -> by lia. fold (len i k). rewrite Hl, <- Hb.
    assert ((k >=? 0) = true) as -> by lia. rewrite u32_small by (unfold in_u32; lia). rewrite Z.eqb_refl. cbn [andb].
    eapply wp_bind, wp_ipmod; [exact Ei|]. apply wp_ret. split; [done|]. cbn. apply zget_zset_eq. by apply zget_Some_range in Ei. }
  apply wp_iff in W as (a & s' & E & -> & Ei'). exists s', i'. split; [done|]. split; [done|]. split.
  - intros c Hc. exists (phys i k c). apply ext_lookup_Some; [done|done|lia|]. exists k. unfold inside. split; [done|]. split; [lia|done].
  - intros c Hc. apply ext_lookup_None; [done|lia|]. intros k' Hk'. unfold inside. rewrite Hfirst, Hlen by done.
    destruct (decide (k' = k)) as [->|N]; [lia|]. intros Hi. destruct (decide (c = bn)) as [->|Nc].
    + pose proof (proj2 (ext_lookup_None i bn A Hbr) Hnone k' Hk') as Hn. by apply Hn.
    + apply N. apply (D k' k c); try done. unfold inside. lia.
Qed.
End Extents.
