(* ===== verification/FsPath.v ===== *)
(** Paths: what [skipelem] takes from a path, and why [namex] ends. *)
From S2P Require Import Prelude Bytes BlockDev CString Fs.
Import Fs.

(** The components of a path: its maximal runs of bytes other than a slash. *)
Fixpoint split (p : list Z) : list (list Z) :=
  match p with
  | [] => [[]]
  | c :: p =>
      if c =? slash then [] :: split p
      else match split p with [] => [[c]] | e :: es => (c :: e) :: es end
  end.
Definition components (p : list Z) : list (list Z) := filter (fun e => e <> []) (split p).

(** A C string in a 14-byte array: the bytes before the first NUL, at most 14. *)
Fixpoint cstring (n : nat) (l : list Z) : list Z :=
  match n, l with
  | S n, c :: l => if c =? 0 then [] else c :: cstring n l
  | _, _ => []
  end.

Lemma split_nonempty p : split p <> [].
Proof. destruct p as [|c p]; cbn; [done|]. destruct (c =? slash); [done|]. by destruct (split p). Qed.

Lemma components_skip p : components (skip_slashes p) = components p.
Proof.
  induction p as [|c p IH]; cbn [skip_slashes]; [done|]. destruct (c =? slash) eqn:E; [|done].
  rewrite IH. unfold components. cbn [split]. rewrite E, filter_cons_False; [done|]. intros H. by apply H.
Qed.

(** [element] takes the first run and leaves the rest, which is empty or starts
    with a slash. *)
Lemma element_split p e r :
  element p = (e, r) -> exists es, split p = e :: es /\
    (r = [] /\ es = [] \/ exists r', r = slash :: r' /\ es = split r').
Proof.
  revert e r. induction p as [|c p IH]; intros e r; cbn.
  - intros [= <- <-]. exists []. auto.
  - destruct (Z.eqb_spec c slash) as [->|N].
    + intros [= <- <-]. exists (split p). split; [done|]. right. by exists p.
    + destruct (element p) as [e' r'] eqn:E. intros [= <- <-].
      destruct (IH e' r' eq_refl) as (es & -> & R). by exists es.
Qed.

Lemma element_length p : (length (element p).1 + length (element p).2 = length p)%nat.
Proof.
  induction p as [|c p IH]; cbn; [done|]. destruct (c =? slash); cbn; [done|].
  destruct (element p) as [e r]. cbn in *. lia.
Qed.

Lemma element_bytes p : Forall (fun c => c <> 0) p -> Forall (fun c => c <> 0) (element p).1.
Proof.
  induction 1 as [|c p Hc Hp IH]; cbn; [done|]. destruct (c =? slash); cbn; [done|].
  destruct (element p) as [e r]. cbn in *. by constructor.
Qed.

Lemma cstring_short n e l : Forall (fun c => c <> 0) e -> (length e < n)%nat -> cstring n (e ++ [0] ++ l) = e.
Proof.
  intros He. revert n. induction He as [|c e Hc He IH]; intros n Hn; destruct n as [|n]; try (cbn in Hn; lia).
  - done.
  - cbn. rewrite (proj2 (Z.eqb_neq c 0)) by done. f_equal. apply IH. cbn in Hn. lia.
Qed.

Lemma cstring_long n e l : Forall (fun c => c <> 0) e -> (n <= length e)%nat -> cstring n (take n e ++ l) = take n e.
Proof.
  intros He. revert n. induction He as [|c e Hc He IH]; intros n Hn; destruct n as [|n]; cbn in Hn |- *; try done; [lia|].
  rewrite (proj2 (Z.eqb_neq c 0)) by done. f_equal. apply IH. lia.
Qed.

Lemma skip_slashes_head p c q : skip_slashes p = c :: q -> c <> slash.
Proof.
  induction p as [|b p IH]; cbn; [done|]. destruct (Z.eqb_spec b slash) as [->|N]; [done|].
  by intros [= -> _].
Qed.
Lemma skip_slashes_length p : (length (skip_slashes p) <= length p)%nat.
Proof. induction p as [|c p IH]; cbn; [lia|]. destruct (c =? slash); cbn; lia. Qed.

(** [skipelem] takes a path apart as a list of names: it returns nothing
    exactly when the path has no component; otherwise [name] holds the first
    component cut to 14 bytes, the rest has the remaining components, starts
    with no slash, and is empty exactly when none remain. *)
Theorem skipelem_takes_component path nm :
  Forall (fun c => c <> 0) path -> length nm = 14%nat ->
  match skipelem path nm with
  | None => components path = []
  | Some (rest, nm') =>
      exists e, components path = e :: components rest /\ cstring 14 nm' = take 14 e /\ length nm' = 14%nat /\
        head rest <> Some slash /\ (rest = [] <-> components rest = []) /\ (length rest < length path)%nat
  end.
Proof.
  intros Hp Hnm. unfold skipelem. pose proof (components_skip path) as Hc. pose proof (skip_slashes_length path) as Hlen.
  assert (Forall (fun c => c <> 0) (skip_slashes path)) as Hp'.
  { clear -Hp. induction Hp as [|c p Hx Hp IH]; cbn; [done|]. destruct (c =? slash); [done|by constructor]. }
  destruct (skip_slashes path) as [|c q] eqn:E; [by rewrite <- Hc|].
  pose proof (skip_slashes_head _ _ _ E) as Hcs.
  pose proof (element_bytes _ Hp') as He. pose proof (element_length (c :: q)) as Hel.
  assert (exists e r, element (c :: q) = (e, r) /\ e <> []) as (e & r & Ee & Hne).
  { cbn. rewrite (proj2 (Z.eqb_neq c slash)) by done. destruct (element q) as [e r]. by exists (c :: e), r. }
  destruct (element_split _ _ _ Ee) as (es & Es & Hr). rewrite Ee in He, Hel |- *. cbn in He, Hel.
  assert (Hcomp : components (c :: q) = e :: filter (fun e => e <> []) es).
  { unfold components. rewrite Es. by rewrite filter_cons_True. }
  assert (Hrest : components (skip_slashes r) = filter (fun e => e <> []) es).
  { rewrite components_skip. destruct Hr as [[-> ->]|(r' & -> & ->)]; [done|].
    unfold components. cbn [split]. rewrite Z.eqb_refl. rewrite filter_cons_False; [done|]. intros H. by apply H. }
  assert (Hel' : (0 < length e)%nat) by (destruct e; [done|cbn; lia]).
  pose proof (skip_slashes_length r) as Hsr. cbn in Hlen, Hel.
  exists e. rewrite <- Hc, Hcomp, Hrest. split; [done|]. split; [|split; [|split; [|split]]].
  - unfold zlen, DIRSIZ. destruct (Z.of_nat (length e) >=? 14) eqn:El.
    + by apply cstring_long; [|lia].
    + rewrite cstring_short by (done || lia). by rewrite take_ge by lia.
  - unfold zlen, DIRSIZ. destruct (Z.of_nat (length e) >=? 14) eqn:El.
    + rewrite length_app, length_take, length_drop. lia.
    + rewrite !length_app, length_drop. cbn [length]. lia.
  - destruct (skip_slashes r) as [|b q'] eqn:Er; [done|]. cbn. intros [= ->]. by apply skip_slashes_head in Er.
  - rewrite <- Hrest. split; [by intros ->|]. intros Hz. destruct (skip_slashes r) as [|b q'] eqn:Er; [done|]. exfalso.
    pose proof (skip_slashes_head _ _ _ Er) as Hb. unfold components in Hz. cbn in Hz.
    rewrite (proj2 (Z.eqb_neq b slash)) in Hz by done. destruct (split q') as [|x xs]; by rewrite filter_cons_True in Hz.
  - lia.
Qed.

Lemma skipelem_shorter path nm rest nm' : skipelem path nm = Some (rest, nm') -> (length rest < length path)%nat.
Proof.
  unfold skipelem. pose proof (skip_slashes_length path) as Hl. destruct (skip_slashes path) as [|c q] eqn:E; [done|].
  pose proof (skip_slashes_head _ _ _ E) as Hc. pose proof (element_length (c :: q)) as Hel.
  assert ((0 < length (element (c :: q)).1)%nat) as He.
  { cbn. rewrite (proj2 (Z.eqb_neq c slash)) by done. destruct (element q). cbn. lia. }
  destruct (element (c :: q)) as [e r]. cbn [fst snd] in *. intros [= <- _]. pose proof (skip_slashes_length r). lia.
Qed.

Section Namex.
Context {K : Type} `{BlockOps K} `{DevSw K}.

Lemma bind_ext {S A B} (m : M S A) (k k' : A -> M S B) (s : S) :
  (forall a s', k a s' = k' a s') -> (m ≫= k) s = (m ≫= k') s.
Proof. intros E. unfold mbind, M_bind. destruct (m s) as [[a s']| | | |]; auto. Qed.

(** [namex] ends: the loop consumes at least a byte of the path each turn, so
    any fuel above the path's length gives the same result from every state. *)
Theorem namex_ends (fuel : nat) path ip parent nm (s : fstate K) :
  (length path < fuel)%nat ->
  namex_loop fuel ip path parent nm s = namex_loop (S (length path)) ip path parent nm s.
Proof.
  remember (length path) as n eqn:En. assert (length path <= n)%nat as Hn by lia. clear En.
  revert fuel path ip nm s Hn. induction n as [|n IH]; intros fuel path ip nm s Hn Hf;
    destruct fuel as [|fuel]; try lia; cbn [namex_loop];
    destruct (skipelem path nm) as [[rest nm']|] eqn:E; try done; apply skipelem_shorter in E as Hs; [lia|].
  apply bind_ext. intros [] s1. apply bind_ext. intros i s2.
  destruct (negb (type i =? T_DIR)); [done|]. destruct (parent && bool_decide (rest = [])); [done|].
  apply bind_ext. intros [[next o]|] s3; [|done]. apply bind_ext. intros [] s4.
  rewrite (IH fuel) by lia. symmetry. apply (IH (S n)); lia.
Qed.
End Namex.

Lemma skipelem_takes_component_witness :
  match skipelem (bytes "//usr///xv6/") (replicate 14 7) with
  | None => False
  | Some (rest, nm') => components (bytes "//usr///xv6/") = bytes "usr" :: components rest
  end.
Proof.
  pose proof (skipelem_takes_component (bytes "//usr///xv6/") (replicate 14 7)) as T.
  destruct (skipelem (bytes "//usr///xv6/") (replicate 14 7)) as [[rest nm']|] eqn:E.
  - destruct T as (e & H1 & _); [apply (bool_decide_unpack _); vm_compute; exact I|reflexivity|].
    rewrite H1. f_equal. vm_compute in H1. injection H1 as H1 _. symmetry. exact H1.
  - discriminate (f_equal (fun o => match o with None => true | Some _ => false end) E).
Defined.
