(* ===== verification/FsRw.v ===== *)
(** Reading and writing the blocks an extent file has. *)
From S2P Require Import Prelude Bytes BlockDev CString Fs FsSpec.
Import Fs.

(** ** The bytes of a file *)

(** A file whose blocks on device [d] a function finds. *)
Section Look.
Context (look : Z -> option Z) (d : Z).

(** Byte [p]. *)
Definition rbyte (F : flat) (p : Z) : option Z :=
  b ← look (p / BSIZE); x ← BlockDev.disk F !! (d, b); x !! Z.to_nat (p mod BSIZE).
Definition rbytes (F : flat) (off n : Z) : list Z := (fun p => default 0 (rbyte F p)) <$> seqZ off n.

(** Every byte in the range is in a block of 512 bytes that nobody holds. *)
Definition rmapped (F : flat) (off n : Z) : Prop :=
  forall p, off <= p < off + n ->
    exists b x, look (p / BSIZE) = Some b /\ BlockDev.disk F !! (d, b) = Some x /\
      length x = 512%nat /\ ~ is_open F (d, b).

Lemma rbytes_app F off n m : 0 <= n -> 0 <= m -> rbytes F off (n + m) = rbytes F off n ++ rbytes F (off + n) m.
Proof. intros Hn Hm. unfold rbytes. by rewrite seqZ_app, fmap_app. Qed.

Lemma rbytes_lookup F off n k : 0 <= k < n -> rbytes F off n !! Z.to_nat k = Some (default 0 (rbyte F (off + k))).
Proof.
  intros Hk. unfold rbytes. rewrite list_lookup_fmap, lookup_seqZ_lt by lia. cbn. by rewrite Z2Nat.id by lia.
Qed.

Lemma length_rbytes F off n : length (rbytes F off n) = Z.to_nat n.
Proof. unfold rbytes. by rewrite length_fmap, length_seqZ. Qed.
End Look.

(** An extent file. *)
Notation fbyte F i := (rbyte (ext_lookup i) (dev i) F).
Notation fbytes F i := (rbytes (ext_lookup i) (dev i) F).
Notation mapped F i := (rmapped (ext_lookup i) (dev i) F).

(** The piece of one block that a transfer moves. *)
Lemma div_within off m k :
  0 <= off -> 0 <= k < m -> off mod BSIZE + m <= BSIZE -> (off + k) / BSIZE = off / BSIZE /\ (off + k) mod BSIZE = off mod BSIZE + k.
Proof.
  unfold BSIZE. intros Ho Hk Hm. pose proof (Z.div_mod off 512). pose proof (Z.mod_pos_bound off 512).
  assert ((off + k) / 512 = off / 512) as E.
  { symmetry. apply (Z.div_unique_pos _ _ _ (off mod 512 + k)); lia. }
  split; [done|]. rewrite Z.mod_eq, E by lia. lia.
Qed.

Lemma part_rbytes look d F off m b x :
  look (off / BSIZE) = Some b -> BlockDev.disk F !! (d, b) = Some x -> length x = 512%nat ->
  0 <= off -> 0 <= m -> off mod BSIZE + m <= BSIZE -> part (off mod BSIZE) m x = rbytes look d F off m.
Proof.
  intros Hb Hx Hl Ho Hm Hr. pose proof (Z.mod_pos_bound off BSIZE ltac:(unfold BSIZE; lia)) as Hb'.
  apply list_eq_same_length with (n := Z.to_nat m).
  - apply length_rbytes.
  - assert (zlen (part (off mod BSIZE) m x) = m) as Hz by (apply part_length; unfold zlen, BSIZE in *; lia). unfold zlen in Hz. lia.
  - intros k v w Hk. rewrite part_lookup by done.
    replace k with (Z.to_nat (Z.of_nat k)) by lia. rewrite rbytes_lookup by lia. rewrite Nat2Z.id. unfold rbyte.
    destruct (div_within off m (Z.of_nat k)) as [E1 E2]; [lia|lia|done|]. rewrite E1, E2, Hb. cbn. rewrite Hx. cbn.
    replace (Z.to_nat (off mod BSIZE + Z.of_nat k)) with (Z.to_nat (off mod BSIZE) + k)%nat by lia.
    intros -> [= <-]. done.
Qed.

Lemma part_rbytes_all look d F off n size : 0 <= off -> 0 <= n -> off + n <= size -> part off n (rbytes look d F 0 size) = rbytes look d F off n.
Proof.
  intros Ho Hn Hs. unfold part. replace size with (off + (n + (size - off - n))) by lia. rewrite !rbytes_app by lia.
  rewrite (drop_app_length' (rbytes look d F 0 off)) by by rewrite length_rbytes.
  by rewrite (take_app_length' (rbytes look d F (0 + off) n)) by by rewrite length_rbytes.
Qed.

(** How many blocks a transfer touches. *)
Definition need (off rem : Z) : Z := if rem =? 0 then 0 else (off + rem + 511) / 512 - off / 512.

Lemma need_step off rem :
  0 <= off -> 0 < rem -> let m := Z.min rem (BSIZE - off mod BSIZE) in need (off + m) (rem - m) + 1 <= need off rem.
Proof.
  intros Ho Hr m. unfold need, m, BSIZE in *. pose proof (Z.div_mod off 512). pose proof (Z.mod_pos_bound off 512).
  rewrite (proj2 (Z.eqb_neq rem 0)) by lia.
  assert (off / 512 + 1 <= (off + rem + 511) / 512) by (apply Z.div_le_lower_bound; lia).
  destruct (Z.min_spec rem (512 - off mod 512)) as [[Hlt ->]|[Hge ->]].
  - replace (rem - rem) with 0 by lia. cbn. lia.
  - destruct (Z.eqb_spec (rem - (512 - off mod 512)) 0); [lia|].
    replace (off + (512 - off mod 512) + (rem - (512 - off mod 512)) + 511) with (off + rem + 511) by lia.
    replace (off + (512 - off mod 512)) with ((off / 512 + 1) * 512) by lia. rewrite Z.div_mul by lia. lia.
Qed.

Lemma need_fuel off n : 0 <= off -> 0 <= n -> need off n < Z.of_nat (io_fuel n).
Proof.
  intros Ho Hn. unfold need, io_fuel, BSIZE. pose proof (Z.div_pos n 512).
  rewrite Z2Nat.id by lia. destruct (n =? 0); [lia|].
  enough ((off + n + 511) / 512 < off / 512 + n / 512 + 3) by lia. apply Z.div_lt_upper_bound; [lia|].
  pose proof (Z.div_mod off 512). pose proof (Z.mod_pos_bound off 512). pose proof (Z.div_mod n 512). pose proof (Z.mod_pos_bound n 512). lia.
Qed.

Section Rw.
Context {K : Type} `{BlockLaws K} `{!DevSw K}.
Implicit Types (s : fstate K) (F : flat).

(** ** Reading *)

(** [bmap] finds the blocks that [look] does, and leaves the disk as it is. *)
Definition finds (ip : Z) (i : inode) (F : flat) (look : Z -> option Z) : Prop :=
  forall bn b s Q, at_ s F -> zget (icache s) ip = Some i -> look bn = Some b ->
    (forall c, shows c F -> Q b (with_disk c s)) -> wp (bmap ip bn) Q s.
Lemma finds_ext ip i F : type i = T_EXTENT -> finds ip i F (ext_lookup i).
Proof. intros Ht bn b s Q A0 Ei Hb HQ. eapply bmap_hit; [exact Ei|exact Ht|exact Hb|]. specialize (HQ (disk s) A0). by rewrite with_disk_id in HQ. Qed.

Lemma readi_loop_spec look fuel ip i off n tot acc s F Q :
  at_ s F -> (base.size (opened F) < 10)%nat -> zget (icache s) ip = Some i -> finds ip i F look ->
  rmapped look (dev i) F off (n - tot) -> tot <= n -> 0 <= off -> off + (n - tot) < 2 ^ 32 ->
  need off (n - tot) < Z.of_nat fuel ->
  (forall c, shows c F -> Q (acc ++ rbytes look (dev i) F off (n - tot)) (with_disk c s)) ->
  wp (readi_loop fuel ip off n tot acc) Q s.
Proof.
  revert off tot acc s. induction fuel as [|fuel IH]; intros off tot acc s A0 Hs Ei Ht Hmap Htot Ho Hw Hf HQ.
  { exfalso. unfold need in Hf. destruct (n - tot =? 0) eqn:E; [lia|].
    pose proof (Z.div_le_mono off (off + (n - tot) + 511) 512). lia. }
  cbn [readi_loop]. pose proof (Z.mod_pos_bound off BSIZE ltac:(unfold BSIZE; lia)) as Hm.
  destruct (Z.ltb_spec tot n) as [L|G].
  - set (m := Z.min (n - tot) (BSIZE - off mod BSIZE)). assert (0 < m <= n - tot /\ off mod BSIZE + m <= BSIZE) as Hmm by lia.
    destruct (Hmap off) as (b & x & Hb & Hx & Hl & Hno); [lia|].
    eapply wp_bind, wp_ipget; [exact Ei|]. eapply wp_bind, Ht; [exact A0|exact Ei|exact Hb|]. intros c0 Sh0.
    eapply open_block; [exact Sh0|exact Hx|exact Hno|exact Hs|]. intros bp c Hbp Sh. rewrite with_disk_twice.
    eapply close_block; [exact Sh|done|done|]. intros c' Sh'. rewrite with_disk_twice. rewrite u32_small by (unfold in_u32; lia).
    replace (tot + m) with (n - (n - tot - m)) by lia.
    apply IH; try done; try lia.
    + intros p Hp. apply Hmap. lia.
    + pose proof (need_step off (n - tot) Ho ltac:(lia)) as Hst. cbv zeta in Hst. fold m in Hst.
      replace (n - (n - (n - tot - m))) with (n - tot - m) by lia. lia.
    + intros c2 Sh2. rewrite with_disk_twice. rewrite <- app_assoc.
      rewrite (part_rbytes look (dev i) F off m b x) by (done || lia).
      replace (n - (n - (n - tot - m))) with (n - tot - m) by lia.
      rewrite <- rbytes_app by lia. replace (m + (n - tot - m)) with (n - tot) by lia. by apply HQ.
  - apply wp_ret. assert (n - tot = 0) as E by lia. specialize (HQ (disk s) A0). rewrite E in HQ.
    change (rbytes look (dev i) F off 0) with (@nil Z) in HQ. rewrite app_nil_r, with_disk_id in HQ. exact HQ.
Qed.

(** [readi] within the file. *)
Lemma readi_found look ip i off n s F Q :
  at_ s F -> (base.size (opened F) < 10)%nat -> zget (icache s) ip = Some i -> type i <> T_DEV -> finds ip i F look ->
  rmapped look (dev i) F off n -> 0 <= off -> 0 <= n -> off + n <= isize i -> isize i < 2 ^ 31 ->
  (forall c, shows c F -> Q (n, rbytes look (dev i) F off n) (with_disk c s)) ->
  wp (readi ip off n) Q s.
Proof.
  intros A0 Hs Ei Ht Hfi Hmap Ho Hn Hsz H31 HQ. unfold readi. eapply wp_bind, wp_ipget; [exact Ei|].
  rewrite (proj2 (Z.eqb_neq _ _) Ht), u32_small by (unfold in_u32; lia).
  assert ((off >? isize i) || (off + n <? off) = false) as -> by lia.
  assert ((off + n >? isize i) = false) as -> by lia.
  eapply wp_bind, readi_loop_spec; [exact A0|exact Hs|exact Ei|exact Hfi| |lia|lia|lia| |].
  - by rewrite Z.sub_0_r.
  - rewrite Z.sub_0_r. by apply need_fuel.
  - intros c Sh. apply wp_ret. rewrite Z.sub_0_r, s32_small by (unfold in_s32; lia). by apply HQ.
Qed.
Lemma readi_spec ip i off n s F Q :
  at_ s F -> (base.size (opened F) < 10)%nat -> zget (icache s) ip = Some i -> type i = T_EXTENT ->
  mapped F i off n -> 0 <= off -> 0 <= n -> off + n <= isize i -> isize i < 2 ^ 31 ->
  (forall c, shows c F -> Q (n, fbytes F i off n) (with_disk c s)) ->
  wp (readi ip off n) Q s.
Proof. intros A0 Hs Ei Ht. apply readi_found; [done|done|done|by rewrite Ht|by apply finds_ext]. Qed.

(** ** Writing over blocks the file has *)

(** [F'] is [F] with [src] written to the file at [off]: the file's other bytes,
    the other blocks of the disk and the blocks held are as before. *)
Record written (i : inode) (off : Z) (src : list Z) (F F' : flat) : Prop := {
  wr_opened : opened F' = opened F;
  wr_in p : off <= p < off + zlen src -> fbyte F' i p = zget src (p - off);
  wr_out p : 0 <= p < 2 ^ 32 -> ~ (off <= p < off + zlen src) -> fbyte F' i p = fbyte F i p;
  wr_len a x : BlockDev.disk F !! a = Some x -> length x = 512%nat ->
    exists x', BlockDev.disk F' !! a = Some x' /\ length x' = 512%nat;
  wr_disk a : (forall p, off <= p < off + zlen src -> ext_lookup i (p / BSIZE) = Some a.2 -> a.1 <> dev i) ->
    BlockDev.disk F' !! a = BlockDev.disk F !! a
}.

Definition inj_lookup (i : inode) : Prop :=
  forall q q' b, 0 <= q < 2 ^ 23 -> 0 <= q' < 2 ^ 23 -> ext_lookup i q = Some b -> ext_lookup i q' = Some b -> q = q'.

Lemma ext_file_inj d sb F i : ext_file d sb F i -> inj_lookup i.
Proof.
  intros [A D U I] q q' b Hq Hq' E E'.
  apply ext_lookup_Some in E as (k & Hk & Hi & ->); [|done..].
  apply ext_lookup_Some in E' as (k' & Hk' & Hi' & E'); [|done..]. by apply (I k q k' q').
Qed.

(** One block's worth. *)
Lemma written_block i off src F b x :
  inj_lookup i -> ext_lookup i (off / BSIZE) = Some b -> BlockDev.disk F !! (dev i, b) = Some x -> length x = 512%nat ->
  0 <= off -> off mod BSIZE + zlen src <= BSIZE -> off + zlen src <= 2 ^ 32 -> 0 < zlen src ->
  written i off src F (set_block (dev i, b) (splice (off mod BSIZE) src x) F).
Proof.
  intros Inj Hb Hx Hl Ho Hfit H32 Hpos. pose proof (Z.mod_pos_bound off BSIZE ltac:(unfold BSIZE; lia)) as Hm.
  assert (Z.of_nat (Z.to_nat (off mod BSIZE)) = off mod BSIZE) as Ho'  by lia.
  assert (Hsl : (Z.to_nat (off mod BSIZE) + length src <= length x)%nat) by (unfold zlen, BSIZE in *; lia).
  constructor; cbn [set_block opened BlockDev.disk].
  - done.
  - intros p Hp. destruct (div_within off (zlen src) (p - off)) as [E1 E2]; [lia|lia|done|].
    replace (off + (p - off)) with p in E1, E2 by lia. unfold rbyte. rewrite E1, Hb. cbn.
    rewrite lookup_insert_eq. cbn. rewrite <- Ho', splice_lookup by done. rewrite decide_True by (unfold zlen in *; lia).
    unfold zget. rewrite bool_decide_false by lia. f_equal. lia.
  - intros p Hp Hn. unfold rbyte. destruct (ext_lookup i (p / BSIZE)) as [b'|] eqn:Eb; [|done]. cbn.
    destruct (decide (b' = b)) as [->|N].
    + assert (p / BSIZE = off / BSIZE) as Epq.
      { apply (Inj _ _ b); try done; unfold BSIZE; (split; [apply Z.div_pos; lia|apply Z.div_lt_upper_bound; lia]). }
      rewrite lookup_insert_eq, Hx. cbn. rewrite <- Ho', splice_lookup by done. rewrite decide_False; [done|].
      intros Hin. apply Hn. pose proof (Z.div_mod p BSIZE). pose proof (Z.div_mod off BSIZE). pose proof (Z.mod_pos_bound p BSIZE).
      unfold BSIZE, zlen in *. lia.
    + rewrite lookup_insert_ne by congruence. done.
  - intros a y Hy Hly. destruct (decide (a = (dev i, b))) as [->|N].
    + rewrite lookup_insert_eq. eexists. split; [done|]. rewrite <- Ho', splice_length by done. done.
    + rewrite lookup_insert_ne by done. by exists y.
  - intros a Ha. rewrite lookup_insert_ne; [done|]. intros <-. apply (Ha off); [lia|exact Hb|done].
Qed.

Lemma written_app i off x1 x2 F F1 F2 :
  0 <= off -> off + zlen x1 + zlen x2 <= 2 ^ 32 ->
  written i off x1 F F1 -> written i (off + zlen x1) x2 F1 F2 -> written i off (x1 ++ x2) F F2.
Proof.
  intros Ho Hw [O1 I1 N1 L1 D1] [O2 I2 N2 L2 D2]. pose proof (zlen_nonneg x1). pose proof (zlen_nonneg x2).
  constructor.
  - congruence.
  - intros p. rewrite zlen_app. intros Hp. destruct (Z_lt_ge_dec p (off + zlen x1)).
    + rewrite N2, I1 by lia. by rewrite zget_app_l by lia.
    + rewrite I2 by lia. rewrite zget_app_r by lia. f_equal. lia.
  - intros p Hp. rewrite zlen_app. intros Hn. rewrite N2, N1 by lia. done.
  - intros a x Hx Hl. destruct (L1 a x Hx Hl) as (y1 & Hy1 & Hl1). by apply (L2 a y1).
  - intros a Ha. rewrite D2, D1; [done| |]; intros p Hp; apply Ha; rewrite zlen_app; lia.
Qed.

Lemma written_nil i off F : written i off [] F F.
Proof.
  constructor; try done.
  - cbn. intros p. change (zlen []) with 0. lia.
  - intros a x Hx Hl. by exists x.
Qed.

Lemma written_mapped i off src F F' lo n : written i off src F F' -> mapped F i lo n -> mapped F' i lo n.
Proof.
  intros W M p Hp. destruct (M p Hp) as (b & x & Hb & Hx & Hl & Hno).
  destruct (wr_len _ _ _ _ _ W _ _ Hx Hl) as (x' & Hx' & Hl'). exists b, x'. split; [done|]. split; [done|]. split; [done|].
  unfold is_open. by rewrite (wr_opened _ _ _ _ _ W).
Qed.

Lemma part_split src tot m : 0 <= tot -> 0 <= m -> tot + m <= zlen src ->
  drop (Z.to_nat tot) src = part tot m src ++ drop (Z.to_nat (tot + m)) src.
Proof.
  intros Ht Hm Hl. unfold part. rewrite <- (take_drop (Z.to_nat m) (drop (Z.to_nat tot) src)) at 1.
  f_equal. rewrite drop_drop. f_equal. lia.
Qed.

Lemma writei_loop_spec fuel ip i src off tot s F Q :
  at_ s F -> (base.size (opened F) < 10)%nat -> zget (icache s) ip = Some i -> type i = T_EXTENT -> inj_lookup i ->
  let n := zlen src in
  mapped F i off (n - tot) -> 0 <= tot <= n -> 0 <= off -> off + (n - tot) < 2 ^ 32 ->
  need off (n - tot) < Z.of_nat fuel ->
  (forall c F', shows c F' -> written i off (drop (Z.to_nat tot) src) F F' -> Q (off + (n - tot)) (with_disk c s)) ->
  wp (writei_loop fuel ip src off n tot) Q s.
Proof.
  intros A0 Hs Ei Ht Inj n. revert off tot s F A0 Hs Ei.
  induction fuel as [|fuel IH]; intros off tot s F A0 Hs Ei Hmap Htot Ho Hw Hf HQ.
  { exfalso. unfold need in Hf. destruct (n - tot =? 0) eqn:E; [lia|].
    pose proof (Z.div_le_mono off (off + (n - tot) + 511) 512). lia. }
  cbn [writei_loop]. pose proof (Z.mod_pos_bound off BSIZE ltac:(unfold BSIZE; lia)) as Hm.
  destruct (Z.ltb_spec tot n) as [L|G].
  - set (m := Z.min (n - tot) (BSIZE - off mod BSIZE)). assert (0 < m <= n - tot /\ off mod BSIZE + m <= BSIZE) as Hmm by lia.
    destruct (Hmap off) as (b & x & Hb & Hx & Hl & Hno); [lia|].
    assert (Hpl : zlen (part tot m src) = m) by (apply part_length; lia).
    eapply wp_bind, wp_ipget; [exact Ei|]. eapply wp_bind, bmap_hit; [exact Ei|exact Ht|exact Hb|].
    eapply open_block; [exact A0|exact Hx|exact Hno|exact Hs|]. intros bp c Hbp Sh.
    assert ((zlen src <? tot + m) = false) as -> by lia. eapply wp_bind, wp_ret.
    eapply save_block; [exact Sh|done|]. intros c' Sh'. rewrite with_disk_twice. rewrite u32_small by (unfold in_u32; lia).
    pose proof (written_block i off (part tot m src) F b x Inj Hb Hx Hl Ho ltac:(lia) ltac:(lia) ltac:(lia)) as W1.
    eapply (IH (off + m) (tot + m)); [exact Sh'| | | | | | | |].
    + by rewrite (wr_opened _ _ _ _ _ W1).
    + exact Ei.
    + eapply written_mapped; [exact W1|]. intros p Hp. apply Hmap. lia.
    + lia.
    + lia.
    + lia.
    + pose proof (need_step off (n - tot) Ho ltac:(lia)) as Hst. cbv zeta in Hst. fold m in Hst.
      replace (n - (tot + m)) with (n - tot - m) by lia. lia.
    + intros c2 F2 Sh2 W2. rewrite with_disk_twice. replace (off + m + (n - (tot + m))) with (off + (n - tot)) by lia.
      apply (HQ c2 F2 Sh2). rewrite (part_split src tot m) by lia. eapply written_app; [lia| |exact W1|].
      * rewrite Hpl. unfold zlen. rewrite length_drop. unfold n, zlen in *. lia.
      * rewrite Hpl. exact W2.
  - apply wp_ret. assert (tot = n) as -> by lia. specialize (HQ (disk s) F A0). rewrite Z.sub_diag, Z.add_0_r, with_disk_id in HQ.
    apply HQ. unfold n, zlen. rewrite Nat2Z.id, drop_all. apply written_nil.
Qed.

Lemma writei_spec ip i src off s F Q :
  at_ s F -> (base.size (opened F) < 10)%nat -> zget (icache s) ip = Some i -> type i = T_EXTENT -> inj_lookup i ->
  mapped F i off (zlen src) -> 0 <= off -> off + zlen src <= isize i -> isize i < 2 ^ 31 ->
  (forall c F', shows c F' -> written i off src F F' -> Q (zlen src) (with_disk c s)) ->
  wp (writei ip src off (zlen src)) Q s.
Proof.
  intros A0 Hs Ei Ht Inj Hmap Ho Hsz H31 HQ. pose proof (zlen_nonneg src) as Hn. unfold writei.
  eapply wp_bind, wp_ipget; [exact Ei|].
  rewrite Ht. change (T_EXTENT =? T_DEV) with false. cbv iota. rewrite u32_small by (unfold in_u32; lia).
  assert ((off >? isize i) || (off + zlen src <? off) = false) as -> by lia.
  change (negb (T_EXTENT =? T_EXTENT)) with false. rewrite andb_false_r.
  eapply wp_bind, writei_loop_spec; [exact A0|exact Hs|exact Ei|exact Ht|exact Inj| |lia|lia|lia| |].
  - by rewrite Z.sub_0_r.
  - rewrite Z.sub_0_r. by apply need_fuel.
  - intros c F' Sh W. rewrite Z.sub_0_r. eapply wp_bind, wp_ipget; [exact Ei|].
    assert ((zlen src >? 0) && (off + zlen src >? isize i) = false) as -> by lia.
    eapply wp_bind, wp_ret, wp_ret. rewrite s32_small by (unfold in_s32; lia). by apply (HQ c F').
Qed.

(** C17: What is written is what is read: [writei] of [src] at [off] over blocks an
    extent file has stores all of it, [readi] of the same range returns it, and
    every other byte of the file and every other block of the disk keeps its
    value. *)
Theorem writei_readi_roundtrip d sb ip i src off s F :
  at_ s F -> (base.size (opened F) < 10)%nat -> zget (icache s) ip = Some i -> type i = T_EXTENT -> ext_file d sb F i ->
  mapped F i off (zlen src) -> 0 <= off -> off + zlen src <= isize i -> isize i < 2 ^ 31 ->
  exists s' F', (n ← writei ip src off (zlen src); r ← readi ip off (zlen src); mret (n, r)) s =
      Ret ((zlen src, (zlen src, src)), s') /\ at_ s' F' /\ icache s' = icache s /\
    (forall p, 0 <= p < 2 ^ 32 -> ~ (off <= p < off + zlen src) -> fbyte F' i p = fbyte F i p) /\
    (forall a, (forall p, off <= p < off + zlen src -> ext_lookup i (p / BSIZE) = Some a.2 -> a.1 <> dev i) ->
       BlockDev.disk F' !! a = BlockDev.disk F !! a).
Proof.
  intros A0 Hs Ei Ht EF Hmap Ho Hsz H31. pose proof (ext_file_inj _ _ _ _ EF) as Inj.
  assert (wp (n ← writei ip src off (zlen src); r ← readi ip off (zlen src); mret (n, r))
    (fun v s' => v = (zlen src, (zlen src, src)) /\ exists F', at_ s' F' /\ icache s' = icache s /\
    (forall p, 0 <= p < 2 ^ 32 -> ~ (off <= p < off + zlen src) -> fbyte F' i p = fbyte F i p) /\
    (forall a, (forall p, off <= p < off + zlen src -> ext_lookup i (p / BSIZE) = Some a.2 -> a.1 <> dev i) ->
       BlockDev.disk F' !! a = BlockDev.disk F !! a)) s) as W.
  { eapply wp_bind, writei_spec; [exact A0|exact Hs|exact Ei|exact Ht|exact Inj|exact Hmap|lia|lia|lia|].
    intros c F' Sh Wr. eapply wp_bind, readi_spec; [exact Sh| |exact Ei|exact Ht| |lia|apply zlen_nonneg|lia|lia|].
    - by rewrite (wr_opened _ _ _ _ _ Wr).
    - by eapply written_mapped.
    - intros c' Sh'. apply wp_ret. split.
      + do 2 f_equal. apply list_eq_same_length with (n := length src).
        * done.
        * rewrite length_rbytes. unfold zlen. lia.
        * intros k v w Hk. replace k with (Z.to_nat (Z.of_nat k)) at 1 by lia.
          rewrite rbytes_lookup by (unfold zlen; lia). intros [= <-] Hw. rewrite (wr_in _ _ _ _ _ Wr) by (unfold zlen; lia).
          replace (off + Z.of_nat k - off) with (Z.of_nat k) by lia. unfold zget. rewrite bool_decide_false by lia.
          rewrite Nat2Z.id, Hw. done.
      + exists F'. split; [exact Sh'|]. split; [done|]. split; [apply (wr_out _ _ _ _ _ Wr)|apply (wr_disk _ _ _ _ _ Wr)]. }
  apply wp_iff in W as (v & s' & E & -> & F' & R). exists s', F'. done.
Qed.
End Rw.
