(* ===== verification/FsTree.v ===== *)
(** Names and files of a volume: what [namei], [ilock] and [readi] find there. *)
From S2P Require Import Prelude Bytes BlockDev CString CStringSpec Fs FsSpec FsRw FsPath.
Import Fs.

(** ** Where a file has its blocks *)

(** Through the direct addresses and the indirect block. *)
Definition table_lookup (F : flat) (i : inode) (bn : Z) : option Z :=
  let addr := if bn <? NDIRECT then addr_at i bn
              else match BlockDev.disk F !! (dev i, addr_at i NDIRECT) with Some a => word a (4 * (bn - NDIRECT)) | None => 0 end in
  if (bn <? MAXFILE) && negb (addr =? 0) && ((bn <? NDIRECT) || negb (addr_at i NDIRECT =? 0)) then Some addr else None.
Definition file_lookup (F : flat) (i : inode) (bn : Z) : option Z :=
  if type i =? T_EXTENT then ext_lookup i bn else table_lookup F i bn.

(** ** Names *)

(** A name is a string of at most 14 bytes; a directory's bytes are entries of
    16. The first entry in use with the name: its offset and its inode. *)
Fixpoint find_ent (n : nat) (x : list Z) (e : list Z) (o : Z) : option (Z * Z) :=
  match n with
  | O => None
  | S n =>
      if negb (half x o =? 0) && bool_decide (cstring 14 (part (o + 2) 14 x) = e) then Some (o, half x o)
      else find_ent n x e (o + 16)
  end.
Definition dir_find (x : list Z) (e : list Z) : option (Z * Z) := find_ent (Z.to_nat (zlen x / 16)) x e 0.

Lemma strncmp_loop_ok n : forall p q m a b, length a = n -> length b = n ->
  (forall k v, a !! k = Some v -> zget m (p + Z.of_nat k) = Some v) -> (forall k v, b !! k = Some v -> zget m (q + Z.of_nat k) = Some v) ->
  exists r, CString.strncmp_loop n p q m = Ret (r, m) /\ (r = 0 <-> cstring n a = cstring n b).
Proof.
  induction n as [|n IH]; intros p q m a b Ha Hb Hp Hq; [by exists 0|]. destruct a as [|u a], b as [|v b]; try done. cbn [CString.strncmp_loop cstring].
  pose proof (Hp 0%nat u eq_refl) as Hu. pose proof (Hq 0%nat v eq_refl) as Hv. rewrite Z.add_0_r in Hu, Hv. mstep (rd_ok _ _ _ Hu).
  destruct (Z.eqb_spec u 0) as [->|Hu0]; cbn [negb]; mstep (rd_ok _ _ _ Hv).
  - exists (0 - v). split; [done|]. destruct (Z.eqb_spec v 0) as [->|Hv0]; [done|]. split; [lia|done].
  - destruct (Z.eqb_spec u v) as [<-|Huv].
    + rewrite (proj2 (Z.eqb_neq u 0)) by done. destruct (IH (p + 1) (q + 1) m a b) as (r & E & Hr); [cbn in Ha; lia|cbn in Hb; lia| | |].
      * intros k w Hk. rewrite <- (Hp (S k) w Hk). f_equal. lia.
      * intros k w Hk. rewrite <- (Hq (S k) w Hk). f_equal. lia.
      * exists r. split; [done|]. rewrite Hr. split; congruence.
    + exists (u - v). split; [done|]. split; [lia|]. destruct (Z.eqb_spec v 0) as [->|Hv0]; congruence.
Qed.
Lemma zget_mid {A} (a b c : list A) k v : b !! k = Some v -> zget (a ++ b ++ c) (zlen a + Z.of_nat k) = Some v.
Proof.
  intros Hk. pose proof (lookup_lt_Some _ _ _ Hk). rewrite zget_app_r by lia. replace (zlen a + Z.of_nat k - zlen a) with (Z.of_nat k) by lia.
  unfold zget. rewrite bool_decide_false, Nat2Z.id by lia. by rewrite lookup_app_l.
Qed.

Lemma skipelem_bytes path nm : Forall (fun c => c <> 0) path -> forall rest nm', skipelem path nm = Some (rest, nm') -> Forall (fun c => c <> 0) rest.
Proof.
  intros Hp rest nm'. unfold skipelem. assert (Hsk : forall p, Forall (fun c => c <> 0) p -> Forall (fun c => c <> 0) (skip_slashes p)).
  { induction 1 as [|c p Hc Hp' IH]; cbn; [done|]. destruct (c =? slash); [done|by constructor]. }
  assert (Hel : forall p, Forall (fun c => c <> 0) p -> Forall (fun c => c <> 0) (element p).2).
  { induction 1 as [|c p Hc Hp' IH]; cbn; [done|]. destruct (c =? slash); [by constructor|]. by destruct (element p). }
  pose proof (Hsk path Hp) as H1. destruct (skip_slashes path) as [|c q]; [done|]. specialize (Hel _ H1). destruct (element (c :: q)) as [e r]. intros [= <- _]. by apply Hsk.
Qed.

Section Names.
Context {K : Type} `{BlockLaws K} `{!DevSw K}.
Implicit Types (s : fstate K) (F : flat).

Lemma namecmp_ok a b s : length a = 14%nat -> length b = 14%nat -> exists r, namecmp a b s = Ret (r, s) /\ (r = 0 <-> cstring 14 a = cstring 14 b).
Proof.
  intros Ha Hb. unfold namecmp, CString.strncmp. change (Z.to_nat (u32 DIRSIZ)) with 14%nat.
  destruct (strncmp_loop_ok 14 0 (zlen a) (a ++ b) a b Ha Hb) as (r & E & Hr).
  - intros k v Hk. rewrite Z.add_0_l. exact (zget_mid [] a b k v Hk).
  - intros k v Hk. pose proof (zget_mid a b [] k v Hk) as E. by rewrite app_nil_r in E.
  - exists r. by rewrite E.
Qed.
Lemma dir_scan_ok n : forall x nm o s, length nm = 14%nat -> 0 <= o -> o + 16 * Z.of_nat n <= zlen x ->
  dir_scan n x nm o s = Ret (find_ent n x (cstring 14 nm) o, s).
Proof.
  induction n as [|n IH]; intros x nm o s Hnm Ho Hx; cbn [dir_scan find_ent]; [done|].
  destruct (Z.eqb_spec (half x o) 0) as [|_]; cbn [negb andb]; [by apply IH; lia|].
  assert (Hl : length (part (o + 2) 14 x) = 14%nat) by (pose proof (part_length (o + 2) 14 x) as E; unfold zlen in *; lia).
  destruct (namecmp_ok nm (part (o + 2) DIRSIZ x) s Hnm Hl) as (r & E & Hr). mstep E. destruct (Z.eqb_spec r 0) as [->|Hr0].
  - rewrite bool_decide_true by (symmetry; by apply Hr). done.
  - rewrite bool_decide_false by (intros E'; apply Hr0, Hr; symmetry; done). by apply IH; lia.
Qed.
End Names.

(** The entries, block by block. *)
Lemma find_ent_app n m x e o : find_ent (n + m) x e o = match find_ent n x e o with Some r => Some r | None => find_ent m x e (o + 16 * Z.of_nat n) end.
Proof.
  revert o. induction n as [|n IH]; intros o; cbn [find_ent Nat.add]; [by rewrite Z.add_0_r|]. destruct (_ && _); [done|]. rewrite IH.
  replace (o + 16 * Z.of_nat (S n)) with (o + 16 + 16 * Z.of_nat n) by lia. done.
Qed.
Lemma half_part o k m x : 0 <= o -> 0 <= k -> k + 2 <= m -> half (part o m x) k = half x (o + k).
Proof. intros. unfold half. by rewrite part_part by lia. Qed.

Lemma find_ent_part n x e o k m : 0 <= o -> 0 <= k -> k + 16 * Z.of_nat n <= m ->
  find_ent n (part o m x) e k = (fun r => (r.1 - o, r.2)) <$> find_ent n x e (o + k).
Proof.
  revert k. induction n as [|n IH]; intros k Ho Hk Hm; cbn [find_ent]; [done|]. rewrite half_part, part_part by lia. rewrite <- Z.add_assoc.
  destruct (_ && _); [cbn; do 2 f_equal; lia|]. rewrite IH by lia. by rewrite Z.add_assoc.
Qed.
Lemma find_ent_range n x e o r : find_ent n x e o = Some r -> o <= r.1 < o + 16 * Z.of_nat n.
Proof.
  revert o. induction n as [|n IH]; intros o; cbn [find_ent]; [done|]. destruct (_ && _); [intros [= <-]; cbn; lia|]. intros Hr. specialize (IH _ Hr). lia.
Qed.

(** ** The files of a volume *)

(** A file: its type, the bytes of its blocks, and its size. *)
Record vfile := mkV { vtype : Z; vdata : list Z; vsize : Z }.

(** The inode is as on the disk. *)
Definition loaded (F : flat) (i : inode) : Prop :=
  exists x, BlockDev.disk F !! (dev i, IBLOCK (inum i)) = Some x /\ load_dinode x (dinode_off (inum i)) i = i.
Lemma loaded_load F i x : BlockDev.disk F !! (dev i, IBLOCK (inum i)) = Some x -> loaded F (load_dinode x (dinode_off (inum i)) i).
Proof. intros Hx. by exists x. Qed.
Lemma loaded_ref F i v : loaded F i -> loaded F (set_ref v i).
Proof. intros (x & Hx & E). exists x. split; [done|]. unfold load_dinode, set_ref in *. destruct i. cbn in *. congruence. Qed.
Lemma loaded_flags F i v : loaded F i -> loaded F (set_flags v i).
Proof. intros (x & Hx & E). exists x. split; [done|]. unfold load_dinode, set_flags in *. destruct i. cbn in *. congruence. Qed.

(** A directory's size reaches into its last block. *)
Definition dir_whole (f : vfile) : Prop := zlen (vdata f) = (vsize f + 511) / 512 * 512.

Record file_at (d : Z) (F : flat) (n : Z) (f : vfile) : Prop := {
  fa_block : is_Some (BlockDev.disk F !! (d, IBLOCK n));
  fa_inode i : dev i = d -> inum i = n -> loaded F i -> type i = vtype f /\ nlink i <> 0 /\ isize i = vsize f /\
    rmapped (file_lookup F i) d F 0 (zlen (vdata f)) /\ rbytes (file_lookup F i) d F 0 (zlen (vdata f)) = vdata f;
  fa_type : vtype f <> 0;
  fa_size : 0 <= vsize f < 2 ^ 31;
  fa_whole : zlen (vdata f) mod 512 = 0;
  fa_dir : vtype f = T_DIR -> dir_whole f
}.

Lemma not_open_empty F a : opened F = ∅ -> ~ is_open F a.
Proof. intros E (h & x & Hx). by rewrite E, lookup_empty in Hx. Qed.

Section Volume.
Context {K : Type} `{BlockLaws K} `{!DevSw K}.
Implicit Types (s : fstate K) (F : flat).

Lemma finds_file ip i F : opened F = ∅ -> finds ip i F (file_lookup F i).
Proof.
  intros Ho bn b s Q A0 Ei Hb HQ. unfold file_lookup in Hb. destruct (Z.eqb_spec (type i) T_EXTENT) as [Ht|Ht].
  { by apply (finds_ext ip i F Ht bn b). }
  unfold bmap. eapply wp_bind, wp_ipget; [exact Ei|]. rewrite (proj2 (Z.eqb_neq _ _) Ht). unfold bmap_table. eapply wp_bind, wp_ipget; [exact Ei|].
  unfold table_lookup in Hb. destruct (bn <? MAXFILE) eqn:Em; [|done]. destruct (bn <? NDIRECT) eqn:En; cbn [andb orb] in Hb.
  - destruct (addr_at i bn =? 0); [done|]. injection Hb as <-. apply wp_ret. specialize (HQ (disk s) A0). by rewrite with_disk_id in HQ.
  - replace (bn - NDIRECT <? NINDIRECT) with true by (unfold MAXFILE, NDIRECT, NINDIRECT in *; lia).
    destruct (addr_at i NDIRECT =? 0); [by rewrite andb_false_r in Hb|]. eapply wp_bind, wp_ret.
    destruct (BlockDev.disk F !! (dev i, addr_at i NDIRECT)) as [a|] eqn:Ea; [|done].
    eapply open_block; [exact A0|exact Ea|by apply not_open_empty|rewrite Ho, map_size_empty; lia|]. intros bp c Hbp Sh.
    destruct (word a (4 * (bn - NDIRECT)) =? 0); [done|]. injection Hb as <-. eapply wp_bind, wp_ret.
    eapply close_block; [exact Sh|done|done|]. intros c' Sh'. rewrite with_disk_twice. apply wp_ret. by apply HQ.
Qed.
End Volume.

(** ** The inode cache *)

(** How many of the references we hold are to slot [k]. *)
Definition held (hs : list Z) (k : Z) : Z := zlen (filter (fun h => h = k) hs).
Lemma held_cons_eq k hs : held (k :: hs) k = held hs k + 1.
Proof. unfold held, zlen. rewrite filter_cons_True by done. cbn [length]. lia. Qed.
Lemma held_cons_ne k h hs : h <> k -> held (h :: hs) k = held hs k.
Proof. intros Hne. unfold held. by rewrite filter_cons_False. Qed.
Lemma held_pos k hs : k ∈ hs -> 0 < held hs k.
Proof.
  intros Hk. unfold held, zlen. destruct (filter (fun h => h = k) hs) as [|x l] eqn:E; [|cbn; lia].
  assert (k ∈ filter (fun h => h = k) hs) as Hin by by apply list_elem_of_filter. rewrite E in Hin. by apply elem_of_nil in Hin.
Qed.
Lemma held_range k hs : 0 <= held hs k <= zlen hs.
Proof. unfold held. split; [apply zlen_nonneg|]. unfold zlen. pose proof (length_filter (fun h => h = k) hs). lia. Qed.
Lemma held_none k hs : k ∉ hs -> held hs k = 0.
Proof.
  intros Hk. unfold held, zlen. destruct (filter (fun h => h = k) hs) as [|x l] eqn:E; [done|]. exfalso. apply Hk.
  assert (x ∈ filter (fun h => h = k) hs) as Hin by (rewrite E; left). apply list_elem_of_filter in Hin as [-> Hin]. done.
Qed.

(** A slot of the cache: its inode is the disk's if it is marked valid; it is
    marked busy if it is locked. *)
Definition slot_ok (F : flat) (lk : option Z) (k : Z) (i : inode) : Prop :=
  exists v : bool, flags i = (if v then I_VALID else 0) + (if bool_decide (lk = Some k) then I_BUSY else 0) /\ (v = true -> loaded F i).
Lemma slot_has F lk k i : slot_ok F lk k i -> has I_BUSY i = bool_decide (lk = Some k) /\ (has I_VALID i = true -> loaded F i).
Proof. intros (v & Ef & Hv). unfold has. rewrite Ef. destruct v, (bool_decide (lk = Some k)); (split; [reflexivity|]); cbn; intros; auto; done. Qed.

Section Cache.
Context {K : Type} `{BlockLaws K} `{!DevSw K}.
Context (d : Z) (files : gmap Z vfile) (F : flat) (base : list Z) (here cap : Z).
Implicit Types (s : fstate K).

(** Nothing is going on but what we do: of the references to slots, [base] are
    others' and [hs] ours; [lk] is the inode we have locked, [here] the current
    directory's slot. *)
Record calm (lk : option Z) (hs : list Z) s : Prop := {
  cm_at : at_ s F;
  cm_lock : icache_lock s = false;
  cm_len : zlen (icache s) = zlen base;
  cm_cwd : cwd s = here;
  cm_slot k i : zget (icache s) k = Some i -> dev i = d -> 0 < ref i -> slot_ok F lk k i;
  cm_ref k i b : zget (icache s) k = Some i -> zget base k = Some b -> ref i = b + held hs k;
  cm_lk k : lk = Some k -> k ∈ hs
}.
Definition is_slot s (k n : Z) : Prop := exists i, zget (icache s) k = Some i /\ dev i = d /\ inum i = n.
(** The slots we hold stay what they are. *)
Definition same_slots (hs : list Z) s s' : Prop := forall k n, k ∈ hs -> is_slot s k n -> is_slot s' k n.

(** References fit their width, and [cap] slots are free of others' references:
    as many as we may hold. *)
Record room_ok : Prop := {
  ro_base b : b ∈ base -> 0 <= b < 2 ^ 31 - cap;
  ro_free : exists zs, NoDup zs /\ zlen zs = cap /\ forall k, k ∈ zs -> zget base k = Some 0
}.
Context (Hroom : room_ok) (Hvol : forall n f, files !! n = Some f -> file_at d F n f) (Hcalm : opened F = ∅).

Definition put_slot (k : Z) (i : inode) s : fstate K := set_icache (zset (icache s) k i) s.
Lemma put_slot_get k i s : 0 <= k < zlen (icache s) -> zget (icache (put_slot k i s)) k = Some i.
Proof using. apply zget_zset_eq. Qed.
Lemma calm_disk lk hs s c : calm lk hs s -> shows c F -> calm lk hs (with_disk c s).
Proof using. intros [H1 H2 H3 Hcw H4 H5 H6] Sh. by split. Qed.
Lemma slot_ref lk hs s k i : calm lk hs s -> zget (icache s) k = Some i -> exists b, zget base k = Some b /\ 0 <= b < 2 ^ 31 - cap /\ ref i = b + held hs k.
Proof using Hroom.
  intros C Hk. pose proof (zget_Some_range _ _ _ Hk) as Hr. rewrite (cm_len _ _ _ C) in Hr. destruct (zget_range base k Hr) as [b Hb].
  exists b. split; [done|]. split; [by apply (ro_base Hroom), (zget_elem_of _ k)|by apply (cm_ref _ _ _ C k)].
Qed.

(** One slot changed. *)
Lemma calm_put lk lk' hs hs' s k i i' : calm lk hs s -> zget (icache s) k = Some i -> ref i' = ref i + (held hs' k - held hs k) ->
  (dev i' = d -> 0 < ref i' -> slot_ok F lk' k i') -> (forall j, j <> k -> held hs' j = held hs j /\ (lk' = Some j <-> lk = Some j)) ->
  (forall j, lk' = Some j -> j ∈ hs') -> calm lk' hs' (put_slot k i' s).
Proof using.
  intros [H1 H2 H3 Hcw H4 H5 H6] Hk Hr Hs Ho Hl. pose proof (zget_Some_range _ _ _ Hk) as Hkr. split; cbn [put_slot set_icache icache icache_lock].
  - done.
  - done.
  - rewrite <- H3. unfold zlen, zset. destruct (bool_decide (k < 0)); [done|]. by rewrite length_insert.
  - done.
  - intros j x. destruct (decide (j = k)) as [->|Hne]; [rewrite zget_zset_eq by done; by intros [= <-]|]. rewrite zget_zset_ne by congruence. intros Hx Hd Hp.
    destruct (H4 j x Hx Hd Hp) as (v & Ef & Hv). exists v. split; [|done]. rewrite Ef. f_equal. destruct (Ho j Hne) as [_ Hlj].
    by rewrite (bool_decide_ext _ _ Hlj).
  - intros j x b. destruct (decide (j = k)) as [->|Hne].
    + rewrite zget_zset_eq by done. intros [= <-] Hb. rewrite Hr, (H5 k i b Hk Hb). lia.
    + rewrite zget_zset_ne by congruence. intros Hx Hb. destruct (Ho j Hne) as [-> _]. by apply H5.
  - done.
Qed.
Lemma is_slot_put s k i i' j n : zget (icache s) k = Some i -> dev i' = dev i -> inum i' = inum i -> is_slot s j n -> is_slot (put_slot k i' s) j n.
Proof using.
  intros Hk Hd Hn (x & Hx & Hxd & Hxn). destruct (decide (j = k)) as [->|Hne].
  - exists i'. assert (x = i) as -> by congruence. split; [apply put_slot_get; by eapply zget_Some_range|]. split; congruence.
  - exists x. split; [|done]. cbn. by rewrite zget_zset_ne by congruence.
Qed.

(** ** Locks and references *)

Lemma wp_acquire s Q : icache_lock s = false -> Q tt (set_icache_lock true s) -> wp acquire_icache Q s.
Proof using. intros El HQ. unfold acquire_icache. eapply wp_bind, wp_get. rewrite El. by apply wp_modify. Qed.
Lemma wp_release s Q : icache_lock s = true -> Q tt (set_icache_lock false s) -> wp release_icache Q s.
Proof using. intros El HQ. unfold release_icache. eapply wp_bind, wp_get. rewrite El. by apply wp_modify. Qed.
Lemma put_locked k i s : icache_lock s = false -> set_icache_lock false (set_icache (zset (icache s) k i) (set_icache_lock true s)) = put_slot k i s.
Proof using. destruct s. cbn. by intros ->. Qed.

(** [icache_find]: the slot of the inode, or a free one. *)
Lemma icache_find_spec l : forall k dv n e,
  match icache_find l k dv n e with
  | (Some ip, _) => k <= ip /\ exists i, zget l (ip - k) = Some i /\ 0 < ref i /\ dev i = dv /\ inum i = n
  | (None, Some x) => e = Some x \/ k <= x /\ exists i, zget l (x - k) = Some i /\ ref i = 0
  | (None, None) => e = None /\ Forall (fun i => ref i <> 0) l
  end.
Proof using.
  induction l as [|i l IH]; intros k dv n e; cbn [icache_find]; [destruct e; [by left|by split]|].
  assert (Hsh : forall x P, k + 1 <= x /\ (exists i0, zget l (x - (k + 1)) = Some i0 /\ P i0) -> k <= x /\ exists i0, zget (i :: l) (x - k) = Some i0 /\ P i0).
  { intros x P (Hx & j & Hj & HP). split; [lia|]. exists j. split; [|done]. unfold zget in *. rewrite bool_decide_false in * by lia. replace (Z.to_nat (x - k)) with (S (Z.to_nat (x - (k + 1)))) by lia. done. }
  destruct ((ref i >? 0) && (dev i =? dv) && (inum i =? n)) eqn:Et.
  - split; [lia|]. exists i. rewrite Z.sub_diag. split; [done|]. lia.
  - set (e' := match e with None => if ref i =? 0 then Some k else None | _ => e end). specialize (IH (k + 1) dv n e').
    destruct (icache_find l (k + 1) dv n e') as [[ip|] [x|]]; [by apply Hsh|by apply Hsh| |].
    + destruct IH as [Ee|IH]; [|right; by apply Hsh]. subst e'. destruct e as [y|]; [by left|]. destruct (Z.eqb_spec (ref i) 0); [|done]. injection Ee as <-.
      right. split; [lia|]. exists i. by rewrite Z.sub_diag.
    + destruct IH as [Ee HF]. subst e'. destruct e; [done|]. destruct (Z.eqb_spec (ref i) 0); [done|]. split; [done|]. by constructor.
Qed.
Lemma free_slot lk hs s : calm lk hs s -> zlen hs < cap -> exists i, i ∈ icache s /\ ref i = 0.
Proof using Hroom.
  intros C Hl. destruct (ro_free Hroom) as (zs & Hnd & Hz & Hf).
  assert (exists k, zget base k = Some 0 /\ k ∉ hs) as (k & Hk & Hn).
  { destruct (decide (Forall (fun k => k ∈ hs) zs)) as [Hall|Hex].
    - exfalso. rewrite Forall_forall in Hall. pose proof (submseteq_length zs hs (NoDup_submseteq zs hs Hnd Hall)). unfold zlen in *. lia.
    - apply not_Forall_Exists, Exists_exists in Hex as (k & Hk & Hn); [|intros x; apply _]. exists k. split; [by apply Hf|exact Hn]. }
  pose proof (zget_Some_range _ _ _ Hk) as Hr. rewrite <- (cm_len _ _ _ C) in Hr. destruct (zget_range _ _ Hr) as [i Hi]. exists i. split; [by eapply zget_elem_of|].
  rewrite (cm_ref _ _ _ C k i 0 Hi Hk), held_none by done. done.
Qed.

(** One more reference to a slot in use. *)
Lemma calm_up lk hs s k i : calm lk hs s -> zget (icache s) k = Some i -> dev i = d -> 0 < ref i -> zlen hs < cap ->
  calm lk (k :: hs) (put_slot k (set_ref (s32 (ref i + 1)) i) s).
Proof using Hroom.
  intros C Hi Hd Hp Hl. destruct (slot_ref lk hs s k i C Hi) as (b & Hb & Hbr & Hr). pose proof (held_range k hs). eapply calm_put; [exact C|exact Hi| | | |].
  - cbn [ref set_ref]. rewrite s32_small, held_cons_eq by (unfold in_s32; lia). lia.
  - intros _ _. destruct (cm_slot _ _ _ C k i Hi Hd Hp) as (v & Ef & Hv). exists v. split; [exact Ef|]. intros E. by apply loaded_ref, Hv.
  - intros j Hj. split; [by rewrite held_cons_ne|done].
  - intros j Hj. right. by apply (cm_lk _ _ _ C).
Qed.
(** A free slot taken. *)
Lemma calm_take lk hs s k i i' : calm lk hs s -> zget (icache s) k = Some i -> ref i = 0 -> ref i' = 1 -> flags i' = 0 ->
  k ∉ hs /\ calm lk (k :: hs) (put_slot k i' s).
Proof using Hroom.
  intros C Hi Hr0 Hr1 Hf. destruct (slot_ref lk hs s k i C Hi) as (b & Hb & Hbr & Hr). pose proof (held_range k hs).
  assert (Hk : k ∉ hs) by (intros Hin; pose proof (held_pos k hs Hin); lia). split; [done|]. eapply calm_put; [exact C|exact Hi| | | |].
  - rewrite held_cons_eq. lia.
  - intros _ _. exists false. split; [|done]. rewrite bool_decide_false; [done|]. intros E. by apply Hk, (cm_lk _ _ _ C).
  - intros j Hj. split; [by rewrite held_cons_ne|done].
  - intros j Hj. right. by apply (cm_lk _ _ _ C).
Qed.
Lemma put_slot_is s k i i' : zget (icache s) k = Some i -> dev i' = d -> is_slot (put_slot k i' s) k (inum i').
Proof using. intros Hi Hd. exists i'. split; [apply put_slot_get; by eapply zget_Some_range|done]. Qed.

Lemma wp_iget lk hs s n Q : calm lk hs s -> zlen hs < cap ->
  (forall k s', calm lk (k :: hs) s' -> is_slot s' k n -> same_slots hs s s' -> Q k s') -> wp (iget d n) Q s.
Proof using Hroom.
  intros C Hl HQ. unfold iget. eapply wp_bind, wp_acquire; [by apply (cm_lock _ _ _ C)|]. eapply wp_bind, wp_get. cbn [icache set_icache_lock].
  pose proof (icache_find_spec (icache s) 0 d n None) as Hf. destruct (icache_find (icache s) 0 d n None) as [[k|] e].
  - destruct Hf as (Hk0 & i & Hi & Hp & Hd & Hn). rewrite Z.sub_0_r in Hi. eapply wp_bind, wp_ipmod; [exact Hi|]. eapply wp_bind, wp_release; [done|]. apply wp_ret.
    cbn [icache set_icache set_icache_lock]. rewrite put_locked by apply (cm_lock _ _ _ C). apply HQ; [by apply calm_up| |intros j m _; by eapply is_slot_put].
    rewrite <- Hn. exact (put_slot_is s k i (set_ref (s32 (ref i + 1)) i) Hi Hd).
  - destruct e as [x|]; [|destruct Hf as [_ HF]; destruct (free_slot lk hs s C Hl) as (i & Hi & Hr); rewrite Forall_forall in HF; by destruct (HF i Hi)].
    destruct Hf as [|(Hk0 & i & Hi & Hp)]; [done|]. rewrite Z.sub_0_r in Hi. eapply wp_bind, wp_ipmod; [exact Hi|]. eapply wp_bind, wp_release; [done|]. apply wp_ret.
    cbn [icache set_icache set_icache_lock]. rewrite put_locked by apply (cm_lock _ _ _ C).
    match goal with |- Q _ (put_slot _ ?j _) => destruct (calm_take lk hs s x i j C Hi Hp eq_refl eq_refl) as [Hx C'] end.
    apply HQ; [exact C'|by eapply (put_slot_is s x i)|]. intros j m Hj (y & Hy & Hyd & Hyn). exists y. split; [|done]. cbn. by rewrite zget_zset_ne by (intros ->; done).
Qed.

(** The other way: [iput] of an inode that has links. *)
Lemma wp_iput k hs s n f Q : calm None (k :: hs) s -> is_slot s k n -> files !! n = Some f -> zlen hs < cap ->
  (forall s', calm None hs s' -> same_slots hs s s' -> Q tt s') -> wp (iput k) Q s.
Proof using Hroom Hvol.
  intros C (i & Hi & Hd & Hn) Hf Hhs HQ. destruct (slot_ref _ _ s k i C Hi) as (b & Hb & Hbr & Hr). rewrite held_cons_eq in Hr. pose proof (held_range k hs).
  unfold iput. eapply wp_bind, wp_acquire; [by apply (cm_lock _ _ _ C)|]. eapply wp_bind, wp_ipget; [exact Hi|].
  assert (Hs : slot_ok F None k i) by (apply (cm_slot _ _ _ C); [done|done|lia]). destruct (slot_has _ _ _ _ Hs) as [_ Hv].
  assert ((ref i =? 1) && has I_VALID i && (nlink i =? 0) = false) as ->.
  { destruct (has I_VALID i); [|by rewrite andb_false_r]. destruct (fa_inode _ _ _ _ (Hvol n f Hf) i Hd Hn (Hv eq_refl)) as (_ & Hl & _). rewrite (proj2 (Z.eqb_neq (nlink i) 0)) by done. apply andb_false_r. }
  eapply wp_bind, wp_ret, wp_bind, wp_ipmod; [exact Hi|]. apply wp_release; [done|]. cbn [icache set_icache set_icache_lock]. rewrite put_locked by apply (cm_lock _ _ _ C).
  apply HQ; [|intros j m _; by eapply is_slot_put]. eapply calm_put; [exact C|exact Hi| | | |done].
  - cbn [ref set_ref]. rewrite s32_small, held_cons_eq by (unfold in_s32; lia). lia.
  - intros _ _. destruct Hs as (v & Ef & Hv'). exists v. split; [exact Ef|]. intros E. by apply loaded_ref, Hv'.
  - intros j Hj. split; [by rewrite held_cons_ne|done].
Qed.

(** A slot we hold gets other flags and, it may be, the disk's inode. *)
Lemma calm_flags lk lk' hs s k i i' : calm lk hs s -> k ∈ hs -> zget (icache s) k = Some i -> ref i' = ref i -> slot_ok F lk' k i' ->
  (lk = None /\ lk' = Some k \/ lk = Some k /\ (lk' = None \/ lk' = Some k)) -> calm lk' hs (put_slot k i' s).
Proof using.
  intros C Hk Hi Hr Hs Hl. eapply calm_put; [exact C|exact Hi|lia|done| |].
  - intros j Hj. split; [done|]. destruct Hl as [[-> ->]|[-> [->| ->]]]; split; intros [= E]; congruence.
  - intros j Hj. by destruct Hl as [[-> ->]|[-> [->| ->]]]; simplify_eq.
Qed.

Lemma wp_ilock hs s k n f Q : calm None hs s -> k ∈ hs -> is_slot s k n -> files !! n = Some f ->
  (forall s' i, calm (Some k) hs s' -> zget (icache s') k = Some i -> dev i = d -> inum i = n -> loaded F i -> same_slots hs s s' -> Q tt s') ->
  wp (ilock (Some k)) Q s.
Proof using Hroom Hvol Hcalm.
  intros C Hk (i & Hi & Hd & Hn) Hf HQ. destruct (slot_ref _ _ s k i C Hi) as (b & Hb & Hbr & Hr). pose proof (held_pos k hs Hk). unfold ilock.
  assert (Hs : slot_ok F None k i) by (apply (cm_slot _ _ _ C); [done|done|lia]). destruct (slot_has _ _ _ _ Hs) as [Hbusy Hv].
  eapply wp_bind, wp_ipget; [exact Hi|]. rewrite (proj2 (Z.ltb_ge (ref i) 1)) by lia. eapply wp_bind, wp_acquire; [by apply (cm_lock _ _ _ C)|].
  eapply wp_bind, wp_ipget; [exact Hi|]. rewrite Hbusy, bool_decide_false by done. eapply wp_bind, wp_ipmod; [exact Hi|]. eapply wp_bind, wp_release; [done|].
  cbn [icache set_icache set_icache_lock]. rewrite put_locked by apply (cm_lock _ _ _ C). set (i1 := set_flags _ i). destruct Hs as (v & Ef & _). rewrite bool_decide_false in Ef by done.
  assert (Hfl : flags i1 = (if v then I_VALID else 0) + I_BUSY) by (cbn; rewrite Ef; by destruct v).
  assert (C1 : calm (Some k) hs (put_slot k i1 s)).
  { eapply calm_flags; [exact C|done|exact Hi|done| |by left]. exists v. rewrite bool_decide_true by done. split; [done|]. intros ->. apply loaded_flags, Hv. unfold has. by rewrite Ef. }
  assert (Hi1 : zget (icache (put_slot k i1 s)) k = Some i1) by (apply put_slot_get; by eapply zget_Some_range).
  eapply wp_bind, wp_ipget; [exact Hi1|]. destruct (slot_has F (Some k) k i1) as [_ Hv1]; [apply (cm_slot _ _ _ C1 k i1 Hi1 Hd); cbn; lia|].
  destruct (has I_VALID i1) eqn:Ev.
  { apply wp_ret. apply (HQ _ i1); [done|done|done|done|by apply Hv1|]. intros j m _. by eapply is_slot_put. }
  assert (v = false) as -> by (unfold has in Ev; rewrite Hfl in Ev; by destruct v). destruct (fa_block _ _ _ _ (Hvol n f Hf)) as [x Hx].
  change (dev i1) with (dev i). change (inum i1) with (inum i). rewrite Hd, Hn.
  eapply open_block; [apply (cm_at _ _ _ C1)|exact Hx|by apply not_open_empty|rewrite Hcalm, map_size_empty; lia|]. intros bp c Hbp Sh.
  eapply wp_bind, wp_ipmod; [exact Hi1|]. change (icache (with_disk c (put_slot k i1 s))) with (icache (put_slot k i1 s)).
  set (i2 := load_dinode x (dinode_off n) i1). set (s2 := set_icache (zset (icache (put_slot k i1 s)) k i2) (with_disk c (put_slot k i1 s))).
  assert (Hkr : 0 <= k < zlen (icache s)) by (by eapply zget_Some_range). assert (Hi2 : zget (icache s2) k = Some i2) by (apply zget_zset_eq; by eapply zget_Some_range).
  eapply (close_block bp d (IBLOCK n) x _ Q s2 F); [exact Sh|done|exact Hx|]. intros c' Sh'. eapply wp_bind, wp_ipmod; [exact Hi2|]. set (i3 := set_flags _ i2).
  assert (Hlo : loaded F i3).
  { apply loaded_flags. unfold i2. rewrite <- Hn. change (inum i) with (inum i1). apply loaded_load. change (dev i1) with (dev i). change (inum i1) with (inum i). by rewrite Hd, Hn. }
  assert (Es : set_icache (zset (icache (with_disk c' s2)) k i3) (with_disk c' s2) = with_disk c' (put_slot k i3 s)).
  { unfold s2, put_slot. cbn. unfold set_icache, with_disk. cbn. by rewrite !zset_zset. }
  rewrite Es. eapply wp_bind, wp_ipget; [apply zget_zset_eq; done|]. destruct (fa_inode _ _ _ _ (Hvol n f Hf) i3 Hd Hn Hlo) as (Ht & _). rewrite Ht.
  rewrite (proj2 (Z.eqb_neq (vtype f) 0)) by apply (fa_type _ _ _ _ (Hvol n f Hf)). apply wp_ret. apply (HQ _ i3); [|by apply zget_zset_eq|done|done|done|].
  - apply calm_disk; [|done]. eapply calm_flags; [exact C|done|exact Hi|done| |by left]. exists true. rewrite bool_decide_true by done. split; [cbn; rewrite Ef; done|done].
  - intros j m _. by eapply is_slot_put.
Qed.

Lemma wp_iunlock hs s k n Q : calm (Some k) hs s -> is_slot s k n ->
  (forall s', calm None hs s' -> same_slots hs s s' -> Q tt s') -> wp (iunlock (Some k)) Q s.
Proof using Hroom.
  intros C (i & Hi & Hd & Hn) HQ. destruct (slot_ref _ _ s k i C Hi) as (b & Hb & Hbr & Hr). pose proof (held_pos k hs (cm_lk _ _ _ C k eq_refl)). unfold iunlock.
  assert (Hs : slot_ok F (Some k) k i) by (apply (cm_slot _ _ _ C); [done|done|lia]). destruct (slot_has _ _ _ _ Hs) as [Hbusy _]. rewrite bool_decide_true in Hbusy by done.
  eapply wp_bind, wp_ipget; [exact Hi|]. rewrite Hbusy, (proj2 (Z.ltb_ge (ref i) 1)) by lia. cbn [negb orb]. eapply wp_bind, wp_acquire; [by apply (cm_lock _ _ _ C)|].
  eapply wp_bind, wp_ipmod; [exact Hi|]. apply wp_release; [done|]. cbn [icache set_icache set_icache_lock]. rewrite put_locked by apply (cm_lock _ _ _ C).
  apply HQ; [|intros j m _; by eapply is_slot_put]. eapply calm_flags; [exact C|by apply (cm_lk _ _ _ C)|exact Hi|done| |right; split; [done|by left]].
  destruct Hs as (v & Ef & Hv). exists v. rewrite bool_decide_false, bool_decide_true in * by done. split; [cbn; rewrite Ef; by destruct v|]. intros E. by apply loaded_flags, Hv.
Qed.

(** ** Directories *)

(** Block [j] of a file. *)
Lemma file_block_at n f i j : files !! n = Some f -> dev i = d -> inum i = n -> loaded F i -> 0 <= j -> 512 * j + 512 <= zlen (vdata f) ->
  exists b x, file_lookup F i j = Some b /\ BlockDev.disk F !! (d, b) = Some x /\ x = part (512 * j) 512 (vdata f).
Proof using Hvol.
  intros Hf Hd Hn Hl Hj Hs. destruct (fa_inode _ _ _ _ (Hvol n f Hf) i Hd Hn Hl) as (_ & _ & _ & Hm & Hb).
  destruct (Hm (512 * j)) as (b & x & Hlk & Hx & Hlen & _); [lia|]. unfold BSIZE in Hlk. replace (512 * j / 512) with j in Hlk by dlia. exists b, x. split; [done|]. split; [done|].
  pose proof (part_rbytes (file_lookup F i) d F (512 * j) 512 b x) as E. unfold BSIZE in E. replace (512 * j / 512) with j in E by dlia.
  replace (512 * j mod 512) with 0 in E by dlia. assert (E1 : part 0 512 x = x) by (unfold part; rewrite drop_0; apply take_ge; lia).
  rewrite E1 in E. rewrite E by (done || lia). rewrite <- Hb, part_rbytes_all by lia. done.
Qed.

Lemma wp_dirlookup_loop n f nm hs k i : files !! n = Some f -> dir_whole f -> length nm = 14%nat -> zlen hs < cap -> dev i = d -> inum i = n -> loaded F i ->
  forall fuel j s Q, calm (Some k) hs s -> zget (icache s) k = Some i -> 0 <= j -> 512 * j <= zlen (vdata f) -> zlen (vdata f) / 512 - j < Z.of_nat fuel ->
  match find_ent (Z.to_nat ((zlen (vdata f) - 512 * j) / 16)) (vdata f) (cstring 14 nm) (512 * j) with
  | Some (o, m) => forall k' s', calm (Some k) (k' :: hs) s' -> is_slot s' k' m -> same_slots hs s s' -> Q (Some (k', o)) s'
  | None => forall s', calm (Some k) hs s' -> same_slots hs s s' -> Q None s'
  end -> wp (dirlookup_loop fuel k nm (512 * j)) Q s.
Proof using Hroom Hvol Hcalm.
  intros Hf Hw Hnm Hhs Hd Hn Hl. pose proof (fa_size _ _ _ _ (Hvol n f Hf)) as Hsz. destruct (fa_inode _ _ _ _ (Hvol n f Hf) i Hd Hn Hl) as (_ & _ & Eis & _). unfold dir_whole in Hw.
  induction fuel as [|fuel IH]; intros j s Q C Hi Hj Hjd Hfu HQ; [dlia|]. cbn [dirlookup_loop]. eapply wp_bind, wp_ipget; [exact Hi|]. rewrite Eis.
  destruct (Z.ltb_spec (512 * j) (vsize f)) as [Hlt|Hge].
  - assert (Hj1 : 512 * j + 512 <= zlen (vdata f)) by dlia. destruct (file_block_at n f i j Hf Hd Hn Hl Hj Hj1) as (b & x & Hb & Hx & Ex).
    unfold BSIZE. replace (512 * j / 512) with j by dlia. eapply wp_bind, (finds_file k i F Hcalm j b); [apply (cm_at _ _ _ C)|exact Hi|exact Hb|]. intros c Sh. rewrite Hd.
    eapply open_block; [exact Sh|exact Hx|by apply not_open_empty|rewrite Hcalm, map_size_empty; lia|]. intros bp c1 Hbp Sh1.
    assert (Hlx : zlen x = 512) by (rewrite Ex; apply part_length; lia). eapply wp_bind. apply wp_iff. rewrite dir_scan_ok by (done || lia). eexists _, _. split; [reflexivity|].
    rewrite with_disk_twice. eapply close_block; [exact Sh1|done|exact Hx|]. intros c2 Sh2. rewrite with_disk_twice. assert (C2 : calm (Some k) hs (with_disk c2 s)) by by apply calm_disk.
    rewrite Ex, find_ent_part by lia. rewrite Z.add_0_r. replace (Z.to_nat ((zlen (vdata f) - 512 * j) / 16)) with (32 + Z.to_nat ((zlen (vdata f) - 512 * (j + 1)) / 16))%nat in HQ by dlia.
    rewrite find_ent_app in HQ. pose proof (find_ent_range 32 (vdata f) (cstring 14 nm) (512 * j)) as Hrng. destruct (find_ent 32 (vdata f) (cstring 14 nm) (512 * j)) as [[o m]|].
    + specialize (Hrng _ eq_refl). cbn [fst] in Hrng. change ((fun r : Z * Z => (r.1 - 512 * j, r.2)) <$> Some (o, m)) with (Some (o - 512 * j, m)). cbv iota.
      eapply wp_bind, (wp_iget (Some k) hs); [exact C2|done|]. intros k' s' C' Hs' Hk'. apply wp_ret. replace (u32 (512 * j + (o - 512 * j))) with o by (rewrite u32_small by (unfold in_u32; dlia); lia). by apply HQ.
    + change ((fun r : Z * Z => (r.1 - 512 * j, r.2)) <$> None) with (@None (Z * Z)). cbv iota. rewrite u32_small by (unfold in_u32; dlia). replace (512 * j + 512) with (512 * (j + 1)) by lia.
      apply IH; [exact C2|exact Hi|lia|lia|lia|]. replace (512 * j + 16 * Z.of_nat 32) with (512 * (j + 1)) in HQ by lia. exact HQ.
  - apply wp_ret. replace (Z.to_nat ((zlen (vdata f) - 512 * j) / 16)) with 0%nat in HQ by dlia. cbn [find_ent] in HQ. apply HQ; [done|by intros k1 m1].
Qed.
Lemma wp_dirlookup n f nm hs k i s Q : files !! n = Some f -> vtype f = T_DIR -> dir_whole f -> length nm = 14%nat -> zlen hs < cap -> dev i = d -> inum i = n -> loaded F i ->
  calm (Some k) hs s -> zget (icache s) k = Some i ->
  match dir_find (vdata f) (cstring 14 nm) with
  | Some (o, m) => forall k' s', calm (Some k) (k' :: hs) s' -> is_slot s' k' m -> same_slots hs s s' -> Q (Some (k', o)) s'
  | None => forall s', calm (Some k) hs s' -> same_slots hs s s' -> Q None s'
  end -> wp (dirlookup k nm) Q s.
Proof using Hroom Hvol Hcalm.
  intros Hf Ht Hw Hnm Hhs Hd Hn Hl C Hi HQ. unfold dirlookup. eapply wp_bind, wp_ipget; [exact Hi|]. destruct (fa_inode _ _ _ _ (Hvol n f Hf) i Hd Hn Hl) as (Eit & _ & Eis & _).
  rewrite Eit, Ht. change (negb (T_DIR =? T_DIR)) with false. pose proof (fa_size _ _ _ _ (Hvol n f Hf)) as Hsz. unfold dir_whole in Hw.
  eapply (wp_dirlookup_loop n f nm hs k i Hf Hw Hnm Hhs Hd Hn Hl _ 0); [exact C|exact Hi|lia|unfold zlen; lia|rewrite Eis; unfold BSIZE; dlia|]. rewrite Z.mul_0_r, Z.sub_0_r. exact HQ.
Qed.

(** ** Paths *)

(** The inode a list of names leads to from inode [n]. *)
Fixpoint walk (n : Z) (es : list (list Z)) : option Z :=
  match es with
  | [] => Some n
  | e :: es => f ← files !! n; if vtype f =? T_DIR then r ← dir_find (vdata f) (take 14 e); walk r.2 es else None
  end.
(** What the directories name is there. *)
Definition closed : Prop := forall n f e o m, files !! n = Some f -> vtype f = T_DIR -> dir_find (vdata f) e = Some (o, m) -> is_Some (files !! m).

Lemma calm_perm lk hs hs' s : hs ≡ₚ hs' -> calm lk hs s -> calm lk hs' s.
Proof using.
  intros Hp [H1 H2 H3 Hcw H4 H5 H6]. split; [done..| |].
  - intros k i b Hi Hb. rewrite (H5 k i b Hi Hb). unfold held, zlen. by rewrite Hp.
  - intros k Hk. rewrite <- Hp. by apply H6.
Qed.
Lemma wp_iunlockput k hs s n f Q : calm (Some k) (k :: hs) s -> is_slot s k n -> files !! n = Some f -> zlen hs < cap ->
  (forall s', calm None hs s' -> same_slots hs s s' -> Q tt s') -> wp (iunlockput k) Q s.
Proof using Hroom Hvol.
  intros C Hs Hf Hl HQ. unfold iunlockput. eapply wp_bind, wp_iunlock; [exact C|exact Hs|]. intros s1 C1 S1.
  eapply wp_iput; [exact C1|apply S1; [left|exact Hs]|exact Hf|done|]. intros s2 C2 S2. apply HQ; [done|]. intros j m Hj Hm. apply S2; [done|]. apply S1; [by right|done].
Qed.

Lemma wp_namex_loop hs fuel : zlen hs + 1 < cap -> forall s ip n path nm Q, calm None (ip :: hs) s -> is_slot s ip n -> (closed -> is_Some (files !! n)) -> Forall (fun c => c <> 0) path -> length nm = 14%nat ->
  (length path < fuel)%nat ->
  match walk n (components path) with
  | Some m => forall k s' nm', calm None (k :: hs) s' -> is_slot s' k m -> same_slots hs s s' -> Q (Some k, nm') s'
  | None => closed /\ forall s' nm', calm None hs s' -> same_slots hs s s' -> Q (None, nm') s'
  end -> wp (namex_loop fuel ip path false nm) Q s.
Proof using Hroom Hvol Hcalm.
  intros Hcap. assert (Hz : forall k : Z, zlen (k :: hs) = zlen hs + 1) by (intros k; unfold zlen; cbn; lia).
  induction fuel as [|fuel IH]; intros s ip n path nm Q C Hs Hsome Hp Hnm Hfu HQ; [lia|]. cbn [namex_loop]. pose proof (skipelem_takes_component path nm Hp Hnm) as Hsk.
  pose proof (skipelem_bytes path nm Hp) as Hsb. destruct (skipelem path nm) as [[rest nm']|]; [|rewrite Hsk in HQ; apply wp_ret, HQ; [exact C|exact Hs|by intros j m _]].
  destruct Hsk as (e & Ecs & Hce & Hlen & _ & _ & Hshort). rewrite Ecs in HQ. cbn [walk] in HQ. destruct (files !! n) as [f|] eqn:Hf; [|destruct HQ as [Hcl _]; by destruct (Hsome Hcl)].
  cbn [mbind option_bind] in HQ. eapply wp_bind, (wp_ilock (ip :: hs)); [exact C|left|exact Hs|exact Hf|]. intros s1 i C1 Hi Hd Hn Hl S1. eapply wp_bind, wp_ipget; [exact Hi|].
  destruct (fa_inode _ _ _ _ (Hvol n f Hf) i Hd Hn Hl) as (Ht & _). rewrite Ht. assert (Hs1 : is_slot s1 ip n) by (apply S1; [left|done]).
  assert (T1 : same_slots hs s s1) by (intros j m Hj; apply S1; by right).
  destruct (Z.eqb_spec (vtype f) T_DIR) as [Etd|Ntd]; cbn [negb andb].
  - eapply wp_bind, (wp_dirlookup n f nm' (ip :: hs) ip i); [exact Hf|done|by apply (fa_dir _ _ _ _ (Hvol n f Hf))|done|rewrite Hz; lia|done|done|done|exact C1|exact Hi|]. rewrite Hce.
    destruct (dir_find (vdata f) (take 14 e)) as [[o m]|] eqn:Ef.
    + intros k' s2 C2 Hk' S2. eapply wp_bind, (wp_iunlockput ip (k' :: hs)); [eapply calm_perm; [|exact C2]; apply Permutation_swap|apply S2; [left|done]|exact Hf|rewrite Hz; lia|].
      intros s3 C3 S3. cbn [mbind option_bind snd] in HQ. assert (T3 : same_slots hs s s3) by (intros j x Hj Hx; apply S3; [by right|]; apply S2; [by right|]; by apply T1).
      eapply IH; [exact C3|apply S3; [left|exact Hk']|intros Hcl; by eapply Hcl|by eapply Hsb|done|lia|]. destruct (walk m (components rest)) as [m'|].
      * intros k s4 nm4 C4 H4 S4. apply HQ; [done|done|]. intros j x Hj Hx. apply S4, T3; done.
      * destruct HQ as [Hcl HQ]. split; [done|]. intros s4 nm4 C4 S4. apply HQ; [done|]. intros j x Hj Hx. apply S4, T3; done.
    + intros s2 C2 S2. eapply wp_bind, (wp_iunlockput ip hs); [exact C2|apply S2; [left|done]|exact Hf|lia|]. intros s3 C3 S3. apply wp_ret. apply HQ; [done|].
      intros j x Hj Hx. apply S3, S2; [done|by right|]. by apply T1.
  - eapply wp_bind, (wp_iunlockput ip hs); [exact C1|done|exact Hf|lia|]. intros s2 C2 S2. apply wp_ret. apply HQ; [done|]. intros j x Hj Hx. by apply S2, T1.
Qed.

(** Where a path starts. *)
Definition starts (path : list Z) s (n : Z) : Prop :=
  if bool_decide (head path = Some slash) then n = ROOTINO /\ d = ROOTDEV
  else exists i, zget (icache s) (cwd s) = Some i /\ dev i = d /\ inum i = n /\ 0 < ref i.

Lemma wp_idup hs s k i Q : calm None hs s -> zget (icache s) k = Some i -> dev i = d -> 0 < ref i -> zlen hs < cap ->
  (forall s', calm None (k :: hs) s' -> is_slot s' k (inum i) -> same_slots hs s s' -> Q k s') -> wp (idup k) Q s.
Proof using Hroom.
  intros C Hi Hd Hp Hl HQ. unfold idup. eapply wp_bind, wp_acquire; [by apply (cm_lock _ _ _ C)|]. eapply wp_bind, wp_ipmod; [exact Hi|]. eapply wp_bind, wp_release; [done|]. apply wp_ret.
  cbn [icache set_icache set_icache_lock]. rewrite put_locked by apply (cm_lock _ _ _ C). apply HQ; [by apply calm_up|exact (put_slot_is s k i (set_ref (s32 (ref i + 1)) i) Hi Hd)|].
  intros j m _. by eapply is_slot_put.
Qed.

Lemma wp_namei hs s n path nm Q : zlen hs + 1 < cap -> calm None hs s -> starts path s n -> (closed -> is_Some (files !! n)) -> Forall (fun c => c <> 0) path -> length nm = 14%nat ->
  match walk n (components path) with
  | Some m => forall k s', calm None (k :: hs) s' -> is_slot s' k m -> same_slots hs s s' -> Q (Some k) s'
  | None => closed /\ forall s', calm None hs s' -> same_slots hs s s' -> Q None s'
  end -> wp (namei path nm) Q s.
Proof using Hroom Hvol Hcalm.
  intros Hcap C Hst Hf Hp Hnm HQ. unfold namei, namex. eapply wp_bind, wp_bind, wp_get, wp_bind.
  assert (Hloop : forall k s', calm None (k :: hs) s' -> is_slot s' k n -> same_slots hs s s' -> wp (namex_loop (S (length path)) k path false nm) (fun a s => wp (mret a.1) Q s) s').
  { intros k s' C' Hk S'. eapply (wp_namex_loop hs); [done|exact C'|exact Hk|done|done|done|lia|]. destruct (walk n (components path)).
    - intros k' s2 nm' C2 Hk' S2. apply wp_ret. apply HQ; [done|done|]. intros j x Hj Hx. by apply S2, S'.
    - destruct HQ as [Hcl HQ]. split; [done|]. intros s2 nm' C2 S2. apply wp_ret. apply HQ; [done|]. intros j x Hj Hx. by apply S2, S'. }
  unfold starts in Hst. destruct path as [|c path]; cbn [head] in Hst.
  - rewrite bool_decide_false in Hst by done. destruct Hst as (i & Hi & Hd & <- & Hr). eapply wp_idup; [exact C|exact Hi|done|done|lia|]. exact (Hloop (cwd s)).
  - destruct (Z.eqb_spec c slash) as [->|Hc].
    + rewrite bool_decide_true in Hst by done. destruct Hst as [-> <-]. eapply (wp_iget None hs); [exact C|lia|]. intros k s' C' Hk S'. by apply Hloop.
    + rewrite bool_decide_false in Hst by congruence. destruct Hst as (i & Hi & Hd & <- & Hr). eapply wp_idup; [exact C|exact Hi|done|done|lia|]. exact (Hloop (cwd s)).
Qed.

(** [namei] follows the names of the path from inode to inode, and ends with one
    more reference to the inode found and none to those on the way. *)
Theorem namei_walks hs s n path nm : zlen hs + 1 < cap -> calm None hs s -> starts path s n -> (closed -> is_Some (files !! n)) -> Forall (fun c => c <> 0) path -> length nm = 14%nat ->
  match walk n (components path) with
  | Some m => exists k s', namei path nm s = Ret (Some k, s') /\ calm None (k :: hs) s' /\ is_slot s' k m
  | None => closed -> exists s', namei path nm s = Ret (None, s') /\ calm None hs s'
  end.
Proof using Hroom Hvol Hcalm.
  intros Hcap C Hst Hf Hp Hnm. pose proof (wp_namei hs s n path nm (fun r s' => match walk n (components path) with
    | Some m => exists k, r = Some k /\ calm None (k :: hs) s' /\ is_slot s' k m | None => r = None /\ calm None hs s' end) Hcap C Hst Hf Hp Hnm) as W.
  destruct (walk n (components path)) as [m|].
  - apply wp_iff in W as (r & s' & E & k & -> & C' & Hk); [by exists k, s'|]. intros k s' C' Hk _. by exists k.
  - intros Hcl. apply wp_iff in W as (r & s' & E & -> & C'); [by exists s'|]. by split.
Qed.

(** Opening a file by its path and reading it. *)
Lemma read_path s n m path nm f off k : 1 < cap -> calm None [] s -> starts path s n -> (closed -> is_Some (files !! n)) -> Forall (fun c => c <> 0) path -> length nm = 14%nat ->
  walk n (components path) = Some m -> files !! m = Some f -> vtype f <> T_DEV -> 0 <= off -> 0 <= k -> off + k <= vsize f -> off + k <= zlen (vdata f) ->
  exists s', (ip ← namei path nm; ilock ip;; readi (default 0 ip) off k) s = Ret ((k, part off k (vdata f)), s') /\ at_ s' F.
Proof using Hroom Hvol Hcalm.
  intros Hcap C Hst Hn Hp Hnm Hw Hf Ht Ho Hk Hsz Hd. pose proof (wp_namei [] s n path nm (fun r s => wp (ilock r;; readi (default 0 r) off k) (fun v s' => v = (k, part off k (vdata f)) /\ at_ s' F) s) Hcap C Hst Hn Hp Hnm) as W.
  rewrite Hw in W. assert (W' : wp (ip ← namei path nm; ilock ip;; readi (default 0 ip) off k) (fun v s' => v = (k, part off k (vdata f)) /\ at_ s' F) s).
  { apply wp_bind, W. intros ip s1 C1 Hs1 _. eapply wp_bind, (wp_ilock [ip]); [exact C1|left|exact Hs1|exact Hf|]. intros s2 i C2 Hi Hdi Hni Hl _. cbn [default from_option id].
    destruct (fa_inode _ _ _ _ (Hvol m f Hf) i Hdi Hni Hl) as (Eit & _ & Eis & Hm & Hb). pose proof (fa_size _ _ _ _ (Hvol m f Hf)).
    eapply (readi_found (file_lookup F i)); [apply (cm_at _ _ _ C2)|rewrite Hcalm, map_size_empty; lia|exact Hi|by rewrite Eit|by apply finds_file| |done|done|by rewrite Eis|rewrite Eis; lia|].
    - rewrite Hdi. intros p Hpr. apply Hm. lia.
    - intros c Sh. split; [|exact Sh]. f_equal. rewrite Hdi, <- (part_rbytes_all _ _ _ off k (zlen (vdata f))) by lia. by rewrite Hb. }
  apply wp_iff in W' as (v & s' & E & -> & A). by exists s'.
Qed.
End Cache.
