(* ===== verification/FsDemo.v ===== *)
(** The file system over the buffer cache on a concrete volume, where the
    theorems about files apply. *)
From S2P Require Import Prelude Bytes BlockDev CString Bio BioSpec Fs FsSpec FsPath FsRw.
Import Bio.
Import Fs.

#[export] Instance no_devices : DevSw bstate :=
  Build_DevSw bstate (fun _ => false) (fun _ _ _ => mret (-1, [])) (fun _ => false) (fun _ _ _ _ => mret (-1)).

(** Three hundred blocks on drive 1: the superblock, a block of inodes (2), the
    bitmap in block 4 with the first [n] blocks marked, data from block 10 on. *)
Definition sb : superblock := mkSb 300 290 8.
Definition sb_block : list Z := to_le 4 300 ++ to_le 4 290 ++ to_le 4 8 ++ replicate 500 0.
Definition bitmap_byte (n k : Z) : Z := if 8 * k + 8 <=? n then 255 else if 8 * k <? n then 2 ^ (n - 8 * k) - 1 else 0.
Definition bitmap_block (n : Z) : list Z := (fun k => bitmap_byte n (Z.of_nat k)) <$> seq 0 512.
Definition volume_disk (n : Z) : gmap (Z * Z) (list Z) :=
  <[(1, 1) := sb_block]> (<[(1, 4) := bitmap_block n]> (<[(1, 2) := replicate 512 0]>
    (list_to_map ((fun k => ((1, Z.of_nat k), replicate 512 7)) <$> seq 10 290)))).
Definition F (n : Z) : flat := mkFlat (volume_disk n) ∅.

(** Inode 2: an extent file whose blocks 0, 1, .. are blocks 10, 11, .. *)
Definition file (l : Z) : inode := mkInode 1 2 1 3 T_EXTENT 0 0 1 (l * 512) [10 * 256 + l; 0; 0; 0; 0; 0; 0; 0; 0; 0; 0; 0; 0].
Definition state (l : Z) : fstate bstate := mkF [file l] false 0 (booted true (volume_disk (10 + l))).

Lemma volume_dom n a : is_Some (volume_disk n !! a) -> a.1 = 1 /\ 0 <= a.2 < 300.
Proof.
  unfold volume_disk. rewrite !lookup_insert_is_Some.
  intros [<-|[_ [<-|[_ [<-|[_ [x Hx]]]]]]]; [cbn; lia..|].
  apply elem_of_list_to_map_2, list_elem_of_fmap in Hx as (k & [= ->] & Hk%elem_of_seq). cbn. lia.
Qed.

Lemma volume_addressable n a : is_Some (volume_disk n !! a) -> addressable true a.
Proof. intros [E1 E2]%volume_dom. split; [right; auto|lia]. Qed.

Lemma state_shows l : at_ (state l) (F (10 + l)).
Proof. apply booted_shows, volume_addressable. Qed.

Lemma map_at_four b : 0 <= b < 4096 -> map_at 1 sb b = (1, 4).
Proof. intros Hb. unfold map_at, BBLOCK. rewrite (Z.div_small b) by (unfold BPB; lia). reflexivity. Qed.

Lemma covered_range b : covered sb b <-> 0 <= b < 4096.
Proof.
  unfold covered. change (size sb) with 300. unfold BPB.
  pose proof (Z.div_mod b 4096). pose proof (Z.mod_pos_bound b 4096). lia.
Qed.

Lemma map_lookup n : volume_disk n !! (1, 4) = Some (bitmap_block n).
Proof. unfold volume_disk. rewrite lookup_insert_ne by done. apply lookup_insert_eq. Qed.

Lemma data_lookup n b : 10 <= b < 300 -> volume_disk n !! (1, b) = Some (replicate 512 7).
Proof.
  intros Hb. unfold volume_disk. rewrite !lookup_insert_ne by (intros [= ?]; lia).
  apply elem_of_list_to_map_1.
  - rewrite <- list_fmap_compose. apply NoDup_fmap_2; [|apply NoDup_seq]. intros j k [= ?]. lia.
  - apply list_elem_of_fmap. exists (Z.to_nat b). split; [by rewrite Z2Nat.id by lia|]. apply elem_of_seq. lia.
Qed.

Lemma not_open n a : ~ is_open (F n) a.
Proof. intros (h & x & Hx). cbn in Hx. by rewrite lookup_empty in Hx. Qed.

Lemma demo_volume n : volume 1 sb (F n).
Proof.
  split; cbn [BlockDev.disk opened F].
  - exists sb_block. split; [apply lookup_insert_eq|vm_compute; reflexivity].
  - cbn. lia.
  - cbn. lia.
  - intros b Hb. exists (bitmap_block n). change (size sb) with 300 in Hb. rewrite map_at_four by lia.
    split; [apply map_lookup|]. unfold bitmap, bitmap_block. by rewrite length_fmap, length_seq.
  - intros. apply not_open.
  - apply not_open.
  - cbn. rewrite map_size_empty. lia.
Qed.

Lemma used_bit n b : 0 <= b < 4096 -> used 1 sb (F n) b = bit_set (bitmap_block n) b.
Proof.
  intros Hb. unfold used. cbn [BlockDev.disk F]. rewrite map_at_four, map_lookup by done.
  by rewrite Z.mod_small by (unfold BPB; lia).
Qed.

Lemma demo_data b : 10 <= b -> data_block 1 sb b.
Proof.
  intros Hb. split; [lia|]. intros c Hc. rewrite map_at_four by (by apply covered_range). intros [= E]. lia.
Qed.

(** The marks of two bitmaps, computed. *)
Definition marked_upto (n : Z) : Prop :=
  bit_set (bitmap_block n) n = false /\ forall c, 0 <= c < n -> bit_set (bitmap_block n) c = true.

Lemma marked_check n :
  negb (bit_set (bitmap_block n) n) && forallb (fun k => bit_set (bitmap_block n) (Z.of_nat k)) (seq 0 (Z.to_nat n)) = true ->
  marked_upto n.
Proof.
  intros [H1 H2]%andb_true_iff. split; [by apply negb_true_iff|]. intros c Hc.
  rewrite forallb_forall in H2. specialize (H2 (Z.to_nat c)). rewrite in_seq, Z2Nat.id in H2 by lia. apply H2. lia.
Qed.

Lemma demo_first_free n : 0 <= n < 300 -> marked_upto n -> first_free 1 sb (F n) n.
Proof.
  intros Hn [H1 H2]. split; [apply covered_range; lia|]. split; [by rewrite used_bit by lia|].
  intros c Hc. rewrite used_bit by lia. by apply H2.
Qed.

Lemma file_slots l k : slot k -> k <> 0 -> addr_at (file l) k = 0.
Proof. intros [-> | [-> | [-> | [-> | [-> | ->]]]]]; done. Qed.
Lemma file_firsts l k : slot k -> first (file l) k = 0.
Proof. intros [-> | [-> | [-> | [-> | [-> | ->]]]]]; reflexivity. Qed.

Lemma file_zero l : 0 <= l < 256 -> ext_start (addr_at (file l) 0) = 10 /\ len (file l) 0 = l.
Proof. intros Hl. change (addr_at (file l) 0) with (256 * 10 + l). unfold len. by apply ext_make. Qed.

Lemma file_inside l k bn : 0 <= l < 256 -> slot k -> inside (file l) k bn -> k = 0 /\ 0 <= bn < l /\ phys (file l) k bn = 10 + bn.
Proof.
  intros Hl Hk Hi. unfold inside in Hi. rewrite (file_firsts _ _ Hk) in Hi.
  destruct (file_zero l Hl) as [E1 E2]. destruct (decide (k = 0)) as [->|N].
  - rewrite E2 in Hi. split; [done|]. split; [lia|]. unfold phys. rewrite E1, file_firsts by done. lia.
  - unfold len in Hi. rewrite (file_slots _ _ Hk N) in Hi. change (ext_len 0) with 0 in Hi. lia.
Qed.

Lemma demo_file l : 0 <= l < 256 -> marked_upto (10 + l) -> ext_file 1 sb (F (10 + l)) (file l).
Proof.
  intros Hl [_ Hm]. constructor.
  - constructor; [done| |intros k Hk; rewrite file_firsts by done; lia].
    intros k. unfold addr_at. destruct (Z.to_nat k) as [|n] eqn:E; [cbn; lia|].
    do 12 (destruct n as [|n]; [cbn; lia|]). destruct n; cbn; lia.
  - intros k k' bn Hk Hk' [-> _]%file_inside [-> _]%file_inside; done.
  - intros k bn Hk (-> & Hbn & Ep)%file_inside; [|done..]. rewrite Ep. cbv zeta.
    split; [apply covered_range; lia|]. split; [apply demo_data; lia|].
    split; [rewrite used_bit by lia; apply Hm; lia|]. cbn. rewrite data_lookup by lia. by eexists.
  - intros k bn k' bn' Hk Hk' (_ & _ & E1)%file_inside (_ & _ & E2)%file_inside; [lia|done..].
Qed.

Lemma marked_12 : marked_upto 12.
Proof. apply marked_check. vm_compute. reflexivity. Qed.
Lemma marked_265 : marked_upto 265.
Proof. apply marked_check. vm_compute. reflexivity. Qed.

Lemma balloc_bfree_roundtrip_witness :
  exists c, (a ← balloc 1; bfree 1 a;; mret a) (state 2) = Ret (12, with_disk c (state 2)).
Proof.
  destruct (balloc_bfree_roundtrip 1 sb (F 12) 12 (replicate 512 7) (state 2)) as (c & F' & E & _).
  - apply (state_shows 2).
  - apply demo_volume.
  - apply demo_first_free; [lia|apply marked_12].
  - apply demo_data. lia.
  - apply data_lookup. lia.
  - apply not_open.
  - exists c. exact E.
Defined.

(** Block 2 of a two-block file goes to block 12, behind its extent. *)
Lemma bmap_extent_allocates_witness :
  exists s' i', bmap 0 2 (state 2) = Ret (12, s') /\ zget (icache s') 0 = Some i' /\
    ext_lookup i' 2 = Some 12 /\ ext_lookup i' 1 = Some 11.
Proof.
  destruct (bmap_extent_allocates sb (F 12) 12 2 (state 2) 0 (file 2)) as (s' & i' & F' & E & Ei & E2 & Ec & _).
  - apply (state_shows 2).
  - apply demo_volume.
  - apply (demo_file 2); [lia|apply marked_12].
  - reflexivity.
  - reflexivity.
  - lia.
  - reflexivity.
  - split; [exists 2; split; [right; left; reflexivity|reflexivity]|].
    intros k Hk Ek. rewrite file_firsts in Ek by exact Hk. lia.
  - apply demo_first_free; [lia|apply marked_12].
  - apply demo_data. lia.
  - lia.
  - exists (replicate 512 7). apply data_lookup. cbn. lia.
  - exists s', i'. split; [exact E|]. split; [exact Ei|]. split; [exact E2|]. rewrite Ec by lia. reflexivity.
Defined.

(** The 256th block of a full extent. *)
Lemma bmap_full_extent_lost_witness :
  exists s' i', bmap 0 255 (state 255) = Ret (265, s') /\ zget (icache s') 0 = Some i' /\
    is_Some (ext_lookup (file 255) 100) /\ ext_lookup i' 100 = None.
Proof.
  destruct (bmap_full_extent_lost sb (F 265) 265 255 (state 255) 0 (file 255) 0) as (s' & i' & E & Ei & E1 & E2).
  - apply (state_shows 255).
  - apply demo_volume.
  - apply (demo_file 255); [lia|apply marked_265].
  - reflexivity.
  - reflexivity.
  - left. reflexivity.
  - reflexivity.
  - reflexivity.
  - lia.
  - reflexivity.
  - intros k Hk Ek. rewrite file_firsts in Ek by exact Hk. destruct (decide (k = 0)) as [->|N]; [reflexivity|].
    unfold len in Ek. rewrite file_slots in Ek by assumption. change (ext_len 0) with 0 in Ek. lia.
  - apply demo_first_free; [lia|apply marked_265].
  - reflexivity.
  - exists s', i'. split; [exact E|]. split; [exact Ei|]. rewrite file_firsts in E1, E2 by (left; reflexivity).
    split; [apply E1; lia|apply E2; lia].
Defined.

Lemma namex_ends_witness :
  namex_loop 20 0 (bytes "a/b") false (replicate 14 0) (state 2) =
  namex_loop 4 0 (bytes "a/b") false (replicate 14 0) (state 2).
Proof. apply (namex_ends 20 (bytes "a/b") 0 false (replicate 14 0) (state 2)). vm_compute. repeat constructor. Defined.

(** Three bytes across the boundary of blocks 10 and 11. *)
Lemma demo_mapped : mapped (F 12) (file 2) 510 (zlen [1; 2; 3]).
Proof.
  intros p Hp. change (zlen [1; 2; 3]) with 3 in Hp.
  assert (p = 510 \/ p = 511 \/ p = 512) as [-> | [-> | ->]] by lia.
  - exists 10, (replicate 512 7). (split; [reflexivity|]; split; [apply data_lookup; lia|]; split; [reflexivity|apply not_open]).
  - exists 10, (replicate 512 7). (split; [reflexivity|]; split; [apply data_lookup; lia|]; split; [reflexivity|apply not_open]).
  - exists 11, (replicate 512 7). (split; [reflexivity|]; split; [apply data_lookup; lia|]; split; [reflexivity|apply not_open]).
Qed.

Lemma writei_readi_roundtrip_witness :
  exists s', (n ← writei 0 [1; 2; 3] 510 (zlen [1; 2; 3]); r ← readi 0 510 (zlen [1; 2; 3]); mret (n, r)) (state 2) =
    Ret ((3, (3, [1; 2; 3])), s').
Proof.
  destruct (writei_readi_roundtrip 1 sb 0 (file 2) [1; 2; 3] 510 (state 2) (F 12)) as (s' & F' & E & _).
  - apply (state_shows 2).
  - cbn. rewrite map_size_empty. lia.
  - reflexivity.
  - reflexivity.
  - apply (demo_file 2); [lia|apply marked_12].
  - apply demo_mapped.
  - lia.
  - vm_compute. discriminate.
  - vm_compute. reflexivity.
  - exists s'. exact E.
Defined.
