(* ===== verification/Exec.v ===== *)
(** [exec] ([src/5/xv6/exec.c], with [loaduvm] of [vm.c] and the structures of
    [elf.h]): a program of the file system becomes a process's address space.

    Files are reached through the interface [FileOps], which the file system
    implements. *)
From S2P Require Import Prelude Bytes BlockDev CString Fs Kalloc Vm.

(** [namei] and [ilock], [readi], and [iunlockput], as [exec] uses them. *)
Class FileOps (K : Type) := {
  f_open : list Z -> M K (option Z);
  f_read : Z -> Z -> Z -> M K (Z * list Z);
  f_put : Z -> M K unit
}.

Module Exec.
Import Kalloc.
Import Vm.

(** The file system's; [nm] is what [namei]'s buffer for the last name held. *)
#[export] Instance fs_files {K : Type} `{BlockOps K} `{DevSw K} (nm : list Z) : FileOps (Fs.fstate K) := {
  f_open path := ip ← Fs.namei path nm; match ip with None => mret None | Some ip => Fs.ilock (Some ip);; mret (Some ip) end;
  f_read := Fs.readi;
  f_put := Fs.iunlockput
}.

Definition MAXARG : Z := 32.
Definition ELF_MAGIC : Z := 1179403647.
Definition ELF_PROG_LOAD : Z := 1.
Definition ELFHDR : Z := 52.
Definition PROGHDR : Z := 32.

(** The fields of [struct elfhdr] and [struct proghdr] that are used. *)
Definition magic (e : list Z) : Z := word e 0.
Definition entry (e : list Z) : Z := word e 24.
Definition phoff (e : list Z) : Z := word e 28.
Definition phnum (e : list Z) : Z := half e 44.
Definition ptype (p : list Z) : Z := word p 0.
Definition poffset (p : list Z) : Z := word p 4.
Definition pva (p : list Z) : Z := word p 8.
Definition filesz (p : list Z) : Z := word p 16.
Definition memsz (p : list Z) : Z := word p 20.

(** Memory, the file system, and the process as far as [exec] changes it. *)
Record kexec (K : Type) := mkE {
  mem : pmem; files : K; pgdir : Z; psz : Z; eip : Z; esp : Z; pname : list Z
}.
Arguments mkE {K} mem files pgdir psz eip esp pname.
Arguments mem {K} k.
Arguments files {K} k.
Arguments pgdir {K} k.
Arguments psz {K} k.
Arguments eip {K} k.
Arguments esp {K} k.
Arguments pname {K} k.

Section Exec.
Context {K : Type} `{FileOps K}.
Notation st := (kexec K).

Definition set_mem m (s : st) : st := mkE m (files s) (pgdir s) (psz s) (eip s) (esp s) (pname s).
Definition set_files f (s : st) : st := mkE (mem s) f (pgdir s) (psz s) (eip s) (esp s) (pname s).

Definition sub {S A} (get : st -> S) (set : S -> st -> st) (m : M S A) : M st A := fun s =>
  match m (get s) with
  | Ret (a, x) => Ret (a, set x s)
  | Panicked msg => Panicked msg
  | Undef why => Undef why
  | Blocked c => Blocked c
  | NoFuel => NoFuel
  end.
Definition pm {A} (m : M pmem A) : M st A := sub mem set_mem m.
Definition fs {A} (m : M K A) : M st A := sub files set_files m.

(** Linker symbols: the end of the kernel, and the start of its data. *)
Variables kend kdata : Z.
(** What the stack held where [elf] and [ph] are, which nothing initialises. *)
Variables elf0 ph0 : list Z.

Fixpoint loaduvm_loop (fuel : nat) (d addr ip offset sz i : Z) : M st Z :=
  match fuel with
  | O => no_fuel
  | S fuel =>
      if i <? sz then
        pte ← pm (walkpgdir d (u32 (addr + i)) false);
        match pte with
        | None => panic "loaduvm: address should exist"
        | Some pte =>
            e ← pm (rd32 pte);
            let n := if sz - i <? PGSIZE then sz - i else PGSIZE in
            r ← fs (f_read ip (u32 (offset + i)) n);
            x ← pm (rd_page (PTE_ADDR e));
            pm (wr_page (PTE_ADDR e) (splice 0 r.2 x));;
            if negb (r.1 =? n) then mret (-1) else loaduvm_loop fuel d addr ip offset sz (u32 (i + PGSIZE))
        end
      else mret 0
  end.
Definition loaduvm (d addr ip offset sz : Z) : M st Z :=
  if negb (addr mod PGSIZE =? 0) then panic "loaduvm: addr must be page aligned"
  else loaduvm_loop (S (Z.to_nat (sz / PGSIZE) + 1)) d addr ip offset sz 0.

(** The program headers: the size reached, or [None] for [goto bad]. *)
Fixpoint load_loop (n : nat) (d ip off sz : Z) : M st (option Z) :=
  match n with
  | O => mret (Some sz)
  | S n =>
      r ← fs (f_read ip (u32 off) PROGHDR);
      let ph := splice 0 r.2 ph0 in
      if negb (r.1 =? PROGHDR) then mret None
      else if negb (ptype ph =? ELF_PROG_LOAD) then load_loop n d ip (s32 (off + PROGHDR)) sz
      else if memsz ph <? filesz ph then mret None
      else
        sz ← pm (allocuvm kend d sz (u32 (pva ph + memsz ph)));
        if sz =? 0 then mret None
        else
          r ← loaduvm d (pva ph) ip (poffset ph) (filesz ph);
          if r <? 0 then mret None else load_loop n d ip (s32 (off + PROGHDR)) sz
  end.

(** The strings of [argv], from the top of the stack down: the stack pointer
    and the addresses, first argument first. *)
Fixpoint push_args (d : Z) (argv : list (list Z)) (argc sp : Z) (ustack : list Z) : M st (option (Z * list Z)) :=
  match argv with
  | [] => mret (Some (sp, ustack))
  | a :: argv =>
      if argc >=? MAXARG then mret None
      else
        let sp := Z.land (u32 (sp - (zlen a + 1))) (Z.lnot 3) in
        r ← pm (copyout d sp (a ++ [0]));
        if r <? 0 then mret None else push_args d argv (argc + 1) sp (ustack ++ [sp])
  end.

(** After the last slash; at most 15 characters are kept. *)
Fixpoint basename (s last : list Z) : list Z :=
  match s with
  | [] => last
  | c :: s => if c =? 47 then basename s s else basename s last
  end.

Definition bad (d : Z) (ip : option Z) : M st Z :=
  (if d =? 0 then mret tt else pm (freevm kend d));;
  match ip with None => mret tt | Some ip => fs (f_put ip) end;;
  mret (-1).

(** From a directory loaded up to [sz]: the stack, and the change over. *)
Definition start (d sz entry : Z) (path : list Z) (argv : list (list Z)) : M st Z :=
  sz ← pm (allocuvm kend d (PGROUNDUP sz) (u32 (PGROUNDUP sz + PGSIZE)));
  if sz =? 0 then bad d None
  else
    a ← push_args d argv 0 sz [];
    match a with
    | None => bad d None
    | Some (sp, args) =>
        let argc := zlen args in
        let ustack := [4294967295; argc; u32 (sp - (argc + 1) * 4)] ++ args ++ [0] in
        let sp := u32 (sp - (3 + argc + 1) * 4) in
        r ← pm (copyout d sp (mjoin (to_le 4 <$> ustack)));
        if r <? 0 then bad d None
        else
          s ← get;
          modify (fun s => mkE (mem s) (files s) d sz entry sp (take 15 (basename path path)));;
          pm (freevm kend (pgdir s));;
          mret 0
    end.

Definition exec (path : list Z) (argv : list (list Z)) : M st Z :=
  ip ← fs (f_open path);
  match ip with
  | None => mret (-1)
  | Some ip =>
      r ← fs (f_read ip 0 ELFHDR);
      let elf := splice 0 r.2 elf0 in
      if u32 r.1 <? ELFHDR then bad 0 (Some ip)
      else if negb (magic elf =? ELF_MAGIC) then bad 0 (Some ip)
      else
        d ← pm (setupkvm kdata);
        if d =? 0 then bad 0 (Some ip)
        else
          r ← load_loop (Z.to_nat (phnum elf)) d ip (s32 (phoff elf)) 0;
          match r with
          | None => bad d (Some ip)
          | Some sz => fs (f_put ip);; start d sz (entry elf) path argv
          end
  end.
End Exec.
End Exec.
