(* ===== verification/ExecSpec.v ===== *)
(** What [exec] makes of a program file and a list of arguments. *)
From S2P Require Import Prelude Bytes BlockDev Fs Kalloc KallocSpec Vm VmSpec VmFork VmUser Exec.
Import Kalloc.
Import Vm.
Import Exec.

(** ** Parts of a file *)

Lemma take_part o n m (x : list Z) : 0 <= n <= m -> take (Z.to_nat n) (part o m x) = part o n x.
Proof. intros Hn. unfold part. rewrite take_take. f_equal. lia. Qed.
Lemma drop_part o n m (x : list Z) : 0 <= o -> 0 <= n <= m -> drop (Z.to_nat n) (part o m x) = part (o + n) (m - n) x.
Proof.
  intros Ho Hn. unfold part. rewrite skipn_firstn_comm, drop_drop. f_equal; [lia|]. f_equal. lia.
Qed.
Lemma part_none o n (x : list Z) : n <= 0 -> part o n x = [].
Proof. intros Hn. unfold part. by replace (Z.to_nat n) with 0%nat by lia. Qed.
Lemma splice_whole x d : zlen x = zlen d -> splice 0 x d = x.
Proof. intros Hl. unfold splice, zlen in *. cbn [take Z.to_nat]. rewrite drop_ge by lia. cbn. apply app_nil_r. Qed.

(** ** Programs

    A file with the headers [phs], each loadable segment inside the file and
    below the user limit. *)
Record seg_ok (file p : list Z) : Prop := {
  sg_sizes : filesz p <= memsz p;
  sg_aligned : pva p mod 4096 = 0;
  sg_end : 0 < pva p + memsz p <= USERTOP - 4096;
  sg_file : poffset p + filesz p <= zlen file
}.
Record program (file : list Z) (phs : list (list Z)) : Prop := {
  pr_bytes : Forall byte_ok file;
  pr_size : ELFHDR <= zlen file < 2 ^ 31;
  pr_magic : magic (part 0 ELFHDR file) = ELF_MAGIC;
  pr_phnum : phnum (part 0 ELFHDR file) = zlen phs;
  pr_table : phoff (part 0 ELFHDR file) + PROGHDR * zlen phs <= zlen file;
  pr_headers k p : phs !! k = Some p -> part (phoff (part 0 ELFHDR file) + PROGHDR * Z.of_nat k) PROGHDR file = p;
  pr_segments : Forall (fun p => ptype p = ELF_PROG_LOAD -> seg_ok file p) phs
}.

(** What loading puts in memory, and the size it reaches. *)
Fixpoint loaded (file : list Z) (phs : list (list Z)) (img : Z -> Z) (sz : Z) : (Z -> Z) * Z :=
  match phs with
  | [] => (img, sz)
  | p :: phs =>
      if ptype p =? ELF_PROG_LOAD
      then loaded file phs (over img (pva p) (part (poffset p) (filesz p) file)) (Z.max sz (pva p + memsz p))
      else loaded file phs img sz
  end.

(** Where the arguments go, from [sp] down. *)
Definition below (sp : Z) (a : list Z) : Z := (sp - (zlen a + 1)) / 4 * 4.
Fixpoint arg_addrs (argv : list (list Z)) (sp : Z) : list Z :=
  match argv with [] => [] | a :: argv => below sp a :: arg_addrs argv (below sp a) end.
Definition args_low (argv : list (list Z)) (sp : Z) : Z := fold_left below argv sp.
Fixpoint put_args (img : Z -> Z) (argv : list (list Z)) (sp : Z) : Z -> Z :=
  match argv with [] => img | a :: argv => put_args (over img (below sp a) (a ++ [0])) argv (below sp a) end.

Lemma below_le sp a : below sp a + zlen a + 1 <= sp.
Proof. unfold below. dlia. Qed.
Lemma args_low_le argv sp : args_low argv sp <= sp.
Proof.
  revert sp. induction argv as [|a argv IH]; intros sp; cbn; [lia|]. pose proof (IH (below sp a)). pose proof (below_le sp a).
  pose proof (zlen_nonneg a). unfold args_low in *. lia.
Qed.
Lemma put_args_out argv img sp va : ~ (args_low argv sp <= va < sp) -> put_args img argv sp va = img va.
Proof.
  revert img sp. induction argv as [|a argv IH]; intros img sp Hva; [done|]. cbn [put_args].
  pose proof (below_le sp a) as Hb. pose proof (args_low_le argv (below sp a)) as Hl. pose proof (zlen_nonneg a).
  assert (Ez : zlen (a ++ [0]) = zlen a + 1) by (rewrite zlen_app; done). change (args_low (a :: argv) sp) with (args_low argv (below sp a)) in Hva.
  rewrite IH by lia. apply over_out. lia.
Qed.
(** Every argument is still there when the last has been put. *)
Lemma put_args_slice argv img sp k a p : argv !! k = Some a -> arg_addrs argv sp !! k = Some p ->
  slice (put_args img argv sp) p (zlen a + 1) = a ++ [0] /\ args_low argv sp <= p /\ p + zlen a + 1 <= sp.
Proof.
  revert img sp k. induction argv as [|b argv IH]; intros img sp [|k]; cbn [lookup arg_addrs put_args]; try done.
  - intros [= ->] [= <-]. pose proof (args_low_le argv (below sp a)). pose proof (below_le sp a). pose proof (zlen_nonneg a).
    change (args_low (a :: argv) sp) with (args_low argv (below sp a)). split; [|lia].
    replace (zlen a + 1) with (zlen (a ++ [0])) by (rewrite zlen_app; done).
    erewrite slice_same; [apply slice_over|]. intros va Hva. apply put_args_out. lia.
  - intros Ha Hp. destruct (IH (over img (below sp b) (b ++ [0])) (below sp b) k Ha Hp) as (E & H1 & H2). split; [done|].
    change (args_low (b :: argv) sp) with (args_low argv (below sp b)). pose proof (below_le sp b). pose proof (zlen_nonneg b). lia.
Qed.
Lemma arg_addrs_length argv sp : length (arg_addrs argv sp) = length argv.
Proof. revert sp. induction argv as [|a argv IH]; intros sp; cbn; [done|]. by rewrite IH. Qed.

Lemma align4 x : 0 <= x < 2 ^ 32 -> Z.land (u32 x) (Z.lnot 3) = x / 4 * 4.
Proof.
  intros Hx. rewrite u32_small by done. rewrite <- Z.ldiff_land. change 3 with (Z.ones 2).
  by rewrite Z.ldiff_ones_r, Z.shiftl_mul_pow2, Z.shiftr_div_pow2 by lia.
Qed.

(** ** The file behind the interface *)

(** As long as [I] holds of the file system, reads within the open file [ip]
    return its bytes; closing it returns. *)
Record holds_file {K : Type} `{FileOps K} (I : K -> Prop) (ip : Z) (file : list Z) : Prop := {
  hf_read k off n : I k -> 0 <= off -> 0 <= n -> off + n <= zlen file ->
    exists k', f_read ip off n k = Ret ((n, part off n file), k') /\ I k';
  hf_put k : I k -> exists k', f_put ip k = Ret (tt, k')
}.

Section ExecSpec.
Context {K : Type} `{FileOps K}.
Context (kend kdata : Z) (Hdata : (4096 | kdata)) (Hk : 1048576 < kdata < PHYSTOP).
Context (elf0 ph0 : list Z) (Helf : zlen elf0 = ELFHDR) (Hph : zlen ph0 = PROGHDR).
Context (I : K -> Prop) (ip : Z) (file : list Z) (HF : holds_file I ip file).
Implicit Types (st : kexec K).
Notation filled := (filled kend).
Notation uspace := (uspace kend).

Lemma wp_pm {A} (m : M pmem A) Q st : wp m (fun a m' => Q a (set_mem m' st)) (mem st) -> wp (pm m) Q st.
Proof. unfold wp, pm, sub. by destruct (m (mem st)) as [[a m']| | | |]. Qed.
Lemma wp_pm_at {A} (m : M pmem A) a Q st : m (mem st) = Ret (a, mem st) -> Q a st -> wp (pm m) Q st.
Proof. intros E HQ. apply wp_pm. unfold wp. rewrite E. by destruct st. Qed.
Lemma wp_read off n Q st : I (files st) -> 0 <= off -> 0 <= n -> off + n <= zlen file ->
  (forall k, I k -> Q (n, part off n file) (set_files k st)) -> wp (fs (f_read ip off n)) Q st.
Proof. intros Hi Ho Hn Hl HQ. destruct (hf_read _ _ _ HF _ off n Hi Ho Hn Hl) as (k & E & Hi'). unfold wp, fs, sub. rewrite E. auto. Qed.

(** The fields [exec] has not touched yet. *)
Definition same_proc st st' : Prop :=
  pgdir st' = pgdir st /\ psz st' = psz st /\ eip st' = eip st /\ esp st' = esp st /\ pname st' = pname st.
Lemma same_proc_trans st1 st2 st3 : same_proc st1 st2 -> same_proc st2 st3 -> same_proc st1 st3.
Proof. unfold same_proc. intuition congruence. Qed.

(** [loaduvm]: the segment's bytes of the file, at its address. *)
Lemma loaduvm_loop_spec fuel w0 j offset fsz st s0 fl0 d T F fl img sz :
  filled s0 fl0 (mem st) d T F fl img sz -> I (files st) -> 0 <= w0 -> 0 <= j -> 0 <= offset -> 0 <= fsz ->
  4096 * w0 + fsz <= 4096 * up sz -> up sz <= 160 -> offset + fsz <= zlen file -> zlen file < 2 ^ 31 ->
  (fsz + 4095) / 4096 - j < Z.of_nat fuel -> 4096 * j <= fsz + 4095 ->
  wp (loaduvm_loop fuel d (4096 * w0) ip offset fsz (4096 * j))
    (fun r st' => r = 0 /\ same_proc st st' /\ I (files st') /\
      filled s0 fl0 (mem st') d T F fl (over img (4096 * w0 + 4096 * j) (part (offset + 4096 * j) (fsz - 4096 * j) file)) sz) st.
Proof.
  revert j st img. induction fuel as [|fuel IH]; intros j st img G Hi Hw Hj Ho Hf Hend Hup Hfile H31 Hfu Hjf; [dlia|]. cbn [loaduvm_loop].
  destruct (Z.ltb_spec (4096 * j) fsz) as [L|Ge].
  2: { apply wp_ret. split; [done|]. split; [done|]. split; [done|]. eapply filled_ext; [|exact G]. intros va _. rewrite over_out; [done|].
    rewrite part_none by lia. change (zlen (@nil Z)) with 0. lia. }
  destruct (filled_page kend _ _ _ _ _ _ _ _ _ (w0 + j) G) as (p & x & t & e & Hp & Hx & Hlx & E1 & E2 & He & Ha & H0 & Hw160); [split; [lia|dlia]|].
  replace (u32 (4096 * w0 + 4096 * j)) with (4096 * (w0 + j)) by (rewrite u32_small; [lia|unfold in_u32; lia]).
  eapply wp_bind, wp_pm_at; [exact E1|]. cbv beta iota. eapply wp_bind, wp_pm_at; [exact E2|]. rewrite Ha.
  set (n := if fsz - 4096 * j <? PGSIZE then fsz - 4096 * j else PGSIZE).
  assert (Hn : 0 < n <= 4096 /\ n <= fsz - 4096 * j /\ (n < fsz - 4096 * j -> n = 4096)).
  { unfold n, PGSIZE. destruct (Z.ltb_spec (fsz - 4096 * j) 4096); lia. }
  rewrite (u32_small (offset + 4096 * j)) by (unfold in_u32; lia).
  eapply wp_bind, wp_read; [done|lia..|]. intros k Hik.
  assert (Er : rd_page p (mem st) = Ret (x, mem st)) by (unfold rd_page; rewrite bind_get, Hx; done).
  eapply wp_bind, wp_pm_at; [exact Er|]. cbn [fst snd]. eapply wp_bind, wp_pm.
  unfold wp at 1. cbn [mem set_files]. unfold wr_page. mstep Er. unfold modify. rewrite Z.eqb_refl. cbn [negb].
  pose proof (part_length (offset + 4096 * j) n file ltac:(lia) ltac:(lia) ltac:(lia)) as Hpl.
  pose proof (filled_poke kend _ _ _ _ _ _ _ _ _ _ p x (4096 * (w0 + j)) (part (offset + 4096 * j) n file) G Hp Hx ltac:(lia) ltac:(lia)) as G'.
  rewrite Z.sub_diag in G'.
  replace (u32 (4096 * j + PGSIZE)) with (4096 * (j + 1)) by (unfold PGSIZE; rewrite u32_small; [lia|unfold in_u32; lia]).
  eapply wp_mono; [eapply (IH (j + 1)); [exact G'|exact Hik|first [lia|dlia]..]|].
  cbv beta. intros r st' (-> & Hsp & Hi' & G''). split; [done|]. split; [exact Hsp|]. split; [done|].
  eapply filled_ext; [|exact G'']. intros va _. destruct (decide (n < fsz - 4096 * j)) as [Hlt|Hge].
  - destruct Hn as (_ & Hn2 & Hn3). specialize (Hn3 Hlt). rewrite <- (over_split img _ (part (offset + 4096 * j) (fsz - 4096 * j) file) n).
    2: { rewrite part_length; lia. }
    rewrite take_part, drop_part by lia. rewrite Hn3.
    replace (4096 * w0 + 4096 * (j + 1)) with (4096 * w0 + 4096 * j + 4096) by lia.
    replace (offset + 4096 * (j + 1)) with (offset + 4096 * j + 4096) by lia.
    replace (fsz - 4096 * (j + 1)) with (fsz - 4096 * j - 4096) by lia.
    by replace (4096 * (w0 + j)) with (4096 * w0 + 4096 * j) by lia.
  - assert (n = fsz - 4096 * j) as -> by lia.
    rewrite (over_out (over _ _ _)); [by replace (4096 * (w0 + j)) with (4096 * w0 + 4096 * j) by lia|].
    rewrite part_none by lia. change (zlen (@nil Z)) with 0. lia.
Qed.

Lemma loaduvm_spec va offset fsz st s0 fl0 d T F fl img sz :
  filled s0 fl0 (mem st) d T F fl img sz -> I (files st) -> 0 <= va -> va mod 4096 = 0 -> 0 <= offset -> 0 <= fsz ->
  va + fsz <= 4096 * up sz -> up sz <= 160 -> offset + fsz <= zlen file -> zlen file < 2 ^ 31 ->
  wp (loaduvm d va ip offset fsz) (fun r st' => r = 0 /\ same_proc st st' /\ I (files st') /\
    filled s0 fl0 (mem st') d T F fl (over img va (part offset fsz file)) sz) st.
Proof.
  intros G Hi Hva Hal Ho Hf Hend Hup Hfile H31. unfold loaduvm, PGSIZE. rewrite Hal. cbn [Z.eqb negb].
  replace va with (4096 * (va / 4096)) by dlia. change 0 with (4096 * 0) at 1.
  eapply wp_mono; [eapply (loaduvm_loop_spec _ (va / 4096) 0); [exact G|exact Hi|first [lia|dlia]..]|].
  cbv beta. intros r st' H'. by rewrite !Z.mul_0_r, !Z.add_0_r, Z.sub_0_r in H'.
Qed.

(** The program headers: the segments, one over the other. *)
Lemma load_loop_spec phs off st s0 fl0 d T F fl img sz :
  filled s0 fl0 (mem st) d T F fl img sz -> I (files st) -> (plenty <= length fl0)%nat -> 0 <= sz <= USERTOP - 4096 ->
  (forall va, 4096 * up sz <= va -> img va = 0) -> Forall byte_ok file -> zlen file < 2 ^ 31 -> 0 <= off ->
  off + PROGHDR * zlen phs <= zlen file -> (forall k p, phs !! k = Some p -> part (off + PROGHDR * Z.of_nat k) PROGHDR file = p) ->
  Forall (fun p => ptype p = ELF_PROG_LOAD -> seg_ok file p) phs ->
  wp (load_loop kend ph0 (length phs) d ip off sz) (fun r st' => exists F' fl', r = Some (loaded file phs img sz).2 /\ same_proc st st' /\
    I (files st') /\ filled s0 fl0 (mem st') d T F' fl' (loaded file phs img sz).1 (loaded file phs img sz).2 /\
    0 <= (loaded file phs img sz).2 <= USERTOP - 4096 /\ forall va, 4096 * up (loaded file phs img sz).2 <= va -> (loaded file phs img sz).1 va = 0) st.
Proof.
  unfold PROGHDR. intros G Hi Hpl. revert off st F fl img sz G Hi.
  induction phs as [|p phs IH]; intros off st F fl img sz G Hi Hsz Hz Hby H31 Ho Htab Hhd Hseg; cbn [length load_loop loaded].
  { apply wp_ret. by exists F, fl. }
  assert (El : zlen (p :: phs) = zlen phs + 1) by (unfold zlen; cbn [length]; lia). pose proof (zlen_nonneg phs).
  apply Forall_cons in Hseg as [Hp Hseg]. pose proof (Hhd 0%nat p eq_refl) as Ep. rewrite Z.mul_0_r, Z.add_0_r in Ep.
  rewrite u32_small by (unfold in_u32; lia). unfold PROGHDR. eapply wp_bind, wp_read; [done|lia..|]. intros k Hik. cbn [fst snd].
  assert (Epl : zlen p = 32) by (rewrite <- Ep; apply part_length; lia).
  rewrite Ep, splice_whole by (rewrite Hph; exact Epl). cbn [Z.eqb Pos.eqb negb].
  rewrite (s32_small (off + 32)) by (unfold in_s32; lia).
  assert (Hhd' : forall k q, phs !! k = Some q -> part (off + 32 + 32 * Z.of_nat k) 32 file = q).
  { intros k' q Hq. rewrite <- (Hhd (S k') q Hq). f_equal. lia. }
  destruct (Z.eqb_spec (ptype p) ELF_PROG_LOAD) as [Hl|Hl]; cbn [negb].
  2: { apply (IH (off + 32) (set_files k st) F fl img sz G); done || lia. }
  destruct (Hp Hl) as [S1 S2 S3 S4]. assert (Hpb : Forall byte_ok p) by (rewrite <- Ep; apply Forall_take, Forall_drop, Hby).
  pose proof (word_range p 4 Hpb) as R1. pose proof (word_range p 8 Hpb) as R2. pose proof (word_range p 16 Hpb) as R3.
  fold (poffset p) (pva p) (filesz p) in *. unfold in_u32 in *. rewrite (proj2 (Z.ltb_ge _ _)) by lia.
  rewrite (u32_small (pva p + memsz p)) by (unfold in_u32, USERTOP in *; lia).
  eapply wp_bind, wp_pm. cbn [mem set_files].
  eapply wp_mono; [by apply (filled_grow kend _ _ _ _ _ _ _ _ _ _ G); (done || lia)|].
  cbv beta. intros r m (-> & F1 & fl1 & G1). set (sz1 := Z.max sz (pva p + memsz p)) in *.
  assert (Hsz1 : 0 < sz1 <= USERTOP - 4096) by lia. rewrite (proj2 (Z.eqb_neq sz1 0)) by lia.
  assert (Hup1 : up sz1 <= 160 /\ pva p + filesz p <= 4096 * up sz1) by (unfold up, USERTOP in *; split; dlia).
  eapply wp_bind_use; [eapply loaduvm_spec; [exact G1|exact Hik|first [lia|done]..]|]. cbv beta. intros r st2 (-> & Sp2 & Hi2 & G2).
  change (0 <? 0) with false. cbv iota.
  eapply wp_mono; [apply (IH (off + 32) st2 F1 fl1 _ sz1 G2 Hi2); try done; try lia|].
  - intros va Hva. rewrite over_out; [apply Hz|].
    + pose proof (up_mono sz sz1 ltac:(lia)). lia.
    + rewrite part_length; lia.
  - cbv beta. intros r st3 (F3 & fl3 & Hr & Sp3 & R). exists F3, fl3. split; [done|]. split; [|done].
    by eapply same_proc_trans.
Qed.

Lemma push_args_spec argv argc sp acc st s0 fl0 d T F fl img sz :
  filled s0 fl0 (mem st) d T F fl img sz -> up sz <= 160 -> 0 <= argc -> argc + zlen argv <= MAXARG -> sp <= 4096 * up sz ->
  0 <= args_low argv sp ->
  wp (push_args d argv argc sp acc) (fun r st' => r = Some (args_low argv sp, acc ++ arg_addrs argv sp) /\
    same_proc st st' /\ files st' = files st /\ filled s0 fl0 (mem st') d T F fl (put_args img argv sp) sz) st.
Proof.
  revert argc sp acc st img. induction argv as [|a argv IH]; intros argc sp acc st img G Hup Hargc Hmax Hsp Hlow; cbn [push_args].
  { apply wp_ret. cbn. by rewrite app_nil_r. }
  assert (El : zlen (a :: argv) = zlen argv + 1) by (unfold zlen; cbn [length]; lia). pose proof (zlen_nonneg argv). pose proof (zlen_nonneg a).
  rewrite Z.geb_leb, (proj2 (Z.leb_gt _ _)) by lia. change (args_low (a :: argv) sp) with (args_low argv (below sp a)) in *.
  pose proof (args_low_le argv (below sp a)) as Hle. pose proof (below_le sp a) as Hb.
  assert (Es : Z.land (u32 (sp - (zlen a + 1))) (Z.lnot 3) = below sp a) by (apply align4; lia). rewrite Es.
  assert (Ez : zlen (a ++ [0]) = zlen a + 1) by (rewrite zlen_app; done).
  eapply wp_bind, wp_pm. eapply wp_mono; [by apply (copyout_spec kend (below sp a) (a ++ [0]) _ _ _ _ _ _ _ _ _ G); lia|].
  cbv beta. intros r m (-> & G1). change (0 <? 0) with false. cbv iota.
  eapply wp_mono; [apply (IH (argc + 1) (below sp a) (acc ++ [below sp a]) (set_mem m st) _ G1); lia|].
  cbv beta. intros r st' (-> & Sp & Ef & G2). cbn [arg_addrs put_args]. rewrite <- app_assoc. done.
Qed.

(** ** The change over *)


Lemma filled_round s0 fl0 s d T F fl img sz : 0 <= sz -> filled s0 fl0 s d T F fl img sz -> filled s0 fl0 s d T F fl img (4096 * up sz).
Proof. intros Hsz [U P O D G]. assert (E : up (4096 * up sz) = up sz) by (unfold up; dlia). split; try done; by rewrite E. Qed.

(** Freeing the old space, with the new one in place. *)
Lemma freevm_old st s0 pd T0 E0 F0 fl0 d T F fl img sz : uspace s0 pd T0 E0 fl0 F0 -> filled s0 fl0 (mem st) d T F fl img sz ->
  wp (freevm kend pd) (fun _ m => exists E fl', uspace m d T E fl' F /\
    pages_of d T ++ tables F ++ fl' ≡ₚ pages_of pd T0 ++ tables F0 ++ fl0 /\
    forall va, 0 <= va < 4096 * up sz -> ubyte (ram m) F va = Some (img va)) (mem st).
Proof.
  intros U0 [[E U] P Ho Hdom Hi]. pose proof (us_nodup _ _ _ _ _ _ _ U0) as Nd0.
  assert (Hsub : fl ⊆+ fl0) by (rewrite <- P, app_assoc; by apply submseteq_inserts_l).
  assert (U0' : uspace (mem st) pd T0 E0 fl F0) by (eapply uspace_stays; [exact U0|apply U|exact Hsub|exact Ho]).
  eapply wp_mono; [by apply (freevm_spec kend kdata Hdata Hk (mem st) pd T0 E0 F0 fl)|]. cbv beta. intros _ m (fl' & K' & P' & Ho').
  assert (Pn : pages_of d T ++ tables F ++ fl' ≡ₚ pages_of pd T0 ++ tables F0 ++ fl0).
  { rewrite P', <- P. solve_Permutation. }
  assert (Hout : forall q, q ∈ pages_of d T ++ tables F -> q ∉ pages_of pd T0 ++ tables F0 ++ fl).
  { intros q Hq Hq'. assert (Nd : NoDup ((pages_of d T ++ tables F) ++ (pages_of pd T0 ++ tables F0 ++ fl))).
    { rewrite <- app_assoc, <- P', Pn. exact Nd0. } apply NoDup_app in Nd as (_ & Nd & _). by apply (Nd q). }
  exists E, fl'. split; [|split; [exact Pn|]].
  - eapply uspace_moves; [exact U|exact K'|exact Ho'|exact Hout|by rewrite Pn].
  - intros va Hva. rewrite <- (Hi va Hva). unfold ubyte. destruct (F !! (va / 4096)) as [p|] eqn:EF; [|done]. cbn [mbind option_bind].
    rewrite Ho'; [done|]. apply Hout, elem_of_app. right. apply elem_tables. eauto.
Qed.

(** The words at the bottom of the stack: the return address, the number of
    arguments, where their addresses are, the addresses, and a null. *)
Definition ustack (argv : list (list Z)) (top : Z) : list Z :=
  [4294967295; zlen argv; args_low argv top - (zlen argv + 1) * 4] ++ arg_addrs argv top ++ [0].
Definition stack_low (argv : list (list Z)) (top : Z) : Z := args_low argv top - 4 * (4 + zlen argv).

Lemma start_spec argv path entry st st0 pd T0 E0 F0 fl0 d T F fl img sz :
  uspace (mem st0) pd T0 E0 fl0 F0 -> pgdir st = pd -> filled (mem st0) fl0 (mem st) d T F fl img sz -> (plenty <= length fl0)%nat ->
  0 <= sz <= USERTOP - 4096 -> (forall va, 4096 * up sz <= va -> img va = 0) -> zlen argv <= MAXARG ->
  let top := 4096 * up sz + 4096 in
  4096 * up sz <= stack_low argv top ->
  wp (start kend d sz entry path argv) (fun r st' => r = 0 /\
    st' = mkE (mem st') (files st) d top entry (stack_low argv top) (take 15 (basename path path)) /\
    exists E' F' fl' img', uspace (mem st') d T E' fl' F' /\ pages_of d T ++ tables F' ++ fl' ≡ₚ pages_of pd T0 ++ tables F0 ++ fl0 /\
      (forall va, 0 <= va < top -> ubyte (ram (mem st')) F' va = Some (img' va)) /\
      (forall va, 0 <= va < 4096 * up sz -> img' va = img va) /\
      slice img' (stack_low argv top) (4 * (4 + zlen argv)) = mjoin (to_le 4 <$> ustack argv top) /\
      forall k a p, argv !! k = Some a -> arg_addrs argv top !! k = Some p -> slice img' p (zlen a + 1) = a ++ [0]) st.
Proof.
  intros U0 Hpd G Hpl Hsz Hz Hmax top Hlow. pose proof (args_low_le argv top) as Hal. pose proof (zlen_nonneg argv) as Hn.
  assert (Hup : 0 <= up sz <= 159) by (unfold up, USERTOP in *; dlia). unfold stack_low in *. unfold MAXARG in Hmax.
  assert (Et : up top = up sz + 1) by (unfold top, up; dlia).
  unfold start. destruct (PGROUNDUP_up sz) as [Eu _]; [lia|]. rewrite Eu. unfold PGSIZE. rewrite (u32_small (4096 * up sz + 4096)) by (unfold in_u32; lia).
  fold top. apply (filled_round _ _ _ _ _ _ _ _ _ (proj1 Hsz)) in G. assert (Er : up (4096 * up sz) = up sz) by (unfold up; dlia).
  eapply wp_bind, wp_pm. eapply wp_mono; [apply (filled_grow kend _ _ _ _ _ _ _ _ _ top G Hpl); [lia|unfold top, USERTOP in *; lia|by rewrite Er]|].
  cbv beta. intros r m (-> & F1 & fl1 & G1). rewrite Z.max_r in * by lia. rewrite (proj2 (Z.eqb_neq top 0)) by lia.
  eapply wp_bind_use; [apply (push_args_spec argv 0 top [] (set_mem m st) _ _ _ _ _ _ _ _ G1); unfold MAXARG; lia|].
  cbv beta. intros r st2 (-> & Sp & Ef & G2). cbn [app].
  set (low := args_low argv top) in *. set (addrs := arg_addrs argv top).
  assert (Ea : zlen addrs = zlen argv) by (unfold zlen, addrs; by rewrite arg_addrs_length). rewrite Ea.
  rewrite (u32_small (low - (zlen argv + 1) * 4)) by (unfold in_u32; lia). change ([4294967295; zlen argv; low - (zlen argv + 1) * 4] ++ addrs ++ [0]) with (ustack argv top).
  assert (Esp : u32 (low - (3 + zlen argv + 1) * 4) = low - 4 * (4 + zlen argv)) by (rewrite u32_small; [lia|unfold in_u32; lia]). rewrite Esp.
  assert (Ez : zlen (mjoin (to_le 4 <$> ustack argv top)) = 4 * (4 + zlen argv)).
  { rewrite zlen_join. unfold ustack. rewrite !zlen_app. fold addrs. rewrite Ea. change (zlen [0]) with 1. unfold zlen at 1. cbn [length]. lia. }
  eapply wp_bind, wp_pm. eapply wp_mono; [apply (copyout_spec kend (low - 4 * (4 + zlen argv)) (mjoin (to_le 4 <$> ustack argv top)) _ _ _ _ _ _ _ _ _ G2); lia|].
  cbv beta. intros r m2 (-> & G3). change (0 <? 0) with false. cbv iota. eapply wp_bind, wp_get, wp_bind, wp_modify. cbn [pgdir set_mem].
  destruct Sp as (Spd & _). cbn [pgdir set_mem] in Spd. rewrite Spd, Hpd. eapply wp_bind, wp_pm. cbn [mem].
  pose proof (freevm_old (set_mem m2 st) (mem st0) pd T0 E0 F0 fl0 d T F1 fl1 _ top U0 G3) as Wf. eapply wp_mono; [exact Wf|].
  cbv beta. intros _ m3 (E' & fl' & U' & P' & Hi'). apply wp_ret. split; [done|]. split; [cbn; by rewrite Ef|].
  eexists E', F1, fl', _. split; [exact U'|]. split; [exact P'|]. split; [intros va Hva; apply Hi'; lia|].
  assert (Hov : forall va, va < low - 4 * (4 + zlen argv) \/ low <= va ->
    over (put_args img argv top) (low - 4 * (4 + zlen argv)) (mjoin (to_le 4 <$> ustack argv top)) va = put_args img argv top va).
  { intros va Hva. apply over_out. lia. }
  split; [|split].
  - intros va Hva. rewrite Hov by lia. apply put_args_out. lia.
  - pose proof (slice_over (put_args img argv top) (low - 4 * (4 + zlen argv)) (mjoin (to_le 4 <$> ustack argv top))) as Hs. rewrite Ez in Hs. exact Hs.
  - intros k a p Ha Hp. destruct (put_args_slice argv img top k a p Ha Hp) as (Es & H1 & H2). rewrite <- Es.
    apply slice_same. intros va Hva. apply Hov. right. fold low in H1. lia.
Qed.

(** C6: [exec] of a program file, with memory and arguments that fit: it
    returns 0 with the process in a new address space, which holds, at each
    address below the stack page, what the loadable segments of the file put
    there one after the other, zeros elsewhere, and in the stack page the
    argument strings and the words [main] is called with, the argument pointers
    pointing at the strings; entry point, stack pointer, size and name are set;
    and the pages of the old space, the new one's and the free list are a
    rearrangement of those there were. *)
Theorem exec_runs_program path argv st pd T E F fl phs k1 :
  uspace (mem st) pd T E fl F -> pgdir st = pd -> (plenty <= length fl)%nat ->
  f_open path (files st) = Ret (Some ip, k1) -> I k1 -> program file phs -> zlen argv <= MAXARG ->
  let image := (loaded file phs (fun _ => 0) 0).1 in let sz := (loaded file phs (fun _ => 0) 0).2 in
  let top := 4096 * up sz + 4096 in
  4096 * up sz <= stack_low argv top ->
  exists st', exec kend kdata elf0 ph0 path argv st = Ret (0, st') /\
    psz st' = top /\ eip st' = entry (part 0 ELFHDR file) /\ esp st' = stack_low argv top /\ pname st' = take 15 (basename path path) /\
    exists T' E' F' fl' img, uspace (mem st') (pgdir st') T' E' fl' F' /\
      pages_of (pgdir st') T' ++ tables F' ++ fl' ≡ₚ pages_of pd T ++ tables F ++ fl /\
      (forall va, 0 <= va < top -> ubyte (ram (mem st')) F' va = Some (img va)) /\
      (forall va, 0 <= va < 4096 * up sz -> img va = image va) /\
      slice img (esp st') (4 * (4 + zlen argv)) = mjoin (to_le 4 <$> ustack argv top) /\
      forall k a p, argv !! k = Some a -> arg_addrs argv top !! k = Some p -> slice img p (zlen a + 1) = a ++ [0].
Proof.
  intros U Hpd Hpl Hopen Hi [Hby Hsize Hmagic Hnum Htab Hhd Hseg] Hmax.
  intros image sz top Hlow.
  assert (W : wp (exec kend kdata elf0 ph0 path argv) (fun r st' => exists d T' k, r = 0 /\
    st' = mkE (mem st') k d top (entry (part 0 ELFHDR file)) (stack_low argv top) (take 15 (basename path path)) /\
    exists E' F' fl' img', uspace (mem st') d T' E' fl' F' /\ pages_of d T' ++ tables F' ++ fl' ≡ₚ pages_of pd T ++ tables F ++ fl /\
      (forall va, 0 <= va < top -> ubyte (ram (mem st')) F' va = Some (img' va)) /\
      (forall va, 0 <= va < 4096 * up sz -> img' va = image va) /\
      slice img' (stack_low argv top) (4 * (4 + zlen argv)) = mjoin (to_le 4 <$> ustack argv top) /\
      forall k a p, argv !! k = Some a -> arg_addrs argv top !! k = Some p -> slice img' p (zlen a + 1) = a ++ [0]) st).
  2: { apply wp_iff in W as (r & st' & Ex & d & T' & k & -> & Est & R). exists st'. rewrite Est in Ex |- *. cbn. split_and!; [exact Ex|done..|].
    by exists T'. }
  unfold exec. apply wp_bind. unfold wp at 1, fs, sub. rewrite Hopen. cbv beta iota.
  assert (Hehdr : zlen (part 0 ELFHDR file) = ELFHDR) by (apply part_length; unfold ELFHDR in *; lia).
  eapply wp_bind, wp_read; [exact Hi|lia|unfold ELFHDR; lia|lia|]. intros k Hik. cbn [fst snd]. rewrite splice_whole by by rewrite Helf.
  change (u32 ELFHDR <? ELFHDR) with false. cbv iota. rewrite Hmagic, Z.eqb_refl. cbn [negb]. rewrite Hnum.
  set (e := part 0 ELFHDR file) in *. pose proof (word_range e 28 ltac:(apply Forall_take, Forall_drop, Hby)) as Rp. fold (phoff e) in Rp.
  unfold in_u32 in Rp. pose proof (zlen_nonneg phs). unfold PROGHDR in Htab. rewrite s32_small by (unfold in_s32; lia).
  replace (Z.to_nat (zlen phs)) with (length phs) by (unfold zlen; lia).
  eapply wp_bind, wp_pm. cbn [mem set_files].
  eapply wp_mono; [apply (filled_new kend kdata (mem st) fl Hdata Hk (vm_free _ _ _ _ _ _ (us_inv _ _ _ _ _ _ _ U)) Hpl)|].
  cbv beta. intros d m (Hd0 & T' & fl1 & G0). rewrite (proj2 (Z.eqb_neq d 0) Hd0).
  eapply wp_bind_use; [eapply (load_loop_spec phs (phoff e)); [exact G0|exact Hik|exact Hpl|unfold USERTOP; lia|done|exact Hby|lia|lia|
    unfold PROGHDR; lia|exact Hhd|exact Hseg]|].
  fold image sz. cbv beta. intros r st2 (F2 & fl2 & -> & Sp & Hi2 & G2 & Hsz & Hz2). cbv iota.
  destruct (hf_put _ _ _ HF _ Hi2) as (k3 & Ep). apply wp_bind. unfold wp at 1, fs, sub. rewrite Ep.
  eapply wp_mono; [eapply (start_spec argv path (entry e) (set_files k3 st2) st pd T E F fl d T' F2 fl2 image sz U); [|exact G2|done..]|].
  - destruct Sp as (Spd & _). cbn [pgdir set_files set_mem] in Spd |- *. by rewrite Spd.
  - cbv beta. intros r st' (-> & Est & R). by exists d, T', k3.
Qed.
End ExecSpec.
