(* ===== verification/ExecFs.v ===== *)
(** The file system keeps the promise [exec] relies on, for an extent file. *)
From S2P Require Import Prelude Bytes BlockDev CString Fs FsSpec FsRw Kalloc Vm Exec ExecSpec.
Import Fs.

Section ExecFs.
Context {K : Type} `{BlockLaws K} `{!DevSw K} (nm : list Z).

Lemma fs_holds_file ip i F : (base.size (opened F) < 10)%nat -> type i = T_EXTENT -> mapped F i 0 (isize i) -> 0 <= isize i < 2 ^ 31 ->
  has I_BUSY i = true -> 1 <= ref i -> nlink i <> 0 ->
  holds_file (H := Exec.fs_files nm) (fun s : fstate K => at_ s F /\ zget (icache s) ip = Some i /\ icache_lock s = false) ip (fbytes F i 0 (isize i)).
Proof.
  intros Ho Ht Hm Hs Hb Hr Hl. assert (El : zlen (fbytes F i 0 (isize i)) = isize i) by (unfold zlen; rewrite length_rbytes; lia). split.
  - intros s off n (A0 & Ei & Lk) Hof Hn Hend. rewrite El in Hend. cbn.
    assert (W : wp (readi ip off n) (fun r s' => r = (n, part off n (fbytes F i 0 (isize i))) /\
      at_ s' F /\ zget (icache s') ip = Some i /\ icache_lock s' = false) s).
    { apply (readi_spec ip i off n s F); try done; try lia; [intros p Hp; apply Hm; lia|]. intros c Sh. by rewrite part_rbytes_all by lia. }
    apply wp_iff in W as (r & s' & E & -> & R). by exists s'.
  - intros s (A0 & Ei & Lk). cbn. assert (W : wp (iunlockput ip) (fun _ _ => True) s).
    2: { apply wp_iff in W as ([] & s' & E & _). by exists s'. }
    pose proof (zget_Some_range _ _ _ Ei) as Hrange. set (i1 := set_flags (Z.land (flags i) (Z.lnot I_BUSY)) i).
    assert (Ei1 : zget (zset (icache s) ip i1) ip = Some i1) by (by apply zget_zset_eq).
    unfold iunlockput, iunlock. apply wp_bind, wp_bind, (wp_ipget _ i); [exact Ei|]. rewrite Hb. replace (ref i <? 1) with false by lia. cbn [negb orb].
    apply wp_bind. unfold acquire_icache. apply wp_bind, wp_get. rewrite Lk. apply wp_modify.
    apply wp_bind. eapply wp_ipmod; [exact Ei|]. unfold release_icache. apply wp_bind, wp_get. cbn [icache_lock set_icache set_icache_lock]. apply wp_modify.
    unfold iput. apply wp_bind. unfold acquire_icache. apply wp_bind, wp_get. cbn [icache_lock set_icache set_icache_lock]. apply wp_modify.
    eapply wp_bind, (wp_ipget _ i1); [exact Ei1|]. change (nlink i1) with (nlink i). rewrite (proj2 (Z.eqb_neq _ _) Hl), andb_false_r.
    apply wp_bind, wp_ret, wp_bind. eapply wp_ipmod; [exact Ei1|]. unfold release_icache. apply wp_bind, wp_get. cbn. done.
Qed.
End ExecFs.
