(* ===== verification/ExecDemo.v ===== *)
(** A program of one segment, run from a memory of 1300 pages. *)
From S2P Require Import Prelude Bytes Kalloc KallocSpec Vm VmSpec VmFork VmDemo VmUser Exec ExecSpec.
Import Kalloc.
Import Vm.
Import Exec.

(** The smallest file system: one file, open as 0. *)
Definition one_file (file : list Z) : FileOps unit := {|
  f_open _ := mret (Some 0);
  f_read _ off n := mret (n, part off n file);
  f_put _ := mret tt
|}.
Lemma one_file_holds file : holds_file (H := one_file file) (fun _ => True) 0 file.
Proof. split; [intros [] off n _ _ _ _; by exists tt|intros [] _; by exists tt]. Qed.

(** An ELF header, one program header, and three bytes of program: 3 bytes of
    file, 5000 of memory, from address 0. *)
Definition demo_ph : list Z := mjoin (to_le 4 <$> [1; 84; 0; 0; 3; 5000; 7; 4096]).
Definition demo_elf : list Z :=
  to_le 4 ELF_MAGIC ++ replicate 12 0 ++ to_le 2 2 ++ to_le 2 3 ++ mjoin (to_le 4 <$> [1; 1; 52; 0; 0]) ++
  mjoin (to_le 2 <$> [52; 32; 1; 0; 0; 0]).
Definition demo_file : list Z := demo_elf ++ demo_ph ++ [235; 254; 144].

Lemma demo_program : program demo_file [demo_ph].
Proof.
  assert (Hb : Forall byte_ok demo_file).
  { apply Forall_forall. intros b Hb. assert (E : forallb (fun b => (0 <=? b) && (b <? 256)) demo_file = true) by reflexivity.
    rewrite forallb_forall in E. apply list_elem_of_In, E in Hb. unfold byte_ok. lia. }
  split; try reflexivity; [exact Hb|split; [discriminate|reflexivity]|discriminate|intros [|k] p; [by intros [= <-]|done]|].
  repeat constructor; cbn; discriminate || reflexivity.
Qed.

Definition demo_state : kexec unit := mkE (proc_of 1300) tt (page_of 1300 0) 4096 7 8 [].
Definition demo_argv : list (list Z) := [bytes "ls"; bytes "-l"].

Lemma exec_runs_program_witness :
  exists st', exec (H := one_file demo_file) (kend_of 1300) kdata1 (replicate 52 9) (replicate 32 9) (bytes "/bin/ls") demo_argv demo_state = Ret (0, st') /\
    psz st' = 12288 /\ eip st' = 1 /\ esp st' = 12288 - 32.
Proof.
  destruct (exec_runs_program (H := one_file demo_file) (kend_of 1300) kdata1 ltac:(exists 257; reflexivity) ltac:(unfold kdata1, PHYSTOP; lia)
    (replicate 52 9) (replicate 32 9) eq_refl eq_refl (fun _ => True) 0 demo_file (one_file_holds demo_file) (bytes "/bin/ls") demo_argv
    demo_state (page_of 1300 0) {[0 := page_of 1300 1]} (E_of 1300) {[0 := page_of 1300 2]} (free_of 1300) [demo_ph] tt) as (st' & H1 & H2 & H3 & H4 & _).
  - apply proc_space. lia.
  - reflexivity.
  - unfold free_of, plenty. rewrite length_fmap, length_seqZ. lia.
  - reflexivity.
  - exact Logic.I.
  - exact demo_program.
  - discriminate.
  - discriminate.
  - exists st'. exact (conj H1 (conj H2 (conj H3 H4))).
Defined.
