(* ===== verification/Pipe.v ===== *)
(** Pipes ([src/5/xv6/pipe.c]): a 512-byte ring with free-running 32-bit
    counters.

    A call runs until it returns or goes to sleep; a sleeping call is resumed
    where it slept, so the calls of several processes interleave as sequences of
    these runs.  [wakeup]s are recorded: a scheduler applies them. *)
From S2P Require Import Prelude.

Module Pipe.

Definition PIPESIZE : Z := 512.

(** What processes sleep on: [&p->nread] and [&p->nwrite]. *)
Inductive chan := Nread | Nwrite.
#[export] Instance chan_eq_dec : EqDecision chan.
Proof. solve_decision. Defined.

Record pipe := mkPipe {
  locked : bool; data : list Z; nread : Z; nwrite : Z; readopen : Z; writeopen : Z
}.

(** The pipe and the wakeups sent during a run. *)
Record pst := mkPst { ring : pipe; wakes : list chan }.

Definition modr (f : pipe -> pipe) : M pst unit := modify (fun s => mkPst (f (ring s)) (wakes s)).
Definition set_locked b p := mkPipe b (data p) (nread p) (nwrite p) (readopen p) (writeopen p).
Definition set_readopen v p := mkPipe (locked p) (data p) (nread p) (nwrite p) v (writeopen p).
Definition set_writeopen v p := mkPipe (locked p) (data p) (nread p) (nwrite p) (readopen p) v.

Definition acquire : M pst unit :=
  s ← get; if locked (ring s) then panic "acquire" else modr (set_locked true).
Definition release : M pst unit :=
  s ← get; if locked (ring s) then modr (set_locked false) else panic "release".
Definition wakeup (c : chan) : M pst unit := modify (fun s => mkPst (ring s) (wakes s ++ [c])).

(** How a run ends: the call's result, or asleep (with the lock released) at
    index [i] of the transfer. *)
Inductive outcome :=
  | Done (r : Z) (bytes : list Z)
  | Asleep (c : chan) (i : Z).

Definition full (p : pipe) : bool := nwrite p =? u32 (nread p + PIPESIZE).
Definition empty (p : pipe) : bool := nread p =? nwrite p.

(** Initial contents, as [pipealloc] sets them in a fresh page. *)
Definition fresh (page : list Z) : pipe := mkPipe false page 0 0 1 1.

Definition put_byte (c : Z) (p : pipe) : pipe :=
  mkPipe (locked p) (zset (data p) (nwrite p mod PIPESIZE) c) (nread p) (u32 (nwrite p + 1)) (readopen p) (writeopen p).
Definition skip_byte (p : pipe) : pipe :=
  mkPipe (locked p) (data p) (u32 (nread p + 1)) (nwrite p) (readopen p) (writeopen p).

(** The loop of [pipewrite] from index [i] on, [src] being the bytes left. *)
Fixpoint write_loop (killed : bool) (n : Z) (src : list Z) (i : Z) : M pst outcome :=
  match src with
  | [] => wakeup Nread;; release;; mret (Done n [])
  | c :: src =>
      s ← get;
      if full (ring s) then
        if (readopen (ring s) =? 0) || killed then release;; mret (Done (-1) [])
        else wakeup Nread;; release;; mret (Asleep Nwrite i)
      else
        modr (put_byte c);;
        write_loop killed n src (i + 1)
  end.

(** [pipewrite] of the first [n] bytes at [addr], from its start or from the
    index it slept at. *)
Definition pipewrite_from (killed : bool) (addr : list Z) (n i : Z) : M pst outcome :=
  acquire;;
  if zlen addr <? n then undef "addr"
  else write_loop killed n (drop (Z.to_nat i) (take (Z.to_nat n) addr)) i.
Definition pipewrite (killed : bool) (addr : list Z) (n : Z) : M pst outcome := pipewrite_from killed addr n 0.

Fixpoint read_loop (n : nat) (i : Z) (acc : list Z) : M pst (Z * list Z) :=
  match n with
  | O => mret (i, acc)
  | S n =>
      s ← get;
      if empty (ring s) then mret (i, acc)
      else
        c ← deref "data" (zget (data (ring s)) (nread (ring s) mod PIPESIZE));
        modr skip_byte;;
        read_loop n (i + 1) (acc ++ [c])
  end.

(** [piperead], from its start or from the sleep: both test again. *)
Definition piperead (killed : bool) (n : Z) : M pst outcome :=
  acquire;;
  s ← get;
  if empty (ring s) && negb (writeopen (ring s) =? 0) then
    if killed then release;; mret (Done (-1) [])
    else release;; mret (Asleep Nread 0)
  else
    r ← read_loop (Z.to_nat n) 0 [];
    wakeup Nwrite;;
    release;;
    mret (Done r.1 r.2).

(** [pipeclose]: whether the page is freed. *)
Definition pipeclose (writable : bool) : M pst bool :=
  acquire;;
  (if writable then modr (set_writeopen 0);; wakeup Nread
   else modr (set_readopen 0);; wakeup Nwrite);;
  s ← get;
  if (readopen (ring s) =? 0) && (writeopen (ring s) =? 0) then release;; mret true
  else release;; mret false.

End Pipe.
