(* ===== verification/PipeSpec.v ===== *)
(** A pipe is a bounded queue, under any interleaving of its users. *)
From S2P Require Import Prelude Pipe.
Import Pipe.

(** ** The queue *)

Definition count (p : pipe) : Z := u32 (nwrite p - nread p).

(** The bytes in the pipe, oldest first. *)
Definition content (p : pipe) : list Z :=
  (fun k => default 0 (zget (data p) ((nread p + k) mod PIPESIZE))) <$> seqZ 0 (count p).

Record pipe_ok (p : pipe) : Prop := {
  po_data : zlen (data p) = PIPESIZE;
  po_nread : in_u32 (nread p);
  po_nwrite : in_u32 (nwrite p);
  po_count : count p <= PIPESIZE
}.

Lemma count_range p : 0 <= count p < 2 ^ 32.
Proof. apply u32_range. Qed.

Lemma zlen_content p : zlen (content p) = count p.
Proof. unfold content, zlen. rewrite length_fmap, length_seqZ. pose proof (count_range p). lia. Qed.

Lemma full_count p : in_u32 (nwrite p) -> full p = true <-> count p = PIPESIZE.
Proof.
  intros Hw. unfold full, count, u32, in_u32, PIPESIZE in *. rewrite Z.eqb_eq. split; intros E.
  - rewrite E, Zminus_mod_idemp_l. replace (nread p + 512 - nread p) with 512 by lia. reflexivity.
  - rewrite <- E, Zplus_mod_idemp_r. replace (nread p + (nwrite p - nread p)) with (nwrite p) by lia.
    symmetry. apply Z.mod_small. lia.
Qed.

Lemma empty_count p : in_u32 (nread p) -> in_u32 (nwrite p) -> empty p = true <-> count p = 0.
Proof.
  intros Hr Hw. unfold empty, count, u32, in_u32 in *. rewrite Z.eqb_eq. split; intros E.
  - rewrite E, Z.sub_diag. reflexivity.
  - pose proof (Z.mod_divide (nwrite p - nread p) (2 ^ 32) ltac:(lia)) as [D _]. destruct (D E) as [q Hq]. nia.
Qed.

(** 512 divides 2^32, so a position survives the wrap of the counters. *)
Lemma mod_pos z : u32 z mod PIPESIZE = z mod PIPESIZE.
Proof.
  unfold u32, PIPESIZE. rewrite (Z.div_mod z (2 ^ 32)) at 2 by lia.
  replace (2 ^ 32 * (z / 2 ^ 32) + z mod 2 ^ 32) with (z mod 2 ^ 32 + (2 ^ 23 * (z / 2 ^ 32)) * 512) by lia.
  by rewrite Z.mod_add by lia.
Qed.

Lemma mod_shift a j k : 0 <= j < PIPESIZE -> 0 <= k < PIPESIZE -> (a + j) mod PIPESIZE = (a + k) mod PIPESIZE -> j = k.
Proof.
  unfold PIPESIZE. intros Hj Hk E. pose proof (Z.div_mod (a + j) 512). pose proof (Z.div_mod (a + k) 512). lia.
Qed.

Lemma count_put c p : pipe_ok p -> full p = false -> count (put_byte c p) = count p + 1.
Proof.
  intros [Hd Hr Hw Hc] Hf. assert (count p <> PIPESIZE) as Hne.
  { intros E. apply full_count in E; [congruence|done]. }
  unfold count, put_byte. cbn. rewrite u32_sub_l. unfold count in *.
  replace (nwrite p + 1 - nread p) with (nwrite p - nread p + 1) by lia. rewrite <- u32_add_l.
  apply u32_small. pose proof (u32_range (nwrite p - nread p)). unfold in_u32, PIPESIZE in *. lia.
Qed.

Lemma put_ok c p : pipe_ok p -> full p = false -> pipe_ok (put_byte c p) /\ content (put_byte c p) = content p ++ [c].
Proof.
  intros A Hf. pose proof (count_put c p A Hf) as Hcp. destruct A as [Hd Hr Hw Hc].
  assert (count p <> PIPESIZE) as Hne by (intros E; apply full_count in E; [congruence|done]).
  pose proof (count_range p) as Hcr. split.
  { constructor; cbn; [by rewrite zlen_zset|done|apply u32_range|lia]. }
  assert (Hpos : nwrite p mod PIPESIZE = (nread p + count p) mod PIPESIZE).
  { rewrite <- (mod_pos (nread p + count p)). unfold count. rewrite u32_add_r.
    replace (nread p + (nwrite p - nread p)) with (nwrite p) by lia. by rewrite u32_small. }
  unfold content at 1. rewrite Hcp. rewrite seqZ_app by lia. rewrite fmap_app. f_equal.
  - unfold content. apply list_fmap_ext. intros k x Hx. apply lookup_seqZ in Hx as [-> Hk]. cbn.
    rewrite zget_zset_ne; [done|]. rewrite Hpos. intros E.
    apply (mod_shift (nread p)) in E; unfold PIPESIZE in *; lia.
  - change (seqZ (0 + count p) 1) with [0 + count p]. cbn. f_equal.
    rewrite Hpos. rewrite zget_zset_eq; [done|]. rewrite Hd. apply Z.mod_pos_bound. unfold PIPESIZE. lia.
Qed.

Lemma count_skip p : pipe_ok p -> empty p = false -> count (skip_byte p) = count p - 1.
Proof.
  intros [Hd Hr Hw Hc] He. assert (count p <> 0) as Hne by (intros E; apply empty_count in E; [congruence|done..]).
  unfold count, skip_byte. cbn. rewrite u32_sub_r. unfold count in *.
  replace (nwrite p - (nread p + 1)) with (nwrite p - nread p - 1) by lia. rewrite <- u32_sub_l.
  apply u32_small. pose proof (u32_range (nwrite p - nread p)). unfold in_u32, PIPESIZE in *. lia.
Qed.

Lemma skip_ok p : pipe_ok p -> empty p = false ->
  pipe_ok (skip_byte p) /\ exists c, zget (data p) (nread p mod PIPESIZE) = Some c /\ content p = c :: content (skip_byte p).
Proof.
  intros A He. pose proof (count_skip p A He) as Hcs. destruct A as [Hd Hr Hw Hc].
  assert (count p <> 0) as Hne by (intros E; apply empty_count in E; [congruence|done..]).
  pose proof (count_range p) as Hcr. split; [constructor; cbn; [done|apply u32_range|done|lia]|].
  destruct (zget_range (data p) (nread p mod PIPESIZE)) as [c Ec].
  { rewrite Hd. apply Z.mod_pos_bound. unfold PIPESIZE. lia. }
  exists c. split; [done|]. unfold content at 1. replace (count p) with (1 + (count p - 1)) by lia.
  rewrite seqZ_app by lia. rewrite fmap_app. change (seqZ 0 1) with [0]. cbn. rewrite Z.add_0_r, Ec. cbn. f_equal.
  unfold content. rewrite Hcs. apply list_eq. intros k. rewrite !list_lookup_fmap.
  destruct (decide (Z.of_nat k < count p - 1)) as [L|G].
  - rewrite !lookup_seqZ_lt by lia. cbn. do 2 f_equal. rewrite <- (mod_pos (u32 (nread p + 1) + _)), u32_add_l, mod_pos.
    f_equal. f_equal. lia.
  - rewrite !lookup_seqZ_ge by lia. done.
Qed.

(** ** What one run does *)

(** A run of [write_loop] stores a prefix of the bytes left, in order. *)
Record write_run (k : bool) (n : Z) (src : list Z) (i : Z) (s s' : pst) (o : outcome) : Prop := {
  ww_ok : pipe_ok (ring s');
  ww_ends : readopen (ring s') = readopen (ring s) /\ writeopen (ring s') = writeopen (ring s);
  ww_lock : locked (ring s') = false;
  ww_count : count (ring s) <= count (ring s') <= count (ring s) + zlen src;
  ww_content : content (ring s') =
    content (ring s) ++ take (Z.to_nat (count (ring s') - count (ring s))) src;
  ww_outcome :
    o = Done n [] /\ wakes s' = wakes s ++ [Nread] /\ count (ring s') = count (ring s) + zlen src \/
    o = Done (-1) [] /\ wakes s' = wakes s /\ count (ring s') = PIPESIZE /\ (readopen (ring s) = 0 \/ k = true) \/
    o = Asleep Nwrite (i + (count (ring s') - count (ring s))) /\ wakes s' = wakes s ++ [Nread] /\
      count (ring s') = PIPESIZE /\ readopen (ring s) <> 0 /\ k = false
}.

Lemma write_loop_run k n src i s :
  pipe_ok (ring s) -> locked (ring s) = true ->
  exists o s', write_loop k n src i s = Ret (o, s') /\ write_run k n src i s s' o.
Proof.
  revert i s. induction src as [|c src IH]; intros i s A Hl; cbn [write_loop].
  - unfold wakeup, release. mnext. mnext. mnext. cbn [ring]. rewrite Hl. unfold modr. mnext. cbn [ring wakes].
    eexists _, _. split; [reflexivity|]. destruct A as [Hd Hr Hw Hc]. constructor; cbn [ring wakes]; try done.
    + unfold count, set_locked. cbn. change (zlen []) with 0. lia.
    + rewrite take_nil, app_nil_r. done.
    + left. split; [done|]. split; [done|]. change (zlen []) with 0. unfold count, set_locked. cbn. lia.
  - mnext. destruct (full (ring s)) eqn:Ef.
    + pose proof A as [Hd Hr Hw Hc]. pose proof (proj1 (full_count _ Hw) Ef) as Ec.
      destruct ((readopen (ring s) =? 0) || k) eqn:Ek.
      * unfold release. mnext. mnext. rewrite Hl. unfold modr. mnext.
        eexists _, _. split; [reflexivity|]. constructor; cbn [ring wakes]; try done.
        -- unfold count, set_locked in *. cbn in *. pose proof (zlen_nonneg (c :: src)). lia.
        -- replace (count _ - count _) with 0 by (unfold count, set_locked; cbn; lia). by rewrite take_0, app_nil_r.
        -- right. left. split; [done|]. split; [done|]. split; [done|]. apply orb_true_iff in Ek as [Ek|Ek]; [left; lia|by right].
      * unfold wakeup, release. mnext. mnext. mnext. cbn [ring]. rewrite Hl. unfold modr. mnext. cbn [ring wakes].
        eexists _, _. split; [reflexivity|]. constructor; cbn [ring wakes]; try done.
        -- unfold count, set_locked in *. cbn in *. pose proof (zlen_nonneg (c :: src)). lia.
        -- replace (count _ - count _) with 0 by (unfold count, set_locked; cbn; lia). by rewrite take_0, app_nil_r.
        -- right. right. replace (count _ - count _) with 0 by (unfold count, set_locked; cbn; lia). rewrite Z.add_0_r.
           split; [done|]. split; [done|]. split; [done|]. apply orb_false_iff in Ek as [Ek Ek']. split; [lia|done].
    + unfold modr. mnext. destruct (put_ok c _ A Ef) as [A1 C1]. pose proof (count_put c _ A Ef) as N1.
      destruct (IH (i + 1) (mkPst (put_byte c (ring s)) (wakes s)) A1 Hl) as (o & s' & E & [W1 W2 W3 W4 W5 W6]).
      cbn [ring wakes] in *. exists o, s'. split; [exact E|].
      assert (Hz : zlen (c :: src) = zlen src + 1) by (unfold zlen; cbn [length]; lia). pose proof (zlen_nonneg src) as Hzs.
      constructor; try done.
      * rewrite Hz. lia.
      * rewrite W5, C1, <- app_assoc. f_equal.
        replace (Z.to_nat (count (ring s') - count (ring s))) with (S (Z.to_nat (count (ring s') - count (put_byte c (ring s))))) by lia.
        done.
      * rewrite Hz. destruct W6 as [(?&?&?)|[W|(-> & ? & ? & ?)]]; [left|by right; left|right; right].
        -- split; [done|]. split; [done|]. lia.
        -- split; [f_equal; lia|]. done.
Qed.

Lemma locked_ok p b : pipe_ok p -> pipe_ok (set_locked b p).
Proof. intros [? ? ? ?]. by constructor. Qed.

Lemma pipewrite_run k addr n i s :
  pipe_ok (ring s) -> locked (ring s) = false -> n <= zlen addr ->
  exists o s', pipewrite_from k addr n i s = Ret (o, s') /\
    write_run k n (drop (Z.to_nat i) (take (Z.to_nat n) addr)) i s s' o.
Proof.
  intros A Hl Hn. unfold pipewrite_from, acquire. mnext. mnext. rewrite Hl. unfold modr. mnext.
  assert ((zlen addr <? n) = false) as -> by lia.
  destruct (write_loop_run k n (drop (Z.to_nat i) (take (Z.to_nat n) addr)) i (mkPst (set_locked true (ring s)) (wakes s)))
    as (o & s' & E & [W1 W2 W3 W4 W5 W6]); [by apply locked_ok|done|].
  exists o, s'. split; [exact E|]. by constructor.
Qed.

(** A run of [piperead] takes a prefix of the contents, or sleeps on an empty
    pipe. *)
Record read_run (k : bool) (n : Z) (s s' : pst) (o : outcome) : Prop := {
  rr_ok : pipe_ok (ring s');
  rr_ends : readopen (ring s') = readopen (ring s) /\ writeopen (ring s') = writeopen (ring s);
  rr_lock : locked (ring s') = false;
  rr_outcome :
    (exists bs, o = Done (zlen bs) bs /\ wakes s' = wakes s ++ [Nwrite] /\ content (ring s) = bs ++ content (ring s') /\
       zlen bs = Z.min (Z.max n 0) (count (ring s))) \/
    (o = Done (-1) [] \/ o = Asleep Nread 0) /\ wakes s' = wakes s /\ content (ring s') = content (ring s) /\
      count (ring s') = 0 /\ writeopen (ring s) <> 0
}.

Lemma read_loop_run n i acc s :
  pipe_ok (ring s) ->
  exists bs s', read_loop n i acc s = Ret ((i + zlen bs, acc ++ bs), s') /\ pipe_ok (ring s') /\
    content (ring s) = bs ++ content (ring s') /\ zlen bs = Z.min (Z.of_nat n) (count (ring s)) /\ wakes s' = wakes s /\
    readopen (ring s') = readopen (ring s) /\ writeopen (ring s') = writeopen (ring s) /\ locked (ring s') = locked (ring s).
Proof.
  revert i acc s. induction n as [|n IH]; intros i acc s A; cbn [read_loop].
  - exists [], s. change (zlen []) with 0. rewrite Z.add_0_r, app_nil_r. split; [done|]. split; [done|]. split; [done|].
    pose proof (count_range (ring s)). split; [lia|done].
  - mnext. pose proof (count_range (ring s)) as Hcr. destruct (empty (ring s)) eqn:Ee.
    + exists [], s. change (zlen []) with 0. rewrite Z.add_0_r, app_nil_r. split; [done|]. split; [done|]. split; [done|].
      apply empty_count in Ee; [|apply A..]. split; [lia|done].
    + destruct (skip_ok _ A Ee) as (A1 & c & Ec & C1). rewrite Ec. mnext. unfold modr. mnext.
      pose proof (count_skip _ A Ee) as N1.
      destruct (IH (i + 1) (acc ++ [c]) (mkPst (skip_byte (ring s)) (wakes s)) A1) as (bs & s' & E & A' & C & L & R).
      exists (c :: bs), s'. cbn [ring] in *. rewrite E. change (zlen (c :: bs)) with (Z.of_nat (S (length bs))). unfold zlen in *.
      split; [do 2 f_equal; f_equal; [lia|by rewrite <- app_assoc]|]. split; [done|]. split; [by rewrite C1, C|].
      split; [lia|done].
Qed.

Lemma piperead_run k n s :
  pipe_ok (ring s) -> locked (ring s) = false -> exists o s', piperead k n s = Ret (o, s') /\ read_run k n s s' o.
Proof.
  intros A Hl. unfold piperead, acquire. mnext. mnext. rewrite Hl. unfold modr at 1. mnext. mnext. cbn [ring].
  change (empty (set_locked true (ring s))) with (empty (ring s)).
  change (writeopen (set_locked true (ring s))) with (writeopen (ring s)).
  destruct (empty (ring s) && negb (writeopen (ring s) =? 0)) eqn:Ee.
  - apply andb_true_iff in Ee as [Ee Ew]. apply empty_count in Ee; [|apply A..].
    destruct k; unfold release; mnext; mnext; cbn [ring]; change (locked (set_locked true (ring s))) with true;
      cbv iota; unfold modr; mnext; cbn [ring wakes]; eexists _, _; (split; [reflexivity|]);
      (constructor; cbn [ring wakes]; [by apply locked_ok, locked_ok|done|done|]);
      right; (split; [auto|]); (split; [done|]); (split; [done|]); (split; [done|lia]).
  - destruct (read_loop_run (Z.to_nat n) 0 [] (mkPst (set_locked true (ring s)) (wakes s))) as (bs & s' & E & A' & C & L & W & R1 & R2 & R3).
    { by apply locked_ok. }
    mstep E. cbv beta. unfold wakeup, release. mnext. mnext. mnext. cbn [ring wakes]. rewrite R3. cbn [ring locked set_locked].
    unfold modr. mnext. cbn [ring wakes]. eexists _, _. split; [reflexivity|].
    constructor; cbn [ring wakes]; [by apply locked_ok|done|done|]. left. exists bs. cbn in W, C, L |- *.
    split; [done|]. split; [by rewrite W|]. split; [exact C|]. change (count (set_locked true (ring s))) with (count (ring s)) in L. lia.
Qed.

(** ** Processes sharing a pipe *)

Inductive call := CWrite (addr : list Z) (n : Z) | CRead (n : Z).

(** A process outside the pipe's code, asleep in it, or woken and not yet run. *)
Inductive pstate := Outside | Sleeping (a : call) (c : chan) (i : Z) | Woken (a : call) (i : Z).

(** [stored] and [taken] are history: every byte the ring has accepted, and every
    byte a read has returned. *)
Record sys := mkSys { pp : pipe; procs : list pstate; stored : list Z; taken : list Z }.

Definition wake (ws : list chan) (q : pstate) : pstate :=
  match q with Sleeping a c i => if bool_decide (c ∈ ws) then Woken a i else q | _ => q end.
Definition next_state (a : call) (o : outcome) : pstate :=
  match o with Done _ _ => Outside | Asleep c i => Sleeping a c i end.
Definition run_call (killed : bool) (a : call) (i : Z) : M pst outcome :=
  match a with CWrite addr n => pipewrite_from killed addr n i | CRead n => piperead killed n end.
Definition call_ok (a : call) (p : pipe) : Prop :=
  match a with CWrite addr n => n <= zlen addr | CRead _ => readopen p <> 0 end.
Definition reading (q : pstate) : bool :=
  match q with Sleeping (CRead _) _ _ | Woken (CRead _) _ => true | _ => false end.
(** What a run adds to the histories. *)
Definition stores (a : call) (i : Z) (p p' : pipe) : list Z :=
  match a with
  | CWrite addr n => take (Z.to_nat (count p' - count p)) (drop (Z.to_nat i) (take (Z.to_nat n) addr))
  | CRead _ => []
  end.
Definition takes (a : call) (o : outcome) : list Z :=
  match a, o with CRead _, Done _ bs => bs | _, _ => [] end.

(** One run of process [k]: a new call or a woken one. [kills] says whether the
    process may find itself killed. *)
Inductive sstep (kills : bool) : sys -> sys -> Prop :=
  | S_run s k q a i killed o s' :
      procs s !! k = Some q -> (q = Outside /\ i = 0 \/ q = Woken a i) -> call_ok a (pp s) ->
      (killed = true -> kills = true) ->
      run_call killed a i (mkPst (pp s) []) = Ret (o, s') ->
      sstep kills s (mkSys (ring s') (<[k := next_state a o]> (wake (wakes s') <$> procs s))
        (stored s ++ stores a i (pp s) (ring s')) (taken s ++ takes a o))
  | S_kill s k a c i :
      kills = true -> procs s !! k = Some (Sleeping a c i) ->
      sstep kills s (mkSys (pp s) (<[k := Woken a i]> (procs s)) (stored s) (taken s))
  | S_close s w b s' :
      (w = false -> forallb (fun q => negb (reading q)) (procs s) = true) ->
      pipeclose w (mkPst (pp s) []) = Ret (b, s') ->
      sstep kills s (mkSys (ring s') (wake (wakes s') <$> procs s) (stored s) (taken s)).

Inductive sreach (kills : bool) (page : list Z) (n : nat) : sys -> Prop :=
  | R_init : sreach kills page n (mkSys (fresh page) (replicate n Outside) [] [])
  | R_step s s' : sreach kills page n s -> sstep kills s s' -> sreach kills page n s'.

(** *** The queue discipline *)

Record queue_ok (s : sys) : Prop := {
  q_pipe : pipe_ok (pp s);
  q_lock : locked (pp s) = false;
  q_fifo : stored s = taken s ++ content (pp s)
}.

Lemma run_call_ok killed a i p : pipe_ok p -> locked p = false -> call_ok a p ->
  exists o s', run_call killed a i (mkPst p []) = Ret (o, s').
Proof.
  intros A L C. destruct a as [addr n|n]; cbn in C.
  - destruct (pipewrite_run killed addr n i (mkPst p []) A L C) as (o & s' & E & _). by exists o, s'.
  - destruct (piperead_run killed n (mkPst p []) A L) as (o & s' & E & _). by exists o, s'.
Qed.

Definition closed (w : bool) (p : pipe) : pipe := if w then set_writeopen 0 p else set_readopen 0 p.

Lemma pipeclose_run w s : pipe_ok (ring s) -> locked (ring s) = false ->
  exists b s', pipeclose w s = Ret (b, s') /\ ring s' = closed w (ring s) /\ wakes s' = wakes s ++ [if w then Nread else Nwrite].
Proof.
  intros A L. destruct s as [[lk d nr nw ro wo] ws]. cbn in L. subst lk.
  unfold pipeclose, acquire, release, wakeup, modr.
  destruct w; repeat (first [mnext | progress cbn [ring wakes locked set_locked set_writeopen set_readopen readopen writeopen data nread nwrite]]);
    destruct (_ && _); repeat (first [mnext | progress cbn [ring wakes locked set_locked]]); eexists _, _; (split; [reflexivity|split; reflexivity]).
Qed.

Lemma sstep_queue kills s s' : queue_ok s -> sstep kills s s' -> queue_ok s'.
Proof.
  intros [A L Fi] St. destruct St as [s k q a i killed o s' Hk Hq Hc Hkl E|s k a c i Hkl Hk|s w b s' Hw E].
  - destruct a as [addr n|n]; cbn in E, Hc.
    + destruct (pipewrite_run killed addr n i (mkPst (pp s) []) A L Hc) as (o' & s'' & E' & [W1 W2 W3 W4 W5 W6]).
      rewrite E' in E. injection E as -> ->. cbn in W5. constructor; cbn [pp stored taken]; [done|done|].
      cbn. rewrite Fi, W5, app_nil_r. by rewrite app_assoc.
    + destruct (piperead_run killed n (mkPst (pp s) []) A L) as (o' & s'' & E' & [R1 R2 R3 R4]).
      rewrite E' in E. injection E as -> ->. constructor; cbn [pp stored taken]; [done|done|]. cbn. rewrite app_nil_r, Fi.
      destruct R4 as [(bs & -> & _ & Hb & _)|([-> | ->] & _ & -> & _)]; cbn in *; [|by rewrite app_nil_r..].
      by rewrite Hb, app_assoc.
  - by constructor.
  - destruct (pipeclose_run w (mkPst (pp s) []) A L) as (b' & s'' & E' & Ep & _). rewrite E' in E. injection E as _ <-.
    constructor; cbn [pp stored taken]; rewrite Ep; destruct w; try done; destruct A; by constructor.
Qed.

(** C8: Under any interleaving of any number of writers and readers, with kills
    and closes at any point, a pipe is a FIFO queue of at most 512 bytes: the
    bytes the reads have returned followed by the bytes in the ring are exactly
    the bytes the writes have stored, in order, across the wrap of the 32-bit
    counters. *)
Theorem pipe_fifo kills page n s :
  zlen page = PIPESIZE -> sreach kills page n s ->
  stored s = taken s ++ content (pp s) /\ zlen (content (pp s)) <= PIPESIZE.
Proof.
  intros Hp R. assert (queue_ok s) as [A L Fi].
  { induction R as [|s s' R IH St]; [|by eapply sstep_queue].
    constructor; [|done|done]. constructor; cbn; [done|unfold in_u32; lia|unfold in_u32; lia|]. vm_compute. discriminate. }
  split; [done|]. rewrite zlen_content. apply A.
Qed.

(** *** Sleep and wakeup *)

(** A sleeper's condition holds: the pipe is full for a writer, empty for a
    reader, with the other end open. *)
Definition justified (p : pipe) (q : pstate) : Prop :=
  match q with
  | Sleeping (CWrite _ _) c _ => c = Nwrite /\ count p = PIPESIZE /\ readopen p <> 0
  | Sleeping (CRead _) c _ => c = Nread /\ count p = 0 /\ writeopen p <> 0 /\ readopen p <> 0
  | Woken (CRead _) _ => readopen p <> 0
  | _ => True
  end.

Lemma wake_justified p p' ws q :
  justified p q ->
  (reading q = true -> readopen p <> 0 -> readopen p' <> 0) ->
  (count p = PIPESIZE -> readopen p <> 0 -> Nwrite ∉ ws -> count p' = PIPESIZE /\ readopen p' <> 0) ->
  (count p = 0 -> readopen p <> 0 -> writeopen p <> 0 -> Nread ∉ ws -> count p' = 0 /\ writeopen p' <> 0) ->
  justified p' (wake ws q).
Proof.
  intros J Hr HW HR. destruct q as [|[addr n|n] c i|[addr n|n] i]; cbn in *; try done; try (by apply Hr).
  - destruct J as (-> & J1 & J2). case_bool_decide; [done|]. destruct (HW J1 J2); done.
  - destruct J as (-> & J1 & J2 & J3). case_bool_decide as Hin; [by apply Hr|].
    destruct (HR J1 J3 J2 Hin) as [H1 H2]. cbn. auto.
Qed.

Definition sleep_ok (s : sys) : Prop := queue_ok s /\ Forall (justified (pp s)) (procs s).

Lemma content_count p p' bs : content p = bs ++ content p' -> count p = zlen bs + count p'.
Proof. intros E. rewrite <- (zlen_content p), <- (zlen_content p'), E. apply zlen_app. Qed.

(** A run justifies its own sleep and leaves every other sleeper justified. *)
Lemma run_justified a i p o s' q :
  pipe_ok p -> locked p = false -> call_ok a p -> justified p q ->
  run_call false a i (mkPst p []) = Ret (o, s') ->
  justified (ring s') (next_state a o) /\ justified (ring s') (wake (wakes s') q).
Proof.
  intros A L Hc J E. destruct a as [addr n|n]; cbn in E, Hc.
  - destruct (pipewrite_run false addr n i (mkPst p []) A L Hc) as (o' & s'' & E' & [W1 [W2 W2'] W3 W4 W5 W6]).
    rewrite E' in E. injection E as -> ->. cbn [ring wakes] in *. pose proof (po_count _ W1) as Hcnt.
    split.
    + destruct W6 as [(-> & _)|[(-> & _)|(-> & _ & W6 & W7 & _)]]; cbn; try done. rewrite W2. done.
    + apply (wake_justified p); [done|by rewrite W2| |].
      * intros H1 H2 _. rewrite W2. split; [lia|done].
      * intros H1 H2 H3 H4. destruct W6 as [(_ & E6 & _)|[(_ & _ & _ & [?|?])|(_ & E6 & _)]]; [|done|done|];
          exfalso; rewrite E6 in H4; apply H4; by left.
  - destruct (piperead_run false n (mkPst p []) A L) as (o' & s'' & E' & [R1 [R2 R2'] R3 R4]).
    rewrite E' in E. injection E as -> ->. cbn [ring wakes] in *. split.
    + destruct R4 as [(bs & -> & _)|([-> | ->] & _ & _ & R5 & R6)]; cbn; try done. rewrite R2, R2'. done.
    + apply (wake_justified p); [done|by rewrite R2| |].
      * intros H1 H2 H3. rewrite R2. split; [|done]. destruct R4 as [(bs & _ & Ew & _)|(_ & _ & Ec & _)].
        -- exfalso. rewrite Ew in H3. apply H3. by left.
        -- pose proof (content_count p (ring s') [] (eq_sym Ec)) as Q. change (zlen []) with 0 in Q. lia.
      * intros H1 H2 H3 _. rewrite R2'. split; [|done]. pose proof (count_range (ring s')).
        destruct R4 as [(bs & _ & _ & Ec & _)|(_ & _ & _ & Hz & _)]; [|done].
        apply content_count in Ec. pose proof (zlen_nonneg bs). lia.
Qed.

Lemma sstep_sleep s s' : sleep_ok s -> sstep false s s' -> sleep_ok s'.
Proof.
  intros [Q J] St. split; [by eapply sstep_queue|]. destruct Q as [A L Fi].
  destruct St as [s k q a i killed o s' Hk Hq Hc Hkl E|s k a c i Hkl Hk|s w b s' Hw E]; cbn [pp procs]; [|done|].
  - assert (killed = false) as -> by (destruct killed; [by destruct (Hkl eq_refl)|done]).
    apply Forall_insert.
    + apply Forall_fmap. eapply Forall_impl; [exact J|]. intros q' Jq. by eapply run_justified.
    + rewrite Forall_lookup in J. by eapply run_justified; [..|exact E]; [| | |apply (J k q Hk)].
  - destruct (pipeclose_run w (mkPst (pp s) []) A L) as (b' & s'' & E' & Ep & Ew). rewrite E' in E. injection E as _ <-.
    rewrite Ep, Ew. cbn [ring wakes app]. apply Forall_fmap. rewrite Forall_forall in J. apply Forall_forall. intros q Hq.
    apply (wake_justified (pp s)); [by apply J|..]; destruct w; cbn.
    + done.
    + intros Hr. specialize (Hw eq_refl). rewrite forallb_forall in Hw.
      apply list_elem_of_In, Hw in Hq. rewrite Hr in Hq. done.
    + done.
    + intros _ _ H. exfalso. apply H. by left.
    + intros _ _ _ H. exfalso. apply H. by left.
    + intros ? _ ?. done.
Qed.

(** C24: No wakeup is lost as long as no process is killed inside a call: in every
    state reachable without that ([sreach false]) a process asleep in [pipewrite]
    faces a full pipe whose read end is open, and one asleep in [piperead] an
    empty pipe whose write end is open.  With it the claim fails:
    [killed_writer_strands_reader]. *)
Theorem pipe_no_lost_wakeup page n s k a c i :
  zlen page = PIPESIZE -> sreach false page n s -> procs s !! k = Some (Sleeping a c i) ->
  match a with
  | CWrite _ _ => c = Nwrite /\ count (pp s) = PIPESIZE /\ readopen (pp s) <> 0
  | CRead _ => c = Nread /\ count (pp s) = 0 /\ writeopen (pp s) <> 0
  end.
Proof.
  intros Hp R Hk. assert (sleep_ok s) as [_ J].
  { clear Hk. induction R as [|s s' R IH St]; [|eapply sstep_sleep; [|exact St]].
    - split; [|by apply Forall_replicate]. constructor; [|done|done].
      constructor; cbn; [done|unfold in_u32; lia|unfold in_u32; lia|vm_compute; discriminate].
    - exact IH. }
  rewrite Forall_lookup in J. specialize (J k _ Hk). destruct a; cbn in J; tauto.
Qed.

(** A killed writer can strand a reader: the reader sleeps on the empty pipe,
    the writer, killed while it fills the ring, returns -1 without waking it, and
    the reader stays asleep on a full pipe while another process holds the write
    end. *)
Theorem killed_writer_strands_reader (page addr : list Z) n :
  zlen page = PIPESIZE -> PIPESIZE < n <= zlen addr ->
  exists s, sreach true page 2 s /\ procs s !! 0%nat = Some (Sleeping (CRead 1) Nread 0) /\
    procs s !! 1%nat = Some Outside /\ count (pp s) = PIPESIZE /\ writeopen (pp s) = 1.
Proof.
  intros Hp Hn. set (p0 := fresh page).
  assert (A0 : pipe_ok p0).
  { constructor; cbn; [done|unfold in_u32; lia|unfold in_u32; lia|vm_compute; discriminate]. }
  assert (sreach true page 2 (mkSys p0 [Sleeping (CRead 1) Nread 0; Outside] [] [])) as R1.
  { eapply R_step; [apply R_init|].
    apply (S_run true (mkSys p0 [Outside; Outside] [] []) 0 Outside (CRead 1) 0 false (Asleep Nread 0) (mkPst p0 [])); try done; by left. }
  destruct (pipewrite_run true addr n 0 (mkPst p0 []) A0 eq_refl) as (o & s' & E & [W1 [W2 W2'] W3 W4 W5 W6]); [lia|].
  cbn [ring wakes] in *. pose proof (po_count _ W1) as Hc. assert (count p0 = 0) as Hc0 by reflexivity.
  assert (zlen (drop (Z.to_nat 0) (take (Z.to_nat n) addr)) = n) as Hz.
  { unfold zlen in *. rewrite length_drop, length_take. unfold PIPESIZE in Hn. lia. }
  destruct W6 as [(_ & _ & W6)|[(-> & Ew & W6 & _)|(_ & _ & _ & _ & W6)]]; [lia| |done].
  eexists. split.
  - eapply R_step; [exact R1|]. apply (S_run true _ 1 Outside (CWrite addr n) 0 true (Done (-1) []) s'); [done|by left|cbn; lia|done|exact E].
  - cbn [procs pp]. rewrite Ew. split; [done|]. split; [done|]. split; [done|]. by rewrite W2'.
Qed.

(** *** Concrete runs *)

Definition after (s : sys) (k : nat) (a : call) (i : Z) : sys :=
  match run_call false a i (mkPst (pp s) []) with
  | Ret (o, s') => mkSys (ring s') (<[k := next_state a o]> (wake (wakes s') <$> procs s))
        (stored s ++ stores a i (pp s) (ring s')) (taken s ++ takes a o)
  | _ => s
  end.

Lemma after_reach kills page n s k a i q :
  sreach kills page n s -> procs s !! k = Some q -> (q = Outside /\ i = 0 \/ q = Woken a i) -> call_ok a (pp s) ->
  pipe_ok (pp s) -> locked (pp s) = false -> sreach kills page n (after s k a i).
Proof.
  intros R Hk Hq Hc A L. destruct (run_call_ok false a i (pp s) A L Hc) as (o & s' & E).
  eapply R_step; [exact R|]. unfold after. rewrite E. by apply (S_run kills s k q a i false o s').
Qed.

Definition page0 : list Z := replicate 512 0.
Definition sys0 : sys := mkSys (fresh page0) [Outside; Outside] [] [].
(** The reader sleeps; the writer writes three bytes; the reader takes two. *)
Definition sys1 : sys := after sys0 0 (CRead 2) 0.
Definition sys2 : sys := after sys1 1 (CWrite [5; 6; 7] 3) 0.
Definition sys3 : sys := after sys2 0 (CRead 2) 0.

Lemma page0_ok : zlen page0 = PIPESIZE.
Proof. reflexivity. Qed.

Lemma demo_queue kills n s : sreach kills page0 n s -> queue_ok s.
Proof.
  induction 1 as [|s s' R IH St]; [|by eapply sstep_queue].
  constructor; [|done|done]. constructor; cbn; [done|unfold in_u32; lia|unfold in_u32; lia|]. vm_compute. discriminate.
Qed.

Lemma reach1 : sreach false page0 2 sys1.
Proof.
  apply (after_reach _ _ _ sys0 0 (CRead 2) 0 Outside); [apply R_init|reflexivity|left; split; reflexivity|vm_compute; discriminate| |reflexivity].
  apply (demo_queue false 2 sys0), R_init.
Qed.
Lemma reach2 : sreach false page0 2 sys2.
Proof.
  apply (after_reach _ _ _ sys1 1 (CWrite [5; 6; 7] 3) 0 Outside); [apply reach1|reflexivity|left; split; reflexivity|cbn; unfold zlen; cbn; lia|..].
  - apply (demo_queue false 2 sys1), reach1.
  - reflexivity.
Qed.
Lemma reach3 : sreach false page0 2 sys3.
Proof.
  apply (after_reach _ _ _ sys2 0 (CRead 2) 0 (Woken (CRead 2) 0)); [apply reach2|reflexivity|right; reflexivity|vm_compute; discriminate|..].
  - apply (demo_queue false 2 sys2), reach2.
  - reflexivity.
Qed.

Lemma pipe_fifo_witness : taken sys3 = [5; 6] /\ stored sys3 = taken sys3 ++ content (pp sys3).
Proof.
  split; [vm_compute; reflexivity|]. apply (pipe_fifo false page0 2 sys3 page0_ok reach3).
Defined.

Lemma pipe_no_lost_wakeup_witness : Nread = Nread /\ count (pp sys1) = 0 /\ writeopen (pp sys1) <> 0.
Proof.
  apply (pipe_no_lost_wakeup page0 2 sys1 0 (CRead 2) Nread 0 page0_ok reach1). vm_compute. reflexivity.
Defined.

Lemma killed_writer_strands_reader_witness :
  exists s, sreach true page0 2 s /\ count (pp s) = PIPESIZE /\ procs s !! 0%nat = Some (Sleeping (CRead 1) Nread 0).
Proof.
  destruct (killed_writer_strands_reader page0 (replicate 600 1) 600 page0_ok) as (s & R & H1 & _ & H2 & _).
  - vm_compute. split; [reflexivity|discriminate].
  - exists s. split; [exact R|split; [exact H2|exact H1]].
Defined.
