(* ===== verification/File.v ===== *)
(** Open files and the file system calls of project 5 ([src/5/xv6/file.c],
    [sysfile.c], and the argument fetching and dispatch of [syscall.c]), over
    the file system, pipes and an interface to the page allocator.

    A [struct file *] is an index into [ftable.file].  User memory is the bytes
    below [proc->sz]; a system call reads its arguments there through [esp]. *)
From S2P Require Import Prelude Bytes BlockDev CString Fs Pipe.

(** The page allocator as [pipealloc] and [pipeclose] use it. *)
Class PageOps (P : Type) := {
  page_alloc : M P (option (Z * list Z));
  page_free : Z -> M P unit
}.

Module File.
Import Fs.

Definition NOFILE : Z := 16.
Definition NFILE : Z := 100.
Definition MAXARG : Z := 32.
Definition O_RDONLY : Z := 0.
Definition O_WRONLY : Z := 1.
Definition O_RDWR : Z := 2.
Definition O_EXTENT : Z := 4.
Definition O_CREATE : Z := 512.

Inductive ftype := FD_NONE | FD_PIPE | FD_INODE.

(** [pipe] and [ip] are meaningful according to the type. *)
Record file := mkFile {
  fty : ftype; ref : Z; readable : Z; writable : Z; pipe : Z; ip : Z; off : Z
}.
Definition set_ref v f := mkFile (fty f) v (readable f) (writable f) (pipe f) (ip f) (off f).
Definition set_off v f := mkFile (fty f) (ref f) (readable f) (writable f) (pipe f) (ip f) v.

Record kfile (K P : Type) := mkK {
  ftable : list file;
  ftable_lock : bool;
  pipes : gmap Z Pipe.pipe;
  pages : P;
  fsys : fstate K;
  ofile : list (option Z);
  killed : bool;
  umem : list Z;
  esp : Z
}.
Arguments mkK {K P} ftable ftable_lock pipes pages fsys ofile killed umem esp.
Arguments ftable {K P} k.
Arguments ftable_lock {K P} k.
Arguments pipes {K P} k.
Arguments pages {K P} k.
Arguments fsys {K P} k.
Arguments ofile {K P} k.
Arguments killed {K P} k.
Arguments umem {K P} k.
Arguments esp {K P} k.

Section File.
Context {K P : Type} `{BlockOps K} `{DevSw K} `{PageOps P}.
Notation st := (kfile K P).

Definition set_ftable l (s : st) : st := mkK l (ftable_lock s) (pipes s) (pages s) (fsys s) (ofile s) (killed s) (umem s) (esp s).
Definition set_ftable_lock b (s : st) : st := mkK (ftable s) b (pipes s) (pages s) (fsys s) (ofile s) (killed s) (umem s) (esp s).
Definition set_pipes m (s : st) : st := mkK (ftable s) (ftable_lock s) m (pages s) (fsys s) (ofile s) (killed s) (umem s) (esp s).
Definition set_pages p (s : st) : st := mkK (ftable s) (ftable_lock s) (pipes s) p (fsys s) (ofile s) (killed s) (umem s) (esp s).
Definition set_fsys f (s : st) : st := mkK (ftable s) (ftable_lock s) (pipes s) (pages s) f (ofile s) (killed s) (umem s) (esp s).
Definition set_ofile l (s : st) : st := mkK (ftable s) (ftable_lock s) (pipes s) (pages s) (fsys s) l (killed s) (umem s) (esp s).
Definition set_umem l (s : st) : st := mkK (ftable s) (ftable_lock s) (pipes s) (pages s) (fsys s) (ofile s) (killed s) l (esp s).

(** Calls into the parts below. *)
Definition sub {S A} (get : st -> S) (set : S -> st -> st) (m : M S A) : M st A := fun s =>
  match m (get s) with
  | Ret (a, x) => Ret (a, set x s)
  | Panicked msg => Panicked msg
  | Undef why => Undef why
  | Blocked c => Blocked c
  | NoFuel => NoFuel
  end.
Definition fs {A} (m : M (fstate K) A) : M st A := sub fsys set_fsys m.
Definition pg {A} (m : M P A) : M st A := sub pages set_pages m.

(** A run of a pipe call: asleep in it, the caller is blocked. *)
Definition on_pipe {A} (p : Z) (m : M Pipe.pst A) : M st A := fun s =>
  match pipes s !! p with
  | None => Undef "pipe"
  | Some r =>
      match m (Pipe.mkPst r []) with
      | Ret (a, x) => Ret (a, set_pipes (<[p := Pipe.ring x]> (pipes s)) s)
      | Panicked msg => Panicked msg
      | Undef why => Undef why
      | Blocked c => Blocked c
      | NoFuel => NoFuel
      end
  end.
Definition outcome (p : Z) (o : Pipe.outcome) : M st (Z * list Z) :=
  match o with Pipe.Done r bs => mret (r, bs) | Pipe.Asleep _ _ => blocked p end.

Definition fget (f : Z) : M st file := s ← get; deref "file" (zget (ftable s) f).
Definition fmod (f : Z) (g : file -> file) : M st unit :=
  x ← fget f; modify (fun s => set_ftable (zset (ftable s) f (g x)) s).
Definition acquire_ft : M st unit :=
  s ← get; if ftable_lock s then panic "acquire" else modify (set_ftable_lock true).
Definition release_ft : M st unit :=
  s ← get; if ftable_lock s then modify (set_ftable_lock false) else panic "release".

(** ** The file table *)

Definition fileinit : M st unit := modify (set_ftable_lock false).

Fixpoint first_free (l : list file) (k : Z) : option Z :=
  match l with
  | [] => None
  | f :: l => if ref f =? 0 then Some k else first_free l (k + 1)
  end.

Definition filealloc : M st (option Z) :=
  acquire_ft;;
  s ← get;
  match first_free (ftable s) 0 with
  | Some f => fmod f (set_ref 1);; release_ft;; mret (Some f)
  | None => release_ft;; mret None
  end.

Definition filedup (f : Z) : M st Z :=
  acquire_ft;;
  x ← fget f;
  if ref x <? 1 then panic "filedup"
  else fmod f (set_ref (s32 (ref x + 1)));; release_ft;; mret f.

(** [pipeclose], with the page given back when both ends are closed. *)
Definition pipeclose (p writable : Z) : M st unit :=
  b ← on_pipe p (Pipe.pipeclose (negb (writable =? 0)));
  if (b : bool) then modify (fun s => set_pipes (delete p (pipes s)) s);; pg (page_free p) else mret tt.

Definition fileclose (f : Z) : M st unit :=
  acquire_ft;;
  x ← fget f;
  if ref x <? 1 then panic "fileclose"
  else
    fmod f (set_ref (s32 (ref x - 1)));;
    if s32 (ref x - 1) >? 0 then release_ft
    else
      ff ← fget f;
      fmod f (fun x => mkFile FD_NONE 0 (readable x) (writable x) (pipe x) (ip x) (off x));;
      release_ft;;
      match fty ff with
      | FD_PIPE => pipeclose (pipe ff) (writable ff)
      | FD_INODE => fs (iput (ip ff))
      | FD_NONE => mret tt
      end.

Definition filestat (f : Z) : M st (option stat) :=
  x ← fget f;
  match fty x with
  | FD_INODE =>
      fs (ilock (Some (ip x)));;
      r ← fs (stati (ip x));
      fs (iunlock (Some (ip x)));;
      mret (Some r)
  | _ => mret None
  end.

(** [fileread]: the result and the bytes stored at [addr]. *)
Definition fileread (f n : Z) : M st (Z * list Z) :=
  x ← fget f;
  if readable x =? 0 then mret (-1, [])
  else
    match fty x with
    | FD_PIPE => s ← get; o ← on_pipe (pipe x) (Pipe.piperead (killed s) n); outcome (pipe x) o
    | FD_INODE =>
        fs (ilock (Some (ip x)));;
        r ← fs (readi (ip x) (off x) (u32 n));
        (if r.1 >? 0 then fmod f (fun x => set_off (u32 (off x + r.1)) x) else mret tt);;
        fs (iunlock (Some (ip x)));;
        mret r
    | FD_NONE => panic "fileread"
    end.

(** [filewrite]: [addr] is memory from the buffer on. *)
Definition filewrite (f : Z) (addr : list Z) (n : Z) : M st Z :=
  x ← fget f;
  if writable x =? 0 then mret (-1)
  else
    match fty x with
    | FD_PIPE => s ← get; o ← on_pipe (pipe x) (Pipe.pipewrite (killed s) addr n); r ← outcome (pipe x) o; mret r.1
    | FD_INODE =>
        fs (ilock (Some (ip x)));;
        r ← fs (writei (ip x) addr (off x) (u32 n));
        (if r >? 0 then fmod f (fun x => set_off (u32 (off x + r)) x) else mret tt);;
        fs (iunlock (Some (ip x)));;
        mret r
    | FD_NONE => panic "filewrite"
    end.

(** [offset > f->ip->size] compares as unsigned. *)
Definition filelseek (f offset : Z) : M st Z :=
  x ← fget f;
  match fty x with
  | FD_INODE =>
      fs (ilock (Some (ip x)));;
      fmod f (set_off (u32 offset));;
      i ← fs (ipget (ip x));
      (if u32 offset >? isize i then fs (ipmod (ip x) (set_isize (u32 offset))) else mret tt);;
      fs (iunlock (Some (ip x)));;
      x ← fget f;
      mret (s32 (off x))
  | _ => mret (-1)
  end.

Definition pipealloc : M st (option (Z * Z)) :=
  f0 ← filealloc;
  f1 ← (match f0 with None => mret None | Some _ => filealloc end);
  match f0, f1 with
  | Some a, Some b =>
      p ← pg page_alloc;
      match p with
      | None => fileclose a;; fileclose b;; mret None
      | Some (p, bytes) =>
          modify (fun s => set_pipes (<[p := Pipe.fresh (take 512 bytes)]> (pipes s)) s);;
          fmod a (fun x => mkFile FD_PIPE (ref x) 1 0 p (ip x) (off x));;
          fmod b (fun x => mkFile FD_PIPE (ref x) 0 1 p (ip x) (off x));;
          mret (Some (a, b))
      end
  | Some a, None => fileclose a;; mret None
  | None, _ => mret None
  end.

(** ** Arguments *)

Definition sz (s : st) : Z := zlen (umem s).

Definition fetchint (addr : Z) : M st (option Z) :=
  s ← get;
  if (addr >=? sz s) || (u32 (addr + 4) >? sz s) then mret None
  else mret (Some (s32 (word (umem s) addr))).
Definition argint (n : Z) : M st (option Z) := s ← get; fetchint (u32 (esp s + 4 + 4 * n)).

(** The bytes of the string at [addr], when a NUL follows below [proc->sz]. *)
Fixpoint until_nul (l : list Z) : option (list Z) :=
  match l with
  | [] => None
  | c :: l => if c =? 0 then Some [] else s ← until_nul l; Some (c :: s)
  end.
Definition fetchstr (addr : Z) : M st (option (list Z)) :=
  s ← get; if addr >=? sz s then mret None else mret (until_nul (drop (Z.to_nat addr) (umem s))).
Definition argstr (n : Z) : M st (option (list Z)) :=
  a ← argint n; match a with None => mret None | Some a => fetchstr (u32 a) end.
Definition argptr (n size : Z) : M st (option Z) :=
  a ← argint n;
  match a with
  | None => mret None
  | Some i => s ← get; mret (if (u32 i >=? sz s) || (u32 (u32 i + u32 size) >? sz s) then None else Some (u32 i))
  end.

(** Stores through a user pointer; past [proc->sz] nothing need be mapped. *)
Definition store_user (p : Z) (bytes : list Z) : M st unit :=
  s ← get;
  if p + zlen bytes >? sz s then undef "user memory" else modify (set_umem (splice p bytes (umem s))).

Definition argfd (n : Z) : M st (option (Z * Z)) :=
  a ← argint n;
  match a with
  | None => mret None
  | Some fd =>
      s ← get;
      if (fd <? 0) || (fd >=? NOFILE) then mret None
      else mret (f ← mjoin (zget (ofile s) fd); Some (fd, f))
  end.

Fixpoint free_fd {A} (l : list (option A)) (fd : Z) : option Z :=
  match l with
  | [] => None
  | None :: _ => Some fd
  | Some _ :: l => free_fd l (fd + 1)
  end.
Definition fdalloc (f : Z) : M st Z :=
  s ← get;
  match free_fd (ofile s) 0 with
  | Some fd => modify (set_ofile (zset (ofile s) fd (Some f)));; mret fd
  | None => mret (-1)
  end.

(** ** System calls *)

Definition sys_dup : M st Z :=
  a ← argfd 0;
  match a with
  | None => mret (-1)
  | Some (_, f) =>
      fd ← fdalloc f;
      if fd <? 0 then mret (-1) else filedup f;; mret fd
  end.

Definition sys_read : M st Z :=
  a ← argfd 0;
  match a with
  | None => mret (-1)
  | Some (_, f) =>
      n ← argint 2;
      match n with
      | None => mret (-1)
      | Some n =>
          p ← argptr 1 n;
          match p with
          | None => mret (-1)
          | Some p => r ← fileread f n; store_user p r.2;; mret r.1
          end
      end
  end.

Definition sys_write : M st Z :=
  a ← argfd 0;
  match a with
  | None => mret (-1)
  | Some (_, f) =>
      n ← argint 2;
      match n with
      | None => mret (-1)
      | Some n =>
          p ← argptr 1 n;
          match p with
          | None => mret (-1)
          | Some p => s ← get; filewrite f (drop (Z.to_nat p) (umem s)) n
          end
      end
  end.

Definition sys_close : M st Z :=
  a ← argfd 0;
  match a with
  | None => mret (-1)
  | Some (fd, f) =>
      modify (fun s => set_ofile (zset (ofile s) fd None) s);;
      fileclose f;;
      mret 0
  end.

(** [struct stat] is 72 bytes; the padding is not stored. *)
Definition sys_fstat : M st Z :=
  a ← argfd 0;
  match a with
  | None => mret (-1)
  | Some (_, f) =>
      p ← argptr 1 72;
      match p with
      | None => mret (-1)
      | Some p =>
          r ← filestat f;
          match r with
          | None => mret (-1)
          | Some r =>
              store_user (p + 4) (to_le 4 (st_dev r));;
              store_user (p + 8) (to_le 4 (st_ino r));;
              store_user p (to_le 2 (st_type r));;
              store_user (p + 12) (to_le 2 (st_nlink r));;
              store_user (p + 16) (to_le 4 (st_size r));;
              store_user (p + 20) (mjoin (to_le 4 <$> st_addrs r));;
              mret 0
          end
      end
  end.

(** Local [char name[DIRSIZ]] arrays start with whatever is there. *)
Variable garbage : list Z.

Definition sys_link : M st Z :=
  old ← argstr 0;
  new ← (match old with None => mret None | Some _ => argstr 1 end);
  match old, new with
  | Some old, Some new =>
      ip ← fs (namei old garbage);
      match ip with
      | None => mret (-1)
      | Some ip =>
          fs (ilock (Some ip));;
          i ← fs (ipget ip);
          if type i =? T_DIR then fs (iunlockput ip);; mret (-1)
          else
            fs (ipmod ip (fun i => set_nlink (s16 (nlink i + 1)) i));;
            fs (iupdate ip);;
            fs (iunlock (Some ip));;
            let bad :=
              fs (ilock (Some ip));;
              fs (ipmod ip (fun i => set_nlink (s16 (nlink i - 1)) i));;
              fs (iupdate ip);;
              fs (iunlockput ip);;
              mret (-1) in
            r ← fs (nameiparent new garbage);
            match r.1 with
            | None => bad
            | Some dp =>
                fs (ilock (Some dp));;
                d ← fs (ipget dp);
                i ← fs (ipget ip);
                l ← (if negb (dev d =? dev i) then mret (-1) else fs (dirlink dp r.2 (inum i)));
                if l <? 0 then fs (iunlockput dp);; bad
                else fs (iunlockput dp);; fs (iput ip);; mret 0
            end
      end
  | _, _ => mret (-1)
  end.

Fixpoint isdirempty_loop (fuel : nat) (dp o : Z) : M st bool :=
  match fuel with
  | O => no_fuel
  | S fuel =>
      i ← fs (ipget dp);
      if u32 o <? isize i then
        r ← fs (readi dp (u32 o) 16);
        if negb (r.1 =? 16) then panic "isdirempty: readi"
        else if negb (half r.2 0 =? 0) then mret false
        else isdirempty_loop fuel dp (s32 (o + 16))
      else mret true
  end.
Definition isdirempty (dp : Z) : M st bool :=
  i ← fs (ipget dp); isdirempty_loop (S (Z.to_nat (isize i / 16 + 1))) dp 32.

Definition sys_unlink : M st Z :=
  path ← argstr 0;
  match path with
  | None => mret (-1)
  | Some path =>
      r ← fs (nameiparent path garbage);
      match r.1 with
      | None => mret (-1)
      | Some dp =>
          let name := r.2 in
          fs (ilock (Some dp));;
          c1 ← fs (namecmp name [46; 0]);
          c2 ← (if c1 =? 0 then mret 0 else fs (namecmp name [46; 46; 0]));
          if (c1 =? 0) || (c2 =? 0) then fs (iunlockput dp);; mret (-1)
          else
            e ← fs (dirlookup dp name);
            match e with
            | None => fs (iunlockput dp);; mret (-1)
            | Some (ip, o) =>
                fs (ilock (Some ip));;
                i ← fs (ipget ip);
                if nlink i <? 1 then panic "unlink: nlink < 1"
                else
                  empty ← (if type i =? T_DIR then isdirempty ip else mret true);
                  if negb empty then fs (iunlockput ip);; fs (iunlockput dp);; mret (-1)
                  else
                    w ← fs (writei dp (replicate 16 0) o 16);
                    if negb (w =? 16) then panic "unlink: writei"
                    else
                      (if type i =? T_DIR then
                         fs (ipmod dp (fun d => set_nlink (s16 (nlink d - 1)) d));;
                         fs (iupdate dp)
                       else mret tt);;
                      fs (iunlockput dp);;
                      fs (ipmod ip (fun i => set_nlink (s16 (nlink i - 1)) i));;
                      fs (iupdate ip);;
                      fs (iunlockput ip);;
                      mret 0
            end
      end
  end.

Definition create (path : list Z) (ty maj min : Z) : M st (option Z) :=
  r ← fs (nameiparent path garbage);
  match r.1 with
  | None => mret None
  | Some dp =>
      let name := r.2 in
      fs (ilock (Some dp));;
      e ← fs (dirlookup dp name);
      match e with
      | Some (ip, _) =>
          fs (iunlockput dp);;
          fs (ilock (Some ip));;
          i ← fs (ipget ip);
          if (ty =? T_FILE) && (type i =? T_FILE) then mret (Some ip)
          else fs (iunlockput ip);; mret None
      | None =>
          d ← fs (ipget dp);
          ip ← fs (ialloc (dev d) ty);
          fs (ilock (Some ip));;
          fs (ipmod ip (fun i => set_nlink 1 (set_minor min (set_major maj i))));;
          fs (iupdate ip);;
          i ← fs (ipget ip);
          (if ty =? T_DIR then
             fs (ipmod dp (fun d => set_nlink (s16 (nlink d + 1)) d));;
             fs (iupdate dp);;
             a ← fs (dirlink ip [46; 0] (inum i));
             if a <? 0 then panic "create dots"
             else
               b ← fs (dirlink ip [46; 46; 0] (inum d));
               if b <? 0 then panic "create dots" else mret tt
           else mret tt);;
          l ← fs (dirlink dp name (inum i));
          if l <? 0 then panic "create: dirlink"
          else fs (iunlockput dp);; mret (Some ip)
      end
  end.

Definition sys_open : M st Z :=
  path ← argstr 0;
  omode ← (match path with None => mret None | Some _ => argint 1 end);
  match path, omode with
  | Some path, Some omode =>
      ip ← (if negb (Z.land omode O_CREATE =? 0) then
              create path (if negb (Z.land omode O_EXTENT =? 0) then T_EXTENT else T_FILE) 0 0
            else
              r ← fs (namei path garbage);
              match r with
              | None => mret None
              | Some ip =>
                  fs (ilock (Some ip));;
                  i ← fs (ipget ip);
                  if (type i =? T_DIR) && negb (omode =? O_RDONLY) then fs (iunlockput ip);; mret None
                  else mret (Some ip)
              end);
      match ip with
      | None => mret (-1)
      | Some ip =>
          f ← filealloc;
          fd ← (match f with None => mret (-1) | Some f => fdalloc f end);
          match f with
          | Some f =>
              if fd <? 0 then fileclose f;; fs (iunlockput ip);; mret (-1)
              else
                fs (iunlock (Some ip));;
                fmod f (fun x => mkFile FD_INODE (ref x)
                  (if Z.land omode O_WRONLY =? 0 then 1 else 0)
                  (if negb (Z.land omode O_WRONLY =? 0) || negb (Z.land omode O_RDWR =? 0) then 1 else 0)
                  (pipe x) ip 0);;
                mret fd
          | None => fs (iunlockput ip);; mret (-1)
          end
      end
  | _, _ => mret (-1)
  end.

Definition sys_mkdir : M st Z :=
  path ← argstr 0;
  match path with
  | None => mret (-1)
  | Some path =>
      ip ← create path T_DIR 0 0;
      match ip with None => mret (-1) | Some ip => fs (iunlockput ip);; mret 0 end
  end.

Definition sys_mknod : M st Z :=
  path ← argstr 0;
  maj ← (match path with None => mret None | Some _ => argint 1 end);
  min ← (match maj with None => mret None | Some _ => argint 2 end);
  match path, maj, min with
  | Some path, Some maj, Some min =>
      ip ← create path T_DEV (s16 maj) (s16 min);
      match ip with None => mret (-1) | Some ip => fs (iunlockput ip);; mret 0 end
  | _, _, _ => mret (-1)
  end.

Definition sys_chdir : M st Z :=
  path ← argstr 0;
  match path with
  | None => mret (-1)
  | Some path =>
      ip ← fs (namei path garbage);
      match ip with
      | None => mret (-1)
      | Some ip =>
          fs (ilock (Some ip));;
          i ← fs (ipget ip);
          if negb (type i =? T_DIR) then fs (iunlockput ip);; mret (-1)
          else
            fs (iunlock (Some ip));;
            s ← get;
            fs (iput (cwd (fsys s)));;
            fs (modify (set_cwd ip));;
            mret 0
      end
  end.

(** [exec] itself belongs to another part of the kernel. *)
Variable exec : list Z -> list (list Z) -> M st Z.

Fixpoint exec_args (fuel : nat) (uargv i : Z) (acc : list (list Z)) : M st (option (list (list Z))) :=
  match fuel with
  | O => no_fuel
  | S fuel =>
      if i >=? MAXARG then mret None
      else
        uarg ← fetchint (u32 (uargv + 4 * i));
        match uarg with
        | None => mret None
        | Some uarg =>
            if uarg =? 0 then mret (Some acc)
            else
              a ← fetchstr (u32 uarg);
              match a with
              | None => mret None
              | Some a => exec_args fuel uargv (i + 1) (acc ++ [a])
              end
        end
  end.

Definition sys_exec : M st Z :=
  path ← argstr 0;
  uargv ← (match path with None => mret None | Some _ => argint 1 end);
  match path, uargv with
  | Some path, Some uargv =>
      argv ← exec_args (S (Z.to_nat MAXARG)) (u32 uargv) 0 [];
      match argv with None => mret (-1) | Some argv => exec path argv end
  | _, _ => mret (-1)
  end.

Definition sys_pipe : M st Z :=
  p ← argptr 0 8;
  match p with
  | None => mret (-1)
  | Some p =>
      r ← pipealloc;
      match r with
      | None => mret (-1)
      | Some (rf, wf) =>
          fd0 ← fdalloc rf;
          fd1 ← (if fd0 <? 0 then mret (-1) else fdalloc wf);
          if (fd0 <? 0) || (fd1 <? 0) then
            (if fd0 >=? 0 then modify (fun s => set_ofile (zset (ofile s) fd0 None) s) else mret tt);;
            fileclose rf;;
            fileclose wf;;
            mret (-1)
          else
            store_user p (to_le 4 fd0);;
            store_user (p + 4) (to_le 4 fd1);;
            mret 0
      end
  end.

Definition sys_lseek : M st Z :=
  a ← argfd 0;
  match a with
  | None => mret (-1)
  | Some (_, f) =>
      o ← argint 1;
      match o with None => mret (-1) | Some o => filelseek f o end
  end.

(** [syscall]: the value left in [eax]; the calls on processes are another
    part's. *)
Variable proc_call : Z -> M st Z.

Definition syscalls (num : Z) : M st Z :=
  match num with
  | 4 => sys_pipe | 5 => sys_write | 6 => sys_read | 7 => sys_close | 9 => sys_exec | 10 => sys_open
  | 11 => sys_mknod | 12 => sys_unlink | 13 => sys_fstat | 14 => sys_link | 15 => sys_mkdir
  | 16 => sys_chdir | 17 => sys_dup | 22 => sys_lseek
  | _ => proc_call num
  end.
Definition syscall (num : Z) : M st Z :=
  if (num >? 0) && (num <? 23) then syscalls num else mret (-1).

End File.
End File.
