(* ===== verification/FileSpec.v ===== *)
(** Descriptors and reference counts of open files. *)
From S2P Require Import Prelude Bytes BlockDev CString Fs Pipe File.
Import Fs.
Import File.

Section FileSpec.
Context {K P : Type} `{BlockOps K} `{DevSw K} `{PageOps P}.
Notation st := (kfile K P).
Implicit Types (s : st).

(** ** Calls that leave references and descriptors alone *)

Definition refs (s : st) : list Z := ref <$> ftable s.
Definition same (s s' : st) : Prop := refs s' = refs s /\ ofile s' = ofile s.
Definition still {A} (m : M st A) : Prop := forall s a s', m s = Ret (a, s') -> same s s'.

Lemma same_refl s : same s s.
Proof. done. Qed.
Lemma same_trans s1 s2 s3 : same s1 s2 -> same s2 s3 -> same s1 s3.
Proof. unfold same. intuition congruence. Qed.

Lemma still_ret {A} (a : A) : still (mret a).
Proof. intros s b s' [= _ <-]. done. Qed.
Lemma still_get : still get.
Proof. intros s b s' [= _ <-]. done. Qed.
Lemma still_bind {A B} (m : M st A) (k : A -> M st B) : still m -> (forall a, still (k a)) -> still (m ≫= k).
Proof. intros Hm Hk s b s' E. apply bind_inv in E as (a & s1 & E1 & E2). eapply same_trans; [by eapply Hm|by eapply Hk]. Qed.
Lemma still_panic {A} msg : still (panic (A := A) msg).
Proof. intros s a s' E. discriminate E. Qed.
Lemma still_undef {A} msg : still (undef (A := A) msg).
Proof. intros s a s' E. discriminate E. Qed.
Lemma still_blocked {A} c : still (blocked (A := A) c).
Proof. intros s a s' E. discriminate E. Qed.
Lemma still_no_fuel {A} : still (no_fuel (A := A)).
Proof. intros s a s' E. discriminate E. Qed.
Lemma still_deref {A} why (o : option A) : still (deref why o).
Proof. destruct o; [apply still_ret|apply still_undef]. Qed.
Lemma still_modify f : (forall s, same s (f s)) -> still (modify f).
Proof. intros Hf s a s' [= _ <-]. apply Hf. Qed.
Lemma still_fs {A} (m : M (fstate K) A) : still (fs m).
Proof. intros s a s'. unfold fs, sub. destruct (m (fsys s)) as [[b x]| | | |]; try done. intros [= _ <-]. done. Qed.
Lemma still_pg {A} (m : M P A) : still (pg m).
Proof. intros s a s'. unfold pg, sub. destruct (m (pages s)) as [[b x]| | | |]; try done. intros [= _ <-]. done. Qed.
Lemma still_on_pipe {A} p (m : M Pipe.pst A) : still (on_pipe p m).
Proof.
  intros s a s'. unfold on_pipe. destruct (pipes s !! p); [|done].
  destruct (m (Pipe.mkPst p0 [])) as [[b x]| | | |]; try done. intros [= _ <-]. done.
Qed.
Lemma still_fmod f g : (forall x, ref (g x) = ref x) -> still (fmod f g).
Proof.
  intros Hg s a s' E. unfold fmod in E. apply bind_inv in E as (x & s1 & E1 & E2).
  unfold fget in E1. rewrite bind_get in E1. destruct (zget (ftable s) f) as [y|] eqn:Ey; [|done]. injection E1 as -> <-.
  injection E2 as _ <-. split; [|done]. unfold refs. cbn. rewrite fmap_zset, Hg. apply zset_id. by rewrite zget_fmap, Ey.
Qed.
End FileSpec.

#[export] Hint Resolve still_ret still_get still_panic still_undef still_blocked still_no_fuel still_deref
  still_fs still_pg still_on_pipe : still.

(** Take a body apart down to calls the hint database knows. *)
Ltac still :=
  repeat match goal with
  | |- still (_ ≫= _) => apply still_bind; [|intro]
  | |- still (modify _) => apply still_modify; intro; split; reflexivity
  | |- still (fmod _ _) => apply still_fmod; reflexivity
  | |- still (if ?b then _ else _) => destruct b
  | |- still (match ?x with _ => _ end) => destruct x
  | |- still _ => solve [eauto with still]
  end.

Section Quiet.
Context {K P : Type} `{BlockOps K} `{DevSw K} `{PageOps P}.
Notation st := (kfile K P).
Implicit Types (s : st).

Lemma still_locks : still (acquire_ft (K := K) (P := P)) /\ still (release_ft (K := K) (P := P)).
Proof. split; unfold acquire_ft, release_ft; still. Qed.
Lemma still_fget f : still (fget f : M st file).
Proof. unfold fget. still. Qed.
Lemma still_fetchint a : still (fetchint a : M st _).
Proof. unfold fetchint. still. Qed.
Lemma still_argint n : still (argint n : M st _).
Proof. unfold argint. apply still_bind; [apply still_get|]. intros s. apply still_fetchint. Qed.
Lemma still_fetchstr a : still (fetchstr a : M st _).
Proof. unfold fetchstr. still. Qed.
Lemma still_argstr n : still (argstr n : M st _).
Proof. unfold argstr. apply still_bind; [apply still_argint|]. intros []; [apply still_fetchstr|apply still_ret]. Qed.
Lemma still_argptr n m : still (argptr n m : M st _).
Proof. unfold argptr. apply still_bind; [apply still_argint|]. intros []; still. Qed.
Lemma still_store_user p x : still (store_user p x : M st _).
Proof. unfold store_user. still. Qed.
Lemma still_argfd n : still (argfd n : M st _).
Proof. unfold argfd. apply still_bind; [apply still_argint|]. intros []; still. Qed.
Lemma still_pipeclose p w : still (pipeclose p w : M st _).
Proof. unfold pipeclose. still. Qed.
Lemma still_outcome p o : still (outcome p o : M st _).
Proof. unfold outcome. still. Qed.
End Quiet.

#[export] Hint Resolve still_fget still_fetchint still_argint still_fetchstr still_argstr still_argptr still_store_user
  still_argfd still_pipeclose still_outcome : still.
#[export] Hint Extern 1 (still acquire_ft) => apply still_locks : still.
#[export] Hint Extern 1 (still release_ft) => apply still_locks : still.

Section Balance.
Context {K P : Type} `{BlockOps K} `{DevSw K} `{PageOps P}.
Notation st := (kfile K P).
Implicit Types (s : st).

Lemma still_fileread f n : still (fileread f n : M st _).
Proof.
  unfold fileread. apply still_bind; [apply still_fget|]. intros x. destruct (readable x =? 0); [still|].
  destruct (fty x); still.
Qed.
Lemma still_filewrite f a n : still (filewrite f a n : M st _).
Proof.
  unfold filewrite. apply still_bind; [apply still_fget|]. intros x. destruct (writable x =? 0); [still|].
  destruct (fty x); still.
Qed.
Lemma still_filestat f : still (filestat f : M st _).
Proof. unfold filestat. still. Qed.
Lemma still_filelseek f n : still (filelseek f n : M st _).
Proof. unfold filelseek. still. Qed.
Lemma still_isdirempty dp : still (isdirempty dp : M st _).
Proof.
  unfold isdirempty. apply still_bind; [apply still_fs|]. intros i. generalize (S (Z.to_nat (isize i / 16 + 1))) as n. intros n.
  generalize 32 as o. induction n as [|n IH]; intros o; cbn [isdirempty_loop]; [apply still_no_fuel|]. still.
Qed.
Lemma still_create g path t a b : still (create g path t a b : M st _).
Proof. unfold create. still. Qed.
End Balance.

#[export] Hint Resolve still_fileread still_filewrite still_filestat still_filelseek still_isdirempty still_create : still.

(** ** References against descriptors *)

(** How many times the file [g] occurs among descriptors [l]. *)
Fixpoint occ (g : Z) (l : list (option Z)) : Z :=
  match l with
  | [] => 0
  | d :: l => (if bool_decide (d = Some g) then 1 else 0) + occ g l
  end.

Lemma occ_app g l1 l2 : occ g (l1 ++ l2) = occ g l1 + occ g l2.
Proof. induction l1 as [|d l1 IH]; cbn; [done|]. rewrite IH. lia. Qed.
Lemma occ_range g l : 0 <= occ g l <= zlen l.
Proof. induction l as [|d l IH]; [unfold zlen; cbn; lia|]. unfold zlen in *. cbn. case_bool_decide; lia. Qed.
Lemma occ_pos g l : Some g ∈ l <-> 0 < occ g l.
Proof.
  induction l as [|d l IH]; cbn; [split; [intros []%elem_of_nil|lia]|]. rewrite elem_of_cons, IH. pose proof (occ_range g l).
  case_bool_decide; split; intros Hx; [lia|by left|destruct Hx; [congruence|lia]|right; lia].
Qed.
Lemma occ_zset g l i d d' : zget l i = Some d ->
  occ g (zset l i d') + (if bool_decide (d = Some g) then 1 else 0) = occ g l + (if bool_decide (d' = Some g) then 1 else 0).
Proof.
  unfold zget, zset. case_bool_decide; [done|]. generalize (Z.to_nat i) as k. intros k. revert k.
  induction l as [|x l IH]; intros [|k]; cbn; try done; intros E;
    [injection E as ->; repeat case_bool_decide; lia|].
  specialize (IH _ E). rewrite <- !Z.add_assoc. f_equal. exact IH.
Qed.

Section Refs.
Context {K P : Type} `{BlockOps K} `{DevSw K} `{PageOps P}.
Notation st := (kfile K P).
Implicit Types (s : st) (h d oth : list (option Z)).

(** With [h] the references a body holds outside any descriptor and [d] the
    descriptors it has made without counting them yet. *)
Record bal h d s : Prop := {
  bal_fds : zlen (ofile s) = NOFILE;
  bal_held : zlen h <= 2 ^ 30;
  bal_ref : forall g r, zget (refs s) g = Some r -> r + occ g d = occ g h + occ g (ofile s);
  bal_in : forall g, 0 < occ g h + occ g (ofile s) -> is_Some (zget (refs s) g)
}.

(** [m] takes balance with [h] and [d] to balance with what [k] says. *)
Definition moves {A} (m : M st A) h d (k : A -> list (option Z) * list (option Z)) : Prop :=
  forall s a s', bal h d s -> m s = Ret (a, s') -> bal (k a).1 (k a).2 s'.

Lemma bal_same h d s s' : same s s' -> bal h d s -> bal h d s'.
Proof. intros [E1 E2] [B1 B2 B3 B4]. split; rewrite ?E1, ?E2; auto. Qed.
Lemma bal_occ h d h' d' s : zlen h' <= 2 ^ 30 -> (forall g, occ g h' + occ g d = occ g h + occ g d') ->
  (forall g, 0 < occ g h' -> 0 < occ g h + occ g (ofile s)) -> bal h d s -> bal h' d' s.
Proof.
  intros Hl E Hp [B1 B2 B3 B4]. split; [done|done| |]; intros g.
  - intros r Hr. specialize (B3 g r Hr). specialize (E g). lia.
  - intros ?. apply B4. specialize (Hp g). pose proof (occ_range g h). pose proof (occ_range g (ofile s)). lia.
Qed.

Lemma moves_quiet {A} (m : M st A) h d : still m -> moves m h d (fun _ => (h, d)).
Proof. intros Q s a s' B E. eapply bal_same; [by eapply Q|done]. Qed.
Lemma moves_bind {A B} (m : M st A) (f : A -> M st B) h d k k' :
  moves m h d k -> (forall a, moves (f a) (k a).1 (k a).2 k') -> moves (m ≫= f) h d k'.
Proof. intros Hm Hf s b s' Hb E. apply bind_inv in E as (a & s1 & E1 & E2). eapply Hf; [|done]. by eapply Hm. Qed.
Lemma moves_bind_quiet {A B} (m : M st A) (f : A -> M st B) h d k' :
  still m -> (forall a, moves (f a) h d k') -> moves (m ≫= f) h d k'.
Proof. intros Hm Hf. eapply moves_bind; [by apply moves_quiet|]. cbn. done. Qed.
Lemma moves_ret {A} (a : A) h d k : k a = (h, d) -> moves (mret a) h d k.
Proof. intros E s b s' B [= <- <-]. by rewrite E. Qed.
Lemma moves_panic {A} msg h d k : moves (panic (A := A) msg) h d k.
Proof. intros s a s' B E. discriminate E. Qed.

(** One count changed by [n]. *)
Lemma fmod_refs f g s a s' : fmod f g s = Ret (a, s') ->
  exists x, zget (ftable s) f = Some x /\ ofile s' = ofile s /\ refs s' = zset (refs s) f (ref (g x)).
Proof.
  intros E. unfold fmod in E. apply bind_inv in E as (x & s1 & E1 & E2).
  unfold fget in E1. rewrite bind_get in E1. destruct (zget (ftable s) f) as [y|] eqn:Ey; [|done]. injection E1 as -> <-.
  injection E2 as _ <-. exists x. split_and!; [done..|]. unfold refs. cbn. by rewrite fmap_zset.
Qed.
Lemma fget_refs f s x s' : fget f s = Ret (x, s') -> s' = s /\ zget (ftable s) f = Some x /\ zget (refs s) f = Some (ref x).
Proof.
  intros E. unfold fget in E. rewrite bind_get in E. destruct (zget (ftable s) f) as [y|] eqn:Ey; [|done]. injection E as -> <-.
  unfold refs. by rewrite zget_fmap, Ey.
Qed.
Lemma bal_count h d h' d' s s' f r n : bal h d s -> zget (refs s) f = Some r ->
  ofile s' = ofile s -> refs s' = zset (refs s) f (r + n) -> zlen h' <= 2 ^ 30 ->
  (forall g, occ g h' + occ g d = occ g h + occ g d' + (if bool_decide (g = f) then n else 0)) ->
  (forall g, 0 < occ g h' -> 0 < occ g h \/ g = f) -> bal h' d' s'.
Proof.
  intros [B1 B2 B3 B4] Hf Eo Er Hl E Hin. pose proof (zget_Some_range _ _ _ Hf) as Hr.
  split; rewrite ?Eo, ?Er; [done|done| |]; intros g; specialize (E g).
  - intros r'. destruct (decide (g = f)) as [->|Hne].
    + rewrite zget_zset_eq by done. intros [= <-]. specialize (B3 f r Hf). rewrite bool_decide_true in E by done. lia.
    + rewrite zget_zset_ne by done. intros Hg. specialize (B3 g r' Hg). rewrite bool_decide_false in E by done. lia.
  - intros Hp. destruct (decide (g = f)) as [->|Hne]; [rewrite zget_zset_eq by done; eauto|].
    rewrite zget_zset_ne by done. apply B4. specialize (Hin g).
    pose proof (occ_range g h). pose proof (occ_range g (ofile s)). pose proof (occ_range g h'). lia.
Qed.
End Refs.

#[export] Hint Resolve moves_ret moves_panic : moves.

Section Calls.
Context {K P : Type} `{BlockOps K} `{DevSw K} `{PageOps P}.
Notation st := (kfile K P).
Implicit Types (s : st) (h d oth : list (option Z)).

Lemma occ_cons_self f g (l : list (option Z)) : occ g (Some f :: l) = occ g l + (if bool_decide (g = f) then 1 else 0).
Proof. cbn. repeat case_bool_decide; simplify_eq; lia. Qed.
Lemma zlen_cons {A} (a : A) l : zlen (a :: l) = zlen l + 1.
Proof. unfold zlen. cbn. lia. Qed.

Lemma first_free_ref (l : list file) k f : first_free l k = Some f -> exists x, zget l (f - k) = Some x /\ ref x = 0.
Proof.
  revert k. induction l as [|x l IH]; intros k; cbn; [done|]. destruct (ref x =? 0) eqn:E.
  - intros [= <-]. exists x. rewrite Z.sub_diag. split; [done|lia].
  - intros (y & Ey & Er)%IH. exists y. split; [|done]. pose proof (zget_Some_range _ _ _ Ey).
    rewrite (zget_app_r [x] l) by (unfold zlen in *; cbn; lia). rewrite <- Ey. f_equal. unfold zlen. cbn. lia.
Qed.

Lemma filealloc_moves h d : zlen h < 2 ^ 30 ->
  moves (filealloc : M st _) h d (fun o => (match o with Some f => Some f :: h | None => h end, d)).
Proof.
  intros Hl. unfold filealloc. apply moves_bind_quiet; [still|]. intros [].
  intros s a s' B E. rewrite bind_get in E. destruct (first_free (ftable s) 0) as [f|] eqn:Ef.
  - apply first_free_ref in Ef as (x & Ex & Er). rewrite Z.sub_0_r in Ex.
    apply bind_inv in E as ([] & s1 & E1 & E2). apply bind_inv in E2 as ([] & s2 & E2 & E3).
    injection E3 as <- <-. destruct (proj2 still_locks _ _ _ E2) as [Q1 Q2]. cbn.
    apply fmod_refs in E1 as (y & Ey & Eo & Er'). rewrite Ex in Ey. injection Ey as <-.
    assert (Hz : zget (refs s) f = Some 0) by (unfold refs; by rewrite zget_fmap, Ex, <- Er).
    eapply (bal_same _ _ s1); [by split|]. eapply (bal_count h d (Some f :: h) d s s1 f 0 1); eauto.
    + rewrite zlen_cons. lia.
    + intros g. rewrite occ_cons_self. lia.
    + intros g. rewrite occ_cons_self. case_bool_decide; [auto|left; lia].
  - apply bind_inv in E as ([] & s1 & E1 & E2). injection E2 as <- <-. cbn.
    eapply bal_same; [by eapply (proj2 still_locks)|done].
Qed.

Lemma filedup_moves f h d : moves (filedup f : M st _) h (Some f :: d) (fun _ => (h, d)).
Proof.
  unfold filedup. apply moves_bind_quiet; [still|]. intros [].
  intros s a s' B E. apply bind_inv in E as (x & s1 & E1 & E2). apply fget_refs in E1 as (-> & Ex & Er).
  destruct (ref x <? 1) eqn:E1; [done|]. apply bind_inv in E2 as ([] & s2 & E2 & E3).
  apply bind_inv in E3 as ([] & s3 & E3 & E4). injection E4 as <- <-. cbn.
  eapply bal_same; [by eapply (proj2 still_locks)|]. apply fmod_refs in E2 as (y & Ey & Eo & Er'). rewrite Ex in Ey. injection Ey as <-.
  cbn in Er'. pose proof (bal_ref _ _ _ B f _ Er) as Hb. pose proof (bal_held _ _ _ B). pose proof (bal_fds _ _ _ B).
  pose proof (occ_range f h). pose proof (occ_range f (ofile s)). pose proof (occ_range f (Some f :: d)). unfold NOFILE in *.
  rewrite s32_small in Er' by (unfold in_s32; lia).
  eapply (bal_count h (Some f :: d) h d s s2 f (ref x) 1); eauto. intros g. rewrite occ_cons_self. lia.
Qed.

Lemma fileclose_moves f h d : moves (fileclose f : M st _) (Some f :: h) d (fun _ => (h, d)).
Proof.
  unfold fileclose. apply moves_bind_quiet; [still|]. intros [].
  intros s a s' B E. apply bind_inv in E as (x & s1 & E1 & E2). apply fget_refs in E1 as (-> & Ex & Er).
  destruct (ref x <? 1) eqn:E1; [done|]. apply bind_inv in E2 as ([] & s2 & E2 & E3).
  apply fmod_refs in E2 as (y & Ey & Eo & Er'). rewrite Ex in Ey. injection Ey as <-. cbn in Er'.
  pose proof (bal_ref _ _ _ B f _ Er) as Hb. pose proof (bal_held _ _ _ B) as Hl. pose proof (bal_fds _ _ _ B).
  pose proof (occ_range f (Some f :: h)). pose proof (occ_range f (ofile s)). pose proof (occ_range f d). unfold NOFILE in *.
  rewrite s32_small in Er' by (unfold in_s32; lia). rewrite s32_small in E3 by (unfold in_s32; lia). rewrite zlen_cons in Hl.
  assert (B2 : bal h d s2).
  { eapply (bal_count (Some f :: h) d h d s s2 f (ref x) (-1)); eauto; [lia| |].
    - intros g. rewrite occ_cons_self. case_bool_decide; lia.
    - intros g. rewrite occ_cons_self. case_bool_decide; [auto|left; lia]. }
  destruct (ref x - 1 >? 0) eqn:E4; [eapply bal_same; [by eapply (proj2 still_locks)|done]|].
  apply bind_inv in E3 as (z & s3 & E5 & E6). apply fget_refs in E5 as (-> & Ez & Erz).
  apply bind_inv in E6 as ([] & s4 & E6 & E7). apply fmod_refs in E6 as (z' & Ez' & Eo' & Er2). cbn in Er2.
  assert (Hz : zget (refs s2) f = Some 0).
  { rewrite Er', zget_zset_eq by (eapply zget_Some_range; done). f_equal. lia. }
  rewrite zset_id in Er2 by done. eapply (bal_same _ _ s4).
  - revert E7. assert (Q : still (release_ft;; match fty z with FD_PIPE => pipeclose (pipe z) (writable z)
      | FD_INODE => fs (iput (ip z)) | FD_NONE => mret tt end : M st unit)) by still. apply Q.
  - eapply bal_same; [split; [exact Er2|exact Eo']|done].
Qed.
End Calls.

Section Syscalls.
Context {K P : Type} `{BlockOps K} `{DevSw K} `{PageOps P}.
Notation st := (kfile K P).
Implicit Types (s : st) (h d oth : list (option Z)).

Lemma bal_cancel f h d s : bal (Some f :: h) (Some f :: d) s -> bal h d s.
Proof.
  intros B. pose proof (bal_held _ _ _ B) as Hl. rewrite zlen_cons in Hl. revert B. apply bal_occ; [lia| |].
  - intros g. rewrite !occ_cons_self. lia.
  - intros g. rewrite occ_cons_self. pose proof (occ_range g (ofile s)) as ?. case_bool_decide; lia.
Qed.

Lemma free_fd_None {A} (l : list (option A)) k fd : free_fd l k = Some fd -> zget l (fd - k) = Some None.
Proof.
  revert k. induction l as [|[x|] l IH]; intros k; cbn; [done| |intros [= <-]; by rewrite Z.sub_diag].
  intros Ey%IH. pose proof (zget_Some_range _ _ _ Ey).
  rewrite (zget_app_r [Some x] l) by (unfold zlen in *; cbn; lia). rewrite <- Ey. f_equal. unfold zlen. cbn. lia.
Qed.

Lemma fdalloc_bal f h d s fd s' : bal h d s -> is_Some (zget (refs s) f) -> fdalloc f s = Ret (fd, s') ->
  (fd = -1 /\ s' = s) \/ (0 <= fd /\ bal h (Some f :: d) s' /\ refs s' = refs s /\ zget (ofile s') fd = Some (Some f)).
Proof.
  intros B Hf E. unfold fdalloc in E. rewrite bind_get in E. destruct (free_fd (ofile s) 0) as [i|] eqn:Ei; [|by injection E as <- <-; left].
  injection E as -> <-. right. apply free_fd_None in Ei. rewrite Z.sub_0_r in Ei. pose proof (zget_Some_range _ _ _ Ei) as Hr.
  split_and!; [lia| |done|by apply zget_zset_eq]. destruct B as [B1 B2 B3 B4].
  assert (Ho : forall g, occ g (zset (ofile s) fd (Some f)) = occ g (ofile s) + (if bool_decide (g = f) then 1 else 0)).
  { intros g. pose proof (occ_zset g _ _ _ (Some f) Ei) as E. rewrite bool_decide_false in E by done.
    rewrite (bool_decide_ext (g = f) (Some f = Some g)) by naive_solver. lia. }
  split; [by cbn; rewrite zlen_zset|done| |]; intros g; cbn [ofile set_ofile]; rewrite Ho.
  - intros r Hg. rewrite occ_cons_self. specialize (B3 g r Hg). lia.
  - case_bool_decide as E; [by subst|]. rewrite Z.add_0_r. apply B4.
Qed.

Lemma fdalloc_moves f h d :
  moves (fdalloc f : M st _) (Some f :: h) d (fun fd => (Some f :: h, if fd <? 0 then d else Some f :: d)).
Proof.
  intros s fd s' B E. eapply fdalloc_bal in E as [[-> ->]|(? & ? & _)]; [done| |done|].
  - cbn. rewrite (proj2 (Z.ltb_ge _ _)) by lia. done.
  - apply (bal_in _ _ _ B). rewrite occ_cons_self, bool_decide_true by done.
    pose proof (occ_range f h). pose proof (occ_range f (ofile s)). lia.
Qed.

Lemma argint_pure n s a s' : argint n s = Ret (a, s') -> s' = s.
Proof. unfold argint, fetchint. rewrite !bind_get. by case_match; intros [= _ <-]. Qed.
Lemma argfd_fd n s a s' : argfd n s = Ret (a, s') ->
  s' = s /\ forall fd f, a = Some (fd, f) -> zget (ofile s) fd = Some (Some f).
Proof.
  intros E. unfold argfd in E. apply bind_inv in E as (x & s1 & E1 & E2). apply argint_pure in E1 as ->.
  destruct x as [fd|]; [|by injection E2 as <- <-]. rewrite bind_get in E2.
  destruct ((fd <? 0) || (fd >=? NOFILE)); injection E2 as <- <-; split; try done.
  intros fd' f. destruct (zget (ofile s) fd) as [[y|]|] eqn:Ey; try done. by intros [= <- <-].
Qed.

(** A descriptor emptied leaves its reference in hand. *)
Lemma close_fd h d s fd f : bal h d s -> zlen h < 2 ^ 30 -> zget (ofile s) fd = Some (Some f) ->
  bal (Some f :: h) d (set_ofile (zset (ofile s) fd None) s).
Proof.
  intros [B1 B2 B3 B4] Hl Ei. pose proof (zget_Some_range _ _ _ Ei) as Hr.
  assert (Ho : forall g, occ g (zset (ofile s) fd None) = occ g (ofile s) - (if bool_decide (g = f) then 1 else 0)).
  { intros g. pose proof (occ_zset g _ _ _ None Ei) as E. rewrite (bool_decide_false (None = Some g)) in E by done.
    rewrite (bool_decide_ext (g = f) (Some f = Some g)) by naive_solver. lia. }
  split; [by cbn; rewrite zlen_zset|rewrite zlen_cons; lia| |]; intros g; cbn [ofile set_ofile]; rewrite occ_cons_self, Ho.
  - intros r Hg. specialize (B3 g r Hg). lia.
  - intros ?. apply B4. lia.
Qed.
End Syscalls.

Section Dispatch.
Context {K P : Type} `{BlockOps K} `{DevSw K} `{PageOps P}.
Notation st := (kfile K P).
Implicit Types (s : st) (h d oth : list (option Z)) (g : list Z).

Lemma still_sys_rw : still (sys_read : M st _) /\ still (sys_write : M st _) /\ still (sys_fstat : M st _) /\ still (sys_lseek : M st _).
Proof.
  split_and!; [unfold sys_read|unfold sys_write|unfold sys_fstat|unfold sys_lseek];
    (apply still_bind; [apply still_argfd|intros [[fd f]|]; [|apply still_ret]]); still.
Qed.
Lemma still_sys_link g : still (sys_link g : M st _).
Proof. unfold sys_link. still. Qed.
Lemma still_sys_unlink g : still (sys_unlink g : M st _).
Proof. unfold sys_unlink. still. Qed.
Lemma still_sys_nodes g : still (sys_mkdir g : M st _) /\ still (sys_mknod g : M st _) /\ still (sys_chdir g : M st _).
Proof. split_and!; [unfold sys_mkdir|unfold sys_mknod|unfold sys_chdir]; still. Qed.

Lemma moves_perm {A} (m : M st A) h h' d k : zlen h = zlen h' -> (forall f, occ f h = occ f h') ->
  moves m h' d k -> moves m h d k.
Proof.
  intros El Eo Hm s a s' B. apply Hm. pose proof (bal_held _ _ _ B). revert B.
  apply bal_occ; [lia|intros f; by rewrite Eo|]. intros f. rewrite Eo. pose proof (occ_range f (ofile s)). lia.
Qed.
Lemma moves_swap {A} (m : M st A) a b h d k : moves m (b :: a :: h) d k -> moves m (a :: b :: h) d k.
Proof. apply moves_perm; [done|intros f; cbn; lia]. Qed.
Lemma moves_cancel {A} (m : M st A) f h d k : moves m h d k -> moves m (Some f :: h) (Some f :: d) k.
Proof. intros Hm s a s' B%bal_cancel. by apply Hm. Qed.

Lemma pipealloc_moves oth : zlen oth < 2 ^ 20 ->
  moves (pipealloc : M st _) oth [] (fun o => (match o with Some (a, b) => Some b :: Some a :: oth | None => oth end, [])).
Proof.
  intros Hl. unfold pipealloc. eapply moves_bind; [apply filealloc_moves; lia|]. intros [a|]; cbn.
  2: { apply moves_bind_quiet; [still|]. intros f1. by apply moves_ret. }
  eapply moves_bind; [apply filealloc_moves; rewrite zlen_cons; lia|]. intros [b|]; cbn.
  2: { eapply moves_bind; [apply fileclose_moves|]. cbn. intros _. by apply moves_ret. }
  apply moves_bind_quiet; [still|]. intros [[p bs]|].
  - apply moves_bind_quiet; [still|]. intros _. do 2 (apply moves_bind_quiet; [still|]; intros _). by apply moves_ret.
  - apply moves_swap. eapply moves_bind; [apply fileclose_moves|]. cbn. intros _.
    eapply moves_bind; [apply fileclose_moves|]. cbn. intros _. by apply moves_ret.
Qed.

Lemma sys_open_moves g oth : zlen oth < 2 ^ 20 -> moves (sys_open g : M st _) oth [] (fun _ => (oth, [])).
Proof.
  intros Hl. unfold sys_open. apply moves_bind_quiet; [still|]. intros path. apply moves_bind_quiet; [still|]. intros omode.
  destruct path as [path|], omode as [omode|]; try by apply moves_ret.
  apply moves_bind_quiet; [still|]. intros [ip|]; [|by apply moves_ret].
  eapply moves_bind; [apply filealloc_moves; lia|]. intros [f|]; cbn.
  - eapply moves_bind; [apply fdalloc_moves|]. cbn. intros fd. destruct (fd <? 0).
    + eapply moves_bind; [apply fileclose_moves|]. cbn. intros _. apply moves_bind_quiet; [still|]. intros _. by apply moves_ret.
    + apply moves_cancel. do 2 (apply moves_bind_quiet; [still|]; intros _). by apply moves_ret.
  - apply moves_bind_quiet; [still|]. intros _. apply moves_bind_quiet; [still|]. intros _. by apply moves_ret.
Qed.

Lemma sys_close_moves oth : zlen oth < 2 ^ 20 -> moves (sys_close : M st _) oth [] (fun _ => (oth, [])).
Proof.
  intros Hl s a s' B E. unfold sys_close in E. apply bind_inv in E as (x & s1 & E1 & E2).
  apply argfd_fd in E1 as [-> Hfd]. destruct x as [[fd f]|]; [|by injection E2 as <- <-].
  rewrite bind_modify in E2. apply bind_inv in E2 as ([] & s2 & E3 & E4). injection E4 as <- <-.
  eapply (fileclose_moves f oth []); [|exact E3]. eapply close_fd; [done|lia|by apply Hfd].
Qed.

Lemma sys_dup_moves oth : moves (sys_dup : M st _) oth [] (fun _ => (oth, [])).
Proof.
  intros s a s' B E. unfold sys_dup in E. apply bind_inv in E as (x & s1 & E1 & E2).
  apply argfd_fd in E1 as [-> Hfd]. destruct x as [[fd f]|]; [|by injection E2 as <- <-].
  apply bind_inv in E2 as (fd' & s2 & E2 & E3).
  assert (Hf : is_Some (zget (refs s) f)).
  { apply (bal_in _ _ _ B). specialize (Hfd fd f eq_refl). apply zget_elem_of, occ_pos in Hfd. pose proof (occ_range f oth). lia. }
  eapply fdalloc_bal in E2 as [[-> ->]|(Hr & B2 & _)]; [by injection E3 as <- <-| |done|done].
  rewrite (proj2 (Z.ltb_ge _ _)) in E3 by lia. apply bind_inv in E3 as (y & s3 & E3 & E4). injection E4 as <- <-.
  by eapply (filedup_moves f oth []).
Qed.

Lemma sys_pipe_moves oth : zlen oth < 2 ^ 20 -> moves (sys_pipe : M st _) oth [] (fun _ => (oth, [])).
Proof.
  intros Hl. unfold sys_pipe. apply moves_bind_quiet; [still|]. intros [p|]; [|by apply moves_ret].
  eapply moves_bind; [by apply pipealloc_moves|]. intros [[rf wf]|]; cbn; [|by apply moves_ret].
  apply moves_swap. intros s a s' B E. apply bind_inv in E as (fd0 & s1 & E1 & E2). apply bind_inv in E2 as (fd1 & s2 & E2 & E3).
  assert (Hin : is_Some (zget (refs s) rf) /\ is_Some (zget (refs s) wf)).
  { split; apply (bal_in _ _ _ B); rewrite !occ_cons_self, ?(bool_decide_true (rf = rf)), ?(bool_decide_true (wf = wf)) by done;
      pose proof (occ_range rf oth); pose proof (occ_range rf (ofile s)); pose proof (occ_range wf oth);
      pose proof (occ_range wf (ofile s)); repeat case_bool_decide; lia. }
  destruct Hin as [Hrf Hwf].
  assert (Both : forall a s' s, bal (Some rf :: Some wf :: oth) [] s ->
    (fileclose rf;; fileclose wf;; mret (-1) : M st Z) s = Ret (a, s') -> bal oth [] s').
  { clear. intros a s' s B E. apply bind_inv in E as ([] & s1 & E1 & E2). apply bind_inv in E2 as ([] & s2 & E2 & E3).
    injection E3 as <- <-. eapply fileclose_moves in E1; [|done]. by eapply fileclose_moves in E2. }
  eapply fdalloc_bal in E1 as [[-> ->]|(Hr & B1 & Er & Ei)]; [| |done|done].
  { injection E2 as <- <-. eapply Both, E3. done. }
  rewrite (proj2 (Z.ltb_ge _ _)) in E2 by lia. rewrite (proj2 (Z.ltb_ge fd0 _)) in E3 by lia. cbn [orb] in E3.
  eapply fdalloc_bal in E2 as [[-> ->]|(Hr1 & B2 & _)]; [| |done|by rewrite Er].
  - change (-1 <? 0) with true in E3. rewrite (proj2 (Z.geb_le _ _)) in E3 by lia. cbv iota in E3. rewrite bind_modify in E3.
    eapply Both; [|exact E3]. apply bal_cancel with (f := rf). eapply close_fd; [done| |done]. rewrite !zlen_cons. lia.
  - rewrite (proj2 (Z.ltb_ge _ _)) in E3 by lia. apply (bal_cancel wf), (bal_cancel rf).
    apply bind_inv in E3 as ([] & s3 & E3 & E4). apply bind_inv in E4 as ([] & s4 & E4 & E5). injection E5 as <- <-.
    eapply bal_same; [by eapply still_store_user|]. eapply bal_same; [by eapply still_store_user|].
    revert B2. cbn [fst snd]. apply bal_occ; [rewrite !zlen_cons; lia| |]; intros f; rewrite !occ_cons_self.
    + lia.
    + pose proof (occ_range f (ofile s2)). repeat case_bool_decide; lia.
Qed.
End Dispatch.

(** ** A process making calls *)

Section Balanced.
Context {K P : Type} `{BlockOps K} `{DevSw K} `{PageOps P}.
Notation st := (kfile K P).
Implicit Types (s : st) (oth : list (option Z)).
Context (garbage : list Z) (exec : list Z -> list (list Z) -> M st Z) (proc_call : Z -> M st Z).

(** The calls this part serves itself, and the numbers no call has. *)
Definition file_call (num : Z) : bool :=
  (num <=? 0) || (23 <=? num) || bool_decide (num ∈ [4; 5; 6; 7; 10; 11; 12; 13; 14; 15; 16; 17; 22]).

(** The process runs to its next trap with any memory and stack pointer. *)
Definition user (e : Z) (mem : list Z) s : st :=
  mkK (ftable s) (ftable_lock s) (pipes s) (pages s) (fsys s) (ofile s) (killed s) mem e.
Fixpoint trace (l : list (Z * Z * list Z)) : M st (list Z) :=
  match l with
  | [] => mret []
  | (num, e, mem) :: l =>
      modify (user e mem);; r ← syscall garbage exec proc_call num; rs ← trace l; mret (r :: rs)
  end.

(** References agree with this process's descriptors and [oth], the
    descriptors of all other processes. *)
Definition balanced oth s : Prop :=
  (forall f x, zget (ftable s) f = Some x -> ref x = occ f (oth ++ ofile s)) /\
  (forall f, Some f ∈ oth ++ ofile s -> is_Some (zget (ftable s) f)).

Lemma refs_get s f r : zget (refs s) f = Some r <-> exists x, zget (ftable s) f = Some x /\ ref x = r.
Proof.
  unfold refs. rewrite zget_fmap. destruct (zget (ftable s) f) as [x|]; cbn; [|naive_solver].
  split; [intros [= <-]; eauto|intros (y & [= ->] & ->); done].
Qed.
Lemma balanced_bal oth s : zlen oth <= 2 ^ 30 -> zlen (ofile s) = NOFILE -> balanced oth s <-> bal oth [] s.
Proof.
  intros Hl Ho. split.
  - intros [B1 B2]. split; [done|done| |].
    + intros f r (x & Ex & <-)%refs_get. rewrite (B1 f x Ex), occ_app. cbn. lia.
    + intros f Hp. destruct (B2 f) as [x Ex]; [apply occ_pos; rewrite occ_app; lia|]. exists (ref x). apply refs_get. eauto.
  - intros [_ _ B3 B4]. split.
    + intros f x Ex. rewrite occ_app, <- (B3 f (ref x)); [cbn; lia|]. apply refs_get. eauto.
    + intros f Hin%occ_pos. rewrite occ_app in Hin. destruct (B4 f) as [r (x & Ex & _)%refs_get]; [lia|]. eauto.
Qed.

Lemma syscall_moves num oth : zlen oth < 2 ^ 20 -> file_call num = true ->
  moves (syscall garbage exec proc_call num) oth [] (fun _ => (oth, [])).
Proof.
  unfold file_call, syscall. intros Hl [[?|?]%orb_true_iff|Hn%bool_decide_eq_true]%orb_true_iff.
  1,2: rewrite (proj2 (andb_false_iff _ _)) by lia; by apply moves_ret.
  assert (0 < num < 23) as Hr by set_solver by lia.
  rewrite (proj2 (andb_true_iff _ _)) by lia. cbv iota.
  repeat (apply elem_of_cons in Hn as [->|Hn]; [clear Hr; cbn [syscalls]|]); [..|by apply elem_of_nil in Hn].
  all: first [by apply sys_pipe_moves|by apply sys_close_moves|by apply sys_open_moves|by apply sys_dup_moves|apply moves_quiet].
  all: first [apply still_sys_rw|apply still_sys_link|apply still_sys_unlink|apply still_sys_nodes].
Qed.

(** C11: Whatever sequence of file system calls a process makes, from whatever
    memory and arguments, and whether they succeed or fail half way (no free
    descriptor, no free file, no page for a pipe): if at the start the
    reference count of every [struct file] is the number of descriptors, in
    this process's table and in those of all others, that point to it, then so
    it is after the calls that return.  No call leaks a reference or drops one
    still in use. *)
Theorem file_refs_balanced oth l s rs s' :
  zlen oth < 2 ^ 20 -> zlen (ofile s) = NOFILE -> balanced oth s ->
  forallb (fun c => file_call c.1.1) l = true -> trace l s = Ret (rs, s') -> balanced oth s'.
Proof.
  intros Hl Ho B Hc E. apply (balanced_bal oth) in B; [|lia|done].
  assert (B' : bal oth [] s'); [|apply balanced_bal; [lia|apply B'|done]].
  clear Ho. revert s rs B E Hc. induction l as [|[[num e] mem] l IH]; cbn [trace forallb]; intros s rs B E Hc.
  { by injection E as _ <-. }
  apply andb_true_iff in Hc as [Hn Hc]. cbn in Hn. rewrite bind_modify in E.
  apply bind_inv in E as (r & s1 & E1 & E2). apply bind_inv in E2 as (rs' & s2 & E2 & E3). injection E3 as _ <-.
  eapply IH; [|exact E2|done]. eapply (syscall_moves num oth Hl Hn); [|exact E1]. revert B. by apply bal_same.
Qed.
End Balanced.
