(* ===== verification/FileDemo.v ===== *)
(** The system calls over the page allocator, the buffer cache and the volume
    of [FsDemo]: the parts composed, and a run of a process. *)
From S2P Require Import Prelude Bytes Kalloc KallocSpec BlockDev CString Bio BioSpec Fs FsDemo Pipe File FileSpec.
Import Kalloc.
Import Bio.
Import File.

(** [kalloc] and [kfree] serve the pipes. *)
#[export] Instance kalloc_pages : PageOps pmem := {
  page_alloc := p ← kalloc; if p =? 0 then mret None else x ← rd_page p; mret (Some (p, x));
  page_free := kfree kend0
}.

Definition closed_file : file := mkFile FD_NONE 0 0 0 0 0 0.
Definition start : kfile bstate pmem :=
  mkK (replicate 100 closed_file) false ∅ run0 (state 5) (replicate 16 None) false [] 0.

(** Sixty-four bytes of memory, the argument [n] at 44. *)
Definition mem_arg (n : Z) : list Z := replicate 44 0 ++ to_le 4 n ++ replicate 16 0.
(** [pipe(0); dup(0); close(1); dup(9); close(0)] *)
Definition calls : list (Z * Z * list Z) :=
  [(4, 40, mem_arg 0); (17, 40, mem_arg 0); (7, 40, mem_arg 1); (17, 40, mem_arg 9); (7, 40, mem_arg 0)].
Definition no_exec (_ : list Z) (_ : list (list Z)) : M (kfile bstate pmem) Z := mret (-1).
Definition no_call (_ : Z) : M (kfile bstate pmem) Z := mret (-1).
Definition run_calls := trace (replicate 14 0) no_exec no_call calls start.
Definition finish : kfile bstate pmem := match run_calls with Ret (_, s) => s | _ => start end.

Lemma run_calls_eq : run_calls = Ret ([0; 2; 0; -1; 0], finish).
Proof.
  assert (E : (match run_calls with Ret (rs, _) => Some rs | _ => None end) = Some [0; 2; 0; -1; 0]) by (vm_compute; reflexivity).
  unfold finish. destruct run_calls as [[rs s]| | | |]; [|discriminate E..]. injection E as ->. reflexivity.
Qed.

Lemma zget_replicate {A} n (x : A) i y : zget (replicate n x) i = Some y -> y = x.
Proof. unfold zget. case_bool_decide; [done|]. by intros [? _]%lookup_replicate. Qed.

(** The pipe's read end, held twice and dropped once, has one reference left;
    the write end has none. *)
Lemma file_refs_balanced_witness :
  run_calls = Ret ([0; 2; 0; -1; 0], finish) /\ balanced [] finish /\
  (ref <$> zget (ftable finish) 0) = Some 1 /\ (ref <$> zget (ftable finish) 1) = Some 0.
Proof.
  split; [exact run_calls_eq|]. split; [|split; vm_compute; reflexivity].
  refine (file_refs_balanced (replicate 14 0) no_exec no_call [] calls start [0; 2; 0; -1; 0] finish _ _ _ _ run_calls_eq).
  - vm_compute. reflexivity.
  - reflexivity.
  - split.
    + intros f x Hx. cbn [ftable start] in Hx. apply zget_replicate in Hx as ->.
      symmetry. generalize 16%nat. intros n. induction n as [|n IH]; [done|exact IH].
    + intros f [Hf|Hf]%elem_of_app; [by apply elem_of_nil in Hf|]. cbn [ofile start] in Hf. by apply elem_of_replicate in Hf as [? _].
  - vm_compute. reflexivity.
Defined.
