(* ===== verification/Sh.v ===== *)
(** xv6's shell ([src/5/xv6/sh.c], the same in every tree): the command tree,
    the parser, and what a command does as a process.

    The line being parsed is its bytes; the parser's [*ps] is the rest of the
    line, and a pointer into it its offset.  [panic] prints and exits. *)
From S2P Require Import Prelude Bytes.

Module Sh.

Definition MAXARGS : Z := 10.
Definition O_RDONLY : Z := 0.
Definition O_WRONLY : Z := 1.
Definition O_RDWR : Z := 2.
Definition O_CREATE : Z := 512.

(** [struct cmd] and its kinds, over the type of the strings in it: a pair of
    offsets while parsing, a string once terminated. *)
Inductive cmd (A : Type) :=
  | EXEC (argv : list A)
  | REDIR (c : cmd A) (file : A) (mode fd : Z)
  | PIPE (left right : cmd A)
  | LIST (left right : cmd A)
  | BACK (c : cmd A).
Arguments EXEC {A} argv.
Arguments REDIR {A} c file mode fd.
Arguments PIPE {A} left right.
Arguments LIST {A} left right.
Arguments BACK {A} c.

(** ** Tokens *)

Definition strchr (s : list Z) (c : Z) : bool := existsb (Z.eqb c) s.
Definition whitespace : list Z := [32; 9; 13; 10; 11].
Definition symbols : list Z := bytes "<|>&;()".

Fixpoint skip_white (s : list Z) : list Z :=
  match s with c :: s' => if strchr whitespace c then skip_white s' else s | [] => [] end.
Fixpoint skip_word (s : list Z) : list Z :=
  match s with
  | c :: s' => if negb (strchr whitespace c) && negb (strchr symbols c) then skip_word s' else s
  | [] => []
  end.

Section Parse.
(** The length of the line. *)
Variable es : Z.
Definition off (s : list Z) : Z := es - zlen s.

(** The token, the offsets of its start and end, and the rest. *)
Definition gettoken (s : list Z) : Z * (Z * Z) * list Z :=
  let s := skip_white s in
  let q := off s in
  let '(ret, s) :=
    match s with
    | [] => (0, s)
    | c :: s' =>
        if strchr (bytes "|();&<") c then (c, s')
        else if c =? 62 then
          match s' with
          | c' :: s'' => if c' =? 62 then (43, s'') else (c, s')
          | [] => (c, s')
          end
        else (97, skip_word s)
    end in
  (ret, (q, off s), skip_white s).

Definition peek (s : list Z) (toks : list Z) : bool * list Z :=
  let s := skip_white s in
  (match s with [] => false | c :: _ => strchr toks c end, s).

(** ** Commands

    A [redircmd] is put around the command there is so far; [argv] of the
    [execcmd] inside goes on growing.  [parseredirs] gives the redirections in
    order, innermost first, for the caller to put around. *)
Definition node : Type := cmd (Z * Z).
Definition redir : Type := (Z * Z) * Z * Z.
Definition wrap (c : node) (rs : list redir) : node :=
  fold_left (fun c '(f, mode, fd) => REDIR c f mode fd) rs c.

Fixpoint parseredirs (fuel : nat) (s : list Z) (rs : list redir) : res (list redir * list Z) :=
  match fuel with
  | O => NoFuel
  | S fuel =>
      let '(more, s) := peek s (bytes "<>") in
      if more then
        let '(tok, _, s) := gettoken s in
        let '(t, f, s) := gettoken s in
        if negb (t =? 97) then Panicked "missing file for redirection"
        else
          let rs := if tok =? 60 then rs ++ [(f, O_RDONLY, 0)]
                    else if tok =? 62 then rs ++ [(f, Z.lor O_WRONLY O_CREATE, 1)]
                    else if tok =? 43 then rs ++ [(f, Z.lor O_WRONLY O_CREATE, 1)]
                    else rs in
          parseredirs fuel s rs
      else Ret (rs, s)
  end.
Definition redirs (s : list Z) (rs : list redir) : res (list redir * list Z) := parseredirs (S (length s)) s rs.

(** The argument loop of [parseexec]. *)
Fixpoint parseargs (fuel : nat) (s : list Z) (argv : list (Z * Z)) (rs : list redir) : res (node * list Z) :=
  match fuel with
  | O => NoFuel
  | S fuel =>
      let '(stop, s) := peek s (bytes "|)&;") in
      if stop then Ret (wrap (EXEC argv) rs, s)
      else
        let '(tok, a, s) := gettoken s in
        if tok =? 0 then Ret (wrap (EXEC argv) rs, s)
        else if negb (tok =? 97) then Panicked "syntax"
        else if zlen argv + 1 >=? MAXARGS then Panicked "too many args"
        else
          match redirs s rs with
          | Ret (rs, s) => parseargs fuel s (argv ++ [a]) rs
          | Panicked m => Panicked m | Undef w => Undef w | Blocked c => Blocked c | NoFuel => NoFuel
          end
  end.

(** The [&] loop of [parseline]. *)
Fixpoint parseback (fuel : nat) (s : list Z) (c : node) : res (node * list Z) :=
  match fuel with
  | O => NoFuel
  | S fuel =>
      let '(more, s) := peek s (bytes "&") in
      if more then let '(_, _, s) := gettoken s in parseback fuel s (BACK c) else Ret (c, s)
  end.

Definition bind {A B} (m : res A) (k : A -> res B) : res B :=
  match m with
  | Ret a => k a
  | Panicked m => Panicked m | Undef w => Undef w | Blocked c => Blocked c | NoFuel => NoFuel
  end.

Fixpoint parseline (fuel : nat) (s : list Z) : res (node * list Z) :=
  match fuel with
  | O => NoFuel
  | S fuel =>
      bind (parsepipe fuel s) (fun '(c, s) =>
      bind (parseback (S (length s)) s c) (fun '(c, s) =>
      let '(more, s) := peek s (bytes ";") in
      if more then
        let '(_, _, s) := gettoken s in
        bind (parseline fuel s) (fun '(r, s) => Ret (LIST c r, s))
      else Ret (c, s)))
  end
with parsepipe (fuel : nat) (s : list Z) : res (node * list Z) :=
  match fuel with
  | O => NoFuel
  | S fuel =>
      bind (parseexec fuel s) (fun '(c, s) =>
      let '(more, s) := peek s (bytes "|") in
      if more then
        let '(_, _, s) := gettoken s in
        bind (parsepipe fuel s) (fun '(r, s) => Ret (PIPE c r, s))
      else Ret (c, s))
  end
with parseblock (fuel : nat) (s : list Z) : res (node * list Z) :=
  match fuel with
  | O => NoFuel
  | S fuel =>
      let '(open, s) := peek s (bytes "(") in
      if negb open then Panicked "parseblock"
      else
        let '(_, _, s) := gettoken s in
        bind (parseline fuel s) (fun '(c, s) =>
        let '(close, s) := peek s (bytes ")") in
        if negb close then Panicked "syntax - missing )"
        else
          let '(_, _, s) := gettoken s in
          bind (redirs s []) (fun '(rs, s) => Ret (wrap c rs, s)))
  end
with parseexec (fuel : nat) (s : list Z) : res (node * list Z) :=
  match fuel with
  | O => NoFuel
  | S fuel =>
      let '(block, s) := peek s (bytes "(") in
      if block then parseblock fuel s
      else bind (redirs s []) (fun '(rs, s) => parseargs (S (length s)) s [] rs)
  end.
End Parse.

(** ** Terminating the strings *)

(** [nulterminate]: the line with a NUL at the end of every string. *)
Fixpoint nulterminate (c : node) (line : list Z) : list Z :=
  match c with
  | EXEC argv => fold_left (fun line '(_, e) => splice e [0] line) argv line
  | REDIR c (_, e) _ _ => splice e [0] (nulterminate c line)
  | PIPE l r | LIST l r => nulterminate r (nulterminate l line)
  | BACK c => nulterminate c line
  end.

(** The string at an offset of the line, up to its NUL. *)
Fixpoint upto_nul (l : list Z) : list Z :=
  match l with [] => [] | c :: l => if c =? 0 then [] else c :: upto_nul l end.
Definition string_at (line : list Z) (q : Z) : list Z := upto_nul (drop (Z.to_nat q) line).
Fixpoint resolve (line : list Z) (c : node) : cmd (list Z) :=
  match c with
  | EXEC argv => EXEC ((fun a => string_at line a.1) <$> argv)
  | REDIR c f mode fd => REDIR (resolve line c) (string_at line f.1) mode fd
  | PIPE l r => PIPE (resolve line l) (resolve line r)
  | LIST l r => LIST (resolve line l) (resolve line r)
  | BACK c => BACK (resolve line c)
  end.

(** [parsecmd] on a line of bytes (its NUL is one past the end): what it
    prints on descriptor 2, and the command [runcmd] gets or the panic that
    follows. *)
Definition parsecmd (line : list Z) : list Z * res (cmd (list Z)) :=
  match parseline (zlen line) (S (4 * length line + 3)) line with
  | Ret (c, s) =>
      let '(_, s) := peek s [] in
      match s with
      | [] => ([], Ret (resolve (nulterminate c (line ++ [0])) c))
      | _ => (bytes "leftovers: " ++ s ++ [10], Panicked "syntax")
      end
  | Panicked m => ([], Panicked m)
  | Undef w => ([], Undef w)
  | Blocked c => ([], Blocked c)
  | NoFuel => ([], NoFuel)
  end.

(** ** Running

    What a process of the shell does, as the tree of its system calls: each
    call's results select what it does next.  [fork] goes on with 0 in the
    child and with the child's pid in the parent.  [Unmodelled] is where the
    model would run out of fuel. *)
Inductive prog :=
  | Exit
  | Exec (argv : list (list Z)) (failed : prog)
  | Printf (s : list Z) (k : prog)
  | Close (fd : Z) (k : prog)
  | Open (file : list Z) (mode : Z) (k : Z -> prog)
  | Dup (fd : Z) (k : Z -> prog)
  | Pipe (k : option (Z * Z) -> prog)
  | Fork (k : Z -> prog)
  | Wait (k : prog)
  | Chdir (dir : list Z) (k : Z -> prog)
  | Unmodelled.

Definition panic (s : list Z) : prog := Printf (s ++ [10]) Exit.
Definition fork1 (k : Z -> prog) : prog := Fork (fun pid => if pid =? -1 then panic (bytes "fork") else k pid).

(** [runcmd] never returns, so a call to it ends the branch it is in. *)
Fixpoint runcmd (c : cmd (list Z)) : prog :=
  match c with
  | EXEC [] => Exit
  | EXEC ((prg :: _) as argv) => Exec argv (Printf (bytes "exec " ++ prg ++ bytes " failed" ++ [10]) Exit)
  | REDIR c file mode fd =>
      Close fd (Open file mode (fun r =>
        if r <? 0 then Printf (bytes "open " ++ file ++ bytes " failed" ++ [10]) Exit else runcmd c))
  | LIST l r => fork1 (fun pid => if pid =? 0 then runcmd l else Wait (runcmd r))
  | PIPE l r =>
      Pipe (fun p =>
        match p with
        | None => panic (bytes "pipe")
        | Some (p0, p1) =>
            fork1 (fun pid =>
              if pid =? 0 then Close 1 (Dup p1 (fun _ => Close p0 (Close p1 (runcmd l))))
              else fork1 (fun pid =>
                if pid =? 0 then Close 0 (Dup p0 (fun _ => Close p0 (Close p1 (runcmd r))))
                else Close p0 (Close p1 (Wait (Wait Exit)))))
        end)
  | BACK c => fork1 (fun pid => if pid =? 0 then runcmd c else Exit)
  end.

(** ** The loop of [main]

    [gets] takes the characters of one line, at most [max - 1] of them; [buf]
    is zeroed before, so what is not taken reads as NUL. *)
Fixpoint gets (max : nat) (input : list Z) : list Z * list Z :=
  match max with
  | S ((S _) as max) =>
      match input with
      | [] => ([], [])
      | c :: input =>
          if (c =? 10) || (c =? 13) then ([c], input)
          else let '(l, rest) := gets max input in (c :: l, rest)
      end
  | _ => ([], input)
  end.

(** [runcmd(parsecmd(buf))]: the parser prints and panics in the child. *)
Definition run_line (buf : list Z) : prog :=
  let '(out, r) := parsecmd buf in
  let k := match r with Ret c => runcmd c | Panicked m => panic (bytes m) | _ => Unmodelled end in
  match out with [] => k | _ => Printf out k end.

Definition cd_line (buf : list Z) : bool :=
  match buf with a :: b :: c :: _ => (a =? 99) && (b =? 100) && (c =? 32) | _ => false end.

(** The strings in [buf] end at the first NUL. *)
Fixpoint command_loop (fuel : nat) (input : list Z) : prog :=
  match fuel with
  | O => Unmodelled
  | S fuel =>
      Printf (bytes "$ ")
        (let '(buf, input) := gets 100 input in
         let buf := upto_nul buf in
         match buf with
         | [] => Exit
         | _ =>
             if cd_line buf then
               let dir := drop 3 (take (length buf - 1) buf) in
               Chdir dir (fun r =>
                 if r <? 0 then Printf (bytes "cannot cd " ++ dir ++ [10]) (command_loop fuel input)
                 else command_loop fuel input)
             else fork1 (fun pid =>
               if pid =? 0 then run_line buf else Wait (command_loop fuel input))
         end)
  end.
Definition commands (input : list Z) : prog := command_loop (S (length input)) input.

(** Opening the console until three descriptors are open. *)
Fixpoint open_console (fuel : nat) (k : prog) : prog :=
  match fuel with
  | O => Unmodelled
  | S fuel =>
      Open (bytes "console") O_RDWR (fun fd =>
        if fd >=? 0 then if fd >=? 3 then Close fd k else open_console fuel k else k)
  end.
Definition main (input : list Z) : prog := open_console 17 (commands input).
End Sh.
