(* ===== verification/ShParse.v ===== *)
(** The shell's parser: it terminates on every line, and gives back the command
    a line was written from. *)
From S2P Require Import Prelude Bytes Sh.
Import Sh.
#[local] Arguments strchr : simpl never.

(** ** What the scanners do *)

Definition blank (c : Z) : bool := strchr whitespace c.
Definition ordinary (c : Z) : Prop := strchr whitespace c = false /\ strchr symbols c = false /\ c <> 0.

(** Work with the codes of the characters, and with sets of them case by case. *)
Ltac evchars := unfold symbols, whitespace in *; repeat match goal with
  | |- context [bytes ?s] => let l := eval vm_compute in (bytes s) in change (bytes s) with l in *
  | H : context [bytes ?s] |- _ => let l := eval vm_compute in (bytes s) in change (bytes s) with l in *
  end.
Ltac charcases := evchars; unfold strchr in *; cbn [existsb] in *;
  rewrite ?orb_false_r, ?orb_true_iff, ?orb_false_iff, ?Z.eqb_eq, ?Z.eqb_neq in *.

(** A string the scanners leave alone: it is empty or starts with a non-blank. *)
Definition trimmed (s : list Z) : Prop := match s with c :: _ => strchr whitespace c = false | [] => True end.

Lemma skip_white_trimmed s : trimmed (skip_white s).
Proof. induction s as [|c s IH]; cbn; [done|]. by destruct (strchr whitespace c) eqn:E. Qed.
Lemma skip_white_id s : trimmed s -> skip_white s = s.
Proof. destruct s as [|c s]; cbn; [done|]. by intros ->. Qed.
Lemma skip_white_length s : (length (skip_white s) <= length s)%nat.
Proof. induction s as [|c s IH]; cbn; [done|]. destruct (strchr whitespace c); cbn; lia. Qed.
Lemma skip_word_length s : (length (skip_word s) <= length s)%nat.
Proof. induction s as [|c s IH]; cbn; [done|]. destruct (_ && _); cbn; lia. Qed.

Lemma gettoken_length es s : (length (gettoken es s).2 <= length s)%nat.
Proof.
  unfold gettoken. pose proof (skip_white_length s). destruct (skip_white s) as [|c s'] eqn:E; [cbn; lia|].
  cbn in H. destruct (strchr _ c); [pose proof (skip_white_length s'); cbn; lia|].
  destruct (c =? 62).
  - destruct s' as [|c' s'']; [cbn in *; lia|].
    destruct (c' =? 62); [pose proof (skip_white_length s'')|pose proof (skip_white_length (c' :: s''))]; cbn [snd length] in *; lia.
  - pose proof (skip_white_length (skip_word (c :: s'))). pose proof (skip_word_length (c :: s')). cbn [snd length] in *. lia.
Qed.

(** On a token that is a character of [<|>&;()], [gettoken] consumes. *)
Lemma gettoken_shrinks es s toks : (forall c, strchr toks c = true -> strchr symbols c = true) ->
  (peek s toks).1 = true -> (length (gettoken es (peek s toks).2).2 < length s)%nat.
Proof.
  unfold peek, gettoken. intros Hs. cbn [fst snd].
  rewrite (skip_white_id (skip_white s)) by apply skip_white_trimmed.
  pose proof (skip_white_length s). destruct (skip_white s) as [|c s'] eqn:E; [done|]. intros Hc%Hs. cbn [length] in *.
  destruct (strchr (bytes "|();&<") c) eqn:E1; [pose proof (skip_white_length s'); cbn; lia|].
  destruct (Z.eqb_spec c 62).
  - destruct s' as [|c' s'']; [cbn; lia|].
    destruct (c' =? 62); [pose proof (skip_white_length s'')|pose proof (skip_white_length (c' :: s''))]; cbn [snd length] in *; lia.
  - exfalso. charcases. lia.
Qed.

Lemma peek_length s toks : (length (peek s toks).2 <= length s)%nat.
Proof. apply skip_white_length. Qed.

(** ** Termination

    [parses n m]: the parser stops, with at most [n] characters left, or
    panics. *)
Definition parses {A} (n : nat) (m : res (A * list Z)) : Prop :=
  match m with Ret (_, s) => (length s <= n)%nat | Panicked _ => True | _ => False end.

Lemma parses_bind {A B} n n' (m : res (A * list Z)) (k : A * list Z -> res (B * list Z)) :
  parses n m -> (forall a s, (length s <= n)%nat -> parses n' (k (a, s))) -> parses n' (bind m k).
Proof. destruct m as [[a s]| | | |]; cbn; auto. Qed.
Lemma parses_mono {A} n n' (m : res (A * list Z)) : parses n m -> (n <= n')%nat -> parses n' m.
Proof. destruct m as [[a s]| | | |]; cbn; lia. Qed.

Ltac symbols_tac := let c := fresh in intros c; charcases; lia.

Lemma parseredirs_parses es fuel s rs : (length s < fuel)%nat -> parses (length s) (parseredirs es fuel s rs).
Proof.
  revert s rs. induction fuel as [|fuel IH]; intros s rs Hf; [lia|]. cbn [parseredirs].
  pose proof (gettoken_shrinks es s (bytes "<>") ltac:(symbols_tac)) as Hs. pose proof (peek_length s (bytes "<>")).
  destruct (peek s (bytes "<>")) as [[|] s1]; cbn [fst snd] in *; [|cbn; lia]. specialize (Hs eq_refl).
  destruct (gettoken es s1) as [[tok ?] s2]; cbn [fst snd] in *. pose proof (gettoken_length es s2).
  destruct (gettoken es s2) as [[t f] s3]; cbn [fst snd] in *. destruct (negb (t =? 97)); [done|].
  eapply parses_mono; [apply IH|]; lia.
Qed.
Lemma redirs_parses es s rs : parses (length s) (redirs es s rs).
Proof. apply parseredirs_parses. lia. Qed.

(** A word takes at least a character. *)
Lemma gettoken_word es s toks : trimmed s -> (peek s toks).1 = false -> (gettoken es s).1.1 = 97 -> (length (gettoken es s).2 < length s)%nat.
Proof.
  intros Ht _. unfold gettoken. rewrite (skip_white_id s) by done. destruct s as [|c s']; [done|].
  destruct (strchr (bytes "|();&<") c) eqn:E1; [intros _; pose proof (skip_white_length s'); cbn; lia|].
  destruct (c =? 62) eqn:E2.
  - intros _. destruct s' as [|c' s'']; [cbn; lia|].
    destruct (c' =? 62); [pose proof (skip_white_length s'')|pose proof (skip_white_length (c' :: s''))]; cbn [snd length] in *; lia.
  - intros _. pose proof (skip_white_length (skip_word (c :: s'))) as H1. cbn [snd]. cbn in Ht. cbn [skip_word] in *. rewrite Ht in *.
    replace (strchr symbols c) with false in *; [cbn in *; pose proof (skip_word_length s'); cbn; lia|]. symmetry.
    clear Ht. charcases. lia.
Qed.

Lemma parseargs_parses es fuel s argv rs : (length s < fuel)%nat -> parses (length s) (parseargs es fuel s argv rs).
Proof.
  revert s argv rs. induction fuel as [|fuel IH]; intros s argv rs Hf; [lia|]. cbn [parseargs].
  pose proof (peek_length s (bytes "|)&;")). destruct (peek s (bytes "|)&;")) as [stop s1] eqn:Ep. cbn [snd] in *.
  destruct stop; [cbn; lia|].
  assert (Ht : trimmed s1) by (injection Ep as _ <-; apply skip_white_trimmed).
  assert (Hn : (peek s1 (bytes "|)&;")).1 = false) by (injection Ep as E <-; cbn; rewrite skip_white_id by done; exact E).
  pose proof (gettoken_word es s1 _ Ht Hn) as Hw. pose proof (gettoken_length es s1).
  destruct (gettoken es s1) as [[tok a] s2]. cbn [fst snd] in *. destruct (tok =? 0); [cbn; lia|].
  destruct (Z.eqb_spec tok 97) as [->|]; [cbn [negb]|done]. specialize (Hw eq_refl). destruct (_ >=? _); [done|].
  pose proof (redirs_parses es s2 rs). destruct (redirs es s2 rs) as [[rs' s3]| | | |]; try done. cbn in *.
  eapply parses_mono; [apply IH|]; lia.
Qed.

Lemma parseback_parses es fuel s c : (length s < fuel)%nat -> parses (length s) (parseback es fuel s c).
Proof.
  revert s c. induction fuel as [|fuel IH]; intros s c Hf; [lia|]. cbn [parseback].
  pose proof (gettoken_shrinks es s (bytes "&") ltac:(symbols_tac)) as Hs. pose proof (peek_length s (bytes "&")).
  destruct (peek s (bytes "&")) as [[|] s1]; cbn [fst snd] in *; [|cbn; lia]. specialize (Hs eq_refl).
  destruct (gettoken es s1) as [[tok ?] s2]; cbn [fst snd] in *. eapply parses_mono; [apply IH|]; lia.
Qed.

(** Each level of the grammar needs one more step than the one inside, and a
    level is entered again only after a character. *)
Lemma parse_parses es n :
  (forall s fuel, length s = n -> (4 * n + 4 <= fuel)%nat -> parses n (parseline es fuel s)) /\
  (forall s fuel, length s = n -> (4 * n + 3 <= fuel)%nat -> parses n (parsepipe es fuel s)) /\
  (forall s fuel, length s = n -> (4 * n + 2 <= fuel)%nat -> parses n (parseexec es fuel s)) /\
  (forall s fuel, length s = n -> (4 * n + 1 <= fuel)%nat -> parses n (parseblock es fuel s)).
Proof.
  induction n as [n IH] using lt_wf_ind.
  assert (Hb : forall s fuel, length s = n -> (4 * n + 1 <= fuel)%nat -> parses n (parseblock es fuel s)).
  { intros s [|fuel] Hl Hf; [lia|]. cbn [parseblock].
    pose proof (gettoken_shrinks es s (bytes "(") ltac:(symbols_tac)) as Hs.
    destruct (peek s (bytes "(")) as [[|] s1]; cbn [fst snd negb] in *; [|done]. specialize (Hs eq_refl).
    destruct (gettoken es s1) as [[? ?] s2]; cbn [fst snd] in *.
    eapply parses_bind; [apply (IH (length s2)); [lia|done|lia]|]. intros c s3 H3.
    pose proof (peek_length s3 (bytes ")")). destruct (peek s3 (bytes ")")) as [[|] s4]; cbn [fst snd negb] in *; [|done].
    pose proof (gettoken_length es s4). destruct (gettoken es s4) as [[? ?] s5]; cbn [fst snd] in *.
    eapply parses_bind; [apply redirs_parses|]. intros rs s6 H6. cbn. lia. }
  assert (He : forall s fuel, length s = n -> (4 * n + 2 <= fuel)%nat -> parses n (parseexec es fuel s)).
  { intros s [|fuel] Hl Hf; [lia|]. cbn [parseexec]. pose proof (peek_length s (bytes "(")).
    destruct (peek s (bytes "(")) as [[|] s1] eqn:Ep; cbn [snd] in *.
    - destruct (decide (length s1 = n)) as [E|N]; [apply Hb; lia|].
      destruct (IH (length s1) ltac:(lia)) as (_ & _ & _ & Hb1). eapply parses_mono; [apply Hb1; lia|lia].
    - eapply parses_bind; [apply redirs_parses|]. intros rs s2 H2. eapply parses_mono; [apply parseargs_parses; lia|lia]. }
  assert (Hp : forall s fuel, length s = n -> (4 * n + 3 <= fuel)%nat -> parses n (parsepipe es fuel s)).
  { intros s [|fuel] Hl Hf; [lia|]. cbn [parsepipe]. eapply parses_bind; [apply He; lia|]. intros c s1 H1.
    pose proof (gettoken_shrinks es s1 (bytes "|") ltac:(symbols_tac)) as Hs. pose proof (peek_length s1 (bytes "|")).
    destruct (peek s1 (bytes "|")) as [[|] s2]; cbn [fst snd] in *; [|cbn; lia]. specialize (Hs eq_refl).
    destruct (gettoken es s2) as [[? ?] s3]; cbn [fst snd] in *.
    eapply parses_bind; [apply (IH (length s3)); [lia|done|lia]|]. intros r s4 H4. cbn. lia. }
  split; [|done]. intros s [|fuel] Hl Hf; [lia|]. cbn [parseline]. eapply parses_bind; [apply Hp; lia|]. intros c s1 H1.
  eapply parses_bind; [apply parseback_parses; lia|]. intros b s2 H2.
  pose proof (gettoken_shrinks es s2 (bytes ";") ltac:(symbols_tac)) as Hs. pose proof (peek_length s2 (bytes ";")).
  destruct (peek s2 (bytes ";")) as [[|] s3]; cbn [fst snd] in *; [|cbn; lia]. specialize (Hs eq_refl).
  destruct (gettoken es s3) as [[? ?] s4]; cbn [fst snd] in *.
  eapply parses_bind; [apply (IH (length s4)); [lia|done|lia]|]. intros r s5 H5. cbn. lia.
Qed.

(** [parsecmd] stops on every line, with a command or a panic; it prints only
    before the panic about what is left over. *)
Theorem parsecmd_stops line :
  (exists c, parsecmd line = ([], Ret c)) \/ (exists m, parsecmd line = ([], Panicked m)) \/
  (exists s, s <> [] /\ parsecmd line = (bytes "leftovers: " ++ s ++ [10], Panicked "syntax")).
Proof.
  unfold parsecmd. destruct (parse_parses (zlen line) (length line)) as (H & _).
  specialize (H line (S (4 * length line + 3)) eq_refl ltac:(lia)).
  destruct (parseline (zlen line) _ line) as [[c s]| | | |]; try done; [|right; left; by eexists].
  cbn [peek]. destruct (skip_white s) as [|x s'] eqn:E; cbn; rewrite ?E; [left; by eexists|right; right]. by exists (x :: s').
Qed.

(** ** Writing a command

    A command in the shell's notation, with parentheses where the grammar needs
    them: [level] is the production a command comes from. *)
Definition level {A} (c : cmd A) : Z :=
  match c with EXEC _ | REDIR _ _ _ _ => 0 | PIPE _ _ => 1 | BACK _ => 2 | LIST _ _ => 3 end.
Definition paren (b : bool) (s : list Z) : list Z := if b then 40 :: s ++ [41] else s.

Fixpoint words (ws : list (list Z)) : list Z :=
  match ws with [] => [] | [w] => w | w :: ws => w ++ 32 :: words ws end.
Definition arrow (mode : Z) : Z := if mode =? O_RDONLY then 60 else 62.
Fixpoint print (c : cmd (list Z)) : list Z :=
  match c with
  | EXEC ws => words ws
  | REDIR c f mode _ => paren (0 <? level c) (print c) ++ arrow mode :: f
  | PIPE l r => paren (0 <? level l) (print l) ++ 124 :: paren (1 <? level r) (print r)
  | BACK c => paren (2 <? level c) (print c) ++ [38]
  | LIST l r => paren (2 <? level l) (print l) ++ 59 :: print r
  end.

(** The commands the shell's grammar has. *)
Definition word_ok (w : list Z) : Prop := w <> [] /\ Forall ordinary w.
Definition redir_ok (mode fd : Z) : Prop := (mode, fd) = (O_RDONLY, 0) \/ (mode, fd) = (Z.lor O_WRONLY O_CREATE, 1).
Fixpoint wf (c : cmd (list Z)) : Prop :=
  match c with
  | EXEC ws => Forall word_ok ws /\ zlen ws < MAXARGS
  | REDIR c f mode fd => wf c /\ word_ok f /\ redir_ok mode fd
  | PIPE l r | LIST l r => wf l /\ wf r
  | BACK c => wf c
  end.

Definition P (k : Z) (c : cmd (list Z)) : list Z := paren (k <? level c) (print c).

(** The end of a production: nothing more, or a character that ends it. *)
Definition closed (T : list Z) (rest : list Z) : Prop := match rest with [] => True | c :: _ => strchr T c = true end.

Lemma strchr_In T c : strchr T c = true <-> c ∈ T.
Proof. unfold strchr. rewrite existsb_exists. setoid_rewrite list_elem_of_In. split; [intros (x & ? & ->%Z.eqb_eq); done|]. intros ?. exists c. by rewrite Z.eqb_refl. Qed.
Lemma closed_each (Q : Z -> bool) T rest : closed T rest -> forallb Q T = true -> match rest with [] => True | c :: _ => Q c = true end.
Proof. destruct rest as [|c rest]; [done|]. cbn. rewrite strchr_In, list_elem_of_In, forallb_forall. auto. Qed.
Lemma closed_trimmed T rest : closed T rest -> forallb (fun c => negb (strchr whitespace c)) T = true -> trimmed rest.
Proof. intros H1 H2. pose proof (closed_each _ _ _ H1 H2) as H. destruct rest; [done|]. by apply negb_true_iff. Qed.
Lemma closed_peek T toks rest : closed T rest -> forallb (fun c => negb (strchr whitespace c) && negb (strchr toks c)) T = true -> peek rest toks = (false, rest).
Proof.
  intros H1 H2. pose proof (closed_each _ _ _ H1 H2) as H. destruct rest as [|c rest]; [done|].
  apply andb_true_iff in H as [Hw%negb_true_iff Ht%negb_true_iff]. unfold peek. cbn. rewrite Hw. by rewrite Ht.
Qed.
Lemma closed_weaken T T' rest : closed T rest -> forallb (fun c => strchr T' c) T = true -> closed T' rest.
Proof. intros H1 H2. pose proof (closed_each _ _ _ H1 H2) as H. by destruct rest. Qed.
Lemma peek_hit toks c rest : strchr toks c = true -> strchr whitespace c = false -> peek (c :: rest) toks = (true, c :: rest).
Proof. intros H1 H2. unfold peek. cbn. rewrite H2. by rewrite H1. Qed.

Lemma ordinary_not T c : ordinary c -> forallb (fun c => strchr whitespace c || strchr symbols c || (c =? 0)) T = true -> strchr T c = false.
Proof.
  intros (Hw & Hs & Hz) H. destruct (strchr T c) eqn:E; [|done]. rewrite strchr_In, list_elem_of_In in E.
  rewrite forallb_forall in H. apply H in E. rewrite Hw, Hs in E. cbn in E. by apply Z.eqb_eq in E.
Qed.

(** Where a word ends. *)
Definition ends (rest : list Z) : Prop := match rest with [] => True | c :: _ => strchr whitespace c = true \/ strchr symbols c = true end.
Lemma closed_ends T rest : closed T rest -> forallb (fun c => strchr symbols c) T = true -> ends rest.
Proof. intros H1 H2. pose proof (closed_each _ _ _ H1 H2) as H. destruct rest; [done|]. by right. Qed.

Lemma skip_word_word w rest : Forall ordinary w -> ends rest -> skip_word (w ++ rest) = rest.
Proof.
  intros Hw Hr. induction Hw as [|c w (H1 & H2 & _) _ IH]; cbn [app].
  - destruct rest as [|c rest]; [done|]. cbn in *. by destruct Hr as [-> | ->]; rewrite ?andb_false_r.
  - cbn [skip_word]. rewrite H1, H2. exact IH.
Qed.

Section Tokens.
Variable es : Z.
Lemma gettoken_of_word w rest : word_ok w -> ends rest ->
  gettoken es (w ++ rest) = (97, (es - zlen (w ++ rest), es - zlen rest), skip_white rest).
Proof.
  intros [Hn Hw] Hr. destruct w as [|c w]; [done|]. pose proof Hw as [Hc _]%Forall_cons.
  unfold gettoken. rewrite (skip_white_id ((c :: w) ++ rest)) by (cbn; apply Hc). cbn [app].
  rewrite (ordinary_not _ c Hc) by reflexivity.
  replace (c =? 62) with false by (symmetry; apply Z.eqb_neq; intros ->; destruct Hc as (_ & Hs & _); done).
  change (c :: w ++ rest) with ((c :: w) ++ rest). rewrite skip_word_word by done. done.
Qed.
Lemma gettoken_sym c rest : strchr (bytes "|();&<") c = true -> strchr whitespace c = false ->
  exists a, gettoken es (c :: rest) = (c, a, skip_white rest).
Proof. intros H1 H2. unfold gettoken. cbn [skip_white]. rewrite H2, H1. by eexists. Qed.
Lemma gettoken_gt rest : match rest with 62 :: _ => False | _ => True end ->
  exists a, gettoken es (62 :: rest) = (62, a, skip_white rest).
Proof.
  intros H. unfold gettoken. change (skip_white (62 :: rest)) with (62 :: rest). cbv beta iota. change (strchr (bytes "|();&<") 62) with false.
  change (62 =? 62) with true. cbv beta iota. destruct rest as [|c rest]; [by eexists|].
  replace (c =? 62) with false; [by eexists|]. symmetry. apply Z.eqb_neq. intros ->. done.
Qed.
End Tokens.

(** ** Parsing what was written *)

Fixpoint csize {A} (c : cmd A) : nat :=
  match c with
  | EXEC _ => 1
  | REDIR c _ _ _ | BACK c => S (csize c)
  | PIPE l r | LIST l r => S (csize l + csize r)
  end.

(** A command as what the redirections are put around, and these. *)
Definition word_redir : Type := list Z * Z * Z.
Definition wrapped (c : cmd (list Z)) (rs : list word_redir) : cmd (list Z) :=
  fold_left (fun c '(f, mode, fd) => REDIR c f mode fd) rs c.
Fixpoint print_redirs (rs : list word_redir) : list Z :=
  match rs with [] => [] | (f, mode, _) :: rs => arrow mode :: f ++ print_redirs rs end.
Definition wr_ok (r : word_redir) : Prop := let '(f, mode, fd) := r in word_ok f /\ redir_ok mode fd.

Lemma print_redirs_app rs rs' : print_redirs (rs ++ rs') = print_redirs rs ++ print_redirs rs'.
Proof. induction rs as [|[[f m] fd] rs IH]; cbn; [done|]. by rewrite IH, <- app_assoc. Qed.

Lemma spine c : wf c -> exists b rs, c = wrapped b rs /\ wf b /\ Forall wr_ok rs /\ P 0 c = P 0 b ++ print_redirs rs /\
  match b with REDIR _ _ _ _ => False | _ => True end /\ (csize b + length rs = csize c)%nat.
Proof.
  induction c as [ws|c IH f mode fd|l _ r _|l _ r _|c _]; intros Hwf;
    try (eexists _, []; split; [reflexivity|]; rewrite app_nil_r; split_and!; [exact Hwf|constructor|done|exact I|cbn; lia]).
  destruct Hwf as (Hc & Hf & Hr). destruct (IH Hc) as (b & rs & -> & Hb & Hrs & Hp & Hnr & Hs).
  exists b, (rs ++ [(f, mode, fd)]). split_and!; [|done| | |done|].
  - unfold wrapped. by rewrite fold_left_app.
  - apply Forall_app_2; [done|]. by constructor.
  - unfold P at 1. change (0 <? level (REDIR _ f mode fd)) with false. cbn [print paren]. fold (P 0 (wrapped b rs)).
    rewrite Hp, print_redirs_app, <- app_assoc. cbn. by rewrite app_nil_r.
  - rewrite length_app. cbn. lia.
Qed.

Section RoundTrip.
Variable L : list Z.
Notation es := (zlen L).

Definition suffix (s : list Z) : Prop := exists pre, L = pre ++ s.
Definition tok (a : Z * Z) (w : list Z) : Prop :=
  exists pre rest, L = pre ++ w ++ rest /\ a = (zlen pre, zlen pre + zlen w) /\ word_ok w /\ ends rest.
Fixpoint means (n : node) (c : cmd (list Z)) : Prop :=
  match n, c with
  | EXEC argv, EXEC ws => Forall2 tok argv ws
  | REDIR n a m fd, REDIR c f m' fd' => means n c /\ tok a f /\ m = m' /\ fd = fd'
  | PIPE l r, PIPE l' r' | LIST l r, LIST l' r' => means l l' /\ means r r'
  | BACK n, BACK c => means n c
  | _, _ => False
  end.
Definition tok_redir (r : redir) (r' : word_redir) : Prop :=
  let '(a, m, fd) := r in let '(f, m', fd') := r' in tok a f /\ m = m' /\ fd = fd'.

Lemma suffix_drop s t : suffix (s ++ t) -> suffix t.
Proof. intros [pre H]. exists (pre ++ s). by rewrite <- app_assoc. Qed.
Lemma suffix_cons x t : suffix (x :: t) -> suffix t.
Proof. apply (suffix_drop [x]). Qed.

Lemma gettoken_tok w rest : word_ok w -> ends rest -> suffix (w ++ rest) ->
  exists a, tok a w /\ gettoken es (w ++ rest) = (97, a, skip_white rest).
Proof.
  intros Hw Hr [pre HL]. rewrite (gettoken_of_word es w rest Hw Hr). eexists. split; [|reflexivity].
  exists pre, rest. split_and!; [done| |done|done]. rewrite HL. rewrite !zlen_app. f_equal; lia.
Qed.

Lemma means_wrap n c rs rs' : means n c -> Forall2 tok_redir rs rs' -> means (wrap n rs) (wrapped c rs').
Proof.
  intros Hm HF. revert n c Hm. induction HF as [|[[a m] fd] [[f m'] fd'] rs rs' (Ht & -> & ->) _ IH]; intros n c Hm; [done|].
  cbn. apply IH. cbn. done.
Qed.

(** What may follow the words and redirections of a command. *)
Notation after_exec := [41; 38; 59; 124].

Lemma parseredirs_print fuel rs acc rest : Forall wr_ok rs -> closed after_exec rest -> (length rs < fuel)%nat -> suffix (print_redirs rs ++ rest) ->
  exists ts, Forall2 tok_redir ts rs /\ parseredirs es fuel (print_redirs rs ++ rest) acc = Ret (acc ++ ts, rest).
Proof.
  intros Hrs Hc. revert fuel acc. induction Hrs as [|[[f m] fd] rs (Hf & Hr) Hrs IH]; intros fuel acc Hl Hs.
  - destruct fuel as [|fuel]; [cbn in Hl; lia|]. exists []. split; [constructor|]. cbn [parseredirs print_redirs app].
    rewrite (closed_peek _ _ _ Hc) by reflexivity. by rewrite app_nil_r.
  - destruct fuel as [|fuel]; [cbn in Hl; lia|]. cbn [print_redirs app] in *. cbn [parseredirs]. rewrite <- app_assoc in *.
    assert (He : ends (print_redirs rs ++ rest)).
    { destruct rs as [|[[f' m'] ?] rs]; [by apply (closed_ends after_exec)|]. right. cbn. unfold arrow. by case_match. }
    destruct (gettoken_tok f (print_redirs rs ++ rest) Hf He (suffix_cons _ _ Hs)) as (a & Ha & Hg).
    assert (Hsk : skip_white (print_redirs rs ++ rest) = print_redirs rs ++ rest).
    { apply skip_white_id. destruct rs as [|[[f' m'] ?] rs]; [by apply (closed_trimmed after_exec)|]. cbn. unfold arrow. by case_match. }
    assert (Hskf : skip_white (f ++ print_redirs rs ++ rest) = f ++ print_redirs rs ++ rest).
    { apply skip_white_id. destruct Hf as [? Hf]. destruct f as [|x f]; [done|]. apply Forall_cons in Hf as [[Hx _] _]. exact Hx. }
    rewrite Hsk in Hg.
    destruct (IH fuel (acc ++ [(a, m, fd)]) ltac:(cbn in Hl; lia) (suffix_drop _ _ (suffix_cons _ _ Hs))) as (ts & Hts & E).
    exists ((a, m, fd) :: ts). split; [by constructor|].
    destruct Hr as [Hr|Hr]; injection Hr as -> ->.
    + change (arrow O_RDONLY) with 60. rewrite peek_hit by reflexivity.
      destruct (gettoken_sym es 60 (f ++ print_redirs rs ++ rest)) as [b ->]; [reflexivity..|]. rewrite Hskf, Hg. cbn [negb Z.eqb Pos.eqb].
      rewrite E. by rewrite <- app_assoc.
    + change (arrow (Z.lor O_WRONLY O_CREATE)) with 62. rewrite peek_hit by reflexivity.
      destruct (gettoken_gt es (f ++ print_redirs rs ++ rest)) as [b ->].
      { destruct Hf as [? Hf]. destruct f as [|x f]; [done|]. cbn. apply Forall_cons in Hf as [(_ & Hx & _) _].
        destruct (Z.eqb_spec x 62) as [->|]; [done|]. repeat case_match; done. }
      rewrite Hskf, Hg. cbn [negb Z.eqb Pos.eqb]. rewrite E. by rewrite <- app_assoc.
Qed.
Lemma print_redirs_length rs : Forall wr_ok rs -> (length rs <= length (print_redirs rs))%nat.
Proof. induction 1 as [|[[f m] fd] rs _ _ IH]; cbn; [lia|]. rewrite length_app. lia. Qed.
Lemma redirs_print rs acc rest : Forall wr_ok rs -> closed after_exec rest -> suffix (print_redirs rs ++ rest) ->
  exists ts, Forall2 tok_redir ts rs /\ redirs es (print_redirs rs ++ rest) acc = Ret (acc ++ ts, rest).
Proof.
  intros Hrs Hc Hs. apply parseredirs_print; [done..| |done]. pose proof (print_redirs_length rs Hrs). rewrite length_app. lia.
Qed.

(** Where no redirection starts, [parseredirs] only skips blanks. *)
Lemma redirs_none s acc : (peek s (bytes "<>")).1 = false -> redirs es s acc = Ret (acc, skip_white s).
Proof. unfold redirs. cbn [parseredirs]. unfold peek. cbn [fst]. by intros ->. Qed.
Lemma peek_word w rest toks : word_ok w -> forallb (fun c => strchr whitespace c || strchr symbols c || (c =? 0)) toks = true ->
  peek (w ++ rest) toks = (false, w ++ rest).
Proof.
  intros [Hn Hw] Ht. destruct w as [|c w]; [done|]. apply Forall_cons in Hw as [Hc _]. unfold peek. cbn [app].
  rewrite (skip_white_id (c :: _)) by apply Hc. by rewrite (ordinary_not _ c Hc).
Qed.
Lemma skip_white_space s : skip_white (32 :: s) = skip_white s.
Proof. reflexivity. Qed.
Lemma word_trimmed w rest : word_ok w -> skip_white (w ++ rest) = w ++ rest.
Proof. intros [Hn Hw]. destruct w as [|c w]; [done|]. apply Forall_cons in Hw as [[Hc _] _]. by apply skip_white_id. Qed.

Lemma redirs_head rs rest : closed after_exec rest ->
  (rs = [] -> peek (print_redirs rs ++ rest) (bytes "<>") = (false, rest)) /\
  peek (print_redirs rs ++ rest) (bytes "(") = (false, print_redirs rs ++ rest) /\
  skip_white (print_redirs rs ++ rest) = print_redirs rs ++ rest /\ ends (print_redirs rs ++ rest).
Proof.
  intros Hc. split; [intros ->; by apply (closed_peek after_exec)|]. destruct rs as [|[[f m] fd] rs]; cbn [print_redirs app].
  - split_and!; [by apply (closed_peek after_exec)|by apply skip_white_id, (closed_trimmed after_exec)|by apply (closed_ends after_exec)].
  - unfold arrow. by case_match; split_and!; try done; right.
Qed.

Lemma parseargs_end fuel acc rs rest : closed after_exec rest -> parseargs es (S fuel) rest acc rs = Ret (wrap (EXEC acc) rs, rest).
Proof.
  intros Hc. cbn [parseargs]. destruct rest as [|c rest]; [done|]. rewrite peek_hit; [done| |].
  - pose proof (closed_each (fun c => strchr (bytes "|)&;") c) _ _ Hc eq_refl) as H. exact H.
  - pose proof (closed_trimmed _ _ Hc eq_refl) as H. exact H.
Qed.

Lemma parseargs_print fuel ws acc rs0 rs rest :
  ws <> [] -> Forall word_ok ws -> Forall wr_ok rs -> closed after_exec rest -> zlen acc + zlen ws < MAXARGS ->
  (length ws < fuel)%nat -> suffix (words ws ++ print_redirs rs ++ rest) ->
  exists toks ts, Forall2 tok toks ws /\ Forall2 tok_redir ts rs /\
    parseargs es fuel (words ws ++ print_redirs rs ++ rest) acc rs0 = Ret (wrap (EXEC (acc ++ toks)) (rs0 ++ ts), rest).
Proof.
  intros Hn Hws Hrs Hc. revert fuel acc Hn. induction Hws as [|w ws Hw Hws IH]; intros fuel acc Hn Hlen Hf Hs; [done|].
  destruct fuel as [|fuel]; [lia|]. pose proof (redirs_head rs rest Hc) as (_ & _ & Hsk & He).
  assert (Hacc : (zlen acc + 1 >=? MAXARGS) = false) by (rewrite Z.geb_leb; apply Z.leb_gt; unfold zlen in *; cbn [length] in *; lia).
  destruct ws as [|w2 ws].
  - cbn [words] in *. destruct (gettoken_tok w (print_redirs rs ++ rest) Hw He Hs) as (a & Ha & Hg).
    destruct (redirs_print rs rs0 rest Hrs Hc (suffix_drop _ _ Hs)) as (ts & Hts & Er).
    exists [a], ts. split_and!; [by constructor|done|]. cbn [parseargs]. rewrite peek_word, Hg, Hsk by done. cbn [Z.eqb Pos.eqb negb].
    rewrite Hacc, Er. destruct fuel as [|fuel]; [cbn in Hf; lia|]. by apply parseargs_end.
  - change (words (w :: w2 :: ws)) with (w ++ 32 :: words (w2 :: ws)) in *. rewrite <- app_assoc in *. cbn [app] in Hs |- *.
    destruct (gettoken_tok w (32 :: words (w2 :: ws) ++ print_redirs rs ++ rest) Hw (or_introl eq_refl) Hs) as (a & Ha & Hg).
    pose proof Hws as [Hw2 _]%Forall_cons.
    assert (Hx : exists x, words (w2 :: ws) ++ print_redirs rs ++ rest = w2 ++ x).
    { destruct ws; cbn [words]; [by eexists|]. eexists. by rewrite <- app_assoc. }
    assert (Hsk2 : skip_white (words (w2 :: ws) ++ print_redirs rs ++ rest) = words (w2 :: ws) ++ print_redirs rs ++ rest).
    { destruct Hx as [x ->]. by apply word_trimmed. }
    destruct (IH fuel (acc ++ [a]) ltac:(done)) as (toks & ts & Ht & Hts & E).
    { rewrite zlen_app. unfold zlen in *. cbn [length] in *. lia. } { cbn in *. lia. } { exact (suffix_cons _ _ (suffix_drop _ _ Hs)). }
    exists (a :: toks), ts. split_and!; [by constructor|done|]. cbn [parseargs]. rewrite peek_word, Hg, skip_white_space, Hsk2 by done.
    cbn [Z.eqb Pos.eqb negb]. rewrite Hacc, redirs_none.
    + rewrite Hsk2, E. by rewrite <- app_assoc.
    + destruct Hx as [x ->]. by rewrite peek_word.
Qed.

Definition exec_ok (c : cmd (list Z)) : Prop := forall rest fuel, closed after_exec rest -> suffix (P 0 c ++ rest) ->
  (4 * length (P 0 c ++ rest) + 2 <= fuel)%nat -> exists n, parseexec es fuel (P 0 c ++ rest) = Ret (n, rest) /\ means n c.
Definition pipe_ok (c : cmd (list Z)) : Prop := forall rest fuel, closed [41; 38; 59] rest -> suffix (P 1 c ++ rest) ->
  (4 * length (P 1 c ++ rest) + 3 <= fuel)%nat -> exists n, parsepipe es fuel (P 1 c ++ rest) = Ret (n, rest) /\ means n c.
(** [parsepipe] and the part of the [&] loop that belongs to the command. *)
Definition back_ok (c : cmd (list Z)) : Prop := forall rest fuel, closed [41; 38; 59] rest -> suffix (P 2 c ++ rest) ->
  (4 * length (P 2 c ++ rest) + 3 <= fuel)%nat -> exists n0 s0 n, parsepipe es fuel (P 2 c ++ rest) = Ret (n0, s0) /\ means n c /\
    forall fuel', (length s0 < fuel')%nat -> exists fuel'', (length rest < fuel'')%nat /\ parseback es fuel' s0 n0 = parseback es fuel'' rest n.
Definition line_ok (c : cmd (list Z)) : Prop := forall rest fuel, closed [41] rest -> suffix (print c ++ rest) ->
  (4 * length (print c ++ rest) + 4 <= fuel)%nat -> exists n, parseline es fuel (print c ++ rest) = Ret (n, rest) /\ means n c.

Lemma parseexec_words ws rs rest fuel : wf (EXEC ws) -> Forall wr_ok rs -> closed after_exec rest ->
  suffix (words ws ++ print_redirs rs ++ rest) -> (0 < fuel)%nat ->
  exists n, parseexec es fuel (words ws ++ print_redirs rs ++ rest) = Ret (n, rest) /\ means n (wrapped (EXEC ws) rs).
Proof.
  intros [Hws Hl] Hrs Hc Hs Hf. destruct fuel as [|fuel]; [lia|]. cbn [parseexec].
  pose proof (redirs_head rs rest Hc) as (_ & Hp & Hsk & _). destruct ws as [|w ws].
  - cbn [words app] in *. rewrite Hp. destruct (redirs_print rs [] rest Hrs Hc Hs) as (ts & Hts & ->). cbn [bind].
    rewrite parseargs_end by done. eexists. split; [reflexivity|]. apply means_wrap; [|done]. constructor.
  - pose proof Hws as [Hw _]%Forall_cons.
    assert (Hx : exists x, words (w :: ws) ++ print_redirs rs ++ rest = w ++ x).
    { destruct ws; cbn [words]; [by eexists|]. eexists. by rewrite <- app_assoc. }
    destruct (parseargs_print (S (length (words (w :: ws) ++ print_redirs rs ++ rest))) (w :: ws) [] [] rs rest) as (toks & ts & Ht & Hts & E);
      try done.
    { assert (Hlw : forall ws, Forall word_ok ws -> (length ws <= length (words ws))%nat).
      { induction 1 as [|v vs [Hv _] _ IHv]; [done|]. destruct v as [|x v]; [done|]. destruct vs; cbn in *; rewrite ?length_app; cbn in *; lia. }
      rewrite !length_app. pose proof (Hlw _ Hws). cbn [length] in *. lia. }
    destruct Hx as [x Hx]. rewrite Hx in *. rewrite peek_word by done. rewrite redirs_none by (by rewrite peek_word). cbn [bind].
    rewrite word_trimmed by done. rewrite E. eexists. split; [reflexivity|]. apply means_wrap; [exact Ht|done].
Qed.

Lemma print_trimmed c rest : wf c -> trimmed rest -> trimmed (print c ++ rest).
Proof.
  revert rest. induction c as [ws|c IH f mode fd|l IHl r _|l IHl r _|c IH]; intros rest Hwf Hr; cbn [print].
  1: { destruct Hwf as [Hws _]. destruct Hws as [|w ws [Hn Hw] _]; [done|]. destruct w as [|x w]; [done|].
    apply Forall_cons in Hw as [[Hx _] _]. by destruct ws. }
  all: rewrite <- app_assoc; cbn [wf] in Hwf; unfold paren at 1; case_match; try done; (apply IH || apply IHl); try tauto; try done.
  cbn. unfold arrow. by case_match.
Qed.

Lemma parseexec_block b rs rest fuel s : wf b -> line_ok b -> Forall wr_ok rs -> closed after_exec rest ->
  s = 40 :: print b ++ 41 :: print_redirs rs ++ rest -> suffix s -> (4 * length s + 2 <= fuel)%nat ->
  exists n, parseexec es fuel s = Ret (n, rest) /\ means n (wrapped b rs).
Proof.
  intros Hw Hb Hrs Hc -> Hs Hf. destruct fuel as [|[|fuel]]; [cbn in Hf; lia..|].
  pose proof (redirs_head rs rest Hc) as (_ & _ & Hsk & _).
  cbn [parseexec]. rewrite peek_hit by reflexivity. cbn [parseblock]. rewrite peek_hit by reflexivity. cbn [negb].
  destruct (gettoken_sym es 40 (print b ++ 41 :: print_redirs rs ++ rest)) as [a ->]; [reflexivity..|].
  rewrite skip_white_id by (by apply print_trimmed).
  destruct (Hb (41 :: print_redirs rs ++ rest) fuel) as (n & -> & Hm); [done|exact (suffix_cons _ _ Hs)|cbn [length] in Hf; lia|].
  cbn [bind]. rewrite peek_hit by reflexivity. cbn [negb].
  destruct (gettoken_sym es 41 (print_redirs rs ++ rest)) as [a' ->]; [reflexivity..|]. rewrite Hsk.
  destruct (redirs_print rs [] rest Hrs Hc (suffix_cons _ _ (suffix_drop _ _ (suffix_cons _ _ Hs)))) as (ts & Hts & ->).
  cbn [bind app]. eexists. split; [reflexivity|]. by apply means_wrap.
Qed.

(** A production in parentheses, or of an earlier level, is one of the next. *)
Lemma P_paren k c : level c > k -> P k c = 40 :: print c ++ [41].
Proof. intros H. unfold P, paren. destruct (Z.ltb_spec k (level c)); [done|lia]. Qed.
Lemma P_plain k c : level c <= k -> P k c = print c.
Proof. intros H. unfold P, paren. destruct (Z.ltb_spec k (level c)); [lia|done]. Qed.
Lemma level_pos (c : cmd (list Z)) : 0 <= level c <= 3.
Proof. destruct c; cbn; lia. Qed.
Lemma P_trimmed k c rest : wf c -> trimmed rest -> trimmed (P k c ++ rest).
Proof. intros. unfold P, paren. case_match; [done|by apply print_trimmed]. Qed.

(** After the parts of a level, nothing of the level follows. *)
Lemma exec_pipe c : wf c -> exec_ok c -> P 1 c = P 0 c -> pipe_ok c.
Proof.
  intros Hw He HP rest fuel Hc Hs Hf. rewrite HP in *. destruct fuel as [|fuel]; [lia|]. cbn [parsepipe].
  destruct (He rest fuel) as (n & -> & Hm); [by apply (closed_weaken [41; 38; 59])|done|lia|]. cbn [bind].
  rewrite (closed_peek _ _ _ Hc) by reflexivity. by exists n.
Qed.
Lemma pipe_pipe l r : wf r -> exec_ok l -> pipe_ok r -> pipe_ok (PIPE l r).
Proof.
  intros Hw Hl Hr rest fuel Hc Hs Hf. destruct fuel as [|fuel]; [lia|]. rewrite P_plain in * by (cbn; lia). cbn [print] in *.
  fold (P 0 l) (P 1 r) in *. rewrite <- app_assoc in *. cbn [app parsepipe] in *.
  destruct (Hl (124 :: P 1 r ++ rest) fuel) as (n & -> & Hm); [done|done|lia|]. cbn [bind]. rewrite peek_hit by reflexivity.
  destruct (gettoken_sym es 124 (P 1 r ++ rest)) as [a ->]; [reflexivity..|].
  rewrite skip_white_id by (apply P_trimmed; [done|by apply (closed_trimmed _ _ Hc)]).
  destruct (Hr rest fuel) as (m & -> & Hm'); [done|exact (suffix_cons _ _ (suffix_drop _ _ Hs))|rewrite length_app in Hf; cbn [length] in Hf; lia|].
  cbn [bind]. exists (PIPE n m). done.
Qed.
Lemma pipe_back c : pipe_ok c -> P 2 c = P 1 c -> back_ok c.
Proof.
  intros Hp HP rest fuel Hc Hs Hf. rewrite HP in *. destruct (Hp rest fuel Hc Hs Hf) as (n & -> & Hm).
  exists n, rest, n. split_and!; [done..|]. intros fuel' Hf'. by exists fuel'.
Qed.
Lemma back_back c : back_ok c -> back_ok (BACK c).
Proof.
  intros Hb rest fuel Hc Hs Hf. rewrite P_plain in * by (cbn; lia). cbn [print] in *. fold (P 2 c) in *. rewrite <- app_assoc in *. cbn [app] in *.
  destruct (Hb (38 :: rest) fuel) as (n0 & s0 & n & -> & Hm & Hk); [done..|]. exists n0, s0, (BACK n). split_and!; [done..|].
  intros fuel' Hf'. destruct (Hk fuel' Hf') as (fuel'' & Hf'' & ->). destruct fuel'' as [|fuel'']; [cbn in Hf''; lia|].
  exists fuel''. split; [cbn in Hf''; lia|]. cbn [parseback]. rewrite peek_hit by reflexivity.
  destruct (gettoken_sym es 38 rest) as [a ->]; [reflexivity..|]. by rewrite (skip_white_id rest) by (by apply (closed_trimmed _ _ Hc)).
Qed.

(** The head of a line, up to the [;]. *)
Lemma back_run c rest fuel : back_ok c -> closed [41; 59] rest -> suffix (P 2 c ++ rest) -> (4 * length (P 2 c ++ rest) + 3 <= fuel)%nat ->
  exists n, bind (parsepipe es fuel (P 2 c ++ rest)) (fun '(c, s) => parseback es (S (length s)) s c) = Ret (n, rest) /\ means n c.
Proof.
  intros Hb Hc Hs Hf. destruct (Hb rest fuel) as (n0 & s0 & n & -> & Hm & Hk); [by apply (closed_weaken [41; 59])|done|done|].
  exists n. split; [|done]. cbn [bind]. destruct (Hk (S (length s0))) as ([|fuel''] & Hf'' & ->); [lia..|]. cbn [parseback].
  by rewrite (closed_peek _ _ _ Hc) by reflexivity.
Qed.
Lemma bind_bind {A B C} (m : res A) (f : A -> res B) (g : B -> res C) : bind m (fun a => bind (f a) g) = bind (bind m f) g.
Proof. by destruct m. Qed.
Lemma parseline_eq fuel s : parseline es (S fuel) s =
  bind (bind (parsepipe es fuel s) (fun '(c, s) => parseback es (S (length s)) s c)) (fun '(c, s) =>
    let '(more, s) := peek s (bytes ";") in
    if more then let '(_, _, s) := gettoken es s in bind (parseline es fuel s) (fun '(r, s) => Ret (LIST c r, s)) else Ret (c, s)).
Proof. cbn [parseline]. rewrite <- bind_bind. by destruct (parsepipe es fuel s) as [[c s']| | | |]. Qed.

Lemma back_line c : back_ok c -> P 2 c = print c -> line_ok c.
Proof.
  intros Hb HP rest fuel Hc Hs Hf. rewrite <- HP in *. destruct fuel as [|fuel]; [lia|]. rewrite parseline_eq.
  destruct (back_run c rest fuel Hb) as (n & -> & Hm); [by apply (closed_weaken [41])|done|lia|]. cbn [bind].
  rewrite (closed_peek _ _ _ Hc) by reflexivity. by exists n.
Qed.
Lemma list_line l r : wf r -> back_ok l -> line_ok r -> line_ok (LIST l r).
Proof.
  intros Hw Hl Hr rest fuel Hc Hs Hf. cbn [print] in *. fold (P 2 l) in *. rewrite <- app_assoc in *. cbn [app] in *.
  destruct fuel as [|fuel]; [lia|]. rewrite parseline_eq.
  destruct (back_run l (59 :: print r ++ rest) fuel Hl) as (n & -> & Hm); [done|done|lia|]. cbn [bind]. rewrite peek_hit by reflexivity.
  destruct (gettoken_sym es 59 (print r ++ rest)) as [a ->]; [reflexivity..|].
  rewrite skip_white_id by (apply print_trimmed; [done|by apply (closed_trimmed _ _ Hc)]).
  destruct (Hr rest fuel) as (m & -> & Hm'); [done|exact (suffix_cons _ _ (suffix_drop _ _ Hs))|rewrite length_app in Hf; cbn [length] in Hf; lia|].
  cbn [bind]. by exists (LIST n m).
Qed.
Lemma line_exec c : wf c -> line_ok c -> level c > 0 -> exec_ok c.
Proof.
  intros Hw Hl Hg rest fuel Hc Hs Hf. rewrite P_paren in * by done.
  assert (E : (40 :: print c ++ [41]) ++ rest = 40 :: print c ++ 41 :: print_redirs [] ++ rest) by (cbn; by rewrite <- app_assoc).
  apply (parseexec_block c [] rest fuel); done || constructor.
Qed.

(** All the levels, by size: a command of level 0 from what it is around. *)
Lemma parse_print n c : wf c -> (csize c <= n)%nat -> exec_ok c /\ pipe_ok c /\ back_ok c /\ line_ok c.
Proof.
  revert c. induction n as [|n IH]; intros c Hw Hn; [destruct c; cbn in Hn; lia|]. pose proof (level_pos c) as Hlev.
  assert (He : level c = 0 -> exec_ok c).
  { intros H0 rest fuel Hc Hs Hf. destruct (spine c Hw) as (b & rs & Hcb & Hb & Hrs & HP & Hnr & Hsz).
    rewrite HP, <- app_assoc in *. rewrite Hcb. destruct (Z_le_gt_dec (level b) 0) as [Hl|Hg].
    - destruct b as [ws| | | |]; try (cbn in Hl; lia). apply parseexec_words; try done. lia.
    - assert (csize b <= n)%nat. { destruct rs; cbn in Hsz; [|lia]. subst c. cbn in H0. lia. }
      rewrite (P_paren 0 b) in * by lia. eapply parseexec_block; try done; [by apply IH|]. cbn. by rewrite <- app_assoc. }
  assert (Hp : level c <= 1 -> pipe_ok c).
  { intros H1. destruct (Z.eq_dec (level c) 0) as [E|N]; [apply exec_pipe; [done|auto|by rewrite !P_plain by lia]|].
    destruct c as [| |l r| |]; cbn in H1, N; try lia. destruct Hw as [Hwl Hwr]. cbn in Hn.
    apply pipe_pipe; [done|apply (IH l); [done|lia]|apply (IH r); [done|lia]]. }
  assert (Hb : level c <= 2 -> back_ok c).
  { intros H2. destruct (Z_le_gt_dec (level c) 1) as [E|N]; [apply pipe_back; [auto|by rewrite !P_plain by lia]|].
    destruct c as [| | | |c]; cbn in H2, N; try lia. cbn in Hn. apply back_back, (IH c); [done|lia]. }
  assert (Hl : line_ok c).
  { destruct (Z_le_gt_dec (level c) 2) as [E|N]; [apply back_line; [auto|by rewrite P_plain by lia]|].
    destruct c as [| | |l r|]; cbn in N; try lia. destruct Hw as [Hwl Hwr]. cbn in Hn.
    apply list_line; [done|apply (IH l); [done|lia]|apply (IH r); [done|lia]]. }
  assert (He' : exec_ok c). { destruct (Z.eq_dec (level c) 0); [auto|]. apply line_exec; [done..|lia]. }
  assert (Hp' : pipe_ok c). { destruct (Z_le_gt_dec (level c) 1); [auto|]. apply exec_pipe; [done..|]. by rewrite !P_paren by lia. }
  split_and!; try done. destruct (Z_le_gt_dec (level c) 2); [auto|]. apply pipe_back; [done|]. by rewrite !P_paren by lia.
Qed.

(** *** Terminating the strings *)

(** A line whose words are as they were, and one whose strings all end. *)
Definition intact (line : list Z) : Prop :=
  length line = S (length L) /\ forall i x, L !! i = Some x -> ordinary x -> line !! i = Some x.
Definition nul_at (line : list Z) (e : Z) : Prop := line !! Z.to_nat e = Some 0.
Fixpoint ended (line : list Z) (n : node) : Prop :=
  match n with
  | EXEC argv => Forall (fun a => nul_at line a.2) argv
  | REDIR n a _ _ => ended line n /\ nul_at line a.2
  | PIPE l r | LIST l r => ended line l /\ ended line r
  | BACK n => ended line n
  end.
Definition keeps (line line' : list Z) : Prop := intact line' /\ forall e, nul_at line e -> nul_at line' e.

Lemma keeps_trans a b c : keeps a b -> keeps b c -> keeps a c.
Proof. intros [_ H] [? H']. split; [done|auto]. Qed.
Lemma ended_keeps line line' n : keeps line line' -> ended line n -> ended line' n.
Proof.
  intros [_ H]. induction n as [argv|n IH a m fd|l IHl r IHr|l IHl r IHr|n IH]; cbn; try tauto.
  - intros HF. eapply Forall_impl; [exact HF|]. cbn. auto.
  - intros [? ?]. auto.
Qed.

Lemma ends_not_ordinary rest x : ends rest -> rest !! 0%nat = Some x -> ~ ordinary x.
Proof. destruct rest as [|c rest]; [done|]. intros Hr [= <-] (Hw & Hs & _). destruct Hr as [Hr|Hr]; [by rewrite Hw in Hr|by rewrite Hs in Hr]. Qed.

Lemma terminate_tok line q e w : intact line -> tok (q, e) w -> keeps line (splice e [0] line) /\ nul_at (splice e [0] line) e.
Proof.
  intros [Hl Hi] (pre & rest & HL & [= -> ->] & Hw & Hr). set (o := (length pre + length w)%nat).
  replace (zlen pre + zlen w) with (Z.of_nat o) by (unfold zlen; lia).
  assert (Ho : (o + 1 <= length line)%nat) by (rewrite Hl, HL, !length_app; lia).
  assert (Hn : nul_at (splice (Z.of_nat o) [0] line) (Z.of_nat o)).
  { unfold nul_at. rewrite Nat2Z.id, splice_lookup by done. cbn [length]. rewrite decide_True by lia. by rewrite Nat.sub_diag. }
  split; [|exact Hn]. split; [split|].
  - by rewrite splice_length.
  - intros i x Hx Hox. rewrite splice_lookup by done. cbn [length]. rewrite decide_False; [by apply Hi|]. intros Hi2.
    assert (i = o) as -> by lia. rewrite HL, app_assoc, lookup_app_r in Hx by (rewrite length_app; lia).
    rewrite length_app in Hx. unfold o in Hx. rewrite Nat.sub_diag in Hx. by eapply ends_not_ordinary.
  - intros e He. unfold nul_at in *. rewrite splice_lookup by done. cbn [length]. case_decide; [|done].
    by replace (Z.to_nat e - o)%nat with 0%nat by lia.
Qed.

Lemma terminate_toks argv ws line : Forall2 tok argv ws -> intact line ->
  let line' := fold_left (fun line '(_, e) => splice e [0] line) argv line in keeps line line' /\ Forall (fun a => nul_at line' a.2) argv.
Proof.
  intros HF. revert line. induction HF as [|[q e] w argv ws Ht _ IH]; intros line Hi; cbn.
  - split; [split; [done|auto]|constructor].
  - destruct (terminate_tok line q e w Hi Ht) as [Hk Hn]. destruct (IH _ (proj1 Hk)) as [Hk' Ha].
    split; [by eapply keeps_trans|]. constructor; [|done]. by apply Hk'.
Qed.

Lemma nulterminate_ok n c line : means n c -> intact line -> keeps line (nulterminate n line) /\ ended (nulterminate n line) n.
Proof.
  revert c line.
  induction n as [argv|n IH [q e] m fd|l IHl r IHr|l IHl r IHr|n IH]; intros c line Hm Hi; destruct c; cbn in Hm; try done; cbn [nulterminate ended].
  - by eapply terminate_toks.
  - destruct Hm as (Hm & Ht & _ & _). destruct (IH _ line Hm Hi) as [Hk He].
    destruct (terminate_tok _ q e _ (proj1 Hk) Ht) as [Hk' Hn]. split; [by eapply keeps_trans|]. split; [by eapply ended_keeps|done].
  - destruct Hm as [Hl Hr]. destruct (IHl _ line Hl Hi) as [Hk He]. destruct (IHr _ _ Hr (proj1 Hk)) as [Hk' He'].
    split; [by eapply keeps_trans|]. split; [by eapply ended_keeps|done].
  - destruct Hm as [Hl Hr]. destruct (IHl _ line Hl Hi) as [Hk He]. destruct (IHr _ _ Hr (proj1 Hk)) as [Hk' He'].
    split; [by eapply keeps_trans|]. split; [by eapply ended_keeps|done].
  - by eapply IH.
Qed.

Lemma upto_nul_word w rest : Forall ordinary w -> upto_nul (w ++ 0 :: rest) = w.
Proof.
  induction 1 as [|c w (_ & _ & Hc) _ IH]; [done|]. cbn. rewrite IH. destruct (Z.eqb_spec c 0); [done|done].
Qed.
Lemma string_at_tok line a w : intact line -> tok a w -> nul_at line a.2 -> string_at line a.1 = w.
Proof.
  intros [Hl Hi] (pre & rest & HL & -> & [_ Hw] & Hr) Hn. cbn [fst snd] in *. unfold string_at, nul_at, zlen in *.
  rewrite Nat2Z.id. assert (Hp : (length pre + length w < length line)%nat) by (rewrite Hl, HL, !length_app; lia).
  replace (drop (length pre) line) with (w ++ 0 :: drop (S (length pre + length w)) line); [by apply upto_nul_word|].
  rewrite <- (take_drop (length w) (drop (length pre) line)) at 1. rewrite drop_drop. f_equal.
  - apply list_eq. intros i. destruct (decide (i < length w)%nat) as [H|H].
    + rewrite lookup_take_lt, lookup_drop by done. destruct (lookup_lt_is_Some_2 w i H) as [x Hx]. rewrite Hx. symmetry. apply Hi.
      * rewrite HL, lookup_app_r by lia. replace (length pre + i - length pre)%nat with i by lia. by rewrite lookup_app_l.
      * eapply Forall_lookup_1; [exact Hw|exact Hx].
    + rewrite !lookup_ge_None_2; [done|rewrite length_take, length_drop; lia|lia].
  - replace (Z.to_nat _) with (length pre + length w)%nat in Hn by lia. symmetry. by apply drop_S.
Qed.

Lemma resolve_ok n c line : means n c -> intact line -> ended line n -> resolve line n = c.
Proof.
  intros Hm Hi. revert c Hm. induction n as [argv|n IH a m fd|l IHl r IHr|l IHl r IHr|n IH]; intros c Hm He; destruct c; cbn in Hm; try done; cbn in He |- *.
  - f_equal. induction Hm as [|a w argv ws Ht _ IH]; [done|]. apply Forall_cons in He as [Hn He]. cbn. f_equal; [by apply string_at_tok|auto].
  - destruct Hm as (Hm & Ht & -> & ->). destruct He as [He Hn]. by rewrite (IH _ Hm He), (string_at_tok line a _ Hi Ht Hn).
  - destruct Hm, He. f_equal; auto.
  - destruct Hm, He. f_equal; auto.
  - f_equal. auto.
Qed.
End RoundTrip.

(** C25: Whatever command of the shell's grammar is written down, with only the
    parentheses the grammar needs, [parsecmd] reads back, printing nothing: every word and file
    name is terminated where it ended, no other string is damaged by the NULs,
    and pipes, lists, background commands and redirections nest as written. *)
Theorem parsecmd_print c : wf c -> parsecmd (print c) = ([], Ret c).
Proof.
  intros Hw. unfold parsecmd. destruct (parse_print (print c) (csize c) c Hw (le_n _)) as (_ & _ & _ & Hl).
  destruct (Hl [] (S (4 * length (print c) + 3))) as (n & E & Hm); [done|by exists []; rewrite app_nil_r|rewrite app_nil_r; lia|].
  rewrite app_nil_r in E. rewrite E. cbn. do 2 f_equal.
  assert (Hi : intact (print c) (print c ++ [0])).
  { split; [rewrite length_app; cbn; lia|]. intros i x Hx _. by apply lookup_app_l_Some. }
  destruct (nulterminate_ok _ n c _ Hm Hi) as [[Hi' _] He]. by apply (resolve_ok (print c)).
Qed.

(** [(a b <f | c >g ; d &)] as a command. *)
Definition some_command : cmd (list Z) :=
  LIST (PIPE (REDIR (EXEC [bytes "a"; bytes "b"]) (bytes "f") O_RDONLY 0)
             (PIPE (REDIR (LIST (BACK (EXEC [bytes "cc"])) (EXEC [])) (bytes "g") (Z.lor O_WRONLY O_CREATE) 1) (EXEC [bytes "e"])))
       (BACK (BACK (EXEC [bytes "d"]))).
Lemma parsecmd_print_witness : print some_command = bytes "a b<f|(cc&;)>g|e;d&&" /\ parsecmd (print some_command) = ([], Ret some_command).
Proof.
  split; [reflexivity|]. apply (parsecmd_print some_command). cbn. unfold word_ok, ordinary.
  repeat first [split | constructor]; try discriminate; try reflexivity; by (left + right).
Defined.
