(* ===== verification/ShRun.v ===== *)
(** What the shell's processes do with their descriptors: the tree of system
    calls of [runcmd], run over descriptor tables, against what a command
    means. *)
From S2P Require Import Prelude Bytes File Sh ShParse.
Import Sh.

(** ** Descriptor tables

    What a descriptor refers to: something the shell was given, a file it
    opened, or an end of a pipe it made. *)
Inductive object := Given (k : Z) | Opened (file : list Z) (mode : Z) | ReadEnd (n : nat) | WriteEnd (n : nat).
Definition table : Type := list (option object).

(** The lowest free descriptor, as the kernel's [fdalloc] chooses it. *)
Definition alloc (t : table) (o : object) : option (Z * table) :=
  fd ← File.free_fd t 0; Some (fd, zset t fd (Some o)).
Definition close (t : table) (fd : Z) : table := zset t fd None.
Definition dup (t : table) (fd : Z) : Z * table :=
  match mjoin (zget t fd) with
  | Some o => default (-1, t) (alloc t o)
  | None => (-1, t)
  end.
Definition pipe (t : table) (n : nat) : option (Z * Z * table) :=
  '(fd0, t) ← alloc t (ReadEnd n); '(fd1, t) ← alloc t (WriteEnd n); Some (fd0, fd1, t).

(** ** Behaviours

    What a process does, in order: the programs it becomes, with the
    descriptors they get; what it says on descriptor 2; the children it starts,
    each with its own behaviour, going on at the same time; and the waits for
    one of them. *)
Inductive act :=
  | Becomes (argv : list (list Z)) (fds : table)
  | Says (s : list Z)
  | Child (l : list act)
  | Waits
  | Enters (dir : list Z)
  | Unknown.

(** Which calls succeed: those of [exec], [open] and [chdir] by their
    arguments, the [n]th [fork] and the [n]th [pipe] by their number. *)
Record answers := {
  exec_ok : list (list Z) -> bool;
  open_ok : list Z -> Z -> bool;
  chdir_ok : list Z -> bool;
  fork_ok : nat -> bool;
  pipe_ok : nat -> bool
}.
Definition counts : Type := nat * nat.

Section Run.
Variable w : answers.

(** The behaviour of a process from a table, and the numbers of [fork]s and
    [pipe]s made until all it started has been counted. *)
Fixpoint run (t : table) (p : prog) (n : counts) : list act * counts :=
  match p with
  | Exit => ([], n)
  | Unmodelled => ([Unknown], n)
  | Exec argv failed => if exec_ok w argv then ([Becomes argv t], n) else run t failed n
  | Printf s k => let '(l, n) := run t k n in (Says s :: l, n)
  | Close fd k => run (close t fd) k n
  | Open file mode k =>
      if open_ok w file mode then
        match alloc t (Opened file mode) with
        | Some (fd, t) => run t (k fd) n
        | None => run t (k (-1)) n
        end
      else run t (k (-1)) n
  | Dup fd k => let '(r, t) := dup t fd in run t (k r) n
  | Pipe k =>
      let '(f, i) := n in
      match (if pipe_ok w i then pipe t i else None) with
      | Some (p0, p1, t) => run t (k (Some (p0, p1))) (f, S i)
      | None => run t (k None) (f, S i)
      end
  | Fork k =>
      let '(f, i) := n in
      if fork_ok w f then
        let '(child, n) := run t (k 0) (S f, i) in
        let '(parent, n) := run t (k 1) n in
        (Child child :: parent, n)
      else run t (k (-1)) (S f, i)
  | Wait k => let '(l, n) := run t k n in (Waits :: l, n)
  | Chdir dir k =>
      let '(l, n) := run t (k (if chdir_ok w dir then 0 else -1)) n in (Enters dir :: l, n)
  end.

(** ** What a command means

    The behaviour of a command whose standard descriptors are [i], [o] and
    [e]: a program gets these three and nothing else. *)
Definition std (i o e : object) : table := [Some i; Some o; Some e] ++ replicate 13 None.

Definition says (s : list Z) (n : counts) : list act * counts := ([Says s], n).
Definition spawn (child parent : counts -> list act * counts) (n : counts) : list act * counts :=
  let '(f, i) := n in
  if fork_ok w f then
    let '(c, n) := child (S f, i) in let '(p, n) := parent n in (Child c :: p, n)
  else says (bytes "fork" ++ [10]) (S f, i).
Definition waits (k : counts -> list act * counts) (n : counts) : list act * counts :=
  let '(l, n) := k n in (Waits :: l, n).
Definition finish (n : counts) : list act * counts := ([], n).

Fixpoint meaning (i o e : object) (c : cmd (list Z)) (n : counts) : list act * counts :=
  match c with
  | EXEC [] => finish n
  | EXEC ((prg :: _) as argv) =>
      if exec_ok w argv then ([Becomes argv (std i o e)], n)
      else says (bytes "exec " ++ prg ++ bytes " failed" ++ [10]) n
  | REDIR c file mode fd =>
      if open_ok w file mode then
        if fd =? 0 then meaning (Opened file mode) o e c n else meaning i (Opened file mode) e c n
      else says (bytes "open " ++ file ++ bytes " failed" ++ [10]) n
  | LIST l r => spawn (meaning i o e l) (waits (meaning i o e r)) n
  | PIPE l r =>
      let '(f, k) := n in
      if pipe_ok w k then
        spawn (meaning i (WriteEnd k) e l) (spawn (meaning (ReadEnd k) o e r) (waits (waits finish))) (f, S k)
      else says (bytes "pipe" ++ [10]) (f, S k)
  | BACK c => spawn (meaning i o e c) finish n
  end.

Lemma run_fork1 t k n : run t (fork1 k) n = spawn (run t (k 0)) (run t (k 1)) n.
Proof. destruct n as [f i]. cbn. by destruct (fork_ok w f). Qed.
Lemma spawn_ext c c' p p' n : (forall m, c m = c' m) -> (forall m, p m = p' m) -> spawn c p n = spawn c' p' n.
Proof. intros Hc Hp. destruct n as [f i]. cbn. destruct (fork_ok w f); [|done]. rewrite Hc. destruct (c' _) as [l m]. by rewrite Hp. Qed.
Lemma run_wait t k n : run t (Wait k) n = waits (run t k) n.
Proof. done. Qed.

Lemma pipe_std i o e k : pipe (std i o e) k =
  Some (3, 4, [Some i; Some o; Some e; Some (ReadEnd k); Some (WriteEnd k)] ++ replicate 11 None).
Proof. done. Qed.

(** The redirections the parser makes: input from 0, output to 1. *)
Fixpoint good {A} (c : cmd A) : Prop :=
  match c with
  | EXEC _ => True
  | REDIR c _ mode fd => good c /\ redir_ok mode fd
  | PIPE l r | LIST l r => good l /\ good r
  | BACK c => good c
  end.

Lemma run_runcmd c i o e n : good c -> run (std i o e) (runcmd c) n = meaning i o e c n.
Proof.
  revert i o e n. induction c as [ws|c IH f mode fd|l IHl r IHr|l IHl r IHr|c IH]; intros i o e n Hw; cbn [good] in Hw.
  - destruct ws as [|prg ws]; [done|]. cbn. by destruct (exec_ok w _).
  - destruct Hw as (Hw & [[= -> ->]|[= -> ->]]); cbn; destruct (open_ok w _ _); try done; apply IH, Hw.
  - destruct Hw as [Hl Hr]. destruct n as [f k]. cbn [runcmd run meaning]. destruct (pipe_ok w k); [|done]. rewrite pipe_std.
    rewrite run_fork1. apply spawn_ext; intros m; cbn [Z.eqb]; [apply IHl, Hl|].
    rewrite run_fork1. apply spawn_ext; intros m'; cbn [Z.eqb]; [apply IHr, Hr|done].
  - destruct Hw as [Hl Hr]. cbn [runcmd meaning]. rewrite run_fork1. apply spawn_ext; intros m; cbn [Z.eqb]; [by apply IHl|].
    rewrite run_wait. unfold waits. by rewrite IHr.
  - cbn [runcmd meaning]. rewrite run_fork1. apply spawn_ext; intros m; cbn [Z.eqb]; [by apply IH|done].
Qed.

(** ** A session

    The lines as [gets] takes them; a line [cd d] is the shell's own, any other
    a command in a child the shell waits for.  [fuel] bounds the number of
    lines. *)
Definition prompt (m : list act * counts) : list act * counts := let '(l, n) := m in (Says (bytes "$ ") :: l, n).
Definition says_first (out : list Z) (m : list act * counts) : list act * counts :=
  match out with [] => m | _ => (Says out :: m.1, m.2) end.
Definition line_meaning (i o e : object) (buf : list Z) (n : counts) : list act * counts :=
  says_first (parsecmd buf).1
    match (parsecmd buf).2 with
    | Ret c => meaning i o e c n
    | Panicked m => says (bytes m ++ [10]) n
    | _ => ([Unknown], n)
    end.
Definition enter (dir : list Z) (k : counts -> list act * counts) (n : counts) : list act * counts :=
  let '(l, n) := k n in
  (Enters dir :: (if chdir_ok w dir then l else Says (bytes "cannot cd " ++ dir ++ [10]) :: l), n).
Fixpoint session (fuel : nat) (i o e : object) (input : list Z) (n : counts) : list act * counts :=
  match fuel with
  | O => ([Unknown], n)
  | S fuel =>
      let '(buf, input) := gets 100 input in
      let buf := upto_nul buf in
      prompt
        (match buf with
         | [] => finish n
         | _ =>
             if cd_line buf then enter (drop 3 (take (length buf - 1) buf)) (session fuel i o e input) n
             else spawn (line_meaning i o e buf) (waits (session fuel i o e input)) n
         end)
  end.
End Run.

(** ** What the parser makes *)

Definition all_good {A} (Q : A -> Prop) (m : res (A * list Z)) : Prop := match m with Ret (a, _) => Q a | _ => True end.
Lemma all_good_bind {A B} (Q : A -> Prop) (Q' : B -> Prop) m k : all_good Q m -> (forall a s, Q a -> all_good Q' (k (a, s))) ->
  all_good Q' (Sh.bind (B := B * list Z) m k).
Proof. destruct m as [[a s]| | | |]; cbn; auto. Qed.
Definition good_redir (r : redir) : Prop := let '(_, mode, fd) := r in redir_ok mode fd.

Lemma parseredirs_good es fuel s rs : Forall good_redir rs -> all_good (Forall good_redir) (parseredirs es fuel s rs).
Proof.
  revert s rs. induction fuel as [|fuel IH]; intros s rs Hrs; [exact I|]. cbn [parseredirs].
  destruct (peek s _) as [[|] s1]; [|exact Hrs]. destruct (gettoken es s1) as [[tok ?] s2].
  destruct (gettoken es s2) as [[t f] s3]. destruct (negb (t =? 97)); [exact I|].
  assert (Hin : Forall good_redir [(f, O_RDONLY, 0)]) by (by constructor; [left|]).
  assert (Hout : Forall good_redir [(f, Z.lor O_WRONLY O_CREATE, 1)]) by (by constructor; [right|]).
  apply IH. repeat case_match; try apply Forall_app_2; done.
Qed.
Lemma wrap_good n rs : good n -> Forall good_redir rs -> good (wrap n rs).
Proof. intros Hn HF. revert n Hn. induction HF as [|[[f m] fd] rs Hr _ IH]; intros n Hn; [done|]. apply IH. done. Qed.
Lemma parseargs_good es fuel s argv rs : Forall good_redir rs -> all_good good (parseargs es fuel s argv rs).
Proof.
  revert s argv rs. induction fuel as [|fuel IH]; intros s argv rs Hrs; [exact I|]. cbn [parseargs].
  destruct (peek s _) as [[|] s1]; [by apply wrap_good|]. destruct (gettoken es s1) as [[tok a] s2].
  destruct (tok =? 0); [by apply wrap_good|]. destruct (negb _); [exact I|]. destruct (_ >=? _); [exact I|].
  pose proof (parseredirs_good es (S (length s2)) s2 rs Hrs). unfold redirs. destruct (parseredirs _ _ s2 rs) as [[rs' s3]| | | |]; try done. by apply IH.
Qed.
Lemma parseback_good es fuel s c : good c -> all_good good (parseback es fuel s c).
Proof.
  revert s c. induction fuel as [|fuel IH]; intros s c Hc; [exact I|]. cbn [parseback].
  destruct (peek s _) as [[|] s1]; [|exact Hc]. destruct (gettoken es s1) as [[? ?] s2]. by apply IH.
Qed.
Lemma parse_good es fuel :
  (forall s, all_good good (parseline es fuel s)) /\ (forall s, all_good good (parsepipe es fuel s)) /\
  (forall s, all_good good (parseblock es fuel s)) /\ (forall s, all_good good (parseexec es fuel s)).
Proof.
  induction fuel as [|fuel (IHl & IHp & IHb & IHe)]; [done|]. split_and!; intros s.
  - cbn [parseline]. eapply all_good_bind; [apply IHp|]. intros c s1 Hc. eapply all_good_bind; [by apply parseback_good|]. intros b s2 Hb.
    destruct (peek s2 _) as [[|] s3]; [|done]. destruct (gettoken es s3) as [[? ?] s4]. eapply all_good_bind; [apply IHl|]. done.
  - cbn [parsepipe]. eapply all_good_bind; [apply IHe|]. intros c s1 Hc.
    destruct (peek s1 _) as [[|] s3]; [|done]. destruct (gettoken es s3) as [[? ?] s4]. eapply all_good_bind; [apply IHp|]. done.
  - cbn [parseblock]. destruct (peek s _) as [[|] s1]; [|done]. cbn [negb]. destruct (gettoken es s1) as [[? ?] s2].
    eapply all_good_bind; [apply IHl|]. intros c s3 Hc. destruct (peek s3 _) as [[|] s4]; [|done]. cbn [negb].
    destruct (gettoken es s4) as [[? ?] s5]. eapply all_good_bind; [by apply parseredirs_good|]. intros rs s6 Hrs. by apply wrap_good.
  - cbn [parseexec]. destruct (peek s _) as [[|] s1]; [apply IHb|]. eapply all_good_bind; [by apply parseredirs_good|].
    intros rs s2 Hrs. by apply parseargs_good.
Qed.
Lemma resolve_good line n : good n -> good (resolve line n).
Proof. induction n; cbn; tauto. Qed.
Lemma parsecmd_good line out c : parsecmd line = (out, Ret c) -> good c.
Proof.
  unfold parsecmd. pose proof (proj1 (parse_good (zlen line) (S (4 * length line + 3))) line) as H.
  destruct (parseline _ _ line) as [[n s]| | | |]; try done. cbn. destruct (skip_white s); [|done]. intros [= _ <-]. by apply resolve_good.
Qed.

(** ** The shell

    The console is opened until descriptor 3 comes back. *)
Definition console : object := Opened (bytes "console") O_RDWR.
Lemma run_open w t fd t' k f n : open_ok w (bytes "console") O_RDWR = true -> alloc t console = Some (fd, t') -> 0 <= fd ->
  run w t (open_console (S f) k) n = if fd >=? 3 then run w (close t' fd) k n else run w t' (open_console f k) n.
Proof.
  intros Ho Ha Hf. cbn [open_console run]. fold console. rewrite Ho, Ha. replace (fd >=? 0) with true by lia. by destruct (fd >=? 3).
Qed.
Lemma run_console w k (given : list object) n : open_ok w (bytes "console") O_RDWR = true -> (length given <= 3)%nat ->
  run w ((Some <$> given) ++ replicate (16 - length given) None) (open_console 17 k) n =
  run w (std (nth 0 given console) (nth 1 given console) (nth 2 given console)) k n.
Proof.
  intros Ho Hg. destruct given as [|a [|b [|c [|d g]]]]; cbn in Hg; try lia; cbn [length fmap list_fmap app Nat.sub nth].
  all: repeat (erewrite run_open; [|exact Ho|reflexivity|lia]; cbn [Z.geb Z.compare Pos.compare Pos.compare_cont]); reflexivity.
Qed.

Lemma run_panic w t s n : run w t (panic s) n = says (s ++ [10]) n.
Proof. reflexivity. Qed.
Lemma run_line_ok w i o e buf n : run w (std i o e) (run_line buf) n = line_meaning w i o e buf n.
Proof.
  unfold run_line, line_meaning. destruct (parsecmd buf) as [out r] eqn:E. cbn [fst snd].
  assert (run w (std i o e) (match r with Ret c => runcmd c | Panicked m => panic (bytes m) | _ => Unmodelled end) n =
          match r with Ret c => meaning w i o e c n | Panicked m => says (bytes m ++ [10]) n | _ => ([Unknown], n) end) as R.
  { destruct r as [c| | | |]; try reflexivity. by eapply run_runcmd, parsecmd_good. }
  destruct out as [|x out]; [exact R|]. cbn [run says_first]. rewrite R. destruct r as [c| | | |]; try done. by destruct (meaning w i o e c n).
Qed.
Lemma run_commands w i o e fuel input n : run w (std i o e) (command_loop fuel input) n = session w fuel i o e input n.
Proof.
  revert input n. induction fuel as [|fuel IH]; intros input n; [reflexivity|]. cbn [command_loop session run].
  destruct (gets 100 input) as [buf rest]. destruct (upto_nul buf) as [|c buf'] eqn:E; [reflexivity|]. rewrite <- E. clear E.
  unfold prompt. destruct (cd_line _).
  - cbn [run]. unfold enter. destruct (chdir_ok w _); cbn [Z.ltb Z.compare run]; rewrite IH; by destruct (session _ _ _ _ _ rest n).
  - rewrite run_fork1. erewrite spawn_ext; [reflexivity| |]; intros m; cbn [Z.eqb]; [apply run_line_ok|].
    rewrite run_wait. unfold waits. by rewrite IH.
Qed.

(** *** Nothing left open *)

Fixpoint known (a : act) : Prop :=
  match a with
  | Unknown => False
  | Child l => fold_right (fun a P => known a /\ P) True l
  | _ => True
  end.
Definition all_known (m : list act * counts) : Prop := fold_right (fun a P => known a /\ P) True m.1.

Lemma spawn_known w c p n : (forall m, all_known (c m)) -> (forall m, all_known (p m)) -> all_known (spawn w c p n).
Proof.
  intros Hc Hp. destruct n as [f i]. unfold spawn. destruct (fork_ok w f); [|done].
  pose proof (Hc (S f, i)). destruct (c _) as [l m]. pose proof (Hp m). by destruct (p m).
Qed.
Lemma waits_known k n : (forall m, all_known (k m)) -> all_known (waits k n).
Proof. intros Hk. unfold waits. pose proof (Hk n). by destruct (k n). Qed.
Lemma meaning_known w i o e c n : all_known (meaning w i o e c n).
Proof.
  revert i o e n. induction c as [ws|c IH f mode fd|l IHl r IHr|l IHl r IHr|c IH]; intros i o e n; cbn [meaning].
  - destruct ws as [|prg ws]; [done|]. by destruct (exec_ok w _).
  - destruct (open_ok w _ _); [by destruct (fd =? 0)|done].
  - destruct n as [g k]. destruct (pipe_ok w k); [|done]. apply spawn_known; [done|]. intros m. apply spawn_known; [done|]. intros m'.
    repeat (apply waits_known; intros). done.
  - apply spawn_known; [done|]. intros m. by apply waits_known.
  - by apply spawn_known.
Qed.
Lemma gets_cons max c input : gets (S (S max)) (c :: input) =
  if (c =? 10) || (c =? 13) then ([c], input) else ((c :: (gets (S max) input).1), (gets (S max) input).2).
Proof. cbn [gets]. destruct (_ || _); [done|]. by destruct (match max with O => _ | S _ => _ end). Qed.
Lemma gets_length max input : (length (gets max input).2 <= length input)%nat.
Proof.
  revert input. induction max as [|max IH]; intros input; [done|]. destruct max as [|max]; [done|].
  destruct input as [|c input]; [done|]. rewrite gets_cons. destruct (_ || _); [cbn; lia|]. specialize (IH input). cbn [snd length]. lia.
Qed.
Lemma gets_some max input : (gets (S (S max)) input).1 <> [] -> (length (gets (S (S max)) input).2 < length input)%nat.
Proof.
  destruct input as [|c input]; [done|]. intros _. rewrite gets_cons. destruct (_ || _); [cbn; lia|].
  pose proof (gets_length (S max) input). cbn [snd length]. lia.
Qed.
Lemma session_known w fuel i o e input n : (length input < fuel)%nat -> all_known (session w fuel i o e input n).
Proof.
  revert input n. induction fuel as [|fuel IH]; intros input n Hf; [lia|]. cbn [session]. pose proof (gets_some 98 input) as Hg.
  destruct (gets 100 input) as [buf rest] eqn:E. cbn [fst snd] in Hg. destruct (upto_nul buf) as [|c buf'] eqn:Eu; [done|].
  assert (Hs : forall m, all_known (session w fuel i o e rest m)).
  { intros m. apply IH. assert (buf <> []) as ?%Hg by (by intros ->). lia. }
  rewrite <- Eu. unfold prompt. destruct (cd_line _).
  - unfold enter. pose proof (Hs n). destruct (session _ _ _ _ _ rest n). by destruct (chdir_ok w _).
  - assert (H : forall m, all_known (line_meaning w i o e (upto_nul buf) m)).
    { intros m. unfold line_meaning. destruct (parsecmd_stops (upto_nul buf)) as [[x ->]|[[x ->]|(x & _ & ->)]]; [apply meaning_known|done|done]. }
    assert (H' : all_known (spawn w (line_meaning w i o e (upto_nul buf)) (waits (session w fuel i o e rest)) n)).
    { apply spawn_known; [done|]. intros m. by apply waits_known. }
    by destruct (spawn _ _ _ n).
Qed.

(** C22: A whole session of the shell.  Started with at most three descriptors,
    it fills the first three from the console, and then does with each line it
    reads what the line means: the program of a command gets standard input,
    output and error as the redirections and pipes around it say, and no other
    descriptor - neither pipe ends nor the files it replaced - while both ends
    of a pipe go to its two sides; a list waits for its first half, a pipe for
    both, a background command for nothing; a failed [open], [exec], [pipe] or
    [fork] is reported and ends just the process it happened in; a line that
    does not parse does not end the shell (what is left over of it is printed
    before the message); and the session runs until its input
    ends. *)
Theorem shell_session w given input n :
  open_ok w (bytes "console") O_RDWR = true -> (length given <= 3)%nat ->
  run w ((Some <$> given) ++ replicate (16 - length given) None) (main input) n =
    session w (S (length input)) (nth 0 given console) (nth 1 given console) (nth 2 given console) input n /\
  all_known (session w (S (length input)) (nth 0 given console) (nth 1 given console) (nth 2 given console) input n).
Proof.
  intros Ho Hg. split; [|apply session_known; lia]. unfold main. rewrite run_console by done. apply run_commands.
Qed.

(** A session: everything works but the program [nope]. *)
Definition demo_answers : answers :=
  {| exec_ok argv := negb (bool_decide (argv = [bytes "nope"])); open_ok _ _ := true; chdir_ok _ := false; fork_ok _ := true; pipe_ok _ := true |}.
Definition demo_input : list Z := bytes "ls|(wc>f;nope)" ++ [10] ++ bytes "cd x" ++ [10] ++ bytes "(" ++ [10] ++ bytes "ls )" ++ [10].

Lemma shell_session_witness :
  run demo_answers (replicate 16 None) (main demo_input) (0, 0)%nat =
    ([Says (bytes "$ ");
      Child [Child [Becomes [bytes "ls"] (std console (WriteEnd 0) console)];
             Child [Child [Becomes [bytes "wc"] (std (ReadEnd 0) (Opened (bytes "f") 513) console)]; Waits;
                    Says (bytes "exec nope failed" ++ [10])];
             Waits; Waits];
      Waits; Says (bytes "$ "); Enters (bytes "x"); Says (bytes "cannot cd x" ++ [10]);
      Says (bytes "$ "); Child [Says (bytes "syntax - missing )" ++ [10])]; Waits;
      Says (bytes "$ "); Child [Says (bytes "leftovers: )" ++ [10; 10]); Says (bytes "syntax" ++ [10])]; Waits; Says (bytes "$ ")], (6, 1)%nat).
Proof. refine (eq_trans (proj1 (shell_session demo_answers [] demo_input (0, 0)%nat eq_refl _)) _); [cbn; lia|vm_compute; reflexivity]. Defined.
