(* ===== verification/Mysh.v ===== *)
(** The shell of project 2a ([src/2a/mysh.c]): reading a line, output
    redirection, and what the line does.

    Strings are their bytes; [strtok] is given what is left of its string. *)
From S2P Require Import Prelude Bytes Sh.

Module Mysh.

Definition is_in (set : list Z) (c : Z) : bool := existsb (Z.eqb c) set.

(** ** [strtok] *)

Fixpoint skip_set (set s : list Z) : list Z :=
  match s with c :: s' => if is_in set c then skip_set set s' else s | [] => [] end.
(** The token, and what follows the delimiter put to NUL. *)
Fixpoint until_set (set s : list Z) : list Z * list Z :=
  match s with
  | [] => ([], [])
  | c :: s => if is_in set c then ([], s) else let '(t, r) := until_set set s in (c :: t, r)
  end.
Definition strtok (set s : list Z) : option (list Z) * list Z :=
  match skip_set set s with
  | [] => (None, [])
  | s => let '(t, r) := until_set set s in (Some t, r)
  end.
(** The string [s] after its first [strtok]: what was skipped, and the token. *)
Definition after_strtok (set s : list Z) : list Z :=
  take (length s - length (skip_set set s)) s ++ default [] (strtok set s).1.

(** ** [redirectOutput]

    Its result, and the global [outFile]. *)
Definition delims1 : list Z := [62; 10; 9].
Definition delims2 : list Z := [32; 62; 10; 9].
Definition blanks : list Z := [32; 10; 9].

Fixpoint redirect_loop (fuel : nat) (i : Z) (a : option (list Z)) (rest outFile : list Z) : option (Z * list Z) :=
  match fuel with
  | O => None
  | S fuel =>
      match a with
      | None => Some (1, outFile)
      | Some t =>
          if i >? 1 then Some (-1, outFile)
          else
            let outFile := if i =? 1 then t else outFile in
            let '(a, rest) := strtok delims2 rest in
            match a with
            | None => if i =? 0 then Some (-1, outFile) else redirect_loop fuel (i + 1) a rest outFile
            | Some _ => redirect_loop fuel (i + 1) a rest outFile
            end
      end
  end.
Definition redirectOutput (inputLine outFile : list Z) : Z * list Z :=
  if is_in inputLine 62 then
    let '(a, rest) := strtok delims1 inputLine in
    default (0, outFile) (redirect_loop 4 0 a rest [])
  else (0, outFile).

(** ** [prompt]

    The globals a line sets, and its words. *)
Record line := mkLine { tokens : list (list Z); redirect : Z; outFile : list Z }.

Fixpoint fgets (n : nat) (input : list Z) : list Z * list Z :=
  match n, input with
  | S n, c :: input => if c =? 10 then ([c], input) else let '(l, r) := fgets n input in (c :: l, r)
  | _, _ => ([], input)
  end.

Fixpoint token_loop (fuel : nat) (a : option (list Z)) (rest : list Z) : list (list Z) :=
  match fuel, a with
  | S fuel, Some t => let '(a, rest) := strtok blanks rest in t :: token_loop fuel a rest
  | _, _ => []
  end.
Definition split_words (s : list Z) : list (list Z) :=
  let '(a, rest) := strtok blanks s in token_loop (S (length s)) a rest.

(** [redirectOutput] has run over the copy the words come from; with a
    redirection they come from the line up to its [>]. *)
Definition parse_line (s outFile0 : list Z) : line :=
  let '(r, out) := redirectOutput s outFile0 in
  let inputLine :=
    if r =? 1 then default [] (strtok [62] s).1
    else if is_in s 62 then after_strtok delims1 s
    else s in
  mkLine (split_words inputLine) r out.

(** ** [runProcess] *)

Inductive act :=
  | Write (fd : Z) (s : list Z)
  | Chdir (dir : option (list Z))
  | CloseOut
  | OpenOut (file : list Z)
  | Child (l : list act)
  | Wait
  | Exec (argv : list (list Z))
  | Exit (status : Z)
  | Crash (why : string).

Definition message : list Z := bytes "An error has occured" ++ [10].
Definition error : act := Write 2 message.

Fixpoint is_prefix (p s : list Z) : bool :=
  match p, s with
  | [], _ => true
  | a :: p, b :: s => (a =? b) && is_prefix p s
  | _, [] => false
  end.
Fixpoint strstr (s p : list Z) : bool :=
  is_prefix p s || match s with [] => false | _ :: s => strstr s p end.

Section Run.
(** [HOME], the working directory, which programs [execvp] finds, whether the
    line's [fork] works, and the strings the word array seems to go on with:
    nothing puts a null pointer after its last word. *)
Variable home : option (list Z).
Variable cwd : list Z.
Variable exec_ok : list (list Z) -> bool.
Variable fork_ok : bool.
Variable beyond : list (list Z).

(** The child.  A name with [.c] in it makes it print into arrays never set. *)
Definition child (l : line) (arg0 : list Z) : list act :=
  if redirect l =? -1 then [error; Exit 1]
  else
    (if redirect l =? 1 then [CloseOut; OpenOut (outFile l)] else []) ++
    (if strstr arg0 (bytes ".c") then
       [Write 1 (default [] (strtok [46] arg0).1); Crash "sprintf(array[3])"]
     else if bool_decide (arg0 = bytes "pwd") then [Write 1 (cwd ++ [10]); Exit 0]
     else if exec_ok (tokens l ++ beyond) then [Exec (tokens l ++ beyond)]
     else [error; Exit 1]).

(** The acts of a line, and whether the shell goes on. *)
Definition runProcess (l : line) : list act * bool :=
  match tokens l with
  | [] => ([Crash "arguments[0]"], false)
  | arg0 :: args =>
      if bool_decide (arg0 = bytes "exit") then ([Exit 0], false)
      else if bool_decide (arg0 = bytes "cd") then
        (match args with
         | [dir] => [Chdir (Some dir)]
         | [] => [Chdir home]
         | _ => [error]
         end, true)
      else if fork_ok then ([Child (child l arg0); Wait], true)
      else ([], true)
  end.

(** ** [main]

    The loop, in batch mode over the bytes of the batch file. *)
Fixpoint main_loop (fuel : nat) (batchMode : bool) (input out : list Z) : list act :=
  match fuel with
  | O => []
  | S fuel =>
      let pre := if batchMode then [] else [Write 1 (bytes "mysh>")] in
      let '(s, input) := fgets 511 input in
      match s with
      | [] => pre ++ [if batchMode then Exit 0 else Crash "strdup(NULL)"]
      | _ =>
          let s := Sh.upto_nul s in
          let l := parse_line s out in
          let '(acts, more) := runProcess l in
          pre ++ (if batchMode then [Write 1 s] else []) ++ acts ++
          (if more : bool then main_loop fuel batchMode input (outFile l) else [])
      end
  end.
Definition main (batch : option (option (list Z))) (stdin : list Z) : list act :=
  match batch with
  | None => main_loop (S (length stdin)) false stdin []
  | Some None => [error; Exit 1]
  | Some (Some file) => main_loop (S (length file)) true file []
  end.
End Run.
End Mysh.
