(* ===== verification/MyshSpec.v ===== *)
(** Lines of the 2a shell: the words and the file they are read as, and what
    they do. *)
From S2P Require Import Prelude Bytes Sh Mysh.
Import Mysh.

#[local] Arguments is_in : simpl never.

(** [splits set ws s]: [s] is the words [ws], apart by characters of [set], with
    some of these before and after. *)
Definition clean (set w : list Z) : Prop := w <> [] /\ Forall (fun c => is_in set c = false) w.
Definition stops (set s : list Z) : Prop := match s with c :: _ => is_in set c = true | [] => True end.
Inductive splits (set : list Z) : list (list Z) -> list Z -> Prop :=
  | splits_nil b : Forall (fun c => is_in set c = true) b -> splits set [] b
  | splits_cons b w ws s : Forall (fun c => is_in set c = true) b -> clean set w -> stops set s -> splits set ws s ->
      splits set (w :: ws) (b ++ w ++ s).

Lemma skip_set_blank set b s : Forall (fun c => is_in set c = true) b -> skip_set set (b ++ s) = skip_set set s.
Proof. induction 1 as [|c b Hc _ IH]; [done|]. cbn. by rewrite Hc. Qed.
Lemma skip_set_word set w s : clean set w -> skip_set set (w ++ s) = w ++ s.
Proof. intros [Hn Hw]. destruct w as [|c w]; [done|]. apply Forall_cons in Hw as [Hc _]. cbn. by rewrite Hc. Qed.
Lemma until_set_word set w s : Forall (fun c => is_in set c = false) w -> stops set s -> until_set set (w ++ s) = (w, drop 1 s).
Proof.
  intros Hw Hs. induction Hw as [|c w Hc _ IH]; cbn.
  - destruct s as [|c s]; [done|]. cbn in *. by rewrite Hs, drop_0.
  - by rewrite Hc, IH.
Qed.
Lemma strtok_word set b w s : Forall (fun c => is_in set c = true) b -> clean set w -> stops set s ->
  strtok set (b ++ w ++ s) = (Some w, drop 1 s).
Proof.
  intros Hb Hw Hs. unfold strtok. rewrite skip_set_blank, skip_set_word by done. destruct Hw as [Hn Hw].
  destruct w as [|c w]; [done|]. cbn [app]. change (c :: w ++ s) with ((c :: w) ++ s). by rewrite until_set_word.
Qed.
Lemma strtok_none set b : Forall (fun c => is_in set c = true) b -> strtok set b = (None, []).
Proof. intros Hb. unfold strtok. rewrite <- (app_nil_r b), skip_set_blank by done. done. Qed.

Lemma splits_drop set ws s : splits set ws s -> stops set s -> splits set ws (drop 1 s).
Proof.
  intros Hs Hst. destruct Hs as [b Hb|b w ws s Hb Hw Hst' Hs].
  - destruct b as [|c b]; [by constructor|]. apply Forall_cons in Hb as [_ Hb]. cbn. rewrite drop_0. by constructor.
  - destruct b as [|c b].
    + destruct Hw as [Hn Hw]. destruct w as [|x w]; [done|]. apply Forall_cons in Hw as [Hx _]. cbn in Hst. congruence.
    + apply Forall_cons in Hb as [_ Hb]. cbn. rewrite drop_0. by constructor.
Qed.
(** One [strtok] of the string: the next word, and the others still to come. *)
Lemma strtok_splits set ws s : splits set ws s ->
  exists rest, strtok set s = (head ws, rest) /\ splits set (tail ws) rest.
Proof.
  intros [b Hb|b w ws' s' Hb Hw Hst Hs].
  - exists []. split; [by apply strtok_none|]. by constructor.
  - exists (drop 1 s'). split; [by apply strtok_word|]. by apply splits_drop.
Qed.

Lemma token_loop_splits fuel ws s : splits blanks (tail ws) s -> (length ws <= fuel)%nat -> token_loop fuel (head ws) s = ws.
Proof.
  revert ws s. induction fuel as [|fuel IH]; intros [|w ws] s Hs Hf; cbn in Hf; try lia; [done|done|]. cbn [token_loop head tail] in *.
  destruct (strtok_splits _ _ _ Hs) as (rest & -> & Hr). f_equal. apply IH; [done|lia].
Qed.
Lemma splits_length set ws s : splits set ws s -> (length ws <= length s)%nat.
Proof. induction 1 as [|b w ws s _ [Hn _] _ _ IH]; cbn; [lia|]. rewrite !length_app. destruct w; [done|]. cbn. lia. Qed.
Lemma split_words_splits ws s : splits blanks ws s -> split_words s = ws.
Proof.
  intros Hs. unfold split_words. pose proof (splits_length _ _ _ Hs). destruct (strtok_splits _ _ _ Hs) as (rest & -> & Hr).
  apply token_loop_splits; [done|lia].
Qed.

Lemma splits_snoc set ws s c : splits set ws s -> is_in set c = true -> splits set ws (s ++ [c]).
Proof.
  intros Hs Hc. induction Hs as [b Hb|b w ws s Hb Hw Hst Hs IH].
  - constructor. apply Forall_app_2; [done|]. by constructor.
  - rewrite <- !app_assoc. constructor; [done..| |done]. by destruct s.
Qed.

(** A set with fewer characters that still has all the string's separators. *)
Lemma splits_weaken set set' ws s : (forall c, is_in set c = true -> is_in set' c = true) ->
  Forall (fun w => Forall (fun c => is_in set' c = false) w) ws -> splits set ws s -> splits set' ws s.
Proof.
  intros Hi Hw Hs. induction Hs as [b Hb|b w ws s Hb [Hn _] Hst Hs IH].
  - constructor. eapply Forall_impl; [exact Hb|]. auto.
  - apply Forall_cons in Hw as [Hw Hws]. constructor; [eapply Forall_impl; [exact Hb|]; auto|done| |auto].
    destruct s; [done|]. by apply Hi.
Qed.

(** ** Lines with a redirection *)

(** The words of a command: no blanks and no [>]. *)
Definition word_ok (w : list Z) : Prop := clean delims2 w.
Definition no_arrow (s : list Z) : Prop := Forall (fun c => c <> 62) s.

Lemma is_in_cons a set c : is_in (a :: set) c = (c =? a) || is_in set c.
Proof. reflexivity. Qed.
Lemma is_in_nil c : is_in [] c = false.
Proof. reflexivity. Qed.
Ltac sets := unfold delims1, delims2, blanks in *; rewrite ?is_in_cons, ?is_in_nil, ?orb_false_r, ?orb_true_iff, ?orb_false_iff, ?Z.eqb_eq, ?Z.eqb_neq in *.
Lemma is_in_no_arrow s t : no_arrow s -> is_in (s ++ t) 62 = is_in t 62.
Proof. induction 1 as [|c s Hc _ IH]; [done|]. cbn [app]. rewrite is_in_cons, IH. by rewrite (proj2 (Z.eqb_neq 62 c)) by congruence. Qed.

Lemma redirect_loop_words fs r out : splits delims2 fs r ->
  redirect_loop 4 0 (Some out) r [] = Some ((if decide (length fs = 1%nat) then 1 else -1), default [] (head fs)).
Proof.
  intros Hs. cbn [redirect_loop]. destruct (strtok_splits _ _ _ Hs) as (r1 & -> & H1). destruct fs as [|f fs]; [done|]. cbn [head tail] in *.
  destruct (strtok_splits _ _ _ H1) as (r2 & E2 & H2). cbn. rewrite E2. destruct fs as [|f2 fs]; [done|]. cbn [head tail] in *.
  destruct (strtok delims2 r2) as [[a|] r3]; by destruct fs.
Qed.

Lemma splits_chars ws s : splits [32] ws s -> Forall word_ok ws -> Forall (fun c => is_in delims1 c = false) s.
Proof.
  induction 1 as [b Hb|b w ws s Hb _ _ _ IH]; intros Hws.
  - eapply Forall_impl; [exact Hb|]. cbn. intros c. sets. lia.
  - apply Forall_cons in Hws as [[_ Hw] Hws']. apply Forall_app_2; [|apply Forall_app_2; [|by apply IH]].
    + eapply Forall_impl; [exact Hb|]. cbn. intros c. sets. lia.
    + eapply Forall_impl; [exact Hw|]. cbn. intros c. sets. lia.
Qed.

Section Line.
(** The command's part of the line: words apart by spaces; [r] what follows the
    [>], the words [fs]. *)
Variables (ws : list (list Z)) (s : list Z).
Hypothesis Hs : splits [32] ws s.
Hypothesis Hws : Forall word_ok ws.

Lemma words_blank : splits blanks ws s.
Proof.
  eapply splits_weaken, Hs; [intros c; sets; lia|]. eapply Forall_impl; [exact Hws|]. intros w [_ Hw].
  eapply Forall_impl; [exact Hw|]. cbn. intros c. sets. lia.
Qed.
Lemma words_chars : Forall (fun c => is_in delims1 c = false) s.
Proof. by eapply splits_chars. Qed.
Lemma words_no_arrow : no_arrow s.
Proof. eapply Forall_impl; [exact words_chars|]. cbn. intros c. sets. lia. Qed.

Lemma parse_redirected fs r out : ws <> [] -> splits delims2 fs r ->
  parse_line (s ++ 62 :: r) out = mkLine ws (if decide (length fs = 1%nat) then 1 else -1) (default [] (head fs)).
Proof.
  intros Hn Hr. pose proof words_chars as Hc. pose proof words_no_arrow as Ha.
  assert (Hne : s <> []). { destruct Hs as [|b w ? ? _ [Hw _] _ _]; [done|]. destruct b; [by destruct w|done]. }
  assert (E1 : strtok delims1 (s ++ 62 :: r) = (Some s, r)).
  { pose proof (strtok_word delims1 [] s (62 :: r)) as H. cbn in H. rewrite drop_0 in H. by apply H. }
  assert (E2 : strtok [62] (s ++ 62 :: r) = (Some s, r)).
  { pose proof (strtok_word [62] [] s (62 :: r)) as H. cbn in H. rewrite drop_0 in H. apply H; [done| |done]. split; [done|].
    eapply Forall_impl; [exact Ha|]. cbn. intros c. sets. lia. }
  assert (E3 : after_strtok delims1 (s ++ 62 :: r) = s).
  { unfold after_strtok. rewrite E1, skip_set_word by done. cbn. by rewrite Nat.sub_diag. }
  assert (Hin : is_in (s ++ 62 :: r) 62 = true) by (rewrite is_in_no_arrow by done; by rewrite is_in_cons).
  unfold parse_line, redirectOutput. rewrite Hin, E1, (redirect_loop_words fs) by done. cbn [default].
  rewrite E2, E3. destruct (decide (length fs = 1%nat)); cbn -[split_words]; by rewrite (split_words_splits _ _ words_blank).
Qed.
End Line.

Lemma parse_plain ws s out : splits blanks ws s -> no_arrow s -> parse_line s out = mkLine ws 0 out.
Proof.
  intros Hs Ha. assert (Hin : is_in s 62 = false) by (rewrite <- (app_nil_r s), is_in_no_arrow by done; done).
  unfold parse_line, redirectOutput. rewrite Hin. cbn. by rewrite (split_words_splits ws).
Qed.

(** ** What a line does *)

(** A command that is neither the shell's own nor one of its special cases. *)
Definition external (arg0 : list Z) : Prop :=
  arg0 <> bytes "exit" /\ arg0 <> bytes "cd" /\ arg0 <> bytes "pwd" /\ strstr arg0 (bytes ".c") = false.

(** C35: A line of an external command, its words apart by spaces (a tab is not
    one), perhaps with a [>] and what follows it: when [fork] succeeds the shell
    starts one child and waits for it.
    With exactly one word after the [>] the child's output goes to that file,
    with none or several it only reports an error; it then becomes the command
    with the line's words as arguments - and with whatever strings lie past the
    end of the array, which is never terminated - or reports an error. *)
Theorem mysh_line home cwd (exec_ok : list (list Z) -> bool) beyond ws s (target : option (list (list Z) * list Z)) out arg0 args :
  ws = arg0 :: args -> external arg0 -> splits [32] ws s -> Forall word_ok ws ->
  match target with Some (fs, r) => splits delims2 fs r | None => True end ->
  let text := s ++ match target with Some (_, r) => 62 :: r | None => [10] end in
  let runs := if exec_ok (ws ++ beyond) then [Exec (ws ++ beyond)] else [error; Exit 1] in
  runProcess home cwd exec_ok true beyond (parse_line text out) =
    ([Child match target with
            | None => runs
            | Some ([f], _) => CloseOut :: OpenOut f :: runs
            | Some _ => [error; Exit 1]
            end; Wait], true).
Proof.
  intros -> (H1 & H2 & H3 & H4) Hs Hw Ht text runs. unfold text.
  assert (E : forall r o, runProcess home cwd exec_ok true beyond (mkLine (arg0 :: args) r o) =
    ([Child (child cwd exec_ok beyond (mkLine (arg0 :: args) r o) arg0); Wait], true)).
  { intros r o. unfold runProcess. cbn [tokens]. by rewrite !bool_decide_false by done. }
  assert (C : forall r o, r <> -1 -> child cwd exec_ok beyond (mkLine (arg0 :: args) r o) arg0 =
    (if r =? 1 then [CloseOut; OpenOut o] else []) ++ runs).
  { intros r o Hr. unfold child. cbn [redirect tokens outFile]. rewrite (proj2 (Z.eqb_neq _ _) Hr), H4.
    by rewrite bool_decide_false by done. }
  destruct target as [[fs r]|].
  - rewrite (parse_redirected _ _ Hs Hw fs r) by done. rewrite E. do 3 f_equal.
    destruct fs as [|f [|f2 fs]]; [done| |done]. by rewrite C.
  - rewrite (parse_plain (arg0 :: args)), E, C; [done|done| |].
    + apply splits_snoc; [|done]. by apply words_blank.
    + apply Forall_app_2; [exact (words_no_arrow _ _ Hs Hw)|]. by constructor.
Qed.

(** [ls -l > out] with one stray word past the array. *)
Lemma mysh_line_witness :
  runProcess None [] (fun _ => true) true [bytes "x"] (parse_line (bytes "ls  -l " ++ 62 :: bytes " out" ++ [10]) []) =
    ([Child [CloseOut; OpenOut (bytes "out"); Exec [bytes "ls"; bytes "-l"; bytes "x"]]; Wait], true).
Proof.
  assert (Hc : forall c l, bool_decide (c ∈ l) = false -> is_in l c = false).
  { intros c l Hn%bool_decide_eq_false_1. destruct (is_in l c) eqn:E; [|done]. exfalso. apply Hn.
    apply existsb_exists in E as (x & Hx & ->%Z.eqb_eq). by apply list_elem_of_In. }
  apply (mysh_line None [] (fun _ => true) [bytes "x"] [bytes "ls"; bytes "-l"] (bytes "ls  -l ")
    (Some ([bytes "out"], bytes " out" ++ [10])) [] (bytes "ls") [bytes "-l"]).
  - reflexivity.
  - unfold external. split_and!; (discriminate || reflexivity).
  - apply (splits_cons [32] [] (bytes "ls") [bytes "-l"] (bytes "  -l ")); [done| |done|].
    { split; [done|]. repeat constructor. }
    apply (splits_cons [32] [32; 32] (bytes "-l") [] [32]); [by repeat constructor| |done|by repeat constructor].
    split; [done|]. repeat constructor.
  - repeat constructor; discriminate.
  - apply (splits_cons delims2 [32] (bytes "out") [] [10]); [by repeat constructor| |done|by repeat constructor].
    split; [done|]. repeat constructor.
Defined.

(** A tab before the [>] counts as the end of the command: the next word is
    taken for the file. *)
Example tab_ends_command : parse_line (bytes "ls" ++ 9 :: bytes "-l > out" ++ [10]) [] = mkLine [bytes "ls"] (-1) (bytes "-l").
Proof. reflexivity. Qed.

(** An empty line. *)
Example blank_line_crashes home cwd exec_ok beyond : runProcess home cwd exec_ok true beyond (parse_line [10] []) = ([Crash "arguments[0]"], false).
Proof. reflexivity. Qed.
