(* ===== verification/Umalloc.v ===== *)
(** The user-level allocator ([src/5/xv6/umalloc.c], the same in every tree):
    Kernighan and Ritchie's circular list of free blocks, and [growproc] and
    [sbrk] under it.

    The heap is a map from the addresses of 8-byte units to their two words, a
    unit being a [Header] when it starts a block: its [ptr] and its [size] in
    units. *)
From S2P Require Import Prelude.

Module Umalloc.

Record heap := mkHeap { units : gmap Z (Z * Z); freep : Z; brk : Z }.
Definition set_units m h := mkHeap m (freep h) (brk h).
Definition set_freep p h := mkHeap (units h) p (brk h).
Definition set_brk b h := mkHeap (units h) (freep h) b.

Definition unit_at (p : Z) : M heap (Z * Z) := h ← get; deref "header" (units h !! p).
Definition ptr (p : Z) : M heap Z := u ← unit_at p; mret u.1.
Definition hsize (p : Z) : M heap Z := u ← unit_at p; mret u.2.
Definition set_ptr (p v : Z) : M heap unit :=
  u ← unit_at p; modify (fun h => set_units (<[p := (v, u.2)]> (units h)) h).
Definition set_size (p v : Z) : M heap unit :=
  u ← unit_at p; modify (fun h => set_units (<[p := (u.1, v)]> (units h)) h).

Section Umalloc.
(** The address of the static [base], and whether there is memory for a size. *)
Variable base : Z.
Variable room : Z -> bool.

(** ** [growproc] and [sbrk] *)

Fixpoint new_units (n : nat) (a : Z) (m : gmap Z (Z * Z)) : gmap Z (Z * Z) :=
  match n with O => m | S n => <[a := (0, 0)]> (new_units n (a + 8) m) end.
(** [growproc(n)]: the new size; [None] when it fails. *)
Definition growproc (sz n : Z) : option Z :=
  let new := u32 (sz + n) in
  if n >? 0 then if negb (room new) then None else Some (Z.max sz new)
  else if n <? 0 then if Z.min sz new =? 0 then None else Some (Z.min sz new)
  else Some sz.
Definition sbrk (n : Z) : M heap Z :=
  h ← get;
  match growproc (brk h) n with
  | None =>
      (if n <? 0 then modify (set_units ∅) else mret tt);;
      mret (-1)
  | Some sz =>
      let m := if sz <? brk h then filter (fun u => u.1 < sz) (units h)
               else new_units (Z.to_nat ((sz - brk h) / 8)) (brk h) (units h) in
      modify (fun h => set_brk sz (set_units m h));;
      mret (brk h)
  end.

(** ** [free] *)

(** The loop: the block [bp] goes after. *)
Fixpoint place (fuel : nat) (bp p : Z) : M heap Z :=
  match fuel with
  | O => no_fuel
  | S fuel =>
      q ← ptr p;
      if (p <? bp) && (bp <? q) then mret p
      else if (q <=? p) && ((p <? bp) || (bp <? q)) then mret p
      else place fuel bp q
  end.
Definition free (ap : Z) : M heap unit :=
  h ← get;
  let bp := ap - 8 in
  p ← place (S (size (units h))) bp (freep h);
  n ← hsize bp;
  q ← ptr p;
  (if bp + 8 * n =? q then
     nq ← hsize q; set_size bp (u32 (n + nq));; qq ← ptr q; set_ptr bp qq
   else set_ptr bp q);;
  np ← hsize p;
  (if p + 8 * np =? bp then
     n ← hsize bp; set_size p (u32 (np + n));; q ← ptr bp; set_ptr p q
   else set_ptr p bp);;
  modify (set_freep p).

(** ** [malloc] *)

Definition morecore (nu : Z) : M heap Z :=
  let nu := if nu <? 4096 then 4096 else nu in
  p ← sbrk (s32 (u32 (nu * 8)));
  if p =? -1 then mret 0
  else
    set_size p nu;;
    free (p + 8);;
    h ← get;
    mret (freep h).

(** A block of [n] units from the block [p] after [prev]. *)
Definition take_block (prev p n : Z) : M heap Z :=
  sz ← hsize p;
  p ← (if sz =? n then q ← ptr p; set_ptr prev q;; mret p
       else set_size p (sz - n);; set_size (p + 8 * (sz - n)) n;; mret (p + 8 * (sz - n)));
  modify (set_freep prev);;
  mret (p + 8).
Fixpoint malloc_loop (fuel : nat) (n prev p : Z) : M heap Z :=
  match fuel with
  | O => no_fuel
  | S fuel =>
      sz ← hsize p;
      if sz >=? n then take_block prev p n
      else
        h ← get;
        if p =? freep h then
          p ← morecore n;
          if p =? 0 then mret 0 else q ← ptr p; malloc_loop fuel n p q
        else q ← ptr p; malloc_loop fuel n p q
  end.
Definition units_for (nbytes : Z) : Z := u32 (u32 (nbytes + 8 - 1) / 8 + 1).
Definition malloc (nbytes : Z) : M heap Z :=
  let nunits := units_for nbytes in
  h ← get;
  (if freep h =? 0 then
     modify (fun h => set_freep base (set_units (<[base := (base, 0)]> (units h)) h))
   else mret tt);;
  h ← get;
  p ← ptr (freep h);
  malloc_loop (2 * size (units h) + 4) nunits (freep h) p.
End Umalloc.
End Umalloc.
