(* ===== verification/UmallocSpec.v ===== *)
(** The allocator's list and the blocks handed out share out the heap, unit by
    unit, whatever the program calls. *)
From S2P Require Import Prelude Bytes Umalloc.
Import Umalloc.

(** ** Blocks *)

Notation block := (Z * Z)%type.
(** The addresses of a block's units. *)
Definition cells (b : block) : list Z := (fun k => b.1 + 8 * k) <$> seqZ 0 b.2.
Definition all_cells (l : list block) : list Z := mjoin (cells <$> l).

Lemma elem_cells x b : x ∈ cells b <-> exists k, 0 <= k < b.2 /\ x = b.1 + 8 * k.
Proof.
  unfold cells. rewrite list_elem_of_fmap. split.
  - intros (k & -> & Hk%elem_of_seqZ). exists k. lia.
  - intros (k & Hk & ->). exists k. split; [done|]. apply elem_of_seqZ. lia.
Qed.
Lemma cells_app a n m : 0 <= n -> 0 <= m -> cells (a, n + m) = cells (a, n) ++ cells (a + 8 * n, m).
Proof.
  intros Hn Hm. unfold cells. cbn [fst snd]. rewrite seqZ_app, fmap_app by done. f_equal. rewrite Z.add_0_l.
  rewrite <- (Z.add_0_r n) at 1. rewrite <- fmap_add_seqZ, <- list_fmap_compose. apply list_fmap_ext. intros i k _. cbn. lia.
Qed.
Lemma all_cells_app l l' : all_cells (l ++ l') = all_cells l ++ all_cells l'.
Proof. unfold all_cells. by rewrite fmap_app, join_app. Qed.
Lemma all_cells_cons b l : all_cells (b :: l) = cells b ++ all_cells l.
Proof. done. Qed.
Lemma elem_all_cells x l : x ∈ all_cells l <-> exists b, b ∈ l /\ x ∈ cells b.
Proof.
  unfold all_cells. rewrite list_elem_of_join. split.
  - intros (c & Hx & (b & -> & Hb)%list_elem_of_fmap). eauto.
  - intros (b & Hb & Hx). exists (cells b). split; [done|]. apply list_elem_of_fmap. eauto.
Qed.

(** ** The ring

    [links m C fin]: each block's [ptr] is the next block of [C], the last
    one's is [fin]. *)
Definition first (C : list block) (fin : Z) : Z := match C with [] => fin | b :: _ => b.1 end.
Fixpoint links (m : gmap Z (Z * Z)) (C : list block) (fin : Z) : Prop :=
  match C with [] => True | b :: C => m !! b.1 = Some (first C fin, b.2) /\ links m C fin end.
(** Increasing addresses, no two blocks adjacent. *)
Fixpoint apart (C : list block) : Prop :=
  match C with
  | [] => True
  | b :: C => match C with [] => True | c :: _ => b.1 + 8 * b.2 < c.1 end /\ apart C
  end.

Lemma links_app m C D fin : links m (C ++ D) fin <-> links m C (first D fin) /\ links m D fin.
Proof.
  induction C as [|b C IH]; cbn; [tauto|]. rewrite IH. replace (first (C ++ D) fin) with (first C (first D fin)) by by destruct C. tauto.
Qed.
Lemma links_update m C fin a x : a ∉ C.*1 -> links (<[a := x]> m) C fin <-> links m C fin.
Proof.
  induction C as [|b C IH]; cbn; [done|]. rewrite not_elem_of_cons. intros [Hb HC]. rewrite IH by done. by rewrite lookup_insert_ne.
Qed.
Lemma links_lookup m C fin i b : links m C fin -> C !! i = Some b -> m !! b.1 = Some (default fin (fst <$> C !! S i), b.2).
Proof.
  revert i. induction C as [|c C IH]; intros [|i]; cbn; try done.
  - intros [Hc _] [= ->]. rewrite Hc. by destruct C.
  - intros [_ HC]. by apply IH.
Qed.

Lemma apart_app C D : apart (C ++ D) -> apart C /\ apart D.
Proof. induction C as [|b C IH]; cbn; [done|]. intros [Hb HC]. destruct (IH HC). destruct C; cbn in *; tauto. Qed.
Lemma apart_lt C i j b c : Forall (fun b => 0 <= b.2) C -> apart C -> (i < j)%nat -> C !! i = Some b -> C !! j = Some c -> b.1 + 8 * b.2 < c.1.
Proof.
  revert i j b. induction C as [|d C IH]; intros i j b HF HA Hij; [done|]. apply Forall_cons in HF as [Hd HF]. cbn in HA. destruct HA as [H1 HA].
  destruct j as [|j]; [lia|]. cbn [lookup]. destruct i as [|i]; cbn.
  - intros [= ->] Hc. destruct C as [|e C]; [done|]. destruct j as [|j]; [by injection Hc as ->|].
    pose proof (IH 0%nat (S j) e HF HA ltac:(lia) eq_refl Hc). apply Forall_cons in HF as [He _]. lia.
  - intros Hb Hc. apply (IH i j b); [done..|lia|done|done].
Qed.

Lemma links_drop m C fin j : links m C fin -> links m (drop j C) fin.
Proof. intros HL. rewrite <- (take_drop j C) in HL. by apply links_app in HL as [_ ?]. Qed.
Lemma apart_drop C j : apart C -> apart (drop j C).
Proof. intros HA. rewrite <- (take_drop j C) in HA. by apply apart_app in HA as [_ ?]. Qed.
Lemma apart_nodup C : Forall (fun b => 0 <= b.2) C -> apart C -> NoDup (C.*1).
Proof.
  intros HF HA. apply NoDup_alt. intros i j x Hi Hj. rewrite list_lookup_fmap in Hi, Hj.
  destruct (C !! i) as [b|] eqn:Eb; [|done]. destruct (C !! j) as [c|] eqn:Ec; [|done]. cbn in Hi, Hj. injection Hi as <-. injection Hj as Hj.
  destruct (lt_eq_lt_dec i j) as [[L|E]|G]; [|done|].
  - pose proof (apart_lt C i j b c HF HA L Eb Ec). eapply Forall_lookup_1 in HF; [|exact Eb]. lia.
  - pose proof (apart_lt C j i c b HF HA G Ec Eb). eapply Forall_lookup_1 in HF; [|exact Ec]. lia.
Qed.
(** Changing the ring from a block on. *)
Lemma apart_from C1 p s t D D' : apart (C1 ++ (p, s) :: D) -> apart ((p, t) :: D') -> apart (C1 ++ (p, t) :: D').
Proof.
  induction C1 as [|b C1 IH]; intros H1 H2; [done|]. cbn in H1 |- *. destruct H1 as [H1 H1']. split; [|auto]. by destruct C1.
Qed.

Section Umalloc.
Context (base : Z).
Implicit Types (h : heap) (m : gmap Z (Z * Z)) (C A : list block).

(** ** Walking the ring *)

Lemma ptr_ring h C i b : links (units h) C base -> C !! i = Some b -> ptr b.1 h = Ret (default base (fst <$> C !! S i), h).
Proof. intros HL Hi. unfold ptr, unit_at. by rewrite bind_assoc, bind_get, (links_lookup _ _ _ _ _ HL Hi), bind_deref. Qed.
Lemma hsize_at h p u : units h !! p = Some u -> hsize p h = Ret (u.2, h).
Proof. intros Hu. unfold hsize, unit_at. by rewrite bind_assoc, bind_get, Hu, bind_deref. Qed.
Lemma ptr_at h p u : units h !! p = Some u -> ptr p h = Ret (u.1, h).
Proof. intros Hu. unfold ptr, unit_at. by rewrite bind_assoc, bind_get, Hu, bind_deref. Qed.
Lemma set_ptr_at h p u v : units h !! p = Some u -> set_ptr p v h = Ret (tt, set_units (<[p := (v, u.2)]> (units h)) h).
Proof. intros Hu. unfold set_ptr, unit_at. by rewrite bind_assoc, bind_get, Hu, bind_deref. Qed.
Lemma set_size_at h p u v : units h !! p = Some u -> set_size p v h = Ret (tt, set_units (<[p := (u.1, v)]> (units h)) h).
Proof. intros Hu. unfold set_size, unit_at. by rewrite bind_assoc, bind_get, Hu, bind_deref. Qed.

(** The place of a block not in the ring. *)
Definition place_of C (bp : Z) (k : nat) : Prop :=
  (exists b, C !! k = Some b /\ b.1 < bp) /\ forall j c, (k < j)%nat -> C !! j = Some c -> bp < c.1.

Lemma place_exists C bp b0 : Forall (fun b => 0 <= b.2) C -> apart C -> bp ∉ C.*1 -> C !! 0%nat = Some b0 -> b0.1 < bp -> exists k, place_of C bp k.
Proof.
  revert b0. induction C as [|b C IH]; intros b0 HF HA Hn; [done|]. cbn. intros [= <-] Hb. destruct C as [|c C].
  { exists 0%nat. split; [by exists b|]. intros [|j] c Hj Hc; [lia|done]. }
  destruct (Z_lt_ge_dec c.1 bp) as [L|G].
  - apply Forall_cons in HF as [_ HF]. destruct (IH c HF) as (k & (b' & Hk & Hlt) & Hgt); [apply HA|cbn in *; set_solver|done|done|].
    exists (S k). split; [by exists b'|]. intros [|j] d Hj Hd; [lia|]. apply (Hgt j); [lia|done].
  - assert (Hne : c.1 <> bp) by (intros E; apply Hn; cbn; rewrite <- E; set_solver). exists 0%nat. split; [by exists b|]. intros j d Hj Hd.
    destruct (decide (j = 1%nat)) as [->|]; [injection Hd as <-; lia|].
    apply Forall_cons in HF as [_ HF]. destruct j as [|[|j]]; [lia..|]. pose proof (apart_lt (c :: C) 0 (S j) c d HF (proj2 HA) ltac:(lia) eq_refl Hd).
    apply Forall_cons in HF as [Hc _]. lia.
Qed.

(** How many steps the loop takes from position [i] to [k]. *)
Definition steps (len i k : nat) : nat := if (i <=? k)%nat then k - i else len - i + k.

Lemma place_loop fuel h C bp k i b : links (units h) C base -> Forall (fun b => 0 <= b.2) C -> apart C -> (exists s, C !! 0%nat = Some (base, s)) ->
  place_of C bp k -> base < bp ->
  forall (H : C !! i = Some b) (Hsteps : (steps (length C) i k < fuel)%nat),
  exists c, C !! k = Some c /\ place fuel bp b.1 h = Ret (c.1, h).
Proof.
  intros HL HF HA [s0 H0] [(c & Hc & Hlt) Hgt] Hb. exists c. split; [done|]. revert i b H Hsteps.
  induction fuel as [|fuel IH]; intros i b Hi Hf; [lia|]. cbn [place]. mstep (ptr_ring h C i b HL Hi).
  pose proof (lookup_lt_Some _ _ _ Hi) as Hil. pose proof (lookup_lt_Some _ _ _ Hc) as Hkl.
  assert (Hbase : base <= b.1).
  { destruct i as [|i]; [rewrite H0 in Hi; by injection Hi as <-|]. pose proof (apart_lt C 0 (S i) _ _ HF HA ltac:(lia) H0 Hi). cbn in *.
    eapply Forall_lookup_1 in HF; [|exact H0]. cbn in HF. lia. }
  assert (Hord : forall j d, (i < j)%nat -> C !! j = Some d -> b.1 < d.1).
  { intros j d Hj Hd. pose proof (apart_lt C i j b d HF HA Hj Hi Hd). eapply Forall_lookup_1 in HF; [|exact Hi]. lia. }
  destruct (C !! S i) as [d|] eqn:Hd; cbn [default fmap option_fmap option_map from_option id].
  - pose proof (Hord (S i) d ltac:(lia) Hd) as Hbd. destruct (lt_eq_lt_dec i k) as [[L|E]|G].
    + assert (Hdk : d.1 < bp).
      { destruct (decide (S i = k)) as [<-|Hne]; [by assert (c = d) as -> by congruence|].
        pose proof (apart_lt C (S i) k d c HF HA ltac:(lia) Hd Hc). eapply Forall_lookup_1 in HF; [|exact Hd]. lia. }
      rewrite (proj2 (Z.ltb_ge bp d.1)), andb_false_r by lia. rewrite (proj2 (Z.leb_gt d.1 b.1)) by lia. cbn [andb].
      apply (IH (S i)); [done|]. unfold steps in *. destruct (Nat.leb_spec i k), (Nat.leb_spec (S i) k); lia.
    + subst i. assert (b = c) as -> by congruence. pose proof (Hgt (S k) d ltac:(lia) Hd).
      by rewrite (proj2 (Z.ltb_lt c.1 bp)), (proj2 (Z.ltb_lt bp d.1)) by lia.
    + pose proof (Hgt i b ltac:(lia) Hi). rewrite (proj2 (Z.ltb_ge b.1 bp)), (proj2 (Z.leb_gt d.1 b.1)) by lia. cbn [andb].
      apply (IH (S i)); [done|]. unfold steps in *. destruct (Nat.leb_spec i k), (Nat.leb_spec (S i) k); lia.
  - assert (Hlen : length C = S i) by (apply lookup_ge_None in Hd; lia). rewrite (proj2 (Z.ltb_ge bp base)), andb_false_r by lia.
    rewrite (proj2 (Z.leb_le base b.1)) by lia. cbn [andb orb]. rewrite orb_false_r. destruct (decide (i = k)) as [->|Hne].
    + assert (b = c) as -> by congruence. by rewrite (proj2 (Z.ltb_lt c.1 bp)) by lia.
    + pose proof (Hgt i b ltac:(lia) Hi). rewrite (proj2 (Z.ltb_ge b.1 bp)) by lia.
      change base with (base, s0).1. apply (IH 0%nat); [done|]. unfold steps in *. destruct (Nat.leb_spec i k), (Nat.leb_spec 0 k); lia.
Qed.

(** ** Putting a block in the ring *)

(** A list of blocks that may be a ring's: from [base], with blocks of at least
    one unit after it, and sizes the machine can add. *)
Record ring_ok C : Prop := {
  rk_base : exists B, C = (base, 0) :: B /\ Forall (fun b => 1 <= b.2) B;
  rk_apart : apart C
}.
Lemma ring_sizes C : ring_ok C -> Forall (fun b => 0 <= b.2) C.
Proof. intros [(B & -> & HB) _]. constructor; [done|]. eapply Forall_impl; [exact HB|]. cbn. lia. Qed.
Lemma ring_head C : ring_ok C -> exists s, C !! 0%nat = Some (base, s).
Proof. intros [(B & -> & _) _]. by exists 0. Qed.

(** The block on the right joined, or linked to. *)
Lemma merge_right K h C2 bp n v : n < K <= 2 ^ 32 -> units h !! bp = Some (v, n) -> links (units h) C2 base -> base < bp -> 0 <= n -> apart C2 ->
  match C2 with c :: _ => bp + 8 * n <= c.1 | [] => True end -> Forall (fun b => 1 <= b.2 /\ n + b.2 < K) C2 ->
  exists j n', ((if bp + 8 * n =? first C2 base then
       nq ← hsize (first C2 base); set_size bp (u32 (n + nq));; qq ← ptr (first C2 base); set_ptr bp qq
     else set_ptr bp (first C2 base)) : M heap unit) h = Ret (tt, set_units (<[bp := (first (drop j C2) base, n')]> (units h)) h) /\
    cells (bp, n') ++ all_cells (drop j C2) = cells (bp, n) ++ all_cells C2 /\ n <= n' < K /\
    match drop j C2 with c :: _ => bp + 8 * n' < c.1 | [] => True end.
Proof.
  intros HK Hbp HL Hb Hn HA Hc HF. destruct (Z.eqb_spec (bp + 8 * n) (first C2 base)) as [E|N].
  - destruct C2 as [|[q nq] C3]; cbn [first] in *; [lia|]. cbn [fst] in *. subst q. apply Forall_cons in HF as [[Hq1 Hq2] HF]. cbn [snd] in *.
    destruct HL as [Hq HL]. cbn [fst snd] in Hq. exists 1%nat, (n + nq). cbn [drop]. rewrite drop_0.
    mstep (hsize_at h _ _ Hq). cbn [snd]. mstep (set_size_at h bp _ (u32 (n + nq)) Hbp). cbn [fst].
    rewrite (u32_small (n + nq)) by (unfold in_u32; lia).
    assert (Hq' : units (set_units (<[bp := (v, n + nq)]> (units h)) h) !! (bp + 8 * n) = Some (first C3 base, nq)).
    { cbn. rewrite lookup_insert_ne; [done|]. intros E. rewrite <- E in Hq. rewrite Hbp in Hq. injection Hq as _ <-. lia. }
    mstep (ptr_at _ _ _ Hq'). cbn [fst]. split; [|split; [|split; [lia|]]].
    + erewrite set_ptr_at by (cbn; apply lookup_insert_eq). cbn. by rewrite insert_insert_eq.
    + rewrite all_cells_cons, app_assoc. by rewrite <- cells_app by lia.
    + destruct C3 as [|c C3]; [done|]. cbn in HA. destruct HA as [HA _]. lia.
  - exists 0%nat, n. rewrite drop_0. split; [exact (set_ptr_at h bp _ _ Hbp)|]. split; [done|]. split; [lia|].
    destruct C2 as [|c C3]; [done|]. cbn [first] in N. lia.
Qed.

Lemma merge_left h p bp ps n q f : units h !! p = Some (q, ps) -> units h !! bp = Some (f, n) -> p <> bp -> in_u32 (ps + n) ->
  ((if p + 8 * ps =? bp then n ← hsize bp; set_size p (u32 (ps + n));; q ← ptr bp; set_ptr p q else set_ptr p bp) : M heap unit) h =
  Ret (tt, set_units (<[p := if p + 8 * ps =? bp then (f, ps + n) else (bp, ps)]> (units h)) h).
Proof.
  intros Hp Hb Hne Hs. destruct (p + 8 * ps =? bp); [|exact (set_ptr_at h p _ bp Hp)].
  mstep (hsize_at h bp _ Hb). cbn [snd]. mstep (set_size_at h p _ (u32 (ps + n)) Hp). rewrite u32_small by done. cbn [fst].
  erewrite (bind_Ret (ptr bp)) by (apply ptr_at; cbn; by rewrite lookup_insert_ne). cbn [fst].
  erewrite set_ptr_at by (cbn; apply lookup_insert_eq). cbn. by rewrite insert_insert_eq.
Qed.

(** [free]: the ring with the block put in its place, joined to the free blocks
    next to it. *)
Lemma free_ring h C C1 C2 bp n v p ps : ring_ok C -> links (units h) C base -> C = C1 ++ (p, ps) :: C2 -> p < bp -> 
  match C2 with c :: _ => bp + 8 * n <= c.1 | [] => True end -> p + 8 * ps <= bp -> units h !! bp = Some (v, n) -> 1 <= n ->
  Forall (fun b => n + b.2 + ps < 2 ^ 31) C -> bp ∉ C.*1 -> freep h ∈ C.*1 -> (length C <= size (units h))%nat ->
  exists C' h', free (bp + 8) h = Ret (tt, h') /\ ring_ok C' /\ links (units h') C' base /\ freep h' ∈ C'.*1 /\ brk h' = brk h /\
    all_cells C' ≡ₚ cells (bp, n) ++ all_cells C /\ (forall x, x <> p -> x <> bp -> units h' !! x = units h !! x) /\
    (exists c, c ∈ C' /\ n <= c.2) /\ (length C' <= S (length C))%nat /\ (forall x, is_Some (units h !! x) -> is_Some (units h' !! x)).
Proof.
  intros HR HL EC Hpb Hright Hleft Hbp Hn Hsz Hni Hfp Hsize. pose proof (ring_sizes C HR) as HF. pose proof (ring_head C HR) as H0.
  assert (Hk : place_of C bp (length C1)).
  { split; [exists (p, ps); split; [by rewrite EC, list_lookup_middle|done]|]. intros j c Hj Hc. rewrite EC in Hc.
    rewrite lookup_app_r in Hc by lia. replace (j - length C1)%nat with (S (j - length C1 - 1)) in Hc by lia. cbn in Hc.
    destruct C2 as [|d C2]; [done|]. destruct (j - length C1 - 1)%nat as [|j'] eqn:Ej; [injection Hc as <-; lia|].
    assert (Hd : C !! S (length C1) = Some d) by (rewrite EC, lookup_app_r by lia; by replace (S (length C1) - length C1)%nat with 1%nat by lia).
    assert (Hc' : C !! j = Some c). { rewrite EC, lookup_app_r by lia. by replace (j - length C1)%nat with (S (S j')) by lia. }
    pose proof (apart_lt C (S (length C1)) j d c HF (rk_apart _ HR) ltac:(lia) Hd Hc'). eapply Forall_lookup_1 in HF; [|exact Hd]. lia. }
  assert (Hbase : base < bp).
  { destruct H0 as [s0 H0]. destruct C1 as [|b1 C1]; [rewrite EC in H0; injection H0 as -> _; lia|].
    assert (Hp : C !! length (b1 :: C1) = Some (p, ps)) by by rewrite EC, list_lookup_middle.
    pose proof (apart_lt C 0 (length (b1 :: C1)) _ _ HF (rk_apart _ HR) ltac:(cbn; lia) H0 Hp) as Hlt. cbn [fst snd] in Hlt.
    eapply Forall_lookup_1 in HF; [|exact H0]. cbn in HF. lia. }
  apply list_elem_of_lookup in Hfp as (i & Hi). rewrite list_lookup_fmap in Hi. destruct (C !! i) as [fb|] eqn:Ei; [|done]. injection Hi as Hfp.
  destruct (place_loop (S (size (units h))) h C bp (length C1) i fb HL HF (rk_apart _ HR) H0 Hk Hbase Ei) as (c & Hc & Epl).
  { pose proof (lookup_lt_Some _ _ _ Ei). unfold steps. assert (length C1 < length C)%nat by (rewrite EC, length_app; cbn; lia). destruct (_ <=? _)%nat eqn:?; [lia|].
    apply Nat.leb_gt in Heqb. lia. }
  rewrite EC, list_lookup_middle in Hc by done. injection Hc as <-. cbn [fst] in Epl.
  unfold free. mnext. replace (bp + 8 - 8) with bp by lia. rewrite Hfp in Epl. mstep Epl. mstep (hsize_at h bp _ Hbp). cbn [snd].
  pose proof HL as HL'. rewrite EC in HL'. apply links_app in HL' as [HL1 [Hp HL2]]. cbn [fst snd first] in HL1, Hp.
  mstep (ptr_at h p _ Hp). cbn [fst].
  assert (HA2 : apart ((p, ps) :: C2)) by (apply (apart_app C1); rewrite <- EC; apply HR).
  destruct HR as [(B & EB & HB) HA]. rewrite EC in Hsz. apply Forall_app in Hsz as [_ Hsz]. apply Forall_cons in Hsz as [Hszp Hsz]. cbn [snd] in Hszp.
  assert (HB2 : Forall (fun b => 1 <= b.2) C2).
  { destruct C1 as [|b1 C1]; rewrite EB in EC; injection EC as E1 E2; [by subst B|]. subst B. apply Forall_app in HB as [_ HB]. by apply Forall_cons in HB as [_ HB]. }
  assert (Hps : 0 <= ps). { rewrite EC in HF. apply Forall_app in HF as [_ HF]. by apply Forall_cons in HF as [? _]. }
  destruct (merge_right (2 ^ 31 - ps) h C2 bp n v ltac:(lia) Hbp HL2 Hbase ltac:(lia) (proj2 HA2) Hright) as (j & n' & Em & Ecells & Hn' & Hlt).
  { apply Forall_forall. intros b Hb. rewrite Forall_forall in HB2, Hsz. specialize (HB2 b Hb). specialize (Hsz b Hb). lia. }
  mstep Em. set (h1 := set_units _ h). set (D := drop j C2) in *.
  assert (Hnp : NoDup (C.*1)) by (apply apart_nodup; [exact HF|exact HA]).
  rewrite EC, fmap_app, fmap_cons in Hnp. apply NoDup_app in Hnp as (_ & Hnp1 & Hnp2). apply NoDup_cons in Hnp2 as [Hnp2 _]. cbn [fst] in Hnp1, Hnp2.
  assert (Hp1 : p ∉ C1.*1) by (intros Hin; apply (Hnp1 _ Hin); left).
  assert (Hsub : D.*1 ⊆ C2.*1) by (unfold D; rewrite fmap_drop; apply subseteq_drop).
  assert (HpD : p ∉ D.*1) by (intros Hin; apply Hnp2, Hsub, Hin).
  rewrite EC, fmap_app, fmap_cons in Hni. apply not_elem_of_app in Hni as [Hb1 Hni]. apply not_elem_of_cons in Hni as [Hbp' Hb2]. cbn [fst] in Hbp'.
  assert (HbD : bp ∉ D.*1) by (intros Hin; apply Hb2, Hsub, Hin).
  assert (HLD : links (units h) D base) by by apply links_drop.
  assert (HAD : apart D) by apply apart_drop, (proj2 HA2).
  assert (Hp' : units h1 !! p = Some (first C2 base, ps)) by (cbn; by rewrite lookup_insert_ne).
  assert (Hb' : units h1 !! bp = Some (first D base, n')) by (cbn; by rewrite lookup_insert_eq).
  mstep (hsize_at h1 p _ Hp'). cbn [snd].
  assert (HBD : Forall (fun b => 1 <= b.2) D) by by apply Forall_drop.
  assert (Hu : in_u32 (ps + n')) by (unfold in_u32; lia).
  mstep (merge_left h1 p bp ps n' _ _ Hp' Hb' ltac:(congruence) Hu).
  set (C' := C1 ++ (if p + 8 * ps =? bp then (p, ps + n') :: D else (p, ps) :: (bp, n') :: D)).
  assert (Ecell : all_cells C' ≡ₚ cells (bp, n) ++ all_cells C).
  { rewrite EC. unfold C'. rewrite !all_cells_app, all_cells_cons.
    transitivity (all_cells C1 ++ cells (p, ps) ++ cells (bp, n') ++ all_cells D); [|rewrite Ecells; solve_Permutation].
    destruct (Z.eqb_spec (p + 8 * ps) bp) as [<-|_]; rewrite !all_cells_cons; [|done]. by rewrite (cells_app p ps n'), <- app_assoc by lia. }
  exists C'. eexists. split; [reflexivity|]. cbn [units freep brk set_units set_freep h1]. split_and!; [split| | |done|exact Ecell| | | |].
  - destruct C1 as [|b1 C1].
    + rewrite EB in EC. injection EC as Ep Eps _. unfold C'. rewrite <- Eps, <- Ep. rewrite (proj2 (Z.eqb_neq (base + 8 * 0) bp)) by lia.
      eexists. split; [reflexivity|]. constructor; [cbn; lia|done].
    + rewrite EB in EC. injection EC as <- EC. eexists. split; [reflexivity|]. rewrite EC in HB. apply Forall_app in HB as [HB1 HB3].
      apply Forall_cons in HB3 as [HB3 _]. cbn [snd] in HB3. apply Forall_app_2; [done|]. destruct (_ =? bp); repeat (constructor; [cbn; lia|]); done.
  - assert (HAC : apart (C1 ++ (p, ps) :: C2)) by (rewrite <- EC; exact HA).
    unfold C'. destruct (Z.eqb_spec (p + 8 * ps) bp) as [Ej|Nj].
    + eapply apart_from; [exact HAC|]. split; [|exact HAD]. destruct D as [|c D']; [done|]. cbn in *. lia.
    + eapply apart_from; [exact HAC|]. split; [cbn; lia|]. split; [|exact HAD]. exact Hlt.
  - unfold C'. apply links_app. split.
    + rewrite links_update, links_update by done. destruct (_ =? bp); exact HL1.
    + destruct (Z.eqb_spec (p + 8 * ps) bp) as [Ej|Nj].
      * split; [cbn; by rewrite lookup_insert_eq|]. by rewrite !links_update by done.
      * split; [cbn; by rewrite lookup_insert_eq|]. split; [cbn; by rewrite lookup_insert_ne, lookup_insert_eq|]. by rewrite !links_update by done.
  - unfold C'. rewrite fmap_app. apply elem_of_app. right. destruct (_ =? bp); left.
  - intros x Hx1 Hx2. by rewrite !lookup_insert_ne by done.
  - unfold C'. destruct (_ =? bp); [exists (p, ps + n')|exists (bp, n')]; (split; [set_solver|cbn; lia]).
  - unfold C', D. rewrite EC, !length_app. destruct (_ =? bp); cbn [length]; rewrite length_drop; lia.
  - intros x Hx. by do 2 (apply lookup_insert_is_Some'; right).
Qed.

(** ** The heap *)

(** Where the heap starts; [sbrk] never passes the user limit. *)
Context (lo : Z) (Hbase : 0 < base) (Hlo : base + 8 <= lo).

(** The ring [C] and the blocks [A] held share the units from [lo] to the
    break; a held block's header keeps its size. *)
Record heap_ok h C A : Prop := {
  hk_ring : ring_ok C;
  hk_links : links (units h) C base;
  hk_freep : freep h ∈ C.*1;
  hk_brk : exists N, 0 <= N /\ brk h = lo + 8 * N /\ brk h < 2 ^ 31 /\ all_cells (C ++ A) ≡ₚ cells (lo, N) /\
    forall x, x ∈ cells (lo, N) -> is_Some (units h !! x);
  hk_held : Forall (fun b => 1 <= b.2 /\ exists v, units h !! b.1 = Some (v, b.2)) A
}.

Lemma cells_nodup a n : NoDup (cells (a, n)).
Proof. unfold cells. apply NoDup_fmap_2; [|apply NoDup_seqZ]. intros i j. cbn. lia. Qed.
Lemma heap_nodup h C A : heap_ok h C A -> NoDup (all_cells (C ++ A)).
Proof. intros [_ _ _ (N & _ & _ & _ & P & _) _]. rewrite P. apply cells_nodup. Qed.
Lemma cell_head (b : block) : 1 <= b.2 -> b.1 ∈ cells b.
Proof. intros Hb. apply elem_cells. exists 0. lia. Qed.

(** Of two blocks that share no unit, the lower one ends before the other. *)
Lemma heap_below h C A b c : heap_ok h C A -> b ∈ C ++ A -> c ∈ C ++ A -> b.1 < c.1 -> 1 <= c.2 ->
  (forall x, x ∈ cells b -> x ∈ cells c -> False) -> b.1 + 8 * b.2 <= c.1.
Proof.
  intros [_ _ _ (N & _ & _ & _ & P & _) _] Hb Hc Hlt Hc1 Hd. destruct (Z_lt_ge_dec c.1 (b.1 + 8 * b.2)) as [L|G]; [|lia]. exfalso.
  assert (Hin : forall d x, d ∈ C ++ A -> x ∈ cells d -> x ∈ cells (lo, N)) by (intros d x Hd' Hx; rewrite <- P; apply elem_all_cells; eauto).
  destruct (proj1 (elem_cells _ _) (Hin _ _ Hc (cell_head c Hc1))) as (j & Hj & Ej). cbn in Ej.
  destruct (proj1 (elem_cells _ _) (Hin _ _ Hb (cell_head b ltac:(lia)))) as (i & Hi & Ei). cbn in Ei.
  apply (Hd c.1); [|by apply cell_head]. apply elem_cells. exists (j - i). lia.
Qed.

(** The addresses of the ring are the base and units of free blocks. *)
Lemma ring_addr C b : ring_ok C -> b ∈ C -> b = (base, 0) \/ (b.1 ∈ all_cells C /\ 1 <= b.2).
Proof.
  intros [(B & -> & HB) _] [->|Hb]%elem_of_cons; [by left|]. right. rewrite Forall_forall in HB. specialize (HB b Hb). split; [|done].
  apply elem_all_cells. exists b. split; [set_solver|by apply cell_head].
Qed.
Lemma base_out h C A x : heap_ok h C A -> x ∈ all_cells (C ++ A) -> base < x.
Proof. intros [_ _ _ (N & _ & _ & _ & P & _) _] Hx. rewrite P in Hx. apply elem_cells in Hx as (k & Hk & ->). cbn. lia. Qed.
Lemma held_apart h C A x : heap_ok h C A -> x ∈ C.*1 -> x ∈ all_cells A -> False.
Proof.
  intros HO (b & -> & Hb)%list_elem_of_fmap Hx. destruct (ring_addr C b (hk_ring _ _ _ HO) Hb) as [->|[Hc _]].
  - assert (base < base); [|lia]. apply (base_out h C A); [done|]. rewrite all_cells_app. set_solver.
  - pose proof (heap_nodup _ _ _ HO) as N. rewrite all_cells_app in N. apply NoDup_app in N as (_ & N & _). by eapply N.
Qed.
Lemma ring_small h C A b : heap_ok h C A -> b ∈ C ++ A -> 0 <= b.2 -> b.2 < 2 ^ 28.
Proof.
  intros [_ _ _ (N & HN & Hb & Hs & P & _) _] Hin H0. assert (Hl : (length (cells b) <= length (all_cells (C ++ A)))%nat).
  { apply list_elem_of_split in Hin as (l1 & l2 & ->). rewrite all_cells_app, all_cells_cons, !length_app. lia. }
  rewrite P in Hl. unfold cells in Hl. rewrite !length_fmap, !length_seqZ in Hl. cbn in Hl. lia.
Qed.
Lemma ring_count h C A : heap_ok h C A -> (length C <= size (units h))%nat.
Proof.
  intros HO. pose proof (hk_ring _ _ _ HO) as HR. pose proof (apart_nodup C (ring_sizes C HR) (rk_apart C HR)) as N.
  rewrite <- size_dom. rewrite <- (length_fmap fst C), <- (size_list_to_set (C := gset Z)) by done. apply subseteq_size.
  intros x Hx%elem_of_list_to_set. apply list_elem_of_fmap in Hx as (b & -> & Hb). apply list_elem_of_lookup in Hb as (i & Hi).
  apply elem_of_dom. rewrite (links_lookup _ _ _ _ _ (hk_links _ _ _ HO) Hi). eauto.
Qed.

(** [free] of a held block. *)
Lemma free_ok h C A1 A2 bp n : heap_ok h C (A1 ++ (bp, n) :: A2) ->
  exists C' h', free (bp + 8) h = Ret (tt, h') /\ heap_ok h' C' (A1 ++ A2) /\
    (forall x, x ∈ all_cells (A1 ++ A2) -> units h' !! x = units h !! x) /\ brk h' = brk h /\
    (exists c, c ∈ C' /\ n <= c.2) /\ (length C' <= S (length C))%nat.
Proof.
  intros HO. pose proof HO as [HR HL Hfp (N & HN & Hbrk & Hs & P & Hu) HA]. pose proof (heap_nodup _ _ _ HO) as Nd.
  assert (Hn : 1 <= n /\ exists v, units h !! bp = Some (v, n)) by (rewrite Forall_forall in HA; apply (HA (bp, n)); set_solver). destruct Hn as [Hn [v Hbp]].
  assert (Hinb : (bp, n) ∈ C ++ A1 ++ (bp, n) :: A2) by set_solver.
  assert (Hni : bp ∉ C.*1).
  { intros Hin. eapply held_apart; [exact HO|exact Hin|]. apply elem_all_cells. exists (bp, n). split; [set_solver|exact (cell_head (bp, n) Hn)]. }
  assert (Hbb : base < bp).
  { apply (base_out h C _ bp HO). apply elem_all_cells. exists (bp, n). split; [done|exact (cell_head (bp, n) Hn)]. }
  destruct (ring_head C HR) as [s0 H0]. destruct (place_exists C bp _ (ring_sizes C HR) (rk_apart C HR) Hni H0 Hbb) as (k & ([p ps] & Hk & Hlt) & Hgt).
  cbn [fst] in Hlt. pose proof (take_drop_middle C k _ Hk) as EC.
  assert (Hdisj : forall c x, c ∈ C -> x ∈ cells c -> x ∈ cells (bp, n) -> False).
  { intros c x Hc Hx Hx'. rewrite all_cells_app in Nd. apply NoDup_app in Nd as (_ & Nd & _). apply (Nd x); apply elem_all_cells; [by exists c|].
    exists (bp, n). split; [set_solver|done]. }
  assert (HinC : forall c, c ∈ C -> c ∈ C ++ A1 ++ (bp, n) :: A2) by set_solver.
  assert (Hright : match drop (S k) C with c :: _ => bp + 8 * n <= c.1 | [] => True end).
  { destruct (drop (S k) C) as [|c D] eqn:ED; [done|]. assert (Hc : C !! S k = Some c) by (rewrite <- (Nat.add_0_r (S k)), <- lookup_drop, ED; done).
    pose proof (Hgt (S k) c ltac:(lia) Hc) as Hbc. assert (HcC : c ∈ C) by (by eapply list_elem_of_lookup_2).
    destruct (ring_addr C c HR HcC) as [->|[_ Hc1]]; [cbn in Hbc; lia|]. apply (heap_below h C _ (bp, n) c HO Hinb (HinC c HcC) Hbc Hc1).
    intros x Hx Hx'. by apply (Hdisj c x). }
  assert (HpC : (p, ps) ∈ C) by (by eapply list_elem_of_lookup_2).
  assert (Hleft : p + 8 * ps <= bp).
  { destruct (ring_addr C _ HR HpC) as [[= -> ->]|[_ Hc1]]; [lia|]. apply (heap_below h C _ (p, ps) (bp, n) HO (HinC _ HpC) Hinb Hlt Hn).
    intros x Hx Hx'. by apply (Hdisj (p, ps) x). }
  assert (Hsm : forall c, c ∈ C ++ A1 ++ (bp, n) :: A2 -> 0 <= c.2 -> c.2 < 2 ^ 28) by (intros c; by apply (ring_small h C)).
  pose proof (ring_sizes C HR) as Hsz. rewrite Forall_forall in Hsz.
  destruct (free_ring h C (take k C) (drop (S k) C) bp n v p ps HR HL (eq_sym EC) Hlt Hright Hleft Hbp Hn) as
    (C' & h' & Ef & HR' & HL' & Hfp' & Hbrk' & P' & Hkeep & Hbig & Hlen & Hdom); [|done|done|by eapply ring_count|].
  { apply Forall_forall. intros c Hc. pose proof (Hsm c (HinC c Hc) (Hsz c Hc)). pose proof (Hsm _ Hinb ltac:(cbn; lia)). pose proof (Hsm _ (HinC _ HpC) (Hsz _ HpC)). cbn in *. lia. }
  assert (PA : all_cells (A1 ++ (bp, n) :: A2) ≡ₚ cells (bp, n) ++ all_cells (A1 ++ A2)) by (rewrite !all_cells_app, all_cells_cons; solve_Permutation).
  assert (P2 : all_cells (C' ++ A1 ++ A2) ≡ₚ cells (lo, N)).
  { rewrite <- P, (all_cells_app C'), (all_cells_app C), P', PA. solve_Permutation. }
  assert (Hout : forall x, x ∈ all_cells (A1 ++ A2) -> x <> p /\ x <> bp).
  { intros x Hx. split; intros ->.
    - eapply held_apart; [exact HO| |]; [by apply (list_elem_of_fmap_2 fst C (p, ps))|]. rewrite PA. apply elem_of_app. by right.
    - rewrite all_cells_app, PA in Nd. apply NoDup_app in Nd as (_ & _ & Nd). apply NoDup_app in Nd as (_ & Nd & _).
      apply (Nd bp); [exact (cell_head (bp, n) Hn)|done]. }
  exists C', h'. split; [done|]. split; [split; [done..| |]|].
  - exists N. split; [done|]. split; [by rewrite Hbrk'|]. split; [by rewrite Hbrk'|]. split; [done|].
    intros x Hx. by apply Hdom, Hu.
  - apply Forall_forall. intros b Hb. rewrite Forall_forall in HA. destruct (HA b) as [Hb1 (vb & Evb)]; [set_solver|]. split; [done|]. exists vb.
    assert (Hbc : b.1 ∈ all_cells (A1 ++ A2)) by (apply elem_all_cells; exists b; split; [done|by apply cell_head]).
    destruct (Hout _ Hbc). by rewrite Hkeep.
  - split; [intros x Hx; destruct (Hout x Hx); by apply Hkeep|done].
Qed.

(** A block taken from the ring: whole, or its upper part. *)
Lemma cells_unique l b c x : NoDup (all_cells l) -> b ∈ l -> c ∈ l -> x ∈ cells b -> x ∈ cells c -> b = c.
Proof.
  induction l as [|d l IH]; [set_solver|]. rewrite all_cells_cons. intros (_ & N1 & N2)%NoDup_app Hb Hc Hx Hx'.
  assert (Hl : forall e, e ∈ l -> x ∈ cells e -> x ∈ all_cells l) by (intros e He Hxe; apply elem_all_cells; eauto).
  apply elem_of_cons in Hb as [->|Hb], Hc as [->|Hc]; [done| | |by apply IH]; exfalso; by eapply N1, Hl.
Qed.
Lemma cells_index l i j b c x : NoDup (all_cells l) -> l !! i = Some b -> l !! j = Some c -> x ∈ cells b -> x ∈ cells c -> i = j.
Proof.
  revert i j. induction l as [|d l IH]; [done|]. intros i j. rewrite all_cells_cons. intros (_ & N1 & N2)%NoDup_app Hi Hj Hx Hx'.
  assert (Hl : forall k e, l !! k = Some e -> x ∈ cells e -> x ∈ all_cells l) by (intros k e He Hxe; apply elem_all_cells; exists e; split; [by eapply list_elem_of_lookup_2|done]).
  destruct i as [|i], j as [|j]; cbn in Hi, Hj; simplify_eq; [done| | |by f_equal; eapply IH]; exfalso; by eapply N1, Hl.
Qed.
Lemma ring_tail C1 prev ps D D' : ring_ok (C1 ++ (prev, ps) :: D) -> Forall (fun b => 1 <= b.2) D' -> apart ((prev, ps) :: D') ->
  ring_ok (C1 ++ (prev, ps) :: D').
Proof.
  intros [(B & EB & HB) HA] HD HA'. split; [|by eapply apart_from]. destruct C1 as [|b C1]; cbn in EB |- *.
  - injection EB as -> -> _. by exists D'.
  - injection EB as -> <-. exists (C1 ++ (prev, ps) :: D'). split; [done|]. apply Forall_app in HB as [HB1 HB2]. apply Forall_cons in HB2 as [? _].
    apply Forall_app_2; [done|]. by constructor.
Qed.
Lemma ring_tail_sizes C1 c D : ring_ok (C1 ++ c :: D) -> Forall (fun b => 1 <= b.2) D.
Proof.
  intros [(B & EB & HB) _]. destruct C1 as [|b C1]; cbn in EB; injection EB as -> <-; [done|].
  apply Forall_app in HB as [_ HB]. by apply Forall_cons in HB as [_ ?].
Qed.

Lemma take_ok h C A C1 prev ps p s C2 n : heap_ok h C A -> C = C1 ++ (prev, ps) :: (p, s) :: C2 -> 1 <= n <= s ->
  exists b C' h', take_block prev p n h = Ret (b + 8, h') /\ heap_ok h' C' ((b, n) :: A) /\
    (forall x, x ∈ all_cells A -> units h' !! x = units h !! x) /\ brk h' = brk h.
Proof.
  intros HO EC Hn. pose proof HO as [HR HL Hfp (N & HN & Hbrk & Hs & P & Hu) HA]. pose proof (heap_nodup _ _ _ HO) as Nd.
  pose proof HL as HL'. rewrite EC in HL'. apply links_app in HL' as [HL1 [Hprev [Hp HL2]]]. cbn [fst snd first] in HL1, Hprev, Hp.
  pose proof (ring_sizes C HR) as HF. pose proof (apart_nodup C HF (rk_apart C HR)) as Na.
  rewrite EC, fmap_app, !fmap_cons in Na. apply NoDup_app in Na as (_ & Na1 & Na2). apply NoDup_cons in Na2 as [Na2 Na3]. apply NoDup_cons in Na3 as [Na3 _].
  cbn [fst] in *. assert (Hpp : prev <> p) by (intros ->; apply Na2; left).
  assert (Hprev1 : prev ∉ C1.*1) by (intros Hin; apply (Na1 _ Hin); left). assert (Hp1 : p ∉ C1.*1) by (intros Hin; apply (Na1 _ Hin); set_solver).
  assert (Hprev2 : prev ∉ C2.*1) by (intros Hin; apply Na2; by right).
  rewrite EC in HR. pose proof (ring_tail_sizes _ _ _ HR) as HD. apply Forall_cons in HD as [Hs1 HD]. cbn [snd] in Hs1.
  pose proof (rk_apart _ HR) as HAp. apply apart_app in HAp as [_ HAp]. destruct HAp as [Ha1 [Ha2 Ha3]]. cbn [fst snd] in Ha1, Ha2.
  assert (HpC : (p, s) ∈ C) by (rewrite EC; apply elem_of_app; right; right; left). assert (HpCA : (p, s) ∈ C ++ A) by (apply elem_of_app; by left).
  assert (HprC : (prev, ps) ∈ C) by (rewrite EC; apply elem_of_app; right; left).
  assert (HcA : forall x, x ∈ all_cells A -> x <> prev /\ x ∉ cells (p, s)).
  { intros x Hx. split.
    - intros ->. eapply held_apart; [exact HO| |exact Hx]. by apply (list_elem_of_fmap_2 fst C (prev, ps)).
    - intros Hx'. rewrite all_cells_app in Nd. apply NoDup_app in Nd as (_ & Nd & _). apply (Nd x); [|done]. apply elem_all_cells. by exists (p, s). }
  assert (Hheads : forall b, b ∈ A -> 1 <= b.2 /\ (exists v, units h !! b.1 = Some (v, b.2)) /\ b.1 ∈ all_cells A).
  { intros b Hb. rewrite Forall_forall in HA. destruct (HA b Hb) as [Hb1 Hv]. split_and!; [done..|]. apply elem_all_cells. exists b. split; [done|by apply cell_head]. }
  unfold take_block. mstep (hsize_at h p _ Hp). cbn [snd]. destruct (Z.eqb_spec s n) as [->|Hne].
  - rewrite bind_assoc. mstep (ptr_at h p _ Hp). rewrite bind_assoc. mstep (set_ptr_at h prev _ (first C2 base) Hprev). cbn [fst snd]. rewrite bind_mret.
    exists p, (C1 ++ (prev, ps) :: C2). eexists. split; [reflexivity|]. split; [split; cbn [units freep brk set_units set_freep]|].
    + eapply ring_tail; [exact HR|exact HD|]. split; [|done]. destruct C2 as [|c C2]; [done|]. cbn [fst snd]. lia.
    + apply links_app. split; [by apply links_update|]. split; [cbn; by rewrite lookup_insert_eq|by apply links_update].
    + rewrite fmap_app. apply elem_of_app. right. left.
    + exists N. split; [done|]. split; [done|]. split; [done|]. split; [|intros x Hx; apply lookup_insert_is_Some'; right; by apply Hu].
      rewrite <- P, EC, !all_cells_app, !all_cells_cons. solve_Permutation.
    + constructor; [split; [cbn; lia|]; exists (first C2 base); cbn; by rewrite lookup_insert_ne|]. apply Forall_forall. intros b Hb.
      destruct (Hheads b Hb) as (Hb1 & [v Hv] & Hbc). split; [done|]. exists v. destruct (HcA _ Hbc). by rewrite lookup_insert_ne.
    + split; [|done]. intros x Hx. destruct (HcA _ Hx). cbn. by rewrite lookup_insert_ne.
  - set (t := p + 8 * (s - n)). assert (Ht : t ∈ cells (p, s)) by (apply elem_cells; exists (s - n); cbn; lia).
    assert (Hpc : p ∈ cells (p, s)) by (apply (cell_head (p, s)); cbn; lia). assert (Htp : t <> p) by (unfold t; lia).
    assert (HtC : t ∉ C.*1).
    { intros (c & Ec & Hc)%list_elem_of_fmap. destruct (ring_addr C c (hk_ring _ _ _ HO) Hc) as [->|[_ Hc1]].
      - cbn in Ec. assert (base < t); [|lia]. apply (base_out h C A); [done|]. apply elem_all_cells. by exists (p, s).
      - assert (c = (p, s)) as ->; [|cbn in Ec; lia]. apply (cells_unique (C ++ A) c (p, s) t Nd); [apply elem_of_app; by left|done| |done]. rewrite Ec. by apply cell_head. }
    rewrite EC, fmap_app, !fmap_cons, not_elem_of_app, !not_elem_of_cons in HtC. cbn [fst] in HtC. destruct HtC as (Ht1 & Htprev & _ & Ht2).
    assert (Hut : is_Some (units h !! t)). { apply Hu. rewrite <- P. apply elem_all_cells. by exists (p, s). }
    destruct Hut as [ut Hut]. rewrite bind_assoc. mstep (set_size_at h p _ (s - n) Hp). cbn [fst]. rewrite bind_assoc.
    erewrite (bind_Ret (set_size _ _)) by (apply set_size_at; cbn; rewrite lookup_insert_ne by done; exact Hut). rewrite bind_mret. fold t.
    exists t, (C1 ++ (prev, ps) :: (p, s - n) :: C2). eexists. split; [reflexivity|]. split; [split; cbn [units freep brk set_units set_freep]|].
    + eapply ring_tail; [exact HR| |].
      * constructor; [cbn; lia|done].
      * split; [done|]. split; [|done]. destruct C2 as [|c C2]; [done|]. cbn [fst snd]. lia.
    + apply links_app. split; [by rewrite !links_update|]. split; [cbn; by rewrite !lookup_insert_ne|].
      split; [cbn; by rewrite lookup_insert_ne, lookup_insert_eq|]. by rewrite !links_update.
    + rewrite fmap_app. apply elem_of_app. right. left.
    + exists N. split; [done|]. split; [done|]. split; [done|]. split; [|intros x Hx; do 2 (apply lookup_insert_is_Some'; right); by apply Hu].
      rewrite <- P, EC, !all_cells_app, !all_cells_cons. assert (Es : cells (p, s) = cells (p, s - n) ++ cells (t, n)).
      { unfold t. rewrite <- cells_app by lia. do 2 f_equal. lia. } rewrite Es. solve_Permutation.
    + constructor; [split; [cbn; lia|]; exists ut.1; cbn; by rewrite lookup_insert_eq|]. apply Forall_forall. intros b Hb.
      destruct (Hheads b Hb) as (Hb1 & [v Hv] & Hbc). split; [done|]. exists v. destruct (HcA _ Hbc) as [? Hnc].
      assert (b.1 <> p /\ b.1 <> t) as [? ?] by (split; intros E; apply Hnc; by rewrite E). by rewrite !lookup_insert_ne by done.
    + split; [|done]. intros x Hx. destruct (HcA _ Hx) as [? Hnc]. cbn.
      assert (x <> p /\ x <> t) as [? ?] by (split; intros ->; by apply Hnc). by rewrite !lookup_insert_ne by done.
Qed.

(** ** More memory *)

Context (room : Z -> bool) (Hroom : forall z, room z = true -> z < 2 ^ 31).

Lemma new_units_in n a m k : (k < n)%nat -> new_units n a m !! (a + 8 * Z.of_nat k) = Some (0, 0).
Proof.
  revert a k. induction n as [|n IH]; intros a k Hk; [lia|]. cbn [new_units]. destruct k as [|k]; [by rewrite Z.mul_0_r, Z.add_0_r, lookup_insert_eq|].
  rewrite lookup_insert_ne by lia. replace (a + 8 * Z.of_nat (S k)) with (a + 8 + 8 * Z.of_nat k) by lia. apply IH. lia.
Qed.
Lemma new_units_out n a m x : x < a -> new_units n a m !! x = m !! x.
Proof. revert a. induction n as [|n IH]; intros a Hx; [done|]. cbn [new_units]. rewrite lookup_insert_ne by lia. apply IH. lia. Qed.

Lemma in_brk h C A x : heap_ok h C A -> x ∈ C.*1 \/ x ∈ all_cells A -> x < brk h.
Proof.
  intros HO Hx. pose proof HO as [_ _ _ (N & HN & Hbrk & _ & P & _) _]. assert (Hc : x ∈ all_cells (C ++ A) -> x < brk h).
  { intros Hc. rewrite P in Hc. apply elem_cells in Hc as (k & Hk & ->). cbn in *. lia. }
  destruct Hx as [(b & -> & Hb)%list_elem_of_fmap|Hx]; [|apply Hc; rewrite all_cells_app; apply elem_of_app; by right].
  destruct (ring_addr C b (hk_ring _ _ _ HO) Hb) as [->|[Hb1 _]]; [cbn; lia|]. apply Hc. rewrite all_cells_app. apply elem_of_app. by left.
Qed.
Lemma links_ext m m' C fin : links m C fin -> (forall x, x ∈ C.*1 -> m' !! x = m !! x) -> links m' C fin.
Proof.
  induction C as [|b C IH]; [done|]. intros [Hb HC] He. split; [rewrite He; [done|left]|]. apply IH; [done|]. intros x Hx. apply He. by right.
Qed.

(** The heap grown by a block, held. *)
Lemma heap_grow h C A nu : heap_ok h C A -> 1 <= nu -> brk h + 8 * nu < 2 ^ 31 ->
  heap_ok (set_brk (brk h + 8 * nu) (set_units (<[brk h := (0, nu)]> (new_units (Z.to_nat nu) (brk h) (units h))) h)) C ((brk h, nu) :: A).
Proof.
  intros HO Hnu Hlt. pose proof HO as [HR HL Hfp (N & HN & Hbrk & Hs & P & Hu) HA].
  assert (Hold : forall x, x < brk h -> <[brk h := (0, nu)]> (new_units (Z.to_nat nu) (brk h) (units h)) !! x = units h !! x).
  { intros x Hx. rewrite lookup_insert_ne by lia. by apply new_units_out. }
  split; cbn [units freep brk set_units set_brk]; [done| |done| |].
  - apply (links_ext (units h)); [done|]. intros x Hx. apply Hold, (in_brk h C A); auto.
  - exists (N + nu). split; [lia|]. split; [lia|]. split; [done|]. split.
    + rewrite cells_app, all_cells_app, all_cells_cons by lia. rewrite <- P, all_cells_app. replace (lo + 8 * N) with (brk h) by lia. solve_Permutation.
    + intros x Hx. rewrite cells_app in Hx by lia. apply elem_of_app in Hx as [Hx|Hx].
      * rewrite Hold; [by apply Hu|]. apply elem_cells in Hx as (k & Hk & ->). cbn in *. lia.
      * apply elem_cells in Hx as (k & Hk & ->). cbn [fst snd] in *. apply lookup_insert_is_Some'. right.
        replace (lo + 8 * N + 8 * k) with (brk h + 8 * Z.of_nat (Z.to_nat k)) by lia. rewrite new_units_in by lia. eauto.
  - constructor; [split; [done|]; exists 0; by rewrite lookup_insert_eq|]. apply Forall_forall. intros b Hb. rewrite Forall_forall in HA.
    destruct (HA b Hb) as [Hb1 [v Hv]]. split; [done|]. exists v. rewrite Hold; [done|]. apply (in_brk h C A); [done|]. right.
    apply elem_all_cells. exists b. split; [done|by apply cell_head].
Qed.

Definition wanted (n : Z) : Z := if n <? 4096 then 4096 else n.

Lemma morecore_ok h C A n : heap_ok h C A -> 1 <= n < 2 ^ 28 ->
  (room (brk h + 8 * wanted n) = false /\ morecore room n h = Ret (0, h)) \/
  (room (brk h + 8 * wanted n) = true /\ exists C' h', morecore room n h = Ret (freep h', h') /\ heap_ok h' C' A /\
    (forall x, x ∈ all_cells A -> units h' !! x = units h !! x) /\ brk h' = brk h + 8 * wanted n /\
    (exists c, c ∈ C' /\ n <= c.2) /\ (length C' <= S (length C))%nat).
Proof.
  intros HO Hn. pose proof HO as [_ _ _ (N & HN & Hbrk & Hs & _ & _) _]. unfold morecore. fold (wanted n).
  assert (Hw : 4096 <= wanted n < 2 ^ 28 /\ n <= wanted n) by (unfold wanted; destruct (Z.ltb_spec n 4096); lia). set (nu := wanted n) in *. clearbody nu.
  assert (E : s32 (u32 (nu * 8)) = nu * 8). { rewrite u32_small by (unfold in_u32; lia). apply s32_small. unfold in_s32. lia. } rewrite E.
  assert (Esb : sbrk room (nu * 8) h = if negb (room (brk h + 8 * nu)) then Ret (-1, h)
    else Ret (brk h, set_brk (brk h + 8 * nu) (set_units (new_units (Z.to_nat nu) (brk h) (units h)) h))).
  { unfold sbrk, growproc. mnext. rewrite u32_small by (unfold in_u32; lia). rewrite (proj2 (Z.gtb_lt (nu * 8) 0)) by lia.
    replace (brk h + nu * 8) with (brk h + 8 * nu) by lia. destruct (negb _).
    - by rewrite (proj2 (Z.ltb_ge (nu * 8) 0)) by lia.
    - rewrite Z.max_r, (proj2 (Z.ltb_ge _ _)) by lia. replace (brk h + 8 * nu - brk h) with (nu * 8) by lia. by rewrite Z.div_mul by lia. }
  destruct (room (brk h + 8 * nu)) eqn:Er; cbn [negb] in Esb; [right|left]; (split; [done|]).
  - mstep Esb. rewrite (proj2 (Z.eqb_neq (brk h) (-1))) by lia. pose proof (Hroom _ Er) as Hr.
    pose proof (heap_grow h C A nu HO ltac:(lia) Hr) as HG.
    erewrite bind_Ret. 2:{ apply set_size_at. cbn. pose proof (new_units_in (Z.to_nat nu) (brk h) (units h) 0 ltac:(lia)) as E0. by rewrite Z.mul_0_r, Z.add_0_r in E0. }
    cbn [fst]. cbn [units set_brk set_units]. unfold set_units at 1. cbn [freep brk set_brk].
    destruct (free_ok _ C [] A (brk h) nu HG) as (C' & h' & Ef & HO' & Hk & Hb' & Hbig & Hlen). cbn [app set_brk set_units units freep brk] in Ef, Hk, Hb', HO'.
    unfold set_brk, set_units in Ef. cbn in Ef. mstep Ef. mnext. exists C', h'. split; [done|]. split; [done|]. split; [|split; [done|split; [|done]]].
    + intros x Hx. rewrite Hk by done. pose proof (in_brk h C A x HO (or_intror Hx)). rewrite lookup_insert_ne by lia. by apply new_units_out.
    + destruct Hbig as (c & Hc & Hle). exists c. split; [done|lia].
  - by mstep Esb.
Qed.

(** ** The search *)

(** The position after [i] in a ring of [len] blocks. *)
Definition next (len i : nat) : nat := if (S i =? len)%nat then 0%nat else S i.
Lemma steps_next len i k : (i < len)%nat -> (k < len)%nat -> i <> k -> steps len i k = S (steps len (next len i) k).
Proof.
  intros Hi Hk Hne. unfold steps, next. destruct (Nat.eqb_spec (S i) len), (Nat.leb_spec i k); try destruct (Nat.leb_spec 0 k); try destruct (Nat.leb_spec (S i) k); lia.
Qed.
Lemma steps_self len k : steps len k k = 0%nat.
Proof. unfold steps. rewrite (proj2 (Nat.leb_le k k)) by lia. lia. Qed.
Lemma steps_inj len i j k : (i < len)%nat -> (j < len)%nat -> (k < len)%nat -> steps len i k = steps len j k -> i = j.
Proof. unfold steps. destruct (Nat.leb_spec i k), (Nat.leb_spec j k); lia. Qed.
Lemma steps_max len j k : (j < len)%nat -> (k < len)%nat -> (steps len j k <= steps len (next len k) k)%nat /\ (steps len j k < len)%nat.
Proof. intros Hj Hk. unfold steps, next. destruct (Nat.eqb_spec (S k) len), (Nat.leb_spec j k); try destruct (Nat.leb_spec 0 k); try destruct (Nat.leb_spec (S k) k); lia. Qed.

Lemma ptr_next h C i b : ring_ok C -> links (units h) C base -> C !! i = Some b ->
  exists c, C !! next (length C) i = Some c /\ ptr b.1 h = Ret (c.1, h).
Proof.
  intros HR HL Hi. rewrite (ptr_ring h C i b HL Hi). pose proof (lookup_lt_Some _ _ _ Hi). unfold next. destruct (ring_head C HR) as [s0 H0].
  destruct (Nat.eqb_spec (S i) (length C)) as [E|E].
  - exists (base, s0). split; [done|]. by rewrite (proj2 (lookup_ge_None C (S i))) by lia.
  - destruct (lookup_lt_is_Some_2 C (S i)) as [c Hc]; [lia|]. exists c. by rewrite Hc.
Qed.

(** From position [i], those from [k]'s successor on being too small: the
    first block large enough is taken, or none is before the search is back at
    [freep], position [k]. *)
Lemma search fuel h C n k f : ring_ok C -> links (units h) C base -> C !! k = Some f -> freep h = f.1 -> 1 <= n ->
  forall i b prev (Hi : C !! i = Some b) (Hprev : forall j, i = S j -> exists ps, C !! j = Some (prev, ps))
    (Hsmall : forall j d, C !! j = Some d -> (steps (length C) i k < steps (length C) j k)%nat -> d.2 < n)
    (Hfuel : (steps (length C) i k < fuel)%nat),
  (exists C1 c d C2, C = C1 ++ c :: d :: C2 /\ n <= d.2 /\ malloc_loop room fuel n prev b.1 h = take_block c.1 d.1 n h) \/
  (Forall (fun d => d.2 < n) C /\
   malloc_loop room fuel n prev b.1 h =
     (p ← morecore room n; if (p =? 0 : bool) then mret 0 else q ← ptr p; malloc_loop room (fuel - S (steps (length C) i k)) n p q) h).
Proof.
  intros HR HL Hk Hf Hn. pose proof (apart_nodup C (ring_sizes C HR) (rk_apart C HR)) as Nd. pose proof (lookup_lt_Some _ _ _ Hk) as Hkl.
  induction fuel as [|fuel IH]; intros i b prev Hi Hprev Hsmall Hfuel; [lia|]. pose proof (lookup_lt_Some _ _ _ Hi) as Hil.
  cbn [malloc_loop]. pose proof (links_lookup _ _ _ _ _ HL Hi) as Hu. rewrite (bind_Ret _ _ _ _ _ (hsize_at h b.1 _ Hu)). cbn [snd].
  destruct (Z.geb_spec b.2 n) as [Hge|Hlt].
  - left. destruct i as [|i].
    { destruct HR as [(B & EB & _) _]. rewrite EB in Hi. injection Hi as <-. cbn in Hge. lia. }
    destruct (Hprev i eq_refl) as [ps Hp]. exists (take i C), (prev, ps), b, (drop (S (S i)) C).
    split; [|done]. rewrite <- (take_drop_middle C i _ Hp) at 1. f_equal. f_equal. by rewrite (drop_S C b (S i)).
  - rewrite bind_get. rewrite Hf. destruct (Z.eqb_spec b.1 f.1) as [E|E].
    + right. assert (i = k) as ->. { eapply (NoDup_lookup (C.*1)); [done| |]; rewrite list_lookup_fmap; [by rewrite Hi|by rewrite Hk; cbn; f_equal]. }
      split; [|by rewrite steps_self, Nat.sub_1_r].
      apply Forall_lookup. intros j d Hd. destruct (decide (j = k)) as [->|Hne]; [by assert (d = b) as -> by congruence|].
      apply (Hsmall j d Hd). rewrite steps_self. pose proof (lookup_lt_Some _ _ _ Hd). pose proof (steps_inj (length C) j k k). rewrite steps_self in *. lia.
    + assert (Hne : i <> k) by (intros ->; apply E; congruence). pose proof (steps_next (length C) i k Hil Hkl Hne) as Es.
      destruct (ptr_next h C i b HR HL Hi) as (c & Hc & Ep). rewrite (bind_Ret _ _ _ _ _ Ep).
      destruct (IH (next (length C) i) c b.1 Hc) as [HH|[HF HH]]; [| |lia|by left|right].
      * intros j. unfold next. destruct (Nat.eqb_spec (S i) (length C)); [done|]. intros [= <-]. exists b.2. by destruct b.
      * intros j d Hd Hs. pose proof (lookup_lt_Some _ _ _ Hd). destruct (decide (j = i)) as [->|Hji]; [assert (d = b) as -> by congruence; lia|].
        apply (Hsmall j d Hd). pose proof (steps_inj (length C) i j k). lia.
      * split; [done|]. rewrite HH. by rewrite Es.
Qed.

Definition kept A h h' : Prop := forall x, x ∈ all_cells A -> units h' !! x = units h !! x.

(** The search from [freep]: a block is handed out, or all are too small. *)
Lemma scan h C A n fuel : heap_ok h C A -> 1 <= n -> (length C < fuel)%nat ->
  exists q, ptr (freep h) h = Ret (q, h) /\
  ((exists b C' h', malloc_loop room fuel n (freep h) q h = Ret (b + 8, h') /\ heap_ok h' C' ((b, n) :: A) /\ kept A h h') \/
   (Forall (fun d => d.2 < n) C /\ exists fuel', (fuel <= length C + fuel')%nat /\
     malloc_loop room fuel n (freep h) q h =
       (p ← morecore room n; if (p =? 0 : bool) then mret 0 else q ← ptr p; malloc_loop room fuel' n p q) h)).
Proof.
  intros HO Hn Hfuel. pose proof HO as [HR HL Hfp _ _]. apply list_elem_of_fmap in Hfp as (f & Ef & Hin).
  apply list_elem_of_lookup in Hin as (k & Hk). pose proof (lookup_lt_Some _ _ _ Hk) as Hkl. destruct (ptr_next h C k f HR HL Hk) as (c & Hc & Ep).
  rewrite Ef. exists c.1. split; [done|]. pose proof (lookup_lt_Some _ _ _ Hc) as Hcl. destruct (steps_max (length C) _ k Hcl Hkl) as [_ Hst].
  destruct (search fuel h C n k f HR HL Hk Ef Hn (next (length C) k) c f.1 Hc) as [(C1 & b & [p s] & C2 & EC & Hd & ->)|[HF ->]].
  - intros j. unfold next. destruct (S k =? _)%nat; [done|]. intros [= <-]. exists f.2. by destruct f.
  - intros j d Hd Hs. pose proof (lookup_lt_Some _ _ _ Hd) as Hj. destruct (steps_max (length C) j k Hj Hkl). lia.
  - lia.
  - left. destruct b as [pv ps]. destruct (take_ok h C A C1 pv ps p s C2 n HO EC) as (b & C' & h' & Et & HO' & Hk' & _); [cbn in Hd; lia|].
    exists b, C', h'. done.
  - right. split; [done|]. eexists. split; [|reflexivity]. lia.
Qed.

Lemma freep_set h C A : heap_ok h C A -> freep h <> 0.
Proof.
  intros HO. pose proof (hk_freep _ _ _ HO) as (b & -> & Hin)%list_elem_of_fmap. destruct (ring_addr C b (hk_ring _ _ _ HO) Hin) as [->|[Hx _]]; [cbn; lia|].
  assert (base < b.1); [|lia]. apply (base_out h C A); [done|]. rewrite all_cells_app. apply elem_of_app. by left.
Qed.

(** A heap in use, or one [malloc] has not been called on. *)
Definition heap_inv h C A : Prop := (freep h = 0 /\ C = [] /\ A = [] /\ brk h = lo /\ lo < 2 ^ 31) \/ heap_ok h C A.

Lemma units_for_ok nbytes : 0 <= nbytes <= 2 ^ 31 - 16 -> 1 <= units_for nbytes < 2 ^ 28 /\ nbytes <= 8 * (units_for nbytes - 1).
Proof.
  intros H. unfold units_for. rewrite (u32_small (nbytes + 8 - 1)) by (unfold in_u32; lia).
  rewrite u32_small by (unfold in_u32; dlia). dlia.
Qed.

Definition base_unit h : heap := if freep h =? 0 then set_freep base (set_units (<[base := (base, 0)]> (units h)) h) else h.

Lemma base_unit_ok h C A : heap_inv h C A -> exists C', heap_ok (base_unit h) C' A /\ kept A h (base_unit h) /\ brk (base_unit h) = brk h.
Proof.
  unfold base_unit. intros [(Hf & -> & -> & Hb & Hl)|HO].
  - rewrite Hf. cbn [Z.eqb]. exists [(base, 0)]. split; [|split; [intros x Hx; by apply elem_of_nil in Hx|done]]. split; cbn [units freep brk set_freep set_units].
    + split; [by exists []|]. done.
    + split; [cbn; apply lookup_insert_eq|done].
    + left.
    + exists 0. split; [done|]. split; [lia|]. split; [lia|]. split; [done|]. intros x Hx. by apply elem_of_nil in Hx.
    + constructor.
  - exists C. rewrite (proj2 (Z.eqb_neq (freep h) 0)); [done|]. by eapply freep_set.
Qed.

Lemma malloc_ok h C A nbytes : heap_inv h C A -> 0 <= nbytes <= 2 ^ 31 - 16 ->
  (exists C' h', malloc base room nbytes h = Ret (0, h') /\ heap_ok h' C' A /\ kept A h h' /\
     Forall (fun d => d.2 < units_for nbytes) C' /\ room (brk h + 8 * wanted (units_for nbytes)) = false) \/
  (exists b C' h', malloc base room nbytes h = Ret (b + 8, h') /\ heap_ok h' C' ((b, units_for nbytes) :: A) /\ kept A h h').
Proof.
  intros HI Hnb. destruct (units_for_ok nbytes Hnb) as [Hn _]. destruct (base_unit_ok h C A HI) as (C0 & HO & Hk0 & Hb0).
  assert (Em : malloc base room nbytes h = (p ← ptr (freep (base_unit h));
    malloc_loop room (2 * size (units (base_unit h)) + 4) (units_for nbytes) (freep (base_unit h)) p) (base_unit h)).
  { unfold malloc. rewrite bind_get. unfold base_unit. destruct (freep h =? 0); [rewrite bind_modify|rewrite bind_mret]; by rewrite bind_get. }
  rewrite Em. clear Em. set (h0 := base_unit h) in *. set (n := units_for nbytes) in *. clearbody h0 n.
  pose proof (ring_count h0 C0 A HO) as Hcnt. destruct (scan h0 C0 A n (2 * size (units h0) + 4) HO ltac:(lia) ltac:(lia)) as (q & Ep & HS).
  rewrite (bind_Ret _ _ _ _ _ Ep). destruct HS as [(b & C' & h' & -> & HO' & Hk)|(HF & fuel' & Hf' & ->)].
  - right. exists b, C', h'. split; [done|]. split; [done|]. intros x Hx. by rewrite Hk, Hk0.
  - destruct (morecore_ok h0 C0 A n HO Hn) as [[Hr Emc]|(Hr & C1 & h1 & Emc & HO1 & Hk1 & Hb1 & (c & Hc & Hcn) & Hlen)].
    + left. exists C0, h0. rewrite Hb0 in Hr. rewrite (bind_Ret _ _ _ _ _ Emc). done.
    + right. rewrite (bind_Ret _ _ _ _ _ Emc).
      rewrite (proj2 (Z.eqb_neq (freep h1) 0)) by (eapply freep_set; exact HO1).
      destruct (scan h1 C1 A n fuel' HO1 ltac:(lia) ltac:(lia)) as (q' & Ep' & HS'). rewrite (bind_Ret _ _ _ _ _ Ep').
      destruct HS' as [(b & C' & h' & -> & HO' & Hk)|(HF' & _)].
      * exists b, C', h'. split; [done|]. split; [done|]. intros x Hx. by rewrite Hk, Hk1, Hk0.
      * rewrite Forall_forall in HF'. specialize (HF' c Hc). lia.
Qed.

(** A store in a held block. *)
Lemma payload_store h C A b k v : heap_ok h C A -> b ∈ A -> 1 <= k < b.2 ->
  is_Some (units h !! (b.1 + 8 * k)) /\ heap_ok (set_units (<[b.1 + 8 * k := v]> (units h)) h) C A.
Proof.
  intros HO Hb Hk. pose proof HO as [HR HL Hfp (N & HN & Hbrk & Hs & P & Hu) HA]. pose proof (heap_nodup _ _ _ HO) as Nd.
  assert (Hx : b.1 + 8 * k ∈ cells b) by (apply elem_cells; exists k; lia).
  assert (HxA : b.1 + 8 * k ∈ all_cells A) by (apply elem_all_cells; eauto). assert (HxC : b.1 + 8 * k ∉ C.*1) by (intros Hin; by eapply held_apart).
  split; [apply Hu; rewrite <- P, all_cells_app; apply elem_of_app; by right|]. split; cbn [units freep brk set_units]; [done|by apply links_update|done| |].
  - exists N. split_and!; [done..|]. intros x Hxx. apply lookup_insert_is_Some'. right. by apply Hu.
  - apply Forall_forall. intros c Hc. rewrite Forall_forall in HA. destruct (HA c Hc) as [Hc1 [w Hw]]. split; [done|]. exists w. rewrite lookup_insert_ne; [done|].
    intros E. rewrite all_cells_app in Nd. apply NoDup_app in Nd as (_ & _ & Nd). assert (b = c) as ->; [|lia].
    apply (cells_unique A b c (b.1 + 8 * k)); [done..|]. rewrite E. by apply cell_head.
Qed.
End Umalloc.

(** ** Programs that use it *)

(** A block a program holds: the pointer it got, the bytes it asked for, and
    what it has written in it, by 8-byte unit. *)
Record held := mkHeld { hd_ptr : Z; hd_bytes : Z; hd_data : gmap Z (Z * Z) }.
Definition hd_block (e : held) : block := (hd_ptr e - 8, units_for (hd_bytes e)).
Definition hd_write (k : Z) (v : Z * Z) (e : held) : held := mkHeld (hd_ptr e) (hd_bytes e) (<[k := v]> (hd_data e)).

(** The calls: [malloc] with the sizes there is memory for, [free] of the block
    held, a store in it. *)
Inductive call := CMalloc (nbytes : Z) (room : Z -> bool) | CFree (i : nat) | CWrite (i : nat) (k : Z) (v : Z * Z).
Definition call_ok (c : call) : Prop :=
  match c with CMalloc nbytes room => 0 <= nbytes <= 2 ^ 31 - 16 /\ forall z, room z = true -> z < 2 ^ 31 | _ => True end.

Definition do_call (base : Z) (c : call) (l : list held) : M heap (list held) :=
  match c with
  | CMalloc nbytes room => p ← malloc base room nbytes; mret (if p =? 0 then l else mkHeld p nbytes ∅ :: l)
  | CFree i => match l !! i with Some e => free (hd_ptr e);; mret (delete i l) | None => mret l end
  | CWrite i k v =>
      match l !! i with
      | Some e =>
          if (0 <=? k) && (8 * k + 8 <=? hd_bytes e) then
            _ ← unit_at (hd_ptr e + 8 * k); modify (fun h => set_units (<[hd_ptr e + 8 * k := v]> (units h)) h);;
            mret (alter (hd_write k v) i l)
          else mret l
      | None => mret l
      end
  end.
Fixpoint do_calls (base : Z) (cs : list call) (l : list held) : M heap (list held) :=
  match cs with [] => mret l | c :: cs => l ← do_call base c l; do_calls base cs l end.

Section Client.
Context (base lo : Z) (Hbase : 0 < base) (Hlo : base + 8 <= lo).

Definition client_ok (h : heap) (C : list block) (l : list held) : Prop :=
  heap_inv base lo h C (hd_block <$> l) /\ Forall (fun e => 0 <= hd_bytes e <= 2 ^ 31 - 16) l /\
  forall e k v, e ∈ l -> hd_data e !! k = Some v -> 0 <= k /\ 8 * k + 8 <= hd_bytes e /\ units h !! (hd_ptr e + 8 * k) = Some v.

Lemma data_cell e k : 0 <= hd_bytes e <= 2 ^ 31 - 16 -> 0 <= k -> 8 * k + 8 <= hd_bytes e -> 1 <= k + 1 < (hd_block e).2.
Proof. intros Hb Hk Hk'. destruct (units_for_ok _ Hb). cbn. lia. Qed.
Lemma data_in e k : 0 <= hd_bytes e <= 2 ^ 31 - 16 -> 0 <= k -> 8 * k + 8 <= hd_bytes e -> hd_ptr e + 8 * k ∈ cells (hd_block e).
Proof. intros Hb Hk Hk'. pose proof (data_cell e k Hb Hk Hk'). apply elem_cells. exists (k + 1). split; [lia|]. cbn. lia. Qed.
Lemma data_kept h h' l l' : kept (hd_block <$> l') h h' -> l' ⊆ l -> Forall (fun e => 0 <= hd_bytes e <= 2 ^ 31 - 16) l ->
  (forall e k v, e ∈ l -> hd_data e !! k = Some v -> 0 <= k /\ 8 * k + 8 <= hd_bytes e /\ units h !! (hd_ptr e + 8 * k) = Some v) ->
  (forall e k v, e ∈ l' -> hd_data e !! k = Some v -> 0 <= k /\ 8 * k + 8 <= hd_bytes e /\ units h' !! (hd_ptr e + 8 * k) = Some v).
Proof.
  intros Hk Hsub HF HD e k v He Hv. destruct (HD e k v (Hsub e He) Hv) as (H0 & H1 & <-). split_and!; [done..|]. apply Hk.
  apply elem_all_cells. exists (hd_block e). split; [by apply list_elem_of_fmap_2|]. rewrite Forall_forall in HF. apply data_in; auto.
Qed.

Lemma alter_blocks (i : nat) k v (l : list held) : hd_block <$> alter (hd_write k v) i l = hd_block <$> l.
Proof. rewrite (list_fmap_alter hd_block (hd_write k v) id) by by apply Forall_true. by rewrite list_alter_id. Qed.

Lemma do_call_ok c h C l : client_ok h C l -> call_ok c -> exists l' C' h', do_call base c l h = Ret (l', h') /\ client_ok h' C' l'.
Proof.
  intros (HI & HF & HD) Hc. destruct c as [nbytes room|i|i k v]; cbn [do_call call_ok] in *.
  - destruct Hc as [Hnb Hroom]. destruct (malloc_ok base lo Hbase Hlo room Hroom h C _ nbytes HI Hnb) as [(C' & h' & Em & HO & Hk & _)|(b & C' & h' & Em & HO & Hk)].
    + rewrite (bind_Ret _ _ _ _ _ Em). exists l, C', h'. split; [done|]. split; [by right|]. split; [done|]. by eapply data_kept.
    + rewrite (bind_Ret _ _ _ _ _ Em). rewrite (proj2 (Z.eqb_neq (b + 8) 0)).
      2:{ assert (base < b); [|lia]. apply (base_out base lo Hlo h' C' _ b HO). rewrite all_cells_app. apply elem_of_app. right. apply elem_all_cells.
          eexists. split; [left|]. apply (cell_head (b, units_for nbytes)). destruct (units_for_ok nbytes Hnb). cbn. lia. }
      eexists _, C', h'. split; [reflexivity|]. split; [right|split; [by constructor|]].
      * cbn. unfold hd_block at 1. cbn. by replace (b + 8 - 8) with b by lia.
      * intros e k v [->|He]%elem_of_cons; [cbn; by rewrite lookup_empty|]. by apply (data_kept h h' l l Hk).
  - destruct (l !! i) as [e|] eqn:Ei; [|by exists l, C, h]. destruct HI as [(_ & _ & HA & _)|HO].
    { destruct l; [done|]. by rewrite fmap_cons in HA. }
    pose proof (take_drop_middle l i e Ei) as El. rewrite <- El in HO at 1. rewrite fmap_app, fmap_cons in HO. destruct (hd_block e) as [bp n] eqn:Eb.
    destruct (free_ok base lo Hbase Hlo h C _ _ bp n HO) as (C' & h' & Ef & HO' & Hk & _). injection Eb as Ebp _.
    replace (bp + 8) with (hd_ptr e) in Ef by lia. rewrite (bind_Ret _ _ _ _ _ Ef). rewrite <- fmap_app, <- delete_take_drop in HO', Hk.
    exists (delete i l), C', h'. split; [done|]. split; [by right|]. assert (Hsub : delete i l ⊆ l) by (intros x Hx; rewrite delete_take_drop in Hx; rewrite <- El; set_solver).
    split; [|by eapply data_kept]. rewrite Forall_forall in *. auto.
  - destruct (l !! i) as [e|] eqn:Ei; [|by exists l, C, h]. destruct ((0 <=? k) && _) eqn:Ek; [|by exists l, C, h].
    apply andb_prop in Ek as [Hk1%Z.leb_le Hk2%Z.leb_le]. destruct HI as [(_ & _ & HA & _)|HO].
    { destruct l; [done|]. by rewrite fmap_cons in HA. }
    assert (He : e ∈ l) by by eapply list_elem_of_lookup_2. pose proof HF as HF'. rewrite Forall_forall in HF'.
    pose proof (data_cell e k (HF' e He) Hk1 Hk2) as Hcell.
    destruct (payload_store base lo Hbase Hlo h C _ (hd_block e) (k + 1) v HO (list_elem_of_fmap_2 hd_block l e He) Hcell) as [[u Hu] HO'].
    cbn [hd_block fst] in Hu, HO'. replace (hd_ptr e - 8 + 8 * (k + 1)) with (hd_ptr e + 8 * k) in Hu, HO' by lia.
    unfold unit_at. rewrite bind_assoc, bind_get, Hu, bind_deref, bind_modify. eexists _, C, _. split; [reflexivity|].
    split; [right; by rewrite alter_blocks|]. split; [by apply Forall_alter|]. cbn [units set_units].
    pose proof (heap_nodup base lo h C _ HO) as Nd. rewrite all_cells_app in Nd. apply NoDup_app in Nd as (_ & _ & Nd).
    intros e' k' v' (j & Hj)%list_elem_of_lookup Hv'. destruct (decide (j = i)) as [->|Hji].
    + rewrite list_lookup_alter_eq, Ei in Hj. injection Hj as <-. cbn in Hv' |- *. destruct (decide (k' = k)) as [->|Hkk].
      * rewrite lookup_insert_eq in Hv'. injection Hv' as ->. by rewrite lookup_insert_eq.
      * rewrite lookup_insert_ne in Hv' by done. destruct (HD e k' v' He Hv') as (? & ? & ?). by rewrite lookup_insert_ne by lia.
    + rewrite list_lookup_alter_ne in Hj by done. assert (He' : e' ∈ l) by by eapply list_elem_of_lookup_2.
      destruct (HD e' k' v' He' Hv') as (Hk1' & Hk2' & Hv''). rewrite lookup_insert_ne; [done|]. intros E. apply Hji. symmetry.
      apply (cells_index _ i j (hd_block e) (hd_block e') (hd_ptr e + 8 * k) Nd); [by rewrite list_lookup_fmap, Ei|by rewrite list_lookup_fmap, Hj|by apply data_in; auto|].
      rewrite E. apply data_in; auto.
Qed.

Lemma do_calls_ok cs h C l : client_ok h C l -> Forall call_ok cs -> exists l' C' h', do_calls base cs l h = Ret (l', h') /\ client_ok h' C' l'.
Proof.
  revert h C l. induction cs as [|c cs IH]; intros h C l HC HF; [by exists l, C, h|]. apply Forall_cons in HF as [Hc HF].
  destruct (do_call_ok c h C l HC Hc) as (l1 & C1 & h1 & E & HC1). cbn [do_calls]. rewrite (bind_Ret _ _ _ _ _ E). by apply (IH h1 C1).
Qed.

(** C13: whatever a program asks of [malloc] (up to 2^31-16 bytes) and [free], and
    whatever it writes in the blocks it holds, every call returns, memory or no
    memory; the free list is a ring through [base] in address order with no two
    free blocks adjacent; it and the blocks held share out the heap unit by
    unit, nothing lost and nothing shared; and each block holds what the program
    wrote in it last. *)
Theorem malloc_free_share_heap cs : lo < 2 ^ 31 -> Forall call_ok cs ->
  exists l C h N, do_calls base cs [] (mkHeap ∅ 0 lo) = Ret (l, h) /\ brk h = lo + 8 * N /\ links (units h) C base /\ apart C /\
    all_cells (C ++ (hd_block <$> l)) ≡ₚ cells (lo, N) /\
    forall e, e ∈ l -> hd_bytes e <= 8 * ((hd_block e).2 - 1) /\ forall k v, hd_data e !! k = Some v -> units h !! (hd_ptr e + 8 * k) = Some v.
Proof.
  intros Hl HF. destruct (do_calls_ok cs (mkHeap ∅ 0 lo) [] []) as (l & C & h & E & HI & HB & HD); [|done|].
  { split; [by left|]. split; [done|]. intros e k v He. by apply elem_of_nil in He. }
  assert (Hdata : forall e, e ∈ l -> hd_bytes e <= 8 * ((hd_block e).2 - 1) /\ forall k v, hd_data e !! k = Some v -> units h !! (hd_ptr e + 8 * k) = Some v).
  { intros e He. rewrite Forall_forall in HB. destruct (units_for_ok _ (HB e He)). split; [done|]. intros k v Hv. by apply (HD e k v He). }
  destruct HI as [(_ & -> & HA & Hb & _)|[HR HL _ (N & HN & Hb & _ & P & _) _]].
  - exists l, [], h, 0. split; [done|]. split; [lia|]. rewrite HA. done.
  - exists l, C, h, N. split_and!; [done..|apply HR|done|done].
Qed.
End Client.

(** A program that asks for 100 bytes, writes in them, asks for more than a
    chunk of the kernel's, frees the first block and asks twice more. *)
Definition some_calls : list call :=
  let all (z : Z) := z <? 2 ^ 31 in
  [CMalloc 100 all; CWrite 0 3 (7, 8); CMalloc 40000 all; CFree 1; CMalloc 20 all; CMalloc 1000000 (fun _ => false)].
Lemma malloc_free_share_heap_witness :
  16384 < 2 ^ 31 /\ exists l C h N, do_calls 8192 some_calls [] (mkHeap ∅ 0 16384) = Ret (l, h) /\ brk h = 16384 + 8 * N /\
    links (units h) C 8192 /\ apart C /\ all_cells (C ++ (hd_block <$> l)) ≡ₚ cells (16384, N) /\
    forall e, e ∈ l -> hd_bytes e <= 8 * ((hd_block e).2 - 1) /\ forall k v, hd_data e !! k = Some v -> units h !! (hd_ptr e + 8 * k) = Some v.
Proof.
  split; [lia|]. apply (malloc_free_share_heap 8192 16384 ltac:(lia) ltac:(lia)); [lia|].
  repeat constructor; cbn; try lia; try done; intros z Hz; by apply Z.ltb_lt.
Defined.

(** ** Past 2^31 bytes *)

(** A heap of one free block of two units, the break right after it. *)
Definition small_heap : heap := mkHeap {[100 := (200, 0); 200 := (100, 2); 208 := (0, 0)]} 100 216.

(** The count of units wraps: a request for the largest size is given a block
    of a header and no byte, its address past the heap. *)
Example malloc_wraps : exists h, malloc 100 (fun _ => true) (2 ^ 32 - 1) small_heap = Ret (216, h) /\ brk h = 216.
Proof. eexists. split; [vm_compute; reflexivity|reflexivity]. Qed.
(** The size given to [sbrk] is an [int]: a request just under 2^32 bytes takes
    memory from the process, and [malloc] then writes where it was. *)
Example malloc_shrinks : sbrk (fun _ => true) (s32 (u32 (units_for (2 ^ 32 - 32) * 8))) small_heap = Ret (216, set_brk 192 (set_units {[100 := (200, 0)]} small_heap)).
Proof. vm_compute. reflexivity. Qed.
Example malloc_writes_past_heap : malloc 100 (fun _ => true) (2 ^ 32 - 32) small_heap = Undef "header".
Proof. vm_compute. reflexivity. Qed.
