(* ===== verification/Console.v ===== *)
(** The console ([src/5/xv6/console.c], with the drivers under it, [kbd.c],
    [kbd.h] and [uart.c]): what is typed at the keyboard or the serial port is
    edited in a ring of 128 bytes, from which processes read lines; what is
    printed goes to the serial port and the screen.

    The devices are their state: the bytes waiting in the keyboard controller
    and in the serial port, the bytes sent to it, and the 25 rows of the screen
    with the cursor's registers.  A read runs until it returns or goes to sleep,
    and is resumed where it slept.  [ilock] and [iunlock] of the console's inode,
    and the lock that keeps lines printed apart, are left out. *)
From S2P Require Import Prelude Bytes.

Module Console.

(** ** The screen and the serial port *)

Record tty := mkTty { panicked : bool; uart : bool; sent : list Z; crt : list Z; cur_hi : Z; cur_lo : Z }.
Definition set_sent l t := mkTty (panicked t) (uart t) l (crt t) (cur_hi t) (cur_lo t).
Definition set_crt l t := mkTty (panicked t) (uart t) (sent t) l (cur_hi t) (cur_lo t).
Definition set_cursor h l t := mkTty (panicked t) (uart t) (sent t) (crt t) h l.

Definition BACKSPACE : Z := 256.

Definition crt_put (pos v : Z) : M tty unit :=
  t ← get; if (pos <? 0) || (zlen (crt t) <=? pos) then undef "crt" else modify (set_crt (zset (crt t) pos v)).

Definition cgaputc (c : Z) : M tty unit :=
  t ← get;
  let pos := Z.lor (Z.shiftl (cur_hi t) 8) (cur_lo t) in
  pos ← (if c =? 10 then mret (pos + (80 - pos mod 80))
         else if c =? BACKSPACE then mret (if pos >? 0 then pos - 1 else pos)
         else crt_put pos (Z.lor (Z.land c 255) 1792);; mret (pos + 1));
  pos ← (if pos / 80 >=? 24 then
           modify (fun t => set_crt (splice 0 (part 80 (23 * 80) (crt t)) (crt t)) t);;
           if 24 * 80 <? pos - 80 then undef "memset"
           else modify (fun t => set_crt (splice (pos - 80) (replicate (Z.to_nat (24 * 80 - (pos - 80))) 0) (crt t)) t);;
             mret (pos - 80)
         else mret pos);
  modify (set_cursor (Z.land (Z.shiftr pos 8) 255) (Z.land pos 255));;
  crt_put pos (Z.lor 32 1792).

Definition uartputc (c : Z) : M tty unit :=
  t ← get; if uart t then modify (set_sent (sent t ++ [c mod 256])) else mret tt.

Definition consputc (c : Z) : M tty unit :=
  t ← get;
  if panicked t then panic "frozen"
  else
    (if c =? BACKSPACE then uartputc 8;; uartputc 32;; uartputc 8 else uartputc c);;
    cgaputc c.

Fixpoint consputs (l : list Z) : M tty unit :=
  match l with [] => mret tt | c :: l => consputc c;; consputs l end.
(** [consolewrite] of the first [n] bytes of [b]. *)
Definition consolewrite (b : list Z) (n : Z) : M tty Z :=
  if zlen b <? n then undef "buf" else consputs (take (Z.to_nat n) b);; mret n.

(** ** The keyboard *)

Definition NO : Z := 0.
Definition SHIFT : Z := 1.
Definition CTL : Z := 2.
Definition ALT : Z := 4.
Definition CAPSLOCK : Z := 8.
Definition NUMLOCK : Z := 16.
Definition SCROLLLOCK : Z := 32.
Definition E0ESC : Z := 64.

(** An array of 256 with its first elements, and designated ones. *)
Definition table (l : list Z) (d : list (Z * Z)) : list Z :=
  fold_left (fun t p => zset t p.1 p.2) d (l ++ replicate (256 - length l) NO).
Definition C (x : Z) : Z := (x - 64) mod 256.

Definition shiftcode : list Z := table [] [(29, CTL); (42, SHIFT); (54, SHIFT); (56, ALT); (157, CTL); (184, ALT)].
Definition togglecode : list Z := table [] [(58, CAPSLOCK); (69, NUMLOCK); (70, SCROLLLOCK)].

(** The keys of the keypad that follow an escape. *)
Definition keypad (enter div : Z) : list (Z * Z) :=
  [(156, enter); (181, div); (200, 226); (208, 227); (201, 230); (209, 231); (203, 228); (205, 229); (151, 224); (207, 225); (210, 232); (211, 233)].

Definition dq : Z := 34.
Definition normalmap : list Z :=
  table ([NO; 27] ++ bytes "1234567890-=" ++ [8; 9] ++ bytes "qwertyuiop[]" ++ [10; NO] ++ bytes "asdfghjkl;'`" ++ [NO] ++ bytes "\zxcvbnm,./" ++
         [NO] ++ bytes "*" ++ [NO] ++ bytes " " ++ replicate 13 NO ++ bytes "789-456+1230.") (keypad 10 47).
Definition shiftmap : list Z :=
  table ([NO; 27] ++ bytes "!@#$%^&*()_+" ++ [8; 9] ++ bytes "QWERTYUIOP{}" ++ [10; NO] ++ bytes "ASDFGHJKL:" ++ [dq; 126] ++ [NO] ++ bytes "|ZXCVBNM<>?" ++
         [NO] ++ bytes "*" ++ [NO] ++ bytes " " ++ replicate 13 NO ++ bytes "789-456+1230.") (keypad 10 47).
Definition ctlmap : list Z :=
  table (replicate 16 NO ++ (C <$> bytes "QWERTYUIOP") ++ [NO; NO; 13; NO] ++ (C <$> bytes "ASDFGHJKL") ++ replicate 4 NO ++ (C <$> bytes "\ZXCVBNM") ++
         [NO; NO; C 47; NO; NO]) (keypad 13 (C 47)).
Definition charcode : list (list Z) := [normalmap; shiftmap; ctlmap; ctlmap].

(** ** Input *)

Definition INPUT_BUF : Z := 128.
Record input := mkInput { locked : bool; buf : list Z; r : Z; w : Z; e : Z }.
Definition set_locked b i := mkInput b (buf i) (r i) (w i) (e i).
Definition set_buf l i := mkInput (locked i) l (r i) (w i) (e i).
Definition set_r v i := mkInput (locked i) (buf i) v (w i) (e i).
Definition set_w v i := mkInput (locked i) (buf i) (r i) v (e i).
Definition set_e v i := mkInput (locked i) (buf i) (r i) (w i) v.

(** The console with the devices it reads: the codes waiting in the keyboard
    controller, [kbdgetc]'s shift state, the bytes waiting in the serial port;
    and the wakeups of readers. *)
Record console := mkCon { inp : input; out : tty; kbd : list Z; shift : Z; com : list Z; wakes : nat }.
Definition modi (f : input -> input) : M console unit := modify (fun s => mkCon (f (inp s)) (out s) (kbd s) (shift s) (com s) (wakes s)).
Definition wakeup : M console unit := modify (fun s => mkCon (inp s) (out s) (kbd s) (shift s) (com s) (S (wakes s))).
Definition put {A} (m : M tty A) : M console A := fun s =>
  match m (out s) with
  | Ret (a, t) => Ret (a, mkCon (inp s) t (kbd s) (shift s) (com s) (wakes s))
  | Panicked e => Panicked e
  | Undef e => Undef e
  | Blocked c => Blocked c
  | NoFuel => NoFuel
  end.

Definition acquire : M console unit := s ← get; if locked (inp s) then panic "acquire" else modi (set_locked true).
Definition release : M console unit := s ← get; if locked (inp s) then modi (set_locked false) else panic "release".

(** What [kbdgetc] makes of a code, with the shift state. *)
Definition decode (shift data : Z) : option (Z * Z) :=
  if data =? 224 then Some (0, Z.lor shift E0ESC)
  else if negb (Z.land data 128 =? 0) then
    let data := if negb (Z.land shift E0ESC =? 0) then data else Z.land data 127 in
    sc ← zget shiftcode data;
    Some (0, Z.ldiff shift (Z.lor sc E0ESC))
  else
    let esc := negb (Z.land shift E0ESC =? 0) in
    let data := if esc then Z.lor data 128 else data in
    let shift := if esc then Z.ldiff shift E0ESC else shift in
    sc ← zget shiftcode data;
    tc ← zget togglecode data;
    let shift := Z.lxor (Z.lor shift sc) tc in
    m ← zget charcode (Z.land shift (Z.lor CTL SHIFT));
    c ← zget m data;
    let c := if negb (Z.land shift CAPSLOCK =? 0) then
               if (97 <=? c) && (c <=? 122) then c - 32
               else if (65 <=? c) && (c <=? 90) then c + 32
               else c
             else c in
    Some (c, shift).
Definition kbdgetc : M console Z :=
  s ← get;
  match kbd s with
  | [] => mret (-1)
  | data :: l =>
      c ← deref "keymap" (decode (shift s) data);
      modify (fun s => mkCon (inp s) (out s) l c.2 (com s) (wakes s));;
      mret c.1
  end.
Definition uartgetc : M console Z :=
  s ← get;
  if negb (uart (out s)) then mret (-1)
  else match com s with
       | [] => mret (-1)
       | c :: l => modify (fun s => mkCon (inp s) (out s) (kbd s) (shift s) l (wakes s));; mret c
       end.

(** [case C('U')]. *)
Fixpoint kill_line (fuel : nat) : M console unit :=
  match fuel with
  | O => no_fuel
  | S fuel =>
      s ← get;
      let i := inp s in
      if e i =? w i then mret tt
      else
        c ← deref "buf" (zget (buf i) (u32 (e i - 1) mod INPUT_BUF));
        if c =? 10 then mret tt
        else modi (set_e (u32 (e i - 1)));; put (consputc BACKSPACE);; kill_line fuel
  end.
Definition backspace : M console unit :=
  s ← get;
  let i := inp s in
  if e i =? w i then mret tt else modi (set_e (u32 (e i - 1)));; put (consputc BACKSPACE).
(** [default]. *)
Definition type_char (c : Z) : M console unit :=
  s ← get;
  if negb (c =? 0) && (u32 (e (inp s) - r (inp s)) <? INPUT_BUF) then
    let c := if c =? 13 then 10 else c in
    modi (fun i => set_e (u32 (e i + 1)) (set_buf (zset (buf i) (e i mod INPUT_BUF) (c mod 256)) i));;
    put (consputc c);;
    s ← get;
    let i := inp s in
    if (c =? 10) || (c =? 4) || (e i =? u32 (r i + INPUT_BUF)) then modi (set_w (e i));; wakeup
    else mret tt
  else mret tt.

(** A character; [dump] is what [procdump] prints. *)
Definition take_char (dump : list Z) (c : Z) : M console unit :=
  if c =? 16 then put (consputs dump)
  else if c =? 21 then s ← get; kill_line (S (Z.to_nat (u32 (e (inp s) - w (inp s)))))
  else if (c =? 8) || (c =? 127) then backspace
  else type_char c.
Fixpoint intr_loop (fuel : nat) (dump : list Z) (getc : M console Z) : M console unit :=
  match fuel with
  | O => no_fuel
  | S fuel =>
      c ← getc;
      if c >=? 0 then take_char dump c;; intr_loop fuel dump getc else mret tt
  end.
Definition consoleintr (fuel : nat) (dump : list Z) (getc : M console Z) : M console unit :=
  acquire;; intr_loop fuel dump getc;; release.
Definition kbdintr (dump : list Z) : M console unit := s ← get; consoleintr (S (length (kbd s))) dump kbdgetc.
Definition uartintr (dump : list Z) : M console unit := s ← get; consoleintr (S (length (com s))) dump uartgetc.

(** How a run of [consoleread] ends: with the call's result, or asleep with [n]
    bytes left; and the bytes it has stored at [dst]. *)
Inductive outcome := Done (ret : Z) (data : list Z) | Asleep (n : Z) (data : list Z).

Fixpoint read_loop (killed : bool) (target : Z) (n : nat) (data : list Z) : M console outcome :=
  match n with
  | O => release;; mret (Done target data)
  | S m =>
      s ← get;
      let i := inp s in
      if r i =? w i then
        release;;
        mret (if killed then Done (-1) data else Asleep (Z.of_nat n) data)
      else
        c ← deref "buf" (zget (buf i) (r i mod INPUT_BUF));
        modi (set_r (u32 (r i + 1)));;
        if c =? 4 then
          (if Z.of_nat n <? target then modi (fun i => set_r (u32 (r i - 1)) i) else mret tt);;
          release;; mret (Done (target - Z.of_nat n) data)
        else if c =? 10 then release;; mret (Done (target - Z.of_nat m) (data ++ [c]))
        else read_loop killed target m (data ++ [c])
  end.
(** [consoleread] of [target] bytes, with [n] of them left. *)
Definition consoleread_from (killed : bool) (target n : Z) : M console outcome :=
  acquire;; read_loop killed target (Z.to_nat n) [].
Definition consoleread (killed : bool) (n : Z) : M console outcome :=
  if n <? 0 then acquire;; release;; mret (Done 0 []) else consoleread_from killed n n.

(** [consoleinit] and the boot before it: an empty buffer. *)
Definition boot (t : tty) : console := mkCon (mkInput false (replicate 128 0) 0 0 0) t [] 0 [] 0.
End Console.
