(* ===== verification/ConsoleSpec.v ===== *)
(** The console against an editor of lines: a log of the bytes of the lines
    typed so far, of which readers have taken a part, and the line being
    typed. *)
From S2P Require Import Prelude Bytes Console.
Import Console.

(** ** The specification *)

(** [typed]: all the bytes of the lines completed; [taken] of them have been
    read; [editing] is the line at the cursor; [echo] the characters printed. *)
Record editor := mkEd { typed : list Z; taken : nat; editing : list Z; echo : list Z }.
Definition waiting (x : editor) : list Z := drop (taken x) (typed x).
Definition room_left (x : editor) : bool := zlen (typed x) + zlen (editing x) - Z.of_nat (taken x) <? INPUT_BUF.
Definition add_echo l x := mkEd (typed x) (taken x) (editing x) (echo x ++ l).

(** What a character does. *)
Definition press (dump : list Z) (x : editor) (c : Z) : editor :=
  if c =? 16 then add_echo dump x
  else if c =? 21 then mkEd (typed x) (taken x) [] (echo x ++ replicate (length (editing x)) BACKSPACE)
  else if (c =? 8) || (c =? 127) then
    match editing x with [] => x | l => mkEd (typed x) (taken x) (removelast l) (echo x ++ [BACKSPACE]) end
  else if negb (c =? 0) && room_left x then
    let c := if c =? 13 then 10 else c in
    let x := mkEd (typed x) (taken x) (editing x ++ [c]) (echo x ++ [c]) in
    if (c =? 10) || (c =? 4) || negb (room_left x) then mkEd (typed x ++ editing x) (taken x) [] (echo x) else x
  else x.

(** The bytes a read takes: up to the end of a line or an end of file, which is
    left for the next read if this one has bytes. *)
Fixpoint take_line (target : Z) (n : nat) (q : list Z) : list Z * nat * bool :=
  match n, q with
  | O, _ => ([], 0%nat, true)
  | S m, [] => ([], 0%nat, false)
  | S m, c :: q =>
      if c =? 4 then ([], (if Z.of_nat n <? target then 0%nat else 1%nat), true)
      else if c =? 10 then ([c], 1%nat, true)
      else let '(d, k, b) := take_line target m q in (c :: d, S k, b)
  end.
Definition read_outcome (killed : bool) (target n : Z) (data : list Z) (t : list Z * nat * bool) : outcome :=
  let '(d, _, ended) := t in
  if ended then Done (target - (n - zlen d)) (data ++ d) else if killed then Done (-1) (data ++ d) else Asleep (n - zlen d) (data ++ d).

(** The characters the keyboard gives for some codes. *)
Fixpoint chars (shift : Z) (codes : list Z) : list Z :=
  match codes with
  | [] => []
  | k :: codes => match decode shift k with Some (c, shift) => c :: chars shift codes | None => [] end
  end.
Fixpoint shifted (shift : Z) (codes : list Z) : Z :=
  match codes with
  | [] => shift
  | k :: codes => match decode shift k with Some (_, shift) => shifted shift codes | None => shift end
  end.

(** ** Devices *)

(** What the serial port sends for a character. *)
Definition serial (c : Z) : list Z := if c =? BACKSPACE then [8; 32; 8] else [c mod 256].
Definition printed (u : bool) (l : list Z) : list Z := if u then mjoin (serial <$> l) else [].

Lemma printed_app u l l' : printed u (l ++ l') = printed u l ++ printed u l'.
Proof. destruct u; [|done]. unfold printed. by rewrite fmap_app, join_app. Qed.

Definition cursor (t : tty) : Z := Z.lor (Z.shiftl (cur_hi t) 8) (cur_lo t).
Record tty_ok (t : tty) : Prop := {
  to_live : panicked t = false;
  to_crt : zlen (crt t) = 2000;
  to_cursor : 0 <= cursor t < 2000
}.

Lemma cursor_bytes p : 0 <= p < 65536 -> Z.lor (Z.shiftl (Z.land (Z.shiftr p 8) 255) 8) (Z.land p 255) = p.
Proof.
  intros Hp. change 255 with (Z.ones 8). rewrite !Z.land_ones, Z.shiftr_div_pow2, Z.shiftl_mul_pow2 by lia.
  rewrite <- Z.add_nocarry_lor; [dlia|]. apply Z.bits_inj'. intros n Hn. rewrite Z.land_spec, Z.bits_0.
  destruct (Z.lt_ge_cases n 8); [by rewrite Z.mul_pow2_bits_low by lia|]. by rewrite (Z.mod_pow2_bits_high p 8) by lia; rewrite andb_false_r.
Qed.

Lemma crt_put_ok p v t : zlen (crt t) = 2000 -> 0 <= p < 2000 -> crt_put p v t = Ret (tt, set_crt (zset (crt t) p v) t).
Proof. intros Hl Hp. unfold crt_put. mnext. rewrite Hl, (proj2 (Z.ltb_ge p 0)), (proj2 (Z.leb_gt 2000 p)) by lia. done. Qed.

(** Every character leaves the cursor on the screen, and is sent. *)
Lemma cgaputc_ok c t : tty_ok t -> exists t', cgaputc c t = Ret (tt, t') /\ tty_ok t' /\ uart t' = uart t /\ sent t' = sent t.
Proof.
  intros [Hlive Hcrt Hcur]. unfold cgaputc. mnext. fold (cursor t). set (p := cursor t) in *. clearbody p.
  assert (exists p1 l1, ((if c =? 10 then mret (p + (80 - p mod 80)) else if c =? BACKSPACE then mret (if p >? 0 then p - 1 else p)
    else crt_put p (Z.lor (Z.land c 255) 1792);; mret (p + 1)) : M tty Z) t = Ret (p1, set_crt l1 t) /\ 0 <= p1 <= 2000 /\ zlen l1 = 2000) as (p1 & l1 & E1 & Hp1 & Hl1).
  { destruct (c =? 10); [exists (p + (80 - p mod 80)), (crt t); split; [by destruct t|split; [dlia|done]]|].
    destruct (c =? BACKSPACE); [exists (if p >? 0 then p - 1 else p), (crt t); split; [by destruct t|split; [destruct (Z.gtb_spec p 0); lia|done]]|].
    mstep (crt_put_ok p (Z.lor (Z.land c 255) 1792) t Hcrt Hcur). eexists _, _. split; [reflexivity|]. rewrite zlen_zset. lia. }
  mstep E1. clear E1.
  assert (exists p2 l2, ((if p1 / 80 >=? 24 then modify (fun t => set_crt (splice 0 (part 80 (23 * 80) (crt t)) (crt t)) t);;
    (if 24 * 80 <? p1 - 80 then undef "memset"
     else modify (fun t => set_crt (splice (p1 - 80) (replicate (Z.to_nat (24 * 80 - (p1 - 80))) 0) (crt t)) t);; mret (p1 - 80)) else mret p1) : M tty Z)
    (set_crt l1 t) = Ret (p2, set_crt l2 t) /\ 0 <= p2 < 2000 /\ zlen l2 = 2000) as (p2 & l2 & E2 & Hp2 & Hl2).
  { destruct (Z.geb_spec (p1 / 80) 24) as [G|L]; [|exists p1, l1; split; [done|split; [dlia|done]]].
    assert (1920 <= p1) by dlia. mnext. rewrite (proj2 (Z.ltb_ge (24 * 80) (p1 - 80))) by lia. mnext. eexists _, _. split; [reflexivity|]. split; [lia|].
    cbn [crt set_crt]. assert (H1 : zlen (splice 0 (part 80 (23 * 80) l1) l1) = 2000) by (rewrite zlen_splice; [done|lia|rewrite part_length; lia]).
    rewrite zlen_splice; [done|lia|]. unfold zlen at 1. rewrite length_replicate. lia. }
  mstep E2. mnext. erewrite crt_put_ok by done. eexists. split; [reflexivity|]. split; [|done].
  split; cbn; [done|by rewrite zlen_zset|]. unfold cursor. cbn. by rewrite cursor_bytes by lia.
Qed.

Lemma consputc_ok c t : tty_ok t -> exists t', consputc c t = Ret (tt, t') /\ tty_ok t' /\ uart t' = uart t /\ sent t' = sent t ++ printed (uart t) [c].
Proof.
  intros Ht. unfold consputc. mnext. rewrite (to_live t Ht).
  assert (exists t1, ((if c =? BACKSPACE then uartputc 8;; uartputc 32;; uartputc 8 else uartputc c) : M tty unit) t = Ret (tt, t1) /\ tty_ok t1 /\
    uart t1 = uart t /\ sent t1 = sent t ++ printed (uart t) [c]) as (t1 & E1 & Ht1 & Hu & Hs).
  { unfold printed, serial, uartputc. cbn. destruct Ht as [H1 H2 H3]. destruct t as [pn [] st ct h l], (c =? BACKSPACE); cbn in *; eexists;
      (split; [reflexivity|split; [by split|split; [done|]]]); cbn; by rewrite <- ?app_assoc, ?app_nil_r. }
  mstep E1. destruct (cgaputc_ok c t1 Ht1) as (t' & -> & Ht' & Hu' & Hs'). exists t'. split; [done|]. split; [done|]. by rewrite Hu', Hs'.
Qed.

Lemma consputs_ok l t : tty_ok t -> exists t', consputs l t = Ret (tt, t') /\ tty_ok t' /\ uart t' = uart t /\ sent t' = sent t ++ printed (uart t) l.
Proof.
  revert t. induction l as [|c l IH]; intros t Ht; cbn [consputs].
  - exists t. split; [done|]. split; [done|]. split; [done|]. destruct (uart t); cbn; by rewrite app_nil_r.
  - destruct (consputc_ok c t Ht) as (t1 & E1 & Ht1 & Hu1 & Hs1). mstep E1. destruct (IH t1 Ht1) as (t' & E & Ht' & Hu' & Hs').
    exists t'. split; [done|]. split; [done|]. split; [congruence|]. rewrite Hs', Hs1, Hu1, <- app_assoc, <- printed_app. done.
Qed.

(** ** The ring *)

(** The ring holds the part of the log not read and the line being typed, at
    their places in the log. *)
Record ring_ok (x : editor) (i : input) : Prop := {
  ro_buf : zlen (buf i) = 128;
  ro_r : r i = u32 (Z.of_nat (taken x));
  ro_w : w i = u32 (zlen (typed x));
  ro_e : e i = u32 (zlen (typed x) + zlen (editing x));
  ro_taken : Z.of_nat (taken x) <= zlen (typed x);
  ro_size : zlen (typed x) + zlen (editing x) - Z.of_nat (taken x) <= 128;
  ro_bytes k c : Z.of_nat (taken x) <= k -> zget (typed x ++ editing x) k = Some c -> zget (buf i) (k mod 128) = Some c
}.

Lemma zlen_snoc {A} (l : list A) c : zlen (l ++ [c]) = zlen l + 1.
Proof. by rewrite zlen_app. Qed.
Lemma u32_mod128 z : u32 z mod 128 = z mod 128.
Proof. unfold u32. dlia. Qed.
Lemma u32_eqb a b : Z.abs (a - b) < 2 ^ 32 -> (u32 a =? u32 b) = (a =? b).
Proof. intros H. unfold u32. destruct (Z.eqb_spec a b) as [->|N]; [by rewrite Z.eqb_refl|]. apply Z.eqb_neq. dlia. Qed.
Lemma u32_diff a b : 0 <= a - b < 2 ^ 32 -> u32 (u32 a - u32 b) = a - b.
Proof. intros H. rewrite u32_sub_l, u32_sub_r. by apply u32_small. Qed.

Lemma e_is_w x i : ring_ok x i -> (e i =? w i) = bool_decide (editing x = []).
Proof.
  intros [_ _ Hw He Ht Hs _]. unfold zlen in *. rewrite Hw, He, u32_eqb by lia. destruct (editing x); cbn; [|].
  - apply Z.eqb_eq. lia.
  - apply Z.eqb_neq. lia.
Qed.
Lemma r_is_w x i : ring_ok x i -> (r i =? w i) = bool_decide (waiting x = []).
Proof.
  intros [_ Hr Hw _ Ht Hs _]. unfold zlen in *. rewrite Hw, Hr, u32_eqb by lia. unfold waiting.
  destruct (Z.eqb_spec (Z.of_nat (taken x)) (Z.of_nat (length (typed x)))) as [E|N].
  - rewrite bool_decide_true; [done|]. apply drop_ge. lia.
  - rewrite bool_decide_false; [done|]. intros E. apply (f_equal length) in E. rewrite length_drop in E. cbn in E. lia.
Qed.
Lemma ring_room x i : ring_ok x i -> (u32 (e i - r i) <? INPUT_BUF) = room_left x.
Proof. intros [_ Hr _ He Ht Hs _]. unfold room_left, zlen in *. rewrite Hr, He, u32_diff by lia. done. Qed.

(** Characters in and out. *)
Lemma ring_typed x i c : ring_ok x i -> room_left x = true ->
  ring_ok (mkEd (typed x) (taken x) (editing x ++ [c]) (echo x)) (set_e (u32 (e i + 1)) (set_buf (zset (buf i) (e i mod INPUT_BUF) c) i)).
Proof.
  intros [Hb Hr Hw He Ht Hs Hc] Hroom. unfold room_left, INPUT_BUF in *. apply Z.ltb_lt in Hroom.
  assert (Hm : e i mod 128 = (zlen (typed x) + zlen (editing x)) mod 128) by by rewrite He, u32_mod128.
  split; cbn [typed taken editing echo buf r w e set_e set_buf]; [by rewrite zlen_zset|done|done| |done|rewrite zlen_snoc; lia|].
  - rewrite He, u32_add_l, zlen_snoc. f_equal. lia.
  - intros k d Hk Hd. rewrite Hm. rewrite app_assoc in Hd. pose proof (zget_Some_range _ _ _ Hd) as Hr'. rewrite zlen_snoc, zlen_app in Hr'.
    destruct (decide (k = zlen (typed x) + zlen (editing x))) as [->|Hne].
    + rewrite zget_zset_eq by dlia. rewrite zget_app_r in Hd by (rewrite zlen_app; lia). rewrite zlen_app in Hd. by rewrite Z.sub_diag in Hd.
    + rewrite zget_app_l in Hd by (rewrite zlen_app; lia). rewrite zget_zset_ne by dlia. by apply Hc.
Qed.
(** The line completed. *)
Lemma ring_commit x i : ring_ok x i -> ring_ok (mkEd (typed x ++ editing x) (taken x) [] (echo x)) (set_w (e i) i).
Proof.
  intros [Hb Hr Hw He Ht Hs Hc]. split; cbn [typed taken editing echo buf r w e set_w]; rewrite ?app_nil_r, ?zlen_app; [done|done|done| | | |done].
  - rewrite He. f_equal. unfold zlen. cbn. lia.
  - pose proof (zlen_nonneg (editing x)). lia.
  - unfold zlen at 3. cbn. lia.
Qed.
(** The last character erased. *)
Lemma ring_erase x i l c : ring_ok x i -> editing x = l ++ [c] ->
  zget (buf i) (u32 (e i - 1) mod INPUT_BUF) = Some c /\ ring_ok (mkEd (typed x) (taken x) l (echo x)) (set_e (u32 (e i - 1)) i).
Proof.
  intros [Hb Hr Hw He Ht Hs Hc] El. rewrite El in *. rewrite zlen_snoc in *. pose proof (zlen_nonneg l).
  assert (Ee : u32 (e i - 1) = u32 (zlen (typed x) + zlen l)) by (rewrite He, u32_sub_l; f_equal; lia). rewrite Ee. split.
  - unfold INPUT_BUF. rewrite u32_mod128. apply Hc; [lia|]. rewrite app_assoc, zget_app_r by (rewrite zlen_app; lia). by rewrite zlen_app, Z.sub_diag.
  - split; cbn [typed taken editing echo buf r w e set_e]; [done..|lia|]. intros k d Hk Hd. apply Hc; [done|]. rewrite app_assoc, zget_app_l; [done|].
    by eapply zget_Some_range.
Qed.
(** The next byte read. *)
Lemma ring_take x i c q : ring_ok x i -> waiting x = c :: q ->
  zget (buf i) (r i mod INPUT_BUF) = Some c /\ ring_ok (mkEd (typed x) (S (taken x)) (editing x) (echo x)) (set_r (u32 (r i + 1)) i) /\
  waiting (mkEd (typed x) (S (taken x)) (editing x) (echo x)) = q.
Proof.
  intros [Hb Hr Hw He Ht Hs Hc] Eq. unfold waiting in *. assert (El : typed x !! taken x = Some c) by (rewrite <- (Nat.add_0_r (taken x)), <- lookup_drop, Eq; done).
  pose proof (lookup_lt_Some _ _ _ El) as Hlt. split_and!.
  - rewrite Hr. unfold INPUT_BUF. rewrite u32_mod128. apply Hc; [lia|]. rewrite zget_app_l by (unfold zlen; lia).
    unfold zget. rewrite bool_decide_false by lia. by rewrite Nat2Z.id.
  - split; cbn [typed taken editing echo buf r w e set_r]; [done| |done|done|unfold zlen; lia|lia|].
    + rewrite Hr, u32_add_l. f_equal. lia.
    + intros k d Hk. apply Hc. lia.
  - cbn [typed taken]. rewrite (drop_S _ _ _ El) in Eq. by injection Eq.
Qed.

(** ** Input *)

Section Session.
(** Whether there is a serial port, and what was sent to it before. *)
Context (u : bool) (before : list Z).

Record con_ok (x : editor) (s : console) : Prop := {
  co_ring : ring_ok x (inp s);
  co_tty : tty_ok (out s);
  co_uart : uart (out s) = u;
  co_sent : sent (out s) = before ++ printed u (echo x)
}.
Definition line_ok (x : editor) : Prop := Forall (fun c => c <> 10) (editing x).
(** What typing and printing leave alone. *)
Definition same_in (s s' : console) : Prop :=
  kbd s' = kbd s /\ shift s' = shift s /\ com s' = com s /\ locked (inp s') = locked (inp s).
(** Readers are woken exactly when a line is completed. *)
Definition woken (x x' : editor) (s s' : console) : Prop :=
  typed x' = typed x /\ wakes s' = wakes s \/ (length (typed x) < length (typed x'))%nat /\ (wakes s < wakes s')%nat.
Lemma woken_trans x1 x2 x3 s1 s2 s3 : woken x1 x2 s1 s2 -> woken x2 x3 s2 s3 -> woken x1 x3 s1 s3.
Proof. unfold woken. intros [[E ->]|[? ?]] [[E' ->]|[? ?]]; [left; split; congruence|right; rewrite ?E', <- ?E; lia..]. Qed.
#[local] Instance same_in_trans : Transitive same_in.
Proof. intros s1 s2 s3 (?&?&?&?) (?&?&?&?). unfold same_in. split_and!; congruence. Qed.

Definition with_inp i s := mkCon i (out s) (kbd s) (shift s) (com s) (wakes s).

Lemma bind_modi {A} f (k : unit -> M console A) s : (modi f ≫= k) s = k tt (with_inp (f (inp s)) s).
Proof. done. Qed.

Lemma puts_ok l x s : con_ok x s -> exists s', put (consputs l) s = Ret (tt, s') /\ con_ok (add_echo l x) s' /\ same_in s s' /\ inp s' = inp s /\ wakes s' = wakes s.
Proof.
  intros [HR HT HU HS]. destruct (consputs_ok l (out s) HT) as (t' & E & Ht' & Hu' & Hs'). unfold put. rewrite E. eexists. split; [reflexivity|].
  split; [|done]. destruct HR. split; cbn; [by split|done|congruence|]. by rewrite Hs', HS, HU, printed_app, app_assoc.
Qed.
Lemma put1_ok c x s : con_ok x s -> exists s', put (consputc c) s = Ret (tt, s') /\ con_ok (add_echo [c] x) s' /\ same_in s s' /\ inp s' = inp s /\ wakes s' = wakes s.
Proof.
  intros Hx. destruct (puts_ok [c] x s Hx) as (s' & E & HH). exists s'. split; [|done]. rewrite <- E. unfold put. cbn [consputs].
  unfold mbind, M_bind. by destruct (consputc c (out s)) as [[[] ?]| | | |].
Qed.
Lemma inp_ok x x' s i : con_ok x s -> ring_ok x' i -> echo x' = echo x -> con_ok x' (with_inp i s).
Proof. intros [HR HT HU HS] HR' E. split; cbn; [done..|by rewrite E]. Qed.

Lemma erase_ok x s l c : con_ok x s -> editing x = l ++ [c] ->
  exists s', (modi (set_e (u32 (e (inp s) - 1)));; put (consputc BACKSPACE)) s = Ret (tt, s') /\
    con_ok (mkEd (typed x) (taken x) l (echo x ++ [BACKSPACE])) s' /\ same_in s s' /\ wakes s' = wakes s.
Proof.
  intros Hx El. destruct (ring_erase x (inp s) l c (co_ring _ _ Hx) El) as [_ HR].
  unfold modi. mnext. fold (with_inp (set_e (u32 (e (inp s) - 1)) (inp s)) s).
  destruct (put1_ok BACKSPACE _ _ (inp_ok x _ s _ Hx HR eq_refl)) as (s' & E & Hx' & Hsame & _ & Hw). exists s'. split; [exact E|]. split; [exact Hx'|]. by split.
Qed.
Lemma kill_ok fuel x s : con_ok x s -> line_ok x -> (length (editing x) < fuel)%nat ->
  exists s', kill_line fuel s = Ret (tt, s') /\ con_ok (mkEd (typed x) (taken x) [] (echo x ++ replicate (length (editing x)) BACKSPACE)) s' /\
    same_in s s' /\ wakes s' = wakes s.
Proof.
  revert x s. induction fuel as [|fuel IH]; intros x s Hx HL Hf; [lia|]. cbn [kill_line]. mnext. rewrite (e_is_w x) by apply Hx.
  destruct (editing x) as [|c l _] eqn:El using rev_ind.
  - rewrite bool_decide_true by done. exists s. cbn. rewrite app_nil_r. split; [done|]. split; [|done]. by destruct x, Hx; cbn in *; subst.
  - rewrite bool_decide_false by (by destruct l). destruct (ring_erase x (inp s) l c (co_ring _ _ Hx) El) as [Hc _]. rewrite Hc. mnext.
    unfold line_ok in HL. rewrite El in HL. apply Forall_app in HL as [HL1 HL]. apply Forall_cons in HL as [HL _].
    rewrite (proj2 (Z.eqb_neq c 10)) by done. destruct (erase_ok x s l c Hx El) as (s1 & E1 & Hx1 & Hs1 & Hw1).
    rewrite <- bind_assoc. mstep E1. rewrite length_app in Hf. cbn in Hf. destruct (IH _ s1 Hx1 HL1) as (s' & E & Hx' & Hs' & Hw'); [cbn; lia|].
    exists s'. split; [exact E|]. split; [|split; [by etrans|congruence]]. cbn [typed taken editing echo] in Hx'.
    rewrite length_app, Nat.add_comm. cbn [length Nat.add replicate]. by rewrite <- app_assoc in Hx'.
Qed.

(** One character. *)
Lemma take_char_ok dump c x s : con_ok x s -> line_ok x -> 0 <= c < 256 ->
  exists s', take_char dump c s = Ret (tt, s') /\ con_ok (press dump x c) s' /\ line_ok (press dump x c) /\ same_in s s' /\
    woken x (press dump x c) s s'.
Proof.
  intros Hx HL Hc. unfold take_char, press. destruct (c =? 16).
  { destruct (puts_ok dump x s Hx) as (s' & E & HH & Hs & _ & Hw). exists s'. split_and!; [done..|by left]. }
  destruct (c =? 21).
  { mnext. destruct (kill_ok (S (Z.to_nat (u32 (e (inp s) - w (inp s))))) x s Hx HL) as (s' & E & HH & Hs & Hw).
    - destruct (co_ring _ _ Hx) as [_ _ -> -> Hta Hsz _]. unfold zlen in *. rewrite u32_diff by lia. lia.
    - exists s'. split; [done|]. split; [done|]. split; [by constructor|]. split; [done|by left]. }
  destruct ((c =? 8) || (c =? 127)).
  { unfold backspace. mnext. rewrite (e_is_w x) by apply Hx. destruct (editing x) as [|d l _] eqn:El using rev_ind.
    - rewrite bool_decide_true by done. exists s. split_and!; [done..|by left].
    - rewrite bool_decide_false by (by destruct l). destruct (erase_ok x s l d Hx El) as (s' & E & HH & Hs & Hw). exists s'. split; [exact E|].
      destruct (l ++ [d]) as [|d' l'] eqn:En; [by destruct l|]. rewrite <- En, removelast_last. rewrite <- En in El. unfold line_ok in HL. rewrite El in HL.
      apply Forall_app in HL as [HL _]. split_and!; [done..|by left]. }
  unfold type_char. mnext. rewrite (ring_room x (inp s)) by apply Hx. destruct (negb (c =? 0) && room_left x) eqn:Eg; [|exists s; split_and!; [done..|by left]].
  apply andb_prop in Eg as [_ Hroom]. set (c1 := if c =? 13 then 10 else c). assert (Hc1 : 0 <= c1 < 256) by (unfold c1; destruct (c =? 13); lia). clearbody c1.
  rewrite (Z.mod_small c1) by done. unfold modi. mnext.
  pose proof (ring_typed x (inp s) c1 (co_ring _ _ Hx) Hroom) as HR1. set (i1 := set_e _ (set_buf _ (inp s))) in *. fold (with_inp i1 s).
  destruct (put1_ok c1 _ _ (inp_ok x _ s _ Hx HR1 eq_refl)) as (s1 & E1 & Hx1 & Hs1 & Hi1 & Hw1). mstep E1. mnext. rewrite Hi1. cbn [inp with_inp].
  cbn [typed taken editing echo add_echo] in *. set (x1 := mkEd (typed x) (taken x) (editing x ++ [c1]) (echo x ++ [c1])) in *.
  assert (Hfull : (e i1 =? u32 (r i1 + INPUT_BUF)) = negb (room_left x1)).
  { pose proof HR1 as [_ -> _ -> Ht Hsz _]. unfold room_left, INPUT_BUF in *. cbn [typed taken editing x1] in *. rewrite zlen_snoc in *. apply Z.ltb_lt in Hroom. unfold zlen in *.
    rewrite u32_add_l, u32_eqb by lia. destruct (Z.eqb_spec (Z.of_nat (length (typed x)) + (Z.of_nat (length (editing x)) + 1)) (Z.of_nat (taken x) + 128)), (Z.ltb_spec (Z.of_nat (length (typed x)) + (Z.of_nat (length (editing x)) + 1) - Z.of_nat (taken x)) 128); cbn; lia. }
  rewrite Hfull. destruct ((c1 =? 10) || (c1 =? 4) || negb (room_left x1)) eqn:Ec.
  - unfold modi. mnext. eexists. split; [reflexivity|]. pose proof (co_ring _ _ Hx1) as HR2. rewrite Hi1 in HR2. apply ring_commit in HR2.
    split; [|split; [by constructor|split; [exact Hs1|right; cbn; rewrite Hw1, !length_app; cbn; lia]]].
    cbn [inp with_inp] in HR2. pose proof (inp_ok x1 _ s1 _ Hx1 HR2 eq_refl) as Hx2. unfold with_inp in Hx2. rewrite Hi1. cbn. destruct Hx2 as [A1 A2 A3 A4]. by split.
  - apply orb_false_elim in Ec as [Ec _]. apply orb_false_elim in Ec as [Ec _]. apply Z.eqb_neq in Ec. exists s1. split; [done|]. split; [exact Hx1|].
    split; [apply Forall_app_2; [done|]; by repeat constructor|]. split; [exact Hs1|by left].
Qed.

(** ** Interrupts *)

(** What the handler can get from the devices: the state it reads, and what a
    call gets from it. *)
Notation dev := (list Z * Z * list Z)%type.
Definition dev_of (s : console) : dev := (kbd s, shift s, com s).
Definition with_dev (d : dev) s := mkCon (inp s) (out s) d.1.1 d.1.2 d.2 (wakes s).
Inductive drains (getc : M console Z) : dev -> list Z -> dev -> Prop :=
  | drains_nil d : (forall s, uart (out s) = u -> dev_of s = d -> getc s = Ret (-1, s)) -> drains getc d [] d
  | drains_cons d c d1 cs d2 : (forall s, uart (out s) = u -> dev_of s = d -> getc s = Ret (c, with_dev d1 s)) -> 0 <= c < 256 ->
      drains getc d1 cs d2 -> drains getc d (c :: cs) d2.

Definition presses (dump : list Z) (x : editor) (cs : list Z) : editor := fold_left (press dump) cs x.

Lemma intr_loop_ok getc dump d cs d2 : drains getc d cs d2 -> forall fuel x s, (length cs < fuel)%nat -> con_ok x s -> line_ok x -> dev_of s = d ->
  exists s', intr_loop fuel dump getc s = Ret (tt, s') /\ con_ok (presses dump x cs) s' /\ line_ok (presses dump x cs) /\
    dev_of s' = d2 /\ locked (inp s') = locked (inp s) /\ woken x (presses dump x cs) s s'.
Proof.
  induction 1 as [d Hg|d c d1 cs d2 Hg Hc Hd IH]; intros [|fuel] x s Hf Hx HL Hs; try (cbn in Hf; lia); cbn [intr_loop].
  - mstep (Hg s (co_uart _ _ Hx) Hs). exists s. split_and!; [done..|by left].
  - mstep (Hg s (co_uart _ _ Hx) Hs). rewrite (proj2 (Z.geb_le c 0)) by lia.
    assert (Hx1 : con_ok x (with_dev d1 s)) by (destruct Hx; by split).
    destruct (take_char_ok dump c x _ Hx1 HL Hc) as (s1 & E1 & Hx2 & HL2 & (Ek & Esh & Ec & El) & Hw1). mstep E1. cbn in Ek, Esh, Ec, El.
    destruct (IH fuel _ s1 ltac:(cbn in Hf; lia) Hx2 HL2) as (s' & E & HH & HL' & Hd' & Hl' & Hw'); [unfold dev_of; rewrite Ek, Esh, Ec; by destruct d1 as [[? ?] ?]|].
    exists s'. split; [exact E|]. split; [done|]. split; [done|]. split; [done|]. split; [congruence|]. by eapply woken_trans.
Qed.

Definition keymap (t : list Z) : Prop := zlen t = 256 /\ Forall (fun c => 0 <= c < 256) t.
Lemma keymaps : Forall keymap [shiftcode; togglecode; normalmap; shiftmap; ctlmap].
Proof. apply (bool_decide_unpack _). vm_compute. done. Qed.
Lemma keymap_get t i : keymap t -> 0 <= i < 256 -> exists c, zget t i = Some c /\ 0 <= c < 256.
Proof.
  intros [H1 H2] Hi. destruct (zget_range t i) as [c Hc]; [lia|]. exists c. split; [done|]. rewrite Forall_forall in H2. by eapply H2, zget_elem_of.
Qed.
Lemma charcode_get z : exists m, zget charcode (Z.land z (Z.lor CTL SHIFT)) = Some m /\ keymap m.
Proof.
  pose proof keymaps as (_ & (_ & (Hn & (Hs & (Hc & _)%Forall_cons)%Forall_cons)%Forall_cons)%Forall_cons)%Forall_cons.
  change (Z.lor CTL SHIFT) with (Z.ones 2). rewrite Z.land_ones by lia. change (2 ^ 2) with 4.
  assert (z mod 4 = 0 \/ z mod 4 = 1 \/ z mod 4 = 2 \/ z mod 4 = 3) as [->|[->|[->| ->]]] by dlia; [by exists normalmap|by exists shiftmap|by exists ctlmap..].
Qed.

Lemma decode_ok sh k : 0 <= k < 256 -> exists c sh', decode sh k = Some (c, sh') /\ 0 <= c < 256.
Proof.
  intros Hk. pose proof keymaps as (Hsc & (Htc & _)%Forall_cons)%Forall_cons.
  assert (H127 : forall z, 0 <= Z.land z 127 < 256) by (intros z; change 127 with (Z.ones 7); rewrite Z.land_ones by lia; dlia).
  unfold decode. destruct (Z.eqb_spec k 224); [eexists _, _; split; [reflexivity|lia]|]. destruct (negb (Z.land k 128 =? 0)) eqn:E80.
  - destruct (keymap_get shiftcode (if negb (Z.land sh E0ESC =? 0) then k else Z.land k 127) Hsc) as (sc & -> & _); [by destruct (negb (Z.land sh E0ESC =? 0))|].
    eexists _, _. split; [reflexivity|lia].
  - set (k1 := if negb (Z.land sh E0ESC =? 0) then Z.lor k 128 else k). set (sh1 := if negb (Z.land sh E0ESC =? 0) then _ else sh).
    assert (Hk1 : 0 <= k1 < 256).
    { unfold k1. destruct (negb (Z.land sh E0ESC =? 0)); [|done]. apply negb_false_iff, Z.eqb_eq in E80. pose proof (Z.add_lor_land k 128) as Ea. rewrite E80 in Ea.
      assert (k < 128); [|lia]. destruct (Z_lt_ge_dec k 128); [done|]. exfalso. assert (Z.testbit (Z.land k 128) 7 = true); [|by rewrite E80 in *].
      rewrite Z.land_spec. change (Z.testbit 128 7) with true. rewrite andb_true_r. apply Z.testbit_true; [done|]. change (2 ^ 7) with 128. dlia. }
    destruct (keymap_get shiftcode k1 Hsc Hk1) as (sc & -> & _), (keymap_get togglecode k1 Htc Hk1) as (tc & -> & _). cbn [mbind option_bind].
    destruct (charcode_get (Z.lxor (Z.lor sh1 sc) tc)) as (m & -> & Hm). cbn [mbind option_bind]. destruct (keymap_get m k1 Hm Hk1) as (c & -> & Hc). cbn [mbind option_bind].
    eexists _, _. split; [reflexivity|]. destruct (negb (Z.land (Z.lxor (Z.lor sh1 sc) tc) CAPSLOCK =? 0)); [|exact Hc]. destruct ((97 <=? c) && (c <=? 122)) eqn:E1; [|destruct ((65 <=? c) && (c <=? 90)) eqn:E2; [|done]].
    + apply andb_prop in E1 as [?%Z.leb_le ?%Z.leb_le]. lia.
    + apply andb_prop in E2 as [?%Z.leb_le ?%Z.leb_le]. lia.
Qed.

Lemma kbd_drains codes sh co : Forall (fun k => 0 <= k < 256) codes ->
  drains kbdgetc (codes, sh, co) (chars sh codes) ([], shifted sh codes, co).
Proof.
  intros HF. revert sh. induction HF as [|k codes Hk HF IH]; intros sh; cbn [chars shifted].
  - apply drains_nil. intros s _ [= Ek _ _]. unfold kbdgetc. mnext. by rewrite Ek.
  - destruct (decode_ok sh k Hk) as (c & sh' & Ed & Hc). rewrite Ed. eapply drains_cons; [|exact Hc|apply IH].
    intros s _ [= Ek Es Ec]. unfold kbdgetc. mnext. by rewrite Ek, Es, Ed, bind_deref, bind_modify, <- Ec.
Qed.
Lemma uart_drains l k sh : Forall (fun c => 0 <= c < 256) l -> drains uartgetc (k, sh, l) (if u then l else []) (k, sh, if u then [] else l).
Proof.
  destruct u eqn:Eu.
  - induction 1 as [|c l Hc HF IH]; [apply drains_nil|eapply drains_cons; [|exact Hc|exact IH]]; intros s Hu [= Ek Es Ec]; unfold uartgetc; mnext; rewrite Hu, Eu, Ec; [done|].
    cbn [negb]. mnext. by rewrite <- Ek, <- Es.
  - intros _. apply drains_nil. intros s Hu _. unfold uartgetc. mnext. by rewrite Hu, Eu.
Qed.

Lemma consoleintr_ok getc dump d cs d2 fuel x s : drains getc d cs d2 -> (length cs < fuel)%nat -> con_ok x s -> line_ok x -> dev_of s = d -> locked (inp s) = false ->
  exists s', consoleintr fuel dump getc s = Ret (tt, s') /\ con_ok (presses dump x cs) s' /\ line_ok (presses dump x cs) /\
    dev_of s' = d2 /\ locked (inp s') = false /\ woken x (presses dump x cs) s s'.
Proof.
  intros Hd Hf Hx HL Hs Hlk. unfold consoleintr, acquire. rewrite bind_assoc. mnext. rewrite Hlk. unfold modi. mnext. fold (with_inp (set_locked true (inp s)) s).
  assert (Hx1 : con_ok x (with_inp (set_locked true (inp s)) s)) by (apply inp_ok with (x := x); [done| |done]; destruct (co_ring _ _ Hx); by split).
  destruct (intr_loop_ok getc dump d cs d2 Hd fuel x _ Hf Hx1 HL Hs) as (s1 & E1 & Hx2 & HL2 & Hd2 & Hl2 & Hw2). mstep E1.
  unfold release. mnext. rewrite Hl2. cbn [locked inp with_inp set_locked]. unfold modi. eexists. split; [reflexivity|].
  split; [apply (inp_ok (presses dump x cs) _ s1 (set_locked false (inp s1)) Hx2); [|done]; destruct (co_ring _ _ Hx2); by split|]. done.
Qed.

(** ** Reads *)

Lemma read_loop_ok killed target n x s data : con_ok x s -> locked (inp s) = true ->
  exists s', read_loop killed target n data s = Ret (read_outcome killed target (Z.of_nat n) data (take_line target n (waiting x)), s') /\
    con_ok (mkEd (typed x) (taken x + (take_line target n (waiting x)).1.2) (editing x) (echo x)) s' /\ dev_of s' = dev_of s /\ locked (inp s') = false.
Proof.
  assert (Hrel : forall x s, con_ok x s -> locked (inp s) = true -> exists s', release s = Ret (tt, s') /\ con_ok (mkEd (typed x) (taken x + 0) (editing x) (echo x)) s' /\
    dev_of s' = dev_of s /\ locked (inp s') = false).
  { intros y t Hy Hl. unfold release. mnext. rewrite Hl. unfold modi. eexists. split; [reflexivity|]. rewrite Nat.add_0_r. split; [|done].
    apply (inp_ok y _ t (set_locked false (inp t)) Hy); [|done]. destruct (co_ring _ _ Hy); by split. }
  revert x s data. induction n as [|n IH]; intros x s data Hx Hl; cbn [read_loop take_line].
  - destruct (Hrel x s Hx Hl) as (s' & E & Hx' & HH). mstep E. exists s'. split; [|done]. cbn. by rewrite app_nil_r, Z.sub_0_r.
  - mnext. rewrite (r_is_w x) by apply Hx. destruct (waiting x) as [|c q] eqn:Eq.
    + rewrite bool_decide_true by done. destruct (Hrel x s Hx Hl) as (s' & E & Hx' & HH). mstep E. exists s'. split; [|done].
      cbn [read_outcome]. rewrite app_nil_r. unfold zlen. cbn [length]. by rewrite Z.sub_0_r.
    + rewrite bool_decide_false by done. destruct (ring_take x (inp s) c q (co_ring _ _ Hx) Eq) as (Hc & HR & Eq'). rewrite Hc. mnext. rewrite bind_modi.
      assert (Hx1 := inp_ok x _ s _ Hx HR eq_refl).
      destruct (c =? 4).
      * assert (Hret : forall k, con_ok (mkEd (typed x) (taken x + k) (editing x) (echo x)) (with_inp (if Z.of_nat (S n) <? target then set_r (r (inp s)) (inp s) else set_r (u32 (r (inp s) + 1)) (inp s)) s) ->
          exists s', ((if Z.of_nat (S n) <? target then modi (fun i => set_r (u32 (r i - 1)) i) else mret tt);; release;; mret (Done (target - Z.of_nat (S n)) data))
            (with_inp (set_r (u32 (r (inp s) + 1)) (inp s)) s) = Ret (Done (target - Z.of_nat (S n)) data, s') /\
            con_ok (mkEd (typed x) (taken x + k) (editing x) (echo x)) s' /\ dev_of s' = dev_of s /\ locked (inp s') = false).
        { intros k Hk. assert (Er : u32 (u32 (r (inp s) + 1) - 1) = r (inp s)).
          { rewrite u32_sub_l. replace (r (inp s) + 1 - 1) with (r (inp s)) by lia. destruct (co_ring _ _ Hx) as [_ -> _ _ _ _ _]. by rewrite u32_idemp. }
          destruct (Hrel _ _ Hk) as (s' & E & Hx' & HH); [by destruct (_ <? _)|]. exists s'. rewrite Nat.add_0_r in Hx'. split; [|by split].
          destruct (Z.of_nat (S n) <? target); [rewrite bind_modi|rewrite bind_mret]; cbn [with_inp inp set_r r] in *; [|by mstep E].
          rewrite Er. unfold with_inp, set_r in *. cbn in *. by mstep E. }
        destruct (Z.of_nat (S n) <? target).
        -- destruct (Hret 0%nat) as (s' & E & HH); [|].
           { rewrite Nat.add_0_r. apply (inp_ok x _ s _ Hx); [|done]. destruct (co_ring _ _ Hx). by split. }
           exists s'. cbn. rewrite app_nil_r. unfold zlen. cbn [length]. rewrite Z.sub_0_r. by rewrite E.
        -- destruct (Hret 1%nat) as (s' & E & HH); [|].
           { by rewrite Nat.add_1_r. }
           exists s'. cbn. rewrite app_nil_r. unfold zlen. cbn [length]. rewrite Z.sub_0_r. by rewrite E.
      * destruct (c =? 10).
        -- destruct (Hrel _ _ Hx1 Hl) as (s' & E & Hx' & HH). mstep E. exists s'. split; [|split; [|exact HH]].
           ++ unfold mret, M_ret, read_outcome, zlen. cbn [length]. do 3 f_equal. lia.
           ++ cbn in Hx' |- *. by replace (taken x + 1)%nat with (S (taken x + 0)) by lia.
        -- destruct (IH _ _ (data ++ [c]) Hx1 Hl) as (s' & E & Hx' & HH). rewrite Eq' in *. exists s'. destruct (take_line target n q) as [[d k] b] eqn:Et.
           split; [|split; [|exact HH]].
           ++ rewrite E. unfold read_outcome. rewrite <- app_assoc. unfold zlen. cbn [length app]. do 2 f_equal. destruct b; [|destruct killed]; f_equal; lia.
           ++ cbn in Hx' |- *. by replace (taken x + S k)%nat with (S (taken x + k)) by lia.
Qed.

(** ** Sessions *)

(** Codes from the keyboard or bytes from the serial port, each with what
    [procdump] would print; a run of a read; a write. *)
Inductive event :=
  | Keys (codes dump : list Z) | Serial (l dump : list Z)
  | Read (killed : bool) (target n : Z) | Write (b : list Z).
Inductive result := Typed (woke : bool) | Got (o : outcome) | Wrote (n : Z).
Definition event_ok (v : event) : Prop :=
  match v with Keys l _ | Serial l _ => Forall (fun c => 0 <= c < 256) l | Read _ _ n => 0 <= n | Write _ => True end.

Definition woke_readers (m : M console unit) : M console result :=
  s ← get; m;; s' ← get; mret (Typed (wakes s <? wakes s')%nat).
Definition do_event (v : event) : M console result :=
  match v with
  | Keys l dump => modify (fun s => with_dev (kbd s ++ l, shift s, com s) s);; woke_readers (kbdintr dump)
  | Serial l dump => modify (fun s => with_dev (kbd s, shift s, com s ++ l) s);; woke_readers (uartintr dump)
  | Read killed target n => o ← consoleread_from killed target n; mret (Got o)
  | Write b => n ← put (consolewrite b (zlen b)); mret (Wrote n)
  end.
Fixpoint do_events (vs : list event) : M console (list result) :=
  match vs with [] => mret [] | v :: vs => o ← do_event v; os ← do_events vs; mret (o :: os) end.

(** What the editor and the keyboard's shift state make of them. *)
Definition spec_event (x : editor) (sh : Z) (v : event) : result * editor * Z :=
  match v with
  | Keys l dump => let x' := presses dump x (chars sh l) in (Typed (length (typed x) <? length (typed x'))%nat, x', shifted sh l)
  | Serial l dump => let x' := presses dump x (if u then l else []) in (Typed (length (typed x) <? length (typed x'))%nat, x', sh)
  | Read killed target n =>
      let t := take_line target (Z.to_nat n) (waiting x) in
      (Got (read_outcome killed target n [] t), mkEd (typed x) (taken x + t.1.2) (editing x) (echo x), sh)
  | Write b => (Wrote (zlen b), add_echo b x, sh)
  end.
Fixpoint spec_events (x : editor) (sh : Z) (vs : list event) : list result * editor :=
  match vs with
  | [] => ([], x)
  | v :: vs => let '(o, x, sh) := spec_event x sh v in let '(os, x) := spec_events x sh vs in (o :: os, x)
  end.

(** Between events. *)
Record idle (x : editor) (sh : Z) (s : console) : Prop := {
  id_con : con_ok x s;
  id_line : line_ok x;
  id_lock : locked (inp s) = false;
  id_kbd : kbd s = [];
  id_shift : shift s = sh;
  id_com : u = true -> com s = []
}.

Lemma woken_wakes x x' s s' : woken x x' s s' -> (wakes s <? wakes s')%nat = (length (typed x) <? length (typed x'))%nat.
Proof.
  intros [[-> ->]|[H1 H2]]; [by rewrite !Nat.ltb_irrefl|]. by rewrite (proj2 (Nat.ltb_lt _ _) H1), (proj2 (Nat.ltb_lt _ _) H2).
Qed.

Lemma do_event_ok v x sh s : idle x sh s -> event_ok v -> let '(o, x', sh') := spec_event x sh v in exists s', do_event v s = Ret (o, s') /\ idle x' sh' s'.
Proof.
  intros [Hx HL Hlk Hk Hsh Hco] Hv. destruct v as [l dump|l dump|killed target n|b]; cbn [do_event spec_event event_ok] in *.
  - unfold woke_readers, kbdintr. mnext. mnext. rewrite bind_assoc, bind_get. rewrite Hk, Hsh. cbn [app]. set (s1 := with_dev _ s).
    assert (Hx1 : con_ok x s1) by (destruct Hx; by split).
    destruct (consoleintr_ok kbdgetc dump _ _ _ (S (length (kbd s1))) x s1 (kbd_drains l sh (com s) Hv)) as (s' & E & Hx' & HL' & Hd' & Hl' & Hw'); [|done..|].
    { cbn. apply Nat.lt_succ_r. clear. revert sh. induction l as [|k l IH]; intros sh; cbn; [done|]. destruct (decode sh k) as [[c sh']|]; cbn; [specialize (IH sh'); lia|lia]. }
    mstep E. mnext. exists s'. rewrite (woken_wakes _ _ _ _ Hw'). split; [done|]. injection Hd' as ? ? Hc'. split; [done..|]. intros Hu. rewrite Hc'. auto.
  - unfold woke_readers, uartintr. mnext. mnext. rewrite bind_assoc, bind_get. set (s1 := with_dev _ s).
    assert (Hx1 : con_ok x s1) by (destruct Hx; by split).
    assert (Hdr : exists co, drains uartgetc (kbd s, shift s, com s ++ l) (if u then l else []) (kbd s, shift s, co) /\ (u = true -> co = [])).
    { destruct u eqn:Eu.
      - rewrite (Hco eq_refl). exists []. split; [|done]. pose proof (uart_drains l (kbd s) (shift s) Hv) as HD. by rewrite Eu in HD.
      - exists (com s ++ l). split; [|done]. apply drains_nil. intros s2 Hu2 _. unfold uartgetc. mnext. by rewrite Hu2, Eu. }
    destruct Hdr as (co & Hdr & Hco').
    destruct (consoleintr_ok uartgetc dump _ _ _ (S (length (com s1))) x s1 Hdr) as (s' & E & Hx' & HL' & Hd' & Hl' & Hw'); [|done..|].
    { cbn. rewrite length_app. destruct u; cbn; lia. }
    mstep E. mnext. exists s'. rewrite (woken_wakes _ _ _ _ Hw'). split; [done|]. injection Hd' as ? ? Hc'. split; [done..|congruence|congruence|]. intros Hu. rewrite Hc'. auto.
  - unfold consoleread_from, acquire. rewrite !bind_assoc, bind_get, Hlk, bind_modi.
    assert (Hx1 : con_ok x (with_inp (set_locked true (inp s)) s)) by (apply (inp_ok x _ s _ Hx); [|done]; destruct (co_ring _ _ Hx); by split).
    destruct (read_loop_ok killed target (Z.to_nat n) x _ [] Hx1 eq_refl) as (s' & E & Hx' & Hd' & Hl'). rewrite Z2Nat.id in E by done.
    mstep E. exists s'. split; [done|]. injection Hd' as Ek Es Ec. split; [done..|congruence|congruence|]. intros Hu. rewrite Ec. auto.
  - assert (Ew : put (consolewrite b (zlen b)) s = (put (consputs b);; mret (zlen b)) s).
    { unfold put, consolewrite, mbind, M_bind. rewrite Z.ltb_irrefl. unfold zlen. rewrite Nat2Z.id, firstn_all. by destruct (consputs b (out s)) as [[[] ?]| | | |]. }
    destruct (puts_ok b x s Hx) as (s' & E & Hx' & (Ek & Es & Ec & El) & _). unfold mbind at 1, M_bind. rewrite Ew. unfold mbind, M_bind. rewrite E. exists s'. split; [done|].
    split; [done..|congruence|congruence|congruence|]. intros Hu. rewrite Ec. auto.
Qed.

Lemma do_events_ok vs x sh s : idle x sh s -> Forall event_ok vs ->
  exists s' sh', do_events vs s = Ret ((spec_events x sh vs).1, s') /\ idle (spec_events x sh vs).2 sh' s'.
Proof.
  revert x sh s. induction vs as [|v vs IH]; intros x sh s Hs HF; [by exists s, sh|]. apply Forall_cons in HF as [Hv HF]. cbn [do_events spec_events].
  pose proof (do_event_ok v x sh s Hs Hv) as H1. destruct (spec_event x sh v) as [[o x1] sh1]. destruct H1 as (s1 & E1 & Hs1). mstep E1.
  destruct (IH x1 sh1 s1 Hs1 HF) as (s' & sh' & E & Hs'). exists s', sh'. mstep E. destruct (spec_events x1 sh1 vs). done.
Qed.
End Session.

Lemma boot_ok t : tty_ok t -> idle (uart t) (sent t) (mkEd [] 0 [] []) 0 (boot t).
Proof.
  intros Ht. split; [|constructor|done..]. split; [|done|done|].
  - split; [done..|]. intros k c _ Hc. apply zget_Some_range in Hc. unfold zlen in Hc. cbn in Hc. lia.
  - cbn. destruct (uart t); cbn; by rewrite app_nil_r.
Qed.

(** C19: under any sequence of keyboard and serial interrupts, reads (by any
    processes, resumed or killed) and writes, the console's ring with its
    wrapping indices does what the line editor does: erasing and killing stop at
    the line's start, completed lines go to readers once and in order, line by
    line, readers are woken exactly when a line is completed, the characters
    echoed are the editor's, and the cursor never leaves the screen. *)
Theorem console_edits_lines t vs : tty_ok t -> Forall event_ok vs ->
  let '(rs, x) := spec_events (uart t) (mkEd [] 0 [] []) 0 vs in
  exists s', do_events vs (boot t) = Ret (rs, s') /\ tty_ok (out s') /\ sent (out s') = sent t ++ printed (uart t) (echo x).
Proof.
  intros Ht Hvs. destruct (do_events_ok (uart t) (sent t) vs _ _ _ (boot_ok t Ht) Hvs) as (s' & sh & E & Hs').
  destruct (spec_events _ _ _ _) as [rs x]. exists s'. split; [done|]. destruct (id_con _ _ _ _ _ Hs') as [_ H1 _ H2]. done.
Qed.

(** ** A line typed at the keyboard *)

(** The codes of a key pressed and released, with shift held if it must be. *)
Definition find_key (m : list Z) (c : Z) : option Z := (fun p => Z.of_nat p.1) <$> list_find (fun x => x = c) (take 84 m).
Definition keys (c : Z) : list Z :=
  match find_key normalmap c, find_key shiftmap c with
  | Some k, _ => [k; k + 128]
  | None, Some k => [42; k; k + 128; 170]
  | None, None => []
  end.

Definition printable (c : Z) : Prop := 32 <= c <= 126.
Lemma keys_ok c : printable c ->
  Forall (fun k => 0 <= k < 256) (keys c) /\ filter (fun c => c <> 0) (chars 0 (keys c)) = [c] /\ shifted 0 (keys c) = 0.
Proof.
  intros Hc. assert (HF : Forall (fun c => Forall (fun k => 0 <= k < 256) (keys c) /\ filter (fun c => c <> 0) (chars 0 (keys c)) = [c] /\ shifted 0 (keys c) = 0) (seqZ 32 95))
    by (apply (bool_decide_unpack _); vm_compute; done).
  rewrite Forall_forall in HF. apply HF, elem_of_seqZ. unfold printable in Hc. lia.
Qed.

Lemma chars_app sh l l' : Forall (fun k => 0 <= k < 256) l -> chars sh (l ++ l') = chars sh l ++ chars (shifted sh l) l' /\ shifted sh (l ++ l') = shifted (shifted sh l) l'.
Proof.
  intros HF. revert sh. induction HF as [|k l Hk HF IH]; intros sh; [done|]. cbn. destruct (decode_ok sh k Hk) as (c & sh' & -> & _). destruct (IH sh') as [-> ->]. done.
Qed.
Lemma keys_line line : Forall printable line ->
  Forall (fun k => 0 <= k < 256) (mjoin (keys <$> line)) /\ filter (fun c => c <> 0) (chars 0 (mjoin (keys <$> line))) = line /\ shifted 0 (mjoin (keys <$> line)) = 0.
Proof.
  induction 1 as [|c line Hc HF (IH1 & IH2 & IH3)]; [done|].
  change (mjoin (keys <$> c :: line)) with (keys c ++ mjoin (keys <$> line)). destruct (keys_ok c Hc) as (H1 & H2 & H3).
  destruct (chars_app 0 (keys c) (mjoin (keys <$> line)) H1) as [-> ->]. rewrite H3, filter_app, H2, IH2, IH3. split; [by apply Forall_app_2|done].
Qed.

Lemma presses_filter dump x cs : presses dump x (filter (fun c => c <> 0) cs) = presses dump x cs.
Proof.
  revert x. induction cs as [|c cs IH]; intros x; [done|]. rewrite filter_cons. unfold presses in *. cbn [fold_left].
  destruct (decide (c <> 0)) as [|Hc]; [apply IH|]. apply dec_stable in Hc. subst c. by rewrite IH.
Qed.
Lemma presses_line dump x line : Forall printable line -> zlen (typed x) + zlen (editing x) + zlen line - Z.of_nat (taken x) < 128 ->
  presses dump x line = mkEd (typed x) (taken x) (editing x ++ line) (echo x ++ line).
Proof.
  intros HF. revert x. induction HF as [|c line Hc HF IH]; intros x Hsz; [destruct x; cbn; by rewrite !app_nil_r|]. unfold presses in *. cbn [fold_left].
  unfold printable in Hc. assert (Hl : zlen (c :: line) = zlen line + 1) by (unfold zlen; cbn; lia). pose proof (zlen_nonneg line). unfold press at 2.
  rewrite !(proj2 (Z.eqb_neq c _)) by lia. cbn [orb negb andb]. unfold room_left, INPUT_BUF. cbn [typed taken editing].
  rewrite (proj2 (Z.ltb_lt _ 128)) by lia. rewrite zlen_snoc, (proj2 (Z.ltb_lt _ 128)) by lia. cbn [negb].
  rewrite IH by (cbn; rewrite zlen_snoc; lia). cbn. by rewrite <- !app_assoc.
Qed.
Lemma take_line_ends target n l : Forall printable l -> (length l < n)%nat -> take_line target n (l ++ [10]) = (l ++ [10], S (length l), true).
Proof.
  intros HF. revert n. induction HF as [|c l Hc HF IH]; intros [|n] Hn; cbn in Hn; try lia; [done|]. unfold printable in Hc. cbn [app take_line].
  rewrite !(proj2 (Z.eqb_neq c _)) by lia. rewrite IH by lia. done.
Qed.

(** A line of printable characters typed on the keyboard, shift pressed and
    released where it is needed, and entered, is what a process that reads then
    gets, with the newline. *)
Theorem typed_line_is_read t line n : tty_ok t -> Forall printable line -> zlen line < n -> zlen line <= 127 ->
  exists s', do_events [Keys (mjoin (keys <$> line) ++ [28; 156]) []; Read false n n] (boot t) = Ret ([Typed true; Got (Done (zlen line + 1) (line ++ [10]))], s').
Proof.
  intros Ht HF Hn Hlen. destruct (keys_line line HF) as (K1 & K2 & K3).
  assert (Hev : Forall event_ok [Keys (mjoin (keys <$> line) ++ [28; 156]) []; Read false n n]).
  { constructor; [apply Forall_app_2; [done|]; repeat (constructor; [lia|]); constructor|]. constructor; [|constructor]. cbn. pose proof (zlen_nonneg line). lia. }
  destruct (do_events_ok _ _ _ _ _ _ (boot_ok t Ht) Hev) as (s' & sh & -> & _). exists s'. do 2 f_equal. cbn [spec_events spec_event].
  destruct (chars_app 0 _ [28; 156] K1) as [-> _]. rewrite K3. change (chars 0 [28; 156]) with [10; 0]. unfold presses. rewrite fold_left_app.
  fold (presses [] (mkEd [] 0 [] []) (chars 0 (mjoin (keys <$> line)))). rewrite <- presses_filter, K2, presses_line by first [done|unfold zlen in *; cbn in *; lia].
  cbn [fold_left typed taken editing echo app]. 
  assert (E10 : press [] (mkEd [] 0 line line) 10 = mkEd (line ++ [10]) 0 [] (line ++ [10])).
  { unfold press. cbn [Z.eqb Pos.eqb orb negb andb]. unfold room_left, INPUT_BUF. cbn [typed taken editing echo]. rewrite (proj2 (Z.ltb_lt _ 128)); [done|]. unfold zlen in *. cbn. lia. }
  rewrite E10. cbn. unfold waiting. cbn. rewrite drop_0, take_line_ends by (try done; unfold zlen in *; lia). cbn.
  rewrite zlen_snoc. replace (n - (n - (zlen line + 1))) with (zlen line + 1) by lia. by destruct line.
Qed.

(** A blank screen with the cursor at the top, and a serial port. *)
Definition blank_tty : tty := mkTty false true [] (replicate 2000 0) 0 0.
Lemma blank_tty_ok : tty_ok blank_tty.
Proof. by split. Qed.

(** A session: a line typed with a mistake, rubbed out with backspace, while a
    reader of ten bytes waits; a kill of a second line, and an end of file. *)
Definition a_session : list event :=
  [Read false 10 10; Serial (bytes "lx" ++ [8] ++ bytes "s") []; Write (bytes "$ "); Serial [13] []; Read false 10 10;
   Serial (bytes "rm -r" ++ [21; 4]) []; Read false 10 10].
Lemma console_edits_lines_witness :
  Forall event_ok a_session /\
  exists s', do_events a_session (boot blank_tty) =
    Ret ([Got (Asleep 10 []); Typed false; Wrote 2; Typed true; Got (Done 3 (bytes "ls" ++ [10])); Typed true; Got (Done 0 [])], s') /\
    tty_ok (out s') /\ sent (out s') = bytes "lx" ++ [8; 32; 8] ++ bytes "s$ " ++ [10] ++ bytes "rm -r" ++ mjoin (replicate 5 [8; 32; 8]) ++ [4].
Proof.
  assert (H : Forall event_ok a_session) by (unfold a_session; repeat (constructor; cbn; [try (apply (bool_decide_unpack _); vm_compute; done); try lia|]); constructor).
  split; [exact H|]. exact (console_edits_lines blank_tty a_session blank_tty_ok H).
Defined.
Lemma typed_line_is_read_witness :
  Forall printable (bytes "Hello, World!") /\
  exists s', do_events [Keys (mjoin (keys <$> bytes "Hello, World!") ++ [28; 156]) []; Read false 100 100] (boot blank_tty) =
    Ret ([Typed true; Got (Done 14 (bytes "Hello, World!" ++ [10]))], s').
Proof.
  assert (H : Forall printable (bytes "Hello, World!")) by (change (Forall (fun c => 32 <= c <= 126) (bytes "Hello, World!")); apply (bool_decide_unpack _); vm_compute; done).
  split; [exact H|]. apply (typed_line_is_read blank_tty (bytes "Hello, World!") 100 blank_tty_ok H); vm_compute; [done|discriminate].
Defined.

(** A reader killed in its sleep fails, though it has stored bytes: they are
    lost to every reader. *)
Example killed_read_loses_bytes : exists s',
  do_events [Serial (replicate 128 97) []; Read false 200 200; Read true 200 72; Read false 10 10] (boot blank_tty) =
    Ret ([Typed true; Got (Asleep 72 (replicate 128 97)); Got (Done (-1) []); Got (Asleep 10 [])], s').
Proof. eexists. vm_compute. reflexivity. Qed.
