(* ===== verification/Printf.v ===== *)
(** Formatted output: the user library's [printf] ([src/5/xv6/printf.c]) and
    [atoi] ([ulib.c]), the kernel's [cprintf] ([console.c]); and what [wc] does
    with a character.

    An argument is its 32-bit word; the string at an address is a parameter.
    What is printed is the bytes written.  [-xx] is taken to wrap. *)
From S2P Require Import Prelude Bytes Console Sh.

Module Printf.

(** Outcomes of code that only computes. *)
Definition emit (t : list Z) (r : res (list Z)) : res (list Z) :=
  match r with Ret l => Ret (t ++ l) | e => e end.
Definition rbind {A B} (r : res A) (k : A -> res B) : res B :=
  match r with
  | Ret a => k a
  | Panicked m => Panicked m | Undef w => Undef w | Blocked c => Blocked c | NoFuel => NoFuel
  end.

(** The loop of [printint]: the digits pushed in [buf], last first, and the
    places left in it. *)
Fixpoint push_digits (places : nat) (digits : list Z) (base x : Z) (buf : list Z) : res (list Z * nat) :=
  match places with
  | O => Undef "buf"
  | S places =>
      match zget digits (x mod base) with
      | None => Undef "digits"
      | Some d => if x / base =? 0 then Ret (d :: buf, places) else push_digits places digits base (x / base) (d :: buf)
      end
  end.
Definition print_number (digits : list Z) (xx base : Z) (sgn : bool) : res (list Z) :=
  let neg := sgn && (xx <? 0) in
  let x := if neg then u32 (- xx) else u32 xx in
  rbind (push_digits 16 digits base x []) (fun '(buf, places) =>
    if neg then match places with O => Undef "buf" | S _ => Ret (45 :: buf) end else Ret buf).

Definition next_arg (ap : list Z) (k : Z -> list Z -> res (list Z)) : res (list Z) :=
  match ap with [] => Undef "argument" | a :: ap => k a ap end.

Section Printf.
(** The string at an address. *)
Variable str_at : Z -> list Z.

(** ** [printf] *)

Definition printint (xx base : Z) (sgn : bool) : res (list Z) := print_number (bytes "0123456789ABCDEF") xx base sgn.

(** From a state: whether a [%] has just been read. *)
Fixpoint printf_loop (fmt : list Z) (pct : bool) (ap : list Z) : res (list Z) :=
  match fmt with
  | [] => Ret []
  | c :: fmt =>
      if negb pct then if c =? 37 then printf_loop fmt true ap else emit [c] (printf_loop fmt false ap)
      else if c =? 100 then
        next_arg ap (fun a ap => rbind (printint (s32 a) 10 true) (fun t => emit t (printf_loop fmt false ap)))
      else if (c =? 120) || (c =? 112) then
        next_arg ap (fun a ap => rbind (printint (s32 a) 16 false) (fun t => emit t (printf_loop fmt false ap)))
      else if c =? 115 then
        next_arg ap (fun a ap => emit (if a =? 0 then bytes "(null)" else str_at a) (printf_loop fmt false ap))
      else if c =? 99 then next_arg ap (fun a ap => emit [a mod 256] (printf_loop fmt false ap))
      else if c =? 37 then emit [c] (printf_loop fmt false ap)
      else emit [37; c] (printf_loop fmt false ap)
  end.
Definition printf (fmt : list Z) (ap : list Z) : res (list Z) := printf_loop fmt false ap.

(** ** [cprintf] *)

Definition printint_kernel (xx base : Z) (sgn : bool) : res (list Z) := print_number (bytes "0123456789abcdef") xx base sgn.

Fixpoint cprintf_loop (fmt : list Z) (ap : list Z) : res (list Z) :=
  match fmt with
  | [] => Ret []
  | c :: fmt =>
      if negb (c =? 37) then emit [c] (cprintf_loop fmt ap)
      else
        match fmt with
        | [] => Ret []
        | c :: fmt =>
            if c =? 100 then
              next_arg ap (fun a ap => rbind (printint_kernel (s32 a) 10 true) (fun t => emit t (cprintf_loop fmt ap)))
            else if (c =? 120) || (c =? 112) then
              next_arg ap (fun a ap => rbind (printint_kernel (s32 a) 16 false) (fun t => emit t (cprintf_loop fmt ap)))
            else if c =? 115 then
              next_arg ap (fun a ap => emit (if a =? 0 then bytes "(null)" else str_at a) (cprintf_loop fmt ap))
            else if c =? 37 then emit [37] (cprintf_loop fmt ap)
            else emit [37; c] (cprintf_loop fmt ap)
        end
  end.
(** Printed on the console. *)
Definition cprintf (fmt : list Z) (ap : list Z) : M Console.tty unit := fun t =>
  match cprintf_loop fmt ap with
  | Ret l => Console.consputs l t
  | Panicked m => Panicked m | Undef w => Undef w | Blocked c => Blocked c | NoFuel => NoFuel
  end.

(** [atoi]. *)
Fixpoint atoi_loop (s : list Z) (n : Z) : Z :=
  match s with
  | c :: s => if (48 <=? c) && (c <=? 57) then atoi_loop s (s32 (n * 10 + c - 48)) else n
  | [] => n
  end.
Definition atoi (s : list Z) : Z := atoi_loop s 0.

(** ** The counts of [wc] *)

Record counts := mkCounts { nl : Z; nw : Z; nc : Z; inword : bool }.
Definition count_char (k : counts) (c : Z) : counts :=
  let k := mkCounts (nl k) (nw k) (s32 (nc k + 1)) (inword k) in
  let k := if c =? 10 then mkCounts (s32 (nl k + 1)) (nw k) (nc k) (inword k) else k in
  if Sh.strchr [32; 13; 9; 10; 11] c then mkCounts (nl k) (nw k) (nc k) false
  else if negb (inword k) then mkCounts (nl k) (s32 (nw k + 1)) (nc k) true else k.
End Printf.
End Printf.
