(* ===== verification/PrintfSpec.v ===== *)
(** Printed numbers read back, the two printers agree, the line of [wc]. *)
From S2P Require Import Prelude Bytes Console Sh Printf.
Import Printf.

(** ** Numerals *)

Definition dval (c : Z) : Z := if c <=? 57 then c - 48 else if c <=? 70 then c - 55 else c - 87.
Definition value (base : Z) (l : list Z) : Z := fold_left (fun v c => v * base + dval c) l 0.
Definition upper : list Z := bytes "0123456789ABCDEF".
Definition lower : list Z := bytes "0123456789abcdef".
(** The digits of a base, and a numeral without leading zeros. *)
Definition digit_of (base c : Z) : Prop := 0 <= dval c < base /\ (c <= 57 -> 48 <= c) /\ (10 < base \/ 48 <= c <= 57).
Record numeral (base : Z) (l : list Z) (x : Z) : Prop := {
  nu_value : value base l = x;
  nu_digits : Forall (digit_of base) l;
  nu_lead : l = [48] \/ exists c l', l = c :: l' /\ c <> 48
}.

Lemma digit_get tbl base d : tbl = upper \/ tbl = lower -> 10 <= base <= 16 -> 0 <= d < base -> exists c, zget tbl d = Some c /\ dval c = d /\ digit_of base c.
Proof.
  intros Ht Hb Hd. assert (HF : Forall (fun d => Forall (fun t => exists c, zget t d = Some c /\ dval c = d /\ (c <= 57 -> 48 <= c) /\ (d < 10 -> 48 <= c <= 57)) [upper; lower]) (seqZ 0 16)).
  { repeat (constructor; [repeat (constructor; [eexists; split; [vm_compute; reflexivity|vm_compute; split; [done|split; discriminate || done]]|]); constructor|]). constructor. }
  rewrite Forall_forall in HF. specialize (HF d ltac:(apply elem_of_seqZ; lia)). rewrite Forall_forall in HF.
  destruct (HF tbl) as (c & Hc & Hv & H1 & H2); [destruct Ht as [->| ->]; set_solver|]. exists c. split; [done|]. split; [done|]. unfold digit_of. rewrite Hv.
  split; [done|]. split; [done|]. destruct (decide (base = 10)); [right; lia|left; lia].
Qed.

Lemma value_snoc base l c : value base (l ++ [c]) = value base l * base + dval c.
Proof. unfold value. by rewrite fold_left_app. Qed.
Lemma push_digits_ok tbl base : tbl = upper \/ tbl = lower -> 10 <= base <= 16 -> forall places x buf, 0 <= x < base ^ Z.of_nat places -> (0 < places)%nat ->
  exists l rest, push_digits places tbl base x buf = Ret (l ++ buf, rest) /\ numeral base l x /\ (length l + rest = places)%nat /\ (forall k, x < base ^ Z.of_nat k -> (length l <= k)%nat \/ k = 0%nat).
Proof.
  intros Ht Hb. induction places as [|places IH]; intros x buf Hx Hp; [lia|]. cbn [push_digits].
  destruct (digit_get tbl base (x mod base) Ht Hb) as (c & -> & Hv & Hd); [apply Z.mod_pos_bound; lia|].
  rewrite Nat2Z.inj_succ, Z.pow_succ_r in Hx by lia. destruct (Z.eqb_spec (x / base) 0) as [E|N].
  - exists [c], places. pose proof (Z.div_small_iff x base ltac:(lia)) as Hs. assert (Hxm : x mod base = x) by (apply Z.mod_small; destruct (proj1 Hs E); lia).
    split; [done|]. split; [|split; [done|intros [|k] _; [by right|left; cbn; lia]]]. rewrite Hxm in Hv. split; [cbn; lia|by constructor|]. destruct (decide (c = 48)) as [->|]; [by left|right; by exists c, []].
  - assert (0 <= x / base < base ^ Z.of_nat places) by (split; [apply Z.div_pos; lia|apply Z.div_lt_upper_bound; lia]).
    destruct places as [|places]; [cbn in *; lia|]. destruct (IH (x / base) (c :: buf)) as (l & rest & E & [N1 N2 N3] & Hl & Hk); [done|lia|].
    exists (l ++ [c]), rest. rewrite <- app_assoc. split; [exact E|]. split; [split| ].
    + rewrite value_snoc, N1, Hv. pose proof (Z.div_mod x base). lia.
    + apply Forall_app_2; [done|by constructor].
    + destruct N3 as [->|(a & l' & -> & Ha)]; [cbn in N1; lia|]. right. by exists a, (l' ++ [c]).
    + rewrite length_app. cbn [length]. split; [lia|]. intros [|k] Hxk; [by right|left]. rewrite Nat2Z.inj_succ, Z.pow_succ_r in Hxk by lia.
      destruct (Hk k) as [?| ->]; [apply Z.div_lt_upper_bound; lia|lia|]. cbn in Hxk. exfalso. apply N, Z.div_small. lia.
Qed.

Lemma print_number_ok tbl base xx sgn : tbl = upper \/ tbl = lower -> 10 <= base <= 16 -> in_s32 xx ->
  exists l, print_number tbl xx base sgn = Ret (if sgn && (xx <? 0) then 45 :: l else l) /\ (length l <= 10)%nat /\
    numeral base l (if sgn && (xx <? 0) then - xx else u32 xx).
Proof.
  intros Ht Hb Hx. unfold in_s32 in Hx. unfold print_number. set (x := if sgn && (xx <? 0) then u32 (- xx) else u32 xx).
  assert (Ex : x = if sgn && (xx <? 0) then - xx else u32 xx).
  { unfold x. destruct (sgn && (xx <? 0)) eqn:E; [|done]. apply andb_prop in E as [_ ?%Z.ltb_lt]. apply u32_small. unfold in_u32. lia. }
  rewrite <- Ex. assert (Hr : 0 <= x < 2 ^ 32) by (rewrite Ex; destruct (sgn && (xx <? 0)) eqn:E; [apply andb_prop in E as [_ ?%Z.ltb_lt]; lia|apply u32_range]).
  assert (Hp : forall k, 10 <= k -> 2 ^ 32 < base ^ k).
  { intros k Hk. apply Z.lt_le_trans with (10 ^ 10); [done|]. etrans; [apply (Z.pow_le_mono_l 10 base 10); lia|apply Z.pow_le_mono_r; lia]. }
  destruct (push_digits_ok tbl base Ht Hb 16 x []) as (l & rest & -> & Hnum & Hl & Hk); [split; [lia|]; specialize (Hp (Z.of_nat 16)); lia|lia|].
  cbn [rbind]. rewrite app_nil_r. exists l. destruct (Hk 10%nat) as [Hle|?]; [specialize (Hp 10); cbn; lia| |done].
  split; [|by split]. destruct (sgn && (xx <? 0)); [|done]. destruct rest; [lia|done].
Qed.

(** C39: [printint] of any 32-bit number in any base from 10 to 16 stays within
    its buffer of 16 characters (11 are enough) and prints the number's numeral,
    after a minus sign when it is negative and taken as signed. *)
Theorem printint_reads_back tbl base xx sgn : tbl = upper \/ tbl = lower -> 10 <= base <= 16 -> in_s32 xx ->
  exists l, print_number tbl xx base sgn = Ret (if sgn && (xx <? 0) then 45 :: l else l) /\ (length l <= 10)%nat /\
    numeral base l (if sgn && (xx <? 0) then - xx else u32 xx).
Proof. apply print_number_ok. Qed.

(** ** [atoi] *)

Lemma fold_grows l v : Forall (digit_of 10) l -> 0 <= v -> v <= fold_left (fun v c => v * 10 + dval c) l v.
Proof.
  intros HF. revert v. induction HF as [|c l [Hc _] HF IH]; intros v Hv; cbn [fold_left]; [done|]. specialize (IH (v * 10 + dval c) ltac:(lia)). lia.
Qed.
Definition no_digit (rest : list Z) : Prop := match rest with c :: _ => ~ 48 <= c <= 57 | [] => True end.
Lemma atoi_loop_ok rest l v : no_digit rest -> Forall (digit_of 10) l -> 0 <= v -> fold_left (fun v c => v * 10 + dval c) l v < 2 ^ 31 ->
  atoi_loop (l ++ rest) v = fold_left (fun v c => v * 10 + dval c) l v.
Proof.
  intros Hr HF. revert v. induction HF as [|c l (Hc & H1 & H2) HF IH]; intros v Hv Hlt.
  - destruct rest as [|c rest]; [done|]. cbn in Hr |- *. destruct ((48 <=? c) && (c <=? 57)) eqn:E; [|done]. apply andb_prop in E as [?%Z.leb_le ?%Z.leb_le]. lia.
  - cbn [app atoi_loop fold_left] in *. assert (48 <= c <= 57) by lia. rewrite (proj2 (Z.leb_le 48 c)), (proj2 (Z.leb_le c 57)) by lia. cbn [andb].
    assert (Ed : v * 10 + c - 48 = v * 10 + dval c) by (unfold dval; rewrite (proj2 (Z.leb_le c 57)) by lia; lia). rewrite Ed.
    pose proof (fold_grows l (v * 10 + dval c) HF ltac:(lia)). rewrite s32_small by (unfold in_s32; lia). by apply IH; [lia|].
Qed.
Lemma atoi_numeral l x rest : numeral 10 l x -> 0 <= x < 2 ^ 31 -> no_digit rest -> atoi (l ++ rest) = x.
Proof. intros [Hv Hd _] Hx Hr. unfold value in Hv. unfold atoi. rewrite atoi_loop_ok; [done|done|done|done|lia]. Qed.
Lemma numeral_atoi l x : numeral 10 l x -> 0 <= x < 2 ^ 31 -> atoi l = x.
Proof. intros HN Hx. rewrite <- (app_nil_r l). by apply atoi_numeral. Qed.
(** [atoi] reads what [printf] prints of a number, whatever follows it. *)
Theorem atoi_reads_printint n rest : 0 <= n < 2 ^ 31 -> no_digit rest -> exists l, printint n 10 true = Ret l /\ atoi (l ++ rest) = n /\ numeral 10 l n.
Proof.
  intros Hn Hr. destruct (printint_reads_back upper 10 n true) as (l & E & _ & HN); [by left|lia|unfold in_s32; lia|].
  rewrite (proj2 (Z.ltb_ge n 0)) in E, HN by lia. cbn [andb] in E, HN. rewrite u32_small in HN by (unfold in_u32; lia). exists l. split; [exact E|]. split; [|done].
  by apply atoi_numeral.
Qed.

(** ** The two printers *)

(** Formats that do not use what the two treat differently. *)
Fixpoint common (fmt : list Z) : Prop :=
  match fmt with
  | c :: fmt => if c =? 37 then match fmt with d :: fmt => ~ (d = 120 \/ d = 112 \/ d = 99) /\ common fmt | [] => True end else common fmt
  | [] => True
  end.
Lemma decimal_digits xx : print_number upper xx 10 true = print_number lower xx 10 true.
Proof.
  assert (H : forall places x buf, push_digits places upper 10 x buf = push_digits places lower 10 x buf).
  { induction places as [|places IH]; intros x buf; [done|]. cbn [push_digits]. assert (E : zget upper (x mod 10) = zget lower (x mod 10)).
    { assert (Hd : 0 <= x mod 10 < 10) by (apply Z.mod_pos_bound; lia). assert (HF : Forall (fun d => zget upper d = zget lower d) (seqZ 0 10)) by (apply (bool_decide_unpack _); vm_compute; done).
      rewrite Forall_forall in HF. apply HF, elem_of_seqZ. lia. }
    rewrite E. destruct (zget lower (x mod 10)); [|done]. destruct (x / 10 =? 0); [done|apply IH]. }
  unfold print_number. by rewrite H.
Qed.
Lemma next_arg_ext ap k k' : (forall a ap, k a ap = k' a ap) -> next_arg ap k = next_arg ap k'.
Proof. intros H. destruct ap; [done|]. apply H. Qed.
(** The user's printer, one character at a time, and the kernel's, which looks
    ahead, print the same. *)
Theorem printf_is_cprintf str_at fmt ap : common fmt -> printf str_at fmt ap = cprintf_loop str_at fmt ap.
Proof.
  unfold printf. remember (length fmt) as n eqn:En. revert fmt ap En. induction (lt_wf n) as [n _ IH]. intros [|c fmt] ap -> Hc; [done|]. cbn [common] in Hc.
  cbn [printf_loop cprintf_loop negb]. destruct (c =? 37) eqn:E37; cbn [negb]; [|by rewrite (IH (length fmt)) by (try done; cbn; lia)].
  destruct fmt as [|d fmt]; [done|]. destruct Hc as [Hd Hc]. cbn [printf_loop negb].
  assert (Hrec : forall ap, printf_loop str_at fmt false ap = cprintf_loop str_at fmt ap) by (intros ap'; apply (IH (length fmt)); [cbn; lia|done..]).
  destruct (d =? 100) eqn:E100.
  { apply next_arg_ext. intros a ap'. unfold printint, printint_kernel. fold upper lower. rewrite decimal_digits. destruct (print_number lower (s32 a) 10 true); [|done..]. cbn. by rewrite Hrec. }
  rewrite (proj2 (Z.eqb_neq d 120)), (proj2 (Z.eqb_neq d 112)), (proj2 (Z.eqb_neq d 99)) by tauto. cbn [orb].
  destruct (d =? 115); [apply next_arg_ext; intros a ap'; by rewrite Hrec|]. destruct (Z.eqb_spec d 37) as [->|]; by rewrite Hrec.
Qed.

(** ** [wc] *)

Definition space (c : Z) : bool := Sh.strchr [32; 13; 9; 10; 11] c.
(** The pieces of a text between its spaces. *)
Fixpoint between (l : list Z) : list (list Z) :=
  match l with
  | [] => [[]]
  | c :: l => match between l with s :: ss => if space c then [] :: s :: ss else (c :: s) :: ss | [] => [] end
  end.
Definition words (l : list Z) : list (list Z) := filter (fun s => s <> []) (between l).
Definition newlines_of (l : list Z) : list Z := filter (fun c => c = 10) l.
Definition newlines (l : list Z) : Z := zlen (newlines_of l).


Lemma between_cons l : exists s ss, between l = s :: ss.
Proof. induction l as [|c l (s & ss & IH)]; cbn [between]; [|rewrite IH; destruct (space c)]; eexists _, _; reflexivity. Qed.
(** Whether a word begins at once. *)
Definition opens (l : list Z) : bool := match between l with (_ :: _) :: _ => true | _ => false end.
Lemma words_cons c l : zlen (words (c :: l)) = zlen (words l) + (if space c || opens l then 0 else 1) /\ opens (c :: l) = negb (space c).
Proof.
  destruct (between_cons l) as (s & ss & E). unfold words, opens. cbn [between]. rewrite E. destruct (space c); cbn [orb negb].
  - rewrite (filter_cons_False _ []) by (intros Hn; by apply Hn). split; [lia|done].
  - rewrite (filter_cons_True _ (c :: s)) by done. destruct s as [|d s].
    + rewrite (filter_cons_False _ []) by (intros Hn; by apply Hn). unfold zlen. cbn. split; [lia|done].
    + rewrite (filter_cons_True _ (d :: s)) by done. unfold zlen. cbn. split; [lia|done].
Qed.

Lemma count_ok l k : 0 <= nl k -> 0 <= nw k -> 0 <= nc k -> nl k + zlen l < 2 ^ 31 -> nw k + zlen l < 2 ^ 31 -> nc k + zlen l < 2 ^ 31 ->
  nl (fold_left count_char l k) = nl k + newlines l /\
  nw (fold_left count_char l k) = nw k + zlen (words l) - (if inword k && opens l then 1 else 0) /\
  nc (fold_left count_char l k) = nc k + zlen l.
Proof.
  revert k. induction l as [|c l IH]; intros k H1 H2 H3 H4 H5 H6; [|].
  { change (newlines []) with 0. change (zlen (words [])) with 0. change (opens []) with false. change (zlen (@nil Z)) with 0.
    rewrite andb_false_r. cbn. lia. }
  assert (Hz : zlen (c :: l) = zlen l + 1) by (unfold zlen; cbn; lia). rewrite Hz in H4, H5, H6. pose proof (zlen_nonneg l).
  assert (Hk : count_char k c = mkCounts (nl k + (if c =? 10 then 1 else 0)) (nw k + (if space c || inword k then 0 else 1)) (nc k + 1) (negb (space c))).
  { unfold count_char. fold (space c). rewrite (s32_small (nc k + 1)) by (unfold in_s32; lia). destruct (c =? 10) eqn:E10.
    - apply Z.eqb_eq in E10. subst c. cbn. rewrite (s32_small (nl k + 1)) by (unfold in_s32; lia). f_equal; lia.
    - destruct (space c); cbn [nl nw nc inword orb negb]; [f_equal; lia|]. destruct (inword k) eqn:Ei; cbn; [destruct k; cbn in *; subst; f_equal; lia|].
      rewrite (s32_small (nw k + 1)) by (unfold in_s32; lia). f_equal; lia. }
  cbn [fold_left]. destruct (words_cons c l) as [Hw Ho].
  assert (Hn : newlines (c :: l) = newlines l + (if c =? 10 then 1 else 0)).
  { unfold newlines, newlines_of. rewrite filter_cons. destruct (Z.eqb_spec c 10); destruct (decide (c = 10)); try done; unfold zlen; cbn; lia. }
  rewrite Hk. destruct (IH (mkCounts (nl k + (if c =? 10 then 1 else 0)) (nw k + (if space c || inword k then 0 else 1)) (nc k + 1) (negb (space c)))) as (-> & -> & ->);
    cbn [nl nw nc inword]; try (destruct (c =? 10), (space c || inword k); lia).
  rewrite Hw, Ho, Hn, Hz. split; [lia|]. split; [|lia]. destruct (space c), (inword k), (opens l); cbn; lia.
Qed.

Lemma words_le l : zlen (words l) <= zlen l.
Proof. induction l as [|c l IH]; [done|]. destruct (words_cons c l) as [-> _]. unfold zlen in *. cbn [length]. destruct (space c || opens l); lia. Qed.
Lemma newlines_le l : zlen (newlines_of l) <= zlen l.
Proof. apply Nat2Z.inj_le, length_filter. Qed.

Lemma decimal str_at n fmt ap r : 0 <= n < 2 ^ 31 -> printf_loop str_at fmt false ap = Ret r ->
  exists l, printint n 10 true = Ret l /\ numeral 10 l n /\ printf_loop str_at (37 :: 100 :: fmt) false (u32 n :: ap) = Ret (l ++ r).
Proof.
  intros Hn Hr. destruct (atoi_reads_printint n [] Hn I) as (l & E & _ & HN). exists l. split; [done|]. split; [done|]. cbn -[printint].
  rewrite s32_u32, s32_small by (unfold in_s32; lia). rewrite E. cbn [rbind]. by rewrite Hr.
Qed.

(** The line [wc] prints of a file: the number of its newlines, of its words
    (the nonempty pieces between spaces) and of its bytes, as numerals [atoi]
    reads, and the name. *)
Lemma wc_line str_at file name : zlen file < 2 ^ 31 -> name <> 0 ->
  let k := fold_left count_char file (mkCounts 0 0 0 false) in
  exists l w c, printf str_at (bytes "%d %d %d %s" ++ [10]) [u32 (nl k); u32 (nw k); u32 (nc k); name] = Ret (l ++ [32] ++ w ++ [32] ++ c ++ [32] ++ str_at name ++ [10]) /\
    numeral 10 l (newlines file) /\ numeral 10 w (zlen (words file)) /\ numeral 10 c (zlen file) /\
    atoi l = newlines file /\ atoi w = zlen (words file) /\ atoi c = zlen file.
Proof.
  intros Hlen Hname k. pose proof (zlen_nonneg file).
  destruct (count_ok file (mkCounts 0 0 0 false)) as (E1 & E2 & E3); [cbn; lia..|]. fold k in E1, E2, E3. clearbody k. cbn [nl nw nc inword andb] in *.
  rewrite Z.sub_0_r in E2. rewrite !Z.add_0_l in *. pose proof (words_le file). pose proof (newlines_le file). unfold newlines in *. pose proof (zlen_nonneg (words file)). pose proof (zlen_nonneg (newlines_of file)).
  change (bytes "%d %d %d %s" ++ [10]) with [37; 100; 32; 37; 100; 32; 37; 100; 32; 37; 115; 10]. unfold printf. rewrite E1, E2, E3.
  assert (Hname' : printf_loop str_at [32; 37; 115; 10] false [name] = Ret ([32] ++ str_at name ++ [10])) by (cbn; by rewrite (proj2 (Z.eqb_neq name 0))).
  destruct (decimal str_at (zlen file) _ _ _ ltac:(lia) Hname') as (c & _ & Nc & Hc).
  assert (Hc' := f_equal (emit [32]) Hc). change (emit [32] (Ret ?x)) with (Ret ([32] ++ x)) in Hc'.
  destruct (decimal str_at (zlen (words file)) (32 :: 37 :: 100 :: [32; 37; 115; 10]) [u32 (zlen file); name] _ ltac:(lia) Hc') as (w & _ & Nw & Hw).
  assert (Hw' := f_equal (emit [32]) Hw). change (emit [32] (Ret ?x)) with (Ret ([32] ++ x)) in Hw'.
  destruct (decimal str_at (zlen (newlines_of file)) (32 :: 37 :: 100 :: 32 :: 37 :: 100 :: [32; 37; 115; 10]) [u32 (zlen (words file)); u32 (zlen file); name] _ ltac:(lia) Hw') as (l & _ & Nl & Hl).
  rewrite Hl. exists l, w, c. split; [done|]. split; [done|]. split; [done|]. split; [done|].
  split_and!; apply numeral_atoi; try done; lia.
Qed.
Lemma printint_reads_back_witness : in_s32 (- 2 ^ 31) /\
  exists l, print_number upper (- 2 ^ 31) 10 true = Ret (45 :: l) /\ (length l <= 10)%nat /\ numeral 10 l (2 ^ 31).
Proof. split; [done|]. apply (printint_reads_back upper 10 (- 2 ^ 31) true); [by left|done|done]. Defined.
