(* ===== verification/Thread.v ===== *)
(** Project 4, kernel threads: the user library's locks and threads
    ([src/4/xv6/change/thread.c]), the program that tests them
    ([threadtest.c]), and the stack [clone] builds ([proc.c]).

    Threads of a process share its memory and are interleaved at every access
    to it.  [step] interleaves the accesses of [counter_inc] and of the lock it
    takes, for any number of threads.  What a thread does around that
    ([thread_create] allocates its stack, and the thread frees it and exits)
    is in [thread_create] as a sequence of calls: [malloc] and [free] run on a
    heap that nothing protects, so no theorem is claimed for a run in which two
    of them overlap. *)
From S2P Require Import Prelude Bytes Printf.

Module Thread.

(** ** Shared memory and locks *)

(** [xchg] is one atomic access: the new flag and the old one. *)
Definition xchg (flag v : Z) : Z * Z := (v, flag).
Definition lock_init (flag : Z) : Z := (xchg flag 0).1.
(** One turn of the loop of [lock_acquire]: the flag after it, and whether
    the loop ends. *)
Definition lock_try (flag : Z) : Z * bool := let '(f, old) := xchg flag 1 in (f, negb (old =? 1)).
Definition lock_release (flag : Z) : Z := (xchg flag 0).1.

(** ** Threads of the library *)

Section Library.
Context {U : Type} (malloc : Z -> M U Z) (free : Z -> M U unit) (clone : Z -> Z -> M U Z) (wait : M U Z).

(** [None]: this is the new thread, and it has exited. *)
Definition thread_create (start_routine : Z -> M U unit) (arg : Z) : M U (option Z) :=
  stack ← malloc 4096;
  rc ← clone stack 4096;
  if rc =? 0 then start_routine arg;; free stack;; mret None else mret (Some rc).
Definition thread_join : M U Z := wait.
End Library.

Record shared := mkShared { flag : Z; counter : Z }.

(** ** The test program's threads *)

(** Where a thread is in [counter_inc]: at the loop test, spinning in
    [lock_acquire], about to load [counter], about to store its successor,
    about to release the lock, past the [return]. *)
Inductive pc := AtLoop (i : Z) | AtAcquire (i : Z) | AtLoad (i : Z) | AtStore (i tmp : Z) | AtRelease (i : Z) | Returned.
#[export] Instance pc_eq_dec : EqDecision pc.
Proof. solve_decision. Defined.

(** One access by a thread with argument [a]. *)
Definition counter_inc (a : Z) (p : pc) (m : shared) : pc * shared :=
  match p with
  | AtLoop i => (if i <? a then AtAcquire i else Returned, m)
  | AtAcquire i =>
      let '(f, got) := lock_try (flag m) in
      (if got then AtLoad i else AtAcquire i, mkShared f (counter m))
  | AtLoad i => (AtStore i (counter m), m)
  | AtStore i tmp => (AtRelease i, mkShared (flag m) (s32 (tmp + 1)))
  | AtRelease i => (AtLoop (i + 1), mkShared (lock_release (flag m)) (counter m))
  | Returned => (Returned, m)
  end.

(** The lock and the counter, and the threads: their arguments and where they
    are. *)
Record sys := mkSys { mem : shared; threads : list (Z * pc) }.

(** [flag0] is what [malloc] left in the lock. *)
Definition start (flag0 : Z) : sys := mkSys (mkShared (lock_init flag0) 0) [].

(** At any time another thread may enter [counter_inc], with any argument, or
    one that is in it makes its next access. *)
Inductive step : sys -> sys -> Prop :=
  | step_enter m ts a : in_s32 a -> step (mkSys m ts) (mkSys m (ts ++ [(a, AtLoop 0)]))
  | step_thread m ts1 a p ts2 p' m' : p <> Returned -> counter_inc a p m = (p', m') ->
      step (mkSys m (ts1 ++ (a, p) :: ts2)) (mkSys m' (ts1 ++ (a, p') :: ts2)).

(** ** The test program's [main] *)

(** What it makes of its arguments: the number of threads, the increments of
    each, the turns of the outer loop. *)
Inductive options := Usage | Too_many | Run (numThreads loopCount outerLoopCount : Z).
Definition parse_args (argv : list (list Z)) : options :=
  let go n l o := if n >? 64 - 3 then Too_many else Run n l o in
  match argv with
  | [_; n; l] => go (Printf.atoi n) (Printf.atoi l) 1
  | [_; n; l; o] => go (Printf.atoi n) (Printf.atoi l) (Printf.atoi o)
  | _ => Usage
  end.

(** What it prints before it exits. *)
Inductive verdict := Usage_line | Max_threads | Create_failure | Wrong_count | Count (c : Z).

Section Main.
(** Starting a thread in [counter_inc] and waiting for one; setting up the lock
    and the counter; reading the counter. *)
Context {U : Type} (create : Z -> M U Z) (join : M U Z) (set_up : M U unit) (read_counter : M U Z).

Fixpoint create_all (n : nat) (loopCount : Z) : M U bool :=
  match n with
  | O => mret true
  | S n => rc ← create loopCount; if rc =? -1 then mret false else create_all n loopCount
  end.
Fixpoint join_all (n : nat) : M U unit :=
  match n with O => mret tt | S n => join;; join_all n end.
Fixpoint outer_loop (o : nat) (numThreads : nat) (loopCount : Z) : M U bool :=
  match o with
  | O => mret true
  | S o =>
      ok ← create_all numThreads loopCount;
      if (ok : bool) then join_all numThreads;; outer_loop o numThreads loopCount else mret false
  end.
Definition main (argv : list (list Z)) : M U verdict :=
  match parse_args argv with
  | Usage => mret Usage_line
  | Too_many => mret Max_threads
  | Run n l o =>
      set_up;;
      ok ← outer_loop (Z.to_nat o) (Z.to_nat n) l;
      if (ok : bool) then
        c ← read_counter;
        mret (if negb (c =? s32 (s32 (n * l) * o)) then Wrong_count else Count c)
      else mret Create_failure
  end.
End Main.

(** ** [clone]'s stack *)

(** User memory, the new stack and the registers of the caller: memory and the
    [esp] and [ebp] of the new thread.  The word at [ebp] is the caller's
    caller's [ebp]. *)
Definition clone_stack (um : list Z) (stack size esp ebp : Z) : list Z * Z * Z :=
  let top := word um ebp in
  let stackSize := u32 (top - esp) in
  let esp' := u32 (stack + size - stackSize) in
  let ebp' := u32 (stack + size - u32 (top - ebp)) in
  (splice esp' (part esp stackSize um) um, esp', ebp').

End Thread.
