(* ===== verification/ThreadSpec.v ===== *)
(** The lock excludes and the threads under it count right, in every
    interleaving of their accesses; with that, [main] of the test program prints
    the count it was asked for when its calls succeed. *)
From S2P Require Import Prelude Bytes Thread.
Import Thread.

(** Arithmetic that wraps at the end may wrap on the way. *)
Lemma s32_add a b : s32 (s32 a + b) = s32 (a + b).
Proof. rewrite <- s32_u32, <- u32_add_l, u32_s32, u32_add_l. apply s32_u32. Qed.
Lemma s32_mul a b : s32 (s32 a * b) = s32 (a * b).
Proof.
  rewrite <- s32_u32. rewrite <- (s32_u32 (a * b)). f_equal. unfold u32 at 1 2.
  rewrite <- Zmult_mod_idemp_l. fold (u32 (s32 a)). rewrite u32_s32. unfold u32. apply Zmult_mod_idemp_l.
Qed.

(** A thread inside its critical section, the increments it has made, and the
    accesses it has left to make. *)
Definition inside (t : Z * pc) : Z := match t.2 with AtLoad _ | AtStore _ _ | AtRelease _ => 1 | _ => 0 end.
Definition made (t : Z * pc) : Z :=
  match t.2 with AtLoop i | AtAcquire i | AtLoad i | AtStore i _ => i | AtRelease i => i + 1 | Returned => Z.max 0 t.1 end.
Definition left (t : Z * pc) : Z :=
  match t.2 with
  | AtLoop i => 5 * Z.max 0 (t.1 - i) + 1
  | AtAcquire i => 5 * (t.1 - i)
  | AtLoad i => 5 * (t.1 - i) - 1
  | AtStore i _ => 5 * (t.1 - i) - 2
  | AtRelease i => 5 * (t.1 - i) - 3
  | Returned => 0
  end.
Definition returned (t : Z * pc) : Prop := t.2 = Returned.
Fixpoint sum {A} (f : A -> Z) (l : list A) : Z := match l with [] => 0 | x :: l => f x + sum f l end.

Lemma sum_app {A} (f : A -> Z) l1 l2 : sum f (l1 ++ l2) = sum f l1 + sum f l2.
Proof. induction l1 as [|x l1 IH]; cbn; [done|]. rewrite IH. lia. Qed.
Lemma sum_nonneg {A} (f : A -> Z) l : (forall x, 0 <= f x) -> 0 <= sum f l.
Proof. intros Hf. induction l as [|x l IH]; cbn; [lia|]. specialize (Hf x). lia. Qed.
Lemma inside_nonneg t : 0 <= inside t.
Proof. destruct t as [a []]; cbn; lia. Qed.

(** Threads within bounds; the value a thread is about to store is the current
    one's successor. *)
Definition pc_ok (c : Z) (t : Z * pc) : Prop :=
  match t.2 with
  | AtLoop i => 0 <= i <= Z.max 0 t.1
  | AtAcquire i | AtLoad i | AtRelease i => 0 <= i < t.1
  | AtStore i tmp => 0 <= i < t.1 /\ tmp = c
  | Returned => True
  end.

Record inv (s : sys) : Prop := {
  inv_lock : sum inside (threads s) = flag (mem s) /\ (flag (mem s) = 0 \/ flag (mem s) = 1);
  inv_pcs : Forall (pc_ok (counter (mem s))) (threads s);
  inv_count : counter (mem s) = s32 (sum made (threads s))
}.

Lemma inv_start f0 : inv (start f0).
Proof. split; cbn; [split; [done|by left]|done|done]. Qed.

(** Outside the critical sections no thread cares what the counter is. *)
Lemma pcs_outside c c' ts : sum inside ts = 0 -> Forall (pc_ok c) ts -> Forall (pc_ok c') ts.
Proof.
  induction ts as [|[a p] ts IH]; cbn [sum]; [constructor|]. intros Hs [Hp Hts]%Forall_cons.
  pose proof (sum_nonneg inside ts inside_nonneg). pose proof (inside_nonneg (a, p)).
  apply Forall_cons. split; [destruct p; cbn in *; (done || lia)|]. apply IH; [lia|done].
Qed.

(** One access: it keeps the invariant, and is one of those the thread has left
    unless it finds the lock taken. *)
Lemma access_inv a p f c p' m' ts1 ts2 : p <> Returned -> counter_inc a p (mkShared f c) = (p', m') ->
  sum inside (ts1 ++ (a, p) :: ts2) = f -> f = 0 \/ f = 1 -> Forall (pc_ok c) (ts1 ++ (a, p) :: ts2) ->
  (sum inside (ts1 ++ (a, p') :: ts2) = flag m' /\ (flag m' = 0 \/ flag m' = 1)) /\
  Forall (pc_ok (counter m')) (ts1 ++ (a, p') :: ts2) /\
  ((counter m' = c /\ made (a, p') = made (a, p)) \/ (counter m' = s32 (c + 1) /\ made (a, p') = made (a, p) + 1)) /\
  (f = 0 \/ inside (a, p) = 1 -> left (a, p') = left (a, p) - 1).
Proof.
  intros Hne E Hs Hf Hp. rewrite sum_app in *. cbn [sum] in *. apply Forall_app in Hp as [P1 [Pp P2]%Forall_cons].
  pose proof (sum_nonneg inside ts1 inside_nonneg) as S1. pose proof (sum_nonneg inside ts2 inside_nonneg) as S2.
  assert (Join : forall q c', pc_ok c' (a, q) -> Forall (pc_ok c') ts1 -> Forall (pc_ok c') ts2 ->
    Forall (pc_ok c') (ts1 ++ (a, q) :: ts2)).
  { intros q c' ? ? ?. apply Forall_app. split; [done|]. by apply Forall_cons. }
  destruct p as [i|i|i|i tmp|i|]; [..|done]; cbn in E, Pp.
  - injection E as <- <-. cbn in Hs |- *. destruct (Z.ltb_spec i a); cbn;
      (split_and!; [lia|lia|apply Join; cbn; (done || lia)|by left; split; cbn; lia|lia]).
  - destruct Hf as [-> | ->]; injection E as <- <-; cbn in *;
      (split_and!; [lia|lia|apply Join; cbn; (done || lia)|left; lia|lia]).
  - injection E as <- <-. cbn in *. split_and!; [lia|lia|apply Join; cbn; (done || lia)|left; lia|lia].
  - destruct Pp as [Hi ->]. injection E as <- <-. cbn in *.
    split_and!; [lia|lia|apply Join; cbn; [lia|eapply pcs_outside; [|done]; lia..]|right; lia|lia].
  - injection E as <- <-. cbn in *. split_and!; [lia|lia|apply Join; cbn; (done || lia)|left; lia|lia].
Qed.

Lemma threads_step s s' : inv s -> step s s' -> inv s'.
Proof.
  intros [[L1 L2] P C] St. destruct St as [m ts a Ha|m ts1 a p ts2 p' m' Hp E]; cbn [mem threads] in *.
  - split; cbn [mem threads].
    + rewrite sum_app. cbn. split; [lia|done].
    + apply Forall_app. split; [done|]. repeat constructor; cbn; lia.
    + rewrite sum_app. cbn. by rewrite !Z.add_0_r.
  - destruct m as [f c]. cbn [flag counter] in *.
    destruct (access_inv a p f c p' m' ts1 ts2) as (A1 & A2 & A3 & _); try done.
    split; cbn [mem threads]; [done..|]. rewrite !sum_app in *. cbn [sum] in *.
    destruct A3 as [[-> ->]|[-> ->]]; [done|]. rewrite C, s32_add. f_equal. lia.
Qed.
Lemma threads_reach f0 s : rtc step (start f0) s -> inv s.
Proof.
  intros R. assert (G : forall x y, rtc step x y -> inv x -> inv y).
  { induction 1 as [|x y z St _ IH]; [done|]. intros Hx. apply IH. by eapply threads_step. }
  eapply G; [done|apply inv_start].
Qed.

(** Who moves next on the way to the end: the thread that holds the lock, or
    when it is free any that is still at work. *)
Lemma inside_one f ts : sum inside ts = 1 -> exists ts1 a p ts2, ts = ts1 ++ (a, p) :: ts2 /\ p <> Returned /\ (f = 0 \/ inside (a, p) = 1).
Proof.
  induction ts as [|[a p] ts IH]; cbn [sum]; [done|]. intros H.
  destruct (decide (inside (a, p) = 1)) as [E|Hn]; [exists [], a, p, ts; split; [done|]; split; [by intros ->|by right]|].
  destruct IH as (ts1 & b & q & ts2 & -> & Hq); [destruct p; cbn in *; lia|]. by exists ((a, p) :: ts1), b, q, ts2.
Qed.
Lemma next_thread f ts : sum inside ts = f -> f = 0 \/ f = 1 ->
  Forall returned ts \/ exists ts1 a p ts2, ts = ts1 ++ (a, p) :: ts2 /\ p <> Returned /\ (f = 0 \/ inside (a, p) = 1).
Proof.
  intros Hs [Hf|Hf]; [|right; apply inside_one; congruence]. clear Hs. induction ts as [|[a p] ts IH]; [by left|].
  destruct (decide (p = Returned)) as [->|Hp]; [|right; exists [], a, p, ts; auto].
  destruct IH as [IH|(ts1 & b & q & ts2 & -> & Hq)]; [left; by constructor|]. right. by exists ((a, Returned) :: ts1), b, q, ts2.
Qed.
Lemma left_nonneg c t : pc_ok c t -> 0 <= left t.
Proof. destruct t as [a []]; cbn; lia. Qed.
Lemma sum_left_nonneg c ts : Forall (pc_ok c) ts -> 0 <= sum left ts.
Proof. induction 1 as [|t ts Ht _ IH]; cbn; [lia|]. pose proof (left_nonneg c t Ht). lia. Qed.

Lemma can_finish n s : inv s -> sum left (threads s) <= Z.of_nat n ->
  exists s', rtc step s s' /\ (threads s').*1 = (threads s).*1 /\ Forall returned (threads s').
Proof.
  revert s. induction n as [|n IH]; intros [[f c] ts] I Hn.
  all: destruct (inv_lock _ I) as [L1 L2]; pose proof (inv_pcs _ I) as P; cbn [mem threads flag counter] in *.
  all: destruct (next_thread f ts L1 L2) as [A|(ts1 & a & p & ts2 & -> & Hp & Hf)];
    [eexists; split; [apply rtc_refl|]; by split|].
  all: destruct (counter_inc a p (mkShared f c)) as [p' m'] eqn:E;
    destruct (access_inv a p f c p' m' ts1 ts2) as (_ & P' & _ & Hl); try done; specialize (Hl Hf);
    pose proof (sum_left_nonneg _ _ P') as Hnn; rewrite !sum_app in *; cbn [sum] in *.
  { lia. }
  pose proof (step_thread (mkShared f c) ts1 a p ts2 p' m' Hp E) as St.
  destruct (IH _ (threads_step _ _ I St)) as (s' & R & E1 & F); [cbn [threads]; rewrite sum_app; cbn [sum]; lia|].
  exists s'. split; [by eapply rtc_l|]. split; [|done]. rewrite E1. cbn [threads]. by rewrite !fmap_app.
Qed.

Definition total (args : list Z) : Z := sum (Z.max 0) args.
Lemma made_returned ts : Forall returned ts -> sum made ts = total ts.*1.
Proof. induction 1 as [|[a p] ts Hp _ IH]; [done|]. cbv [returned] in Hp. cbn in Hp. subst p. cbn. by rewrite IH. Qed.
Lemma count_returned f0 s : rtc step (start f0) s -> Forall returned (threads s) -> counter (mem s) = s32 (total (threads s).*1).
Proof. intros [_ _ C]%threads_reach H. by rewrite C, made_returned. Qed.

(** C14: The lock protects the counter: whatever [malloc] left in the lock, with
    any number of threads entering [counter_inc] at any time, each with an
    argument of its own, and every access to the lock and to the counter (the
    load and the store of [counter++] apart) free to come between any two of
    other threads: at most one thread is between [lock_acquire] and
    [lock_release]; the counter is always the number of increments stored, as
    a 32-bit [int]; so once all have returned it is the sum of their arguments;
    and they can always all get there (the lock is never left taken).  What
    threads do outside [counter_inc] is not part of it: they are taken to leave
    the lock and the counter alone, which [malloc] and [free] of their stacks, on
    a heap nothing protects, do only as long as no two of them overlap. *)
Theorem lock_counts f0 s : rtc step (start f0) s ->
  sum inside (threads s) <= 1 /\
  counter (mem s) = s32 (sum made (threads s)) /\
  (Forall returned (threads s) -> counter (mem s) = s32 (total (threads s).*1)) /\
  exists s', rtc step s s' /\ (threads s').*1 = (threads s).*1 /\ Forall returned (threads s').
Proof.
  intros R. pose proof (threads_reach f0 s R) as I. pose proof I as [[L1 L2] P C]. split_and!; [lia|done|by apply (count_returned f0)|].
  apply (can_finish (Z.to_nat (sum left (threads s)))); [done|lia].
Qed.

(** Two threads of two and one increments, the second entering when the first
    holds the lock and loading the counter right after the first has stored. *)
Definition done_sys : sys := mkSys (mkShared 0 3) [(2, Returned); (1, Returned)].
Ltac moves ts1 a p ts2 := eapply rtc_l; [apply (step_thread _ ts1 a p ts2); [discriminate|vm_compute; reflexivity]|cbn [app]].
Ltac one p q := moves (@nil (Z * pc)) 2 p [(1, q)].
Ltac two p q := moves [(2, p)] 1 q (@nil (Z * pc)).
Lemma run_to_end : rtc step (start 7) done_sys.
Proof.
  unfold start. cbn.
  eapply rtc_l; [apply (step_enter _ [] 2); unfold in_s32; lia|]. cbn [app]. moves (@nil (Z * pc)) 2 (AtLoop 0) (@nil (Z * pc)).
  moves (@nil (Z * pc)) 2 (AtAcquire 0) (@nil (Z * pc)).
  eapply rtc_l; [apply (step_enter _ _ 1); unfold in_s32; lia|]. cbn [app].
  two (AtLoad 0) (AtLoop 0). two (AtLoad 0) (AtAcquire 0). one (AtLoad 0) (AtAcquire 0). one (AtStore 0 0) (AtAcquire 0).
  two (AtRelease 0) (AtAcquire 0). one (AtRelease 0) (AtAcquire 0). two (AtLoop 1) (AtAcquire 0). two (AtLoop 1) (AtLoad 0).
  one (AtLoop 1) (AtStore 0 1). one (AtAcquire 1) (AtStore 0 1). two (AtAcquire 1) (AtStore 0 1). two (AtAcquire 1) (AtRelease 0).
  two (AtAcquire 1) (AtLoop 1). one (AtAcquire 1) Returned. one (AtLoad 1) Returned. one (AtStore 1 2) Returned.
  one (AtRelease 1) Returned. one (AtLoop 2) Returned. apply rtc_refl.
Qed.

Lemma lock_counts_witness : counter (mem done_sys) = s32 (total [2; 1]).
Proof. destruct (lock_counts 7 done_sys run_to_end) as (_ & _ & H & _). apply H. repeat constructor. Defined.

(** ** The whole program, when its calls succeed

    The environment of [main]: the arguments of the threads started and how
    many of them are still to be waited for.  Starting one gives a pid, and the
    counter read when all have been waited for is that of every run of [step]
    in which those threads have returned; there is one. *)
Definition final (args : list Z) : Z := s32 (total args).
Lemma final_reached f0 args : Forall in_s32 args ->
  exists s, rtc step (start f0) s /\ (threads s).*1 = args /\ Forall returned (threads s) /\ counter (mem s) = final args.
Proof.
  intros Ha. set (s0 := mkSys (mkShared 0 0) ((fun a => (a, AtLoop 0)) <$> args)).
  assert (rtc step (start f0) s0) as R0.
  { subst s0. unfold start. cbn. induction args as [|a args IH] using rev_ind; [apply rtc_refl|].
    apply Forall_app in Ha as [Ha [Hx _]%Forall_cons]. specialize (IH Ha). rewrite fmap_app. eapply rtc_r; [exact IH|]. by apply step_enter. }
  destruct (can_finish (Z.to_nat (sum left (threads s0))) s0) as (s & R & E & F); [by eapply threads_reach|lia|].
  assert (rtc step (start f0) s) as R' by (by etrans). assert ((threads s).*1 = args) as Ea.
  { rewrite E. cbn. rewrite <- list_fmap_compose. apply list_fmap_id. }
  exists s. split_and!; [done..|]. by rewrite (count_returned f0 s R' F), Ea.
Qed.

Section Main.
Record world := mkWorld { started : list Z; running : Z }.
Definition env_create (a : Z) : M world Z := fun w => Ret (zlen (started w) + 4, mkWorld (started w ++ [a]) (running w + 1)).
Definition env_join : M world Z := fun w =>
  if 0 <? running w then Ret (4, mkWorld (started w) (running w - 1)) else Ret (-1, w).
Definition env_counter : M world Z := fun w =>
  if running w =? 0 then Ret (final (started w), w) else undef "read while they run" w.
Notation create_all := (create_all env_create).
Notation join_all := (join_all env_join).
Notation outer_loop := (outer_loop env_create env_join).

Lemma create_all_run n l args k : 0 <= k -> create_all n l (mkWorld args k) = Ret (true, mkWorld (args ++ replicate n l) (k + Z.of_nat n)).
Proof.
  revert args k. induction n as [|n IH]; intros args k Hk; cbn [Thread.create_all replicate].
  - by rewrite app_nil_r, Z.add_0_r.
  - unfold mbind, M_bind, env_create at 1. cbn [started running]. pose proof (zlen_nonneg args). replace (zlen args + 4 =? -1) with false by lia.
    rewrite IH by lia. rewrite <- app_assoc. cbn [app]. do 3 f_equal. lia.
Qed.
Lemma join_all_run n args k : Z.of_nat n <= k -> join_all n (mkWorld args k) = Ret (tt, mkWorld args (k - Z.of_nat n)).
Proof.
  revert k. induction n as [|n IH]; intros k Hk; cbn [Thread.join_all].
  - by rewrite Z.sub_0_r.
  - unfold mbind, M_bind, env_join at 1. cbn [started running]. replace (0 <? k) with true by lia.
    rewrite IH by lia. do 3 f_equal. lia.
Qed.
Lemma outer_loop_run o n l args : outer_loop o n l (mkWorld args 0) = Ret (true, mkWorld (args ++ replicate (o * n) l) 0).
Proof.
  revert args. induction o as [|o IH]; intros args; cbn [Thread.outer_loop].
  - by rewrite app_nil_r.
  - rewrite (bind_Ret _ _ _ _ _ (create_all_run n l args 0 ltac:(lia))). cbn iota.
    rewrite (bind_Ret _ _ _ _ _ (join_all_run n _ (0 + Z.of_nat n) ltac:(lia))).
    replace (0 + Z.of_nat n - Z.of_nat n) with 0 by lia. rewrite IH, <- app_assoc, <- replicate_add. done.
Qed.
Lemma total_replicate k l : 0 <= l -> total (replicate k l) = Z.of_nat k * l.
Proof. intros Hl. unfold total. induction k as [|k IH]; [done|]. cbn [replicate sum]. rewrite IH. lia. Qed.

(** [main] then prints the count it was asked for. *)
Lemma main_counts argv n l o : parse_args argv = Run n l o -> 0 <= n -> 0 <= l -> 0 <= o ->
  exists w, main env_create env_join (mret tt) env_counter argv (mkWorld [] 0) = Ret (Count (s32 (n * l * o)), w) /\ running w = 0.
Proof.
  intros Ha Hn Hl Ho. eexists. unfold main. rewrite Ha. rewrite (bind_Ret (mret tt) _ _ tt _ eq_refl).
  rewrite (bind_Ret _ _ _ _ _ (outer_loop_run _ _ _ _)). cbn iota.
  set (args := [] ++ _). assert (final args = s32 (n * l * o)) as E.
  { unfold final, args. cbn [app]. rewrite total_replicate by done. f_equal. nia. }
  unfold mbind, M_bind, env_counter. cbn [running started Z.eqb]. rewrite E, s32_mul, Z.eqb_refl. by split.
Qed.
End Main.

Example threadtest_runs :
  main env_create env_join (mret tt) env_counter [bytes "threadtest"; bytes "3"; bytes "5"; bytes "2"] (mkWorld [] 0) =
  Ret (Count 30, mkWorld (replicate 6 5) 0).
Proof. vm_compute. reflexivity. Qed.

(** The new stack is the caller's top of stack moved: every word between [esp]
    and the caller's caller's [ebp] is at the same place under the top of the
    new stack, and so are [esp] and [ebp]. *)
Lemma clone_stack_moves um stack size esp ebp :
  0 <= esp -> esp <= ebp -> ebp <= word um ebp -> word um ebp <= zlen um -> 0 <= stack -> word um ebp - esp <= size ->
  stack + size <= zlen um -> zlen um < 2 ^ 32 ->
  let '(um', esp', ebp') := clone_stack um stack size esp ebp in
  stack + size - esp' = word um ebp - esp /\ stack <= esp' /\ ebp' - esp' = ebp - esp /\
  part esp' (word um ebp - esp) um' = part esp (word um ebp - esp) um /\
  (forall a k, 0 <= a -> 0 <= k -> a + k <= stack -> part a k um' = part a k um).
Proof.
  intros H1 H2 H3 H4 H5 H6 H7 H8. unfold clone_stack. set (top := word um ebp) in *.
  assert (E : u32 (top - esp) = top - esp) by (apply u32_small; unfold in_u32; lia). rewrite E.
  assert (E2 : u32 (top - ebp) = top - ebp) by (apply u32_small; unfold in_u32; lia). rewrite E2.
  rewrite !u32_small by (unfold in_u32; lia).
  assert (Hz : zlen (part esp (top - esp) um) = top - esp) by (apply part_length; lia).
  split_and!; [lia|lia|lia| |].
  - etransitivity; [|apply (part_splice_eq (stack + size - (top - esp)) (part esp (top - esp) um) um); lia]. by rewrite Hz.
  - intros a k Ha Hk Hak. apply part_splice_ne; lia.
Qed.
