(* ===== verification/CloneThread.v ===== *)
(** What [clone] makes ([src/4/xv6/change/proc.c]), over any rest of the kernel
    whose view of the running process's memory is flat: one thread, in the first
    free slot, with its maker's address space and files, on a copy of its
    maker's frames. *)
From S2P Require Import Prelude Bytes Proc ProcSpec ProcInv ProcSched Thread ThreadSpec Clone CloneSched.
Import Proc.

(** What [clone] relies on: the memory of the running process is the bytes
    [um]; allocating a kernel stack and taking references leave it alone, and
    taking a reference gives back what it was given. *)
Class FlatMem (K : Type) `{KernelOps K} `{UserMem K} := {
  um : K -> list Z;
  uword_ok k a : 0 <= a -> a + 4 <= zlen (um k) -> uword a k = Ret (word (um k) a, k);
  umemmove_ok k d s n : 0 <= d -> 0 <= s -> 0 <= n -> d + n <= zlen (um k) -> s + n <= zlen (um k) ->
    exists k', umemmove d s n k = Ret (tt, k') /\ um k' = splice d (part s n (um k)) (um k);
  kalloc_um k : exists r k', kalloc k = Ret (r, k') /\ um k' = um k;
  filedup_um k f : exists k', filedup f k = Ret (f, k') /\ um k' = um k;
  idup_um k c : exists k', idup c k = Ret (c, k') /\ um k' = um k
}.

Section Thread.
Context {K : Type} `{FM : FlatMem K}.

(** ** A slot being filled

    The table of [s] with [t] in slot [np], over the rest [k]. *)
Definition filling (s : kernel K) (np n : Z) (c : cpu) (t : proc) (k : K) : kernel K :=
  mkK (zset (procs s) np t) (initproc s) n c (cur s) (current s) k.

Section Filling.
Variables (s : kernel K) (np n : Z) (c : cpu).
Hypothesis Hnp : 0 <= np < zlen (procs s).
Notation fill := (filling s np n c).

Lemma wp_fill_mod f t k Q : Q tt (fill (f t) k) -> wp (pmod np f) Q (fill t k).
Proof.
  intros HQ. unfold wp. erewrite pmod_ok by (cbn; by apply zget_zset_eq). unfold filling, set_procs in *. cbn. by rewrite zset_zset.
Qed.
Lemma wp_fill_get t k Q : Q t (fill t k) -> wp (pget np) Q (fill t k).
Proof. intros HQ. unfold wp. by erewrite pget_ok by (cbn; by apply zget_zset_eq). Qed.
Lemma wp_fill_get_ne me p t k Q : me <> np -> zget (procs s) me = Some p -> Q p (fill t k) -> wp (pget me) Q (fill t k).
Proof. intros Hne Hp HQ. unfold wp. by erewrite pget_ok by (cbn; rewrite zget_zset_ne by done; exact Hp). Qed.
Lemma wp_fill_lower {A} (m : M K A) a k' t k Q : m k = Ret (a, k') -> Q a (fill t k') -> wp (lower m) Q (fill t k).
Proof. intros E HQ. unfold wp, lower. cbn. by rewrite E. Qed.

(** The child of a slot whose descriptors are closed has its parent's. *)
Lemma wp_dup_files l t k Q : (forall k', um k' = um k -> Q l (fill t k')) ->
  wp (dup_files l (replicate (length l) 0)) Q (fill t k).
Proof.
  revert k Q. induction l as [|f l IH]; intros k Q HQ; cbn [dup_files length replicate].
  - by apply wp_ret, HQ.
  - destruct (filedup_um k f) as (k1 & E & E1).
    assert (wp (if negb (f =? 0) then lower (filedup f) else mret 0)
      (fun d s1 => d = f /\ exists k1, um k1 = um k /\ s1 = fill t k1) (fill t k)) as W.
    { destruct (Z.eqb_spec f 0) as [->|Hf]; cbn [negb]; [apply wp_ret; split; [done|by exists k]|].
      eapply wp_fill_lower; [exact E|]. split; [done|by exists k1]. }
    eapply wp_bind_use; [exact W|]. clear k1 E E1. intros d s1 (-> & k1 & E1 & ->).
    eapply wp_bind, IH. intros k2 E2. apply wp_ret, HQ. congruence.
Qed.
End Filling.

(** ** The thread *)

(** The maker's frames, from its [esp] up to what its [ebp] points at, are in
    memory, and fit on the new stack. *)
Record frames_fit (m : list Z) (t : trapframe) (stack size : Z) : Prop := {
  ff_esp : 0 <= esp t <= ebp t;
  ff_word : ebp t + 4 <= zlen m;
  ff_top : ebp t <= word m (ebp t) <= zlen m;
  ff_size : word m (ebp t) - esp t <= size;
  ff_stack : 0 <= stack /\ stack + size <= zlen m;
  ff_mem : zlen m < 2 ^ 32
}.

(** [t] is a thread of [p], which is in slot [me]: ready to return to user
    space where [p] called, with result 0, in [p]'s address space and with [p]'s
    files. *)
Record thread_of (me : Z) (p t : proc) : Prop := {
  th_state : state t = RUNNABLE;
  th_parent : parent t = Some me;
  th_pgdir : pgdir t = pgdir p;
  th_sz : sz t = sz p;
  th_files : ofile t = ofile p /\ cwd t = cwd p;
  th_start : context t = mkCtx Forkret false;
  th_eax : eax (tf t) = 0;
  th_eip : eip (tf t) = eip (tf p)
}.
(** It has its own copy of the maker's frames, moved to the top of its stack;
    no other byte of memory is touched. *)
Record own_stack (m m' : list Z) (p t : proc) (stack size : Z) : Prop := {
  os_esp : stack + size - esp (tf t) = word m (ebp (tf p)) - esp (tf p);
  os_ebp : ebp (tf t) - esp (tf t) = ebp (tf p) - esp (tf p);
  os_in : stack <= esp (tf t);
  os_frames : part (esp (tf t)) (stack + size - esp (tf t)) m' = part (esp (tf p)) (word m (ebp (tf p)) - esp (tf p)) m;
  os_rest a n : 0 <= a -> 0 <= n -> a + n <= esp (tf t) \/ stack + size <= a -> part a n m' = part a n m
}.

Definition free_slot (q : proc) : bool := bool_decide (state q = UNUSED).

(** [allocproc]: the first free slot, with a pid and a kernel stack, or that
    slot given back, or nothing. *)
Lemma wp_allocproc s Q : pt_locked (thecpu s) = false -> ncli (thecpu s) = 0 ->
  (let c := mkCpu (iflag (thecpu s)) 0 (iflag (thecpu s)) false in
   match scan free_slot (procs s) 0 with
   | None => Q None (set_cpu c s)
   | Some np => forall q r k', zget (procs s) np = Some q -> state q = UNUSED -> kalloc (kern s) = Ret (r, k') -> um k' = um (kern s) ->
       let n := s32 (nextpid s + 1) in
       match r with
       | None => Q None (filling s np n c (set_state UNUSED (set_kstack 0 (set_pid (nextpid s) (set_state EMBRYO q)))) k')
       | Some ks => Q (Some np) (filling s np n c
           (set_context (mkCtx Forkret false) (set_kstack ks (set_pid (nextpid s) (set_state EMBRYO q)))) k')
       end
   end) -> wp Clone.allocproc Q s.
Proof.
  intros Hl Hn HQ. cbv zeta in HQ. unfold Clone.allocproc. apply wp_bind, wp_acquire_pt; [done..|]. apply wp_bind, wp_get.
  change (scan (fun p => bool_decide (state p = UNUSED)) (procs (set_cpu _ s)) 0) with (scan free_slot (procs s) 0).
  destruct (scan free_slot (procs s) 0) as [np|] eqn:E.
  2: { apply wp_bind, wp_release_pt; [done..|]. by apply wp_ret. }
  apply scan_spec in E as (_ & q & Hq & Hu). rewrite Z.sub_0_r in Hq. apply bool_decide_eq_true in Hu.
  pose proof (zget_Some_range _ _ _ Hq) as Hr. destruct (kalloc_um (kern s)) as (r & k' & Ek & Em). specialize (HQ q r k' Hq Hu Ek Em).
  set (c1 := mkCpu false 1 (iflag (thecpu s)) true).
  change (set_cpu c1 s) with (mkK (procs s) (initproc s) (nextpid s) c1 (cur s) (current s) (kern s)).
  apply wp_bind. unfold wp at 1. erewrite pmod_ok by exact Hq.
  change (set_procs _ _) with (filling s np (nextpid s) c1 (set_state EMBRYO q) (kern s)).
  apply wp_bind, wp_get. apply wp_bind, wp_fill_mod; [done|]. apply wp_bind, wp_modify. cbn [procs initproc nextpid thecpu cur current kern filling].
  change (mkK (zset (procs s) np ?t) _ ?n c1 _ _ (kern s)) with (filling s np n c1 t (kern s)).
  apply wp_bind, wp_release_pt; [done..|]. change (set_cpu _ _) with
    (filling s np (s32 (nextpid s + 1)) (mkCpu (iflag (thecpu s)) 0 (iflag (thecpu s)) false) (set_pid (nextpid s) (set_state EMBRYO q)) (kern s)).
  apply wp_bind. eapply wp_fill_lower; [exact Ek|]. destruct r as [ks|].
  - apply wp_bind, wp_fill_mod; [done|]. apply wp_bind, wp_fill_mod; [done|]. by apply wp_ret.
  - apply wp_bind, wp_fill_mod; [done|]. apply wp_bind, wp_fill_mod; [done|]. by apply wp_ret.
Qed.

(** The registers and the copy, as [clone_stack] makes them. *)
Lemma thread_stack m (p t : proc) stack size : frames_fit m (tf p) stack size ->
  tf t = Clone.thread_tf (tf p) (word m (ebp (tf p))) stack size ->
  own_stack m (splice (esp (tf t)) (part (esp (tf p)) (u32 (word m (ebp (tf p)) - esp (tf p))) m) m) p t stack size.
Proof.
  intros [H1 H2 H3 H4 H5 H6] Ht. set (top := word m (ebp (tf p))) in *.
  assert (E : u32 (top - esp (tf p)) = top - esp (tf p)) by (apply u32_small; unfold in_u32; lia).
  assert (E2 : u32 (top - ebp (tf p)) = top - ebp (tf p)) by (apply u32_small; unfold in_u32; lia).
  assert (Ee : esp (tf t) = stack + size - (top - esp (tf p))).
  { rewrite Ht. cbn. rewrite E. apply u32_small. unfold in_u32. lia. }
  assert (Eb : ebp (tf t) = stack + size - (top - ebp (tf p))).
  { rewrite Ht. cbn. rewrite E2. apply u32_small. unfold in_u32. lia. }
  assert (Hz : zlen (part (esp (tf p)) (top - esp (tf p)) m) = top - esp (tf p)) by (apply part_length; lia).
  rewrite E, Ee. split; fold top; rewrite ?Ee, ?Eb; try lia.
  - replace (stack + size - (stack + size - (top - esp (tf p)))) with (zlen (part (esp (tf p)) (top - esp (tf p)) m)) by lia.
    apply part_splice_eq; lia.
  - intros a n Ha Hn Hor. apply part_splice_ne; lia.
Qed.

(** C32: What [clone] does, on every branch.  With no free slot it returns -1 and
    changes nothing.  Otherwise it takes the first one and a pid; when there is
    no page for a kernel stack it frees the slot again and returns -1, memory
    and every other slot as they were.  Otherwise it returns the pid, and that
    slot (never its own) holds a thread of the caller, ready to return 0 from
    the call, in the caller's address space and with its files, on its own copy
    of the caller's frames at the top of the new stack; every other slot and
    every other byte of memory are as they were.  The caller goes on running,
    with the table's lock free.  Hypotheses: the caller's frames are in memory
    and fit on the stack (what [clone] does not check), and the descriptors of
    free slots are closed ([exit] closes them). *)
Theorem clone_makes_thread stack size (s : kernel K) me p :
  cur s = Some me -> zget (procs s) me = Some p -> state p <> UNUSED ->
  pt_locked (thecpu s) = false -> ncli (thecpu s) = 0 ->
  frames_fit (um (kern s)) (tf p) stack size ->
  (forall k q, zget (procs s) k = Some q -> state q = UNUSED -> ofile q = replicate (length (ofile p)) 0) ->
  exists r s', Clone.clone stack size s = Ret (r, s') /\
    cur s' = Some me /\ thecpu s' = mkCpu (iflag (thecpu s)) 0 (iflag (thecpu s)) false /\
    match scan free_slot (procs s) 0 with
    | None => r = -1 /\ procs s' = procs s /\ nextpid s' = nextpid s /\ kern s' = kern s
    | Some np =>
        np <> me /\ exists t, procs s' = zset (procs s) np t /\ pid t = nextpid s /\ nextpid s' = s32 (nextpid s + 1) /\
        match kalloc (kern s) with
        | Ret (Some ks, _) =>
            r = nextpid s /\ kstack t = ks /\ thread_of me p t /\ own_stack (um (kern s)) (um (kern s')) p t stack size
        | _ => r = -1 /\ state t = UNUSED /\ um (kern s') = um (kern s)
        end
    end.
Proof.
  intros Hc Hp Hu Hl Hn Hf Hcl. apply wp_iff. unfold Clone.clone. apply wp_bind. unfold curproc. apply wp_bind, wp_get. rewrite Hc. apply wp_deref.
  apply wp_bind, wp_allocproc; [done..|]. cbv zeta. destruct (scan free_slot (procs s) 0) as [np|] eqn:E.
  2: { apply wp_ret. by split_and!. }
  intros q r k1 Hq Huq Ek Em. rewrite Ek. assert (np <> me) as Hne by congruence. pose proof (zget_Some_range _ _ _ Hq) as Hr.
  destruct r as [ks|].
  2: { apply wp_ret. cbn [cur thecpu filling procs nextpid kern]. split_and!; try done. eexists. by split_and!. }
  set (c := mkCpu _ _ _ _). set (n := s32 _).
  apply wp_bind. eapply wp_fill_get_ne; [done|exact Hp|]. do 3 (apply wp_bind, wp_fill_mod; [done|]).
  pose proof Hf as [F1 F2 F3 F4 F5 F6]. rewrite <- Em in *.
  apply wp_bind. eapply wp_fill_lower; [apply uword_ok; lia|]. apply wp_bind, wp_fill_mod; [done|].
  apply wp_bind, wp_fill_get; [done|]. 
  match goal with |- wp _ _ (filling _ _ _ _ ?t _) => set (t1 := t) end.
  pose proof (thread_stack (um k1) p t1 stack size Hf eq_refl) as Hs. pose proof Hs as [S1 _ S3 _ _].
  assert (u32 (word (um k1) (ebp (tf p)) - esp (tf p)) = word (um k1) (ebp (tf p)) - esp (tf p)) as Eu
    by (apply u32_small; unfold in_u32; lia).
  destruct (umemmove_ok k1 (esp (tf t1)) (esp (tf p)) (u32 (word (um k1) (ebp (tf p)) - esp (tf p)))) as (k2 & E2 & Em2); [lia..|].
  rewrite <- Em2 in Hs. apply wp_bind. eapply wp_fill_lower; [exact E2|].
  assert (ofile t1 = replicate (length (ofile p)) 0) as -> by exact (Hcl np q Hq Huq).
  apply wp_bind, wp_dup_files. intros k3 Em3.
  apply wp_bind, wp_fill_mod; [done|]. destruct (idup_um k3 (cwd p)) as (k4 & E4 & Em4).
  apply wp_bind. eapply wp_fill_lower; [exact E4|]. apply wp_bind, wp_fill_mod; [done|]. apply wp_bind, wp_fill_get; [done|].
  do 2 (apply wp_bind, wp_fill_mod; [done|]). apply wp_ret. cbn [cur thecpu filling procs nextpid kern].
  rewrite Em4, Em3. split_and!; try done. eexists. split_and!; try done; by destruct Hs.
Qed.
End Thread.

(** ** A concrete kernel

    Flat memory and a list of free pages; the file layer does nothing. *)
Record flat := mkFlat { f_mem : list Z; f_pages : list Z }.
#[export] Instance flat_ops : KernelOps flat := {
  kalloc := s ← get;
    match f_pages s with [] => mret None | x :: l => put (mkFlat (f_mem s) l);; mret (Some x) end;
  kfree := fun x => modify (fun s => mkFlat (f_mem s) (x :: f_pages s));
  setupkvm := mret 0;
  inituvm := fun _ => mret tt;
  copyuvm := fun _ _ => mret 0;
  freevm := fun _ => mret tt;
  allocuvm := fun _ _ n => mret n;
  deallocuvm := fun _ _ n => mret n;
  filedup := fun f => mret f;
  fileclose := fun _ => mret tt;
  idup := fun i => mret i;
  iput := fun _ => mret tt;
  namei_root := mret 1
}.
#[export] Instance flat_user : UserMem flat := {
  uword := fun a => s ← get; mret (word (f_mem s) a);
  umemmove := fun d s n => modify (fun k => mkFlat (splice d (part s n (f_mem k)) (f_mem k)) (f_pages k))
}.
Lemma flat_memmove (k : flat) d s n : exists k', umemmove d s n k = Ret (tt, k') /\ f_mem k' = splice d (part s n (f_mem k)) (f_mem k).
Proof. by eexists. Qed.
Lemma flat_kalloc (k : flat) : exists r k', kalloc k = Ret (r, k') /\ f_mem k' = f_mem k.
Proof. destruct k as [m [|x l]]; eexists _, _; (split; [reflexivity|done]). Qed.
#[export] Instance flat_mem : FlatMem flat := {
  um := f_mem;
  uword_ok _ _ _ _ := eq_refl;
  umemmove_ok k d s n _ _ _ _ _ := flat_memmove k d s n;
  kalloc_um := flat_kalloc;
  filedup_um k _ := ex_intro _ k (conj eq_refl eq_refl);
  idup_um k _ := ex_intro _ k (conj eq_refl eq_refl)
}.

(** A process in slot 0 with a frame of 8 bytes from 8 to 16, and its caller's
    up to 24; a stack of 32 bytes at 32. *)
Definition maker0 : proc :=
  set_tf (mkTf 7 16 8 5 0 0 0 0 0 []) (set_cwd 9 (set_sz 64 (set_pgdir 4096 (set_pid 1 (set_state RUNNING zero_proc))))).
Definition flat_start : kernel flat :=
  let s := boot_kernel (mkFlat (splice 16 (to_le 4 24) (Z.of_nat <$> seq 0 64)) [8192]) in
  mkK (zset (procs s) 0 maker0) (Some 0) 2 (thecpu s) (Some 0) None (kern s).

Lemma clone_makes_thread_witness :
  exists s' t, Clone.clone 32 32 flat_start = Ret (2, s') /\ procs s' = zset (procs flat_start) 1 t /\
    thread_of 0 maker0 t /\ esp (tf t) = 48.
Proof.
  destruct (clone_makes_thread 32 32 flat_start 0 maker0) as (r & s' & E & _ & _ & _ & t & Ht & _ & _ & Er & _ & T & O).
  - reflexivity.
  - vm_compute. reflexivity.
  - vm_compute. discriminate.
  - reflexivity.
  - reflexivity.
  - split; vm_compute; try (split; discriminate); discriminate.
  - assert (forallb (fun q => bool_decide (state q = UNUSED -> ofile q = replicate (length (ofile maker0)) 0)) (procs flat_start) = true) as F
      by (vm_compute; reflexivity).
    intros k q Hk Hq. by apply (bool_decide_eq_true_1 _ (zget_forallb _ _ _ _ F Hk)).
  - exists s', t. subst r. split; [exact E|]. split; [exact Ht|]. split; [exact T|]. destruct O as [O1 _ _ _ _].
    change (word _ _ - _) with 16 in O1. lia.
Defined.
