(* ===== verification/Mkfs.v ===== *)
(** [mkfs] ([src/5/xv6/mkfs.c]): a file system image made of a directory of the
    host.

    The image is its sectors; [mkfs] writes them all before it reads any, so a
    sector not there is past the end of the image, where a read is short.  A
    host directory is what [readdir_r], [open], [fstat] and [read] give: the
    entries in their order, each with what is opened by its name. *)
From S2P Require Import Prelude Bytes Fs.
Import Fs.

Module Mkfs.

(** ** The host *)

(** A file gives the pieces [read] returns; an entry may fail to open; a
    directory that [fdopendir] or [opendir] fails to open is null. *)
Inductive hnode := HFile (reads : list (list Z)) | HDir (es : hentries) | HNull | HNoOpen
with hentries := HEnd | HError | HEntry (name : list Z) (nd : hnode) (rest : hentries).

(** ** The image *)

Record mk := mkMk { img : gmap Z (list Z); freeblock : Z; usedblocks : Z; freeinode : Z }.
Definition set_img m s := mkMk m (freeblock s) (usedblocks s) (freeinode s).
Definition set_freeblock v s := mkMk (img s) v (usedblocks s) (freeinode s).
Definition set_usedblocks v s := mkMk (img s) (freeblock s) v (freeinode s).
Definition set_freeinode v s := mkMk (img s) (freeblock s) (usedblocks s) v.

Definition nblocks : Z := 995.
Definition ninodes : Z := 200.
Definition size : Z := 1024.
Definition bitblocks : Z := size / (512 * 8) + 1.

Definition exit1 {A} : M mk A := panic "exit".
Definition assert (b : bool) : M mk unit := if b then mret tt else panic "assert".

Definition wsect (sec : Z) (buf : list Z) : M mk unit := modify (fun s => set_img (<[sec := buf]> (img s)) s).
Definition rsect (sec : Z) : M mk (list Z) := s ← get; match img s !! sec with Some x => mret x | None => exit1 end.

Definition i2b (inum : Z) : Z := inum / IPB + 2.

(** [struct dinode], with no device numbers set. *)
Record dinode := mkDin { dtype : Z; dmajor : Z; dminor : Z; dnlink : Z; dsize : Z; daddrs : list Z }.
Definition din_bytes (d : dinode) : list Z :=
  to_le 2 (dtype d) ++ to_le 2 (dmajor d) ++ to_le 2 (dminor d) ++ to_le 2 (dnlink d) ++ to_le 4 (dsize d) ++ mjoin (to_le 4 <$> daddrs d).
Definition set_dsize v d := mkDin (dtype d) (dmajor d) (dminor d) (dnlink d) v (daddrs d).
Definition set_daddr k v d := mkDin (dtype d) (dmajor d) (dminor d) (dnlink d) (dsize d) (zset (daddrs d) k v).

Definition winode (inum : Z) (ip : dinode) : M mk unit :=
  let bn := i2b inum in
  buf ← rsect bn;
  wsect bn (splice (inum mod IPB * 64) (din_bytes ip) buf).
Definition rinode (inum : Z) : M mk dinode :=
  buf ← rsect (i2b inum);
  let o := inum mod IPB * 64 in
  mret (mkDin (half buf o) (half buf (o + 2)) (half buf (o + 4)) (half buf (o + 6)) (word buf (o + 8)) (words 13 buf (o + 12))).

Fixpoint zero_sectors (n : nat) (i : Z) : M mk unit :=
  match n with O => mret tt | S n => wsect i (replicate 512 0);; zero_sectors n (i + 1) end.
Definition mkfs : M mk unit :=
  modify (set_usedblocks (ninodes / IPB + 3 + bitblocks));;
  modify (fun s => set_freeblock (usedblocks s) s);;
  s ← get;
  assert (nblocks + usedblocks s =? size);;
  zero_sectors (Z.to_nat (nblocks + usedblocks s)) 0;;
  wsect 1 (to_le 4 size ++ to_le 4 nblocks ++ to_le 4 ninodes ++ replicate 500 0).

Definition ialloc (type : Z) : M mk Z :=
  s ← get;
  let inum := freeinode s in
  modify (set_freeinode (u32 (inum + 1)));;
  winode inum (mkDin type 0 0 1 0 (replicate 13 0));;
  mret inum.

Fixpoint set_bits (n : nat) (i : Z) (buf : list Z) : list Z :=
  match n with
  | O => buf
  | S n => set_bits n (i + 1) (upd_byte buf i Z.lor)
  end.
Definition balloc (used : Z) : M mk unit :=
  assert (used <? 512 * 8);;
  wsect (ninodes / IPB + 3) (set_bits (Z.to_nat used) 0 (replicate 512 0)).

(** [freeblock++] and [usedblocks++]. *)
Definition new_block : M mk Z :=
  s ← get;
  modify (set_freeblock (u32 (freeblock s + 1)));;
  modify (fun s => set_usedblocks (u32 (usedblocks s + 1)) s);;
  mret (freeblock s).

(** The block for [fbn], allocated if there is none: its address, and the inode
    with what was allocated. *)
Definition file_block (fbn : Z) (din : dinode) : M mk (Z * dinode) :=
  if fbn <? NDIRECT then
    din ← (if nth (Z.to_nat fbn) (daddrs din) 0 =? 0 then b ← new_block; mret (set_daddr fbn b din) else mret din);
    mret (nth (Z.to_nat fbn) (daddrs din) 0, din)
  else
    din ← (if nth 12 (daddrs din) 0 =? 0 then b ← new_block; mret (set_daddr NDIRECT b din) else mret din);
    indirect ← rsect (nth 12 (daddrs din) 0);
    let o := 4 * (fbn - NDIRECT) in
    indirect ← (if word indirect o =? 0 then
                  b ← new_block;
                  wsect (nth 12 (daddrs din) 0) (splice o (to_le 4 b) indirect);;
                  mret (splice o (to_le 4 b) indirect)
                else mret indirect);
    mret (word indirect o, din).
(** The loop; a turn moves at least a byte. *)
Fixpoint iappend_loop (fuel : nat) (p : list Z) (off : Z) (din : dinode) : M mk (Z * dinode) :=
  match fuel with
  | O => no_fuel
  | S fuel =>
      match p with
      | [] => mret (off, din)
      | _ =>
          let fbn := off / 512 in
          assert (fbn <? MAXFILE);;
          r ← file_block fbn din;
          let n1 := Z.min (zlen p) ((fbn + 1) * 512 - off) in
          buf ← rsect r.1;
          wsect r.1 (splice (off - fbn * 512) (take (Z.to_nat n1) p) buf);;
          iappend_loop fuel (drop (Z.to_nat n1) p) (off + n1) r.2
      end
  end.
Definition iappend (inum : Z) (p : list Z) : M mk unit :=
  din ← rinode inum;
  r ← iappend_loop (S (length p)) p (dsize din) din;
  winode inum (set_dsize r.1 r.2).

(** ** Directories *)

(** [strncpy] of a name to 14 bytes, and a directory entry. *)
Definition pad_name (name : list Z) : list Z := take 14 (name ++ replicate 14 0).
Definition dirent (inum : Z) (name : list Z) : list Z := to_le 2 inum ++ pad_name name.
Definition dot : list Z := [46].
Definition dotdot : list Z := [46; 46].

Fixpoint copy_file (inum : Z) (reads : list (list Z)) : M mk unit :=
  match reads with
  | [] => mret tt
  | buf :: reads => iappend inum buf;; copy_file inum reads
  end.
Definition fix_size (inum : Z) : M mk unit :=
  din ← rinode inum;
  winode inum (set_dsize (u32 (s32 (Z.quot (s32 (dsize din)) BSIZE + 1) * BSIZE)) din).

Definition dots (cur parent : Z) : M mk unit :=
  iappend cur (dirent cur dot);; iappend cur (dirent parent dotdot).
(** [add_dir] from the first entry on. *)
Fixpoint add_entries (es : hentries) (cur : Z) : M mk Z :=
  match es with
  | HEnd => fix_size cur;; mret 0
  | HError => mret (-1)
  | HEntry name nd rest =>
      if bool_decide (name = dot) || bool_decide (name = dotdot) then add_entries rest cur
      else
        match nd with
        | HNoOpen => mret (-1)
        | HFile reads =>
            child ← ialloc T_FILE;
            copy_file child reads;;
            iappend cur (dirent child name);;
            add_entries rest cur
        | HNull =>
            child ← ialloc T_DIR;
            dots child cur;;
            iappend cur (dirent child name);;
            add_entries rest cur
        | HDir es' =>
            child ← ialloc T_DIR;
            dots child cur;;
            r ← add_entries es' child;
            if negb (r =? 0) then mret r
            else iappend cur (dirent child name);; add_entries rest cur
        end
  end.
Definition add_dir (es : hentries) (cur parent : Z) : M mk Z := dots cur parent;; add_entries es cur.

(** [main], given the directory of its argument, null if it does not open; what
    it exits with. *)
Definition main (root : option hentries) : M mk Z :=
  mkfs;;
  root_inode ← ialloc T_DIR;
  assert (root_inode =? ROOTINO);;
  r ← match root with
      | Some es => add_dir es root_inode root_inode
      | None => dots root_inode root_inode;; mret 0
      end;
  if negb (r =? 0) then mret 1
  else
    s ← get;
    balloc (usedblocks s);;
    mret 0.
(** The globals as they start. *)
Definition start : mk := mkMk ∅ 0 0 1.
End Mkfs.
