(* ===== verification/MkfsImg.v ===== *)
(** The inodes and blocks of an image: what one append does to all of them. *)
From S2P Require Import Prelude Bytes Fs FsSpec Mkfs.
Import Fs.
Import Mkfs.

(** ** Inodes in their sectors *)

(** The inode in 64 bytes. *)
Definition decode (c : list Z) : dinode := mkDin (half c 0) (half c 2) (half c 4) (half c 6) (word c 8) (words 13 c 12).
Record din_ok (d : dinode) : Prop := {
  do_type : 0 <= dtype d < 65536; do_major : 0 <= dmajor d < 65536; do_minor : 0 <= dminor d < 65536; do_nlink : 0 <= dnlink d < 65536;
  do_size : in_u32 (dsize d); do_len : length (daddrs d) = 13%nat; do_addrs : Forall in_u32 (daddrs d)
}.
Lemma zlen_din d : length (daddrs d) = 13%nat -> zlen (din_bytes d) = 64.
Proof. intros Hl. unfold din_bytes. rewrite !zlen_app, !zlen_to_le, zlen_join. unfold zlen. lia. Qed.
Lemma decode_bytes d : din_ok d -> decode (din_bytes d) = d.
Proof.
  intros [H1 H2 H3 H4 H5 H6 H7]. unfold decode, din_bytes.
  set (a := to_le 2 (dtype d)). set (b := to_le 2 (dmajor d)). set (c := to_le 2 (dminor d)). set (e := to_le 2 (dnlink d)). set (f := to_le 4 (dsize d)). set (g := mjoin _).
  assert (Ea : zlen a = 2) by apply zlen_to_le. assert (Eb : zlen b = 2) by apply zlen_to_le. assert (Ec : zlen c = 2) by apply zlen_to_le.
  assert (Ee : zlen e = 2) by apply zlen_to_le. assert (Ef : zlen f = 4) by apply zlen_to_le.
  assert (P : forall pre x post o n, zlen pre = o -> zlen x = n -> part o n (pre ++ x ++ post) = x) by (intros pre x post o n <- <-; apply part_mid).
  destruct d as [t ma mi nl sz ad]. cbn [dtype dmajor dminor dnlink dsize daddrs] in *. unfold half, word. f_equal.
  - rewrite (P [] a (b ++ c ++ e ++ f ++ g) 0 2 eq_refl Ea : part 0 2 (a ++ b ++ c ++ e ++ f ++ g) = a). by apply le_to_le.
  - rewrite (P a b (c ++ e ++ f ++ g) 2 2) by done. by apply le_to_le.
  - rewrite (app_assoc a), (P (a ++ b) c (e ++ f ++ g) 4 2) by (rewrite ?zlen_app; lia). by apply le_to_le.
  - rewrite (app_assoc a), (app_assoc (a ++ b)), (P ((a ++ b) ++ c) e (f ++ g) 6 2) by (rewrite ?zlen_app; lia). by apply le_to_le.
  - rewrite (app_assoc a), (app_assoc (a ++ b)), (app_assoc ((a ++ b) ++ c)), (P (((a ++ b) ++ c) ++ e) f g 8 4) by (rewrite ?zlen_app; lia). by apply le_to_le.
  - rewrite (app_assoc a), (app_assoc (a ++ b)), (app_assoc ((a ++ b) ++ c)), (app_assoc (((a ++ b) ++ c) ++ e)). rewrite <- (app_nil_r g). unfold g.
    replace 12 with (zlen ((((a ++ b) ++ c) ++ e) ++ f)) by (rewrite !zlen_app; lia). rewrite <- H6. by apply words_join.
Qed.

(** Every sector is there. *)
Definition sectors (m : gmap Z (list Z)) : Prop := forall b, 0 <= b < 1024 -> exists x, m !! b = Some x /\ length x = 512%nat.
Definition inode_at (m : gmap Z (list Z)) (inum : Z) : dinode := decode (part (inum mod IPB * 64) 64 (default [] (m !! i2b inum))).

Lemma sectors_put m b x : sectors m -> length x = 512%nat -> sectors (<[b := x]> m).
Proof. intros Hs Hx c Hc. destruct (decide (c = b)) as [->|]; [rewrite lookup_insert_eq; by exists x|rewrite lookup_insert_ne by done; by apply Hs]. Qed.
Lemma rsect_ok b s x : img s !! b = Some x -> rsect b s = Ret (x, s).
Proof. intros Hx. unfold rsect. mnext. by rewrite Hx. Qed.

Lemma i2b_range inum : 0 <= inum < 200 -> 2 <= i2b inum < 27 /\ 0 <= inum mod IPB * 64 /\ inum mod IPB * 64 + 64 <= 512.
Proof. intros H. unfold i2b, IPB. dlia. Qed.
Lemma rinode_ok inum s : sectors (img s) -> 0 <= inum < 200 -> rinode inum s = Ret (inode_at (img s) inum, s).
Proof.
  intros Hs Hi. destruct (i2b_range inum Hi) as (H1 & H2 & H3). destruct (Hs (i2b inum)) as (x & Hx & Hl); [lia|]. unfold rinode. mstep (rsect_ok _ s x Hx).
  unfold inode_at. rewrite Hx. cbn [default]. unfold decode. do 2 f_equal. unfold half, word. rewrite !part_part by lia. rewrite words_part by lia. by rewrite Z.add_0_r.
Qed.
Lemma winode_ok inum d s : sectors (img s) -> 0 <= inum < 200 -> din_ok d ->
  exists m, winode inum d s = Ret (tt, set_img m s) /\ sectors m /\ inode_at m inum = d /\
    (forall j, 0 <= j < 200 -> j <> inum -> inode_at m j = inode_at (img s) j) /\ (forall b, b < 2 \/ 27 <= b -> m !! b = img s !! b).
Proof.
  intros Hs Hi Hd. destruct (i2b_range inum Hi) as (H1 & H2 & H3). destruct (Hs (i2b inum)) as (x & Hx & Hl); [lia|]. unfold winode. mstep (rsect_ok _ s x Hx).
  pose proof (zlen_din d (do_len d Hd)) as Hz. assert (Hzx : zlen x = 512) by (unfold zlen; lia).
  eexists. split; [reflexivity|]. split; [|split; [|split]].
  - apply sectors_put; [done|]. apply Nat2Z.inj. change (Z.of_nat (length (splice ?a ?b ?c))) with (zlen (splice a b c)). rewrite zlen_splice by lia. lia.
  - unfold inode_at. rewrite lookup_insert_eq. cbn [default from_option id]. pose proof (part_splice_eq (inum mod IPB * 64) (din_bytes d) x H2 ltac:(lia)) as E.
    rewrite Hz in E. rewrite E. by apply decode_bytes.
  - intros j Hj Hne. unfold inode_at. f_equal. destruct (decide (i2b j = i2b inum)) as [E|N].
    + rewrite E, lookup_insert_eq, Hx. cbn [default from_option id]. destruct (i2b_range j Hj) as (_ & H2' & H3'). apply part_splice_ne; [lia..|].
      rewrite Hz. unfold i2b, IPB in *. dlia.
    + by rewrite lookup_insert_ne.
  - intros b Hb. rewrite lookup_insert_ne; [done|lia].
Qed.

(** ** The blocks of a file *)

(** Block [k] of some data, zeros past its end. *)
Definition blk (data : list Z) (k : nat) : list Z := (fun j => nth (k * 512 + j) data 0) <$> seq 0 512.
Lemma length_blk data k : length (blk data k) = 512%nat.
Proof. unfold blk. by rewrite length_fmap, length_seq. Qed.
Lemma blk_lookup data k j : (j < 512)%nat -> blk data k !! j = Some (nth (k * 512 + j) data 0).
Proof. intros Hj. unfold blk. by rewrite list_lookup_fmap, lookup_seq_lt by done. Qed.
Lemma blk_past data k : (length data <= k * 512)%nat -> blk data k = replicate 512 0.
Proof.
  intros Hl. apply list_eq_same_length with (n := 512%nat); [by rewrite length_replicate|apply length_blk|]. intros j a b Hj. rewrite blk_lookup by done.
  rewrite lookup_replicate_2 by done. intros [= <-] [= <-]. apply nth_overflow. lia.
Qed.
Lemma blk_app data p k : (k * 512 + 512 <= length data)%nat -> blk (data ++ p) k = blk data k.
Proof.
  intros Hl. apply list_eq_same_length with (n := 512%nat); [apply length_blk..|]. intros j a b Hj. rewrite !blk_lookup by done.
  intros [= <-] [= <-]. apply app_nth1. lia.
Qed.
Lemma blk_write data p k : (k * 512 <= length data)%nat -> (length data + length p <= k * 512 + 512)%nat ->
  splice (Z.of_nat (length data) - Z.of_nat k * 512) p (blk data k) = blk (data ++ p) k.
Proof.
  intros H1 H2. replace (Z.of_nat (length data) - Z.of_nat k * 512) with (Z.of_nat (length data - k * 512)) by lia.
  assert (Hl : (length data - k * 512 + length p <= length (blk data k))%nat) by (rewrite length_blk; lia).
  apply list_eq_same_length with (n := 512%nat); [apply length_blk|by rewrite splice_length, length_blk|]. intros j a b Hj.
  rewrite splice_lookup by done. rewrite !blk_lookup by done. intros Ha Hb. injection Hb as <-. generalize dependent (k * 512)%nat. intros q H1 H2 _ Ha.
  revert Ha. case_decide as Hd; intros Ha.
  - rewrite app_nth2 by lia. replace (q + j - length data)%nat with (j - (length data - q))%nat by lia. symmetry. by apply nth_lookup_Some.
  - injection Ha as <-. destruct (decide (q + j < length data)%nat); [by rewrite app_nth1 by lia|]. rewrite !nth_overflow; [done|rewrite ?length_app; lia..].
Qed.

(** The addresses of a file: [bl] in order, through the indirect block [ind] from
    the thirteenth on. *)
Record addrs_at (m : gmap Z (list Z)) (ad bl : list Z) (ind : Z) : Prop := {
  aa_addrs : ad = take 12 (bl ++ replicate 12 0) ++ [ind];
  aa_max : (length bl <= 140)%nat;
  aa_direct : (length bl <= 12)%nat -> ind = 0;
  aa_table : (12 < length bl)%nat -> exists x, m !! ind = Some x /\ length x = 512%nat /\
    forall j, (j < 128)%nat -> word x (4 * Z.of_nat j) = nth (12 + j) bl 0
}.
Definition owned (bl : list Z) (ind : Z) : list Z := bl ++ (if decide (length bl <= 12)%nat then [] else [ind]).
Definition contents (m : gmap Z (list Z)) (bl : list Z) (data : list Z) : Prop := forall k b, bl !! k = Some b -> m !! b = Some (blk data k).

Lemma addrs_direct m ad bl ind k : addrs_at m ad bl ind -> (k < 12)%nat -> nth k ad 0 = nth k bl 0.
Proof.
  intros [-> _ _ _] Hk. rewrite app_nth1 by (rewrite length_take, length_app, length_replicate; lia). rewrite nth_firstn, (proj2 (Nat.ltb_lt _ _)) by done.
  destruct (decide (k < length bl)%nat); [by rewrite app_nth1|]. rewrite app_nth2, (nth_overflow bl) by lia.
  apply nth_lookup_Some, lookup_replicate_2. lia.
Qed.
Lemma addrs_ind m ad bl ind : addrs_at m ad bl ind -> nth 12 ad 0 = ind.
Proof. intros [-> _ _ _]. rewrite app_nth2; rewrite length_take, length_app, length_replicate, Nat.min_l by lia; [done|lia]. Qed.
Lemma addrs_ext m m' ad bl ind : addrs_at m ad bl ind -> (forall b, b ∈ owned bl ind -> m' !! b = m !! b) -> addrs_at m' ad bl ind.
Proof.
  intros [H1 H2 H3 H4] He. split; [done..|]. intros Hl. destruct (H4 Hl) as (x & Hx & HH). exists x. split; [|done]. rewrite He; [done|].
  unfold owned. rewrite decide_False by lia. apply elem_of_app. right. left.
Qed.

(** What the blocks of a file of [n] bytes take, the indirect one included. *)
Definition nblk (n : Z) : Z := (n + 511) / 512.
Definition cost (n : Z) : Z := nblk n + (if nblk n <=? 12 then 0 else 1).

(** ** Allocation *)

(** The superblock. *)
Definition super_bytes : list Z := to_le 4 size ++ to_le 4 nblocks ++ to_le 4 ninodes ++ replicate 500 0.
Record mk_ok (s : mk) : Prop := {
  mo_sectors : sectors (img s);
  mo_bound b : is_Some (img s !! b) -> 0 <= b < 1024;
  mo_super : img s !! 1 = Some super_bytes;
  mo_range : 29 <= freeblock s <= 1024;
  mo_used : usedblocks s = freeblock s;
  mo_free b : freeblock s <= b < 1024 -> img s !! b = Some (replicate 512 0)
}.

Lemma new_block_ok s : mk_ok s -> freeblock s < 1024 ->
  exists s', new_block s = Ret (freeblock s, s') /\ mk_ok s' /\ img s' = img s /\ freeblock s' = freeblock s + 1 /\ freeinode s' = freeinode s.
Proof.
  intros [H1 H5 H0 H2 H3 H4] Hlt. unfold new_block. do 3 mnext. eexists. split; [reflexivity|]. cbn [img freeblock usedblocks freeinode set_freeblock set_usedblocks].
  rewrite H3, u32_small by (unfold in_u32; lia). split; [|done]. split; cbn; [done|done|done|lia|done|]. intros b Hb. apply H4. lia.
Qed.
Lemma put_owned s b x : mk_ok s -> 29 <= b < freeblock s -> length x = 512%nat -> mk_ok (set_img (<[b := x]> (img s)) s).
Proof.
  intros [H1 H5 H0 H2 H3 H4] Hb Hx. split; cbn; [by apply sectors_put|intros c; rewrite lookup_insert_is_Some'; intros [<-|Hc]; [lia|by apply H5]|by rewrite lookup_insert_ne by lia|done|done|]. intros c Hc. rewrite lookup_insert_ne by lia. by apply H4.
Qed.

Lemma addrs_push bl b ind : (length bl < 12)%nat ->
  zset (take 12 (bl ++ replicate 12 0) ++ [ind]) (Z.of_nat (length bl)) b = take 12 ((bl ++ [b]) ++ replicate 12 0) ++ [ind].
Proof.
  intros Hl. unfold zset. rewrite bool_decide_false, Nat2Z.id by lia. rewrite insert_app_l by (rewrite length_take, length_app, length_replicate; lia). f_equal.
  rewrite !take_app, !take_ge, length_app by (rewrite ?length_app; cbn; lia). cbn [length]. rewrite <- (Nat.add_0_r (length bl)) at 1. rewrite insert_app_r, <- app_assoc. f_equal.
  rewrite !take_replicate, !Nat.min_l by lia. replace (12 - length bl)%nat with (S (12 - (length bl + 1))) by lia. cbn. by rewrite take_nil.
Qed.
Lemma addrs_full bl l ind v : (12 <= length bl)%nat -> zset (take 12 (bl ++ replicate 12 0) ++ [ind]) 12 v = take 12 ((bl ++ l) ++ replicate 12 0) ++ [v].
Proof.
  intros Hl. unfold zset. rewrite bool_decide_false by lia. change (Z.to_nat 12) with (12 + 0)%nat.
  assert (E : length (take 12 (bl ++ replicate 12 0)) = 12%nat) by (rewrite length_take, length_app, length_replicate; lia).
  rewrite <- E at 1. rewrite insert_app_r. f_equal. rewrite <- app_assoc, !take_app. replace (12 - length bl)%nat with 0%nat by lia. by rewrite !take_0.
Qed.

(** A block the file has. *)
Lemma file_block_hit s din bl ind k : addrs_at (img s) (daddrs din) bl ind -> Forall (fun b => 29 <= b) (owned bl ind) -> (k < length bl)%nat ->
  file_block (Z.of_nat k) din s = Ret ((nth k bl 0, din), s).
Proof.
  intros HA HF Hk. unfold owned in HF. apply Forall_app in HF as [HF HF']. assert (Hb : 29 <= nth k bl 0) by (rewrite Forall_forall in HF; apply HF, list_elem_of_In, nth_In; done).
  unfold file_block. destruct (Z.ltb_spec (Z.of_nat k) NDIRECT) as [Hlt|Hge]; unfold NDIRECT in *.
  - rewrite Nat2Z.id, (addrs_direct _ _ _ _ k HA) by lia. rewrite (proj2 (Z.eqb_neq (nth k bl 0) 0)) by lia. mnext. by rewrite (addrs_direct _ _ _ _ k HA) by lia.
  - rewrite (addrs_ind _ _ _ _ HA). rewrite decide_False in HF' by lia. apply Forall_cons in HF' as [Hi _]. rewrite (proj2 (Z.eqb_neq ind 0)) by lia. mnext.
    rewrite (addrs_ind _ _ _ _ HA). destruct (aa_table _ _ _ _ HA) as (x & Hx & Hl & Hw); [lia|]. mstep (rsect_ok _ s x Hx).
    replace (4 * (Z.of_nat k - 12)) with (4 * Z.of_nat (k - 12)) by lia. pose proof (aa_max _ _ _ _ HA). rewrite Hw by lia. replace (12 + (k - 12))%nat with k by lia.
    rewrite (proj2 (Z.eqb_neq (nth k bl 0) 0)) by lia. mnext. rewrite Hw by lia. by replace (12 + (k - 12))%nat with k by lia.
Qed.

(** A new one, with the indirect block if it is the thirteenth. *)
Definition takes (k : nat) : Z := if decide (k = 12%nat) then 2 else 1.
Record grown (s s' : mk) (din din' : dinode) (bl : list Z) (ind b ind' : Z) : Prop := {
  gr_ok : mk_ok s';
  gr_addrs : addrs_at (img s') (daddrs din') (bl ++ [b]) ind';
  gr_din : din' = mkDin (dtype din) (dmajor din) (dminor din) (dnlink din) (dsize din) (daddrs din');
  gr_fb : freeblock s' = freeblock s + takes (length bl);
  gr_fi : freeinode s' = freeinode s;
  gr_new : freeblock s <= b < freeblock s';
  gr_zero : img s' !! b = Some (replicate 512 0);
  gr_ind : ind' <> b /\ if decide (length bl = 12%nat) then freeblock s <= ind' < freeblock s' else ind' = ind;
  gr_frame x : x < freeblock s -> x <> ind -> img s' !! x = img s !! x
}.
(** One through the inode. *)
Lemma new_direct s din bl ind : mk_ok s -> addrs_at (img s) (daddrs din) bl ind -> (length bl < 12)%nat -> freeblock s < 1024 ->
  exists b din' ind' s', file_block (Z.of_nat (length bl)) din s = Ret ((b, din'), s') /\ grown s s' din din' bl ind b ind'.
Proof.
  intros Hs HA Hlt Hfit. unfold file_block. set (k := length bl) in *. rewrite (proj2 (Z.ltb_lt (Z.of_nat k) NDIRECT)) by (unfold NDIRECT; lia).
  rewrite Nat2Z.id, (addrs_direct _ _ _ _ k HA) by lia. rewrite (nth_overflow bl) by lia. cbn [Z.eqb].
  destruct (new_block_ok s Hs Hfit) as (s1 & E1 & Hs1 & Hi1 & Hf1 & Hn1). rewrite bind_assoc. mstep E1. mnext.
  assert (Ead : zset (daddrs din) (Z.of_nat k) (freeblock s) = take 12 ((bl ++ [freeblock s]) ++ replicate 12 0) ++ [ind]).
  { rewrite (aa_addrs _ _ _ _ HA). by apply addrs_push. }
  assert (HA1 : addrs_at (img s1) (daddrs (set_daddr (Z.of_nat k) (freeblock s) din)) (bl ++ [freeblock s]) ind).
  { split; [exact Ead|rewrite length_app; cbn; lia| |rewrite length_app; cbn; lia]. intros _. apply (aa_direct _ _ _ _ HA). lia. }
  exists (freeblock s), (set_daddr (Z.of_nat k) (freeblock s) din), ind, s1. split.
  - rewrite (addrs_direct _ _ _ _ k HA1) by lia. unfold k. rewrite app_nth2, Nat.sub_diag by lia. reflexivity.
  - unfold k in *. split; [done|exact HA1|done|unfold takes; rewrite decide_False; lia|done|lia| | |by rewrite Hi1].
    + rewrite Hi1. apply (mo_free s Hs). lia.
    + pose proof (aa_direct _ _ _ _ HA ltac:(lia)) as ->. pose proof (mo_range s Hs). split; [lia|]. by rewrite decide_False by lia.
Qed.

(** The indirect block [ind1] with its words [x], there or new. *)
Record indirect (s s1 : mk) (din din1 : dinode) (bl : list Z) (ind ind1 : Z) (x : list Z) : Prop := {
  id_addrs : daddrs din1 = take 12 (bl ++ replicate 12 0) ++ [ind1];
  id_din : din1 = mkDin (dtype din) (dmajor din) (dminor din) (dnlink din) (dsize din) (daddrs din1);
  id_ok : mk_ok s1;
  id_img : img s1 = img s;
  id_fb : freeblock s1 + 1 = freeblock s + takes (length bl);
  id_fi : freeinode s1 = freeinode s;
  id_at : img s1 !! ind1 = Some x /\ length x = 512%nat;
  id_range : 29 <= ind1 < freeblock s1;
  id_new : if decide (length bl = 12%nat) then freeblock s <= ind1 else ind1 = ind;
  id_words j : (j < 128)%nat -> word x (4 * Z.of_nat j) = nth (12 + j) bl 0
}.
Lemma indirect_ok s din bl ind : mk_ok s -> addrs_at (img s) (daddrs din) bl ind -> Forall (fun b => 29 <= b < freeblock s) (owned bl ind) ->
  (12 <= length bl)%nat -> freeblock s + takes (length bl) <= 1024 ->
  exists ind1 din1 s1 x, ((if ind =? 0 then b ← new_block; mret (set_daddr 12 b din) else mret din) : M mk dinode) s = Ret (din1, s1) /\
    indirect s s1 din din1 bl ind ind1 x.
Proof.
  intros Hs HA HF Hge Hfit. pose proof (mo_range s Hs). unfold takes in Hfit. destruct (decide (length bl = 12%nat)) as [Ek|Nk].
  - rewrite (aa_direct _ _ _ _ HA) by lia. cbn [Z.eqb]. destruct (new_block_ok s Hs) as (s1 & E1 & Hs1 & Hi1 & Hf1 & Hn1); [lia|].
    exists (freeblock s), (set_daddr 12 (freeblock s) din), s1, (replicate 512 0). split; [by mstep E1|].
    split; [|done|done|done|unfold takes; rewrite decide_True by done; lia|done| |lia|by rewrite decide_True|].
    + cbn. rewrite (aa_addrs _ _ _ _ HA), (addrs_full bl [] ind) by lia. by rewrite app_nil_r.
    + rewrite Hi1. split; [|done]. apply (mo_free s Hs). lia.
    + intros j Hj. rewrite word_replicate by lia. symmetry. apply nth_overflow. lia.
  - unfold owned in HF. apply Forall_app in HF as [_ HF]. rewrite decide_False in HF by lia. apply Forall_cons in HF as [Hi _].
    rewrite (proj2 (Z.eqb_neq ind 0)) by lia. destruct (aa_table _ _ _ _ HA) as (x & Hx & Hl & Hw); [lia|].
    exists ind, din, s, x. split; [done|]. split; [apply (aa_addrs _ _ _ _ HA)|by destruct din|done|done|unfold takes; rewrite decide_False by done; lia|done|done|lia|by rewrite decide_False|done].
Qed.

(** One through it. *)
Lemma new_indirect s din bl ind : mk_ok s -> addrs_at (img s) (daddrs din) bl ind -> Forall (fun b => 29 <= b < freeblock s) (owned bl ind) ->
  (12 <= length bl <= 139)%nat -> freeblock s + takes (length bl) <= 1024 ->
  exists b din' ind' s', file_block (Z.of_nat (length bl)) din s = Ret ((b, din'), s') /\ grown s s' din din' bl ind b ind'.
Proof.
  intros Hs HA HF Hk Hfit. unfold file_block. rewrite (proj2 (Z.ltb_ge (Z.of_nat (length bl)) NDIRECT)) by (unfold NDIRECT; lia). unfold NDIRECT. rewrite (addrs_ind _ _ _ _ HA).
  destruct (indirect_ok s din bl ind Hs HA HF ltac:(lia) Hfit) as (ind1 & din1 & s1 & x & E1 & [Ead Hdin Hs1 Himg Hfb Hfi [Hx Hl] Hr1 Hin Hw]).
  assert (Hi1 : nth 12 (daddrs din1) 0 = ind1) by (rewrite Ead, app_nth2; rewrite length_take, length_app, length_replicate, Nat.min_l by lia; [done|lia]).
  mstep E1. rewrite Hi1. mstep (rsect_ok _ s1 x Hx). set (k := length bl) in *. replace (4 * (Z.of_nat k - 12)) with (4 * Z.of_nat (k - 12)) by lia.
  rewrite Hw by lia. replace (12 + (k - 12))%nat with k by lia. rewrite (nth_overflow bl) by lia. cbn [Z.eqb].
  destruct (new_block_ok s1 Hs1) as (s2 & E2 & Hs2 & Hi2 & Hf2 & Hn2); [pose proof (mo_range s1 Hs1); lia|]. rewrite bind_assoc. mstep E2. unfold wsect. rewrite bind_assoc. mnext. mnext.
  set (b := freeblock s1) in *. set (y := splice (4 * Z.of_nat (k - 12)) (to_le 4 b) x). assert (Hzx : zlen x = 512) by (unfold zlen; lia).
  assert (Hly : zlen y = 512) by (unfold y; rewrite zlen_word_splice by lia; lia). pose proof (mo_range s2 Hs2) as Hr2.
  assert (Hwy : word y (4 * Z.of_nat (k - 12)) = b) by (apply word_splice_eq; unfold in_u32; lia).
  assert (Htab : forall j, (j < 128)%nat -> word y (4 * Z.of_nat j) = nth (12 + j) (bl ++ [b]) 0).
  { intros j Hj. destruct (decide (j = k - 12)%nat) as [->|Hne].
    - rewrite Hwy. replace (12 + (k - 12))%nat with (length bl) by lia. by rewrite app_nth2, Nat.sub_diag by lia.
    - unfold y. rewrite word_splice_ne by lia. rewrite Hw by done. destruct (decide (12 + j < length bl)%nat); [by rewrite app_nth1|].
      rewrite !nth_overflow; [done|rewrite ?length_app; cbn; lia..]. }
  eexists b, din1, ind1, _. split; [rewrite Hwy; reflexivity|]. split; cbn [img freeblock freeinode set_img]; fold k.
  - apply put_owned; [done|lia|unfold zlen in Hly; lia].
  - split; [|rewrite length_app; cbn; lia..|].
    + rewrite Ead. f_equal. rewrite <- app_assoc, !take_app. replace (12 - length bl)%nat with 0%nat by lia. by rewrite !take_0.
    + intros _. exists y. split; [apply lookup_insert_eq|]. split; [unfold zlen in Hly; lia|exact Htab].
  - done.
  - lia.
  - congruence.
  - unfold takes in *. destruct (decide (k = 12%nat)); lia.
  - rewrite lookup_insert_ne by lia. rewrite Hi2. apply (mo_free s1 Hs1). lia.
  - split; [lia|]. destruct (decide (k = 12%nat)); lia.
  - intros z Hz Hzi. rewrite lookup_insert_ne by (destruct (decide (k = 12%nat)); lia). by rewrite Hi2, Himg.
Qed.
Lemma file_block_new s din bl ind : mk_ok s -> addrs_at (img s) (daddrs din) bl ind -> Forall (fun b => 29 <= b < freeblock s) (owned bl ind) ->
  (length bl <= 139)%nat -> freeblock s + takes (length bl) <= 1024 ->
  exists b din' ind' s', file_block (Z.of_nat (length bl)) din s = Ret ((b, din'), s') /\ grown s s' din din' bl ind b ind'.
Proof.
  intros Hs HA HF Hmax Hfit. destruct (decide (length bl < 12)%nat); [apply new_direct|apply new_indirect]; try done; [unfold takes in Hfit; rewrite decide_False in Hfit by lia; lia|lia].
Qed.

(** A file's part of the image: its addresses, its bytes, and its blocks its own. *)
Record file_ok (s : mk) (ad data bl : list Z) (ind : Z) : Prop := {
  fo_addrs : addrs_at (img s) ad bl ind;
  fo_bytes : contents (img s) bl data;
  fo_nodup : NoDup (owned bl ind);
  fo_range : Forall (fun b => 29 <= b < freeblock s) (owned bl ind)
}.
Lemma file_ext s s' ad data bl ind : file_ok s ad data bl ind -> freeblock s <= freeblock s' -> (forall b, b ∈ owned bl ind -> img s' !! b = img s !! b) -> file_ok s' ad data bl ind.
Proof.
  intros [H1 H2 H3 H4] Hf He. split; [by eapply addrs_ext| |done|].
  - intros k b Hk. rewrite He; [by apply H2|]. apply elem_of_app. left. by eapply list_elem_of_lookup_2.
  - eapply Forall_impl; [exact H4|]. cbn. lia.
Qed.

(** The blocks of a grown file. *)
Lemma ind_not_block s ad data bl ind x : file_ok s ad data bl ind -> x ∈ bl -> x <> ind.
Proof.
  intros [HA _ HN HR] Hx ->. unfold owned in HN, HR. destruct (decide (length bl <= 12)%nat).
  - rewrite (aa_direct _ _ _ _ HA) in Hx by done. apply Forall_app in HR as [HR _]. rewrite Forall_forall in HR. specialize (HR 0 Hx). lia.
  - apply NoDup_app in HN as (_ & HN & _). apply (HN ind Hx). left.
Qed.
Lemma grown_owned s s' din din' bl ind b ind' x : grown s s' din din' bl ind b ind' -> x ∈ owned (bl ++ [b]) ind' -> x ∈ owned bl ind \/ freeblock s <= x < freeblock s'.
Proof.
  intros G. pose proof (gr_new _ _ _ _ _ _ _ _ G). destruct (gr_ind _ _ _ _ _ _ _ _ G) as [_ G8]. unfold owned. rewrite length_app, !elem_of_app. cbn [length].
  destruct (decide (length bl + 1 <= 12)%nat), (decide (length bl <= 12)%nat), (decide (length bl = 12%nat)); try lia; rewrite ?list_elem_of_singleton, ?elem_of_nil; try subst ind';
    lia || intuition lia || intuition (subst; auto with lia).
Qed.
Lemma grown_nodup s s' din din' data bl ind b ind' : file_ok s (daddrs din) data bl ind -> grown s s' din din' bl ind b ind' -> NoDup (owned (bl ++ [b]) ind').
Proof.
  intros HF G. pose proof (gr_new _ _ _ _ _ _ _ _ G). destruct (gr_ind _ _ _ _ _ _ _ _ G) as [Gib G8].
  pose proof (fo_nodup _ _ _ _ _ HF) as HN. pose proof (proj1 (Forall_forall _ _) (fo_range _ _ _ _ _ HF)) as HR. cbn in HR.
  assert (HRb : forall x, x ∈ bl -> x < freeblock s) by (intros x Hx; apply HR; apply elem_of_app; by left).
  unfold owned in *. rewrite length_app. cbn [length]. apply NoDup_app in HN as (HN1 & _ & _).
  assert (HNb : NoDup (bl ++ [b])).
  { apply NoDup_app. split; [done|]. split; [|apply NoDup_singleton]. intros x Hx ->%list_elem_of_singleton. specialize (HRb b Hx). lia. }
  destruct (decide (length bl + 1 <= 12)%nat); [by rewrite app_nil_r|]. apply NoDup_app. split; [done|]. split; [|apply NoDup_singleton].
  intros x Hx ->%list_elem_of_singleton. apply elem_of_app in Hx as [Hx|Hx%list_elem_of_singleton]; [|congruence].
  destruct (decide (length bl = 12%nat)); [specialize (HRb ind' Hx); lia|]. subst ind'. by apply (ind_not_block _ _ _ _ _ ind HF Hx).
Qed.
Lemma grown_file s s' din din' data bl ind b ind' : mk_ok s -> file_ok s (daddrs din) data bl ind -> grown s s' din din' bl ind b ind' -> (length data <= length bl * 512)%nat ->
  file_ok s' (daddrs din') data (bl ++ [b]) ind'.
Proof.
  intros Hs HF G Hd. pose proof (gr_new _ _ _ _ _ _ _ _ G). pose proof (proj1 (Forall_forall _ _) (fo_range _ _ _ _ _ HF)) as HR. cbn in HR. split.
  - by destruct G.
  - intros k c Hc. destruct (decide (k < length bl)%nat) as [Hlt|Hge].
    + rewrite lookup_app_l in Hc by done. pose proof (list_elem_of_lookup_2 _ _ _ Hc) as Hin. rewrite (gr_frame _ _ _ _ _ _ _ _ G); [by apply (fo_bytes _ _ _ _ _ HF)| |by eapply ind_not_block].
      apply HR, elem_of_app. by left.
    + assert (k = length bl) as -> by (apply lookup_lt_Some in Hc; rewrite length_app in Hc; cbn in Hc; lia). rewrite list_lookup_middle in Hc by done. injection Hc as <-.
      rewrite (gr_zero _ _ _ _ _ _ _ _ G). by rewrite blk_past.
  - by eapply grown_nodup.
  - apply Forall_forall. intros x Hx. destruct (grown_owned _ _ _ _ _ _ _ _ _ G Hx) as [Hx'|Hx']; [specialize (HR x Hx')|pose proof (mo_range s Hs)]; lia.
Qed.

(** The block a byte at the end goes to. *)
Lemma block_for s din data bl ind k : mk_ok s -> file_ok s (daddrs din) data bl ind ->
  (length bl = k \/ length bl = S k) -> (length data <= k * 512 + 512)%nat -> (length bl = k -> length data <= k * 512)%nat -> (k <= 139)%nat ->
  freeblock s + (if decide (length bl = k) then takes k else 0) <= 1024 ->
  exists b din1 bl1 ind1 s1, file_block (Z.of_nat k) din s = Ret ((b, din1), s1) /\ mk_ok s1 /\ file_ok s1 (daddrs din1) data bl1 ind1 /\
    length bl1 = S k /\ bl1 !! k = Some b /\ din1 = mkDin (dtype din) (dmajor din) (dminor din) (dnlink din) (dsize din) (daddrs din1) /\
    freeblock s1 = freeblock s + (if decide (length bl = k) then takes k else 0) /\ freeinode s1 = freeinode s /\
    (forall x, 0 < x < freeblock s -> x ∉ owned bl ind -> img s1 !! x = img s !! x) /\ (forall x, x ∈ owned bl1 ind1 -> x ∈ owned bl ind \/ freeblock s <= x).
Proof.
  intros Hs HF Hbl Hd1 Hd2 Hk Hfit. pose proof HF as [HA HC HN HR]. destruct (decide (length bl = k)) as [E|N].
  - subst k. destruct (file_block_new s din bl ind Hs HA HR Hk Hfit) as (b & din1 & ind1 & s1 & Ef & G).
    exists b, din1, (bl ++ [b]), ind1, s1. split; [done|]. split; [by destruct G|]. split; [by eapply grown_file; auto|]. split; [rewrite length_app; cbn; lia|].
    split; [by rewrite list_lookup_middle|]. pose proof G as [G1 G2 G3 G4 G5 G6 G7 G8 G9]. split; [done|]. split; [done|]. split; [done|]. split.
    + intros x Hx Hxo. apply G9; [lia|]. intros ->. destruct (decide (length bl <= 12)%nat) as [Hl|Hl].
      * rewrite (aa_direct _ _ _ _ HA) in Hx by done. lia.
      * apply Hxo. unfold owned. rewrite decide_False by done. apply elem_of_app. right. left.
    + intros x Hx. destruct (grown_owned _ _ _ _ _ _ _ _ _ G Hx); [by left|right; lia].
  - destruct Hbl as [?|Hbl]; [done|]. exists (nth k bl 0), din, bl, ind, s. rewrite (file_block_hit s din bl ind k HA); [|eapply Forall_impl; [exact HR|cbn; lia]|lia].
    split_and!; [done|done|done|done| |by destruct din|lia|done|done|by left].
    destruct (lookup_lt_is_Some_2 bl k) as [c Hc]; [lia|]. by rewrite Hc, (nth_lookup_Some _ _ _ _ Hc).
Qed.

(** What an append keeps of the rest of the image. *)
Record kept_image (s s' : mk) (bl : list Z) (ind : Z) (bl' : list Z) (ind' : Z) : Prop := {
  ki_ok : mk_ok s';
  ki_fi : freeinode s' = freeinode s;
  ki_fb : freeblock s <= freeblock s';
  ki_frame x : 0 < x < freeblock s -> x ∉ owned bl ind -> img s' !! x = img s !! x;
  ki_own x : x ∈ owned bl' ind' -> x ∈ owned bl ind \/ freeblock s <= x
}.
Lemma kept_image_trans s1 s2 s3 bl1 i1 bl2 i2 bl3 i3 : kept_image s1 s2 bl1 i1 bl2 i2 -> kept_image s2 s3 bl2 i2 bl3 i3 -> kept_image s1 s3 bl1 i1 bl3 i3.
Proof.
  intros [A1 A2 A3 A4 A5] [B1 B2 B3 B4 B5]. split; [done|congruence|lia| |].
  - intros x Hx Hn. rewrite B4; [by apply A4|lia|]. intros Hin. destruct (A5 x Hin); [done|lia].
  - intros x Hx. destruct (B5 x Hx) as [Hx'|]; [by apply A5|right; lia].
Qed.

Lemma nblk_step n m : 0 <= n -> 0 < m -> m <= (n / 512 + 1) * 512 - n ->
  nblk (n + m) = n / 512 + 1 /\ (nblk n = n / 512 /\ n mod 512 = 0 \/ nblk n = n / 512 + 1 /\ n mod 512 <> 0).
Proof. unfold nblk. intros. dlia. Qed.

Lemma cost_mono n m : 0 <= n <= m -> cost n <= cost m.
Proof. intros H. unfold cost. assert (nblk n <= nblk m) by (unfold nblk; apply Z.div_le_mono; lia). destruct (Z.leb_spec (nblk n) 12), (Z.leb_spec (nblk m) 12); lia. Qed.

Lemma iappend_loop_ok fuel : forall p s din data bl ind, mk_ok s -> file_ok s (daddrs din) data bl ind -> Z.of_nat (length bl) = nblk (zlen data) ->
  zlen data + zlen p <= 71680 -> freeblock s + (cost (zlen data + zlen p) - cost (zlen data)) <= 1024 -> (length p < fuel)%nat ->
  exists din' bl' ind' s', iappend_loop fuel p (zlen data) din s = Ret ((zlen data + zlen p, din'), s') /\ file_ok s' (daddrs din') (data ++ p) bl' ind' /\
    Z.of_nat (length bl') = nblk (zlen data + zlen p) /\ din' = mkDin (dtype din) (dmajor din) (dminor din) (dnlink din) (dsize din) (daddrs din') /\
    freeblock s' = freeblock s + (cost (zlen data + zlen p) - cost (zlen data)) /\ kept_image s s' bl ind bl' ind'.
Proof.
  induction fuel as [|fuel IH]; intros p s din data bl ind Hs HF Hn Hmax Hfit Hfuel; [lia|]. cbn [iappend_loop]. destruct p as [|c p0].
  - change (zlen (@nil Z)) with 0. rewrite Z.add_0_r, app_nil_r. exists din, bl, ind, s. split_and!; [done|done|done|by destruct din|lia|].
    split; [done|done|lia|done|by left].
  - set (p := c :: p0) in *. assert (Hp : 0 < zlen p) by (unfold zlen, p; cbn; lia). clearbody p. set (n := zlen data) in *. assert (Hn0 : 0 <= n) by (unfold n, zlen; lia).
    assert (Hk : 0 <= n / 512 < 140) by dlia. set (k := Z.to_nat (n / 512)). assert (Ek : n / 512 = Z.of_nat k) by lia.
    unfold assert. rewrite (proj2 (Z.ltb_lt (n / 512) MAXFILE)) by (unfold MAXFILE, NDIRECT, NINDIRECT; lia). mnext.
    set (n1 := Z.min (zlen p) ((n / 512 + 1) * 512 - n)). assert (Hn1 : 0 < n1 <= zlen p /\ n1 <= (n / 512 + 1) * 512 - n) by (unfold n1; dlia).
    destruct (nblk_step n n1) as [Hb1 Hb0]; [lia|lia|lia|]. assert (Hlen : Z.of_nat (length data) = n) by done.
    assert (Hc1 : cost (n + n1) - cost n = if decide (length bl = k) then takes k else 0).
    { unfold cost. rewrite Hb1. unfold takes. destruct Hb0 as [[E _]|[E _]]; rewrite E in *.
      - rewrite decide_True by lia. destruct (decide (k = 12%nat)), (Z.leb_spec (n / 512 + 1) 12), (Z.leb_spec (n / 512) 12); lia.
      - rewrite decide_False by lia. lia. }
    pose proof (cost_mono (n + n1) (n + zlen p) ltac:(lia)) as Hmono.
    destruct (block_for s din data bl ind k Hs HF) as (b & din1 & bl1 & ind1 & s1 & Ef & Hs1 & [HA1 HC1 HN1 HR1] & Hl1 & Hb & Hd1 & Hfb1 & Hfi1 & Hfr1 & Hsub1); [lia|dlia|dlia|lia|lia|].
    rewrite Ek. mstep Ef. cbn [fst snd]. mstep (rsect_ok b s1 _ (HC1 k b Hb)). unfold wsect. mnext. rewrite <- Ek. fold n1.
    set (q := take (Z.to_nat n1) p). assert (Hq : zlen q = n1) by (unfold q, zlen in *; rewrite length_take; lia).
    assert (Ew : splice (n - n / 512 * 512) q (blk data k) = blk (data ++ q) k).
    { rewrite Ek, <- Hlen. apply blk_write; unfold zlen in *; dlia. }
    rewrite Ew. set (s2 := set_img (<[b := blk (data ++ q) k]> (img s1)) s1).
    pose proof (list_elem_of_lookup_2 _ _ _ Hb) as Hbin. assert (Hbo : b ∈ owned bl1 ind1) by (apply elem_of_app; by left).
    pose proof (proj1 (Forall_forall _ _) HR1 b Hbo) as Hbr. cbn in Hbr.
    assert (Hs2 : mk_ok s2) by (apply put_owned; [done|lia|apply length_blk]).
    assert (HF2 : file_ok s2 (daddrs din1) (data ++ q) bl1 ind1).
    { split; [| |done|done].
      - split; [apply HA1..|]. intros Hl. destruct (aa_table _ _ _ _ HA1 Hl) as (x & Hx & HH). exists x. split; [|done]. cbn. rewrite lookup_insert_ne; [done|].
        intros ->. unfold owned in HN1. rewrite decide_False in HN1 by lia. apply NoDup_app in HN1 as (_ & HN1 & _). apply (HN1 _ Hbin). left.
      - intros j d Hj. cbn. destruct (decide (d = b)) as [->|Hne].
        + unfold owned in HN1. apply NoDup_app in HN1 as (HN1 & _). assert (j = k) as -> by exact (NoDup_lookup _ _ _ _ HN1 Hj Hb). apply lookup_insert_eq.
        + rewrite lookup_insert_ne by done. rewrite (HC1 j d Hj). f_equal. symmetry. apply blk_app. pose proof (lookup_lt_Some _ _ _ Hj).
          assert (j <> k) by (intros ->; congruence). dlia. }
    assert (Hn2 : zlen (data ++ q) = n + n1) by (rewrite zlen_app, Hq; done).
    assert (Hrest : n + n1 + zlen (drop (Z.to_nat n1) p) = n + zlen p) by (unfold zlen in *; rewrite length_drop; lia).
    destruct (IH (drop (Z.to_nat n1) p) s2 din1 (data ++ q) bl1 ind1 Hs2 HF2) as (din' & bl' & ind' & s' & E & HF' & Hl' & Hd' & Hfb' & HK').
    { rewrite Hn2, Hb1, Hl1. lia. }
    { rewrite Hn2. lia. }
    { rewrite Hn2, Hrest. cbn. lia. }
    { rewrite length_drop. unfold zlen in *. lia. }
    rewrite Hn2, Hrest in *. exists din', bl', ind', s'. split; [exact E|]. split; [unfold q in HF'; by rewrite <- app_assoc, (take_drop (Z.to_nat n1) p) in HF'|]. split; [done|].
    split; [rewrite Hd', Hd1; done|]. split; [rewrite Hfb'; cbn; lia|]. eapply kept_image_trans; [|exact HK'].
    split; [done|done|unfold takes in *; cbn; destruct (decide (length bl = k)), (decide (k = 12%nat)); lia| |done].
    intros x Hx Hxo. cbn. rewrite lookup_insert_ne; [by apply Hfr1|]. intros <-. destruct (Hsub1 b Hbo); [done|lia].
Qed.

(** ** The image as files *)

Record afile := mkAf { af_type : Z; af_data : list Z; af_size : Z }.
(** A file and the blocks it has. *)
Record lay := mkLay { ly_file : afile; ly_bl : list Z; ly_ind : Z }.

Record laid (s : mk) (i : Z) (l : lay) : Prop := {
  la_inum : 1 <= i < freeinode s;
  la_din : din_ok (inode_at (img s) i);
  la_type : dtype (inode_at (img s) i) = af_type (ly_file l);
  la_nlink : dnlink (inode_at (img s) i) = 1;
  la_size : dsize (inode_at (img s) i) = af_size (ly_file l);
  la_file : file_ok s (daddrs (inode_at (img s) i)) (af_data (ly_file l)) (ly_bl l) (ly_ind l);
  la_count : Z.of_nat (length (ly_bl l)) = nblk (zlen (af_data (ly_file l)))
}.
Record world (s : mk) (L : gmap Z lay) : Prop := {
  wo_ok : mk_ok s;
  wo_fi : 1 <= freeinode s <= 200;
  wo_laid i l : L !! i = Some l -> laid s i l;
  wo_disj i j l l' x : L !! i = Some l -> L !! j = Some l' -> i <> j -> x ∈ owned (ly_bl l) (ly_ind l) -> x ∉ owned (ly_bl l') (ly_ind l')
}.

Lemma addrs_din_ok s ad data bl ind : mk_ok s -> file_ok s ad data bl ind -> length ad = 13%nat /\ Forall in_u32 ad.
Proof.
  intros Hs [HA _ _ HR]. pose proof (mo_range s Hs) as Hr. rewrite (aa_addrs _ _ _ _ HA). split; [rewrite length_app, length_take, length_app, length_replicate; change (length [ind]) with 1%nat; lia|].
  unfold owned in HR. apply Forall_app in HR as [HR1 HR2]. apply Forall_app_2.
  - apply Forall_take, Forall_app_2; [eapply Forall_impl; [exact HR1|unfold in_u32; cbn; lia]|]. apply Forall_replicate. unfold in_u32. lia.
  - constructor; [|done]. destruct (decide (length bl <= 12)%nat) as [Hl|]; [rewrite (aa_direct _ _ _ _ HA Hl); unfold in_u32; lia|].
    apply Forall_cons in HR2 as [HR2 _]. unfold in_u32. lia.
Qed.

(** An inode written: the others and every block are as they were. *)
Lemma winode_laid i d s : mk_ok s -> 0 <= i < 200 -> din_ok d ->
  exists s', winode i d s = Ret (tt, s') /\ mk_ok s' /\ freeblock s' = freeblock s /\ freeinode s' = freeinode s /\ inode_at (img s') i = d /\
    (forall j, 0 <= j < 200 -> j <> i -> inode_at (img s') j = inode_at (img s) j) /\ (forall b, b < 2 \/ 27 <= b -> img s' !! b = img s !! b).
Proof.
  intros Hs Hi Hd. destruct (winode_ok i d s (mo_sectors s Hs) Hi Hd) as (m & E & H1 & H2 & H3 & H4). exists (set_img m s). split; [done|]. split; [|by split_and!].
  destruct Hs as [A1 A5 A0 A2 A3 A4]. split; cbn; [done| |by rewrite H4 by lia|done..|].
  { intros b Hb. destruct (decide (b < 2 \/ 27 <= b)) as [Hr|]; [rewrite H4 in Hb by done; by apply A5|lia]. }
  intros b Hb. rewrite H4 by lia. by apply A4.
Qed.
Lemma file_same s s' ad data bl ind : file_ok s ad data bl ind -> freeblock s' = freeblock s -> (forall b, b < 2 \/ 27 <= b -> img s' !! b = img s !! b) -> file_ok s' ad data bl ind.
Proof.
  intros HF Hb He. eapply file_ext; [exact HF|lia|]. intros b Hin. apply He. pose proof (fo_range _ _ _ _ _ HF) as HR. rewrite Forall_forall in HR. specialize (HR b Hin). lia.
Qed.

(** One file changed. *)
Lemma world_update s s' L i l l' : world s L -> mk_ok s' -> freeblock s <= freeblock s' -> freeinode s <= freeinode s' <= 200 -> laid s' i l' ->
  (forall j, 0 <= j < 200 -> j <> i -> inode_at (img s') j = inode_at (img s) j) ->
  (L !! i = Some l \/ L !! i = None /\ l = mkLay (mkAf 0 [] 0) [] 0) ->
  (forall x, 29 <= x < freeblock s -> x ∉ owned (ly_bl l) (ly_ind l) -> img s' !! x = img s !! x) ->
  (forall x, x ∈ owned (ly_bl l') (ly_ind l') -> x ∈ owned (ly_bl l) (ly_ind l) \/ freeblock s <= x) ->
  world s' (<[i := l']> L).
Proof.
  intros [W1 W2 W3 W4] Hs' Hfb Hfi Hl' Hino Hl Himg Hown.
  assert (Hother : forall j k, j <> i -> L !! j = Some k -> forall x, x ∈ owned (ly_bl k) (ly_ind k) -> x ∉ owned (ly_bl l) (ly_ind l) /\ 29 <= x < freeblock s).
  { intros j k Hj Hk x Hx. split.
    - destruct Hl as [Hl|[_ ->]]; [by apply (W4 j i k l)|]. cbn. apply not_elem_of_nil.
    - pose proof (fo_range _ _ _ _ _ (la_file _ _ _ (W3 j k Hk))) as HR. rewrite Forall_forall in HR. by apply HR. }
  split; [done|lia| |].
  - intros j k. destruct (decide (j = i)) as [->|Hj]; [rewrite lookup_insert_eq; by intros [= <-]|]. rewrite lookup_insert_ne by done. intros Hk.
    pose proof (W3 j k Hk) as [B1 B2 B3 B4 B5 B6 B7]. assert (E : inode_at (img s') j = inode_at (img s) j) by (apply Hino; [lia|done]).
    split; rewrite ?E; [lia|done..| |done]. eapply file_ext; [exact B6|done|]. intros x Hx. destruct (Hother j k Hj Hk x Hx). by apply Himg.
  - intros j1 j2 k1 k2 x H1 H2 Hne Hx Hx'. assert (Hcross : forall j k, j <> i -> L !! j = Some k -> x ∈ owned (ly_bl l') (ly_ind l') -> x ∈ owned (ly_bl k) (ly_ind k) -> False).
    { intros j k Hj Hk Hxl Hxk. destruct (Hother j k Hj Hk x Hxk) as [Hn Hr]. destruct (Hown x Hxl); [done|lia]. }
    destruct (decide (j1 = i)) as [->|N1], (decide (j2 = i)) as [->|N2]; rewrite ?lookup_insert_eq, ?lookup_insert_ne in * by done; simplify_eq; [by eapply Hcross|by eapply Hcross|].
    exact (W4 j1 j2 k1 k2 x H1 H2 Hne Hx Hx').
Qed.

Lemma ialloc_ok t s L : world s L -> 0 <= t < 65536 -> freeinode s < 200 -> L !! freeinode s = None ->
  exists s', ialloc t s = Ret (freeinode s, s') /\ world s' (<[freeinode s := mkLay (mkAf t [] 0) [] 0]> L) /\ freeblock s' = freeblock s /\ freeinode s' = freeinode s + 1.
Proof.
  intros HW Ht Hlt Hnew. pose proof HW as [W1 W2 W3 W4]. unfold ialloc. mnext. mnext. set (s1 := set_freeinode _ s).
  assert (Hs1 : mk_ok s1) by (destruct W1; by split). set (d := mkDin t 0 0 1 0 (replicate 13 0)).
  assert (Hd : din_ok d) by (split; cbn [d dtype dmajor dminor dnlink dsize daddrs]; try lia; [unfold in_u32; lia|done|apply Forall_replicate; unfold in_u32; lia]).
  destruct (winode_laid (freeinode s) d s1 Hs1 ltac:(lia) Hd) as (s' & E & H1 & H2 & H3 & H4 & H5 & H6). mstep E.
  assert (Hfi : freeinode s' = freeinode s + 1) by (rewrite H3; cbn; apply u32_small; unfold in_u32; lia).
  exists s'. split; [done|]. split; [|by split]. apply (world_update s s' L (freeinode s) (mkLay (mkAf 0 [] 0) [] 0)); [done|done|cbn in H2; lia|lia| |done|by right| |by left].
  - split; rewrite ?H4; cbn [ly_file ly_bl ly_ind af_type af_data af_size d dtype dnlink dsize daddrs]; [lia|done|done|done|done| |done].
    split; [split; [done|cbn; lia|done|cbn; lia]|intros k b Hk; by rewrite lookup_nil in Hk|constructor|constructor].
  - intros x Hx _. apply H6. lia.
Qed.

Lemma set_size_ok i s L l v : world s L -> L !! i = Some l -> in_u32 v ->
  exists s', winode i (set_dsize v (inode_at (img s) i)) s = Ret (tt, s') /\ world s' (<[i := mkLay (mkAf (af_type (ly_file l)) (af_data (ly_file l)) v) (ly_bl l) (ly_ind l)]> L) /\
    freeblock s' = freeblock s /\ freeinode s' = freeinode s.
Proof.
  intros HW Hl Hv. pose proof HW as [W1 W2 W3 W4]. pose proof (W3 i l Hl) as [B1 B2 B3 B4 B5 B6 B7].
  assert (Hd : din_ok (set_dsize v (inode_at (img s) i))) by (destruct B2; by split).
  destruct (winode_laid i _ s W1 ltac:(lia) Hd) as (s' & E & H1 & H2 & H3 & H4 & H5 & H6). exists s'. split; [done|]. split; [|by split].
  apply (world_update s s' L i l); [done|done|lia|lia| |done|by left| |by left].
  - split; rewrite ?H4; cbn; [lia|done..| |done]. by apply (file_same s).
  - intros x Hx _. apply H6. lia.
Qed.

Lemma iappend_ok i p s L l : world s L -> L !! i = Some l -> af_size (ly_file l) = zlen (af_data (ly_file l)) ->
  zlen (af_data (ly_file l)) + zlen p <= 71680 ->
  freeblock s + (cost (zlen (af_data (ly_file l)) + zlen p) - cost (zlen (af_data (ly_file l)))) <= 1024 ->
  exists s' l', iappend i p s = Ret (tt, s') /\ world s' (<[i := l']> L) /\
    ly_file l' = mkAf (af_type (ly_file l)) (af_data (ly_file l) ++ p) (zlen (af_data (ly_file l) ++ p)) /\
    freeblock s' = freeblock s + (cost (zlen (af_data (ly_file l)) + zlen p) - cost (zlen (af_data (ly_file l)))) /\ freeinode s' = freeinode s.
Proof.
  intros HW Hl Hsz Hmax Hfit. pose proof HW as [W1 W2 W3 W4]. pose proof (W3 i l Hl) as [B1 B2 B3 B4 B5 B6 B7]. unfold iappend.
  mstep (rinode_ok i s (mo_sectors s W1) ltac:(lia)). set (d := inode_at (img s) i) in *. rewrite B5, Hsz.
  destruct (iappend_loop_ok (S (length p)) p s d _ _ _ W1 B6 B7 Hmax Hfit ltac:(lia)) as (d' & bl' & ind' & s1 & E & HF' & Hn' & Hd' & Hfb' & [K1 K2 K3 K4 K5]).
  mstep E. cbn [fst snd]. set (n := zlen _ + zlen p) in *. assert (Hn0 : 0 <= n <= 71680) by (unfold n, zlen in *; lia).
  destruct (addrs_din_ok _ _ _ _ _ K1 HF') as [HL13 HLu].
  assert (Hdin : din_ok (set_dsize n d')) by (rewrite Hd'; destruct B2; split; cbn; try done; unfold in_u32; lia).
  destruct (winode_laid i (set_dsize n d') s1 K1 ltac:(lia) Hdin) as (s' & E' & H1 & H2 & H3 & H4 & H5 & H6).
  exists s', (mkLay (mkAf (af_type (ly_file l)) (af_data (ly_file l) ++ p) (zlen (af_data (ly_file l) ++ p))) bl' ind'). split; [done|]. split; [|split; [done|split; [lia|congruence]]].
  assert (Hino : forall j, 0 <= j < 200 -> inode_at (img s1) j = inode_at (img s) j).
  { intros j Hj. unfold inode_at. rewrite K4; [done| |]; [pose proof (i2b_range j Hj); pose proof (mo_range s W1); lia|]. intros Hin. pose proof (fo_range _ _ _ _ _ B6) as HR.
    rewrite Forall_forall in HR. specialize (HR _ Hin). pose proof (i2b_range j Hj). lia. }
  apply (world_update s s' L i l); [done|done|lia|lia| | |by left| |].
  - split; rewrite ?H4; cbn [ly_file ly_bl ly_ind af_type af_data af_size set_dsize dsize daddrs]; [lia|done| | |by rewrite zlen_app| |by rewrite zlen_app].
    + rewrite Hd'. done.
    + rewrite Hd'. done.
    + by apply (file_same s1).
  - intros j Hj Hne. rewrite H5 by done. by apply Hino.
  - intros x Hx Hxo. rewrite H6 by lia. apply K4; [lia|done].
  - exact K5.
Qed.

(** ** Files, without their blocks *)

Definition holds (s : mk) (fs : gmap Z afile) : Prop := exists L, world s L /\ fs = ly_file <$> L.
Definition grow (d p : list Z) : afile -> afile := fun f => mkAf (af_type f) (d ++ p) (zlen (d ++ p)).

Lemma holds_fi s fs : holds s fs -> 1 <= freeinode s <= 200 /\ forall j, freeinode s <= j -> fs !! j = None.
Proof.
  intros (L & HW & ->). split; [apply HW|]. intros j Hj. rewrite lookup_fmap. destruct (L !! j) as [l|] eqn:E; [|done]. pose proof (la_inum _ _ _ (wo_laid _ _ HW j l E)). lia.
Qed.
Lemma holds_alloc t s fs : holds s fs -> 0 <= t < 65536 -> freeinode s < 200 ->
  exists s', ialloc t s = Ret (freeinode s, s') /\ holds s' (<[freeinode s := mkAf t [] 0]> fs) /\ freeblock s' = freeblock s /\ freeinode s' = freeinode s + 1.
Proof.
  intros HH Ht Hlt. destruct (holds_fi s fs HH) as [_ Hnone]. destruct HH as (L & HW & ->).
  assert (Hn : L !! freeinode s = None) by (specialize (Hnone (freeinode s) ltac:(lia)); rewrite lookup_fmap in Hnone; by destruct (L !! freeinode s)).
  destruct (ialloc_ok t s L HW Ht Hlt Hn) as (s' & E & HW' & HH). exists s'. split; [done|]. split; [|done]. eexists. split; [exact HW'|]. by rewrite fmap_insert.
Qed.
Lemma holds_append i p s fs t d : holds s fs -> fs !! i = Some (mkAf t d (zlen d)) -> zlen d + zlen p <= 71680 ->
  freeblock s + (cost (zlen d + zlen p) - cost (zlen d)) <= 1024 ->
  exists s', iappend i p s = Ret (tt, s') /\ holds s' (<[i := mkAf t (d ++ p) (zlen (d ++ p))]> fs) /\
    freeblock s' = freeblock s + (cost (zlen d + zlen p) - cost (zlen d)) /\ freeinode s' = freeinode s.
Proof.
  intros (L & HW & ->) Hi Hmax Hfit. rewrite lookup_fmap in Hi. destruct (L !! i) as [l|] eqn:El; [|done]. cbn in Hi. injection Hi as Hl.
  destruct (iappend_ok i p s L l HW El) as (s' & l' & E & HW' & Hl' & HH); rewrite Hl in *; [done..|].
  exists s'. split; [done|]. split; [|done]. eexists. split; [exact HW'|]. by rewrite fmap_insert, Hl'.
Qed.
Lemma holds_fix_size i s fs t d : holds s fs -> fs !! i = Some (mkAf t d (zlen d)) -> zlen d <= 71680 ->
  exists s', fix_size i s = Ret (tt, s') /\ holds s' (<[i := mkAf t d ((zlen d / 512 + 1) * 512)]> fs) /\ freeblock s' = freeblock s /\ freeinode s' = freeinode s.
Proof.
  intros (L & HW & ->) Hi Hmax. rewrite lookup_fmap in Hi. destruct (L !! i) as [l|] eqn:El; [|done]. cbn in Hi. injection Hi as Hl.
  pose proof (wo_laid _ _ HW i l El) as B. pose proof (la_inum _ _ _ B). pose proof (wo_fi _ _ HW). unfold fix_size.
  mstep (rinode_ok i s (mo_sectors s (wo_ok s L HW)) ltac:(lia)). rewrite (la_size _ _ _ B), Hl. cbn [af_size].
  assert (Hn : 0 <= zlen d) by apply zlen_nonneg. assert (Ev : u32 (s32 (Z.quot (s32 (zlen d)) BSIZE + 1) * BSIZE) = (zlen d / 512 + 1) * 512).
  { unfold BSIZE. rewrite (s32_small (zlen d)), Z.quot_div_nonneg by (unfold in_s32; lia). rewrite s32_small by (unfold in_s32; dlia). apply u32_small. unfold in_u32. dlia. }
  rewrite Ev. destruct (set_size_ok i s L l ((zlen d / 512 + 1) * 512) HW El ltac:(unfold in_u32; dlia)) as (s' & E & HW' & HH).
  exists s'. split; [done|]. split; [|done]. eexists. split; [exact HW'|]. by rewrite fmap_insert, Hl.
Qed.

