(* ===== verification/MkfsSpec.v ===== *)
(** The image [mkfs] writes holds the host's directory, file for file. *)
From S2P Require Import Prelude Bytes Fs FsSpec Mkfs MkfsImg.
Import Fs.
Import Mkfs.

(** ** The host's directory on the image *)

Definition is_dots (name : list Z) : bool := bool_decide (name = dot) || bool_decide (name = dotdot).
(** The inodes a directory's entries take. *)
Fixpoint inodes (es : hentries) : Z :=
  match es with
  | HEntry name nd rest =>
      if is_dots name then inodes rest
      else match nd with HDir es' => 1 + inodes es' | HNoOpen => 0 | _ => 1 end + inodes rest
  | _ => 0
  end.
Definition node_inodes (nd : hnode) : Z := match nd with HDir es' => 1 + inodes es' | HNoOpen => 0 | _ => 1 end.
(** The entries of the directory on the image, inodes numbered from [next] on in
    the order of a walk. *)
Fixpoint entries (es : hentries) (next : Z) : list (Z * list Z) :=
  match es with
  | HEntry name nd rest => if is_dots name then entries rest next else (next, name) :: entries rest (next + node_inodes nd)
  | _ => []
  end.
Definition dots_bytes (cur parent : Z) : list Z := dirent cur dot ++ dirent parent dotdot.
Definition dir_bytes (l : list (Z * list Z)) : list Z := mjoin ((fun e => dirent e.1 e.2) <$> l).
Definition dir_file (d : list Z) : afile := mkAf T_DIR d ((zlen d / 512 + 1) * 512).

(** The files below directory [cur]: each entry's inode has its type and bytes,
    a directory's are its entries after the dots. *)
Fixpoint shows (fs : gmap Z afile) (es : hentries) (cur next : Z) : Prop :=
  match es with
  | HEntry name nd rest =>
      if is_dots name then shows fs rest cur next
      else
        match nd with
        | HFile reads => fs !! next = Some (mkAf T_FILE (mjoin reads) (zlen (mjoin reads)))
        | HDir es' => fs !! next = Some (dir_file (dots_bytes next cur ++ dir_bytes (entries es' (next + 1)))) /\ shows fs es' next (next + 1)
        | HNull => fs !! next = Some (mkAf T_DIR (dots_bytes next cur) 32)
        | HNoOpen => False
        end /\ shows fs rest cur (next + node_inodes nd)
  | HEnd => True
  | HError => False
  end.

(** What opens and fits: 71680 bytes a file or directory; the blocks taken, for a
    directory of [len] bytes so far. *)
Fixpoint fits (es : hentries) (len : Z) : bool :=
  match es with
  | HEnd => true
  | HError => false
  | HEntry name nd rest =>
      if is_dots name then fits rest len
      else
        match nd with
        | HFile reads => zlen (mjoin reads) <=? 71680
        | HDir es' => fits es' 32
        | HNull => true
        | HNoOpen => false
        end && (len + 16 <=? 71680) && fits rest (len + 16)
  end.
Fixpoint space (es : hentries) (len : Z) : Z :=
  match es with
  | HEntry name nd rest =>
      if is_dots name then space rest len
      else
        match nd with
        | HFile reads => cost (zlen (mjoin reads))
        | HDir es' => cost 32 + space es' 32
        | HNull => cost 32
        | HNoOpen => 0
        end + (cost (len + 16) - cost len) + space rest (len + 16)
  | _ => 0
  end.

Scheme hentries_nodes_ind := Induction for hentries Sort Prop
with hnode_entries_ind := Induction for hnode Sort Prop.
(** Induction on the entries of a directory and of those in it. *)
Lemma entries_ind (P : hentries -> Prop) : P HEnd -> P HError ->
  (forall name nd rest, match nd with HDir es' => P es' | _ => True end -> P rest -> P (HEntry name nd rest)) -> forall es, P es.
Proof.
  intros H1 H2 H3. apply (hentries_nodes_ind P (fun nd => match nd with HDir es' => P es' | _ => True end)); auto.
Qed.

Lemma zlen_dirent i name : zlen (dirent i name) = 16.
Proof. unfold dirent, pad_name. rewrite zlen_app, zlen_to_le. unfold zlen. rewrite length_take, length_app, length_replicate. lia. Qed.
Lemma zlen_dots c p : zlen (dots_bytes c p) = 32.
Proof. unfold dots_bytes. by rewrite zlen_app, !zlen_dirent. Qed.
Lemma inodes_pos es : 0 <= inodes es.
Proof. induction es as [| |name nd rest Hn Hr] using entries_ind; cbn; [lia|lia|]. destruct (is_dots name), nd; lia. Qed.
Lemma cost_pos n : 0 <= n -> 0 <= cost n.
Proof. intros Hn. pose proof (cost_mono 0 n ltac:(lia)) as H. exact H. Qed.
Lemma space_pos es len : 0 <= len -> 0 <= space es len.
Proof.
  revert len. induction es as [| |name nd rest Hn Hr] using entries_ind; intros len Hl; cbn [space]; [lia|lia|]. pose proof (cost_mono len (len + 16) ltac:(lia)).
  destruct (is_dots name); [by apply Hr|]. specialize (Hr (len + 16) ltac:(lia)). pose proof (cost_pos 32 ltac:(lia)).
  destruct nd as [reads|es'| |]; [pose proof (cost_pos _ (zlen_nonneg (mjoin reads)))|specialize (Hn 32 ltac:(lia))| |]; lia.
Qed.
Lemma shows_ext fs fs' es cur next : shows fs es cur next -> (forall j, next <= j < next + inodes es -> fs' !! j = fs !! j) -> shows fs' es cur next.
Proof.
  revert cur next. induction es as [| |name nd rest Hn Hr] using entries_ind; intros cur next HS He; cbn in *; [done|done|]. destruct (is_dots name); [by apply Hr|].
  pose proof (inodes_pos rest). destruct HS as [HS1 HS2]. split.
  - destruct nd as [reads|es'| |]; [by rewrite He by lia| |by rewrite He by lia|done]. destruct HS1 as [HS1 HS3]. pose proof (inodes_pos es').
    split; [by rewrite He by lia|]. apply Hn; [done|]. intros j Hj. apply He. lia.
  - apply Hr; [done|]. intros j Hj. apply He. unfold node_inodes in *. destruct nd as [reads|es'| |]; try pose proof (inodes_pos es'); lia.
Qed.

(** ** [add_dir] *)

Lemma dots_ok cur parent s fs : holds s fs -> fs !! cur = Some (mkAf T_DIR [] 0) -> freeblock s + cost 32 <= 1024 ->
  exists s', dots cur parent s = Ret (tt, s') /\ holds s' (<[cur := mkAf T_DIR (dots_bytes cur parent) 32]> fs) /\
    freeblock s' = freeblock s + cost 32 /\ freeinode s' = freeinode s.
Proof.
  intros HH Hc Hfit. unfold dots. destruct (holds_append cur (dirent cur dot) s fs T_DIR [] HH Hc) as (s1 & E1 & HH1 & Hb1 & Hi1).
  { change (zlen (@nil Z)) with 0. rewrite zlen_dirent. lia. }
  { change (zlen (@nil Z)) with 0. rewrite zlen_dirent. change (cost 0) with 0. change (cost (0 + 16)) with (cost 32). lia. }
  mstep E1. change (zlen (@nil Z)) with 0 in Hb1. rewrite zlen_dirent in Hb1. change (cost 0) with 0 in Hb1. change (cost (0 + 16)) with (cost 32) in Hb1.
  cbn [app] in HH1. destruct (holds_append cur (dirent parent dotdot) s1 _ T_DIR (dirent cur dot) HH1) as (s2 & E2 & HH2 & Hb2 & Hi2).
  { apply lookup_insert_eq. }
  { rewrite !zlen_dirent. lia. }
  { rewrite !zlen_dirent. change (cost (16 + 16)) with (cost 32). change (cost 16) with (cost 32). lia. }
  exists s2. split; [done|]. rewrite !zlen_dirent in Hb2. change (cost (16 + 16)) with (cost 32) in Hb2. change (cost 16) with (cost 32) in Hb2.
  split; [|lia]. rewrite insert_insert_eq in HH2. fold (dots_bytes cur parent) in HH2. by rewrite zlen_dots in HH2.
Qed.

Lemma copy_file_ok i reads : forall s fs d, holds s fs -> fs !! i = Some (mkAf T_FILE d (zlen d)) -> zlen d + zlen (mjoin reads) <= 71680 ->
  freeblock s + (cost (zlen d + zlen (mjoin reads)) - cost (zlen d)) <= 1024 ->
  exists s', copy_file i reads s = Ret (tt, s') /\ holds s' (<[i := mkAf T_FILE (d ++ mjoin reads) (zlen (d ++ mjoin reads))]> fs) /\
    freeblock s' = freeblock s + (cost (zlen d + zlen (mjoin reads)) - cost (zlen d)) /\ freeinode s' = freeinode s.
Proof.
  induction reads as [|p reads IH]; intros s fs d HH Hi Hmax Hfit; cbn [copy_file].
  - change (mjoin (M := list) (@nil (list Z))) with (@nil Z). change (zlen (@nil Z)) with 0. rewrite app_nil_r, Z.add_0_r. exists s. split; [done|].
    rewrite insert_id by done. split; [done|lia].
  - change (mjoin (p :: reads)) with (p ++ mjoin reads) in *. assert (Ez : zlen (p ++ mjoin reads) = zlen p + zlen (mjoin reads)) by apply zlen_app.
    rewrite Ez in *. set (r := zlen (mjoin reads)) in *. assert (Hr : 0 <= r) by apply zlen_nonneg. pose proof (zlen_nonneg p). pose proof (zlen_nonneg d).
    pose proof (cost_mono (zlen d + zlen p) (zlen d + (zlen p + r)) ltac:(lia)).
    destruct (holds_append i p s fs T_FILE d HH Hi ltac:(lia) ltac:(lia)) as (s1 & E1 & HH1 & Hb1 & Hi1). mstep E1.
    assert (Ed : zlen (d ++ p) + r = zlen d + (zlen p + r)) by (rewrite zlen_app; lia).
    destruct (IH s1 _ (d ++ p) HH1) as (s' & E & HH' & Hb' & Hi'); [apply lookup_insert_eq|fold r; lia|fold r; rewrite Ed, (zlen_app d p); lia|].
    exists s'. split; [done|]. rewrite insert_insert_eq, <- app_assoc in HH'. split; [done|]. fold r in Hb'. rewrite Ed, (zlen_app d p) in Hb'. split; [lia|congruence].
Qed.

(** What the inode of an entry holds, and the blocks it takes. *)
Definition node_shows (fs : gmap Z afile) (nd : hnode) (cur n : Z) : Prop :=
  match nd with
  | HFile reads => fs !! n = Some (mkAf T_FILE (mjoin reads) (zlen (mjoin reads)))
  | HDir es => fs !! n = Some (dir_file (dots_bytes n cur ++ dir_bytes (entries es (n + 1)))) /\ shows fs es n (n + 1)
  | HNull => fs !! n = Some (mkAf T_DIR (dots_bytes n cur) 32)
  | HNoOpen => False
  end.
Definition node_space (nd : hnode) : Z :=
  match nd with
  | HFile reads => cost (zlen (mjoin reads))
  | HDir es => cost 32 + space es 32
  | HNull => cost 32
  | HNoOpen => 0
  end.
Lemma node_pos nd : 0 <= node_inodes nd /\ 0 <= node_space nd.
Proof.
  pose proof (cost_pos 32 ltac:(lia)). destruct nd as [reads|es| |]; cbn [node_inodes node_space]; [pose proof (cost_pos _ (zlen_nonneg (mjoin reads)))|pose proof (inodes_pos es); pose proof (space_pos es 32 ltac:(lia))| |]; lia.
Qed.
Lemma node_ext fs fs' nd cur n : node_shows fs nd cur n -> (forall j, n <= j < n + node_inodes nd -> fs' !! j = fs !! j) -> node_shows fs' nd cur n.
Proof.
  destruct nd as [reads|es| |]; cbn [node_shows node_inodes]; intros HS He; [by rewrite He by lia| |by rewrite He by lia|done]. pose proof (inodes_pos es).
  destruct HS as [H1 H2]. split; [by rewrite He by lia|]. eapply shows_ext; [exact H2|]. intros j Hj. apply He. lia.
Qed.

(** An entry's file made, and the entry put in the directory. *)
Record made (s : mk) (fs : gmap Z afile) (cur : Z) (d name : list Z) (nd : hnode) (s' : mk) (fs' : gmap Z afile) : Prop := {
  ma_holds : holds s' fs';
  ma_cur : fs' !! cur = Some (mkAf T_DIR (d ++ dirent (freeinode s) name) (zlen d + 16));
  ma_node : node_shows fs' nd cur (freeinode s);
  ma_old j : j < freeinode s -> j <> cur -> fs' !! j = fs !! j;
  ma_fi : freeinode s' = freeinode s + node_inodes nd;
  ma_fb : freeblock s' = freeblock s + (node_space nd + (cost (zlen d + 16) - cost (zlen d)))
}.
(** All the entries of a directory put in it. *)
Record added (es : hentries) (s : mk) (fs : gmap Z afile) (cur : Z) (d : list Z) (s' : mk) (fs' : gmap Z afile) : Prop := {
  ad_holds : holds s' fs';
  ad_cur : fs' !! cur = Some (dir_file (d ++ dir_bytes (entries es (freeinode s))));
  ad_shows : shows fs' es cur (freeinode s);
  ad_old j : j < freeinode s -> j <> cur -> fs' !! j = fs !! j;
  ad_fi : freeinode s' = freeinode s + inodes es;
  ad_fb : freeblock s' = freeblock s + space es (zlen d)
}.

(** The last step of each case. *)
Lemma entry_made s s1 fs fs1 cur d name nd : holds s1 fs1 -> fs !! cur = Some (mkAf T_DIR d (zlen d)) -> cur < freeinode s ->
  (forall j, j < freeinode s -> fs1 !! j = fs !! j) -> node_shows fs1 nd cur (freeinode s) -> zlen d + 16 <= 71680 ->
  freeinode s1 = freeinode s + node_inodes nd -> freeblock s1 = freeblock s + node_space nd ->
  freeblock s + (node_space nd + (cost (zlen d + 16) - cost (zlen d))) <= 1024 ->
  exists s' fs', iappend cur (dirent (freeinode s) name) s1 = Ret (tt, s') /\ made s fs cur d name nd s' fs'.
Proof.
  intros HH Hc Hcl Hold HN Hmax Hfi Hfb Hfit. destruct (holds_append cur (dirent (freeinode s) name) s1 fs1 T_DIR d HH) as (s' & E & HH' & Hb' & Hi').
  { by rewrite Hold. } { by rewrite zlen_dirent. } { rewrite zlen_dirent. lia. }
  eexists s', _. split; [done|]. rewrite zlen_dirent in Hb'. split; [exact HH'|by rewrite lookup_insert_eq, zlen_app, zlen_dirent| | |congruence|lia].
  - eapply node_ext; [exact HN|]. intros j Hj. by rewrite lookup_insert_ne by lia.
  - intros j Hj Hne. rewrite lookup_insert_ne by done. by apply Hold.
Qed.

Section Entry.
Context (s : mk) (fs : gmap Z afile) (cur : Z) (d name : list Z).
Context (HH : holds s fs) (Hc : fs !! cur = Some (mkAf T_DIR d (zlen d))) (Hmax : zlen d + 16 <= 71680).

Lemma cur_lt : cur < freeinode s.
Proof using HH Hc. destruct (decide (cur < freeinode s)); [done|]. destruct (holds_fi s fs HH) as [_ Hn]. by rewrite Hn in Hc by lia. Qed.

(** A new directory with its dots. *)
Lemma dir_begun : freeinode s < 200 -> freeblock s + cost 32 <= 1024 ->
  exists s1 s2 fs2, ialloc T_DIR s = Ret (freeinode s, s1) /\ dots (freeinode s) cur s1 = Ret (tt, s2) /\ holds s2 fs2 /\
    fs2 !! freeinode s = Some (mkAf T_DIR (dots_bytes (freeinode s) cur) 32) /\ (forall j, j < freeinode s -> fs2 !! j = fs !! j) /\
    freeinode s2 = freeinode s + 1 /\ freeblock s2 = freeblock s + cost 32.
Proof using HH.
  clear Hc. intros Hi Hb. destruct (holds_alloc T_DIR s fs HH ltac:(unfold T_DIR; lia) Hi) as (s1 & E1 & HH1 & Hb1 & Hi1).
  destruct (dots_ok (freeinode s) cur s1 _ HH1 (lookup_insert_eq _ _ _)) as (s2 & E2 & HH2 & Hb2 & Hi2); [lia|]. eexists s1, s2, _.
  split; [done|]. split; [done|]. split; [exact HH2|]. split; [apply lookup_insert_eq|]. split; [|lia]. intros j Hj. by rewrite !lookup_insert_ne by lia.
Qed.

Lemma file_made reads (k : M mk Z) : zlen (mjoin reads) <= 71680 -> freeinode s < 200 ->
  freeblock s + (cost (zlen (mjoin reads)) + (cost (zlen d + 16) - cost (zlen d))) <= 1024 ->
  exists s' fs', (child ← ialloc T_FILE; copy_file child reads;; iappend cur (dirent child name);; k) s = k s' /\ made s fs cur d name (HFile reads) s' fs'.
Proof using HH Hc Hmax.
  intros Hf Hi Hb. pose proof cur_lt as Hcl. pose proof (zlen_nonneg d). pose proof (cost_mono (zlen d) (zlen d + 16) ltac:(lia)).
  destruct (holds_alloc T_FILE s fs HH ltac:(unfold T_FILE; lia) Hi) as (s1 & E1 & HH1 & Hb1 & Hi1). mstep E1.
  destruct (copy_file_ok (freeinode s) reads s1 _ [] HH1 (lookup_insert_eq _ _ _)) as (s2 & E2 & HH2 & Hb2 & Hi2);
    change (zlen (@nil Z)) with 0 in *; rewrite ?Z.add_0_l in *; change (cost 0) with 0 in *; [lia|lia|]. mstep E2.
  destruct (entry_made s s2 fs _ cur d name (HFile reads) HH2 Hc Hcl) as (s3 & fs3 & E3 & HM); cbn [node_shows node_inodes node_space]; [|apply lookup_insert_eq|lia..|].
  - intros j Hj. by rewrite !lookup_insert_ne by lia.
  - mstep E3. by exists s3, fs3.
Qed.
Lemma null_made (k : M mk Z) : freeinode s < 200 -> freeblock s + (cost 32 + (cost (zlen d + 16) - cost (zlen d))) <= 1024 ->
  exists s' fs', (child ← ialloc T_DIR; dots child cur;; iappend cur (dirent child name);; k) s = k s' /\ made s fs cur d name HNull s' fs'.
Proof using HH Hc Hmax.
  intros Hi Hb. pose proof cur_lt as Hcl. pose proof (zlen_nonneg d). pose proof (cost_mono (zlen d) (zlen d + 16) ltac:(lia)).
  destruct (dir_begun Hi ltac:(lia)) as (s1 & s2 & fs2 & E1 & E2 & HH2 & Hn & Hold & Hi2 & Hb2). mstep E1. mstep E2.
  destruct (entry_made s s2 fs fs2 cur d name HNull HH2 Hc Hcl Hold) as (s3 & fs3 & E3 & HM); cbn [node_shows node_inodes node_space]; [done|lia..|].
  mstep E3. by exists s3, fs3.
Qed.
Lemma dir_made es (k : M mk Z) : (forall s fs cur d, holds s fs -> fs !! cur = Some (mkAf T_DIR d (zlen d)) -> fits es (zlen d) = true -> zlen d <= 71680 ->
    freeinode s + inodes es <= 200 -> freeblock s + space es (zlen d) <= 1024 -> exists s' fs', add_entries es cur s = Ret (0, s') /\ added es s fs cur d s' fs') ->
  fits es 32 = true -> freeinode s + (1 + inodes es) <= 200 -> freeblock s + (cost 32 + space es 32 + (cost (zlen d + 16) - cost (zlen d))) <= 1024 ->
  exists s' fs', (child ← ialloc T_DIR; dots child cur;; r ← add_entries es child; if negb (r =? 0) then mret r else iappend cur (dirent child name);; k) s = k s' /\
    made s fs cur d name (HDir es) s' fs'.
Proof using HH Hc Hmax.
  intros IH Hf Hi Hb. pose proof cur_lt as Hcl. pose proof (zlen_nonneg d). pose proof (cost_mono (zlen d) (zlen d + 16) ltac:(lia)). pose proof (inodes_pos es). pose proof (space_pos es 32 ltac:(lia)).
  destruct (dir_begun ltac:(lia) ltac:(lia)) as (s1 & s2 & fs2 & E1 & E2 & HH2 & Hn & Hold & Hi2 & Hb2). mstep E1. mstep E2.
  destruct (IH s2 fs2 (freeinode s) (dots_bytes (freeinode s) cur) HH2) as (s3 & fs3 & E3 & [A1 A2 A3 A4 A5 A6]); rewrite ?zlen_dots in *; [done|done|lia..|].
  mstep E3. cbn [Z.eqb negb]. rewrite Hi2 in *.
  destruct (entry_made s s3 fs fs3 cur d name (HDir es) A1 Hc Hcl) as (s4 & fs4 & E4 & HM); cbn [node_shows node_inodes node_space]; [|done|lia..|].
  - intros j Hj. rewrite A4 by lia. by apply Hold.
  - mstep E4. by exists s4, fs4.
Qed.
End Entry.

Lemma add_entries_ok es : forall s fs cur d, holds s fs -> fs !! cur = Some (mkAf T_DIR d (zlen d)) -> fits es (zlen d) = true -> zlen d <= 71680 ->
  freeinode s + inodes es <= 200 -> freeblock s + space es (zlen d) <= 1024 ->
  exists s' fs', add_entries es cur s = Ret (0, s') /\ added es s fs cur d s' fs'.
Proof.
  induction es as [| |name nd rest Hn Hr] using entries_ind; intros s fs cur d HH Hc Hfits Hmax Hin Hsp; cbn [add_entries inodes space fits] in *; [|done|].
  - destruct (holds_fix_size cur s fs T_DIR d HH Hc Hmax) as (s' & E & HH' & Hb & Hi). mstep E. eexists s', _. split; [done|]. split; cbn [shows entries inodes space]; [exact HH'| |done| |lia|lia].
    + change (dir_bytes []) with (@nil Z). by rewrite app_nil_r, lookup_insert_eq.
    + intros j _ Hj. by rewrite lookup_insert_ne.
  - fold (is_dots name). destruct (is_dots name) eqn:En.
    { destruct (Hr s fs cur d HH Hc Hfits Hmax Hin Hsp) as (s' & fs' & E & [A1 A2 A3 A4 A5 A6]). exists s', fs'. split; [done|]. split; cbn [entries shows inodes space]; rewrite ?En; done. }
    fold (node_inodes nd) (node_space nd) in *. apply andb_prop in Hfits as [Hfits Hfr]. apply andb_prop in Hfits as [Hfn Hd16%Z.leb_le].
    pose proof (inodes_pos rest) as Hir. pose proof (zlen_nonneg d). pose proof (space_pos rest (zlen d + 16) ltac:(lia)) as Hsr.
    assert (Hmade : forall s1 fs1, made s fs cur d name nd s1 fs1 -> exists s' fs', add_entries rest cur s1 = Ret (0, s') /\ added (HEntry name nd rest) s fs cur d s' fs').
    { intros s1 fs1 [M1 M2 M3 M4 M5 M6]. assert (Ez : zlen (d ++ dirent (freeinode s) name) = zlen d + 16) by by rewrite zlen_app, zlen_dirent. rewrite <- Ez in M2.
      pose proof (cur_lt s fs cur d HH Hc) as Hcl. pose proof (node_pos nd) as [Hnp _].
      destruct (Hr s1 fs1 cur _ M1 M2) as (s' & fs' & E & [A1 A2 A3 A4 A5 A6]); rewrite ?Ez, ?M5, ?M6 in *; [done|lia..|]. exists s', fs'. split; [done|].
      split; cbn [entries shows inodes space]; rewrite ?En; fold (node_inodes nd) (node_space nd); [done|by rewrite A2, <- app_assoc| | |lia|lia].
      - split; [|done]. eapply node_ext; [exact M3|]. intros j Hj. apply A4; lia.
      - intros j Hj Hne. rewrite A4 by lia. by apply M4. }
    destruct nd as [reads|es'| |]; [| | |done].
    + destruct (file_made s fs cur d name HH Hc Hd16 reads (add_entries rest cur)) as (s1 & fs1 & E & HM); [by apply Z.leb_le|cbn [node_inodes node_space] in *; lia..|]. rewrite E. by eapply Hmade.
    + destruct (dir_made s fs cur d name HH Hc Hd16 es' (add_entries rest cur) Hn Hfn) as (s1 & fs1 & E & HM); [cbn [node_inodes node_space] in *; lia..|]. rewrite E. by eapply Hmade.
    + destruct (null_made s fs cur d name HH Hc Hd16 (add_entries rest cur)) as (s1 & fs1 & E & HM); [cbn [node_inodes node_space] in *; lia..|]. rewrite E. by eapply Hmade.
Qed.

(** ** The image *)

(** Where an inode has its block [k], and byte [n] of its data. *)
Definition block_at (m : gmap Z (list Z)) (d : dinode) (k : Z) : Z :=
  if k <? NDIRECT then nth (Z.to_nat k) (daddrs d) 0 else word (default [] (m !! nth 12 (daddrs d) 0)) (4 * (k - NDIRECT)).
Definition byte_at (m : gmap Z (list Z)) (d : dinode) (n : Z) : Z := nth (Z.to_nat (n mod 512)) (default [] (m !! block_at m d (n / 512))) 0.

(** Byte [n] is in one of the file's blocks. *)
Definition within (f : afile) (n : Z) : Prop := 0 <= n /\ n / 512 * 512 < zlen (af_data f).

(** The image has these files: each in its inode with its type, its size and its
    bytes, zeros up to the end of its last block, in blocks of its own that the bitmap marks, and the bitmap marks no
    block past them. *)
Record image (m : gmap Z (list Z)) (fs : gmap Z afile) : Prop := {
  im_sectors : sectors m;
  im_bound b : is_Some (m !! b) -> 0 <= b < 1024;
  im_super : m !! 1 = Some super_bytes;
  im_inode i f : fs !! i = Some f -> 1 <= i < 200 /\ dtype (inode_at m i) = af_type f /\ dnlink (inode_at m i) = 1 /\ dsize (inode_at m i) = af_size f;
  im_size i f : fs !! i = Some f -> zlen (af_data f) <= 71680;
  im_bytes i f n : fs !! i = Some f -> within f n -> byte_at m (inode_at m i) n = nth (Z.to_nat n) (af_data f) 0;
  im_blocks i f n : fs !! i = Some f -> within f n ->
    29 <= block_at m (inode_at m i) (n / 512) < 1024 /\ bit_set (default [] (m !! 28)) (block_at m (inode_at m i) (n / 512)) = true;
  im_indirect i f n : fs !! i = Some f -> within f n -> 12 <= n / 512 -> 29 <= nth 12 (daddrs (inode_at m i)) 0 < 1024;
  im_apart i j f g n k : fs !! i = Some f -> fs !! j = Some g -> i <> j -> within f n -> within g k ->
    block_at m (inode_at m i) (n / 512) <> block_at m (inode_at m j) (k / 512);
  im_bitmap : exists used, 29 <= used <= 1024 /\ forall b, 0 <= b < 4096 -> bit_set (default [] (m !! 28)) b = (b <? used)
}.

Lemma block_of m ad bl ind d k : addrs_at m ad bl ind -> daddrs d = ad -> (k < length bl)%nat -> block_at m d (Z.of_nat k) = nth k bl 0.
Proof.
  intros HA Hd Hk. unfold block_at. rewrite Hd. unfold NDIRECT in *. destruct (Z.ltb_spec (Z.of_nat k) 12).
  - rewrite Nat2Z.id. apply (addrs_direct _ _ _ _ k HA). lia.
  - rewrite (addrs_ind _ _ _ _ HA). destruct (aa_table _ _ _ _ HA) as (x & -> & _ & Hw); [lia|]. cbn [default from_option id]. pose proof (aa_max _ _ _ _ HA).
    replace (4 * (Z.of_nat k - 12)) with (4 * Z.of_nat (k - 12)) by lia. rewrite Hw by lia. f_equal. lia.
Qed.
Lemma set_bits_ok n i buf : bitmap buf -> 0 <= i -> i + Z.of_nat n <= 4096 ->
  bitmap (set_bits n i buf) /\ forall b, 0 <= b -> bit_set (set_bits n i buf) b = if decide (i <= b < i + Z.of_nat n) then true else bit_set buf b.
Proof.
  revert i buf. induction n as [|n IH]; intros i buf Hb Hi Hn; cbn [set_bits].
  - split; [done|]. intros b Hb0. by rewrite decide_False by lia.
  - destruct (IH (i + 1) (upd_byte buf i Z.lor)) as [H1 H2]; [unfold bitmap; by rewrite length_upd_byte|lia|lia|]. split; [done|]. intros b Hb0.
    rewrite H2, (bit_set_upd Z.lor true) by (first [exact lor_bit|done|unfold BPB; lia]).
    destruct (decide (i + 1 <= b < i + 1 + Z.of_nat n)), (decide (b = i)), (decide (i <= b < i + Z.of_nat (S n))); lia || done.
Qed.
Lemma bit_set_zeros b : 0 <= b -> bit_set (replicate 512 0) b = false.
Proof.
  intros Hb. rewrite bit_set_spec by done. destruct (decide (Z.to_nat (b / 8) < 512)%nat) as [Hl|Hl].
  - rewrite (nth_lookup_Some (replicate 512 0) _ _ 0) by by apply lookup_replicate_2. apply Z.bits_0.
  - rewrite nth_overflow by (rewrite length_replicate; lia). apply Z.bits_0.
Qed.

(** The block of a byte, on an image with the same data blocks. *)
Lemma held_block s L i l m n : world s L -> L !! i = Some l -> (forall b, 29 <= b -> m !! b = img s !! b) -> within (ly_file l) n ->
  exists b, b ∈ owned (ly_bl l) (ly_ind l) /\ 29 <= b < freeblock s /\ block_at m (inode_at (img s) i) (n / 512) = b /\
    (12 <= n / 512 -> 29 <= nth 12 (daddrs (inode_at (img s) i)) 0 < freeblock s) /\ byte_at m (inode_at (img s) i) n = nth (Z.to_nat n) (af_data (ly_file l)) 0.
Proof.
  intros HW El Hm [Hn0 Hn]. pose proof (wo_laid _ _ HW i l El) as B. destruct (la_file _ _ _ B) as [A1 A2 A3 A4]. pose proof (la_count _ _ _ B) as Hc. unfold nblk in Hc.
  set (k := Z.to_nat (n / 512)). assert (Hk : n / 512 = Z.of_nat k /\ n = Z.of_nat (k * 512 + Z.to_nat (n mod 512)) /\ (Z.to_nat (n mod 512) < 512)%nat) by dlia.
  destruct Hk as (Hk & Hnk & Hlt). destruct (lookup_lt_is_Some_2 (ly_bl l) k) as [b Hb]; [dlia|].
  assert (Ho : b ∈ owned (ly_bl l) (ly_ind l)) by (apply elem_of_app; left; by eapply list_elem_of_lookup_2).
  rewrite Forall_forall in A4. pose proof (A4 b Ho) as Hr. exists b. split; [done|]. split; [done|].
  assert (E : block_at m (inode_at (img s) i) (n / 512) = b).
  { rewrite Hk, (block_of m (daddrs (inode_at (img s) i)) (ly_bl l) (ly_ind l)); [by apply nth_lookup_Some| |done|by eapply lookup_lt_Some].
    eapply addrs_ext; [exact A1|]. intros x Hx. specialize (A4 x Hx). by rewrite Hm by lia. }
  split; [done|]. split.
  { intros H12. rewrite (addrs_ind _ _ _ _ A1). apply A4. unfold owned. rewrite decide_False by dlia. apply elem_of_app. right. left. }
  unfold byte_at. rewrite E, Hm, (A2 k b Hb) by lia. cbn [default from_option id]. rewrite (nth_lookup_Some _ _ _ _ (blk_lookup _ _ _ Hlt)). f_equal. lia.
Qed.

(** [balloc] over the files' image. *)
Lemma balloc_image s fs : holds s fs -> exists s', balloc (usedblocks s) s = Ret (tt, s') /\ image (img s') fs.
Proof.
  intros (L & HW & ->). pose proof HW as [[S1 S5 S0 S2 S3 S4] W2 W3 W4]. unfold balloc. set (u := usedblocks s) in *.
  unfold assert. rewrite (proj2 (Z.ltb_lt u (512 * 8))) by lia. mnext. eexists. split; [reflexivity|]. cbn [img set_img].
  destruct (set_bits_ok (Z.to_nat u) 0 (replicate 512 0)) as [Hlen Hbits]; [done|lia|lia|]. set (bm := set_bits _ _ _) in *. change (Mkfs.ninodes / IPB + 3) with 28.
  set (m := <[28 := bm]> (img s)). assert (Hm : forall b, b <> 28 -> m !! b = img s !! b) by (intros b Hb; by apply lookup_insert_ne).
  assert (Hino : forall j, 0 <= j < 200 -> inode_at m j = inode_at (img s) j) by (intros j Hj; unfold inode_at; pose proof (i2b_range j Hj); by rewrite Hm by lia).
  assert (Hbit : forall b, 0 <= b < 4096 -> bit_set bm b = (b <? u)).
  { intros b Hb. rewrite Hbits, bit_set_zeros by lia. destruct (Z.ltb_spec b u); [by rewrite decide_True by lia|by rewrite decide_False by lia]. }
  assert (Hb28 : default [] (m !! 28) = bm) by (unfold m; by rewrite lookup_insert_eq).
  assert (Hf : forall i f, (ly_file <$> L) !! i = Some f -> exists l, L !! i = Some l /\ ly_file l = f /\ 1 <= i < 200 /\ laid s i l /\ inode_at m i = inode_at (img s) i).
  { intros i f Hi. rewrite lookup_fmap in Hi. destruct (L !! i) as [l|] eqn:El; [|done]. injection Hi as <-. pose proof (W3 i l El) as B. pose proof (la_inum _ _ _ B). exists l. split_and!; [done|done|lia|lia|done|apply Hino; lia]. }
  split; [by apply sectors_put|intros b; unfold m; rewrite lookup_insert_is_Some'; intros [<-|Hb]; [lia|by apply S5]|by rewrite Hm| | | | | | |].
  - intros i f Hi. destruct (Hf i f Hi) as (l & _ & <- & Hr & B & ->). by destruct B.
  - intros i f Hi. destruct (Hf i f Hi) as (l & _ & <- & Hr & B & _). pose proof (aa_max _ _ _ _ (fo_addrs _ _ _ _ _ (la_file _ _ _ B))). pose proof (la_count _ _ _ B) as Hc. unfold nblk in Hc. dlia.
  - intros i f n Hi Hn. destruct (Hf i f Hi) as (l & El & <- & Hr & B & ->). by destruct (held_block s L i l m n HW El ltac:(intros b ?; apply Hm; lia) Hn) as (b & _ & _ & _ & _ & E).
  - intros i f n Hi Hn. destruct (Hf i f Hi) as (l & El & <- & Hr & B & ->). destruct (held_block s L i l m n HW El ltac:(intros b ?; apply Hm; lia) Hn) as (b & _ & Hb & -> & _ & _).
    rewrite Hb28. split; [lia|]. rewrite Hbit by lia. apply Z.ltb_lt. lia.
  - intros i f n Hi Hn H12. destruct (Hf i f Hi) as (l & El & <- & Hr & B & ->). destruct (held_block s L i l m n HW El ltac:(intros b ?; apply Hm; lia) Hn) as (b & _ & _ & _ & H29 & _). specialize (H29 H12). lia.
  - intros i j f g n k Hi Hj Hne Hn Hk. destruct (Hf i f Hi) as (l & El & <- & Hr & B & ->). destruct (Hf j g Hj) as (l' & El' & <- & Hr' & B' & ->).
    destruct (held_block s L i l m n HW El ltac:(intros b ?; apply Hm; lia) Hn) as (b & Hb & _ & -> & _). destruct (held_block s L j l' m k HW El' ltac:(intros x ?; apply Hm; lia) Hk) as (b' & Hb' & _ & -> & _).
    intros ->. by apply (W4 i j l l' b').
  - exists u. split; [lia|]. by rewrite Hb28.
Qed.

Lemma zero_sectors_ok n i s : exists m, zero_sectors n i s = Ret (tt, set_img m s) /\
  forall b, m !! b = if decide (i <= b < i + Z.of_nat n) then Some (replicate 512 0) else img s !! b.
Proof.
  revert i s. induction n as [|n IH]; intros i s; cbn [zero_sectors].
  - exists (img s). split; [by destruct s|]. intros b. by rewrite decide_False by lia.
  - unfold wsect. mnext. destruct (IH (i + 1) (set_img (<[i := replicate 512 0]> (img s)) s)) as (m & E & Hm). exists m. split; [done|]. intros b. rewrite Hm. cbn [img set_img].
    destruct (decide (b = i)) as [->|]; [by rewrite lookup_insert_eq, decide_False, decide_True by lia|].
    rewrite lookup_insert_ne by done. destruct (decide (i + 1 <= b < i + 1 + Z.of_nat n)), (decide (i <= b < i + Z.of_nat (S n))); lia || done.
Qed.
Lemma zero_inode m j : m !! i2b j = Some (replicate 512 0) -> 0 <= j < 200 -> inode_at m j = mkDin 0 0 0 0 0 (replicate 13 0).
Proof.
  intros Hm Hj. unfold inode_at. rewrite Hm. cbn [default from_option id]. destruct (i2b_range j Hj) as (_ & H1 & H2).
  assert (E : part (j mod IPB * 64) 64 (replicate 512 0) = replicate 64 0) by (unfold part; rewrite drop_replicate, take_replicate; f_equal; lia).
  rewrite E. reflexivity.
Qed.
(** [mkfs]: no files. *)
Lemma mkfs_ok : exists s, mkfs start = Ret (tt, s) /\ holds s ∅ /\ freeblock s = 29 /\ freeinode s = 1.
Proof.
  unfold mkfs, start. do 3 mnext. cbn [usedblocks set_usedblocks set_freeblock]. unfold bitblocks, assert.
  change (Mkfs.ninodes / IPB + 3 + (size / (512 * 8) + 1)) with 29. change (nblocks + 29) with 1024. change (1024 =? size) with true. cbv iota. mnext.
  unfold set_freeblock, set_usedblocks. cbn [img freeblock usedblocks freeinode].
  destruct (zero_sectors_ok (Z.to_nat 1024) 0 {| img := ∅; freeblock := 29; usedblocks := 29; freeinode := 1 |}) as (m & E & Hm).
  mstep E. clear E. unfold wsect. eexists. split; [reflexivity|]. cbn [img set_img freeblock freeinode]. split; [|done]. fold super_bytes.
  rewrite Z2Nat.id in Hm by lia.
  assert (Hz : forall b, 0 <= b < 1024 -> m !! b = Some (replicate 512 0)) by (intros b Hb; by rewrite Hm, decide_True by lia).
  exists ∅. split; [|by rewrite fmap_empty]. split; cbn [img freeblock freeinode usedblocks set_img]; [|lia|intros i l Hl; by rewrite lookup_empty in Hl|intros i j l l' x Hl; by rewrite lookup_empty in Hl].
  split; cbn [img freeblock freeinode usedblocks set_img]; [| |by rewrite lookup_insert_eq|lia|done|].
  - intros b Hb. destruct (decide (b = 1)) as [->|]; [rewrite lookup_insert_eq; by eexists|]. rewrite lookup_insert_ne, Hz by done. by eexists.
  - intros b. rewrite lookup_insert_is_Some'. intros [<-|[x Hx]]; [lia|]. rewrite Hm in Hx. destruct (decide (0 <= b < 0 + 1024)); [lia|]. cbn [img] in Hx. by rewrite lookup_empty in Hx.
  - intros b Hb. rewrite lookup_insert_ne by lia. apply Hz. lia.
Qed.

Lemma mkfs_tree es : fits es 32 = true -> 1 + inodes es < 200 -> 29 + cost 32 + space es 32 <= 1024 ->
  exists s fs, main (Some es) start = Ret (0, s) /\ image (img s) fs /\
    fs !! 1 = Some (dir_file (dots_bytes 1 1 ++ dir_bytes (entries es 2))) /\ shows fs es 1 2.
Proof.
  intros Hf Hi Hs. unfold main. pose proof (inodes_pos es). pose proof (space_pos es 32 ltac:(lia)). destruct mkfs_ok as (s0 & E0 & HH0 & Hb0 & Hi0). mstep E0.
  destruct (holds_alloc T_DIR s0 ∅ HH0) as (s1 & E1 & HH1 & Hb1 & Hi1); [unfold T_DIR; lia|lia|]. rewrite Hi0 in *. mstep E1. unfold assert. change (1 =? ROOTINO) with true. cbv iota. mnext.
  unfold add_dir. destruct (dots_ok 1 1 s1 _ HH1 (lookup_insert_eq _ _ _)) as (s2 & E2 & HH2 & Hb2 & Hi2); [lia|]. rewrite bind_assoc. mstep E2. rewrite insert_insert_eq in HH2.
  destruct (add_entries_ok es s2 _ 1 (dots_bytes 1 1) HH2) as (s3 & fs & E3 & [A1 A2 A3 A4 A5 A6]); rewrite ?zlen_dots; [apply lookup_insert_eq|done|lia..|].
  mstep E3. change (negb (0 =? 0)) with false. rewrite Hi2, Hi1 in *. cbv iota. mnext. destruct (balloc_image s3 fs A1) as (s4 & E4 & HI). mstep E4.
  by exists s4, fs.
Qed.

(** C16: [mkfs] of a host directory whose entries all open and fit (71680 bytes a
    file, 199 inodes, 995 blocks) exits with 0 and leaves a whole image:
    sector 1 has the superblock, every file of the tree is in the inode its
    directory entry names with its bytes, its size and its type, a directory is
    ["."], [".."] and its entries in the host's order, inode 1 is the root, no two files
    share a block and the bitmap marks their blocks and no block past the last. *)
Theorem mkfs_writes_tree es : fits es 32 = true -> 1 + inodes es < 200 -> 29 + cost 32 + space es 32 <= 1024 ->
  exists s fs, main (Some es) start = Ret (0, s) /\ image (img s) fs /\
    fs !! 1 = Some (dir_file (dots_bytes 1 1 ++ dir_bytes (entries es 2))) /\ shows fs es 1 2.
Proof. apply mkfs_tree. Qed.

(** A file and a directory with a file in it. *)
Definition demo_host : hentries :=
  HEntry dot (HDir HEnd) (HEntry [97] (HFile [[104; 105]; [10]]) (HEntry [100] (HDir (HEntry [98] (HFile [replicate 512 120; [121]]) HEnd)) HEnd)).
Lemma mkfs_writes_tree_witness : exists s fs, main (Some demo_host) start = Ret (0, s) /\ image (img s) fs /\
  fs !! 1 = Some (dir_file (dots_bytes 1 1 ++ dir_bytes (entries demo_host 2))) /\ shows fs demo_host 1 2.
Proof. apply (mkfs_writes_tree demo_host); [reflexivity|reflexivity|]. unfold demo_host. vm_compute. discriminate. Defined.
