(* ===== verification/MkfsBoot.v ===== *)
(** The kernel on an image [mkfs] wrote: a path of the host's directory is found
    and its file read, byte for byte. *)
From S2P Require Import Prelude Bytes BlockDev CString Bio BioSpec Fs FsSpec FsRw FsDemo FsPath FsTree Mkfs MkfsImg MkfsSpec.
Import Fs.
Import Mkfs.

(** ** An image as a volume *)

(** Drive [d] has the image. *)
Definition on_drive (d : Z) (m : gmap Z (list Z)) (F : flat) : Prop := forall b, BlockDev.disk F !! (d, b) = m !! b.

(** A file's blocks to the end of the last. *)
Definition padded (x : list Z) : list Z := x ++ replicate (Z.to_nat (nblk (zlen x) * 512 - zlen x)) 0.
Lemma zlen_padded x : zlen (padded x) = nblk (zlen x) * 512.
Proof. unfold padded. rewrite zlen_app. unfold zlen at 2. rewrite length_replicate. pose proof (zlen_nonneg x). unfold nblk in *. dlia. Qed.
Lemma padded_nth x n : nth n (padded x) 0 = nth n x 0.
Proof.
  unfold padded. destruct (decide (n < length x)%nat); [by rewrite app_nth1|]. rewrite (nth_overflow x) by lia. rewrite app_nth2 by lia.
  destruct (decide (n - length x < Z.to_nat (nblk (zlen x) * 512 - zlen x))%nat); [|apply nth_overflow; rewrite length_replicate; lia].
  apply nth_lookup_Some. by apply lookup_replicate_2.
Qed.
Definition vfile_of (f : afile) : vfile := mkV (af_type f) (padded (af_data f)) (af_size f).

(** The files the kernel can use whole: a directory's size ends in its last block. *)
Definition usable (f : afile) : Prop :=
  (af_type f = T_DIR \/ af_type f = T_FILE) /\ 0 <= af_size f < 2 ^ 31 /\ (af_type f = T_DIR -> dir_whole (vfile_of f)).
#[global] Instance usable_dec f : Decision (usable f).
Proof. unfold usable, dir_whole. apply _. Defined.
Definition volume_of (fs : gmap Z afile) : gmap Z vfile := vfile_of <$> filter (fun p => usable p.2) fs.

Lemma volume_lookup fs n f : volume_of fs !! n = Some f <-> exists a, fs !! n = Some a /\ usable a /\ f = vfile_of a.
Proof.
  unfold volume_of. rewrite lookup_fmap_Some. split.
  - intros (a & <- & [Ha Hu]%map_lookup_filter_Some). by exists a.
  - intros (a & Ha & Hu & ->). exists a. split; [done|]. by apply map_lookup_filter_Some.
Qed.

(** The inode the kernel loads is the one [mkfs] wrote. *)
Lemma loaded_inode d m F i : on_drive d m F -> 0 <= inum i < 200 -> dev i = d -> loaded F i ->
  type i = s16 (dtype (inode_at m (inum i))) /\ nlink i = s16 (dnlink (inode_at m (inum i))) /\ isize i = dsize (inode_at m (inum i)) /\ addrs i = daddrs (inode_at m (inum i)).
Proof.
  intros Hon Hn <- (x & Hx & E). destruct (i2b_range (inum i) Hn) as (H1 & H2 & H3). change (IBLOCK (inum i)) with (i2b (inum i)) in Hx. rewrite Hon in Hx.
  pose proof (f_equal type E) as E1. pose proof (f_equal nlink E) as E2. pose proof (f_equal isize E) as E3. pose proof (f_equal addrs E) as E4.
  unfold load_dinode, dinode_off in *. cbn [type nlink isize addrs] in *. rewrite <- E1, <- E2, <- E3, <- E4. clear E E1 E2 E3 E4.
  unfold inode_at. rewrite Hx. cbn [default from_option id]. unfold decode. cbn [dtype dnlink dsize daddrs].
  rewrite !half_part by lia. unfold word. rewrite part_part by lia. rewrite words_part by lia. by rewrite Z.add_0_r.
Qed.
Lemma lookup_block d m F i k : on_drive d m F -> 0 <= inum i < 200 -> dev i = d -> loaded F i -> type i <> T_EXTENT -> 0 <= k < 140 ->
  block_at m (inode_at m (inum i)) k <> 0 -> (12 <= k -> nth 12 (daddrs (inode_at m (inum i))) 0 <> 0) -> file_lookup F i k = Some (block_at m (inode_at m (inum i)) k).
Proof.
  intros Hon Hn Hd Hl Ht Hk Hb Hi. destruct (loaded_inode d m F i Hon Hn Hd Hl) as (_ & _ & _ & Ea). unfold file_lookup. rewrite (proj2 (Z.eqb_neq _ _) Ht).
  unfold table_lookup, addr_at. rewrite Ea, Hd. change (Z.to_nat NDIRECT) with 12%nat. cbv zeta. rewrite !Hon. unfold block_at in *. rewrite (proj2 (Z.ltb_lt k MAXFILE)) by (unfold MAXFILE, NDIRECT, NINDIRECT; lia).
  unfold NDIRECT in *. destruct (Z.ltb_spec k 12).
  - by rewrite (proj2 (Z.eqb_neq _ _) Hb).
  - specialize (Hi ltac:(lia)). destruct (m !! nth 12 (daddrs (inode_at m (inum i))) 0) as [a|]; cbn [default from_option id] in *.
    + by rewrite (proj2 (Z.eqb_neq _ _) Hb), (proj2 (Z.eqb_neq _ _) Hi).
    + exfalso. apply Hb. unfold word, part. by rewrite drop_nil, take_nil.
Qed.

(** Each file of the image is a file of the volume. *)
Lemma image_file d m fs F n f : image m fs -> on_drive d m F -> opened F = ∅ -> volume_of fs !! n = Some f -> file_at d F n f.
Proof.
  intros HI Hon Ho Hn. apply volume_lookup in Hn as (a & Ha & (Hk & Hsz & Hdir) & ->). destruct (im_inode _ _ HI n a Ha) as (Hr & Ht & Hnl & Hs). pose proof (im_size _ _ HI n a Ha) as Hmax.
  pose proof (zlen_nonneg (af_data a)) as H0. split; cbn [vtype vdata vsize vfile_of].
  - rewrite Hon. destruct (im_sectors _ _ HI (IBLOCK n)) as (x & -> & _); [unfold IBLOCK, IPB; dlia|by eexists].
  - intros i Hd Hi Hl. destruct (loaded_inode d m F i Hon ltac:(lia) Hd Hl) as (E1 & E2 & E3 & _). rewrite Hi in *. rewrite E1, E2, E3, Ht, Hnl, Hs.
    assert (Hst : s16 (af_type a) = af_type a) by (by destruct Hk as [-> | ->]). rewrite Hst. split; [done|]. split; [done|]. split; [done|].
    assert (Hb : forall p, 0 <= p < zlen (padded (af_data a)) -> exists b x, file_lookup F i (p / BSIZE) = Some b /\ BlockDev.disk F !! (d, b) = Some x /\ length x = 512%nat /\
      x !! Z.to_nat (p mod BSIZE) = Some (nth (Z.to_nat p) (padded (af_data a)) 0)).
    { intros p Hp. rewrite zlen_padded in Hp. assert (Hw : within a p) by (unfold within, nblk in *; dlia). destruct (im_blocks _ _ HI n a p Ha Hw) as [Hbr _].
      pose proof (im_bytes _ _ HI n a p Ha Hw) as Hby. unfold BSIZE. eexists. rewrite <- Hi in *. rewrite (lookup_block d m F i (p / 512)); [|done|lia|done|done| |unfold nblk in *; dlia|lia|].
      - destruct (im_sectors _ _ HI (block_at m (inode_at m (inum i)) (p / 512))) as (x & Hx & Hlx); [lia|]. exists x. rewrite Hon, Hx. split; [done|]. split; [done|]. split; [done|].
        rewrite padded_nth, <- Hby. unfold byte_at. rewrite Hx. cbn [default from_option id]. destruct (lookup_lt_is_Some_2 x (Z.to_nat (p mod 512))) as [v Hv]; [dlia|]. by rewrite Hv, (nth_lookup_Some _ _ _ _ Hv).
      - rewrite E1, Ht, Hst. by destruct Hk as [-> | ->].
      - intros H12. pose proof (im_indirect _ _ HI (inum i) a p Ha Hw H12). lia. }
    split.
    + intros p Hp. destruct (Hb p) as (b & x & H1 & H2 & H3 & _); [lia|]. exists b, x. split_and!; [done..|by apply not_open_empty].
    + apply list_eq_same_length with (n := length (padded (af_data a))); [done|by rewrite length_rbytes; unfold zlen; lia|]. intros j u v Hj.
      replace j with (Z.to_nat (Z.of_nat j)) at 1 by lia. rewrite rbytes_lookup by (unfold zlen; lia). intros Hu Hv. injection Hu as <-. rewrite Z.add_0_l.
      destruct (Hb (Z.of_nat j)) as (b & x & H1 & H2 & H3 & H4); [unfold zlen; lia|]. unfold rbyte. rewrite H1. cbn. rewrite H2. cbn. rewrite H4, Nat2Z.id. cbn. by apply nth_lookup_Some.
  - by destruct Hk as [-> | ->].
  - done.
  - rewrite zlen_padded. dlia.
  - done.
Qed.

(** ** Names *)

(** The first entry with a name, cut as names are on the disk. *)
Fixpoint ent_find (l : list (Z * list Z)) (e : list Z) : option Z :=
  match l with
  | [] => None
  | (n, name) :: l => if bool_decide (take 14 name = e) then Some n else ent_find l e
  end.
Definition ent_ok (p : Z * list Z) : Prop := 0 < p.1 < 65536 /\ Forall (fun c => c <> 0) p.2.

Lemma cstring_pad name : Forall (fun c => c <> 0) name -> cstring 14 (pad_name name) = take 14 name.
Proof.
  intros Hn. unfold pad_name. destruct (decide (length name < 14)%nat) as [Hl|Hl].
  - rewrite take_app, (take_ge name) by lia. rewrite take_replicate. replace (14 - length name)%nat with (S (13 - length name)) by lia.
    rewrite Nat.min_l by lia. change (replicate (S (13 - length name)) 0) with ([0] ++ replicate (13 - length name) 0). apply cstring_short; [done|lia].
  - rewrite take_app_le by lia. rewrite <- (app_nil_r (take 14 name)). rewrite cstring_long by (done || lia). by rewrite app_nil_r.
Qed.
Lemma find_dirents l : forall pre post z e n, Forall ent_ok l -> ent_find l e = Some n ->
  exists o, find_ent (length l + z) (pre ++ dir_bytes l ++ post) e (zlen pre) = Some (o, n).
Proof.
  induction l as [|[i name] l IH]; intros pre post z e n Hok Hf; [done|]. apply Forall_cons in Hok as [[Hi Hname] Hok]. cbn [fst snd] in Hi, Hname. cbn [length Nat.add find_ent ent_find] in *.
  assert (Hln : zlen (pad_name name) = 14) by (pose proof (zlen_dirent i name) as E; unfold dirent in E; rewrite zlen_app, zlen_to_le in E; lia).
  assert (Eb : pre ++ dir_bytes ((i, name) :: l) ++ post = pre ++ to_le 2 i ++ pad_name name ++ dir_bytes l ++ post).
  { unfold dir_bytes. cbn [fmap list_fmap]. change (mjoin (?x :: ?y)) with (x ++ mjoin y). cbn [fst snd]. unfold dirent. by rewrite <- !app_assoc. }
  rewrite Eb. set (x := pre ++ to_le 2 i ++ pad_name name ++ dir_bytes l ++ post).
  assert (Hh : half x (zlen pre) = i).
  { unfold half, x. change 2 with (zlen (to_le 2 i)) at 1. rewrite part_mid. apply le_to_le. lia. }
  assert (Hp : part (zlen pre + 2) 14 x = pad_name name).
  { unfold x. rewrite (app_assoc pre). replace (zlen pre + 2) with (zlen (pre ++ to_le 2 i)) by (rewrite zlen_app, zlen_to_le; lia). rewrite <- Hln. apply part_mid. }
  rewrite Hh, Hp, cstring_pad, (proj2 (Z.eqb_neq i 0)) by (done || lia). cbn [negb andb]. destruct (bool_decide (take 14 name = e)).
  - injection Hf as <-. by eexists.
  - unfold x. replace (pre ++ to_le 2 i ++ pad_name name ++ dir_bytes l ++ post) with ((pre ++ dirent i name) ++ dir_bytes l ++ post) by (unfold dirent; by rewrite <- !app_assoc).
    replace (zlen pre + 16) with (zlen (pre ++ dirent i name)) by (rewrite zlen_app, zlen_dirent; lia). by apply IH.
Qed.
Lemma zlen_dir_bytes l : zlen (dir_bytes l) = 16 * zlen l.
Proof.
  induction l as [|p l IH]; [done|]. unfold dir_bytes in *. cbn [fmap list_fmap]. change (mjoin (?x :: ?y)) with (x ++ mjoin y). rewrite zlen_app, IH, zlen_dirent. unfold zlen. cbn [length]. lia.
Qed.
(** In a whole directory. *)
Lemma dir_find_entries l e n : Forall ent_ok l -> ent_find l e = Some n -> exists o, dir_find (padded (dir_bytes l)) e = Some (o, n).
Proof.
  intros Hok Hf. unfold dir_find. pose proof (zlen_dir_bytes l) as Hz.
  assert (exists z, Z.to_nat (zlen (padded (dir_bytes l)) / 16) = (length l + z)%nat) as (z & ->).
  { exists (Z.to_nat (zlen (padded (dir_bytes l)) / 16) - length l)%nat. rewrite zlen_padded. unfold nblk, zlen in *. dlia. }
  unfold padded. destruct (find_dirents l [] (replicate (Z.to_nat (nblk (zlen (dir_bytes l)) * 512 - zlen (dir_bytes l))) 0) z e n Hok Hf) as (o & E). exists o. exact E.
Qed.

(** ** The host's tree *)

(** What a name of a host directory is, as far as 14 bytes tell. *)
Fixpoint host_lookup (es : hentries) (e : list Z) : option hnode :=
  match es with
  | HEntry name nd rest => if negb (is_dots name) && bool_decide (take 14 name = e) then Some nd else host_lookup rest e
  | _ => None
  end.
Fixpoint host_walk (nd : hnode) (path : list (list Z)) : option hnode :=
  match path with
  | [] => Some nd
  | c :: path => match nd with HDir es => nd' ← host_lookup es (take 14 c); host_walk nd' path | _ => None end
  end.
(** Names without NUL bytes; no directory's entries fill its last block. *)
Fixpoint names_ok (es : hentries) : Prop :=
  match es with
  | HEntry name nd rest => Forall (fun c => c <> 0) name /\ match nd with HDir es' => names_ok es' /\ zlen (entries es' 0) mod 32 <> 30 | _ => True end /\ names_ok rest
  | _ => True
  end.
Definition node_ok (nd : hnode) : Prop := match nd with HDir es => names_ok es /\ zlen (entries es 0) mod 32 <> 30 | _ => True end.

Lemma entries_count es n m : length (entries es n) = length (entries es m).
Proof.
  revert n m. induction es as [| |name nd rest Hn Hr] using entries_ind; intros n m; cbn [entries]; [done|done|]. destruct (is_dots name); [apply Hr|]. cbn [length]. f_equal. apply Hr.
Qed.

Section Tree.
Context (fs : gmap Z afile) (Hdom : forall i f, fs !! i = Some f -> 1 <= i < 200 /\ zlen (af_data f) <= 71680).

Lemma shown_dom nd cur n : node_shows fs nd cur n -> 1 <= n < 200.
Proof using Hdom. intros Hs. destruct nd as [reads|es| |]; cbn in Hs; [by eapply Hdom|destruct Hs as [Hs _]; by eapply Hdom|by eapply Hdom|done]. Qed.
Lemma entries_ok es : forall cur next, names_ok es -> shows fs es cur next -> Forall ent_ok (entries es next).
Proof using Hdom.
  induction es as [| |name nd rest Hn Hr] using entries_ind; intros cur next Hok Hs; cbn [entries names_ok shows] in *; [done|done|]. destruct Hok as (Hname & _ & Hok).
  destruct (is_dots name); [by eapply Hr|]. destruct Hs as [Hs Hs2]. apply (shown_dom nd cur) in Hs. constructor; [split; [cbn; lia|done]|by eapply Hr].
Qed.
Lemma lookup_entry es e nd : forall cur next, names_ok es -> shows fs es cur next -> host_lookup es e = Some nd ->
  exists m, ent_find (entries es next) e = Some m /\ node_shows fs nd cur m /\ node_ok nd.
Proof using.
  induction es as [| |name nd' rest Hn Hr] using entries_ind; intros cur next Hok Hs Hl; cbn [entries names_ok shows host_lookup] in *; [done|done|]. destruct Hok as (Hname & Hnd & Hok).
  destruct (is_dots name); [by apply (Hr cur next)|]. destruct Hs as [Hs Hs2]. cbn [negb andb ent_find] in *. destruct (bool_decide (take 14 name = e)); [|by eapply Hr].
  injection Hl as ->. by exists next.
Qed.
Lemma not_dots_cut c : is_dots c = false -> take 14 c <> dot /\ take 14 c <> dotdot.
Proof using.
  unfold is_dots. intros Hc. apply orb_false_iff in Hc as [H1%bool_decide_eq_false H2%bool_decide_eq_false]. destruct (decide (length c <= 14)%nat) as [Hl|Hl].
  - by rewrite take_ge by lia.
  - split; intros E; apply (f_equal length) in E; rewrite length_take in E; unfold dot, dotdot in E; cbn [length] in E; lia.
Qed.

(** The kernel's walk follows the host's. *)
Lemma walk_host path : forall nd cur n nd', 1 <= cur < 200 -> node_shows fs nd cur n -> node_ok nd -> Forall (fun c => is_dots c = false) path -> host_walk nd path = Some nd' ->
  exists m cur', walk (volume_of fs) n path = Some m /\ node_shows fs nd' cur' m.
Proof using Hdom.
  induction path as [|c path IH]; intros nd cur n nd' Hcur Hs Hok Hp Hw; cbn [host_walk walk] in *; [injection Hw as <-; by exists n, cur|]. destruct nd as [|es| |]; try done.
  apply Forall_cons in Hp as [Hc Hp]. destruct (host_lookup es (take 14 c)) as [nd1|] eqn:El; [|done]. cbn [mbind option_bind] in Hw. destruct Hs as [Hfn Hs]. destruct Hok as [Hnames Hfull].
  destruct (Hdom _ _ Hfn) as [Hn1 Hmax]. cbn [af_data dir_file] in Hmax.
  destruct (lookup_entry es (take 14 c) nd1 n (n + 1) Hnames Hs El) as (m & Hm & Hs1 & Hok1). destruct (IH nd1 n m nd' Hn1 Hs1 Hok1 Hp Hw) as (m' & cur' & Hw' & Hs'). exists m', cur'. split; [|done].
  set (l := (n, dot) :: (cur, dotdot) :: entries es (n + 1)). assert (Ed : dots_bytes n cur ++ dir_bytes (entries es (n + 1)) = dir_bytes l).
  { unfold l, dots_bytes, dir_bytes. cbn [fmap list_fmap]. rewrite <- app_assoc. done. }
  rewrite Ed in *.
  assert (Hz : zlen (dir_bytes l) = 32 + 16 * zlen (entries es 0)) by (rewrite zlen_dir_bytes; unfold l, zlen; cbn [length]; rewrite (entries_count es (n + 1) 0); lia).
  assert (Hv : volume_of fs !! n = Some (vfile_of (dir_file (dir_bytes l)))).
  { apply volume_lookup. eexists. split; [exact Hfn|]. split; [|done]. split; [by left|]. cbn [af_size dir_file]. pose proof (zlen_nonneg (dir_bytes l)). split; [dlia|]. intros _.
    unfold dir_whole. cbn [vfile_of vdata vsize af_data af_size dir_file]. rewrite zlen_padded. unfold nblk. dlia. }
  rewrite Hv. cbn [mbind option_bind vfile_of vtype af_type dir_file vdata af_data]. change (T_DIR =? T_DIR) with true. cbv iota.
  destruct (not_dots_cut c Hc) as [Hd1 Hd2]. assert (Hlf : ent_find l (take 14 c) = Some m).
  { unfold l. cbn [ent_find]. rewrite !bool_decide_false by (intros E; first [apply Hd1|apply Hd2]; rewrite <- E; done). done. }
  assert (Hlok : Forall ent_ok l).
  { unfold l. constructor; [split; [cbn; lia|by repeat constructor]|]. constructor; [|by eapply entries_ok]. split; [|by repeat constructor]. cbn [fst]. lia. }
  destruct (dir_find_entries l (take 14 c) m Hlok Hlf) as (o & ->). done.
Qed.
End Tree.

(** ** The kernel *)

Section Kernel.
Context {K : Type} `{BlockLaws K} `{!DevSw K}.

(** The kernel after boot, with the image [m] in its root drive: no inode is in
    use. *)
Record fresh (m : gmap Z (list Z)) (F : flat) (s : fstate K) : Prop := {
  fr_at : at_ s F;
  fr_drive : on_drive ROOTDEV m F;
  fr_calm : opened F = ∅;
  fr_lock : icache_lock s = false;
  fr_free : Forall (fun i => ref i = 0) (icache s);
  fr_room : 2 <= zlen (icache s)
}.
Lemma fresh_calm m F s : fresh m F s -> calm ROOTDEV F (ref <$> icache s) (cwd s) None [] s /\ room_ok (ref <$> icache s) 2.
Proof.
  intros [H1 H2 H3 H4 H5 H6]. assert (Hz : forall k i, zget (icache s) k = Some i -> ref i = 0).
  { intros k i Hi. rewrite Forall_forall in H5. by eapply H5, zget_elem_of. }
  assert (Hf : forall k, 0 <= k < zlen (icache s) -> zget (ref <$> icache s) k = Some 0).
  { intros k Hk. destruct (zget_range _ _ Hk) as [i Hi]. rewrite zget_fmap, Hi. cbn. by rewrite (Hz k i Hi). }
  split; [split|split].
  - done.
  - done.
  - unfold zlen. by rewrite length_fmap.
  - done.
  - intros k i Hi _ Hp. rewrite (Hz k i Hi) in Hp. lia.
  - intros k i b Hi Hb. rewrite zget_fmap, Hi in Hb. injection Hb as <-. change (held [] k) with 0. lia.
  - done.
  - intros b (i & -> & Hi)%list_elem_of_fmap. rewrite Forall_forall in H5. rewrite (H5 i Hi). lia.
  - exists [0; 1]. split; [repeat constructor; rewrite ?list_elem_of_singleton; first [done|by intros ?%elem_of_nil]|]. split; [done|]. intros k Hk. apply Hf. apply elem_of_cons in Hk as [->| ->%list_elem_of_singleton]; lia.
Qed.

Lemma part_padded off k x : 0 <= off -> 0 <= k -> off + k <= zlen x -> part off k (padded x) = part off k x.
Proof.
  intros Ho Hk Hx. unfold part, padded, zlen in *. rewrite drop_app_le by lia. rewrite take_app_le; [done|]. rewrite length_drop. lia.
Qed.

(** C5: From the host's directory to the kernel's [read]: on the image that [mkfs]
    writes of a tree, the freshly booted kernel's [namei] finds each file of the
    tree by its path from the root, and [ilock] and [readi] then give any
    range of the bytes the host's [read] returned.  (No directory whose
    entries fill its last block is on the way, and paths are not through ["."] or
    [".."].) *)
Theorem kernel_reads_host_file es path reads off k :
  fits es 32 = true -> 1 + inodes es < 200 -> 29 + cost 32 + space es 32 <= 1024 -> node_ok (HDir es) ->
  Forall (fun c => c <> 0) path -> head path = Some slash -> Forall (fun c => is_dots c = false) (components path) ->
  host_walk (HDir es) (components path) = Some (HFile reads) -> 0 <= off -> 0 <= k -> off + k <= zlen (mjoin reads) ->
  exists im, main (Some es) start = Ret (0, im) /\ forall s F nm, fresh (img im) F s -> length nm = 14%nat ->
    exists s', (ip ← namei path nm; ilock ip;; readi (default 0 ip) off k) s = Ret ((k, part off k (mjoin reads)), s') /\ at_ s' F.
Proof.
  intros Hf Hi Hs Hok Hp Hsl Hnd Hw Ho Hk Hr. destruct (mkfs_tree es Hf Hi Hs) as (im & fs & E & HI & Hroot & Hsh). exists im. split; [exact E|]. clear E. intros s F nm Hfr Hnm.
  destruct (fresh_calm _ _ _ Hfr) as [C Hroom]. assert (Hdom : forall i f, fs !! i = Some f -> 1 <= i < 200 /\ zlen (af_data f) <= 71680).
  { intros i f Hif. split; [by eapply im_inode|by eapply im_size]. }
  destruct (walk_host fs Hdom (components path) (HDir es) 1 1 (HFile reads)) as (m & cur & Hwk & Hm); [lia|by split|done|done|done|]. cbn [node_shows] in Hm.
  destruct (Hdom _ _ Hm) as [_ Hmax]. cbn [af_data] in Hmax. pose proof (zlen_nonneg (mjoin reads)).
  destruct (read_path ROOTDEV (volume_of fs) F (ref <$> icache s) (cwd s) 2 Hroom ltac:(intros n f; by eapply image_file; [exact HI|apply Hfr|apply Hfr]) (fr_calm _ _ _ Hfr) s 1 m path nm
    (vfile_of (mkAf T_FILE (mjoin reads) (zlen (mjoin reads)))) off k) as (s' & E' & A); [lia|exact C| | |done|done|exact Hwk| |done|done|done|done| |].
  - unfold starts. rewrite (bool_decide_true _ Hsl). by split.
  - intros _. destruct (components path) as [|c cs]; [by cbn in Hw|]. cbn [walk] in Hwk. destruct (volume_of fs !! 1); [by eexists|done].
  - apply volume_lookup. eexists. split; [exact Hm|]. split; [|done]. split; [by right|]. cbn [af_size af_type]. split; [lia|done].
  - cbn [vfile_of vdata af_data]. rewrite zlen_padded. unfold nblk. dlia.
  - exists s'. split; [|done]. rewrite E'. cbn [vfile_of vdata af_data]. by rewrite part_padded.
Qed.
End Kernel.

(** ** Over the buffer cache *)

Import Bio.
Import Fs.
Import Mkfs.

(** The drive and the kernel at boot. *)
Definition drive_of (m : gmap Z (list Z)) : gmap (Z * Z) (list Z) := kmap (pair ROOTDEV) m.
Definition boot_state (m : gmap Z (list Z)) : fstate bstate :=
  mkF (replicate 50 (mkInode 0 0 0 0 0 0 0 0 0 [])) false 0 (booted true (drive_of m)).
Lemma boot_fresh m fs : image m fs -> fresh m (mkFlat (drive_of m) ∅) (boot_state m).
Proof.
  intros HI. split; [|intros b; apply (lookup_kmap (pair ROOTDEV))|done|done|by apply Forall_replicate|done].
  apply booted_shows. intros [d b] [x Hx]. apply (lookup_kmap_Some (pair ROOTDEV)) in Hx as (b' & [= -> ->] & Hx). split; [by right|]. pose proof (im_bound _ _ HI b' ltac:(by eexists)). cbn. lia.
Qed.
(** The file ["/d/b"] across its two blocks. *)
Lemma kernel_reads_host_file_witness : exists im s', main (Some demo_host) start = Ret (0, im) /\
  (ip ← namei (K := bstate) [47; 100; 47; 98] (replicate 14 0); ilock ip;; readi (default 0 ip) 510 3) (boot_state (img im)) = Ret ((3, [120; 120; 121]), s').
Proof.
  destruct (mkfs_tree demo_host) as (im0 & fs & E0 & HI & _); [reflexivity|reflexivity|unfold demo_host; vm_compute; discriminate|].
  destruct (kernel_reads_host_file (K := bstate) demo_host [47; 100; 47; 98] [replicate 512 120; [121]] 510 3) as (im & E & Hk); [reflexivity|reflexivity|unfold demo_host; vm_compute; discriminate| |..].
  - vm_compute. repeat split; try (repeat constructor; discriminate); discriminate.
  - repeat constructor; discriminate.
  - reflexivity.
  - repeat constructor.
  - reflexivity.
  - vm_compute. discriminate.
  - vm_compute. discriminate.
  - vm_compute. discriminate.
  - assert (Eim : im = im0) by (rewrite E in E0; injection E0 as <-; reflexivity). subst im0.
    destruct (Hk (boot_state (img im)) _ (replicate 14 0) (boot_fresh _ _ HI) eq_refl) as (s' & Es & _). exists im, s'. split; [exact E|exact Es].
Defined.
