(* ===== verification/Mp.v ===== *)
(** The multiprocessor tables of the BIOS ([src/5/xv6/mp.c], [mp.h]): finding
    the floating pointer structure, checking the configuration table, counting
    the processors in it.

    Physical memory is a function from addresses to bytes, the messages printed
    are left out, and of the ports only that the interrupt mode register was
    written is kept. *)
From S2P Require Import Prelude Bytes.

Module Mp.

Definition NCPU : Z := 8.
Definition MPPROC : Z := 0.
Definition MPBUS : Z := 1.
Definition MPIOAPIC : Z := 2.
Definition MPIOINTR : Z := 3.
Definition MPLINTR : Z := 4.
Definition MPBOOT : Z := 2.

(** The globals: [cpus] by their ids, [bcpu] as an index. *)
Record mps := mkMps { cpus : list Z; bcpu : Z; ismp : Z; ncpu : Z; ioapicid : Z; lapic : Z; imcr : bool }.
Definition set_cpus v s := mkMps v (bcpu s) (ismp s) (ncpu s) (ioapicid s) (lapic s) (imcr s).
Definition set_bcpu v s := mkMps (cpus s) v (ismp s) (ncpu s) (ioapicid s) (lapic s) (imcr s).
Definition set_ismp v s := mkMps (cpus s) (bcpu s) v (ncpu s) (ioapicid s) (lapic s) (imcr s).
Definition set_ncpu v s := mkMps (cpus s) (bcpu s) (ismp s) v (ioapicid s) (lapic s) (imcr s).
Definition set_ioapicid v s := mkMps (cpus s) (bcpu s) (ismp s) (ncpu s) v (lapic s) (imcr s).
Definition set_lapic v s := mkMps (cpus s) (bcpu s) (ismp s) (ncpu s) (ioapicid s) v (imcr s).
Definition set_imcr v s := mkMps (cpus s) (bcpu s) (ismp s) (ncpu s) (ioapicid s) (lapic s) v.
(** As the loader leaves them. *)
Definition boot : mps := mkMps (replicate 8 0) 0 0 0 0 0 false.

Section Mp.
Variable mem : Z -> Z.

(** A little-endian integer of [n] bytes at [a]. *)
Definition field (n a : Z) : Z := le (mem <$> seqZ a n).

Fixpoint sum_loop (n : nat) (a acc : Z) : Z := match n with O => acc | S n => sum_loop n (a + 1) (s32 (acc + mem a)) end.
Definition sum (addr len : Z) : Z := sum_loop (Z.to_nat len) addr 0 mod 256.
Definition same_bytes (a : Z) (l : list Z) : bool := bool_decide ((mem <$> seqZ a (zlen l)) = l).
Definition MP_ : list Z := [95; 77; 80; 95].
Definition PCMP : list Z := [80; 67; 77; 80].

(** [mpsearch1], [struct mp] being 16 bytes; null is 0. *)
Fixpoint mpsearch1_loop (fuel : nat) (p e : Z) : M mps Z :=
  match fuel with
  | O => no_fuel
  | S fuel =>
      if p <? e then
        if same_bytes p MP_ && (sum p 16 =? 0) then mret p else mpsearch1_loop fuel (u32 (p + 16)) e
      else mret 0
  end.
Definition mpsearch1 (addr len : Z) : M mps Z := mpsearch1_loop (S (Z.to_nat (len / 16))) addr (u32 (addr + len)).

Definition mpsearch : M mps Z :=
  let bda := 0x400 in
  let p := Z.shiftl (Z.lor (Z.shiftl (mem (bda + 0x0F)) 8) (mem (bda + 0x0E))) 4 in
  mp ← (if negb (p =? 0) then mpsearch1 p 1024
        else mpsearch1 (u32 (Z.lor (Z.shiftl (mem (bda + 0x14)) 8) (mem (bda + 0x13)) * 1024 - 1024)) 1024);
  if negb (mp =? 0) then mret mp else mpsearch1 0xF0000 0x10000.

(** [mpconfig]: the structure and the table. *)
Definition mpconfig : M mps (option (Z * Z)) :=
  mp ← mpsearch;
  if (mp =? 0) || (field 4 (mp + 4) =? 0) then mret None
  else
    let conf := field 4 (mp + 4) in
    if negb (same_bytes conf PCMP) then mret None
    else if negb (mem (conf + 6) =? 1) && negb (mem (conf + 6) =? 4) then mret None
    else if negb (sum conf (field 2 (conf + 4)) =? 0) then mret None
    else mret (Some (mp, conf)).

(** The loop over the entries. *)
Fixpoint mpinit_loop (fuel : nat) (p e : Z) : M mps unit :=
  match fuel with
  | O => no_fuel
  | S fuel =>
      if p <? e then
        if mem p =? MPPROC then
          s ← get;
          (if negb (ncpu s =? mem (p + 1)) then modify (set_ismp 0) else mret tt);;
          (if negb (Z.land (mem (p + 3)) MPBOOT =? 0) then modify (set_bcpu (ncpu s)) else mret tt);;
          (if ncpu s <? NCPU then modify (fun s => set_cpus (zset (cpus s) (ncpu s) (ncpu s)) s) else undef "cpus");;
          modify (set_ncpu (s32 (ncpu s + 1)));;
          mpinit_loop fuel (u32 (p + 20)) e
        else if mem p =? MPIOAPIC then
          modify (set_ioapicid (mem (p + 1)));;
          mpinit_loop fuel (u32 (p + 8)) e
        else if (mem p =? MPBUS) || (mem p =? MPIOINTR) || (mem p =? MPLINTR) then mpinit_loop fuel (u32 (p + 8)) e
        else modify (set_ismp 0);; mpinit_loop fuel p e
      else mret tt
  end.
(** A turn that moves at all moves eight bytes. *)
Definition mpinit (fuel : nat) : M mps unit :=
  modify (set_bcpu 0);;
  r ← mpconfig;
  match r with
  | None => mret tt
  | Some (mp, conf) =>
      modify (set_ismp 1);;
      modify (set_lapic (field 4 (conf + 36)));;
      mpinit_loop fuel (u32 (conf + 44)) (u32 (conf + field 2 (conf + 4)));;
      s ← get;
      if ismp s =? 0 then
        modify (set_ncpu 1);; modify (set_lapic 0);; modify (set_ioapicid 0)
      else if negb (mem (mp + 12) =? 0) then modify (set_imcr true) else mret tt
  end.
Definition mpbcpu : M mps Z := s ← get; mret (bcpu s).
End Mp.
End Mp.
