(* ===== verification/MpSpec.v ===== *)
(** The multiprocessor tables: the search finds the first structure there is,
    and the loop over the entries reads the table, or never ends. *)
From S2P Require Import Prelude Bytes Mp.
Import Mp.

Section Mem.
Context (mem : Z -> Z).

(** ** The search *)

Definition is_mp (p : Z) : bool := same_bytes mem p MP_ && (sum mem p 16 =? 0).
Definition paragraphs (addr n : Z) : list Z := (fun k => addr + 16 * k) <$> seqZ 0 n.
Fixpoint find_mp (l : list Z) : Z := match l with p :: l => if is_mp p then p else find_mp l | [] => 0 end.

Lemma find_mp_app l1 l2 : Forall (fun p => 0 < p) l1 -> find_mp (l1 ++ l2) = if find_mp l1 =? 0 then find_mp l2 else find_mp l1.
Proof.
  intros HF. induction HF as [|p l Hp HF IH]; [done|]. cbn [app find_mp]. destruct (is_mp p); [by rewrite (proj2 (Z.eqb_neq p 0)) by lia|done].
Qed.
Lemma paragraphs_cons addr n : 0 < n -> paragraphs addr n = addr :: paragraphs (addr + 16) (n - 1).
Proof.
  intros Hn. unfold paragraphs. rewrite seqZ_cons by done. cbn [fmap list_fmap]. f_equal; [lia|]. apply list_eq. intros k. rewrite !list_lookup_fmap.
  destruct (decide (Z.of_nat k < n - 1)).
  - rewrite !lookup_seqZ_lt by lia. cbn. f_equal. lia.
  - by rewrite !lookup_seqZ_ge by lia.
Qed.
Lemma mpsearch1_loop_ok n : forall fuel p s, 0 <= p -> p + 16 * Z.of_nat n < 2 ^ 32 -> (n < fuel)%nat ->
  mpsearch1_loop mem fuel p (p + 16 * Z.of_nat n) s = Ret (find_mp (paragraphs p (Z.of_nat n)), s).
Proof.
  induction n as [|n IH]; intros fuel p s Hp Hr Hf; destruct fuel as [|fuel]; try lia; cbn [mpsearch1_loop].
  - rewrite (proj2 (Z.ltb_ge p _)) by lia. done.
  - rewrite (proj2 (Z.ltb_lt p _)) by lia. rewrite paragraphs_cons by lia. cbn [find_mp]. fold (is_mp p). destruct (is_mp p); [done|].
    rewrite u32_small by (unfold in_u32; lia). replace (p + 16 * Z.of_nat (S n)) with (p + 16 + 16 * Z.of_nat n) by lia. rewrite IH by lia.
    do 3 f_equal. f_equal. lia.
Qed.
Lemma mpsearch1_ok addr n s : 0 <= addr -> 0 <= n -> addr + 16 * n < 2 ^ 32 -> mpsearch1 mem addr (16 * n) s = Ret (find_mp (paragraphs addr n), s).
Proof.
  intros Ha Hn Hr. unfold mpsearch1. rewrite u32_small by (unfold in_u32; lia). replace (16 * n / 16) with n by dlia. replace n with (Z.of_nat (Z.to_nat n)) at 2 by lia.
  rewrite mpsearch1_loop_ok by lia. do 3 f_equal. f_equal. lia.
Qed.
Lemma paragraphs_pos addr n : 0 < addr -> Forall (fun p => 0 < p) (paragraphs addr n).
Proof. intros Ha. apply Forall_forall. intros p (k & -> & Hk%elem_of_seqZ)%list_elem_of_fmap. lia. Qed.

(** The two words of the BIOS data area that say where to look. *)
Definition ebda : Z := 16 * (mem 0x40F * 256 + mem 0x40E).
Definition base_kb : Z := mem 0x414 * 256 + mem 0x413.
Definition places : list Z :=
  paragraphs (if ebda =? 0 then 1024 * base_kb - 1024 else ebda) 64 ++ paragraphs 0xF0000 4096.

Lemma join_bytes a b : 0 <= b < 256 -> Z.lor (Z.shiftl a 8) b = a * 256 + b.
Proof.
  intros Hb. rewrite Z.shiftl_mul_pow2 by lia. change (2 ^ 8) with 256. rewrite <- Z.lxor_lor, <- Z.add_nocarry_lxor; [done| |].
  all: apply Z.bits_inj'; intros n Hn; rewrite Z.land_spec, Z.bits_0; change 256 with (2 ^ 8); destruct (decide (n < 8)) as [Hlt|Hge];
    [rewrite Z.mul_pow2_bits_low by done; done|rewrite (Z.bits_above_log2 b), andb_false_r; [done|lia|]];
    (destruct (decide (b = 0)) as [->|]; [cbn; lia|apply Z.log2_lt_pow2; [lia|]; apply Z.lt_le_trans with (2 ^ 8); [lia|apply Z.pow_le_mono_r; lia]]).
Qed.
Context (Hmem : forall a, 0 <= mem a < 256).

(** [mpsearch] returns the first structure of the places the specification
    names, in its order. *)
Lemma mpsearch_first s : ebda <> 0 \/ 1 < base_kb -> mpsearch mem s = Ret (find_mp places, s).
Proof using Hmem.
  intros Hp. unfold mpsearch, places. change (0x400 + 0x0F) with 0x40F. change (0x400 + 0x0E) with 0x40E. change (0x400 + 0x14) with 0x414. change (0x400 + 0x13) with 0x413.
  pose proof (Hmem 0x40E). pose proof (Hmem 0x40F). pose proof (Hmem 0x413). pose proof (Hmem 0x414). rewrite !join_bytes by done.
  assert (Es : Z.shiftl (mem 0x40F * 256 + mem 0x40E) 4 = ebda) by (rewrite Z.shiftl_mul_pow2 by lia; unfold ebda; lia). rewrite Es. fold base_kb. unfold ebda, base_kb in *.
  set (addr := if 16 * (mem 0x40F * 256 + mem 0x40E) =? 0 then _ else _).
  assert (Ha : 0 < addr < 2 ^ 31) by (unfold addr; destruct (Z.eqb_spec (16 * (mem 0x40F * 256 + mem 0x40E)) 0); lia).
  assert (E1 : (if negb (16 * (mem 0x40F * 256 + mem 0x40E) =? 0) then mpsearch1 mem (16 * (mem 0x40F * 256 + mem 0x40E)) 1024
    else mpsearch1 mem (u32 ((mem 0x414 * 256 + mem 0x413) * 1024 - 1024)) 1024) s = Ret (find_mp (paragraphs addr 64), s)).
  { rewrite <- (mpsearch1_ok addr 64) by lia. change (16 * 64) with 1024. unfold addr. destruct (16 * (mem 0x40F * 256 + mem 0x40E) =? 0); [|done]. cbn [negb]. rewrite u32_small by (unfold in_u32; lia).
    replace ((mem 0x414 * 256 + mem 0x413) * 1024) with (1024 * (mem 0x414 * 256 + mem 0x413)) by lia. reflexivity. }
  mstep E1. rewrite find_mp_app by (apply paragraphs_pos; lia). destruct (find_mp (paragraphs addr 64) =? 0); cbn [negb]; [|done].
  change 0x10000 with (16 * 4096). apply mpsearch1_ok; lia.
Qed.
End Mem.

(** ** The table *)

(** An entry as its bytes: a processor's are 20, the others' 8. *)
Definition entry_ok (b : list Z) : Prop :=
  match b with t :: _ => t = MPPROC /\ length b = 20%nat \/ 1 <= t <= 4 /\ length b = 8%nat | [] => False end.
Definition etype (b : list Z) : Z := nth 0 b 0.
Definition apicid (b : list Z) : Z := nth 1 b 0.
Definition boots (b : list Z) : bool := negb (Z.land (nth 3 b 0) MPBOOT =? 0).
Definition procs (es : list (list Z)) : list (list Z) := filter (fun b => etype b = MPPROC) es.

(** What an entry does. *)
Definition enter (s : mps) (b : list Z) : mps :=
  if etype b =? MPPROC then
    mkMps (zset (cpus s) (ncpu s) (ncpu s)) (if boots b then ncpu s else bcpu s) (if ncpu s =? apicid b then ismp s else 0) (ncpu s + 1) (ioapicid s) (lapic s) (imcr s)
  else if etype b =? MPIOAPIC then set_ioapicid (nth 1 b 0) s
  else s.
Lemma enter_ncpu es s : ncpu (fold_left enter es s) = ncpu s + zlen (procs es).
Proof.
  revert s. induction es as [|b es IH]; intros s; cbn [fold_left]; [change (zlen (procs [])) with 0; lia|]. rewrite IH. unfold procs. rewrite filter_cons. unfold enter. destruct (Z.eqb_spec (etype b) MPPROC).
  - rewrite decide_True by done. unfold zlen. cbn [length ncpu]. lia.
  - rewrite decide_False by done. by destruct (etype b =? MPIOAPIC).
Qed.

Section Table.
Context (mem : Z -> Z).

Definition bytes_at (a : Z) (l : list Z) : Prop := forall k v, l !! k = Some v -> mem (a + Z.of_nat k) = v.
Lemma bytes_at_app a l1 l2 : bytes_at a (l1 ++ l2) -> bytes_at a l1 /\ bytes_at (a + zlen l1) l2.
Proof.
  intros Hb. split; intros k v Hk.
  - apply Hb. by apply lookup_app_l_Some.
  - unfold zlen. replace (a + Z.of_nat (length l1) + Z.of_nat k) with (a + Z.of_nat (length l1 + k)) by lia. apply Hb. rewrite lookup_app_r by lia. rewrite <- Hk. f_equal. lia.
Qed.
Lemma bytes_at_nth a l k : bytes_at a l -> (k < length l)%nat -> mem (a + Z.of_nat k) = nth k l 0.
Proof. intros Hb Hk. destruct (lookup_lt_is_Some_2 l k Hk) as [v Hv]. by rewrite (Hb k v Hv), (nth_lookup_Some _ _ _ _ Hv). Qed.

(** One entry: a turn of the loop. *)
Lemma entry_turn fuel p e b s : bytes_at p b -> entry_ok b -> 0 <= p -> p + zlen b <= e -> e < 2 ^ 32 -> 0 <= ncpu s -> ncpu (enter s b) <= 8 ->
  mpinit_loop mem (S fuel) p e s = mpinit_loop mem fuel (p + zlen b) e (enter s b).
Proof.
  intros Hb Hok Hp He Hr Hn H8. destruct b as [|t b']; [done|]. assert (Hl : zlen (t :: b') = 20 /\ t = 0 \/ zlen (t :: b') = 8 /\ 1 <= t <= 4) by (unfold zlen, entry_ok, MPPROC in *; lia). set (b := t :: b') in *.
  assert (H0 : mem p = t) by (pose proof (bytes_at_nth p b 0 Hb) as E; rewrite Z.add_0_r in E; apply E; cbn; lia).
  assert (H1 : mem (p + 1) = nth 1 b 0) by (apply (bytes_at_nth p b 1 Hb); unfold zlen in Hl; lia). assert (H3 : mem (p + 3) = nth 3 b 0) by (apply (bytes_at_nth p b 3 Hb); unfold zlen in Hl; lia).
  cbn [mpinit_loop]. rewrite (proj2 (Z.ltb_lt p e)) by lia. rewrite H0, H1, H3. unfold enter in *. change (etype b) with t in *. destruct Hl as [[Hl ->]|[Hl Ht]]; rewrite Hl.
  - change (0 =? MPPROC) with true in *. cbv iota in *. cbn [ncpu] in H8. mnext. unfold apicid, boots in *. rewrite u32_small by (unfold in_u32; lia). rewrite (proj2 (Z.ltb_lt (ncpu s) NCPU)) by (unfold NCPU; lia).
    destruct s as [cs bc im n io la ic]. cbn [ncpu cpus bcpu ismp ioapicid lapic imcr] in *.
    destruct (n =? nth 1 b 0), (Z.land (nth 3 b 0) MPBOOT =? 0); cbn [negb]; repeat mnext; cbn; rewrite s32_small by (unfold in_s32; lia); done.
  - change MPPROC with 0 in *. change MPIOAPIC with 2 in *. rewrite (proj2 (Z.eqb_neq t 0)) in * by lia. rewrite u32_small by (unfold in_u32; lia). destruct (Z.eqb_spec t 2); [done|].
    assert ((t =? MPBUS) || (t =? MPIOINTR) || (t =? MPLINTR) = true) as -> by (unfold MPBUS, MPIOINTR, MPLINTR; lia). done.
Qed.
Lemma entries_read es : forall fuel p rest e s, bytes_at p (mjoin es ++ rest) -> Forall entry_ok es -> 0 <= p -> p + zlen (mjoin es) <= e -> e < 2 ^ 32 -> 0 <= ncpu s ->
  ncpu s + zlen (procs es) <= 8 -> mpinit_loop mem (length es + fuel) p e s = mpinit_loop mem fuel (p + zlen (mjoin es)) e (fold_left enter es s).
Proof.
  induction es as [|b es IH]; intros fuel p rest e s Hb Hok Hp He Hr Hn H8; [change (zlen (mjoin (M := list) (@nil (list Z)))) with 0; by rewrite Z.add_0_r|].
  change (mjoin (b :: es)) with (b ++ mjoin es) in *. rewrite <- app_assoc in Hb. apply bytes_at_app in Hb as [Hb Hb']. apply Forall_cons in Hok as [Hok Hoks].
  assert (Ez : zlen (b ++ mjoin es) = zlen b + zlen (mjoin es)) by apply zlen_app. rewrite Ez in *. pose proof (zlen_nonneg (mjoin es)). pose proof (zlen_nonneg b).
  pose proof (enter_ncpu es (enter s b)) as E1. pose proof (enter_ncpu (b :: es) s) as E2. cbn [fold_left] in E2. rewrite E1 in E2. pose proof (zlen_nonneg (procs es)).
  cbn [length Nat.add fold_left]. rewrite (entry_turn _ p e b s Hb Hok) by lia.
  assert (0 <= ncpu (enter s b)) by (unfold enter; destruct (etype b =? MPPROC), (etype b =? MPIOAPIC); cbn; lia).
  rewrite (IH fuel (p + zlen b) rest) by (done || lia). f_equal. lia.
Qed.
Lemma mjoin_split {A} (l1 l2 : list (list A)) : mjoin (l1 ++ l2) = mjoin l1 ++ mjoin l2.
Proof. induction l1 as [|x l1 IH]; [done|]. change (mjoin ((x :: l1) ++ l2)) with (x ++ mjoin (l1 ++ l2)). rewrite IH. by rewrite app_assoc. Qed.
Lemma entries_short es : forall fuel p rest e s, bytes_at p (mjoin es ++ rest) -> Forall entry_ok es -> 0 <= p -> p + zlen (mjoin es) <= e -> e < 2 ^ 32 -> 0 <= ncpu s ->
  ncpu s + zlen (procs es) <= 8 -> (fuel <= length es)%nat -> mpinit_loop mem fuel p e s = NoFuel.
Proof.
  intros fuel p rest e s Hb Hok Hp He Hr Hn H8 Hf. rewrite <- (take_drop fuel es) in Hb, Hok, He, H8. replace fuel with (length (take fuel es) + 0)%nat by (rewrite length_take; lia).
  set (l := take fuel es) in *. rewrite mjoin_split, <- app_assoc in Hb. rewrite mjoin_split in He. apply Forall_app in Hok as [Hok _].
  assert (Ez : zlen (mjoin l ++ mjoin (drop fuel es)) = zlen (mjoin l) + zlen (mjoin (drop fuel es))) by apply zlen_app. pose proof (zlen_nonneg (mjoin (drop fuel es))).
  assert (zlen (procs l) <= zlen (procs (l ++ drop fuel es))) by (unfold procs; rewrite filter_app, zlen_app; pose proof (zlen_nonneg (filter (fun b => etype b = MPPROC) (drop fuel es))); lia).
  by rewrite (entries_read l 0 p (mjoin (drop fuel es) ++ rest) e s) by (done || lia).
Qed.
(** An entry of another type is read again and again. *)
Lemma unknown_hangs fuel : forall p e s, 4 < mem p -> p < e -> mpinit_loop mem fuel p e s = NoFuel.
Proof.
  induction fuel as [|fuel IH]; intros p e s Ht Hp; [done|]. cbn [mpinit_loop]. rewrite (proj2 (Z.ltb_lt p e)) by done.
  unfold MPPROC, MPIOAPIC, MPBUS, MPIOINTR, MPLINTR. rewrite !(proj2 (Z.eqb_neq (mem p) _)) by lia. cbn [orb]. mnext. by apply IH.
Qed.
End Table.

(** ** What the loop leaves *)

Lemma enter_cpus es s : zlen (cpus s) = 8 -> 0 <= ncpu s -> ncpu s + zlen (procs es) <= 8 ->
  zlen (cpus (fold_left enter es s)) = 8 /\ forall k, 0 <= k ->
    zget (cpus (fold_left enter es s)) k = if decide (ncpu s <= k < ncpu s + zlen (procs es)) then Some k else zget (cpus s) k.
Proof.
  revert s. induction es as [|b es IH]; intros s Hl Hn H8; cbn [fold_left]; [split; [done|]; intros k Hk; by rewrite decide_False by (change (zlen (procs [])) with 0; lia)|].
  unfold procs in *. rewrite filter_cons in *. pose proof (zlen_nonneg (filter (fun b => etype b = MPPROC) es)). unfold enter at 2 4. destruct (Z.eqb_spec (etype b) MPPROC) as [Et|Nt].
  - rewrite decide_True in * by done. assert (Ez : zlen (b :: filter (fun b => etype b = MPPROC) es) = 1 + zlen (filter (fun b => etype b = MPPROC) es)) by (unfold zlen; cbn [length]; lia). rewrite Ez in *.
    edestruct (IH (mkMps (zset (cpus s) (ncpu s) (ncpu s)) (if boots b then ncpu s else bcpu s) (if ncpu s =? apicid b then ismp s else 0) (ncpu s + 1) (ioapicid s) (lapic s) (imcr s))) as [H1 H2]; cbn [cpus ncpu].
    + rewrite <- Hl. unfold zlen, zset. destruct (bool_decide _); [done|]. by rewrite length_insert.
    + lia.
    + lia.
    + split; [done|]. intros k Hk. rewrite H2 by done. cbn [cpus ncpu]. destruct (decide (k = ncpu s)) as [->|Hne].
      * rewrite decide_False, decide_True by lia. apply zget_zset_eq. lia.
      * rewrite zget_zset_ne by done. destruct (decide (ncpu s + 1 <= k < _)), (decide (ncpu s <= k < _)); lia || done.
  - rewrite decide_False in * by done. destruct (etype b =? MPIOAPIC); [apply (IH (set_ioapicid (nth 1 b 0) s))|apply IH]; done.
Qed.
Lemma enter_ismp es s : ismp (fold_left enter es s) = if decide (apicid <$> procs es = seqZ (ncpu s) (zlen (procs es))) then ismp s else 0.
Proof.
  revert s. induction es as [|b es IH]; intros s; cbn [fold_left]; [done|]. rewrite IH. unfold procs. rewrite filter_cons. unfold enter. destruct (Z.eqb_spec (etype b) MPPROC) as [Et|Nt].
  - rewrite (decide_True (P := etype b = MPPROC)) by done. assert (Ez : zlen (b :: filter (fun b => etype b = MPPROC) es) = 1 + zlen (filter (fun b => etype b = MPPROC) es)) by (unfold zlen; cbn [length]; lia).
    rewrite Ez. cbn [ncpu ismp fmap list_fmap]. rewrite (seqZ_cons (ncpu s)) by (pose proof (zlen_nonneg (filter (fun b => etype b = MPPROC) es)); lia).
    replace (Z.pred (1 + zlen (filter (fun b => etype b = MPPROC) es))) with (zlen (filter (fun b => etype b = MPPROC) es)) by lia. rewrite <- Z.add_1_r.
    destruct (decide (apicid <$> _ = seqZ (ncpu s + 1) _)) as [E|N], (Z.eqb_spec (ncpu s) (apicid b)) as [E'|N'].
    + rewrite decide_True; [done|]. by rewrite <- E', E.
    + rewrite decide_False; [done|]. intros [=]. congruence.
    + rewrite decide_False; [done|]. intros [=]. done.
    + rewrite decide_False; [done|]. intros [=]. done.
  - rewrite (decide_False (P := etype b = MPPROC)) by done. by destruct (etype b =? MPIOAPIC).
Qed.
Lemma enter_no_boot es s : (forall j c, procs es !! j = Some c -> boots c = false) -> bcpu (fold_left enter es s) = bcpu s.
Proof.
  revert s. unfold procs. induction es as [|a es IH]; intros s Hno; [done|]. cbn [fold_left]. rewrite filter_cons in Hno. unfold enter at 2. destruct (Z.eqb_spec (etype a) MPPROC).
  - rewrite decide_True in Hno by done. rewrite IH by (intros j c Hj; by apply (Hno (S j))). cbn [bcpu]. by rewrite (Hno 0%nat a).
  - rewrite decide_False in Hno by done. rewrite IH by done. by destruct (etype a =? MPIOAPIC).
Qed.
Lemma enter_bcpu es s k b : procs es !! k = Some b -> boots b = true -> (forall j c, (k < j)%nat -> procs es !! j = Some c -> boots c = false) ->
  bcpu (fold_left enter es s) = ncpu s + Z.of_nat k.
Proof.
  revert s k. induction es as [|a es IH]; intros s k Hk Hb Hlast; [done|]. cbn [fold_left]. unfold procs in *. rewrite filter_cons in *. unfold enter at 2. destruct (Z.eqb_spec (etype a) MPPROC) as [Et|Nt].
  - rewrite decide_True in * by done. destruct k as [|k].
    + injection Hk as ->. rewrite Hb, Z.add_0_r. rewrite enter_no_boot; [done|]. intros j c. apply (Hlast (S j)). lia.
    + rewrite (IH _ k Hk Hb); [cbn [ncpu]; lia|]. intros j c Hj. apply (Hlast (S j)). lia.
  - rewrite decide_False in * by done. rewrite (IH _ k Hk Hb Hlast). by destruct (etype a =? MPIOAPIC).
Qed.
Lemma enter_ioapic es s : ioapicid (fold_left enter es s) = default (ioapicid s) (last ((fun b => nth 1 b 0) <$> filter (fun b => etype b = MPIOAPIC) es)).
Proof.
  revert s. induction es as [|b es IH]; intros s; cbn [fold_left]; [done|]. rewrite IH. rewrite filter_cons. unfold enter. destruct (Z.eqb_spec (etype b) MPPROC) as [Et|Nt].
  - rewrite decide_False by (rewrite Et; done). done.
  - destruct (Z.eqb_spec (etype b) MPIOAPIC) as [E|N]; [rewrite decide_True by done|by rewrite decide_False by done]. cbn [fmap list_fmap ioapicid set_ioapicid].
    rewrite last_cons. by destruct (last _).
Qed.
Lemma enter_rest es s : lapic (fold_left enter es s) = lapic s /\ imcr (fold_left enter es s) = imcr s.
Proof. revert s. induction es as [|b es IH]; intros s; cbn [fold_left]; [done|]. rewrite !(proj1 (IH _)), !(proj2 (IH _)). unfold enter. by destruct (etype b =? MPPROC), (etype b =? MPIOAPIC). Qed.

(** ** [mpinit] *)

(** The structure the search finds names a table the kernel accepts, whose
    bytes after the header are entries [es] and then [rest]. *)
Record table_found (mem : Z -> Z) (es : list (list Z)) (rest : list Z) : Prop := {
  tf_bytes a : 0 <= mem a < 256;
  tf_places : ebda mem <> 0 \/ 1 < base_kb mem;
  tf_mp : find_mp mem (places mem) <> 0;
  tf_conf : field mem 4 (find_mp mem (places mem) + 4) <> 0;
  tf_pcmp : same_bytes mem (field mem 4 (find_mp mem (places mem) + 4)) PCMP = true;
  tf_version : mem (field mem 4 (find_mp mem (places mem) + 4) + 6) = 1 \/ mem (field mem 4 (find_mp mem (places mem) + 4) + 6) = 4;
  tf_sum : sum mem (field mem 4 (find_mp mem (places mem) + 4)) (field mem 2 (field mem 4 (find_mp mem (places mem) + 4) + 4)) = 0;
  tf_range : 0 <= field mem 4 (find_mp mem (places mem) + 4) /\
    field mem 4 (find_mp mem (places mem) + 4) + field mem 2 (field mem 4 (find_mp mem (places mem) + 4) + 4) < 2 ^ 32;
  tf_length : field mem 2 (field mem 4 (find_mp mem (places mem) + 4) + 4) = 44 + zlen (mjoin es ++ rest);
  tf_entries : bytes_at mem (field mem 4 (find_mp mem (places mem) + 4) + 44) (mjoin es ++ rest);
  tf_ok : Forall entry_ok es;
  tf_cpus : zlen (procs es) <= 8
}.
Definition conf_of (mem : Z -> Z) : Z := field mem 4 (find_mp mem (places mem) + 4).
(** The state the loop starts from. *)
Definition begun (mem : Z -> Z) : mps := set_lapic (field mem 4 (conf_of mem + 36)) (set_ismp 1 boot).

Lemma mpinit_begins mem es rest fuel : table_found mem es rest ->
  mpinit mem fuel boot = (mpinit_loop mem fuel (conf_of mem + 44) (conf_of mem + 44 + zlen (mjoin es ++ rest));;
    s ← get; if ismp s =? 0 then modify (set_ncpu 1);; modify (set_lapic 0);; modify (set_ioapicid 0)
             else if negb (mem (find_mp mem (places mem) + 12) =? 0) then modify (set_imcr true) else mret tt) (begun mem).
Proof.
  intros [H1 H2 H3 H4 H5 H6 H7 H8 H9 _ _ _]. unfold mpinit, mpconfig. mnext. rewrite bind_assoc. change (set_bcpu 0 boot) with boot. mstep (mpsearch_first mem H1 boot H2). fold (conf_of mem) in *.
  rewrite (proj2 (Z.eqb_neq _ _) H3), (proj2 (Z.eqb_neq _ _) H4). cbn [orb]. rewrite H5. cbn [negb].
  assert (negb (mem (conf_of mem + 6) =? 1) && negb (mem (conf_of mem + 6) =? 4) = false) as -> by lia. rewrite H7. cbn [Z.eqb negb]. do 3 mnext. fold (begun mem).
  rewrite !u32_small by (unfold in_u32; pose proof (zlen_nonneg (mjoin es ++ rest)); lia). rewrite H9. by rewrite Z.add_assoc.
Qed.

(** C37: [mpinit] reads the table: when all its entries are of the five known types
    and at most eight are processors, it ends (a turn for each entry is fuel
    enough); if the processors' APIC ids are 0, 1, 2, ... in order, the
    kernel has that many CPUs with those ids, the last one marked so
    is the boot CPU, and the I/O APIC is the last listed; if not, it falls
    back to one CPU with no local APIC. *)
Theorem mpinit_reads_table mem es fuel : table_found mem es [] -> (length es < fuel)%nat ->
  exists s, mpinit mem fuel boot = Ret (tt, s) /\
    if decide (apicid <$> procs es = seqZ 0 (zlen (procs es))) then
      ismp s = 1 /\ ncpu s = zlen (procs es) /\ (forall k, 0 <= k < ncpu s -> zget (cpus s) k = Some k) /\ lapic s = field mem 4 (conf_of mem + 36) /\
      (forall k b, procs es !! k = Some b -> boots b = true -> (forall j c, (k < j)%nat -> procs es !! j = Some c -> boots c = false) -> bcpu s = Z.of_nat k) /\
      ioapicid s = default 0 (last ((fun b => nth 1 b 0) <$> filter (fun b => etype b = MPIOAPIC) es)) /\
      imcr s = negb (mem (find_mp mem (places mem) + 12) =? 0)
    else ismp s = 0 /\ ncpu s = 1 /\ lapic s = 0 /\ ioapicid s = 0.
Proof.
  intros HT Hf. pose proof (mpinit_begins mem es [] fuel HT) as ->. destruct HT as [H1 H2 H3 H4 H5 H6 H7 H8 H9 H10 H11 H12]. fold (conf_of mem) in *. rewrite app_nil_r in *.
  replace fuel with (length es + (fuel - length es))%nat by lia.
  assert (E : mpinit_loop mem (length es + (fuel - length es)) (conf_of mem + 44) (conf_of mem + 44 + zlen (mjoin es)) (begun mem) = Ret (tt, fold_left enter es (begun mem))).
  { rewrite (entries_read mem es _ _ []) by (rewrite ?app_nil_r; cbn [ncpu begun boot set_lapic set_ismp]; pose proof (zlen_nonneg (mjoin es)); done || lia).
    destruct (fuel - length es)%nat as [|n] eqn:En; [lia|]. cbn [mpinit_loop]. by rewrite (proj2 (Z.ltb_ge _ _)) by lia. }
  mstep E. mnext. pose proof (enter_ismp es (begun mem)) as Ei. pose proof (enter_ncpu es (begun mem)) as En. destruct (enter_cpus es (begun mem)) as [_ Ec]; [done|done|done|].
  pose proof (enter_ioapic es (begun mem)) as Eio. destruct (enter_rest es (begun mem)) as [El Eim]. pose proof (enter_bcpu es (begun mem)) as Eb.
  set (s := fold_left enter es (begun mem)) in *. clearbody s. cbn [ncpu begun boot set_lapic set_ismp ismp lapic imcr cpus ioapicid] in *. rewrite Ei.
  destruct (decide _) as [Eo|No]; [|eexists; split; [reflexivity|by cbn]]. change (1 =? 0) with false. cbv iota.
  assert (Ec' : forall k, 0 <= k < ncpu s -> zget (cpus s) k = Some k) by (intros k Hk; rewrite Ec, decide_True by lia; done).
  destruct (negb _); (eexists; split; [reflexivity|]); cbn [set_imcr ismp ncpu cpus lapic bcpu ioapicid imcr]; split_and!; done || lia || (intros k b Hk Hb Hl; rewrite (Eb k b Hk Hb Hl); lia).
Qed.

(** An entry of a type that is not among the five stops the kernel for good:
    the loop stays at it. *)
Theorem mpinit_hangs mem es rest fuel : table_found mem es rest -> 4 < mem (conf_of mem + 44 + zlen (mjoin es)) -> rest <> [] ->
  mpinit mem fuel boot = NoFuel.
Proof.
  intros HT Ht Hr. rewrite (mpinit_begins mem es rest fuel HT). destruct HT as [H1 H2 H3 H4 H5 H6 H7 H8 H9 H10 H11 H12]. fold (conf_of mem) in *.
  assert (Hz : 0 < zlen rest) by (destruct rest; [done|unfold zlen; cbn; lia]). pose proof (zlen_nonneg (mjoin es)). rewrite zlen_app in *.
  assert (E' : mpinit_loop mem fuel (conf_of mem + 44) (conf_of mem + 44 + (zlen (mjoin es) + zlen rest)) (begun mem) = NoFuel).
  { destruct (decide (fuel <= length es)%nat).
    - apply (entries_short mem es _ _ rest); cbn [ncpu begun boot set_lapic set_ismp]; done || lia.
    - replace fuel with (length es + (fuel - length es))%nat by lia.
      rewrite (entries_read mem es _ _ rest) by (cbn [ncpu begun boot set_lapic set_ismp]; done || lia). apply unknown_hangs; [done|lia]. }
  unfold mbind, M_bind. by rewrite E'.
Qed.

(** A ninth processor is written past the end of [cpus]. *)
Theorem mpinit_overflows mem es b rest fuel : table_found mem es (b ++ rest) -> entry_ok b -> etype b = MPPROC -> zlen (procs es) = 8 -> (length es < fuel)%nat ->
  mpinit mem fuel boot = Undef "cpus".
Proof.
  intros HT Hok Ht H8' Hf. rewrite (mpinit_begins mem es _ fuel HT). destruct HT as [H1 H2 H3 H4 H5 H6 H7 H8 H9 H10 H11 H12]. fold (conf_of mem) in *.
  pose proof (bytes_at_app _ _ _ _ H10) as [_ Hb]. rewrite zlen_app in *. pose proof (zlen_nonneg (mjoin es)). pose proof (zlen_nonneg rest).
  assert (Hlb : 0 < zlen b) by (destruct b; [done|unfold zlen; cbn; lia]). assert (Hz : zlen (b ++ rest) = zlen b + zlen rest) by apply zlen_app.
  assert (E : mpinit_loop mem fuel (conf_of mem + 44) (conf_of mem + 44 + (zlen (mjoin es) + zlen (b ++ rest))) (begun mem) = Undef "cpus").
  { replace fuel with (length es + (fuel - length es))%nat by lia. rewrite (entries_read mem es _ _ (b ++ rest)) by (cbn [ncpu begun boot set_lapic set_ismp]; done || lia).
    destruct (fuel - length es)%nat as [|n] eqn:En; [lia|]. cbn [mpinit_loop]. rewrite (proj2 (Z.ltb_lt _ _)) by lia.
    pose proof (bytes_at_nth mem (conf_of mem + 44 + zlen (mjoin es)) (b ++ rest) 0 Hb) as E0. rewrite Z.add_0_r in E0. rewrite E0 by (unfold zlen in *; lia).
    destruct b as [|t b]; [done|]. cbn [app nth]. change (etype (t :: b)) with t in Ht. rewrite Ht. change (MPPROC =? MPPROC) with true. cbv iota. mnext.
    pose proof (enter_ncpu es (begun mem)) as Enc. rewrite H8' in Enc. cbn [ncpu begun boot set_lapic set_ismp] in Enc. rewrite Enc. change (0 + 8 <? NCPU) with false. cbv iota.
    destruct (negb _), (negb _); reflexivity. }
  unfold mbind, M_bind. by rewrite E.
Qed.

(** ** Two processors and an I/O APIC *)

Definition demo_ebda : list Z := [95; 77; 80; 95; 0; 16; 0; 0; 1; 4; 144; 0; 0; 0; 0; 0].
Definition demo_entries : list (list Z) := [[0; 0; 0; 2] ++ replicate 16 0; [0; 1; 0; 0] ++ replicate 16 0; [2; 4; 0; 0; 0; 0; 0; 0]].
Definition demo_table : list Z :=
  [80; 67; 77; 80; 92; 0; 4; 134] ++ replicate 26 0 ++ [3; 0; 0; 0; 224; 254] ++ replicate 4 0 ++ mjoin demo_entries.
Definition demo_mem (a : Z) : Z :=
  if (0x9FC00 <=? a) && (a <? 0x9FC10) then nth (Z.to_nat (a - 0x9FC00)) demo_ebda 0
  else if (0x1000 <=? a) && (a <? 0x105C) then nth (Z.to_nat (a - 0x1000)) demo_table 0
  else if a =? 0x40E then 0xC0 else if a =? 0x40F then 0x9F else 0.
Lemma nth_byte l k : forallb (fun v => (0 <=? v) && (v <? 256)) l = true -> 0 <= nth k l 0 < 256.
Proof.
  revert k. induction l as [|v l IH]; intros k; [destruct k; cbn; lia|]. cbn [forallb]. intros [Hv Hl]%andb_prop. destruct k as [|k]; [cbn; lia|]. by apply IH.
Qed.
Lemma demo_found : table_found demo_mem demo_entries [].
Proof.
  assert (E1 : find_mp demo_mem (places demo_mem) = 0x9FC00) by (vm_compute; reflexivity).
  assert (E2 : field demo_mem 4 (0x9FC00 + 4) = 0x1000) by (vm_compute; reflexivity). split; rewrite ?E1, ?E2.
  - intros a. unfold demo_mem. destruct (_ && _); [by apply nth_byte|]. destruct (_ && _); [by apply nth_byte|]. destruct (a =? 0x40E), (a =? 0x40F); lia.
  - left. vm_compute. discriminate.
  - lia.
  - lia.
  - vm_compute. reflexivity.
  - right. vm_compute. reflexivity.
  - vm_compute. reflexivity.
  - vm_compute. split; [discriminate|reflexivity].
  - vm_compute. reflexivity.
  - intros k v. rewrite app_nil_r. change (0x1000 + 44) with 0x102C. do 48 (destruct k as [|k]; [by intros [= <-]|]). done.
  - unfold demo_entries, entry_ok, MPPROC. repeat constructor; cbn; lia.
  - vm_compute. discriminate.
Qed.
Lemma mpinit_reads_table_witness : exists s, mpinit demo_mem 4 boot = Ret (tt, s) /\ ncpu s = 2 /\ ioapicid s = 4.
Proof.
  destruct (mpinit_reads_table demo_mem demo_entries 4 demo_found) as (s & E & H); [cbn; lia|]. exists s. rewrite decide_True in H by (vm_compute; reflexivity).
  destruct H as (_ & Hn & _ & _ & _ & Hio & _). split; [exact E|]. split; [exact Hn|]. rewrite Hio. vm_compute. reflexivity.
Defined.
