(* ===== verification/Trap.v ===== *)
(** The trap handler of project 1b ([src/1b/xv6/trap.c]) with its counter of
    system calls ([syscall_count], [sys_getcount]).

    A trap is the accesses to shared state and the calls it makes, in order, each
    with what it returns; between two of them other processes' traps may run.
    What the calls do inside is in the components they belong to. *)
From S2P Require Import Prelude.

Module Trap.

Definition T_SYSCALL : Z := 64.
Definition T_IRQ0 : Z := 32.
Definition IRQ_TIMER : Z := 0.
Definition IRQ_KBD : Z := 1.
Definition IRQ_COM1 : Z := 4.
Definition IRQ_IDE : Z := 14.
Definition IRQ_SPURIOUS : Z := 31.
Definition DPL_USER : Z := 3.

(** Reading and writing [syscall_count], [proc->killed] and [proc->state], and the
    calls; [Tick] is [ticks++] and its [wakeup] under [tickslock]. *)
Inductive act :=
  | ReadCount | WriteCount (v : Z) | Killed | SetKilled | Running
  | SetTf | Syscall | Tick | Eoi | IdeIntr | KbdIntr | UartIntr | Print | Panic | Yield | Exit.
Inductive prog := Stop | Do (a : act) (k : Z -> prog).
Definition call (a : act) (p : prog) : prog := Do a (fun _ => p).

(** [exit] and [panic] do not return. *)
Definition exit_if_killed (p : prog) : prog := Do Killed (fun k => if negb (k =? 0) then call Exit Stop else p).

(** What follows the switch, for an interrupt taken with code segment [cs]. *)
Definition leave (hasproc : bool) (trapno cs : Z) : prog :=
  let user_exit (p : prog) := if hasproc then Do Killed (fun k => if negb (k =? 0) && (Z.land cs 3 =? DPL_USER) then call Exit Stop else p) else p in
  user_exit
    (let last := user_exit Stop in
     if hasproc then Do Running (fun r => if negb (r =? 0) && (trapno =? T_IRQ0 + IRQ_TIMER) then call Yield last else last) else last).

Definition trap (cpu0 hasproc : bool) (trapno cs : Z) : prog :=
  Do ReadCount (fun counter =>
    if trapno =? T_SYSCALL then
      exit_if_killed (call SetTf (call (WriteCount (s32 (counter + 1))) (call Syscall (exit_if_killed Stop))))
    else
      let out := leave hasproc trapno cs in
      if trapno =? T_IRQ0 + IRQ_TIMER then (if cpu0 then call Tick (call Eoi out) else call Eoi out)
      else if trapno =? T_IRQ0 + IRQ_IDE then call IdeIntr (call Eoi out)
      else if trapno =? T_IRQ0 + IRQ_IDE + 1 then out
      else if trapno =? T_IRQ0 + IRQ_KBD then call KbdIntr (call Eoi out)
      else if trapno =? T_IRQ0 + IRQ_COM1 then call UartIntr (call Eoi out)
      else if (trapno =? T_IRQ0 + 7) || (trapno =? T_IRQ0 + IRQ_SPURIOUS) then call Print (call Eoi out)
      else if negb hasproc || (Z.land cs 3 =? 0) then call Print (call Panic Stop)
      else call Print (call SetKilled out)).

(** [sys_getcount]. *)
Definition sys_getcount (syscall_count : Z) : Z := if syscall_count >=? 0 then syscall_count else -1.

(** ** Processes that trap *)

Record task := mkTask { code : prog; killed : bool }.
(** [calls] counts the system calls let through, which the program does not. *)
Record sys := mkSys { syscall_count : Z; calls : Z; tasks : list task }.
Definition put_task (i : nat) (t : task) (s : sys) : sys := mkSys (syscall_count s) (calls s) (<[i := t]> (tasks s)).

(** One action of the task [i]: what it returns, and the state after. *)
Inductive acts (i : nat) (t : task) (s : sys) : act -> Z -> sys -> Prop :=
  | A_read : acts i t s ReadCount (syscall_count s) s
  | A_write v r : acts i t s (WriteCount v) r (mkSys v (calls s + 1) (tasks s))
  | A_killed : acts i t s Killed (if killed t then 1 else 0) s
  | A_set_killed r : acts i t s SetKilled r (put_task i (mkTask (code t) true) s)
  | A_other a r : match a with ReadCount | WriteCount _ | Killed | SetKilled => False | _ => True end -> acts i t s a r s.

(** A process in user mode traps; one in the kernel makes its next action; one
    is killed from outside. *)
Inductive step (s : sys) : sys -> Prop :=
  | S_enter i k cpu0 hasproc trapno cs : tasks s !! i = Some (mkTask Stop k) -> step s (put_task i (mkTask (trap cpu0 hasproc trapno cs) k) s)
  | S_act i t a k r s' t' : tasks s !! i = Some t -> code t = Do a k -> acts i t s a r s' -> tasks s' !! i = Some t' ->
      step s (put_task i (mkTask (k r) (killed t')) s')
  | S_kill i t : tasks s !! i = Some t -> step s (put_task i (mkTask (code t) true) s).
Definition runs : sys -> sys -> Prop := rtc step.
Definition boot (n : nat) : sys := mkSys 0 0 (replicate n (mkTask Stop false)).
End Trap.
