(* ===== verification/TrapSpec.v ===== *)
(** The counter of system calls: what it can be, whatever the interleaving, and
    a run where it counts wrong. *)
From S2P Require Import Prelude Trap.
Import Trap.

(** ** What a trap may still write *)

(** With [n] calls counted so far, the rest of a trap writes at most one more than
    there have been, if what it reads is between 0 and the calls at that
    time. *)
Fixpoint safe (p : prog) (n : Z) : Prop :=
  match p with
  | Stop => True
  | Do a k =>
      match a with WriteCount v => 1 <= v <= n + 1 | _ => True end /\
      forall r n', n <= n' < 2 ^ 31 - 1 -> match a with ReadCount => 0 <= r <= n' | WriteCount _ => n + 1 <= n' | _ => True end -> safe (k r) n'
  end.
Lemma safe_mono p : forall n n', n <= n' -> n' < 2 ^ 31 - 1 -> safe p n -> safe p n'.
Proof.
  induction p as [|a k IH]; intros n n' Hn Hr Hs; cbn [safe] in *; [done|]. destruct Hs as [Ha Hk]. split; [destruct a; lia|].
  intros r m Hm Hres. apply Hk; [lia|]. destruct a; lia || done.
Qed.

(** A piece of a trap that writes nothing. *)
Fixpoint quiet (p : prog) : Prop :=
  match p with Stop => True | Do a k => match a with WriteCount _ => False | _ => True end /\ forall r, quiet (k r) end.
Lemma quiet_safe p : quiet p -> forall n, safe p n.
Proof. induction p as [|a k IH]; intros Hq n; cbn [quiet safe] in *; [done|]. destruct Hq as [Ha Hk]. split; [by destruct a|]. intros r n' _ _. by apply IH. Qed.
Lemma quiet_exit p : quiet p -> quiet (exit_if_killed p).
Proof. intros Hp. unfold exit_if_killed. cbn. split; [done|]. intros r. by destruct (r =? 0). Qed.
Lemma quiet_leave hasproc trapno cs : quiet (leave hasproc trapno cs).
Proof.
  unfold leave. assert (Hu : forall p, quiet p -> quiet (if hasproc then Do Killed (fun k => if negb (k =? 0) && (Z.land cs 3 =? DPL_USER) then call Exit Stop else p) else p)).
  { intros p Hp. destruct hasproc; [|done]. cbn. split; [done|]. intros r. by destruct (_ && _). }
  apply Hu. destruct hasproc; [|by apply Hu]. cbn [quiet]. split; [done|]. intros r. destruct (_ && _); [split; [done|]; intros _|]; by apply Hu.
Qed.

Lemma trap_safe cpu0 hasproc trapno cs n : safe (trap cpu0 hasproc trapno cs) n.
Proof.
  unfold trap. cbn [safe]. split; [done|]. intros c n1 Hn1 Hc. pose proof (quiet_leave hasproc trapno cs) as Hl. destruct (trapno =? T_SYSCALL).
  - unfold exit_if_killed. cbn [safe]. split; [done|]. intros r n2 Hn2 _. destruct (negb (r =? 0)); [by apply quiet_safe|]. unfold call at 1 2. cbn [safe]. split; [done|]. intros _ n3 Hn3 _.
    split; [rewrite s32_small by (unfold in_s32; lia); lia|]. intros _ n4 Hn4 _. apply quiet_safe. split; [done|]. intros _. by apply quiet_exit.
  - apply quiet_safe. assert (Hc1 : forall a p, match a with WriteCount _ => False | _ => True end -> quiet p -> quiet (call a p)) by (intros a p Ha Hp; by split).
    repeat match goal with |- quiet (if ?b then _ else _) => destruct b end; repeat (apply Hc1; [done|]); done.
Qed.

(** ** The counter *)

Record count_ok (s : sys) : Prop := {
  co_range : 0 <= syscall_count s <= calls s;
  co_some : 0 < calls s -> 1 <= syscall_count s;
  co_safe i t : tasks s !! i = Some t -> safe (code t) (calls s)
}.
Lemma boot_count n : count_ok (boot n).
Proof. split; cbn; [lia|lia|]. intros i t [-> _]%lookup_replicate_1. done. Qed.
Lemma put_count i t s : count_ok s -> safe (code t) (calls s) -> count_ok (put_task i t s).
Proof.
  intros [H1 H2 H3] Ht. split; cbn; [done|done|]. intros j u Hj. destruct (decide (j = i)) as [->|Hne]; [|rewrite list_lookup_insert_ne in Hj by done; by eapply H3].
  apply list_lookup_insert_Some in Hj as [(_ & <- & _)|[? _]]; done.
Qed.
Lemma step_count s s' : count_ok s -> step s s' -> calls s' < 2 ^ 31 - 1 -> count_ok s' /\ calls s <= calls s'.
Proof.
  intros C Hs. destruct Hs as [i k cpu0 hasproc trapno cs Hi|i t a k r s1 t1 Hi Hc Ha Ht1|i t Hi]; intros Hr.
  - split; [|done]. apply put_count; [done|]. apply trap_safe.
  - pose proof (co_safe s C i t Hi) as Hsafe. rewrite Hc in Hsafe. destruct Hsafe as [Hw Hk]. pose proof C as [H1 H2 H3]. inversion Ha; subst; cbn [put_task calls syscall_count] in *.
    + split; [|done]. apply put_count; [done|]. apply Hk; [lia|lia].
    + split; [|lia]. apply put_count; [|apply Hk; cbn; lia]. split; cbn; [lia|lia|]. intros j u Hj. apply (safe_mono _ (calls s)); [lia|lia|by eapply H3].
    + split; [|done]. apply put_count; [done|]. apply Hk; [lia|done].
    + split; [|done]. apply put_count; [apply put_count; [done|exact (H3 i t Hi)]|]. apply Hk; [cbn; lia|done].
    + split; [|done]. apply put_count; [done|]. apply Hk; [lia|]. by destruct a.
  - split; [|done]. apply put_count; [done|]. cbn. by eapply co_safe.
Qed.
Lemma runs_count s s' : count_ok s -> runs s s' -> calls s' < 2 ^ 31 - 1 -> count_ok s' /\ calls s <= calls s'.
Proof.
  intros C Hr. revert C. induction Hr as [s|s1 s2 s3 Hst Hr IH]; intros C Hlt; [by split|].
  assert (Hle : calls s2 <= calls s3).
  { clear -Hr. induction Hr as [|a b c Hst Hr IH]; [done|]. etrans; [|exact IH]. destruct Hst as [| i t a0 k r s' t' _ _ Ha _|]; [done| |done]. inversion Ha; subst; cbn; lia. }
  destruct (step_count s1 s2 C Hst ltac:(lia)) as [C2 H12]. destruct (IH C2 Hlt) as [C3 H23]. split; [done|lia].
Qed.

(** ** Runs *)

(** A task alone makes a system call, from the trap to the return. *)
Definition idle (s : sys) (i : nat) : Prop := tasks s !! i = Some (mkTask Stop false).
Definition counted (v : Z) (s : sys) : sys := mkSys v (calls s + 1) (tasks s).
(** The call up to the read, and from there on. *)
Definition pending (c : Z) : prog :=
  exit_if_killed (call SetTf (call (WriteCount (s32 (c + 1))) (call Syscall (exit_if_killed Stop)))).

Lemma act_step i s t a k r s' t' : tasks s !! i = Some t -> code t = Do a k -> acts i t s a r s' -> tasks s' !! i = Some t' -> runs s (put_task i (mkTask (k r) (killed t')) s').
Proof. intros. eapply rtc_once, S_act; done. Qed.
Lemma put_get i t s t0 : tasks s !! i = Some t0 -> tasks (put_task i t s) !! i = Some t.
Proof. intros Hi. cbn. apply list_lookup_insert_eq. by eapply lookup_lt_Some. Qed.
Lemma put_put i t t' s : put_task i t (put_task i t' s) = put_task i t s.
Proof. unfold put_task. cbn. by rewrite list_insert_insert_eq. Qed.

(** The trap reaches the read. *)
Lemma call_begins i s : idle s i -> runs s (put_task i (mkTask (pending (syscall_count s)) false) s).
Proof.
  intros Hi. eapply rtc_l; [apply (S_enter s i false true true T_SYSCALL 0); exact Hi|]. set (s1 := put_task _ _ s).
  pose proof (put_get i (mkTask (trap true true T_SYSCALL 0) false) s _ Hi) as H1. fold s1 in H1.
  pose proof (act_step i s1 _ ReadCount _ (syscall_count s1) s1 _ H1 eq_refl (A_read _ _ _) H1) as E. cbn [killed] in E. unfold s1 in E at 2. cbn [syscall_count put_task] in E.
  unfold s1 in E at 2. rewrite put_put in E. exact E.
Qed.
(** From the read to the return. *)
Lemma call_ends i s c : tasks s !! i = Some (mkTask (pending c) false) -> runs s (put_task i (mkTask Stop false) (counted (s32 (c + 1)) s)).
Proof.
  intros Hi. assert (Hact : forall s0 a k r, tasks s0 !! i = Some (mkTask (Do a k) false) -> acts i (mkTask (Do a k) false) s0 a r s0 -> runs s0 (put_task i (mkTask (k r) false) s0)).
  { intros s0 a k r H0 Ha. exact (act_step i s0 _ a k r s0 _ H0 eq_refl Ha H0). }
  assert (Hlt : (i < length (tasks s))%nat) by by eapply lookup_lt_Some.
  unfold pending, exit_if_killed in Hi. etrans; [apply (Hact s Killed _ 0 Hi), A_killed|]. cbn [Z.eqb negb].
  etrans; [eapply (Hact _ SetTf _ 0); [by eapply put_get|by apply A_other]|]. rewrite put_put.
  set (s2 := put_task i _ s). assert (H2 : tasks s2 !! i = Some (mkTask (call (WriteCount (s32 (c + 1))) (call Syscall (exit_if_killed Stop))) false)) by by eapply put_get.
  etrans; [eapply (act_step i s2 _ _ _ 0 _ _ H2 eq_refl (A_write _ _ _ _ _)); exact H2|]. cbn [killed].
  set (s3 := put_task i _ (mkSys _ _ _)). assert (H3 : tasks s3 !! i = Some (mkTask (call Syscall (exit_if_killed Stop)) false)) by (eapply put_get; exact H2).
  etrans; [eapply (Hact s3 Syscall _ 0 H3); by apply A_other|]. set (s4 := put_task i _ s3). assert (H4 : tasks s4 !! i = Some (mkTask (exit_if_killed Stop) false)) by by eapply put_get.
  etrans; [apply (Hact s4 Killed _ 0 H4), A_killed|]. cbn [Z.eqb negb]. unfold s4, s3. rewrite !put_put.
  match goal with |- runs ?a ?b => assert (a = b) as -> by (unfold put_task, counted, s2; cbn; by rewrite list_insert_insert_eq) end. done.
Qed.
Lemma one_call i s : idle s i -> runs s (counted (s32 (syscall_count s + 1)) s).
Proof.
  intros Hi. etrans; [by apply (call_begins i)|]. etrans; [eapply call_ends; by eapply put_get|].
  match goal with |- runs ?a ?b => assert (a = b) as -> end; [|done]. unfold put_task, counted. cbn. f_equal. rewrite list_insert_insert_eq. by apply list_insert_id.
Qed.
Lemma many_calls n i s : idle s i -> 0 <= syscall_count s -> syscall_count s + Z.of_nat n < 2 ^ 31 ->
  runs s (mkSys (syscall_count s + Z.of_nat n) (calls s + Z.of_nat n) (tasks s)).
Proof.
  revert s. induction n as [|n IH]; intros s Hi H0 Hr; [rewrite !Z.add_0_r; by destruct s|]. etrans; [by apply (one_call i)|].
  rewrite s32_small by (unfold in_s32; lia). etrans; [apply IH; cbn; [done|lia|lia]|]. cbn. by rewrite <- !Z.add_assoc, !Z.add_1_l, <- !Nat2Z.inj_succ.
Qed.

(** C38: Whatever the traps of any number of processes interleave to, [getcount]
    is never more than the system calls made, and at least 1 once there is
    one.  Both ends are reached: a process that makes [n] calls with no
    other in the kernel is counted [n]; and a process that is interrupted
    between its trap's read of the counter and the write, while another makes
    [n] calls, sets the counter back from [n] to 1. *)
Theorem syscall_count_bounds nproc s : runs (boot nproc) s -> calls s < 2 ^ 31 - 1 ->
  0 <= sys_getcount (syscall_count s) <= calls s /\ (0 < calls s -> 1 <= sys_getcount (syscall_count s)) /\
  (forall n, (0 < nproc)%nat -> Z.of_nat n < 2 ^ 31 -> exists s1, runs (boot nproc) s1 /\ calls s1 = Z.of_nat n /\ sys_getcount (syscall_count s1) = Z.of_nat n) /\
  (forall n, (1 < nproc)%nat -> Z.of_nat n < 2 ^ 31 -> exists s1 s2, runs (boot nproc) s1 /\ sys_getcount (syscall_count s1) = Z.of_nat n /\
     runs s1 s2 /\ calls s2 = Z.of_nat n + 1 /\ sys_getcount (syscall_count s2) = 1).
Proof.
  intros Hr Hc. destruct (runs_count _ _ (boot_count nproc) Hr Hc) as [[H1 H2 _] _]. assert (Eg : forall v, 0 <= v -> sys_getcount v = v) by (intros v Hv; unfold sys_getcount; destruct (Z.geb_spec v 0); lia).
  rewrite Eg by lia. split; [done|]. split; [done|]. assert (Hidle : forall i, (i < nproc)%nat -> idle (boot nproc) i) by (intros i Hi; by apply lookup_replicate_2). split; intros n Hn Hlt.
  - exists (mkSys (Z.of_nat n) (Z.of_nat n) (tasks (boot nproc))). split; [exact (many_calls n 0 (boot nproc) (Hidle 0%nat Hn) ltac:(cbn; lia) ltac:(cbn; lia))|]. split; [done|]. apply Eg. cbn. lia.
  - set (b := put_task 1 (mkTask (pending 0) false) (boot nproc)). assert (Hb : runs (boot nproc) b) by exact (call_begins 1 (boot nproc) (Hidle 1%nat Hn)).
    assert (Hb0 : idle b 0) by (unfold idle, b; cbn; rewrite list_lookup_insert_ne by done; apply (Hidle 0%nat); lia).
    pose proof (many_calls n 0 b Hb0 ltac:(cbn; lia) ltac:(cbn; lia)) as Hn1. set (s1 := mkSys _ _ _) in Hn1. exists s1.
    assert (H1p : tasks s1 !! 1%nat = Some (mkTask (pending 0) false)) by (unfold s1, b; cbn; apply list_lookup_insert_eq; rewrite length_replicate; lia).
    eexists. split; [by etrans|]. split; [apply Eg; cbn; lia|]. split; [exact (call_ends 1 s1 0 H1p)|]. split; [cbn; lia|done].
Qed.
Lemma syscall_count_bounds_witness : exists s, runs (boot 2) s /\ calls s = 5 /\ 1 <= sys_getcount (syscall_count s) <= 5.
Proof.
  destruct (syscall_count_bounds 2 (boot 2)) as (_ & _ & _ & H); [by apply rtc_refl|cbn; lia|]. destruct (H 4%nat) as (s1 & s2 & R1 & _ & R2 & Hc & Hg); [lia|lia|].
  exists s2. split; [by etrans|]. split; [exact Hc|]. lia.
Defined.
