(* ===== verification/Progs.v ===== *)
(** The user programs of project 5 ([src/5/xv6/cat.c], [wc.c], [grep.c],
    [echo.c], [ls.c], [stat.c], [ln.c], [rm.c], [mkdir.c], [kill.c], [init.c],
    [zombie.c], and [stat] of [ulib.c]), over the system calls they make.

    A program is its [main]; returning is its [exit].  The calls are an
    interface; a call that fills a buffer returns the bytes it stores.  The
    argument vector is a list of strings. *)
From S2P Require Import Prelude Bytes BlockDev Fs FsPath Sh Printf Grep.

(** System calls on files. *)
Class FileCalls (S : Type) := {
  c_open : list Z -> Z -> M S Z;
  c_read : Z -> Z -> M S (Z * list Z);
  c_write : Z -> list Z -> Z -> M S Z;
  c_close : Z -> M S Z;
  c_fstat : Z -> M S (Z * Fs.stat);
  c_link : list Z -> list Z -> M S Z;
  c_unlink : list Z -> M S Z;
  c_mkdir : list Z -> M S Z;
  c_mknod : list Z -> Z -> Z -> M S Z;
  c_dup : Z -> M S Z
}.
(** And on processes; [exec] that works returns to nobody. *)
Class ProcCalls (S : Type) := {
  c_fork : M S Z;
  c_wait : M S Z;
  c_exec : list Z -> list (list Z) -> M S (option Z);
  c_kill : Z -> M S Z;
  c_sleep : Z -> M S Z
}.

Module Progs.
Import Fs.

Section Progs.
Context {U : Type} `{FileCalls U}.

(** ** [printf] on a descriptor

    An argument is a number or a string; the string that is argument [k] is
    at some address, here [k]. *)
Inductive arg := Num (n : Z) | Str (s : list Z).
Definition arg_string (a : arg) : list Z := match a with Str s => s | Num _ => [] end.
Definition str_at (args : list arg) (a : Z) : list Z := nth (Z.to_nat (a - 1)) (arg_string <$> args) [].
Definition arg_words (args : list arg) : list Z := imap (fun k a => match a with Num n => u32 n | Str _ => Z.of_nat k + 1 end) args.

(** [putc], for each character. *)
Fixpoint putcs (fd : Z) (l : list Z) : M U unit :=
  match l with [] => mret tt | c :: l => c_write fd [c] 1;; putcs fd l end.
Definition printf (fd : Z) (fmt : list Z) (args : list arg) : M U unit :=
  match Printf.printf (str_at args) fmt (arg_words args) with
  | Ret l => putcs fd l
  | Panicked m => panic m | Undef w => undef w | Blocked c => blocked c | NoFuel => no_fuel
  end.
Definition line (s : string) : list Z := bytes s ++ [10].

(** ** [cat]

    [buf] is global.  [None]: the program has exited. *)

Fixpoint cat_loop (fuel : nat) (fd : Z) (buf : list Z) : M U (Z * list Z) :=
  match fuel with
  | O => no_fuel
  | S fuel =>
      r ← c_read fd 512;
      let buf := splice 0 r.2 buf in
      if r.1 >? 0 then c_write 1 buf r.1;; cat_loop fuel fd buf else mret (r.1, buf)
  end.
Definition cat (fuel : nat) (fd : Z) (buf : list Z) : M U (option (list Z)) :=
  r ← cat_loop fuel fd buf;
  if r.1 <? 0 then printf 1 (line "cat: read error") [];; mret None else mret (Some r.2).

(** The loop over the files that [cat], [wc] and [grep] have in their [main]. *)
Fixpoint each_file (cannot : list Z) (body : Z -> list Z -> list Z -> M U (option (list Z))) (argv : list (list Z)) (buf : list Z) : M U unit :=
  match argv with
  | [] => mret tt
  | a :: argv =>
      fd ← c_open a 0;
      if fd <? 0 then printf 1 cannot [Str a]
      else
        r ← body fd a buf;
        match r with
        | None => mret tt
        | Some buf => c_close fd;; each_file cannot body argv buf
        end
  end.
Definition cat_main (fuel : nat) (argv : list (list Z)) : M U unit :=
  let buf := replicate 512 0 in
  if zlen argv <=? 1 then cat fuel 0 buf;; mret tt
  else each_file (line "cat: cannot open %s") (fun fd _ => cat fuel fd) (drop 1 argv) buf.

(** ** [wc] *)

Fixpoint wc_loop (fuel : nat) (fd : Z) (buf : list Z) (k : Printf.counts) : M U (Z * list Z * Printf.counts) :=
  match fuel with
  | O => no_fuel
  | S fuel =>
      r ← c_read fd 512;
      let buf := splice 0 r.2 buf in
      if r.1 >? 0 then wc_loop fuel fd buf (fold_left Printf.count_char (take (Z.to_nat r.1) buf) k)
      else mret (r.1, buf, k)
  end.
Definition wc (fuel : nat) (fd : Z) (name buf : list Z) : M U (option (list Z)) :=
  r ← wc_loop fuel fd buf (Printf.mkCounts 0 0 0 false);
  let '(n, buf, k) := r in
  if n <? 0 then printf 1 (line "wc: read error") [];; mret None
  else printf 1 (line "%d %d %d %s") [Num (Printf.nl k); Num (Printf.nw k); Num (Printf.nc k); Str name];; mret (Some buf).
Definition wc_main (fuel : nat) (argv : list (list Z)) : M U unit :=
  let buf := replicate 512 0 in
  if zlen argv <=? 1 then wc fuel 0 [] buf;; mret tt
  else each_file (line "cat: cannot open %s") (wc fuel) (drop 1 argv) buf.

(** ** [grep] *)

Fixpoint write_lines (l : list (list Z)) : M U unit :=
  match l with [] => mret tt | x :: l => c_write 1 x (zlen x);; write_lines l end.
Fixpoint grep_loop (fuel : nat) (pattern : list Z) (fd : Z) (buf : list Z) (m : Z) : M U (list Z) :=
  match fuel with
  | O => no_fuel
  | S fuel =>
      r ← c_read fd (Grep.BUFSIZE - m);
      let buf := splice m r.2 buf in
      if r.1 >? 0 then
        match Grep.lines (S (Z.to_nat Grep.BUFSIZE)) pattern buf 0 [] with
        | Ret (buf, p, out) =>
            write_lines out;;
            let '(buf, m) := Grep.keep_rest buf p (m + r.1) in
            grep_loop fuel pattern fd buf m
        | Panicked m => panic m | Undef w => undef w | Blocked c => blocked c | NoFuel => no_fuel
        end
      else mret buf
  end.
Definition grep (fuel : nat) (pattern : list Z) (fd : Z) (buf : list Z) : M U (list Z) := grep_loop fuel pattern fd buf 0.
Definition grep_main (fuel : nat) (argv : list (list Z)) : M U unit :=
  let buf := replicate 1024 0 in
  match drop 1 argv with
  | [] => printf 2 (line "usage: grep pattern [file ...]") []
  | [pattern] => grep fuel pattern 0 buf;; mret tt
  | pattern :: files => each_file (line "grep: cannot open %s") (fun fd _ buf => b ← grep fuel pattern fd buf; mret (Some b)) files buf
  end.

(** ** [echo] *)

Fixpoint echo_loop (args : list (list Z)) : M U unit :=
  match args with
  | [] => mret tt
  | a :: rest => printf 1 (bytes "%s%s") [Str a; Str (match rest with [] => [10] | _ => [32] end)];; echo_loop rest
  end.
Definition echo_main (argv : list (list Z)) : M U unit := echo_loop (drop 1 argv).

(** ** [stat] of the library, [ls] *)

Definition stat (n : list Z) : M U (Z * Fs.stat) :=
  fd ← c_open n 0;
  if fd <? 0 then mret (-1, mkStat 0 0 0 0 0 [])
  else r ← c_fstat fd; c_close fd;; mret r.

(** The string after the last slash. *)
Fixpoint base_name (l p : list Z) : list Z :=
  match l with [] => p | c :: l => if c =? 47 then base_name l l else base_name l p end.
Definition fmtname (path : list Z) : list Z :=
  let p := base_name path path in
  if zlen p >=? DIRSIZ then p else p ++ replicate (Z.to_nat (DIRSIZ - zlen p)) 32.

Definition ls_line (name : list Z) (st : Fs.stat) : M U unit :=
  printf 1 (line "%s %d %d %d") [Str name; Num (st_type st); Num (st_ino st); Num (st_size st)].
Fixpoint ls_loop (fuel : nat) (fd : Z) (path : list Z) : M U unit :=
  match fuel with
  | O => no_fuel
  | S fuel =>
      r ← c_read fd 16;
      if r.1 =? 16 then
        let de := r.2 in
        if half de 0 =? 0 then ls_loop fuel fd path
        else
          let buf := path ++ [47] ++ cstring 14 (part 2 14 de) in
          st ← stat buf;
          (if st.1 <? 0 then printf 1 (line "ls: cannot stat %s") [Str buf] else ls_line (fmtname buf) st.2);;
          ls_loop fuel fd path
      else mret tt
  end.
Definition ls (fuel : nat) (path : list Z) : M U unit :=
  fd ← c_open path 0;
  if fd <? 0 then printf 2 (line "ls: cannot open %s") [Str path]
  else
    st ← c_fstat fd;
    if st.1 <? 0 then printf 2 (line "ls: cannot stat %s") [Str path];; c_close fd;; mret tt
    else
      (if (st_type st.2 =? T_FILE) || (st_type st.2 =? T_EXTENT) then ls_line (fmtname path) st.2
       else if st_type st.2 =? T_DIR then
         if zlen path + 1 + DIRSIZ + 1 >? 512 then printf 1 (line "ls: path too long") [] else ls_loop fuel fd path
       else mret tt);;
      c_close fd;; mret tt.
Fixpoint ls_args (fuel : nat) (args : list (list Z)) : M U unit :=
  match args with [] => mret tt | a :: args => ls fuel a;; ls_args fuel args end.
Definition ls_main (fuel : nat) (argv : list (list Z)) : M U unit :=
  if zlen argv <? 2 then ls fuel [46] else ls_args fuel (drop 1 argv).

(** ** [stat], the program *)

Fixpoint print_extents (n : nat) (addrs : list Z) : M U unit :=
  match n, addrs with
  | S n, a :: o :: addrs =>
      (if negb (a =? 0) then
         printf 1 (line "EXTENT" ++ line "base addr: %d" ++ line "offset: %d" ++ line "length: %d") [Num (Z.shiftr a 8); Num o; Num (Z.land a 255)]
       else mret tt);;
      print_extents n addrs
  | _, _ => mret tt
  end.
Fixpoint print_addrs (addrs : list Z) : M U unit :=
  match addrs with [] => mret tt | a :: addrs => printf 1 (line "addr: %d") [Num a];; print_addrs addrs end.
Definition print_stat (name : list Z) : M U Z :=
  r ← stat name;
  if r.1 <? 0 then mret (-1)
  else
    let st := r.2 in
    printf 1 (line "file: %s" ++ line "inode #: %d" ++ line "size: %d" ++ line "dev #: %d") [Str name; Num (st_ino st); Num (st_size st); Num (st_dev st)];;
    (if st_type st =? T_EXTENT then printf 1 (line "type: T_EXTENT") [];; print_extents 6 (st_addrs st)
     else if st_type st =? T_DIR then printf 1 (line "type: T_DIR") []
     else if st_type st =? T_FILE then printf 1 (line "type: T_FILE") [];; print_addrs (take 12 (st_addrs st))
     else if st_type st =? T_DEV then printf 1 (line "type: T_DEV") []
     else mret tt);;
    mret 1.
Definition stat_main (argv : list (list Z)) : M U unit :=
  match argv with
  | [_; path] => print_stat path;; mret tt
  | _ => printf 1 (bytes "usage: stat pathname") []
  end.

(** ** [ln], [rm], [mkdir] *)

Definition ln_main (argv : list (list Z)) : M U unit :=
  match argv with
  | [_; old; new] =>
      r ← c_link old new;
      if r <? 0 then printf 2 (line "link %s %s: failed") [Str old; Str new] else mret tt
  | _ => printf 2 (line "Usage: ln old new") []
  end.
Fixpoint rm_loop (args : list (list Z)) : M U unit :=
  match args with
  | [] => mret tt
  | a :: args =>
      r ← c_unlink a;
      if r <? 0 then printf 2 (line "rm: %s failed to delete") [Str a] else rm_loop args
  end.
Definition rm_main (argv : list (list Z)) : M U unit :=
  if zlen argv <? 2 then printf 2 (line "Usage: rm files...") [] else rm_loop (drop 1 argv).
Fixpoint mkdir_loop (args : list (list Z)) : M U unit :=
  match args with
  | [] => mret tt
  | a :: args =>
      r ← c_mkdir a;
      if r <? 0 then printf 2 (line "mkdir: %s failed to create") [Str a] else mkdir_loop args
  end.
Definition mkdir_main (argv : list (list Z)) : M U unit :=
  if zlen argv <? 2 then printf 2 (line "Usage: mkdir files...") [] else mkdir_loop (drop 1 argv).

(** ** Programs on processes *)
Context `{ProcCalls U}.

Fixpoint kill_loop (args : list (list Z)) : M U unit :=
  match args with [] => mret tt | a :: args => c_kill (Printf.atoi a);; kill_loop args end.
Definition kill_main (argv : list (list Z)) : M U unit :=
  if zlen argv <? 1 then printf 2 (line "usage: kill pid...") [] else kill_loop (drop 1 argv).

Definition console : list Z := bytes "console".
Definition O_RDWR : Z := 2.
Definition init_open : M U unit :=
  fd ← c_open console O_RDWR;
  (if fd <? 0 then c_mknod console 1 1;; c_open console O_RDWR;; mret tt else mret tt);;
  c_dup 0;; c_dup 0;; mret tt.
(** The children that end before the shell does. *)
Fixpoint reap (fuel : nat) (pid : Z) : M U unit :=
  match fuel with
  | O => no_fuel
  | S fuel =>
      wpid ← c_wait;
      if (wpid >=? 0) && negb (wpid =? pid) then printf 1 (line "zombie!") [];; reap fuel pid else mret tt
  end.
(** The first turns of the endless loop; true when the process has ended or is
    another program. *)
Fixpoint init_loop (turns fuel : nat) : M U bool :=
  match turns with
  | O => mret false
  | S turns =>
      printf 1 (line "init: starting sh") [];;
      pid ← c_fork;
      if pid <? 0 then printf 1 (line "init: fork failed") [];; mret true
      else if pid =? 0 then
        r ← c_exec (bytes "sh") [bytes "sh"];
        match r with None => mret true | Some _ => printf 1 (line "init: exec sh failed") [];; mret true end
      else reap fuel pid;; init_loop turns fuel
  end.
Definition init_main (turns fuel : nat) : M U bool := init_open;; init_loop turns fuel.

Definition zombie_main : M U unit :=
  pid ← c_fork;
  (if pid >? 0 then c_sleep 5;; mret tt else mret tt).
End Progs.
End Progs.
