(* ===== verification/ProgsSpec.v ===== *)
(** What [cat], [wc], [grep], [echo], [ls] and [stat] print, for any kernel whose
    calls keep the laws below: files are bytes read through descriptors, and what
    is written to 1 and 2 comes out at the console. *)
From S2P Require Import Prelude Bytes BlockDev Fs FsPath Printf PrintfSpec Grep Progs.
Import Printf.
Import Fs.
Import Progs.

(** A file as its readers see it. *)
Record ufile := mkU { u_stat : Fs.stat; u_data : list Z }.
(** The bytes that leave the machine. *)
Definition sent_bytes (l : list Z) : list Z := (fun c => c mod 256) <$> l.
Definition path_ok (p : list Z) : Prop := Forall (fun c => 0 < c < 256) p /\ zlen p < 2 ^ 20.

(** The kernel's promise: [sees s fds out] says which files are open at what
    offset, and all that was printed.  Three files may be open at a time. *)
Class FileLaws (U : Type) `{FileCalls U} := {
  sees : U -> gmap Z (ufile * Z) -> list Z -> Prop;
  at_path : list Z -> option ufile;
  open_ok p s fds out : sees s fds out -> path_ok p -> (base.size fds < 3)%nat ->
    match at_path p with
    | Some f => exists fd s', c_open p 0 s = Ret (fd, s') /\ 0 <= fd /\ fds !! fd = None /\ sees s' (<[fd := (f, 0)]> fds) out
    | None => exists s', c_open p 0 s = Ret (-1, s') /\ sees s' fds out
    end;
  read_ok fd n f o s fds out : sees s fds out -> fds !! fd = Some (f, o) -> st_type (u_stat f) <> T_DEV -> 0 <= o <= zlen (u_data f) -> 0 <= n <= 1024 ->
    let k := Z.min n (zlen (u_data f) - o) in
    exists s', c_read fd n s = Ret ((k, part o k (u_data f)), s') /\ sees s' (<[fd := (f, o + k)]> fds) out;
  write_ok fd b n s fds out : sees s fds out -> fd = 1 \/ fd = 2 -> 0 <= n <= zlen b -> zlen b <= 1024 ->
    exists s', c_write fd b n s = Ret (n, s') /\ sees s' fds (out ++ sent_bytes (take (Z.to_nat n) b));
  fstat_ok fd f o s fds out : sees s fds out -> fds !! fd = Some (f, o) -> exists s', c_fstat fd s = Ret ((0, u_stat f), s') /\ sees s' fds out;
  close_ok fd f o s fds out : sees s fds out -> fds !! fd = Some (f, o) -> exists s', c_close fd s = Ret (0, s') /\ sees s' (delete fd fds) out
}.

(** ** [printf] *)

(** A decimal number, as [printf] writes it. *)
Definition dec (n : Z) : list Z := match printint (s32 n) 10 true with Ret l => l | _ => [] end.
Lemma dec_reads n : 0 <= n < 2 ^ 31 -> atoi (dec n) = n /\ numeral 10 (dec n) n.
Proof.
  intros Hn. unfold dec. rewrite s32_small by (unfold in_s32; lia). destruct (atoi_reads_printint n [] Hn I) as (l & -> & E & HN). by rewrite app_nil_r in E.
Qed.
Lemma printf_num sa n fmt ap r : printf_loop sa fmt false ap = Ret r -> printf_loop sa (37 :: 100 :: fmt) false (u32 n :: ap) = Ret (dec n ++ r).
Proof.
  intros Hr. cbn -[printint]. rewrite s32_u32. unfold dec, printint. destruct (print_number_ok upper 10 (s32 n) true) as (l & E & _); [by left|done|apply s32_range|].
  fold upper. rewrite E. cbn [rbind]. by rewrite Hr.
Qed.
Lemma printf_str sa a fmt ap r : a <> 0 -> printf_loop sa fmt false ap = Ret r -> printf_loop sa (37 :: 115 :: fmt) false (a :: ap) = Ret (sa a ++ r).
Proof. intros Ha Hr. cbn. by rewrite (proj2 (Z.eqb_neq a 0)), Hr by done. Qed.
Lemma printf_char sa c fmt ap r : c <> 37 -> printf_loop sa fmt false ap = Ret r -> printf_loop sa (c :: fmt) false ap = Ret (c :: r).
Proof. intros Hc Hr. cbn. by rewrite (proj2 (Z.eqb_neq c 37)), Hr by done. Qed.

(** ** What the programs say of the files [look] finds *)

Section Texts.
Context (look : list Z -> option ufile).

(** Where the list ends, or has a name that is not there. *)
Fixpoint printed_of (cannot : list Z -> list Z) (text : list Z -> ufile -> list Z) (argv : list (list Z)) : list Z :=
  match argv with
  | [] => []
  | a :: argv => match look a with Some f => text a f ++ printed_of cannot text argv | None => cannot a end
  end.
Definition file_ok (a : list Z) : Prop := path_ok a /\ forall f, look a = Some f -> st_type (u_stat f) <> T_DEV.
(** Reads enough for any file that is named. *)
Definition reads_enough (argv : list (list Z)) (fuel : nat) : Prop :=
  forall a f, a ∈ argv -> look a = Some f -> (zlen (u_data f) + 511) / 512 < Z.of_nat fuel.
Definition cat_text (argv : list (list Z)) : list Z := printed_of (fun a => bytes "cat: cannot open " ++ a ++ [10]) (fun _ f => u_data f) argv.
(** The counts of newlines, words and bytes, and the name. *)
Definition wc_text (name : list Z) (f : ufile) : list Z :=
  dec (newlines (u_data f)) ++ [32] ++ dec (zlen (PrintfSpec.words (u_data f))) ++ [32] ++ dec (zlen (u_data f)) ++ [32] ++ name ++ [10].
Definition wc_texts (argv : list (list Z)) : list Z := printed_of (fun a => bytes "cat: cannot open " ++ a ++ [10]) wc_text argv.
Definition ls_text (name : list Z) (st : Fs.stat) : list Z := name ++ [32] ++ dec (st_type st) ++ [32] ++ dec (st_ino st) ++ [32] ++ dec (st_size st) ++ [10].
(** What one name shows. *)
Definition shown (path : list Z) : list Z :=
  match look path with Some g => ls_text (fmtname path) (u_stat g) | None => bytes "ls: cannot stat " ++ path ++ [10] end.
(** The entries of a directory's bytes from the [o]th on. *)
Fixpoint entries_shown (n : nat) (path data : list Z) (o : Z) : list Z :=
  match n with
  | O => []
  | S n => (if half data o =? 0 then [] else shown (path ++ [47] ++ cstring 14 (part (o + 2) 14 data))) ++ entries_shown n path data (o + 16)
  end.
Definition ls_shown (path : list Z) : list Z :=
  match look path with
  | None => bytes "ls: cannot open " ++ path ++ [10]
  | Some f =>
      let t := st_type (u_stat f) in
      if (t =? T_FILE) || (t =? T_EXTENT) then ls_text (fmtname path) (u_stat f)
      else if t =? T_DIR then
        if zlen path + 16 >? 512 then bytes "ls: path too long" ++ [10] else entries_shown (Z.to_nat (zlen (u_data f) / 16)) path (u_data f) 0
      else []
  end.

Definition byte_list (l : list Z) : Prop := Forall byte_ok l.
(** A name [ls] can be given: a directory's bytes are bytes, its entries fewer than
    the turns of the loop. *)
Definition ls_ok (fuel : nat) (a : list Z) : Prop := path_ok a /\ forall f, look a = Some f -> byte_list (u_data f) /\ zlen (u_data f) / 16 < Z.of_nat fuel.
End Texts.

(** ** Lines of text *)

Definition text_of (ls : list (list Z)) : list Z := mjoin ((fun l => l ++ [10]) <$> ls).
Definition line_ok (l : list Z) : Prop := Forall (fun c => c <> 0 /\ c <> 10) l.
Definition hits (pattern : list Z) (ls : list (list Z)) : list (list Z) := (fun l => l ++ [10]) <$> filter (fun l => Grep.matches pattern l = true) ls.

Lemma text_cons l ls : text_of (l :: ls) = l ++ [10] ++ text_of ls.
Proof. unfold text_of. cbn [fmap list_fmap]. change (mjoin (?x :: ?y)) with (x ++ mjoin y). by rewrite <- app_assoc. Qed.
Lemma newline_found l rest p : line_ok l -> Grep.newline_in (l ++ 10 :: rest) p = Ret (Some (p + zlen l)).
Proof.
  intros Hl. revert p. induction Hl as [|c l [H0 H10] Hl IH]; intros p; cbn [app Grep.newline_in]; [by rewrite Z.add_0_r|].
  rewrite (proj2 (Z.eqb_neq c 0)), (proj2 (Z.eqb_neq c 10)), IH by done. do 2 f_equal. unfold zlen. cbn [length]. lia.
Qed.
Lemma grep_lines pattern ls : Forall line_ok ls -> forall fuel pre post acc, (length ls < fuel)%nat ->
  exists buf, Grep.lines fuel pattern (pre ++ text_of ls ++ 0 :: post) (zlen pre) acc = Ret (buf, zlen pre + zlen (text_of ls), acc ++ hits pattern ls) /\
    zlen buf = zlen (pre ++ text_of ls ++ 0 :: post).
Proof.
  induction 1 as [|l ls Hl HF IH]; intros fuel pre post acc Hf; (destruct fuel as [|fuel]; [cbn in Hf; lia|]); cbn [Grep.lines].
  - unfold zlen at 1. rewrite Nat2Z.id, drop_app_length. cbn. rewrite app_nil_r, Z.add_0_r. by eexists.
  - rewrite text_cons. unfold zlen at 1. rewrite Nat2Z.id, drop_app_length. rewrite <- !app_assoc. change ([10] ++ text_of ls ++ 0 :: post) with (10 :: text_of ls ++ 0 :: post).
    rewrite newline_found by done. unfold Grep.line. replace (zlen pre + zlen l - zlen pre) with (zlen l) by lia. rewrite part_mid.
    assert (Hlen : zlen (l ++ [10] ++ text_of ls) = zlen (l ++ [10]) + zlen (text_of ls)) by (rewrite app_assoc; apply zlen_app).
    assert (Hz : zlen pre + zlen l + 1 = zlen (pre ++ l ++ [10])) by (rewrite !zlen_app; change (zlen [10]) with 1; lia).
    assert (Hz0 : zlen (pre ++ l ++ [0]) = zlen (pre ++ l ++ [10])) by (rewrite !zlen_app; done).
    assert (Hh : hits pattern (l :: ls) = (if Grep.matches pattern l then [l ++ [10]] else []) ++ hits pattern ls).
    { unfold hits. rewrite filter_cons. destruct (Grep.matches pattern l); [by rewrite decide_True|by rewrite decide_False]. }
    rewrite Hh, Hz. destruct (Grep.matches pattern l).
    + assert (E : part (zlen pre) (zlen (pre ++ l ++ [10]) - zlen pre) (pre ++ l ++ 10 :: text_of ls ++ 0 :: post) = l ++ [10]).
      { replace (zlen (pre ++ l ++ [10]) - zlen pre) with (zlen (l ++ [10])) by (rewrite (zlen_app pre); lia). pose proof (part_mid pre (l ++ [10]) (text_of ls ++ 0 :: post)) as E. by rewrite <- app_assoc in E. }
      rewrite E. destruct (IH fuel (pre ++ l ++ [10]) post (acc ++ [l ++ [10]])) as (buf & E2 & Hb); [cbn in Hf; lia|]. rewrite <- !app_assoc in E2, Hb. cbn [app] in E2, Hb |- *. rewrite E2. clear E2.
      exists buf. split; [|done]. rewrite <- ?(app_assoc acc). cbn [app]. do 3 f_equal. unfold zlen. rewrite ?length_app; cbn [length]; rewrite ?length_app; cbn [length]; lia.
    + assert (E : splice (zlen pre + zlen l) [0] (pre ++ l ++ 10 :: text_of ls ++ 0 :: post) = (pre ++ l ++ [0]) ++ text_of ls ++ 0 :: post).
      { rewrite <- zlen_app. pose proof (splice_mid (pre ++ l) [10] (text_of ls ++ 0 :: post) [0] eq_refl) as E. rewrite <- !app_assoc in E |- *. exact E. }
      rewrite E. destruct (IH fuel (pre ++ l ++ [0]) post acc) as (buf & E2 & Hb); [cbn in Hf; lia|]. rewrite Hz0 in E2. rewrite E2. cbn [app].
      exists buf. split; [do 3 f_equal|rewrite Hb]; unfold zlen; rewrite ?length_app; cbn [length]; rewrite ?length_app; cbn [length]; lia.
Qed.

Section Laws.
Context {U : Type} `{FileLaws U}.
Implicit Types (s : U) (fds : gmap Z (ufile * Z)) (out : list Z).
Notation printed_of := (printed_of at_path).
Notation file_ok := (file_ok at_path).
Notation reads_enough := (reads_enough at_path).
Notation cat_text := (cat_text at_path).
Notation wc_texts := (wc_texts at_path).
Notation shown := (shown at_path).
Notation entries_shown := (entries_shown at_path).
Notation ls_shown := (ls_shown at_path).
Notation ls_ok := (ls_ok at_path).

Lemma sent_app l1 l2 : sent_bytes (l1 ++ l2) = sent_bytes l1 ++ sent_bytes l2.
Proof. apply fmap_app. Qed.
Lemma wp_putcs fd l : fd = 1 \/ fd = 2 -> forall s fds out Q, sees s fds out -> (forall s', sees s' fds (out ++ sent_bytes l) -> Q tt s') -> wp (putcs fd l) Q s.
Proof.
  intros Hfd. induction l as [|c l IH]; intros s fds out Q Hs HQ; cbn [putcs]; [apply wp_ret, HQ; by rewrite app_nil_r|].
  destruct (write_ok fd [c] 1 s fds out Hs Hfd) as (s' & E & Hs'); [unfold zlen; cbn; lia..|]. apply wp_bind, wp_iff. eexists _, _. split; [exact E|].
  apply (IH _ _ _ _ Hs'). intros s2 Hs2. apply HQ. by rewrite <- app_assoc in Hs2.
Qed.
Lemma wp_printf fd fmt args l s fds out Q : fd = 1 \/ fd = 2 -> Printf.printf (str_at args) fmt (arg_words args) = Ret l -> sees s fds out ->
  (forall s', sees s' fds (out ++ sent_bytes l) -> Q tt s') -> wp (printf fd fmt args) Q s.
Proof. intros Hfd E Hs HQ. unfold printf. rewrite E. by eapply wp_putcs. Qed.

(** One call of the kernel. *)
Lemma wp_call {A} (m : M U A) a s s' Q : m s = Ret (a, s') -> Q a s' -> wp m Q s.
Proof. intros E HQ. apply wp_iff. by exists a, s'. Qed.

(** ** The loop over files *)


Lemma wp_each_file cannot cannot_text text body (I : list Z -> Prop) argv : Forall file_ok argv ->
  (forall a, Printf.printf (str_at [Str a]) cannot (arg_words [Str a]) = Ret (cannot_text a)) ->
  (forall a f fd buf s fds out Q, sees s (<[fd := (f, 0)]> fds) out -> a ∈ argv -> at_path a = Some f -> st_type (u_stat f) <> T_DEV -> I buf ->
    (forall s' buf', I buf' -> sees s' (<[fd := (f, zlen (u_data f))]> fds) (out ++ sent_bytes (text a f)) -> Q (Some buf') s') -> wp (body fd a buf) Q s) ->
  forall buf s fds out Q, sees s fds out -> I buf -> (base.size fds < 3)%nat ->
  (forall s', sees s' fds (out ++ sent_bytes (printed_of cannot_text text argv)) -> Q tt s') -> wp (each_file cannot body argv buf) Q s.
Proof.
  intros HF Hc. induction HF as [|a argv [Hp Ht] HF IH]; intros Hb buf s fds out Q Hs HI Hn HQ; cbn [each_file ProgsSpec.printed_of] in *; [apply wp_ret, HQ; by rewrite app_nil_r|].
  pose proof (open_ok a s fds out Hs Hp Hn) as Ho. destruct (at_path a) as [f|] eqn:Ea.
  - destruct Ho as (fd & s1 & E & Hfd & Hno & Hs1). apply wp_bind. eapply wp_call; [exact E|]. rewrite (proj2 (Z.ltb_ge fd 0)) by done.
    eapply wp_bind, Hb; [exact Hs1|left|exact Ea|by apply Ht|exact HI|]. intros s2 buf' HI' Hs2. destruct (close_ok fd f (zlen (u_data f)) s2 _ _ Hs2) as (s3 & E3 & Hs3); [by rewrite lookup_insert_eq|].
    apply wp_bind. eapply wp_call; [exact E3|]. rewrite delete_insert_id in Hs3 by done. eapply IH; [|exact Hs3|exact HI'|done|].
    + intros a' f' fd' b' s' fds' out' Q' Hs' Hin. apply Hb; [done|by right].
    + intros s4 Hs4. apply HQ. by rewrite sent_app, app_assoc.
  - destruct Ho as (s1 & E & Hs1). apply wp_bind. eapply wp_call; [exact E|]. rewrite (proj2 (Z.ltb_lt (-1) 0)) by done. eapply wp_printf; [by left|apply Hc|exact Hs1|exact HQ].
Qed.

(** ** [cat] *)

(** The buffer after a read. *)
Lemma filled (buf x : list Z) n : zlen buf = n -> zlen x <= n -> zlen (splice 0 x buf) = n /\ take (Z.to_nat (zlen x)) (splice 0 x buf) = x.
Proof.
  intros Hb Hx. split; [rewrite zlen_splice; lia|]. pose proof (part_splice_eq 0 x buf) as E. unfold part in E. rewrite drop_0 in E. apply E; lia.
Qed.
Lemma rest_split o k (x : list Z) : 0 <= o -> 0 <= k -> o + k <= zlen x -> drop (Z.to_nat o) x = part o k x ++ drop (Z.to_nat (o + k)) x.
Proof. intros Ho Hk Hx. unfold part. rewrite <- (take_drop (Z.to_nat k) (drop (Z.to_nat o) x)) at 1. rewrite drop_drop. do 2 f_equal. lia. Qed.

Lemma wp_cat_loop fuel : forall fd f o buf s fds out Q, sees s (<[fd := (f, o)]> fds) out -> st_type (u_stat f) <> T_DEV -> 0 <= o <= zlen (u_data f) -> zlen buf = 512 ->
  (zlen (u_data f) - o + 511) / 512 < Z.of_nat fuel ->
  (forall s' buf', zlen buf' = 512 -> sees s' (<[fd := (f, zlen (u_data f))]> fds) (out ++ sent_bytes (drop (Z.to_nat o) (u_data f))) -> Q (0, buf') s') -> wp (cat_loop fuel fd buf) Q s.
Proof.
  induction fuel as [|fuel IH]; intros fd f o buf s fds out Q Hs Ht Ho Hb Hf HQ; [dlia|]. cbn [cat_loop].
  destruct (read_ok fd 512 f o s _ _ Hs) as (s1 & E & Hs1); [by rewrite lookup_insert_eq|done|done|lia|]. apply wp_bind. eapply wp_call; [exact E|]. cbn [fst snd].
  set (k := Z.min 512 (zlen (u_data f) - o)) in *. rewrite insert_insert_eq in Hs1. assert (Hl : zlen (part o k (u_data f)) = k) by (apply part_length; lia).
  destruct (filled buf (part o k (u_data f)) 512 Hb) as [Hb' Ht']; [lia|]. destruct (Z.gtb_spec k 0) as [Hk|Hk].
  - destruct (write_ok 1 (splice 0 (part o k (u_data f)) buf) k s1 _ _ Hs1) as (s2 & E2 & Hs2); [by left|lia|lia|]. apply wp_bind. eapply wp_call; [exact E2|]. rewrite Hl in Ht'. rewrite Ht' in Hs2.
    eapply IH; [exact Hs2|done|lia|done|dlia|]. intros s3 buf' Hb3 Hs3. apply HQ; [done|]. rewrite (rest_split o k) by lia. by rewrite sent_app, app_assoc.
  - assert (Eo : o = zlen (u_data f)) by lia. assert (k = 0) as Ek by lia. rewrite Ek, Z.add_0_r, Eo in *. apply wp_ret. apply HQ; [done|]. rewrite drop_ge by (unfold zlen; lia). by rewrite app_nil_r.
Qed.


Lemma wp_cat_main fuel name a argv s fds out Q : sees s fds out -> (base.size fds < 3)%nat -> Forall file_ok (a :: argv) -> reads_enough (a :: argv) fuel ->
  (forall s', sees s' fds (out ++ sent_bytes (cat_text (a :: argv))) -> Q tt s') -> wp (cat_main fuel (name :: a :: argv)) Q s.
Proof.
  intros Hs Hn HF Hfu HQ. unfold cat_main. rewrite (proj2 (Z.leb_gt _ 1)) by (unfold zlen; cbn [length]; lia).
  eapply (wp_each_file _ _ _ _ (fun buf => zlen buf = 512)); [exact HF|intros x; reflexivity| |exact Hs|done|exact Hn|exact HQ].
  intros x f fd buf s1 fds1 out1 Q1 Hs1 Hx Ex Ht Hb HQ1. unfold cat. eapply wp_bind, wp_cat_loop; [exact Hs1|done|pose proof (zlen_nonneg (u_data f)); lia|done|rewrite Z.sub_0_r; by eapply Hfu|].
  intros s2 buf' Hb' Hs2. apply wp_ret. by apply HQ1.
Qed.

(** ** [wc] *)

Lemma wp_wc_loop fuel : forall fd f o buf k s fds out Q, sees s (<[fd := (f, o)]> fds) out -> st_type (u_stat f) <> T_DEV -> 0 <= o <= zlen (u_data f) -> zlen buf = 512 ->
  (zlen (u_data f) - o + 511) / 512 < Z.of_nat fuel ->
  (forall s' buf', zlen buf' = 512 -> sees s' (<[fd := (f, zlen (u_data f))]> fds) out -> Q (0, buf', fold_left count_char (drop (Z.to_nat o) (u_data f)) k) s') -> wp (wc_loop fuel fd buf k) Q s.
Proof.
  induction fuel as [|fuel IH]; intros fd f o buf c s fds out Q Hs Ht Ho Hb Hf HQ; [dlia|]. cbn [wc_loop].
  destruct (read_ok fd 512 f o s _ _ Hs) as (s1 & E & Hs1); [by rewrite lookup_insert_eq|done|done|lia|]. apply wp_bind. eapply wp_call; [exact E|]. cbn [fst snd].
  set (k := Z.min 512 (zlen (u_data f) - o)) in *. rewrite insert_insert_eq in Hs1. assert (Hl : zlen (part o k (u_data f)) = k) by (apply part_length; lia).
  destruct (filled buf (part o k (u_data f)) 512 Hb) as [Hb' Ht']; [lia|]. destruct (Z.gtb_spec k 0) as [Hk|Hk].
  - rewrite Hl in Ht'. rewrite Ht'. eapply IH; [exact Hs1|done|lia|done|dlia|]. intros s3 buf' Hb3 Hs3. rewrite <- fold_left_app, <- rest_split by lia. by apply HQ.
  - assert (Eo : o = zlen (u_data f)) by lia. assert (k = 0) as Ek by lia. rewrite Ek, Z.add_0_r, Eo in *. apply wp_ret. rewrite (drop_ge _ (Z.to_nat _)) in HQ by (unfold zlen; lia). by apply HQ.
Qed.

Lemma wc_printed data name : zlen data < 2 ^ 31 -> let k := fold_left count_char data (mkCounts 0 0 0 false) in
  Printf.printf (str_at [Num (nl k); Num (nw k); Num (nc k); Str name]) (line "%d %d %d %s") (arg_words [Num (nl k); Num (nw k); Num (nc k); Str name]) =
    Ret (dec (newlines data) ++ [32] ++ dec (zlen (PrintfSpec.words data)) ++ [32] ++ dec (zlen data) ++ [32] ++ name ++ [10]).
Proof.
  intros Hlen k. pose proof (zlen_nonneg data). destruct (count_ok data (mkCounts 0 0 0 false)) as (E1 & E2 & E3); [cbn; lia..|]. fold k in E1, E2, E3. clearbody k. cbn [nl nw nc inword andb] in *.
  rewrite Z.sub_0_r, !Z.add_0_l in *. rewrite E1, E2, E3. change (line "%d %d %d %s") with [37; 100; 32; 37; 100; 32; 37; 100; 32; 37; 115; 10]. unfold Printf.printf, arg_words. cbn [imap]. unfold compose. cbv beta iota. change (Z.of_nat 3 + 1) with 4.
  apply printf_num, printf_char, printf_num, printf_char, printf_num, printf_char; [done..|]. exact (printf_str _ 4 [10] [] [10] ltac:(done) eq_refl).
Qed.

Lemma wp_wc_main fuel name a argv s fds out Q : sees s fds out -> (base.size fds < 3)%nat -> Forall file_ok (a :: argv) -> reads_enough (a :: argv) fuel ->
  (forall x f, x ∈ a :: argv -> at_path x = Some f -> zlen (u_data f) < 2 ^ 31) ->
  (forall s', sees s' fds (out ++ sent_bytes (wc_texts (a :: argv))) -> Q tt s') -> wp (wc_main fuel (name :: a :: argv)) Q s.
Proof.
  intros Hs Hn HF Hfu Hlen HQ. unfold wc_main. rewrite (proj2 (Z.leb_gt _ 1)) by (unfold zlen; cbn [length]; lia).
  eapply (wp_each_file _ _ _ _ (fun buf => zlen buf = 512)); [exact HF|intros x; reflexivity| |exact Hs|done|exact Hn|exact HQ].
  intros x f fd buf s1 fds1 out1 Q1 Hs1 Hx Ex Ht Hb HQ1. unfold wc. eapply wp_bind, wp_wc_loop; [exact Hs1|done|pose proof (zlen_nonneg (u_data f)); lia|done|rewrite Z.sub_0_r; by eapply Hfu|].
  intros s2 buf' Hb' Hs2. cbn [Z.ltb Z.compare]. eapply wp_bind, wp_printf; [by left|apply wc_printed; by eapply Hlen|exact Hs2|]. intros s3 Hs3. apply wp_ret. by apply HQ1.
Qed.

(** ** [grep], on a file that one read holds *)

Lemma wp_write_lines l : forall s fds out Q, sees s fds out -> Forall (fun x => zlen x <= 1024) l -> (forall s', sees s' fds (out ++ sent_bytes (mjoin l)) -> Q tt s') -> wp (write_lines l) Q s.
Proof.
  induction l as [|x l IH]; intros s fds out Q Hs HF HQ; cbn [write_lines]; [apply wp_ret, HQ; by rewrite app_nil_r|]. apply Forall_cons in HF as [Hx HF].
  destruct (write_ok 1 x (zlen x) s fds out Hs) as (s1 & E & Hs1); [by left|pose proof (zlen_nonneg x); lia|done|]. apply wp_bind. eapply wp_call; [exact E|].
  eapply IH; [exact Hs1|exact HF|]. intros s2 Hs2. apply HQ. change (mjoin (x :: l)) with (x ++ mjoin l). rewrite sent_app, app_assoc. unfold zlen in Hs2. by rewrite Nat2Z.id, firstn_all in Hs2.
Qed.
Lemma hits_short pattern ls : zlen (text_of ls) <= 1024 -> Forall (fun x => zlen x <= 1024) (hits pattern ls).
Proof.
  intros Hl. apply Forall_forall. intros x (l & -> & [_ Hin]%list_elem_of_filter)%list_elem_of_fmap. etrans; [|exact Hl].
  clear Hl. induction ls as [|y ls IH]; [by apply elem_of_nil in Hin|]. rewrite text_cons, app_assoc, !zlen_app. pose proof (zlen_nonneg (text_of ls)). pose proof (zlen_nonneg y). pose proof (zlen_nonneg [10]).
  apply elem_of_cons in Hin as [->|Hin]; [lia|]. specialize (IH Hin). rewrite zlen_app in IH. lia.
Qed.
Lemma splice_front (x : list Z) n : (length x < n)%nat -> splice 0 x (replicate n 0) = x ++ 0 :: replicate (n - 1 - length x) 0.
Proof. intros Hn. unfold splice. change (take (Z.to_nat 0) (replicate n 0)) with (@nil Z). change (Z.to_nat 0 + length x)%nat with (length x). rewrite drop_replicate. by replace (n - length x)%nat with (S (n - 1 - length x)) by lia. Qed.

Lemma wp_grep fuel pattern fd f ls s fds out Q : sees s (<[fd := (f, 0)]> fds) out -> st_type (u_stat f) <> T_DEV -> u_data f = text_of ls -> Forall line_ok ls -> zlen (u_data f) <= 1023 -> (1 < fuel)%nat ->
  (forall s' b, sees s' (<[fd := (f, zlen (u_data f))]> fds) (out ++ sent_bytes (mjoin (hits pattern ls))) -> Q b s') -> wp (grep fuel pattern fd (replicate 1024 0)) Q s.
Proof.
  intros Hs Ht Hd HF Hl Hfu HQ. destruct fuel as [|[|fuel]]; [lia|lia|]. unfold grep. cbn [grep_loop]. unfold Grep.BUFSIZE. pose proof (zlen_nonneg (u_data f)).
  destruct (read_ok fd (1024 - 0) f 0 s _ _ Hs) as (s1 & E & Hs1); [by rewrite lookup_insert_eq|done|lia|lia|]. apply wp_bind. eapply wp_call; [exact E|]. cbn [fst snd]. clear E.
  rewrite Z.min_r, Z.sub_0_r, insert_insert_eq, Z.add_0_l in * by lia. assert (Ep : part 0 (zlen (u_data f)) (u_data f) = u_data f) by (unfold part, zlen; rewrite Nat2Z.id; apply firstn_all). rewrite Ep.
  destruct (Z.gtb_spec (zlen (u_data f)) 0) as [Hp|Hp].
  2: { apply wp_ret. replace ls with (@nil (list Z)) in HQ; [by rewrite app_nil_r in HQ; apply HQ|]. destruct ls as [|l ls]; [done|]. exfalso. rewrite Hd, text_cons, !zlen_app in Hp. change (zlen [10]) with 1 in Hp.
       pose proof (zlen_nonneg l). pose proof (zlen_nonneg (text_of ls)). lia. }
  rewrite splice_front by (unfold zlen in Hl; lia). rewrite Hd. destruct (grep_lines pattern ls HF (S (Z.to_nat 1024)) [] (replicate (1024 - 1 - length (text_of ls)) 0) []) as (buf & E & Hb).
  { rewrite Hd in Hl. clear -Hl. assert (length ls <= length (text_of ls))%nat; [|unfold zlen in Hl; lia]. clear Hl. induction ls as [|l ls IH]; [done|]. rewrite text_cons, !length_app. cbn [length]. lia. }
  change ([] ++ text_of ls ++ 0 :: ?x) with (text_of ls ++ 0 :: x) in E. change (zlen []) with 0 in E. rewrite E. rewrite Z.add_0_l. change ([] ++ hits pattern ls) with (hits pattern ls). cbv iota. clear E.
  eapply wp_bind, wp_write_lines; [exact Hs1|apply hits_short; rewrite <- Hd; lia|]. intros s2 Hs2. rewrite <- Hd. unfold Grep.keep_rest. rewrite (proj2 (Z.eqb_neq _ 0)) by lia. rewrite (proj2 (Z.gtb_lt _ 0)) by lia.
  rewrite Z.sub_diag. unfold Grep.BUFSIZE. destruct (read_ok fd (1024 - 0) f (zlen (u_data f)) s2 _ _ Hs2) as (s3 & E3 & Hs3); [by rewrite lookup_insert_eq|done|lia|lia|].
  apply wp_bind. eapply wp_call; [exact E3|]. cbn [fst snd]. rewrite Z.min_r, Z.sub_diag, Z.add_0_r, insert_insert_eq in * by lia. apply wp_ret. by apply HQ.
Qed.

Lemma wp_grep_main fuel name pattern a f ls s fds out Q : sees s fds out -> (base.size fds < 3)%nat -> file_ok a -> at_path a = Some f -> u_data f = text_of ls -> Forall line_ok ls -> zlen (u_data f) <= 1023 -> (1 < fuel)%nat ->
  (forall s', sees s' fds (out ++ sent_bytes (mjoin (hits pattern ls))) -> Q tt s') -> wp (grep_main fuel [name; pattern; a]) Q s.
Proof.
  intros Hs Hn [Hp Ht] Ef Hd HF Hl Hfu HQ. unfold grep_main. cbn [drop each_file]. pose proof (open_ok a s fds out Hs Hp Hn) as Ho. rewrite Ef in Ho. destruct Ho as (fd & s1 & E & Hfd & Hno & Hs1).
  apply wp_bind. eapply wp_call; [exact E|]. rewrite (proj2 (Z.ltb_ge fd 0)) by done. eapply wp_bind, wp_bind, wp_grep; [exact Hs1|by apply Ht|exact Hd|exact HF|exact Hl|exact Hfu|]. intros s2 b Hs2. apply wp_ret.
  destruct (close_ok fd f (zlen (u_data f)) s2 _ _ Hs2) as (s3 & E3 & Hs3); [by rewrite lookup_insert_eq|]. apply wp_bind. eapply wp_call; [exact E3|]. rewrite delete_insert_id in Hs3 by done. apply wp_ret. by apply HQ.
Qed.

(** ** [echo] *)

Fixpoint spaced (l : list (list Z)) : list Z :=
  match l with [] => [] | [x] => x ++ [10] | x :: l => x ++ [32] ++ spaced l end.
Lemma wp_echo_loop args : forall s fds out Q, sees s fds out -> (forall s', sees s' fds (out ++ sent_bytes (spaced args)) -> Q tt s') -> wp (echo_loop args) Q s.
Proof.
  induction args as [|a args IH]; intros s fds out Q Hs HQ; cbn [echo_loop]; [apply wp_ret, HQ; by rewrite app_nil_r|].
  eapply wp_bind, (wp_printf 1 _ _ (a ++ match args with [] => [10] | _ => [32] end)); [by left| |exact Hs|].
  - unfold Printf.printf. change (bytes "%s%s") with [37; 115; 37; 115]. set (t := match args with [] => [10] | _ => [32] end).
    exact (printf_str (str_at [Str a; Str t]) 1 [37; 115] [2] t ltac:(done) (eq_trans (printf_str (str_at [Str a; Str t]) 2 [] [] [] ltac:(done) eq_refl) (f_equal Ret (app_nil_r t)))).
  - intros s1 Hs1. eapply IH; [exact Hs1|]. intros s2 Hs2. apply HQ. destruct args as [|b args]; cbn [spaced] in *.
    + by rewrite app_nil_r in Hs2.
    + rewrite <- app_assoc, <- sent_app, <- app_assoc in Hs2. exact Hs2.
Qed.

(** ** [ls] *)

Lemma wp_ls_line name st s fds out Q : sees s fds out -> (forall s', sees s' fds (out ++ sent_bytes (ls_text name st)) -> Q tt s') -> wp (ls_line name st) Q s.
Proof.
  intros Hs HQ. eapply wp_printf; [by left| |exact Hs|exact HQ]. change (line "%s %d %d %d") with [37; 115; 32; 37; 100; 32; 37; 100; 32; 37; 100; 10]. unfold Printf.printf, arg_words. cbn [imap]. unfold compose. cbv beta iota.
  apply (printf_str (str_at [Str name; _; _; _]) (Z.of_nat 0 + 1)); [done|]. by apply printf_char, printf_num, printf_char, printf_num, printf_char, printf_num, printf_char.
Qed.

(** [stat], which leaves nothing open. *)
Lemma wp_stat path s fds out Q : sees s fds out -> path_ok path -> (base.size fds < 3)%nat ->
  (forall s', sees s' fds out -> Q (match at_path path with Some f => (0, u_stat f) | None => (-1, mkStat 0 0 0 0 0 []) end) s') -> wp (stat path) Q s.
Proof.
  intros Hs Hp Hn HQ. unfold stat. pose proof (open_ok path s fds out Hs Hp Hn) as Ho. destruct (at_path path) as [f|].
  - destruct Ho as (fd & s1 & E & Hfd & Hno & Hs1). apply wp_bind. eapply wp_call; [exact E|]. rewrite (proj2 (Z.ltb_ge fd 0)) by done.
    destruct (fstat_ok fd f 0 s1 _ _ Hs1) as (s2 & E2 & Hs2); [by rewrite lookup_insert_eq|]. apply wp_bind. eapply wp_call; [exact E2|].
    destruct (close_ok fd f 0 s2 _ _ Hs2) as (s3 & E3 & Hs3); [by rewrite lookup_insert_eq|]. apply wp_bind. eapply wp_call; [exact E3|]. rewrite delete_insert_id in Hs3 by done. apply wp_ret. by apply HQ.
  - destruct Ho as (s1 & E & Hs1). apply wp_bind. eapply wp_call; [exact E|]. apply wp_ret. by apply HQ.
Qed.

Lemma cstring_ok n l : byte_list l -> Forall (fun c => 0 < c < 256) (cstring n l) /\ (length (cstring n l) <= n)%nat.
Proof.
  revert l. induction n as [|n IH]; intros l Hl; [split; [constructor|cbn; lia]|]. destruct Hl as [|c l Hc Hl]; cbn [cstring]; [split; [constructor|cbn; lia]|].
  destruct (Z.eqb_spec c 0); [split; [constructor|cbn; lia]|]. destruct (IH l Hl) as [H1 H2]. split; [constructor; [unfold byte_ok in Hc; lia|done]|cbn; lia].
Qed.
Lemma entry_path path data o : path_ok path -> zlen path <= 496 -> byte_list data -> path_ok (path ++ [47] ++ cstring 14 (part o 14 data)).
Proof.
  intros [Hp _] Hl Hd. destruct (cstring_ok 14 (part o 14 data)) as [H1 H2]; [by apply Forall_take, Forall_drop|]. split; [by apply Forall_app; split; [|constructor]|].
  rewrite !zlen_app. change (zlen [47]) with 1. unfold zlen in *. lia.
Qed.

Lemma wp_ls_loop path f fuel : path_ok path -> zlen path <= 496 -> byte_list (u_data f) -> st_type (u_stat f) <> T_DEV -> forall fd k s fds out Q,
  sees s (<[fd := (f, 16 * k)]> fds) out -> fds !! fd = None -> (base.size fds < 2)%nat -> 0 <= k -> 16 * k <= zlen (u_data f) -> zlen (u_data f) / 16 - k < Z.of_nat fuel ->
  (forall s' o, sees s' (<[fd := (f, o)]> fds) (out ++ sent_bytes (entries_shown (Z.to_nat (zlen (u_data f) / 16 - k)) path (u_data f) (16 * k))) -> Q tt s') -> wp (ls_loop fuel fd path) Q s.
Proof.
  intros Hp Hlen Hb Ht. induction fuel as [|fuel IH]; intros fd k s fds out Q Hs Hno Hn Hk Hkl Hf HQ; [dlia|]. cbn [ls_loop].
  destruct (read_ok fd 16 f (16 * k) s _ _ Hs) as (s1 & E & Hs1); [by rewrite lookup_insert_eq|done|lia|lia|]. apply wp_bind. eapply wp_call; [exact E|]. cbn [fst snd]. clear E.
  rewrite insert_insert_eq in Hs1. destruct (Z.eqb_spec (Z.min 16 (zlen (u_data f) - 16 * k)) 16) as [E|E].
  - rewrite E in *. assert (En : Z.to_nat (zlen (u_data f) / 16 - k) = S (Z.to_nat (zlen (u_data f) / 16 - (k + 1)))) by dlia. rewrite En in HQ. cbn [ProgsSpec.entries_shown] in HQ.
    replace (16 * k + 16) with (16 * (k + 1)) in * by lia. unfold half at 1. rewrite part_part, Z.add_0_r by lia. fold (half (u_data f) (16 * k)). rewrite part_part by lia.
    assert (Hnext : forall s2 out2, sees s2 (<[fd := (f, 16 * (k + 1))]> fds) (out ++ sent_bytes out2) ->
      (out2 = if half (u_data f) (16 * k) =? 0 then [] else shown (path ++ [47] ++ cstring 14 (part (16 * k + 2) 14 (u_data f)))) -> wp (ls_loop fuel fd path) Q s2).
    { intros s2 out2 Hs2 Eo. eapply IH; [exact Hs2|done|done|lia|dlia|lia|]. intros s3 o Hs3. apply (HQ s3 o). by rewrite sent_app, app_assoc, <- Eo. }
    destruct (half (u_data f) (16 * k) =? 0); [apply (Hnext s1 []); [by rewrite app_nil_r|done]|].
    set (p := path ++ [47] ++ cstring 14 (part (16 * k + 2) 14 (u_data f))) in *. eapply wp_bind, wp_stat; [exact Hs1|by apply entry_path|rewrite map_size_insert_None by done; lia|].
    intros s2 Hs2. unfold ProgsSpec.shown in Hnext. destruct (at_path p) as [g|]; cbn [fst snd].
    + change (0 <? 0) with false. cbv iota. eapply wp_bind, wp_ls_line; [exact Hs2|]. intros s3 Hs3. by eapply Hnext.
    + change (-1 <? 0) with true. cbv iota. eapply wp_bind, wp_printf; [by left|reflexivity|exact Hs2|]. intros s3 Hs3. by eapply Hnext.
  - apply wp_ret. apply (HQ s1 (16 * k + Z.min 16 (zlen (u_data f) - 16 * k))). replace (Z.to_nat (zlen (u_data f) / 16 - k)) with 0%nat by dlia. by rewrite app_nil_r.
Qed.

Lemma wp_ls fuel path s fds out Q : sees s fds out -> (base.size fds < 2)%nat -> ls_ok fuel path ->
  (forall s', sees s' fds (out ++ sent_bytes (ls_shown path)) -> Q tt s') -> wp (ls fuel path) Q s.
Proof.
  intros Hs Hn [Hp Hl] HQ. unfold ls. pose proof (open_ok path s fds out Hs Hp ltac:(lia)) as Ho. unfold ProgsSpec.ls_shown in HQ. destruct (at_path path) as [f|].
  - destruct (Hl f eq_refl) as [Hb Hfu]. destruct Ho as (fd & s1 & E & Hfd & Hno & Hs1). apply wp_bind. eapply wp_call; [exact E|]. rewrite (proj2 (Z.ltb_ge fd 0)) by done. clear E.
    destruct (fstat_ok fd f 0 s1 _ _ Hs1) as (s2 & E & Hs2); [by rewrite lookup_insert_eq|]. apply wp_bind. eapply wp_call; [exact E|]. cbn [fst snd]. change (0 <? 0) with false. cbv iota. clear E.
    assert (Hend : forall s3 o text, sees s3 (<[fd := (f, o)]> fds) (out ++ sent_bytes text) -> (forall s', sees s' fds (out ++ sent_bytes text) -> Q tt s') -> wp (c_close fd;; mret tt) Q s3).
    { intros s3 o text Hs3 HQ3. destruct (close_ok fd f o s3 _ _ Hs3) as (s4 & E4 & Hs4); [by rewrite lookup_insert_eq|]. apply wp_bind. eapply wp_call; [exact E4|]. apply wp_ret. rewrite delete_insert_id in Hs4 by done. by apply HQ3. }
    destruct ((st_type (u_stat f) =? T_FILE) || (st_type (u_stat f) =? T_EXTENT)); [eapply wp_bind, wp_ls_line; [exact Hs2|]; intros s3 Hs3; by eapply Hend|].
    destruct (Z.eqb_spec (st_type (u_stat f)) T_DIR) as [Et|Et]; [|apply wp_bind, wp_ret; eapply (Hend s2 0 []); [by rewrite app_nil_r|exact HQ]].
    unfold DIRSIZ. replace (zlen path + 1 + 14 + 1) with (zlen path + 16) by lia. destruct (Z.gtb_spec (zlen path + 16) 512).
    + eapply wp_bind, wp_printf; [by left|reflexivity|exact Hs2|]. intros s3 Hs3. by eapply Hend.
    + eapply wp_bind, (wp_ls_loop path f fuel Hp ltac:(lia) Hb ltac:(by rewrite Et) fd 0); [exact Hs2|done|done|lia|pose proof (zlen_nonneg (u_data f)); lia|lia|]. intros s3 o Hs3. rewrite Z.sub_0_r in Hs3. by eapply Hend.
  - destruct Ho as (s1 & E & Hs1). apply wp_bind. eapply wp_call; [exact E|]. rewrite (proj2 (Z.ltb_lt (-1) 0)) by done. eapply wp_printf; [by right|reflexivity|exact Hs1|exact HQ].
Qed.
Lemma wp_ls_args fuel args : forall s fds out Q, sees s fds out -> (base.size fds < 2)%nat -> Forall (ls_ok fuel) args ->
  (forall s', sees s' fds (out ++ sent_bytes (mjoin (ls_shown <$> args))) -> Q tt s') -> wp (ls_args fuel args) Q s.
Proof.
  induction args as [|a args IH]; intros s fds out Q Hs Hn HF HQ; cbn [ls_args]; [apply wp_ret, HQ; by rewrite app_nil_r|]. apply Forall_cons in HF as [Ha HF].
  eapply wp_bind, wp_ls; [exact Hs|done|done|]. intros s1 Hs1. eapply IH; [exact Hs1|done|done|]. intros s2 Hs2. apply HQ. cbn [fmap list_fmap]. change (mjoin (?x :: ?y)) with (x ++ mjoin y). by rewrite sent_app, app_assoc.
Qed.
Lemma wp_ls_main fuel name args s fds out Q : sees s fds out -> (base.size fds < 2)%nat -> Forall (ls_ok fuel) (match args with [] => [[46]] | _ => args end) ->
  (forall s', sees s' fds (out ++ sent_bytes (mjoin (ls_shown <$> match args with [] => [[46]] | _ => args end))) -> Q tt s') -> wp (ls_main fuel (name :: args)) Q s.
Proof.
  intros Hs Hn HF HQ. unfold ls_main. destruct args as [|a args].
  - apply Forall_cons in HF as [Ha _]. eapply wp_ls; [exact Hs|done|done|]. intros s' Hs'. apply HQ. cbn [fmap list_fmap]. change (mjoin [?x]) with (x ++ []). by rewrite app_nil_r.
  - rewrite (proj2 (Z.ltb_ge _ 2)) by (unfold zlen; cbn [length]; lia). by eapply wp_ls_args.
Qed.
End Laws.
