(* ===== verification/UserCalls.v ===== *)
(** System calls as programs make them: the stub leaves the arguments on the
    user stack and traps; here the kernel's [syscall] runs on a user memory that
    holds the call's frame (a return address and the arguments, at address 0),
    after it the strings or the buffer the arguments point to, and some more. *)
From S2P Require Import Prelude Bytes BlockDev Fs Pipe File Progs.
Import Fs.
Import File.

Section Calls.
Context {K P : Type} `{BlockOps K} `{DevSw K} `{PageOps P}.
Context (garbage : list Z) (exec : list Z -> list (list Z) -> M (kfile K P) Z) (proc_call : Z -> M (kfile K P) Z).
Notation st := (kfile K P).

Definition frame (args : list Z) : list Z := to_le 4 0 ++ mjoin ((fun a => to_le 4 (u32 a)) <$> args).
Definition enter (args data : list Z) (s : st) : st :=
  mkK (ftable s) (ftable_lock s) (pipes s) (pages s) (fsys s) (ofile s) (killed s) (frame args ++ ((fun c => c mod 256) <$> data) ++ replicate 4 0) 0.
(** What [eax] and the memory after the frame hold when the call returns. *)
Definition ucall (num : Z) (args data : list Z) : M st (Z * list Z) :=
  modify (enter args data);;
  r ← syscall garbage exec proc_call num;
  s ← get;
  mret (r, drop (length (frame args)) (umem s)).

Definition stat_of (b : list Z) : Fs.stat :=
  mkStat (s16 (half b 0)) (s32 (word b 4)) (word b 8) (s16 (half b 12)) (word b 16) (words 13 b 20).
Definition nul (p : list Z) : list Z := p ++ [0].

#[export] Instance kernel_calls : FileCalls st := {
  c_open p mode := r ← ucall 10 [12; mode] (nul p); mret r.1;
  c_read fd n := r ← ucall 6 [fd; 16; n] (replicate (Z.to_nat n) 0); mret (r.1, take (Z.to_nat r.1) r.2);
  c_write fd b n := r ← ucall 5 [fd; 16; n] b; mret r.1;
  c_close fd := r ← ucall 7 [fd] []; mret r.1;
  c_fstat fd := r ← ucall 13 [fd; 12] (replicate 72 0); mret (r.1, stat_of r.2);
  c_link old new := r ← ucall 14 [12; 12 + zlen (nul old)] (nul old ++ nul new); mret r.1;
  c_unlink p := r ← ucall 12 [8] (nul p); mret r.1;
  c_mkdir p := r ← ucall 15 [8] (nul p); mret r.1;
  c_mknod p maj min := r ← ucall 11 [16; maj; min] (nul p); mret r.1;
  c_dup fd := r ← ucall 17 [fd] []; mret r.1
}.
End Calls.
