(* ===== verification/UserCallsSpec.v ===== *)
(** The kernel keeps the programs' laws ([FileLaws]): over a volume whose files
    are as the disk has them, with the console open at 1 and 2, the system calls
    open, read, stat and close the volume's files and write to the console. *)
From S2P Require Import Prelude Bytes BlockDev CString Fs FsSpec FsRw FsPath FsTree Pipe File FileSpec Progs ProgsSpec UserCalls.
Import Fs.
Import File.

(** A console on major 1, over a disk: what has been sent, and the laws of the
    disk for each such. *)
Class ConsoleLaws (K : Type) `{BlockOps K} `{DevSw K} := {
  con_laws : list Z -> BlockLaws K;
  con_has : has_dev_write 1 = true;
  con_write out k F ip b n : shows (BlockLaws := con_laws out) k F -> 0 <= n <= zlen b -> byte_list b ->
    exists k', dev_write 1 ip b n k = Ret (n, k') /\ shows (BlockLaws := con_laws (out ++ take (Z.to_nat n) b)) k' F
}.

(** ** Frames *)

Lemma zlen_to_le4 v : zlen (to_le 4 v) = 4.
Proof. done. Qed.
Lemma word_mid a v c o : o = zlen a -> in_u32 v -> word (a ++ to_le 4 v ++ c) o = v.
Proof. intros -> Hv. unfold word. change 4 with (zlen (to_le 4 v)) at 1. rewrite part_mid. apply le_to_le. exact Hv. Qed.

Section Calls.
Context {K P : Type} `{BlockOps K} `{DevSw K} `{PageOps P}.
Notation st := (kfile K P).
Implicit Types (s : st).

Lemma wp_sub {S A} (getter : st -> S) (setter : S -> st -> st) (m : M S A) s Q : wp m (fun a x => Q a (setter x s)) (getter s) -> wp (sub getter setter m) Q s.
Proof. unfold wp, sub. by destruct (m (getter s)) as [[a x]| | | |]. Qed.
Lemma wp_fs {A} (m : M (fstate K) A) s Q : wp m (fun a x => Q a (set_fsys x s)) (fsys s) -> wp (File.fs m) Q s.
Proof. apply wp_sub. Qed.

(** The argument [n] of a call whose frame holds [v] there. *)
Definition has_arg s (n v : Z) : Prop := esp s = 0 /\ in_u32 v /\ 8 + 4 * n <= zlen (umem s) < 2 ^ 31 /\ word (umem s) (4 + 4 * n) = v.
Lemma wp_argint n v s Q : 0 <= n -> has_arg s n v -> Q (Some (s32 v)) s -> wp (argint n) Q s.
Proof.
  intros Hn (He & Hv & Hl & Hw) HQ. unfold argint, fetchint. eapply wp_bind, wp_get, wp_bind, wp_get. unfold sz. rewrite He, !u32_small by (unfold in_u32; rewrite ?u32_small by (unfold in_u32; lia); lia).
  assert ((0 + 4 + 4 * n >=? zlen (umem s)) || (0 + 4 + 4 * n + 4 >? zlen (umem s)) = false) as -> by lia. apply wp_ret. rewrite Z.add_0_l, Hw. exact HQ.
Qed.
Lemma wp_argptr n v size s Q : 0 <= n -> has_arg s n v -> 0 <= size -> v < zlen (umem s) -> v + size <= zlen (umem s) -> Q (Some v) s -> wp (argptr n size) Q s.
Proof.
  intros Hn Ha Hs Hlo Hhi HQ. pose proof Ha as (_ & Hv & Hl & _). unfold argptr. eapply wp_bind, wp_argint; [done|exact Ha|]. eapply wp_bind, wp_get, wp_ret. unfold sz.
  rewrite u32_s32, !u32_small by (unfold in_u32 in *; rewrite ?u32_small by (unfold in_u32; lia); lia). assert ((v >=? zlen (umem s)) || (v + size >? zlen (umem s)) = false) as -> by lia. exact HQ.
Qed.
Lemma until_nul_ok p rest : Forall (fun c => c <> 0) p -> until_nul (p ++ 0 :: rest) = Some p.
Proof. induction 1 as [|c p Hc HF IH]; [done|]. cbn [app until_nul]. rewrite (proj2 (Z.eqb_neq c 0)), IH by done. done. Qed.
Lemma wp_argstr n v p rest s Q : 0 <= n -> has_arg s n v -> drop (Z.to_nat v) (umem s) = p ++ 0 :: rest -> Forall (fun c => c <> 0) p -> Q (Some p) s -> wp (argstr n) Q s.
Proof.
  intros Hn Ha Hd Hp HQ. pose proof Ha as (_ & Hv & Hl & _). unfold argstr. eapply wp_bind, wp_argint; [done|exact Ha|]. unfold fetchstr. rewrite u32_s32, u32_small by done. eapply wp_bind, wp_get. unfold sz.
  destruct (Z.geb_spec v (zlen (umem s))) as [Hge|_].
  - exfalso. rewrite drop_ge in Hd by (unfold in_u32, zlen in *; lia). by destruct p.
  - apply wp_ret. by rewrite Hd, until_nul_ok.
Qed.
Lemma wp_argfd n v f s Q : 0 <= n -> has_arg s n v -> 0 <= v < 16 -> zget (ofile s) v = Some (Some f) -> Q (Some (v, f)) s -> wp (argfd n) Q s.
Proof.
  intros Hn Ha Hv Hf HQ. unfold argfd. eapply wp_bind, wp_argint; [done|exact Ha|]. rewrite s32_small by (unfold in_s32; lia). eapply wp_bind, wp_get. unfold NOFILE.
  assert ((v <? 0) || (v >=? 16) = false) as -> by lia. apply wp_ret. by rewrite Hf.
Qed.
Lemma wp_store_user p b s Q : p + zlen b <= zlen (umem s) -> Q tt (set_umem (splice p b (umem s)) s) -> wp (store_user p b) Q s.
Proof. intros Hp HQ. unfold store_user. eapply wp_bind, wp_get. destruct (Z.gtb_spec (p + zlen b) (sz s)) as [Hgt|_]; [unfold sz in Hgt; lia|]. by apply wp_modify. Qed.

Lemma wp_store_len n p b s Q : zlen (umem s) = n -> 0 <= p -> p + zlen b <= n -> (zlen (umem (set_umem (splice p b (umem s)) s)) = n -> Q tt (set_umem (splice p b (umem s)) s)) -> wp (store_user p b) Q s.
Proof. intros Hl H0' Hp HQ. apply wp_store_user; [lia|]. apply HQ. cbn [umem set_umem]. rewrite <- Hl. apply zlen_splice; lia. Qed.

(** The frame of a call. *)
Lemma enter_len args data s : zlen (umem (enter args data s)) = zlen (frame args) + zlen data + 4.
Proof. cbn [enter umem]. unfold zlen. rewrite !length_app, length_fmap, length_replicate. lia. Qed.
Lemma enter_arg args data s n v : args !! n = Some v -> zlen (frame args) + zlen data + 4 < 2 ^ 31 -> has_arg (enter args data s) (Z.of_nat n) (u32 v).
Proof.
  intros Hn Hl. assert (Hf : zlen (frame args) = 4 + 4 * zlen args) by (unfold frame; by rewrite zlen_app, zlen_join_map).
  pose proof (lookup_lt_Some _ _ _ Hn) as Hlt. pose proof (enter_len args data s) as Hz.
  split; [done|]. split; [apply u32_range|]. split; [rewrite Hz; unfold zlen in *; lia|]. cbn [enter umem]. unfold frame. rewrite <- (take_drop_middle args n v Hn), fmap_app, join_app. cbn [fmap list_fmap].
  change (mjoin (?x :: ?y)) with (x ++ mjoin y). rewrite <- !app_assoc, (app_assoc (to_le 4 0)). apply word_mid; [|apply u32_range].
  rewrite zlen_app, zlen_to_le4. f_equal. rewrite zlen_join_map. unfold zlen. rewrite length_take. lia.
Qed.

Lemma wp_ucall garbage exec proc_call num args data s Q :
  wp (syscall garbage exec proc_call num) (fun r s' => Q (r, drop (length (frame args)) (umem s')) s') (enter args data s) -> wp (ucall garbage exec proc_call num args data) Q s.
Proof. intros W. unfold ucall. eapply wp_bind, wp_modify, wp_bind. eapply wp_mono; [exact W|]. intros r s' HQ. eapply wp_bind, wp_get, wp_ret. exact HQ. Qed.
Lemma frame_data args data s : drop (length (frame args)) (umem (enter args data s)) = ((fun c => c mod 256) <$> data) ++ replicate 4 0.
Proof. cbn [enter umem]. apply drop_app_length. Qed.

(** ** The file table *)

Lemma wp_fget f x s Q : zget (ftable s) f = Some x -> Q x s -> wp (fget f) Q s.
Proof. intros Hx HQ. unfold fget. eapply wp_bind, wp_get. rewrite Hx. by apply wp_deref. Qed.
Lemma wp_fmod f x g s Q : zget (ftable s) f = Some x -> Q tt (set_ftable (zset (ftable s) f (g x)) s) -> wp (fmod f g) Q s.
Proof. intros Hx HQ. unfold fmod. eapply wp_bind, wp_fget; [exact Hx|]. by apply wp_modify. Qed.
Lemma wp_acquire_ft s Q : ftable_lock s = false -> Q tt (set_ftable_lock true s) -> wp acquire_ft Q s.
Proof. intros Hl HQ. unfold acquire_ft. eapply wp_bind, wp_get. rewrite Hl. by apply wp_modify. Qed.
Lemma wp_release_ft s Q : ftable_lock s = true -> Q tt (set_ftable_lock false s) -> wp release_ft Q s.
Proof. intros Hl HQ. unfold release_ft. eapply wp_bind, wp_get. rewrite Hl. by apply wp_modify. Qed.
Lemma locked_ftable l s : ftable_lock s = false -> set_ftable_lock false (set_ftable l (set_ftable_lock true s)) = set_ftable l s.
Proof. destruct s. cbn. by intros ->. Qed.

Lemma first_free_some (l : list file) k : (exists x, x ∈ l /\ ref x = 0) -> exists f, first_free l k = Some f.
Proof.
  intros (x & Hx & Hr). revert k. induction l as [|y l IH]; intros k; [by apply elem_of_nil in Hx|]. cbn [first_free]. destruct (Z.eqb_spec (ref y) 0); [by eexists|].
  apply elem_of_cons in Hx as [->|Hx]; [done|]. by apply IH.
Qed.
Lemma wp_filealloc s Q : ftable_lock s = false -> (exists f x, zget (ftable s) f = Some x /\ ref x = 0) ->
  (forall f x, zget (ftable s) f = Some x -> ref x = 0 -> Q (Some f) (set_ftable (zset (ftable s) f (set_ref 1 x)) s)) -> wp filealloc Q s.
Proof.
  intros Hl (f0 & x0 & Hx0 & Hr0) HQ. unfold filealloc. eapply wp_bind, wp_acquire_ft; [done|]. eapply wp_bind, wp_get. cbn [ftable set_ftable_lock].
  destruct (first_free_some (ftable s) 0) as [f Ef]; [exists x0; split; [by eapply zget_elem_of|done]|]. rewrite Ef. destruct (first_free_ref _ _ _ Ef) as (x & Hx & Hr). rewrite Z.sub_0_r in Hx.
  eapply wp_bind, wp_fmod; [exact Hx|]. eapply wp_bind, wp_release_ft; [done|]. apply wp_ret. cbn [ftable set_ftable_lock]. rewrite locked_ftable by done. by apply HQ.
Qed.
Lemma free_fd_some {A} (l : list (option A)) k : None ∈ l -> exists fd, free_fd l k = Some fd.
Proof. revert k. induction l as [|y l IH]; intros k Hin; [by apply elem_of_nil in Hin|]. destruct y as [y|]; cbn [free_fd]; [|by eexists]. apply elem_of_cons in Hin as [|Hin]; [done|]. by apply IH. Qed.
Lemma wp_fdalloc f s Q : (exists fd, zget (ofile s) fd = Some None) -> (forall fd, 0 <= fd -> zget (ofile s) fd = Some None -> Q fd (set_ofile (zset (ofile s) fd (Some f)) s)) -> wp (fdalloc f) Q s.
Proof.
  intros (fd0 & Hfd0) HQ. unfold fdalloc. eapply wp_bind, wp_get. destruct (free_fd_some (ofile s) 0) as [fd E]; [by eapply zget_elem_of|]. rewrite E. apply free_fd_None in E. rewrite Z.sub_0_r in E.
  eapply wp_bind, wp_modify, wp_ret. apply HQ; [|done]. apply zget_Some_range in E. lia.
Qed.
End Calls.

(** ** A volume, mounted *)

(** The inode of the disk, as [ilock] loads it. *)
Definition disk_inode (d : Z) (F : flat) (n : Z) : inode :=
  load_dinode (default [] (BlockDev.disk F !! (d, IBLOCK n))) (dinode_off n) (mkInode d n 0 0 0 0 0 0 0 []).
Lemma loaded_is d F n i : loaded F i -> dev i = d -> inum i = n ->
  mkStat (type i) (dev i) (inum i) (nlink i) (isize i) (take 13 (addrs i)) =
  mkStat (type (disk_inode d F n)) d n (nlink (disk_inode d F n)) (isize (disk_inode d F n)) (take 13 (addrs (disk_inode d F n))).
Proof. intros (x & Hx & E) <- <-. unfold disk_inode. rewrite Hx. rewrite <- E at 1 4 5 6. done. Qed.
Definition as_file (d : Z) (F : flat) (n : Z) (v : vfile) : ufile :=
  let i := disk_inode d F n in mkU (mkStat (type i) d n (nlink i) (isize i) (take 13 (addrs i))) (take (Z.to_nat (vsize v)) (vdata v)).

(** The volume [files] of drive [d], the current directory, and the console's
    inode. *)
Record mounted (d : Z) (files : gmap Z vfile) (F : flat) (nc ncwd : Z) : Prop := {
  mo_vol n f : files !! n = Some f -> file_at d F n f;
  mo_calm : opened F = ∅;
  mo_bytes a x : BlockDev.disk F !! a = Some x -> byte_list x;
  mo_closed : closed files;
  mo_size n f : files !! n = Some f -> vsize f <= zlen (vdata f);
  mo_data n f : files !! n = Some f -> byte_list (vdata f);
  mo_inum n f : files !! n = Some f -> 0 <= n < 2 ^ 31;
  mo_root : d = ROOTDEV /\ is_Some (files !! ROOTINO);
  mo_cwd : is_Some (files !! ncwd);
  mo_console : exists f, files !! nc = Some f /\ vtype f = T_DEV;
  mo_major : major (disk_inode d F nc) = 1
}.

(** An open file: its place in the file table, the slot and the number of its
    inode. *)
Record handle := mkH { h_file : Z; h_slot : Z; h_inum : Z }.
Definition slots (hnd : gmap Z handle) : list Z := (fun p => h_slot p.2) <$> map_to_list hnd.

Section Kernel.
Context {K P : Type} `{ConsoleLaws K} `{PageOps P}.
Context (garbage : list Z) (exec : list Z -> list (list Z) -> M (kfile K P) Z) (proc_call : Z -> M (kfile K P) Z).
Context (d : Z) (files : gmap Z vfile) (F : flat) (nc ncwd : Z) (base : list Z) (here kc fc : Z) (zf zt : list Z).
Notation st := (kfile K P).
Implicit Types (s : st) (fds : gmap Z (ufile * Z)) (hnd : gmap Z handle) (out : list Z).

Definition calm_o (out : list Z) : option Z -> list Z -> fstate K -> Prop := calm (H0 := con_laws out) d F base here.

(** What there is room for: eight references, three descriptors and three files
    that nobody else holds. *)
Record spare : Prop := {
  sp_slots : room_ok base 8;
  sp_fds : NoDup zf /\ (3 <= length zf)%nat;
  sp_files : NoDup zt /\ (3 <= length zt)%nat;
  sp_garbage : length garbage = 14%nat
}.

(** The process's descriptors 1 and 2 are the console, [fds] are open on files
    of the volume; nothing else changes. *)
Record quiet fds hnd out s : Prop := {
  q_calm : calm_o out None (kc :: here :: slots hnd) (fsys s);
  q_cons : is_slot d (fsys s) kc nc;
  q_here : is_slot d (fsys s) here ncwd;
  q_lock : ftable_lock s = false;
  q_nofile : zlen (ofile s) = 16;
  q_std fd : fd = 1 \/ fd = 2 -> zget (ofile s) fd = Some (Some fc);
  q_con : exists x, zget (ftable s) fc = Some x /\ fty x = FD_INODE /\ 0 < ref x /\ writable x <> 0 /\ ip x = kc;
  q_dom fd : is_Some (fds !! fd) <-> is_Some (hnd !! fd);
  q_open fd f o h : fds !! fd = Some (f, o) -> hnd !! fd = Some h ->
    zget (ofile s) fd = Some (Some (h_file h)) /\ h_file h <> fc /\ is_slot d (fsys s) (h_slot h) (h_inum h) /\
    (exists v, files !! h_inum h = Some v /\ f = as_file d F (h_inum h) v) /\
    exists x, zget (ftable s) (h_file h) = Some x /\ x = mkFile FD_INODE 1 1 0 (pipe x) (h_slot h) o;
  q_inj fd fd' h h' : hnd !! fd = Some h -> hnd !! fd' = Some h' -> h_file h = h_file h' -> fd = fd';
  q_fds fd : fd ∈ zf -> fds !! fd = None -> zget (ofile s) fd = Some None;
  q_files f : f ∈ zt -> (forall fd h, hnd !! fd = Some h -> h_file h <> f) -> exists x, zget (ftable s) f = Some x /\ ref x = 0
}.
Definition ksees s fds out : Prop := exists hnd, quiet fds hnd out s.

Definition kstart (p : list Z) : Z := if bool_decide (head p = Some slash) then ROOTINO else ncwd.
Definition kat_path (p : list Z) : option ufile := n ← walk files (kstart p) (components p); v ← files !! n; Some (as_file d F n v).

Context (Hmnt : mounted d files F nc ncwd) (Hsp : spare).

(** Only the file system, the file table and the descriptors matter. *)
Lemma quiet_same fds hnd out s s' : quiet fds hnd out s -> fsys s' = fsys s -> ftable s' = ftable s -> ftable_lock s' = ftable_lock s -> ofile s' = ofile s -> quiet fds hnd out s'.
Proof using. intros Q E1 E2 E3 E4. destruct Q. split; rewrite ?E1, ?E2, ?E3, ?E4; done. Qed.

Lemma dom_same fds hnd : (forall fd, is_Some (fds !! fd) <-> is_Some (hnd !! fd)) -> base.size hnd = base.size fds.
Proof using. intros Hd. rewrite <- !(size_dom (D := gset Z)). f_equal. apply set_eq. intros fd. by rewrite !elem_of_dom, Hd. Qed.
Lemma slots_length hnd : length (slots hnd) = base.size hnd.
Proof using. unfold slots. by rewrite length_fmap, length_map_to_list. Qed.
Lemma slots_in hnd fd h : hnd !! fd = Some h -> h_slot h ∈ slots hnd.
Proof using. intros Hh. apply list_elem_of_fmap. exists (fd, h). split; [done|]. by apply elem_of_map_to_list. Qed.
Lemma slots_insert hnd fd h : hnd !! fd = None -> slots (<[fd := h]> hnd) ≡ₚ h_slot h :: slots hnd.
Proof using. intros Hn. unfold slots. by rewrite map_to_list_insert. Qed.
Lemma slots_delete hnd fd h : hnd !! fd = Some h -> slots hnd ≡ₚ h_slot h :: slots (delete fd hnd).
Proof using. intros Hh. unfold slots. by rewrite <- (map_to_list_delete hnd fd h). Qed.

(** A list without repeats, longer than another, has an element not there. *)
Lemma outside (l l' : list Z) : NoDup l -> (length l' < length l)%nat -> exists x, x ∈ l /\ x ∉ l'.
Proof using.
  intros Hnd Hl. destruct (decide (Forall (fun k => k ∈ l') l)) as [Hall|Hex].
  - exfalso. rewrite Forall_forall in Hall. pose proof (submseteq_length l l' (NoDup_submseteq l l' Hnd Hall)). lia.
  - apply not_Forall_Exists, Exists_exists in Hex; [exact Hex|]. intros x. apply _.
Qed.
Lemma free_descriptor fds hnd out s : quiet fds hnd out s -> (base.size fds < 3)%nat -> exists fd, zget (ofile s) fd = Some None.
Proof using Hsp.
  intros Q Hn. destruct (sp_fds Hsp) as [Hnd Hl]. destruct (outside zf ((map_to_list fds).*1) Hnd) as (fd & Hfd & Hno); [rewrite length_fmap, length_map_to_list; lia|].
  exists fd. eapply q_fds; [exact Q|done|]. destruct (fds !! fd) as [p|] eqn:E; [|done]. exfalso. apply Hno, list_elem_of_fmap. exists (fd, p). split; [done|]. by apply elem_of_map_to_list.
Qed.
Lemma free_file fds hnd out s : quiet fds hnd out s -> (base.size fds < 3)%nat -> exists f x, zget (ftable s) f = Some x /\ ref x = 0.
Proof using Hsp.
  intros Q Hn. destruct (sp_files Hsp) as [Hnd Hl]. rewrite <- (dom_same fds hnd (q_dom _ _ _ _ Q)) in Hn.
  destruct (outside zt ((fun p => h_file p.2) <$> map_to_list hnd) Hnd) as (f & Hf & Hno); [rewrite length_fmap, length_map_to_list; lia|].
  exists f. eapply q_files; [exact Q|done|]. intros fd h Hh <-. apply Hno, list_elem_of_fmap. exists (fd, h). split; [done|]. by apply elem_of_map_to_list.
Qed.

(** Our slots are in use. *)
Lemma held_slot out hs x k n : calm_o out None hs x -> k ∈ hs -> is_slot d x k n -> exists i, zget (icache x) k = Some i /\ dev i = d /\ inum i = n /\ 0 < Fs.ref i.
Proof using Hsp.
  intros C Hk (i & Hi & Hd & Hn). exists i. split; [done|]. split; [done|]. split; [done|].
  destruct (slot_ref (H0 := con_laws out) d F base here 8 (sp_slots Hsp) _ _ _ k i C Hi) as (b & _ & Hb & ->). pose proof (held_pos k hs Hk). lia.
Qed.
Lemma quiet_starts fds hnd out s p : quiet fds hnd out s -> starts d p (fsys s) (kstart p).
Proof using Hsp Hmnt.
  intros Q. unfold starts, kstart. destruct (bool_decide (head p = Some slash)); [split; [done|apply (mo_root _ _ _ _ _ Hmnt)]|].
  rewrite (cm_cwd (H0 := con_laws out) _ _ _ _ _ _ _ (q_calm _ _ _ _ Q)). eapply held_slot; [exact (q_calm _ _ _ _ Q)|right; left|exact (q_here _ _ _ _ Q)].
Qed.
Lemma kstart_there p : is_Some (files !! kstart p).
Proof using Hmnt. unfold kstart. destruct (bool_decide _); [apply (mo_root _ _ _ _ _ Hmnt)|apply (mo_cwd _ _ _ _ _ Hmnt)]. Qed.
Lemma walk_there es : forall n m, is_Some (files !! n) -> walk files n es = Some m -> is_Some (files !! m).
Proof using Hmnt.
  induction es as [|e es IH]; intros n m Hn; cbn [walk]; [by intros [= <-]|]. destruct (files !! n) as [f|] eqn:Hf; [|done]. cbn [mbind option_bind]. destruct (Z.eqb_spec (vtype f) T_DIR) as [Ht|]; [|done].
  destruct (dir_find (vdata f) (take 14 e)) as [[o m']|] eqn:Ed; [|done]. cbn [mbind option_bind snd]. apply IH. by eapply (mo_closed _ _ _ _ _ Hmnt).
Qed.

(** ** [open] *)

Lemma quiet_closed fds hnd out s fd : quiet fds hnd out s -> zget (ofile s) fd = Some None -> fds !! fd = None /\ hnd !! fd = None.
Proof using.
  intros Q Hno. assert (hnd !! fd = None) as Hh.
  { destruct (hnd !! fd) as [h|] eqn:E; [|done]. exfalso. destruct (proj2 (q_dom _ _ _ _ Q fd)) as [[f o] Hf]; [by eexists|]. destruct (q_open _ _ _ _ Q fd f o h Hf E) as (E2 & _). congruence. }
  split; [|done]. destruct (fds !! fd) as [p|] eqn:E; [|done]. destruct (proj1 (q_dom _ _ _ _ Q fd)) as [h Hh']; [by eexists|]. congruence.
Qed.
(** A new file, opened on slot [k]. *)
Lemma quiet_open fds hnd out s s' fd f k m v y : quiet fds hnd out s -> calm_o out None (k :: kc :: here :: slots hnd) (fsys s') -> is_slot d (fsys s') k m ->
  same_slots d (kc :: here :: slots hnd) (fsys s) (fsys s') -> files !! m = Some v -> zget (ofile s) fd = Some None -> zget (ftable s) f = Some y -> ref y = 0 ->
  ftable s' = zset (ftable s) f (mkFile FD_INODE 1 1 0 (pipe y) k 0) -> ofile s' = zset (ofile s) fd (Some f) -> ftable_lock s' = false ->
  quiet (<[fd := (as_file d F m v, 0)]> fds) (<[fd := mkH f k m]> hnd) out s'.
Proof using.
  intros Q C Hk S Hv Hfd Hf Hy Et Eo El. destruct (quiet_closed _ _ _ _ _ Q Hfd) as [Hn1 Hn2]. pose proof (zget_Some_range _ _ _ Hfd) as Hfdr. pose proof (zget_Some_range _ _ _ Hf) as Hfr.
  destruct (q_con _ _ _ _ Q) as (xc & Hxc & Hxt & Hxr & Hxw & Hxi). assert (Hfc : f <> fc) by (intros ->; assert (y = xc) by congruence; subst; lia).
  assert (Hfile : forall fd' h, hnd !! fd' = Some h -> h_file h <> f).
  { intros fd' h Hh <-. destruct (proj2 (q_dom _ _ _ _ Q fd')) as [[g o] Hg]; [by eexists|]. destruct (q_open _ _ _ _ Q fd' g o h Hg Hh) as (_ & _ & _ & _ & x & Hx & Ex). assert (x = y) by congruence. subst x. rewrite Ex in Hy. done. }
  destruct Q as [Q1 Q2 Q3 Q4 Q5 Q6 Q7 Q8 Q9 Q10 Q11 Q12]. split.
  - eapply calm_perm; [|exact C]. rewrite (slots_insert hnd fd (mkH f k m) Hn2). cbn [h_slot]. trans (kc :: k :: here :: slots hnd); [apply Permutation_swap|]. apply perm_skip, Permutation_swap.
  - apply S; [left|exact Q2].
  - apply S; [right; left|exact Q3].
  - done.
  - by rewrite Eo, zlen_zset.
  - intros fd' Hfd'. rewrite Eo, zget_zset_ne; [by apply Q6|]. intros ->. specialize (Q6 fd' Hfd'). congruence.
  - exists xc. rewrite Et, zget_zset_ne by done. done.
  - intros fd'. destruct (decide (fd' = fd)) as [->|Hne]; [by rewrite !lookup_insert_eq; split|by rewrite !lookup_insert_ne by congruence].
  - intros fd' g o h. destruct (decide (fd' = fd)) as [->|Hne].
    + rewrite !lookup_insert_eq. intros [= <- <-] [= <-]. cbn [h_file h_slot h_inum]. rewrite Eo, Et, !zget_zset_eq by done. split; [done|]. split; [done|]. split; [done|]. split; [by exists v|]. by eexists.
    + rewrite !lookup_insert_ne by congruence. intros Hg Hh. destruct (Q9 fd' g o h Hg Hh) as (E1 & E2 & E3 & E4 & x & E5 & E6). rewrite Eo, Et, !zget_zset_ne; [|by apply not_eq_sym, (Hfile fd')|congruence].
      split; [done|]. split; [done|]. split; [apply S; [right; right; by eapply slots_in|done]|]. split; [done|]. by exists x.
  - intros a b h h' Ha Hb E. destruct (decide (a = fd)) as [->|Na], (decide (b = fd)) as [->|Nb]; [done| | |].
    + rewrite lookup_insert_eq in Ha. injection Ha as <-. rewrite lookup_insert_ne in Hb by congruence. by destruct (Hfile b h' Hb).
    + rewrite lookup_insert_eq in Hb. injection Hb as <-. rewrite lookup_insert_ne in Ha by congruence. by destruct (Hfile a h Ha).
    + rewrite lookup_insert_ne in Ha, Hb by congruence. by eapply Q10.
  - intros fd' Hin Hno. assert (fd' <> fd) by (intros ->; by rewrite lookup_insert_eq in Hno). rewrite lookup_insert_ne in Hno by congruence. rewrite Eo, zget_zset_ne by congruence. by apply Q11.
  - intros g Hg Hno. assert (g <> f) by (intros ->; eapply (Hno fd); [apply lookup_insert_eq|done]). rewrite Et, zget_zset_ne by congruence. apply Q12; [done|]. intros fd' h Hh. apply (Hno fd').
    rewrite lookup_insert_ne; [done|]. intros ->. congruence.
Qed.

Lemma mod_bytes l : byte_list l -> (fun c => c mod 256) <$> l = l.
Proof using. induction 1 as [|c l Hc Hl IH]; [done|]. cbn [fmap list_fmap]. by rewrite Z.mod_small, IH by done. Qed.
(** The string a call passes. *)
Lemma path_arg args n p s Q : path_ok p -> (length args <= 2)%nat -> args !! n = Some (zlen (frame args)) -> zlen (frame args) < 2 ^ 20 -> Q (Some p) (enter args (nul p) s) -> wp (argstr (Z.of_nat n)) Q (enter args (nul p) s).
Proof using.
  intros [Hp Hl] Ha Hn Hf HQ. assert (Hz : zlen (nul p) = zlen p + 1) by (unfold nul; rewrite zlen_app; done). pose proof (zlen_nonneg (frame args)).
  eapply (wp_argstr _ (zlen (frame args)) p (replicate 4 0)); [lia| | |by eapply Forall_impl; [exact Hp|cbn; lia]|exact HQ].
  - pose proof (enter_arg args (nul p) s n _ Hn ltac:(lia)) as E. by rewrite u32_small in E by (unfold in_u32; lia).
  - unfold zlen at 1. rewrite Nat2Z.id, frame_data, mod_bytes; [unfold nul; by rewrite <- app_assoc|]. unfold nul. apply Forall_app. split; [by eapply Forall_impl; [exact Hp|unfold byte_ok; cbn; lia]|constructor; [done|constructor]].
Qed.

Lemma wp_open p s fds out : ksees s fds out -> path_ok p -> (base.size fds < 3)%nat ->
  wp (c_open (FileCalls := kernel_calls garbage exec proc_call) p 0)
    (fun fd s' => match kat_path p with Some f => 0 <= fd /\ fds !! fd = None /\ ksees s' (<[fd := (f, 0)]> fds) out | None => fd = -1 /\ ksees s' fds out end) s.
Proof using Hmnt Hsp.
  intros [hnd Q] Hp Hn. cbn [c_open kernel_calls]. eapply wp_bind, wp_ucall. change (syscall garbage exec proc_call 10) with (sys_open (K := K) (P := P) garbage).
  assert (Q0 : quiet fds hnd out (enter [12; 0] (nul p) s)) by (eapply quiet_same; done). set (s0 := enter [12; 0] (nul p) s) in *.
  unfold sys_open. eapply wp_bind, (path_arg [12; 0] 0); [exact Hp|cbn; lia|reflexivity|done|]. fold s0.
  eapply wp_bind, (wp_argint 1 (u32 0)); [done|apply (enter_arg [12; 0] (nul p) s 1 0); [done|destruct Hp as [_ Hp]; unfold nul; rewrite zlen_app; change (zlen [0]) with 1; change (zlen (frame [12; 0])) with 12; lia]|].
  change (s32 (u32 0)) with 0. cbv iota. change (negb (Z.land 0 O_CREATE =? 0)) with false. cbv iota.
  assert (Hslots : zlen (kc :: here :: slots hnd) + 1 < 8) by (pose proof (slots_length hnd) as E; rewrite (dom_same fds hnd (q_dom _ _ _ _ Q)) in E; unfold zlen; cbn [length]; lia).
  eapply wp_bind, wp_bind, wp_fs, (wp_namei (H0 := con_laws out) d files F base here 8 (sp_slots Hsp) (mo_vol _ _ _ _ _ Hmnt) (mo_calm _ _ _ _ _ Hmnt) (kc :: here :: slots hnd));
    [exact Hslots|exact (q_calm _ _ _ _ Q0)|by eapply quiet_starts|intros _; apply kstart_there|destruct Hp as [Hp _]; by eapply Forall_impl; [exact Hp|cbn; lia]|apply (sp_garbage Hsp)|].
  destruct (walk files (kstart p) (components p)) as [m|] eqn:Ew.
  2: { assert (kat_path p = None) as -> by (unfold kat_path; by rewrite Ew). split; [exact (mo_closed _ _ _ _ _ Hmnt)|]. intros x C S. apply wp_ret, wp_ret. apply wp_ret. split; [done|]. exists hnd. destruct Q0. split; try done; [by apply S; [left|]|by apply S; [right; left|]|].
    intros fd f o h Hf Hh. destruct (q_open0 fd f o h Hf Hh) as (E1 & E2 & E3 & E4). split; [done|]. split; [done|]. split; [|done]. apply S; [right; right; by eapply slots_in|done]. }
  intros k x C Hk S. destruct (walk_there (components p) (kstart p) m (kstart_there p) Ew) as [v Hv].
  assert (kat_path p = Some (as_file d F m v)) as -> by (unfold kat_path; rewrite Ew; cbn; by rewrite Hv).
  eapply wp_bind, wp_fs, (wp_ilock (H0 := con_laws out) d files F base here 8 (sp_slots Hsp) (mo_vol _ _ _ _ _ Hmnt) (mo_calm _ _ _ _ _ Hmnt) (k :: kc :: here :: slots hnd)); [exact C|left|exact Hk|exact Hv|].
  intros x1 i C1 Hi Hd Hin Hl S1. eapply wp_bind, wp_fs, wp_ipget; [exact Hi|]. change (negb (0 =? O_RDONLY)) with false. rewrite andb_false_r. apply wp_ret.
  eapply wp_bind, wp_filealloc; [exact (q_lock _ _ _ _ Q0)|exact (free_file _ _ _ _ Q0 Hn)|]. intros f y Hy Hyr.
  eapply wp_bind, wp_fdalloc; [exact (free_descriptor _ _ _ _ Q0 Hn)|]. intros fd Hfd Hno. rewrite (proj2 (Z.ltb_ge fd 0)) by done.
  eapply wp_bind, wp_fs, (wp_iunlock (H0 := con_laws out) d F base here 8 (sp_slots Hsp) (k :: kc :: here :: slots hnd)); [exact C1|apply S1; [left|exact Hk]|]. intros x2 C2 S2.
  eapply wp_bind, wp_fmod; [apply zget_zset_eq; by eapply zget_Some_range|]. apply wp_ret, wp_ret. cbn [fst].
  destruct (quiet_closed _ _ _ _ _ Q0 Hno) as [Hfn _]. split; [done|]. split; [exact Hfn|]. eexists. eapply quiet_open; [exact Q0|exact C2|apply S2; [left|apply S1; [left|exact Hk]]| |exact Hv|exact Hno|exact Hy|exact Hyr|cbn; by rewrite zset_zset|done|exact (q_lock _ _ _ _ Q0)].
  intros j n Hj Hn'. apply S2; [by right|]. apply S1; [by right|]. by apply S.
Qed.

(** ** [read] *)

(** The file system has moved, our slots as they were. *)
Lemma quiet_fsys fds hnd out out' s s' : quiet fds hnd out s -> calm_o out' None (kc :: here :: slots hnd) (fsys s') -> same_slots d (kc :: here :: slots hnd) (fsys s) (fsys s') ->
  ftable s' = ftable s -> ftable_lock s' = ftable_lock s -> ofile s' = ofile s -> quiet fds hnd out' s'.
Proof using.
  intros [Q1 Q2 Q3 Q4 Q5 Q6 Q7 Q8 Q9 Q10 Q11 Q12] C S E1 E2 E3. split; rewrite ?E1, ?E2, ?E3; try done; [apply S; [left|done]|apply S; [right; left|done]|].
  intros fd f o h Hf Hh. destruct (Q9 fd f o h Hf Hh) as (H3' & H4' & H5' & H6'). split; [done|]. split; [done|]. split; [|done]. apply S; [right; right; by eapply slots_in|done].
Qed.
(** A file has another offset. *)
Lemma quiet_offset fds hnd out s s' fd f o o' h x : quiet fds hnd out s -> fds !! fd = Some (f, o) -> hnd !! fd = Some h -> zget (ftable s) (h_file h) = Some x ->
  fsys s' = fsys s -> ftable s' = zset (ftable s) (h_file h) (set_off o' x) -> ftable_lock s' = ftable_lock s -> ofile s' = ofile s -> quiet (<[fd := (f, o')]> fds) hnd out s'.
Proof using.
  intros Q Hf Hh Hx E1 E2 E3 E4. destruct (q_open _ _ _ _ Q fd f o h Hf Hh) as (_ & Hne & _ & _ & x' & Hx' & Ex). assert (x' = x) as -> by congruence. clear Hx'. pose proof (zget_Some_range _ _ _ Hx) as Hr.
  destruct Q as [Q1 Q2 Q3 Q4 Q5 Q6 Q7 Q8 Q9 Q10 Q11 Q12]. split; rewrite ?E1, ?E2, ?E3, ?E4; try done.
  - destruct Q7 as (xc & Hxc & Hrest). exists xc. by rewrite zget_zset_ne.
  - intros fd'. destruct (decide (fd' = fd)) as [->|Hn]; [|by rewrite lookup_insert_ne by congruence]. rewrite lookup_insert_eq, Hh. by split.
  - intros fd' g o2 h2 Hg Hh2. destruct (decide (fd' = fd)) as [->|Hn].
    + rewrite lookup_insert_eq in Hg. injection Hg as <- <-. assert (h2 = h) as -> by congruence. destruct (Q9 fd f o h Hf Hh) as (A1 & A2 & A3 & A4 & _). rewrite zget_zset_eq by done.
      split; [done|]. split; [done|]. split; [done|]. split; [done|]. eexists. split; [reflexivity|]. by rewrite Ex.
    + rewrite lookup_insert_ne in Hg by congruence. destruct (Q9 fd' g o2 h2 Hg Hh2) as (A1 & A2 & A3 & A4 & y & A5 & A6). rewrite zget_zset_ne by (intros E; apply Hn; symmetry; by eapply Q10).
      split; [done|]. split; [done|]. split; [done|]. split; [done|]. by exists y.
  - intros fd' Hin Hno. apply Q11; [done|]. destruct (decide (fd' = fd)) as [->|Hn]; [by rewrite lookup_insert_eq in Hno|by rewrite lookup_insert_ne in Hno by congruence].
  - intros g Hg Hno. rewrite zget_zset_ne by (by eapply Hno). by apply Q12.
Qed.

Lemma readi_clamp ip i off n (x : fstate K) : zget (icache x) ip = Some i -> type i <> T_DEV -> 0 <= off <= isize i -> 0 <= n < 2 ^ 31 -> isize i < 2 ^ 31 ->
  readi ip off n x = readi ip off (Z.min n (isize i - off)) x.
Proof using.
  intros Hi Ht Ho Hn Hs. assert (E : ipget ip x = Ret (i, x)) by (unfold ipget; rewrite bind_get, Hi; done). unfold readi. mstep E. symmetry. mstep E. rewrite (proj2 (Z.eqb_neq _ _) Ht).
  rewrite !u32_small by (unfold in_u32; lia). assert ((off >? isize i) || (off + Z.min n (isize i - off) <? off) = false) as -> by lia. assert ((off >? isize i) || (off + n <? off) = false) as -> by lia.
  assert ((if off + Z.min n (isize i - off) >? isize i then isize i - off else Z.min n (isize i - off)) = Z.min n (isize i - off)) as -> by (destruct (Z.gtb_spec (off + Z.min n (isize i - off)) (isize i)); lia).
  assert ((if off + n >? isize i then isize i - off else n) = Z.min n (isize i - off)) as -> by (destruct (Z.gtb_spec (off + n) (isize i)); lia). done.
Qed.
Lemma part_take o k m (x : list Z) : 0 <= o -> 0 <= k -> o + k <= m -> part o k (take (Z.to_nat m) x) = part o k x.
Proof using. intros Ho Hk Hm. unfold part. rewrite skipn_firstn_comm, take_take. f_equal. lia. Qed.
(** Reading the file of a locked inode. *)
Lemma wp_readi_file out hs x k n v i off m Q : calm_o out (Some k) hs x -> zget (icache x) k = Some i -> dev i = d -> inum i = n -> loaded F i -> files !! n = Some v -> vtype v <> T_DEV ->
  0 <= off <= vsize v -> 0 <= m <= 1024 ->
  (forall x', calm_o out (Some k) hs x' -> icache x' = icache x -> Q (Z.min m (vsize v - off), part off (Z.min m (vsize v - off)) (u_data (as_file d F n v))) x') -> wp (readi k off m) Q x.
Proof using Hmnt.
  intros C Hi Hd Hn Hl Hv Ht Ho Hm HQ. destruct (fa_inode _ _ _ _ (mo_vol _ _ _ _ _ Hmnt n v Hv) i Hd Hn Hl) as (Eit & _ & Eis & Hmap & Hb). pose proof (fa_size _ _ _ _ (mo_vol _ _ _ _ _ Hmnt n v Hv)). pose proof (mo_size _ _ _ _ _ Hmnt n v Hv).
  unfold wp. rewrite (readi_clamp k i off m x Hi) by (rewrite ?Eit, ?Eis; done || lia). rewrite Eis. change (wp (readi k off (Z.min m (vsize v - off))) Q x).
  eapply (readi_found (H0 := con_laws out) (file_lookup F i)); [apply (cm_at (H0 := con_laws out) _ _ _ _ _ _ _ C)|rewrite (mo_calm _ _ _ _ _ Hmnt), map_size_empty; lia|exact Hi|by rewrite Eit|apply finds_file, (mo_calm _ _ _ _ _ Hmnt)| |lia|lia|rewrite Eis; lia|lia|].
  - rewrite Hd. intros p Hp. apply Hmap. lia.
  - intros c Sh. assert (E : rbytes (file_lookup F i) (dev i) F off (Z.min m (vsize v - off)) = part off (Z.min m (vsize v - off)) (u_data (as_file d F n v))).
    { change (u_data (as_file d F n v)) with (take (Z.to_nat (vsize v)) (vdata v)). rewrite part_take by lia. rewrite Hd, <- (part_rbytes_all _ _ _ off (Z.min m (vsize v - off)) (zlen (vdata v))) by lia. by rewrite Hb. }
    rewrite E. apply HQ; [|done]. by apply (calm_disk (H0 := con_laws out)).
Qed.

(** The first argument is a descriptor. *)
Lemma fd_range fds hnd out s fd f : quiet fds hnd out s -> zget (ofile s) fd = Some (Some f) -> 0 <= fd < 16.
Proof using. intros Q Hf. apply zget_Some_range in Hf. by rewrite (q_nofile _ _ _ _ Q) in Hf. Qed.
Lemma fd_arg fds hnd out args data s fd f Q : quiet fds hnd out s -> zget (ofile s) fd = Some (Some f) -> args !! 0%nat = Some fd -> zlen (frame args) + zlen data < 2 ^ 20 ->
  Q (Some (fd, f)) (enter args data s) -> wp (argfd 0) Q (enter args data s).
Proof using.
  intros Hq Hf Ha Hl HQ. pose proof (fd_range _ _ _ _ _ _ Hq Hf). eapply (wp_argfd 0 fd f); [done| |done|exact Hf|exact HQ].
  pose proof (enter_arg args data s 0 fd Ha ltac:(lia)) as E. by rewrite u32_small in E by (unfold in_u32; lia).
Qed.
Lemma num_arg args data s n v Q : args !! n = Some v -> 0 <= v < 2 ^ 31 -> zlen (frame args) + zlen data < 2 ^ 20 -> Q (Some v) (enter args data s) -> wp (argint (Z.of_nat n)) Q (enter args data s).
Proof using.
  intros Ha Hv Hl HQ. eapply (wp_argint _ v); [lia| |].
  - pose proof (enter_arg args data s n v Ha ltac:(lia)) as E. by rewrite u32_small in E by (unfold in_u32; lia).
  - by rewrite s32_small by (unfold in_s32; lia).
Qed.
Lemma ptr_arg args data s n size Q : args !! n = Some (zlen (frame args)) -> 0 <= size <= zlen data -> zlen (frame args) + zlen data < 2 ^ 20 ->
  Q (Some (zlen (frame args))) (enter args data s) -> wp (argptr (Z.of_nat n) size) Q (enter args data s).
Proof using.
  intros Ha Hs Hl HQ. pose proof (zlen_nonneg (frame args)). eapply (wp_argptr _ (zlen (frame args))); [lia| |lia|rewrite enter_len; lia|rewrite enter_len; lia|exact HQ].
  pose proof (enter_arg args data s n _ Ha ltac:(lia)) as E. by rewrite u32_small in E by (unfold in_u32; lia).
Qed.
(** The buffer after the kernel has stored into it. *)
Lemma stored args data s x : zlen x <= zlen data -> drop (length (frame args)) (splice (zlen (frame args)) x (umem (enter args data s))) = x ++ drop (length x) (drop (length (frame args)) (umem (enter args data s))).
Proof using.
  intros Hx. pose proof (enter_len args data s) as Hl. unfold splice, zlen in *. rewrite Nat2Z.id. set (u := umem _) in *. rewrite drop_app_ge by (rewrite length_take; lia). rewrite length_take.
  replace (length (frame args) - length (frame args) `min` length u)%nat with 0%nat by lia. rewrite drop_0, drop_drop. done.
Qed.

Lemma wp_kread fd n f o s fds out : ksees s fds out -> fds !! fd = Some (f, o) -> st_type (u_stat f) <> T_DEV -> 0 <= o <= zlen (u_data f) -> 0 <= n <= 1024 ->
  let k := Z.min n (zlen (u_data f) - o) in
  wp (c_read (FileCalls := kernel_calls garbage exec proc_call) fd n) (fun r s' => r = (k, part o k (u_data f)) /\ ksees s' (<[fd := (f, o + k)]> fds) out) s.
Proof using Hmnt Hsp.
  intros [hnd Q] Hf Ht Ho Hn k. destruct (proj1 (q_dom _ _ _ _ Q fd)) as [h Hh]; [by eexists|]. destruct (q_open _ _ _ _ Q fd f o h Hf Hh) as (Hof & Hne & Hslot & (v & Hv & ->) & x & Hx & Ex).
  assert (Hvt : vtype v <> T_DEV).
  { destruct Hslot as (i & _ & _). destruct (fa_block _ _ _ _ (mo_vol _ _ _ _ _ Hmnt _ v Hv)) as [xb Hxb]. intros E. apply Ht. cbn [u_stat as_file st_type].
    destruct (fa_inode _ _ _ _ (mo_vol _ _ _ _ _ Hmnt _ v Hv) (disk_inode d F (h_inum h)) eq_refl eq_refl) as (Et & _); [|by rewrite Et].
    unfold disk_inode. rewrite Hxb. by apply loaded_load. }
  pose proof (mo_size _ _ _ _ _ Hmnt _ v Hv) as Hsz. pose proof (fa_size _ _ _ _ (mo_vol _ _ _ _ _ Hmnt _ v Hv)) as Hsz2.
  assert (Hdl : zlen (u_data (as_file d F (h_inum h) v)) = vsize v) by (change (u_data (as_file d F (h_inum h) v)) with (take (Z.to_nat (vsize v)) (vdata v)); unfold zlen in *; rewrite length_take; lia).
  cbn [c_read kernel_calls]. eapply wp_bind, wp_ucall. change (syscall garbage exec proc_call 6) with (sys_read (K := K) (P := P)).
  set (args := [fd; 16; n]). set (data := replicate (Z.to_nat n) 0). assert (Hdata : zlen data = n) by (unfold data, zlen; rewrite length_replicate; lia).
  assert (Q0 : quiet fds hnd out (enter args data s)) by (eapply quiet_same; done). assert (Hfr : zlen (frame args) = 16) by done.
  unfold sys_read. eapply wp_bind, (fd_arg fds hnd out args data s fd (h_file h)); [exact Q|exact Hof|done|lia|]. eapply wp_bind, (num_arg args data s 2 n); [done|lia|lia|].
  eapply wp_bind, (ptr_arg args data s 1 n); [done|lia|lia|]. rewrite Hfr. set (s0 := enter args data s) in *.
  eapply wp_bind. unfold fileread. eapply wp_bind, wp_fget; [exact Hx|]. rewrite Ex. cbn [readable fty ip off]. change (1 =? 0) with false. cbv iota.
  eapply wp_bind, wp_fs, (wp_ilock (H0 := con_laws out) d files F base here 8 (sp_slots Hsp) (mo_vol _ _ _ _ _ Hmnt) (mo_calm _ _ _ _ _ Hmnt) (kc :: here :: slots hnd)); [exact (q_calm _ _ _ _ Q0)|right; right; by eapply slots_in|exact Hslot|exact Hv|].
  intros x1 i C1 Hi Hd Hin Hl S1. rewrite u32_small by (unfold in_u32; lia). eapply wp_bind, wp_fs, (wp_readi_file out (kc :: here :: slots hnd)); [exact C1|exact Hi|done|done|done|exact Hv|done|lia|done|].
  rewrite <- Hdl. fold k. intros x2 C2 Ei. cbn [fst snd]. assert (Hk : zlen (part o k (u_data (as_file d F (h_inum h) v))) = k) by (apply part_length; lia).
  set (s1 := set_fsys x2 (set_fsys x1 s0)). set (x' := mkFile FD_INODE 1 1 0 (pipe x) (h_slot h) o) in *.
  assert (Hgo : forall s2, fsys s2 = x2 -> quiet (<[fd := (as_file d F (h_inum h) v, o + k)]> fds) hnd out (set_fsys (fsys s) s2) -> umem s2 = umem s0 ->
    wp (fs (iunlock (Some (h_slot h)));; mret (k, part o k (u_data (as_file d F (h_inum h) v)))) (fun r s' => wp (store_user 16 r.2;; mret r.1)
      (fun r s' => wp (mret (r, take (Z.to_nat r) (drop (length (frame args)) (umem s')))) (fun r s' => r = (k, part o k (u_data (as_file d F (h_inum h) v))) /\ ksees s' (<[fd := (as_file d F (h_inum h) v, o + k)]> fds) out) s') s') s2).
  { intros s2 E2 Q2 Eu. eapply wp_bind, wp_fs. rewrite E2. eapply (wp_iunlock (H0 := con_laws out) d F base here 8 (sp_slots Hsp) (kc :: here :: slots hnd)); [exact C2|destruct (S1 (h_slot h) (h_inum h)) as (j & Hj & Hj2); [right; right; by eapply slots_in|exact Hslot|]; exists j; by rewrite Ei|].
    intros x3 C3 S3. apply wp_ret. cbn [fst snd]. eapply wp_bind, wp_store_user; [cbn [umem set_fsys]; rewrite Hk, Eu; unfold s0; rewrite enter_len; lia|]. apply wp_ret, wp_ret. split.
    - f_equal. cbn [umem set_umem set_fsys]. rewrite Eu. unfold s0. rewrite <- Hfr, stored by lia. rewrite take_app_le by (unfold zlen in Hk; lia). apply take_ge. unfold zlen in Hk. lia.
    - exists hnd. eapply quiet_fsys; [exact Q2|exact C3| |done|done|done]. intros j m Hj Hm. cbn [fsys set_fsys set_umem] in *. apply S3; [done|]. destruct (S1 j m Hj Hm) as (y & Hy & Hy2). exists y. by rewrite Ei. }
  destruct (Z.gtb_spec k 0) as [Hk0|Hk0].
  - eapply wp_bind, (wp_fmod _ x'); [rewrite <- Ex; exact Hx|]. cbn [off x']. rewrite u32_small by (unfold in_u32; lia). apply Hgo; [done| |done].
    eapply quiet_offset; [exact Q0|exact Hf|exact Hh|rewrite <- Ex; exact Hx|done|done|done|done].
  - apply wp_bind, wp_ret. apply Hgo; [done| |done]. assert (k = 0) as -> by lia. rewrite Z.add_0_r, insert_id by done. eapply quiet_same; [exact Q0|done..].
Qed.

(** ** [write], to the console *)

Lemma calm_out out out' lk hs (x x' : fstate K) : calm_o out lk hs x -> shows (BlockLaws := con_laws out') (Fs.disk x') F -> icache x' = icache x -> icache_lock x' = icache_lock x -> cwd x' = cwd x ->
  calm_o out' lk hs x'.
Proof using. intros [C1 C2 C3 C4 C5 C6 C7] Sh E1 E2 E3. split; rewrite ?E1, ?E2, ?E3; done. Qed.
Lemma loaded_major n i : loaded F i -> dev i = d -> inum i = n -> major i = major (disk_inode d F n).
Proof using. intros (x & Hx & E) Hd Hn. rewrite Hd, Hn in Hx. rewrite Hn in E. unfold disk_inode. rewrite Hx. by rewrite <- E at 1. Qed.
(** The console's file has another offset. *)
Lemma quiet_con fds hnd out s s' xc o : quiet fds hnd out s -> zget (ftable s) fc = Some xc -> ftable s' = zset (ftable s) fc (set_off o xc) ->
  fsys s' = fsys s -> ftable_lock s' = ftable_lock s -> ofile s' = ofile s -> quiet fds hnd out s'.
Proof using.
  intros [Q1 Q2 Q3 Q4 Q5 Q6 Q7 Q8 Q9 Q10 Q11 Q12] Hx Et E1 E2 E3. pose proof (zget_Some_range _ _ _ Hx). split; rewrite ?Et, ?E1, ?E2, ?E3; try done.
  - destruct Q7 as (y & Hy & Hrest). assert (y = xc) as -> by congruence. exists (set_off o xc). by rewrite zget_zset_eq.
  - intros fd f o' h Hf Hh. destruct (Q9 fd f o' h Hf Hh) as (A1 & A2 & A3 & A4 & y & A5 & A6). rewrite zget_zset_ne by congruence. split; [done|]. split; [done|]. split; [done|]. split; [done|]. by exists y.
  - intros g Hg Hno. destruct (decide (g = fc)) as [->|Hne]; [|rewrite zget_zset_ne by congruence; by apply Q12]. destruct (Q12 fc Hg Hno) as (y & Hy & Hr). destruct Q7 as (z & Hz & _ & Hp & _).
    assert (y = z) by congruence. subst. lia.
Qed.

Lemma wp_write fd b n s fds out : ksees s fds out -> fd = 1 \/ fd = 2 -> 0 <= n <= zlen b -> zlen b <= 1024 ->
  wp (c_write (FileCalls := kernel_calls garbage exec proc_call) fd b n) (fun r s' => r = n /\ ksees s' fds (out ++ sent_bytes (take (Z.to_nat n) b))) s.
Proof using Hmnt Hsp.
  intros [hnd Q] Hfd Hn Hb. pose proof (q_std _ _ _ _ Q fd Hfd) as Hof. destruct (q_con _ _ _ _ Q) as (xc & Hxc & Hxt & Hxr & Hxw & Hxi). destruct (mo_console _ _ _ _ _ Hmnt) as (v & Hv & Hvt).
  cbn [c_write kernel_calls]. eapply wp_bind, wp_ucall. change (syscall garbage exec proc_call 5) with (sys_write (K := K) (P := P)).
  set (args := [fd; 16; n]). assert (Q0 : quiet fds hnd out (enter args b s)) by (eapply quiet_same; done). assert (Hfr : zlen (frame args) = 16) by done.
  unfold sys_write. eapply wp_bind, (fd_arg fds hnd out args b s fd fc); [exact Q|exact Hof|done|lia|]. eapply wp_bind, (num_arg args b s 2 n); [done|lia|lia|].
  eapply wp_bind, (ptr_arg args b s 1 n); [done|lia|lia|]. rewrite Hfr. eapply wp_bind, wp_get. change (Z.to_nat 16) with (length (frame args)). rewrite frame_data. fold (sent_bytes b). set (s0 := enter args b s) in *.
  unfold filewrite. eapply wp_bind, wp_fget; [exact Hxc|]. rewrite (proj2 (Z.eqb_neq _ _) Hxw), Hxt, Hxi.
  eapply wp_bind, wp_fs, (wp_ilock (H0 := con_laws out) d files F base here 8 (sp_slots Hsp) (mo_vol _ _ _ _ _ Hmnt) (mo_calm _ _ _ _ _ Hmnt) (kc :: here :: slots hnd)); [exact (q_calm _ _ _ _ Q0)|left|exact (q_cons _ _ _ _ Q0)|exact Hv|].
  intros x1 i C1 Hi Hd Hin Hl S1. rewrite u32_small by (unfold in_u32; lia). destruct (fa_inode _ _ _ _ (mo_vol _ _ _ _ _ Hmnt nc v Hv) i Hd Hin Hl) as (Eit & _).
  eapply wp_bind, wp_fs. unfold writei. eapply wp_bind, wp_ipget; [exact Hi|]. rewrite Eit, Hvt. change (T_DEV =? T_DEV) with true. cbv iota. rewrite (loaded_major nc i Hl Hd Hin), (mo_major _ _ _ _ _ Hmnt), con_has.
  change ((1 <? 0) || (1 >=? NDEV) || negb true) with false. cbv iota. rewrite s32_small by (unfold in_s32; lia).
  assert (Hlb : zlen (sent_bytes b) = zlen b) by (unfold sent_bytes, zlen; by rewrite length_fmap).
  assert (Hbl : byte_list (sent_bytes b)) by (apply Forall_forall; intros c (c' & -> & _)%list_elem_of_fmap; by apply Z.mod_pos_bound).
  destruct (con_write out (Fs.disk x1) F kc (sent_bytes b ++ replicate 4 0) n) as (k' & E & Sh); [exact (cm_at (H0 := con_laws out) _ _ _ _ _ _ _ C1)|rewrite zlen_app; pose proof (zlen_nonneg (replicate 4 0)); lia|apply Forall_app; split; [done|by apply Forall_replicate]|].
  rewrite take_app_le in Sh by (unfold zlen in *; lia). assert (Et : take (Z.to_nat n) (sent_bytes b) = sent_bytes (take (Z.to_nat n) b)) by (unfold sent_bytes; symmetry; apply fmap_take). rewrite Et in Sh. clear Et.
  change (fsys (set_fsys x1 s0)) with x1. apply wp_iff. exists n, (Fs.mkF (icache x1) (icache_lock x1) (cwd x1) k'). split; [unfold io; by rewrite E|]. set (x2 := Fs.mkF (icache x1) (icache_lock x1) (cwd x1) k'). set (out' := out ++ _) in *.
  assert (C2 : calm_o out' (Some kc) (kc :: here :: slots hnd) x2) by (by eapply calm_out).
  assert (Hgo : forall s2, fsys s2 = x2 -> quiet fds hnd out (set_fsys (fsys s) s2) ->
    wp (fs (iunlock (Some kc));; mret n) (fun r s' => wp (mret (r, drop (length (frame args)) (umem s'))) (fun r s' => wp (mret r.1) (fun r s' => r = n /\ ksees s' fds out') s') s') s2).
  { intros s2 E2 Q2. eapply wp_bind, wp_fs. rewrite E2. eapply (wp_iunlock (H0 := con_laws out') d F base here 8 (sp_slots Hsp) (kc :: here :: slots hnd)); [exact C2|exact (S1 kc nc ltac:(left) (q_cons _ _ _ _ Q0))|].
    intros x3 C3 S3. apply wp_ret, wp_ret, wp_ret. split; [done|]. exists hnd. eapply quiet_fsys; [exact Q2|exact C3| |done|done|done]. intros j m Hj Hm. cbn [fsys set_fsys] in *. apply S3; [done|]. exact (S1 j m Hj Hm). }
  destruct (Z.gtb_spec n 0) as [Hn0|Hn0].
  - eapply wp_bind, (wp_fmod _ xc); [exact Hxc|]. apply Hgo; [done|]. eapply quiet_con; [exact Q0|exact Hxc|reflexivity|done|done|done].
  - apply wp_bind, wp_ret. apply Hgo; [done|]. eapply quiet_same; [exact Q0|done..].
Qed.

(** ** [fstat] *)

(** What [sys_fstat] stores, over a buffer of zeros behind a frame of 12 bytes. *)
Lemma stat_stored fr r : length fr = 12%nat -> length (st_addrs r) = 13%nat ->
  splice (12 + 20) (mjoin (to_le 4 <$> st_addrs r)) (splice (12 + 16) (to_le 4 (st_size r)) (splice (12 + 12) (to_le 2 (st_nlink r))
    (splice 12 (to_le 2 (st_type r)) (splice (12 + 8) (to_le 4 (st_ino r)) (splice (12 + 4) (to_le 4 (st_dev r)) (fr ++ replicate 72 0 ++ replicate 4 0)))))) =
  fr ++ (to_le 2 (st_type r) ++ [0; 0] ++ to_le 4 (st_dev r) ++ to_le 4 (st_ino r) ++ to_le 2 (st_nlink r) ++ [0; 0] ++ to_le 4 (st_size r)) ++ mjoin (to_le 4 <$> st_addrs r) ++ replicate 4 0.
Proof using.
  intros Hf Ha. assert (Hj : length (mjoin (to_le 4 <$> st_addrs r)) = 52%nat) by (pose proof (zlen_join (st_addrs r)); unfold zlen in *; lia). set (A := mjoin _) in *. clearbody A.
  do 12 (destruct fr as [|? fr]; [done|]). destruct fr; [|done]. unfold splice at 1. rewrite Hj. reflexivity.
Qed.
Lemma stat_read r : - 2 ^ 15 <= st_type r < 2 ^ 15 -> - 2 ^ 15 <= st_nlink r < 2 ^ 15 -> in_s32 (st_dev r) -> in_u32 (st_ino r) -> in_u32 (st_size r) -> length (st_addrs r) = 13%nat -> Forall in_u32 (st_addrs r) ->
  stat_of ((to_le 2 (st_type r) ++ [0; 0] ++ to_le 4 (st_dev r) ++ to_le 4 (st_ino r) ++ to_le 2 (st_nlink r) ++ [0; 0] ++ to_le 4 (st_size r)) ++ mjoin (to_le 4 <$> st_addrs r) ++ replicate 4 0) = r.
Proof using.
  intros Ht Hn Hd Hi Hs Hl Ha. unfold stat_of. set (h := to_le 2 (st_type r) ++ _). set (b := h ++ mjoin (to_le 4 <$> st_addrs r) ++ replicate 4 0).
  assert (E1 : half b 0 = le (to_le 2 (st_type r))) by reflexivity. assert (E2 : word b 4 = le (to_le 4 (st_dev r))) by reflexivity. assert (E3 : word b 8 = le (to_le 4 (st_ino r))) by reflexivity.
  assert (E4 : half b 12 = le (to_le 2 (st_nlink r))) by reflexivity. assert (E5 : word b 16 = le (to_le 4 (st_size r))) by reflexivity.
  assert (E6 : words 13 b 20 = st_addrs r) by (rewrite <- Hl; change 20 with (zlen h); by apply words_join).
  rewrite E1, E2, E3, E4, E5, E6, !le_to_le_mod. clearbody b. destruct r as [ty dv ino nl sz ad]. cbn [st_type st_dev st_ino st_nlink st_size st_addrs] in *.
  assert (Hs16 : forall v, - 2 ^ 15 <= v < 2 ^ 15 -> s16 (v mod 256 ^ Z.of_nat 2) = v) by (intros v Hv; change (256 ^ Z.of_nat 2) with (2 ^ 16); unfold s16; rewrite Zplus_mod_idemp_l, Z.mod_small; lia).
  f_equal; [by apply Hs16| | |by apply Hs16|].
  - change (256 ^ Z.of_nat 4) with (2 ^ 32). fold (u32 dv). by rewrite s32_u32, s32_small.
  - by apply Z.mod_small.
  - by apply Z.mod_small.
Qed.
Lemma as_file_stat n v : files !! n = Some v -> let r := u_stat (as_file d F n v) in
  - 2 ^ 15 <= st_type r < 2 ^ 15 /\ - 2 ^ 15 <= st_nlink r < 2 ^ 15 /\ in_s32 (st_dev r) /\ in_u32 (st_ino r) /\ in_u32 (st_size r) /\ length (st_addrs r) = 13%nat /\ Forall in_u32 (st_addrs r).
Proof using Hmnt.
  intros Hv. cbn [u_stat as_file st_type st_nlink st_dev st_ino st_size st_addrs]. unfold disk_inode. set (x := default [] _).
  assert (Hx : byte_list x) by (unfold x; destruct (BlockDev.disk F !! (d, IBLOCK n)) as [y|] eqn:E; [by eapply (mo_bytes _ _ _ _ _ Hmnt)|constructor]).
  cbn [type nlink isize addrs load_dinode]. assert (Hs : forall z, - 2 ^ 15 <= s16 z < 2 ^ 15) by (intros z; unfold s16; pose proof (Z.mod_pos_bound (z + 2 ^ 15) (2 ^ 16)); lia).
  split; [apply Hs|]. split; [apply Hs|]. split; [rewrite (proj1 (mo_root _ _ _ _ _ Hmnt)); done|]. split; [pose proof (mo_inum _ _ _ _ _ Hmnt n v Hv); unfold in_u32; lia|]. split; [by apply word_range|].
  assert (Hw : forall k o, length (words k x o) = k /\ Forall in_u32 (words k x o)).
  { induction k as [|k IH]; intros o; [by split|]. cbn [words length]. destruct (IH (o + 4)) as [-> HF]. split; [done|]. constructor; [by apply word_range|done]. }
  destruct (Hw 13%nat (dinode_off n + 12)) as [Hlen HF]. rewrite take_ge by lia. done.
Qed.

Lemma wp_fstat fd f o s fds out : ksees s fds out -> fds !! fd = Some (f, o) ->
  wp (c_fstat (FileCalls := kernel_calls garbage exec proc_call) fd) (fun r s' => r = (0, u_stat f) /\ ksees s' fds out) s.
Proof using Hmnt Hsp.
  intros [hnd Q] Hf. destruct (proj1 (q_dom _ _ _ _ Q fd)) as [h Hh]; [by eexists|]. destruct (q_open _ _ _ _ Q fd f o h Hf Hh) as (Hof & Hne & Hslot & (v & Hv & ->) & x & Hx & Ex).
  pose proof (as_file_stat _ v Hv) as Hst. cbn [c_fstat kernel_calls]. eapply wp_bind, wp_ucall. change (syscall garbage exec proc_call 13) with (sys_fstat (K := K) (P := P)).
  set (args := [fd; 12]). set (data := replicate 72 0). assert (Q0 : quiet fds hnd out (enter args data s)) by (eapply quiet_same; done). assert (Hfr : zlen (frame args) = 12) by done.
  unfold sys_fstat. eapply wp_bind, (fd_arg fds hnd out args data s fd (h_file h)); [exact Q|exact Hof|done|by vm_compute|]. eapply wp_bind, (ptr_arg args data s 1 72); [done|by split; vm_compute|by vm_compute|]. rewrite Hfr.
  assert (Hum : umem (enter args data s) = frame args ++ replicate 72 0 ++ replicate 4 0) by done. set (s0 := enter args data s) in *.
  eapply wp_bind. unfold filestat. eapply wp_bind, wp_fget; [exact Hx|]. rewrite Ex. cbn [fty ip].
  eapply wp_bind, wp_fs, (wp_ilock (H0 := con_laws out) d files F base here 8 (sp_slots Hsp) (mo_vol _ _ _ _ _ Hmnt) (mo_calm _ _ _ _ _ Hmnt) (kc :: here :: slots hnd)); [exact (q_calm _ _ _ _ Q0)|right; right; by eapply slots_in|exact Hslot|exact Hv|].
  intros x1 i C1 Hi Hd Hin Hl S1. eapply wp_bind, wp_fs. unfold stati. eapply wp_bind, wp_ipget; [exact Hi|]. apply wp_ret. rewrite (loaded_is d F (h_inum h) i Hl Hd Hin). 
  change (mkStat (type (disk_inode d F (h_inum h))) d (h_inum h) (nlink (disk_inode d F (h_inum h))) (isize (disk_inode d F (h_inum h))) (take 13 (addrs (disk_inode d F (h_inum h))))) with (u_stat (as_file d F (h_inum h) v)).
  set (r := u_stat _) in *. clearbody r.
  eapply wp_bind, wp_fs, (wp_iunlock (H0 := con_laws out) d F base here 8 (sp_slots Hsp) (kc :: here :: slots hnd)); [exact C1|apply S1; [right; right; by eapply slots_in|exact Hslot]|]. intros x2 C2 S2. apply wp_ret.
  destruct Hst as (T1 & T2 & T3 & T4 & T5 & T6 & T7). assert (Hlen : zlen (umem s0) = 88) by done.
  assert (Hj : zlen (mjoin (to_le 4 <$> st_addrs r)) = 52) by (rewrite zlen_join; unfold zlen; rewrite T6; done).
  change (zlen (umem (set_fsys x2 (set_fsys x1 s0))) = 88) in Hlen. cbn [fst snd].
  do 6 (eapply wp_bind, (wp_store_len 88); [eassumption|lia|rewrite ?zlen_to_le, ?Hj; lia|intros ?]). cbn [umem set_umem set_fsys].
  apply wp_ret, wp_ret. cbn [fst snd]. split.
  - f_equal. rewrite Hum. change (zlen (frame args)) with 12 in *. rewrite stat_stored by done. cbn [umem set_umem]. rewrite drop_app_length. by apply stat_read.
  - exists hnd. eapply quiet_fsys; [exact Q0|exact C2| |done|done|done]. intros j m Hm Hjm. apply S2; [done|]. exact (S1 j m Hm Hjm).
Qed.

(** ** [close] *)

Lemma quiet_close fds hnd out s s' fd f o h y : quiet fds hnd out s -> fds !! fd = Some (f, o) -> hnd !! fd = Some h -> calm_o out None (kc :: here :: slots (delete fd hnd)) (fsys s') ->
  same_slots d (kc :: here :: slots (delete fd hnd)) (fsys s) (fsys s') -> ref y = 0 -> ftable s' = zset (ftable s) (h_file h) y -> ofile s' = zset (ofile s) fd None -> ftable_lock s' = false ->
  quiet (delete fd fds) (delete fd hnd) out s'.
Proof using.
  intros Q Hf Hh C S Hy Et Eo El. destruct (q_open _ _ _ _ Q fd f o h Hf Hh) as (Hof & Hne & _ & _ & x & Hx & _). pose proof (zget_Some_range _ _ _ Hof). pose proof (zget_Some_range _ _ _ Hx).
  destruct Q as [Q1 Q2 Q3 Q4 Q5 Q6 Q7 Q8 Q9 Q10 Q11 Q12]. split.
  - exact C.
  - apply S; [left|exact Q2].
  - apply S; [right; left|exact Q3].
  - done.
  - by rewrite Eo, zlen_zset.
  - intros fd' Hfd'. rewrite Eo, zget_zset_ne; [by apply Q6|]. intros ->. specialize (Q6 fd' Hfd'). congruence.
  - destruct Q7 as (xc & Hxc & Hrest). exists xc. rewrite Et, zget_zset_ne by done. done.
  - intros fd'. destruct (decide (fd' = fd)) as [->|Hn]; [by rewrite !lookup_delete_eq; split; intros [? ?]|by rewrite !lookup_delete_ne by congruence].
  - intros fd' g o' h' Hg Hh'. destruct (decide (fd' = fd)) as [->|Hn]; [by rewrite lookup_delete_eq in Hg|]. rewrite lookup_delete_ne in Hg by congruence; rewrite lookup_delete_ne in Hh' by congruence.
    destruct (Q9 fd' g o' h' Hg Hh') as (E1 & E2 & E3 & E4 & z & E5 & E6). rewrite Eo, Et, !zget_zset_ne; [|intros E; apply Hn; symmetry; by eapply Q10|congruence].
    split; [done|]. split; [done|]. split; [apply S; [right; right; apply (slots_in _ fd' h'); by rewrite lookup_delete_ne by congruence|done]|]. split; [done|]. by exists z.
  - intros a b h1 h2 Ha Hb E. apply lookup_delete_Some in Ha as [_ Ha], Hb as [_ Hb]. by eapply Q10.
  - intros fd' Hin Hno. rewrite Eo. destruct (decide (fd' = fd)) as [->|Hn]; [by apply zget_zset_eq|]. rewrite zget_zset_ne by congruence. apply Q11; [done|]. by rewrite lookup_delete_ne in Hno by congruence.
  - intros g Hg Hno. rewrite Et. destruct (decide (g = h_file h)) as [->|Hn]; [exists y; by rewrite zget_zset_eq|]. rewrite zget_zset_ne by congruence. apply Q12; [done|]. intros fd' h' Hh' Ef.
    destruct (decide (fd' = fd)) as [->|Hn2]; [congruence|]. eapply (Hno fd'); [by rewrite lookup_delete_ne by congruence|done].
Qed.

Lemma wp_close fd f o s fds out : ksees s fds out -> fds !! fd = Some (f, o) -> (base.size fds <= 3)%nat ->
  wp (c_close (FileCalls := kernel_calls garbage exec proc_call) fd) (fun r s' => r = 0 /\ ksees s' (delete fd fds) out) s.
Proof using Hmnt Hsp.
  intros [hnd Q] Hf Hn. destruct (proj1 (q_dom _ _ _ _ Q fd)) as [h Hh]; [by eexists|]. destruct (q_open _ _ _ _ Q fd f o h Hf Hh) as (Hof & Hne & Hslot & (v & Hv & ->) & x & Hx & Ex).
  cbn [c_close kernel_calls]. eapply wp_bind, wp_ucall. change (syscall garbage exec proc_call 7) with (sys_close (K := K) (P := P)).
  assert (Q0 : quiet fds hnd out (enter [fd] [] s)) by (eapply quiet_same; done). unfold sys_close. eapply wp_bind, (fd_arg fds hnd out [fd] [] s fd (h_file h)); [exact Q|exact Hof|done|by vm_compute|]. set (s0 := enter [fd] [] s) in *.
  eapply wp_bind, wp_modify, wp_bind. set (s1 := set_ofile _ s0). unfold fileclose. eapply wp_bind, wp_acquire_ft; [exact (q_lock _ _ _ _ Q0)|]. eapply wp_bind, wp_fget; [exact Hx|]. rewrite Ex. cbn [ref]. change (1 <? 1) with false. cbv iota.
  change (s32 (1 - 1)) with 0. eapply wp_bind, wp_fmod; [exact Hx|]. change (0 >? 0) with false. cbv iota. cbn [ftable set_ftable set_ftable_lock]. pose proof (zget_Some_range _ _ _ Hx) as Hr.
  eapply wp_bind, wp_fget; [apply zget_zset_eq; exact Hr|]. eapply wp_bind, wp_fmod; [apply zget_zset_eq; exact Hr|]. eapply wp_bind, wp_release_ft; [done|]. rewrite Ex. cbn [fty set_ref ip].
  cbn [ftable set_ftable set_ftable_lock]. rewrite zset_zset.
  assert (Hslots : zlen (kc :: here :: slots (delete fd hnd)) < 8).
  { pose proof (slots_length hnd) as E. rewrite (dom_same fds hnd (q_dom _ _ _ _ Q)), (Permutation_length (slots_delete hnd fd h Hh)) in E. unfold zlen. cbn [length] in *. lia. }
  eapply wp_fs, (wp_iput (H0 := con_laws out) d files F base here 8 (sp_slots Hsp) (mo_vol _ _ _ _ _ Hmnt) (h_slot h) (kc :: here :: slots (delete fd hnd)));
    [|exact Hslot|exact Hv|exact Hslots|].
  - eapply (calm_perm (H0 := con_laws out)); [|exact (q_calm _ _ _ _ Q0)]. rewrite (slots_delete hnd fd h Hh). trans (kc :: h_slot h :: here :: slots (delete fd hnd)); [apply perm_skip, Permutation_swap|apply Permutation_swap].
  - intros x1 C1 S1. apply wp_ret, wp_ret, wp_ret. split; [done|]. exists (delete fd hnd). eapply quiet_close; [exact Q0|exact Hf|exact Hh|exact C1| | |reflexivity|reflexivity|reflexivity]; [|done].
    intros j m Hj Hm. by apply S1.
Qed.

(** ** The laws, kept *)

Definition kernel_sees s fds out : Prop := ksees s fds out /\ (base.size fds <= 3)%nat.
Definition kernel_laws : FileLaws (H := kernel_calls garbage exec proc_call) st.
Proof using Hmnt Hsp kc here fc H1.
  refine (Build_FileLaws st (kernel_calls garbage exec proc_call) kernel_sees kat_path _ _ _ _ _).
  - intros p s fds out [Hs Hle] Hp Hn. destruct (proj1 (wp_iff _ _ _) (wp_open p s fds out Hs Hp Hn)) as (fd & s' & E & HQ). destruct (kat_path p) as [f|].
    + destruct HQ as (Hfd & Hno & Hs'). exists fd, s'. split; [exact E|]. split; [done|]. split; [done|]. split; [done|]. rewrite map_size_insert_None by done. lia.
    + destruct HQ as [-> Hs']. exists s'. done.
  - intros fd n f o s fds out [Hs Hle] Hf Ht Ho Hn k. destruct (proj1 (wp_iff _ _ _) (wp_kread fd n f o s fds out Hs Hf Ht Ho Hn)) as (r & s' & E & -> & Hs'). exists s'. split; [exact E|]. split; [done|].
    rewrite map_size_insert_Some by (by eexists). done.
  - intros fd b n s fds out [Hs Hle] Hfd Hn Hb. destruct (proj1 (wp_iff _ _ _) (wp_write fd b n s fds out Hs Hfd Hn Hb)) as (r & s' & E & -> & Hs'). by exists s'.
  - intros fd f o s fds out [Hs Hle] Hf. destruct (proj1 (wp_iff _ _ _) (wp_fstat fd f o s fds out Hs Hf)) as (r & s' & E & -> & Hs'). by exists s'.
  - intros fd f o s fds out [Hs Hle] Hf. destruct (proj1 (wp_iff _ _ _) (wp_close fd f o s fds out Hs Hf Hle)) as (r & s' & E & -> & Hs'). exists s'. split; [exact E|]. split; [done|].
    pose proof (map_size_delete fd fds) as E2. rewrite Hf in E2. cbn in E2. lia.
Defined.

(** Nothing is open. *)
Lemma sees_none s out : kernel_sees s ∅ out <-> quiet ∅ ∅ out s.
Proof using.
  split; [|intros Q; split; [by exists ∅|rewrite map_size_empty; lia]]. intros [[hnd Q] _]. assert (hnd = ∅) as ->; [|exact Q]. apply map_empty. intros fd. destruct (hnd !! fd) as [h|] eqn:E; [|done].
  destruct (proj2 (q_dom _ _ _ _ Q fd)) as [x Hx]; [by eexists|]. by rewrite lookup_empty in Hx.
Qed.
End Kernel.
