(* ===== verification/UserKernel.v ===== *)
(** The user programs on the kernel: what [cat], [wc], [grep] and [ls] print of the
    files of a volume, run on the system calls over the file system, the buffer
    cache and the console; and a volume where they are run. *)
From S2P Require Import Prelude Bytes BlockDev CString Bio BioSpec Fs FsSpec FsRw FsPath FsTree Console ConsoleSpec Pipe File FileDemo Printf Progs ProgsSpec UserCalls UserCallsSpec.
Import Fs.
Import File.
Import Progs.

Section Programs.
Context {K P : Type} `{ConsoleLaws K} `{PageOps P}.
Context (garbage : list Z) (exec : list Z -> list (list Z) -> M (kfile K P) Z) (proc_call : Z -> M (kfile K P) Z).
Context (d : Z) (files : gmap Z vfile) (F : flat) (nc ncwd : Z) (base : list Z) (here kc fc : Z) (zf zt : list Z).
Context (Hmnt : mounted d files F nc ncwd) (Hsp : spare garbage base zf zt).
Notation st := (kfile K P).
(** The process has the console at 1 and 2, where [out] has come out. *)
Notation at_rest out := (quiet d files F nc ncwd base here kc fc zf zt ∅ ∅ out).
Notation look := (kat_path d files F ncwd).

Lemma at_rest_ends {A} (m : M st A) s (text : list Z) out :
  wp m (fun _ s' => sees (FileLaws := kernel_laws garbage exec proc_call d files F nc ncwd base here kc fc zf zt Hmnt Hsp) s' ∅ (out ++ text)) s -> exists a s', m s = Ret (a, s') /\ at_rest (out ++ text) s'.
Proof using. intros W. apply wp_iff in W as (a & s' & E & Hs'). exists a, s'. split; [exact E|]. by apply sees_none in Hs'. Qed.

(** C7: The user programs on the kernel's own system calls ([namei], the inode
    cache, [readi], the file table and descriptors, user memory, the console):
    on any volume, [cat] prints the bytes of the files it is given (none of them
    a device), [wc] the numerals of their newlines, words and bytes, up to the
    first that is not there; [grep], of one file of at most 1023 bytes that are
    whole lines without NULs (it loses or repeats lines of other files), the
    lines that match; [ls] a line for each file and for each entry of each
    directory.
    They end, with the file system, the file table and the descriptors at rest
    as before. *)
Theorem programs_print_files s out fuel name args : at_rest out s -> args <> [] ->
  let calls := kernel_calls garbage exec proc_call in
  (Forall (file_ok look) args -> reads_enough look args fuel ->
    exists s', cat_main (H := calls) fuel (name :: args) s = Ret (tt, s') /\ at_rest (out ++ sent_bytes (cat_text look args)) s') /\
  (Forall (file_ok look) args -> reads_enough look args fuel ->
    exists s', wc_main (H := calls) fuel (name :: args) s = Ret (tt, s') /\ at_rest (out ++ sent_bytes (wc_texts look args)) s') /\
  (forall pattern a f ls, file_ok look a -> look a = Some f -> u_data f = text_of ls -> Forall line_ok ls -> zlen (u_data f) <= 1023 -> (1 < fuel)%nat ->
    exists s', grep_main (H := calls) fuel [name; pattern; a] s = Ret (tt, s') /\ at_rest (out ++ sent_bytes (mjoin (hits pattern ls))) s') /\
  (Forall (ls_ok look fuel) args ->
    exists s', ls_main (H := calls) fuel (name :: args) s = Ret (tt, s') /\ at_rest (out ++ sent_bytes (mjoin (ls_shown look <$> args))) s').
Proof using Hmnt Hsp.
  intros Q Hne calls. assert (Hs : sees (FileLaws := kernel_laws garbage exec proc_call d files F nc ncwd base here kc fc zf zt Hmnt Hsp) s ∅ out) by (by apply sees_none).
  assert (Hn : (base.size (∅ : gmap Z (ufile * Z)) < 2)%nat) by (rewrite map_size_empty; lia). destruct args as [|a args]; [done|].
  assert (Hend : forall (m : M st unit) text, wp m (fun _ s' => sees (FileLaws := kernel_laws garbage exec proc_call d files F nc ncwd base here kc fc zf zt Hmnt Hsp) s' ∅ (out ++ text)) s ->
    exists s', m s = Ret (tt, s') /\ at_rest (out ++ text) s') by (intros m text W; destruct (at_rest_ends m s text out W) as ([] & s' & E & R); by exists s').
  split; [|split; [|split]].
  - intros HF Hfu. apply Hend. eapply wp_cat_main; [exact Hs|lia|exact HF|exact Hfu|]. done.
  - intros HF Hfu. apply Hend. eapply wp_wc_main; [exact Hs|lia|exact HF|exact Hfu| |done]. intros x f _ Ef. cbn [at_path kernel_laws] in Ef. unfold kat_path in Ef.
    destruct (walk files (kstart ncwd x) (components x)) as [m|]; [|done]. cbn [mbind option_bind] in Ef. destruct (files !! m) as [v|] eqn:Ev; [|done]. injection Ef as <-.
    pose proof (fa_size _ _ _ _ (mo_vol _ _ _ _ _ Hmnt m v Ev)). change (u_data (as_file d F m v)) with (take (Z.to_nat (vsize v)) (vdata v)). unfold zlen. rewrite length_take. lia.
  - intros pattern x f ls Hx Ef Hd HF Hl Hfu. apply Hend. eapply wp_grep_main; [exact Hs|lia|exact Hx|exact Ef|exact Hd|exact HF|exact Hl|exact Hfu|done].
  - intros HF. apply Hend. eapply (wp_ls_main fuel name (a :: args)); [exact Hs|lia|exact HF|done].
Qed.
End Programs.

(** ** A disk with a console *)

#[local] Existing Instance Bio.bio_ops.
Definition machine : Type := Bio.bstate * Console.console.
Definition on_disk {A} (m : M Bio.bstate A) : M machine A := fun s =>
  match m s.1 with Ret (a, b) => Ret (a, (b, s.2)) | Panicked e => Panicked e | Undef e => Undef e | Blocked c => Blocked c | NoFuel => NoFuel end.
Definition on_console {A} (m : M Console.console A) : M machine A := fun s =>
  match m s.2 with Ret (a, c) => Ret (a, (s.1, c)) | Panicked e => Panicked e | Undef e => Undef e | Blocked c => Blocked c | NoFuel => NoFuel end.
#[export] Instance machine_blocks : BlockOps machine := {
  bread d n := on_disk (bread d n); bdata h := on_disk (bdata h); bstore h x := on_disk (bstore h x); bwrite h := on_disk (bwrite h); brelse h := on_disk (brelse h)
}.
(** The device switch: major 1, for a process that is not killed. *)
#[export] Instance machine_devices : DevSw machine := {
  has_dev_read m := m =? 1;
  dev_read _ _ n := o ← on_console (Console.consoleread false n); match o with Console.Done r x => mret (r, x) | Console.Asleep _ _ => blocked 0 end;
  has_dev_write m := m =? 1;
  dev_write _ _ b n := on_console (Console.put (Console.consolewrite b n))
}.

Lemma run_on_disk o b c : run_op (K := machine) o (b, c) = match run_op o b with Ret (v, b') => Ret (v, (b', c)) | Panicked e => Panicked e | Undef e => Undef e | Blocked k => Blocked k | NoFuel => NoFuel end.
Proof.
  destruct o as [d n|h|h x|h|h]; unfold run_op, mbind, M_bind, mret, M_ret; cbn [BlockDev.bread BlockDev.bdata BlockDev.bstore BlockDev.bwrite BlockDev.brelse machine_blocks]; unfold on_disk; cbn [fst snd];
    match goal with |- context [match ?m b with _ => _ end] => destruct (m b) as [[? ?]| | | |] end; reflexivity.
Qed.
(** The screen is in order, the serial port is there, and [out] was sent. *)
Definition console_sent (c : Console.console) (out : list Z) : Prop := tty_ok (Console.out c) /\ Console.uart (Console.out c) = true /\ Console.sent (Console.out c) = out.
Definition machine_laws (out : list Z) : BlockLaws machine.
Proof.
  refine (Build_BlockLaws machine machine_blocks (fun s F => shows s.1 F /\ console_sent s.2 out) _).
  intros o [b c] F [Sh Hc] Hm. destruct (run_op_ok o b F Sh Hm) as (v & b' & F' & E & St & Sh'). exists v, (b', c), F'. by rewrite run_on_disk, E.
Defined.
Lemma printed_bytes l : byte_list l -> printed true l = l.
Proof.
  induction 1 as [|c l Hc Hl IH]; [done|]. unfold printed in *. cbn [fmap list_fmap]. change (mjoin (?x :: ?y)) with (x ++ mjoin y). rewrite IH. unfold serial, byte_ok, Console.BACKSPACE in *.
  rewrite (proj2 (Z.eqb_neq c 256)) by lia. by rewrite Z.mod_small.
Qed.
#[export] Instance machine_console : ConsoleLaws machine.
Proof.
  refine (Build_ConsoleLaws machine machine_blocks machine_devices machine_laws eq_refl _). intros out [b c] F ip x n [Sh (Ht & Hu & Hs)] Hn Hx. cbn [fst snd] in *.
  destruct (consputs_ok (take (Z.to_nat n) x) (Console.out c) Ht) as (t' & E & Ht' & Hu' & Hs'). cbn [dev_write machine_devices]. unfold on_console, Console.put, Console.consolewrite. cbn [fst snd].
  rewrite (proj2 (Z.ltb_ge (zlen x) n)) by lia. rewrite (bind_Ret _ _ _ _ _ E). eexists. split; [reflexivity|]. split; [exact Sh|]. unfold console_sent. cbn [snd Console.out]. split; [exact Ht'|]. split; [by rewrite Hu'|].
  by rewrite Hs', Hs, Hu, printed_bytes by by apply Forall_take.
Defined.

(** ** A volume with two files *)

Definition dirent (n : Z) (name : list Z) : list Z := to_le 2 n ++ name ++ replicate (14 - length name) 0.
Definition dinode (t maj size addr : Z) : list Z := to_le 2 t ++ to_le 2 maj ++ to_le 2 0 ++ to_le 2 1 ++ to_le 4 size ++ mjoin (to_le 4 <$> addr :: replicate 12 0).
Definition block (l : list Z) : list Z := l ++ replicate (512 - length l) 0.
Definition root_data : list Z := block (dirent 1 (bytes ".") ++ dirent 1 (bytes "..") ++ dirent 2 (bytes "hello") ++ dirent 3 (bytes "console")).
Definition hello : list Z := bytes "one fish" ++ [10] ++ bytes "two fish" ++ [10] ++ bytes "red" ++ [10].
Definition demo_disk : gmap (Z * Z) (list Z) :=
  list_to_map [((1, 2), block (replicate 64 0 ++ dinode T_DIR 0 512 10 ++ dinode T_FILE 0 22 11 ++ dinode T_DEV 1 0 0)); ((1, 10), root_data); ((1, 11), block hello)].
Definition demo_F : flat := mkFlat demo_disk ∅.
Definition demo_files : gmap Z vfile := list_to_map [(1, mkV T_DIR root_data 512); (2, mkV T_FILE (block hello) 22); (3, mkV T_DEV [] 0)].

Lemma demo_file_cases n f : demo_files !! n = Some f -> (n, f) ∈ [(1, mkV T_DIR root_data 512); (2, mkV T_FILE (block hello) 22); (3, mkV T_DEV [] 0)].
Proof. intros Hf. by apply elem_of_list_to_map_2 in Hf. Qed.
Lemma demo_disk_bytes a x : demo_disk !! a = Some x -> byte_list x.
Proof.
  intros Hx. apply elem_of_list_to_map_2 in Hx. assert (Hb : forall l, forallb (fun c => (0 <=? c) && (c <? 256)) l = true -> byte_list l).
  { intros l Hl. apply Forall_forall. intros c Hc. rewrite forallb_forall in Hl. apply list_elem_of_In, Hl in Hc. unfold byte_ok. lia. }
  repeat (apply elem_of_cons in Hx as [[= -> ->]|Hx]; [apply Hb; vm_compute; reflexivity|]). by apply elem_of_nil in Hx.
Qed.

(** A file of one block. *)
Lemma one_block (look : Z -> option Z) b x : look 0 = Some b -> demo_disk !! (1, b) = Some x -> length x = 512%nat -> rmapped look 1 demo_F 0 512 /\ rbytes look 1 demo_F 0 512 = x.
Proof.
  intros Hb Hx Hl. split.
  - intros p Hp. exists b, x. unfold BSIZE. rewrite Z.div_small by lia. split_and!; [done|done|done|by apply not_open_empty].
  - apply list_eq_same_length with (n := 512%nat); [done|by rewrite length_rbytes|]. intros j u v Hj. replace j with (Z.to_nat (Z.of_nat j)) at 1 by lia. rewrite rbytes_lookup by lia. intros Hu Hv. injection Hu as <-.
    unfold rbyte, BSIZE. rewrite Z.add_0_l, Z.div_small, Hb by lia. cbn [mbind option_bind]. change (BlockDev.disk demo_F) with demo_disk. rewrite Hx. cbn [mbind option_bind]. by rewrite Z.mod_small, Nat2Z.id, Hv by lia.
Qed.
Lemma demo_loaded i n : dev i = 1 -> inum i = n -> loaded demo_F i -> let j := disk_inode 1 demo_F n in
  type i = type j /\ nlink i = nlink j /\ isize i = isize j /\ addrs i = addrs j.
Proof.
  intros Hd Hn (x & Hx & E). rewrite Hd, Hn in Hx. rewrite Hn in E. unfold disk_inode. rewrite Hx. cbn [default from_option id type nlink isize addrs load_dinode].
  rewrite <- E. done.
Qed.
Lemma demo_volume_files n f : demo_files !! n = Some f -> file_at 1 demo_F n f.
Proof.
  intros Hf. apply demo_file_cases in Hf. pose proof demo_loaded as HL.
  apply elem_of_cons in Hf as [[= -> ->]|Hf]; [|apply elem_of_cons in Hf as [[= -> ->]|[= -> ->]%list_elem_of_singleton]].
  - split; [by eexists|intros i Hd Hn Hl; destruct (HL i 1 Hd Hn Hl) as (Et & En & Es & Ea)|done|done|done|done].
    rewrite Et, En, Es. split; [reflexivity|]. split; [discriminate|]. split; [reflexivity|]. apply (one_block _ 10); [|reflexivity|reflexivity].
    unfold file_lookup, table_lookup, addr_at. rewrite Et, Ea. vm_compute. reflexivity.
  - split; [by eexists|intros i Hd Hn Hl; destruct (HL i 2 Hd Hn Hl) as (Et & En & Es & Ea)|done|done|done|done].
    rewrite Et, En, Es. split; [reflexivity|]. split; [discriminate|]. split; [reflexivity|]. apply (one_block _ 11); [|reflexivity|reflexivity].
    unfold file_lookup, table_lookup, addr_at. rewrite Et, Ea. vm_compute. reflexivity.
  - split; [by eexists|intros i Hd Hn Hl; destruct (HL i 3 Hd Hn Hl) as (Et & En & Es & Ea)|done|done|done|done].
    rewrite Et, En, Es. split; [reflexivity|]. split; [discriminate|]. split; [reflexivity|]. split; [intros p Hp; change (0 <= p < 0) in Hp; lia|reflexivity].
Qed.
(** What an entry names is in it. *)
Lemma find_ent_names n x e o r : find_ent n x e o = Some r -> exists k, (k < n)%nat /\ r.2 = half x (o + 16 * Z.of_nat k) /\ r.2 <> 0.
Proof.
  revert o. induction n as [|n IH]; intros o; cbn [find_ent]; [done|]. destruct (negb (half x o =? 0) && _) eqn:E.
  - intros [= <-]. exists 0%nat. apply andb_prop in E as [E _]. cbn [snd]. rewrite Z.add_0_r. split_and!; [lia|done|lia].
  - intros Hr. destruct (IH _ Hr) as (k & Hk & E1 & E2). exists (S k). split_and!; [lia| |done]. rewrite E1. f_equal. lia.
Qed.
Lemma demo_mounted : mounted 1 demo_files demo_F 3 1.
Proof.
  split.
  - exact demo_volume_files.
  - reflexivity.
  - exact demo_disk_bytes.
  - intros n f e o m Hf Ht Hd. apply demo_file_cases in Hf. apply elem_of_cons in Hf as [[= -> ->]|Hf]; [|apply elem_of_cons in Hf as [[= -> ->]|[= -> ->]%list_elem_of_singleton]; discriminate].
    unfold dir_find in Hd. apply find_ent_names in Hd as (k & Hk & E & Hne). cbn [fst snd vdata] in *.
    assert (Hall : forallb (fun k => let v := half root_data (0 + 16 * Z.of_nat k) in (v =? 0) || bool_decide (is_Some (demo_files !! v))) (seq 0 32) = true) by (vm_compute; reflexivity).
    rewrite forallb_forall in Hall. specialize (Hall k). rewrite <- E in Hall. cbv zeta in Hall. rewrite (proj2 (Z.eqb_neq m 0)) in Hall by done. cbn [orb] in Hall.
    apply (bool_decide_eq_true (is_Some (demo_files !! m))), Hall. apply in_seq. change (Z.to_nat (zlen root_data / 16)) with 32%nat in Hk. lia.
  - intros n f Hf. apply demo_file_cases in Hf. repeat (apply elem_of_cons in Hf as [[= -> ->]|Hf]; [vm_compute; discriminate|]). by apply elem_of_nil in Hf.
  - intros n f Hf. apply demo_file_cases in Hf. assert (Hb : byte_list root_data /\ byte_list (block hello)).
    { split; [apply (demo_disk_bytes (1, 10))|apply (demo_disk_bytes (1, 11))]; reflexivity. }
    apply elem_of_cons in Hf as [[= -> ->]|Hf]; [apply Hb|]. apply elem_of_cons in Hf as [[= -> ->]|[= -> ->]%list_elem_of_singleton]; [apply Hb|constructor].
  - intros n f Hf. apply demo_file_cases in Hf. repeat (apply elem_of_cons in Hf as [[= -> ->]|Hf]; [lia|]). by apply elem_of_nil in Hf.
  - split; [done|by eexists].
  - by eexists.
  - by eexists.
  - vm_compute. reflexivity.
Qed.

(** ** A process on it

    Slot 0 of the inode cache is the root, the current directory; slot 1 the
    console, open at 0, 1 and 2 through file 0. *)
Definition demo_tty : Console.tty := Console.mkTty false true [] (replicate 2000 0) 0 0.
Definition cached (n : Z) : inode := mkInode 1 n 1 0 0 0 0 0 0 [].
Definition demo_fs : fstate machine :=
  Fs.mkF (cached 1 :: cached 3 :: replicate 48 (mkInode 0 0 0 0 0 0 0 0 0 [])) false 0 (booted true demo_disk, Console.boot demo_tty).
Definition console_file : file := mkFile FD_INODE 3 1 1 0 1 0.
Definition demo_start : kfile machine Kalloc.Kalloc.pmem :=
  mkK (console_file :: replicate 99 closed_file) false ∅ KallocSpec.run0 demo_fs (replicate 3 (Some 0) ++ replicate 13 None) false [] 0.

Lemma zero_slots k : k ∈ seqZ 2 8 -> zget (replicate 50 0) k = Some 0.
Proof. intros Hk%elem_of_seqZ. unfold zget. rewrite bool_decide_false by lia. apply lookup_replicate_2. lia. Qed.
Lemma demo_spare : spare (replicate 14 0) (replicate 50 0) (seqZ 3 3) (seqZ 1 3).
Proof.
  split; [|split; [apply NoDup_seqZ|done]..|done]. split.
  - intros b [-> _]%elem_of_replicate. lia.
  - exists (seqZ 2 8). split; [apply NoDup_seqZ|]. split; [done|exact zero_slots].
Qed.
Lemma demo_shows : shows (BlockLaws := machine_laws []) (Fs.disk demo_fs) demo_F.
Proof.
  split; [|split; [split; [done|done|by vm_compute; split]|done]]. apply booted_shows. intros [e b] [x Hx]. apply elem_of_list_to_map_2 in Hx.
  repeat (apply elem_of_cons in Hx as [[= -> -> ->]|Hx]; [split; [by right|cbn; lia]|]). by apply elem_of_nil in Hx.
Qed.
Lemma demo_quiet : quiet 1 demo_files demo_F 3 1 (replicate 50 0) 0 1 0 (seqZ 3 3) (seqZ 1 3) ∅ ∅ [] demo_start.
Proof.
  split.
  - split.
    + exact demo_shows.
    + done.
    + done.
    + done.
    + intros k i Hk Hd Hr. exists false. split; [|done]. apply zget_elem_of in Hk. apply elem_of_cons in Hk as [->|Hk]; [done|]. apply elem_of_cons in Hk as [->|Hk]; [done|]. by apply elem_of_replicate in Hk as [-> _].
    + intros k i b Hk Hb. apply zget_replicate in Hb as ->. pose proof (zget_Some_range _ _ _ Hk). unfold slots. rewrite map_to_list_empty. destruct (decide (k = 0)) as [->|N0]; [by injection Hk as <-|]. destruct (decide (k = 1)) as [->|N1]; [by injection Hk as <-|].
      rewrite held_none by (rewrite elem_of_cons, list_elem_of_singleton; lia). unfold zget in Hk. rewrite bool_decide_false in Hk by lia. replace (Z.to_nat k) with (S (S (Z.to_nat (k - 2)))) in Hk by lia. change (replicate 48 (mkInode 0 0 0 0 0 0 0 0 0 []) !! Z.to_nat (k - 2) = Some i) in Hk. by apply lookup_replicate in Hk as [-> _].
    + done.
  - by exists (cached 3).
  - by exists (cached 1).
  - done.
  - done.
  - by intros fd [-> | ->].
  - by exists console_file.
  - intros fd. rewrite !lookup_empty. by split; intros [? ?].
  - intros fd f o h. by rewrite lookup_empty.
  - intros fd fd' h h'. by rewrite lookup_empty.
  - intros fd Hfd%elem_of_seqZ _. unfold zget. rewrite bool_decide_false by lia. cbn [ofile demo_start]. rewrite lookup_app_r by (cbn; lia). apply lookup_replicate_2. cbn. lia.
  - intros f Hf%elem_of_seqZ _. exists closed_file. split; [|done]. unfold zget. rewrite bool_decide_false by lia. cbn [ftable demo_start]. replace (Z.to_nat f) with (S (Z.to_nat (f - 1))) by lia. cbn [lookup list_lookup]. apply lookup_replicate_2. lia.
Qed.

(** What the console sent. *)
Lemma at_rest_sent out (s : kfile machine Kalloc.Kalloc.pmem) : quiet 1 demo_files demo_F 3 1 (replicate 50 0) 0 1 0 (seqZ 3 3) (seqZ 1 3) ∅ ∅ out s -> Console.sent (Console.out (Fs.disk (fsys s)).2) = out.
Proof. intros Q. destruct (cm_at (H0 := con_laws out) _ _ _ _ _ _ _ (q_calm _ _ _ _ _ _ _ _ _ _ _ _ _ _ _ Q)) as [_ (_ & _ & Hs)]. exact Hs. Qed.
Definition demo_look : list Z -> option ufile := kat_path 1 demo_files demo_F 1.
Lemma demo_path_ok p : forallb (fun c => (0 <? c) && (c <? 256)) p && (zlen p <? 2 ^ 20) = true -> path_ok p.
Proof. intros [Hp Hl]%andb_prop. split; [|lia]. apply Forall_forall. intros c Hc. rewrite forallb_forall in Hp. apply list_elem_of_In, Hp in Hc. lia. Qed.
Definition demo_ls : list Z := bytes ".              1 1 512" ++ [10] ++ bytes "..             1 1 512" ++ [10] ++ bytes "hello          2 2 22" ++ [10] ++ bytes "console        3 3 0" ++ [10].
Definition demo_calls : FileCalls (kfile machine Kalloc.Kalloc.pmem) := kernel_calls (replicate 14 0) (fun _ _ => mret (-1)) (fun _ => mret (-1)).

Lemma programs_print_files_witness :
  let sends (m : M (kfile machine Kalloc.Kalloc.pmem) unit) out := exists s', m demo_start = Ret (tt, s') /\ Console.sent (Console.out (Fs.disk (fsys s')).2) = out in
  sends (cat_main (H := demo_calls) 2 [bytes "cat"; bytes "hello"]) hello /\
  sends (wc_main (H := demo_calls) 2 [bytes "wc"; bytes "hello"]) (bytes "3 5 22 hello" ++ [10]) /\
  sends (grep_main (H := demo_calls) 2 [bytes "grep"; bytes "t.o"; bytes "hello"]) (bytes "two fish" ++ [10]) /\
  sends (ls_main (H := demo_calls) 33 [bytes "ls"; bytes "/"]) demo_ls.
Proof.
  intros sends.
  assert (Hhello : file_ok demo_look (bytes "hello") /\ exists f, demo_look (bytes "hello") = Some f /\ u_data f = hello).
  { assert (E : option_map (fun f => (st_type (u_stat f), u_data f)) (demo_look (bytes "hello")) = Some (T_FILE, hello)) by (vm_compute; reflexivity).
    destruct (demo_look (bytes "hello")) as [f|] eqn:Ef; [|discriminate]. injection E as Et Ed. split; [split; [apply demo_path_ok; reflexivity|]|by exists f]. intros g Eg. rewrite Ef in Eg. injection Eg as <-. intros E. by rewrite E in Et. }
  destruct Hhello as [Hok (f & Ef & Ed)].
  assert (Hr : reads_enough demo_look [bytes "hello"] 2) by (intros a g Ha%list_elem_of_singleton Eg; subst a; replace g with f by congruence; rewrite Ed; reflexivity).
  assert (HF : Forall (file_ok demo_look) [bytes "hello"]) by by constructor.
  pose proof (programs_print_files (K := machine) (replicate 14 0) (fun _ _ => mret (-1)) (fun _ => mret (-1)) 1 demo_files demo_F 3 1 (replicate 50 0) 0 1 0 (seqZ 3 3) (seqZ 1 3) demo_mounted demo_spare demo_start []) as T.
  split; [|split; [|split]].
  - destruct (T 2%nat (bytes "cat") [bytes "hello"] demo_quiet ltac:(discriminate)) as (C & _). destruct (C HF Hr) as (s' & E & R). exists s'. split; [exact E|]. rewrite (at_rest_sent _ _ R). vm_compute. reflexivity.
  - destruct (T 2%nat (bytes "wc") [bytes "hello"] demo_quiet ltac:(discriminate)) as (_ & C & _). destruct (C HF Hr) as (s' & E & R). exists s'. split; [exact E|]. rewrite (at_rest_sent _ _ R). vm_compute. reflexivity.
  - destruct (T 2%nat (bytes "grep") [bytes "hello"] demo_quiet ltac:(discriminate)) as (_ & _ & C & _).
    destruct (C (bytes "t.o") (bytes "hello") f [bytes "one fish"; bytes "two fish"; bytes "red"] Hok Ef) as (s' & E & R).
    + rewrite Ed. reflexivity.
    + unfold line_ok. repeat (constructor; [by vm_compute; repeat constructor|]). constructor.
    + rewrite Ed. by vm_compute.
    + lia.
    + exists s'. split; [exact E|]. rewrite (at_rest_sent _ _ R). vm_compute. reflexivity.
  - destruct (T 33%nat (bytes "ls") [bytes "/"] demo_quiet ltac:(discriminate)) as (_ & _ & _ & C). destruct C as (s' & E & R).
    + constructor; [|constructor]. split; [apply demo_path_ok; reflexivity|]. intros g Eg.
      assert (E : option_map u_data (demo_look (bytes "/")) = Some root_data) by (vm_compute; reflexivity). change (demo_look (bytes "/") = Some g) in Eg. rewrite Eg in E. injection E as ->.
      split; [apply (demo_disk_bytes (1, 10)); reflexivity|by vm_compute].
    + exists s'. split; [exact E|]. rewrite (at_rest_sent _ _ R). vm_compute. reflexivity.
Defined.
